(* ===== verification/_CoqProject ===== *)
-Q . S2P
Prelude.v
Hashes.v
PyText.v
PyJson.v
PyLoads.v
Calendar.v
ZktPacket.v
ZktDecode.v
OccurrenceMatch.v
FlashPlan.v
NvsLayout.v
NvsImage.v
QueueEvidence.v
Custody.v
DerivedEvidence.v
DerivedSize.v
DerivedChain.v
CustodyWork.v
CustodyFair.v
CustodyInspect.v
CustodyBatch.v
SourceAttendance.v
SourceBinding.v
ManualGuard.v
OracleDelivery.v
OracleSystem.v
OracleReply.v
OrdsWorker.v
OrdsClaim.v
ForceDelivery.v
ForceSystem.v
ForceRun.v
RuntimeContract.v
DeviceHealth.v
HilSmoke.v
HilStartup.v
ReleaseScope.v
ReleaseContract.v
OtaModel.v
OtaReaders.v
OtaTargets.v
OtaProgress.v
OtaDownload.v
OtaStore.v
OtaInterruption.v
OtaAssignment.v
OtaReturn.v
OtaScope.v
OtaCampaign.v
OtaHistory.v
OtaMoves.v
OtaSystem.v
OtaPublish.v
OtaReach.v
OtaToken.v
OtaCover.v
OtaRuns.v
OtaDemo.v
OtaServe.v
OtaSafety.v
OtaOffers.v
OtaPins.v
OtaClose.v
