(* ===== verification/Prelude.v ===== *)
(** * Verification of the attendance platform's backend, installer and provisioning core

    The repository collects attendance punches from biometric terminals. A connector
    board (Zone Lite) reads terminal records and uploads them; the ADD backend
    (apps/add_backend/zk_add) keeps the raw bytes in custody, interprets them, turns
    source rows into attendance events and delivers each event to Oracle through ORDS;
    an installer and a provisioning tool prepare the boards; hardware-in-the-loop (HIL)
    checks qualify firmware on real devices. Paths below are relative to
    src/apps/add_backend/zk_add unless another one is given.

    ** Conventions

    Python exceptions are values: [res A] is [Ok a] or [Raise class message]. Handlers
    that keep assignments made before an exception are functions from a world to a world
    and a result ([M] of CustodyWork.v). A table is a list of rows in insertion order; a
    transaction is a function from the committed tables to the tables after the commit,
    and rolls back by returning the old ones. Instants are microseconds since the epoch.
    Integers are unbounded as in Python; bytes are [Byte.byte] and wire integers are read
    and written at their width ([le_int], [le_bytes]). A [str] is its UTF-8 bytes.
    JSON values are [pyval]; a float is known by its [repr].

    ** Files

    - Prelude.v: results, list and integer lemmas, tactics ([inv_res] inverts a chain of
      binds, [bool_prop] turns boolean guards into propositions, [dlia]) and the hint
      database [dev].
    - Hashes.v (hashlib.sha256, hmac, zlib.crc32), PyText.v (str), PyJson.v (json.dumps,
      dict), PyLoads.v (json.loads and its round trip with json.dumps), Calendar.v
      (datetime): what the sources use of Python's standard library.
    - ZktPacket.v (zkt_packet.py), ZktDecode.v (zkt_decode.py), OccurrenceMatch.v
      (zkt_occurrence_match.py): packet fragments, punch facts from terminal bytes,
      proposals that pair live observations with source rows.
    - FlashPlan.v (apps/esp_installer core/flashplan.py, with the effect of a plan on an
      abstract chip), NvsLayout.v and NvsImage.v
      (firmware/zone_lite/tools/provision_zone_lite.py).
    - QueueEvidence.v (queue_evidence.py): custody of firmware queue records.
    - Custody.v (zkt_custody.py, intake half of zkt_custody_work.py): receipts, work
      obligations, occurrence aliases.
    - DerivedEvidence.v, DerivedSize.v, DerivedChain.v (zkt_derived_evidence.py): the
      interpretation chain, the size of its steps, what a chain establishes.
    - CustodyWork.v (zkt_custody_work.py): inspection of a work row and the fair batch;
      CustodyFair.v, CustodyInspect.v, CustodyBatch.v: their theorems, the last against
      an interface of the inspector. The record types of the attendance tables are here.
    - SourceAttendance.v, SourceBinding.v (zkt_source_attendance.py): one event per
      occurrence.
    - ManualGuard.v (attendance_manual_guard.py): the approval hook every transaction on
      attendance passes.
    - OracleDelivery.v, OracleSystem.v, OracleReply.v (zkt_oracle_delivery.py): delivery of
      rows owned by an intent; the step relation of interleaved workers; replies.
    - OrdsWorker.v, OrdsClaim.v (worker.py): circuit breaker, results, audits; claiming.
    - ForceDelivery.v, ForceSystem.v, ForceRun.v (attendance_force_delivery.py,
      attendance_legacy_uid.py, attendance_repair._ords_request): delivery of approved
      overrides; its step relation; a concrete run.
    - RuntimeContract.v (runtime_contract.py), DeviceHealth.v (device_health.py),
      HilSmoke.v (hil_validation.py), HilStartup.v (hil_startup.py, samples of
      hil_observation.py): device health and HIL verdicts.
    - ReleaseScope.v (hil_scope.py, zkt270_scope.py, hil_2615_cities.py,
      zkt_life_factory_bridges.py, zkt_factory_contract.py, zkt274_bld9_k50.py,
      zkt282_lhrcentral.py, zkt283_fsdmain.py): the reviewed boards of a release;
      ReleaseContract.v (terminal_families.py, storage_contract.py, storage_recovery.py,
      zkt_bridge_contract.py, zkt_reader_matrix.py, zkt_writer_contract.py): what a signed
      manifest and its image must say.
    - OtaModel.v: the tables of the firmware rollout and the parameters [OtaPlatform].
      OtaReaders.v (zkt_reader_evidence.py, zkt_rollback_receipt.py), OtaTargets.v
      (zkt_ota_admission.py, HIL scopes and factory bridges of ota.py), OtaProgress.v
      (record_progress), OtaDownload.v (predecessors, ranges, downloads), OtaStore.v
      (sync_release_store), OtaInterruption.v (ota_interruption.py), OtaAssignment.v
      (assignment_for_connector, control_campaign), OtaReturn.v (heartbeats and returns,
      with service.py), OtaScope.v (campaign scope and token), OtaCampaign.v
      (create_campaign, owner retry), OtaHistory.v (firmware_campaigns.py).
    - OtaMoves.v: the invariant of the rollout and the elementary moves that keep it;
      OtaSystem.v, OtaPublish.v, OtaReach.v: every handler is a sequence of moves;
      OtaRuns.v: the step relation [ota_step], reachable tables and the lifecycle machine;
      OtaDemo.v: an evaluated rollout for the witnesses; OtaToken.v, OtaCover.v,
      OtaServe.v, OtaSafety.v, OtaOffers.v, OtaPins.v, OtaClose.v: the theorems.

    How the parts meet: custody intake writes the work rows the batch inspects; inspection
    calls the interpretation chain and, for source rows, [process_source], which binds the
    row to an event and registers a delivery intent; the worker claims due rows and splits
    them into three routes (intents, approved overrides, ordinary), which deliver
    concurrently over the same tables. [evolves] (OracleSystem.v) is the contract between
    the routes: what any transaction promises to the delivery of intents. The ordinary
    worker (worker_respects_intents) and forced delivery (forced_routes) keep it.
    [counts_le] (ForceSystem.v) is the contract forced delivery relies on. The rollout has
    tables of its own and meets the rest at the boards: it reads their reports, health
    and telemetry and writes their OTA columns. [moves] (OtaMoves.v) is the interface
    between its handlers and its invariants: a theorem about runs is proved once, on moves.

    ** Theorems

    - Custody: a settled batch is fully receipted with work, replays change nothing,
      aliases are exact; inspection contains its effects, never ends a batch on a bad row,
      serves the oldest row within a bound.
    - Interpretation: a chain completes within MAX_STEPS, an accepted chain accounts for
      every span, and writing then reading a chain is a round trip. Packets and the
      terminal clock round-trip; matching accounts for every observation and links only
      unique equal facts.
    - Source attendance: an event is created once per occurrence; aliases that share an
      event are byte-exact copies.
    - Delivery: a row owned by an intent is confirmed only with a receipt for its frozen
      payload under its scope; POSTs carry the frozen payload and are counted; stale
      claims are inert; positive answers are bound to the claim; the ordinary worker
      confirms only what Oracle reported and never a row of an intent; claiming is
      bounded and serves history rows; a direct approval sends at most one POST that
      Oracle did not first report missing; an unapproved row is never deliverable.
    - Boards: whatever point an install is cut at, the start area is written last; plans
      are accepted exactly when well formed; the NVS image holds the planned rows.
    - Devices: a HIL PASS implies its full qualification; startup classification hides no
      fault.
    - Rollout, along every run from tables without campaigns: one live campaign per zone
      and one board of it updating at a time; a success has the whole image and ordered
      reports of the signed digest; deployments follow the transition table; a terminal
      deployment is never downloaded again; a failure stops the campaign; stops are
      bounded; a latched storage floor is never lowered; a pause or cancellation always
      takes effect; clearing keeps a board's history whole. An offer passed every admission
      check, goes to a board that runs an image the contract pins, and for a quarantined
      platform image to a board a reviewed list names. Nothing is published that was not
      verified. A campaign covers exactly its scope, and a token confirms exactly the scope
      it previewed. A resumed download is the whole image.

    ** Bounds and fuel

    Loops are structural or have a fuel argument that is shown to be enough:
    [claim_loop] and [merged] take the length of the two queues (each pick removes a
    row); the epoch walk of SourceAttendance.v takes MAX_EPOCHS = 32 as the code does;
    chains take MAX_STEPS and derive_chain_completes shows fewer are needed; the fair
    loop of CustodyWork.v takes its quota; digit loops take the size of the number;
    [scan_value] takes twice the length of the text ([scan_fuel]: more changes nothing);
    [read_chunks] takes the length of the range and [shrink] the number of candidates, plus
    one. Pages keep the code's limits (2000 campaigns of history, 30 zones, 17 targets).
    Interleavings are unbounded: the step relations are closed by [rtc].

    ** Parameters

    Code outside the repository is an argument: Fernet (encrypt/decrypt, the token
    length), uuid4, the clock and the loop deadline, pydantic field validation,
    [datetime.fromisoformat], AES-XTS of the cryptography package, row locks, and every
    reply of Oracle. Parts of the repository that are not modelled and are called by a
    modelled operation are arguments too, constrained only where a theorem says so:
    ingest_attendance (service.py), superseded_by_automatic_release, automatic_takeover
    and delivery_payload (attendance_direct_ords.py, attendance_force_release.py),
    delivery_proof_valid (attendance_safe_repair.py), time_refusal
    (attendance_release_safety.py), the nationwide HIL schedule and its reservations
    (zkt_hil_schedule.py), the factory trial (zkt_factory_trial.py), bridge and writer
    readiness (bridge_observation.py, hil_runs.py, writer_predecessor_hold), stability
    warnings (esp_stability.py). RSA, tokens, stored files and settings are arguments. The
    classes [Platform], [WorkerPlatform], [OtaPlatform], [ReturnPlatform] and
    [ScopePlatform] gather them; the witnesses instantiate them. [ota_step] assumes that a
    board reports only on deployments it was assigned (their ids are random and travel
    only in an assignment) and that other code never clears a latched floor.

    ** Not modelled

    The ingestion service and identity resolution (service.py), reconciliation, the
    repair and release flows, the HIL schedule and runner, the factory trial, the legacy
    BLD5 report bridge, Hikvision terminals, HTTP and WebSocket transport, the web and installer user interfaces, the C firmware and the frontend:
    each is far larger than the parts above or is input and output. Of the modelled
    modules: PostgreSQL triggers of the migrations that repeat the approval guard, alerts
    raised beside a delivery result, check-in hints (note_delivered_cnic), the maintenance
    ticks of worker.py, the alert lifecycle functions of device_health.py, audit rows and
    alerts of the rollout, and the pages that list releases and campaigns. *)
From Stdlib Require Export ZArith Lia Strings.Byte Sorting.Sorted.
From Stdlib Require Lists.Finite.
From stdpp Require Export base list strings gmap.
From stdpp Require sorting.

Open Scope Z_scope.

(** ** Python exceptions

    Every exception class the modelled code raises or catches, with the part
    of Python's class hierarchy an [except] clause of the code relies on. *)
Inductive exn_class :=
  | ValueError | RuntimeError | KeyError | TypeError | IndexError | AttributeError
  | DecodeError | MatchEvidenceError | SourceAssociationError
  | EvidenceInvalid | EvidenceRejected | PlanError | ValidationError
  | DashboardCacheUnavailable | DerivedEvidenceInvalid | InvalidToken | SourceAttendanceHold | SQLAlchemyError | RepairError | EvidenceChanged | OracleRepairError
  | LookupError | IntegrityError | ZoneBusy | ReturnEvidencePending | OSError.

#[export] Instance exn_class_eq_dec : EqDecision exn_class.
Proof. solve_decision. Defined.

(** [isinstance(error, ValueError)]: the subclasses the sources declare. *)
Definition is_value_error (c : exn_class) : bool :=
  match c with
  | ValueError | DecodeError | MatchEvidenceError | SourceAssociationError
  | EvidenceInvalid | EvidenceRejected | PlanError | ValidationError | DerivedEvidenceInvalid | SourceAttendanceHold | RepairError | EvidenceChanged
  | ZoneBusy | ReturnEvidencePending => true
  | _ => false
  end.

(** ** Results: a value or a raised exception *)
Inductive res (A : Type) :=
  | Ok (a : A)
  | Raise (c : exn_class) (msg : string).
Arguments Ok {A} a.
Arguments Raise {A} c msg.

#[export] Instance res_eq_dec {A} `{EqDecision A} : EqDecision (res A).
Proof. solve_decision. Defined.

#[export] Instance res_ret : MRet res := fun A a => Ok a.
#[export] Instance res_bind : MBind res := fun A B f m =>
  match m with Ok a => f a | Raise c s => Raise c s end.
#[export] Instance res_fmap : FMap res := fun A B f m =>
  match m with Ok a => Ok (f a) | Raise c s => Raise c s end.

Definition is_ok {A} (r : res A) : bool :=
  match r with Ok _ => true | Raise _ _ => false end.

(** A list comprehension whose body may raise: left to right, first error wins. *)
Fixpoint mapR {A B} (f : A → res B) (l : list A) : res (list B) :=
  match l with
  | [] => Ok []
  | x :: l' => y ← f x; ys ← mapR f l'; Ok (y :: ys)
  end.

(** A [for] loop whose body updates a state and may raise. *)
Fixpoint foldR {A S} (f : S → A → res S) (l : list A) (s : S) : res S :=
  match l with
  | [] => Ok s
  | x :: l' => s' ← f s x; foldR f l' s'
  end.

(** [pass_guard E]: the guard that would raise did not hold. *)
Ltac pass_guard E := match type of E with (if ?c then _ else _) = _ => destruct c; [discriminate E|] end.

Lemma Ok_inj {A} (a b : A) : Ok a = Ok b → a = b.
Proof. congruence. Qed.

Lemma bind_ok {A B} (m : res A) (f : A → res B) b :
  (m ≫= f) = Ok b ↔ ∃ a, m = Ok a ∧ f a = Ok b.
Proof. destruct m; simpl; naive_solver. Qed.

Lemma mapR_Forall2 {A B} (f : A → res B) l ys :
  mapR f l = Ok ys ↔ Forall2 (λ x y, f x = Ok y) l ys.
Proof.
  revert ys. induction l as [|x l IH]; intros ys; simpl.
  - split; [intros [= <-]; constructor | by inversion 1].
  - split.
    + intros (y & Hy & (ys' & Hys & [= <-])%bind_ok)%bind_ok.
      constructor; [done | by apply IH].
    + inversion 1 as [|? y ? ys' Hy Hys]; subst. rewrite Hy. simpl.
      apply IH in Hys. rewrite Hys. done.
Qed.

Lemma mapR_length {A B} (f : A → res B) l ys :
  mapR f l = Ok ys → length ys = length l.
Proof. intros H%mapR_Forall2. symmetry. by eapply Forall2_length. Qed.

(** Rule induction for [foldR]: an invariant kept by every iteration. *)
Lemma foldR_inv {A S} (f : S → A → res S) (P : list A → S → Prop) l s s' :
  P [] s →
  (∀ done x s0 s1, P done s0 → f s0 x = Ok s1 → P (done ++ [x]) s1) →
  foldR f l s = Ok s' → P l s'.
Proof.
  intros H0 Hstep. change l with ([] ++ l) at 2.
  revert H0. generalize (@nil A) as d.
  revert s. induction l as [|x l IH]; intros s d H0 Hrun; simpl in *.
  - injection Hrun as <-. by rewrite app_nil_r.
  - apply bind_ok in Hrun as (s1 & Hs1 & Hrun).
    replace (d ++ x :: l) with ((d ++ [x]) ++ l) by by rewrite <- app_assoc.
    eapply IH; [by eapply Hstep | done].
Qed.

(** The same for a loop that cannot raise. *)
Lemma fold_left_inv {A S} (f : S → A → S) (P : list A → S → Prop) l s :
  P [] s → (∀ done x s0, P done s0 → P (done ++ [x]) (f s0 x)) → P l (fold_left f l s).
Proof.
  intros H0 Hstep. change l with ([] ++ l) at 1. revert H0. generalize (@nil A) as d. revert s.
  induction l as [|x l IH]; intros s d H0; simpl; [by rewrite app_nil_r|].
  replace (d ++ x :: l) with ((d ++ [x]) ++ l) by by rewrite <- app_assoc. apply IH. by apply Hstep.
Qed.

Lemma mapR_app {A B} (f : A → res B) l1 l2 ys1 ys2 :
  mapR f l1 = Ok ys1 → mapR f l2 = Ok ys2 → mapR f (l1 ++ l2) = Ok (ys1 ++ ys2).
Proof. rewrite !mapR_Forall2. apply Forall2_app. Qed.

(** A successful comprehension over a permuted list gives a permuted result. *)
Lemma mapR_perm {A B} (f : A → res B) l l' ys :
  l ≡ₚ l' → mapR f l = Ok ys → ∃ ys', mapR f l' = Ok ys' ∧ ys ≡ₚ ys'.
Proof.
  intros Hp H%mapR_Forall2.
  destruct (Permutation_Forall2 Hp H) as (ys' & Hys & H').
  exists ys'. split; [by apply mapR_Forall2 | done].
Qed.

Lemma foldR_app {A S} (f : S → A → res S) l1 l2 s :
  foldR f (l1 ++ l2) s = (foldR f l1 s ≫= foldR f l2).
Proof.
  revert s. induction l1 as [|x l1 IH]; intros s; simpl; [done|].
  destruct (f s x); simpl; auto.
Qed.

Lemma foldR_raise {A S} (f : S → A → res S) l s c m :
  foldR f l s = Raise c m → ∃ s' x, f s' x = Raise c m.
Proof.
  revert s. induction l as [|x l IH]; intros s; simpl; [done|].
  destruct (f s x) eqn:E; simpl; [apply IH|]. intros [= -> ->]. eauto.
Qed.

(** A decidable property that fails somewhere on a list fails at a member. *)
Lemma not_all_ex_not_list {A} (P : A → Prop) `{!∀ x, Decision (P x)} (l : list A) :
  ¬ (∀ x, x ∈ l → P x) → ∃ x, x ∈ l ∧ ¬ P x.
Proof.
  intros Hall. assert (¬ Forall P l) as Hn by by rewrite Forall_forall.
  apply not_Forall_Exists, Exists_exists in Hn; [naive_solver|apply _].
Qed.

(** ** Tactics *)

(** Split the first [if]/[match] a hypothesis is stuck on, discarding the
    branches that contradict it. *)
Ltac inv_step H :=
  match type of H with
  | Ok _ = Ok _ => apply Ok_inj in H
  | Some _ = Some _ => apply (inj Some) in H
  | Raise _ _ = Ok _ => discriminate H
  | Ok _ = Raise _ _ => discriminate H
  | (mbind _ _) = Ok _ =>
      let a := fresh "a" in let Ha := fresh "Ha" in
      apply bind_ok in H as (a & Ha & H)
  | (if ?b then _ else _) = _ =>
      let E := fresh "E" in destruct b eqn:E; try discriminate H
  | (match ?x with _ => _ end) = _ =>
      let E := fresh "E" in destruct x eqn:E; try discriminate H
  end.
Ltac inv_res H := repeat (inv_step H).

(** Split the [if]/[match] a hypothesis is stuck on, keeping every branch. *)
Ltac destruct_match H :=
  match type of H with
  | (match ?x with _ => _ end) = _ => let E := fresh "E" in destruct x eqn:E
  end.

(** Turn the boolean guards of the code into propositions. *)
Ltac bool_prop :=
  repeat match goal with
  | H : (_ || _)%bool = false |- _ => apply orb_false_iff in H as [? ?]
  | H : (_ && _)%bool = true |- _ => apply andb_true_iff in H as [? ?]
  | H : negb _ = false |- _ => apply negb_false_iff in H
  | H : negb _ = true |- _ => apply negb_true_iff in H
  | H : bool_decide _ = true |- _ => apply bool_decide_eq_true in H
  | H : bool_decide _ = false |- _ => apply bool_decide_eq_false in H
  | H : (_ <? _) = true |- _ => apply Z.ltb_lt in H
  | H : (_ <? _) = false |- _ => apply Z.ltb_ge in H
  | H : (_ <=? _) = true |- _ => apply Z.leb_le in H
  | H : (_ <=? _) = false |- _ => apply Z.leb_gt in H
  | H : (_ =? _) = true |- _ => apply Z.eqb_eq in H
  | H : (_ =? _) = false |- _ => apply Z.eqb_neq in H
  end.

(** Linear arithmetic with division and remainder by constants. *)
Ltac dlia := bool_prop; Z.to_euclidean_division_equations; lia.

(** ** Bytes *)
Abbreviation bytes := (list byte).

#[export] Instance byte_eq_decision : EqDecision byte := byte_eq_dec.

Definition zb (b : byte) : Z := Z.of_N (Byte.to_N b).
Definition bz (z : Z) : byte := default x00 (Byte.of_N (Z.to_N (z mod 256))).

Lemma zb_range b : 0 <= zb b < 256.
Proof. unfold zb. pose proof (Byte.to_N_bounded b). lia. Qed.

Lemma zb_bz z : zb (bz z) = z mod 256.
Proof.
  pose proof (Z.mod_pos_bound z 256 eq_refl) as Hz. unfold zb, bz.
  pose proof (Byte.to_of_N_option_map (Z.to_N (z mod 256))) as Hm.
  destruct (Byte.of_N _) as [b|] eqn:Hb; simpl in Hm.
  - apply Byte.to_of_N in Hb. simpl. rewrite Hb. lia.
  - destruct (N.leb_spec (Z.to_N (z mod 256)) 255); [done | lia].
Qed.

Lemma zb_inj b1 b2 : zb b1 = zb b2 → b1 = b2.
Proof.
  intros H%N2Z.inj. pose proof (Byte.of_to_N b1) as H1.
  rewrite H, Byte.of_to_N in H1. by injection H1.
Qed.

Lemma bz_zb b : bz (zb b) = b.
Proof.
  apply zb_inj. rewrite zb_bz. apply Z.mod_small, zb_range.
Qed.

(** [int.from_bytes(raw, "little")] and its inverse at a fixed width. *)
Fixpoint le_int (raw : bytes) : Z :=
  match raw with [] => 0 | b :: raw' => zb b + 256 * le_int raw' end.

Fixpoint le_bytes (n : nat) (z : Z) : bytes :=
  match n with O => [] | S n' => bz z :: le_bytes n' (z / 256) end.

Lemma le_int_range raw : 0 <= le_int raw < 256 ^ Z.of_nat (length raw).
Proof.
  induction raw as [|b raw IH]; cbn [le_int length]; [done|].
  pose proof (zb_range b). rewrite Nat2Z.inj_succ, Z.pow_succ_r by lia. lia.
Qed.

Lemma le_bytes_length n z : length (le_bytes n z) = n.
Proof. revert z. induction n; intros z; simpl; auto. Qed.

Lemma le_int_bytes n z : le_int (le_bytes n z) = z mod 256 ^ Z.of_nat n.
Proof.
  revert z. induction n as [|n IH]; intros z; cbn [le_bytes le_int].
  - by rewrite Z.mod_1_r.
  - rewrite IH, zb_bz, Nat2Z.inj_succ, Z.pow_succ_r by lia.
    rewrite Z.rem_mul_r by lia. lia.
Qed.

Lemma le_bytes_int raw : le_bytes (length raw) (le_int raw) = raw.
Proof.
  induction raw as [|b raw IH]; simpl; [done|].
  pose proof (zb_range b) as Hb. f_equal.
  - apply zb_inj. rewrite zb_bz, Z.mul_comm, Z.mod_add by lia.
    by apply Z.mod_small.
  - rewrite (Z.mul_comm 256), Z.div_add, Z.div_small by lia. done.
Qed.

(** [raw[a:b]] for [0 <= a]. *)
Definition slice {A} (a b : nat) (l : list A) : list A := take (b - a) (drop a l).

Lemma slice_length {A} a b (l : list A) :
  (b ≤ length l)%nat → length (slice a b l) = (b - a)%nat.
Proof. intros H. unfold slice. rewrite length_take, length_drop. lia. Qed.

Lemma slice_app_mid {A} (l1 l2 l3 : list A) a b :
  a = length l1 → b = (length l1 + length l2)%nat →
  slice a b (l1 ++ l2 ++ l3) = l2.
Proof.
  intros -> ->. unfold slice. rewrite drop_app_length.
  replace (_ + _ - _)%nat with (length l2) by lia. by rewrite take_app_length.
Qed.

(** [len(x)] as a Python integer. *)
Definition zlen {A} (l : list A) : Z := Z.of_nat (length l).

(** [any(raw)] for bytes: some byte is not zero. *)
Definition any_nonzero (raw : bytes) : bool := existsb (λ b, negb (zb b =? 0)) raw.

(** ** Distinct images *)
Lemma NoDup_map_inj {A B} (f : A → B) l :
  NoDup (map f l) → ∀ x y, x ∈ l → y ∈ l → f x = f y → x = y.
Proof.
  induction l as [|a l IH]; simpl; [set_solver|]. intros [Ha Hl]%NoDup_cons x y.
  assert (∀ z, z ∈ l → f z ∈ map f l) as Him by (intros; by apply list_elem_of_fmap_2).
  intros [->|Hx]%elem_of_cons [->|Hy]%elem_of_cons Heq; try done.
  - exfalso. apply Ha. rewrite Heq. auto.
  - exfalso. apply Ha. rewrite <- Heq. auto.
  - by apply IH.
Qed.

(** ** Rows by primary key *)
Definition row_by {A} (key : A → Z) (i : Z) (l : list A) : option A := List.find (λ a, key a =? i) l.
Definition update_by {A} (key : A → Z) (i : Z) (f : A → A) (l : list A) : list A := map (λ a, if key a =? i then f a else a) l.

Lemma row_by_some {A} (key : A → Z) i l a : row_by key i l = Some a → a ∈ l ∧ key a = i.
Proof. intros [Hin Hk]%List.find_some. apply Z.eqb_eq in Hk. split; [by apply list_elem_of_In|done]. Qed.

Lemma row_by_unique {A} (key : A → Z) l a : NoDup (map key l) → a ∈ l → row_by key (key a) l = Some a.
Proof.
  intros Hn Ha. destruct (row_by key (key a) l) as [b|] eqn:E.
  - apply row_by_some in E as [Hb Hk]. f_equal. by eapply (NoDup_map_inj key).
  - exfalso. apply list_elem_of_In in Ha. pose proof (List.find_none _ _ E _ Ha) as H. simpl in H. by rewrite Z.eqb_refl in H.
Qed.

Lemma row_by_map {A} (key : A → Z) i (g : A → A) l : (∀ a, key (g a) = key a) → row_by key i (map g l) = g <$> row_by key i l.
Proof.
  intros Hg. unfold row_by. induction l as [|a l IH]; simpl; [done|]. rewrite Hg. by destruct (key a =? i).
Qed.

Lemma update_by_keys {A} (key : A → Z) i f l : (∀ a, key (f a) = key a) → map key (update_by key i f l) = map key l.
Proof. intros Hf. unfold update_by. rewrite map_map. apply map_ext. intros a. by destruct (_ =? _). Qed.

Lemma row_by_update {A} (key : A → Z) i f l : (∀ a, key (f a) = key a) → row_by key i (update_by key i f l) = f <$> row_by key i l.
Proof.
  intros Hf. unfold update_by. rewrite row_by_map by (intros a; destruct (_ =? _); auto).
  destruct (row_by key i l) as [a|] eqn:E; simpl; [|done]. apply row_by_some in E as [_ ->]. by rewrite Z.eqb_refl.
Qed.

Lemma elem_of_update_by {A} (key : A → Z) i f l b :
  b ∈ update_by key i f l → (b ∈ l ∧ key b ≠ i) ∨ ∃ a, a ∈ l ∧ key a = i ∧ b = f a.
Proof.
  intros (a & -> & Ha)%list_elem_of_fmap. destruct (Z.eqb_spec (key a) i); [right; eauto|by left].
Qed.

Lemma elem_of_update_by_2 {A} (key : A → Z) i f l a :
  a ∈ l → (if key a =? i then f a else a) ∈ update_by key i f l.
Proof. intros Ha. by apply (list_elem_of_fmap_2 (λ a, if key a =? i then f a else a)). Qed.

(** ** Sorting: Python's [sorted(l, key=...)], which is stable *)
Section sorting.
Context {A : Type} (key : A → Z).

Fixpoint insert_by (x : A) (l : list A) : list A :=
  match l with
  | [] => [x]
  | y :: l' => if key x <=? key y then x :: l else y :: insert_by x l'
  end.

Fixpoint sort_by (l : list A) : list A :=
  match l with [] => [] | x :: l' => insert_by x (sort_by l') end.

Lemma insert_by_perm x l : insert_by x l ≡ₚ x :: l.
Proof.
  induction l as [|y l IH]; simpl; [done|].
  destruct (_ <=? _); [done|]. rewrite IH. constructor.
Qed.

Lemma sort_by_perm l : sort_by l ≡ₚ l.
Proof. induction l; simpl; [done|]. rewrite insert_by_perm. by constructor. Qed.

Lemma insert_by_sorted x l :
  StronglySorted (λ a b, key a <= key b) l →
  StronglySorted (λ a b, key a <= key b) (insert_by x l).
Proof.
  induction 1 as [|y l Hl IH Hy]; simpl; [by repeat constructor|].
  destruct (Z.leb_spec (key x) (key y)).
  - constructor; [by constructor|]. constructor; [done|].
    eapply Forall_impl; [exact Hy | simpl; lia].
  - constructor; [done|]. rewrite insert_by_perm. constructor; [lia | done].
Qed.

Lemma sort_by_sorted l : StronglySorted (λ a b, key a <= key b) (sort_by l).
Proof. induction l; simpl; [constructor | by apply insert_by_sorted]. Qed.

(** With distinct keys the sorted order is unique. *)
Lemma sort_by_unique l k : l ≡ₚ k → NoDup (map key l) → sort_by l = sort_by k.
Proof.
  intros Hp Hn. apply (sorting.StronglySorted_unique_strong (λ a b, key a <= key b)).
  - intros x y Hx Hy Hxy Hyx. apply (NoDup_map_inj key l); [done| | |lia].
    + by rewrite <- (sort_by_perm l).
    + by rewrite Hp, <- (sort_by_perm k).
  - apply sort_by_sorted.
  - apply sort_by_sorted.
  - by rewrite !sort_by_perm.
Qed.
End sorting.

(** Sorting by a key of the image commutes with the map. *)
Lemma sort_by_map {A B} (f : A → B) (kb : B → Z) (ka : A → Z) l :
  (∀ x, x ∈ l → ka x = kb (f x)) → map f (sort_by ka l) = sort_by kb (map f l).
Proof.
  induction l as [|x l IH]; intros Hk; simpl; [done|].
  rewrite <- IH by set_solver. assert (∀ y, y ∈ sort_by ka l → ka y = kb (f y)) as Hk'.
  { intros y. rewrite sort_by_perm. set_solver. }
  revert Hk'. generalize (sort_by ka l). intros m. induction m as [|y m IHm]; intros Hm; simpl; [done|].
  rewrite (Hm y) by set_solver. rewrite (Hk x) by set_solver. destruct (_ <=? _); [done|]. simpl. f_equal.
  rewrite <- IHm by set_solver. done.
Qed.

(** ** Sorting by a comparison: [sorted(l, key=...)] with a tuple as key *)
Section sort_with.
Context {A : Type} (leb : A → A → bool).

Fixpoint insert_with (x : A) (l : list A) : list A :=
  match l with [] => [x] | y :: l' => if leb x y then x :: l else y :: insert_with x l' end.
Fixpoint sort_with (l : list A) : list A :=
  match l with [] => [] | x :: l' => insert_with x (sort_with l') end.

Lemma insert_with_perm x l : insert_with x l ≡ₚ x :: l.
Proof.
  induction l as [|y l IH]; simpl; [done|]. destruct (leb x y); [done|]. rewrite IH. constructor.
Qed.
Lemma sort_with_perm l : sort_with l ≡ₚ l.
Proof. induction l; simpl; [done|]. rewrite insert_with_perm. by constructor. Qed.

Context (Htotal : ∀ x y, leb x y = true ∨ leb y x = true)
  (Htrans : ∀ x y z, leb x y = true → leb y z = true → leb x z = true).

Lemma sort_with_sorted l : StronglySorted (λ x y, leb x y = true) (sort_with l).
Proof using Htotal Htrans.
  induction l as [|x l IH]; simpl; [constructor|]. induction IH as [|y l' Hl' IHl Hy]; simpl; [by repeat constructor|].
  destruct (leb x y) eqn:E.
  - constructor; [by constructor|]. constructor; [done|]. eapply Forall_impl; [exact Hy|]. simpl. eauto.
  - constructor; [done|]. rewrite insert_with_perm. constructor; [|done]. destruct (Htotal x y); [congruence|done].
Qed.

(** Sorting is canonical on elements the comparison tells apart. *)
Lemma sort_with_unique l k :
  (∀ x y, x ∈ l → y ∈ l → leb x y = true → leb y x = true → x = y) → l ≡ₚ k → sort_with l = sort_with k.
Proof using Htotal Htrans.
  intros Hanti Hp. apply (sorting.StronglySorted_unique_strong (λ x y, leb x y = true)).
  - intros x y Hx Hy. rewrite sort_with_perm in Hx. rewrite sort_with_perm, <- Hp in Hy. auto.
  - apply sort_with_sorted.
  - apply sort_with_sorted.
  - by rewrite !sort_with_perm.
Qed.
End sort_with.

Lemma existsb_perm {A} (f : A → bool) l k : l ≡ₚ k → existsb f l = existsb f k.
Proof. intros Hp. apply eq_true_iff_eq. rewrite !existsb_exists. setoid_rewrite <- list_elem_of_In. by setoid_rewrite Hp. Qed.
Lemma filter_perm {A} (f : A → bool) l k : l ≡ₚ k → List.filter f l ≡ₚ List.filter f k.
Proof.
  induction 1 as [|x l k _ IH|x y l|l k m _ IH1 _ IH2]; simpl; [done| | |by etrans].
  - destruct (f x); [by constructor|done].
  - destruct (f x), (f y); try done. constructor.
Qed.

(** A filter that only one element of a list with distinct keys passes. *)
Lemma filter_unique {A B} (key : A → B) (f : A → bool) l x :
  NoDup (map key l) → x ∈ l → f x = true → (∀ y, y ∈ l → f y = true → key y = key x) → List.filter f l = [x].
Proof.
  induction l as [|a l IH]; simpl; [set_solver|]. intros [Ha Hnd]%NoDup_cons Hx Hf Hk.
  assert (∀ z, z ∈ l → key z ∈ map key l) as Him by (intros; by apply list_elem_of_fmap_2).
  apply elem_of_cons in Hx as [<-|Hx].
  - rewrite Hf. f_equal. clear IH. induction l as [|b l IHl]; simpl; [done|]. destruct (f b) eqn:E.
    + exfalso. apply Ha. rewrite <- (Hk b); [simpl; left|right; left|done].
    + apply IHl; [set_solver|by apply NoDup_cons in Hnd as [_ ?]| |intros; apply list_elem_of_fmap_2; done].
      intros y Hy. apply Hk. set_solver.
  - destruct (f a) eqn:E.
    + exfalso. apply Ha. rewrite (Hk a); [auto|left|done].
    + apply IH; [done|done|done|]. intros y Hy. apply Hk. by right.
Qed.

(** Appending what the last element relates to keeps a list sorted. *)
Lemma StronglySorted_snoc {A} (R : A → A → Prop) l v :
  (∀ x y z, R x y → R y z → R x z) → StronglySorted R l → (∀ b, last l = Some b → R b v) → StronglySorted R (l ++ [v]).
Proof.
  intros Htrans. induction 1 as [|a l Hl IH Ha]; intros Hv; simpl; [by repeat constructor|]. constructor.
  - apply IH. intros b Hb. apply Hv. rewrite last_cons. by rewrite Hb.
  - apply Forall_app. split; [done|]. constructor; [|done]. destruct (last l) as [b|] eqn:E.
    + apply (Htrans _ b); [|apply Hv; by rewrite last_cons, E]. rewrite Forall_forall in Ha.
      apply Ha, last_Some_elem_of, E.
    + apply Hv. rewrite last_cons. by rewrite E.
Qed.

(** The first match in a sorted list is a least match. *)
Lemma find_sorted_least {A} (R : A → A → Prop) (p : A → bool) l x :
  (∀ y, R y y) → StronglySorted R l → List.find p l = Some x → p x = true ∧ x ∈ l ∧ ∀ y, y ∈ l → p y = true → R x y.
Proof.
  intros Hrefl. induction 1 as [|a l Hl IH Ha]; simpl; [done|]. destruct (p a) eqn:E.
  - intros [= ->]. split_and!; [done|by left|]. intros y [->|Hy]%elem_of_cons _; [done|].
    by eapply Forall_forall in Ha.
  - intros (? & ? & H)%IH. split_and!; [done|by right|]. intros y [->|Hy]%elem_of_cons Hp; [congruence|auto].
Qed.


(** ** [range(start, stop, step)] for a positive step *)
Definition py_range (start stop step : Z) : list Z :=
  map (λ i, start + Z.of_nat i * step) (seq 0 (Z.to_nat ((stop - start + step - 1) / step))).

Lemma py_range_length start stop step :
  length (py_range start stop step) = Z.to_nat ((stop - start + step - 1) / step).
Proof. unfold py_range. by rewrite length_map, length_seq. Qed.

Lemma elem_of_py_range x start stop step :
  0 < step → start <= stop →
  x ∈ py_range start stop step ↔ start <= x < stop ∧ (x - start) mod step = 0.
Proof.
  intros Hs Hle. unfold py_range. rewrite list_elem_of_In, in_map_iff. split.
  - intros (i & <- & Hi%in_seq).
    assert (Z.of_nat i < (stop - start + step - 1) / step) as Hlt by lia.
    assert (step * ((stop - start + step - 1) / step) <= stop - start + step - 1)
      by (apply Z.mul_div_le; lia).
    split; [nia|]. replace (_ - _) with (Z.of_nat i * step) by lia.
    apply Z.mod_mul. lia.
  - intros [Hx Hm]. exists (Z.to_nat ((x - start) / step)).
    apply Z.div_exact in Hm; [|lia].
    assert (0 <= (x - start) / step) by (apply Z.div_pos; lia).
    split; [nia|]. apply in_seq. split; [lia|].
    assert ((x - start) / step < (stop - start + step - 1) / step); [|lia].
    apply Z.lt_le_trans with ((x - start + 1 * step) / step).
    + rewrite Z.div_add by lia. lia.
    + apply Z.div_le_mono; lia.
Qed.

Lemma py_range_exact stop step :
  0 < step → 0 <= stop → stop mod step = 0 →
  Z.of_nat (length (py_range 0 stop step)) * step = stop.
Proof.
  intros Hs Hp Hm. rewrite py_range_length.
  apply Z.div_exact in Hm; [|lia]. set (q := stop / step) in *.
  assert (0 <= q) by (apply Z.div_pos; lia).
  rewrite <- (Z.div_unique (stop - 0 + step - 1) step q (step - 1)) by lia. lia.
Qed.

Lemma py_range_NoDup start stop step : 0 < step → NoDup (py_range start stop step).
Proof.
  intros Hs. unfold py_range. apply NoDup_ListNoDup.
  apply Finite.Injective_map_NoDup; [|apply seq_NoDup].
  intros i j H. nia.
Qed.

Lemma existsb_ext {A} (p q : A → bool) l : (∀ x, p x = q x) → existsb p l = existsb q l.
Proof. intros H. induction l as [|x l IH]; simpl; [done|]. by rewrite H, IH. Qed.

(** ** Images without repeats *)
Lemma NoDup_map_filter {A B} (f : A → B) (p : A → bool) l : NoDup (map f l) → NoDup (map f (List.filter p l)).
Proof.
  induction l as [|x l IH]; simpl; [done|]. intros [Hx Hl]%NoDup_cons. destruct (p x); simpl; [|auto]. apply NoDup_cons. split; [|auto].
  intros (y & E & Hy)%list_elem_of_fmap. apply Hx. apply list_elem_of_In, List.filter_In in Hy as [Hy _]. rewrite E. by apply list_elem_of_fmap_2, list_elem_of_In.
Qed.

Lemma NoDup_omap_map {A B C} (g : A → B) (f : B → option C) l :
  NoDup l →
  (∀ x y c, x ∈ l → y ∈ l → f (g x) = Some c → f (g y) = Some c → x = y) →
  NoDup (omap f (map g l)).
Proof.
  induction l as [|a l IH]; simpl; [constructor|]. intros [Ha Hl]%NoDup_cons Hinj.
  assert (NoDup (omap f (map g l))) as Hrest by (apply IH; [done|set_solver]).
  destruct (f (g a)) as [c|] eqn:E; [|done]. constructor; [|done].
  intros (b & Hb & Hfb)%list_elem_of_omap. apply list_elem_of_fmap in Hb as (x & -> & Hx).
  assert (x = a) as -> by (eapply Hinj; set_solver). done.
Qed.

(** ** Fixed-size chunks of a list *)
Definition chunk_at {A} (n i : nat) (l : list A) : list A := take n (drop (i * n) l).

Lemma concat_chunks {A} (n k : nat) (l : list A) :
  (length l ≤ k * n)%nat → concat (map (λ i, chunk_at n i l) (seq 0 k)) = l.
Proof.
  revert l. induction k as [|k IH]; intros l Hl; simpl.
  - symmetry. apply nil_length_inv. simpl in Hl. lia.
  - rewrite <- seq_shift, map_map. unfold chunk_at. simpl. rewrite drop_0.
    transitivity (take n l ++ drop n l); [|apply take_drop]. f_equal.
    rewrite <- (IH (drop n l)) by (rewrite length_drop; lia). f_equal.
    apply map_ext. intros i. unfold chunk_at. by rewrite drop_drop.
Qed.

Lemma chunk_concat {A} (n tot : nat) (parts : list (list A)) :
  (∀ i p, parts !! i = Some p → length p = min n (tot - i * n)%nat) →
  length (concat parts) = min tot (length parts * n)%nat ∧
  ∀ i p, parts !! i = Some p → chunk_at n i (concat parts) = p.
Proof.
  unfold chunk_at. revert tot. induction parts as [|q parts IH]; intros tot H; simpl.
  { split; [lia|]. intros i p Hi. by rewrite lookup_nil in Hi. }
  assert (length q = min n tot) as Hq by (specialize (H 0%nat q eq_refl); lia).
  destruct (IH (tot - n)%nat) as [Hlen Hget].
  { intros i p Hi. specialize (H (S i) p Hi). lia. }
  rewrite length_app, Hlen, Hq. split; [lia|]. intros [|i] p Hi; simpl in *.
  - injection Hi as ->. rewrite drop_0, take_app.
    rewrite (take_ge p n) by lia. rewrite (nil_length_inv (take _ _)); [apply app_nil_r|].
    rewrite length_take, Hlen. lia.
  - destruct (decide (n ≤ tot)%nat).
    + rewrite drop_app_ge by lia. rewrite Hq.
      replace (n + i * n - min n tot)%nat with (i * n)%nat by lia. by apply Hget.
    + assert (p = []) as -> by (apply nil_length_inv; specialize (H (S i) p Hi); lia).
      apply nil_length_inv. rewrite length_take, length_drop, length_app, Hlen, Hq. lia.
Qed.

(** ** Automation *)
Create HintDb dev.
Create Rewrite HintDb dev.
#[export] Hint Resolve zb_range le_int_range sort_by_perm sort_by_sorted : dev.
#[export] Hint Rewrite le_bytes_length zb_bz bz_zb le_bytes_int : dev.
