(* ===== verification/Hashes.v ===== *)
(** * Digests of Python's standard library

    [hashlib.sha256] (FIPS 180-4) and [zlib.crc32], as executable functions on
    bytes. The components only rely on them being functions of their input;
    the known-answer checks at the end fix which functions they are. *)
From S2P Require Import Prelude.

(** ** 32-bit words: [z mod 2^32] as a mask *)
Definition w32 (z : Z) : Z := Z.land z 0xffffffff.
Definition rotr (n x : Z) : Z :=
  Z.lor (Z.shiftr x n) (w32 (Z.shiftl x (32 - n))).

Module SHA256.
(** The constants are the leading fractional bits of roots of the first primes
    (FIPS 180-4, sections 4.2.2 and 5.3.3), computed here rather than listed. *)
Fixpoint cube_root (bits : nat) (root n : Z) : Z :=
  match bits with
  | O => root
  | S bits' =>
      let r := root + 2 ^ Z.of_nat bits' in
      cube_root bits' (if r * r * r <=? n then r else root) n
  end.

Definition primes : list Z :=
  List.filter (λ n, forallb (λ d, negb (n mod d =? 0)) (map Z.of_nat (seq 2 (Z.to_nat n - 2)))) (map Z.of_nat (seq 2 310)).

Definition K : list Z := Eval vm_compute in map (λ p, w32 (cube_root 36 0 (p * 2 ^ 96))) primes.

Definition IV : list Z := Eval vm_compute in map (λ p, w32 (Z.sqrt (p * 2 ^ 64))) (take 8 primes).

Definition big_sigma0 x := Z.lxor (rotr 2 x) (Z.lxor (rotr 13 x) (rotr 22 x)).
Definition big_sigma1 x := Z.lxor (rotr 6 x) (Z.lxor (rotr 11 x) (rotr 25 x)).
Definition small_sigma0 x := Z.lxor (rotr 7 x) (Z.lxor (rotr 18 x) (Z.shiftr x 3)).
Definition small_sigma1 x := Z.lxor (rotr 17 x) (Z.lxor (rotr 19 x) (Z.shiftr x 10)).
Definition ch x y z := Z.lxor (Z.land x y) (Z.land (0xffffffff - x) z).
Definition maj x y z := Z.lxor (Z.land x y) (Z.lxor (Z.land x z) (Z.land y z)).

(** Big-endian integers of a width. *)
Definition be_int (raw : bytes) : Z := le_int (rev raw).
Definition be_bytes (n : nat) (z : Z) : bytes := rev (le_bytes n z).

(** The padded message and its 64-byte blocks. *)
Definition pad (msg : bytes) : bytes :=
  msg ++ [x80] ++ repeat x00 (Z.to_nat ((55 - zlen msg) mod 64)) ++ be_bytes 8 (8 * zlen msg).

Fixpoint chunks (fuel : nat) (n : nat) (l : bytes) : list bytes :=
  match fuel, l with
  | S f, _ :: _ => take n l :: chunks f n (drop n l)
  | _, _ => []
  end.

(** The message schedule, newest word first. *)
Fixpoint schedule (fuel : nat) (ws : list Z) : list Z :=
  match fuel with
  | O => ws
  | S f =>
      let w i := nth i ws 0 in
      schedule f (w32 (small_sigma1 (w 1%nat) + w 6%nat + small_sigma0 (w 14%nat) + w 15%nat) :: ws)
  end.

Definition round (st : list Z) (kw : Z * Z) : list Z :=
  match st with
  | [a; b; c; d; e; f; g; h] =>
      let t1 := h + big_sigma1 e + ch e f g + kw.1 + kw.2 in
      let t2 := big_sigma0 a + maj a b c in
      [w32 (t1 + t2); a; b; c; w32 (d + t1); e; f; g]
  | _ => st
  end.

Definition compress (hs : list Z) (block : bytes) : list Z :=
  let words := map be_int (chunks 16 4 block) in
  let ws := rev (schedule 48 (rev words)) in
  zip_with (λ a b, w32 (a + b)) hs (fold_left round (zip K ws) hs).

Definition digest (msg : bytes) : bytes :=
  let padded := pad msg in
  concat (map (be_bytes 4) (fold_left compress (chunks (length padded) 64 padded) IV)).
End SHA256.

(** [hashlib.sha256(raw).digest()] *)
Definition sha256 (raw : bytes) : bytes := SHA256.digest raw.

(** [hmac.new(key, msg, hashlib.sha256).digest()] (RFC 2104, 64-byte blocks) *)
Definition byte_xor (n : Z) (b : byte) : byte := bz (Z.lxor n (zb b)).
Definition hmac_block (key : bytes) : bytes :=
  let k := if 64 <? zlen key then sha256 key else key in k ++ repeat x00 (64 - length k)%nat.
Definition hmac_sha256 (key msg : bytes) : bytes :=
  sha256 (map (byte_xor 0x5c) (hmac_block key) ++ sha256 (map (byte_xor 0x36) (hmac_block key) ++ msg)).

(** ** CRC-32: [zlib.crc32(raw, start)] *)
Fixpoint crc_bits (n : nat) (c : Z) : Z :=
  match n with
  | O => c
  | S n' => crc_bits n' (if Z.odd c then Z.lxor (Z.shiftr c 1) 0xEDB88320 else Z.shiftr c 1)
  end.

Definition crc_step (c : Z) (b : byte) : Z := crc_bits 8 (Z.lxor c (zb b)).

Definition crc32 (raw : bytes) (start : Z) : Z :=
  Z.lxor (fold_left crc_step raw (Z.lxor start 0xFFFFFFFF)) 0xFFFFFFFF.

(** ** Text forms *)
Definition hex_digit (z : Z) : string :=
  nth (Z.to_nat z) ["0"; "1"; "2"; "3"; "4"; "5"; "6"; "7"; "8"; "9"; "a"; "b"; "c"; "d"; "e"; "f"]%string "?"%string.

(** [raw.hex()], and [hexdigest()] of a digest. *)
Fixpoint hex (raw : bytes) : string :=
  match raw with
  | [] => ""
  | b :: raw' => hex_digit (zb b / 16) +:+ hex_digit (zb b mod 16) +:+ hex raw'
  end.

Definition sha256_hex (raw : bytes) : string := hex (sha256 raw).

(** The bytes of an ASCII literal, [b"..."]. *)
Definition ascii_bytes (s : string) : bytes := String.list_byte_of_string s.

Example sha256_abc :
  sha256_hex (ascii_bytes "abc") = "ba7816bf8f01cfea414140de5dae2223b00361a396177a9cb410ff61f20015ad"%string.
Proof. vm_compute. reflexivity. Qed.

Example sha256_two_blocks :
  sha256_hex (ascii_bytes "abcdbcdecdefdefgefghfghighijhijkijkljklmklmnlmnomnopnopq")
  = "248d6a61d20638b8e5c026930c3e6039a33ce45964ff2167f6ecedd419db06c1"%string.
Proof. vm_compute. reflexivity. Qed.

Example crc32_check : crc32 (ascii_bytes "123456789") 0 = 0xCBF43926.
Proof. vm_compute. reflexivity. Qed.

(** ** A SHA-256 digest is 32 bytes *)
Lemma round_length st kw : length st = 8%nat → length (SHA256.round st kw) = 8%nat.
Proof. intros H. do 9 (destruct st as [|? st]; try discriminate H). done. Qed.

Lemma compress_length hs block : length hs = 8%nat → length (SHA256.compress hs block) = 8%nat.
Proof.
  intros H. unfold SHA256.compress. rewrite length_zip_with.
  assert (∀ l st, length st = 8%nat → length (fold_left SHA256.round l st) = 8%nat) as Hf.
  { induction l as [|kw l IH]; simpl; auto using round_length. }
  rewrite Hf, H by done. done.
Qed.

Lemma sha256_length raw : length (sha256 raw) = 32%nat.
Proof.
  unfold sha256, SHA256.digest. cbv zeta.
  assert (∀ bs hs, length hs = 8%nat → length (fold_left SHA256.compress bs hs) = 8%nat) as Hf.
  { induction bs as [|b bs IH]; simpl; auto using compress_length. }
  specialize (Hf (SHA256.chunks (length (SHA256.pad raw)) 64 (SHA256.pad raw)) SHA256.IV eq_refl).
  destruct (fold_left _ _ _) as [|a hs]; [done|].
  do 8 (destruct hs as [|? hs]; try discriminate Hf).
  reflexivity.
Qed.

#[global] Arguments sha256 : simpl never.
#[global] Arguments crc32 : simpl never.
#[global] Opaque sha256 crc32.

Example hmac_sha256_jefe :
  hex (hmac_sha256 (ascii_bytes "Jefe") (ascii_bytes "what do ya want for nothing?"))
  = "5bdcc146bf60754e6a042426089575c75a003f089d2739839dec58b964ec3843"%string.
Proof. vm_compute. reflexivity. Qed.
#[global] Arguments hmac_sha256 : simpl never.
