(* ===== verification/PyText.v ===== *)
(** * Python text

    A [str] is a Rocq [string] holding its UTF-8 bytes, so literals, equality
    and concatenation are the obvious ones and [s.encode()] is [chars s]. The
    character classes the sources match are ASCII: one byte each. *)
From stdpp Require Import sorting.
From S2P Require Import Prelude.

Definition chars (s : string) : bytes := String.list_byte_of_string s.
Definition of_chars (l : bytes) : string := String.string_of_list_byte l.

Lemma chars_of_chars l : chars (of_chars l) = l.
Proof. apply String.list_byte_of_string_of_list_byte. Qed.
Lemma of_chars_chars s : of_chars (chars s) = s.
Proof. apply String.string_of_list_byte_of_string. Qed.

Lemma chars_inj s t : chars s = chars t → s = t.
Proof. intros H. by rewrite <- (of_chars_chars s), H, of_chars_chars. Qed.
Lemma of_chars_inj l k : of_chars l = of_chars k → l = k.
Proof. intros H. by rewrite <- (chars_of_chars l), H, chars_of_chars. Qed.

#[export] Hint Rewrite chars_of_chars of_chars_chars : dev.

Lemma of_chars_cons b l : of_chars (b :: l) = String (Ascii.ascii_of_byte b) (of_chars l).
Proof. done. Qed.

Lemma of_chars_app l k : of_chars (l ++ k) = of_chars l +:+ of_chars k.
Proof. induction l as [|b l IH]; [done|]. cbn [app]. by rewrite !of_chars_cons, IH. Qed.

Lemma chars_app s t : chars (s +:+ t) = chars s ++ chars t.
Proof.
  apply of_chars_inj. by rewrite of_chars_app, !of_chars_chars.
Qed.

(** ** Character classes *)
Definition in_range (lo hi : Z) (b : byte) : bool := (lo <=? zb b) && (zb b <=? hi).
Definition is_digit : byte → bool := in_range 48 57.
Definition is_lower : byte → bool := in_range 97 122.
Definition is_upper : byte → bool := in_range 65 90.
Definition is_alnum (b : byte) : bool := is_digit b || is_lower b || is_upper b.
(** [[a-f0-9]] *)
Definition is_hex (b : byte) : bool := is_digit b || in_range 97 102 b.
(** One of the characters of a literal. *)
Definition one_of (s : string) (b : byte) : bool := bool_decide (b ∈ chars s).

Definition all_chars (p : byte → bool) (s : string) : bool := forallb p (chars s).

(** [re.fullmatch(r"[class]{lo,hi}", s)] *)
Definition class_match (p : byte → bool) (lo hi : Z) (s : string) : bool :=
  (lo <=? zlen (chars s)) && (zlen (chars s) <=? hi) && all_chars p s.

(** [^[a-f0-9]{64}$] *)
Definition HEX64 (s : string) : bool := class_match is_hex 64 64 s.

(** [[a-f0-9]{8}-[a-f0-9]{4}-[a-f0-9]{4}-[a-f0-9]{4}-[a-f0-9]{12}] *)
Definition EPOCH (s : string) : bool :=
  let cs := chars s in
  bool_decide (length cs = 36%nat)
  && forallb (λ i, match cs !! i with
                   | Some b => if bool_decide (i ∈ [8; 13; 18; 23]%nat) then zb b =? 45 else is_hex b
                   | None => false
                   end) (seq 0 36).

(** ** Trimming *)
Fixpoint drop_while (p : byte → bool) (l : bytes) : bytes :=
  match l with [] => [] | b :: l' => if p b then drop_while p l' else l end.
Definition rstrip_bytes (p : byte → bool) (l : bytes) : bytes := rev (drop_while p (rev l)).
Definition is_space (b : byte) : bool := zb b =? 32.

(** [l.split(sep, 1)[0]] for a one-byte separator: what precedes the first one. *)
Fixpoint before (sep : byte) (l : bytes) : bytes :=
  match l with [] => [] | b :: l' => if bool_decide (b = sep) then [] else b :: before sep l' end.

Lemma drop_while_sub p l : ∃ k, l = k ++ drop_while p l ∧ forallb p k = true.
Proof.
  induction l as [|b l (k & Hk & Hp)]; simpl; [by exists []|].
  destruct (p b) eqn:E.
  - exists (b :: k). simpl. rewrite E, Hp. by split; [f_equal|].
  - by exists [].
Qed.

Lemma drop_while_head p l b k : drop_while p l = b :: k → p b = false.
Proof. induction l as [|c l IH]; simpl; [done|]. destruct (p c) eqn:E; [done|]. by intros [= -> ->]. Qed.

Lemma drop_while_id p l : (∀ b k, l = b :: k → p b = false) → drop_while p l = l.
Proof. destruct l as [|b l]; simpl; [done|]. intros H. by rewrite (H b l). Qed.

Lemma drop_while_idemp p l : drop_while p (drop_while p l) = drop_while p l.
Proof. apply drop_while_id. apply drop_while_head. Qed.

Lemma rstrip_idemp p l : rstrip_bytes p (rstrip_bytes p l) = rstrip_bytes p l.
Proof. unfold rstrip_bytes. by rewrite rev_involutive, drop_while_idemp. Qed.

Lemma rstrip_sub p l : ∃ k, l = rstrip_bytes p l ++ k ∧ forallb p k = true.
Proof.
  unfold rstrip_bytes. destruct (drop_while_sub p (rev l)) as (k & Hk & Hp).
  exists (rev k). split.
  - rewrite <- rev_app_distr, <- Hk. by rewrite rev_involutive.
  - rewrite forallb_forall in *. intros b Hb. by apply Hp, in_rev.
Qed.

Lemma rstrip_length p l : (length (rstrip_bytes p l) ≤ length l)%nat.
Proof. destruct (rstrip_sub p l) as (k & Hk & _). rewrite Hk at 2. rewrite length_app. lia. Qed.

Lemma before_length sep l : (length (before sep l) ≤ length l)%nat.
Proof. induction l; simpl; [done|]. case_bool_decide; simpl; lia. Qed.

(** ** [str(n)] for a non-negative integer *)
Fixpoint dec_digits (fuel : nat) (z : Z) (acc : bytes) : bytes :=
  match fuel with
  | O => acc
  | S f =>
      let acc' := bz (48 + z mod 10) :: acc in
      if z <? 10 then acc' else dec_digits f (z / 10) acc'
  end.

Definition dec_fuel (z : Z) : nat := S (Z.to_nat (Z.log2 (Z.max 1 z))).
Definition py_str (z : Z) : string := of_chars (dec_digits (dec_fuel z) z []).

(** Reading decimal digits back. *)
Definition dec_value (l : bytes) : Z := fold_left (λ v b, 10 * v + (zb b - 48)) l 0.

Lemma dec_digits_app fuel z acc : dec_digits fuel z acc = dec_digits fuel z [] ++ acc.
Proof.
  revert z acc. induction fuel as [|f IH]; intros z acc; simpl; [done|].
  destruct (z <? 10); [done|]. rewrite IH, (IH _ [_]). by rewrite <- app_assoc.
Qed.

Lemma dec_digit_zb z : zb (bz (48 + z mod 10)) = 48 + z mod 10.
Proof.
  rewrite zb_bz. pose proof (Z.mod_pos_bound z 10 eq_refl). apply Z.mod_small. lia.
Qed.

Lemma dec_digits_all fuel z acc :
  forallb is_digit acc = true → forallb is_digit (dec_digits fuel z acc) = true.
Proof.
  revert z acc. induction fuel as [|f IH]; intros z acc Ha; cbn [dec_digits]; [done|].
  assert (forallb is_digit (bz (48 + z mod 10) :: acc) = true) as Hc.
  { cbn [forallb]. rewrite Ha, andb_true_r. unfold is_digit, in_range.
    rewrite dec_digit_zb. pose proof (Z.mod_pos_bound z 10 eq_refl). lia. }
  destruct (z <? 10); auto.
Qed.

Lemma dec_value_snoc l b : dec_value (l ++ [b]) = 10 * dec_value l + (zb b - 48).
Proof. unfold dec_value. by rewrite fold_left_app. Qed.

Lemma log2_div10 z : 10 <= z → Z.log2 (Z.max 1 (z / 10)) < Z.log2 (Z.max 1 z).
Proof.
  intros H. assert (1 <= z / 10) by (apply Z.div_le_lower_bound; lia).
  assert (10 * (z / 10) <= z) by (apply Z.mul_div_le; lia).
  rewrite !Z.max_r by lia.
  assert (Z.log2 (2 * (z / 10)) <= Z.log2 z) as Hl by (apply Z.log2_le_mono; lia).
  rewrite Z.log2_double in Hl by lia. lia.
Qed.

Lemma dec_digits_value fuel z :
  0 <= z → (Z.to_nat (Z.log2 (Z.max 1 z)) < fuel)%nat → dec_value (dec_digits fuel z []) = z.
Proof.
  revert z. induction fuel as [|f IH]; intros z Hz Hf; [lia|]. cbn [dec_digits].
  destruct (Z.ltb_spec z 10).
  - unfold dec_value. simpl. rewrite dec_digit_zb, Z.mod_small; lia.
  - rewrite dec_digits_app, dec_value_snoc, dec_digit_zb, IH.
    + pose proof (Z.div_mod z 10 ltac:(lia)). lia.
    + apply Z.div_pos; lia.
    + pose proof (log2_div10 z ltac:(lia)). pose proof (Z.log2_nonneg (Z.max 1 (z / 10))). lia.
Qed.

Lemma py_str_value z : 0 <= z → dec_value (chars (py_str z)) = z.
Proof. intros H. unfold py_str. rewrite chars_of_chars. apply dec_digits_value; unfold dec_fuel; lia. Qed.

Lemma py_str_inj z w : 0 <= z → 0 <= w → py_str z = py_str w → z = w.
Proof. intros Hz Hw H. by rewrite <- (py_str_value z), H, py_str_value. Qed.

Lemma py_str_digits z : all_chars is_digit (py_str z) = true.
Proof. unfold all_chars, py_str. rewrite chars_of_chars. by apply dec_digits_all. Qed.

Lemma dec_digits_nonempty fuel z acc : (0 < fuel)%nat → dec_digits fuel z acc ≠ [].
Proof.
  destruct fuel; [lia|]. intros _. cbn [dec_digits]. destruct (z <? 10); [done|].
  rewrite dec_digits_app. intros []%app_eq_nil. done.
Qed.

Lemma py_str_nonempty z : chars (py_str z) ≠ [].
Proof. unfold py_str. rewrite chars_of_chars. apply dec_digits_nonempty. unfold dec_fuel. lia. Qed.

(** Only zero prints with a leading zero. *)
Lemma dec_digits_head fuel z b l :
  0 <= z → (Z.to_nat (Z.log2 (Z.max 1 z)) < fuel)%nat → dec_digits fuel z [] = b :: l → zb b = 48 → z = 0.
Proof.
  revert z l. induction fuel as [|f IH]; intros z l Hz Hf E Hb; [lia|]. cbn [dec_digits] in E. destruct (Z.ltb_spec z 10).
  - injection E as E _. apply (f_equal zb) in E. rewrite dec_digit_zb, Z.mod_small in E; lia.
  - rewrite dec_digits_app in E. pose proof (log2_div10 z ltac:(lia)). pose proof (Z.log2_nonneg (Z.max 1 (z / 10))).
    destruct (dec_digits f (z / 10) []) as [|c k] eqn:Ed; [by apply dec_digits_nonempty in Ed; [|lia]|]. injection E as -> _.
    assert (z / 10 = 0) by (eapply IH; [apply Z.div_pos; lia|lia|done..]). assert (1 <= z / 10) by (apply Z.div_le_lower_bound; lia). lia.
Qed.

(** A number below [10^n] prints with at most [n] digits. *)
Lemma dec_digits_length n fuel z :
  0 <= z < 10 ^ Z.of_nat n → (0 < n)%nat → (length (dec_digits fuel z []) ≤ n)%nat.
Proof.
  revert n z. induction fuel as [|f IH]; intros n z Hz Hn; cbn [dec_digits]; [simpl; lia|].
  destruct (Z.ltb_spec z 10); [simpl; lia|].
  rewrite dec_digits_app, length_app. simpl.
  destruct n as [|[|n]]; [lia | simpl in Hz; lia |].
  enough (length (dec_digits f (z / 10) []) ≤ S n)%nat by lia.
  apply IH; [|lia]. split; [apply Z.div_pos; lia|].
  apply Z.div_lt_upper_bound; [lia|]. rewrite <- Z.pow_succ_r by lia.
  replace (Z.succ (Z.of_nat (S n))) with (Z.of_nat (S (S n))) by lia. lia.
Qed.

Example py_str_zero : py_str 0 = "0"%string. Proof. reflexivity. Qed.
Example py_str_big : py_str 4294967295 = "4294967295"%string. Proof. vm_compute. reflexivity. Qed.

(** ** [hex(n)] for a non-negative integer *)
Fixpoint hex_digits (fuel : nat) (z : Z) (acc : bytes) : bytes :=
  match fuel with
  | O => acc
  | S f =>
      let d := z mod 16 in
      let acc' := bz (if d <? 10 then 48 + d else 87 + d) :: acc in
      if z <? 16 then acc' else hex_digits f (z / 16) acc'
  end.
Definition py_hex (z : Z) : string := "0x" +:+ of_chars (hex_digits (dec_fuel z) z []).

Example py_hex_region : py_hex 0x7A0000 = "0x7a0000"%string. Proof. reflexivity. Qed.

(** ** Code-point order: byte order of the UTF-8 forms *)
Fixpoint bytes_leb (a b : bytes) : bool :=
  match a, b with
  | [], _ => true
  | _, [] => false
  | x :: a', y :: b' => (zb x <? zb y) || ((zb x =? zb y) && bytes_leb a' b')
  end.

Definition str_le (s t : string) : Prop := Is_true (bytes_leb (chars s) (chars t)).
#[export] Instance str_le_dec s t : Decision (str_le s t).
Proof. unfold str_le. apply _. Defined.

Lemma bytes_leb_total a b : bytes_leb a b = true ∨ bytes_leb b a = true.
Proof.
  revert b. induction a as [|x a IH]; intros [|y b]; simpl; auto.
  destruct (Z.lt_trichotomy (zb x) (zb y)) as [H|[H|H]].
  - left. by rewrite (proj2 (Z.ltb_lt _ _) H).
  - rewrite H, Z.ltb_irrefl, Z.eqb_refl. simpl. apply IH.
  - right. by rewrite (proj2 (Z.ltb_lt _ _) H).
Qed.

Lemma bytes_leb_trans a b c : bytes_leb a b = true → bytes_leb b c = true → bytes_leb a c = true.
Proof.
  revert b c. induction a as [|x a IH]; intros [|y b] [|z c]; simpl; try done.
  rewrite !orb_true_iff, !andb_true_iff, !Z.ltb_lt, !Z.eqb_eq.
  intros [?|[? ?]] [?|[? ?]]; [left; lia..|]. right. split; [lia|]. by eapply IH.
Qed.

Lemma bytes_leb_antisym a b : bytes_leb a b = true → bytes_leb b a = true → a = b.
Proof.
  revert b. induction a as [|x a IH]; intros [|y b]; simpl; try done.
  rewrite !orb_true_iff, !andb_true_iff, !Z.ltb_lt, !Z.eqb_eq.
  intros [?|[? ?]] [?|[? ?]]; try lia. f_equal; [by apply zb_inj | by apply IH].
Qed.

#[export] Instance str_le_total : Total str_le.
Proof. intros s t. unfold str_le. rewrite !Is_true_true. apply bytes_leb_total. Qed.
#[export] Instance str_le_trans : Transitive str_le.
Proof. intros s t u. unfold str_le. rewrite !Is_true_true. apply bytes_leb_trans. Qed.
#[export] Instance str_le_antisym : AntiSymm (=) str_le.
Proof.
  intros s t. unfold str_le. rewrite !Is_true_true. intros H1 H2.
  by apply chars_inj, bytes_leb_antisym.
Qed.

(** [sorted(l)] on strings *)
Definition sorted_strs (l : list string) : list string := merge_sort str_le l.

(** Two lists sort alike exactly when they are permutations of each other. *)
Lemma sorted_strs_eq l k : sorted_strs l = sorted_strs k ↔ l ≡ₚ k.
Proof.
  unfold sorted_strs. split; intros H.
  - etrans; [symmetry; apply (merge_sort_Permutation str_le)|].
    rewrite H. apply (merge_sort_Permutation str_le).
  - apply (Sorted_unique str_le); [by apply (Sorted_merge_sort str_le)..|].
    etrans; [apply (merge_sort_Permutation str_le)|]. rewrite H.
    symmetry. apply (merge_sort_Permutation str_le).
Qed.

(** ** Suffixes of a string *)
Definition tail_chars (n : nat) (s : string) : bytes := take n (rev (chars s)).

Lemma tail_chars_app pre s : tail_chars (length (chars s)) (pre +:+ s) = rev (chars s).
Proof.
  unfold tail_chars. rewrite chars_app, rev_app_distr, <- length_rev. apply take_app_length.
Qed.

(** [sep.join(parts)] *)
Fixpoint join_str (sep : string) (parts : list string) : string :=
  match parts with
  | [] => ""
  | [p] => p
  | p :: parts' => p +:+ sep +:+ join_str sep parts'
  end.

(** [repr(s)] and the [repr] of a list of strings, for printable text. *)
Definition py_repr (s : string) : string :=
  let cs := chars s in
  let q := if bool_decide (x27 ∈ cs) && negb (bool_decide (x22 ∈ cs)) then x22 else x27 in
  of_chars ([q] ++ concat (map (λ b, if bool_decide (b = q ∨ b = x5c) then [x5c; b] else [b]) cs) ++ [q]).
Definition repr_strs (l : list string) : string := "[" +:+ join_str ", " (map py_repr l) +:+ "]".

(** ** Pieces of a text *)

(** [s.split(sep)] for a one-byte separator *)
Fixpoint split_byte (sep : byte) (s : bytes) : list bytes :=
  match s with
  | [] => [[]]
  | c :: s' =>
      if bool_decide (c = sep) then [] :: split_byte sep s'
      else match split_byte sep s' with l :: ls => (c :: l) :: ls | [] => [[c]] end
  end.

(** [s.strip()] over ASCII white space *)
Definition is_white (b : byte) : bool := in_range 9 13 b || in_range 28 32 b.
Definition strip_bytes (l : bytes) : bytes := rstrip_bytes is_white (drop_while is_white l).
Definition strip (s : string) : string := of_chars (strip_bytes (chars s)).

(** [s[:n]] counts characters: UTF-8 continuation bytes belong to the one before. *)
Fixpoint take_chars (n : nat) (l : bytes) : bytes :=
  match l with
  | [] => []
  | b :: l' =>
      if in_range 128 191 b then b :: take_chars n l'
      else match n with O => [] | S n' => b :: take_chars n' l' end
  end.
Definition prefix_chars (n : nat) (s : string) : string := of_chars (take_chars n (chars s)).

(** ASCII case *)
Definition upper_byte (b : byte) : byte := if is_lower b then bz (zb b - 32) else b.
Definition lower_byte (b : byte) : byte := if is_upper b then bz (zb b + 32) else b.
Definition upper (s : string) : string := of_chars (map upper_byte (chars s)).
Definition lower (s : string) : string := of_chars (map lower_byte (chars s)).

(** [int(s)] for a run of ASCII digits *)
Definition digits_value (l : bytes) : option Z :=
  if bool_decide (l = []) then None else if forallb is_digit l then Some (dec_value l) else None.

(** [s.replace("Z", "+00:00")] *)
Definition replace_z (s : string) : string :=
  of_chars (concat (map (λ b, if bool_decide (b = x5a) then chars "+00:00" else [b]) (chars s))).

(** [len(text)]: code points of a UTF-8 text *)
Definition text_len (s : string) : Z := zlen (List.filter (λ b, negb (in_range 128 191 b)) (chars s)).
