(* ===== verification/PyJson.v ===== *)
(** * Python objects decoded from JSON, and [json.dumps]

    [pyval] is what [json.loads] returns. A dict keeps its insertion order and
    has each key once; a float is known by its [repr]. [digest] is the
    canonical SHA-256 the sources use as an identity (zkt_custody.digest). *)
From S2P Require Import Prelude PyText Hashes.

#[warnings="-register-all"]
Inductive pyval :=
  | PNone
  | PBool (b : bool)
  | PInt (z : Z)
  | PFloat (repr : string)
  | PStr (s : string)
  | PList (l : list pyval)
  | PDict (d : list (string * pyval)).

(** ** Dictionary access *)
Fixpoint assoc {A} (k : string) (d : list (string * A)) : option A :=
  match d with
  | [] => None
  | (k', v) :: d' => if bool_decide (k = k') then Some v else assoc k d'
  end.

(** [d[k] = v]: replaces in place, or appends. *)
Fixpoint assoc_set {A} (k : string) (v : A) (d : list (string * A)) : list (string * A) :=
  match d with
  | [] => [(k, v)]
  | (k', v') :: d' => if bool_decide (k = k') then (k, v) :: d' else (k', v') :: assoc_set k v d'
  end.

Lemma assoc_None {A} k (d : list (string * A)) : assoc k d = None ↔ k ∉ d.*1.
Proof.
  induction d as [|[k' v] d IH]; simpl; [set_solver|].
  case_bool_decide as E; [subst; set_solver|]. rewrite IH. set_solver.
Qed.

Lemma assoc_elem {A} k v (d : list (string * A)) : assoc k d = Some v → (k, v) ∈ d.
Proof.
  induction d as [|[k' v'] d IH]; simpl; [done|].
  case_bool_decide; [intros [= ->]; subst; set_solver|]. intros ?%IH. set_solver.
Qed.

Lemma elem_assoc {A} k v (d : list (string * A)) : NoDup d.*1 → (k, v) ∈ d → assoc k d = Some v.
Proof.
  induction d as [|[k' v'] d IH]; simpl; [set_solver|]. intros [Hn Hd]%NoDup_cons.
  intros [Heq|Hin]%elem_of_cons.
  - injection Heq as -> ->. by rewrite bool_decide_eq_true_2.
  - rewrite bool_decide_eq_false_2; [by apply IH|]. intros ->. apply Hn.
    apply list_elem_of_fmap. by exists (k', v).
Qed.

(** With distinct keys, the order of a dict does not matter to a lookup. *)
Lemma assoc_perm {A} k (d d' : list (string * A)) : NoDup d.*1 → d ≡ₚ d' → assoc k d = assoc k d'.
Proof.
  intros Hd Hp. destruct (assoc k d) as [v|] eqn:E.
  - symmetry. apply elem_assoc; [by rewrite <- Hp|]. rewrite <- Hp. by apply assoc_elem.
  - symmetry. apply assoc_None. rewrite <- Hp. by apply assoc_None.
Qed.

Lemma assoc_set_fresh {A} k v (d : list (string * A)) : k ∉ d.*1 → assoc_set k v d = d ++ [(k, v)].
Proof.
  induction d as [|[k' v'] d IH]; simpl; [done|]. intros Hn.
  rewrite bool_decide_eq_false_2 by set_solver. rewrite IH by set_solver. done.
Qed.

Lemma assoc_set_ne {A} k k' v (d : list (string * A)) : k ≠ k' → assoc k (assoc_set k' v d) = assoc k d.
Proof.
  intros Hne. induction d as [|[k0 v0] d IH]; simpl; [by rewrite bool_decide_eq_false_2|].
  destruct (bool_decide (k' = k0)) eqn:E; bool_prop; simpl; [subst; by rewrite !(bool_decide_eq_false_2 (k = _))|by rewrite IH].
Qed.
Lemma assoc_set_eq {A} k v (d : list (string * A)) : assoc k (assoc_set k v d) = Some v.
Proof.
  induction d as [|[k0 v0] d IH]; simpl; [by rewrite bool_decide_eq_true_2|].
  destruct (bool_decide (k = k0)) eqn:E; simpl; [by rewrite bool_decide_eq_true_2|by rewrite E].
Qed.

(** [v.get(k)] on an object; absent keys and [null] values both read [None]. *)
Definition get (k : string) (v : pyval) : pyval :=
  match v with PDict d => default PNone (assoc k d) | _ => PNone end.

(** ** Truth values and type tests *)
Definition truthy (v : pyval) : bool :=
  match v with
  | PNone => false
  | PBool b => b
  | PInt z => negb (z =? 0)
  | PFloat r => negb (bool_decide (r ∈ ["0.0"; "-0.0"]%string))
  | PStr s => negb (bool_decide (s = ""%string))
  | PList l => negb (bool_decide (length l = 0%nat))
  | PDict d => negb (bool_decide (length d = 0%nat))
  end.

(** [v is True], [type(v) is int and v >= 0] *)
Definition is_true (v : pyval) : bool := match v with PBool b => b | _ => false end.
Definition is_dict (v : pyval) : bool := match v with PDict _ => true | _ => false end.
Definition as_str (v : pyval) : option string := match v with PStr s => Some s | _ => None end.
Definition as_int (v : pyval) : option Z := match v with PInt z => Some z | _ => None end.

(** A number that compares equal to zero in Python. *)
Definition is_zero (v : pyval) : bool :=
  match v with PInt z => z =? 0 | PBool b => negb b | PFloat r => bool_decide (r ∈ ["0.0"; "-0.0"]%string) | _ => false end.

Definition eq_str (v : pyval) (s : string) : bool := match v with PStr t => bool_decide (t = s) | _ => false end.
Definition is_false (v : pyval) : bool := match v with PBool b => negb b | _ => false end.
Definition is_none (v : pyval) : bool := match v with PNone => true | _ => false end.
(** [type(v) is int and v >= 0], [type(v) is int and v == 0], [type(v) is bool], [isinstance(v, list)] *)
Definition integer (v : pyval) : bool := match v with PInt z => 0 <=? z | _ => false end.
Definition zero (v : pyval) : bool := match v with PInt z => z =? 0 | _ => false end.
Definition is_bool (v : pyval) : bool := match v with PBool _ => true | _ => false end.
(** A value a Python set can be asked about. *)
Definition hashable (v : pyval) : bool := match v with PList _ | PDict _ => false | _ => true end.
(** [d.get(k, default)]: a key with a null value is present. *)
Definition get_or (k : string) (d v : pyval) : pyval := match v with PDict m => default d (assoc k m) | _ => d end.

(** ** Text of a value *)
(** [str(v)]; the [repr] of nested values follows Python's. *)
Fixpoint py_repr_val (v : pyval) : string :=
  match v with
  | PNone => "None"%string
  | PBool true => "True"%string
  | PBool false => "False"%string
  | PInt z => if z <? 0 then "-"%string +:+ py_str (- z) else py_str z
  | PFloat r => r
  | PStr s => py_repr s
  | PList l => "["%string +:+ join_str ", "%string (map py_repr_val l) +:+ "]"%string
  | PDict d => "{"%string +:+ join_str ", "%string (map (λ kv, py_repr kv.1 +:+ ": "%string +:+ py_repr_val kv.2) d) +:+ "}"%string
  end.
Definition py_str_val (v : pyval) : string := match v with PStr s => s | _ => py_repr_val v end.

(** ** Equality

    Numbers compare by value across [bool], [int] and [float]: [num] is a common
    text of the value (an integral float prints with ".0"); a NaN equals nothing. *)
Definition num (v : pyval) : option string :=
  match v with
  | PBool b => Some (if b then "1" else "0")%string
  | PInt _ => Some (py_repr_val v)
  | PFloat r =>
      if bool_decide (r = "nan"%string) then None
      else if bool_decide (r = "-0.0"%string) then Some "0"%string
      else let l := chars r in
           if bool_decide (drop (length l - 2) l = chars ".0") then Some (of_chars (take (length l - 2) l)) else Some r
  | _ => None
  end.

Fixpoint py_eq (a b : pyval) {struct a} : bool :=
  match a, b with
  | PNone, PNone => true
  | PStr s, PStr t => bool_decide (s = t)
  | PList l, PList k =>
      (fix eqs (l k : list pyval) : bool :=
         match l, k with [], [] => true | x :: l', y :: k' => py_eq x y && eqs l' k' | _, _ => false end) l k
  | PDict d, PDict e =>
      bool_decide (length d = length e)
      && (fix sub (d : list (string * pyval)) : bool :=
            match d with
            | [] => true
            | (n, v) :: d' => match assoc n e with Some w => py_eq v w | None => false end && sub d'
            end) d
  | _, _ => match num a, num b with Some x, Some y => bool_decide (x = y) | _, _ => false end
  end.

(** ** Serialisation *)
Definition quote : byte := x22.
Definition backslash : byte := x5c.

(** [ensure_ascii=False]: only the quote, the backslash and C0 controls are escaped. *)
Definition escape_byte (b : byte) : bytes :=
  if bool_decide (b = quote) then [backslash; quote]
  else if bool_decide (b = backslash) then [backslash; backslash]
  else if zb b =? 10 then [backslash; x6e]
  else if zb b =? 13 then [backslash; x72]
  else if zb b =? 9 then [backslash; x74]
  else if zb b =? 12 then [backslash; x66]
  else if zb b =? 8 then [backslash; x62]
  else if zb b <? 32 then [backslash] ++ chars "u00" ++ chars (hex [b])
  else [b].

Definition dump_str (s : string) : bytes :=
  [quote] ++ concat (map escape_byte (chars s)) ++ [quote].

Definition dump_int (z : Z) : bytes :=
  if z <? 0 then chars "-" ++ chars (py_str (- z)) else chars (py_str z).

(** Keys are written in code-point order. *)
Fixpoint insert_key {A} (kv : string * A) (d : list (string * A)) : list (string * A) :=
  match d with
  | [] => [kv]
  | kv' :: d' => if bytes_leb (chars kv.1) (chars kv'.1) then kv :: d else kv' :: insert_key kv d'
  end.
Definition sort_keys {A} (d : list (string * A)) : list (string * A) := fold_right insert_key [] d.

Fixpoint join (sep : bytes) (parts : list bytes) : bytes :=
  match parts with
  | [] => []
  | [p] => p
  | p :: parts' => p ++ sep ++ join sep parts'
  end.

(** [json.dumps(v, ensure_ascii=False, sort_keys=True, separators=(",", ":")).encode()] *)
Fixpoint dumps (v : pyval) : bytes :=
  match v with
  | PNone => chars "null"
  | PBool true => chars "true"
  | PBool false => chars "false"
  | PInt z => dump_int z
  | PFloat r => chars r
  | PStr s => dump_str s
  | PList l => chars "[" ++ join (chars ",") (map dumps l) ++ chars "]"
  | PDict d =>
      chars "{" ++ join (chars ",")
        (map (λ kv, dump_str kv.1 ++ chars ":" ++ kv.2)
           (sort_keys (map (λ kv, (kv.1, dumps kv.2)) d))) ++ chars "}"
  end.

(** [allow_nan=False] refuses these floats. *)
Fixpoint has_nan (v : pyval) : bool :=
  match v with
  | PFloat r => bool_decide (r ∈ ["nan"; "inf"; "-inf"]%string)
  | PList l => existsb has_nan l
  | PDict d => existsb (λ kv, has_nan kv.2) d
  | _ => false
  end.

(** zkt_custody.digest on a value without NaN or infinities. *)
Definition digest (v : pyval) : string := sha256_hex (dumps v).

Example dumps_sample :
  dumps (PDict [("b", PList [PInt 1; PInt (-20); PBool true]); ("a", PStr "x")])%string
  = chars "{" ++ dump_str "a" ++ chars ":" ++ dump_str "x" ++ chars "," ++ dump_str "b"
    ++ chars ":[1,-20,true]}".
Proof. vm_compute. reflexivity. Qed.

(** [json.dumps(v, ensure_ascii=False).encode()]: default separators, insertion order *)
Fixpoint dumps_plain (v : pyval) : bytes :=
  match v with
  | PList l => chars "[" ++ join (chars ", ") (map dumps_plain l) ++ chars "]"
  | PDict m => chars "{" ++ join (chars ", ") (map (λ kv, dump_str kv.1 ++ chars ": " ++ dumps_plain kv.2) m) ++ chars "}"
  | _ => dumps v
  end.

(** ** [ensure_ascii=True]: code points outside space..tilde are escaped *)
Fixpoint utf8_points (l : bytes) : list Z :=
  match l with
  | [] => []
  | b :: l1 =>
      if zb b <? 128 then zb b :: utf8_points l1
      else
        match l1 with
        | [] => []
        | c1 :: l2 =>
            if zb b <? 224 then ((zb b - 192) * 64 + (zb c1 - 128)) :: utf8_points l2
            else
              match l2 with
              | [] => []
              | c2 :: l3 =>
                  if zb b <? 240 then (((zb b - 224) * 64 + (zb c1 - 128)) * 64 + (zb c2 - 128)) :: utf8_points l3
                  else
                    match l3 with
                    | [] => []
                    | c3 :: l4 => ((((zb b - 240) * 64 + (zb c1 - 128)) * 64 + (zb c2 - 128)) * 64 + (zb c3 - 128)) :: utf8_points l4
                    end
              end
        end
  end.

Definition escape_unit (u : Z) : bytes := chars "\u" ++ chars (hex [bz (u / 256)]) ++ chars (hex [bz (u mod 256)]).
Definition escape_point (c : Z) : bytes :=
  if c <? 32 then escape_byte (bz c)
  else if c <? 127 then escape_byte (bz c)
  else if c <? 65536 then escape_unit c
  else escape_unit (55296 + (c - 65536) / 1024) ++ escape_unit (56320 + (c - 65536) mod 1024).
Definition dump_str_ascii (s : string) : bytes := [quote] ++ concat (map escape_point (utf8_points (chars s))) ++ [quote].

(** [json.dumps(v, sort_keys=True, separators=(",", ":")).encode()] *)
Fixpoint dumps_ascii (v : pyval) : bytes :=
  match v with
  | PStr s => dump_str_ascii s
  | PFloat r =>
      if bool_decide (r = "nan"%string) then chars "NaN" else if bool_decide (r = "inf"%string) then chars "Infinity"
      else if bool_decide (r = "-inf"%string) then chars "-Infinity" else chars r
  | PList l => chars "[" ++ join (chars ",") (map dumps_ascii l) ++ chars "]"
  | PDict d =>
      chars "{" ++ join (chars ",")
        (map (λ kv, dump_str_ascii kv.1 ++ chars ":" ++ kv.2)
           (sort_keys (map (λ kv, (kv.1, dumps_ascii kv.2)) d))) ++ chars "}"
  | _ => dumps v
  end.

Example dumps_ascii_sample :
  dumps_ascii (PDict [("b", PStr (of_chars [x41; xc3; xa9; xf0; x9f; x98; x80; x7f])); ("a", PNone)])%string
  = chars "{" ++ dump_str "a" ++ chars ":null," ++ dump_str "b" ++ chars ":" ++ [quote] ++ chars "A\u00e9\ud83d\ude00\u007f" ++ [quote] ++ chars "}".
Proof. vm_compute. reflexivity. Qed.

(** ** Reading back what was written with sorted keys

    [canon v] is [json.loads(json.dumps(v, sort_keys=True))] for a value without
    floats: the same object with every dict in key order. *)
Fixpoint canon (v : pyval) : pyval :=
  match v with
  | PList l => PList (map canon l)
  | PDict d => PDict (sort_keys (map (λ kv, (kv.1, canon kv.2)) d))
  | _ => v
  end.

(** No float, and each dict has a key once. *)
Fixpoint plain_json (v : pyval) : bool :=
  match v with
  | PFloat _ => false
  | PList l => forallb plain_json l
  | PDict d => bool_decide (NoDup (map fst d)) && forallb (λ kv, plain_json kv.2) d
  | _ => true
  end.

Lemma pyval_nested (P : pyval → Prop) :
  P PNone → (∀ b, P (PBool b)) → (∀ z, P (PInt z)) → (∀ r, P (PFloat r)) → (∀ s, P (PStr s)) →
  (∀ l, Forall P l → P (PList l)) → (∀ d, Forall (λ kv, P kv.2) d → P (PDict d)) → ∀ v, P v.
Proof.
  intros H1 H2 H3 H4 H5 HL HD. fix IH 1. intros [|b|z|r|s|l|d]; [exact H1|apply H2|apply H3|apply H4|apply H5| |].
  - apply HL. induction l as [|v l IHl]; constructor; [apply IH|exact IHl].
  - apply HD. induction d as [|[k v] d IHd]; constructor; [apply IH|exact IHd].
Qed.

Lemma insert_key_map {A B} (f : A → B) kv d :
  insert_key (kv.1, f kv.2) (map (λ x, (x.1, f x.2)) d) = map (λ x, (x.1, f x.2)) (insert_key kv d).
Proof. induction d as [|kv' d IH]; simpl; [done|]. destruct (bytes_leb _ _); simpl; [done|]. by rewrite IH. Qed.
Lemma sort_keys_map {A B} (f : A → B) d :
  sort_keys (map (λ x, (x.1, f x.2)) d) = map (λ x, (x.1, f x.2)) (sort_keys d).
Proof. induction d as [|kv d IH]; simpl; [done|]. by rewrite IH, insert_key_map. Qed.

Lemma insert_key_perm {A} (kv : string * A) d : insert_key kv d ≡ₚ kv :: d.
Proof. induction d as [|kv' d IH]; simpl; [done|]. destruct (bytes_leb _ _); [done|]. rewrite IH. constructor. Qed.
Lemma sort_keys_perm {A} (d : list (string * A)) : sort_keys d ≡ₚ d.
Proof. induction d as [|kv d IH]; simpl; [done|]. by rewrite insert_key_perm, IH. Qed.

Definition key_le {A} (x y : string * A) : Prop := bytes_leb (chars x.1) (chars y.1) = true.
Lemma insert_key_sorted {A} (kv : string * A) d : StronglySorted key_le d → StronglySorted key_le (insert_key kv d).
Proof.
  induction 1 as [|kv' d Hd IH Hall]; simpl; [repeat constructor|]. destruct (bytes_leb _ _) eqn:E.
  - constructor; [by constructor|]. constructor; [done|]. eapply Forall_impl; [exact Hall|]. intros y Hy. by eapply bytes_leb_trans.
  - constructor; [done|]. rewrite insert_key_perm. constructor; [|done].
    destruct (bytes_leb_total (chars kv.1) (chars kv'.1)); [congruence|done].
Qed.
Lemma sort_keys_sorted {A} (d : list (string * A)) : StronglySorted key_le (sort_keys d).
Proof. induction d; simpl; [constructor|by apply insert_key_sorted]. Qed.
Lemma sort_keys_id {A} (d : list (string * A)) : StronglySorted key_le d → sort_keys d = d.
Proof.
  induction 1 as [|kv d Hd IH Hall]; simpl; [done|]. rewrite IH. destruct Hall as [|kv' d Hk Hall]; simpl; [done|].
  unfold key_le in Hk. by rewrite Hk.
Qed.

(** The canonical digest does not see the difference. *)
Lemma dumps_canon v : dumps (canon v) = dumps v.
Proof.
  induction v as [| | | | |l IH|d IH] using pyval_nested; [done..| |]; simpl.
  - do 3 f_equal. rewrite map_map. apply map_ext_in. intros x Hx. rewrite Forall_forall in IH. apply IH. by apply list_elem_of_In.
  - do 4 f_equal. rewrite sort_keys_map, <- !sort_keys_map, !map_map, (sort_keys_id (sort_keys _)) by apply sort_keys_sorted.
    f_equal. apply map_ext_in. intros [k x] Hx. simpl. f_equal. rewrite Forall_forall in IH.
    apply (IH (k, x)). by apply list_elem_of_In.
Qed.
Lemma digest_canon v : digest (canon v) = digest v.
Proof. unfold digest. by rewrite dumps_canon. Qed.

Lemma assoc_map {A B} (f : A → B) k d : assoc k (map (λ kv, (kv.1, f kv.2)) d) = f <$> assoc k d.
Proof. induction d as [|[k' v] d IH]; simpl; [done|]. by case_bool_decide. Qed.
Lemma assoc_canon k d : NoDup (map fst d) → assoc k (sort_keys (map (λ kv, (kv.1, canon kv.2)) d)) = canon <$> assoc k d.
Proof.
  intros Hd. rewrite <- assoc_map. symmetry. apply assoc_perm; [|by rewrite sort_keys_perm].
  change (NoDup (map fst (map (λ kv : string * pyval, (kv.1, canon kv.2)) d))). rewrite map_map. simpl. done.
Qed.
Lemma get_canon k v : plain_json v = true → get k (canon v) = canon (get k v).
Proof.
  destruct v; try done. simpl. intros [Hd _]%andb_true_iff. apply bool_decide_eq_true in Hd.
  rewrite assoc_canon by done. by destruct (assoc k d).
Qed.

Lemma plain_get k v : plain_json v = true → plain_json (get k v) = true.
Proof.
  destruct v; try done. simpl. intros [_ Hd]%andb_true_iff. destruct (assoc k d) as [x|] eqn:E; [|done]. simpl.
  apply assoc_elem in E. rewrite forallb_forall in Hd. apply (Hd (k, x)). by apply list_elem_of_In.
Qed.

(** The comparison of two dicts, entry by entry. *)
Lemma py_eq_dict d e : py_eq (PDict d) (PDict e) =
  bool_decide (length d = length e) &&
  forallb (λ kv, match assoc kv.1 e with Some w => py_eq kv.2 w | None => false end) d.
Proof. simpl. f_equal. induction d as [|[n v] d IH]; simpl; [done|]. by rewrite IH. Qed.
Lemma num_refl v : match v with PInt _ | PBool _ => true | _ => false end = true → py_eq v v = true.
Proof. destruct v as [|[]|z| | | |]; try done. intros _. cbn. by apply bool_decide_eq_true. Qed.

(** A value equals what is read back, in either order. *)
Lemma py_eq_canon v : plain_json v = true → py_eq v (canon v) = true ∧ py_eq (canon v) v = true.
Proof.
  induction v as [| | | |s|l IH|d IH] using pyval_nested; intros Hv; try done.
  - split; by apply num_refl.
  - split; by apply num_refl.
  - cbn. by rewrite bool_decide_eq_true_2.
  - simpl in Hv. simpl canon. induction IH as [|x l Hx _ IHl]; [done|]. simpl in Hv. apply andb_true_iff in Hv as [Hx1 Hl1].
    specialize (Hx Hx1) as [H1 H2]. specialize (IHl Hl1) as [H3 H4].
    split; [change (py_eq x (canon x) && py_eq (PList l) (PList (map canon l)) = true)
           |change (py_eq (canon x) x && py_eq (PList (map canon l)) (PList l) = true)]; by apply andb_true_iff.
  - simpl in Hv. apply andb_true_iff in Hv as [Hd%bool_decide_eq_true Hv]. rewrite forallb_forall in Hv. rewrite Forall_forall in IH.
    simpl canon. rewrite !py_eq_dict. assert (Hlen : length (sort_keys (map (λ kv, (kv.1, canon kv.2)) d)) = length d)
      by (rewrite sort_keys_perm; apply length_map).
    rewrite Hlen, !bool_decide_eq_true_2 by done. split; apply forallb_forall; intros [k w] Hkw; simpl.
    + rewrite assoc_canon by done. rewrite (elem_assoc k w) by (done || by apply list_elem_of_In). simpl.
      apply (IH (k, w)); [by apply list_elem_of_In|by apply (Hv (k, w))].
    + apply list_elem_of_In in Hkw. rewrite sort_keys_perm in Hkw.
      apply list_elem_of_fmap in Hkw as ([k' w'] & [= -> ->] & Hkw). rewrite (elem_assoc k' w') by done.
      apply (IH (k', w')); [done|by apply (Hv (k', w')), list_elem_of_In].
Qed.

Lemma canon_idem v : canon (canon v) = canon v.
Proof.
  induction v as [| | | | |l IH|d IH] using pyval_nested; [done..| |]; simpl; f_equal.
  - rewrite map_map. apply map_ext_in. intros x Hx. rewrite Forall_forall in IH. apply IH. by apply list_elem_of_In.
  - rewrite <- (sort_keys_map canon (map _ d)), sort_keys_id by apply sort_keys_sorted. f_equal. rewrite map_map.
    apply map_ext_in. intros [k x] Hx. simpl. f_equal. rewrite Forall_forall in IH. apply (IH (k, x)). by apply list_elem_of_In.
Qed.

Lemma plain_canon v : plain_json v = true → plain_json (canon v) = true.
Proof.
  induction v as [| | | | |l IH|d IH] using pyval_nested; [done..| |]; simpl.
  - rewrite !forallb_forall. intros Hl x (y & <- & Hy)%in_map_iff. rewrite Forall_forall in IH. apply IH; [by apply list_elem_of_In|auto].
  - intros [Hd%bool_decide_eq_true Hv]%andb_true_iff. apply andb_true_iff. split.
    + apply bool_decide_eq_true. rewrite sort_keys_perm, map_map. done.
    + rewrite forallb_forall in *. intros x Hx%list_elem_of_In. rewrite sort_keys_perm in Hx.
      apply list_elem_of_fmap in Hx as (y & -> & Hy). rewrite Forall_forall in IH. apply IH; [done|]. by apply Hv, list_elem_of_In.
Qed.

(** ** Comparing with a known value *)
Lemma py_eq_str v s : py_eq v (PStr s) = true → v = PStr s.
Proof. destruct v as [|b|z|r|t|l|d]; cbn; try done; [by repeat case_bool_decide|by intros ->%bool_decide_eq_true]. Qed.

Lemma py_eq_list_inv v l : py_eq v (PList l) = true → ∃ k, v = PList k.
Proof. destruct v as [|b|z|r|t|k|d]; cbn; try done; [by repeat case_bool_decide|by eauto]. Qed.
Lemma py_eq_dict_inv v e : py_eq v (PDict e) = true → ∃ d, v = PDict d.
Proof. destruct v as [|b|z|r|t|k|d]; cbn; try done; [by repeat case_bool_decide|by eauto]. Qed.

Lemma py_eq_strs l ss : py_eq (PList l) (PList (map PStr ss)) = true → l = map PStr ss.
Proof.
  revert ss. induction l as [|v l IH]; intros [|s ss]; try done. intros [Hv Hl]%andb_true_iff. apply py_eq_str in Hv as ->.
  simpl. f_equal. by apply IH.
Qed.

(** A dict with each key once that equals another has its keys. *)
Lemma py_eq_keys d e k : NoDup d.*1 → py_eq (PDict d) (PDict e) = true → k ∈ e.*1 → k ∈ d.*1.
Proof.
  intros Hd. rewrite py_eq_dict, andb_true_iff, bool_decide_eq_true, forallb_forall. intros [Hlen Hs] Hk.
  assert (d.*1 ≡ₚ e.*1) as Hp; [|by rewrite Hp].
  apply submseteq_length_Permutation; [|rewrite !length_fmap; lia]. apply NoDup_submseteq; [done|].
  intros n (x & -> & Hx)%list_elem_of_fmap. specialize (Hs x (proj1 (list_elem_of_In _ _) Hx)). destruct (assoc x.1 e) as [y|] eqn:E; [|done].
  apply assoc_elem in E. by apply (list_elem_of_fmap_2 fst) in E.
Qed.
Lemma py_eq_get d e k y : NoDup d.*1 → py_eq (PDict d) (PDict e) = true → assoc k e = Some y → ∃ x, assoc k d = Some x ∧ py_eq x y = true.
Proof.
  intros Hd He Hy. pose proof (assoc_elem _ _ _ Hy) as Hin%(list_elem_of_fmap_2 fst). simpl in Hin. eapply py_eq_keys in Hin; [|done..].
  destruct (assoc k d) as [x|] eqn:Ex; [|by apply assoc_None in Ex]. exists x. split; [done|].
  rewrite py_eq_dict, andb_true_iff, forallb_forall in He. destruct He as [_ Hs]. apply assoc_elem, list_elem_of_In, Hs in Ex. simpl in Ex. by rewrite Hy in Ex.
Qed.
