(* ===== verification/PyLoads.v ===== *)
(** * [json.loads], and reading back what [json.dumps] wrote

    The scanner of Python's json module on UTF-8 text, with each dict key once (the last value wins) and
    floats known by their [repr]. [loads_dumps] reads back a value without floats as the same value with
    sorted keys. Nesting beyond Python's recursion limit is not modelled. *)
From S2P Require Import Prelude PyText Hashes PyJson.

(** ** Characters *)
Definition is_json_space (b : byte) : bool := (zb b =? 32) || (zb b =? 9) || (zb b =? 10) || (zb b =? 13).
Definition skip : bytes → bytes := drop_while is_json_space.
Definition is_byte (n : Z) (b : byte) : bool := zb b =? n.

(** The value of a hexadecimal digit in either case, and of four of them. *)
Definition hex_value (b : byte) : option Z :=
  if is_digit b then Some (zb b - 48) else if in_range 97 102 b then Some (zb b - 87) else if in_range 65 70 b then Some (zb b - 55) else None.
Definition hex4 (a b c d : byte) : option Z :=
  x ← hex_value a; y ← hex_value b; z ← hex_value c; t ← hex_value d; Some (((x * 16 + y) * 16 + z) * 16 + t).

(** A code point as UTF-8, lone surrogates included. *)
Definition utf8_point (c : Z) : bytes :=
  if c <? 128 then [bz c]
  else if c <? 2048 then [bz (192 + c / 64); bz (128 + c mod 64)]
  else if c <? 65536 then [bz (224 + c / 4096); bz (128 + c / 64 mod 64); bz (128 + c mod 64)]
  else [bz (240 + c / 262144); bz (128 + c / 4096 mod 64); bz (128 + c / 64 mod 64); bz (128 + c mod 64)].

(** The text decodes as UTF-8 with [surrogatepass]. *)
Fixpoint utf8_text (l : bytes) : bool :=
  let tail := in_range 128 191 in
  match l with
  | [] => true
  | a :: l1 =>
      if zb a <? 128 then utf8_text l1
      else match l1 with
           | [] => false
           | b :: l2 =>
               if in_range 194 223 a then tail b && utf8_text l2
               else match l2 with
                    | [] => false
                    | c :: l3 =>
                        if in_range 224 239 a then (if zb a =? 224 then in_range 160 191 b else tail b) && tail c && utf8_text l3
                        else match l3 with
                             | [] => false
                             | d :: l4 =>
                                 in_range 240 244 a && (if zb a =? 240 then in_range 144 191 b else if zb a =? 244 then in_range 128 143 b else tail b)
                                 && tail c && tail d && utf8_text l4
                             end
                    end
           end
  end.

(** ** Strings *)
Definition escaped (e : byte) : option byte :=
  if bool_decide (e = quote) then Some quote else if bool_decide (e = backslash) then Some backslash
  else if is_byte 47 e then Some e
  else if is_byte 98 e then Some x08 else if is_byte 102 e then Some x0c else if is_byte 110 e then Some x0a
  else if is_byte 114 e then Some x0d else if is_byte 116 e then Some x09 else None.

Definition prepend (out : bytes) (r : option (bytes * bytes)) : option (bytes * bytes) := a ← r; Some (out ++ a.1, a.2).

(** After the opening quote; a high surrogate joins the low one of the next escape. *)
Fixpoint scan_string (l : bytes) : option (bytes * bytes) :=
  match l with
  | [] => None
  | b :: l1 =>
      if bool_decide (b = quote) then Some ([], l1)
      else if zb b <? 32 then None
      else if negb (bool_decide (b = backslash)) then prepend [b] (scan_string l1)
      else match l1 with
           | [] => None
           | e :: l2 =>
               if negb (is_byte 117 e) then match escaped e with Some c => prepend [c] (scan_string l2) | None => None end
               else match l2 with
                    | h1 :: h2 :: h3 :: h4 :: l3 =>
                        match hex4 h1 h2 h3 h4 with
                        | None => None
                        | Some u =>
                            if (55296 <=? u) && (u <? 56320) then
                              match l3 with
                              | s :: t :: g1 :: g2 :: g3 :: g4 :: l4 =>
                                  if bool_decide (s = backslash) && is_byte 117 t then
                                    match hex4 g1 g2 g3 g4 with
                                    | None => None
                                    | Some v =>
                                        if (56320 <=? v) && (v <? 57344)
                                        then prepend (utf8_point (65536 + (u - 55296) * 1024 + (v - 56320))) (scan_string l4)
                                        else prepend (utf8_point u) (scan_string l3)
                                    end
                                  else prepend (utf8_point u) (scan_string l3)
                              | _ => prepend (utf8_point u) (scan_string l3)
                              end
                            else prepend (utf8_point u) (scan_string l3)
                        end
                    | _ => None
                    end
           end
  end.

(** ** Numbers *)
Fixpoint span (p : byte → bool) (l : bytes) : bytes * bytes :=
  match l with
  | [] => ([], [])
  | b :: l' => if p b then let a := span p l' in (b :: a.1, a.2) else ([], l)
  end.

Definition fraction (l : bytes) : bytes * bytes :=
  match l with
  | b :: l1 => let a := span is_digit l1 in if is_byte 46 b && negb (bool_decide (a.1 = [])) then (b :: a.1, a.2) else ([], l)
  | [] => ([], l)
  end.
Definition exponent (l : bytes) : bytes * bytes :=
  match l with
  | b :: l1 =>
      let sign := match l1 with s :: l2 => if is_byte 43 s || is_byte 45 s then ([s], l2) else ([], l1) | [] => ([], l1) end in
      let a := span is_digit sign.2 in
      if (is_byte 101 b || is_byte 69 b) && negb (bool_decide (a.1 = [])) then (b :: sign.1 ++ a.1, a.2) else ([], l)
  | [] => ([], l)
  end.

(** [int] refuses more digits ([sys.int_info.default_max_str_digits]). *)
Definition MAX_STR_DIGITS : Z := 4300.

Section loads.
(** [repr(float(text))] *)
Context (float_repr : bytes → string).

Definition whole_part (l : bytes) : option (bytes * bytes) :=
  match l with
  | b :: l1 => if is_byte 48 b then Some ([b], l1) else if is_digit b then Some (span is_digit l) else None
  | [] => None
  end.
Definition scan_number (l : bytes) : option (pyval * bytes) :=
  let negative := match l with b :: _ => is_byte 45 b | [] => false end in
  w ← whole_part (if negative then tail l else l);
  let f := fraction w.2 in
  let e := exponent f.2 in
  if bool_decide (f.1 = []) && bool_decide (e.1 = []) then
    if MAX_STR_DIGITS <? zlen w.1 then None
    else Some (PInt (if negative then - dec_value w.1 else dec_value w.1), e.2)
  else Some (PFloat (float_repr ((if negative then [x2d] else []) ++ w.1 ++ f.1 ++ e.1)), e.2).

(** ** Values *)
Fixpoint strip_word (word l : bytes) : option bytes :=
  match word, l with
  | [], _ => Some l
  | a :: word', b :: l' => if bool_decide (a = b) then strip_word word' l' else None
  | _ :: _, [] => None
  end.
Definition WORDS : list (string * pyval) :=
  [("null", PNone); ("true", PBool true); ("false", PBool false); ("NaN", PFloat "nan"); ("Infinity", PFloat "inf"); ("-Infinity", PFloat "-inf")]%string.
Fixpoint scan_word (words : list (string * pyval)) (l : bytes) : option (pyval * bytes) :=
  match words with
  | [] => None
  | (word, v) :: words' => match strip_word (chars word) l with Some rest => Some (v, rest) | None => scan_word words' l end
  end.

(** [scan_once]. Of two nested calls at least one is on a shorter text, so a fuel beyond twice the text's length is never used up. *)
Fixpoint scan_value (fuel : nat) (l : bytes) : option (pyval * bytes) :=
  match fuel, l with
  | S n, b :: l1 =>
      if bool_decide (b = quote) then a ← scan_string l1; Some (PStr (of_chars a.1), a.2)
      else if is_byte 123 b then
        match skip l1 with
        | c :: l2 => if is_byte 125 c then Some (PDict [], l2) else scan_members n (c :: l2) []
        | [] => None
        end
      else if is_byte 91 b then
        match skip l1 with
        | c :: l2 => if is_byte 93 c then Some (PList [], l2) else scan_items n (c :: l2) []
        | [] => None
        end
      else match scan_word WORDS l with Some a => Some a | None => scan_number l end
  | _, _ => None
  end
with scan_members (fuel : nat) (l : bytes) (acc : list (string * pyval)) : option (pyval * bytes) :=
  match fuel, l with
  | S n, b :: l1 =>
      if negb (bool_decide (b = quote)) then None
      else
        k ← scan_string l1;
        match skip k.2 with
        | c :: l2 =>
            if negb (is_byte 58 c) then None
            else
              v ← scan_value n (skip l2);
              let acc := assoc_set (of_chars k.1) v.1 acc in
              match skip v.2 with
              | d :: l3 => if is_byte 44 d then scan_members n (skip l3) acc else if is_byte 125 d then Some (PDict acc, l3) else None
              | [] => None
              end
        | [] => None
        end
  | _, _ => None
  end
with scan_items (fuel : nat) (l : bytes) (acc : list pyval) : option (pyval * bytes) :=
  match fuel with
  | S n =>
      v ← scan_value n l;
      match skip v.2 with
      | d :: l3 => if is_byte 44 d then scan_items n (skip l3) (acc ++ [v.1]) else if is_byte 93 d then Some (PList (acc ++ [v.1]), l3) else None
      | [] => None
      end
  | O => None
  end.

Definition loads_text (l : bytes) : option pyval :=
  let l := skip l in
  a ← scan_value (S (2 * length l)) l;
  match skip a.2 with [] => Some a.1 | _ => None end.

(** [json.loads(raw)]: a byte order mark or a zero among the first two bytes means UTF-16 or UTF-32, which [wide_text] decodes. *)
Definition wide (raw : bytes) : bool :=
  match raw with
  | a :: b :: rest =>
      (is_byte 254 a && is_byte 255 b) || (is_byte 255 a && is_byte 254 b)
      || ((is_byte 0 a || is_byte 0 b) && ((4 <=? zlen raw) || (zlen raw =? 2)))
  | _ => false
  end.
Definition json_loads (wide_text : bytes → option bytes) (raw : bytes) : res pyval :=
  let text := if wide raw then wide_text raw
              else let raw := default raw (strip_word [xef; xbb; xbf] raw) in if utf8_text raw then Some raw else None in
  match text ≫= loads_text with Some v => Ok v | None => Raise ValueError "json" end.

(** ** Reading back *)
(** Text in ASCII, integers [int] reads back, no float, each key once. *)
Definition ascii_text (s : string) : bool := forallb (λ b, zb b <? 128) (chars s).
Fixpoint loadable (v : pyval) : bool :=
  match v with
  | PFloat _ => false
  | PInt z => zlen (chars (py_str (Z.abs z))) <=? MAX_STR_DIGITS
  | PStr s => ascii_text s
  | PList l => forallb loadable l
  | PDict d => bool_decide (NoDup (map fst d)) && forallb (λ kv, ascii_text kv.1 && loadable kv.2) d
  | _ => true
  end.

Lemma scan_escaped b rest : zb b < 128 → scan_string (escape_point (zb b) ++ rest) = prepend [b] (scan_string rest).
Proof. intros Hb. destruct b; try reflexivity; exfalso; vm_compute in Hb; congruence. Qed.

Lemma utf8_points_ascii l : forallb (λ b, zb b <? 128) l = true → utf8_points l = map zb l.
Proof. induction l as [|b l IH]; simpl; [done|]. intros [-> Hl]%andb_true_iff. by rewrite IH. Qed.

Lemma scan_dumped_string s rest : ascii_text s = true → scan_string (tail (dump_str_ascii s) ++ rest) = Some (chars s, rest).
Proof.
  unfold ascii_text, dump_str_ascii. intros Hs. rewrite utf8_points_ascii by done. simpl. generalize (chars s) as l, Hs. clear. intros l.
  induction l as [|b l IH]; simpl; [done|]. intros [Hb%Z.ltb_lt Hl]%andb_true_iff. rewrite <- !app_assoc. rewrite scan_escaped by done.
  rewrite <- app_assoc in IH. rewrite IH by done. done.
Qed.

(** What follows a value: nothing, a comma or a closing bracket. *)
Definition closed (rest : bytes) : bool := match rest with [] => true | b :: _ => is_byte 44 b || is_byte 93 b || is_byte 125 b end.

Lemma span_digits ds rest : forallb is_digit ds = true → closed rest = true → span is_digit (ds ++ rest) = (ds, rest).
Proof.
  intros Hd Hr. induction ds as [|b ds IH]; simpl in *.
  - destruct rest as [|b rest]; [done|]. simpl in *. by destruct b.
  - apply andb_true_iff in Hd as [-> Hd]. by rewrite IH.
Qed.
Lemma whole_dumped z rest : 0 <= z → closed rest = true → whole_part (chars (py_str z) ++ rest) = Some (chars (py_str z), rest).
Proof.
  intros Hz Hr. pose proof (py_str_digits z) as Hd. unfold all_chars in Hd. unfold py_str in *. rewrite chars_of_chars in *.
  destruct (dec_digits (dec_fuel z) z []) as [|b l] eqn:E; [by apply dec_digits_nonempty in E; [|unfold dec_fuel; lia]|].
  simpl. simpl in Hd. apply andb_true_iff in Hd as [Hb Hd]. unfold is_byte. destruct (Z.eqb_spec (zb b) 48) as [Hb0|].
  - assert (z = 0) as -> by (eapply dec_digits_head; [done| |exact E|done]; unfold dec_fuel; lia). injection E as <- <-. done.
  - rewrite Hb. by rewrite span_digits.
Qed.
Lemma no_fraction rest : closed rest = true → fraction rest = ([], rest) ∧ exponent rest = ([], rest).
Proof. destruct rest as [|b rest]; [done|]. simpl. intros Hb. by destruct b. Qed.

Lemma scan_dumped_int z rest :
  zlen (chars (py_str (Z.abs z))) <= MAX_STR_DIGITS → closed rest = true → scan_number (dump_int z ++ rest) = Some (PInt z, rest).
Proof.
  intros Hl Hr. destruct (no_fraction rest Hr) as [Hf He]. unfold scan_number, dump_int. destruct (Z.ltb_spec z 0).
  - rewrite Z.abs_neq in Hl by lia. simpl. rewrite whole_dumped by (done || lia). simpl. rewrite Hf. simpl. rewrite He. simpl.
    rewrite (proj2 (Z.ltb_ge _ _)) by done. rewrite py_str_value by lia. by rewrite Z.opp_involutive.
  - rewrite Z.abs_eq in Hl by lia. pose proof (whole_dumped z rest ltac:(lia) Hr) as Hw. pose proof (py_str_digits z) as Hd. unfold all_chars in Hd.
    destruct (chars (py_str z)) as [|b l] eqn:E; [by apply py_str_nonempty in E|]. simpl in Hd. apply andb_true_iff in Hd as [Hd _].
    simpl ((_ :: _) ++ _). simpl ((_ :: _) ++ _) in Hw. cbv beta iota zeta. replace (is_byte 45 b) with false by (by destruct b).
    rewrite Hw. simpl. rewrite Hf. simpl. rewrite He. simpl. rewrite (proj2 (Z.ltb_ge _ _)) by done. rewrite <- E. by rewrite py_str_value.
Qed.

Lemma dumped_int_head z : ∃ b l, dump_int z = b :: l ∧ (is_digit b = true ∨ b = x2d ∧ ∃ c k, l = c :: k ∧ is_digit c = true).
Proof.
  assert (∀ y, ∃ c k, chars (py_str y) = c :: k ∧ is_digit c = true) as Hhead.
  { intros y. pose proof (py_str_digits y) as Hd. unfold all_chars in Hd. destruct (chars (py_str y)) as [|c k] eqn:E; [by apply py_str_nonempty in E|].
    simpl in Hd. apply andb_true_iff in Hd as [Hc _]. eauto. }
  unfold dump_int. destruct (z <? 0); [destruct (Hhead (- z)) as (c & k & -> & Hc); exists x2d, (c :: k); eauto 10|].
  destruct (Hhead z) as (c & k & -> & Hc). eauto.
Qed.
Lemma scan_word_int z rest : scan_word WORDS (dump_int z ++ rest) = None.
Proof. destruct (dumped_int_head z) as (b & l & -> & [Hb|(-> & c & k & -> & Hc)]); [by destruct b|by destruct c]. Qed.

(** A value starts with neither a space nor a closing bracket. *)
Lemma dumped_head v : loadable v = true → ∃ b l, dumps_ascii v = b :: l ∧ is_json_space b = false ∧ is_byte 93 b = false.
Proof.
  destruct v as [|[]|z| | | |]; try (intros _; simpl; eauto; fail); [|done]. intros _.
  destruct (dumped_int_head z) as (b & l & E & [Hb|(-> & _)]); exists b, l || exists x2d, l; (split; [exact E|]); [by destruct b|done].
Qed.
Lemma skip_dumped v rest : loadable v = true → skip (dumps_ascii v ++ rest) = dumps_ascii v ++ rest.
Proof. intros (b & l & -> & Hb & _)%dumped_head. unfold skip. simpl. by rewrite Hb. Qed.

Lemma join_two sep p q parts : join sep (p :: q :: parts) = p ++ sep ++ join sep (q :: parts).
Proof. done. Qed.
Definition reads_back (v : pyval) : Prop :=
  loadable v = true → ∀ n rest, (2 * length (dumps_ascii v ++ rest) < n)%nat → closed rest = true → scan_value n (dumps_ascii v ++ rest) = Some (canon v, rest).

Lemma scan_dumped_items l n acc rest :
  Forall reads_back l → l ≠ [] → forallb loadable l = true → (2 * length (join (chars ",") (map dumps_ascii l) ++ x5d :: rest) + 1 < n)%nat →
  scan_items n (join (chars ",") (map dumps_ascii l) ++ x5d :: rest) acc = Some (PList (acc ++ map canon l), rest).
Proof.
  intros HP Hne. revert n acc. induction l as [|v l IH]; [done|]. intros n acc Hl Hn. apply Forall_cons in HP as [Hv HP].
  simpl in Hl. apply andb_true_iff in Hl as [Hlv Hl]. destruct n as [|n]; [lia|]. destruct l as [|v' l].
  - simpl in *. rewrite Hv; [done|done| |done]. lia.
  - change (map dumps_ascii (v :: v' :: l)) with (dumps_ascii v :: dumps_ascii v' :: map dumps_ascii l) in *. rewrite join_two in *.
    change (dumps_ascii v' :: map dumps_ascii l) with (map dumps_ascii (v' :: l)) in *. set (tl := join _ _) in *. replace ((dumps_ascii v ++ chars "," ++ tl) ++ x5d :: rest)
      with (dumps_ascii v ++ x2c :: (tl ++ x5d :: rest)) in * by (by rewrite <- !app_assoc).
    cbn [scan_items]. rewrite Hv; [|done|rewrite ?length_app in *; simpl in *; lia|done]. simpl.
    assert (skip (tl ++ x5d :: rest) = tl ++ x5d :: rest) as ->.
    { simpl in Hl. apply andb_true_iff in Hl as [Hv' _]. apply dumped_head in Hv' as (b & k & E & Hb & _). unfold tl. destruct l; cbn [join map];
      rewrite E; unfold skip; simpl; by rewrite Hb. }
    rewrite IH; [by rewrite <- app_assoc|done|done|done|]. rewrite ?length_app in *. simpl in *. rewrite ?length_app in *. simpl in *. lia.
Qed.

Definition member_text (kv : string * pyval) : bytes := dump_str_ascii kv.1 ++ chars ":" ++ dumps_ascii kv.2.
Definition member_ok (kv : string * pyval) : bool := ascii_text kv.1 && loadable kv.2.

(** The text of a member after its opening quote. *)
Lemma scan_member kv n acc rest :
  reads_back kv.2 → member_ok kv = true → (2 * length (member_text kv ++ rest) < S n)%nat → closed rest = true →
  scan_members (S n) (member_text kv ++ rest) acc =
    match skip rest with
    | d :: l3 => if is_byte 44 d then scan_members n (skip l3) (assoc_set kv.1 (canon kv.2) acc)
                 else if is_byte 125 d then Some (PDict (assoc_set kv.1 (canon kv.2) acc), l3) else None
    | [] => None
    end.
Proof.
  destruct kv as [k v]. unfold member_ok, member_text. simpl (_.1). simpl (_.2). intros Hv [Hk Hl]%andb_true_iff Hn Hr.
  assert (dump_str_ascii k = quote :: tail (dump_str_ascii k)) as Eq by done. rewrite Eq in *. cbn [app] in *. cbn [scan_members].
  rewrite bool_decide_eq_true_2 by done. cbn [negb]. rewrite <- app_assoc, scan_dumped_string by done. cbn [mbind option_bind fst snd].
  rewrite <- app_assoc. change (chars ":" ++ dumps_ascii v ++ rest) with (x3a :: (dumps_ascii v ++ rest)). change (skip (x3a :: ?l)) with (x3a :: l).
  cbn [is_byte negb]. change (negb (is_byte 58 x3a)) with false. cbv iota. rewrite skip_dumped by done. rewrite Hv; [|done| |done].
  - cbn [mbind option_bind fst snd]. by rewrite of_chars_chars.
  - rewrite <- !app_assoc in Hn. simpl in Hn. rewrite ?length_app in *. simpl in *. rewrite ?length_app in *. lia.
Qed.

Lemma skip_member kv rest : skip (member_text kv ++ rest) = member_text kv ++ rest.
Proof. done. Qed.

Lemma scan_dumped_members d n acc rest :
  Forall (λ kv, reads_back kv.2) d → d ≠ [] → forallb member_ok d = true → NoDup (map fst acc ++ map fst d) →
  (2 * length (join (chars ",") (map member_text d) ++ x7d :: rest) < n)%nat →
  scan_members n (join (chars ",") (map member_text d) ++ x7d :: rest) acc = Some (PDict (acc ++ map (λ kv, (kv.1, canon kv.2)) d), rest).
Proof.
  intros HP Hne. revert n acc. induction d as [|kv d IH]; [done|]. intros n acc Hl Hnd Hn. apply Forall_cons in HP as [Hv HP].
  simpl in Hl. apply andb_true_iff in Hl as [Hlv Hl]. destruct n as [|n]; [lia|].
  assert (assoc_set kv.1 (canon kv.2) acc = acc ++ [(kv.1, canon kv.2)]) as Eacc.
  { apply assoc_set_fresh. simpl in Hnd. apply NoDup_app in Hnd as (_ & Hd & _). intros Hin. apply (Hd kv.1); [done|left]. }
  destruct d as [|kv' d].
  - cbn [map join] in *. rewrite scan_member by done. rewrite Eacc. done.
  - change (map member_text (kv :: kv' :: d)) with (member_text kv :: member_text kv' :: map member_text d) in *. rewrite join_two in *.
    change (member_text kv' :: map member_text d) with (map member_text (kv' :: d)) in *. set (tl := join _ _) in *.
    replace ((member_text kv ++ chars "," ++ tl) ++ x7d :: rest) with (member_text kv ++ x2c :: (tl ++ x7d :: rest)) in * by (by rewrite <- !app_assoc).
    rewrite scan_member; [|done|done|done|done]. change (skip (x2c :: ?l)) with (x2c :: l). change (is_byte 44 x2c) with true. cbv iota. rewrite Eacc.
    assert (skip (tl ++ x7d :: rest) = tl ++ x7d :: rest) as -> by (unfold tl; destruct d; done).
    rewrite IH; [by rewrite <- app_assoc|done|done|done| |].
    + rewrite map_app, <- app_assoc. done.
    + rewrite ?length_app in *. simpl in *. rewrite ?length_app in *. simpl in *. lia.
Qed.

Lemma scan_dumped v : reads_back v.
Proof.
  induction v as [|b|z|r|s|l HP|d HP] using pyval_nested; intros Hl n rest Hn Hr; destruct n as [|n]; try lia.
  - done.
  - by destruct b.
  - simpl in Hl. change (dumps_ascii (PInt z)) with (dump_int z). pose proof (scan_word_int z rest) as Hw. pose proof (scan_dumped_int z rest) as Hi.
    destruct (dumped_int_head z) as (b & l & E & Hb). rewrite E in *. cbn [app] in *. cbn [scan_value].
    assert (bool_decide (b = quote) = false ∧ is_byte 123 b = false ∧ is_byte 91 b = false) as (-> & -> & ->) by (destruct Hb as [Hb|[-> _]]; [by destruct b|done]).
    rewrite Hw. apply Hi; [lia|done].
  - done.
  - simpl in Hl. change (dumps_ascii (PStr s)) with (quote :: tail (dump_str_ascii s)) in *. cbn [app scan_value].
    rewrite bool_decide_eq_true_2, scan_dumped_string by done. simpl. by rewrite of_chars_chars.
  - simpl in Hl. change (dumps_ascii (PList l)) with (x5b :: (join (chars ",") (map dumps_ascii l) ++ [x5d])) in *. cbn [app] in *.
    rewrite <- app_assoc in *. cbn [app] in *. cbn [scan_value]. change (bool_decide (x5b = quote)) with false. change (is_byte 123 x5b) with false. change (is_byte 91 x5b) with true. cbv iota.
    destruct l as [|v l]; [done|]. assert (∃ c k, join (chars ",") (map dumps_ascii (v :: l)) = c :: k ∧ is_json_space c = false ∧ is_byte 93 c = false) as (c & k & E & Hs & Hc).
    { simpl in Hl. apply andb_true_iff in Hl as [(c & k & E & Hs & Hc)%dumped_head _]. destruct l; [exists c, k; auto|]. cbn [map]. rewrite join_two, E. simpl. eauto. }
    pose proof (scan_dumped_items (v :: l) n [] rest HP ltac:(done) Hl) as Hi. rewrite E in *. cbn [app] in *. unfold skip. cbn [drop_while]. rewrite Hs, Hc.
    rewrite Hi; [done|]. simpl in *. lia.
  - simpl in Hl. apply andb_true_iff in Hl as [Hnd%bool_decide_eq_true Hl]. set (e := sort_keys d).
    assert (e ≡ₚ d) as Hp by apply sort_keys_perm.
    assert (dumps_ascii (PDict d) = x7b :: (join (chars ",") (map member_text e) ++ [x7d])) as E.
    { simpl. rewrite sort_keys_map. unfold e. by rewrite map_map. }
    assert (canon (PDict d) = PDict (map (λ kv, (kv.1, canon kv.2)) e)) as -> by (simpl; by rewrite sort_keys_map).
    rewrite E in *. cbn [app] in *. rewrite <- app_assoc in *. cbn [app] in *. cbn [scan_value].
    change (bool_decide (x7b = quote)) with false. change (is_byte 123 x7b) with true. cbv iota. destruct e as [|kv e']; [done|].
    assert (∃ k, join (chars ",") (map member_text (kv :: e')) = quote :: k) as (k & Ek) by (destruct e'; simpl; eauto).
    pose proof (scan_dumped_members (kv :: e') n [] rest) as Hm. rewrite Ek in *. cbn [app] in *. change (skip (quote :: ?l)) with (quote :: l).
    change (is_byte 125 quote) with false. cbv iota. apply Hm.
    + by rewrite Hp.
    + done.
    + apply List.forallb_forall. intros x Hx. apply (proj1 (List.forallb_forall _ _) Hl x), list_elem_of_In. rewrite <- Hp. by apply list_elem_of_In.
    + cbn [map app]. rewrite (fmap_Permutation fst _ _ Hp). done.
    + simpl in *. lia.
Qed.

(** ** The text written is ASCII without zero bytes *)
Definition ascii_byte (b : byte) : bool := (0 <? zb b) && (zb b <? 128).
Definition ascii_clean (l : bytes) : bool := forallb ascii_byte l.

Lemma ascii_clean_app l k : ascii_clean (l ++ k) = ascii_clean l && ascii_clean k.
Proof. apply forallb_app. Qed.
Lemma clean_join sep parts : ascii_clean sep = true → forallb ascii_clean parts = true → ascii_clean (join sep parts) = true.
Proof.
  intros Hs. induction parts as [|p [|q parts] IH]; [done|simpl; by rewrite andb_true_r|]. rewrite join_two, !ascii_clean_app. cbn [forallb].
  intros [-> Hp]%andb_true_iff. rewrite Hs. by apply IH.
Qed.
Lemma clean_escaped b : zb b < 128 → ascii_clean (escape_point (zb b)) = true.
Proof. intros Hb. destruct b; try done; exfalso; vm_compute in Hb; congruence. Qed.
Lemma clean_string s : ascii_text s = true → ascii_clean (dump_str_ascii s) = true.
Proof.
  unfold ascii_text, dump_str_ascii. intros Hs. rewrite utf8_points_ascii by done. rewrite !ascii_clean_app. simpl. rewrite andb_true_r.
  generalize (chars s) as l, Hs. clear. induction l as [|b l IH]; simpl; [done|]. intros [Hb%Z.ltb_lt Hl]%andb_true_iff.
  rewrite ascii_clean_app, clean_escaped by done. by apply IH.
Qed.
Lemma clean_py_str z : ascii_clean (chars (py_str z)) = true.
Proof.
  pose proof (py_str_digits z) as Hd. unfold all_chars in Hd. revert Hd. generalize (chars (py_str z)). intros l. induction l as [|b l IH]; simpl; [done|].
  intros [Hb Hl]%andb_true_iff. rewrite IH by done. by destruct b.
Qed.
Lemma clean_dumped v : loadable v = true → ascii_clean (dumps_ascii v) = true.
Proof.
  induction v as [|b|z|r|s|l HP|d HP] using pyval_nested; intros Hl.
  - done.
  - by destruct b.
  - simpl. unfold dump_int. destruct (z <? 0); [simpl|]; apply clean_py_str.
  - done.
  - by apply clean_string.
  - simpl in *. rewrite ascii_clean_app. rewrite clean_join; [done..|]. clear -HP Hl. induction HP as [|v l Hv _ IH]; simpl in *; [done|].
    apply andb_true_iff in Hl as [Hlv Hl]. by rewrite Hv, IH.
  - simpl in *. apply andb_true_iff in Hl as [_ Hl]. rewrite ascii_clean_app, clean_join; [done..|]. rewrite sort_keys_map, map_map.
    apply List.forallb_forall. intros x (kv & <- & Hkv%list_elem_of_In)%List.in_map_iff. rewrite sort_keys_perm in Hkv. cbn [fst snd].
    pose proof (proj1 (List.forallb_forall _ _) Hl kv (proj1 (list_elem_of_In _ _) Hkv)) as [Hk Hv]%andb_true_iff.
    rewrite Forall_forall in HP. change (ascii_clean (dump_str_ascii kv.1 ++ chars ":" ++ dumps_ascii kv.2) = true). rewrite ascii_clean_app, (clean_string _ Hk). simpl. by apply HP.
Qed.

Lemma clean_utf8 l : ascii_clean l = true → utf8_text l = true ∧ wide l = false ∧ strip_word [xef; xbb; xbf] l = None.
Proof.
  intros Hl. split_and!.
  - induction l as [|b l IH]; [done|]. simpl in *. apply andb_true_iff in Hl as [[_ ->]%andb_true_iff Hl]. by apply IH.
  - destruct l as [|a [|b l]]; [done..|]. simpl in Hl. apply andb_true_iff in Hl as [Ha [Hb _]%andb_true_iff]. unfold wide, ascii_byte, is_byte in *. bool_prop.
    destruct (Z.eqb_spec (zb a) 254), (Z.eqb_spec (zb a) 255), (Z.eqb_spec (zb a) 0), (Z.eqb_spec (zb b) 0); done || lia.
  - destruct l as [|a l]; [done|]. simpl in *. apply andb_true_iff in Hl as [Ha _]. by destruct a.
Qed.

Lemma loads_dumps wide_text v : loadable v = true → json_loads wide_text (dumps_ascii v) = Ok (canon v).
Proof.
  intros Hl. unfold json_loads. destruct (clean_utf8 _ (clean_dumped v Hl)) as (HU & HW & HB). rewrite HW, HB. simpl. rewrite HU. simpl. unfold loads_text.
  pose proof (skip_dumped v [] Hl) as Hs. rewrite app_nil_r in Hs. rewrite Hs. pose proof (scan_dumped v Hl (S (2 * length (dumps_ascii v))) []) as E.
  rewrite app_nil_r in E. rewrite E; [done|lia|done].
Qed.

(** ** The fuel is enough *)
Lemma prepend_some out r a : prepend out r = Some a → ∃ b, r = Some b ∧ a.2 = b.2.
Proof. destruct r as [b|]; simpl; [|done]. intros [= <-]. eauto. Qed.
Lemma scan_string_short n l a : (length l ≤ n)%nat → scan_string l = Some a → (length a.2 < length l)%nat.
Proof.
  revert l a. induction n as [|n IH]; intros [|b l] a Hn E; simpl in Hn; try done; [lia|].
  assert (∀ out k, (length k ≤ length l)%nat → prepend out (scan_string k) = Some a → (length a.2 < S (length l))%nat) as Hnext.
  { intros out k Hk (c & Ec & ->)%prepend_some. apply IH in Ec; lia. }
  cbn [scan_string] in E. cbn [length]. repeat (case_match; try discriminate); try (injection E as <-; simpl; lia); subst;
    first [eapply Hnext; [|exact E]; simpl; lia].
Qed.
Lemma skip_short l : (length (skip l) ≤ length l)%nat.
Proof. unfold skip. induction l as [|b l IH]; simpl; [done|]. destruct (is_json_space b); simpl; lia. Qed.
Lemma span_short p l : (length (span p l).2 ≤ length l)%nat.
Proof. induction l as [|b l IH]; simpl; [done|]. destruct (p b); simpl; lia. Qed.
Lemma strip_word_short word l r : strip_word word l = Some r → (length r + length word = length l)%nat.
Proof.
  revert l. induction word as [|a word IH]; intros [|b l]; simpl; try done; [intros [= <-]; done|intros [= <-]; simpl; lia|].
  case_bool_decide; [|done]. intros ?%IH. lia.
Qed.
Lemma scan_word_short l a : scan_word WORDS l = Some a → (length a.2 < length l)%nat.
Proof.
  unfold WORDS. cbn [scan_word]. intros E. repeat (case_match; try discriminate); injection E as <-; simpl;
    match goal with Hs : strip_word _ _ = Some _ |- _ => apply strip_word_short in Hs; simpl in Hs; lia end.
Qed.
Lemma fraction_short l : (length (fraction l).2 ≤ length l)%nat.
Proof. destruct l as [|b l]; simpl; [done|]. pose proof (span_short is_digit l). destruct (_ && _); simpl; lia. Qed.
Lemma exponent_short l : (length (exponent l).2 ≤ length l)%nat.
Proof.
  destruct l as [|b l]; simpl; [done|]. set (sign := match l with [] => _ | _ => _ end).
  assert (length sign.2 ≤ length l)%nat as Hs by (unfold sign; destruct l; simpl; [done|]; destruct (_ || _); simpl; lia).
  pose proof (span_short is_digit sign.2). destruct (_ && _); simpl; lia.
Qed.
Lemma scan_number_short l a : scan_number l = Some a → (length a.2 < length l)%nat.
Proof.
  unfold scan_number. set (negative := match l with [] => _ | _ => _ end). intros (w & Ew & E)%bind_Some.
  assert (length w.2 < length l)%nat as Hw.
  { assert (∀ k, whole_part k = Some w → (length w.2 < length k)%nat) as Hp.
    { intros [|b k]; simpl; [done|]. destruct (is_byte 48 b); [intros [= <-]; simpl; lia|]. destruct (is_digit b) eqn:Eb; [|done]. intros [= <-].
      simpl. pose proof (span_short is_digit k). lia. }
    apply Hp in Ew. destruct negative; [|done]. destruct l; simpl in *; lia. }
  pose proof (fraction_short w.2). pose proof (exponent_short (fraction w.2).2).
  destruct (_ && _); [destruct (_ <? _); [done|]|]; injection E as <-; simpl; lia.
Qed.

Lemma scan_short n :
  (∀ l a, scan_value n l = Some a → (length a.2 < length l)%nat) ∧ (∀ l acc a, scan_members n l acc = Some a → (length a.2 < length l)%nat) ∧
  (∀ l acc a, scan_items n l acc = Some a → (length a.2 < length l)%nat).
Proof.
  induction n as [|n (IHv & IHm & IHi)]; [done|]. split_and!.
  - intros [|b l] a E; [done|]. cbn [scan_value] in E. pose proof (skip_short l) as Hs. case_bool_decide.
    { apply bind_Some in E as (k & Ek & [= <-]). eapply scan_string_short in Ek; [|done]. simpl. lia. }
    destruct (is_byte 123 b); [destruct (skip l) as [|c l2]; [done|]; destruct (is_byte 125 c); [injection E as <-; simpl in *; lia|apply IHm in E; simpl in *; lia]|].
    destruct (is_byte 91 b); [destruct (skip l) as [|c l2]; [done|]; destruct (is_byte 93 c); [injection E as <-; simpl in *; lia|apply IHi in E; simpl in *; lia]|].
    destruct (scan_word WORDS (b :: l)) as [x|] eqn:Ew; [injection E as <-; by apply scan_word_short in Ew|by apply scan_number_short].
  - intros [|b l] acc a E; [done|]. cbn [scan_members] in E. destruct (negb _); [done|]. apply bind_Some in E as (k & Ek & E). eapply scan_string_short in Ek; [|done].
    pose proof (skip_short k.2). destruct (skip k.2) as [|c l2]; [done|]. destruct (negb _); [done|]. apply bind_Some in E as (v & Ev & E). apply IHv in Ev.
    pose proof (skip_short l2). pose proof (skip_short v.2). destruct (skip v.2) as [|d l3]; [done|]. pose proof (skip_short l3).
    destruct (is_byte 44 d); [apply IHm in E; simpl in *; lia|]. destruct (is_byte 125 d); [|done]. injection E as <-. simpl in *. lia.
  - intros l acc a E. cbn [scan_items] in E. apply bind_Some in E as (v & Ev & E). apply IHv in Ev. pose proof (skip_short v.2).
    destruct (skip v.2) as [|d l3]; [done|]. pose proof (skip_short l3).
    destruct (is_byte 44 d); [apply IHi in E; simpl in *; lia|]. destruct (is_byte 93 d); [|done]. injection E as <-. simpl in *. lia.
Qed.

(** More fuel than twice the text changes nothing. *)
Lemma scan_fuel n :
  (∀ l, (2 * length l < n)%nat → scan_value (S n) l = scan_value n l) ∧ (∀ l acc, (2 * length l < n)%nat → scan_members (S n) l acc = scan_members n l acc) ∧
  (∀ l acc, (2 * length l + 1 < n)%nat → scan_items (S n) l acc = scan_items n l acc).
Proof.
  induction n as [|n (IHv & IHm & IHi)]; [split_and!; intros; lia|]. split_and!.
  - intros [|b l] Hn; [done|]. cbn [length] in Hn. pose proof (skip_short l) as Hs. remember (S n) as m eqn:Em. cbn [scan_value]. replace (scan_value m (b :: l)) with (scan_value (S n) (b :: l)) by (by rewrite Em). cbn [scan_value]. subst m.
    destruct (skip l) as [|c l2]; [done|]. cbn [length] in Hs. by rewrite IHm, IHi by (cbn [length]; lia).
  - intros [|b l] acc Hn; [done|]. cbn [length] in Hn. remember (S n) as m eqn:Em. cbn [scan_members]. replace (scan_members m (b :: l) acc) with (scan_members (S n) (b :: l) acc) by (by rewrite Em). cbn [scan_members]. subst m.
    destruct (negb _); [done|]. destruct (scan_string l) as [k|] eqn:Ek; [|done]. eapply scan_string_short in Ek; [|done]. cbn [mbind option_bind].
    pose proof (skip_short k.2). destruct (skip k.2) as [|c l2]; [done|]. cbn [length] in *. destruct (negb _); [done|]. pose proof (skip_short l2). rewrite IHv by lia.
    destruct (scan_value n (skip l2)) as [v|] eqn:Ev; [|done]. cbn [mbind option_bind]. apply (proj1 (scan_short n)) in Ev. pose proof (skip_short v.2).
    destruct (skip v.2) as [|d l3]; [done|]. cbn [length] in *. pose proof (skip_short l3). by rewrite IHm by lia.
  - intros l acc Hn. remember (S n) as m eqn:Em. cbn [scan_items]. replace (scan_items m l acc) with (scan_items (S n) l acc) by (by rewrite Em). cbn [scan_items]. subst m. rewrite IHv by lia.
    destruct (scan_value n l) as [v|] eqn:Ev; [|done]. cbn [mbind option_bind]. apply (proj1 (scan_short n)) in Ev. pose proof (skip_short v.2).
    destruct (skip v.2) as [|d l3]; [done|]. cbn [length] in *. pose proof (skip_short l3). by rewrite IHi by lia.
Qed.
End loads.
