(* ===== verification/Calendar.v ===== *)
(** * Python datetimes

    The parts of [datetime] the sources use: the range checks of the
    constructor, the proleptic Gregorian ordinal, instants of aware values and
    [astimezone(timezone.utc)]. *)
From S2P Require Import Prelude.

Definition is_leap (y : Z) : bool :=
  (y mod 4 =? 0) && (negb (y mod 100 =? 0) || (y mod 400 =? 0)).

Definition days_in_month (y m : Z) : Z :=
  if m =? 2 then (if is_leap y then 29 else 28)
  else if bool_decide (m ∈ [4; 6; 9; 11]) then 30 else 31.

Record datetime := mkDT {
  year : Z; month : Z; day : Z;
  hour : Z; minute : Z; second : Z; microsecond : Z;
  utcoffset : option Z  (** seconds east of UTC; [None] for a naive value *)
}.

#[export] Instance datetime_eq_dec : EqDecision datetime.
Proof. solve_decision. Defined.

Definition date_ok (y m d : Z) : bool :=
  (1 <=? y) && (y <=? 9999) && (1 <=? m) && (m <=? 12) && (1 <=? d) && (d <=? days_in_month y m).

Definition datetime_ok (t : datetime) : bool :=
  date_ok (year t) (month t) (day t)
  && (0 <=? hour t) && (hour t <=? 23) && (0 <=? minute t) && (minute t <=? 59)
  && (0 <=? second t) && (second t <=? 59) && (0 <=? microsecond t) && (microsecond t <=? 999999).

(** [datetime(y, m, d, h, mi, s, tzinfo=...)] *)
Definition make_datetime (y m d h mi s : Z) (tz : option Z) : res datetime :=
  let t := mkDT y m d h mi s 0 tz in
  if datetime_ok t then Ok t else Raise ValueError "datetime out of range".

(** ** Ordinals *)
Definition days_before_year (y : Z) : Z :=
  (y - 1) * 365 + (y - 1) / 4 - (y - 1) / 100 + (y - 1) / 400.

Definition days_before_month (y m : Z) : Z :=
  nth (Z.to_nat m) [0; 0; 31; 59; 90; 120; 151; 181; 212; 243; 273; 304; 334] 0
  + (if (2 <? m) && is_leap y then 1 else 0).

Definition ordinal (y m d : Z) : Z := days_before_year y + days_before_month y m + d.

(** Microseconds of an aware value since the start of year 1, in UTC. *)
Definition wall_seconds (t : datetime) : Z :=
  86400 * ordinal (year t) (month t) (day t) + 3600 * hour t + 60 * minute t + second t.

Definition instant (t : datetime) : option Z :=
  off ← utcoffset t; Some (1000000 * (wall_seconds t - off) + microsecond t).

(** ** The neighbouring days *)
Definition prev_day (y m d : Z) : Z * Z * Z :=
  if 1 <? d then (y, m, d - 1)
  else if 1 <? m then (y, m - 1, days_in_month y (m - 1)) else (y - 1, 12, 31).

Definition next_day (y m d : Z) : Z * Z * Z :=
  if d <? days_in_month y m then (y, m, d + 1)
  else if m <? 12 then (y, m + 1, 1) else (y + 1, 1, 1).

(** [t.astimezone(timezone.utc)] for an offset of less than a day. *)
Definition to_utc (t : datetime) : datetime :=
  match utcoffset t with
  | None => t
  | Some off =>
      let secs := 3600 * hour t + 60 * minute t + second t - off in
      let r := secs mod 86400 in
      let '(y, m, d) :=
        if secs <? 0 then prev_day (year t) (month t) (day t)
        else if 86400 <=? secs then next_day (year t) (month t) (day t)
        else (year t, month t, day t) in
      mkDT y m d (r / 3600) (r mod 3600 / 60) (r mod 60) (microsecond t) (Some 0)
  end.

Lemma month_cases m : 1 <= m <= 12 →
  m = 1 ∨ m = 2 ∨ m = 3 ∨ m = 4 ∨ m = 5 ∨ m = 6 ∨ m = 7 ∨ m = 8 ∨ m = 9 ∨ m = 10 ∨ m = 11 ∨ m = 12.
Proof. lia. Qed.

Lemma days_before_month_succ y m :
  1 <= m < 12 → days_before_month y (m + 1) = days_before_month y m + days_in_month y m.
Proof.
  intros Hm. unfold days_before_month, days_in_month.
  destruct (month_cases m ltac:(lia)) as [->|[->|[->|[->|[->|[->|[->|[->|[->|[->|[->| ->]]]]]]]]]]];
    try lia; vm_compute Z.to_nat; cbn [nth]; destruct (is_leap y); reflexivity.
Qed.

Lemma days_before_year_succ y :
  days_before_year (y + 1) = days_before_year y + (if is_leap y then 366 else 365).
Proof.
  unfold days_before_year, is_leap. replace (y + 1 - 1) with y by lia.
  destruct (y mod 4 =? 0) eqn:E4, (y mod 100 =? 0) eqn:E100, (y mod 400 =? 0) eqn:E400; simpl; dlia.
Qed.

Lemma december_end y : days_before_month y 12 + 31 = if is_leap y then 366 else 365.
Proof. unfold days_before_month. destruct (is_leap y); reflexivity. Qed.

Lemma ordinal_prev_day y m d :
  date_ok y m d = true →
  let '(y', m', d') := prev_day y m d in ordinal y' m' d' = ordinal y m d - 1.
Proof.
  unfold date_ok, prev_day, ordinal. intros H. bool_prop.
  destruct (Z.ltb_spec 1 d); [lia|]. destruct (Z.ltb_spec 1 m).
  - pose proof (days_before_month_succ y (m - 1) ltac:(lia)) as Hs.
    replace (m - 1 + 1) with m in Hs by lia. lia.
  - pose proof (days_before_year_succ (y - 1)) as Hs. pose proof (december_end (y - 1)).
    replace (y - 1 + 1) with y in Hs by lia.
    assert (m = 1) as -> by lia. change (days_before_month y 1) with (0 + (if false && is_leap y then 1 else 0)).
    simpl. lia.
Qed.

Lemma ordinal_next_day y m d :
  date_ok y m d = true →
  let '(y', m', d') := next_day y m d in ordinal y' m' d' = ordinal y m d + 1.
Proof.
  unfold date_ok, next_day, ordinal. intros H. bool_prop.
  destruct (Z.ltb_spec d (days_in_month y m)); [lia|]. destruct (Z.ltb_spec m 12).
  - rewrite days_before_month_succ by lia. lia.
  - assert (m = 12) as -> by lia. rewrite days_before_year_succ.
    pose proof (december_end y). change (days_in_month y 12) with 31 in *.
    change (days_before_month (y + 1) 1) with (0 + (if false && is_leap (y + 1) then 1 else 0)).
    simpl. lia.
Qed.

(** Conversion to UTC keeps the instant. *)
Lemma to_utc_instant t off :
  datetime_ok t = true → utcoffset t = Some off → -86400 < off < 86400 →
  instant (to_utc t) = instant t.
Proof.
  unfold datetime_ok, instant, to_utc, wall_seconds. intros Hok Hoff Hr. bool_prop.
  rewrite Hoff. set (secs := 3600 * hour t + 60 * minute t + second t - off).
  assert (-86400 <= secs < 172800) as Hs by (subst secs; lia).
  pose proof (ordinal_prev_day (year t) (month t) (day t)) as Hp.
  pose proof (ordinal_next_day (year t) (month t) (day t)) as Hn.
  destruct (prev_day _ _ _) as [[yp mp] dp]. destruct (next_day _ _ _) as [[yn mn] dn].
  specialize (Hp ltac:(done)). specialize (Hn ltac:(done)).
  assert (secs mod 86400 = 3600 * (secs mod 86400 / 3600)
          + 60 * (secs mod 86400 mod 3600 / 60) + secs mod 86400 mod 60) as Hr' by dlia.
  assert ((secs < 0 ∧ secs mod 86400 = secs + 86400)
          ∨ (86400 <= secs ∧ secs mod 86400 = secs - 86400)
          ∨ (0 <= secs < 86400 ∧ secs mod 86400 = secs)) as Hm by dlia.
  destruct (Z.ltb_spec secs 0); [|destruct (Z.leb_spec 86400 secs)];
    cbn [year month day hour minute second microsecond utcoffset mbind option_bind];
    f_equal; subst secs; lia.
Qed.

(** ** Ordinals follow the calendar order *)
Lemma days_in_month_range y m : 28 <= days_in_month y m <= 31.
Proof. unfold days_in_month. repeat case_match; lia. Qed.

Lemma days_before_month_mono y m n :
  1 <= m < n → n <= 12 → days_before_month y m + days_in_month y m <= days_before_month y n.
Proof.
  intros Hm Hn. replace n with (m + 1 + (n - m - 1)) by lia.
  assert (0 <= n - m - 1) as Hk by lia. assert (m + 1 + (n - m - 1) <= 12) as Hb by lia.
  revert Hb. generalize (n - m - 1) Hk. clear Hn Hk.
  refine (natlike_ind _ _ _).
  - intros Hb. rewrite Z.add_0_r in *. rewrite days_before_month_succ; lia.
  - intros k Hk IH Hb. replace (m + 1 + Z.succ k) with (m + 1 + k + 1) by lia.
    rewrite days_before_month_succ by lia. pose proof (days_in_month_range y (m + 1 + k)). lia.
Qed.

Lemma days_before_year_mono y z : y <= z → days_before_year y <= days_before_year z.
Proof. unfold days_before_year. intros H. dlia. Qed.

Lemma day_of_year_range y m d :
  date_ok y m d = true → 1 <= days_before_month y m + d <= (if is_leap y then 366 else 365).
Proof.
  unfold date_ok. intros H. bool_prop. rewrite <- december_end. split.
  - enough (0 <= days_before_month y m) by lia. unfold days_before_month.
    destruct (month_cases m ltac:(lia)) as [->|[->|[->|[->|[->|[->|[->|[->|[->|[->|[->| ->]]]]]]]]]]];
      vm_compute Z.to_nat; cbn [nth]; case_match; lia.
  - destruct (decide (m = 12)) as [->|]; [change (days_in_month y 12) with 31 in *; lia|].
    pose proof (days_before_month_mono y m 12 ltac:(lia) ltac:(lia)). lia.
Qed.

Definition date_lt (a b : datetime) : Prop :=
  year a < year b ∨ year a = year b ∧
  (month a < month b ∨ month a = month b ∧ day a < day b).

Lemma ordinal_lt a b :
  date_ok (year a) (month a) (day a) = true → date_ok (year b) (month b) (day b) = true →
  date_lt a b → ordinal (year a) (month a) (day a) < ordinal (year b) (month b) (day b).
Proof.
  unfold ordinal. intros Ha Hb [Hy|[Hy [Hm|[Hm Hd]]]].
  - pose proof (day_of_year_range _ _ _ Ha). pose proof (day_of_year_range _ _ _ Hb).
    pose proof (days_before_year_succ (year a)).
    pose proof (days_before_year_mono (year a + 1) (year b) ltac:(lia)). lia.
  - unfold date_ok in *. bool_prop. rewrite Hy in *.
    pose proof (days_before_month_mono (year b) (month a) (month b) ltac:(lia) ltac:(lia)). lia.
  - rewrite Hy, Hm. lia.
Qed.
