(* ===== verification/ZktPacket.v ===== *)
(** * Journal packet fragments (zkt_packet.py)

    A terminal packet larger than one journal record is stored as fragments of
    at most 512 bytes. [parse_fragment] reads one, [reassemble] joins a group.
    The theorems: the two invert the fragment encoding, in any order and with
    repeats; a packet is returned only when every byte of it is covered and
    hashes to the announced digest; and the join never fails on a missing key. *)
From S2P Require Import Prelude Hashes.

Definition PACKET_MAX : Z := 65536.
Definition FRAGMENT_HEADER : Z := 60.
Definition FRAGMENT_DATA : Z := 512 - FRAGMENT_HEADER.

Record PacketFragment := mkFragment {
  group : bytes;
  total : Z;
  offset : Z;
  packet_digest : bytes;
  data : bytes
}.

#[export] Instance PacketFragment_eq_dec : EqDecision PacketFragment.
Proof. solve_decision. Defined.

Definition parse_fragment (raw : bytes) : res PacketFragment :=
  if negb ((FRAGMENT_HEADER <? zlen raw) && (zlen raw <=? 512))
     || negb (bool_decide (take 4 raw = ascii_bytes "ZJF1"))
  then Raise ValueError "INVALID_PACKET_FRAGMENT" else
  let total := le_int (slice 20 24 raw) in
  let offset := le_int (slice 24 28 raw) in
  let data := drop 60 raw in
  if negb (any_nonzero (slice 4 20 raw))
     || negb ((512 <? total) && (total <=? PACKET_MAX))
     || (total <=? offset)
     || negb (offset mod FRAGMENT_DATA =? 0)
     || negb (zlen data =? Z.min FRAGMENT_DATA (total - offset))
  then Raise ValueError "INVALID_PACKET_EXTENT" else
  Ok (mkFragment (slice 4 20 raw) total offset (slice 28 60 raw) data).

(** The loop body: [offsets] maps a chunk's offset to its bytes. *)
Definition add_part (first : PacketFragment) (offsets : gmap Z bytes)
    (part : PacketFragment) : res (gmap Z bytes) :=
  if negb (bool_decide ((group part, total part, packet_digest part)
                        = (group first, total first, packet_digest first)))
     || (offset part <? 0) || (total first <=? offset part)
     || negb (offset part mod FRAGMENT_DATA =? 0)
     || negb (zlen (data part) =? Z.min FRAGMENT_DATA (total first - offset part))
  then Raise ValueError "CONFLICTING_PACKET_FRAGMENTS" else
  if bool_decide (is_Some (offsets !! offset part))
     && negb (bool_decide (offsets !! offset part = Some (data part)))
  then Raise ValueError "CONFLICTING_PACKET_FRAGMENTS" else
  Ok (<[offset part := data part]> offsets).

(** [offsets[offset]]: a missing key raises. *)
Definition get_part (offsets : gmap Z bytes) (o : Z) : res bytes :=
  match offsets !! o with Some d => Ok d | None => Raise KeyError "offset" end.

Definition reassemble (fragments : list PacketFragment) : res (option bytes) :=
  match fragments with
  | [] => Raise ValueError "INVALID_FRAGMENT_SET"
  | first :: _ =>
    if 2 * ((PACKET_MAX + FRAGMENT_DATA - 1) / FRAGMENT_DATA) <? zlen fragments
    then Raise ValueError "INVALID_FRAGMENT_SET" else
    if negb ((512 <? total first) && (total first <=? PACKET_MAX))
       || negb (zlen (group first) =? 16) || negb (any_nonzero (group first))
       || negb (zlen (packet_digest first) =? 32)
    then Raise ValueError "INVALID_PACKET_EXTENT" else
    offsets ← foldR (add_part first) fragments ∅;
    if negb (Z.of_nat (size offsets) =? (total first + FRAGMENT_DATA - 1) / FRAGMENT_DATA)
    then Ok None else
    parts ← mapR (get_part offsets) (py_range 0 (total first) FRAGMENT_DATA);
    let packet := concat parts in
    if negb (bool_decide (sha256 packet = packet_digest first))
    then Raise ValueError "PACKET_DIGEST_MISMATCH" else
    Ok (Some packet)
  end.

(** ** What the loop accepts *)

Definition part_ok (first part : PacketFragment) : Prop :=
  (group part, total part, packet_digest part) = (group first, total first, packet_digest first)
  ∧ 0 <= offset part < total first
  ∧ offset part mod FRAGMENT_DATA = 0
  ∧ zlen (data part) = Z.min FRAGMENT_DATA (total first - offset part).

Definition covers (offsets : gmap Z bytes) (ps : list PacketFragment) : Prop :=
  ∀ o d, offsets !! o = Some d ↔ ∃ p, p ∈ ps ∧ offset p = o ∧ data p = d.

Definition consistent (ps : list PacketFragment) : Prop :=
  ∀ p q, p ∈ ps → q ∈ ps → offset p = offset q → data p = data q.

Lemma add_part_ok first m p m' :
  add_part first m p = Ok m' ↔
  part_ok first p ∧ (∀ d, m !! offset p = Some d → d = data p) ∧ m' = <[offset p := data p]> m.
Proof.
  unfold add_part, part_ok. split.
  - intros H. inv_res H. bool_prop. subst m'. repeat split; try done.
    intros d Hd. apply andb_false_iff in E0 as [E0|E0]; bool_prop; [|congruence].
    by destruct E0.
  - intros ((Hg & Ho & Hm & Hl) & Hc & ->).
    rewrite (bool_decide_eq_true_2 _ Hg), (proj2 (Z.ltb_ge _ _)), (proj2 (Z.leb_gt _ _)),
      Hm, Hl, !Z.eqb_refl by lia. simpl.
    destruct (m !! offset p) as [d|] eqn:Hd; simpl.
    + rewrite (Hc d) by done. by rewrite (bool_decide_eq_true_2 (Some _ = _)).
    + done.
Qed.

Lemma covers_consistent m ps : covers m ps → consistent ps.
Proof.
  intros Hm p q Hp Hq Ho.
  assert (m !! offset p = Some (data p)) as H1 by (apply Hm; eauto).
  assert (m !! offset p = Some (data q)) as H2 by (apply Hm; eauto).
  congruence.
Qed.

Lemma fold_parts_ok first ps m :
  foldR (add_part first) ps ∅ = Ok m → Forall (part_ok first) ps ∧ covers m ps.
Proof.
  intros H. refine (foldR_inv _ (λ d m, Forall (part_ok first) d ∧ covers m d) _ _ _ _ _ H).
  - split; [constructor|]. intros o d. rewrite lookup_empty. set_solver.
  - clear. intros dn x m m' [Hf Hc] (Hx & Hd & ->)%add_part_ok. split.
    { apply Forall_app; eauto using Forall. }
    intros o d. rewrite lookup_insert. case_decide as Ho; [subst o|].
    + split; [intros [= <-]; set_solver|].
      intros (p & [Hp|Hp]%elem_of_app & Ho & <-).
      * f_equal. symmetry. apply Hd, Hc. eauto.
      * apply list_elem_of_singleton in Hp as ->. done.
    + rewrite (Hc o d). set_solver.
Qed.

Lemma fold_parts_run first ps m dn :
  Forall (part_ok first) ps → covers m dn → consistent (dn ++ ps) →
  is_ok (foldR (add_part first) ps m) = true.
Proof.
  revert m dn. induction ps as [|p ps IH]; intros m dn Hf Hc Hk; simpl; [done|].
  apply Forall_cons in Hf as [Hp Hf].
  assert (add_part first m p = Ok (<[offset p := data p]> m)) as Ha.
  { apply add_part_ok. repeat split; try apply Hp. intros d (q & Hq & Ho & <-)%Hc.
    apply (Hk q p); set_solver. }
  rewrite Ha. simpl. apply (IH _ (dn ++ [p])); [done| |by rewrite <- app_assoc].
  intros o d. rewrite lookup_insert. case_decide as Ho; [subst o|rewrite (Hc o d); set_solver].
  split; [intros [= <-]; set_solver|].
  intros (q & Hq & Ho & <-). f_equal. apply (Hk p q); set_solver.
Qed.

Lemma covers_empty : covers ∅ [].
Proof. intros o d. rewrite lookup_empty. set_solver. Qed.

(** The loop succeeds exactly on valid, mutually consistent parts. *)
Lemma fold_parts_iff first ps m :
  foldR (add_part first) ps ∅ = Ok m ↔ Forall (part_ok first) ps ∧ covers m ps.
Proof.
  split; [apply fold_parts_ok|]. intros [Hf Hc].
  assert (is_ok (foldR (add_part first) ps ∅) = true) as Hok.
  { apply (fold_parts_run first ps ∅ []); [done|apply covers_empty|].
    by eapply covers_consistent. }
  destruct (foldR (add_part first) ps ∅) as [m'|] eqn:E; [|done].
  f_equal. apply map_eq. intros o. apply option_eq. intros d.
  apply fold_parts_ok in E as [_ Hc']. by rewrite (Hc' o d), (Hc o d).
Qed.

(** ** Completeness by counting *)

Abbreviation chunk_offsets t := (py_range 0 t FRAGMENT_DATA).

Lemma covers_offsets first ps m :
  512 < total first → Forall (part_ok first) ps → covers m ps →
  dom m ⊆ list_to_set (C := gset Z) (chunk_offsets (total first)).
Proof.
  intros Ht Hf Hc o [d (p & Hp & <- & <-)%Hc]%elem_of_dom.
  apply elem_of_list_to_set, elem_of_py_range; [done|lia|].
  rewrite Forall_forall in Hf. destruct (Hf p Hp) as (_ & Ho & Hm & _).
  by rewrite Z.sub_0_r.
Qed.

Lemma size_offsets t :
  size (list_to_set (C := gset Z) (chunk_offsets t)) = Z.to_nat ((t + FRAGMENT_DATA - 1) / FRAGMENT_DATA).
Proof.
  rewrite size_list_to_set by by apply py_range_NoDup.
  rewrite py_range_length. by rewrite Z.sub_0_r.
Qed.

(** All chunks are present exactly when as many distinct offsets as chunks were seen. *)
Lemma count_complete first ps m :
  512 < total first → Forall (part_ok first) ps → covers m ps →
  Z.of_nat (size m) = (total first + FRAGMENT_DATA - 1) / FRAGMENT_DATA ↔
  ∀ o, o ∈ chunk_offsets (total first) → is_Some (m !! o).
Proof.
  intros Ht Hf Hc. pose proof (covers_offsets _ _ _ Ht Hf Hc) as Hsub.
  assert (0 <= (total first + FRAGMENT_DATA - 1) / FRAGMENT_DATA) as Hpos
    by (apply Z.div_pos; unfold FRAGMENT_DATA, FRAGMENT_HEADER; lia).
  split.
  - intros Hn o Ho. apply elem_of_dom.
    rewrite (set_subseteq_size_eq _ _ Hsub); [by apply elem_of_list_to_set|].
    rewrite size_offsets, size_dom. lia.
  - intros Hall. assert (dom m = list_to_set (chunk_offsets (total first))) as Hd.
    { apply (anti_symm (⊆)); [done|]. intros o Ho%elem_of_list_to_set.
      by apply elem_of_dom, Hall. }
    apply (f_equal size) in Hd. rewrite size_offsets, size_dom in Hd. lia.
Qed.

Lemma get_parts_complete m os :
  (∀ o, o ∈ os → is_Some (m !! o)) →
  mapR (get_part m) os = Ok (map (λ o, default [] (m !! o)) os).
Proof.
  induction os as [|o os IH]; intros H; simpl; [done|].
  destruct (H o) as [d Hd]; [set_solver|].
  assert (get_part m o = Ok d) as -> by (unfold get_part; by rewrite Hd).
  simpl. rewrite IH by set_solver. by rewrite Hd.
Qed.

Lemma chunk_offsets_lookup t i o :
  chunk_offsets t !! i = Some o → o = Z.of_nat i * FRAGMENT_DATA ∧ (0 < t → o < t).
Proof.
  intros H. split.
  - unfold py_range in H. rewrite list_lookup_fmap in H.
    destruct (seq _ _ !! i) eqn:E; [|done]. apply lookup_seq in E as [-> _].
    simpl in H. injection H as <-. lia.
  - intros Ht. apply list_elem_of_lookup_2, elem_of_py_range in H as [H _]; [lia|done|lia].
Qed.

(** The joined packet has the announced length, and each part sits at its offset. *)
Lemma joined_packet first ps m :
  512 < total first → Forall (part_ok first) ps → covers m ps →
  (∀ o, o ∈ chunk_offsets (total first) → is_Some (m !! o)) →
  let pkt := concat (map (λ o, default [] (m !! o)) (chunk_offsets (total first))) in
  zlen pkt = total first ∧
  ∀ p, p ∈ ps → data p = chunk_at 452 (Z.to_nat (offset p / FRAGMENT_DATA)) pkt.
Proof.
  intros Ht Hf Hc Hall pkt. rewrite Forall_forall in Hf.
  destruct (chunk_concat 452 (Z.to_nat (total first))
              (map (λ o, default [] (m !! o)) (chunk_offsets (total first)))) as [Hlen Hget].
  { intros i d. rewrite list_lookup_fmap. intros (o & Ho & ->)%fmap_Some.
    destruct (Hall o) as [d Hd]; [by eapply list_elem_of_lookup_2|].
    rewrite Hd. cbn [default from_option id].
    apply chunk_offsets_lookup in Ho as [-> Hlt].
    apply Hc in Hd as (p & Hp & Hpo & <-). destruct (Hf p Hp) as (_ & _ & _ & Hl).
    unfold zlen, FRAGMENT_DATA, FRAGMENT_HEADER in *. lia. }
  split.
  - unfold zlen, pkt. rewrite Hlen, length_map, py_range_length.
    unfold FRAGMENT_DATA, FRAGMENT_HEADER in *.
    pose proof (Z.div_mod (total first - 0 + (512 - 60) - 1) (512 - 60) ltac:(lia)).
    pose proof (Z.mod_pos_bound (total first - 0 + (512 - 60) - 1) (512 - 60) ltac:(lia)). lia.
  - intros p Hp. destruct (Hf p Hp) as (_ & Ho & Hm & _). symmetry. apply Hget.
    assert (offset p ∈ chunk_offsets (total first)) as Hin.
    { apply elem_of_py_range; [done|lia|]. by rewrite Z.sub_0_r. }
    apply list_elem_of_lookup_1 in Hin as [i Hi].
    assert (Z.to_nat (offset p / FRAGMENT_DATA) = i) as ->.
    { apply chunk_offsets_lookup in Hi as [-> _]. rewrite Z.div_mul by done. lia. }
    rewrite list_lookup_fmap, Hi. simpl.
    assert (m !! offset p = Some (data p)) as -> by (apply Hc; eauto). done.
Qed.

(** ** Characterisation of [reassemble] *)

Definition header_ok (first : PacketFragment) : Prop :=
  512 < total first <= PACKET_MAX ∧ zlen (group first) = 16
  ∧ any_nonzero (group first) = true ∧ zlen (packet_digest first) = 32.

Definition part_limit : Z := 2 * ((PACKET_MAX + FRAGMENT_DATA - 1) / FRAGMENT_DATA).

(** The chunk map of a list of parts, when the loop accepts them. *)
Lemma reassemble_ok first rest r :
  reassemble (first :: rest) = Ok r ↔
  zlen (first :: rest) <= part_limit ∧ header_ok first ∧
  ∃ m, Forall (part_ok first) (first :: rest) ∧ covers m (first :: rest) ∧
    match r with
    | None => ¬ ∀ o, o ∈ chunk_offsets (total first) → is_Some (m !! o)
    | Some pkt =>
        (∀ o, o ∈ chunk_offsets (total first) → is_Some (m !! o)) ∧
        pkt = concat (map (λ o, default [] (m !! o)) (chunk_offsets (total first))) ∧
        sha256 pkt = packet_digest first
    end.
Proof.
  unfold reassemble, header_ok, part_limit. split.
  - intros H. inv_step H. inv_step H. bool_prop.
    inv_step H. destruct (fold_parts_ok _ _ _ Ha) as [Hf Hc].
    split; [lia|]. split; [done|]. exists a. do 2 (split; [done|]).
    destruct (count_complete first (first :: rest) a) as [Hin Hout]; [lia|done|done|].
    inv_step H; bool_prop.
    + injection H as <-. auto.
    + specialize (Hin E0). rewrite get_parts_complete in H by done. simpl in H.
      inv_res H. bool_prop. subst r. auto.
  - intros (Hn & (Ht & Hg & Ha & Hd) & m & Hf & Hc & Hr).
    rewrite (proj2 (Z.ltb_ge _ _) Hn), (proj2 (Z.ltb_lt _ _)), (proj2 (Z.leb_le _ _)),
      Hg, Ha, Hd by lia. cbn [negb andb orb Z.eqb].
    rewrite (proj2 (fold_parts_iff first (first :: rest) m)) by done. cbn [mbind res_bind].
    pose proof (count_complete first (first :: rest) m ltac:(lia) Hf Hc) as Hcount.
    destruct r as [pkt|].
    + destruct Hr as (Hall & -> & Hs). rewrite (proj2 Hcount Hall), Z.eqb_refl.
      cbn [negb]. rewrite get_parts_complete by done. cbn [mbind res_bind].
      by rewrite bool_decide_eq_true_2.
    + rewrite (proj2 (Z.eqb_neq _ _)); [done|]. by rewrite Hcount.
Qed.

Lemma covers_perm m ps qs : ps ≡ₚ qs → covers m ps → covers m qs.
Proof.
  intros Hp Hc o d. rewrite (Hc o d).
  split; intros (p & Hin & ?); exists p; (split; [|done]); [by rewrite <- Hp | by rewrite Hp].
Qed.

Lemma part_ok_change first first' p :
  part_ok first first' → part_ok first p → part_ok first' p.
Proof.
  unfold part_ok. intros (Hg & _) (Hp & ?). injection Hg as H1 H2 H3.
  rewrite Hp, H1, H2, H3. done.
Qed.

Lemma reassemble_nonempty ps r : reassemble ps = Ok r → ∃ first rest, ps = first :: rest.
Proof. destruct ps; [done | eauto]. Qed.

(** ** Fragment encoding

    The wire form [parse_fragment] reads: the magic, the group, the two
    little-endian words, the digest and the chunk. *)
Definition encode_fragment (f : PacketFragment) : bytes :=
  ascii_bytes "ZJF1" ++ group f ++ le_bytes 4 (total f) ++ le_bytes 4 (offset f)
  ++ packet_digest f ++ data f.

Definition fragment_wf (f : PacketFragment) : Prop :=
  header_ok f ∧ part_ok f f.

(** The fragments of a packet, in order. *)
Definition fragment_at (g pkt : bytes) (o : Z) : PacketFragment :=
  mkFragment g (zlen pkt) o (sha256 pkt) (chunk_at 452 (Z.to_nat (o / FRAGMENT_DATA)) pkt).
Definition fragments_of (g pkt : bytes) : list PacketFragment :=
  map (fragment_at g pkt) (chunk_offsets (zlen pkt)).

Lemma le_word_slice z : 0 <= z < 256 ^ 4 → le_int (le_bytes 4 z) = z.
Proof. intros H. rewrite le_int_bytes. by apply Z.mod_small. Qed.

Lemma fragment_at_data_length (pkt : bytes) o :
  0 <= o < zlen pkt → o mod FRAGMENT_DATA = 0 →
  zlen (chunk_at 452 (Z.to_nat (o / FRAGMENT_DATA)) pkt) = Z.min FRAGMENT_DATA (zlen pkt - o).
Proof.
  unfold zlen, chunk_at. intros Ho Hm. rewrite length_take, length_drop.
  apply Z.div_exact in Hm; [|done]. unfold FRAGMENT_DATA, FRAGMENT_HEADER in *.
  assert (0 <= o / (512 - 60)) by (apply Z.div_pos; lia). lia.
Qed.

Section fragments_of_packet.
Context (g pkt : bytes).
Hypothesis (Hg : zlen g = 16) (Hnz : any_nonzero g = true) (Hlen : 512 < zlen pkt <= PACKET_MAX).

Lemma fragment_at_header o : header_ok (fragment_at g pkt o).
Proof.
  repeat split; simpl; try done; try lia. unfold zlen. by rewrite sha256_length.
Qed.

Lemma fragment_at_ok o o' :
  o' ∈ chunk_offsets (zlen pkt) → part_ok (fragment_at g pkt o) (fragment_at g pkt o').
Proof.
  intros [Ho Hm]%elem_of_py_range; [|done|lia]. rewrite Z.sub_0_r in Hm.
  repeat split; simpl; try done; try lia. by apply fragment_at_data_length.
Qed.

Lemma covering_packet ps :
  (∀ f, f ∈ ps ↔ f ∈ fragments_of g pkt) →
  ∃ m, covers m ps ∧ concat (map (λ o, default [] (m !! o)) (chunk_offsets (zlen pkt))) = pkt
    ∧ ∀ o, o ∈ chunk_offsets (zlen pkt) → is_Some (m !! o).
Proof.
  intros Hps.
  set (dat := λ o, data (fragment_at g pkt o)).
  assert (∃ m : gmap Z bytes, ∀ o d, m !! o = Some d ↔ o ∈ chunk_offsets (zlen pkt) ∧ d = dat o)
    as [m Hlk].
  { exists (list_to_map (map (λ o, (o, dat o)) (chunk_offsets (zlen pkt)))).
    intros o d. rewrite <- elem_of_list_to_map.
    - rewrite list_elem_of_fmap. naive_solver.
    - rewrite <- list_fmap_compose. simpl. rewrite list_fmap_id. by apply py_range_NoDup. }
  exists m.
  split; [|split].
  - intros o d. rewrite Hlk. split.
    + intros [Ho ->]. exists (fragment_at g pkt o). rewrite Hps.
      split; [|done]. apply list_elem_of_fmap. eauto.
    + intros (p & (o' & -> & Ho')%Hps%list_elem_of_fmap & <- & <-). done.
  - transitivity (concat (map (λ i, chunk_at 452 i pkt) (seq 0 (length (chunk_offsets (zlen pkt))))));
      [|apply concat_chunks].
    + f_equal. unfold py_range at 1. rewrite map_map, py_range_length.
      apply map_ext_in. intros i Hi.
      replace (0 + Z.of_nat i * FRAGMENT_DATA) with (Z.of_nat i * FRAGMENT_DATA) by lia.
      assert (m !! (Z.of_nat i * FRAGMENT_DATA) = Some (chunk_at 452 i pkt)) as ->; [|done].
      apply Hlk. split.
      * unfold py_range. apply list_elem_of_In, in_map_iff. exists i. split; [lia|done].
      * unfold dat. simpl. by rewrite Z.div_mul, Nat2Z.id.
    + rewrite py_range_length. unfold zlen, FRAGMENT_DATA, FRAGMENT_HEADER in *.
      pose proof (Z.div_mod (Z.of_nat (length pkt) - 0 + (512 - 60) - 1) (512 - 60) ltac:(lia)).
      pose proof (Z.mod_pos_bound (Z.of_nat (length pkt) - 0 + (512 - 60) - 1) (512 - 60) ltac:(lia)).
      lia.
  - intros o Ho. exists (dat o). by apply Hlk.
Qed.
End fragments_of_packet.

Lemma split_header (raw : bytes) :
  raw = take 4 raw ++ slice 4 20 raw ++ slice 20 24 raw ++ slice 24 28 raw
        ++ slice 28 60 raw ++ drop 60 raw.
Proof.
  unfold slice. cbn [Nat.sub].
  rewrite <- (take_drop 4 raw) at 1. f_equal.
  rewrite <- (take_drop 16 (drop 4 raw)) at 1. f_equal. rewrite drop_drop.
  rewrite <- (take_drop 4 (drop (4 + 16) raw)) at 1. f_equal. rewrite drop_drop.
  rewrite <- (take_drop 4 (drop (4 + 16 + 4) raw)) at 1. f_equal. rewrite drop_drop.
  rewrite <- (take_drop 32 (drop (4 + 16 + 4 + 4) raw)) at 1. f_equal. by rewrite drop_drop.
Qed.

Lemma le_bytes_slice a raw :
  (a + 4 ≤ length raw)%nat → le_bytes 4 (le_int (slice a (a + 4) raw)) = slice a (a + 4) raw.
Proof.
  intros H. rewrite <- (le_bytes_int (slice a (a + 4) raw)) at 2. f_equal.
  rewrite slice_length; lia.
Qed.

Lemma parse_fragment_sound raw f :
  parse_fragment raw = Ok f → raw = encode_fragment f ∧ fragment_wf f.
Proof.
  unfold parse_fragment, fragment_wf, header_ok, part_ok, encode_fragment.
  intros H. inv_res H. subst f. bool_prop. cbn [group total offset packet_digest data].
  unfold FRAGMENT_HEADER in *.
  assert (60 < length raw ≤ 512)%nat as Hraw by (unfold zlen in *; lia).
  rewrite (le_bytes_slice 20), (le_bytes_slice 24) by lia. split.
  - rewrite (split_header raw) at 1. by f_equal.
  - unfold zlen in *. rewrite !slice_length by lia.
    repeat split; try done; try lia; apply le_int_range.
Qed.

Lemma parse_fragment_complete f :
  fragment_wf f → parse_fragment (encode_fragment f) = Ok f.
Proof.
  intros ((Ht & Hg & Hnz & Hd) & _ & Ho & Hm & Hl). unfold parse_fragment, encode_fragment.
  destruct f as [g t o dg dt]; cbn [group total offset packet_digest data] in *.
  unfold zlen, PACKET_MAX in *.
  assert (length g = 16%nat) as Hg' by lia. assert (length dg = 32%nat) as Hd' by lia.
  assert (le_int (le_bytes 4 t) = t) as Ht' by (apply le_word_slice; lia).
  assert (le_int (le_bytes 4 o) = o) as Ho' by (apply le_word_slice; lia).
  pose proof (le_bytes_length 4 t) as L1. pose proof (le_bytes_length 4 o) as L2.
  revert Ht' Ho' L1 L2. generalize (le_bytes 4 t) as bt, (le_bytes 4 o) as bo.
  intros bt bo Ht' Ho' L1 L2.
  do 17 (destruct g as [|? g]; try discriminate Hg').
  do 5 (destruct bt as [|? bt]; try discriminate L1).
  do 5 (destruct bo as [|? bo]; try discriminate L2).
  do 33 (destruct dg as [|? dg]; try discriminate Hd').
  assert (1 <= Z.of_nat (length dt) <= 452)
    by (unfold FRAGMENT_DATA, FRAGMENT_HEADER in *; lia).
  change (ascii_bytes "ZJF1") with [x5a; x4a; x46; x31].
  unfold slice. cbn [app take drop Nat.sub length].
  rewrite drop_0, take_0, Ht', Ho', Hnz, Hl, Hm, !Z.eqb_refl. unfold FRAGMENT_HEADER, PACKET_MAX.
  rewrite (proj2 (Z.ltb_lt 60 _)), (proj2 (Z.leb_le _ 512)), (proj2 (Z.ltb_lt 512 t)),
    (proj2 (Z.leb_le t _)), (proj2 (Z.leb_gt t o)) by lia.
  rewrite (bool_decide_eq_true_2 (_ :: _ = _)) by done. reflexivity.
Qed.

(** ** Properties *)

(** Reading a fragment inverts its wire encoding: [parse_fragment] accepts
    exactly the encodings of well-formed fragments (a non-zero 16-byte group, a
    total of 513 to 65536 bytes, an aligned offset inside it and a chunk that
    fills its slot) and returns the fragment that was encoded. *)
Theorem parse_fragment_iff raw f :
  parse_fragment raw = Ok f ↔ raw = encode_fragment f ∧ fragment_wf f.
Proof.
  split; [apply parse_fragment_sound|]. intros [-> Hwf]. by apply parse_fragment_complete.
Qed.


(** A returned packet is complete and authentic: it has the announced
    length and digest, and every fragment of the set carries exactly the bytes
    of its slot; a hold ([None]) means some chunk of the packet is missing. *)
Theorem reassemble_sound ps r (H : reassemble ps = Ok r) :
  ∃ first, first ∈ ps ∧ header_ok first ∧ Forall (part_ok first) ps ∧
    match r with
    | Some pkt => zlen pkt = total first ∧ sha256 pkt = packet_digest first
        ∧ Forall (λ p, data p = chunk_at 452 (Z.to_nat (offset p / FRAGMENT_DATA)) pkt) ps
    | None => ∃ o, o ∈ chunk_offsets (total first) ∧ Forall (λ p, offset p ≠ o) ps
    end.
Proof.
  destruct (reassemble_nonempty _ _ H) as (first & rest & ->). exists first.
  apply reassemble_ok in H as (_ & Hh & m & Hf & Hc & Hr).
  split; [set_solver|]. do 2 (split; [done|]). destruct r as [pkt|].
  - destruct Hr as (Hall & -> & Hs). destruct Hh as (Ht & _).
    destruct (joined_packet first (first :: rest) m) as [Hl Hp]; [lia|done..|].
    split; [done|]. split; [done|]. by apply Forall_forall.
  - apply not_all_ex_not_list in Hr as (o & Ho & Hn); [|apply _]. exists o. split; [done|].
    apply Forall_forall. intros p Hp Heq. apply Hn. exists (data p). apply Hc. eauto.
Qed.

(** The outcome of a successful run does not depend on the order in
    which the fragments were stored. *)
Theorem reassemble_perm ps qs r (Hperm : ps ≡ₚ qs) (H : reassemble ps = Ok r) :
  reassemble qs = Ok r.
Proof.
  destruct (reassemble_nonempty _ _ H) as (f & rest & ->).
  apply reassemble_ok in H as (Hn & Hh & m & Hf & Hc & Hr).
  destruct qs as [|q qs]; [by apply Permutation_nil_r in Hperm|].
  assert (part_ok f q) as Hq by (rewrite Forall_forall in Hf; apply Hf; rewrite Hperm; set_solver).
  pose proof Hq as (Heq & _). injection Heq as Hg Ht Hd.
  apply reassemble_ok. unfold header_ok. rewrite Hg, Ht, Hd.
  split; [unfold zlen in *; by rewrite <- Hperm|]. split; [done|]. exists m.
  split; [|split; [by eapply covers_perm|done]].
  rewrite <- Hperm. eapply Forall_impl; [exact Hf|]. intros p. by apply part_ok_change.
Qed.

(** The join never looks up a chunk that is not there: whatever the input,
    the only exception [reassemble] raises is its own [ValueError]. *)
Theorem reassemble_raises ps c msg (H : reassemble ps = Raise c msg) : c = ValueError.
Proof.
  destruct (decide (c = ValueError)) as [|Hne]; [done|]. exfalso.
  destruct ps as [|first rest]; unfold reassemble in H; [congruence|].
  do 2 (inv_step H; [congruence|]). bool_prop.
  destruct (foldR (add_part first) (first :: rest) ∅) as [m|c' msg'] eqn:Hfold;
    cbn [mbind res_bind] in H.
  - destruct (fold_parts_ok _ _ _ Hfold) as [Hf Hc]. inv_step H. bool_prop.
    rewrite get_parts_complete in H by by eapply count_complete.
    cbn [mbind res_bind] in H. inv_step H. congruence.
  - apply foldR_raise in Hfold as (s & x & Hx). unfold add_part in Hx.
    inv_step Hx; [congruence|]. inv_step Hx. congruence.
Qed.

(** ** Witnesses: a 600-byte packet in two fragments *)
Definition sample_group : bytes := repeat x07 16.
Definition sample_packet : bytes := repeat x41 600.
Definition sample_parts : list PacketFragment :=
  rev (fragments_of sample_group sample_packet) ++ fragments_of sample_group sample_packet.

Lemma sample_parts_elem f :
  f ∈ sample_parts ↔ f ∈ fragments_of sample_group sample_packet.
Proof. unfold sample_parts. rewrite elem_of_app, !list_elem_of_In, <- in_rev. tauto. Qed.


Lemma reassemble_sound_witness :
  ∃ first, first ∈ sample_parts ∧ header_ok first ∧ Forall (part_ok first) sample_parts ∧
    zlen sample_packet = total first ∧ sha256 sample_packet = packet_digest first
    ∧ Forall (λ p, data p = chunk_at 452 (Z.to_nat (offset p / FRAGMENT_DATA)) sample_packet) sample_parts.
Proof.
  apply (reassemble_sound sample_parts (Some sample_packet)). vm_compute. reflexivity.
Defined.

Lemma reassemble_perm_witness : reassemble (rev sample_parts) = Ok (Some sample_packet).
Proof.
  apply (reassemble_perm sample_parts); [apply Permutation_rev|]. vm_compute. reflexivity.
Defined.

Lemma reassemble_raises_witness : ValueError = ValueError.
Proof.
  apply (reassemble_raises [fragment_at sample_group [] 0] ValueError "INVALID_PACKET_EXTENT").
  vm_compute. reflexivity.
Defined.
