(* ===== verification/ZktDecode.v ===== *)
(** * Punch facts from preserved terminal bytes (zkt_decode.py)

    The packed terminal clock, the historical record layouts (8, 16, 40 and 49
    bytes), the live record layouts (12, 32, 36 and 52 bytes) and the live
    packet that holds a batch of one of them. *)
From S2P Require Import Prelude PyText Calendar ZktPacket.

(** [timezone(timedelta(hours=5))] *)
Definition PAKISTAN_TIME : Z := 5 * 3600.
Definition TAILED_SOURCE_SIZE : Z := 49.
Definition SOURCE_SIZES : gset Z := {[8; 16; 40; TAILED_SOURCE_SIZE]}.
Definition LIVE_SIZES : gset Z := {[12; 32; 36; 52]}.
Definition MODEL_PROFILES : list (string * string) :=
  [("G3", "zkt-g3-v1");
   ("SilkBio-101TC/ID", "zkt-silkbio-101tc-id-v1");
   ("MB40-VL/ID", "zkt-mb40-vl-id-v1");
   ("uFace800", "zkt-uface800-v1");
   ("uFace800/ID", "zkt-uface800-id-v1");
   ("uFace800 Plus/ID", "zkt-uface800-plus-id-v1")]%string.
Definition DECODER_VERSION : string := "zkt-facts-1".

Record PunchFacts := mkFacts {
  user_id : option string;
  attendance_uid : option Z;
  encoded_time : Z;
  local_time : datetime;
  utc_time : datetime;
  status : Z;
  punch : Z;
  facts_offset : Z;
  facts_length : Z
}.

#[export] Instance PunchFacts_eq_dec : EqDecision PunchFacts.
Proof. solve_decision. Defined.

Record LivePacket := mkLivePacket {
  session_id : Z;
  reply_id : Z;
  checksum : Z;
  record_size : Z;
  records : list PunchFacts
}.

(** ** The packed clock *)
Definition encode_time (local : datetime) : res Z :=
  if negb (bool_decide (utcoffset local = Some PAKISTAN_TIME))
  then Raise DecodeError "TERMINAL_LOCAL_TIME_REQUIRED" else
  if negb ((2000 <=? year local) && (year local <=? 2099)) || negb (microsecond local =? 0)
  then Raise DecodeError "TIME_OUTSIDE_PROFILE" else
  Ok (fold_left (λ value mc, value * mc.1 + mc.2)
        [(12, month local - 1); (31, day local - 1); (24, hour local);
         (60, minute local); (60, second local)]
        (year local - 2000)).

Definition decode_time (encoded : Z) : res (datetime * datetime) :=
  if negb ((0 <=? encoded) && (encoded <=? 0xFFFFFFFF))
  then Raise DecodeError "ENCODED_TIME_RANGE" else
  let '(value, parts) :=
    fold_left (λ vp divisor, (vp.1 / divisor, vp.2 ++ [vp.1 mod divisor]))
      [60; 60; 24; 31; 12] (encoded, []) in
  match parts with
  | [second; minute; hour; day; month] =>
      match make_datetime (2000 + value) (month + 1) (day + 1) hour minute second
              (Some PAKISTAN_TIME) with
      | Raise _ _ => Raise DecodeError "INVALID_CALENDAR_DATE"
      | Ok local =>
          e ← encode_time local;
          if negb (e =? encoded) then Raise DecodeError "TIME_OUTSIDE_PROFILE" else
          Ok (local, to_utc local)
      end
  | _ => Raise ValueError "unpack"
  end.

(** ** Records *)
Definition _text_id (raw : bytes) : res string :=
  let value := rstrip_bytes is_space (before x00 raw) in
  if bool_decide (value = []) || existsb (λ b, (zb b <? 32) || (126 <? zb b)) value
  then Raise DecodeError "INVALID_USER_REFERENCE" else
  Ok (of_chars value).

Definition _facts (user_id : option string) (attendance_uid : option Z) (encoded status punch offset length : Z)
    : res PunchFacts :=
  '(local, utc) ← decode_time encoded;
  Ok (mkFacts user_id attendance_uid encoded local utc status punch offset length).

(** [raw[i]] *)
Definition byte_at (raw : bytes) (i : nat) : Z := zb (nth i raw x00).

Definition decode_source (raw : bytes) (record_size offset : Z) : res PunchFacts :=
  if bool_decide (record_size ∉ SOURCE_SIZES) || negb (zlen raw =? record_size) || (offset <? 0)
  then Raise DecodeError "SOURCE_RECORD_BOUNDARY" else
  let attendance_uid := if negb (record_size =? 16) then Some (le_int (slice 0 2 raw)) else None in
  if record_size =? 8 then
    _facts None attendance_uid (le_int (slice 3 7 raw)) (byte_at raw 2) (byte_at raw 7) offset 8
  else if record_size =? 16 then
    _facts (Some (py_str (le_int (slice 0 4 raw)))) None
      (le_int (slice 4 8 raw)) (byte_at raw 8) (byte_at raw 9) offset 16
  else
    user ← _text_id (slice 2 26 raw);
    _facts (Some user) attendance_uid (le_int (slice 27 31 raw))
      (byte_at raw 26) (byte_at raw 31) offset record_size.

Definition decode_live_record (raw : bytes) (record_size offset : Z) : res PunchFacts :=
  if bool_decide (record_size ∉ LIVE_SIZES) || negb (zlen raw =? record_size) || (offset <? 0)
  then Raise DecodeError "LIVE_RECORD_BOUNDARY" else
  let base : nat := if record_size =? 12 then 4%nat else 24%nat in
  user_id ← (if bool_decide (base = 4%nat) then Ok (py_str (le_int (slice 0 4 raw)))
             else _text_id (slice 0 24 raw));
  match make_datetime (2000 + byte_at raw (base + 2)) (byte_at raw (base + 3)) (byte_at raw (base + 4))
          (byte_at raw (base + 5)) (byte_at raw (base + 6)) (byte_at raw (base + 7))
          (Some PAKISTAN_TIME) with
  | Raise _ _ => Raise DecodeError "INVALID_CALENDAR_DATE"
  | Ok local =>
      encoded ← encode_time local;
      _facts (Some user_id) None encoded (byte_at raw base) (byte_at raw (base + 1)) offset record_size
  end.

(** ** Live packets *)

(** One candidate layout: every record of the body at that size. *)
Definition decode_rows (body : bytes) (size : Z) : res (list PunchFacts) :=
  mapR (λ start, decode_live_record (slice (Z.to_nat start) (Z.to_nat (start + size)) body) size (8 + start))
    (py_range 0 (zlen body) size).

(** The loop over the allowed sizes, which stops at a second valid layout. *)
Fixpoint valid_layouts (body : bytes) (sizes : list Z) (valid : list (Z * list PunchFacts))
    : res (list (Z * list PunchFacts)) :=
  match sizes with
  | [] => Ok valid
  | size :: sizes' =>
      if negb (zlen body mod size =? 0) then valid_layouts body sizes' valid else
      match decode_rows body size with
      | Raise DecodeError _ => valid_layouts body sizes' valid
      | Raise c m => Raise c m
      | Ok rows =>
          if bool_decide (1 < length (valid ++ [(size, rows)]))%nat
          then Raise DecodeError "AMBIGUOUS_LIVE_LAYOUT"
          else valid_layouts body sizes' (valid ++ [(size, rows)])
      end
  end.

Definition decode_live_packet (packet : bytes) (allowed_sizes : gset Z) (expected_session : option Z)
    : res LivePacket :=
  if negb ((8 <? zlen packet) && (zlen packet <=? PACKET_MAX))
  then Raise DecodeError "LIVE_PACKET_BOUNDARY" else
  if bool_decide (allowed_sizes = ∅) || negb (bool_decide (allowed_sizes ⊆ LIVE_SIZES))
  then Raise DecodeError "UNSUPPORTED_LIVE_PROFILE" else
  let command := le_int (slice 0 2 packet) in
  let checksum := le_int (slice 2 4 packet) in
  let session := le_int (slice 4 6 packet) in
  let reply := le_int (slice 6 8 packet) in
  if negb (command =? 500) || (session =? 0)
     || match expected_session with Some e => negb (session =? e) | None => false end
  then Raise DecodeError "LIVE_PACKET_SESSION_OR_COMMAND" else
  let body := drop 8 packet in
  valid ← valid_layouts body (sort_by id (elements allowed_sizes)) [];
  match valid with
  | [] => Raise DecodeError "NO_VALID_LIVE_LAYOUT"
  | (size, rows) :: _ => Ok (mkLivePacket session reply checksum size rows)
  end.

(** ** The clock: encoding and decoding are inverse *)

Lemma make_datetime_ok y m d h mi s tz t :
  make_datetime y m d h mi s tz = Ok t ↔ t = mkDT y m d h mi s 0 tz ∧ datetime_ok t = true.
Proof.
  unfold make_datetime. split.
  - intros H. inv_res H. by subst.
  - intros [-> ->]. done.
Qed.

(** The packed value of a terminal-local time. *)
Definition packed (t : datetime) : Z :=
  (((((year t - 2000) * 12 + (month t - 1)) * 31 + (day t - 1)) * 24 + hour t) * 60 + minute t) * 60
  + second t.

Definition profile_time (t : datetime) : Prop :=
  utcoffset t = Some PAKISTAN_TIME ∧ 2000 <= year t <= 2099 ∧ microsecond t = 0.

Lemma encode_time_ok t e : encode_time t = Ok e ↔ profile_time t ∧ e = packed t.
Proof.
  unfold encode_time, profile_time, packed. cbn [fold_left fst snd]. split.
  - intros H. inv_res H. bool_prop. auto.
  - intros [(-> & Hy & ->) ->]. rewrite bool_decide_eq_true_2 by done.
    rewrite (proj2 (Z.leb_le _ _)), (proj2 (Z.leb_le _ _)) by lia. done.
Qed.

Lemma encode_time_raise t c m : encode_time t = Raise c m → c = DecodeError.
Proof. unfold encode_time. intros H. inv_res H; congruence. Qed.

Lemma packed_range t : datetime_ok t = true → profile_time t → 0 <= packed t <= 0xFFFFFFFF.
Proof.
  unfold datetime_ok, date_ok, profile_time, packed. intros H (_ & Hy & _). bool_prop.
  pose proof (days_in_month_range (year t) (month t)). lia.
Qed.

(** The clock fields a packed value unpacks to. *)
Definition unpacked (e : Z) : datetime :=
  mkDT (2000 + e / 60 / 60 / 24 / 31 / 12) (e / 60 / 60 / 24 / 31 mod 12 + 1)
    (e / 60 / 60 / 24 mod 31 + 1) (e / 60 / 60 mod 24) (e / 60 mod 60) (e mod 60) 0
    (Some PAKISTAN_TIME).

Lemma unpacked_packed t :
  datetime_ok t = true → profile_time t → unpacked (packed t) = t.
Proof.
  unfold datetime_ok, date_ok, profile_time, packed, unpacked.
  destruct t as [y m d h mi s us off]. cbn [year month day hour minute second microsecond utcoffset].
  intros H (-> & Hy & ->). bool_prop. pose proof (days_in_month_range y m).
  rewrite !(Z.div_add_l _ 60), !(Z.div_small s), !Z.add_0_r by lia.
  rewrite !(Z.div_add_l _ 60), !(Z.div_small mi), !Z.add_0_r by lia.
  rewrite !(Z.div_add_l _ 24), !(Z.div_small h), !Z.add_0_r by lia.
  rewrite !(Z.div_add_l _ 31), !(Z.div_small (d - 1)), !Z.add_0_r by lia.
  rewrite !(Z.div_add_l _ 12), !(Z.div_small (m - 1)), !Z.add_0_r by lia.
  rewrite !(Z.add_comm (_ * _)), !Z.mod_add, !Z.mod_small by lia.
  f_equal; lia.
Qed.

Lemma decode_time_unfold e :
  decode_time e =
  if negb ((0 <=? e) && (e <=? 0xFFFFFFFF)) then Raise DecodeError "ENCODED_TIME_RANGE" else
  if datetime_ok (unpacked e) then
    e' ← encode_time (unpacked e);
    if negb (e' =? e) then Raise DecodeError "TIME_OUTSIDE_PROFILE"
    else Ok (unpacked e, to_utc (unpacked e))
  else Raise DecodeError "INVALID_CALENDAR_DATE".
Proof.
  unfold decode_time, make_datetime. cbn [fold_left fst snd app]. fold (unpacked e).
  destruct (negb _); [done|]. by destruct (datetime_ok (unpacked e)).
Qed.

Lemma decode_time_ok e l u :
  decode_time e = Ok (l, u) ↔ datetime_ok l = true ∧ encode_time l = Ok e ∧ u = to_utc l.
Proof.
  rewrite decode_time_unfold. split.
  - intros H. inv_res H. bool_prop. injection H as <- <-. subst. auto.
  - intros (Hok & He & ->). apply encode_time_ok in He as [Hp ->].
    pose proof (packed_range l Hok Hp). rewrite unpacked_packed, Hok by done.
    rewrite (proj2 (Z.leb_le 0 _)), (proj2 (Z.leb_le _ 0xFFFFFFFF)) by lia.
    rewrite (proj2 (encode_time_ok l (packed l))) by by split. simpl. by rewrite Z.eqb_refl.
Qed.

Definition time_errors : list string :=
  ["ENCODED_TIME_RANGE"; "INVALID_CALENDAR_DATE"; "TIME_OUTSIDE_PROFILE";
   "TERMINAL_LOCAL_TIME_REQUIRED"]%string.

Lemma encode_time_msg t c m : encode_time t = Raise c m → c = DecodeError ∧ m ∈ time_errors.
Proof.
  unfold encode_time. intros H. inv_res H; injection H as <- <-; (split; [done|]); set_solver.
Qed.

Lemma decode_time_msg e c m : decode_time e = Raise c m → c = DecodeError ∧ m ∈ time_errors.
Proof.
  rewrite decode_time_unfold. intros H. inv_step H; [injection H as <- <-; set_solver|].
  inv_step H; [|injection H as <- <-; set_solver].
  destruct (encode_time _) eqn:Ee; simpl in H.
  - inv_step H. injection H as <- <-. set_solver.
  - injection H as <- <-. by apply encode_time_msg in Ee.
Qed.

(** ** Order of packed values *)
Definition date_code (t : datetime) : Z :=
  ((year t - 2000) * 12 + (month t - 1)) * 31 + (day t - 1).
Definition time_of_day (t : datetime) : Z := 3600 * hour t + 60 * minute t + second t.

Lemma packed_split t : packed t = 86400 * date_code t + time_of_day t.
Proof. unfold packed, date_code, time_of_day. lia. Qed.

Lemma time_of_day_range t : datetime_ok t = true → 0 <= time_of_day t < 86400.
Proof. unfold datetime_ok, time_of_day. intros H. bool_prop. lia. Qed.

Lemma date_code_lt a b :
  datetime_ok a = true → datetime_ok b = true → date_code a < date_code b → date_lt a b.
Proof.
  unfold datetime_ok, date_ok, date_code, date_lt. intros Ha Hb Hlt. bool_prop.
  pose proof (days_in_month_range (year a) (month a)).
  pose proof (days_in_month_range (year b) (month b)). lia.
Qed.

Lemma date_code_eq a b :
  datetime_ok a = true → datetime_ok b = true → date_code a = date_code b →
  year a = year b ∧ month a = month b ∧ day a = day b.
Proof.
  unfold datetime_ok, date_ok, date_code. intros Ha Hb Heq. bool_prop.
  pose proof (days_in_month_range (year a) (month a)).
  pose proof (days_in_month_range (year b) (month b)). lia.
Qed.

Lemma datetime_ok_date t : datetime_ok t = true → date_ok (year t) (month t) (day t) = true.
Proof. unfold datetime_ok. intros H. by bool_prop. Qed.

Lemma packed_lt_wall a b :
  datetime_ok a = true → datetime_ok b = true → packed a < packed b → wall_seconds a < wall_seconds b.
Proof.
  intros Ha Hb Hlt. rewrite !packed_split in Hlt.
  pose proof (time_of_day_range a Ha). pose proof (time_of_day_range b Hb).
  unfold wall_seconds. fold (time_of_day a) (time_of_day b).
  destruct (Z.lt_trichotomy (date_code a) (date_code b)) as [Hd|[Hd|Hd]]; [| |lia].
  - pose proof (ordinal_lt a b (datetime_ok_date _ Ha) (datetime_ok_date _ Hb)
                  (date_code_lt a b Ha Hb Hd)). unfold time_of_day in *. lia.
  - destruct (date_code_eq a b Ha Hb Hd) as (-> & -> & ->). unfold time_of_day in *. lia.
Qed.

(** ** Records *)
Definition record_errors : list string :=
  "INVALID_USER_REFERENCE"%string :: time_errors.

Lemma text_id_msg raw c m : _text_id raw = Raise c m → c = DecodeError ∧ m ∈ record_errors.
Proof. unfold _text_id. intros H. inv_step H. injection H as <- <-. set_solver. Qed.

Lemma facts_msg u a e s p o l c m :
  _facts u a e s p o l = Raise c m → c = DecodeError ∧ m ∈ record_errors.
Proof.
  unfold _facts. destruct (decode_time e) as [[? ?]|] eqn:E; simpl; [done|].
  intros [= <- <-]. apply decode_time_msg in E as [? ?]. split; [done|]. set_solver.
Qed.

Lemma facts_ok u a e s p o l f :
  _facts u a e s p o l = Ok f ↔
  ∃ lt, datetime_ok lt = true ∧ encode_time lt = Ok e ∧ f = mkFacts u a e lt (to_utc lt) s p o l.
Proof.
  unfold _facts. split.
  - intros H. apply bind_ok in H as ([lt ut] & H & [= <-]).
    apply decode_time_ok in H as (? & ? & ->). eauto.
  - intros (lt & H1 & H2 & ->).
    rewrite (proj2 (decode_time_ok e lt (to_utc lt))) by done. done.
Qed.

Lemma decode_live_record_msg raw n o c m :
  decode_live_record raw n o = Raise c m →
  c = DecodeError ∧ m ∈ "LIVE_RECORD_BOUNDARY"%string :: record_errors.
Proof.
  unfold decode_live_record. intros H. inv_step H; [injection H as <- <-; set_solver|].
  match type of H with (?u ≫= _) = _ => destruct u as [user|c' m'] eqn:Eu end; simpl in H.
  - inv_step H; [|injection H as <- <-; set_solver].
    destruct (encode_time _) as [e|c' m'] eqn:Ee; simpl in H.
    + apply facts_msg in H as [? ?]. split; [done|]. set_solver.
    + injection H as <- <-. apply encode_time_msg in Ee as [? ?]. split; [done|]. set_solver.
  - injection H as <- <-. case_match; [done|]. apply text_id_msg in Eu as [? ?].
    split; [done|]. set_solver.
Qed.

Lemma decode_source_msg raw n o c m :
  decode_source raw n o = Raise c m → c = DecodeError ∧ m ∈ "SOURCE_RECORD_BOUNDARY"%string :: record_errors.
Proof.
  unfold decode_source. intros H. inv_step H; [injection H as <- <-; set_solver|].
  assert (∀ c m, c = DecodeError ∧ m ∈ record_errors →
          c = DecodeError ∧ m ∈ "SOURCE_RECORD_BOUNDARY"%string :: record_errors) as Hw.
  { intros ? ? [? ?]. split; [done|]. set_solver. }
  apply Hw. do 2 (inv_step H; [by eapply facts_msg|]).
  destruct (_text_id _) as [u|] eqn:Eu; simpl in H; [by eapply facts_msg|].
  injection H as <- <-. by apply text_id_msg in Eu.
Qed.

Lemma decode_source_shape raw n o f :
  decode_source raw n o = Ok f → facts_offset f = o ∧ facts_length f = n ∧ o >= 0 ∧ zlen raw = n.
Proof.
  unfold decode_source. intros H. inv_step H. bool_prop. subst n.
  repeat (inv_step H; bool_prop); apply facts_ok in H as (lt & _ & _ & ->); simpl; repeat split; lia.
Qed.

Lemma mapR_raise {A B} (f : A → res B) l c m :
  mapR f l = Raise c m → ∃ x, x ∈ l ∧ f x = Raise c m.
Proof.
  induction l as [|x l IH]; simpl; [done|]. destruct (f x) eqn:E; simpl.
  - destruct (mapR f l); simpl; [done|]. intros [= <- <-]. destruct IH as (y & ? & ?); [done|].
    exists y. set_solver.
  - intros [= <- <-]. exists x. set_solver.
Qed.

Lemma decode_rows_msg body n c m : decode_rows body n = Raise c m → c = DecodeError.
Proof. intros (s & _ & H)%mapR_raise. by apply decode_live_record_msg in H as [? _]. Qed.

(** The layouts a body decodes under, among the candidate sizes. *)
Definition layout_of (body : bytes) (size : Z) : option (Z * list PunchFacts) :=
  if zlen body mod size =? 0 then
    match decode_rows body size with Ok rows => Some (size, rows) | Raise _ _ => None end
  else None.

Lemma valid_layouts_spec body sizes valid :
  (length valid ≤ 1)%nat →
  valid_layouts body sizes valid =
  let all := valid ++ omap (layout_of body) sizes in
  if (length all <=? 1)%nat then Ok all else Raise DecodeError "AMBIGUOUS_LIVE_LAYOUT".
Proof.
  revert valid. induction sizes as [|n sizes IH]; intros valid Hv; cbn [valid_layouts omap list_omap].
  { simpl. rewrite app_nil_r. by rewrite (proj2 (Nat.leb_le _ _)). }
  simpl.
  assert (layout_of body n = if zlen body mod n =? 0 then
            match decode_rows body n with Ok rows => Some (n, rows) | Raise _ _ => None end
          else None) as -> by done.
  destruct (zlen body mod n =? 0); cbn [negb]; [|by apply IH].
  destruct (decode_rows body n) as [rows|c m] eqn:Er.
  - case_bool_decide as Hl; rewrite length_app in Hl; simpl in Hl.
    + rewrite (proj2 (Nat.leb_gt _ _)); [done|]. rewrite length_app. simpl. lia.
    + rewrite IH by (rewrite length_app; simpl; lia). by rewrite <- app_assoc.
  - apply decode_rows_msg in Er as ->. by apply IH.
Qed.

Lemma decode_live_record_shape raw n o f :
  decode_live_record raw n o = Ok f → facts_offset f = o ∧ facts_length f = n.
Proof.
  unfold decode_live_record. intros H. inv_step H. apply bind_ok in H as (u & _ & H).
  inv_step H. apply bind_ok in H as (e & _ & H). by apply facts_ok in H as (lt & _ & _ & ->).
Qed.

Lemma decode_rows_offsets body n rows :
  decode_rows body n = Ok rows →
  map facts_offset rows = map (Z.add 8) (py_range 0 (zlen body) n)
  ∧ Forall (λ f, facts_length f = n) rows.
Proof.
  unfold decode_rows. intros H%mapR_Forall2.
  induction H as [|s f ss fs [Ho Hl]%decode_live_record_shape _ [IH1 IH2]]; simpl; [done|].
  rewrite Ho, IH1. auto.
Qed.

(** ** Properties *)

(** the packed terminal clock round-trips: decoding succeeds exactly on
    the encodings of valid Pakistan-time clock values of 2000 to 2099 with no
    microseconds, gives back that value, and its UTC form is the same instant. *)
Theorem decode_time_roundtrip e l u :
  decode_time e = Ok (l, u) ↔
  datetime_ok l = true ∧ encode_time l = Ok e ∧ u = to_utc l ∧ instant u = instant l.
Proof.
  rewrite decode_time_ok. split; [|naive_solver].
  intros (Hok & He & ->). do 3 (split; [done|]).
  apply encode_time_ok in He as [(Hoff & _) _].
  by apply (to_utc_instant l PAKISTAN_TIME).
Qed.

(** Packed values order punches as time does: for two valid clock values
    the packed integers compare exactly as the instants they stand for, so
    equal packed values are the same second. *)
Theorem encode_time_order a b ea eb
    (Ha : datetime_ok a = true) (Hb : datetime_ok b = true)
    (Hea : encode_time a = Ok ea) (Heb : encode_time b = Ok eb) :
  ∃ ia ib, instant a = Some ia ∧ instant b = Some ib
    ∧ (ea < eb ↔ ia < ib) ∧ (ea = eb ↔ ia = ib) ∧ 0 <= ea < 2 ^ 32.
Proof.
  apply encode_time_ok in Hea as [Hpa ->], Heb as [Hpb ->].
  pose proof (packed_range a Ha Hpa).
  pose proof (packed_lt_wall a b Ha Hb). pose proof (packed_lt_wall b a Hb Ha).
  assert (packed a = packed b → wall_seconds a = wall_seconds b) as Heq.
  { intros He. by rewrite <- (unpacked_packed a), He, unpacked_packed. }
  destruct Hpa as (Hoa & _ & Hua), Hpb as (Hob & _ & Hub). unfold instant.
  rewrite Hoa, Hob, Hua, Hub. cbn [mbind option_bind]. do 2 eexists. split; [done|].
  split; [done|]. destruct (Z.lt_trichotomy (packed a) (packed b)) as [?|[?|?]]; lia.
Qed.

(** Decoding arbitrary bytes, of any length, size and offset, either
    succeeds or raises [DecodeError] with one of the fixed categories: no
    other exception and no text taken from the record leaves the decoder. *)
Theorem decode_source_total raw n o :
  match decode_source raw n o with
  | Ok f => facts_offset f = o ∧ facts_length f = n ∧ o >= 0 ∧ zlen raw = n
  | Raise c m => c = DecodeError ∧ m ∈ "SOURCE_RECORD_BOUNDARY"%string :: record_errors
  end.
Proof.
  destruct (decode_source raw n o) as [f|c m] eqn:H; [by apply decode_source_shape|by eapply decode_source_msg].
Qed.

(** A live packet is decoded only when exactly one of the allowed layouts
    explains its body; then the records tile the body from byte 8 in steps of
    that size, and a body two layouts explain is refused as ambiguous. *)
Theorem decode_live_packet_unique packet allowed es lp
    (H : decode_live_packet packet allowed es = Ok lp) :
  let body := drop 8 packet in
  record_size lp ∈ allowed ∧ allowed ⊆ LIVE_SIZES
  ∧ decode_rows body (record_size lp) = Ok (records lp)
  ∧ zlen body = zlen (records lp) * record_size lp
  ∧ map facts_offset (records lp) = py_range 8 (zlen packet) (record_size lp)
  ∧ (∀ n, n ∈ allowed → n ≠ record_size lp → layout_of body n = None).
Proof.
  unfold decode_live_packet in H. do 3 inv_step H. bool_prop.
  rewrite valid_layouts_spec in H by (simpl; lia). cbn [app] in H.
  remember (omap (layout_of (drop 8 packet)) (sort_by id (elements allowed))) as all eqn:Hall.
  case_match eqn:Hone; cbn [mbind res_bind] in H; [|done].
  apply Nat.leb_le in Hone. destruct all as [|[n rows] [|? ?]]; [done| |simpl in Hone; lia].
  injection H as <-. cbn [record_size records].
  assert (∀ k x, k ∈ allowed → layout_of (drop 8 packet) k = Some x → x = (n, rows)) as Huniq.
  { intros k x Hk Hx. apply list_elem_of_singleton. rewrite Hall.
    apply list_elem_of_omap. exists k. split; [|done]. rewrite sort_by_perm. set_solver. }
  assert ((n, rows) ∈ omap (layout_of (drop 8 packet)) (sort_by id (elements allowed))) as Hin
    by (rewrite <- Hall; set_solver).
  apply list_elem_of_omap in Hin as (k & Hk & Hlay). rewrite sort_by_perm in Hk.
  unfold layout_of in Hlay.
  do 2 (destruct_match Hlay; [|done]). injection Hlay as -> ->. bool_prop.
  assert (n ∈ allowed) as Hn by set_solver. split; [done|]. split; [done|]. split; [done|].
  destruct (decode_rows_offsets (drop 8 packet) n rows) as [Hoff _]; [done|].
  assert (0 < n) as Hpos by (assert (n ∈ LIVE_SIZES) by set_solver; unfold LIVE_SIZES in *; set_solver by lia).
  assert (zlen (drop 8 packet) = zlen packet - 8) as Hb by (unfold zlen in *; rewrite length_drop; lia).
  split; [|split].
  - apply (f_equal length) in Hoff. rewrite !length_map in Hoff.
    unfold zlen at 2. rewrite Hoff, py_range_exact; [done|lia|unfold zlen; lia|done].
  - rewrite Hoff. unfold py_range. rewrite map_map, Hb.
    replace (zlen packet - 8 - 0) with (zlen packet - 8) by lia.
    apply map_ext. intros i. lia.
  - intros k' Hk' Hne. destruct (layout_of (drop 8 packet) k') as [x|] eqn:Hx; [|done].
    exfalso. pose proof (Huniq k' x Hk' Hx) as ->. unfold layout_of in Hx.
    do 2 (destruct_match Hx; [|done]). congruence.
Qed.

(** ** Witnesses *)
Definition sample_clock (s : Z) : datetime := mkDT 2024 2 29 0 30 s 0 (Some PAKISTAN_TIME).

Lemma encode_time_order_witness :
  ∃ ia ib, instant (sample_clock 7) = Some ia ∧ instant (sample_clock 9) = Some ib
    ∧ (776478607 < 776478609 ↔ ia < ib) ∧ (776478607 = 776478609 ↔ ia = ib)
    ∧ 0 <= 776478607 < 2 ^ 32.
Proof. apply (encode_time_order (sample_clock 7) (sample_clock 9)); vm_compute; reflexivity. Defined.

(** One 12-byte live record: user 7, check-in, 2 January 2026 08:15:30. *)
Definition sample_live : bytes :=
  le_bytes 2 500 ++ le_bytes 2 0 ++ le_bytes 2 9 ++ le_bytes 2 1
  ++ le_bytes 4 7 ++ map bz [0; 1; 26; 1; 2; 8; 15; 30].

Lemma decode_live_packet_unique_witness :
  ∃ lp, decode_live_packet sample_live LIVE_SIZES (Some 9) = Ok lp
    ∧ zlen (drop 8 sample_live) = zlen (records lp) * record_size lp.
Proof.
  destruct (decode_live_packet sample_live LIVE_SIZES (Some 9)) as [lp|] eqn:E.
  - exists lp. split; [reflexivity|].
    pose proof (decode_live_packet_unique sample_live LIVE_SIZES (Some 9) lp E) as (_ & _ & _ & H & _).
    exact H.
  - exfalso. revert E. vm_compute. discriminate.
Defined.
