(* ===== verification/OccurrenceMatch.v ===== *)
(** * Live/history occurrence proposals (zkt_occurrence_match.py)

    [propose_matches] pairs live observations with source occurrences of one
    closed window. A dict of the source is an association list in insertion
    order, [source_keys]/[live_keys]; the grouping dicts [available] and
    [pending] are [gmap]s from a fact key to the identities that carry it. *)
From S2P Require Import Prelude PyText PyJson Calendar ZktDecode.

Definition MAX_WINDOW_RECORDS : Z := 2048.

Record MatchWindow := mkWindow {
  w_terminal_serial : string;
  w_source_epoch : string;
  start_ordinal : Z;
  end_ordinal : Z;
  source_chain_digest : string;
  evidence_revision : string;
  w_decoder_profile : string;
  w_decoder_version : string;
  source_record_size : Z;
  live_record_sizes : gset Z;
  profile_qualified : bool;
  source_complete : bool;
  live_complete : bool
}.

Record SourceOccurrence := mkSource {
  s_terminal_serial : string;
  s_source_epoch : string;
  s_ordinal : Z;
  s_raw_digest : string;
  s_decoder_profile : string;
  s_decoder_version : string;
  s_facts : option PunchFacts
}.

Record LiveObservation := mkLive {
  l_terminal_serial : string;
  l_source_epoch : string;
  l_work_key : string;
  l_record_offset : Z;
  l_raw_digest : string;
  l_decoder_profile : string;
  l_decoder_version : string;
  l_facts : PunchFacts
}.

Record Binding := mkBinding { b_observation_id : string; b_occurrence_id : string }.

Inductive match_state := PROPOSED | EXISTING | HELD.

Record MatchDecision := mkDecision {
  d_observation_id : string;
  d_state : match_state;
  d_reason : string;
  d_occurrence_id : option string;
  d_candidate_count : Z
}.

Record MatchPlan := mkPlan {
  p_evidence_revision : string;
  p_source_chain_digest : string;
  decisions : list MatchDecision;
  unbound_occurrences : list string
}.

(** ** Identities *)
Definition occurrence_id (serial epoch : string) (ordinal : Z) (raw_digest : string) : string :=
  digest (PList [PStr "zkt-occurrence-v1"; PStr serial; PStr epoch; PInt ordinal; PStr raw_digest]).

Definition source_identity (row : SourceOccurrence) : string :=
  occurrence_id (s_terminal_serial row) (s_source_epoch row) (s_ordinal row) (s_raw_digest row).

Definition live_identity (row : LiveObservation) : string :=
  digest (PList [PStr "zkt-live-punch-v1"; PStr (l_work_key row); PInt (l_record_offset row);
                 PStr (l_raw_digest row)]).

(** ** Fact keys *)
Abbreviation fact_key := (string * Z * Z * Z)%type.

Definition facts_valid (facts : PunchFacts) : bool :=
  bool_decide (encode_time (local_time facts) = Ok (encoded_time facts))
  && bool_decide (utcoffset (utc_time facts) = Some 0)
  && bool_decide (instant (utc_time facts) = instant (local_time facts))
  && (0 <=? status facts) && (status facts <=? 255)
  && (0 <=? punch facts) && (punch facts <=? 255).

Definition _fact_key (facts : PunchFacts) : res (option fact_key) :=
  if negb (facts_valid facts) then Raise MatchEvidenceError "INVALID_DECODED_FACTS" else
  match user_id facts with
  | None => Ok None
  | Some user =>
      if negb ((1 <=? zlen (chars user)) && (zlen (chars user) <=? 24))
         || negb (bool_decide (chars user = rstrip_bytes is_space (chars user)))
         || existsb (λ b, negb (in_range 32 126 b)) (chars user)
      then Raise MatchEvidenceError "INVALID_DECODED_USER_REFERENCE" else
      Ok (Some (user, encoded_time facts, status facts, punch facts))
  end.

(** ** The window *)
Definition window_bounds_bad (window : MatchWindow) (n_source n_live n_prior : Z) : bool :=
  negb (class_match (λ b, is_alnum b || one_of "._:-" b) 1 120 (w_terminal_serial window))
  || negb (EPOCH (w_source_epoch window))
  || negb ((0 <=? start_ordinal window) && (start_ordinal window <=? end_ordinal window)
           && (end_ordinal window <=? 2 ^ 31))
  || (MAX_WINDOW_RECORDS <? end_ordinal window - start_ordinal window)
  || existsb (λ n, MAX_WINDOW_RECORDS <? n) [n_source; n_live; n_prior]
  || negb (HEX64 (source_chain_digest window))
  || negb (HEX64 (evidence_revision window))
  || bool_decide (w_decoder_profile window ∉ MODEL_PROFILES.*2)
  || negb (bool_decide (w_decoder_version window = DECODER_VERSION))
  || bool_decide (source_record_size window ∉ SOURCE_SIZES)
  || bool_decide (live_record_sizes window = ∅)
  || negb (bool_decide (live_record_sizes window ⊆ LIVE_SIZES)).

(** ** The source loop *)
Record source_index := mkSourceIndex {
  source_by_id : list (string * SourceOccurrence);
  source_keys : list (string * option fact_key);
  ordinals : gset Z
}.

Definition source_row_bad (window : MatchWindow) (row : SourceOccurrence) : bool :=
  negb (bool_decide ((s_terminal_serial row, s_source_epoch row)
                     = (w_terminal_serial window, w_source_epoch window)))
  || negb (bool_decide ((s_decoder_profile row, s_decoder_version row)
                        = (w_decoder_profile window, w_decoder_version window)))
  || negb ((start_ordinal window <=? s_ordinal row) && (s_ordinal row <? end_ordinal window))
  || match s_facts row with
     | Some f => negb (facts_length f =? source_record_size window)
     | None => false
     end
  || negb (HEX64 (s_raw_digest row)).

Definition add_source (window : MatchWindow) (ix : source_index) (row : SourceOccurrence)
    : res source_index :=
  if source_row_bad window row then Raise MatchEvidenceError "SOURCE_WINDOW_BINDING" else
  if bool_decide (s_ordinal row ∈ ordinals ix)
     || bool_decide (source_identity row ∈ (source_by_id ix).*1)
  then Raise MatchEvidenceError "DUPLICATE_SOURCE_COORDINATES" else
  key ← match s_facts row with Some f => _fact_key f | None => Ok None end;
  Ok (mkSourceIndex (assoc_set (source_identity row) row (source_by_id ix))
        (assoc_set (source_identity row) key (source_keys ix))
        ({[s_ordinal row]} ∪ ordinals ix)).

(** ** The live loop *)
Record live_index := mkLiveIndex {
  live_by_id : list (string * LiveObservation);
  live_keys : list (string * option fact_key)
}.

Definition live_row_bad (window : MatchWindow) (row : LiveObservation) : bool :=
  negb (bool_decide ((l_terminal_serial row, l_source_epoch row)
                     = (w_terminal_serial window, w_source_epoch window)))
  || negb (bool_decide ((l_decoder_profile row, l_decoder_version row)
                        = (w_decoder_profile window, w_decoder_version window)))
  || negb (HEX64 (l_work_key row))
  || negb (HEX64 (l_raw_digest row))
  || negb ((0 <=? l_record_offset row) && (l_record_offset row <? 65536))
  || negb (facts_offset (l_facts row) =? l_record_offset row)
  || bool_decide (facts_length (l_facts row) ∉ live_record_sizes window)
  || (65536 <? l_record_offset row + facts_length (l_facts row)).

Definition add_live (window : MatchWindow) (ix : live_index) (row : LiveObservation)
    : res live_index :=
  if live_row_bad window row then Raise MatchEvidenceError "LIVE_WINDOW_BINDING" else
  if bool_decide (live_identity row ∈ (live_by_id ix).*1)
  then Raise MatchEvidenceError "DUPLICATE_LIVE_OBSERVATION" else
  key ← _fact_key (l_facts row);
  Ok (mkLiveIndex (assoc_set (live_identity row) row (live_by_id ix))
        (assoc_set (live_identity row) key (live_keys ix))).

(** ** Prior bindings *)
Record bound := mkBound { bound_live : list (string * string); bound_source : gset string }.

Definition add_prior (sk lk : list (string * option fact_key)) (b : bound) (row : Binding) : res bound :=
  let o := b_observation_id row in
  let s := b_occurrence_id row in
  if bool_decide (o ∉ lk.*1) || bool_decide (s ∉ sk.*1)
     || bool_decide (assoc o lk = Some None)
     || negb (bool_decide (assoc o lk = assoc s sk))
     || bool_decide (o ∈ (bound_live b).*1) || bool_decide (s ∈ bound_source b)
  then Raise MatchEvidenceError "PRIOR_BINDING_CONFLICT" else
  Ok (mkBound (assoc_set o s (bound_live b)) ({[s]} ∪ bound_source b)).

(** ** Decisions *)
Definition gate_reason (window : MatchWindow) (sk : list (string * option fact_key)) : option string :=
  if negb (profile_qualified window) then Some "PROFILE_QUALIFICATION_REQUIRED"%string else
  if negb (source_complete window) then Some "SOURCE_WINDOW_INCOMPLETE"%string else
  if negb (live_complete window) then Some "LIVE_WINDOW_INCOMPLETE"%string else
  if existsb (λ kv, bool_decide (kv.2 = None)) sk
  then Some "SOURCE_WINDOW_HAS_UNRESOLVED_FACTS"%string else None.

(** [defaultdict(list)]: the identities not yet bound, grouped by key. *)
Definition group_keys (skip : string → bool) (ks : list (string * option fact_key))
    : gmap fact_key (list string) :=
  fold_left (λ m kv,
    match kv.2 with
    | Some k => if skip kv.1 then m else <[k := default [] (m !! k) ++ [kv.1]]> m
    | None => m
    end) ks ∅.

Definition hold_reason (gate : option string) (key : option fact_key) (candidates rivals : list string)
    (known : bool) : option string :=
  match gate with
  | Some g => Some g
  | None =>
      match key with
      | None => Some "MISSING_USER_REFERENCE"%string
      | Some _ =>
          if bool_decide (candidates = []) && known then Some "SOURCE_OCCURRENCE_ALREADY_BOUND"%string
          else if bool_decide (candidates = []) then Some "NO_SOURCE_CANDIDATE"%string
          else if bool_decide (1 < length candidates)%nat then Some "AMBIGUOUS_SOURCE_OCCURRENCES"%string
          else if bool_decide (1 < length rivals)%nat then Some "COMPETING_LIVE_OBSERVATIONS"%string
          else None
      end
  end.

Definition bucket (m : gmap fact_key (list string)) (key : option fact_key) : list string :=
  match key with Some k => default [] (m !! k) | None => [] end.

Definition decide_live (gate : option string) (bl : list (string * string))
    (available pending : gmap fact_key (list string)) (sk : list (string * option fact_key))
    (entry : string * option fact_key) : MatchDecision :=
  let '(identity, key) := entry in
  match assoc identity bl with
  | Some occurrence => mkDecision identity EXISTING "RETAINED_BINDING" (Some occurrence) 0
  | None =>
      let candidates := bucket available key in
      match hold_reason gate key candidates (bucket pending key) (bool_decide (key ∈ sk.*2)) with
      | Some reason => mkDecision identity HELD reason None (zlen candidates)
      | None =>
          mkDecision identity PROPOSED "UNIQUE_FULL_FACTS_IN_CLOSED_WINDOW" (head candidates) 1
      end
  end.

(** The occurrences the loop adds to [proposed_source]. *)
Definition proposed_of (d : MatchDecision) : option string :=
  match d_state d with PROPOSED => d_occurrence_id d | _ => None end.

Definition propose_matches (window : MatchWindow) (source : list SourceOccurrence)
    (live : list LiveObservation) (prior : list Binding) : res MatchPlan :=
  if window_bounds_bad window (zlen source) (zlen live) (zlen prior)
  then Raise MatchEvidenceError "MATCH_WINDOW_BOUNDS" else
  six ← foldR (add_source window) source (mkSourceIndex [] [] ∅);
  if negb (zlen source =? end_ordinal window - start_ordinal window)
  then Raise MatchEvidenceError "SOURCE_ORDINAL_GAP" else
  lix ← foldR (add_live window) live (mkLiveIndex [] []);
  b ← foldR (add_prior (source_keys six) (live_keys lix)) prior (mkBound [] ∅);
  let gate := gate_reason window (source_keys six) in
  let available := group_keys (λ i, bool_decide (i ∈ bound_source b)) (source_keys six) in
  let pending := group_keys (λ i, bool_decide (i ∈ (bound_live b).*1)) (live_keys lix) in
  let ds := map (decide_live gate (bound_live b) available pending (source_keys six)) (live_keys lix) in
  let taken := bound_source b ∪ list_to_set (omap proposed_of ds) in
  Ok (mkPlan (evidence_revision window) (source_chain_digest window) ds
        (filter (λ i, i ∉ taken) (source_by_id six).*1)).

(** ** What the loops compute *)

Definition source_entry (row : SourceOccurrence) : res (string * option fact_key) :=
  key ← match s_facts row with Some f => _fact_key f | None => Ok None end;
  Ok (source_identity row, key).

Definition live_entry (row : LiveObservation) : res (string * option fact_key) :=
  key ← _fact_key (l_facts row); Ok (live_identity row, key).

Lemma source_entry_fst rows ks : mapR source_entry rows = Ok ks → ks.*1 = map source_identity rows.
Proof.
  intros H%mapR_Forall2. induction H as [|r k rows ks Hk _ IH]; simpl; [done|].
  unfold source_entry in Hk. inv_res Hk. subst k. by f_equal.
Qed.

Lemma live_entry_fst rows ks : mapR live_entry rows = Ok ks → ks.*1 = map live_identity rows.
Proof.
  intros H%mapR_Forall2. induction H as [|r k rows ks Hk _ IH]; simpl; [done|].
  unfold live_entry in Hk. inv_res Hk. subst k. by f_equal.
Qed.

Definition source_loop_post (w : MatchWindow) (rows : list SourceOccurrence) (ix : source_index) : Prop :=
  Forall (λ r, source_row_bad w r = false) rows
  ∧ NoDup (map s_ordinal rows) ∧ NoDup (map source_identity rows)
  ∧ mapR source_entry rows = Ok (source_keys ix)
  ∧ source_by_id ix = map (λ r, (source_identity r, r)) rows
  ∧ ordinals ix = list_to_set (map s_ordinal rows).

Lemma source_by_id_fst rows : (map (λ r, (source_identity r, r)) rows).*1 = map source_identity rows.
Proof. induction rows; simpl; [done|]. by f_equal. Qed.

Lemma add_source_step w dn x ix ix' :
  source_loop_post w dn ix →
  add_source w ix x = Ok ix' ↔
  source_row_bad w x = false
  ∧ (s_ordinal x ∉ map s_ordinal dn) ∧ (source_identity x ∉ map source_identity dn)
  ∧ ∃ key, source_entry x = Ok (source_identity x, key)
    ∧ ix' = mkSourceIndex (source_by_id ix ++ [(source_identity x, x)])
              (source_keys ix ++ [(source_identity x, key)]) ({[s_ordinal x]} ∪ ordinals ix).
Proof.
  intros (_ & _ & _ & Hks & Hby & Hord). unfold add_source, source_entry.
  rewrite Hby, Hord, source_by_id_fst. apply source_entry_fst in Hks.
  split.
  - intros H. inv_step H. inv_step H. inv_step H. bool_prop. injection H as <-.
    rewrite elem_of_list_to_set in *.
    rewrite !assoc_set_fresh by by rewrite ?Hks, ?source_by_id_fst.
    repeat split; try done. eexists. rewrite Ha. done.
  - intros (-> & Ho & Hi & key & Hk & ->).
    rewrite !bool_decide_eq_false_2 by (by rewrite ?elem_of_list_to_set). simpl.
    inv_res Hk. simplify_eq. rewrite Ha. simpl.
    by rewrite !assoc_set_fresh by by rewrite ?Hks, ?source_by_id_fst.
Qed.

Lemma source_loop_snoc w dn x ix ix' :
  source_loop_post w dn ix → add_source w ix x = Ok ix' → source_loop_post w (dn ++ [x]) ix'.
Proof.
  intros Hpost Hx. pose proof Hpost as (Hf & Hno & Hni & Hks & Hby & Hord).
  apply (add_source_step w dn) in Hx as (Hb & Ho & Hi & key & Hk & ->); [|done].
  unfold source_loop_post. cbn [source_keys source_by_id ordinals]. rewrite !map_app.
  split; [by apply Forall_app; auto|].
  split; [apply NoDup_app; simpl; split; [done|]; split; [set_solver|]; apply NoDup_singleton|].
  split; [apply NoDup_app; simpl; split; [done|]; split; [set_solver|]; apply NoDup_singleton|].
  split; [eapply mapR_app; [done|]; simpl; by rewrite Hk|].
  split; [by rewrite Hby|]. rewrite Hord, list_to_set_app_L. set_solver.
Qed.

Lemma source_loop_nil w : source_loop_post w [] (mkSourceIndex [] [] ∅).
Proof. repeat split; simpl; try done; constructor. Qed.

Lemma source_loop_ok w rows ix :
  foldR (add_source w) rows (mkSourceIndex [] [] ∅) = Ok ix ↔ source_loop_post w rows ix.
Proof.
  split.
  - apply (foldR_inv _ (source_loop_post w)); [apply source_loop_nil|].
    intros dn x s0 s1. apply source_loop_snoc.
  - revert ix. induction rows as [|x rows IH] using rev_ind; intros ix Hpost.
    { destruct Hpost as (_ & _ & _ & Hk & Hby & Ho). destruct ix; simpl in *. by simplify_eq. }
    pose proof Hpost as (Hf & Hno & Hni & Hks & Hby & Hord).
    rewrite !map_app in *. apply Forall_app in Hf as [Hf [Hfx _]%Forall_cons].
    apply NoDup_app in Hno as (Hno & Hxo & _), Hni as (Hni & Hxi & _).
    apply mapR_Forall2, Forall2_app_inv_l in Hks as (ks & kx & Hks & Hkx & Hk).
    inversion Hkx as [|? [i key] ? ? Hxk Hnil]; subst. inversion Hnil; subst.
    assert (i = source_identity x) as -> by (unfold source_entry in Hxk; inv_res Hxk; congruence).
    apply mapR_Forall2 in Hks.
    assert (source_loop_post w rows (mkSourceIndex (map (λ r, (source_identity r, r)) rows) ks
              (list_to_set (map s_ordinal rows)))) as Hpre by (repeat split; done).
    rewrite foldR_app, (IH _ Hpre). simpl.
    rewrite (proj2 (add_source_step w rows x _ ix Hpre)); [done|].
    split; [exact Hfx|]. split; [set_solver|]. split; [set_solver|]. exists key. split; [done|].
    destruct ix; simpl in *. subst. f_equal. rewrite list_to_set_app_L. simpl. set_solver.
Qed.

Definition live_loop_post (w : MatchWindow) (rows : list LiveObservation) (ix : live_index) : Prop :=
  Forall (λ r, live_row_bad w r = false) rows ∧ NoDup (map live_identity rows)
  ∧ mapR live_entry rows = Ok (live_keys ix)
  ∧ live_by_id ix = map (λ r, (live_identity r, r)) rows.

Lemma live_by_id_fst rows : (map (λ r, (live_identity r, r)) rows).*1 = map live_identity rows.
Proof. induction rows; simpl; [done|]. by f_equal. Qed.

Lemma add_live_step w dn x ix ix' :
  live_loop_post w dn ix →
  add_live w ix x = Ok ix' ↔
  live_row_bad w x = false ∧ (live_identity x ∉ map live_identity dn)
  ∧ ∃ key, live_entry x = Ok (live_identity x, key)
    ∧ ix' = mkLiveIndex (live_by_id ix ++ [(live_identity x, x)]) (live_keys ix ++ [(live_identity x, key)]).
Proof.
  intros (_ & _ & Hks & Hby). unfold add_live, live_entry. rewrite Hby, live_by_id_fst.
  apply live_entry_fst in Hks. split.
  - intros H. do 3 inv_step H. bool_prop. injection H as <-.
    rewrite !assoc_set_fresh by by rewrite ?Hks, ?live_by_id_fst.
    repeat split; try done. eexists. rewrite Ha. done.
  - intros (-> & Hi & key & Hk & ->). rewrite bool_decide_eq_false_2 by done.
    inv_res Hk. simplify_eq. rewrite Ha. simpl.
    by rewrite !assoc_set_fresh by by rewrite ?Hks, ?live_by_id_fst.
Qed.

Lemma live_loop_ok w rows ix :
  foldR (add_live w) rows (mkLiveIndex [] []) = Ok ix ↔ live_loop_post w rows ix.
Proof.
  split.
  - apply (foldR_inv _ (live_loop_post w)); [repeat split; simpl; try done; constructor|].
    intros dn x s0 s1 Hpost Hx. pose proof Hpost as (Hf & Hni & Hks & Hby).
    apply (add_live_step w dn) in Hx as (Hb & Hi & key & Hk & ->); [|done].
    unfold live_loop_post. cbn [live_keys live_by_id]. rewrite !map_app.
    split; [by apply Forall_app; auto|].
    split; [apply NoDup_app; simpl; split; [done|]; split; [set_solver|]; apply NoDup_singleton|].
    split; [eapply mapR_app; [done|]; simpl; by rewrite Hk|]. by rewrite Hby.
  - revert ix. induction rows as [|x rows IH] using rev_ind; intros ix Hpost.
    { destruct Hpost as (_ & _ & Hk & Hby). destruct ix; simpl in *. by simplify_eq. }
    pose proof Hpost as (Hf & Hni & Hks & Hby). rewrite !map_app in *.
    apply Forall_app in Hf as [Hf [Hfx _]%Forall_cons]. apply NoDup_app in Hni as (Hni & Hxi & _).
    apply mapR_Forall2, Forall2_app_inv_l in Hks as (ks & kx & Hks & Hkx & Hk).
    inversion Hkx as [|? [i key] ? ? Hxk Hnil]; subst. inversion Hnil; subst.
    assert (i = live_identity x) as -> by (unfold live_entry in Hxk; inv_res Hxk; congruence).
    apply mapR_Forall2 in Hks.
    assert (live_loop_post w rows (mkLiveIndex (map (λ r, (live_identity r, r)) rows) ks)) as Hpre
      by (repeat split; done).
    rewrite foldR_app, (IH _ Hpre). simpl.
    rewrite (proj2 (add_live_step w rows x _ ix Hpre)); [done|].
    split; [done|]. split; [set_solver|]. exists key. split; [done|].
    destruct ix; simpl in *. by subst.
Qed.

(** ** Prior bindings *)
Definition prior_row_ok (sk lk : list (string * option fact_key)) (row : Binding) : Prop :=
  ∃ k, assoc (b_observation_id row) lk = Some (Some k) ∧ assoc (b_occurrence_id row) sk = Some (Some k).

Definition prior_loop_post sk lk (rows : list Binding) (b : bound) : Prop :=
  Forall (prior_row_ok sk lk) rows
  ∧ NoDup (map b_observation_id rows) ∧ NoDup (map b_occurrence_id rows)
  ∧ bound_live b = map (λ r, (b_observation_id r, b_occurrence_id r)) rows
  ∧ bound_source b = list_to_set (map b_occurrence_id rows).

Lemma bound_live_fst rows :
  (map (λ r, (b_observation_id r, b_occurrence_id r)) rows).*1 = map b_observation_id rows.
Proof. induction rows; simpl; [done|]. by f_equal. Qed.

Lemma add_prior_step sk lk dn x b b' :
  prior_loop_post sk lk dn b →
  add_prior sk lk b x = Ok b' ↔
  prior_row_ok sk lk x ∧ (b_observation_id x ∉ map b_observation_id dn)
  ∧ (b_occurrence_id x ∉ map b_occurrence_id dn)
  ∧ b' = mkBound (bound_live b ++ [(b_observation_id x, b_occurrence_id x)])
           ({[b_occurrence_id x]} ∪ bound_source b).
Proof.
  intros (_ & _ & _ & Hbl & Hbs). unfold add_prior, prior_row_ok.
  rewrite Hbl, Hbs, bound_live_fst. split.
  - intros H. inv_step H. bool_prop. injection H as <-.
    rewrite elem_of_list_to_set in *.
    rewrite assoc_set_fresh by by rewrite bound_live_fst. split; [|done].
    destruct (assoc (b_observation_id x) lk) as [[k|]|] eqn:Ek; [eauto|done|].
    apply assoc_None in Ek. tauto.
  - intros ((k & Hl & Hs) & Ho & Hi & ->). rewrite Hl, Hs.
    rewrite (bool_decide_eq_false_2 (b_observation_id x ∉ lk.*1)),
      (bool_decide_eq_false_2 (b_occurrence_id x ∉ sk.*1)).
    + rewrite bool_decide_eq_false_2, bool_decide_eq_true_2, !bool_decide_eq_false_2 by set_solver.
      simpl. by rewrite assoc_set_fresh by by rewrite bound_live_fst.
    + intros Hn%assoc_None. congruence.
    + intros Hn%assoc_None. congruence.
Qed.

Lemma prior_loop_ok sk lk rows b :
  foldR (add_prior sk lk) rows (mkBound [] ∅) = Ok b ↔ prior_loop_post sk lk rows b.
Proof.
  split.
  - apply (foldR_inv _ (prior_loop_post sk lk)); [repeat split; simpl; try done; constructor|].
    intros dn x s0 s1 Hpost Hx. pose proof Hpost as (Hf & Hno & Hni & Hbl & Hbs).
    apply (add_prior_step sk lk dn) in Hx as (Hb & Ho & Hi & ->); [|done].
    unfold prior_loop_post. cbn [bound_live bound_source]. rewrite !map_app.
    split; [by apply Forall_app; auto|].
    split; [apply NoDup_app; simpl; split; [done|]; split; [set_solver|]; apply NoDup_singleton|].
    split; [apply NoDup_app; simpl; split; [done|]; split; [set_solver|]; apply NoDup_singleton|].
    split; [by rewrite Hbl|]. rewrite Hbs, list_to_set_app_L. set_solver.
  - revert b. induction rows as [|x rows IH] using rev_ind; intros b Hpost.
    { destruct Hpost as (_ & _ & _ & Hbl & Hbs). destruct b; simpl in *. by simplify_eq. }
    pose proof Hpost as (Hf & Hno & Hni & Hbl & Hbs). rewrite !map_app in *.
    apply Forall_app in Hf as [Hf [Hfx _]%Forall_cons].
    apply NoDup_app in Hno as (Hno & Hxo & _), Hni as (Hni & Hxi & _).
    assert (prior_loop_post sk lk rows
              (mkBound (map (λ r, (b_observation_id r, b_occurrence_id r)) rows)
                       (list_to_set (map b_occurrence_id rows)))) as Hpre by (repeat split; done).
    rewrite foldR_app, (IH _ Hpre). simpl.
    rewrite (proj2 (add_prior_step sk lk rows x _ b Hpre)); [done|].
    split; [done|]. split; [set_solver|]. split; [set_solver|].
    destruct b; simpl in *. subst. f_equal. rewrite list_to_set_app_L. simpl. set_solver.
Qed.

(** ** Buckets *)

(** The identities of a key that are not skipped, in dict order. *)
Definition carriers (skip : string → bool) (k : fact_key) (ks : list (string * option fact_key)) : list string :=
  omap (λ kv, if bool_decide (kv.2 = Some k) && negb (skip kv.1) then Some kv.1 else None) ks.

Lemma group_keys_lookup skip ks k :
  default [] (group_keys skip ks !! k) = carriers skip k ks.
Proof.
  induction ks as [|[i o] ks IH] using rev_ind; [done|].
  unfold group_keys, carriers in *. rewrite fold_left_app, omap_app, <- IH. simpl.
  destruct o as [k'|]; simpl; [|by rewrite app_nil_r].
  destruct (skip i); simpl.
  - rewrite andb_false_r. by rewrite app_nil_r.
  - rewrite andb_true_r, lookup_insert. case_decide as E; [subst k'|].
    + by rewrite bool_decide_eq_true_2.
    + rewrite bool_decide_eq_false_2 by congruence. by rewrite app_nil_r.
Qed.

Lemma elem_of_carriers skip k ks i :
  i ∈ carriers skip k ks ↔ (i, Some k) ∈ ks ∧ skip i = false.
Proof.
  unfold carriers. rewrite list_elem_of_omap. split.
  - intros ([j o] & Hin & H). simpl in H. destruct_match H; [|done].
    injection H as ->. bool_prop. simpl in *. by subst.
  - intros [Hin Hs]. exists (i, Some k). split; [done|]. simpl. by rewrite bool_decide_eq_true_2, Hs.
Qed.

Lemma carriers_perm skip k ks ks' : ks ≡ₚ ks' → carriers skip k ks ≡ₚ carriers skip k ks'.
Proof. intros H. unfold carriers. by rewrite H. Qed.

Lemma carriers_ext skip skip' k ks :
  (∀ i, skip i = skip' i) → carriers skip k ks = carriers skip' k ks.
Proof.
  intros H. unfold carriers. apply list_omap_ext.
  apply Forall2_same_length_lookup_2; [done|]. intros n x y Hx Hy.
  assert (x = y) as -> by congruence. by rewrite H.
Qed.

(** ** The plan as a function of the checked inputs *)
Section plan.
Context (w : MatchWindow) (sk lk : list (string * option fact_key)) (prior : list Binding).

Definition bl : list (string * string) := map (λ r, (b_observation_id r, b_occurrence_id r)) prior.
Definition avail (k : fact_key) : list string :=
  carriers (λ i, bool_decide (i ∈ map b_occurrence_id prior)) k sk.
Definition pend (k : fact_key) : list string :=
  carriers (λ i, bool_decide (i ∈ map b_observation_id prior)) k lk.

Definition decision_for (entry : string * option fact_key) : MatchDecision :=
  let '(identity, key) := entry in
  match assoc identity bl with
  | Some occurrence => mkDecision identity EXISTING "RETAINED_BINDING" (Some occurrence) 0
  | None =>
      let candidates := match key with Some k => avail k | None => [] end in
      let rivals := match key with Some k => pend k | None => [] end in
      match hold_reason (gate_reason w sk) key candidates rivals (bool_decide (key ∈ sk.*2)) with
      | Some reason => mkDecision identity HELD reason None (zlen candidates)
      | None => mkDecision identity PROPOSED "UNIQUE_FULL_FACTS_IN_CLOSED_WINDOW" (head candidates) 1
      end
  end.

Definition plan_decisions : list MatchDecision := map decision_for lk.
Definition plan_taken : gset string :=
  list_to_set (map b_occurrence_id prior) ∪ list_to_set (omap proposed_of plan_decisions).

Lemma decide_live_for b e :
  prior_loop_post sk lk prior b →
  decide_live (gate_reason w sk) (bound_live b)
    (group_keys (λ i, bool_decide (i ∈ bound_source b)) sk)
    (group_keys (λ i, bool_decide (i ∈ (bound_live b).*1)) lk) sk e = decision_for e.
Proof.
  intros (_ & _ & _ & Hbl & Hbs). destruct e as [i key]. unfold decide_live, decision_for, bl.
  rewrite Hbl, Hbs, bound_live_fst. destruct (assoc i _); [done|].
  assert (∀ o, bucket (group_keys (λ i, bool_decide (i ∈ (list_to_set (map b_occurrence_id prior) : gset string))) sk) o
               = match o with Some k => avail k | None => [] end) as ->.
  { intros [k|]; [|done]. simpl. rewrite group_keys_lookup. apply carriers_ext.
    intros j. apply bool_decide_ext. by rewrite elem_of_list_to_set. }
  assert (∀ o, bucket (group_keys (λ i, bool_decide (i ∈ map b_observation_id prior)) lk) o
               = match o with Some k => pend k | None => [] end) as ->.
  { intros [k|]; [|done]. simpl. by rewrite group_keys_lookup. }
  done.
Qed.
End plan.

(** [propose_matches] succeeds exactly on checked inputs, with the plan of their keys. *)
Definition match_run (w : MatchWindow) (source : list SourceOccurrence) (live : list LiveObservation)
    (prior : list Binding) (sk lk : list (string * option fact_key)) : Prop :=
  window_bounds_bad w (zlen source) (zlen live) (zlen prior) = false
  ∧ Forall (λ r, source_row_bad w r = false) source ∧ NoDup (map s_ordinal source)
  ∧ NoDup (map source_identity source) ∧ mapR source_entry source = Ok sk
  ∧ zlen source = end_ordinal w - start_ordinal w
  ∧ Forall (λ r, live_row_bad w r = false) live ∧ NoDup (map live_identity live)
  ∧ mapR live_entry live = Ok lk
  ∧ Forall (prior_row_ok sk lk) prior
  ∧ NoDup (map b_observation_id prior) ∧ NoDup (map b_occurrence_id prior).

Lemma propose_ok w source live prior plan :
  propose_matches w source live prior = Ok plan ↔
  ∃ sk lk, match_run w source live prior sk lk
    ∧ plan = mkPlan (evidence_revision w) (source_chain_digest w)
               (plan_decisions w sk lk prior)
               (filter (λ i, i ∉ plan_taken w sk lk prior) (map source_identity source)).
Proof.
  unfold propose_matches. split.
  - intros H. inv_step H. inv_step H. inv_step H. inv_step H. inv_step H. injection H as <-.
    apply source_loop_ok in Ha. apply live_loop_ok in Ha0. apply prior_loop_ok in Ha1.
    destruct Ha as (Hs1 & Hs2 & Hs3 & Hs4 & Hs5 & _). destruct Ha0 as (Hl1 & Hl2 & Hl3 & _).
    pose proof Ha1 as (Hp1 & Hp2 & Hp3 & _ & Hp5). bool_prop.
    exists (source_keys a), (live_keys a0). split; [repeat split; done|].
    assert (map (decide_live (gate_reason w (source_keys a)) (bound_live a1)
              (group_keys (λ i, bool_decide (i ∈ bound_source a1)) (source_keys a))
              (group_keys (λ i, bool_decide (i ∈ (bound_live a1).*1)) (live_keys a0))
              (source_keys a)) (live_keys a0)
            = plan_decisions w (source_keys a) (live_keys a0) prior) as Hd.
    { apply map_ext. intros e. by apply decide_live_for. }
    rewrite Hd, Hs5, source_by_id_fst, Hp5. done.
  - intros (sk & lk & (Hw & Hs1 & Hs2 & Hs3 & Hs4 & Hn & Hl1 & Hl2 & Hl3 & Hp1 & Hp2 & Hp3) & ->).
    rewrite Hw.
    rewrite (proj2 (source_loop_ok w source
      (mkSourceIndex (map (λ r, (source_identity r, r)) source) sk (list_to_set (map s_ordinal source)))))
      by (repeat split; done).
    cbn [mbind res_bind source_keys source_by_id]. rewrite Hn, Z.eqb_refl. cbn [negb].
    rewrite (proj2 (live_loop_ok w live (mkLiveIndex (map (λ r, (live_identity r, r)) live) lk)))
      by (repeat split; done).
    cbn [mbind res_bind live_keys].
    assert (prior_loop_post sk lk prior
              (mkBound (map (λ r, (b_observation_id r, b_occurrence_id r)) prior)
                       (list_to_set (map b_occurrence_id prior)))) as Hb by (repeat split; done).
    rewrite (proj2 (prior_loop_ok sk lk prior _) Hb). cbn [mbind res_bind].
    rewrite source_by_id_fst. f_equal. f_equal.
    + apply map_ext. intros e. by apply decide_live_for.
    + unfold plan_taken, plan_decisions. cbn [bound_source].
      rewrite (map_ext _ _ (λ e, decide_live_for w sk lk prior _ e Hb)). done.
Qed.

(** ** Facts about a run *)
Section run.
Context (w : MatchWindow) (source : list SourceOccurrence) (live : list LiveObservation)
  (prior : list Binding) (sk lk : list (string * option fact_key)).
Hypothesis Hrun : match_run w source live prior sk lk.

Lemma run_sk_ids : sk.*1 = map source_identity source.
Proof. apply source_entry_fst. apply Hrun. Qed.
Lemma run_lk_ids : lk.*1 = map live_identity live.
Proof. apply live_entry_fst. apply Hrun. Qed.
Lemma run_sk_nodup : NoDup sk.*1.
Proof. rewrite run_sk_ids. apply Hrun. Qed.
Lemma run_lk_nodup : NoDup lk.*1.
Proof. rewrite run_lk_ids. apply Hrun. Qed.

Lemma run_key_unique i k k' : (i, k) ∈ sk → (i, k') ∈ sk → k = k'.
Proof.
  intros H1%(elem_assoc _ _ _ run_sk_nodup) H2%(elem_assoc _ _ _ run_sk_nodup). congruence.
Qed.

Lemma prior_row r : r ∈ prior → prior_row_ok sk lk r.
Proof.
  destruct Hrun as (_ & _ & _ & _ & _ & _ & _ & _ & _ & Hp & _).
  rewrite Forall_forall in Hp. apply Hp.
Qed.

Lemma bl_lookup i s :
  assoc i (bl prior) = Some s ↔ ∃ r, r ∈ prior ∧ b_observation_id r = i ∧ b_occurrence_id r = s.
Proof.
  unfold bl. split.
  - intros (r & [= -> ->] & Hr)%assoc_elem%list_elem_of_fmap. eauto.
  - intros (r & Hr & <- & <-). apply elem_assoc.
    + rewrite bound_live_fst. apply Hrun.
    + apply list_elem_of_fmap. eauto.
Qed.

Lemma bl_None i : assoc i (bl prior) = None ↔ i ∉ map b_observation_id prior.
Proof. unfold bl. by rewrite assoc_None, bound_live_fst. Qed.

(** A decision that proposes: the open gate and the singleton buckets. *)
Lemma proposed_inv i key :
  d_state (decision_for w sk lk prior (i, key)) = PROPOSED →
  ∃ k occ, key = Some k ∧ d_occurrence_id (decision_for w sk lk prior (i, key)) = Some occ
    ∧ gate_reason w sk = None ∧ avail sk prior k = [occ]
    ∧ (length (pend lk prior k) ≤ 1)%nat ∧ i ∉ map b_observation_id prior.
Proof.
  unfold decision_for. destruct (assoc i (bl prior)) eqn:Eb; [done|].
  apply bl_None in Eb. unfold hold_reason.
  destruct (gate_reason w sk); [done|]. destruct key as [k|]; [|done].
  destruct (avail sk prior k) as [|occ [|occ' l]] eqn:Ea.
  - rewrite bool_decide_eq_true_2 by done. simpl. by case_bool_decide.
  - cbn [bool_decide andb]. rewrite (bool_decide_eq_false_2 ([occ] = [])) by done. simpl.
    case_bool_decide; [done|]. intros _. exists k, occ. repeat split; try done. lia.
  - rewrite (bool_decide_eq_false_2 (_ = [])) by done. done.
Qed.

Lemma decision_id e : d_observation_id (decision_for w sk lk prior e) = e.1.
Proof. unfold decision_for. destruct e as [i key]. repeat case_match; done. Qed.

(** The occurrence a decision links, with where it comes from. *)
Lemma linked_inv i key occ :
  (i, key) ∈ lk → d_occurrence_id (decision_for w sk lk prior (i, key)) = Some occ →
  (∃ r, r ∈ prior ∧ b_observation_id r = i ∧ b_occurrence_id r = occ)
  ∨ (∃ k, key = Some k ∧ avail sk prior k = [occ] ∧ (length (pend lk prior k) ≤ 1)%nat
       ∧ i ∈ pend lk prior k).
Proof.
  intros Hin Hd. destruct (d_state (decision_for w sk lk prior (i, key))) eqn:Es.
  - right. apply proposed_inv in Es as (k & o & -> & Ho & _ & Ha & Hp & Hn).
    exists k. rewrite Ho in Hd. injection Hd as ->. repeat split; try done.
    apply elem_of_carriers. split; [done|]. by apply bool_decide_eq_false_2.
  - left. apply bl_lookup. unfold decision_for in *.
    destruct (assoc i (bl prior)); [simpl in Hd; by injection Hd as -> | by case_match].
  - unfold decision_for in *. destruct (assoc i (bl prior)); [done|]. by case_match.
Qed.

Lemma avail_spec k occ :
  occ ∈ avail sk prior k ↔ (occ, Some k) ∈ sk ∧ occ ∉ map b_occurrence_id prior.
Proof.
  unfold avail. rewrite elem_of_carriers. by rewrite bool_decide_eq_false.
Qed.

(** Two live observations never share a source occurrence. *)
Lemma linked_inj i j ki kj occ :
  (i, ki) ∈ lk → (j, kj) ∈ lk →
  d_occurrence_id (decision_for w sk lk prior (i, ki)) = Some occ →
  d_occurrence_id (decision_for w sk lk prior (j, kj)) = Some occ → i = j.
Proof.
  intros Hi Hj Hdi%linked_inv Hdj%linked_inv; [|done..].
  assert (∀ k, avail sk prior k = [occ] → (occ, Some k) ∈ sk ∧ occ ∉ map b_occurrence_id prior) as Hav.
  { intros k Hk. apply avail_spec. rewrite Hk. set_solver. }
  destruct Hdi as [(r & Hr & Hri & Hro)|(k & -> & Hk & Hkl & Hki)],
    Hdj as [(r' & Hr' & Hri' & Hro')|(k' & -> & Hk' & _ & Hkj)].
  - destruct Hrun as (_ & _ & _ & _ & _ & _ & _ & _ & _ & _ & _ & Hnd). subst.
    rewrite (NoDup_map_inj b_occurrence_id prior Hnd r r'); done.
  - exfalso. apply (Hav k') in Hk' as [_ []]. subst. apply list_elem_of_fmap. eauto.
  - exfalso. apply (Hav k) in Hk as [_ []]. subst. apply list_elem_of_fmap. eauto.
  - destruct (Hav k Hk) as [H1 _], (Hav k' Hk') as [H2 _].
    assert (k = k') as <- by (pose proof (run_key_unique _ _ _ H1 H2); congruence).
    destruct (pend lk prior k) as [|p [|? ?]]; simpl in Hkl; [set_solver| |lia]. set_solver.
Qed.

(** Linked occurrences are source occurrences, and are exactly the taken ones. *)
Lemma linked_taken occ :
  occ ∈ omap d_occurrence_id (plan_decisions w sk lk prior) ↔ occ ∈ plan_taken w sk lk prior.
Proof.
  unfold plan_taken. rewrite elem_of_union, !elem_of_list_to_set, !list_elem_of_omap. split.
  - intros (d & Hd & Ho). apply list_elem_of_fmap in Hd as Hd'. destruct Hd' as ([i key] & -> & Hin).
    pose proof Ho as [(r & Hr & _ & <-)|(k & -> & Hk & _ & _)]%linked_inv; [| |done].
    + left. apply list_elem_of_fmap. eauto.
    + right. eexists. split; [done|]. unfold proposed_of.
      destruct (d_state _) eqn:Es; [done| |].
      * unfold decision_for in Es, Ho. destruct (assoc i (bl prior)) as [s|] eqn:Eb; [|by case_match].
        simpl in Ho. injection Ho as ->. apply bl_lookup in Eb as (r & Hr & _ & Hs).
        exfalso. assert (occ ∈ avail sk prior k) as [_ []]%avail_spec by (rewrite Hk; set_solver).
        subst. apply list_elem_of_fmap. eauto.
      * unfold decision_for in Es, Ho. destruct (assoc i (bl prior)); [done|]. by case_match.
  - intros [(r & -> & Hr)%list_elem_of_fmap|(d & Hd & Ho)].
    + destruct (prior_row r Hr) as (k & Hl & _). apply assoc_elem in Hl.
      exists (decision_for w sk lk prior (b_observation_id r, Some k)). split.
      * apply list_elem_of_fmap. eauto.
      * unfold decision_for. rewrite (proj2 (bl_lookup (b_observation_id r) (b_occurrence_id r))); [done|]. eauto.
    + exists d. split; [done|]. unfold proposed_of in Ho. by destruct (d_state d).
Qed.

Lemma linked_source occ :
  occ ∈ omap d_occurrence_id (plan_decisions w sk lk prior) → occ ∈ map source_identity source.
Proof.
  rewrite <- run_sk_ids. intros (d & Hd & Ho)%list_elem_of_omap.
  apply list_elem_of_fmap in Hd as ([i key] & -> & Hin).
  apply list_elem_of_fmap.
  apply linked_inv in Ho as [(r & Hr & _ & <-)|(k & -> & Hk & _)]; [| |done].
  - destruct (prior_row r Hr) as (k & _ & Hs). apply assoc_elem in Hs. by exists (b_occurrence_id r, Some k).
  - exists (occ, Some k). split; [done|]. apply avail_spec with (k := k). rewrite Hk. set_solver.
Qed.

Lemma linked_nodup : NoDup (omap d_occurrence_id (plan_decisions w sk lk prior)).
Proof.
  unfold plan_decisions. apply NoDup_omap_map; [by eapply NoDup_fmap_1, run_lk_nodup|].
  intros [i ki] [j kj] occ Hi Hj Ho1 Ho2.
  assert (i = j) as -> by by eapply linked_inj.
  f_equal. pose proof (elem_assoc _ _ _ run_lk_nodup Hi).
  pose proof (elem_assoc _ _ _ run_lk_nodup Hj). congruence.
Qed.
End run.

(** ** The decoder's facts are always accepted *)

Lemma printable_user value :
  value ≠ [] → existsb (λ b, (zb b <? 32) || (126 <? zb b)) value = false →
  (length value ≤ 24)%nat → rstrip_bytes is_space value = value →
  let user := of_chars value in
  negb ((1 <=? zlen (chars user)) && (zlen (chars user) <=? 24))
  || negb (bool_decide (chars user = rstrip_bytes is_space (chars user)))
  || existsb (λ b, negb (in_range 32 126 b)) (chars user) = false.
Proof.
  intros Hne Hp Hl Hr. simpl. rewrite chars_of_chars, Hr.
  rewrite (bool_decide_eq_true_2 (value = value)) by done. unfold zlen.
  rewrite (proj2 (Z.leb_le 1 _)), (proj2 (Z.leb_le _ 24)) by (destruct value; simpl in *; [done|lia..]).
  simpl. rewrite <- Hp. apply existsb_ext. intros b. unfold in_range. lia.
Qed.

Lemma text_id_user raw user :
  (length raw ≤ 24)%nat → _text_id raw = Ok user →
  ∃ value, user = of_chars value ∧ value ≠ []
    ∧ existsb (λ b, (zb b <? 32) || (126 <? zb b)) value = false
    ∧ (length value ≤ 24)%nat ∧ rstrip_bytes is_space value = value.
Proof.
  unfold _text_id. intros Hl H. inv_res H. subst user. bool_prop. eexists. split; [done|].
  split; [done|]. split; [done|]. split; [|apply rstrip_idemp].
  pose proof (rstrip_length is_space (before x00 raw)). pose proof (before_length x00 raw). lia.
Qed.

Lemma py_str_user z :
  0 <= z < 2 ^ 32 →
  ∃ value, py_str z = of_chars value ∧ value ≠ []
    ∧ existsb (λ b, (zb b <? 32) || (126 <? zb b)) value = false
    ∧ (length value ≤ 24)%nat ∧ rstrip_bytes is_space value = value.
Proof.
  intros Hz. exists (dec_digits (dec_fuel z) z []). split; [done|].
  assert (forallb is_digit (dec_digits (dec_fuel z) z []) = true) as Hd by by apply dec_digits_all.
  split; [apply dec_digits_nonempty; unfold dec_fuel; lia|].
  assert (∀ b, b ∈ dec_digits (dec_fuel z) z [] → 48 <= zb b <= 57) as Hb.
  { intros b Hin. rewrite forallb_forall in Hd. apply list_elem_of_In, Hd in Hin.
    unfold is_digit, in_range in Hin. lia. }
  split; [|split].
  - apply not_true_is_false. rewrite existsb_exists. intros (b & Hin & H).
    apply list_elem_of_In, Hb in Hin. lia.
  - transitivity 10%nat; [|lia]. apply dec_digits_length; lia.
  - unfold rstrip_bytes. rewrite drop_while_id; [apply rev_involutive|].
    intros b k Hk. assert (b ∈ dec_digits (dec_fuel z) z []) as Hin.
    { apply list_elem_of_In, in_rev. rewrite Hk. by left. }
    apply Hb in Hin. unfold is_space. lia.
Qed.

(** Facts built by [_facts] pass the matcher's validity test. *)
Lemma facts_valid_built u a e s p o l f :
  _facts u a e s p o l = Ok f → 0 <= s <= 255 → 0 <= p <= 255 → facts_valid f = true.
Proof.
  intros (lt & Hok & He & ->)%facts_ok Hs Hp. unfold facts_valid. simpl.
  pose proof He as [(Hoff & _) _]%encode_time_ok.
  rewrite (bool_decide_eq_true_2 _ He).
  rewrite (bool_decide_eq_true_2 (utcoffset (to_utc lt) = Some 0)).
  2: { unfold to_utc. rewrite Hoff. by destruct (if _ <? 0 then _ else _) as [[? ?] ?]. }
  rewrite (bool_decide_eq_true_2 (instant _ = _)) by by apply (to_utc_instant lt PAKISTAN_TIME).
  rewrite !(proj2 (Z.leb_le _ _)) by lia. done.
Qed.

Lemma byte_at_range raw i : 0 <= byte_at raw i <= 255.
Proof. unfold byte_at. pose proof (zb_range (nth i raw x00)). lia. Qed.

(** ** Order independence *)
Lemma hold_reason_perm g key c c' r r' known :
  c ≡ₚ c' → r ≡ₚ r' → hold_reason g key c r known = hold_reason g key c' r' known.
Proof.
  intros Hc Hr. unfold hold_reason. destruct g; [done|]. destruct key; [|done].
  assert (bool_decide (c = []) = bool_decide (c' = [])) as ->.
  { apply bool_decide_ext. split; intros ->; by apply Permutation_nil_r. }
  assert (∀ a b : list string, a ≡ₚ b → bool_decide (1 < length a)%nat = bool_decide (1 < length b)%nat) as Hlen
    by (intros a b Hab; apply bool_decide_ext; by rewrite Hab).
  by rewrite (Hlen c c' Hc), (Hlen r r' Hr).
Qed.

Section perm.
Context (w : MatchWindow) (sk sk' lk lk' : list (string * option fact_key)) (prior prior' : list Binding).
Hypothesis (Hsk : sk ≡ₚ sk') (Hlk : lk ≡ₚ lk') (Hprior : prior ≡ₚ prior')
  (Hobs : NoDup (map b_observation_id prior)).

Lemma gate_reason_perm : gate_reason w sk = gate_reason w sk'.
Proof. unfold gate_reason. by rewrite (existsb_perm _ _ _ Hsk). Qed.

Lemma avail_perm k : avail sk prior k ≡ₚ avail sk' prior' k.
Proof.
  unfold avail. rewrite (carriers_perm _ _ _ _ Hsk).
  erewrite carriers_ext; [done|]. intros i. apply bool_decide_ext. by rewrite Hprior.
Qed.

Lemma pend_perm k : pend lk prior k ≡ₚ pend lk' prior' k.
Proof.
  unfold pend. rewrite (carriers_perm _ _ _ _ Hlk).
  erewrite carriers_ext; [done|]. intros i. apply bool_decide_ext. by rewrite Hprior.
Qed.

Lemma hold_reason_single g key c r known :
  hold_reason g key c r known = None → ∃ x, c = [x].
Proof.
  unfold hold_reason. destruct g; [done|]. destruct key; [|done].
  destruct c as [|x [|y c]].
  - rewrite bool_decide_eq_true_2 by done. by destruct known.
  - eauto.
  - rewrite (bool_decide_eq_false_2 (_ = [])) by done. done.
Qed.

Lemma decision_for_perm e : decision_for w sk lk prior e = decision_for w sk' lk' prior' e.
Proof.
  destruct e as [i key]. unfold decision_for.
  rewrite (assoc_perm i (bl prior) (bl prior')).
  2: { unfold bl. by rewrite bound_live_fst. }
  2: { unfold bl. by rewrite Hprior. }
  destruct (assoc i (bl prior')); [done|]. rewrite gate_reason_perm.
  set (c := match key with Some k => avail sk prior k | None => [] end).
  set (c' := match key with Some k => avail sk' prior' k | None => [] end).
  assert (c ≡ₚ c') as Hc by (subst c c'; destruct key; [apply avail_perm|done]).
  set (r := match key with Some k => pend lk prior k | None => [] end).
  set (r' := match key with Some k => pend lk' prior' k | None => [] end).
  assert (r ≡ₚ r') as Hr by (subst r r'; destruct key; [apply pend_perm|done]).
  assert (bool_decide (key ∈ sk.*2) = bool_decide (key ∈ sk'.*2)) as ->
    by (apply bool_decide_ext; by rewrite Hsk).
  rewrite (hold_reason_perm _ _ _ _ _ _ _ Hc Hr).
  destruct (hold_reason _ _ c' r' _) eqn:Eh.
  - unfold zlen. by rewrite Hc.
  - apply hold_reason_single in Eh as [x Hx]. rewrite Hx in *.
    apply Permutation_singleton_r in Hc. by rewrite Hc.
Qed.

Lemma plan_decisions_perm :
  plan_decisions w sk lk prior ≡ₚ plan_decisions w sk' lk' prior'.
Proof.
  unfold plan_decisions. rewrite Hlk at 2.
  by rewrite (map_ext _ _ (λ e, decision_for_perm e)).
Qed.

Lemma plan_taken_perm : plan_taken w sk lk prior = plan_taken w sk' lk' prior'.
Proof. unfold plan_taken. by rewrite plan_decisions_perm, Hprior. Qed.
End perm.

Lemma match_run_perm w source live prior sk lk source' live' prior' :
  source ≡ₚ source' → live ≡ₚ live' → prior ≡ₚ prior' → match_run w source live prior sk lk →
  ∃ sk' lk', sk ≡ₚ sk' ∧ lk ≡ₚ lk' ∧ match_run w source' live' prior' sk' lk'.
Proof.
  intros Hs Hl Hp Hrun.
  pose proof Hrun as (Hw & Hs1 & Hs2 & Hs3 & Hs4 & Hn & Hl1 & Hl2 & Hl3 & Hp1 & Hp2 & Hp3).
  destruct (mapR_perm _ _ _ _ Hs Hs4) as (sk' & Hs4' & Hsk).
  destruct (mapR_perm _ _ _ _ Hl Hl3) as (lk' & Hl3' & Hlk).
  exists sk', lk'. split; [done|]. split; [done|]. unfold match_run, zlen in *.
  split; [by rewrite <- (Permutation_length Hs), <- (Permutation_length Hl), <- (Permutation_length Hp)|].
  split; [by rewrite <- Hs|]. split; [by rewrite <- Hs|]. split; [by rewrite <- Hs|].
  split; [done|]. split; [by rewrite <- (Permutation_length Hs)|].
  split; [by rewrite <- Hl|]. split; [by rewrite <- Hl|]. split; [done|].
  split; [|split; by rewrite <- Hp]. rewrite <- Hp.
  eapply Forall_impl; [exact Hp1|]. intros r (k & H1 & H2). exists k.
  rewrite <- (assoc_perm _ _ _ (run_lk_nodup _ _ _ _ _ _ Hrun) Hlk),
    <- (assoc_perm _ _ _ (run_sk_nodup _ _ _ _ _ _ Hrun) Hsk). done.
Qed.

(** ** Properties *)

Definition source_key (row : SourceOccurrence) : res (option fact_key) :=
  match s_facts row with Some f => _fact_key f | None => Ok None end.

Lemma sk_row sk source i k :
  mapR source_entry source = Ok sk → (i, k) ∈ sk →
  ∃ r, r ∈ source ∧ source_identity r = i ∧ source_key r = Ok k.
Proof.
  intros H%mapR_Forall2 Hin. apply list_elem_of_lookup_1 in Hin as [n Hn].
  destruct (Forall2_lookup_r _ _ _ _ _ H Hn) as (r & Hr & He).
  exists r. split; [by eapply list_elem_of_lookup_2|]. unfold source_entry in He. inv_res He.
  injection He as -> ->. done.
Qed.

Lemma row_sk sk source r k :
  mapR source_entry source = Ok sk → r ∈ source → source_key r = Ok k → (source_identity r, k) ∈ sk.
Proof.
  intros H%mapR_Forall2 Hin Hk. apply list_elem_of_lookup_1 in Hin as [n Hn].
  destruct (Forall2_lookup_l _ _ _ _ _ H Hn) as (y & Hy & He). unfold source_key in Hk.
  unfold source_entry in He. rewrite Hk in He. injection He as <-. by eapply list_elem_of_lookup_2.
Qed.

Lemma lk_row lk live i k :
  mapR live_entry live = Ok lk → (i, k) ∈ lk →
  ∃ r, r ∈ live ∧ live_identity r = i ∧ _fact_key (l_facts r) = Ok k.
Proof.
  intros H%mapR_Forall2 Hin. apply list_elem_of_lookup_1 in Hin as [n Hn].
  destruct (Forall2_lookup_r _ _ _ _ _ H Hn) as (r & Hr & He).
  exists r. split; [by eapply list_elem_of_lookup_2|]. unfold live_entry in He. inv_res He.
  injection He as -> ->. done.
Qed.

Lemma row_lk lk live r k :
  mapR live_entry live = Ok lk → r ∈ live → _fact_key (l_facts r) = Ok k → (live_identity r, k) ∈ lk.
Proof.
  intros H%mapR_Forall2 Hin Hk. apply list_elem_of_lookup_1 in Hin as [n Hn].
  destruct (Forall2_lookup_l _ _ _ _ _ H Hn) as (y & Hy & He).
  unfold live_entry in He. rewrite Hk in He. injection He as <-. by eapply list_elem_of_lookup_2.
Qed.

(** C33: every live observation gets exactly one decision, in input order, and
    every source occurrence is accounted for exactly once: it is either in
    [unbound_occurrences] or linked by exactly one decision, so no two live
    observations ever share a source occurrence. *)
Theorem propose_accounting w source live prior plan
    (H : propose_matches w source live prior = Ok plan) :
  map d_observation_id (decisions plan) = map live_identity live
  ∧ NoDup (map live_identity live)
  ∧ unbound_occurrences plan ++ omap d_occurrence_id (decisions plan) ≡ₚ map source_identity source
  ∧ NoDup (map source_identity source).
Proof.
  apply propose_ok in H as (sk & lk & Hrun & ->). cbn [decisions unbound_occurrences].
  pose proof Hrun as (_ & _ & _ & Hnd & _ & _ & _ & Hndl & Hl & _).
  split; [|split; [done|split; [|done]]].
  - unfold plan_decisions. rewrite map_map, <- (live_entry_fst _ _ Hl).
    apply map_ext. intros e. apply decision_id.
  - apply NoDup_Permutation; [|done|].
    + apply NoDup_app. split; [by apply NoDup_filter|]. split.
      * intros i [Hn _]%list_elem_of_filter Hi. by apply Hn, (linked_taken w source live prior).
      * by apply (linked_nodup w source live prior).
    + intros i. rewrite elem_of_app, list_elem_of_filter. split.
      * intros [[_ Hi]|Hi]; [done|]. by eapply linked_source.
      * intros Hi. destruct (decide (i ∈ plan_taken w sk lk prior)) as [Ht|]; [right|by left].
        by apply (linked_taken w source live prior).
Qed.

(** a proposal is only made for a unique match in a proved window: the
    live observation and the source occurrence carry the same full fact key,
    no other unbound source occurrence and no other unbound live observation
    carries it, and the profile, source and live windows were all asserted. *)
Theorem proposal_sound w source live prior plan d
    (H : propose_matches w source live prior = Ok plan)
    (Hd : d ∈ decisions plan) (Hs : d_state d = PROPOSED) :
  ∃ lr sr k, lr ∈ live ∧ sr ∈ source
    ∧ d_observation_id d = live_identity lr ∧ d_occurrence_id d = Some (source_identity sr)
    ∧ _fact_key (l_facts lr) = Ok (Some k) ∧ source_key sr = Ok (Some k)
    ∧ (∀ sr', sr' ∈ source → source_key sr' = Ok (Some k) →
         source_identity sr' ∉ map b_occurrence_id prior → sr' = sr)
    ∧ (∀ lr', lr' ∈ live → _fact_key (l_facts lr') = Ok (Some k) →
         live_identity lr' ∉ map b_observation_id prior → lr' = lr)
    ∧ profile_qualified w = true ∧ source_complete w = true ∧ live_complete w = true.
Proof.
  apply propose_ok in H as (sk & lk & Hrun & ->). cbn [decisions] in Hd.
  apply list_elem_of_fmap in Hd as ([i key] & -> & Hin).
  pose proof Hrun as (_ & _ & _ & Hnds & Hsk & _ & _ & Hndl & Hlk & _).
  apply (proposed_inv w prior) in Hs as (k & occ & -> & Ho & Hg & Ha & Hp & Hn).
  destruct (lk_row _ _ _ _ Hlk Hin) as (lr & Hlr & <- & Hlkey).
  assert (occ ∈ avail sk prior k) as [Hocc Hoccn]%avail_spec by (rewrite Ha; set_solver).
  destruct (sk_row _ _ _ _ Hsk Hocc) as (sr & Hsr & <- & Hskey).
  exists lr, sr, k. rewrite decision_id. do 6 (split; [done|]). split; [|split].
  - intros sr' Hsr' Hk' Hnb. eapply NoDup_map_inj; [exact Hnds|done..|].
    assert (source_identity sr' ∈ avail sk prior k) as Hx
      by (apply avail_spec; split; [by eapply row_sk|done]).
    rewrite Ha in Hx. set_solver.
  - intros lr' Hlr' Hk' Hnb. eapply NoDup_map_inj; [exact Hndl|done..|].
    assert (∀ r, r ∈ live → _fact_key (l_facts r) = Ok (Some k) →
            live_identity r ∉ map b_observation_id prior → live_identity r ∈ pend lk prior k) as Hx.
    { intros r Hr Hk Hb. apply elem_of_carriers. split; [by eapply row_lk|].
      by apply bool_decide_eq_false_2. }
    pose proof (Hx lr' Hlr' Hk' Hnb). pose proof (Hx lr Hlr Hlkey Hn).
    destruct (pend lk prior k) as [|p [|? ?]]; simpl in Hp; [set_solver|set_solver|lia].
  - unfold gate_reason in Hg. by destruct (profile_qualified w), (source_complete w), (live_complete w).
Qed.

(** Facts produced by the decoder are never refused by the matcher: a
    decoded source record always has a fact key, and the key is missing only
    for the 8-byte layout, which carries no user reference. *)
Theorem decoded_source_has_key raw n o f (H : decode_source raw n o = Ok f) :
  ∃ key, _fact_key f = Ok key ∧ (key = None ↔ n = 8).
Proof.
  assert (∀ u, user_id f = Some u → facts_valid f = true → n ≠ 8 →
          (∃ value, u = of_chars value ∧ value ≠ []
             ∧ existsb (λ b, (zb b <? 32) || (126 <? zb b)) value = false
             ∧ (length value ≤ 24)%nat ∧ rstrip_bytes is_space value = value) →
          ∃ key, _fact_key f = Ok key ∧ (key = None ↔ n = 8)) as Hmain.
  { intros u Hu Hv Hn (value & -> & H1 & H2 & H3 & H4). unfold _fact_key. rewrite Hv, Hu. cbn [negb].
    pose proof (printable_user value H1 H2 H3 H4) as Hp. cbv zeta in Hp. rewrite Hp.
    eexists. split; [done|]. split; [done|lia]. }
  unfold decode_source in H. inv_step H. bool_prop. subst n. inv_step H; [|inv_step H].
  - bool_prop. pose proof (facts_valid_built _ _ _ _ _ _ _ _ H (byte_at_range _ _) (byte_at_range _ _)) as Hv.
    apply facts_ok in H as (lt & _ & _ & ->). unfold _fact_key. rewrite Hv. simpl. by exists None.
  - bool_prop. pose proof (facts_valid_built _ _ _ _ _ _ _ _ H (byte_at_range _ _) (byte_at_range _ _)) as Hv.
    apply facts_ok in H as (lt & _ & _ & ->).
    eapply Hmain; [done|done|lia|]. apply py_str_user.
    pose proof (le_int_range (slice 0 4 raw)) as Hr.
    rewrite slice_length in Hr by (unfold zlen in *; lia). done.
  - bool_prop. apply bind_ok in H as (u & Hu & H).
    pose proof (facts_valid_built _ _ _ _ _ _ _ _ H (byte_at_range _ _) (byte_at_range _ _)) as Hv.
    apply facts_ok in H as (lt & _ & _ & ->).
    eapply Hmain; [done|done|done|]. apply (text_id_user (slice 2 26 raw)); [|done].
    unfold slice. rewrite length_take. lia.
Qed.

(** Proposals do not depend on the order of the inputs: permuting the
    source rows, the live rows and the prior bindings permutes the decisions
    and the unbound occurrences and changes nothing else. *)
Theorem propose_order_independent w source live prior plan source' live' prior'
    (Hs : source ≡ₚ source') (Hl : live ≡ₚ live') (Hp : prior ≡ₚ prior')
    (H : propose_matches w source live prior = Ok plan) :
  ∃ plan', propose_matches w source' live' prior' = Ok plan'
    ∧ decisions plan ≡ₚ decisions plan' ∧ unbound_occurrences plan ≡ₚ unbound_occurrences plan'.
Proof.
  apply propose_ok in H as (sk & lk & Hrun & ->).
  destruct (match_run_perm _ _ _ _ _ _ _ _ _ Hs Hl Hp Hrun) as (sk' & lk' & Hsk & Hlk & Hrun').
  assert (NoDup (map b_observation_id prior)) as Hobs by apply Hrun.
  eexists. split; [apply propose_ok; eauto|]. cbn [decisions unbound_occurrences]. split.
  - by apply plan_decisions_perm.
  - rewrite Hs, (plan_taken_perm w sk sk' lk lk' prior prior'); done.
Qed.

(** ** Witnesses: one stored record and the live frame of the same punch *)
Definition sample_source_raw : bytes :=
  le_bytes 4 7 ++ le_bytes 4 776478607 ++ [x00; x01] ++ repeat x00 6.
Definition sample_live_raw : bytes := le_bytes 4 7 ++ map bz [0; 1; 24; 2; 29; 0; 30; 7].
Definition sample_facts (stored : bool) : PunchFacts :=
  mkFacts (Some "7"%string) None 776478607 (sample_clock 7) (to_utc (sample_clock 7)) 0 1
    (if stored then 0 else 8) (if stored then 16 else 12).
Definition zeros64 : string := of_chars (repeat x30 64).
Definition sample_epoch : string := "00000000-0000-0000-0000-000000000000".
Definition sample_window : MatchWindow :=
  mkWindow "ABC1" sample_epoch 0 1 zeros64 zeros64 "zkt-g3-v1" DECODER_VERSION 16 {[12]} true true true.
Definition sample_source : list SourceOccurrence :=
  [mkSource "ABC1" sample_epoch 0 zeros64 "zkt-g3-v1" DECODER_VERSION (Some (sample_facts true))].
Definition sample_live_row : LiveObservation :=
  mkLive "ABC1" sample_epoch zeros64 8 zeros64 "zkt-g3-v1" DECODER_VERSION (sample_facts false).
Definition sample_decision : MatchDecision :=
  mkDecision (live_identity sample_live_row) PROPOSED "UNIQUE_FULL_FACTS_IN_CLOSED_WINDOW"
    (Some (occurrence_id "ABC1" sample_epoch 0 zeros64)) 1.
Definition sample_plan : MatchPlan := mkPlan zeros64 zeros64 [sample_decision] [].

Example sample_facts_decoded :
  decode_source sample_source_raw 16 0 = Ok (sample_facts true)
  ∧ decode_live_record sample_live_raw 12 8 = Ok (sample_facts false).
Proof. vm_compute. done. Qed.

Lemma propose_accounting_witness :
  propose_matches sample_window sample_source [sample_live_row] [] = Ok sample_plan
  ∧ [] ++ [occurrence_id "ABC1" sample_epoch 0 zeros64] ≡ₚ map source_identity sample_source.
Proof.
  assert (propose_matches sample_window sample_source [sample_live_row] [] = Ok sample_plan) as H
    by (vm_compute; reflexivity).
  split; [exact H|]. apply (propose_accounting _ _ _ _ _ H).
Defined.

Lemma proposal_sound_witness :
  ∃ lr sr k, lr ∈ [sample_live_row] ∧ sr ∈ sample_source
    ∧ _fact_key (l_facts lr) = Ok (Some k) ∧ source_key sr = Ok (Some k).
Proof.
  destruct (proposal_sound sample_window sample_source [sample_live_row] [] sample_plan sample_decision)
    as (lr & sr & k & H1 & H2 & _ & _ & H5 & H6 & _).
  - vm_compute. reflexivity.
  - apply list_elem_of_singleton. reflexivity.
  - reflexivity.
  - exists lr, sr, k. auto.
Defined.

Lemma decoded_source_has_key_witness :
  ∃ key, _fact_key (sample_facts true) = Ok key ∧ (key = None ↔ 16 = 8).
Proof. apply (decoded_source_has_key sample_source_raw 16 0). vm_compute. reflexivity. Defined.

Lemma propose_order_independent_witness :
  ∃ plan', propose_matches sample_window sample_source [sample_live_row] [] = Ok plan'
    ∧ decisions sample_plan ≡ₚ decisions plan'
    ∧ unbound_occurrences sample_plan ≡ₚ unbound_occurrences plan'.
Proof.
  apply (propose_order_independent sample_window sample_source [sample_live_row] []).
  - reflexivity.
  - reflexivity.
  - reflexivity.
  - vm_compute. reflexivity.
Defined.
