(* ===== verification/FlashPlan.v ===== *)
(** * Flash plans of the board installer

    apps/esp_installer core/flashplan.py: the layout of the chip, the bytes the
    installer generates itself, the partition-table reader, the three plans with
    every esptool/espefuse call they make, the safety checker and the port
    change. The effect of a plan on the chip (what a power cut can leave behind)
    is stated against an abstract chip at the end. *)
From Stdlib Require Import QArith.
From S2P Require Import Prelude PyText Hashes PyJson.
Open Scope string_scope.
Open Scope list_scope.
Open Scope Z_scope.

(** ** Layout constants *)
Definition CHIP : string := "esp32s3".
Definition FLASH_TOTAL : Z := 0x1000000.
Definition BOOTLOADER_OFFSET : Z := 0x0.
Definition START_AREA_SIZE : Z := 0x10000.
Definition PARTITION_TABLE_OFFSET : Z := 0x10000.
Definition PARTITION_TABLE_MAX : Z := 0x1000.
Definition NVS_OFFSET : Z := 0x11000.
Definition NVS_SIZE : Z := 0x6000.
Definition OTADATA_OFFSET : Z := 0x17000.
Definition OTADATA_SIZE : Z := 0x2000.
Definition FACTORY_OFFSET : Z := 0x20000.
Definition OTA_0_OFFSET : Z := 0x2A0000.
Definition OTA_1_OFFSET : Z := 0x520000.
Definition APP_SLOT_SIZE : Z := 0x280000.
Definition STORAGE_OFFSET : Z := 0x7A0000.
Definition STORAGE_SIZE : Z := 0x800000.
Definition REDO_AREA_OFFSET : Z := 0xFA0000.
Definition REDO_AREA_SIZE : Z := 0x60000.
Definition ESP_OTA_IMG_VALID : Z := 2.

Definition ROLE_OFFSETS : list (string * Z) :=
  [("bootloader", BOOTLOADER_OFFSET); ("partition-table", PARTITION_TABLE_OFFSET);
   ("nvs", NVS_OFFSET); ("otadata", OTADATA_OFFSET); ("factory", FACTORY_OFFSET);
   ("ota_0", OTA_0_OFFSET); ("ota_1", OTA_1_OFFSET); ("storage", STORAGE_OFFSET);
   ("redo-area", REDO_AREA_OFFSET)].

Definition APP_ROLES : list string := ["nvs"; "redo-area"].
Definition CHANGE_SETTINGS_ROLES : list string := ["nvs"; "storage"; "redo-area"].

Inductive Family := ZKT | HIKVISION.
Definition BUNDLE_ROLES (family : Family) : list string :=
  match family with
  | ZKT => ["bootloader"; "partition-table"; "otadata"; "factory"; "ota_0"; "ota_1"; "storage"]
  | HIKVISION => ["bootloader"; "partition-table"; "otadata"; "factory"; "storage"]
  end.

Definition PRODUCTION_PARTITIONS : list (string * (Z * Z * Z * Z)) :=
  [("nvs", (1, 0x02, NVS_OFFSET, NVS_SIZE)); ("otadata", (1, 0x00, OTADATA_OFFSET, OTADATA_SIZE));
   ("factory", (0, 0x00, FACTORY_OFFSET, APP_SLOT_SIZE)); ("ota_0", (0, 0x10, OTA_0_OFFSET, APP_SLOT_SIZE));
   ("ota_1", (0, 0x11, OTA_1_OFFSET, APP_SLOT_SIZE)); ("storage", (1, 0x82, STORAGE_OFFSET, STORAGE_SIZE))].

Definition KEEP_FLASH_ARGS : list string :=
  ["--flash-mode"; "keep"; "--flash-freq"; "keep"; "--flash-size"; "keep"].
Definition SDM_WRITE_ARGS : list string :=
  ["--flash-size"; "16MB"; "--flash-mode"; "keep"; "--flash-freq"; "keep"; "--no-compress"].
Definition FORBIDDEN_ARGS : list string :=
  ["hard-reset"; "soft-reset"; "watchdog-reset"; "no-reset-stub"; "run";
   "erase-flash"; "--force"; "load-ram"; "--erase-all"; "write-mem";
   "burn-efuse"; "burn-key-digest"; "read-protect-efuse"; "write-protect-efuse"].

(** ** Bytes the installer makes itself *)
Definition ff (n : Z) : bytes := replicate (Z.to_nat n) xff.

Definition otadata_selecting_ota_0 : bytes :=
  let seq := 1 in
  let crc := crc32 (le_bytes 4 seq) 0xFFFFFFFF in
  let entry := le_bytes 4 seq ++ ff 20 ++ le_bytes 4 ESP_OTA_IMG_VALID ++ le_bytes 4 crc in
  entry ++ ff (OTADATA_SIZE - zlen entry).

Definition blank_otadata : bytes := ff OTADATA_SIZE.
Definition blank_redo_area : bytes := ff REDO_AREA_SIZE.

(** ** The partition table *)

(** [label.decode("ascii", "replace")]: a byte above 0x7F becomes U+FFFD. *)
Definition ascii_replace (raw : bytes) : string :=
  of_chars (concat (map (λ b, if zb b <? 128 then [b] else [xef; xbf; xbd]) raw)).

(** One 32-byte row, or [None] at the first that is not an entry (the [break]). *)
Definition partition_row (row : bytes) : option (string * (Z * Z * Z * Z)) :=
  if bool_decide (take 2 row = [xaa; x50]) then
    Some (ascii_replace (before x00 (slice 12 28 row)),
          (le_int (slice 2 3 row), le_int (slice 3 4 row), le_int (slice 4 8 row), le_int (slice 8 12 row)))
  else None.

Fixpoint partition_loop {S} (step : S → string * (Z * Z * Z * Z) → S) (table : bytes)
    (starts : list Z) (s : S) : S :=
  match starts with
  | [] => s
  | start :: starts' =>
      match partition_row (slice (Z.to_nat start) (Z.to_nat (start + 32)) table) with
      | None => s
      | Some entry => partition_loop step table starts' (step s entry)
      end
  end.

Definition partition_entries (table : bytes) : list (string * (Z * Z * Z * Z)) :=
  partition_loop (λ entries e, assoc_set e.1 e.2 entries) table (py_range 0 (zlen table - 31) 32) [].

Definition partitions_end (table : bytes) : Z :=
  partition_loop (λ end_ e, let '(_, _, offset, size) := e.2 in Z.max end_ (offset + size))
    table (py_range 0 (zlen table - 31) 32) 0.

(** ** Plans *)
Inductive InstallMode := NEW_BOARD | RESUME | CHANGE_SETTINGS.
Inductive StepId :=
  | PREPARE_FILES | CLEAR_START_AREA | COPY_FIRMWARE | CHECK_COPY | LOCK_KEY | COPY_STARTUP | WRITE_SETTINGS_STEP.
Inductive Purpose :=
  | IDENTITY | KEY_STATE_BEFORE_BURN | KEY_STATE_FOR_RESUME | ERASE_START_AREA | WRITE_FIRMWARE
  | VERIFY_FIRMWARE | BURN_KEY | KEY_STATE_AFTER_BURN | WRITE_STARTUP | VERIFY_STARTUP | WRITE_SETTINGS.

#[export] Instance Family_eq_dec : EqDecision Family. Proof. solve_decision. Defined.
#[export] Instance InstallMode_eq_dec : EqDecision InstallMode. Proof. solve_decision. Defined.
#[export] Instance StepId_eq_dec : EqDecision StepId. Proof. solve_decision. Defined.
#[export] Instance Purpose_eq_dec : EqDecision Purpose. Proof. solve_decision. Defined.

(** api.steps_for: the steps the progress screen shows. *)
Definition steps_for (mode : InstallMode) : list StepId :=
  match mode with
  | CHANGE_SETTINGS => [PREPARE_FILES; WRITE_SETTINGS_STEP]
  | RESUME => [PREPARE_FILES; CLEAR_START_AREA; COPY_FIRMWARE; CHECK_COPY; COPY_STARTUP]
  | NEW_BOARD => [PREPARE_FILES; CLEAR_START_AREA; COPY_FIRMWARE; CHECK_COPY; LOCK_KEY; COPY_STARTUP]
  end.

Definition ESPTOOL : string := "esptool".
Definition ESPEFUSE : string := "espefuse".

(** Timeouts are floats in the source; here the rational they round. *)
Record ToolCall := mkToolCall {
  tool : string; args : list string; label : string; timeout_s : Q; idle_timeout_s : Q }.

Record FlashRange := mkFlashRange { role : string; offset : Z; path : string; size : Z }.
#[export] Instance FlashRange_eq_dec : EqDecision FlashRange. Proof. solve_decision. Defined.

(** FlashRange.end *)
Definition range_end (r : FlashRange) : Z := offset r + size r.

Record PlannedCall := mkPlannedCall {
  step : StepId; purpose : Purpose; call : ToolCall; ranges : list FlashRange;
  summary_path : option string; key_path : option string }.

Definition irreversible (c : PlannedCall) : bool := bool_decide (purpose c = BURN_KEY).
Definition total_bytes (c : PlannedCall) : Z := foldr Z.add 0 (map size (ranges c)).

Record FlashPlan := mkFlashPlan { mode : InstallMode; port : string; calls : list PlannedCall }.

(** FlashPlan.steps and FlashPlan.for_step *)
Definition plan_steps (p : FlashPlan) : list StepId :=
  fold_left (λ seen c, if bool_decide (step c ∈ seen) then seen else seen ++ [step c]) (calls p) [].
Definition for_step (p : FlashPlan) (s : StepId) : list PlannedCall :=
  List.filter (λ c, bool_decide (step c = s)) (calls p).

Definition esptool_args (port : string) (command : list string) (stub : bool) : list string :=
  ["--chip"; CHIP; "--port"; port; "--before"; "default-reset"; "--after"; "no-reset"]
  ++ (if stub then [] else ["--no-stub"]) ++ command.

Definition espefuse_args (port : string) (command : list string) (confirm_burn : bool) : list string :=
  ["--chip"; CHIP; "--port"; port; "--before"; "default-reset"]
  ++ (if confirm_burn then ["--do-not-confirm"] else []) ++ command.

Definition _pairs (rs : list FlashRange) : list string :=
  concat (map (λ item, [py_hex (offset item); path item]) rs).

Definition total_size (rs : list FlashRange) : Z := foldr Z.add 0 (map size rs).

Definition _write_timeout (rs : list FlashRange) : Q * Q :=
  let total := total_size rs in
  let largest := foldr Z.max 0 (map size rs) in
  ((180 + (total # 25000))%Q, (90 + (40 * largest # 0x100000))%Q).

Definition _verify_timeout (rs : list FlashRange) : Q * Q :=
  let total := total_size rs in
  ((120 + (total # 200000))%Q, (90 + (20 * total # 0x100000))%Q).

Definition _identity (s : StepId) (port : string) : PlannedCall :=
  mkPlannedCall s IDENTITY
    (mkToolCall ESPTOOL (esptool_args port ["get-security-info"] false) "check board identity" 60 45)
    [] None None.

Definition _key_state (s : StepId) (p : Purpose) (port path : string) : PlannedCall :=
  mkPlannedCall s p
    (mkToolCall ESPEFUSE (espefuse_args port ["summary"; "--format"; "json"; "--file"; path] false)
       "read key state" 90 60)
    [] (Some path) None.

Definition _erase_start (s : StepId) (port : string) : PlannedCall :=
  mkPlannedCall s ERASE_START_AREA
    (mkToolCall ESPTOOL
       (esptool_args port ["erase-region"; py_hex BOOTLOADER_OFFSET; py_hex START_AREA_SIZE] true)
       "clear start area" 90 60)
    [] None None.

Definition _write (s : StepId) (p : Purpose) (port : string) (rs : list FlashRange) (lbl : string) : PlannedCall :=
  let '(timeout, idle) := _write_timeout rs in
  mkPlannedCall s p
    (mkToolCall ESPTOOL (esptool_args port (["write-flash"] ++ KEEP_FLASH_ARGS ++ _pairs rs) true) lbl timeout idle)
    rs None None.

Definition _verify (s : StepId) (p : Purpose) (port : string) (rs : list FlashRange) (lbl : string) : PlannedCall :=
  let '(timeout, idle) := _verify_timeout rs in
  mkPlannedCall s p
    (mkToolCall ESPTOOL (esptool_args port (["verify-flash"] ++ KEEP_FLASH_ARGS ++ _pairs rs) true) lbl timeout idle)
    rs None None.

(** ** The checks on the images handed to a plan *)
Definition plan_error {A} (msg : string) : res A := Raise PlanError msg.

Definition limits : list (string * Z) :=
  [("bootloader", START_AREA_SIZE); ("partition-table", PARTITION_TABLE_MAX);
   ("factory", APP_SLOT_SIZE); ("ota_0", APP_SLOT_SIZE); ("ota_1", APP_SLOT_SIZE)].
Definition exact : list (string * Z) :=
  [("nvs", NVS_SIZE); ("otadata", OTADATA_SIZE); ("storage", STORAGE_SIZE); ("redo-area", REDO_AREA_SIZE)].

(** The body of the first loop: [end_] is where the previous range ended. *)
Definition check_placed (end_ : Z) (item : FlashRange) : res Z :=
  if size item <=? 0 then plan_error (role item +:+ " is empty")
  else if negb (offset item =? default (-1) (assoc (role item) ROLE_OFFSETS)) then
    plan_error (role item +:+ " is not at its production offset")
  else if offset item <? end_ then plan_error (role item +:+ " overlaps the range before it")
  else if FLASH_TOTAL <? range_end item then
    plan_error (role item +:+ " runs past the end of the 16 MB chip")
  else if (REDO_AREA_OFFSET <? range_end item) && negb (bool_decide (role item = "redo-area")) then
    plan_error (role item +:+ " reaches the redo area")
  else Ok (range_end item).

Definition check_slot (_ : unit) (item : FlashRange) : res unit :=
  if match assoc (role item) limits with Some l => l <? size item | None => false end then
    plan_error (role item +:+ " is too large for its slot")
  else match assoc (role item) exact with
       | Some e => if negb (size item =? e) then
                     plan_error (role item +:+ " must be exactly " +:+ py_hex e +:+ " bytes")
                   else Ok tt
       | None => Ok tt
       end.

Definition _check_ranges (rs : list FlashRange) : res unit :=
  let ordered := sort_by offset rs in
  _ ← foldR check_placed ordered 0;
  foldR check_slot ordered tt.

Definition is_bootloader (item : FlashRange) : bool := bool_decide (role item = "bootloader").

Definition _split (family : Family) (rs : list FlashRange) : res (FlashRange * list FlashRange) :=
  let roles := sorted_strs (map role rs) in
  let wanted := sorted_strs (BUNDLE_ROLES family ++ APP_ROLES) in
  if bool_decide (roles ≠ wanted) then
    plan_error ("expected images " +:+ repr_strs wanted +:+ ", got " +:+ repr_strs roles)
  else
    _ ← _check_ranges rs;
    match List.filter is_bootloader rs with
    | bootloader :: _ => Ok (bootloader, sort_by offset (List.filter (λ i, negb (is_bootloader i)) rs))
    | [] => Raise RuntimeError "StopIteration"
    end.

(** ** The safety checker *)

(** [args.index(x)] when present, and [args[i]]. *)
Fixpoint index_of (x : string) (l : list string) : option nat :=
  match l with [] => None | y :: l' => if bool_decide (x = y) then Some O else S <$> index_of x l' end.
Definition at_index (l : list string) (i : nat) : res string :=
  match l !! i with Some s => Ok s | None => Raise IndexError "tuple index out of range" end.

(** [[i for i, planned in enumerate(plan.calls) if test(planned)]] *)
Fixpoint where_from (i : nat) (test : PlannedCall → bool) (cs : list PlannedCall) : list nat :=
  match cs with [] => [] | c :: cs' => (if test c then [i] else []) ++ where_from (S i) test cs' end.
Definition where_ := where_from 0.

Definition has_purpose (ps : list Purpose) (c : PlannedCall) : bool := bool_decide (purpose c ∈ ps).
Definition say (b : bool) (msg : string) : list string := if b then [msg] else [].

Definition after_bad (a : list string) : res bool :=
  match index_of "--after" a with
  | None => Ok true
  | Some i => v ← at_index a (i + 1); Ok (negb (bool_decide (v = "no-reset")))
  end.
Definition before_bad (a : list string) : res bool :=
  match index_of "--before" a with
  | None => Ok false
  | Some i => v ← at_index a (i + 1); Ok (negb (bool_decide (v ∈ ["default-reset"; "no-reset"])))
  end.

Definition range_problems (lbl : string) (item : FlashRange) : list string :=
  say (FLASH_TOTAL <? range_end item) (lbl +:+ ": " +:+ role item +:+ " runs past the 16 MB chip")
  ++ say ((REDO_AREA_OFFSET <? range_end item)
          && negb (bool_decide ((role item, offset item, size item) = ("redo-area", REDO_AREA_OFFSET, REDO_AREA_SIZE))))
       (lbl +:+ ": only the redo area may be written past 0xFA0000").

(** The body of the per-call loop. *)
Definition call_problems (burns : list nat) (index : nat) (planned : PlannedCall) : res (list string) :=
  let a := args (call planned) in
  let lbl := label (call planned) in
  let p1 := say (existsb (λ arg, bool_decide (arg ∈ FORBIDDEN_ARGS)) a) (lbl +:+ ": forbidden argument") in
  p2 ← (if bool_decide (tool (call planned) = ESPTOOL) then
          bad ← after_bad a; Ok (say bad (lbl +:+ ": esptool must use --after no-reset"))
        else Ok []);
  bad ← before_bad a;
  let p3 := say bad (lbl +:+ ": unexpected --before") in
  let p4 := say (bool_decide (purpose planned = WRITE_FIRMWARE)
                 && match burns with b :: _ => Nat.ltb b index | [] => false end)
              "firmware must be written before the key burn" in
  let p5 := say (bool_decide (tool (call planned) = ESPEFUSE) && bool_decide ("--after" ∈ a))
              "espefuse has no --after option" in
  Ok (p1 ++ p2 ++ p3 ++ p4 ++ p5 ++ concat (map (range_problems lbl) (ranges planned))).

Fixpoint all_call_problems (burns : list nat) (index : nat) (cs : list PlannedCall) : res (list string) :=
  match cs with
  | [] => Ok []
  | c :: cs' => p ← call_problems burns index c; ps ← all_call_problems burns (S index) cs'; Ok (p ++ ps)
  end.

Definition main_writes (cs : list PlannedCall) : list PlannedCall :=
  List.filter (has_purpose [WRITE_FIRMWARE; WRITE_SETTINGS]) cs.

(** The redo area is cleared once, as the last range of the one main write. *)
Definition redo_bad (main : list PlannedCall) : bool :=
  match main with
  | [m] =>
      bool_decide (ranges m = [])
      || negb (Nat.eqb (length (List.filter (λ i, bool_decide (role i = "redo-area")) (ranges m))) 1)
      || match last (ranges m) with Some i => negb (bool_decide (role i = "redo-area")) | None => true end
  | _ => true
  end.

(** The rules of NEW_BOARD and RESUME. *)
Definition board_problems (plan : FlashPlan) (burns bootloader_writes : list nat) (main : list PlannedCall)
    : res (list string) :=
  let erase := where_ (has_purpose [ERASE_START_AREA]) (calls plan) in
  let writes := where_ (λ c, negb (bool_decide (ranges c = []))) (calls plan) in
  let image_writes := where_ (has_purpose [WRITE_FIRMWARE; WRITE_STARTUP]) (calls plan) in
  let p1 := say (match erase with
                 | [] => true
                 | e :: _ => match writes with [] => false | w :: ws => Nat.ltb (foldr Nat.min w ws) e end
                 end) "the start area must be erased before anything is written" in
  let p2 := say (match bootloader_writes with
                 | [b] => negb (Nat.eqb b (foldr Nat.max 0%nat image_writes))
                 | _ => true
                 end) "the bootloader must be written last" in
  let p3 := say (match burns, bootloader_writes with
                 | u :: _, b :: _ => Nat.ltb b u
                 | _, _ => false
                 end) "the bootloader must be written after the key burn" in
  match last (calls plan) with
  | None => Raise IndexError "tuple index out of range"
  | Some c =>
      let p4 := say (negb (bool_decide (purpose c = VERIFY_STARTUP))) "the plan must end by verifying the bootloader" in
      let p5 := say (match List.filter (has_purpose [VERIFY_FIRMWARE]) (calls plan), main with
                     | [v], m :: _ => negb (bool_decide (ranges v = ranges m))
                     | _, _ => true
                     end) "every copied range must be checked on the chip" in
      Ok (p1 ++ p2 ++ p3 ++ p4 ++ p5)
  end.

(** The rules of CHANGE_SETTINGS, per call. *)
Definition settings_problems (planned : PlannedCall) : list string :=
  let writing := negb (bool_decide (ranges planned = [])) in
  say (bool_decide (tool (call planned) = ESPEFUSE)) "a settings change must not touch the key"
  ++ say (writing && negb (bool_decide ("--no-stub" ∈ args (call planned))))
       "Secure Download Mode writes need --no-stub"
  ++ say (writing && negb (bool_decide (map role (ranges planned) = CHANGE_SETTINGS_ROLES)))
       "a settings change writes settings, storage and the redo area only, in that order".

Definition safety_problems (plan : FlashPlan) : res (list string) :=
  let burns := where_ (has_purpose [BURN_KEY]) (calls plan) in
  let p1 := say (negb (bool_decide (mode plan = NEW_BOARD)) && negb (bool_decide (burns = [])))
              "only a new board may have its key burned" in
  let p2 := say (bool_decide (mode plan = NEW_BOARD) && negb (Nat.eqb (length burns) 1))
              "a new board needs exactly one key burn" in
  let bootloader_writes :=
    where_ (λ c, existsb is_bootloader (ranges c) && has_purpose [WRITE_STARTUP; WRITE_FIRMWARE] c) (calls plan) in
  p3 ← all_call_problems burns 0 (calls plan);
  let main := main_writes (calls plan) in
  let p4 := say (redo_bad main) "the redo area must be cleared once, as the last range of the main write" in
  p5 ← (if bool_decide (mode plan = CHANGE_SETTINGS) then Ok (concat (map settings_problems (calls plan)))
        else board_problems plan burns bootloader_writes main);
  Ok (p1 ++ p2 ++ p3 ++ p4 ++ p5).

Definition _checked (plan : FlashPlan) : res FlashPlan :=
  problems ← safety_problems plan;
  if bool_decide (problems = []) then Ok plan else plan_error (join_str "; " problems).

(** ** The three plans *)

(** [str(work_dir / name)] for a POSIX path and a plain file name. *)
Definition path_join (work_dir name : string) : string :=
  (if bool_decide (work_dir ∈ ["."; ""]) then ""
   else if bool_decide (last (chars work_dir) = Some x2f) then work_dir
   else work_dir +:+ "/") +:+ name.

Definition new_board_calls (port work_dir : string) (bootloader : FlashRange) (rest : list FlashRange) : list PlannedCall :=
  let key := path_join work_dir "board-key.bin" in
  [_identity CLEAR_START_AREA port;
   _erase_start CLEAR_START_AREA port;
   _write COPY_FIRMWARE WRITE_FIRMWARE port rest "copy firmware";
   _verify CHECK_COPY VERIFY_FIRMWARE port rest "check copy";
   _key_state LOCK_KEY KEY_STATE_BEFORE_BURN port (path_join work_dir "key-state-before.json");
   mkPlannedCall LOCK_KEY BURN_KEY
     (mkToolCall ESPEFUSE (espefuse_args port ["burn-key"; "BLOCK_KEY0"; key; "HMAC_UP"] true)
        "lock security key" 120 90) [] None (Some key);
   _key_state LOCK_KEY KEY_STATE_AFTER_BURN port (path_join work_dir "key-state-after.json");
   _write COPY_STARTUP WRITE_STARTUP port [bootloader] "copy start-up program";
   _verify COPY_STARTUP VERIFY_STARTUP port [bootloader] "check start-up program"].

Definition new_board_plan (port : string) (family : Family) (rs : list FlashRange) (work_dir : string) : res FlashPlan :=
  split ← _split family rs;
  let '(bootloader, rest) := split in
  _checked (mkFlashPlan NEW_BOARD port (new_board_calls port work_dir bootloader rest)).

Definition resume_calls (port work_dir : string) (bootloader : FlashRange) (rest : list FlashRange) : list PlannedCall :=
  [_identity CLEAR_START_AREA port;
   _key_state CLEAR_START_AREA KEY_STATE_FOR_RESUME port (path_join work_dir "key-state-resume.json");
   _erase_start CLEAR_START_AREA port;
   _write COPY_FIRMWARE WRITE_FIRMWARE port rest "copy firmware";
   _verify CHECK_COPY VERIFY_FIRMWARE port rest "check copy";
   _write COPY_STARTUP WRITE_STARTUP port [bootloader] "copy start-up program";
   _verify COPY_STARTUP VERIFY_STARTUP port [bootloader] "check start-up program"].

Definition resume_plan (port : string) (family : Family) (rs : list FlashRange) (work_dir : string) : res FlashPlan :=
  split ← _split family rs;
  let '(bootloader, rest) := split in
  _checked (mkFlashPlan RESUME port (resume_calls port work_dir bootloader rest)).

Definition settings_calls (port : string) (ordered : list FlashRange) : list PlannedCall :=
  let '(timeout, idle) := _write_timeout ordered in
  [_identity WRITE_SETTINGS_STEP port;
   mkPlannedCall WRITE_SETTINGS_STEP WRITE_SETTINGS
     (mkToolCall ESPTOOL (esptool_args port (["write-flash"] ++ SDM_WRITE_ARGS ++ _pairs ordered) false)
        "write new settings" timeout idle) ordered None None].

Definition change_settings_plan (port : string) (rs : list FlashRange) : res FlashPlan :=
  let roles := sorted_strs (map role rs) in
  if bool_decide (roles ≠ sorted_strs CHANGE_SETTINGS_ROLES) then
    plan_error ("settings change writes settings, storage and the redo area only, got " +:+ repr_strs roles)
  else
    _ ← _check_ranges rs;
    _checked (mkFlashPlan CHANGE_SETTINGS port (settings_calls port (sort_by offset rs))).

Definition build_plan (m : InstallMode) (port : string) (family : Family) (rs : list FlashRange)
    (work_dir : string) : res FlashPlan :=
  match m with
  | NEW_BOARD => new_board_plan port family rs work_dir
  | RESUME => resume_plan port family rs work_dir
  | CHANGE_SETTINGS => change_settings_plan port rs
  end.

(** [args[args.index("--port") + 1] = port] on a list; both lookups may raise. *)
Definition with_port (planned : PlannedCall) (port : string) : res PlannedCall :=
  let c := call planned in
  match index_of "--port" (args c) with
  | None => Raise ValueError "'--port' is not in list"
  | Some i =>
      if bool_decide (i + 1 < length (args c))%nat then
        Ok (mkPlannedCall (step planned) (purpose planned)
              (mkToolCall (tool c) (<[(i + 1)%nat := port]> (args c)) (label c) (timeout_s c) (idle_timeout_s c))
              (ranges planned) (summary_path planned) (key_path planned))
      else Raise IndexError "list assignment index out of range"
  end.

(** ** What the image checks accept *)

(** An image sits at its role's offset and fits the slot of that role. *)
Definition slot_ok (r : FlashRange) : Prop :=
  assoc (role r) ROLE_OFFSETS = Some (offset r) ∧ 0 < size r ∧
  match assoc (role r) limits with Some l => size r <= l | None => True end ∧
  match assoc (role r) exact with Some e => size r = e | None => True end.

Definition plan_roles (m : InstallMode) (family : Family) : list string :=
  match m with CHANGE_SETTINGS => CHANGE_SETTINGS_ROLES | _ => BUNDLE_ROLES family ++ APP_ROLES end.

(** Strings the caller supplies end up on a command line. *)
Definition arg_ok (s : string) : Prop := s ∉ FORBIDDEN_ARGS.
Definition port_ok (s : string) : Prop := arg_ok s ∧ s ≠ "--after" ∧ s ≠ "--before".

(** The nine slots, as ranges of addresses. *)
Definition slots : list (string * Z * Z) :=
  [("bootloader", 0, 0x10000); ("partition-table", 0x10000, 0x11000); ("nvs", 0x11000, 0x17000);
   ("otadata", 0x17000, 0x19000); ("factory", 0x20000, 0x2A0000); ("ota_0", 0x2A0000, 0x520000);
   ("ota_1", 0x520000, 0x7A0000); ("storage", 0x7A0000, 0xFA0000); ("redo-area", 0xFA0000, 0x1000000)].

Ltac eval_assoc H :=
  match type of H with context [assoc ?k ?d] =>
    let v := eval vm_compute in (assoc k d) in change (assoc k d) with v in H
  end; cbv beta iota in H.

Lemma slot_inv r : slot_ok r → Exists (λ '(n, lo, hi),
  role r = n ∧ offset r = lo ∧ 0 < size r ∧ range_end r <= hi ∧ (n = "redo-area" → range_end r = hi)) slots.
Proof.
  intros (Ha & Ha0 & Hal & Hae). unfold range_end. apply assoc_elem in Ha.
  destruct r as [n o p sz]. cbn [role offset size] in *. unfold ROLE_OFFSETS in Ha. unfold slots.
  repeat (apply elem_of_cons in Ha as [[= -> ->]|Ha];
    [apply Exists_cons_hd; eval_assoc Hal; eval_assoc Hae; (split_and!; [done..|done| |]);
     intros; try done; lazy delta [BOOTLOADER_OFFSET PARTITION_TABLE_OFFSET NVS_OFFSET OTADATA_OFFSET FACTORY_OFFSET
       OTA_0_OFFSET OTA_1_OFFSET STORAGE_OFFSET REDO_AREA_OFFSET]; lia
    | apply Exists_cons_tl]); by apply not_elem_of_nil in Ha.
Qed.

Ltac slot_cases H :=
  apply slot_inv in H; unfold slots in H;
  repeat (apply Exists_cons in H as [H|H]; [destruct H as (? & ? & ? & ? & ?)|]); [..|by apply Exists_nil in H].

(** Two images of different roles never overlap. *)
Lemma slot_disjoint a b :
  slot_ok a → slot_ok b → role a ≠ role b → offset a <= offset b → range_end a <= offset b.
Proof. intros Ha Hb Hne Hle. slot_cases Ha; slot_cases Hb; first [congruence | lia]. Qed.

Lemma slot_bounds r : slot_ok r →
  0 <= offset r ∧ range_end r <= FLASH_TOTAL ∧
  (REDO_AREA_OFFSET < range_end r → (role r, offset r, size r) = ("redo-area", REDO_AREA_OFFSET, REDO_AREA_SIZE)) ∧
  (offset r < START_AREA_SIZE → role r = "bootloader") ∧
  (role r = "bootloader" → range_end r <= START_AREA_SIZE).
Proof.
  unfold FLASH_TOTAL, REDO_AREA_OFFSET, REDO_AREA_SIZE, START_AREA_SIZE. intros Ha.
  slot_cases Ha; (split_and!; [lia..| | |]); intros; try first [congruence | lia | done].
  unfold range_end in *. repeat f_equal; [done..|]. by specialize (H3 eq_refl); lia.
Qed.

Lemma slot_role_NoDup rs : NoDup (map role rs) → Forall slot_ok rs → NoDup (map offset rs).
Proof.
  intros Hn Hs. rewrite Forall_forall in Hs.
  assert (∀ a b, a ∈ rs → b ∈ rs → offset a = offset b → role a = role b) as Hinj.
  { intros a b Ha Hb Heq. apply Hs in Ha, Hb. slot_cases Ha; slot_cases Hb; first [congruence | lia]. }
  clear Hs. induction rs as [|r rs IH]; simpl in *; [constructor|].
  apply NoDup_cons in Hn as [Hr Hn]. constructor; [|apply IH; set_solver].
  intros (r' & Heq & Hr')%list_elem_of_fmap. apply Hr. apply list_elem_of_fmap.
  exists r'. split; [apply Hinj; set_solver|done].
Qed.

Lemma check_placed_ok e r : slot_ok r → e <= offset r → check_placed e r = Ok (range_end r).
Proof.
  intros Hs He. pose proof (slot_bounds r Hs) as (_ & Htot & Hredo & _). destruct Hs as (Ha & Hp & _).
  unfold check_placed. rewrite (proj2 (Z.leb_gt _ _) Hp), Ha. cbn [default from_option].
  rewrite Z.eqb_refl. cbn [negb]. rewrite (proj2 (Z.ltb_ge _ _) He), (proj2 (Z.ltb_ge _ _) Htot).
  destruct (Z.ltb_spec REDO_AREA_OFFSET (range_end r)) as [H|H]; [|done].
  specialize (Hredo H). injection Hredo as -> _ _. by rewrite bool_decide_eq_true_2.
Qed.

Lemma check_placed_all rs e :
  Forall slot_ok rs → NoDup (map role rs) → StronglySorted (λ a b, offset a <= offset b) rs →
  Forall (λ r, e <= offset r) rs → ∃ e', foldR check_placed rs e = Ok e'.
Proof.
  revert e. induction rs as [|r rs IH]; intros e Hs Hn Hsort He; [by eexists|].
  apply Forall_cons in Hs as [Hr Hs]. apply NoDup_cons in Hn as [Hnr Hn].
  apply Forall_cons in He as [Her He]. inversion Hsort as [|? ? Hsort' Hle]; subst.
  cbn [foldR]. rewrite check_placed_ok by done. cbn [mbind res_bind]. apply IH; try done.
  rewrite Forall_forall in Hs, Hle |- *. intros x Hx. apply slot_disjoint; auto.
  intros Heq. apply Hnr. rewrite Heq. by apply list_elem_of_fmap_2.
Qed.

Lemma check_slot_ok r : slot_ok r → check_slot tt r = Ok tt.
Proof.
  intros (_ & _ & Hl & He). unfold check_slot. destruct (assoc _ limits); [rewrite (proj2 (Z.ltb_ge _ _) Hl)|];
    destruct (assoc _ exact); try done; by rewrite He, Z.eqb_refl.
Qed.

Lemma foldR_each {A S} (f : S → A → res S) l s s' x :
  foldR f l s = Ok s' → x ∈ l → ∃ s0 s1, f s0 x = Ok s1.
Proof.
  revert s. induction l as [|y l IH]; intros s H Hx; [set_solver|].
  cbn [foldR] in H. apply bind_ok in H as (s1 & H1 & H). apply elem_of_cons in Hx as [->|Hx]; eauto.
Qed.

(** The ends only grow, so a range at -1 (an unknown role) is always refused. *)
Lemma check_placed_inv rs e :
  foldR check_placed rs 0 = Ok e →
  Forall (λ r, assoc (role r) ROLE_OFFSETS = Some (offset r) ∧ 0 < size r) rs.
Proof.
  intros H. apply (foldR_inv _ (λ l e, Forall (λ r, assoc (role r) ROLE_OFFSETS = Some (offset r) ∧ 0 < size r) l
    ∧ 0 <= e)) in H; [tauto|done|]. clear H rs e.
  intros l r e0 e1 [Hl He] H. unfold check_placed, plan_error, range_end in H. inv_res H. bool_prop.
  rewrite Forall_app, Forall_singleton. split_and!; [done| |lia..].
  destruct (assoc (role r) ROLE_OFFSETS); simpl in *; [congruence|lia].
Qed.

Lemma check_ranges_iff rs :
  NoDup (map role rs) → _check_ranges rs = Ok tt ↔ Forall slot_ok rs.
Proof.
  intros Hn. unfold _check_ranges. split.
  - intros (e & Hp & Hs)%bind_ok. apply Forall_forall. intros r Hr.
    rewrite <- (sort_by_perm offset rs) in Hr.
    destruct (foldR_each _ _ _ _ _ Hs Hr) as ([] & [] & Hsr).
    apply check_placed_inv in Hp. rewrite Forall_forall in Hp. destruct (Hp r Hr) as [Ho Hsz].
    unfold check_slot, plan_error in Hsr. unfold slot_ok.
    destruct (assoc (role r) limits) as [l|], (assoc (role r) exact) as [x|];
      repeat match type of Hsr with context [?a <? ?b] => destruct (Z.ltb_spec a b); [done|] end;
      repeat match type of Hsr with context [?a =? ?b] => destruct (Z.eqb_spec a b); [|done] end; done.
  - intros Hs. destruct (check_placed_all (sort_by offset rs) 0) as (e & ->); [by rewrite sort_by_perm| | | |].
    + by rewrite sort_by_perm.
    + apply sort_by_sorted.
    + rewrite sort_by_perm. eapply Forall_impl; [exact Hs|]. intros r Hr. by apply slot_bounds in Hr as [? _].
    + cbn [mbind res_bind]. rewrite <- (sort_by_perm offset) in Hs.
      induction Hs as [|r l Hr Hl IH]; [done|]. cbn [foldR]. by rewrite check_slot_ok.
Qed.

(** ** What a split returns *)
Definition role_offset (n : string) : Z := default (-1) (assoc n ROLE_OFFSETS).
Definition main_roles (family : Family) : list string :=
  Eval vm_compute in match family with
  | ZKT => sort_by role_offset (List.filter (λ n, negb (bool_decide (n = "bootloader"))) (BUNDLE_ROLES ZKT ++ APP_ROLES))
  | HIKVISION => sort_by role_offset (List.filter (λ n, negb (bool_decide (n = "bootloader"))) (BUNDLE_ROLES HIKVISION ++ APP_ROLES))
  end.

Lemma plan_roles_NoDup m family : NoDup (plan_roles m family).
Proof. destruct m, family; apply (bool_decide_unpack _); vm_compute; exact I. Qed.

Lemma map_filter_role (t : string → bool) rs :
  map role (List.filter (λ i, t (role i)) rs) = List.filter t (map role rs).
Proof. induction rs as [|r rs IH]; simpl; [done|]. destruct (t (role r)); simpl; by rewrite IH. Qed.

Lemma Permutation_filter_bool {A} (t : A → bool) l k :
  l ≡ₚ k → List.filter t l ≡ₚ List.filter t k.
Proof.
  induction 1 as [| |x y l|]; simpl; [done|by destruct (t x); [constructor|] | |by etrans].
  destruct (t x), (t y); try done. constructor.
Qed.

Lemma sorted_roles rs k :
  map role rs ≡ₚ k → NoDup k → Forall slot_ok rs → map role (sort_by offset rs) = sort_by role_offset k.
Proof.
  intros Hp Hk Hs. assert (∀ x, x ∈ rs → offset x = role_offset (role x)) as Hoff.
  { rewrite Forall_forall in Hs. intros x Hx. destruct (Hs x Hx) as [Ha _]. unfold role_offset. by rewrite Ha. }
  rewrite (sort_by_map role role_offset) by done.
  apply sort_by_unique; [done|]. rewrite map_map.
  rewrite <- (map_ext_in offset (λ x, role_offset (role x))) by (intros x Hx%list_elem_of_In; auto).
  apply slot_role_NoDup; [|done]. by rewrite Hp.
Qed.

Lemma filter_split {A} (t : A → bool) l : l ≡ₚ List.filter t l ++ List.filter (λ x, negb (t x)) l.
Proof.
  induction l as [|x l IH]; simpl; [done|]. destruct (t x); simpl; [by constructor|].
  rewrite <- Permutation_middle. by constructor.
Qed.

(** The images of a full install, split as the plans use them. *)
Definition split_of (family : Family) (rs : list FlashRange) (b : FlashRange) (rest : list FlashRange) : Prop :=
  rs ≡ₚ b :: rest ∧ role b = "bootloader" ∧ map role rest = main_roles family ∧ Forall slot_ok (b :: rest).

Lemma split_complete family rs :
  map role rs ≡ₚ BUNDLE_ROLES family ++ APP_ROLES → Forall slot_ok rs →
  ∃ b rest, _split family rs = Ok (b, rest) ∧ split_of family rs b rest.
Proof.
  intros Hp Hs. pose proof (plan_roles_NoDup NEW_BOARD family) as Hn. unfold plan_roles in Hn.
  assert (map role (List.filter is_bootloader rs) = ["bootloader"]) as Hb.
  { etrans; [exact (map_filter_role (λ n, bool_decide (n = "bootloader")) rs)|].
    symmetry. apply Permutation_singleton_l. etrans; [|symmetry; apply Permutation_filter_bool, Hp]. by destruct family. }
  destruct (List.filter is_bootloader rs) as [|b [|b' bs]] eqn:Ef; try discriminate Hb. injection Hb as Hb.
  set (others := List.filter (λ i, negb (is_bootloader i)) rs).
  assert (rs ≡ₚ b :: others) as Hrs by (rewrite (filter_split is_bootloader rs), Ef; done).
  exists b, (sort_by offset others). split.
  - unfold _split. rewrite bool_decide_eq_false_2 by (intros Hne; by apply Hne, sorted_strs_eq).
    rewrite (proj2 (check_ranges_iff rs ltac:(by rewrite Hp)) Hs). cbn [mbind res_bind]. by rewrite Ef.
  - split_and!; [by rewrite sort_by_perm|done| |].
    + rewrite (sorted_roles others (List.filter (λ n, negb (bool_decide (n = "bootloader"))) (BUNDLE_ROLES family ++ APP_ROLES))).
      * by destruct family.
      * etrans; [apply reflexive_eq; exact (map_filter_role (λ n, negb (bool_decide (n = "bootloader"))) rs)|].
        by apply Permutation_filter_bool.
      * apply NoDup_ListNoDup, List.NoDup_filter, NoDup_ListNoDup. done.
      * rewrite Hrs in Hs. by apply Forall_cons in Hs as [_ ?].
    + rewrite sort_by_perm, <- Hrs. done.
Qed.

Lemma split_sound family rs b rest :
  _split family rs = Ok (b, rest) →
  map role rs ≡ₚ BUNDLE_ROLES family ++ APP_ROLES ∧ Forall slot_ok rs ∧ split_of family rs b rest.
Proof.
  intros H. assert (map role rs ≡ₚ BUNDLE_ROLES family ++ APP_ROLES) as Hp.
  { apply sorted_strs_eq. unfold _split in H. by case_bool_decide as E. }
  assert (Forall slot_ok rs) as Hs.
  { apply check_ranges_iff. { rewrite Hp. apply (plan_roles_NoDup NEW_BOARD family). }
    unfold _split in H. case_bool_decide; [done|]. apply bind_ok in H as ([] & ? & _). done. }
  split_and!; [done..|]. destruct (split_complete family rs Hp Hs) as (b' & rest' & H' & Hof). congruence.
Qed.

(** ** When the checker accepts a call *)
Lemma say_nil b msg : say b msg = [] ↔ b = false.
Proof. by destruct b. Qed.

Lemma forbidden_false l :
  existsb (λ arg, bool_decide (arg ∈ FORBIDDEN_ARGS)) l = false ↔ Forall arg_ok l.
Proof.
  induction l as [|x l IH]; simpl; [by split|]. rewrite orb_false_iff, IH, Forall_cons, bool_decide_eq_false. done.
Qed.

Lemma arg_ok_dec s : bool_decide (s ∈ FORBIDDEN_ARGS) = false → arg_ok s.
Proof. apply bool_decide_eq_false. Qed.

Ltac const_arg := apply arg_ok_dec; vm_compute; reflexivity.

(** A range the checker has nothing to say about. *)
Lemma slot_range_problems lbl rs : Forall slot_ok rs → concat (map (range_problems lbl) rs) = [].
Proof.
  induction 1 as [|r rs Hr Hrs IH]; simpl; [done|]. rewrite IH, app_nil_r. unfold range_problems.
  pose proof (slot_bounds r Hr) as (_ & Htot & Hredo & _).
  rewrite (proj2 (Z.ltb_ge _ _) Htot). cbn [say app].
  destruct (Z.ltb_spec REDO_AREA_OFFSET (range_end r)) as [H|H]; [|done].
  by rewrite bool_decide_eq_true_2 by auto.
Qed.

(** The verdict on a call, when the checker reaches one. *)
Definition verdict (r : res (list string)) (ok : Prop) : Prop := ∃ ps, r = Ok ps ∧ (ps = [] ↔ ok).

Lemma after_bad_esptool prt cmd stub :
  after_bad (esptool_args prt cmd stub) = Ok (bool_decide (prt = "--after")).
Proof.
  unfold after_bad, esptool_args. cbn [app index_of].
  destruct (decide ("--after" = prt)) as [<-|Hn]; [done|].
  rewrite (bool_decide_eq_false_2 (_ = prt)), (bool_decide_eq_false_2 (prt = _)) by done. done.
Qed.

Lemma before_bad_common prt tl :
  before_bad (["--chip"; CHIP; "--port"; prt; "--before"; "default-reset"] ++ tl) = Ok (bool_decide (prt = "--before")).
Proof.
  unfold before_bad. cbn [app index_of].
  destruct (decide ("--before" = prt)) as [<-|Hn]; [done|].
  rewrite (bool_decide_eq_false_2 (_ = prt)), (bool_decide_eq_false_2 (prt = _)) by done. done.
Qed.

Lemma before_bad_esptool prt cmd stub :
  before_bad (esptool_args prt cmd stub) = Ok (bool_decide (prt = "--before")).
Proof. exact (before_bad_common prt (["--after"; "no-reset"] ++ (if stub then [] else ["--no-stub"]) ++ cmd)). Qed.

Lemma before_bad_espefuse prt cmd confirm :
  before_bad (espefuse_args prt cmd confirm) = Ok (bool_decide (prt = "--before")).
Proof. apply before_bad_common. Qed.

Lemma write_order_false burns i c :
  (purpose c = WRITE_FIRMWARE → Forall (λ b, i ≤ b)%nat burns) →
  bool_decide (purpose c = WRITE_FIRMWARE) && match burns with b :: _ => Nat.ltb b i | [] => false end = false.
Proof.
  intros Hw. apply andb_false_iff. case_bool_decide as E; [right|by left]. destruct burns as [|b bs]; [done|].
  apply Nat.ltb_ge. by apply Hw, Forall_cons in E as [? _].
Qed.

Lemma esptool_verdict burns i c prt cmd stub :
  tool (call c) = ESPTOOL → args (call c) = esptool_args prt cmd stub → Forall slot_ok (ranges c) →
  (purpose c = WRITE_FIRMWARE → Forall (λ b, i ≤ b)%nat burns) →
  verdict (call_problems burns i c) (port_ok prt ∧ Forall arg_ok cmd).
Proof.
  intros Ht Ha Hr Hw. unfold call_problems. rewrite slot_range_problems, write_order_false by done. rewrite Ht, Ha.
  rewrite (bool_decide_eq_true_2 (ESPTOOL = ESPTOOL)) by done. rewrite after_bad_esptool. cbn [mbind res_bind].
  rewrite before_bad_esptool. cbn [mbind res_bind].
  eexists. split; [reflexivity|]. rewrite !app_nil, !say_nil, forbidden_false, !bool_decide_eq_false.
  unfold esptool_args, port_ok. rewrite !Forall_app. cbn [app]. rewrite !Forall_cons.
  split; [tauto|]. intros ((? & ? & ?) & ?). split_and!; try const_arg; try done.
  destruct stub; [constructor|]. by constructor; [const_arg|constructor].
Qed.

Lemma espefuse_verdict burns i c prt cmd confirm :
  tool (call c) = ESPEFUSE → args (call c) = espefuse_args prt cmd confirm → ranges c = [] →
  purpose c ≠ WRITE_FIRMWARE → Forall arg_ok cmd → "--after" ∉ cmd →
  verdict (call_problems burns i c) (port_ok prt).
Proof.
  intros Ht Ha Hr Hw Hcmd Haft. unfold call_problems. rewrite write_order_false by done. rewrite Ht, Ha, Hr.
  rewrite (bool_decide_eq_false_2 (ESPEFUSE = ESPTOOL)), (bool_decide_eq_true_2 (ESPEFUSE = ESPEFUSE)) by done.
  cbn [mbind res_bind]. rewrite before_bad_espefuse. cbn [mbind res_bind].
  eexists. split; [reflexivity|]. rewrite !app_nil, !say_nil, forbidden_false. rewrite andb_true_l, !bool_decide_eq_false.
  unfold espefuse_args, port_ok. rewrite !Forall_app. cbn [app]. rewrite !Forall_cons.
  split.
  - intros ((? & ?) & _ & Hb & _ & Hna & _). split_and!; [tauto| |done]. intros ->. set_solver.
  - intros (? & ? & ?). split_and!; try const_arg; try done.
    + destruct confirm; [|constructor]. by constructor; [const_arg|constructor].
    + destruct confirm; set_solver.
Qed.

(** A name in the work directory is never one of the strings the checker looks for. *)
Lemma path_join_fresh wd name l :
  forallb (λ s, negb (bool_decide (tail_chars (length (chars name)) s = rev (chars name)))) l = true →
  path_join wd name ∉ l.
Proof.
  rewrite forallb_forall. intros H Hin. apply list_elem_of_In, H in Hin.
  apply negb_true_iff, bool_decide_eq_false in Hin. apply Hin. apply tail_chars_app.
Qed.

Lemma path_join_ok wd name :
  forallb (λ s, negb (bool_decide (tail_chars (length (chars name)) s = rev (chars name))))
    ("--after" :: FORBIDDEN_ARGS) = true →
  arg_ok (path_join wd name) ∧ path_join wd name ≠ "--after".
Proof. intros H%(path_join_fresh wd). unfold arg_ok. set_solver. Qed.

Lemma pairs_ok rs : Forall slot_ok rs → Forall arg_ok (_pairs rs) ↔ Forall (λ r, arg_ok (path r)) rs.
Proof.
  induction 1 as [|r rs Hr Hrs IH]; [by split; constructor|]. unfold _pairs in *. cbn [map concat app].
  rewrite !Forall_cons, IH. assert (arg_ok (py_hex (offset r))); [|tauto].
  slot_cases Hr; rewrite H0; const_arg.
Qed.

Lemma verdict_nil burns i : verdict (all_call_problems burns i []) True.
Proof. by eexists. Qed.

Lemma verdict_cons burns i c cs P Q :
  verdict (call_problems burns i c) P → verdict (all_call_problems burns (S i) cs) Q →
  verdict (all_call_problems burns i (c :: cs)) (P ∧ Q).
Proof.
  intros (ps & Hp & HP) (qs & Hq & HQ). exists (ps ++ qs). cbn [all_call_problems].
  rewrite Hp, Hq. split; [done|]. by rewrite app_nil, HP, HQ.
Qed.

Lemma verdict_iff r P Q : verdict r P → (P ↔ Q) → verdict r Q.
Proof. intros (ps & ? & ?) ?. exists ps. split; [done|]. tauto. Qed.

Ltac esptool_call := eapply esptool_verdict; [reflexivity | reflexivity | try done | try done].
Ltac key_file := apply path_join_ok; vm_compute; reflexivity.
Ltac espefuse_call wd name :=
  destruct (path_join_ok wd name) as [? ?]; [vm_compute; reflexivity|];
  eapply espefuse_verdict;
    [reflexivity | reflexivity | reflexivity | done
    | repeat (apply Forall_cons; split; [first [done | const_arg]|]); apply Forall_nil; exact I
    | rewrite !not_elem_of_cons; split_and!; first [done | apply not_elem_of_nil]].

(** What is left of a verdict: the installer's own words are never forbidden. *)
Ltac const_verdict :=
  split; [tauto|]; intros; destruct_and?;
  split_and!; try const_arg; try (by apply Forall_nil);
  first [done | apply forbidden_false; vm_compute; reflexivity].

Lemma new_board_verdict burns prt wd b rest :
  Forall slot_ok (b :: rest) → Forall (λ u, 2 ≤ u)%nat burns →
  verdict (all_call_problems burns 0 (new_board_calls prt wd b rest))
    (port_ok prt ∧ Forall (λ r, arg_ok (path r)) (b :: rest)).
Proof.
  intros Hs Hb. pose proof Hs as Hs'. apply Forall_cons in Hs' as [Hsb Hsr].
  assert (Forall slot_ok [b]) as Hsb1 by by rewrite Forall_singleton.
  eapply verdict_iff.
  { unfold new_board_calls. cbv zeta.
    apply verdict_cons; [esptool_call|]. apply verdict_cons; [esptool_call|].
    apply verdict_cons; [esptool_call|]. apply verdict_cons; [esptool_call|].
    apply verdict_cons; [espefuse_call wd "key-state-before.json"|].
    apply verdict_cons; [espefuse_call wd "board-key.bin"|].
    apply verdict_cons; [espefuse_call wd "key-state-after.json"|].
    apply verdict_cons; [esptool_call|]. apply verdict_cons; [esptool_call|]. apply verdict_nil. }
  rewrite !Forall_app, !pairs_ok, !Forall_cons by done.
  const_verdict.
Qed.

Lemma resume_verdict burns prt wd b rest :
  Forall slot_ok (b :: rest) → burns = [] →
  verdict (all_call_problems burns 0 (resume_calls prt wd b rest))
    (port_ok prt ∧ Forall (λ r, arg_ok (path r)) (b :: rest)).
Proof.
  intros Hs ->. pose proof Hs as Hs'. apply Forall_cons in Hs' as [Hsb Hsr].
  assert (Forall slot_ok [b]) as Hsb1 by by rewrite Forall_singleton.
  eapply verdict_iff.
  { unfold resume_calls.
    apply verdict_cons; [esptool_call|].
    apply verdict_cons; [espefuse_call wd "key-state-resume.json"|].
    apply verdict_cons; [esptool_call|]. apply verdict_cons; [esptool_call|]. apply verdict_cons; [esptool_call|].
    apply verdict_cons; [esptool_call|]. apply verdict_cons; [esptool_call|]. apply verdict_nil. }
  rewrite !Forall_app, !pairs_ok, !Forall_cons by done.
  const_verdict.
Qed.

Lemma settings_verdict prt rs :
  Forall slot_ok rs →
  verdict (all_call_problems [] 0 (settings_calls prt rs)) (port_ok prt ∧ Forall (λ r, arg_ok (path r)) rs).
Proof.
  intros Hs. eapply verdict_iff.
  { unfold settings_calls. cbn [_write_timeout].
    apply verdict_cons; [esptool_call|]. apply verdict_cons; [esptool_call|]. apply verdict_nil. }
  rewrite !Forall_app, !pairs_ok, !Forall_cons by done.
  const_verdict.
Qed.

(** ** When a whole plan passes the checker *)
Lemma rest_facts family rest :
  map role rest = main_roles family →
  existsb is_bootloader rest = false ∧ bool_decide (rest = []) = false ∧
  length (List.filter (λ i, bool_decide (role i = "redo-area")) rest) = 1%nat ∧
  ∃ r, last rest = Some r ∧ role r = "redo-area".
Proof.
  intros H. unfold is_bootloader. destruct family; unfold main_roles in H;
  repeat (destruct rest as [|? rest]; cbn [map] in H; try discriminate H);
  injection H as; (split_and!; [..|eexists; split; [reflexivity|done]]); cbn [existsb List.filter];
  repeat match goal with E : role ?x = _ |- context [role ?x] => rewrite !E end; reflexivity.
Qed.

Lemma redo_bad_main c rest family :
  map role rest = main_roles family → ranges c = rest → redo_bad [c] = false.
Proof.
  intros (_ & Hn & Hc & r & Hl & Hr)%rest_facts <-. unfold redo_bad.
  rewrite Hn, Hc, Hl, Hr. by rewrite bool_decide_eq_true_2.
Qed.

Lemma safety_finish p1 p2 r p4 q P :
  verdict r P → p1 = [] → p2 = [] → p4 = [] → q = Ok [] →
  verdict (p3 ← r; p5 ← q; Ok (p1 ++ p2 ++ p3 ++ p4 ++ p5)) P.
Proof.
  intros (ps & -> & HP) -> -> -> ->. cbn. exists ps. by rewrite !app_nil_r.
Qed.

Definition plan_args_ok (prt : string) (rs : list FlashRange) : Prop :=
  port_ok prt ∧ Forall (λ r, arg_ok (path r)) rs.

Lemma board_problems_nil plan m burns bw main e ws iw c v w rest :
  mode plan = m → m ≠ CHANGE_SETTINGS →
  where_ (has_purpose [ERASE_START_AREA]) (calls plan) = [e] →
  where_ (λ c, negb (bool_decide (ranges c = []))) (calls plan) = ws →
  where_ (has_purpose [WRITE_FIRMWARE; WRITE_STARTUP]) (calls plan) = iw →
  last (calls plan) = Some c → purpose c = VERIFY_STARTUP →
  List.filter (has_purpose [VERIFY_FIRMWARE]) (calls plan) = [v] → main = [w] → ranges v = rest → ranges w = rest →
  match ws with [] => false | w :: ws => Nat.ltb (foldr Nat.min w ws) e end = false →
  match bw with [b] => negb (Nat.eqb b (foldr Nat.max 0%nat iw)) | _ => true end = false →
  match burns, bw with u :: _, b :: _ => Nat.ltb b u | _, _ => false end = false →
  (if bool_decide (mode plan = CHANGE_SETTINGS) then Ok (concat (map settings_problems (calls plan)))
   else board_problems plan burns bw main) = Ok [].
Proof.
  intros Hm Hnm He Hws Hiw Hlast Hp Hv -> Hrv Hrw H1 H2 H3.
  rewrite bool_decide_eq_false_2 by congruence. unfold board_problems.
  rewrite He, Hws, Hiw, Hlast, Hv, Hrv, Hrw, H1, H2, H3, Hp. by rewrite !bool_decide_eq_true_2.
Qed.

Lemma new_board_safety family rs prt wd b rest :
  split_of family rs b rest →
  verdict (safety_problems (mkFlashPlan NEW_BOARD prt (new_board_calls prt wd b rest))) (plan_args_ok prt (b :: rest)).
Proof.
  intros (_ & Hb & Hr & Hs). pose proof (rest_facts _ _ Hr) as (Hnb & Hne & _).
  unfold safety_problems. cbn [mode calls]. change (where_ (has_purpose [BURN_KEY]) _) with [5%nat].
  assert (where_ (λ c, existsb is_bootloader (ranges c) && has_purpose [WRITE_STARTUP; WRITE_FIRMWARE] c)
            (new_board_calls prt wd b rest) = [7%nat]) as Hbw.
  { cbn -[is_bootloader]. rewrite Hnb. unfold is_bootloader. rewrite Hb. reflexivity. }
  rewrite Hbw. apply safety_finish; [|done|done| |].
  - apply new_board_verdict; [done|]. repeat constructor; lia.
  - apply say_nil. apply (redo_bad_main _ rest family); done.
  - eapply (board_problems_nil (mkFlashPlan NEW_BOARD prt (new_board_calls prt wd b rest)) NEW_BOARD _ _ _ 1 [2; 3; 7; 8]%nat [2; 7]%nat _ _ _ rest); try (done || reflexivity).
    cbn. by rewrite Hne.
Qed.

Lemma resume_safety family rs prt wd b rest :
  split_of family rs b rest →
  verdict (safety_problems (mkFlashPlan RESUME prt (resume_calls prt wd b rest))) (plan_args_ok prt (b :: rest)).
Proof.
  intros (_ & Hb & Hr & Hs). pose proof (rest_facts _ _ Hr) as (Hnb & Hne & _).
  unfold safety_problems. cbn [mode calls]. change (where_ (has_purpose [BURN_KEY]) _) with (@nil nat).
  assert (where_ (λ c, existsb is_bootloader (ranges c) && has_purpose [WRITE_STARTUP; WRITE_FIRMWARE] c)
            (resume_calls prt wd b rest) = [5%nat]) as Hbw.
  { cbn -[is_bootloader]. rewrite Hnb. unfold is_bootloader. rewrite Hb. reflexivity. }
  rewrite Hbw. apply safety_finish; [|done|done| |].
  - by apply resume_verdict.
  - apply say_nil. apply (redo_bad_main _ rest family); done.
  - eapply (board_problems_nil (mkFlashPlan RESUME prt (resume_calls prt wd b rest)) RESUME _ _ _ 2 [3; 4; 5; 6]%nat [3; 5]%nat _ _ _ rest); try (done || reflexivity).
    cbn. by rewrite Hne.
Qed.

Lemma settings_safety prt rs :
  map role rs = CHANGE_SETTINGS_ROLES → Forall slot_ok rs →
  verdict (safety_problems (mkFlashPlan CHANGE_SETTINGS prt (settings_calls prt rs))) (plan_args_ok prt rs).
Proof.
  intros Hr Hs. unfold safety_problems. cbn [mode calls].
  change (where_ (has_purpose [BURN_KEY]) _) with (@nil nat).
  destruct rs as [|a [|b [|c []]]]; try discriminate Hr. injection Hr as Ha Hb Hc.
  apply safety_finish; [|done|done| |].
  - by apply settings_verdict.
  - unfold settings_calls. cbn [_write_timeout].
    match goal with |- context [main_writes (?i :: ?w :: [])] => change (main_writes [i; w]) with [w] end.
    unfold redo_bad. cbn [ranges List.filter last]. by rewrite Ha, Hb, Hc.
  - rewrite bool_decide_eq_true_2 by done. unfold settings_calls. cbn [_write_timeout map concat app].
    f_equal. apply app_nil. split; [done|]. apply app_nil. split; [|done]. unfold settings_problems.
    cbn [ranges map args call]. rewrite Ha, Hb, Hc.
    rewrite (bool_decide_eq_true_2 ("--no-stub" ∈ _)) by (unfold esptool_args; cbn [app]; set_solver). done.
Qed.

(** ** The plans that can be built *)
Definition images_ok (m : InstallMode) (family : Family) (rs : list FlashRange) : Prop :=
  map role rs ≡ₚ plan_roles m family ∧ Forall slot_ok rs.

(** The calls of a plan for images in the order the code uses them. *)
Definition calls_of (m : InstallMode) (prt wd : string) (b : option FlashRange) (rest : list FlashRange) : list PlannedCall :=
  match m, b with
  | NEW_BOARD, Some b => new_board_calls prt wd b rest
  | RESUME, Some b => resume_calls prt wd b rest
  | _, _ => settings_calls prt rest
  end.

Definition arranged (m : InstallMode) (family : Family) (rs : list FlashRange) (b : option FlashRange)
    (rest : list FlashRange) : Prop :=
  match m, b with
  | CHANGE_SETTINGS, None => rs ≡ₚ rest ∧ map role rest = CHANGE_SETTINGS_ROLES ∧ Forall slot_ok rest
  | CHANGE_SETTINGS, Some _ | _, None => False
  | _, Some b => split_of family rs b rest
  end.

Lemma verdict_checked P plan :
  verdict (safety_problems plan) P → (P → _checked plan = Ok plan) ∧ (¬ P → ∃ msg, _checked plan = Raise PlanError msg).
Proof.
  intros (ps & Hp & HP). unfold _checked. rewrite Hp. cbn [mbind res_bind]. split; intros H.
  - by rewrite bool_decide_eq_true_2 by tauto.
  - rewrite bool_decide_eq_false_2 by tauto. by eexists.
Qed.

Lemma settings_arranged rs :
  map role rs ≡ₚ CHANGE_SETTINGS_ROLES → Forall slot_ok rs →
  rs ≡ₚ sort_by offset rs ∧ map role (sort_by offset rs) = CHANGE_SETTINGS_ROLES ∧ Forall slot_ok (sort_by offset rs).
Proof.
  intros Hp Hs. split_and!; [by rewrite sort_by_perm| |by rewrite sort_by_perm].
  rewrite (sorted_roles _ CHANGE_SETTINGS_ROLES); [done|done| |done].
  apply (plan_roles_NoDup CHANGE_SETTINGS ZKT).
Qed.

Lemma build_plan_good m prt family rs wd :
  images_ok m family rs → plan_args_ok prt rs →
  ∃ b rest, build_plan m prt family rs wd = Ok (mkFlashPlan m prt (calls_of m prt wd b rest)) ∧ arranged m family rs b rest.
Proof.
  intros [Hr Hs] Ha. destruct m; cbn [build_plan plan_roles] in *.
  - destruct (split_complete family rs Hr Hs) as (b & rest & Hsp & Hof). exists (Some b), rest. split; [|done].
    unfold new_board_plan. rewrite Hsp. cbn [mbind res_bind]. eapply verdict_checked; [by eapply new_board_safety|].
    destruct Hof as [Hp _]. unfold plan_args_ok in *. by rewrite <- Hp.
  - destruct (split_complete family rs Hr Hs) as (b & rest & Hsp & Hof). exists (Some b), rest. split; [|done].
    unfold resume_plan. rewrite Hsp. cbn [mbind res_bind]. eapply verdict_checked; [by eapply resume_safety|].
    destruct Hof as [Hp _]. unfold plan_args_ok in *. by rewrite <- Hp.
  - destruct (settings_arranged rs Hr Hs) as (Hp & Hr' & Hs'). exists None, (sort_by offset rs). split; [|done].
    unfold change_settings_plan. rewrite bool_decide_eq_false_2 by (intros Hne; by apply Hne, sorted_strs_eq).
    assert (NoDup (map role rs)) as Hn by (rewrite Hr; apply (plan_roles_NoDup CHANGE_SETTINGS ZKT)).
    rewrite (proj2 (check_ranges_iff rs Hn) Hs). cbn [mbind res_bind].
    eapply verdict_checked; [by apply settings_safety|]. unfold plan_args_ok in *. by rewrite <- Hp.
Qed.

Lemma build_plan_inv m prt family rs wd p :
  build_plan m prt family rs wd = Ok p → images_ok m family rs ∧ plan_args_ok prt rs.
Proof.
  assert (∀ P plan, verdict (safety_problems plan) P → _checked plan = Ok p → P ∨ ¬ P → P) as Hgo.
  { intros P plan Hv Hc [HP|HP]; [done|]. destruct (proj2 (verdict_checked P plan Hv) HP) as [msg Hm]. congruence. }
  assert (∀ rs', plan_args_ok prt rs' ∨ ¬ plan_args_ok prt rs') as Hdec.
  { intros rs'. destruct (decide (port_ok prt ∧ Forall (λ r, arg_ok (path r)) rs')); [by left|by right]. }
  destruct m; cbn [build_plan].
  - intros ([b rest] & Hsp & Hc)%bind_ok. apply split_sound in Hsp as (Hr & Hs & Hof). split; [done|].
    pose proof (Hgo _ _ (new_board_safety _ _ prt wd _ _ Hof) Hc (Hdec _)) as Ha.
    destruct Hof as [Hp _]. unfold plan_args_ok in *. by rewrite Hp.
  - intros ([b rest] & Hsp & Hc)%bind_ok. apply split_sound in Hsp as (Hr & Hs & Hof). split; [done|].
    pose proof (Hgo _ _ (resume_safety _ _ prt wd _ _ Hof) Hc (Hdec _)) as Ha.
    destruct Hof as [Hp _]. unfold plan_args_ok in *. by rewrite Hp.
  - unfold change_settings_plan. case_bool_decide as E; [done|]. intros ([] & Hcr & Hc)%bind_ok.
    assert (map role rs ≡ₚ CHANGE_SETTINGS_ROLES) as Hr by by apply sorted_strs_eq.
    assert (Forall slot_ok rs) as Hs.
    { apply check_ranges_iff; [|done]. rewrite Hr. apply (plan_roles_NoDup CHANGE_SETTINGS ZKT). }
    split; [done|]. destruct (settings_arranged rs Hr Hs) as (Hp & Hr' & Hs').
    pose proof (Hgo _ _ (settings_safety prt _ Hr' Hs') Hc (Hdec _)) as Ha. unfold plan_args_ok in *. by rewrite Hp.
Qed.

Lemma check_ranges_error rs c msg : _check_ranges rs = Raise c msg → c = PlanError.
Proof.
  unfold _check_ranges. destruct (foldR check_placed _ _) as [e|c' m'] eqn:E; cbn [mbind res_bind]; intros H.
  - apply foldR_raise in H as (u & r & H). unfold check_slot, plan_error in H.
    repeat case_match; congruence.
  - injection H as -> ->. apply foldR_raise in E as (u & r & H). unfold check_placed, plan_error in H.
    repeat case_match; congruence.
Qed.

Lemma checked_error P plan c msg :
  verdict (safety_problems plan) P → _checked plan = Raise c msg → c = PlanError.
Proof.
  intros (ps & Hp & _). unfold _checked, plan_error. rewrite Hp. cbn [mbind res_bind]. case_bool_decide; congruence.
Qed.

Lemma split_error family rs c msg : _split family rs = Raise c msg → c = PlanError.
Proof.
  intros H. assert (H' := H). unfold _split in H'. case_bool_decide as E; [unfold plan_error in H'; congruence|].
  destruct (_check_ranges rs) as [[]|] eqn:Ec; cbn [mbind res_bind] in H'.
  - assert (map role rs ≡ₚ BUNDLE_ROLES family ++ APP_ROLES) as Hr by by apply sorted_strs_eq.
    destruct (split_complete family rs Hr) as (b & rest & Hok & _); [|congruence].
    apply check_ranges_iff; [|done]. rewrite Hr. apply (plan_roles_NoDup NEW_BOARD family).
  - injection H' as -> ->. by eapply check_ranges_error.
Qed.

Lemma build_plan_error m prt family rs wd c msg :
  build_plan m prt family rs wd = Raise c msg → c = PlanError.
Proof.
  destruct m; cbn [build_plan]; unfold new_board_plan, resume_plan, change_settings_plan.
  - destruct (_split family rs) as [[b rest]|] eqn:E; cbn [mbind res_bind].
    + apply split_sound in E as (_ & _ & Hof). eapply checked_error. by eapply new_board_safety.
    + intros [= -> ->]. by eapply split_error.
  - destruct (_split family rs) as [[b rest]|] eqn:E; cbn [mbind res_bind].
    + apply split_sound in E as (_ & _ & Hof). eapply checked_error. by eapply resume_safety.
    + intros [= -> ->]. by eapply split_error.
  - case_bool_decide as E; [unfold plan_error; congruence|].
    assert (map role rs ≡ₚ CHANGE_SETTINGS_ROLES) as Hr by by apply sorted_strs_eq.
    destruct (_check_ranges rs) as [[]|] eqn:Ec; cbn [mbind res_bind]; [|intros [= -> ->]; by eapply check_ranges_error].
    apply check_ranges_iff in Ec; [|rewrite Hr; apply (plan_roles_NoDup CHANGE_SETTINGS ZKT)].
    destruct (settings_arranged rs Hr Ec) as (_ & Hr' & Hs'). eapply checked_error. by apply settings_safety.
Qed.

(** [build_plan] succeeds exactly when the images are those of the mode, each
    at its production offset and within its slot, and no caller-supplied string
    is one the safety checker refuses; otherwise it raises PlanError and nothing
    else. The plan it returns is the requested mode and port. *)
Theorem build_plan_iff m prt family rs wd :
  (images_ok m family rs ∧ plan_args_ok prt rs ↔
   ∃ cs, build_plan m prt family rs wd = Ok (mkFlashPlan m prt cs)) ∧
  (¬ (images_ok m family rs ∧ plan_args_ok prt rs) ↔
   ∃ msg, build_plan m prt family rs wd = Raise PlanError msg).
Proof.
  destruct (build_plan m prt family rs wd) as [p|c msg] eqn:E.
  - apply build_plan_inv in E as Hok. destruct (build_plan_good m prt family rs wd) as (b & rest & E' & _); [tauto..|].
    rewrite E in E'. injection E' as ->. split; split; [by eexists|tauto|tauto|by intros [? ?]].
  - apply build_plan_error in E as Hc. subst.
    assert (¬ (images_ok m family rs ∧ plan_args_ok prt rs)) as Hno.
    { intros [Hi Ha]. destruct (build_plan_good m prt family rs wd Hi Ha) as (b & rest & E' & _). congruence. }
    split; split; [tauto|by intros [? ?]|by eexists|tauto].
Qed.

(** ** What a plan does to the chip, step by step

    The flash programs bytes in address order, so a power cut leaves the effect
    of some prefix of these events. *)
Inductive event := EraseStart | Program (image : string) (addr : Z) | VerifyImage (image : string) | BurnKey.

Definition call_events (c : PlannedCall) : list event :=
  match purpose c with
  | ERASE_START_AREA => [EraseStart]
  | WRITE_FIRMWARE | WRITE_STARTUP | WRITE_SETTINGS =>
      concat (map (λ r, map (Program (role r)) (seqZ (offset r) (size r))) (ranges c))
  | VERIFY_FIRMWARE | VERIFY_STARTUP => map (λ r, VerifyImage (role r)) (ranges c)
  | BURN_KEY => [BurnKey]
  | IDENTITY | KEY_STATE_BEFORE_BURN | KEY_STATE_FOR_RESUME | KEY_STATE_AFTER_BURN => []
  end.
Definition plan_events (p : FlashPlan) : list event := concat (map call_events (calls p)).

Definition range_events (rs : list FlashRange) : list event :=
  concat (map (λ r, map (Program (role r)) (seqZ (offset r) (size r))) rs).

Lemma elem_of_range_events rs n a :
  Program n a ∈ range_events rs ↔ ∃ r, r ∈ rs ∧ role r = n ∧ offset r <= a < range_end r.
Proof.
  unfold range_events. rewrite list_elem_of_In, in_concat. split.
  - intros (l & (r & <- & Hr)%in_map_iff & (x & [= <- <-] & Hx)%in_map_iff). exists r.
    apply list_elem_of_In, elem_of_seqZ in Hx. split_and!; [by apply list_elem_of_In|done|lia|unfold range_end; lia].
  - intros (r & Hr & <- & Ha). eexists. split; [apply in_map_iff; exists r; split; [done|by apply list_elem_of_In]|].
    apply in_map_iff. exists a. split; [done|]. apply list_elem_of_In, elem_of_seqZ. unfold range_end in *. lia.
Qed.

Lemma prefix_past {A} (front tl pre post : list A) x :
  front ++ tl = pre ++ post → x ∈ pre → x ∉ front → ∃ more, pre = front ++ more ∧ tl = more ++ post.
Proof.
  revert pre. induction front as [|y front IH]; intros pre Heq Hx Hn; simpl in *; [eauto|].
  destruct pre as [|z pre]; [by apply not_elem_of_nil in Hx|]. injection Heq as <- Heq.
  destruct (IH pre Heq) as (more & -> & ->); [set_solver..|]. by exists more.
Qed.

(** The events of a full install: everything but the bootloader comes first. *)
Definition front_events (m : InstallMode) (rest : list FlashRange) : list event :=
  [EraseStart] ++ range_events rest ++ map (λ r, VerifyImage (role r)) rest
  ++ (if bool_decide (m = NEW_BOARD) then [BurnKey] else []).

Lemma install_events m prt wd b rest :
  m ≠ CHANGE_SETTINGS →
  plan_events (mkFlashPlan m prt (calls_of m prt wd (Some b) rest))
  = front_events m rest ++ range_events [b] ++ [VerifyImage (role b)].
Proof.
  intros Hm. unfold plan_events, front_events, range_events. destruct m; [..|done];
  cbn [calls calls_of new_board_calls resume_calls map concat call_events app];
  unfold call_events; cbn [purpose _identity _erase_start _write _verify _key_state _write_timeout _verify_timeout ranges map];
  cbn [concat]; rewrite ?app_nil_r; cbn [app]; rewrite <- ?app_assoc; done.
Qed.

Lemma settings_events prt wd rest :
  plan_events (mkFlashPlan CHANGE_SETTINGS prt (calls_of CHANGE_SETTINGS prt wd None rest)) = range_events rest.
Proof.
  unfold plan_events, range_events. cbn [calls calls_of settings_calls _write_timeout map concat].
  unfold call_events. cbn. by rewrite app_nil_r.
Qed.

Lemma build_plan_arranged m prt family rs wd p :
  build_plan m prt family rs wd = Ok p →
  ∃ b rest, p = mkFlashPlan m prt (calls_of m prt wd b rest) ∧ arranged m family rs b rest.
Proof.
  intros H. destruct (build_plan_inv _ _ _ _ _ _ H) as [Hi Ha].
  destruct (build_plan_good m prt family rs wd Hi Ha) as (b & rest & H' & Harr). exists b, rest. split; [congruence|done].
Qed.

Lemma front_no_start family rs m b rest n a :
  split_of family rs b rest → a < START_AREA_SIZE → Program n a ∉ front_events m rest.
Proof.
  intros (Hp & Hb & Hr & Hs) Ha. pose proof (rest_facts _ _ Hr) as (Hnb & _).
  apply Forall_cons in Hs as [_ Hs]. unfold front_events. rewrite !elem_of_app.
  intros [H|[H|[H|H]]].
  - set_solver.
  - apply elem_of_range_events in H as (r & Hin & _ & Hc). rewrite Forall_forall in Hs.
    destruct (slot_bounds r (Hs r Hin)) as (_ & _ & _ & Hst & _).
    assert (existsb is_bootloader rest = true); [|congruence]. apply existsb_exists. exists r.
    split; [by apply list_elem_of_In|]. unfold is_bootloader. apply bool_decide_eq_true_2. apply Hst. lia.
  - apply list_elem_of_fmap in H as (? & ? & _). done.
  - case_bool_decide; set_solver.
Qed.

(** C15: Whenever an install of a whole board is cut short, if any byte of the
    start area (where the ROM looks for a bootloader) has been programmed, then
    the old start area was erased, every other image was completely programmed
    and then verified, and on a new board the key was burned. So nothing can
    boot from a half-installed board, and nothing boots before its key is burned. *)
Theorem interrupted_install_safe m prt family rs wd p pre post n a :
  build_plan m prt family rs wd = Ok p → m ≠ CHANGE_SETTINGS →
  plan_events p = pre ++ post → Program n a ∈ pre → a < START_AREA_SIZE →
  EraseStart ∈ pre ∧ (m = NEW_BOARD → BurnKey ∈ pre) ∧
  ∀ r, r ∈ rs → role r ≠ "bootloader" →
    VerifyImage (role r) ∈ pre ∧ ∀ x, offset r <= x < range_end r → Program (role r) x ∈ pre.
Proof.
  intros Hb Hm He Hin Ha. apply build_plan_arranged in Hb as (b & rest & -> & Harr).
  assert (∃ b', b = Some b' ∧ split_of family rs b' rest) as (b' & -> & Hof) by (destruct m, b; naive_solver).
  rewrite install_events in He by done.
  destruct (prefix_past _ _ _ _ _ He Hin) as (more & -> & _); [by eapply front_no_start|].
  assert (∀ e, e ∈ front_events m rest → e ∈ front_events m rest ++ more) as Hf by set_solver.
  split_and!.
  - apply Hf. unfold front_events. set_solver.
  - intros ->. apply Hf. unfold front_events. rewrite bool_decide_eq_true_2 by done. set_solver.
  - intros r Hr Hnb. destruct Hof as (Hp & Hrb & _). rewrite Hp in Hr.
    apply elem_of_cons in Hr as [->|Hr]; [done|]. split.
    + apply Hf. unfold front_events. rewrite !elem_of_app. right; right; left. apply list_elem_of_fmap. eauto.
    + intros x Hx. apply Hf. unfold front_events. rewrite !elem_of_app. right; left. apply elem_of_range_events. eauto.
Qed.

(** The address an event programs. *)
Definition programmed (e : event) : option Z := match e with Program _ a => Some a | _ => None end.

Lemma programmed_ranges rs :
  omap programmed (range_events rs) = concat (map (λ r, seqZ (offset r) (size r)) rs).
Proof.
  induction rs as [|r rs IH]; [done|]. unfold range_events in *. cbn [map concat]. rewrite omap_app, IH. f_equal.
  induction (seqZ (offset r) (size r)) as [|x l IHl]; [done|]. cbn. by rewrite <- IHl at 2.
Qed.

Lemma seqZ_ranges_NoDup rs :
  Forall slot_ok rs → NoDup (map role rs) → NoDup (concat (map (λ r, seqZ (offset r) (size r)) rs)).
Proof.
  induction 1 as [|r rs Hr Hrs IH]; cbn [map concat]; [constructor|]. intros [Hn Hnd]%NoDup_cons.
  apply NoDup_app. split_and!; [apply NoDup_seqZ| |by apply IH].
  intros x Hx Hin. apply elem_of_seqZ in Hx. apply list_elem_of_In, in_concat in Hin as (l & (r' & <- & Hr')%in_map_iff & Hx').
  apply list_elem_of_In, elem_of_seqZ in Hx'. apply list_elem_of_In in Hr'. rewrite Forall_forall in Hrs.
  assert (role r ≠ role r') as Hne by (intros Heq; apply Hn; rewrite Heq; by apply list_elem_of_fmap_2).
  destruct (Z.le_ge_cases (offset r) (offset r')).
  - pose proof (slot_disjoint r r' Hr (Hrs r' Hr') Hne ltac:(done)). unfold range_end in *. lia.
  - pose proof (slot_disjoint r' r (Hrs r' Hr') Hr (not_eq_sym Hne) ltac:(lia)). unfold range_end in *. lia.
Qed.

Lemma no_program_verify n a (rs : list FlashRange) : Program n a ∉ map (λ r, VerifyImage (role r)) rs.
Proof. intros (? & ? & _)%list_elem_of_fmap. done. Qed.

Lemma programmed_verify (rs : list FlashRange) : omap programmed (map (λ r, VerifyImage (role r)) rs) = [].
Proof. by induction rs. Qed.

Lemma plan_events_ranges m family prt wd b rs rest :
  arranged m family rs b rest → NoDup (map role rs) →
  ∃ ws, rs ≡ₚ ws ∧ NoDup (map role ws) ∧
    (∀ n a, Program n a ∈ plan_events (mkFlashPlan m prt (calls_of m prt wd b rest)) ↔ Program n a ∈ range_events ws) ∧
    omap programmed (plan_events (mkFlashPlan m prt (calls_of m prt wd b rest))) = omap programmed (range_events ws).
Proof.
  intros Harr Hn. assert ((m = CHANGE_SETTINGS ∧ b = None) ∨ (m ≠ CHANGE_SETTINGS ∧ ∃ b', b = Some b' ∧ split_of family rs b' rest))
    as [[-> ->]|(Hm & b' & -> & Hp & _)] by (destruct m, b; naive_solver).
  - destruct Harr as (Hp & _). exists rest. rewrite settings_events. split_and!; [done|by rewrite <- Hp|done|done].
  - assert (rs ≡ₚ rest ++ [b']) as Hp' by (rewrite Hp; apply Permutation_cons_append).
    exists (rest ++ [b']). rewrite install_events by done. split_and!; [done|by rewrite <- Hp'| |].
    + intros n a. unfold front_events, range_events. rewrite map_app, concat_app, !elem_of_app.
      pose proof (no_program_verify n a rest). case_bool_decide; set_solver.
    + unfold front_events, range_events. rewrite map_app, concat_app, !omap_app, programmed_verify.
      case_bool_decide; cbn [omap list_omap programmed app]; by rewrite ?app_nil_r.
Qed.

Definition is_burn (e : event) : bool := match e with BurnKey => true | _ => false end.

Lemma no_burn_ranges rs : List.filter is_burn (range_events rs) = [].
Proof.
  unfold range_events. induction rs as [|r rs IH]; [done|]. cbn [map concat]. rewrite List.filter_app, IH, app_nil_r.
  induction (seqZ _ _); done.
Qed.

Lemma burn_count m family prt wd b rs rest :
  arranged m family rs b rest →
  length (List.filter is_burn (plan_events (mkFlashPlan m prt (calls_of m prt wd b rest))))
    = (if bool_decide (m = NEW_BOARD) then 1 else 0)%nat.
Proof.
  intros Harr. destruct (decide (m = CHANGE_SETTINGS)) as [->|Hm].
  - destruct b; [done|]. rewrite settings_events, no_burn_ranges. done.
  - destruct b as [b|]; [|by destruct m]. rewrite install_events by done. unfold front_events.
    rewrite !List.filter_app, !no_burn_ranges.
    assert (List.filter is_burn (map (λ r, VerifyImage (role r)) rest) = []) as -> by (clear; by induction rest).
    by case_bool_decide.
Qed.

Lemma erase_iff m family prt wd b rs rest :
  arranged m family rs b rest →
  EraseStart ∈ plan_events (mkFlashPlan m prt (calls_of m prt wd b rest)) ↔ m ≠ CHANGE_SETTINGS.
Proof.
  intros Harr. destruct (decide (m = CHANGE_SETTINGS)) as [->|Hm].
  - destruct b; [done|]. rewrite settings_events. split; [|done]. unfold range_events.
    rewrite list_elem_of_In, in_concat. intros (l & (r & <- & _)%in_map_iff & (? & ? & _)%in_map_iff). done.
  - destruct b as [b|]; [|by destruct m]. rewrite install_events by done. split; [done|]. intros _.
    unfold front_events. set_solver.
Qed.

(** A built plan programs exactly the bytes of the images it was given, each
    address of the chip at most once, all inside the 16 MB chip; the key is
    burned on a new board only, exactly once; a settings change erases nothing. *)
Theorem plan_programs_images_once m prt family rs wd p :
  build_plan m prt family rs wd = Ok p →
  (∀ n a, Program n a ∈ plan_events p ↔ ∃ r, r ∈ rs ∧ role r = n ∧ offset r <= a < range_end r) ∧
  NoDup (omap programmed (plan_events p)) ∧
  Forall (λ a, 0 <= a < FLASH_TOTAL) (omap programmed (plan_events p)) ∧
  length (List.filter is_burn (plan_events p))
    = (if bool_decide (m = NEW_BOARD) then 1 else 0)%nat ∧
  (EraseStart ∈ plan_events p ↔ m ≠ CHANGE_SETTINGS).
Proof.
  intros Hb. pose proof (build_plan_inv _ _ _ _ _ _ Hb) as [[Hroles Hs] _].
  assert (NoDup (map role rs)) as Hn by (rewrite Hroles; apply plan_roles_NoDup).
  apply build_plan_arranged in Hb as (b & rest & -> & Harr).
  assert (∃ ws, rs ≡ₚ ws ∧ NoDup (map role ws) ∧
    (∀ n a, Program n a ∈ plan_events (mkFlashPlan m prt (calls_of m prt wd b rest)) ↔ Program n a ∈ range_events ws) ∧
    omap programmed (plan_events (mkFlashPlan m prt (calls_of m prt wd b rest))) = omap programmed (range_events ws))
    as (ws & Hws & Hnw & Hev & Hpr) by by eapply plan_events_ranges.
  rewrite Hpr. split_and!.
  - intros n a. rewrite Hev, elem_of_range_events. by setoid_rewrite Hws.
  - rewrite programmed_ranges. apply seqZ_ranges_NoDup; [by rewrite <- Hws|done].
  - rewrite programmed_ranges, Forall_forall. intros x Hx.
    apply list_elem_of_In, in_concat in Hx as (l & (r & <- & Hr)%in_map_iff & Hx).
    apply list_elem_of_In, elem_of_seqZ in Hx. apply list_elem_of_In in Hr. rewrite <- Hws in Hr.
    rewrite Forall_forall in Hs. pose proof (slot_bounds r (Hs r Hr)) as (? & ? & _). unfold range_end in *. lia.
  - by eapply burn_count.
  - by eapply erase_iff.
Qed.

(** ** Moving a plan to another port *)
Lemma perm_map_eq {A B} (f : A → B) l k :
  l ≡ₚ k → map f l = map f k → NoDup (map f l) → l = k.
Proof.
  intros Hp Hm Hn. apply list_eq. intros i.
  assert (∀ x y, l !! i = Some x → k !! i = Some y → x = y) as Hxy.
  { intros x y Hx Hy. apply (NoDup_map_inj f l); [done|by eapply list_elem_of_lookup_2| |].
    - rewrite Hp. by eapply list_elem_of_lookup_2.
    - assert (map f l !! i = Some (f x)) as H1 by (by rewrite list_lookup_fmap, Hx).
      assert (map f k !! i = Some (f y)) as H2 by (by rewrite list_lookup_fmap, Hy). congruence. }
  destruct (l !! i) as [x|] eqn:El, (k !! i) as [y|] eqn:Ek; [f_equal; auto| | |done].
  - apply lookup_lt_Some in El. apply lookup_ge_None in Ek. apply (f_equal length) in Hm. rewrite !length_map in Hm. lia.
  - apply lookup_lt_Some in Ek. apply lookup_ge_None in El. apply (f_equal length) in Hm. rewrite !length_map in Hm. lia.
Qed.

Lemma arranged_unique m family rs b b' rest rest' :
  NoDup (map role rs) → arranged m family rs b rest → arranged m family rs b' rest' → b = b' ∧ rest = rest'.
Proof.
  intros Hn H H'. destruct m, b as [b|], b' as [b'|]; try done.
  1,2: destruct H as (Hp & Hb & Hr & _), H' as (Hp' & Hb' & Hr' & _);
    assert (b :: rest = b' :: rest') as [= -> ->]; [|done];
    (apply (perm_map_eq role); [by rewrite <- Hp|cbn [map]; congruence|by rewrite <- Hp]).
  destruct H as (Hp & Hr & _), H' as (Hp' & Hr' & _). split; [done|].
  apply (perm_map_eq role); [by rewrite <- Hp|congruence|by rewrite <- Hp].
Qed.

Lemma with_port_common c prt prt' tl :
  args (call c) = ["--chip"; CHIP; "--port"; prt] ++ tl →
  with_port c prt' = Ok (mkPlannedCall (step c) (purpose c)
    (mkToolCall (tool (call c)) (["--chip"; CHIP; "--port"; prt'] ++ tl) (label (call c)) (timeout_s (call c)) (idle_timeout_s (call c)))
    (ranges c) (summary_path c) (key_path c)).
Proof. intros H. unfold with_port. rewrite H. done. Qed.

Ltac move_call := erewrite with_port_common by reflexivity; cbn [mbind res_bind].

(** Renaming the port in the calls of a plan (the board re-enumerated on
    another port) gives exactly the calls the planner would have built for the
    new port: the moved plan is as safe as a freshly built one. *)
Theorem with_port_rebuilds m prt prt' family rs wd p :
  build_plan m prt family rs wd = Ok p → port_ok prt' →
  ∃ p', build_plan m prt' family rs wd = Ok p' ∧ mapR (λ c, with_port c prt') (calls p) = Ok (calls p').
Proof.
  intros Hb Hp'. destruct (build_plan_inv _ _ _ _ _ _ Hb) as [Hi [_ Hpaths]].
  apply build_plan_arranged in Hb as (b & rest & -> & Harr).
  destruct (build_plan_good m prt' family rs wd Hi) as (b' & rest' & Hb' & Harr'); [done|].
  assert (NoDup (map role rs)) as Hn by (destruct Hi as [Hroles _]; rewrite Hroles; apply plan_roles_NoDup).
  destruct (arranged_unique _ _ _ _ _ _ _ Hn Harr Harr') as [<- <-].
  eexists. split; [exact Hb'|]. cbn [calls]. clear.
  destruct m, b; cbn [calls_of new_board_calls resume_calls settings_calls _write_timeout mapR]; repeat move_call; reflexivity.
Qed.

(** ** The partition table *)
Lemma assoc_set_elem {A} k (v : A) d x : x ∈ assoc_set k v d → x = (k, v) ∨ x ∈ d.
Proof.
  induction d as [|[k' v'] d IH]; simpl; [set_solver|]. case_bool_decide; set_solver.
Qed.

Lemma partition_loop_end table starts d e :
  Forall (λ x : string * (Z * Z * Z * Z), x.2.1.2 + x.2.2 <= e) d →
  Forall (λ x, x.2.1.2 + x.2.2 <= partition_loop (λ end_ e, let '(_, _, offset, size) := e.2 in Z.max end_ (offset + size)) table starts e)
    (partition_loop (λ entries e, assoc_set e.1 e.2 entries) table starts d).
Proof.
  revert d e. induction starts as [|s starts IH]; intros d e Hd; cbn [partition_loop]; [done|].
  destruct (partition_row _) as [[l [[[k t] o] z]]|]; [|done]. apply IH. cbn.
  rewrite Forall_forall in *. intros x Hx. apply assoc_set_elem in Hx as [->|Hx]; cbn; [lia|].
  apply Hd in Hx. lia.
Qed.

(** No entry read from a partition table ends past [partitions_end], repeated
    labels included, so a table that [partitions_end] places below the redo area
    has every partition below it. *)
Theorem partition_entries_end table l k t o z :
  (l, (k, t, o, z)) ∈ partition_entries table → o + z <= partitions_end table.
Proof.
  intros H. unfold partitions_end.
  pose proof (partition_loop_end table (py_range 0 (zlen table - 31) 32) [] 0 (Forall_nil_2 _)) as Hall.
  rewrite Forall_forall in Hall. apply (Hall _ H).
Qed.

(** ** Concrete runs *)
Definition sample_bootloader : FlashRange := mkFlashRange "bootloader" 0x0 "boot.bin" 0x5000.
Definition sample_rest : list FlashRange :=
  [mkFlashRange "partition-table" 0x10000 "table.bin" 0xC00; mkFlashRange "nvs" 0x11000 "nvs.bin" 0x6000;
   mkFlashRange "otadata" 0x17000 "ota.bin" 0x2000; mkFlashRange "factory" 0x20000 "app.bin" 0x150000;
   mkFlashRange "storage" 0x7A0000 "store.bin" 0x800000; mkFlashRange "redo-area" 0xFA0000 "redo.bin" 0x60000].
Definition sample_images : list FlashRange := rev (sample_bootloader :: sample_rest).
Definition sample_plan (prt : string) : FlashPlan :=
  mkFlashPlan NEW_BOARD prt (new_board_calls prt "/tmp/w" sample_bootloader sample_rest).

Example sample_builds : build_plan NEW_BOARD "COM7" HIKVISION sample_images "/tmp/w" = Ok (sample_plan "COM7").
Proof. vm_compute. reflexivity. Qed.

Example port_named_run : build_plan CHANGE_SETTINGS "run" ZKT
    [mkFlashRange "storage" 0x7A0000 "s" 0x800000; mkFlashRange "redo-area" 0xFA0000 "r" 0x60000;
     mkFlashRange "nvs" 0x11000 "n" 0x6000] "/tmp/w"
  = Raise PlanError "check board identity: forbidden argument; write new settings: forbidden argument".
Proof. vm_compute. reflexivity. Qed.

Example otadata_fields :
  length otadata_selecting_ota_0 = Z.to_nat OTADATA_SIZE ∧ le_int (take 4 otadata_selecting_ota_0) = 1 ∧
  le_int (slice 28 32 otadata_selecting_ota_0) = 0x4743989a.
Proof. vm_compute. repeat split. Qed.

Lemma interrupted_install_safe_witness :
  build_plan NEW_BOARD "COM7" HIKVISION sample_images "/tmp/w" = Ok (sample_plan "COM7") ∧
  BurnKey ∈ plan_events (sample_plan "COM7").
Proof.
  assert (build_plan NEW_BOARD "COM7" HIKVISION sample_images "/tmp/w" = Ok (sample_plan "COM7")) as Hb
    by (vm_compute; reflexivity).
  split; [exact Hb|].
  refine (proj1 (proj2 (interrupted_install_safe NEW_BOARD "COM7" HIKVISION sample_images "/tmp/w" (sample_plan "COM7")
    (plan_events (sample_plan "COM7")) [] "bootloader" 0 Hb _ _ _ _)) eq_refl); [done|by rewrite app_nil_r| |done].
  unfold sample_plan. change (new_board_calls ?p ?w ?b ?l) with (calls_of NEW_BOARD p w (Some b) l).
  rewrite install_events by done.
  apply elem_of_app. right. apply elem_of_app. left. apply elem_of_range_events.
  exists sample_bootloader. split; [by left|]. split; [done|]. unfold range_end. simpl. lia.
Defined.

Lemma plan_programs_images_once_witness :
  build_plan NEW_BOARD "COM7" HIKVISION sample_images "/tmp/w" = Ok (sample_plan "COM7") ∧
  NoDup (omap programmed (plan_events (sample_plan "COM7"))).
Proof.
  assert (build_plan NEW_BOARD "COM7" HIKVISION sample_images "/tmp/w" = Ok (sample_plan "COM7")) as Hb
    by (vm_compute; reflexivity).
  split; [exact Hb|]. exact (proj1 (proj2 (plan_programs_images_once _ _ _ _ _ _ Hb))).
Defined.

Lemma with_port_rebuilds_witness :
  ∃ p', build_plan NEW_BOARD "COM9" HIKVISION sample_images "/tmp/w" = Ok p' ∧
    mapR (λ c, with_port c "COM9") (calls (sample_plan "COM7")) = Ok (calls p').
Proof.
  apply (with_port_rebuilds NEW_BOARD "COM7" "COM9" HIKVISION sample_images "/tmp/w" (sample_plan "COM7")).
  - vm_compute. reflexivity.
  - split; [const_arg|split; discriminate].
Defined.

Definition sample_table : bytes :=
  [xaa; x50; x01; x82] ++ le_bytes 4 STORAGE_OFFSET ++ le_bytes 4 STORAGE_SIZE
  ++ chars "storage" ++ replicate 13 x00.

Lemma partition_entries_end_witness : STORAGE_OFFSET + STORAGE_SIZE <= partitions_end sample_table.
Proof.
  apply (partition_entries_end sample_table "storage" 1 0x82). vm_compute. left.
Defined.
