(* ===== verification/NvsLayout.v ===== *)
(** * The provisioning NVS layout of a Zone Lite board

    firmware/zone_lite/tools/provision_zone_lite.py: how the provisioning rows are
    ordered and padded so that normal operation never writes a flash page holding
    them (nvs_layout), how a generated image is read back (nvs_image_pages) and
    what it must hold before it is used (check_nvs_layout). AES-XTS decryption is
    the third-party cryptography package: a parameter of the reader. *)
From S2P Require Import Prelude PyText Hashes PyJson.
Open Scope string_scope.
Open Scope list_scope.
Open Scope Z_scope.

(** ** Constants *)
Definition NVS_PARTITION_SIZE : Z := 0x6000.
Definition NVS_PAGE_SIZE : Z := 0x1000.
Definition NVS_PAGE_COUNT : Z := NVS_PARTITION_SIZE / NVS_PAGE_SIZE.
Definition NVS_PAGE_ENTRIES : Z := 126.
Definition NVS_ENTRY_SIZE : Z := 32.
Definition NVS_PAGE_ACTIVE : Z := 0xFFFFFFFE.
Definition NVS_PAGE_FULL : Z := 0xFFFFFFFC.
(** Type code, width in bytes and signedness of the struct format. *)
Definition NVS_PRIMITIVES : list (string * (Z * nat * bool)) :=
  [("u8", (0x01, 1%nat, false)); ("i8", (0x11, 1%nat, true)); ("u16", (0x02, 2%nat, false)); ("i16", (0x12, 2%nat, true));
   ("u32", (0x04, 4%nat, false)); ("i32", (0x14, 4%nat, true)); ("u64", (0x08, 8%nat, false)); ("i64", (0x18, 8%nat, true))].
Definition NVS_STRING : Z := 0x21.
Definition NVS_XTS_KEY_SIZE : Z := 64.
Definition NVS_MUTABLE_KEYS : list string :=
  ["wifi_ssid"; "wifi_pass"; "zkt_key"; "zkt_serial"; "add_ws"; "conn_id"; "dev_token"; "hik_host"].
Definition NVS_TAIL_KEYS : list string := ["wifi_ssid"; "wifi_pass"; "zkt_key"; "hik_host"].
Definition NVS_ACTIVE_KEYS : list string :=
  List.filter (λ k, negb (bool_decide (k ∈ NVS_TAIL_KEYS))) NVS_MUTABLE_KEYS.
Definition NVS_STATE_WORD_ENTRIES : Z := 16.
Definition NVS_PADDING_PREFIX : string := "_pad".
Definition NVS_MIN_BLANK_PAGES : Z := 2.

(** A row of the CSV: [key, type, encoding, value]. *)
Record row := mkRow { key : string; kind : string; encoding : string; value : pyval }.

Definition primitive (r : row) : bool := match assoc (encoding r) NVS_PRIMITIVES with Some _ => true | None => false end.
Definition one_entry (r : row) : bool := bool_decide (kind r = "namespace") || primitive r.
Definition is_padding (r : row) : bool := bool_decide (take 4 (chars (key r)) = chars NVS_PADDING_PREFIX).

(** ** Values as they reach the image *)

Definition LF : byte := x0a.
Definition CR : byte := x0d.

(** [s.replace("\r\n", "\n").replace("\r", "\n")] *)
Fixpoint replace_crlf (s : bytes) : bytes :=
  match s with
  | [] => []
  | c :: s' =>
      match s' with
      | d :: s'' => if bool_decide (c = CR) && bool_decide (d = LF) then LF :: replace_crlf s'' else c :: replace_crlf s'
      | [] => [c]
      end
  end.
Definition replace_cr (s : bytes) : bytes := map (λ c, if bool_decide (c = CR) then LF else c) s.

(** [s.split("\n")] *)
Fixpoint split_lf (s : bytes) : list bytes :=
  match s with
  | [] => [[]]
  | c :: s' =>
      if bool_decide (c = LF) then [] :: split_lf s'
      else match split_lf s' with l :: ls => (c :: l) :: ls | [] => [[c]] end
  end.

Definition starts_hash (line : bytes) : bool := match line with c :: _ => bool_decide (c = x23) | [] => false end.

(** The joined lines from line [index] on: a later line that starts with '#' is
    dropped with its newline; every kept line but the last of all ends with one. *)
Fixpoint keep_lines (index : nat) (lines : list bytes) : bytes :=
  match lines with
  | [] => []
  | line :: rest =>
      (if negb (Nat.eqb index 0) && starts_hash line then []
       else line ++ (match rest with [] => [] | _ => [LF] end))
      ++ keep_lines (S index) rest
  end.

Definition nvs_string_value (v : pyval) : string :=
  let text := match v with PNone => "" | _ => py_str_val v end in
  of_chars (keep_lines 0 (split_lf (replace_cr (replace_crlf (chars text))))).

Definition nvs_stored_string (v : pyval) : bytes := chars (nvs_string_value v) ++ [x00].

Definition _nvs_normalized (r : row) : row :=
  mkRow (key r) (kind r) (encoding r)
    (if bool_decide (encoding r = "string") then PStr (nvs_string_value (value r)) else value r).

(** ** Entries *)
Definition nvs_row_entries (r : row) : res Z :=
  if one_entry r then Ok 1
  else if bool_decide (encoding r = "string") then
    Ok (1 + - (- zlen (nvs_stored_string (value r)) / NVS_ENTRY_SIZE))
  else Raise ValueError "Unsupported provisioning NVS encoding".

Definition nvs_row_fits (used : Z) (r : row) : res bool :=
  if one_entry r then Ok (used <? NVS_PAGE_ENTRIES)
  else n ← nvs_row_entries r; Ok (used + n <? NVS_PAGE_ENTRIES).

Definition pad_row (n : Z) (enc : string) (v : pyval) : row :=
  mkRow (NVS_PADDING_PREFIX +:+ py_str n) "data" enc v.

Definition _nvs_padding (free first : Z) (single : bool) : list row :=
  let long := (3 <=? free) && negb single in
  let rows := if long then
      [pad_row first "string" (PStr (of_chars (replicate (Z.to_nat ((free - 2) * NVS_ENTRY_SIZE - 1)) x30)))]
    else [] in
  let free := if long then 1 else free in
  let start := first + zlen rows in
  rows ++ map (λ i, pad_row (start + Z.of_nat i) "u8" (PInt 0)) (seq 0 (Z.to_nat free)).

(** ** nvs_layout *)

(** A page being filled: its rows and the entries they take ([pages] and [used]). *)
Abbreviation page := (list row * Z)%type.

(** [next((index for index, count in enumerate(used) if nvs_row_fits(count, row)), None)]
    and the placement, on the pages from this one on. *)
Fixpoint put_first_fit (r : row) (pages : list page) : res (option (list page)) :=
  match pages with
  | [] => Ok None
  | (p, count) :: pages' =>
      fits ← nvs_row_fits count r;
      if fits : bool then
        n ← nvs_row_entries r; Ok (Some ((p ++ [r], count + n) :: pages'))
      else
        placed ← put_first_fit r pages';
        Ok (match placed with Some ps => Some ((p, count) :: ps) | None => None end)
  end.

Definition place_fixed (pages : list page) (r : row) : res (list page) :=
  placed ← put_first_fit r pages;
  match placed with
  | Some ps => Ok ps
  | None =>
      fits ← nvs_row_fits 0 r;
      if fits : bool then n ← nvs_row_entries r; Ok (pages ++ [([r], 0 + n)])
      else Raise ValueError "A provisioning value does not fit one NVS page"
  end.

Definition with_entries (r : row) : res (Z * row) := n ← nvs_row_entries r; Ok (n, r).

(** [sorted(fixed, key=nvs_row_entries, reverse=True)]: stable, largest first. *)
Definition largest_first (rows : list row) : res (list row) :=
  sized ← mapR with_entries rows; Ok (map snd (sort_by (λ p, - p.1) sized)).

Definition has_key (keys : list string) (r : row) : bool := bool_decide (key r ∈ keys).

Definition fit_active (active_used : Z) (r : row) : res Z :=
  fits ← nvs_row_fits active_used r;
  if fits : bool then n ← nvs_row_entries r; Ok (active_used + n)
  else Raise ValueError "Provisioning values do not fit the NVS partition".

(** [next((i for i in reversed(range(len(pages))) if used[i] <= boundary), None)] *)
Definition find_target (boundary : Z) (pages : list page) : option nat :=
  List.find (λ i, match pages !! i with Some (_, count) => count <=? boundary | None => false end)
    (rev (seq 0 (length pages))).

(** The tail and where it goes: its rows, whether a u8 closes it, its first
    entry and the state-word boundary before it. *)
Record tail_plan := mkTail { t_rows : list row; t_closing : bool; t_start : Z; t_boundary : Z }.

Definition plan_tail (rows : list row) : res tail_plan :=
  let tail := sort_by (λ r, if primitive r then 1 else 0) (List.filter (has_key NVS_TAIL_KEYS) rows) in
  let closing := match last tail with Some r => negb (primitive r) | None => false end in
  ns ← mapR nvs_row_entries tail;
  let start := NVS_PAGE_ENTRIES - foldr Z.add 0 ns - (if closing then 1 else 0) in
  Ok (mkTail tail closing start (start / NVS_STATE_WORD_ENTRIES * NVS_STATE_WORD_ENTRIES)).

(** Appends one page to the layout, padded; [st] is the layout and the padding count. *)
Definition emit_page (t : tail_plan) (target : option nat) (st : list row * Z) (ip : nat * page) : list row * Z :=
  let '(layout, padding) := st in
  let '(index, (p, count)) := ip in
  if bool_decide (target = Some index) then
    let filler1 := _nvs_padding (t_boundary t - count) padding false in
    let filler := filler1 ++ _nvs_padding (t_start t - t_boundary t) (padding + zlen filler1) true in
    let padding := padding + zlen filler in
    let closing := if t_closing t then [pad_row padding "u8" (PInt 0)] else [] in
    (layout ++ p ++ filler ++ t_rows t ++ closing, padding + zlen closing)
  else
    let filler := _nvs_padding (NVS_PAGE_ENTRIES - count) padding false in
    (layout ++ p ++ filler, padding + zlen filler).

Definition nvs_layout (rows : list row) : res (list row) :=
  match rows with
  | [] => Raise ValueError "Provisioning NVS rows must hold exactly one namespace"
  | first :: others =>
      if negb (bool_decide (kind first = "namespace")) || existsb (λ r, bool_decide (kind r = "namespace")) others then
        Raise ValueError "Provisioning NVS rows must hold exactly one namespace"
      else if existsb is_padding rows then
        Raise ValueError "Provisioning NVS keys may not use the padding prefix"
      else
        let first := _nvs_normalized first in
        let others := map _nvs_normalized others in
        n ← nvs_row_entries first;
        ordered ← largest_first (List.filter (λ r, negb (has_key NVS_MUTABLE_KEYS r)) others);
        pages ← foldR place_fixed ordered [([first], n)];
        t ← plan_tail others;
        placed ← (if bool_decide (t_rows t = []) then Ok (pages, None)
                  else if t_start t <? 0 then Raise ValueError "Provisioning values do not fit one NVS page"
                  else Ok (match find_target (t_boundary t) pages with
                           | Some i => (pages, Some i)
                           | None => (pages ++ [([], 0)], Some (length pages))
                           end));
        let '(pages, target) := (placed : list page * option nat) in
        let active := List.filter (has_key NVS_ACTIVE_KEYS) others in
        _ ← foldR fit_active active 0;
        if bool_decide (active = []) || (NVS_PAGE_COUNT <? zlen pages + 1 + NVS_MIN_BLANK_PAGES) then
          Raise ValueError "Provisioning values do not fit the NVS partition"
        else
          Ok ((fold_left (emit_page t target) (zip (seq 0 (length pages)) pages) ([], 0)).1 ++ active)
  end.

(** ** How the generator fills pages

    The rule nvs_row_fits documents: a row that fits the current page goes on it,
    otherwise that page is closed (FULL) and the row starts the next one. *)
Fixpoint generate (cur : list row) (used : Z) (rows : list row) : list (list row) :=
  match rows with
  | [] => [cur]
  | r :: rows' =>
      match nvs_row_fits used r, nvs_row_entries r with
      | Ok true, Ok n => generate (cur ++ [r]) (used + n) rows'
      | Ok false, Ok n => cur :: generate [r] n rows'
      | _, _ => [cur]
      end
  end.

(** The entry the page reaches when every row fits. *)
Fixpoint walk (u : Z) (rows : list row) : option Z :=
  match rows with
  | [] => Some u
  | r :: rows' =>
      match nvs_row_fits u r, nvs_row_entries r with
      | Ok true, Ok n => walk (u + n) rows'
      | _, _ => None
      end
  end.

Definition entries (r : row) : Z := match nvs_row_entries r with Ok n => n | Raise _ _ => 0 end.
Definition total (rows : list row) : Z := foldr Z.add 0 (map entries rows).

Lemma total_app l k : total (l ++ k) = total l + total k.
Proof. unfold total. rewrite map_app. induction (map entries l); simpl; lia. Qed.

Lemma row_entries_pos r n : nvs_row_entries r = Ok n → 1 <= n.
Proof.
  unfold nvs_row_entries. intros H. inv_res H; subst; [lia|]. unfold NVS_ENTRY_SIZE, zlen, nvs_stored_string.
  rewrite length_app, Nat2Z.inj_add. simpl. dlia.
Qed.

Lemma one_entry_entries r : one_entry r = true → nvs_row_entries r = Ok 1.
Proof. unfold nvs_row_entries. by intros ->. Qed.

Lemma fits_inv u r :
  nvs_row_fits u r = Ok true → ∃ n, nvs_row_entries r = Ok n ∧ u + n <= NVS_PAGE_ENTRIES.
Proof.
  unfold nvs_row_fits. destruct (one_entry r) eqn:E; intros H.
  - exists 1. split; [by apply one_entry_entries|]. injection H as H. bool_prop. lia.
  - apply bind_ok in H as (n & Hn & H). exists n. injection H as H. bool_prop. split; [done|lia].
Qed.

Lemma nothing_fits_full r n : nvs_row_entries r = Ok n → nvs_row_fits NVS_PAGE_ENTRIES r = Ok false.
Proof.
  intros Hn. pose proof (row_entries_pos r n Hn). unfold nvs_row_fits. destruct (one_entry r); [done|].
  rewrite Hn. cbn [mbind res_bind]. f_equal. apply Z.ltb_ge. lia.
Qed.

Lemma walk_app u l k : walk u (l ++ k) = match walk u l with Some v => walk v k | None => None end.
Proof.
  revert u. induction l as [|r l IH]; intros u; [done|]. cbn [app walk].
  destruct (nvs_row_fits u r) as [[]|], (nvs_row_entries r); auto.
Qed.

Lemma walk_total u l v : walk u l = Some v → v = u + total l.
Proof.
  revert u. induction l as [|r l IH]; intros u; cbn [walk]; unfold total; cbn [map foldr]; [intros [= ->]; lia|].
  destruct (nvs_row_fits u r) as [[]|]; try done. unfold entries at 1.
  destruct (nvs_row_entries r) as [n|]; [|done]. intros ->%IH. unfold total. lia.
Qed.

(** Rows fit one after the other when their total does, with an entry to spare
    after a string at the end. *)
Lemma walk_fit u rows :
  Forall (λ r, is_ok (nvs_row_entries r)) rows →
  u + total rows + match last rows with Some r => if one_entry r then 0 else 1 | None => 0 end <= NVS_PAGE_ENTRIES →
  walk u rows = Some (u + total rows).
Proof.
  revert u. induction rows as [|r rows IH]; intros u Hs Hle; [cbn; f_equal; unfold total; simpl; lia|].
  apply Forall_cons in Hs as [Hr Hs]. destruct (nvs_row_entries r) as [n|] eqn:En; [|done].
  assert (total (r :: rows) = n + total rows) as Ht by (unfold total, entries; simpl; by rewrite En).
  pose proof (row_entries_pos _ _ En) as Hn. rewrite Ht in Hle |- *.
  assert (0 <= total rows ∧ (rows ≠ [] → 1 <= total rows)) as [Hpos Hpos1].
  { clear -Hs. induction Hs as [|x l Hx Hl IHl]; [done|]. unfold total, entries in *. simpl.
    destruct (nvs_row_entries x) eqn:E; [|done]. pose proof (row_entries_pos _ _ E). split; intros; lia. }
  assert (nvs_row_fits u r = Ok true) as Hfit.
  { unfold nvs_row_fits. destruct (one_entry r) eqn:E1.
    - f_equal. apply Z.ltb_lt. rewrite (one_entry_entries r E1) in En. injection En as <-.
      destruct rows; simpl in Hle; [rewrite E1 in Hle|]; repeat case_match; lia.
    - rewrite En. cbn [mbind res_bind]. f_equal. apply Z.ltb_lt.
      destruct rows as [|r' rows]; [simpl in Hle; rewrite E1 in Hle; lia|]. specialize (Hpos1 ltac:(done)).
      repeat case_match; lia. }
  cbn [walk]. rewrite Hfit, En. rewrite IH; [f_equal; lia|done|]. destruct rows as [|r' rows]; [simpl; unfold total in *; simpl in *; destruct (one_entry r); lia|].
  change (last (r :: r' :: rows)) with (last (r' :: rows)) in Hle. lia.
Qed.

(** A page the rows fill exactly is closed by whatever row comes next. *)
Lemma generate_full cur u pg r rest :
  walk u pg = Some NVS_PAGE_ENTRIES → nvs_row_fits 0 r = Ok true →
  generate cur u (pg ++ r :: rest) = (cur ++ pg) :: generate [] 0 (r :: rest).
Proof.
  revert cur u. induction pg as [|r' pg IH]; intros cur u Hw Hr; cbn [walk app] in *.
  - injection Hw as ->. rewrite app_nil_r. cbn [generate]. rewrite Hr.
    apply fits_inv in Hr as (n & Hn & _). rewrite Hn. by rewrite (nothing_fits_full r n Hn).
  - cbn [generate]. destruct (nvs_row_fits u r') as [[]|], (nvs_row_entries r'); try done.
    rewrite IH by done. by rewrite <- app_assoc.
Qed.

Lemma generate_last cur u pg v : walk u pg = Some v → generate cur u pg = [cur ++ pg].
Proof.
  revert cur u. induction pg as [|r pg IH]; intros cur u Hw; cbn [walk generate] in *; [by rewrite app_nil_r|].
  destruct (nvs_row_fits u r) as [[]|], (nvs_row_entries r); try done. rewrite IH by done. by rewrite <- app_assoc.
Qed.

Lemma walk_head r pg v : walk 0 (r :: pg) = Some v → nvs_row_fits 0 r = Ok true.
Proof. cbn [walk]. by destruct (nvs_row_fits 0 r) as [[]|]. Qed.

Lemma generate_pages full active v :
  Forall (λ pg, walk 0 pg = Some NVS_PAGE_ENTRIES) full → walk 0 active = Some v → active ≠ [] →
  generate [] 0 (concat full ++ active) = full ++ [active].
Proof.
  intros Hf Ha Hne. induction Hf as [|pg full Hpg Hf IH]; cbn [concat app]; [by eapply generate_last|].
  rewrite <- app_assoc. assert (∃ r rest, concat full ++ active = r :: rest ∧ nvs_row_fits 0 r = Ok true)
    as (r & rest & Heq & Hr).
  { destruct full as [|[|r pg'] full]; [| |].
    - destruct active as [|r rest]; [done|]. exists r, rest. split; [done|by eapply walk_head].
    - apply Forall_cons in Hf as [Hf _]. discriminate Hf.
    - apply Forall_cons in Hf as [Hf _]. exists r, (pg' ++ concat full ++ active). split; [|by eapply walk_head].
      cbn [concat app]. by rewrite <- !app_assoc. }
  rewrite Heq in *. rewrite generate_full by done. cbn [app]. by rewrite IH.
Qed.

(** ** Padding *)
Lemma split_lf_plain s : Forall (λ c, c ≠ LF) s → split_lf s = [s].
Proof.
  induction 1 as [|c s Hc Hs IH]; [done|]. cbn [split_lf]. by rewrite bool_decide_eq_false_2, IH by done.
Qed.

Lemma replace_crlf_plain s : Forall (λ c, c ≠ CR) s → replace_crlf s = s.
Proof.
  induction 1 as [|c s Hc Hs IH]; [done|]. cbn [replace_crlf]. destruct s as [|d s]; [done|].
  rewrite bool_decide_eq_false_2 by done. cbn [andb]. f_equal. exact IH.
Qed.

Lemma replace_cr_plain s : Forall (λ c, c ≠ CR) s → replace_cr s = s.
Proof.
  induction 1 as [|c s Hc Hs IH]; [done|]. unfold replace_cr in *. cbn [map].
  by rewrite bool_decide_eq_false_2, IH by done.
Qed.

(** A one-line value reaches the image unchanged. *)
Lemma string_value_plain s :
  Forall (λ c, c ≠ LF ∧ c ≠ CR) (chars s) → nvs_string_value (PStr s) = s.
Proof.
  intros H. unfold nvs_string_value. cbn [py_str_val].
  rewrite replace_crlf_plain, replace_cr_plain, split_lf_plain; [..|by eapply Forall_impl; [exact H|naive_solver]];
    [|by eapply Forall_impl; [exact H|naive_solver]..].
  cbn [keep_lines Nat.eqb negb andb]. by rewrite !app_nil_r, of_chars_chars.
Qed.

Definition pad_string (free : Z) : pyval :=
  PStr (of_chars (replicate (Z.to_nat ((free - 2) * NVS_ENTRY_SIZE - 1)) x30)).

Lemma pad_string_entries free n : 3 <= free → nvs_row_entries (pad_row n "string" (pad_string free)) = Ok (free - 1).
Proof.
  intros Hf. unfold nvs_row_entries, pad_row, one_entry, primitive. cbn [kind encoding value].
  change (assoc "string" NVS_PRIMITIVES) with (@None (Z * nat * bool)).
  rewrite (bool_decide_eq_false_2 ("data" = _)) by done. cbn [orb].
  rewrite (bool_decide_eq_true_2 ("string" = _)) by done. f_equal. unfold nvs_stored_string, pad_string.
  rewrite string_value_plain.
  - rewrite chars_of_chars. unfold zlen. rewrite length_app, length_replicate. unfold NVS_ENTRY_SIZE. cbn [length]. dlia.
  - rewrite chars_of_chars. apply Forall_replicate. done.
Qed.

Lemma pad_u8_one n v : one_entry (pad_row n "u8" v) = true.
Proof. done. Qed.

Lemma walk_singles u first k :
  0 <= u → u + Z.of_nat k <= NVS_PAGE_ENTRIES →
  walk u (map (λ i, pad_row (first + Z.of_nat i) "u8" (PInt 0)) (seq 0 k)) = Some (u + Z.of_nat k).
Proof.
  intros Hu. generalize 0%nat as s. revert u Hu. induction k as [|k IH]; intros u Hu s Hk; cbn [seq map walk].
  - f_equal. lia.
  - unfold nvs_row_fits. rewrite pad_u8_one, one_entry_entries by done.
    rewrite (proj2 (Z.ltb_lt _ _)) by lia. rewrite IH by lia. f_equal. lia.
Qed.

(** Padding takes exactly the entries asked for. *)
Lemma walk_padding u free first single :
  0 <= u → 0 <= free → u + free <= NVS_PAGE_ENTRIES →
  walk u (_nvs_padding free first single) = Some (u + free).
Proof.
  intros Hu Hf Hle. unfold _nvs_padding. cbv zeta. destruct ((3 <=? free) && negb single) eqn:E.
  - bool_prop. fold (pad_string free). cbn [app zlen length Z.to_nat]. cbn [walk].
    unfold nvs_row_fits. change (one_entry (pad_row first "string" (pad_string free))) with false.
    cbn iota. rewrite pad_string_entries by done. cbn [mbind res_bind].
    rewrite (proj2 (Z.ltb_lt _ _)) by lia. change (Pos.to_nat 1) with 1%nat.
    rewrite walk_singles by lia. f_equal. lia.
  - cbn [app]. rewrite walk_singles by lia. f_equal. lia.
Qed.

Lemma padding_rows free first single : Forall (λ r, is_padding r = true) (_nvs_padding free first single).
Proof.
  unfold _nvs_padding. cbv zeta. apply Forall_app. split; [destruct (_ && _); repeat constructor|].
  apply Forall_forall. intros r (i & -> & _)%list_elem_of_fmap. done.
Qed.

(** The numbers in the padding keys, in order and without gaps. *)
Definition pad_key (n : Z) : string := NVS_PADDING_PREFIX +:+ py_str n.
Definition numbered (first : Z) (rows : list row) : Prop :=
  map key rows = map (λ i, pad_key (first + Z.of_nat i)) (seq 0 (length rows)).

Lemma numbered_app first l k :
  numbered first l → numbered (first + zlen l) k → numbered first (l ++ k).
Proof.
  unfold numbered, zlen. intros Hl Hk. rewrite map_app, Hl, Hk, length_app, seq_app, map_app. f_equal.
  rewrite <- (Nat.add_0_r (0 + length l)), <- fmap_add_seq. rewrite map_map. apply map_ext. intros i. f_equal. lia.
Qed.

Lemma padding_numbered free first single : numbered first (_nvs_padding free first single).
Proof.
  unfold _nvs_padding. cbv zeta. apply numbered_app.
  - destruct (_ && _); [|done]. unfold numbered. cbn [map length seq]. by rewrite Z.add_0_r.
  - unfold numbered. rewrite map_map, length_map, length_seq. done.
Qed.

(** ** The pages before padding *)
Definition page_ok (p : page) : Prop := walk 0 p.1 = Some p.2 ∧ 0 <= p.2 <= NVS_PAGE_ENTRIES.

Lemma page_ok_snoc p count r n :
  page_ok (p, count) → nvs_row_fits count r = Ok true → nvs_row_entries r = Ok n → page_ok (p ++ [r], count + n).
Proof.
  intros [Hw Hc] Hf Hn. cbn [fst snd] in *. split; cbn [fst snd].
  - rewrite walk_app, Hw. cbn [walk]. by rewrite Hf, Hn.
  - apply fits_inv in Hf as (n' & Hn' & ?). pose proof (row_entries_pos r n Hn). rewrite Hn in Hn'. injection Hn' as <-. lia.
Qed.

Lemma put_first_fit_some r pages ps :
  put_first_fit r pages = Ok (Some ps) → Forall page_ok pages →
  Forall page_ok ps ∧ concat (map fst ps) ≡ₚ r :: concat (map fst pages).
Proof.
  revert ps. induction pages as [|[p count] pages IH]; intros ps H Hok; [done|].
  apply Forall_cons in Hok as [Hp Hok]. cbn [put_first_fit] in H. apply bind_ok in H as ([] & Hf & H).
  - apply bind_ok in H as (n & Hn & H). injection H as <-. split.
    + apply Forall_cons. split; [by eapply page_ok_snoc|done].
    + cbn [map fst concat]. rewrite <- app_assoc. apply Permutation_sym, Permutation_middle.
  - apply bind_ok in H as (o & Ho & H). destruct o as [ps'|]; [|done]. injection H as <-.
    destruct (IH ps' Ho Hok) as [Hok' Hp']. split; [by constructor|].
    cbn [map fst concat]. rewrite Hp'. apply Permutation_sym, Permutation_middle.
Qed.

Lemma place_fixed_step pages r ps :
  place_fixed pages r = Ok ps → Forall page_ok pages →
  Forall page_ok ps ∧ concat (map fst ps) ≡ₚ r :: concat (map fst pages).
Proof.
  unfold place_fixed. intros (o & Ho & H)%bind_ok Hok. destruct o as [ps'|].
  - injection H as <-. by apply put_first_fit_some.
  - apply bind_ok in H as ([] & Hf & H); [|done]. apply bind_ok in H as (n & Hn & H). injection H as <-. split.
    + apply Forall_app. split; [done|]. apply Forall_singleton.
      change [r] with ([] ++ [r]). apply page_ok_snoc; [|done..]. split; [done|]. cbn. unfold NVS_PAGE_ENTRIES. lia.
    + rewrite map_app, concat_app. cbn [map fst concat app]. apply Permutation_sym, Permutation_cons_append.
Qed.

Lemma place_all ordered pages ps :
  foldR place_fixed ordered pages = Ok ps → Forall page_ok pages →
  Forall page_ok ps ∧ concat (map fst ps) ≡ₚ concat (map fst pages) ++ ordered.
Proof.
  intros H Hok. apply (foldR_inv _ (λ done ps, Forall page_ok ps ∧ concat (map fst ps) ≡ₚ concat (map fst pages) ++ done)) in H;
    [done|by rewrite app_nil_r|].
  intros l r s s' [Hs Hp] Hstep. destruct (place_fixed_step _ _ _ Hstep Hs) as [Hs' Hp']. split; [done|].
  rewrite Hp', Hp, app_assoc. apply Permutation_cons_append.
Qed.

Lemma largest_first_perm rows ordered : largest_first rows = Ok ordered → ordered ≡ₚ rows.
Proof.
  unfold largest_first. intros (sized & Hs & [= <-])%bind_ok.
  apply mapR_Forall2 in Hs. rewrite sort_by_perm. apply reflexive_eq.
  induction Hs as [|r p rows ps Hr Hrs IH]; [done|]. cbn [map]. rewrite IH.
  unfold with_entries in Hr. apply bind_ok in Hr as (n & _ & [= <-]). done.
Qed.

Lemma mapR_entries rows ns : mapR nvs_row_entries rows = Ok ns →
  Forall (λ r, is_ok (nvs_row_entries r)) rows ∧ foldr Z.add 0 ns = total rows.
Proof.
  intros H%mapR_Forall2. induction H as [|r n rows ns Hr Hrs [IH1 IH2]]; [done|]. split.
  - constructor; [by rewrite Hr|done].
  - unfold total, entries in *. cbn [map foldr]. rewrite Hr. lia.
Qed.

Lemma fit_active_walk active v : foldR fit_active active 0 = Ok v → walk 0 active = Some v.
Proof.
  generalize 0 as u. induction active as [|r active IH]; intros u H; cbn [foldR walk] in *; [by injection H as ->|].
  apply bind_ok in H as (w & Hw & H). unfold fit_active in Hw. apply bind_ok in Hw as ([] & Hf & Hw); [|done].
  apply bind_ok in Hw as (n & Hn & [= <-]). rewrite Hf, Hn. by apply IH.
Qed.

(** ** The tail *)
Record tail_ok (t : tail_plan) (others : list row) : Prop := {
  tail_perm : t_rows t ≡ₚ List.filter (has_key NVS_TAIL_KEYS) others;
  tail_sum : t_start t + total (t_rows t) + (if t_closing t then 1 else 0) = NVS_PAGE_ENTRIES;
  tail_entries : Forall (λ r, is_ok (nvs_row_entries r)) (t_rows t);
  tail_closing : t_closing t = match last (t_rows t) with Some r => negb (primitive r) | None => false end;
  tail_boundary : t_boundary t = t_start t / NVS_STATE_WORD_ENTRIES * NVS_STATE_WORD_ENTRIES }.

Lemma plan_tail_ok others t : plan_tail others = Ok t → tail_ok t others.
Proof.
  unfold plan_tail. intros (ns & Hns & [= <-])%bind_ok. apply mapR_entries in Hns as [He Hsum].
  split; cbn [t_rows t_start t_closing t_boundary]; [apply sort_by_perm|rewrite Hsum; lia|done..].
Qed.

(** From its first entry, the tail ends the page exactly. *)
Lemma walk_tail t others pad :
  tail_ok t others →
  walk (t_start t) (t_rows t ++ (if t_closing t then [pad_row pad "u8" (PInt 0)] else [])) = Some NVS_PAGE_ENTRIES.
Proof.
  intros [_ Hsum He Hc _]. rewrite walk_app, walk_fit; [|done|].
  - destruct (t_closing t) eqn:Ec.
    + cbn [walk]. unfold nvs_row_fits. rewrite pad_u8_one, one_entry_entries by done.
      rewrite (proj2 (Z.ltb_lt _ _)) by lia. f_equal. lia.
    + cbn [walk]. f_equal. lia.
  - rewrite Hc in Hsum. destruct (last (t_rows t)) as [r|] eqn:El; [|lia]. unfold one_entry.
    destruct (primitive r); cbn [negb] in Hsum; [rewrite orb_true_r; lia|]. destruct (bool_decide _ || false); lia.
Qed.

(** ** One padded page *)
Definition page_filler (t : tail_plan) (here : bool) (count pad : Z) : list row :=
  if here then
    let filler1 := _nvs_padding (t_boundary t - count) pad false in
    filler1 ++ _nvs_padding (t_start t - t_boundary t) (pad + zlen filler1) true
  else _nvs_padding (NVS_PAGE_ENTRIES - count) pad false.
Definition page_tail (t : tail_plan) (here : bool) (pad : Z) : list row * list row :=
  if here then (t_rows t, if t_closing t then [pad_row pad "u8" (PInt 0)] else []) else ([], []).

(** The rows of page [ip] when [pad] padding rows precede it. *)
Definition page_rows (t : tail_plan) (target : option nat) (pad : Z) (ip : nat * page) : list row :=
  let here := bool_decide (target = Some ip.1) in
  let filler := page_filler t here ip.2.2 pad in
  let '(tail, closing) := page_tail t here (pad + zlen filler) in
  ip.2.1 ++ filler ++ tail ++ closing.
Definition page_pads (t : tail_plan) (target : option nat) (pad : Z) (ip : nat * page) : list row :=
  let here := bool_decide (target = Some ip.1) in
  let filler := page_filler t here ip.2.2 pad in
  filler ++ (page_tail t here (pad + zlen filler)).2.

Lemma emit_page_rows t target layout pad ip :
  emit_page t target (layout, pad) ip = (layout ++ page_rows t target pad ip, pad + zlen (page_pads t target pad ip)).
Proof.
  destruct ip as [i [p count]]. unfold emit_page, page_rows, page_pads, page_filler, page_tail. cbn [fst snd].
  case_bool_decide; cbn [fst snd].
  - f_equal. unfold zlen. rewrite !length_app. lia.
  - by rewrite !app_nil_r.
Qed.

Fixpoint emitted (t : tail_plan) (target : option nat) (pad : Z) (ips : list (nat * page)) : list (list row) :=
  match ips with
  | [] => []
  | ip :: ips' => page_rows t target pad ip :: emitted t target (pad + zlen (page_pads t target pad ip)) ips'
  end.

Lemma emit_fold t target layout pad ips :
  (fold_left (emit_page t target) ips (layout, pad)).1 = layout ++ concat (emitted t target pad ips).
Proof.
  revert layout pad. induction ips as [|ip ips IH]; intros layout pad; cbn [fold_left emitted concat]; [by rewrite app_nil_r|].
  rewrite emit_page_rows, IH. by rewrite <- app_assoc.
Qed.

Lemma emitted_Forall t target (P : list row → Prop) pad ips :
  (∀ pad ip, ip ∈ ips → P (page_rows t target pad ip)) → Forall P (emitted t target pad ips).
Proof.
  revert pad. induction ips as [|ip ips IH]; intros pad H; cbn [emitted]; constructor; [apply H; set_solver|].
  apply IH. set_solver.
Qed.

(** Where a page stands when it is padded. *)
Definition page_fits (t : tail_plan) (target : option nat) (ip : nat * page) : Prop :=
  page_ok ip.2 ∧ (target = Some ip.1 → ip.2.2 <= t_boundary t ∧ 0 <= t_start t).

Lemma boundary_range t others : tail_ok t others → t_boundary t <= t_start t < t_boundary t + NVS_STATE_WORD_ENTRIES.
Proof. intros [_ _ _ _ ->]. unfold NVS_STATE_WORD_ENTRIES. dlia. Qed.

Lemma total_nonneg rows : Forall (λ r, is_ok (nvs_row_entries r)) rows → 0 <= total rows.
Proof.
  induction 1 as [|r rows Hr _ IH]; [done|]. unfold total, entries in *. cbn [map foldr].
  destruct (nvs_row_entries r) eqn:E; [|done]. pose proof (row_entries_pos _ _ E). lia.
Qed.

Lemma start_le_page t others : tail_ok t others → t_start t <= NVS_PAGE_ENTRIES.
Proof. intros [_ Hsum He _ _]. pose proof (total_nonneg _ He). destruct (t_closing t); lia. Qed.

Lemma page_rows_full t others target pad ip :
  tail_ok t others → page_fits t target ip → walk 0 (page_rows t target pad ip) = Some NVS_PAGE_ENTRIES.
Proof.
  intros Ht [[Hw Hc] Htarget]. destruct ip as [i [p count]]. cbn [fst snd] in *.
  pose proof (boundary_range _ _ Ht) as Hb. pose proof (start_le_page _ _ Ht) as Hs.
  unfold page_rows, page_filler, page_tail. cbn [fst snd]. case_bool_decide as E.
  - destruct (Htarget E) as [Hle H0]. rewrite walk_app, Hw, walk_app, walk_app.
    rewrite walk_padding by lia. rewrite walk_padding by lia.
    replace (count + (t_boundary t - count) + (t_start t - t_boundary t)) with (t_start t) by lia.
    by eapply walk_tail.
  - rewrite app_nil_r, walk_app, Hw, walk_padding by lia. f_equal. lia.
Qed.

(** ** A successful layout, in terms of its parts *)
Record layout_run (rows layout : list row) (f : row) (os : list row) (pages : list page) (t : tail_plan)
    (target : option nat) : Prop := {
  run_rows : map _nvs_normalized rows = f :: os;
  run_kinds : kind f = "namespace" ∧ Forall (λ r, kind r ≠ "namespace") os;
  run_nopad : Forall (λ r, is_padding r = false) (f :: os);
  run_fits : Forall (page_fits t target) (zip (seq 0 (length pages)) pages);
  run_head : ∃ p count rest, pages = (f :: p, count) :: rest;
  run_fixed : concat (map fst pages) ≡ₚ f :: List.filter (λ r, negb (has_key NVS_MUTABLE_KEYS r)) os;
  run_tail : tail_ok t os;
  run_target : match target with Some i => (i < length pages)%nat | None => t_rows t = [] end;
  run_active : List.filter (has_key NVS_ACTIVE_KEYS) os ≠ [] ∧
    ∃ v, walk 0 (List.filter (has_key NVS_ACTIVE_KEYS) os) = Some v;
  run_count : zlen pages + 1 + NVS_MIN_BLANK_PAGES <= NVS_PAGE_COUNT;
  run_layout : layout = concat (emitted t target 0 (zip (seq 0 (length pages)) pages))
                 ++ List.filter (has_key NVS_ACTIVE_KEYS) os }.

Lemma place_head f ordered pages ps :
  foldR place_fixed ordered pages = Ok ps →
  (∃ p count rest, pages = (f :: p, count) :: rest) → ∃ p count rest, ps = (f :: p, count) :: rest.
Proof.
  intros H H0. apply (foldR_inv _ (λ _ ps, ∃ p count rest, ps = (f :: p, count) :: rest)) in H; [done..|].
  clear. intros _ r s s' (p & count & rest & ->) H. unfold place_fixed in H.
  apply bind_ok in H as (o & Ho & H). cbn [put_first_fit] in Ho. apply bind_ok in Ho as ([] & Hf & Ho).
  - apply bind_ok in Ho as (n & Hn & [= <-]). injection H as <-. cbn [app]. by eexists _, _, _.
  - apply bind_ok in Ho as (o' & Ho' & [= <-]). destruct o' as [ps|]; [injection H as <-; by eexists _, _, _|].
    apply bind_ok in H as ([] & _ & H); [|done]. apply bind_ok in H as (n & _ & [= <-]). by eexists _, _, _.
Qed.

Lemma find_target_some b pages i :
  find_target b pages = Some i → ∃ p count, pages !! i = Some (p, count) ∧ count <= b.
Proof.
  unfold find_target. intros (_ & H)%find_some. destruct (pages !! i) as [[p count]|]; [|done].
  exists p, count. split; [done|lia].
Qed.

Lemma is_padding_normalized r : is_padding (_nvs_normalized r) = is_padding r.
Proof. done. Qed.

Lemma zip_seq_elem {A} (l : list A) i x : (i, x) ∈ zip (seq 0 (length l)) l ↔ l !! i = Some x.
Proof.
  assert (∀ s, (i, x) ∈ zip (seq s (length l)) l ↔ (s ≤ i)%nat ∧ l !! (i - s)%nat = Some x) as H.
  { induction l as [|y l IH]; intros s; cbn [length seq zip].
    - split; [by intros ?%not_elem_of_nil|intros [_ H]; by rewrite lookup_nil in H].
    - rewrite elem_of_cons, IH. split.
      + intros [[= -> ->]|[Hle Hl]]; [split; [lia|by rewrite Nat.sub_diag]|].
        split; [lia|]. replace (i - s)%nat with (S (i - S s)) by lia. done.
      + intros [Hle Hl]. destruct (decide (i = s)) as [->|]; [left; rewrite Nat.sub_diag in Hl; by injection Hl as ->|].
        right. split; [lia|]. by replace (i - s)%nat with (S (i - S s)) in Hl by lia. }
  rewrite H, Nat.sub_0_r. split; [tauto|]. split; [lia|done].
Qed.

Lemma target_pages pages t os pages' target :
  (if bool_decide (t_rows t = []) then Ok (pages, None)
   else if t_start t <? 0 then Raise ValueError "Provisioning values do not fit one NVS page"
   else Ok (match find_target (t_boundary t) pages with
            | Some i => (pages, Some i)
            | None => (pages ++ [([], 0)], Some (length pages))
            end)) = Ok (pages', target) →
  tail_ok t os → Forall page_ok pages →
  concat (map fst pages') = concat (map fst pages) ∧ (∃ more, pages' = pages ++ more) ∧
  Forall (page_fits t target) (zip (seq 0 (length pages')) pages') ∧
  match target with Some i => (i < length pages')%nat | None => t_rows t = [] end.
Proof.
  intros H Ht Hok. case_bool_decide as E.
  { injection H as <- <-. split_and!; [done|exists []; by rewrite app_nil_r| |done].
    apply Forall_forall. intros [i p] Hip%zip_seq_elem. split; [|done]. rewrite Forall_forall in Hok.
    apply Hok. by eapply list_elem_of_lookup_2. }
  destruct (Z.ltb_spec (t_start t) 0) as [|Hs]; [done|].
  assert (0 <= t_boundary t) as Hb by (destruct Ht as [_ _ _ _ ->]; unfold NVS_STATE_WORD_ENTRIES; dlia).
  destruct (find_target (t_boundary t) pages) as [i|] eqn:Ef; injection H as <- <-.
  - apply find_target_some in Ef as (p & count & Hi & Hle). split_and!; [done|exists []; by rewrite app_nil_r| |].
    + apply Forall_forall. intros [j q] Hj%zip_seq_elem. rewrite Forall_forall in Hok. split.
      * apply Hok. by eapply list_elem_of_lookup_2.
      * intros [= <-]. cbn in *. rewrite Hi in Hj. injection Hj as <-. done.
    + by eapply lookup_lt_Some.
  - split_and!; [by rewrite map_app, concat_app, app_nil_r|by eexists| |rewrite length_app; simpl; lia].
    apply Forall_forall. intros [j q] Hj%zip_seq_elem. apply lookup_app_Some in Hj as [Hj|[Hlt Hj]].
    + split; [rewrite Forall_forall in Hok; apply Hok; by eapply list_elem_of_lookup_2|].
      intros [= Hjj]. cbn in Hjj. apply lookup_lt_Some in Hj. lia.
    + apply list_lookup_singleton_Some in Hj as [_ <-]. split; [split; [done|cbn; unfold NVS_PAGE_ENTRIES; lia]|done].
Qed.

Lemma nvs_layout_run rows layout :
  nvs_layout rows = Ok layout → ∃ f os pages t target, layout_run rows layout f os pages t target.
Proof.
  intros H. unfold nvs_layout in H. destruct rows as [|f0 os0]; [done|].
  destruct (_ || _) eqn:E1 in H; [done|]. destruct (existsb is_padding (f0 :: os0)) eqn:E2; [done|]. bool_prop.
  apply bind_ok in H as (n & Hn & H). apply bind_ok in H as (ordered & Hord & H).
  apply bind_ok in H as (pages & Hpages & H). apply bind_ok in H as (t & Ht & H).
  apply bind_ok in H as ([pages' target] & Hplaced & H). apply bind_ok in H as (v & Hact & H).
  destruct (_ || _) eqn:E3 in H; [done|]. bool_prop. injection H as <-.
  set (f := _nvs_normalized f0) in *. set (os := map _nvs_normalized os0) in *.
  assert (one_entry f = true) as Hf1 by (unfold one_entry, f; cbn; by rewrite bool_decide_eq_true_2).
  rewrite (one_entry_entries f Hf1) in Hn. injection Hn as <-.
  destruct (place_all _ _ _ Hpages) as [Hok Hperm].
  { apply Forall_singleton. split; cbn; [unfold nvs_row_fits; rewrite Hf1, (one_entry_entries f Hf1); done|unfold NVS_PAGE_ENTRIES; lia]. }
  destruct (place_head f _ _ _ Hpages) as (p & c & rest & Hhead); [by eexists _, _, _|].
  apply plan_tail_ok in Ht. apply fit_active_walk in Hact.
  destruct (target_pages _ _ _ _ _ Hplaced Ht Hok) as (Hconc & (more & Hmore) & Hfits & Htarget).
  exists f, os, pages', t, target. split.
  - done.
  - split; [done|]. apply Forall_forall. intros r (r0 & -> & Hr0)%list_elem_of_fmap Hk. cbn in Hk.
    assert (existsb (λ r, bool_decide (kind r = "namespace")) os0 = true); [|congruence].
    apply existsb_exists. exists r0. split; [by apply list_elem_of_In|by apply bool_decide_eq_true_2].
  - apply Forall_forall. intros r Hr. change (f :: os) with (map _nvs_normalized (f0 :: os0)) in Hr.
    apply list_elem_of_fmap in Hr as (r0 & -> & Hr0). rewrite is_padding_normalized.
    apply not_true_iff_false. intros Hp. assert (existsb is_padding (f0 :: os0) = true); [|congruence].
    apply existsb_exists. exists r0. split; [by apply list_elem_of_In|done].
  - done.
  - exists p, c, (rest ++ more). by rewrite Hmore, Hhead.
  - rewrite Hconc, Hperm, (largest_first_perm _ _ Hord). done.
  - done.
  - done.
  - eauto.
  - done.
  - by rewrite emit_fold.
Qed.

(** ** What the pages hold *)
Lemma emitted_length t target pad ips : length (emitted t target pad ips) = length ips.
Proof. revert pad. induction ips as [|ip ips IH]; intros pad; cbn [emitted length]; [done|by rewrite IH]. Qed.

Lemma page_pads_padding t target pad ip : Forall (λ r, is_padding r = true) (page_pads t target pad ip).
Proof.
  unfold page_pads, page_filler, page_tail. apply Forall_app. case_bool_decide; cbn [snd].
  - split; [apply Forall_app; split; apply padding_rows|]. destruct (t_closing t); repeat constructor.
  - split; [apply padding_rows|constructor].
Qed.

Lemma page_pads_numbered t target pad ip : numbered pad (page_pads t target pad ip).
Proof.
  unfold page_pads, page_filler, page_tail. apply numbered_app; case_bool_decide; cbn [snd].
  - apply numbered_app; apply padding_numbered.
  - apply padding_numbered.
  - destruct (t_closing t); [|done]. unfold numbered. cbn [map length seq]. by rewrite Z.add_0_r.
  - done.
Qed.

Definition tail_here (t : tail_plan) (target : option nat) (i : nat) : list row :=
  if bool_decide (target = Some i) then t_rows t else [].

(** A padded page is its rows, the tail if it goes here, and padding. *)
Lemma page_rows_split t target pad ip :
  page_rows t target pad ip ≡ₚ (ip.2.1 ++ tail_here t target ip.1) ++ page_pads t target pad ip.
Proof.
  unfold page_rows, page_pads, page_tail, tail_here. case_bool_decide; cbn [fst snd].
  - rewrite <- !app_assoc. f_equiv. rewrite !app_assoc. f_equiv. apply Permutation_app_comm.
  - rewrite !app_nil_r. done.
Qed.

Lemma emitted_split t target pad ips :
  ∃ pads, concat (emitted t target pad ips) ≡ₚ
      (concat (map (λ ip, ip.2.1) ips) ++ concat (map (λ ip, tail_here t target ip.1) ips)) ++ pads ∧
    Forall (λ r, is_padding r = true) pads ∧ numbered pad pads.
Proof.
  revert pad. induction ips as [|ip ips IH]; intros pad; cbn [emitted concat map].
  - exists []. split_and!; [done|constructor|done].
  - destruct (IH (pad + zlen (page_pads t target pad ip))) as (pads & Hp & Hpad & Hnum).
    exists (page_pads t target pad ip ++ pads). split_and!.
    + rewrite Hp, page_rows_split. solve_Permutation.
    + apply Forall_app. split; [apply page_pads_padding|done].
    + by apply numbered_app; [apply page_pads_numbered|].
Qed.

Lemma tails_here t target n s :
  concat (map (λ i, tail_here t target i) (seq s n)) =
  match target with Some i => if bool_decide (s ≤ i < s + n)%nat then t_rows t else [] | None => [] end.
Proof.
  revert s. induction n as [|n IH]; intros s; cbn [seq map concat].
  - destruct target; [|done]. rewrite bool_decide_eq_false_2 by lia. done.
  - rewrite IH. unfold tail_here. destruct target as [i|]; [|done].
    destruct (decide (i = s)) as [->|Hne].
    + rewrite (bool_decide_eq_true_2 (Some s = Some s)) by done.
      rewrite bool_decide_eq_false_2, bool_decide_eq_true_2 by lia. by rewrite app_nil_r.
    + rewrite (bool_decide_eq_false_2 (Some i = Some s)) by congruence. cbn [app].
      rewrite (bool_decide_ext (S s ≤ i < S s + n)%nat (s ≤ i < s + S n)%nat) by lia. done.
Qed.

Lemma key_classes k :
  bool_decide (k ∈ NVS_MUTABLE_KEYS) = bool_decide (k ∈ NVS_TAIL_KEYS) || bool_decide (k ∈ NVS_ACTIVE_KEYS) ∧
  bool_decide (k ∈ NVS_TAIL_KEYS) && bool_decide (k ∈ NVS_ACTIVE_KEYS) = false.
Proof.
  destruct (decide (k ∈ NVS_MUTABLE_KEYS)) as [Hin|Hn].
  - revert k Hin. apply Forall_forall. unfold NVS_MUTABLE_KEYS at 1. repeat constructor.
  - assert (∀ l, Forall (λ x, x ∈ NVS_MUTABLE_KEYS) l → k ∉ l) as Hsub.
    { intros l Hl Hk. rewrite Forall_forall in Hl. auto. }
    rewrite !bool_decide_eq_false_2; [done|apply Hsub..|done]; apply (bool_decide_unpack _); vm_compute; exact I.
Qed.

(** Every row is either the firmware's own to write, an operator's, or fixed. *)
Lemma rows_partition os :
  os ≡ₚ List.filter (λ r, negb (has_key NVS_MUTABLE_KEYS r)) os ++ List.filter (has_key NVS_TAIL_KEYS) os
       ++ List.filter (has_key NVS_ACTIVE_KEYS) os.
Proof.
  induction os as [|r os IH]; [done|]. destruct (key_classes (key r)) as [H1 H2].
  cbn [List.filter]. unfold has_key in *. rewrite H1.
  destruct (bool_decide (key r ∈ NVS_TAIL_KEYS)), (bool_decide (key r ∈ NVS_ACTIVE_KEYS)); try discriminate H2; cbn [negb orb].
  - cbn [app]. rewrite <- Permutation_middle. by constructor.
  - rewrite app_assoc, <- Permutation_middle, <- app_assoc. by constructor.
  - cbn [app]. by constructor.
Qed.

Lemma map_fst_zip_seq {A} (l : list A) : map fst (zip (seq 0 (length l)) l) = seq 0 (length l).
Proof. apply fst_zip. by rewrite length_seq. Qed.
Lemma map_snd_zip_seq {A} (l : list A) : map snd (zip (seq 0 (length l)) l) = l.
Proof. apply snd_zip. by rewrite length_seq. Qed.

(** The rows of a layout: the given rows, and padding numbered from 0. *)
Lemma run_contents rows layout f os pages t target :
  layout_run rows layout f os pages t target →
  ∃ pads, concat (emitted t target 0 (zip (seq 0 (length pages)) pages)) ≡ₚ
      (f :: List.filter (λ r, negb (has_key NVS_MUTABLE_KEYS r)) os ++ List.filter (has_key NVS_TAIL_KEYS) os) ++ pads ∧
    layout ≡ₚ (f :: os) ++ pads ∧ Forall (λ r, is_padding r = true) pads ∧ numbered 0 pads.
Proof.
  intros [_ _ _ _ _ Hfixed Htail Htarget _ _ ->].
  set (ips := zip (seq 0 (length pages)) pages).
  destruct (emitted_split t target 0 ips) as (pads & Hp & Hpad & Hnum). exists pads.
  assert (concat (map (λ ip, ip.2.1) ips) = concat (map fst pages)) as E1.
  { unfold ips. rewrite <- (map_map snd fst), map_snd_zip_seq. done. }
  assert (concat (map (λ ip, tail_here t target ip.1) ips) ≡ₚ List.filter (has_key NVS_TAIL_KEYS) os) as E2.
  { unfold ips. rewrite <- (map_map fst (tail_here t target)), map_fst_zip_seq, tails_here.
    rewrite <- (tail_perm _ _ Htail). destruct target as [i|].
    - rewrite bool_decide_eq_true_2 by lia. done.
    - by rewrite Htarget. }
  rewrite E1, E2, Hfixed in Hp. split_and!; [done| |done|done].
  rewrite Hp. rewrite (rows_partition os) at 4. solve_Permutation.
Qed.

Lemma padding_not_key r (keys : list string) :
  is_padding r = true → forallb (λ k, negb (bool_decide (take 4 (chars k) = chars NVS_PADDING_PREFIX))) keys = true →
  key r ∉ keys.
Proof.
  intros Hp H Hin. rewrite forallb_forall in H. apply list_elem_of_In, H in Hin. unfold is_padding in Hp.
  by rewrite Hp in Hin.
Qed.

Lemma full_not_active rows layout f os pages t target :
  layout_run rows layout f os pages t target →
  Forall (λ r, key r ∉ NVS_ACTIVE_KEYS ∨ kind r = "namespace") (concat (emitted t target 0 (zip (seq 0 (length pages)) pages))).
Proof.
  intros R. destruct (run_contents _ _ _ _ _ _ _ R) as (pads & Hp & _ & Hpad & _). destruct R as [_ [Hk _] _ _ _ _ _ _ _ _ _].
  rewrite Hp. apply Forall_app. split; [apply Forall_cons; split; [by right|apply Forall_app; split]|].
  - apply Forall_forall. intros r Hr. left. apply list_elem_of_In, List.filter_In in Hr as [_ Hr].
    unfold has_key in Hr. destruct (key_classes (key r)) as [H1 _]. rewrite H1 in Hr. bool_prop. done.
  - apply Forall_forall. intros r Hr. left. apply list_elem_of_In, List.filter_In in Hr as [_ Hr].
    unfold has_key in Hr. destruct (key_classes (key r)) as [_ H2]. rewrite Hr in H2. cbn in H2. by apply bool_decide_eq_false in H2.
  - eapply Forall_impl; [exact Hpad|]. intros r Hr. left. by apply padding_not_key.
Qed.

Lemma run_generate rows layout f os pages t target :
  layout_run rows layout f os pages t target →
  Forall (λ pg, walk 0 pg = Some NVS_PAGE_ENTRIES) (emitted t target 0 (zip (seq 0 (length pages)) pages)) ∧
  generate [] 0 layout = emitted t target 0 (zip (seq 0 (length pages)) pages) ++ [List.filter (has_key NVS_ACTIVE_KEYS) os].
Proof.
  intros [_ _ _ Hfits _ _ Htail _ [Hne (v & Hv)] _ ->].
  assert (Forall (λ pg, walk 0 pg = Some NVS_PAGE_ENTRIES) (emitted t target 0 (zip (seq 0 (length pages)) pages))) as Hfull.
  { apply emitted_Forall. intros pad ip Hip. eapply page_rows_full; [done|]. rewrite Forall_forall in Hfits. auto. }
  split; [done|]. by eapply generate_pages.
Qed.

(** The pages the generator makes of a layout are exactly the planned ones:
    every page but the last is filled to its 126 entries (so the generator marks
    it FULL), the last holds all the rows a board writes itself and nothing else,
    and at least two of the six pages stay erased. *)
Theorem nvs_layout_pages rows layout :
  nvs_layout rows = Ok layout →
  ∃ full active, generate [] 0 layout = full ++ [active] ∧ layout = concat full ++ active ∧
    Forall (λ pg, total pg = NVS_PAGE_ENTRIES) full ∧ Forall (λ r, key r ∉ NVS_ACTIVE_KEYS ∨ kind r = "namespace") (concat full) ∧
    active ≠ [] ∧ Forall (λ r, key r ∈ NVS_ACTIVE_KEYS) active ∧
    zlen (full ++ [active]) + NVS_MIN_BLANK_PAGES <= NVS_PAGE_COUNT.
Proof.
  intros (f & os & pages & t & target & R)%nvs_layout_run. pose proof (full_not_active _ _ _ _ _ _ _ R) as Hna.
  pose proof (run_generate _ _ _ _ _ _ _ R) as [Hfull Hgen]. destruct R as [_ _ _ _ _ _ _ _ [Hne _] Hcount Hlay].
  eexists _, (List.filter (has_key NVS_ACTIVE_KEYS) os). split_and!; [exact Hgen|exact Hlay| |exact Hna|done| |].
  - eapply Forall_impl; [exact Hfull|]. intros pg Hpg%walk_total. simpl in Hpg. lia.
  - apply Forall_forall. intros r Hr. apply list_elem_of_In, List.filter_In in Hr as [_ Hr]. by apply bool_decide_eq_true in Hr.
  - unfold zlen in *. rewrite length_app. simpl. rewrite emitted_length, length_zip, length_seq. lia.
Qed.

Lemma filter_all {A} (p : A → bool) l : Forall (λ x, p x = true) l → List.filter p l = l.
Proof. induction 1 as [|x l Hx Hl IH]; [done|]. cbn [List.filter]. by rewrite Hx, IH. Qed.
Lemma filter_none {A} (p : A → bool) l : Forall (λ x, p x = false) l → List.filter p l = [].
Proof. induction 1 as [|x l Hx Hl IH]; [done|]. cbn [List.filter]. by rewrite Hx. Qed.
Lemma pad_keys_NoDup n : NoDup (map (λ i, pad_key (0 + Z.of_nat i)) (seq 0 n)).
Proof.
  apply NoDup_ListNoDup, Finite.Injective_map_NoDup; [|apply seq_NoDup].
  intros i j H. unfold pad_key in H. apply (inj (String.append NVS_PADDING_PREFIX)) in H. apply py_str_inj in H; lia.
Qed.

(** A layout holds every given row exactly once with the value that reaches
    the image, the namespace first, and otherwise only padding; its keys are
    distinct when the given keys are. *)
Theorem nvs_layout_contents rows layout :
  nvs_layout rows = Ok layout →
  head layout = _nvs_normalized <$> head rows ∧
  List.filter (λ r, negb (is_padding r)) layout ≡ₚ map _nvs_normalized rows ∧
  (NoDup (map key rows) → NoDup (map key layout)).
Proof.
  intros (f & os & pages & t & target & R)%nvs_layout_run.
  destruct (run_contents _ _ _ _ _ _ _ R) as (pads & _ & Hp & Hpad & Hnum).
  pose proof (run_rows _ _ _ _ _ _ _ R) as Hrows. pose proof (run_nopad _ _ _ _ _ _ _ R) as Hnp. split_and!.
  - destruct rows as [|r rows]; [discriminate Hrows|]. injection Hrows as Hf _. cbn. rewrite Hf.
    destruct R as [_ _ _ _ (p & count & rest & ->) _ _ _ _ _ ->]. cbn [length seq zip_with emitted concat].
    unfold page_rows. cbn [fst snd]. destruct (page_tail _ _ _). done.
  - rewrite (filter_perm _ _ _ Hp), List.filter_app.
    rewrite filter_all, filter_none, app_nil_r, Hrows; [done|..].
    + eapply Forall_impl; [exact Hpad|]. intros r Hr. by rewrite Hr.
    + eapply Forall_impl; [exact Hnp|]. intros r Hr. by rewrite Hr.
  - intros Hnd. rewrite Hp, map_app. apply NoDup_app. split_and!.
    + rewrite <- Hrows, map_map. exact Hnd.
    + intros k (r & -> & Hr)%list_elem_of_fmap (r' & Heq & Hr')%list_elem_of_fmap.
      rewrite Forall_forall in Hnp, Hpad. specialize (Hnp r Hr). specialize (Hpad r' Hr').
      unfold is_padding in *. rewrite Heq in Hnp. congruence.
    + unfold numbered in Hnum. rewrite Hnum. apply pad_keys_NoDup.
Qed.

(** ** State words *)
Fixpoint positions (u : Z) (rows : list row) : list (Z * row) :=
  match rows with [] => [] | r :: rows' => (u, r) :: positions (u + entries r) rows' end.

Lemma positions_app u l k : positions u (l ++ k) = positions u l ++ positions (u + total l) k.
Proof.
  revert u. induction l as [|r l IH]; intros u; cbn [app positions]; [by rewrite Z.add_0_r|].
  rewrite IH. unfold total. cbn [map foldr]. by rewrite Z.add_assoc.
Qed.

Lemma positions_range u l j r v :
  walk u l = Some v → (j, r) ∈ positions u l → u <= j ∧ j + entries r <= v ∧ r ∈ l.
Proof.
  revert u. induction l as [|r' l IH]; intros u Hw Hin; cbn [positions] in Hin; [by apply not_elem_of_nil in Hin|].
  cbn [walk] in Hw. destruct (nvs_row_fits u r') as [[]|]; try done. destruct (nvs_row_entries r') as [n|] eqn:En; [|done].
  pose proof (row_entries_pos _ _ En). unfold entries in Hin at 1. rewrite En in Hin.
  apply elem_of_cons in Hin as [[= -> ->]|Hin].
  - pose proof (walk_total _ _ _ Hw). unfold entries. rewrite En. assert (0 <= total l); [|split_and!; [lia..|by left]].
    clear -Hw. revert u n Hw. induction l as [|x l IHl]; intros u n Hw; [done|]. cbn [walk] in Hw.
    destruct (nvs_row_fits _ x) as [[]|]; try done. destruct (nvs_row_entries x) as [m|] eqn:E; [|done].
    unfold total, entries in *. cbn [map foldr]. rewrite E. pose proof (row_entries_pos _ _ E).
    specialize (IHl (u + n) m Hw). lia.
  - destruct (IH _ Hw Hin) as (? & ? & ?). split_and!; [lia..|by right].
Qed.

Definition tail_row (r : row) : Prop := key r ∈ NVS_TAIL_KEYS ∧ kind r ≠ "namespace".

(** Two rows of a page have an entry each whose states are in the same bitmap word. *)
Definition share_word (i : Z) (r : row) (j : Z) (r' : row) : Prop :=
  ∃ e e', i <= e < i + entries r ∧ j <= e' < j + entries r' ∧ e / NVS_STATE_WORD_ENTRIES = e' / NVS_STATE_WORD_ENTRIES.

Definition words_apart (pg : list row) : Prop :=
  ∀ i r j r', (i, r) ∈ positions 0 pg → (j, r') ∈ positions 0 pg → tail_row r → share_word i r j r' →
    tail_row r' ∨ (is_padding r' = true ∧ entries r' = 1).

Lemma no_tail_apart pg : Forall (λ r, ¬ tail_row r) pg → words_apart pg.
Proof.
  intros H i r j r' Hi _ Ht _. exfalso. rewrite Forall_forall in H. apply (H r); [|done].
  clear -Hi. revert Hi. generalize 0. induction pg as [|x pg IH]; intros u Hi; cbn [positions] in Hi; [by apply not_elem_of_nil in Hi|].
  apply elem_of_cons in Hi as [[= -> ->]|Hi]; [by left|right; eauto].
Qed.

Lemma padding_no_tail r : is_padding r = true → ¬ tail_row r.
Proof. intros Hp [Hin _]. by apply (padding_not_key r NVS_TAIL_KEYS). Qed.

Lemma single_padding free first : Forall (λ r, is_padding r = true ∧ entries r = 1) (_nvs_padding free first true).
Proof.
  unfold _nvs_padding. cbv zeta. rewrite andb_false_r. cbn [app].
  apply Forall_forall. intros r (i & -> & _)%list_elem_of_fmap. done.
Qed.

(** The page of the tail: everything below the boundary ends there. *)
Lemma target_apart t os p count pad n :
  tail_ok t os → Forall (λ r, kind r ≠ "namespace") os → page_ok (p, count) → count <= t_boundary t → 0 <= t_start t →
  Forall (λ r, ¬ tail_row r) p → words_apart (page_rows t (Some n) pad (n, (p, count))).
Proof.
  intros Ht Hos [Hw Hc] Hle Hs Hp. cbn [fst snd] in *. pose proof (boundary_range _ _ Ht) as Hb.
  pose proof (start_le_page _ _ Ht) as Hsp.
  assert (Forall tail_row (t_rows t)) as Htr.
  { rewrite (tail_perm _ _ Ht). apply Forall_forall. intros r Hr. apply list_elem_of_In, List.filter_In in Hr as [Hr Hk].
    rewrite Forall_forall in Hos. split; [by apply bool_decide_eq_true in Hk|by apply Hos, list_elem_of_In]. }
  unfold page_rows, page_filler, page_tail. rewrite bool_decide_eq_true_2 by done. cbn [fst snd].
  set (f1 := _nvs_padding (t_boundary t - count) pad false).
  set (f2 := _nvs_padding (t_start t - t_boundary t) (pad + zlen f1) true).
  set (cl := if t_closing t then _ else _).
  assert (Forall (λ r, tail_row r ∨ (is_padding r = true ∧ entries r = 1)) (f2 ++ t_rows t ++ cl)) as Hhigh.
  { rewrite !Forall_app. split_and!.
    - eapply Forall_impl; [apply single_padding|]. auto.
    - eapply Forall_impl; [exact Htr|]. auto.
    - unfold cl. destruct (t_closing t); [|constructor]. apply Forall_singleton. by right. }
  assert (walk 0 (p ++ f1) = Some (t_boundary t)) as Hlow.
  { rewrite walk_app, Hw. unfold f1. rewrite walk_padding by lia. f_equal. lia. }
  assert (Forall (λ r, ¬ tail_row r) (p ++ f1)) as Hnl.
  { apply Forall_app. split; [done|]. eapply Forall_impl; [apply padding_rows|]. apply padding_no_tail. }
  replace (p ++ (f1 ++ f2) ++ t_rows t ++ cl) with ((p ++ f1) ++ (f2 ++ t_rows t ++ cl)) by (by rewrite <- !app_assoc).
  assert (walk (t_boundary t) (f2 ++ t_rows t ++ cl) = Some NVS_PAGE_ENTRIES) as Hup.
  { rewrite walk_app. unfold f2. rewrite walk_padding by lia.
    replace (t_boundary t + (t_start t - t_boundary t)) with (t_start t) by lia. by eapply walk_tail. }
  intros i r j r'. rewrite positions_app, !elem_of_app. pose proof (walk_total _ _ _ Hlow) as Htot.
  rewrite Forall_forall in Hnl, Hhigh. replace (0 + total (p ++ f1)) with (t_boundary t) by lia.
  intros [Hi|Hi] [Hj|Hj] Hr Hsh.
  1,2: exfalso; destruct (positions_range _ _ _ _ _ Hlow Hi) as (_ & _ & Hin); by apply (Hnl r).
  - exfalso. destruct (positions_range _ _ _ _ _ Hlow Hj) as (_ & Hj' & _).
    destruct (positions_range _ _ _ _ _ Hup Hi) as (Hi' & _). destruct Hsh as (e & e' & He & He' & Heq).
    rewrite (tail_boundary _ _ Ht) in *. unfold NVS_STATE_WORD_ENTRIES in *. clear -He He' Heq Hj' Hi'. dlia.
  - destruct (positions_range _ _ _ _ _ Hup Hj) as (_ & _ & Hin). by apply Hhigh.
Qed.

Lemma fixed_no_tail rows layout f os pages t target i p count :
  layout_run rows layout f os pages t target → pages !! i = Some (p, count) → Forall (λ r, ¬ tail_row r) p.
Proof.
  intros R Hi. apply Forall_forall. intros r Hr [Hk Hn].
  assert (r ∈ concat (map fst pages)) as Hin.
  { apply list_elem_of_In, in_concat. exists p. split; [|by apply list_elem_of_In].
    apply in_map_iff. exists (p, count). split; [done|]. apply list_elem_of_In. by eapply list_elem_of_lookup_2. }
  rewrite (run_fixed _ _ _ _ _ _ _ R) in Hin. apply elem_of_cons in Hin as [->|Hin].
  - by destruct (run_kinds _ _ _ _ _ _ _ R).
  - apply list_elem_of_In, List.filter_In in Hin as [_ Hm]. unfold has_key in Hm.
    destruct (key_classes (key r)) as [H1 _]. rewrite H1 in Hm. bool_prop. done.
Qed.

(** On every page the generator makes, the 32-bit state words that hold the
    state of a row an operator may rewrite (Wi-Fi, COMM key, terminal host) hold
    the states of nothing but such rows and one-entry padding: erasing one never
    programs the word of any other provisioning row. *)
Theorem nvs_tail_state_words rows layout pg i r j r' :
  nvs_layout rows = Ok layout → pg ∈ generate [] 0 layout →
  (i, r) ∈ positions 0 pg → (j, r') ∈ positions 0 pg →
  key r ∈ NVS_TAIL_KEYS → kind r ≠ "namespace" → share_word i r j r' →
  key r' ∈ NVS_TAIL_KEYS ∨ (is_padding r' = true ∧ entries r' = 1).
Proof.
  intros (f & os & pages & t & target & R)%nvs_layout_run Hpg Hi Hj Hk Hn Hsh.
  enough (words_apart pg) as Hw by (destruct (Hw i r j r' Hi Hj (conj Hk Hn) Hsh) as [[]|]; auto).
  destruct (run_generate _ _ _ _ _ _ _ R) as [_ Hgen]. rewrite Hgen in Hpg. apply elem_of_app in Hpg as [Hpg|Hpg].
  - revert Hpg. clear Hi Hj.
    assert (Forall words_apart (emitted t target 0 (zip (seq 0 (length pages)) pages))) as Hall; [|by rewrite Forall_forall in Hall; auto].
    apply emitted_Forall. intros pad [n [p count]] Hip. pose proof Hip as Hlook%zip_seq_elem.
    pose proof (fixed_no_tail _ _ _ _ _ _ _ _ _ _ R Hlook) as Hp.
    pose proof (run_fits _ _ _ _ _ _ _ R) as Hfits. rewrite Forall_forall in Hfits.
    destruct (Hfits _ Hip) as [Hok Htgt]. cbn [fst snd] in *. destruct (decide (target = Some n)) as [->|Hne].
    + destruct (Htgt eq_refl). eapply target_apart; [by eapply run_tail| |done..].
      by destruct (run_kinds _ _ _ _ _ _ _ R).
    + apply no_tail_apart. unfold page_rows, page_filler, page_tail. cbn [fst snd].
      rewrite bool_decide_eq_false_2 by done. rewrite app_nil_r. apply Forall_app. split; [done|].
      eapply Forall_impl; [apply padding_rows|]. apply padding_no_tail.
  - apply list_elem_of_singleton in Hpg as ->. apply no_tail_apart. apply Forall_forall. intros x Hx [Hkx _].
    apply list_elem_of_In, List.filter_In in Hx as [_ Hx]. unfold has_key in Hx.
    destruct (key_classes (key x)) as [_ H2]. rewrite Hx, (bool_decide_eq_true_2 _ Hkx) in H2. done.
Qed.

(** ** Values survive the CSV

    The generator drops the lines that start with '#' as it reads the CSV and
    reads every newline as LF, which is what nvs_string_value does. *)
Definition plain (s : bytes) : Prop := Forall (λ c, c ≠ CR) s.

Lemma replace_cr_plain_out s : plain (replace_cr s).
Proof.
  unfold plain, replace_cr. apply Forall_forall. intros c (d & -> & _)%list_elem_of_fmap.
  case_bool_decide; done.
Qed.

Fixpoint join_lf (lines : list bytes) : bytes :=
  match lines with [] => [] | [l] => l | l :: ls => l ++ LF :: join_lf ls end.

Lemma split_lf_nonempty s : split_lf s ≠ [].
Proof. destruct s as [|c s]; cbn [split_lf]; [done|]. case_bool_decide; [done|]. by destruct (split_lf s). Qed.

Lemma split_join lines :
  lines ≠ [] → Forall (Forall (λ c, c ≠ LF)) lines → split_lf (join_lf lines) = lines.
Proof.
  induction lines as [|l lines IH]; intros Hne Hl; [done|]. apply Forall_cons in Hl as [Hc Hl].
  destruct lines as [|l' lines]; [by apply split_lf_plain|]. specialize (IH ltac:(done) Hl).
  change (join_lf (l :: l' :: lines)) with (l ++ LF :: join_lf (l' :: lines)). induction Hc as [|c l Hcc Hc IHc]; cbn [app split_lf].
  - by rewrite bool_decide_eq_true_2, IH.
  - rewrite bool_decide_eq_false_2 by done. by rewrite IHc.
Qed.

Lemma split_lf_lines s : Forall (Forall (λ c, c ≠ LF)) (split_lf s).
Proof.
  induction s as [|c s IH]; cbn [split_lf]; [by repeat constructor|].
  case_bool_decide as E; [by constructor|]. destruct (split_lf s) as [|l ls]; [repeat constructor; done|].
  apply Forall_cons in IH as [? ?]. by repeat constructor.
Qed.

(** The lines kept after the first, with an empty one when the last was dropped. *)
Definition kept (ls : list bytes) : list bytes :=
  List.filter (λ x, negb (starts_hash x)) ls ++ match last ls with Some l => if starts_hash l then [[]] else [] | None => [] end.

Lemma kept_nonempty l ls : kept (l :: ls) ≠ [].
Proof.
  revert l. induction ls as [|l' ls IH]; intros l.
  - unfold kept. cbn. by destruct (starts_hash l).
  - specialize (IH l'). unfold kept in *. change (last (l :: l' :: ls)) with (last (l' :: ls)).
    cbn [List.filter] in *. by destruct (negb (starts_hash l)).
Qed.

Lemma keep_lines_kept i ls : keep_lines (S i) ls = join_lf (kept ls).
Proof.
  revert i. induction ls as [|l ls IH]; intros i; [done|]. cbn [keep_lines Nat.eqb negb andb]. rewrite IH.
  destruct ls as [|l' ls].
  - unfold kept. cbn. destruct (starts_hash l); cbn; [done|]. by rewrite !app_nil_r.
  - pose proof (kept_nonempty l' ls) as Hne. unfold kept in *. change (last (l :: l' :: ls)) with (last (l' :: ls)).
    set (tl := match last (l' :: ls) with Some l => _ | None => _ end) in *.
    assert (List.filter (λ x, negb (starts_hash x)) (l :: l' :: ls)
      = (if starts_hash l then [] else [l]) ++ List.filter (λ x, negb (starts_hash x)) (l' :: ls)) as Hfl.
    { cbn [List.filter]. by destruct (starts_hash l). }
    rewrite Hfl. destruct (starts_hash l); [done|].
    rewrite <- !app_assoc. cbn [app]. destruct (List.filter _ (l' :: ls) ++ tl) as [|m ms]; [done|]. done.
Qed.

Lemma keep_lines_join l ls : keep_lines 0 (l :: ls) = join_lf (l :: kept ls).
Proof.
  cbn [keep_lines Nat.eqb negb andb]. rewrite keep_lines_kept. destruct ls as [|l' ls].
  - cbn. by rewrite !app_nil_r.
  - pose proof (kept_nonempty l' ls) as Hne. destruct (kept (l' :: ls)) as [|m ms]; [done|].
    rewrite <- app_assoc. done.
Qed.

Lemma kept_Forall (P : bytes → Prop) ls : P [] → Forall P ls → Forall P (kept ls).
Proof.
  intros H0 Hl. unfold kept. apply Forall_app. split.
  - rewrite Forall_forall in *. intros x Hx. apply list_elem_of_In, List.filter_In in Hx as [Hx _].
    apply Hl. by apply list_elem_of_In.
  - repeat case_match; repeat constructor; done.
Qed.

Lemma kept_idemp ls : kept (kept ls) = kept ls.
Proof.
  assert (Forall (λ x, negb (starts_hash x) = true) (kept ls)) as Hall.
  { unfold kept at 1. apply Forall_app. split; [|repeat case_match; repeat constructor; done].
    apply Forall_forall. intros x Hx. by apply list_elem_of_In, List.filter_In in Hx as [_ ?]. }
  unfold kept at 1. rewrite (filter_all _ _ Hall).
  destruct (last (kept ls)) as [l|] eqn:El; [|apply app_nil_r].
  apply last_Some_elem_of in El. rewrite Forall_forall in Hall. apply Hall in El. bool_prop. rewrite El. apply app_nil_r.
Qed.

Lemma join_lf_Forall (P : byte → Prop) lines : P LF → Forall (Forall P) lines → Forall P (join_lf lines).
Proof.
  intros H0 H. induction H as [|l ls Hl Hls IH]; [constructor|]. destruct ls as [|l' ls]; [done|].
  change (join_lf (l :: l' :: ls)) with (l ++ LF :: join_lf (l' :: ls)). apply Forall_app. split; [done|]. by constructor.
Qed.

Lemma split_lf_Forall (P : byte → Prop) s : Forall P s → Forall (Forall P) (split_lf s).
Proof.
  induction 1 as [|c s Hc Hs IH]; cbn [split_lf]; [by repeat constructor|].
  case_bool_decide; [by constructor|]. destruct (split_lf s) as [|l ls]; [by repeat constructor|].
  apply Forall_cons in IH as [? ?]. by repeat constructor.
Qed.

(** Normalising a row is idempotent and does not change the entries it takes:
    the value the layout writes to the CSV is the value the generator reads back,
    whatever newlines and '#' lines it holds. *)
Theorem nvs_normalized_stable r :
  _nvs_normalized (_nvs_normalized r) = _nvs_normalized r ∧ nvs_row_entries (_nvs_normalized r) = nvs_row_entries r.
Proof.
  assert (∀ v, nvs_string_value (PStr (nvs_string_value v)) = nvs_string_value v) as Hid.
  { intros v. unfold nvs_string_value at 1. cbn [py_str_val].
    assert (∃ l ls, nvs_string_value v = of_chars (join_lf (l :: kept ls)) ∧
      Forall (Forall (λ c, c ≠ LF)) (l :: ls) ∧ Forall plain (l :: ls)) as (l & ls & -> & Hlf & Hcr).
    { unfold nvs_string_value. set (s := replace_cr _). pose proof (split_lf_nonempty s).
      pose proof (split_lf_lines s) as Hlf. pose proof (split_lf_Forall _ _ (replace_cr_plain_out (replace_crlf
        (chars match v with PNone => "" | _ => py_str_val v end)))) as Hcr. fold s in Hcr.
      destruct (split_lf s) as [|l ls]; [done|]. exists l, ls. by rewrite keep_lines_join. }
    rewrite chars_of_chars. f_equal. assert (plain (join_lf (l :: kept ls))) as Hp.
    { apply join_lf_Forall; [done|]. apply Forall_cons in Hcr as [? ?]. constructor; [done|]. apply kept_Forall; [constructor|done]. }
    rewrite replace_crlf_plain, replace_cr_plain, split_join by
      (done || (apply Forall_cons in Hlf as [? ?]; constructor; [done|]; apply kept_Forall; [constructor|done])).
    by rewrite keep_lines_join, kept_idemp. }
  destruct r as [k kd enc v]. unfold _nvs_normalized. cbn [key kind encoding value]. case_bool_decide as E.
  - rewrite Hid. split; [done|]. unfold nvs_row_entries, one_entry, primitive, nvs_stored_string. cbn [key kind encoding value].
    by rewrite Hid.
  - done.
Qed.

(** ** A concrete layout *)
Definition str_row (k v : string) : row := mkRow k "data" "string" (PStr v).
Definition sample_rows : list row :=
  [mkRow "zone_cfg" "namespace" "" (PStr ""); str_row "fw_family" "zkt"; mkRow "provisioned" "data" "u8" (PInt 1);
   str_row "wifi_ssid" "office"; str_row "wifi_pass" "correct horse"; mkRow "zkt_port" "data" "u16" (PInt 4370);
   mkRow "zkt_key" "data" "u32" (PInt 0); str_row "zkt_serial" ""; str_row "add_ws" ""; str_row "conn_id" "";
   str_row "dev_token" ""; str_row "zone_name" "North zone"].
Definition sample_layout : list row := match nvs_layout sample_rows with Ok l => l | Raise _ _ => [] end.
Definition sample_page : list row := List.nth 0 (generate [] 0 sample_layout) [].

Example crlf_and_comments :
  nvs_string_value (PStr (of_chars (chars "A" ++ [CR; LF] ++ chars "# Subject" ++ [CR; LF] ++ chars "B")))
  = of_chars (chars "A" ++ [LF] ++ chars "B").
Proof. vm_compute. reflexivity. Qed.

Lemma nvs_layout_pages_witness :
  nvs_layout sample_rows = Ok sample_layout ∧
  ∃ full active, generate [] 0 sample_layout = full ++ [active] ∧ Forall (λ pg, total pg = NVS_PAGE_ENTRIES) full.
Proof.
  assert (nvs_layout sample_rows = Ok sample_layout) as H by (vm_compute; reflexivity).
  split; [exact H|]. destruct (nvs_layout_pages _ _ H) as (full & active & Hg & _ & Ht & _).
  exists full, active. split; [exact Hg|exact Ht].
Defined.

Lemma nvs_layout_contents_witness :
  nvs_layout sample_rows = Ok sample_layout ∧
  List.filter (λ r, negb (is_padding r)) sample_layout ≡ₚ map _nvs_normalized sample_rows.
Proof.
  assert (nvs_layout sample_rows = Ok sample_layout) as H by (vm_compute; reflexivity).
  split; [exact H|]. exact (proj1 (proj2 (nvs_layout_contents _ _ H))).
Defined.

Lemma nvs_tail_state_words_witness :
  ∃ i r j r', (i, r) ∈ positions 0 sample_page ∧ (j, r') ∈ positions 0 sample_page ∧ share_word i r j r' ∧
    (key r' ∈ NVS_TAIL_KEYS ∨ (is_padding r' = true ∧ entries r' = 1)).
Proof.
  set (r := str_row "wifi_ssid" "office"). set (r' := pad_row 10 "u8" (PInt 0)).
  assert ((121, r) ∈ positions 0 sample_page) as Hi by (apply (list_elem_of_lookup_2 _ 16); vm_compute; reflexivity).
  assert ((120, r') ∈ positions 0 sample_page) as Hj by (apply (list_elem_of_lookup_2 _ 15); vm_compute; reflexivity).
  assert (share_word 121 r 120 r') as Hs by (exists 121, 120; vm_compute; repeat split; discriminate).
  exists 121, r, 120, r'. split_and!; [exact Hi|exact Hj|exact Hs|].
  refine (nvs_tail_state_words sample_rows sample_layout sample_page 121 r 120 r' _ _ Hi Hj _ _ Hs).
  - vm_compute. reflexivity.
  - apply (list_elem_of_lookup_2 _ 0). vm_compute. reflexivity.
  - left.
  - discriminate.
Defined.
