(* ===== verification/NvsImage.v ===== *)
(** * Reading a provisioning NVS image back, and what it must hold

    firmware/zone_lite/tools/provision_zone_lite.py: nvs_image_pages decodes the
    pages of a generated image, check_nvs_layout refuses it unless it holds the
    planned rows on the planned kinds of pages, and validate_root_selection guards
    the derivation of the board's keys. *)
From S2P Require Import Prelude PyText Hashes PyJson NvsLayout.
Open Scope string_scope.
Open Scope list_scope.
Open Scope Z_scope.

(** ** Reading a generated image back *)

(** (namespace index, key) *)
Abbreviation item_key := (Z * string)%type.

(** AES-XTS decryption of the cryptography package: key, tweak, ciphertext. It
    returns as many bytes as it is given, so indexing a header never fails. *)
Section image.
Context (xts_decrypt : bytes → bytes → bytes → bytes).

Definition _nvs_decrypt (xts_key : bytes) (offset : Z) (entry : bytes) : bytes :=
  xts_decrypt xts_key (le_bytes 16 offset) entry.

(** (entry index, entries, namespace index, type, key, value bytes) *)
Record item := mkItem { i_index : Z; i_span : Z; i_ns : Z; i_type : Z; i_key : string; i_value : bytes }.

Record data_page := mkDataPage {
  d_state : Z; d_sequence : Z; d_version : Z; d_header_ok : bool; d_written : Z; d_states : list Z;
  d_items : list item; d_intact : bool }.
Inductive image_page := BlankPage | DataPage (d : data_page).

Definition byte_at (raw : bytes) (i : nat) : Z := match raw !! i with Some b => zb b | None => 0 end.

(** The page's own bytes, its base in the partition, and one decrypted entry of it. *)
Definition entry_at (xts_key raw : bytes) (base index : Z) : bytes :=
  let offset := NVS_ENTRY_SIZE * (2 + index) in
  _nvs_decrypt xts_key (base + offset) (slice (Z.to_nat offset) (Z.to_nat (offset + NVS_ENTRY_SIZE)) raw).

Definition entry_state (raw : bytes) (index : Z) : Z :=
  Z.land (Z.shiftr (byte_at raw (Z.to_nat (32 + index / 4))) (index mod 4 * 2)) 3.

(** [label.decode("ascii", "replace")] *)
Definition ascii_replace (raw : bytes) : string :=
  of_chars (concat (map (λ b, if zb b <? 128 then [b] else [xef; xbf; xbd]) raw)).

(** One item, or [None] where a check fails. *)
Definition read_item (xts_key raw : bytes) (base : Z) (states : list Z) (index : Z) : option item :=
  let header := entry_at xts_key raw base index in
  let span := byte_at header 2 in
  if negb (crc32 (take 4 header ++ drop 8 header) 0xFFFFFFFF =? le_int (slice 4 8 header))
     || (span =? 0) || (NVS_PAGE_ENTRIES <? index + span)
     || existsb (λ s, negb (s =? 2)) (slice (Z.to_nat index) (Z.to_nat (index + span)) states) then None
  else
    let found value :=
      Some (mkItem index span (byte_at header 0) (byte_at header 1)
              (ascii_replace (before x00 (slice 8 24 header))) value) in
    if byte_at header 1 =? NVS_STRING then
      let size := le_int (slice 24 26 header) in
      let value := take (Z.to_nat size)
        (concat (map (entry_at xts_key raw base) (py_range (index + 1) (index + span) 1))) in
      if negb (zlen value =? size) || negb (crc32 value 0xFFFFFFFF =? le_int (slice 28 32 header)) then None
      else found value
    else found (drop 24 header).

(** The [while] loop; every item takes at least one of the page's 126 entries. *)
Fixpoint read_items (fuel : nat) (xts_key raw : bytes) (base : Z) (states : list Z) (index : Z) : list item * bool :=
  match fuel with
  | O => ([], true)
  | S fuel' =>
      if (index <? NVS_PAGE_ENTRIES) && bool_decide (states !! Z.to_nat index = Some 2) then
        match read_item xts_key raw base states index with
        | None => ([], false)
        | Some it =>
            let '(items, intact) := read_items fuel' xts_key raw base states (index + i_span it) in
            (it :: items, intact)
        end
      else ([], true)
  end.

Definition read_page (xts_key image : bytes) (number : Z) : image_page :=
  let base := number * NVS_PAGE_SIZE in
  let raw := slice (Z.to_nat base) (Z.to_nat (base + NVS_PAGE_SIZE)) image in
  if bool_decide (raw = replicate (Z.to_nat NVS_PAGE_SIZE) xff) then BlankPage
  else
    let states := map (entry_state raw) (py_range 0 NVS_PAGE_ENTRIES 1) in
    let '(items, intact) := read_items 127 xts_key raw base states 0 in
    DataPage (mkDataPage (le_int (slice 0 4 raw)) (le_int (slice 4 8 raw)) (byte_at raw 8)
                (crc32 (slice 4 28 raw) 0xFFFFFFFF =? le_int (slice 28 32 raw))
                (zlen (List.filter (λ s, s =? 2) states)) states items intact).

Definition nvs_image_pages (image xts_key : bytes) : list image_page :=
  map (read_page xts_key image) (py_range 0 (zlen image / NVS_PAGE_SIZE) 1).

(** ** What a generated image must hold *)

(** [struct.pack(layout, int(value))], which refuses values outside the width. *)
Definition pack_int (width : nat) (signed : bool) (z : Z) : res bytes :=
  let m := 256 ^ Z.of_nat width in
  if (if signed then (- (m / 2) <=? z) && (z <? m / 2) else (0 <=? z) && (z <? m)) then Ok (le_bytes width (z mod m))
  else Raise ValueError "struct.error".

(** [int(value)] of the values provisioning rows hold. *)
Definition int_of (v : pyval) : res Z :=
  match v with
  | PInt z => Ok z
  | PBool b => Ok (if b then 1 else 0)
  | _ => Raise TypeError "int() argument"
  end.

Definition _nvs_expected (r : row) : res (Z * Z * bytes) :=
  if bool_decide (kind r = "namespace") then Ok (0, 0x01, [x01] ++ replicate 7 xff)
  else if bool_decide (encoding r = "string") then Ok (1, NVS_STRING, nvs_stored_string (value r))
  else match assoc (encoding r) NVS_PRIMITIVES with
       | None => Raise KeyError (encoding r)
       | Some (code, width, signed) =>
           z ← int_of (value r);
           packed ← pack_int width signed z;
           Ok (1, code, packed ++ replicate (8 - length packed) xff)
       end.

(** Dicts keyed by (namespace index, key), in insertion order. *)
Fixpoint kfind {A} (k : item_key) (d : list (item_key * A)) : option A :=
  match d with [] => None | (k', v) :: d' => if bool_decide (k = k') then Some v else kfind k d' end.
Fixpoint kset {A} (k : item_key) (v : A) (d : list (item_key * A)) : list (item_key * A) :=
  match d with
  | [] => [(k, v)]
  | (k', v') :: d' => if bool_decide (k = k') then (k, v) :: d' else (k', v') :: kset k v d'
  end.

(** page, entry index, entries, type, value bytes *)
Record stored := mkStored { s_page : Z; s_index : Z; s_span : Z; s_type : Z; s_value : bytes }.

Definition fail {A} (reason : string) : res A :=
  Raise RuntimeError ("Provisioning NVS layout check failed: " +:+ reason).

Definition page_clean (number : Z) (p : data_page) : bool :=
  d_header_ok p && (d_sequence p =? number) && (d_version p =? 0xFE)
  && bool_decide (d_state p ∈ [NVS_PAGE_ACTIVE; NVS_PAGE_FULL]) && d_intact p
  && bool_decide (d_states p = replicate (Z.to_nat (d_written p)) 2
                                 ++ replicate (Z.to_nat (NVS_PAGE_ENTRIES - d_written p)) 3).

Definition add_item (number : Z) (found : list (item_key * stored)) (it : item) : res (list (item_key * stored)) :=
  let k := (i_ns it, i_key it) in
  match kfind k found with
  | Some _ => fail (i_key it +:+ " is stored twice")
  | None => Ok (kset k (mkStored number (i_index it) (i_span it) (i_type it) (i_value it)) found)
  end.

Definition add_page (found : list (item_key * stored)) (np : Z * data_page) : res (list (item_key * stored)) :=
  let '(number, p) := np in
  if negb (page_clean number p) then fail ("page " +:+ py_str number +:+ " is not a clean generated page")
  else foldR (add_item number) (d_items p) found.

Definition add_expected (expected : list (item_key * (Z * bytes))) (r : row) : res (list (item_key * (Z * bytes))) :=
  e ← _nvs_expected r; let '(ns, code, v) := (e : Z * Z * bytes) in Ok (kset (ns, key r) (code, v) expected).

(** [enumerate(pages)] restricted to the pages that are not blank. *)
Definition data_pages (pages : list image_page) : list (Z * data_page) :=
  omap (λ ip, match ip with (i, DataPage d) => Some (Z.of_nat i, d) | (_, BlankPage) => None end)
    (zip (seq 0 (length pages)) pages).

Definition check_stored (found : list (item_key * stored)) (_ : unit) (kv : item_key * (Z * bytes)) : res unit :=
  match kfind kv.1 found with
  | None => Raise KeyError kv.1.2
  | Some s => if bool_decide ((s_type s, s_value s) = kv.2) then Ok tt else fail (kv.1.2 +:+ " is not stored as planned")
  end.

Definition found_row (found : list (item_key * stored)) (r : row) : res stored :=
  match kfind (1, key r) found with Some s => Ok s | None => Raise KeyError (key r) end.

(** [pages[number]["state"]] and ["written"] *)
Definition page_at (pages : list image_page) (number : Z) : res data_page :=
  match pages !! Z.to_nat number with
  | Some (DataPage d) => Ok d
  | Some BlankPage => Raise KeyError "state"
  | None => Raise IndexError "list index out of range"
  end.

Definition check_full (pages : list image_page) (_ : unit) (number : Z) : res unit :=
  d ← page_at pages number;
  if (d_state d =? NVS_PAGE_FULL) && (d_written d =? NVS_PAGE_ENTRIES) then Ok tt
  else fail ("page " +:+ py_str number +:+ " holds provisioning rows but is not FULL with 126 entries").

Definition min_list (x : Z) (l : list Z) : Z := foldr Z.min x l.
Definition max_list (x : Z) (l : list Z) : Z := foldr Z.max x l.

Definition check_nvs_layout (image xts_key : bytes) (layout : list row) : res unit :=
  if negb (zlen image =? NVS_PARTITION_SIZE) || negb (zlen xts_key =? NVS_XTS_KEY_SIZE) then
    fail "wrong image or key size"
  else
    let pages := nvs_image_pages image xts_key in
    let dps := data_pages pages in
    if negb (bool_decide (map fst dps = map Z.of_nat (seq 0 (length dps)))) then
      fail "data pages are not the first pages"
    else
    found ← foldR add_page dps [];
    expected ← foldR add_expected layout [];
    let missing := List.filter (λ k, negb (bool_decide (k ∈ expected.*1))) found.*1
                   ++ List.filter (λ k, negb (bool_decide (k ∈ found.*1))) expected.*1 in
    if negb (bool_decide (missing = [])) then
      fail ("the stored keys differ from the planned rows: " +:+ join_str ", " (sorted_strs (map snd missing)))
    else
    _ ← foldR (check_stored found) expected tt;
    match layout with
    | [] => Raise IndexError "list index out of range"
    | first :: others =>
        match kfind (0, key first) found with
        | None => Raise KeyError (key first)
        | Some s0 =>
            if negb (bool_decide ((s_page s0, s_index s0) = (0, 0))) then fail "the namespace entry is not the first entry"
            else
            full ← mapR (found_row found) (List.filter (λ r, negb (has_key NVS_ACTIVE_KEYS r)) others);
            active ← mapR (found_row found) (List.filter (has_key NVS_ACTIVE_KEYS) others);
            let full_pages := 0 :: map s_page full in
            let active_pages := map s_page active in
            _ ← foldR (check_full pages) (sort_by id (remove_dups full_pages)) tt;
            apart ← match active_pages with
                    | [] => Ok false
                    | a :: rest =>
                        if negb (forallb (Z.eqb a) rest) || (a <=? max_list 0 full_pages) then Ok false
                        else d ← page_at pages a; Ok (d_state d =? NVS_PAGE_ACTIVE)
                    end;
            if negb apart then fail "the rows written on the first online run are not on one later ACTIVE page"
            else
            tail ← mapR (found_row found) (List.filter (has_key NVS_TAIL_KEYS) others);
            _ ← match tail with
                | [] => Ok tt
                | t0 :: rest =>
                    let number := s_page t0 in
                    let boundary := min_list (s_index t0) (map s_index rest) / NVS_STATE_WORD_ENTRIES * NVS_STATE_WORD_ENTRIES in
                    d ← page_at pages number;
                    let sharing := sorted_strs (map i_key (List.filter (λ it,
                      (boundary <? i_index it + i_span it) && negb (bool_decide (i_key it ∈ NVS_TAIL_KEYS))
                      && negb (bool_decide (take 4 (chars (i_key it)) = chars NVS_PADDING_PREFIX) && (i_span it =? 1))) (d_items d))) in
                    if existsb (λ s, negb (s_page s =? number)) tail || negb (bool_decide (sharing = [])) then
                      fail ("the Wi-Fi, COMM key and host rows do not have their state words to themselves"
                            +:+ (if bool_decide (sharing = []) then "" else " (also there: " +:+ join_str ", " sharing +:+ ")"))
                    else Ok tt
                end;
            if zlen (List.filter (λ p, match p with BlankPage => true | DataPage _ => false end) pages) <? NVS_MIN_BLANK_PAGES
            then fail ("fewer than " +:+ py_str NVS_MIN_BLANK_PAGES +:+ " pages are left erased")
            else Ok tt
        end
    end.
End image.

(** ** The derivation roots *)
Definition is_hex_digit (b : byte) : bool := is_digit b || in_range 97 102 b.

Definition normalize_mac (v : string) : res string :=
  let compact := List.filter is_hex_digit (map lower_byte (chars v)) in
  if negb (zlen compact =? 12) then Raise ValueError "Could not normalize the ESP Wi-Fi MAC address"
  else Ok (join_str ":" (map (λ i, of_chars (slice (Z.to_nat i) (Z.to_nat (i + 2)) compact)) (py_range 0 12 2))).

Definition validate_root_selection (mac fleet_root nvs_hmac_root : string) (recovery_confirmation : option string)
    (trust_existing : bool) : res bool :=
  if bool_decide (sha256 (chars fleet_root) = sha256 (chars nvs_hmac_root)) then
    if negb (bool_decide (default "" recovery_confirmation = "")) then
      Raise RuntimeError "--confirm-split-root-recovery-for was supplied but the roots match"
    else Ok false
  else if negb trust_existing then
    Raise RuntimeError "Split-root recovery is allowed only with --trust-existing-derived-hmac"
  else
    let confirmed_mac := match normalize_mac (default "" recovery_confirmation) with Ok m => m | Raise _ _ => "" end in
    if negb (bool_decide (confirmed_mac = mac)) then
      Raise RuntimeError ("Split-root recovery requires explicit approval for this exact ESP. Re-run with --confirm-split-root-recovery-for "
                          +:+ mac +:+ ".")
    else Ok true.

(** ** Association lists *)
Lemma kfind_None {A} k (d : list (item_key * A)) : kfind k d = None ↔ k ∉ d.*1.
Proof.
  induction d as [|[k' v] d IH]; cbn [kfind fmap list_fmap fst]; [set_solver|].
  case_bool_decide; [subst; set_solver|]. rewrite IH. set_solver.
Qed.

Lemma kfind_elem {A} k v (d : list (item_key * A)) : kfind k d = Some v → (k, v) ∈ d.
Proof.
  induction d as [|[k' v'] d IH]; cbn [kfind]; [done|]. case_bool_decide; [intros [= ->]; subst; set_solver|].
  intros ?%IH. set_solver.
Qed.

Lemma kset_fresh {A} k (v : A) d : k ∉ d.*1 → kset k v d = d ++ [(k, v)].
Proof.
  induction d as [|[k' v'] d IH]; cbn [kset fmap list_fmap fst app]; [done|]. intros Hn.
  rewrite bool_decide_eq_false_2 by set_solver. rewrite IH by set_solver. done.
Qed.

Lemma elem_kfind {A} k v (d : list (item_key * A)) : NoDup d.*1 → (k, v) ∈ d → kfind k d = Some v.
Proof.
  induction d as [|[k' v'] d IH]; cbn [kfind fmap list_fmap fst]; [set_solver|]. intros [Hn Hd]%NoDup_cons Hin.
  apply elem_of_cons in Hin as [[= -> ->]|Hin]; [by rewrite bool_decide_eq_true_2|].
  rewrite bool_decide_eq_false_2; [by apply IH|]. intros ->. apply Hn. apply list_elem_of_fmap. by exists (k', v).
Qed.

(** ** What the loops of the check collect *)
Definition ikey (it : item) : item_key := (i_ns it, i_key it).
Definition istored (number : Z) (it : item) : stored := mkStored number (i_index it) (i_span it) (i_type it) (i_value it).
Definition page_items (np : Z * data_page) : list (item_key * stored) :=
  map (λ it, (ikey it, istored np.1 it)) (d_items np.2).

Lemma add_items_found number its found found' :
  foldR (add_item number) its found = Ok found' → NoDup found.*1 →
  found' = found ++ map (λ it, (ikey it, istored number it)) its ∧ NoDup found'.*1.
Proof.
  intros H Hn. apply (foldR_inv _ (λ l f, f = found ++ map (λ it, (ikey it, istored number it)) l ∧ NoDup f.*1)) in H;
    [done|by rewrite app_nil_r|].
  intros l it s s' [Hs Hnd] Hstep. unfold add_item in Hstep. destruct (kfind _ s) eqn:E; [done|].
  injection Hstep as <-. apply kfind_None in E. rewrite kset_fresh by done. split.
  - rewrite Hs, map_app, app_assoc. done.
  - rewrite fmap_app. apply NoDup_app. split_and!; [done| |apply NoDup_singleton].
    intros k Hk Hk'. apply list_elem_of_singleton in Hk' as ->. done.
Qed.

Lemma add_pages_found dps found :
  foldR add_page dps [] = Ok found →
  found = concat (map page_items dps) ∧ NoDup found.*1 ∧ Forall (λ np, page_clean np.1 np.2 = true) dps.
Proof.
  intros H. apply (foldR_inv _ (λ l f, f = concat (map page_items l) ∧ NoDup f.*1 ∧ Forall (λ np, page_clean np.1 np.2 = true) l)) in H;
    [done|split_and!; [done|constructor|constructor]|].
  intros l [n p] s s' (Hs & Hnd & Hc) Hstep. unfold add_page in Hstep. destruct (page_clean n p) eqn:E; [|done].
  cbn [negb] in Hstep. apply add_items_found in Hstep as [-> Hnd']; [|done]. split_and!; [|done|].
  - rewrite Hs, map_app, concat_app. cbn [map concat]. by rewrite app_nil_r.
  - apply Forall_app. split; [done|]. by apply Forall_singleton.
Qed.

Definition ns_of (r : row) : Z := if bool_decide (kind r = "namespace") then 0 else 1.

Lemma expected_ns r ns code v : _nvs_expected r = Ok (ns, code, v) → ns = ns_of r.
Proof.
  unfold _nvs_expected, ns_of. case_bool_decide; [congruence|]. case_bool_decide; [congruence|].
  destruct (assoc _ _) as [[[c w] sg]|]; [|done]. intros (z & _ & (p & _ & [= <- _ _])%bind_ok)%bind_ok. done.
Qed.

Lemma add_expected_rows layout expected :
  foldR add_expected layout [] = Ok expected → NoDup (map key layout) →
  (∀ k, k ∈ expected.*1 ↔ ∃ r, r ∈ layout ∧ k = (ns_of r, key r)) ∧
  ∀ r, r ∈ layout → ∃ code v, _nvs_expected r = Ok (ns_of r, code, v) ∧ ((ns_of r, key r), (code, v)) ∈ expected.
Proof.
  intros H. apply (foldR_inv add_expected (λ l e, NoDup (map key l) →
    (∀ k, k ∈ e.*1 ↔ ∃ r, r ∈ l ∧ k = (ns_of r, key r)) ∧
    ∀ r, r ∈ l → ∃ code v, _nvs_expected r = Ok (ns_of r, code, v) ∧ ((ns_of r, key r), (code, v)) ∈ e)) with [];
    [set_solver| |exact H].
  clear H. intros l r s s' IH Hstep Hnd. rewrite map_app in Hnd. apply NoDup_app in Hnd as (Hnd & Hnew & _).
  destruct (IH Hnd) as [IH1 IH2]. unfold add_expected in Hstep. apply bind_ok in Hstep as ([[ns code] v] & He & [= <-]).
  pose proof (expected_ns _ _ _ _ He) as ->. rewrite kset_fresh.
  2:{ intros (r' & Hr' & Heq)%IH1. injection Heq as _ Hk. apply (Hnew (key r')); [by apply list_elem_of_fmap_2|]. rewrite <- Hk. set_solver. }
  split.
  - intros k. rewrite fmap_app, elem_of_app, IH1. cbn. set_solver.
  - intros r' [Hr'|Hr']%elem_of_app.
    + destruct (IH2 r' Hr') as (c' & v' & ? & ?). exists c', v'. set_solver.
    + apply list_elem_of_singleton in Hr' as ->. exists code, v. set_solver.
Qed.

Lemma data_pages_elem pages n d : (Z.of_nat n, d) ∈ data_pages pages ↔ pages !! n = Some (DataPage d).
Proof.
  unfold data_pages. rewrite list_elem_of_omap. split.
  - intros ([i p] & Hip%zip_seq_elem & Hs). destruct p as [|d']; [done|]. injection Hs as Hi ->. apply Nat2Z.inj in Hi as ->. done.
  - intros H. exists (n, DataPage d). split; [by apply zip_seq_elem|done].
Qed.

Lemma data_pages_nat pages i d : (i, d) ∈ data_pages pages → ∃ n, i = Z.of_nat n ∧ pages !! n = Some (DataPage d).
Proof.
  intros H. assert (∃ n, i = Z.of_nat n) as (n & ->).
  { unfold data_pages in H. apply list_elem_of_omap in H as ([j p] & _ & Hs). destruct p; [done|]. injection Hs as <- _. eauto. }
  exists n. split; [done|]. by apply data_pages_elem.
Qed.

(** Where a planned row was found, with the value it should have. *)
Definition stored_at (pages : list image_page) (r : row) (n : nat) (d : data_page) (it : item) : Prop :=
  pages !! n = Some (DataPage d) ∧ it ∈ d_items d ∧
  _nvs_expected r = Ok (i_ns it, i_type it, i_value it) ∧ i_key it = key r.

Lemma found_item pages found k s :
  found = concat (map page_items (data_pages pages)) → kfind k found = Some s →
  ∃ n d it, pages !! n = Some (DataPage d) ∧ it ∈ d_items d ∧ ikey it = k ∧ s = istored (Z.of_nat n) it.
Proof.
  intros -> H%kfind_elem. apply list_elem_of_In, in_concat in H as (l & (np & <- & Hnp)%in_map_iff & Hin).
  destruct np as [i d]. apply list_elem_of_In, data_pages_nat in Hnp as (n & -> & Hp).
  apply in_map_iff in Hin as (it & [= Hk Hs] & Hit). exists n, d, it. split_and!; [done|by apply list_elem_of_In|done|done].
Qed.

(** The checks on the pages of the rows, once every row is found. *)
Lemma check_full_all pages l n :
  foldR (check_full pages) (sort_by id (remove_dups l)) tt = Ok tt → n ∈ l →
  ∃ d, page_at pages n = Ok d ∧ d_state d = NVS_PAGE_FULL ∧ d_written d = NVS_PAGE_ENTRIES.
Proof.
  intros H Hn. assert (n ∈ sort_by id (remove_dups l)) as Hin by (rewrite sort_by_perm; by apply elem_of_remove_dups).
  assert (∀ k u, foldR (check_full pages) k u = Ok tt → n ∈ k → ∃ u, check_full pages u n = Ok tt) as Hgo.
  { clear. intros k. induction k as [|x k IH]; intros u H Hn; [by apply not_elem_of_nil in Hn|].
    cbn [foldR] in H. apply bind_ok in H as ([] & Hx & H). apply elem_of_cons in Hn as [->|Hn]; eauto. }
  destruct (Hgo _ _ H Hin) as (u & Hc). unfold check_full in Hc. apply bind_ok in Hc as (d & Hd & Hc).
  destruct (_ && _) eqn:E; [|done]. bool_prop. eauto.
Qed.

Lemma check_stored_all found expected k code v :
  foldR (check_stored found) expected tt = Ok tt → (k, (code, v)) ∈ expected →
  ∃ s, kfind k found = Some s ∧ s_type s = code ∧ s_value s = v.
Proof.
  generalize tt at 1. induction expected as [|kv expected IH]; intros u H Hin; [by apply not_elem_of_nil in Hin|].
  cbn [foldR] in H. apply bind_ok in H as ([] & Hkv & H). apply elem_of_cons in Hin as [<-|Hin]; [|by eapply IH].
  unfold check_stored in Hkv. cbn [fst snd] in Hkv. destruct (kfind k found) as [s|]; [|done].
  case_bool_decide as E; [|done]. injection E as <- <-. eauto.
Qed.

Lemma stored_kfind pages found r n d it :
  found = concat (map page_items (data_pages pages)) → NoDup found.*1 → stored_at pages r n d it →
  kfind (ns_of r, key r) found = Some (istored (Z.of_nat n) it).
Proof.
  intros Hf Hnd (Hp & Hit & He & Hkey). apply expected_ns in He.
  apply elem_kfind; [done|]. rewrite Hf. apply list_elem_of_In, in_concat. exists (page_items (Z.of_nat n, d)). split.
  - apply in_map, list_elem_of_In. by apply data_pages_elem.
  - apply in_map_iff. exists it. split; [|by apply list_elem_of_In]. unfold ikey. cbn [fst]. by rewrite He, Hkey.
Qed.

(** The pages the check gathers for the rows of a class. *)
Lemma found_rows_page pages found l ss r n d it :
  found = concat (map page_items (data_pages pages)) → NoDup found.*1 → mapR (found_row found) l = Ok ss →
  r ∈ l → kind r ≠ "namespace" → stored_at pages r n d it → Z.of_nat n ∈ map s_page ss.
Proof.
  intros Hf Hnd Hm%mapR_Forall2 Hr Hk Hs. pose proof (stored_kfind _ _ _ _ _ _ Hf Hnd Hs) as Hkf.
  apply list_elem_of_lookup_1 in Hr as [i Hi]. destruct (Forall2_lookup_l _ _ _ _ _ Hm Hi) as (s & Hsi & Hrow).
  unfold found_row in Hrow. unfold ns_of in Hkf. rewrite bool_decide_eq_false_2 in Hkf by done. rewrite Hkf in Hrow.
  injection Hrow as <-. apply list_elem_of_fmap. eexists. split; [|by eapply list_elem_of_lookup_2]. done.
Qed.

Lemma max_list_ge x l n : n ∈ l → n <= max_list x l.
Proof.
  unfold max_list. induction l as [|y l IH]; intros H; [by apply not_elem_of_nil in H|].
  cbn [foldr]. apply elem_of_cons in H as [->|H]; [lia|]. specialize (IH H). lia.
Qed.

Lemma page_at_nat pages n d : pages !! n = Some (DataPage d) → page_at pages (Z.of_nat n) = Ok d.
Proof. intros H. unfold page_at. by rewrite Nat2Z.id, H. Qed.

(** *** What a passed check established *)
Abbreviation blank_page := (λ p, match p with BlankPage => true | DataPage _ => false end).
Record passed (pages : list image_page) (first : row) (others : list row) (found : list (item_key * stored))
    (expected : list (item_key * (Z * bytes))) (full active : list stored) : Prop := {
  pa_found : found = concat (map page_items (data_pages pages));
  pa_unique : NoDup found.*1;
  pa_expected : foldR add_expected (first :: others) [] = Ok expected;
  pa_only : List.filter (λ k, negb (bool_decide (k ∈ expected.*1))) found.*1 = [];
  pa_stored : foldR (check_stored found) expected tt = Ok tt;
  pa_first : ∃ s0, kfind (0, key first) found = Some s0 ∧ s_page s0 = 0;
  pa_full : mapR (found_row found) (List.filter (λ r, negb (has_key NVS_ACTIVE_KEYS r)) others) = Ok full;
  pa_active : mapR (found_row found) (List.filter (has_key NVS_ACTIVE_KEYS) others) = Ok active;
  pa_pages : foldR (check_full pages) (sort_by id (remove_dups (0 :: map s_page full))) tt = Ok tt;
  pa_apart : ∃ a d, map s_page active = a :: tail (map s_page active) ∧ forallb (Z.eqb a) (tail (map s_page active)) = true ∧
    max_list 0 (0 :: map s_page full) < a ∧ page_at pages a = Ok d ∧ d_state d = NVS_PAGE_ACTIVE;
  pa_blank : NVS_MIN_BLANK_PAGES <= zlen (List.filter blank_page pages) }.

Lemma check_passed xts_decrypt image xts_key layout :
  check_nvs_layout xts_decrypt image xts_key layout = Ok tt →
  ∃ first others found expected full active, layout = first :: others ∧ passed (nvs_image_pages xts_decrypt image xts_key) first others found expected full active.
Proof.
  intros H. unfold check_nvs_layout in H. set (pages := nvs_image_pages _ _ _) in *.
  destruct (_ || _) in H; [done|]. destruct (negb _) in H; [done|].
  apply bind_ok in H as (found & Hfound & H). apply bind_ok in H as (expected & Hexp & H).
  destruct (negb (bool_decide (_ ++ _ = []))) eqn:Emiss in H; [done|]. apply negb_false_iff, bool_decide_eq_true, app_nil in Emiss as [Hm _].
  apply bind_ok in H as ([] & Hst & H). destruct layout as [|first others]; [done|]. destruct (kfind (0, key first) found) as [s0|] eqn:Es0; [|done].
  destruct (negb _) eqn:E0 in H; [done|]. apply negb_false_iff, bool_decide_eq_true in E0. injection E0 as E0 _.
  apply bind_ok in H as (full & Hfull & H). apply bind_ok in H as (active & Hactive & H).
  apply bind_ok in H as ([] & Hcf & H). apply bind_ok in H as (apart & Hapart & H). destruct apart; [|done].
  apply bind_ok in H as (tl & _ & H). apply bind_ok in H as (u & _ & H). cbn [negb] in H.
  destruct (Z.ltb_spec (zlen (List.filter blank_page pages)) NVS_MIN_BLANK_PAGES) as [|Hblank]; [done|].
  apply add_pages_found in Hfound as (Hfeq & Hfnd & _). exists first, others, found, expected, full, active. split; [done|].
  constructor; try done; [by exists s0|]. destruct (map s_page active) as [|a rest]; [done|]. destruct (_ || _) eqn:Er in Hapart; [done|]. bool_prop.
  apply bind_ok in Hapart as (d & Hd & [= Hds]). apply Z.eqb_eq in Hds. by exists a, d.
Qed.

Section passed.
Context {pages first others found expected full active} (Hpass : passed pages first others found expected full active)
  (Hnd : NoDup (map key (first :: others))) (Hkinds : Forall (λ r, kind r ≠ "namespace") others) (Hns : kind first = "namespace").

Lemma passed_stored r : r ∈ first :: others → ∃ n d it, stored_at pages r n d it.
Proof using Hpass Hnd.
  intros Hr. destruct (add_expected_rows _ _ (pa_expected _ _ _ _ _ _ _ Hpass) Hnd) as [_ Hx2]. destruct (Hx2 r Hr) as (code & v & He & Hin).
  destruct (check_stored_all _ _ _ _ _ (pa_stored _ _ _ _ _ _ _ Hpass) Hin) as (s & Hs & <- & <-).
  destruct (found_item pages _ _ _ (pa_found _ _ _ _ _ _ _ Hpass) Hs) as (n & d & it & Hp & Hit & [= Hk1 Hk2] & ->). exists n, d, it.
  split_and!; [done..| |done]. by rewrite Hk1.
Qed.

Lemma passed_first n d it : stored_at pages first n d it → n = 0%nat.
Proof using Hpass Hns.
  destruct Hpass as [Hfeq Hfnd _ _ _ (s0 & Es0 & E0) _ _ _ _ _]. intros Hs. apply (stored_kfind _ _ _ _ _ _ Hfeq Hfnd) in Hs. unfold ns_of in Hs.
  rewrite bool_decide_eq_true_2 in Hs by done. rewrite Es0 in Hs. injection Hs as ->. cbn in E0. lia.
Qed.

(** The rows a board does not write itself are on the full pages. *)
Lemma passed_full r n d it :
  r ∈ first :: others → stored_at pages r n d it → key r ∉ NVS_ACTIVE_KEYS ∨ kind r = "namespace" → Z.of_nat n ∈ 0 :: map s_page full.
Proof using Hpass Hkinds Hns.
  intros Hr Hs Hc. apply elem_of_cons in Hr as [->|Hr]; [rewrite (passed_first n d it Hs); by left|].
  rewrite Forall_forall in Hkinds. specialize (Hkinds r Hr). destruct Hc as [Hc|]; [|done]. right. destruct Hpass as [Hfeq Hfnd _ _ _ _ Hfull _ _ _ _].
  eapply found_rows_page; try done. apply list_elem_of_In, List.filter_In. split; [by apply list_elem_of_In|].
  unfold has_key. by rewrite bool_decide_eq_false_2.
Qed.

(** The rows a board writes itself are on one later page, which is ACTIVE. *)
Lemma passed_active : ∃ a da, max_list 0 (0 :: map s_page full) < a ∧ page_at pages a = Ok da ∧ d_state da = NVS_PAGE_ACTIVE ∧
  ∀ r n d it, r ∈ first :: others → stored_at pages r n d it → key r ∈ NVS_ACTIVE_KEYS → kind r ≠ "namespace" → Z.of_nat n = a.
Proof using Hpass Hkinds Hns.
  destruct Hpass as [Hfeq Hfnd _ _ _ _ _ Hactive _ (a & d & Ea & Hrest & Hmax & Hd & Hst) _]. exists a, d. split_and!; [done..|].
  intros r n d' it Hr Hs Hk Hkn. assert (r ∈ others) as Hr' by (apply elem_of_cons in Hr as [->|]; done).
  assert (Z.of_nat n ∈ a :: tail (map s_page active)) as Hin.
  { rewrite <- Ea. eapply found_rows_page; try done. apply list_elem_of_In, List.filter_In.
    split; [by apply list_elem_of_In|]. unfold has_key. by rewrite bool_decide_eq_true_2. }
  apply elem_of_cons in Hin as [|Hin]; [done|]. rewrite forallb_forall in Hrest. apply list_elem_of_In, Hrest in Hin. lia.
Qed.

Lemma passed_nothing_else n d it : pages !! n = Some (DataPage d) → it ∈ d_items d → ∃ r, r ∈ first :: others ∧ ikey it = (ns_of r, key r).
Proof using Hpass Hnd.
  intros Hp Hit. destruct (add_expected_rows _ _ (pa_expected _ _ _ _ _ _ _ Hpass) Hnd) as [Hx1 _]. destruct Hpass as [Hfeq _ _ Hm _ _ _ _ _ _ _].
  apply Hx1. destruct (decide (ikey it ∈ expected.*1)) as [|Hno]; [done|]. exfalso.
  assert (ikey it ∈ List.filter (λ k, negb (bool_decide (k ∈ expected.*1))) found.*1) as Hin; [|rewrite Hm in Hin; by apply not_elem_of_nil in Hin].
  apply list_elem_of_In, List.filter_In. split; [|by rewrite bool_decide_eq_false_2].
  apply list_elem_of_In, list_elem_of_fmap. exists (ikey it, istored (Z.of_nat n) it). split; [done|].
  rewrite Hfeq. apply list_elem_of_In, in_concat. exists (page_items (Z.of_nat n, d)). split.
  - apply in_map, list_elem_of_In. by apply data_pages_elem.
  - apply in_map_iff. exists it. split; [done|by apply list_elem_of_In].
Qed.
End passed.


(** ** A concrete image, with a cipher that leaves the entries as they are *)
Definition plain_cipher (_ _ entry : bytes) : bytes := entry.

(** One entry: namespace, type, span, chunk, CRC, key, eight data bytes. *)
Definition sample_entry (ns ty span : Z) (k : string) (data : bytes) : bytes :=
  let head := [bz ns; bz ty; bz span; xff] in
  let rest := (chars k ++ replicate (16 - length (chars k)) x00) ++ data in
  head ++ le_bytes 4 (crc32 (head ++ rest) 0xFFFFFFFF) ++ rest.
Definition sample_string (span : Z) (k s : string) : bytes :=
  let v := chars s ++ [x00] in
  sample_entry 1 NVS_STRING span k (le_bytes 2 (zlen v) ++ [xff; xff] ++ le_bytes 4 (crc32 v 0xFFFFFFFF))
  ++ v ++ replicate (Z.to_nat (32 * (span - 1)) - length v) xff.

Definition page_of (state number written : Z) (body : bytes) : bytes :=
  let mid := le_bytes 4 number ++ [xfe] ++ replicate 19 xff in
  let bitmap := replicate (Z.to_nat (written / 4)) xaa
    ++ (if written mod 4 =? 0 then [] else [bz (if written mod 4 =? 2 then 0xFA else if written mod 4 =? 1 then 0xFE else 0xEA)]) in
  let bitmap := bitmap ++ replicate (32 - length bitmap) xff in
  le_bytes 4 state ++ mid ++ le_bytes 4 (crc32 mid 0xFFFFFFFF) ++ bitmap ++ body ++ replicate (4032 - length body) xff.

Definition image_layout : list row :=
  [mkRow "zone_cfg" "namespace" "" (PStr ""); str_row "zone_name" "North"; str_row "conn_id" ""].
Definition sample_image : bytes :=
  page_of NVS_PAGE_FULL 0 126 (sample_entry 0 1 1 "zone_cfg" ([x01] ++ replicate 7 xff) ++ sample_string 125 "zone_name" "North")
  ++ page_of NVS_PAGE_ACTIVE 1 2 (sample_string 2 "conn_id" "")
  ++ replicate (4 * 4096) xff.


Lemma root_selection_sample :
  validate_root_selection "aa:bb:cc:dd:ee:01" "root" "other" (Some "AA-BB-CC-DD-EE-01") true = Ok true.
Proof. vm_compute. reflexivity. Qed.
