(* ===== verification/QueueEvidence.v ===== *)
(** * Custody of unresolved firmware queue records

    queue_evidence.py: the request checks, what ADD remembers of a refused copy,
    when a record ADD holds accounts for one, the lookup of such a record, and the
    preservation of accepted records. The QueueEvidence table is a list of rows
    with the unique key (connector, queue, generation, record); the encryption of
    the stored bytes and the random receipt id are parameters. *)
From S2P Require Import Prelude PyText Hashes PyJson.
Open Scope string_scope.
Open Scope list_scope.
Open Scope Z_scope.

(** ** base64 *)
Definition b64_alphabet : bytes := chars "ABCDEFGHIJKLMNOPQRSTUVWXYZabcdefghijklmnopqrstuvwxyz0123456789+/".

Fixpoint index_byte (b : byte) (l : bytes) : option nat :=
  match l with [] => None | c :: l' => if bool_decide (b = c) then Some O else S <$> index_byte b l' end.
Definition b64_value (b : byte) : option Z := Z.of_nat <$> index_byte b b64_alphabet.
Definition b64_char (z : Z) : byte := List.nth (Z.to_nat z) b64_alphabet x00.
Definition EQUALS : byte := x3d.

(** [base64.b64decode(s, validate=True)]: whole quads of the alphabet, padding only
    in the last one; anything else is a ValueError. *)
Fixpoint b64decode (l : bytes) : option bytes :=
  match l with
  | [] => Some []
  | a :: b :: c :: d :: l' =>
      va ← b64_value a; vb ← b64_value b;
      if bool_decide (l' = []) && bool_decide (d = EQUALS) then
        if bool_decide (c = EQUALS) then Some [bz (va * 4 + vb / 16)]
        else vc ← b64_value c; Some [bz (va * 4 + vb / 16); bz (vb mod 16 * 16 + vc / 4)]
      else
        vc ← b64_value c; vd ← b64_value d; rest ← b64decode l';
        Some (bz (va * 4 + vb / 16) :: bz (vb mod 16 * 16 + vc / 4) :: bz (vc mod 4 * 64 + vd) :: rest)
  | _ => None
  end.

Fixpoint b64encode (raw : bytes) : bytes :=
  match raw with
  | [] => []
  | [a] => [b64_char (zb a / 4); b64_char (zb a mod 4 * 16); EQUALS; EQUALS]
  | [a; b] => [b64_char (zb a / 4); b64_char (zb a mod 4 * 16 + zb b / 16); b64_char (zb b mod 16 * 4); EQUALS]
  | a :: b :: c :: raw' =>
      b64_char (zb a / 4) :: b64_char (zb a mod 4 * 16 + zb b / 16) :: b64_char (zb b mod 16 * 4 + zb c / 64)
      :: b64_char (zb c mod 64) :: b64encode raw'
  end.

(** ** Patterns and reasons *)
Definition queue_char (b : byte) : bool := is_lower b || is_digit b || one_of "_" b.
Definition generation_char (b : byte) : bool := is_alnum b || one_of "_-" b.
Definition record_char (b : byte) : bool := is_alnum b || one_of "_:-" b.

(** (field, longest value, character class of the pattern) *)
Definition IDENTITY_FIELDS : list (string * Z * (byte → bool)) :=
  [("queue", 40, queue_char); ("queue_generation", 80, generation_char); ("record_id", 120, record_char)].
Definition DIGEST_PATTERN (s : string) : bool := HEX64 s.
Definition MAX_RAW_B64 : Z := 10924.
Definition MAX_RECORD_BYTES : Z := 8192.
Definition BASE64_INVALID : string := "QUEUE_EVIDENCE_BASE64_INVALID".
Definition LENGTH_INVALID : string := "QUEUE_EVIDENCE_LENGTH_INVALID".
Definition DIGEST_MISMATCH : string := "QUEUE_EVIDENCE_DIGEST_MISMATCH".
Definition IDENTITY_REUSED : string := "QUEUE_EVIDENCE_IDENTITY_REUSED".
Definition CONNECTOR_MISMATCH : string := "QUEUE_EVIDENCE_CONNECTOR_MISMATCH".
Definition OPERATOR_ONLY_REASONS : list string := [IDENTITY_REUSED].

(** ** Requests *)
Record EvidenceProvenance := mkProvenance {
  terminal_serial : option string; source_generation : option Z; source_offset : option Z;
  reason : string; encoding : string }.

Record QueueEvidenceRequest := mkRequest {
  req_connector_id : string; req_queue : string; req_queue_generation : string; req_record_id : string;
  req_payload_digest : string; req_raw_b64 : string; req_provenance : EvidenceProvenance }.

(** verify_bytes: a reason code, or the request with its base64 in canonical form. *)
Definition verify_bytes (r : QueueEvidenceRequest) : string + QueueEvidenceRequest :=
  match b64decode (chars (req_raw_b64 r)) with
  | None => inl BASE64_INVALID
  | Some raw =>
      if negb ((1 <=? zlen raw) && (zlen raw <=? MAX_RECORD_BYTES)) then inl LENGTH_INVALID
      else if negb (bool_decide (sha256_hex raw = req_payload_digest r)) then inl DIGEST_MISMATCH
      else inr (mkRequest (req_connector_id r) (req_queue r) (req_queue_generation r) (req_record_id r)
                  (req_payload_digest r) (of_chars (b64encode raw)) (req_provenance r))
  end.

(** ** What ADD remembers of a refused copy *)
Definition opt_str (o : option string) : pyval := match o with Some s => PStr s | None => PNone end.

(** [value if isinstance(value, str) and 1 <= len(value) <= limit and re.fullmatch(pattern, value)] *)
Definition identity_value (limit : Z) (cls : byte → bool) (v : pyval) : pyval :=
  match v with PStr s => if class_match cls 1 limit s then v else PNone | _ => PNone end.

Definition refused_copy (payload : pyval) : list (string * pyval) :=
  let payload := match payload with PDict d => PDict d | _ => PDict [] end in
  let identity := map (λ '(name, limit, cls), (name, identity_value limit cls (get name payload))) IDENTITY_FIELDS in
  let claimed := match get "payload_digest" payload with
                 | PStr s => if DIGEST_PATTERN s then PStr s else PNone | _ => PNone end in
  let raw := match get "raw_b64" payload with
             | PStr s => if (4 <=? zlen (chars s)) && (zlen (chars s) <=? MAX_RAW_B64) then b64decode (chars s) else None
             | _ => None
             end in
  identity ++ [("claimed_digest", claimed);
    ("received_digest", match raw with Some r => PStr (sha256_hex r) | None => PNone end);
    ("received_bytes", match raw with Some r => PInt (zlen r) | None => PNone end);
    ("received_crc32", match raw with Some r => PInt (crc32 r 0) | None => PNone end)].

(** [isinstance(part, str) and part] *)
Definition known (v : pyval) : option string :=
  match v with PStr s => if bool_decide (s = "") then None else Some s | _ => None end.

Definition evidence_identity (facts : pyval) : option (string * string * string) :=
  if is_dict facts then
    q ← known (get "queue" facts); g ← known (get "queue_generation" facts); r ← known (get "record_id" facts);
    Some (q, g, r)
  else None.

Definition _digest (v : pyval) : option string :=
  match v with PStr s => if DIGEST_PATTERN s then Some s else None | _ => None end.

(** [record_id.rsplit(":", 1)[1]] when there is a colon *)
Definition after_last_colon (s : string) : option string :=
  if bool_decide (x3a ∈ chars s) then Some (of_chars (rev (before x3a (rev (chars s))))) else None.

Definition _names_received_bytes (refused : pyval) : bool :=
  match get "received_crc32" refused, get "record_id" refused with
  | PInt crc, PStr rid =>
      bool_decide (after_last_colon rid = Some ((if crc <? 0 then "-" +:+ py_str (- crc) else py_str crc)))
  | _, _ => false
  end.

(** [refused.get("reason") in OPERATOR_ONLY_REASONS] *)
Definition operator_only (refused : pyval) : bool :=
  match get "reason" refused with PStr s => bool_decide (s ∈ OPERATOR_ONLY_REASONS) | _ => false end.

Definition holds_refused_copy (refused held : pyval) : option (string * string) :=
  if negb (is_dict refused) || negb (is_dict held) then None
  else if operator_only refused then None
  else
    let claimed := _digest (get "claimed_digest" refused) in
    let received := _digest (get "received_digest" refused) in
    match evidence_identity refused, evidence_identity held, _digest (get "payload_digest" held) with
    | Some (rq, rg, rr), Some (hq, hg, hr), Some digest =>
        let finding m :=
          Some (m, if bool_decide (Some digest = claimed ∧ claimed = received) then "COPY_INTACT"
                   else if bool_decide (Some digest = claimed) then "SENT_BYTES_CHANGED" else "DIGEST_CHANGED") in
        if bool_decide ((hq, hg, hr) = (rq, rg, rr)) && bool_decide (Some digest ∈ [claimed; received]) then
          finding "SAME_IDENTITY"
        else if bool_decide (hq = rq) && bool_decide (hg ≠ rg)
                && (bool_decide (Some digest = claimed)
                    || (bool_decide (Some digest = received) && bool_decide (hr = rr) && _names_received_bytes refused)) then
          finding "SAME_BYTES"
        else None
    | _, _, _ => None
    end.

(** ** The table *)
Record QueueEvidence := mkRow {
  id : Z; receipt_id : string; connector_id : Z; queue : string; queue_generation : string; record_id : string;
  payload_digest : string; provenance_digest : string; byte_count : Z; protected_evidence : string;
  disposition : string }.

Definition held_record (row : QueueEvidence) : pyval :=
  PDict [("queue", PStr (queue row)); ("queue_generation", PStr (queue_generation row)); ("record_id", PStr (record_id row));
         ("payload_digest", PStr (payload_digest row)); ("receipt_id", PStr (receipt_id row));
         ("byte_count", PInt (byte_count row))].

(** [session.scalar(select(...).where(test))]: a matching row; with
    [order_by(id).limit(1)], the matching row with the least id. *)
Definition scalar (test : QueueEvidence → bool) (table : list QueueEvidence) : option QueueEvidence :=
  head (sort_by id (List.filter test table)).

Definition find_held_copy (table : list QueueEvidence) (connector : Z) (refused : pyval)
    : option (pyval * (string * string)) :=
  match evidence_identity refused with
  | None => None
  | Some (q, g, r) =>
      if operator_only refused then None
      else
        let mine row := bool_decide (connector_id row = connector) && bool_decide (queue row = q) in
        let same := scalar (λ row, mine row && bool_decide (queue_generation row = g) && bool_decide (record_id row = r)) table in
        let claimed := _digest (get "claimed_digest" refused) in
        let by_claimed := match claimed with
          | Some c => [scalar (λ row, mine row && bool_decide (queue_generation row ≠ g) && bool_decide (payload_digest row = c)) table]
          | None => [] end in
        let by_received := match _digest (get "received_digest" refused) with
          | Some c => if negb (bool_decide (Some c = claimed)) && _names_received_bytes refused then
              [scalar (λ row, mine row && bool_decide (queue_generation row ≠ g) && bool_decide (record_id row = r)
                              && bool_decide (payload_digest row = c)) table] else []
          | None => [] end in
        head (omap (λ o, row ← o; m ← holds_refused_copy refused (held_record row); Some (held_record row, m))
                ([same] ++ by_claimed ++ by_received))
  end.

(** ** Rejection entries *)

(** [int(entry.get(...) or 0)] of the integer counters ADD writes there. *)
Definition int_or_0 (v : pyval) : Z := match v with PInt z => z | PBool true => 1 | _ => 0 end.

Definition unheld_evidence (entry : pyval) : Z * Z :=
  if is_dict entry then
    (match get "pending" entry with PList l => zlen (List.filter is_dict l) | _ => 0 end,
     int_or_0 (get "untracked_refusals" entry))
  else (0, 0).

Definition LATER_ACCEPTANCE : string := "later_acceptance_at".

Definition custody_only (entry : pyval) : bool :=
  is_dict entry && match get LATER_ACCEPTANCE entry with PStr _ => true | _ => false end
  && negb (bool_decide (unheld_evidence entry = (0, 0))).

(** ** Preserving a record *)

(** [json.dumps] with its default [ensure_ascii]: a character outside ASCII is
    written as \uXXXX, as a surrogate pair beyond the basic plane. *)
Definition u_escape (cp : Z) : bytes := chars "\u" ++ chars (hex (rev (le_bytes 2 cp))).
Definition escape_point (cp : Z) : bytes :=
  if cp <? 0x10000 then u_escape cp
  else u_escape (0xD800 + (cp - 0x10000) / 0x400) ++ u_escape (0xDC00 + (cp - 0x10000) mod 0x400).
Fixpoint escape_ascii (fuel : nat) (l : bytes) : bytes :=
  match fuel, l with
  | S n, a :: b :: c :: d :: l' =>
      if zb a <? 0x80 then escape_byte a ++ escape_ascii n (b :: c :: d :: l')
      else if zb a <? 0xE0 then escape_point (zb a mod 32 * 64 + zb b mod 64) ++ escape_ascii n (c :: d :: l')
      else if zb a <? 0xF0 then
        escape_point (zb a mod 16 * 4096 + zb b mod 64 * 64 + zb c mod 64) ++ escape_ascii n (d :: l')
      else escape_point (zb a mod 8 * 262144 + zb b mod 64 * 4096 + zb c mod 64 * 64 + zb d mod 64) ++ escape_ascii n l'
  | S n, [a; b; c] =>
      if zb a <? 0x80 then escape_byte a ++ escape_ascii n [b; c]
      else if zb a <? 0xE0 then escape_point (zb a mod 32 * 64 + zb b mod 64) ++ escape_ascii n [c]
      else escape_point (zb a mod 16 * 4096 + zb b mod 64 * 64 + zb c mod 64)
  | S n, [a; b] =>
      if zb a <? 0x80 then escape_byte a ++ escape_ascii n [b] else escape_point (zb a mod 32 * 64 + zb b mod 64)
  | S n, [a] => escape_byte a
  | _, _ => []
  end.
Definition dump_ascii (s : string) : bytes :=
  [quote] ++ escape_ascii (S (length (chars s))) (chars s) ++ [quote].

(** [request.provenance.model_dump()] and its digest, keys in sorted order. *)
Definition provenance_dump (p : EvidenceProvenance) : pyval :=
  PDict [("terminal_serial", opt_str (terminal_serial p));
         ("source_generation", match source_generation p with Some z => PInt z | None => PNone end);
         ("source_offset", match source_offset p with Some z => PInt z | None => PNone end);
         ("reason", PStr (reason p)); ("encoding", PStr (encoding p))].
Definition provenance_json (p : EvidenceProvenance) : bytes :=
  let int o := match o with Some z => dump_int z | None => chars "null" end in
  let field k v := dump_ascii k ++ chars ":" ++ v in
  chars "{" ++ join (chars ",")
    [field "encoding" (dump_ascii (encoding p)); field "reason" (dump_ascii (reason p));
     field "source_generation" (int (source_generation p)); field "source_offset" (int (source_offset p));
     field "terminal_serial" (match terminal_serial p with Some s => dump_ascii s | None => chars "null" end)] ++ chars "}".
Definition provenance_sha (p : EvidenceProvenance) : string := sha256_hex (provenance_json p).

Definition same_record (connector : Z) (r : QueueEvidenceRequest) (row : QueueEvidence) : bool :=
  bool_decide (connector_id row = connector) && bool_decide (queue row = req_queue r)
  && bool_decide (queue_generation row = req_queue_generation r) && bool_decide (record_id row = req_record_id r).

Section preserve.
Context (encrypt_json : pyval → string).

Definition new_row (row_id : Z) (receipt : string) (connector : Z) (r : QueueEvidenceRequest) : QueueEvidence :=
  mkRow row_id receipt connector (req_queue r) (req_queue_generation r) (req_record_id r) (req_payload_digest r)
    (provenance_sha (req_provenance r))
    (match b64decode (chars (req_raw_b64 r)) with Some raw => zlen raw | None => 0 end)
    (encrypt_json (PDict [("raw_b64", PStr (req_raw_b64 r)); ("provenance", provenance_dump (req_provenance r))]))
    "PRESERVED_UNRESOLVED".

(** [table] is what the first SELECT sees and [race] what other transactions
    commit before the flush; [row_id] and [receipt] are the values the database
    and uuid4 would give a new row. Returns the table after the call and the row. *)
Definition preserve_queue_evidence (table race : list QueueEvidence) (connector : Z) (connector_name : string)
    (row_id : Z) (receipt : string) (r : QueueEvidenceRequest) : res (list QueueEvidence * QueueEvidence) :=
  if negb (bool_decide (req_connector_id r = connector_name)) then Raise EvidenceRejected CONNECTOR_MISMATCH
  else
    let check existing :=
      if negb (bool_decide (payload_digest existing = req_payload_digest r))
         || negb (bool_decide (provenance_digest existing = provenance_sha (req_provenance r)))
      then Raise EvidenceRejected IDENTITY_REUSED
      else Ok (table ++ race, existing) in
    match scalar (same_record connector r) table with
    | Some existing => check existing
    | None =>
        match scalar (same_record connector r) (table ++ race) with
        | Some existing => check existing
        | None => let row := new_row row_id receipt connector r in Ok (table ++ race ++ [row], row)
        end
    end.
End preserve.

Definition evidence_ack (row : QueueEvidence) (connector_name message_id : string) : pyval :=
  PDict [("type", PStr "queue_evidence_ack"); ("schema_version", PInt 1); ("message_id", PStr message_id);
         ("connector_id", PStr connector_name); ("queue", PStr (queue row));
         ("queue_generation", PStr (queue_generation row)); ("record_id", PStr (record_id row));
         ("payload_digest", PStr (payload_digest row)); ("receipt_id", PStr (receipt_id row));
         ("disposition", PStr (disposition row))].

(** ** Lookups in the table *)
Definition row_key (row : QueueEvidence) : Z * string * string * string :=
  (connector_id row, queue row, queue_generation row, record_id row).

Lemma scalar_some test table row : scalar test table = Some row → row ∈ table ∧ test row = true.
Proof.
  unfold scalar. intros H%head_Some_elem_of. rewrite sort_by_perm in H.
  apply list_elem_of_In, List.filter_In in H as [? ?]. split; [by apply list_elem_of_In|done].
Qed.

Lemma scalar_none test table : scalar test table = None ↔ ∀ row, row ∈ table → test row = false.
Proof.
  unfold scalar. split.
  - intros H row Hr. apply not_true_iff_false. intros Ht.
    assert (row ∈ sort_by id (List.filter test table)) as Hin.
    { rewrite sort_by_perm. apply list_elem_of_In, List.filter_In. split; [by apply list_elem_of_In|done]. }
    destruct (sort_by _ _); [by apply not_elem_of_nil in Hin|done].
  - intros H. destruct (sort_by _ _) as [|row l] eqn:E; [done|]. exfalso.
    assert (row ∈ sort_by id (List.filter test table)) as Hin by (rewrite E; by left).
    rewrite sort_by_perm in Hin. apply list_elem_of_In, List.filter_In in Hin as [Hin Ht].
    rewrite H in Ht; [done|by apply list_elem_of_In].
Qed.

Lemma scalar_exists test table row :
  row ∈ table → test row = true → ∃ row', scalar test table = Some row'.
Proof.
  intros Hr Ht. destruct (scalar test table) eqn:E; [eauto|]. rewrite (proj1 (scalar_none _ _) E row Hr) in Ht. done.
Qed.

Lemma same_record_key c r row : same_record c r row = true ↔
  row_key row = (c, req_queue r, req_queue_generation r, req_record_id r).
Proof.
  unfold same_record, row_key. rewrite !andb_true_iff, !bool_decide_eq_true.
  split; [by intros [[[-> ->] ->] ->]|by intros [= -> -> -> ->]].
Qed.

Lemma scalar_key c r table row :
  NoDup (map row_key table) → row ∈ table → same_record c r row = true → scalar (same_record c r) table = Some row.
Proof.
  intros Hn Hr Ht. destruct (scalar_exists _ _ _ Hr Ht) as (row' & Hs). rewrite Hs. f_equal.
  apply scalar_some in Hs as [Hr' Ht']. apply (NoDup_map_inj row_key table Hn); [done..|].
  apply same_record_key in Ht, Ht'. congruence.
Qed.


(** ** Which held record accounts for a refused copy *)
Definition row_named (row : QueueEvidence) : Prop := queue row ≠ "" ∧ queue_generation row ≠ "" ∧ record_id row ≠ "".

Lemma held_identity row : row_named row →
  evidence_identity (held_record row) = Some (queue row, queue_generation row, record_id row).
Proof.
  intros (Hq & Hg & Hr). unfold evidence_identity.
  change (get "queue" (held_record row)) with (PStr (queue row)).
  change (get "queue_generation" (held_record row)) with (PStr (queue_generation row)).
  change (get "record_id" (held_record row)) with (PStr (record_id row)).
  cbn [is_dict held_record known]. rewrite (bool_decide_eq_false_2 (queue row = "")), (bool_decide_eq_false_2 (queue_generation row = "")),
    (bool_decide_eq_false_2 (record_id row = "")) by done. done.
Qed.

Lemma identity_is_dict v i : evidence_identity v = Some i → is_dict v = true.
Proof. unfold evidence_identity. by destruct (is_dict v). Qed.

(** The condition under which a row of a queue accounts for a copy. *)
Definition accounts (refused : pyval) (q g r : string) (row : QueueEvidence) : Prop :=
  let claimed := _digest (get "claimed_digest" refused) in
  let received := _digest (get "received_digest" refused) in
  let digest := Some (payload_digest row) in
  (queue row = q ∧ queue_generation row = g ∧ record_id row = r ∧ (digest = claimed ∨ digest = received)) ∨
  (queue row = q ∧ queue_generation row ≠ g ∧
   (digest = claimed ∨ (digest = received ∧ record_id row = r ∧ _names_received_bytes refused = true))).

Lemma digest_wf v d : _digest v = Some d → DIGEST_PATTERN d = true.
Proof. destruct v; cbn; try done. destruct (DIGEST_PATTERN s) eqn:E; [by intros [= <-]|done]. Qed.

Lemma holds_accounts refused q g r row :
  evidence_identity refused = Some (q, g, r) → operator_only refused = false → row_named row →
  holds_refused_copy refused (held_record row) ≠ None ↔ accounts refused q g r row.
Proof.
  intros Hi Ho Hn. unfold holds_refused_copy. rewrite (identity_is_dict _ _ Hi), Ho, Hi, (held_identity row Hn). cbn [negb orb is_dict held_record].
  assert (_digest (get "payload_digest" (held_record row)) =
    if DIGEST_PATTERN (payload_digest row) then Some (payload_digest row) else None) as Hd by done.
  fold (held_record row). rewrite Hd. unfold accounts.
  set (claimed := _digest (get "claimed_digest" refused)). set (received := _digest (get "received_digest" refused)).
  assert (Some (payload_digest row) = claimed ∨ Some (payload_digest row) = received → DIGEST_PATTERN (payload_digest row) = true) as Hwf.
  { intros [H|H]; symmetry in H; by eapply digest_wf. }
  destruct (DIGEST_PATTERN (payload_digest row)); [|split; [done|intros Ha; exfalso; naive_solver]].
  set (named := _names_received_bytes refused). set (digest := Some (payload_digest row)).
  assert (Hin : digest ∈ [claimed; received] ↔ digest = claimed ∨ digest = received) by (rewrite !elem_of_cons; set_solver).
  destruct (bool_decide ((queue row, queue_generation row, record_id row) = (q, g, r)) && bool_decide (digest ∈ [claimed; received])) eqn:E1.
  { apply andb_true_iff in E1 as [E1 E2]. apply bool_decide_eq_true in E1, E2. injection E1 as -> -> ->.
    split; [|done]. intros _. left. split_and!; [done..|]. by apply Hin. }
  destruct (_ && _ && _) eqn:E3.
  { split; [|done]. intros _. right. apply andb_true_iff in E3 as [[E3 E4]%andb_true_iff E5].
    apply bool_decide_eq_true in E3, E4. split_and!; [done..|]. apply orb_true_iff in E5 as [E5|E5].
    - left. by apply bool_decide_eq_true in E5.
    - right. apply andb_true_iff in E5 as [[E5 E6]%andb_true_iff E7]. apply bool_decide_eq_true in E5, E6. done. }
  split; [done|]. intros [(Hq & Hg & Hr & Hd')|(Hq & Hg & Hd')]; exfalso.
  - rewrite bool_decide_eq_true_2 in E1 by congruence. rewrite bool_decide_eq_true_2 in E1 by (by apply Hin). done.
  - rewrite bool_decide_eq_true_2 in E3 by done. rewrite (bool_decide_eq_true_2 (queue_generation row ≠ g)) in E3 by done.
    destruct Hd' as [Hd'|(Hd' & Hr & Hnm)].
    + rewrite bool_decide_eq_true_2 in E3 by done. done.
    + rewrite (bool_decide_eq_true_2 (digest = received)), (bool_decide_eq_true_2 (record_id row = r)) in E3 by done.
      fold named in Hnm. rewrite Hnm, orb_true_r in E3. done.
Qed.

Lemma omap_nil_elem {A B} (f : A → option B) l : omap f l = [] → ∀ x, x ∈ l → f x = None.
Proof.
  intros H x Hx. destruct (f x) as [y|] eqn:E; [|done]. exfalso.
  apply (not_elem_of_nil y). rewrite <- H. apply list_elem_of_omap. eauto.
Qed.

Lemma find_held_copy_finds table c refused q g r row :
  Forall row_named table → NoDup (map row_key table) → evidence_identity refused = Some (q, g, r) →
  row ∈ table → connector_id row = c → holds_refused_copy refused (held_record row) ≠ None →
  find_held_copy table c refused ≠ None.
Proof.
  intros Hnamed Hn Hi Hr Hc Hh. rewrite Forall_forall in Hnamed.
  destruct (operator_only refused) eqn:Ho.
  { unfold holds_refused_copy in Hh. rewrite Ho in Hh. by destruct (_ || _). }
  pose proof (λ x Hx, holds_accounts refused q g r x Hi Ho (Hnamed x Hx)) as Hacc.
  unfold find_held_copy. rewrite Hi, Ho. intros Hnone%head_None.
  pose proof (omap_nil_elem _ _ Hnone) as Hall. clear Hnone.
  assert (∀ test x, x ∈ table → test x = true → (∀ y, y ∈ table → test y = true → accounts refused q g r y) →
    (row ← scalar test table; m ← holds_refused_copy refused (held_record row); Some (held_record row, m)) ≠ None) as Hquery.
  { intros test x Hx Ht Hy. destruct (scalar_exists _ _ _ Hx Ht) as (y & Hs). rewrite Hs. cbn [mbind option_bind].
    apply scalar_some in Hs as [Hyt Htest]. pose proof (proj2 (Hacc y Hyt) (Hy y Hyt Htest)) as Hhy.
    by destruct (holds_refused_copy refused (held_record y)). }
  apply (Hacc row Hr) in Hh. unfold accounts in Hh.
  destruct Hh as [(Hq & Hg & Hrec & Hd)|(Hq & Hg & Hd)].
  - eapply (Hquery _ row Hr); cycle 2; [apply Hall; rewrite !elem_of_app; left; by left| |].
    + cbv beta. by rewrite !bool_decide_eq_true_2.
    + intros y Hy Ht. cbv beta in Ht. rewrite !andb_true_iff, !bool_decide_eq_true in Ht. assert (y = row) as ->; [|by left].
      apply (NoDup_map_inj row_key table); [done..|]. unfold row_key. naive_solver congruence.
  - destruct (decide (Some (payload_digest row) = _digest (get "claimed_digest" refused))) as [Hcl|Hncl].
    + eapply (Hquery _ row Hr); cycle 2; [apply Hall; rewrite !elem_of_app; right; left; rewrite <- Hcl; by left| |].
      * cbv beta. by rewrite !bool_decide_eq_true_2.
      * intros y Hy Ht. cbv beta in Ht. rewrite !andb_true_iff, !bool_decide_eq_true in Ht. destruct Ht as [[[_ ?] ?] Hp]. right.
        rewrite Hp. tauto.
    + destruct Hd as [|(Hd & Hrec & Hnames)]; [done|].
      eapply (Hquery _ row Hr); cycle 2; [apply Hall; rewrite !elem_of_app; right; right; rewrite <- Hd;
        rewrite bool_decide_eq_false_2 by done; rewrite Hnames; by left| |].
      * cbv beta. by rewrite !bool_decide_eq_true_2.
      * intros y Hy Ht. cbv beta in Ht. rewrite !andb_true_iff, !bool_decide_eq_true in Ht. destruct Ht as [[[[_ ?] ?] ?] Hp]. right.
        rewrite Hp. tauto.
Qed.

(** The three targeted queries miss nothing: a record accounting for a refused
    copy is found exactly when some record this connector holds accounts for it,
    and what is returned is such a record with its finding. *)
Theorem find_held_copy_complete table c refused :
  Forall row_named table → NoDup (map row_key table) → evidence_identity refused ≠ None →
  (find_held_copy table c refused ≠ None ↔
   ∃ row, row ∈ table ∧ connector_id row = c ∧ holds_refused_copy refused (held_record row) ≠ None) ∧
  ∀ held m, find_held_copy table c refused = Some (held, m) →
    ∃ row, row ∈ table ∧ connector_id row = c ∧ held = held_record row ∧ holds_refused_copy refused held = Some m.
Proof.
  intros Hnamed Hn Hid. destruct (evidence_identity refused) as [[[q g] r]|] eqn:Hi; [|done].
  assert (∀ row, row ∈ table → row_named row) as Hnm by by apply Forall_forall.
  assert (∀ held m, find_held_copy table c refused = Some (held, m) →
    ∃ row, row ∈ table ∧ connector_id row = c ∧ held = held_record row ∧ holds_refused_copy refused held = Some m) as Hsound.
  { intros held m. unfold find_held_copy. rewrite Hi. destruct (operator_only refused); [done|].
    intros H%head_Some_elem_of. apply list_elem_of_omap in H as ([row|] & Hin & Hm); [|done]. cbn [mbind option_bind] in Hm.
    destruct (holds_refused_copy refused (held_record row)) as [m'|] eqn:Eh; [|done]. injection Hm as <- <-.
    enough (row ∈ table ∧ connector_id row = c) as [? ?] by (by exists row).
    rewrite !elem_of_app, list_elem_of_singleton in Hin.
    assert (∀ t, (∀ x, t x = true → connector_id x = c) → Some row = scalar t table → row ∈ table ∧ connector_id row = c) as Hsc.
    { intros t Ht H%eq_sym%scalar_some. destruct H as [? H]. auto. }
    destruct Hin as [H|[H|H]].
    - eapply Hsc; [|exact H]. intros x. rewrite !andb_true_iff, !bool_decide_eq_true. tauto.
    - destruct (_digest (get "claimed_digest" refused)) as [d|]; [|by apply not_elem_of_nil in H].
      apply list_elem_of_singleton in H.
      eapply Hsc; [|exact H]. intros x. rewrite !andb_true_iff, !bool_decide_eq_true. tauto.
    - destruct (_digest (get "received_digest" refused)) as [d|]; [|by apply not_elem_of_nil in H].
      destruct (_ && _) in H; [|by apply not_elem_of_nil in H]. apply list_elem_of_singleton in H.
      eapply Hsc; [|exact H]. intros x. rewrite !andb_true_iff, !bool_decide_eq_true. tauto. }
  split; [|done]. split.
  - intros Hf. destruct (find_held_copy table c refused) as [[held m]|] eqn:E; [|done].
    destruct (Hsound held m eq_refl) as (row & ? & ? & -> & Hh). exists row. split_and!; [done..|congruence].
  - intros (row & Hr & Hc & Hh). by eapply find_held_copy_finds.
Qed.

(** ** base64 round trip *)
Lemma b64_value_char z : 0 <= z < 64 → b64_value (b64_char z) = Some z.
Proof.
  intros Hz. assert (forallb (λ i, bool_decide (b64_value (b64_char (Z.of_nat i)) = Some (Z.of_nat i))) (seq 0 64) = true) as H
    by (vm_compute; reflexivity).
  rewrite forallb_forall in H. specialize (H (Z.to_nat z)). rewrite Z2Nat.id in H by lia.
  apply bool_decide_eq_true in H; [done|]. apply in_seq. lia.
Qed.

Lemma b64_char_not_equals z : 0 <= z < 64 → b64_char z ≠ EQUALS.
Proof. intros Hz H. pose proof (b64_value_char z Hz) as Hv. rewrite H in Hv. discriminate Hv. Qed.

Lemma bz_eq z b : z = zb b → bz z = b.
Proof. intros ->. apply bz_zb. Qed.

Lemma list_ind3 {A} (P : list A → Prop) :
  P [] → (∀ a, P [a]) → (∀ a b, P [a; b]) → (∀ a b c l, P l → P (a :: b :: c :: l)) → ∀ l, P l.
Proof.
  intros H0 H1 H2 H3. fix IH 1. intros [|a [|b [|c l]]]; [done|apply H1|apply H2|apply H3, IH].
Qed.

Lemma b64_roundtrip raw : b64decode (b64encode raw) = Some raw.
Proof.
  induction raw as [|a|a b|a b c raw IH] using list_ind3; [done|..].
  - pose proof (zb_range a). cbn [b64encode b64decode].
    rewrite !b64_value_char by dlia. cbn [mbind option_bind].
    rewrite !bool_decide_eq_true_2 by done. cbn [andb]. do 2 f_equal. apply bz_eq. dlia.
  - pose proof (zb_range a). pose proof (zb_range b). cbn [b64encode b64decode].
    rewrite !b64_value_char by dlia. cbn [mbind option_bind].
    rewrite !(bool_decide_eq_true_2 _ (eq_refl)). rewrite (bool_decide_eq_false_2 (b64_char _ = EQUALS)) by (apply b64_char_not_equals; dlia).
    cbn [andb]. do 2 f_equal; [apply bz_eq; dlia|]. f_equal. apply bz_eq. dlia.
  - pose proof (zb_range a). pose proof (zb_range b). pose proof (zb_range c). cbn [b64encode b64decode].
    rewrite !b64_value_char by dlia. cbn [mbind option_bind].
    rewrite (bool_decide_eq_false_2 (b64_char _ = EQUALS)) by (apply b64_char_not_equals; dlia). rewrite andb_false_r, IH.
    cbn [mbind option_bind]. do 2 f_equal; [apply bz_eq; dlia|]. f_equal; [apply bz_eq; dlia|]. f_equal. apply bz_eq. dlia.
Qed.

(** A request whose bytes verify carries one to 8192 bytes with the announced
    digest, its base64 is put in the one canonical form of those bytes, and
    verifying it again changes nothing. *)
Theorem verify_bytes_canonical r r' :
  verify_bytes r = inr r' →
  ∃ raw, b64decode (chars (req_raw_b64 r)) = Some raw ∧ chars (req_raw_b64 r') = b64encode raw ∧
    1 <= zlen raw <= MAX_RECORD_BYTES ∧ req_payload_digest r' = sha256_hex raw ∧ verify_bytes r' = inr r'.
Proof.
  unfold verify_bytes at 1. destruct (b64decode (chars (req_raw_b64 r))) as [raw|] eqn:E; [|done].
  destruct (negb (_ && _)) eqn:E1; [done|]. destruct (negb (bool_decide _)) eqn:E2; [done|]. intros [= <-].
  apply negb_false_iff in E1, E2. assert (1 <= zlen raw <= MAX_RECORD_BYTES) by (clear -E1; bool_prop; lia).
  assert (req_payload_digest r = sha256_hex raw) by (by apply bool_decide_eq_true in E2).
  exists raw. cbn [req_raw_b64 req_payload_digest]. split_and!; [done|by rewrite chars_of_chars|lia|lia|done|].
  unfold verify_bytes. cbn [req_raw_b64 req_payload_digest req_connector_id req_queue req_queue_generation req_record_id req_provenance].
  rewrite chars_of_chars, b64_roundtrip, E1, E2. done.
Qed.

(** ** Concrete runs *)
Definition sample_request : QueueEvidenceRequest :=
  mkRequest "C1" "attendance" "g1" "12:34" (sha256_hex (chars "hi")) "aGk="
    (mkProvenance (Some "SER") (Some 3) None "MALFORMED" "JSON").
Definition sample_encrypt (v : pyval) : string := "sealed".
Definition sample_row : QueueEvidence := new_row sample_encrypt 1 "r-1" 7 sample_request.


Definition sample_refused : pyval :=
  PDict [("queue", PStr "attendance"); ("queue_generation", PStr "g0"); ("record_id", PStr "12:34");
         ("claimed_digest", PStr (payload_digest sample_row)); ("received_digest", PNone)].

Lemma find_held_copy_complete_witness :
  holds_refused_copy sample_refused (held_record sample_row) = Some ("SAME_BYTES", "SENT_BYTES_CHANGED") ∧
  find_held_copy [sample_row] 7 sample_refused ≠ None.
Proof.
  assert (holds_refused_copy sample_refused (held_record sample_row) = Some ("SAME_BYTES", "SENT_BYTES_CHANGED")) as H
    by (vm_compute; reflexivity).
  split; [exact H|].
  destruct (find_held_copy_complete [sample_row] 7 sample_refused) as [[_ Hc] _].
  - repeat constructor; discriminate.
  - apply NoDup_singleton.
  - discriminate.
  - apply Hc. exists sample_row. split; [left|]. split; [reflexivity|]. rewrite H. discriminate.
Defined.

Lemma verify_bytes_canonical_witness :
  ∃ raw, b64decode (chars (req_raw_b64 sample_request)) = Some raw ∧ verify_bytes sample_request = inr sample_request.
Proof.
  assert (verify_bytes sample_request = inr sample_request) as H by (vm_compute; reflexivity).
  destruct (verify_bytes_canonical _ _ H) as (raw & Hd & _ & _ & _ & Hv). exists raw. split; [exact Hd|exact Hv].
Defined.
