(* ===== verification/Custody.v ===== *)
(** * Journal custody: occurrence aliases, receipts and work obligations

    zkt_custody.py and the intake half of zkt_custody_work.py. The tables the
    handlers read and write are one [db] record of row lists in insertion order;
    a handler returns the tables it committed, or the exception that rolls them
    back. Pydantic's field validation, uuid4, the clock and Fernet encryption are
    parameters; the model validators of the schemas are modelled. *)
From S2P Require Import Prelude PyText Hashes PyJson Calendar ZktPacket OccurrenceMatch QueueEvidence.
Open Scope string_scope.
Open Scope list_scope.
Open Scope Z_scope.

(** ** Tables *)
Record Terminal := mkTerminal { t_id : Z; t_serial : option string; t_confirmed_serial : option string; t_model : option string;
  t_binding_state : string; t_serial_confirmed_at : option datetime }.
Record Connector := mkConn {
  c_id : Z; c_connector_id : string; c_firmware_family : option string; zkt_custody_enabled : bool; c_terminal : option Terminal;
  c_zone_id : string; c_zone_name : string; c_device_id : string }.
Record TerminalSourceEpoch := mkEpoch {
  e_id : Z; e_epoch_id : string; e_zkt_device_id : Z; e_generation : Z; e_sequence : Z; e_parent_epoch_id : option Z }.
Record TerminalRecordManifest := mkManifest {
  m_id : Z; m_connector_id : Z; m_zkt_device_id : Z; m_terminal_serial : string; m_generation : Z;
  m_source_epoch_id : option Z; m_ordinal : Z; m_canonical_source : bool; m_record_size : option Z;
  m_raw_record_digest : string; m_terminal_record_key : string; m_attendance_event_id : option Z;
  m_disposition : string; m_protected_raw_record : option string; m_source_kind : string; m_created_at : datetime }.
Record ZktOccurrenceAlias := mkAlias {
  a_id : Z; a_occurrence_id : string; a_zkt_device_id : Z; a_source_epoch_id : Z; a_ordinal : Z; a_manifest_id : Z;
  a_raw_digest : string; a_attendance_event_id : option Z }.
Record ZktObservationReceipt := mkReceipt {
  r_id : Z; r_receipt_id : string; r_connector_id : Z; r_observation_id : string; r_payload_digest : string;
  r_raw_digest : option string; r_terminal_serial : option string; r_capture_epoch : option string;
  r_capture_sequence : option Z; r_decoder_profile : option string; r_decoder_version : option string;
  r_protected_observation : string; r_disposition : string; r_error_code : option string }.
Record ZktCustodyWork := mkWork {
  w_id : Z; w_work_key : string; w_connector_id : Z; w_source_manifest_id : option Z; w_kind : string;
  w_terminal_serial : option string; w_capture_epoch : option string; w_decoder_profile : option string;
  w_decoder_version : option string; w_expected_bytes : option Z; w_expected_digest : option string;
  w_state : string; w_reason_code : string; w_owner : string; w_evidence_revision : Z; w_processed_revision : Z;
  w_next_attempt_at : option Z; w_updated_at : Z; w_interpretation_version : option string; w_attempt_count : Z;
  w_assembled_digest : option string; w_assembled_at : option Z; w_created_at : Z }.
Record ZktCustodyWorkReceipt := mkWorkReceipt { wr_work_id : Z; wr_receipt_id : Z; wr_packet_offset : Z; wr_data_length : option Z }.
Record ZktObservationLink := mkLink_ { l_receipt_id : Z; l_occurrence_alias_id : Z; l_proof_kind : string }.

Record db := mkDb {
  epochs : list TerminalSourceEpoch; manifests : list TerminalRecordManifest; aliases : list ZktOccurrenceAlias;
  receipts : list ZktObservationReceipt; links : list ZktObservationLink; works : list ZktCustodyWork;
  work_receipts : list ZktCustodyWorkReceipt }.
Definition set_aliases (d : db) (l : list ZktOccurrenceAlias) : db :=
  mkDb (epochs d) (manifests d) l (receipts d) (links d) (works d) (work_receipts d).
Definition set_receipts (d : db) (l : list ZktObservationReceipt) : db :=
  mkDb (epochs d) (manifests d) (aliases d) l (links d) (works d) (work_receipts d).
Definition set_links (d : db) (l : list ZktObservationLink) : db :=
  mkDb (epochs d) (manifests d) (aliases d) (receipts d) l (works d) (work_receipts d).
Definition set_works (d : db) (l : list ZktCustodyWork) : db :=
  mkDb (epochs d) (manifests d) (aliases d) (receipts d) (links d) l (work_receipts d).
Definition set_work_receipts (d : db) (l : list ZktCustodyWorkReceipt) : db :=
  mkDb (epochs d) (manifests d) (aliases d) (receipts d) (links d) (works d) l.

(** The key the database gives the next row of an append-only table. *)
Definition next_id {A} (id : A → Z) (l : list A) : Z := 1 + foldr (λ x m, Z.max (id x) m) 0 l.

Lemma next_id_fresh {A} (id : A → Z) l x : x ∈ l → id x < next_id id l.
Proof.
  unfold next_id. induction l as [|a l IH]; simpl; [set_solver|]. intros [->|Hx]%elem_of_cons; [lia|]. specialize (IH Hx). lia.
Qed.

(** ** Occurrence aliases *)
Definition serial_is (s : string) (o : option string) : bool := bool_decide (o = Some s).

(** The condition that raises SOURCE_OCCURRENCE_BINDING for one manifest. *)
Definition binding_bad (d : db) (c : Connector) (row : TerminalRecordManifest) : bool :=
  match c_terminal c, (e ← m_source_epoch_id row; List.find (λ x, e_id x =? e) (epochs d)) with
  | Some terminal, Some epoch =>
      negb (bool_decide (c_firmware_family c = Some "zkt"))
      || negb (m_connector_id row =? c_id c) || negb (m_zkt_device_id row =? t_id terminal)
      || negb (m_canonical_source row) || bool_decide (m_terminal_serial row = "")
      || negb (serial_is (m_terminal_serial row) (t_serial terminal))
      || negb (serial_is (m_terminal_serial row) (t_confirmed_serial terminal))
      || negb (e_zkt_device_id epoch =? t_id terminal) || negb (e_generation epoch =? m_generation row)
      || negb (EPOCH (e_epoch_id epoch))
      || negb ((0 <=? m_ordinal row) && (m_ordinal row <? 2 ^ 31)) || negb (HEX64 (m_raw_record_digest row))
  | _, _ => true
  end.

Definition epoch_text (d : db) (row : TerminalRecordManifest) : string :=
  default "" (e_epoch_id <$> (e ← m_source_epoch_id row; List.find (λ x, e_id x =? e) (epochs d))).
(** [identities[row.id]] and [coordinates] *)
Definition identity_of (d : db) (row : TerminalRecordManifest) : string :=
  occurrence_id (m_terminal_serial row) (epoch_text d row) (m_ordinal row) (m_raw_record_digest row).
Definition coordinate_of (row : TerminalRecordManifest) : Z * Z * Z :=
  (m_zkt_device_id row, default 0 (m_source_epoch_id row), m_ordinal row).
Definition alias_coordinate (a : ZktOccurrenceAlias) : Z * Z * Z := (a_zkt_device_id a, a_source_epoch_id a, a_ordinal a).

Definition opt_list {A} (o : option A) : list A := match o with Some x => [x] | None => [] end.
(** [by_manifest], [by_identity], [by_coordinate]: the columns are unique. *)
Definition alias_candidates (d : db) (row : TerminalRecordManifest) : list ZktOccurrenceAlias :=
  opt_list (List.find (λ a, a_manifest_id a =? m_id row) (aliases d))
  ++ opt_list (List.find (λ a, bool_decide (a_occurrence_id a = identity_of d row)) (aliases d))
  ++ opt_list (List.find (λ a, bool_decide (alias_coordinate a = coordinate_of row)) (aliases d)).

Definition alias_for (d : db) (row : TerminalRecordManifest) (id : Z) : ZktOccurrenceAlias :=
  mkAlias id (identity_of d row) (m_zkt_device_id row) (default 0 (m_source_epoch_id row)) (m_ordinal row) (m_id row)
    (m_raw_record_digest row) (m_attendance_event_id row).
Definition alias_matches (d : db) (row : TerminalRecordManifest) (a : ZktOccurrenceAlias) : bool :=
  (a_manifest_id a =? m_id row) && bool_decide (a_occurrence_id a = identity_of d row)
  && bool_decide (a_raw_digest a = m_raw_record_digest row) && bool_decide (alias_coordinate a = coordinate_of row).

(** One manifest of the batch: the aliases still to insert, and the result. *)
Definition bind_one (d : db) (acc : list ZktOccurrenceAlias * list (Z * ZktOccurrenceAlias)) (row : TerminalRecordManifest)
    : res (list ZktOccurrenceAlias * list (Z * ZktOccurrenceAlias)) :=
  let '(pending, result) := acc in
  match alias_candidates d row with
  | alias :: _ as candidates =>
      if existsb (λ a, negb (a_id a =? a_id alias)) candidates || negb (alias_matches d row alias)
      then Raise SourceAssociationError "SOURCE_OCCURRENCE_CONFLICT"
      else Ok (pending, result ++ [(m_id row, alias)])
  | [] =>
      let alias := alias_for d row (next_id a_id (aliases d) + zlen pending) in
      Ok (pending ++ [alias], result ++ [(m_id row, alias)])
  end.

Definition bind_manifest_occurrences (d : db) (c : Connector) (rows : list TerminalRecordManifest)
    : res (db * list (Z * ZktOccurrenceAlias)) :=
  if (100 <? zlen rows) || negb (bool_decide (NoDup (map m_id rows))) then Raise SourceAssociationError "SOURCE_OCCURRENCE_BATCH_BOUNDS"
  else if bool_decide (length rows = 0%nat) then Ok (d, [])
  else if existsb (binding_bad d c) rows then Raise SourceAssociationError "SOURCE_OCCURRENCE_BINDING"
  else if negb (bool_decide (NoDup (map coordinate_of rows))) || negb (bool_decide (NoDup (map (identity_of d) rows)))
  then Raise SourceAssociationError "SOURCE_OCCURRENCE_CONFLICT"
  else
    '(pending, result) ← foldR (bind_one d) rows ([], []);
    Ok (set_aliases d (aliases d ++ pending), result).

(** ** Aliases identify occurrences *)
Definition aliases_ok (l : list ZktOccurrenceAlias) : Prop :=
  NoDup (map a_id l) ∧ NoDup (map a_manifest_id l) ∧ NoDup (map a_occurrence_id l) ∧ NoDup (map alias_coordinate l).

Definition bound_to (d : db) (l : list ZktOccurrenceAlias) (row : TerminalRecordManifest) (p : Z * ZktOccurrenceAlias) : Prop :=
  p.1 = m_id row ∧ p.2 ∈ l ∧ alias_matches d row p.2 = true.

Lemma find_unique {A B} `{EqDecision B} (f : A → B) (l : list A) a (p : A → bool) :
  NoDup (map f l) → a ∈ l → (∀ x, p x = true ↔ f x = f a) → List.find p l = Some a.
Proof.
  induction l as [|b l IH]; simpl; [set_solver|]. intros [Hb Hl]%NoDup_cons Ha Hp. destruct (p b) eqn:E.
  - f_equal. apply Hp in E. apply elem_of_cons in Ha as [->|Ha]; [done|]. exfalso. apply Hb. rewrite E. by apply list_elem_of_fmap_2.
  - apply elem_of_cons in Ha as [<-|Ha]; [|by apply IH]. by rewrite (proj2 (Hp a)) in E.
Qed.

Lemma alias_matches_iff d row a : alias_matches d row a = true ↔
  a_manifest_id a = m_id row ∧ a_occurrence_id a = identity_of d row ∧ a_raw_digest a = m_raw_record_digest row ∧
  alias_coordinate a = coordinate_of row.
Proof. unfold alias_matches. rewrite !andb_true_iff, !bool_decide_eq_true, Z.eqb_eq. naive_solver. Qed.

(** A retained alias that matches is what every index finds. *)
Lemma candidates_match d row a :
  aliases_ok (aliases d) → a ∈ aliases d → alias_matches d row a = true → alias_candidates d row = [a; a; a].
Proof.
  intros (_ & H1 & H2 & H3) Ha (Hm & Ho & _ & Hc)%alias_matches_iff. unfold alias_candidates.
  rewrite (find_unique a_manifest_id _ a), (find_unique a_occurrence_id _ a), (find_unique alias_coordinate _ a); try done.
  - intros x. by rewrite bool_decide_eq_true, Hc.
  - intros x. by rewrite bool_decide_eq_true, Ho.
  - intros x. by rewrite Z.eqb_eq, Hm.
Qed.

Lemma candidates_elem d row a : a ∈ alias_candidates d row → a ∈ aliases d.
Proof.
  unfold alias_candidates. rewrite !elem_of_app. intros [H|[H|H]];
    (destruct (List.find _ _) as [x|] eqn:E; [apply list_elem_of_singleton in H as ->; by apply find_some in E as [?%list_elem_of_In _]
                                             |by apply not_elem_of_nil in H]).
Qed.

Definition unbound (d : db) (rows : list TerminalRecordManifest) : list TerminalRecordManifest :=
  List.filter (λ row, bool_decide (length (alias_candidates d row) = 0%nat)) rows.
Definition new_aliases (d : db) (rows : list TerminalRecordManifest) : list ZktOccurrenceAlias :=
  imap (λ i row, alias_for d row (next_id a_id (aliases d) + Z.of_nat i)) rows.

Lemma find_none_notin {A B} (f : A → B) (p : A → bool) l k :
  List.find p l = None → (∀ x, f x = k → p x = true) → k ∉ map f l.
Proof.
  intros Hf Hp (x & -> & Hx)%list_elem_of_fmap. eapply find_none in Hf; [|by apply list_elem_of_In]. by rewrite Hp in Hf.
Qed.

Lemma candidates_nil d row : length (alias_candidates d row) = 0%nat →
  (m_id row ∉ map a_manifest_id (aliases d)) ∧ (identity_of d row ∉ map a_occurrence_id (aliases d)) ∧
  (coordinate_of row ∉ map alias_coordinate (aliases d)).
Proof.
  unfold alias_candidates. rewrite !length_app.
  destruct (List.find (λ a, a_manifest_id a =? m_id row) _) eqn:E1; [simpl; lia|].
  destruct (List.find (λ a, bool_decide (a_occurrence_id a = _)) _) eqn:E2; [simpl; lia|].
  destruct (List.find (λ a, bool_decide (alias_coordinate a = _)) _) eqn:E3; [simpl; lia|]. intros _. split_and!.
  - eapply find_none_notin; [exact E1|]. intros x Hx. by apply Z.eqb_eq.
  - eapply find_none_notin; [exact E2|]. intros x Hx. by apply bool_decide_eq_true.
  - eapply find_none_notin; [exact E3|]. intros x Hx. by apply bool_decide_eq_true.
Qed.

Lemma alias_for_matches d row id : alias_matches d row (alias_for d row id) = true.
Proof. by apply alias_matches_iff. Qed.

(** The loop binds each row to a retained or a pending alias. *)
Lemma bind_loop d rows pending result :
  foldR (bind_one d) rows ([], []) = Ok (pending, result) →
  pending = new_aliases d (unbound d rows) ∧ Forall2 (bound_to d (aliases d ++ pending)) rows result.
Proof.
  set (P := λ (read : list TerminalRecordManifest) (acc : list ZktOccurrenceAlias * list (Z * ZktOccurrenceAlias)),
    acc.1 = new_aliases d (unbound d read) ∧ Forall2 (bound_to d (aliases d ++ acc.1)) read acc.2).
  intros H. apply (foldR_inv _ P) in H; [done|split; [done|constructor]|].
  intros read row [pend rs] [pend' rs'] [Hp Hr] Hstep. simpl in *. unfold P, unbound. simpl. rewrite List.filter_app. fold (unbound d read).
  unfold bind_one in Hstep. destruct (alias_candidates d row) as [|a l] eqn:Ec.
  - injection Hstep as <- <-. simpl. rewrite bool_decide_eq_true_2 by by rewrite Ec. split.
    + unfold new_aliases. rewrite imap_app. simpl. unfold new_aliases in Hp. rewrite <- Hp. unfold zlen. f_equal. f_equal.
      unfold compose. rewrite Hp, length_imap. f_equal. lia.
    + apply Forall2_app; [|apply Forall2_cons; split; [split_and!; [done|set_solver|apply alias_for_matches]|constructor]].
      eapply Forall2_impl; [exact Hr|]. intros x y (? & ? & ?). split_and!; [done|set_solver|done].
  - destruct (_ || _) eqn:E; [done|]. injection Hstep as <- <-. apply orb_false_iff in E as [_ Em%negb_false_iff].
    simpl. rewrite bool_decide_eq_false_2 by by rewrite Ec. rewrite app_nil_r. split; [done|].
    apply Forall2_app; [done|]. apply Forall2_cons. split; [|constructor]. split_and!; [done| |exact Em]. simpl. apply elem_of_app. left.
    apply (candidates_elem d row). rewrite Ec. by left.
Qed.

Lemma new_aliases_map {B} (f : ZktOccurrenceAlias → B) (g : TerminalRecordManifest → B) d rows :
  (∀ row id, f (alias_for d row id) = g row) → map f (new_aliases d rows) = map g rows.
Proof.
  intros H. unfold new_aliases. change (map f ?l) with (f <$> l). rewrite fmap_imap. change (map g rows) with (g <$> rows).
  generalize (next_id a_id (aliases d)) as b. induction rows as [|r rows IH]; intros b; [done|]. rewrite imap_cons. simpl.
  f_equal; [apply H|]. etrans; [|apply (IH (b + 1))]. apply imap_ext. intros i x _. unfold compose. simpl. by rewrite !H.
Qed.

Lemma new_aliases_ids d rows : map a_id (new_aliases d rows) = seqZ (next_id a_id (aliases d)) (zlen rows).
Proof.
  unfold new_aliases, zlen. generalize (next_id a_id (aliases d)) as b. induction rows as [|r rows IH]; intros b; [done|].
  rewrite imap_cons. simpl length. rewrite Nat2Z.inj_succ, seqZ_cons by lia. simpl. f_equal; [lia|].
  rewrite Z.pred_succ. rewrite <- (IH (Z.succ b)). f_equal. apply imap_ext. intros i x _. unfold compose. f_equal. lia.
Qed.

Lemma unbound_nodup {B} (f : TerminalRecordManifest → B) d rows : NoDup (map f rows) → NoDup (map f (unbound d rows)).
Proof.
  unfold unbound. induction rows as [|r rows IH]; simpl; [done|]. intros [Hr Hl]%NoDup_cons.
  destruct (bool_decide _); simpl; [|auto]. apply NoDup_cons. split; [|auto].
  intros (x & Hx & Hin)%list_elem_of_fmap. apply Hr. rewrite Hx. apply list_elem_of_fmap_2.
  apply list_elem_of_In, filter_In in Hin as [Hin _]. by apply list_elem_of_In.
Qed.

Lemma unbound_elem d rows row : row ∈ unbound d rows → length (alias_candidates d row) = 0%nat.
Proof. intros [_ H]%list_elem_of_In%filter_In. by apply bool_decide_eq_true in H. Qed.

(** A unique column stays unique when the rows without an alias get one. *)
Lemma column_nodup {B} (f : ZktOccurrenceAlias → B) (g : TerminalRecordManifest → B) d rows :
  (∀ row id, f (alias_for d row id) = g row) → NoDup (map f (aliases d)) → NoDup (map g rows) →
  (∀ row, length (alias_candidates d row) = 0%nat → g row ∉ map f (aliases d)) →
  NoDup (map f (aliases d ++ new_aliases d (unbound d rows))).
Proof.
  intros Hfg Hf Hg Hnew. rewrite map_app, (new_aliases_map _ _ _ _ Hfg). apply NoDup_app. split_and!; [done| |by apply unbound_nodup].
  intros x Hx (row & -> & Hrow)%list_elem_of_fmap. by apply (Hnew row (unbound_elem _ _ _ Hrow)).
Qed.

Lemma aliases_ok_new d rows :
  aliases_ok (aliases d) → NoDup (map m_id rows) → NoDup (map (identity_of d) rows) → NoDup (map coordinate_of rows) →
  aliases_ok (aliases d ++ new_aliases d (unbound d rows)).
Proof.
  intros (H0 & H1 & H2 & H3) Hm Hi Hc. split_and!.
  - rewrite map_app, new_aliases_ids. apply NoDup_app. split_and!; [done| |apply NoDup_seqZ].
    intros x (a & -> & Ha)%list_elem_of_fmap Hs%elem_of_seqZ. pose proof (next_id_fresh a_id _ a Ha). lia.
  - apply (column_nodup _ m_id); try done. intros row Hr. apply (candidates_nil d row Hr).
  - apply (column_nodup _ (identity_of d)); try done. intros row Hr. apply (candidates_nil d row Hr).
  - apply (column_nodup _ coordinate_of); try done. intros row Hr. apply (candidates_nil d row Hr).
Qed.

Lemma identity_of_set d l row : identity_of (set_aliases d l) row = identity_of d row.
Proof. done. Qed.
Lemma alias_matches_set d l row a : alias_matches (set_aliases d l) row a = alias_matches d row a.
Proof. done. Qed.

(** With every row bound, the loop finds those aliases and inserts nothing. *)
Lemma bind_loop_bound d rows result pending result0 :
  aliases_ok (aliases d) → Forall2 (bound_to d (aliases d)) rows result →
  foldR (bind_one d) rows (pending, result0) = Ok (pending, result0 ++ result).
Proof.
  intros Hok H. revert result0. induction H as [|row [i a] rows result (Hi & Ha & Hm) _ IH]; intros result0; simpl in *.
  - by rewrite app_nil_r.
  - rewrite (candidates_match d row a Hok Ha Hm). simpl. rewrite !Z.eqb_refl, Hm. simpl. rewrite IH. subst i.
    by rewrite <- app_assoc.
Qed.

(** binding a batch of canonical manifests gives each its own occurrence
    alias. A successful call only appends aliases, keeps the manifest, occurrence
    and coordinate columns unique, answers each manifest in order with an alias of
    the table that carries its identity, digest and coordinates, and repeating the
    call changes nothing and answers the same. *)
Theorem bind_manifest_exact d c rows d' result :
  aliases_ok (aliases d) → bind_manifest_occurrences d c rows = Ok (d', result) →
  aliases_ok (aliases d') ∧ (∃ new, d' = set_aliases d (aliases d ++ new)) ∧
  Forall2 (bound_to d' (aliases d')) rows result ∧ bind_manifest_occurrences d' c rows = Ok (d', result).
Proof.
  intros Hok H. unfold bind_manifest_occurrences in *. destruct (_ || _) eqn:E1; [done|].
  destruct (bool_decide (length rows = 0%nat)) eqn:E2.
  { injection H as <- <-. split_and!; [done|exists []; destruct d; by rewrite app_nil_r| |done].
    apply bool_decide_eq_true, nil_length_inv in E2 as ->. constructor. }
  destruct (existsb _ _) eqn:E3; [done|]. 
  destruct (negb (bool_decide (NoDup (map coordinate_of rows))) || negb (bool_decide (NoDup (map (identity_of d) rows)))) eqn:E4;
    [discriminate H|].
  apply bind_ok in H as ([pending rs] & Hloop & H). injection H as <- <-.
  destruct (bind_loop _ _ _ _ Hloop) as [-> Hb].
  apply orb_false_iff in E1 as [E1 Hid%negb_false_iff]. apply orb_false_iff in E4 as [Hco%negb_false_iff Hio%negb_false_iff].
  assert (Hok' : aliases_ok (aliases d ++ new_aliases d (unbound d rows))) by (apply bool_decide_eq_true in Hid, Hco, Hio; by apply aliases_ok_new).
  set (d' := set_aliases d (aliases d ++ new_aliases d (unbound d rows))) in *.
  split_and!; [exact Hok'|by eexists|exact Hb|].
  change (existsb (binding_bad d' c) rows) with (existsb (binding_bad d c) rows). rewrite E3.
  change (map (identity_of d') rows) with (map (identity_of d) rows). rewrite Hco, Hio. cbn [orb negb].
  rewrite (bind_loop_bound d' rows rs [] [] Hok' Hb). simpl. by rewrite app_nil_r.
Qed.

(** ** Observations and journal exceptions *)
Record Observation := mkObservation {
  o_observation_id : string; o_terminal_serial : string; o_capture_epoch : string; o_capture_sequence : Z;
  o_captured_at : option Z; o_captured_at_seconds : option string; o_captured_uptime_ms : option string;
  o_raw_b64 : string; o_raw_digest : string; o_raw_format : string; o_decoder_profile : string; o_decoder_version : string;
  o_time_quality : string; o_encoded_time : option Z; o_identity_snapshot : option string; o_occurrence : option (string * Z) }.
Record JournalException := mkJournalException {
  j_observation_id : string; j_terminal_serial : string; j_capture_epoch : string; j_segment_id : string;
  j_start_offset : Z; j_end_offset : Z; j_exception_kind : string; j_raw_b64 : string; j_raw_digest : string }.

Definition observation_id (serial epoch : string) (sequence : Z) : string :=
  digest (PList [PStr "zkt-observation-v1"; PStr serial; PStr epoch; PInt sequence]).
Definition journal_exception_id (serial epoch : string) (segment start stop : Z) (raw_digest : string) : string :=
  digest (PList [PStr "zkt-journal-exception-v1"; PStr serial; PStr epoch; PInt segment; PInt start; PInt stop; PStr raw_digest]).

Definition int_of (s : string) : Z := default 0 (digits_value (chars s)).
Definition within (lo z hi : Z) : bool := (lo <=? z) && (z <=? hi).

(** [captured_at.timestamp() == seconds] with [captured_at] in microseconds: the
    timestamp is the binary64 nearest to the quotient, so the fraction it may lose
    is half a unit in the last place of [seconds]. *)
Definition timestamp_is (us seconds : Z) : bool :=
  let rest := us - seconds * 1000000 in
  if rest =? 0 then true
  else if seconds <=? 0 then false
  else
    let e := Z.log2 seconds in
    let bits := if (rest <? 0) && (2 ^ e =? seconds) then 54 else 53 in
    Z.abs rest * 2 ^ bits <=? 2 ^ e * 1000000.

(** Observation.verify: [true] when it returns, [false] when it raises ValueError.
    [o_captured_at] is in microseconds. *)
Definition verify_observation (o : Observation) : bool :=
  match b64decode (chars (o_raw_b64 o)) with
  | None => false
  | Some raw =>
      within 1 (zlen raw) 512 && bool_decide (sha256_hex raw = o_raw_digest o)
      && bool_decide (o_observation_id o = observation_id (o_terminal_serial o) (o_capture_epoch o) (o_capture_sequence o))
      && (negb (bool_decide (o_raw_format o = "PACKET_FRAGMENT")) || is_ok (parse_fragment raw))
      && (negb (match o_occurrence o with Some _ => true | None => false end) || bool_decide (o_raw_format o = "SOURCE_RECORD"))
      && match o_captured_uptime_ms o with Some t => int_of t <=? 2 ^ 64 - 1 | None => true end
      && match o_captured_at_seconds o with
         | Some t => (int_of t <=? 2 ^ 63 - 1)
                     && match o_captured_at o with Some us => timestamp_is us (int_of t) | None => true end
         | None => match o_captured_at o with Some _ => true | None => false end
         end
  end.

(** JournalException.verify *)
Definition verify_exception (j : JournalException) : bool :=
  match b64decode (chars (j_raw_b64 j)) with
  | None => false
  | Some raw =>
      within 1 (zlen raw) 512 && (zlen raw =? j_end_offset j - j_start_offset j) && bool_decide (sha256_hex raw = j_raw_digest j)
      && (int_of (j_segment_id j) <=? 2 ^ 63 - 1)
      && bool_decide (j_observation_id j = journal_exception_id (j_terminal_serial j) (j_capture_epoch j) (int_of (j_segment_id j))
                        (j_start_offset j) (j_end_offset j) (j_raw_digest j))
  end.

Inductive parsed_item := AnObservation (o : Observation) | AnException (j : JournalException).
Definition p_observation_id (p : parsed_item) : string := match p with AnObservation o => o_observation_id o | AnException j => j_observation_id j end.
Definition p_terminal_serial (p : parsed_item) : string := match p with AnObservation o => o_terminal_serial o | AnException j => j_terminal_serial j end.
Definition p_capture_epoch (p : parsed_item) : string := match p with AnObservation o => o_capture_epoch o | AnException j => j_capture_epoch j end.
Definition p_raw_digest (p : parsed_item) : string := match p with AnObservation o => o_raw_digest o | AnException j => j_raw_digest j end.

(** [key]: the work keys; its parts are texts, numbers and nulls. *)
Definition key (parts : list pyval) : string := sha256_hex (dumps (PList parts)).

(** ** Settling a batch *)
Section settle.
Context (validate_observation : pyval → option Observation) (validate_exception : pyval → option JournalException)
  (uuid4 : Z → string) (utc_now : Z) (encrypt_json : pyval → res string).

(** [model_validate]: the fields by pydantic, then the model validator. *)
Definition parse_item (raw : pyval) : option parsed_item :=
  if eq_str (get "item_type" raw) "JOURNAL_EXCEPTION" then
    j ← validate_exception raw; if verify_exception j then Some (AnException j) else None
  else o ← validate_observation raw; if verify_observation o then Some (AnObservation o) else None.

(** The error of an item before its receipt is looked up. *)
Definition item_error (c : Connector) (p : option parsed_item) : option string :=
  match p with
  | None => Some "OBSERVATION_SCHEMA_INVALID"
  | Some p =>
      if negb match c_terminal c with
              | Some t => serial_is (p_terminal_serial p) (t_serial t) && serial_is (p_terminal_serial p) (t_confirmed_serial t)
              | None => false end then Some "TERMINAL_BINDING_MISMATCH"
      else match p with AnException j => Some ("JOURNAL_" +:+ j_exception_kind j +:+ "_EXCEPTION") | AnObservation _ => None end
  end.

Definition item_identity (raw : pyval) : string :=
  match parse_item raw with Some p => p_observation_id p | None => digest raw end.

Definition receipt_is (c : Connector) (identity material : string) (r : ZktObservationReceipt) : bool :=
  (r_connector_id r =? c_id c) && bool_decide (r_observation_id r = identity) && bool_decide (r_payload_digest r = material).
Definition find_receipt (d : db) (c : Connector) (identity material : string) : option ZktObservationReceipt :=
  List.find (receipt_is c identity material) (receipts d).

Definition observation_field {A} (f : Observation → A) (p : option parsed_item) : option A :=
  match p with Some (AnObservation o) => Some (f o) | _ => None end.

(** The receipt of an item seen for the first time. *)
Definition new_receipt (d : db) (c : Connector) (raw : pyval) : res ZktObservationReceipt :=
  let p := parse_item raw in
  let identity := item_identity raw in
  let conflict := existsb (λ r, (r_connector_id r =? c_id c) && bool_decide (r_observation_id r = identity)) (receipts d) in
  let error := if conflict then Some "CAPTURE_IDENTITY_REUSED" else item_error c p in
  protected ← encrypt_json (PDict [("observation", raw)]);
  let id := next_id r_id (receipts d) in
  Ok (mkReceipt id (uuid4 id) (c_id c) identity (digest raw) (p_raw_digest <$> p) (p_terminal_serial <$> p) (p_capture_epoch <$> p)
        (observation_field o_capture_sequence p) (observation_field o_decoder_profile p) (observation_field o_decoder_version p)
        protected (match error with Some _ => "PRESERVED_EXCEPTION" | None => "PRESERVED_UNRESOLVED" end) error).

(** bind_source_occurrence *)
Definition source_manifest (d : db) (c : Connector) (t : Terminal) (serial : string) (occ : string * Z) : option TerminalRecordManifest :=
  List.find (λ m, (m_zkt_device_id m =? t_id t) && (m_connector_id m =? c_id c) && bool_decide (m_terminal_serial m = serial)
      && m_canonical_source m && (m_ordinal m =? occ.2)
      && match (e ← m_source_epoch_id m; List.find (λ x, e_id x =? e) (epochs d)) with
         | Some e => bool_decide (e_epoch_id e = occ.1) && (e_zkt_device_id e =? t_id t) | None => false end) (manifests d).

Definition bind_source_occurrence (d : db) (c : Connector) (r : ZktObservationReceipt) (o : Observation) : res (db * option string) :=
  match o_occurrence o, c_terminal c with
  | Some occ, Some t =>
      if negb (serial_is (o_terminal_serial o) (t_serial t)) || negb (serial_is (o_terminal_serial o) (t_confirmed_serial t)) then Ok (d, None)
      else
        match source_manifest d c t (o_terminal_serial o) occ with
        | None => Ok (d, None)
        | Some m =>
            if negb (bool_decide (m_raw_record_digest m = o_raw_digest o)) then Raise SourceAssociationError "SOURCE_RAW_DIGEST_MISMATCH"
            else
              '(d, result) ← bind_manifest_occurrences d c [m];
              match result with
              | [] => Raise KeyError "manifest"
              | (_, alias) :: _ =>
                  match List.find (λ l, l_receipt_id l =? r_id r) (links d) with
                  | None => Ok (set_links d (links d ++ [mkLink_ (r_id r) (a_id alias) "EXACT_CANONICAL_SOURCE_BYTES"]),
                                Some (a_occurrence_id alias))
                  | Some prior => if l_occurrence_alias_id prior =? a_id alias then Ok (d, Some (a_occurrence_id alias))
                                  else Raise SourceAssociationError "OBSERVATION_ALREADY_BOUND"
                  end
              end
        end
  | _, _ => Ok (d, None)
  end.

(** ** Work obligations *)
Definition set_state (w : ZktCustodyWork) (state reason owner : string) (next : option Z) : ZktCustodyWork :=
  mkWork (w_id w) (w_work_key w) (w_connector_id w) (w_source_manifest_id w) (w_kind w) (w_terminal_serial w) (w_capture_epoch w)
    (w_decoder_profile w) (w_decoder_version w) (w_expected_bytes w) (w_expected_digest w) state reason owner
    (w_evidence_revision w) (w_processed_revision w) next (w_updated_at w) (w_interpretation_version w)
    (w_attempt_count w) (w_assembled_digest w) (w_assembled_at w) (w_created_at w).
Definition bump_evidence (w : ZktCustodyWork) : ZktCustodyWork :=
  mkWork (w_id w) (w_work_key w) (w_connector_id w) (w_source_manifest_id w) (w_kind w) (w_terminal_serial w) (w_capture_epoch w)
    (w_decoder_profile w) (w_decoder_version w) (w_expected_bytes w) (w_expected_digest w) (w_state w) (w_reason_code w) (w_owner w)
    (w_evidence_revision w + 1) (w_processed_revision w) (w_next_attempt_at w) (w_updated_at w) (w_interpretation_version w)
    (w_attempt_count w) (w_assembled_digest w) (w_assembled_at w) (w_created_at w).
Definition touch (w : ZktCustodyWork) : ZktCustodyWork :=
  mkWork (w_id w) (w_work_key w) (w_connector_id w) (w_source_manifest_id w) (w_kind w) (w_terminal_serial w) (w_capture_epoch w)
    (w_decoder_profile w) (w_decoder_version w) (w_expected_bytes w) (w_expected_digest w) (w_state w) (w_reason_code w) (w_owner w)
    (w_evidence_revision w) (w_processed_revision w) (w_next_attempt_at w) utc_now (w_interpretation_version w)
    (w_attempt_count w) (w_assembled_digest w) (w_assembled_at w) (w_created_at w).
Definition put_work (w : ZktCustodyWork) (l : list ZktCustodyWork) : list ZktCustodyWork :=
  map (λ x, if w_id x =? w_id w then w else x) l.

(** The bytes and the fragment of an item without an error. *)
Definition item_bytes (r : ZktObservationReceipt) (value : pyval) : res (option bytes * option PacketFragment) :=
  match r_error_code r with
  | Some _ => Ok (None, None)
  | None =>
      if negb (truthy value) then Ok (None, None)
      else
        match get "raw_b64" value with
        | PStr s =>
            match b64decode (chars s) with
            | None => Raise ValueError "Incorrect padding"
            | Some raw =>
                if eq_str (get_or "raw_format" (PStr "UNKNOWN") value) "PACKET_FRAGMENT" then
                  f ← parse_fragment raw; Ok (Some raw, Some f)
                else Ok (Some raw, None)
            end
        | _ => Raise TypeError "raw_b64"
        end
  end.

Definition kind_of (r : ZktObservationReceipt) (value : pyval) : string :=
  match r_error_code r with Some _ => "EXCEPTION" | None => py_str_val (get_or "raw_format" (PStr "UNKNOWN") value) end.

Definition work_identity (c : Connector) (r : ZktObservationReceipt) (f : option PacketFragment) : string :=
  match f with
  | Some f => key [PStr "zkt-packet-work-v1"; PStr (c_connector_id c); opt_str (r_terminal_serial r); opt_str (r_capture_epoch r);
                   PStr (hex (group f))]
  | None => key [PStr "zkt-receipt-work-v1"; PStr (c_connector_id c); PStr (r_receipt_id r)]
  end.

Definition new_work (d : db) (c : Connector) (r : ZktObservationReceipt) (value : pyval) (raw : option bytes)
    (f : option PacketFragment) : ZktCustodyWork :=
  let w := mkWork (next_id w_id (works d)) (work_identity c r f) (c_id c) None (kind_of r value) (r_terminal_serial r) (r_capture_epoch r)
    (r_decoder_profile r) (r_decoder_version r)
    (match f with Some f => Some (total f) | None => zlen <$> raw end)
    (match f with Some f => Some (hex (packet_digest f)) | None => r_raw_digest r end)
    "PENDING" "AWAITING_INTERPRETATION" "ADD_PROTOCOL" 1 0 (Some utc_now) utc_now None 0 None None utc_now in
  match r_error_code r with Some e => set_state w "HELD_EXCEPTION" e "ADD_EVIDENCE_REVIEW" None | None => w end.

(** A new extent of a group that already has its work row. *)
Definition extend_work (r : ZktObservationReceipt) (f : option PacketFragment) (w : ZktCustodyWork) : ZktCustodyWork :=
  let w := bump_evidence w in
  let conflict := match f with
    | None => true
    | Some f => negb (bool_decide (w_expected_bytes w = Some (total f)))
                || negb (bool_decide (w_expected_digest w = Some (hex (packet_digest f))))
                || negb (bool_decide ((w_decoder_profile w, w_decoder_version w) = (r_decoder_profile r, r_decoder_version r)))
    end in
  if conflict then set_state w "HELD_EXCEPTION" "CONFLICTING_PACKET_METADATA" "ADD_EVIDENCE_REVIEW" None
  else if negb (bool_decide (w_state w = "HELD_EXCEPTION")) then set_state w "PENDING" "NEW_PACKET_EVIDENCE" (w_owner w) (Some utc_now)
  else w.

(** attach_work: the work of a receipt, by id. Replay returns the original one. *)
Definition attach_work (d : db) (c : Connector) (r : ZktObservationReceipt) (value : pyval) : res (db * Z) :=
  match List.find (λ l, wr_receipt_id l =? r_id r) (work_receipts d) with
  | Some link => Ok (d, wr_work_id link)
  | None =>
      '(raw, f) ← item_bytes r value;
      let '(d, w) :=
        match List.find (λ w, bool_decide (w_work_key w = work_identity c r f)) (works d) with
        | None => let w := touch (new_work d c r value raw f) in (set_works d (works d ++ [w]), w)
        | Some w => let w := touch (extend_work r f w) in (set_works d (put_work w (works d)), w)
        end in
      let link := mkWorkReceipt (w_id w) (r_id r) (match f with Some f => offset f | None => 0 end)
                    (match f with Some f => Some (zlen (data f)) | None => zlen <$> raw end) in
      Ok (set_work_receipts d (work_receipts d ++ [link]), w_id w)
  end.

(** ** One item, and the batch *)
Record settled := mkSettled {
  s_index : Z; s_observation_id : string; s_payload_digest : string; s_receipt_id : string; s_custody : string;
  s_error_code : option string; s_occurrence_id : option string; s_replay : bool }.

(** The occurrence of a receipt, in a savepoint of its own. *)
Definition associate (d : db) (c : Connector) (r : ZktObservationReceipt) (p : option parsed_item) : res (db * option string * option string) :=
  match p, r_error_code r with
  | Some (AnObservation o), None =>
      match o_occurrence o with
      | None => Ok (d, None, None)
      | Some _ =>
          match bind_source_occurrence d c r o with
          | Ok (d', occ) => Ok (d', occ, None)
          | Raise SourceAssociationError m => Ok (d, None, Some m)
          | Raise k m => Raise k m
          end
      end
  | _, _ => Ok (d, None, None)
  end.

Definition hold_association (d : db) (wid : Z) (error : option string) : db :=
  match error with
  | None => d
  | Some e => set_works d (map (λ w, if w_id w =? wid then set_state w "HELD_EXCEPTION" e "ADD_EVIDENCE_REVIEW" None else w) (works d))
  end.

Definition settle_one (c : Connector) (acc : db * list settled) (raw : pyval) : res (db * list settled) :=
  let '(d, items) := acc in
  let p := parse_item raw in
  let identity := item_identity raw in
  let existing := find_receipt d c identity (digest raw) in
  '(d, r, replay) ← match existing with
    | Some r => Ok (d, r, true)
    | None => r ← new_receipt d c raw; Ok (set_receipts d (receipts d ++ [r]), r, false)
    end;
  '(d, occ, error) ← associate d c r p;
  '(d, wid) ← attach_work d c r (if is_dict raw then raw else PNone);
  Ok (hold_association d wid error,
      items ++ [mkSettled (zlen items) identity (digest raw) (r_receipt_id r) (r_disposition r) (r_error_code r) occ replay]).

Definition batch_observations (payload : pyval) : option (list pyval) :=
  match payload with
  | PDict m =>
      if bool_decide (length m = 2%nat) && match assoc "schema_version" m with Some (PInt v) => v =? 1 | _ => false end then
        match assoc "observations" m with
        | Some (PList l) => if within 1 (zlen l) 64 then Some l else None
        | _ => None
        end
      else None
  | _ => None
  end.

Definition settle_observations (d : db) (c : Connector) (payload : pyval) : res (db * list settled) :=
  if negb (bool_decide (c_firmware_family c = Some "zkt")) || negb (zkt_custody_enabled c) then Raise ValueError "ZKT_CUSTODY_NOT_ENABLED"
  else
    match batch_observations payload with
    | None => Raise ValueError "INVALID_CUSTODY_BATCH"
    | Some observations =>
        if has_nan payload then Raise ValueError "Out of range float values are not JSON compliant"
        else if 96 * 1024 <? zlen (dumps_plain payload) then Raise ValueError "CUSTODY_BATCH_TOO_LARGE"
        else foldR (settle_one c) observations (d, [])
    end.

(** ** The custody invariant *)
Definition receipt_key (r : ZktObservationReceipt) : Z * string * string := (r_connector_id r, r_observation_id r, r_payload_digest r).

(** What a receipt keeps: the encrypted item its digest names, and an exception
    disposition exactly when it has an error. *)
Definition receipt_holds (r : ZktObservationReceipt) : Prop :=
  (∃ raw, digest raw = r_payload_digest r ∧ encrypt_json (PDict [("observation", raw)]) = Ok (r_protected_observation r)) ∧
  r_disposition r = match r_error_code r with Some _ => "PRESERVED_EXCEPTION" | None => "PRESERVED_UNRESOLVED" end.

Definition has_work (d : db) (r : ZktObservationReceipt) : Prop :=
  ∃ l, l ∈ work_receipts d ∧ wr_receipt_id l = r_id r.

Record custody_ok (d : db) : Prop := {
  ok_ids : NoDup (map r_id (receipts d));
  ok_keys : NoDup (map receipt_key (receipts d));
  ok_holds : ∀ r, r ∈ receipts d → receipt_holds r;
  ok_work : ∀ r, r ∈ receipts d → has_work d r;
  ok_work_ids : NoDup (map w_id (works d));
  ok_linked : ∀ l, l ∈ work_receipts d → wr_work_id l ∈ map w_id (works d);
  ok_receipts : ∀ l, l ∈ work_receipts d → wr_receipt_id l ∈ map r_id (receipts d) }.

(** What the custody tables of two states share: receipts, links to work and the
    work rows' keys. States of work rows and derived associations may differ. *)
Definition same_custody (d d' : db) : Prop :=
  receipts d' = receipts d ∧ work_receipts d' = work_receipts d ∧ map w_id (works d') = map w_id (works d).

#[export] Instance same_custody_po : PreOrder same_custody.
Proof. split; [done|]. intros a b c (? & ? & ?) (? & ? & ?). split_and!; congruence. Qed.

#[export] Instance custody_ok_same : Proper (same_custody ==> impl) custody_ok.
Proof.
  intros d d' (H1 & H2 & H3) []. unfold has_work in *. constructor; unfold has_work; rewrite ?H1, ?H2, ?H3; auto.
Qed.

Lemma bind_same d c rows d' res : bind_manifest_occurrences d c rows = Ok (d', res) → same_custody d d'.
Proof.
  unfold bind_manifest_occurrences. destruct (_ || _); [done|]. destruct (bool_decide (length rows = _)); [by intros [= <- _]|].
  destruct (existsb _ _); [done|].
  destruct (negb (bool_decide (NoDup (map coordinate_of rows))) || negb (bool_decide (NoDup (map (identity_of d) rows)))); [done|].
  intros ([pending rs] & _ & [= <- _])%bind_ok. done.
Qed.

Lemma bind_source_same d c r o d' occ : bind_source_occurrence d c r o = Ok (d', occ) → same_custody d d'.
Proof.
  unfold bind_source_occurrence. destruct (o_occurrence o) as [oc|], (c_terminal c) as [t|]; try (intros [= <- _]; done).
  destruct (_ || _); [by intros [= <- _]|]. destruct (source_manifest _ _ _ _ _) as [m|]; [|by intros [= <- _]].
  destruct (negb _); [done|]. intros ([d1 rs] & Hb & H)%bind_ok. apply bind_same in Hb. etrans; [exact Hb|].
  destruct rs as [|[i a] rs]; [done|]. destruct (List.find _ _) as [prior|].
  - destruct (_ =? _); [|done]. by injection H as <- _.
  - by injection H as <- _.
Qed.

Lemma associate_same d c r p d' occ e : associate d c r p = Ok (d', occ, e) → same_custody d d'.
Proof.
  unfold associate. destruct p as [[o|j]|]; try (intros [= <- _ _]; done).
  destruct (r_error_code r); [by intros [= <- _ _]|]. destruct (o_occurrence o); [|by intros [= <- _ _]].
  destruct (bind_source_occurrence d c r o) as [[d1 oc]|k m] eqn:E.
  - intros [= <- _ _]. by apply bind_source_same in E.
  - destruct k; try done. by intros [= <- _ _].
Qed.

Lemma hold_same d wid e : same_custody d (hold_association d wid e).
Proof.
  destruct e as [e|]; [|done]. split_and!; [done|done|]. simpl. rewrite map_map. apply map_ext. intros w. by destruct (_ =? _).
Qed.

(** What [attach_work] does to a receipt that had no work yet. *)
Definition attached (d d' : db) (r : ZktObservationReceipt) (wid : Z) : Prop :=
  receipts d' = receipts d ∧ (∃ l, work_receipts d' = work_receipts d ++ [l] ∧ wr_receipt_id l = r_id r ∧ wr_work_id l = wid) ∧
  wid ∈ map w_id (works d') ∧
  (map w_id (works d') = map w_id (works d) ∨ map w_id (works d') = map w_id (works d) ++ [next_id w_id (works d)]).

Lemma put_work_ids w l : map w_id (put_work w l) = map w_id l.
Proof.
  unfold put_work. rewrite map_map. apply map_ext. intros x. destruct (w_id x =? w_id w) eqn:E; [by apply Z.eqb_eq in E|done].
Qed.
Lemma touch_id w : w_id (touch w) = w_id w.
Proof. done. Qed.
Lemma extend_work_id r f w : w_id (extend_work r f w) = w_id w.
Proof. unfold extend_work. repeat case_match; done. Qed.
Lemma new_work_id d c r v raw f : w_id (new_work d c r v raw f) = next_id w_id (works d).
Proof. unfold new_work. by destruct (r_error_code r). Qed.

Lemma attach_work_cases d c r v d' wid :
  attach_work d c r v = Ok (d', wid) →
  (d' = d ∧ has_work d r) ∨ (¬ has_work d r ∧ attached d d' r wid).
Proof.
  unfold attach_work. destruct (List.find _ _) as [l|] eqn:El.
  - intros [= <- _]. left. split; [done|]. apply find_some in El as [Hl%list_elem_of_In H%Z.eqb_eq]. by exists l.
  - intros ([raw f] & _ & H)%bind_ok. right. split.
    { intros (l & Hl & Hr). eapply find_none in El; [|by apply list_elem_of_In]. by rewrite Hr, Z.eqb_refl in El. }
    destruct (List.find _ (works d)) as [w|] eqn:Ew; injection H as <- <-.
    + apply find_some in Ew as [Hw%list_elem_of_In _]. split_and!; [done|by eexists| |].
      * cbn [works set_works set_work_receipts]. rewrite put_work_ids, ?touch_id, extend_work_id. by apply list_elem_of_fmap_2.
      * left. cbn [works set_works set_work_receipts]. apply put_work_ids.
    + split_and!; [done|by eexists| |].
      * cbn [works set_works set_work_receipts]. rewrite map_app. apply elem_of_app. right. by left.
      * right. cbn [works set_works set_work_receipts]. rewrite map_app. cbn [map]. by rewrite ?touch_id, new_work_id.
Qed.

Lemma attached_ok d d' r wid :
  attached d d' r wid → NoDup (map r_id (receipts d)) → NoDup (map receipt_key (receipts d)) →
  (∀ x, x ∈ receipts d → receipt_holds x) → (∀ x, x ∈ receipts d → x = r ∨ has_work d x) → r ∈ receipts d →
  NoDup (map w_id (works d)) → (∀ l, l ∈ work_receipts d → wr_work_id l ∈ map w_id (works d)) →
  (∀ l, l ∈ work_receipts d → wr_receipt_id l ∈ map r_id (receipts d)) → custody_ok d' ∧ has_work d' r.
Proof.
  intros (Hr & (l & Hl & Hlr & Hlw) & Hin & Hids) H1 H2 H3 H4 Hrin H5 H6 H7.
  assert (Hwork : has_work d' r) by (exists l; rewrite Hl; split; [apply elem_of_app; right; by left|done]).
  assert (Hmono : ∀ x, x ∈ map w_id (works d) → x ∈ map w_id (works d')) by (intros x; destruct Hids as [-> | ->]; set_solver).
  split; [|done]. constructor; rewrite ?Hr; auto.
  - intros x Hx. destruct (H4 x Hx) as [->|(l' & ? & ?)]; [done|]. exists l'. rewrite Hl. split; [by apply elem_of_app; left|done].
  - destruct Hids as [-> | ->]; [done|]. apply NoDup_app. split_and!; [done| |apply NoDup_singleton].
    intros x (w & -> & Hw)%list_elem_of_fmap Hx%list_elem_of_singleton. pose proof (next_id_fresh w_id _ w Hw). lia.
  - intros l'. rewrite Hl, elem_of_app, list_elem_of_singleton. intros [Hl' | ->]; [auto|]. by rewrite Hlw.
  - intros l'. rewrite Hl, elem_of_app, list_elem_of_singleton. intros [Hl' | ->]; [auto|]. rewrite Hlr. by apply list_elem_of_fmap_2.
Qed.

Definition item_ok (c : Connector) (d : db) (raw : pyval) (item : settled) : Prop :=
  ∃ r, r ∈ receipts d ∧ has_work d r ∧ receipt_is c (item_identity raw) (digest raw) r = true ∧
    s_observation_id item = item_identity raw ∧ s_payload_digest item = digest raw ∧ s_receipt_id item = r_receipt_id r ∧
    s_custody item = r_disposition r ∧ s_error_code item = r_error_code r.

Lemma new_receipt_facts d c raw r :
  new_receipt d c raw = Ok r →
  r_id r = next_id r_id (receipts d) ∧ receipt_is c (item_identity raw) (digest raw) r = true ∧ receipt_holds r.
Proof.
  unfold new_receipt. intros (protected & Henc & H)%bind_ok. apply Ok_inj in H. subst r. split_and!.
  - done.
  - unfold receipt_is. cbn [r_connector_id r_observation_id r_payload_digest]. rewrite Z.eqb_refl. by rewrite !bool_decide_eq_true_2.
  - split; [exists raw; split; [done|exact Henc]|]. cbn [r_disposition r_error_code]. by destruct (if existsb _ _ then _ else _).
Qed.

Lemma receipt_is_key c i m r : receipt_is c i m r = true ↔ receipt_key r = (c_id c, i, m).
Proof.
  unfold receipt_is, receipt_key. rewrite !andb_true_iff, Z.eqb_eq, !bool_decide_eq_true.
  split; [intros [[-> ->] ->]; done|intros [= -> -> ->]; done].
Qed.

(** *** Association never fails the batch *)
Lemma bind_raises d c rows k m : bind_manifest_occurrences d c rows = Raise k m → k = SourceAssociationError.
Proof.
  unfold bind_manifest_occurrences. destruct (_ || _); [by intros [= <- _]|]. destruct (bool_decide (length rows = _)); [done|].
  destruct (existsb _ _); [by intros [= <- _]|].
  destruct (negb (bool_decide (NoDup (map coordinate_of rows))) || negb (bool_decide (NoDup (map (identity_of d) rows)))); [by intros [= <- _]|].
  destruct (foldR _ _ _) as [[pend rs]|k' m'] eqn:E; simpl; [done|]. intros [= <- <-].
  apply foldR_raise in E as ([pend rs] & row & H). unfold bind_one in H. destruct (alias_candidates d row); [done|].
  destruct (_ || _); [by injection H as <- _|done].
Qed.

Lemma bind_single_result d c m d' rs : bind_manifest_occurrences d c [m] = Ok (d', rs) → rs ≠ [].
Proof.
  unfold bind_manifest_occurrences. destruct (_ || _); [done|]. rewrite (bool_decide_eq_false_2 (length [m] = 0%nat)) by done.
  destruct (existsb _ _); [done|].
  intros ([pend rs'] & H & [= _ <-])%bind_ok. simpl in H. apply bind_ok in H as ([p1 r1] & H & [= _ <-]).
  unfold bind_one in H. destruct (alias_candidates d m); [|destruct (_ || _); [done|]]; injection H as _ <-; done.
Qed.

Lemma associate_total d c r p : ∃ d' occ e, associate d c r p = Ok (d', occ, e).
Proof.
  unfold associate. destruct p as [[o|j]|]; eauto. destruct (r_error_code r); eauto. destruct (o_occurrence o) as [oc|] eqn:Eo; eauto.
  destruct (bind_source_occurrence d c r o) as [[d1 oc1]|k m] eqn:E; eauto.
  assert (k = SourceAssociationError) as ->; [|eauto]. unfold bind_source_occurrence in E. rewrite Eo in E.
  destruct (c_terminal c); [|done]. destruct (_ || _); [done|]. destruct (source_manifest _ _ _ _ _) as [mf|]; [|done].
  destruct (negb _); [by injection E as <- _|]. destruct (bind_manifest_occurrences d c [mf]) as [[d1 rs]|k' m'] eqn:Eb; simpl in E.
  - apply bind_single_result in Eb. destruct rs as [|[i a] rs]; [done|]. destruct (List.find _ _); [|done].
    destruct (_ =? _); [done|by injection E as <- _].
  - injection E as <- _. by apply bind_raises in Eb.
Qed.

(** An item whose receipt exists is answered from it, and custody is unchanged. *)
Lemma settle_one_replay c d items raw r :
  custody_ok d → find_receipt d c (item_identity raw) (digest raw) = Some r →
  ∃ d' item, settle_one c (d, items) raw = Ok (d', items ++ [item]) ∧ same_custody d d' ∧ item_ok c d' raw item ∧ s_replay item = true.
Proof.
  intros Hok Ef. unfold settle_one. rewrite Ef. simpl. destruct (associate_total d c r (parse_item raw)) as (d2 & occ & er & Ha).
  rewrite Ha. simpl. apply associate_same in Ha. rewrite Ha in Hok. apply find_some in Ef as [Hr%list_elem_of_In Hk].
  assert (Hr2 : r ∈ receipts d2) by (destruct Ha as (-> & _); done). destruct (ok_work d2 Hok r Hr2) as (l & Hl & Hlr).
  unfold attach_work. destruct (List.find _ (work_receipts d2)) as [l'|] eqn:El.
  2:{ exfalso. eapply find_none in El; [|by apply list_elem_of_In]. by rewrite Hlr, Z.eqb_refl in El. }
  simpl. pose proof (hold_same d2 (wr_work_id l') er) as Hh. eexists _, _. split; [done|]. split; [by etrans|]. split; [|done].
  exists r. destruct Hh as (-> & Hh & _). unfold has_work. rewrite Hh. split_and!; try done. by exists l.
Qed.

(** An item seen for the first time appends its receipt and its work link. *)
Lemma settle_one_first c d items raw d' items' :
  custody_ok d → find_receipt d c (item_identity raw) (digest raw) = None → settle_one c (d, items) raw = Ok (d', items') →
  custody_ok d' ∧ (∃ r, receipts d' = receipts d ++ [r]) ∧ (∃ l, work_receipts d' = work_receipts d ++ [l]) ∧
  ∃ item, items' = items ++ [item] ∧ item_ok c d' raw item ∧ s_replay item = false.
Proof.
  intros [Hids Hkeys Hholds Hworks Hwids Hlinked Hrec] Ef. unfold settle_one. rewrite Ef. intros H.
  apply bind_ok in H as ([[d1 r1] rep] & Hn & H). apply bind_ok in Hn as (r & Hnew & [= <- <- <-]).
  apply bind_ok in H as ([[d2 occ] er] & (E1 & E2 & E3)%associate_same & H). apply bind_ok in H as ([d3 wid] & Hat & H).
  destruct (new_receipt_facts _ _ _ _ Hnew) as (Hid & Hk & Hho). cbn in E1, E2, E3.
  assert (Hfresh : r_id r ∉ map r_id (receipts d)).
  { intros (x & Hx & Hin)%list_elem_of_fmap. pose proof (next_id_fresh r_id _ x Hin). lia. }
  destruct (attach_work_cases _ _ _ _ _ _ Hat) as [[-> (l & Hl & Hlr)]|[_ Hatt]].
  { exfalso. rewrite E2 in Hl. apply Hfresh. rewrite <- Hlr. auto. }
  destruct (attached_ok d2 d3 r wid Hatt) as [Hok3 Hw3]; rewrite ?E1, ?E2, ?E3, ?map_app; try done.
  - apply NoDup_app. split_and!; [done| |apply NoDup_singleton]. intros x Hx Hs%list_elem_of_singleton. by subst.
  - apply NoDup_app. split_and!; [done| |apply NoDup_singleton].
    intros x (y & -> & Hy)%list_elem_of_fmap Hs%list_elem_of_singleton. apply receipt_is_key in Hk. rewrite Hk in Hs.
    apply receipt_is_key in Hs. eapply find_none in Ef; [|by apply list_elem_of_In]. congruence.
  - intros x. rewrite elem_of_app, list_elem_of_singleton. intros [Hx | ->]; auto.
  - intros x. rewrite elem_of_app, list_elem_of_singleton. unfold has_work. rewrite E2. intros [Hx | ->]; [right|by left]. by apply Hworks.
  - apply elem_of_app. right. by left.
  - intros l Hl. apply elem_of_app. left. auto.
  - injection H as <- <-. pose proof (hold_same d3 wid er) as Hh. destruct Hatt as (Hr3 & (l & Hl3 & _) & _). split_and!.
    + by rewrite <- Hh.
    + exists r. destruct Hh as (-> & _). by rewrite Hr3, E1.
    + exists l. destruct Hh as (_ & -> & _). by rewrite Hl3, E2.
    + eexists. split; [done|]. split; [|done]. exists r. destruct Hh as (H1 & H2 & _). unfold has_work. rewrite H1, H2, Hr3, E1.
      split_and!; try done. apply elem_of_app. right. by left.
Qed.

(** The custody tables only grow. *)
Definition extends (d d' : db) : Prop :=
  (∃ new, receipts d' = receipts d ++ new) ∧ (∃ more, work_receipts d' = work_receipts d ++ more).
#[export] Instance extends_po : PreOrder extends.
Proof.
  split; [intros d; split; exists []; by rewrite app_nil_r|].
  intros a b c [[n Hn] [m Hm]] [[n' Hn'] [m' Hm']]. split; eexists; rewrite ?Hn', ?Hm', ?Hn, ?Hm; by rewrite <- app_assoc.
Qed.
Lemma same_extends d d' : same_custody d d' → extends d d'.
Proof. intros (H1 & H2 & _). split; exists []; by rewrite app_nil_r. Qed.

Lemma item_ok_extends c d d' raw item : extends d d' → item_ok c d raw item → item_ok c d' raw item.
Proof.
  intros [[n Hn] [m Hm]] (r & Hr & (l & Hl & Hlr) & H). exists r. rewrite Hn. split; [apply elem_of_app; by left|].
  split; [|done]. exists l. rewrite Hm. split; [apply elem_of_app; by left|done].
Qed.

Lemma settle_one_ok c d items raw d' items' :
  custody_ok d → settle_one c (d, items) raw = Ok (d', items') →
  custody_ok d' ∧ extends d d' ∧ ∃ item, items' = items ++ [item] ∧ item_ok c d' raw item.
Proof.
  intros Hok H. destruct (find_receipt d c (item_identity raw) (digest raw)) as [r|] eqn:Ef.
  - destruct (settle_one_replay c d items raw r Hok Ef) as (d1 & item & H1 & Hs & Hi & _). rewrite H1 in H. injection H as <- <-.
    split_and!; [by rewrite <- Hs|by apply same_extends|eauto].
  - destruct (settle_one_first _ _ _ _ _ _ Hok Ef H) as (H1 & [r Hr] & [l Hl] & item & Hi & Hio & _).
    split_and!; [done|split; eauto|eauto].
Qed.

Lemma settle_loop c obs d items d' items' :
  custody_ok d → foldR (settle_one c) obs (d, items) = Ok (d', items') →
  custody_ok d' ∧ extends d d' ∧ ∃ more, items' = items ++ more ∧ Forall2 (item_ok c d') obs more.
Proof.
  revert d items. induction obs as [|raw obs IH]; intros d items Hok H; simpl in H.
  - injection H as <- <-. split_and!; [done|done|]. exists []. rewrite app_nil_r. by split.
  - apply bind_ok in H as ([d1 items1] & H1 & H). destruct (settle_one_ok _ _ _ _ _ _ Hok H1) as (Hok1 & He1 & item & -> & Hi).
    destruct (IH _ _ Hok1 H) as (Hok2 & He2 & more & -> & Hm). split_and!; [done|by etrans|].
    exists (item :: more). rewrite <- app_assoc. split; [done|]. constructor; [|done]. by eapply item_ok_extends.
Qed.

(** A batch every item of which has its receipt is answered again. *)
Definition same_answer (i i' : settled) : Prop :=
  s_observation_id i' = s_observation_id i ∧ s_payload_digest i' = s_payload_digest i ∧ s_receipt_id i' = s_receipt_id i ∧
  s_custody i' = s_custody i ∧ s_error_code i' = s_error_code i ∧ s_replay i' = true.

Lemma find_receipt_unique d c i m r : custody_ok d → r ∈ receipts d → receipt_is c i m r = true → find_receipt d c i m = Some r.
Proof.
  intros Hok Hr Hk. apply (find_unique receipt_key); [apply Hok|done|]. intros x. apply receipt_is_key in Hk. rewrite Hk.
  apply receipt_is_key.
Qed.

Lemma replay_loop c obs items0 d items : custody_ok d → Forall2 (item_ok c d) obs items →
  ∃ d' items', foldR (settle_one c) obs (d, items0) = Ok (d', items0 ++ items') ∧ same_custody d d' ∧ Forall2 same_answer items items'.
Proof.
  intros Hok H. revert d Hok items0 H. revert items. induction obs as [|raw obs IH]; intros items d Hok items0 H.
  - inversion H; subst. exists d, []. rewrite app_nil_r. split_and!; [done|done|constructor].
  - inversion H as [|? item ? rest (r & Hr & Hw & Hk & H1 & H2 & H3 & H4 & H5) Hrest]; subst.
    destruct (settle_one_replay c d items0 raw r Hok) as (d1 & item1 & Hs & Hsame & (r1 & Hr1 & _ & Hk1 & I1 & I2 & I3 & I4 & I5) & Hrep);
      [by apply find_receipt_unique|].
    assert (Hok1 : custody_ok d1) by by rewrite <- Hsame. pose proof Hsame as (S1 & S2 & S3).
    assert (r1 = r) as -> by (rewrite S1 in Hr1; pose proof (find_receipt_unique d c _ _ r1 Hok Hr1 Hk1);
      pose proof (find_receipt_unique d c _ _ r Hok Hr Hk); congruence).
    destruct (IH rest d1 Hok1 (items0 ++ [item1])) as (d2 & more & H6 & H7 & H8).
    { eapply Forall2_impl; [exact Hrest|]. intros x y. apply item_ok_extends, same_extends. done. }
    exists d2, (item1 :: more). change (foldR _ (raw :: obs) _) with (settle_one c (d, items0) raw ≫= λ s, foldR (settle_one c) obs s). rewrite Hs. simpl. rewrite H6, <- app_assoc. split_and!; [done|by etrans|].
    constructor; [|done]. split_and!; congruence.
Qed.

(** C1: settling a batch takes custody of every item. From tables where every
    receipt has work, a successful call leaves them so, only appends receipts,
    and answers each item with a receipt of the table that carries its identity,
    its digest, its encrypted bytes, and a work obligation. *)
Theorem settle_takes_custody d c payload d' items :
  custody_ok d → settle_observations d c payload = Ok (d', items) →
  custody_ok d' ∧ extends d d' ∧
  ∃ obs, batch_observations payload = Some obs ∧ Forall2 (item_ok c d') obs items.
Proof.
  intros Hok. unfold settle_observations. destruct (_ || _); [done|]. destruct (batch_observations payload) as [obs|]; [|done].
  destruct (has_nan payload); [done|]. destruct (_ <? _); [done|]. intros H.
  destruct (settle_loop _ _ _ _ _ _ Hok H) as (? & ? & more & -> & ?). split_and!; [done|done|]. by exists obs.
Qed.

(** C19: sending the same batch again is harmless. It succeeds, adds no receipt and
    no work link, and gives each item the same receipt, custody and error code as
    before, marked as a replay. *)
Theorem settle_replay_same d c payload d' items :
  custody_ok d → settle_observations d c payload = Ok (d', items) →
  ∃ d'' items', settle_observations d' c payload = Ok (d'', items') ∧ same_custody d' d'' ∧ Forall2 same_answer items items'.
Proof.
  intros Hok. unfold settle_observations. destruct (_ || _); [done|]. destruct (batch_observations payload) as [obs|]; [|done].
  destruct (has_nan payload); [done|]. destruct (_ <? _); [done|]. intros H.
  destruct (settle_loop _ _ _ _ _ _ Hok H) as (Hok' & _ & more & -> & Hm). simpl. by apply (replay_loop c obs [] d').
Qed.
End settle.

(** ** A concrete batch *)
Definition wit_terminal : Terminal := mkTerminal 7 (Some "ZK1") (Some "ZK1") (Some "G3") "CONFIRMED" None.
Definition wit_connector : Connector := mkConn 3 "site-3" (Some "zkt") true (Some wit_terminal) "Z1" "Zone 1" "D1".
Definition wit_manifest (ordinal : Z) : TerminalRecordManifest :=
  mkManifest (10 + ordinal) 3 7 "ZK1" 1 (Some 5) ordinal true (Some 40)
    "0000000000000000000000000000000000000000000000000000000000000000" "k" None "RAW_PRESERVED" None "BASELINE" (mkDT 2026 1 2 3 4 5 0 (Some 0)).
Definition wit_db : db :=
  mkDb [mkEpoch 5 "00000000-0000-0000-0000-000000000000" 7 1 1 None] [wit_manifest 0] [] [] [] [] [].
Definition wit_payload : pyval := PDict [("schema_version", PInt 1); ("observations", PList [PStr "a"])].

Lemma wit_custody_ok encrypt : custody_ok encrypt wit_db.
Proof. constructor; simpl; try apply NoDup_nil_2; intros ? []%not_elem_of_nil. Qed.

Lemma bind_manifest_exact_witness :
  ∃ d' result, bind_manifest_occurrences wit_db wit_connector [wit_manifest 0] = Ok (d', result) ∧ aliases_ok (aliases d') ∧
    length (aliases d') = 1%nat ∧ bind_manifest_occurrences d' wit_connector [wit_manifest 0] = Ok (d', result).
Proof.
  eexists (set_aliases wit_db [alias_for wit_db (wit_manifest 0) 1]), [(10, alias_for wit_db (wit_manifest 0) 1)].
  assert (H : bind_manifest_occurrences wit_db wit_connector [wit_manifest 0] =
    Ok (set_aliases wit_db [alias_for wit_db (wit_manifest 0) 1], [(10, alias_for wit_db (wit_manifest 0) 1)])).
  { unfold bind_manifest_occurrences. rewrite (bool_decide_eq_true_2 (NoDup (map (identity_of wit_db) [wit_manifest 0]))).
    - reflexivity.
    - apply NoDup_singleton. }
  assert (H0 : aliases_ok (aliases wit_db)) by (split_and!; constructor).
  destruct (bind_manifest_exact _ _ _ _ _ H0 H) as (H1 & _ & _ & H2). split_and!; [exact H|exact H1|reflexivity|exact H2].
Defined.

Definition wit_settle := settle_observations (λ _, None) (λ _, None) (λ n, "receipt") 1000 (λ _, Ok "sealed").

Lemma settle_takes_custody_witness :
  ∃ d' items, wit_settle wit_db wit_connector wit_payload = Ok (d', items) ∧ custody_ok (λ _, Ok "sealed") d' ∧
    length (receipts d') = 1%nat.
Proof.
  destruct (wit_settle wit_db wit_connector wit_payload) as [[d' items]|k m] eqn:E.
  - exists d', items.
    destruct (settle_takes_custody _ _ _ _ _ _ _ _ _ _ (wit_custody_ok _) E) as (H1 & _ & _).
    split_and!; [reflexivity|exact H1|]. lazy -[digest key] in E. injection E as <- _. reflexivity.
  - exfalso. lazy -[digest key] in E. discriminate E.
Defined.

Lemma settle_replay_same_witness :
  ∃ d' items d'' items', wit_settle wit_db wit_connector wit_payload = Ok (d', items) ∧
    wit_settle d' wit_connector wit_payload = Ok (d'', items') ∧ map s_replay items' = [true].
Proof.
  destruct (wit_settle wit_db wit_connector wit_payload) as [[d' items]|k m] eqn:E.
  - destruct (settle_replay_same _ _ _ _ _ _ _ _ _ _ (wit_custody_ok _) E) as (d'' & items' & H1 & _ & H2).
    exists d', items, d'', items'. split_and!; [reflexivity|exact H1|].
    lazy -[digest key] in E. injection E as _ <-. inversion H2 as [|? y ? l Hy Hl]; subst. inversion Hl; subst. simpl.
    destruct Hy as (_ & _ & _ & _ & _ & ->). reflexivity.
  - exfalso. lazy -[digest key] in E. discriminate E.
Defined.
