(* ===== verification/DerivedEvidence.v ===== *)
(** * Derived interpretation chains (zkt_derived_evidence.py)

    Authenticated custody bytes are interpreted at most 128 records at a time.
    Every step appends one encrypted row that carries the plan after it, the
    records it decoded and the digest of the step before it. [verified_steps]
    reads a finished chain back and accounts for every raw span.

    The session is its stored rows, the rows not yet flushed, the identity of its
    transaction and the empty-history proof of [initial_evidence_batch]. The
    Fernet token that holds a step, its length and the pair
    [encrypt_json]/[decrypt_json] are parameters. *)
From S2P Require Import Prelude PyText Hashes PyJson Calendar ZktPacket ZktDecode QueueEvidence Custody.
Open Scope string_scope.
Open Scope list_scope.
Open Scope Z_scope.

Definition INTERPRETATION_VERSION : string := DECODER_VERSION +:+ "/derived-1".
Definition RECORDS_PER_STEP : Z := 128.
Definition live_sizes : list Z := sort_by (λ z, z) (elements LIVE_SIZES).
Definition sumZ (l : list Z) : Z := foldr Z.add 0 l.
Definition MAX_STEPS : Z := 2 + sumZ (map (λ size, (PACKET_MAX - 8) / size) live_sizes) / RECORDS_PER_STEP.
Definition MAX_PLAINTEXT : Z := 128 * 1024.
Definition MAX_CIPHERTEXT : Z := 180 * 1024.
Definition SUPPORTED_KINDS : list string := ["SOURCE_LEDGER"; "SOURCE_RECORD"; "LIVE_PACKET"; "LIVE_FRAME"; "PACKET_FRAGMENT"].

Definition opt_int (o : option Z) : pyval := match o with Some z => PInt z | None => PNone end.

Definition input_fingerprint (w : ZktCustodyWork) : string :=
  digest (PList [PStr "zkt-derived-input-v1"; PInt (w_id w); PStr (w_work_key w); PInt (w_connector_id w); PStr (w_kind w);
    opt_int (w_source_manifest_id w); opt_str (w_terminal_serial w); opt_str (w_capture_epoch w); opt_str (w_decoder_profile w);
    opt_str (w_decoder_version w); opt_int (w_expected_bytes w); opt_str (w_expected_digest w); PInt (w_evidence_revision w)]).

(** ** Plans *)
Record Header := mkHeader { h_command : Z; h_checksum : Z; h_session_id : Z; h_reply_id : Z }.
Record Layout := mkLayout { l_size : Z; l_total : Z; l_processed : Z; l_errors : Z }.
Record Plan := mkPlan { p_source : bool; p_header : option Header; p_framing_error : option string; p_layouts : list Layout }.

Definition is_source (kind : string) : bool := bool_decide (kind ∈ ["SOURCE_LEDGER"; "SOURCE_RECORD"]).

Definition fresh_layouts (length : Z) (sizes : list Z) : list Layout := map (λ size, mkLayout size (length / size) 0 0) sizes.

Definition _plan (raw : bytes) (kind : string) : Plan :=
  let n := zlen raw in
  if is_source kind then
    let sizes := if bool_decide (n ∈ SOURCE_SIZES) then [n] else [] in
    mkPlan true None (if bool_decide (sizes = []) then Some "SOURCE_RECORD_BOUNDARY" else None) (fresh_layouts n sizes)
  else if bool_decide (kind = "LIVE_FRAME") then mkPlan false None (Some "LIVE_FRAME_CONTRACT_UNSPECIFIED") []
  else if negb ((8 <? n) && (n <=? PACKET_MAX)) then mkPlan false None (Some "LIVE_PACKET_BOUNDARY") []
  else
    let command := le_int (slice 0 2 raw) in
    let checksum := le_int (slice 2 4 raw) in
    let session := le_int (slice 4 6 raw) in
    let reply := le_int (slice 6 8 raw) in
    let header := Some (mkHeader command checksum session reply) in
    if negb (command =? 500) || (session =? 0) then mkPlan false header (Some "LIVE_PACKET_SESSION_OR_COMMAND") []
    else
      let length := n - 8 in
      let sizes := List.filter (λ size, length mod size =? 0) live_sizes in
      mkPlan false header (if bool_decide (sizes = []) then Some "LIVE_RECORD_BOUNDARY" else None) (fresh_layouts length sizes).

Definition header_json (h : Header) : pyval :=
  PDict [("command", PInt (h_command h)); ("checksum", PInt (h_checksum h)); ("session_id", PInt (h_session_id h));
         ("reply_id", PInt (h_reply_id h)); ("checksum_verified", PBool false); ("session_binding_verified", PBool false)].
Definition opt_header (o : option Header) : pyval := match o with Some h => header_json h | None => PNone end.
Definition layout_json (l : Layout) : pyval :=
  PDict [("size", PInt (l_size l)); ("total", PInt (l_total l)); ("processed", PInt (l_processed l)); ("errors", PInt (l_errors l))].
Definition plan_json (p : Plan) : pyval :=
  PDict [("source", PBool (p_source p)); ("header", opt_header (p_header p)); ("framing_error", opt_str (p_framing_error p));
         ("layouts", PList (map layout_json (p_layouts p)))].

(** ** One record *)
Definition pad_left (n : nat) (s : string) : string := of_chars (replicate (n - length (chars s)) x30 ++ chars s).

(** [datetime.isoformat()] *)
Definition isoformat (t : datetime) : string :=
  pad_left 4 (py_str (year t)) +:+ "-" +:+ pad_left 2 (py_str (month t)) +:+ "-" +:+ pad_left 2 (py_str (day t)) +:+ "T"
  +:+ pad_left 2 (py_str (hour t)) +:+ ":" +:+ pad_left 2 (py_str (minute t)) +:+ ":" +:+ pad_left 2 (py_str (second t))
  +:+ (if microsecond t =? 0 then "" else "." +:+ pad_left 6 (py_str (microsecond t)))
  +:+ match utcoffset t with
      | None => ""
      | Some off => (if off <? 0 then "-" else "+") +:+ pad_left 2 (py_str (Z.abs off / 3600)) +:+ ":"
                    +:+ pad_left 2 (py_str (Z.abs off mod 3600 / 60))
      end.

Definition facts_json (f : PunchFacts) : pyval :=
  PDict [("user_id", opt_str (user_id f)); ("attendance_uid", opt_int (attendance_uid f)); ("encoded_time", PInt (encoded_time f));
         ("local_time", PStr (isoformat (local_time f))); ("utc_time", PStr (isoformat (utc_time f))); ("status", PInt (status f));
         ("punch", PInt (punch f)); ("offset", PInt (facts_offset f)); ("length", PInt (facts_length f))].

Record Evidence := mkEvidence {
  ev_offset : Z; ev_length : Z; ev_raw_digest : string; ev_error_code : option string; ev_facts : option PunchFacts }.
Definition evidence_json (e : Evidence) : pyval :=
  PDict [("offset", PInt (ev_offset e)); ("length", PInt (ev_length e)); ("raw_digest", PStr (ev_raw_digest e));
         ("error_code", opt_str (ev_error_code e));
         ("facts", match ev_facts e with Some f => facts_json f | None => PNone end)].

Definition span_offset (source : bool) (size index : Z) : Z := index * size + (if source then 0 else 8).
Definition span (raw : bytes) (offset size : Z) : bytes := slice (Z.to_nat offset) (Z.to_nat (offset + size)) raw.

(** The body of the record loop: a rejected record keeps its span and its digest. *)
Definition derive_record (source : bool) (raw : bytes) (size index : Z) : res Evidence :=
  let offset := span_offset source size index in
  let part := span raw offset size in
  match (if source then decode_source else decode_live_record) part size offset with
  | Ok facts => Ok (mkEvidence offset size (sha256_hex part) None (Some facts))
  | Raise DecodeError code => Ok (mkEvidence offset size (sha256_hex part) (Some code) None)
  | Raise c m => Raise c m
  end.

Definition failed (e : Evidence) : bool := match ev_error_code e with Some _ => true | None => false end.

(** ** One step over the layouts *)
Definition layout_stop (l : Layout) (used : Z) : Z := Z.min (l_total l) (l_processed l + RECORDS_PER_STEP - used).

Definition advance (l : Layout) (error : bool) : Layout :=
  mkLayout (l_size l) (l_total l) (l_processed l + 1) (l_errors l + (if error then 1 else 0)).

Definition derive_index (source : bool) (raw : bytes) (acc : Layout * list Evidence) (index : Z) : res (Layout * list Evidence) :=
  let '(l, recs) := acc in
  e ← derive_record source raw (l_size l) index;
  Ok (advance l (failed e), recs ++ [e]).

Fixpoint derive_layouts (source : bool) (raw : bytes) (ls : list Layout) (recs : list Evidence) : res (list Layout * list Evidence) :=
  match ls with
  | [] => Ok ([], recs)
  | l :: ls' =>
      '(l, recs) ← foldR (derive_index source raw) (py_range (l_processed l) (layout_stop l (zlen recs)) 1) (l, recs);
      if zlen recs =? RECORDS_PER_STEP then Ok (l :: ls', recs)
      else
        '(ls', recs) ← derive_layouts source raw ls' recs;
        Ok (l :: ls', recs)
  end.

Definition complete (ls : list Layout) : bool := forallb (λ l, l_processed l =? l_total l) ls.
Definition plausible (ls : list Layout) : list Z := map l_size (List.filter (λ l, (l_errors l =? 0) && complete ls) ls).
Definition result_of (ls : list Layout) : string :=
  if negb (complete ls) then "PENDING"
  else if 1 <? zlen (plausible ls) then "AMBIGUOUS_LAYOUT"
  else if bool_decide (plausible ls = []) then "DECODE_REJECTED" else "UNQUALIFIED_FACTS".

(** ** The chain *)
Section chain.
Context {token : Type} (token_len : token → Z) (encrypt_json : pyval → res token) (decrypt_json : token → res pyval)
  (pii_fernet_key : bool).

Record ZktDerivedEvidence := mkRow {
  d_id : Z; d_work_id : Z; d_version : string; d_fingerprint : string; d_step_index : Z; d_result : string; d_record_count : Z;
  d_error_count : Z; d_previous_digest : option string; d_evidence_digest : string; d_protected : token }.

Record session := mkSession {
  stored : list ZktDerivedEvidence; unflushed : list ZktDerivedEvidence; transaction : Z; prefetch : option (Z * list (Z * string)) }.
Definition flush (s : session) : session := mkSession (stored s ++ unflushed s) [] (transaction s) (prefetch s).

(** [initial_evidence_batch], on entry and on exit *)
Definition initial_evidence_batch (s : session) (works : list ZktCustodyWork) : res session :=
  if 1000 <? zlen works then Raise ValueError "DERIVED_PREFETCH_BOUNDS"
  else
    match prefetch s with
    | Some _ => Raise ValueError "DERIVED_PREFETCH_NESTING"
    | None =>
        let existing := map d_work_id (stored s ++ unflushed s) in
        let inputs := map (λ w, (w_id w, input_fingerprint w)) (List.filter (λ w, bool_decide (w_id w ∉ existing)) works) in
        Ok (mkSession (stored s) (unflushed s) (transaction s) (Some (transaction s, inputs)))
    end.
Definition end_evidence_batch (s : session) : session := mkSession (stored s) (unflushed s) (transaction s) None.

(** [_initial_history_proved]: a proof is used once. *)
Definition _initial_history_proved (s : session) (w : ZktCustodyWork) (fingerprint : string) : session * bool :=
  match prefetch s with
  | None => (s, false)
  | Some (t, inputs) =>
      let prior := snd <$> List.find (λ p, p.1 =? w_id w) inputs in
      (mkSession (stored s) (unflushed s) (transaction s) (Some (t, List.filter (λ p, negb (p.1 =? w_id w)) inputs)),
       (t =? transaction s) && bool_decide (prior = Some fingerprint))
  end.

(** [_chain_rows]: the rows of one interpretation in order, and their links. *)
Definition in_chain (w : ZktCustodyWork) (fingerprint version : string) (r : ZktDerivedEvidence) : bool :=
  (d_work_id r =? w_id w) && bool_decide (d_version r = version) && bool_decide (d_fingerprint r = fingerprint).

Fixpoint chain_linked (index : Z) (previous : option string) (rows : list ZktDerivedEvidence) : bool :=
  match rows with
  | [] => true
  | row :: rows' =>
      (d_step_index row =? index) && bool_decide (d_previous_digest row = previous)
      && (bool_decide (rows' = []) || bool_decide (d_result row = "PENDING"))
      && (0 <=? d_error_count row) && (d_error_count row <=? d_record_count row) && (d_record_count row <=? RECORDS_PER_STEP)
      && chain_linked (index + 1) (Some (d_evidence_digest row)) rows'
  end.

Definition _chain_rows (s : session) (w : ZktCustodyWork) (fingerprint version : string) : res (list ZktDerivedEvidence) :=
  let rows := take (Z.to_nat (MAX_STEPS + 1)) (sort_by d_step_index (List.filter (in_chain w fingerprint version) (stored s))) in
  if MAX_STEPS <? zlen rows then Raise DerivedEvidenceInvalid "DERIVED_EVIDENCE_BOUNDS"
  else if chain_linked 0 None rows then Ok rows else Raise DerivedEvidenceInvalid "DERIVED_CHAIN_CHANGED".

(** [_unseal]: the decrypted step agrees with its row and with the plan. *)
Definition stored_layout_ok (p : pyval * Layout) : bool :=
  is_dict p.1 && py_eq (get "size" p.1) (PInt (l_size p.2)) && py_eq (get "total" p.1) (PInt (l_total p.2))
  && match get "processed" p.1, get "errors" p.1 with
     | PInt processed, PInt errors => (0 <=? errors) && (errors <=? processed) && (processed <=? l_total p.2)
     | _, _ => false
     end.

Definition row_agrees (row : ZktDerivedEvidence) (w : ZktCustodyWork) (value : pyval) : bool :=
  is_dict value && bool_decide (digest value = d_evidence_digest row)
  && match get "schema_version" value with PInt v => v =? 1 | _ => false end
  && eq_str (get "authority" value) "UNQUALIFIED" && eq_str (get "work_key" value) (w_work_key w)
  && eq_str (get "input_fingerprint" value) (d_fingerprint row) && eq_str (get "interpretation_version" value) (d_version row)
  && py_eq (get "step_index" value) (PInt (d_step_index row)) && py_eq (get "previous_digest" value) (opt_str (d_previous_digest row))
  && eq_str (get "result" value) (d_result row) && py_eq (get "record_count" value) (PInt (d_record_count row))
  && py_eq (get "error_count" value) (PInt (d_error_count row)).

Definition _unseal (row : ZktDerivedEvidence) (w : ZktCustodyWork) (plan : Plan) : res pyval :=
  if negb pii_fernet_key then Raise RuntimeError "CUSTODY_KEY_UNAVAILABLE"
  else if MAX_CIPHERTEXT <? token_len (d_protected row) then Raise DerivedEvidenceInvalid "DERIVED_EVIDENCE_BOUNDS"
  else
    match decrypt_json (d_protected row) with
    | Raise c m => if bool_decide (c = InvalidToken) || is_value_error c then Raise DerivedEvidenceInvalid "DERIVED_CIPHERTEXT_CHANGED"
                   else Raise c m
    | Ok value =>
        if negb (row_agrees row w value) then Raise DerivedEvidenceInvalid "DERIVED_EVIDENCE_CHANGED"
        else
          let progress := get "plan" value in
          match get "layouts" progress with
          | PList layouts =>
              if negb (is_dict progress && py_eq (get "source" progress) (PBool (p_source plan))
                       && py_eq (get "header" progress) (opt_header (p_header plan))
                       && py_eq (get "framing_error" progress) (opt_str (p_framing_error plan))
                       && bool_decide (length layouts = length (p_layouts plan)))
              then Raise DerivedEvidenceInvalid "DERIVED_PLAN_CHANGED"
              else if negb (forallb stored_layout_ok (zip layouts (p_layouts plan)))
              then Raise DerivedEvidenceInvalid "DERIVED_PROGRESS_CHANGED"
              else Ok value
          | _ => Raise DerivedEvidenceInvalid "DERIVED_PLAN_CHANGED"
          end
    end.

(** the plan a step left: the checked progress of each layout, on the plan the
    bytes give. *)
Definition read_plan (plan : Plan) (value : pyval) : Plan :=
  let stored := match get "layouts" (get "plan" value) with PList l => l | _ => [] end in
  mkPlan (p_source plan) (p_header plan) (p_framing_error plan)
    (zip_with (λ v l, mkLayout (l_size l) (l_total l) (default 0 (as_int (get "processed" v))) (default 0 (as_int (get "errors" v))))
       stored (p_layouts plan)).

(** [derive_step] *)
Definition input_ok (w : ZktCustodyWork) (raw : bytes) : bool :=
  bool_decide (w_kind w ∈ SUPPORTED_KINDS) && bool_decide (w_expected_bytes w = Some (zlen raw)) && (zlen raw <=? PACKET_MAX)
  && bool_decide (w_expected_digest w = Some (sha256_hex raw)).

(** The newest finished interpretation of the same input by another version. *)
Definition earlier_interpretation (s : session) (w : ZktCustodyWork) (fingerprint : string) : pyval :=
  let rows := List.filter (λ r, (d_work_id r =? w_id w) && bool_decide (d_fingerprint r = fingerprint)
    && negb (bool_decide (d_version r = INTERPRETATION_VERSION)) && negb (bool_decide (d_result r = "PENDING"))) (stored s) in
  match sort_by (λ r, - d_id r) rows with
  | [] => PNone
  | r :: _ => PDict [("id", PInt (d_id r)); ("version", PStr (d_version r)); ("evidence_digest", PStr (d_evidence_digest r))]
  end.

Definition step_value (w : ZktCustodyWork) (fingerprint : string) (index : Z) (prior : pyval) (previous : option string)
    (plan : Plan) (recs : list Evidence) : pyval :=
  PDict [("schema_version", PInt 1); ("authority", PStr "UNQUALIFIED"); ("work_key", PStr (w_work_key w));
    ("input_fingerprint", PStr fingerprint); ("interpretation_version", PStr INTERPRETATION_VERSION);
    ("decoder_version", PStr DECODER_VERSION); ("reported_profile", opt_str (w_decoder_profile w));
    ("reported_decoder_version", opt_str (w_decoder_version w)); ("source_manifest_id", opt_int (w_source_manifest_id w));
    ("input_digest", opt_str (w_expected_digest w)); ("input_bytes", opt_int (w_expected_bytes w));
    ("evidence_revision", PInt (w_evidence_revision w)); ("step_index", PInt index); ("prior_interpretation", prior);
    ("previous_digest", opt_str previous); ("result", PStr (result_of (p_layouts plan))); ("record_count", PInt (zlen recs));
    ("error_count", PInt (zlen (List.filter failed recs))); ("plan", plan_json plan);
    ("plausible_layouts", PList (map PInt (plausible (p_layouts plan)))); ("records", PList (map evidence_json recs))].

Definition set_layouts (p : Plan) (ls : list Layout) : Plan := mkPlan (p_source p) (p_header p) (p_framing_error p) ls.

(** What a step starts from: the rows so far, the plan and the prior version. *)
Definition step_start (s : session) (w : ZktCustodyWork) (raw : bytes)
    : res (session * list ZktDerivedEvidence * option (Plan * pyval)) :=
  let fingerprint := input_fingerprint w in
  let plan := _plan raw (w_kind w) in
  let '(s, first) := _initial_history_proved s w fingerprint in
  rows ← (if first then Ok [] else _chain_rows s w fingerprint INTERPRETATION_VERSION);
  match last rows with
  | Some row =>
      prior ← _unseal row w plan;
      if negb (bool_decide (d_result row = "PENDING")) then Ok (s, rows, None)
      else
        match prior with
        | PDict m => match assoc "prior_interpretation" m with
                     | Some pi => Ok (s, rows, Some (read_plan plan prior, pi))
                     | None => Raise KeyError "prior_interpretation" end
        | _ => Raise TypeError "prior"
        end
  | None => Ok (s, rows, Some (plan, if first then PNone else earlier_interpretation s w fingerprint))
  end.

Definition derive_step (s : session) (w : ZktCustodyWork) (raw : bytes) (now : bool) : res (session * ZktDerivedEvidence) :=
  if negb (input_ok w raw) then Raise DerivedEvidenceInvalid "DERIVED_INPUT_CHANGED"
  else
    '(s, rows, start) ← step_start s w raw;
    match start, last rows with
    | None, Some row => Ok (s, row)
    | None, None => Raise IndexError "rows"
    | Some (plan, prior), previous =>
        if MAX_STEPS <=? zlen rows then Raise DerivedEvidenceInvalid "DERIVED_PROGRESS_BOUNDS"
        else
          '(layouts, recs) ← derive_layouts (p_source plan) raw (p_layouts plan) [];
          let plan := set_layouts plan layouts in
          let value := step_value w (input_fingerprint w) (zlen rows) prior (d_evidence_digest <$> previous) plan recs in
          if MAX_PLAINTEXT <? zlen (dumps_plain value) then Raise DerivedEvidenceInvalid "DERIVED_EVIDENCE_BOUNDS"
          else
            protected ← encrypt_json value;
            let row := mkRow (next_id d_id (stored s ++ unflushed s)) (w_id w) INTERPRETATION_VERSION (input_fingerprint w) (zlen rows)
              (result_of layouts) (zlen recs) (zlen (List.filter failed recs)) (d_evidence_digest <$> previous) (digest value) protected in
            let s := mkSession (stored s) (unflushed s ++ [row]) (transaction s) (prefetch s) in
            Ok (if now then flush s else s, row)
    end.
(** ** Reading a chain back *)

(** [type(actual) is type(expected) and actual == expected] for a text, a number or null *)
Definition same_typed (actual expected : pyval) : bool :=
  match actual, expected with
  | PNone, PNone => true
  | PStr s, PStr t => bool_decide (s = t)
  | PInt z, PInt y => z =? y
  | _, _ => false
  end.

Definition is_int (v : pyval) (z : Z) : bool := match v with PInt y => y =? z | _ => false end.

(** One stored record against its raw span: [Some true] for a rejected record,
    [Some false] for decoded facts, or the reason the span is not accounted for. *)
Definition verify_record (source : bool) (raw : bytes) (size index : Z) (row : pyval) : res bool :=
  let offset := span_offset source size index in
  if negb (is_dict row && is_int (get "offset" row) offset && is_int (get "length" row) size
           && eq_str (get "raw_digest" row) (sha256_hex (span raw offset size)))
  then Raise DerivedEvidenceInvalid "DERIVED_RECORD_COVERAGE_CHANGED"
  else
    match get "error_code" row with
    | PNone =>
        let facts := get "facts" row in
        if is_dict facts && is_int (get "offset" facts) offset && is_int (get "length" facts) size then Ok false
        else Raise DerivedEvidenceInvalid "DERIVED_RECORD_DISPOSITION_CHANGED"
    | PStr error =>
        if bool_decide (error = "") || (80 <? text_len error) || negb (is_none (get "facts" row))
        then Raise DerivedEvidenceInvalid "DERIVED_RECORD_DISPOSITION_CHANGED" else Ok true
    | _ => Raise DerivedEvidenceInvalid "DERIVED_RECORD_DISPOSITION_CHANGED"
    end.

(** The loop over the records, whose cursor is [consumed]: the records not yet read. *)
Definition verify_index (source : bool) (raw : bytes) (acc : Layout * list pyval * Z) (index : Z) : res (Layout * list pyval * Z) :=
  let '(l, rest, errors) := acc in
  match rest with
  | [] => Raise DerivedEvidenceInvalid "DERIVED_RECORD_COVERAGE_CHANGED"
  | row :: rest =>
      error ← verify_record source raw (l_size l) index row;
      Ok (advance l error, rest, errors + (if error : bool then 1 else 0))
  end.

Fixpoint verify_layouts (source : bool) (raw : bytes) (n : Z) (ls : list Layout) (rest : list pyval) (errors : Z)
    : res (list Layout * list pyval * Z) :=
  match ls with
  | [] => Ok ([], rest, errors)
  | l :: ls' =>
      '(l, rest, errors) ← foldR (verify_index source raw) (py_range (l_processed l) (layout_stop l (n - zlen rest)) 1) (l, rest, errors);
      if n - zlen rest =? RECORDS_PER_STEP then Ok (l :: ls', rest, errors)
      else
        '(ls', rest, errors) ← verify_layouts source raw n ls' rest errors;
        Ok (l :: ls', rest, errors)
  end.

Definition provenance_ok (w : ZktCustodyWork) (decoder_version : string) (value : pyval) : bool :=
  same_typed (get "decoder_version" value) (PStr decoder_version)
  && same_typed (get "reported_profile" value) (opt_str (w_decoder_profile w))
  && same_typed (get "reported_decoder_version" value) (opt_str (w_decoder_version w))
  && same_typed (get "source_manifest_id" value) (opt_int (w_source_manifest_id w))
  && same_typed (get "input_digest" value) (opt_str (w_expected_digest w))
  && same_typed (get "input_bytes" value) (opt_int (w_expected_bytes w))
  && same_typed (get "evidence_revision" value) (PInt (w_evidence_revision w)).

(** [_verify_coverage]: the progress after the step *)
Definition _verify_coverage (w : ZktCustodyWork) (raw : bytes) (value : pyval) (progress : Plan) (decoder_version : string) : res Plan :=
  if negb (provenance_ok w decoder_version value) then Raise DerivedEvidenceInvalid "DERIVED_PROVENANCE_CHANGED"
  else
    match get "records" value, get "error_count" value with
    | PList records, PInt error_count =>
        if negb ((zlen records <=? RECORDS_PER_STEP) && is_int (get "record_count" value) (zlen records))
        then Raise DerivedEvidenceInvalid "DERIVED_RECORD_COVERAGE_CHANGED"
        else
          '(layouts, rest, errors) ← verify_layouts (p_source progress) raw (zlen records) (p_layouts progress) records 0;
          let progress := set_layouts progress layouts in
          if negb (bool_decide (length rest = 0%nat)) || negb (errors =? error_count)
             || negb (py_eq (plan_json progress) (get "plan" value))
          then Raise DerivedEvidenceInvalid "DERIVED_RECORD_COVERAGE_CHANGED"
          else if negb (py_eq (get "plausible_layouts" value) (PList (map PInt (plausible layouts))))
                  || negb (eq_str (get "result" value) (result_of layouts))
          then Raise DerivedEvidenceInvalid "DERIVED_COMPLETION_CHANGED"
          else Ok progress
    | _, _ => Raise DerivedEvidenceInvalid "DERIVED_RECORD_COVERAGE_CHANGED"
    end.

(** [verified_steps], consumed to its end *)
Definition verify_step (w : ZktCustodyWork) (raw : bytes) (plan : Plan) (decoder_version : string) (acc : Plan * list pyval)
    (row : ZktDerivedEvidence) : res (Plan * list pyval) :=
  let '(progress, values) := acc in
  value ← _unseal row w plan;
  progress ← _verify_coverage w raw value progress decoder_version;
  Ok (progress, values ++ [value]).

Definition verified_steps (s : session) (w : ZktCustodyWork) (raw : bytes) (version decoder_version : string) : res (list pyval) :=
  if negb (input_ok w raw) then Raise DerivedEvidenceInvalid "DERIVED_INPUT_CHANGED"
  else
    let plan := _plan raw (w_kind w) in
    rows ← _chain_rows s w (input_fingerprint w) version;
    if match last rows with None => true | Some row => bool_decide (d_result row = "PENDING") end
    then Raise DerivedEvidenceInvalid "DERIVED_INCOMPLETE"
    else snd <$> foldR (verify_step w raw plan decoder_version) rows (plan, []).
End chain.
