(* ===== verification/DerivedSize.v ===== *)
(** * The JSON of a derived step stays within its bound

    [fits v n]: the value is ASCII and [json.dumps(v)] takes at most [n] bytes.
    A step of 128 records fits MAX_PLAINTEXT, so the bound never refuses one. *)
From S2P Require Import Prelude PyText Hashes PyJson Calendar ZktPacket ZktDecode QueueEvidence Custody DerivedEvidence.
Open Scope string_scope.
Open Scope list_scope.
Open Scope Z_scope.

Definition ascii_str (s : string) : bool := forallb (λ b, zb b <? 128) (chars s).
Fixpoint ascii_json (v : pyval) : bool :=
  match v with
  | PStr s => ascii_str s
  | PList l => forallb ascii_json l
  | PDict d => forallb (λ kv, ascii_str kv.1 && ascii_json kv.2) d
  | _ => true
  end.
Definition fits (v : pyval) (n : Z) : Prop := ascii_json v = true ∧ zlen (dumps_plain v) <= n.

Definition printable (b : byte) : bool := in_range 32 126 b.
Definition clean (b : byte) : bool := printable b && negb (bool_decide (b = quote)) && negb (bool_decide (b = backslash)).

Lemma fits_mono v n m : fits v n → n <= m → fits v m.
Proof. intros [H1 H2] H. split; [done|lia]. Qed.

Lemma escape_printable b : printable b = true → (length (escape_byte b) ≤ 2)%nat.
Proof. destruct b; vm_compute; intros H; try discriminate H; lia. Qed.
Lemma escape_clean b : clean b = true → escape_byte b = [b].
Proof. destruct b; vm_compute; intros H; (discriminate H || reflexivity). Qed.
Lemma printable_ascii b : printable b = true → (zb b <? 128) = true.
Proof. unfold printable, in_range. intros H. bool_prop. lia. Qed.
Lemma clean_printable b : clean b = true → printable b = true.
Proof. unfold clean. rewrite !andb_true_iff. tauto. Qed.

Lemma zlen_app {A} (l k : list A) : zlen (l ++ k) = zlen l + zlen k.
Proof. unfold zlen. rewrite length_app. lia. Qed.
Lemma zlen_cons {A} (x : A) l : zlen (x :: l) = 1 + zlen l.
Proof. unfold zlen. simpl. lia. Qed.

Lemma forallb_impl {A} (p q : A → bool) l : (∀ x, p x = true → q x = true) → forallb p l = true → forallb q l = true.
Proof. rewrite !forallb_forall. auto. Qed.

Lemma dump_str_printable s : forallb printable (chars s) = true → zlen (dump_str s) <= 2 + 2 * zlen (chars s).
Proof.
  unfold dump_str. rewrite !zlen_app. change (zlen [quote]) with 1. induction (chars s) as [|b l IH]; intros H; [by vm_compute|].
  simpl in *. apply andb_true_iff in H as [Hb Hl]. rewrite zlen_app, zlen_cons. specialize (IH Hl).
  pose proof (escape_printable b Hb). unfold zlen in *. lia.
Qed.
Lemma dump_str_clean s : forallb clean (chars s) = true → zlen (dump_str s) = 2 + zlen (chars s).
Proof.
  unfold dump_str. rewrite !zlen_app. change (zlen [quote]) with 1. induction (chars s) as [|b l IH]; intros H; [done|].
  simpl in *. apply andb_true_iff in H as [Hb Hl]. rewrite zlen_app, zlen_cons, (escape_clean b Hb). specialize (IH Hl).
  change (zlen [b]) with 1. lia.
Qed.

(** ** Leaves *)
Lemma fits_printable s n : forallb printable (chars s) = true → zlen (chars s) <= n → fits (PStr s) (2 + 2 * n).
Proof.
  intros H Hn. split; [simpl; unfold ascii_str; by eapply forallb_impl, H; apply printable_ascii|].
  pose proof (dump_str_printable s H). simpl. lia.
Qed.
Lemma fits_clean s n : forallb clean (chars s) = true → zlen (chars s) <= n → fits (PStr s) (2 + n).
Proof.
  intros H Hn. split.
  - simpl. unfold ascii_str. eapply forallb_impl, H. intros b Hb. by apply printable_ascii, clean_printable.
  - pose proof (dump_str_clean s H). simpl. lia.
Qed.
Lemma py_str_length n z : (0 < n)%nat → 0 <= z < 10 ^ Z.of_nat n → zlen (chars (py_str z)) <= Z.of_nat n.
Proof. intros Hn Hz. unfold py_str, zlen. rewrite chars_of_chars. pose proof (dec_digits_length n (dec_fuel z) z Hz Hn). lia. Qed.
Lemma fits_int n z : (0 < n)%nat → 0 <= z < 10 ^ Z.of_nat n → fits (PInt z) (Z.of_nat n).
Proof.
  intros Hn Hz. split; [done|]. simpl. unfold dump_int. rewrite (proj2 (Z.ltb_ge z 0)) by lia. by apply py_str_length.
Qed.
Lemma fits_none : fits PNone 4.
Proof. by split. Qed.
Lemma fits_bool b : fits (PBool b) 5.
Proof. by destruct b. Qed.

(** ** Objects and lists *)
Lemma join_cons sep p ps : zlen (join sep (p :: ps)) <= zlen p + zlen sep + zlen (join sep ps).
Proof. destruct ps as [|q ps]; cbn [join]; rewrite ?zlen_app; unfold zlen; simpl; lia. Qed.

Definition key_room (k : string) : Z := zlen (dump_str k) + 4.
Lemma fits_dict m ns : Forall2 (λ kv n, ascii_str kv.1 = true ∧ fits kv.2 n) m ns →
  fits (PDict m) (2 + sumZ (zip_with (λ k n, key_room k + n) (map fst m) ns)).
Proof.
  intros H. split.
  - induction H as [|kv n m ns [H1 [H2 _]] _ IH]; [done|]. simpl in *. by rewrite H1, H2.
  - cbn [dumps_plain]. rewrite !zlen_app. change (zlen (chars "{")) with 1. change (zlen (chars "}")) with 1.
    enough (Hj : zlen (join (chars ", ") (map (λ kv, dump_str kv.1 ++ chars ": " ++ dumps_plain kv.2) m))
            <= sumZ (zip_with (λ k n, key_room k + n) (map fst m) ns)) by lia.
    induction H as [|kv n m ns [_ [_ Hn]] _ IH]; [by vm_compute|]. cbn [map zip_with]. unfold sumZ in *. cbn [foldr].
    etrans; [apply join_cons|]. rewrite !zlen_app. change (zlen (chars ", ")) with 2. change (zlen (chars ": ")) with 2.
    change (key_room kv.1) with (zlen (dump_str kv.1) + 4). lia.
Qed.
Lemma fits_list l n : Forall (λ v, fits v n) l → fits (PList l) (2 + zlen l * (n + 2)).
Proof.
  intros H. split.
  - induction H as [|v l [H1 _] _ IH]; [done|]. simpl in *. by rewrite H1.
  - cbn [dumps_plain]. rewrite !zlen_app. change (zlen (chars "[")) with 1. change (zlen (chars "]")) with 1.
    enough (zlen (join (chars ", ") (map dumps_plain l)) <= zlen l * (n + 2)) by lia.
    induction H as [|v l [_ Hn] _ IH]; [done|]. cbn [map]. etrans; [apply join_cons|]. change (zlen (chars ", ")) with 2.
    rewrite zlen_cons. lia.
Qed.
Ltac fits_fields := repeat (apply Forall2_cons; split; [split; [reflexivity|]|]); [..|apply Forall2_nil_2].

(** ** Texts *)
Lemma clean_app s t : forallb clean (chars s) = true → forallb clean (chars t) = true → forallb clean (chars (s +:+ t)) = true.
Proof. intros H1 H2. by rewrite chars_app, forallb_app, H1, H2. Qed.
Lemma digit_clean b : is_digit b = true → clean b = true.
Proof. destruct b; vm_compute; intros H; (discriminate H || reflexivity). Qed.
Lemma py_str_clean z : forallb clean (chars (py_str z)) = true.
Proof. eapply forallb_impl; [apply digit_clean|]. apply py_str_digits. Qed.
Lemma pad_left_clean n z : forallb clean (chars (pad_left n (py_str z))) = true.
Proof.
  unfold pad_left. rewrite chars_of_chars, forallb_app, py_str_clean, andb_true_r. induction (n - _)%nat; [done|]. simpl. done.
Qed.
Lemma pad_left_length n z : (0 < n)%nat → 0 <= z < 10 ^ Z.of_nat n → zlen (chars (pad_left n (py_str z))) = Z.of_nat n.
Proof.
  intros Hn Hz. unfold pad_left. rewrite chars_of_chars, zlen_app. pose proof (py_str_length n z Hn Hz).
  unfold zlen in *. rewrite length_replicate. lia.
Qed.

Lemma hex_digit_clean b : forallb clean (chars (hex_digit (zb b / 16) +:+ hex_digit (zb b mod 16))) = true ∧
  length (chars (hex_digit (zb b / 16) +:+ hex_digit (zb b mod 16))) = 2%nat.
Proof. destruct b; vm_compute; split; reflexivity. Qed.
Lemma hex_clean raw : forallb clean (chars (hex raw)) = true ∧ zlen (chars (hex raw)) = 2 * zlen raw.
Proof.
  induction raw as [|b raw [IH1 IH2]]; [done|]. cbn [hex]. destruct (hex_digit_clean b) as [H1 H2].
  rewrite !chars_app in *. rewrite !forallb_app in *. rewrite zlen_cons, !zlen_app in *. unfold zlen in *.
  rewrite length_app in H2. rewrite IH1, andb_true_r. split; [done|lia].
Qed.
Lemma fits_sha raw : fits (PStr (sha256_hex raw)) 66.
Proof.
  unfold sha256_hex. destruct (hex_clean (sha256 raw)) as [H1 H2]. apply (fits_clean _ 64); [done|]. rewrite H2. unfold zlen.
  rewrite sha256_length. lia.
Qed.

(** ** Times *)
Definition iso_ok (t : datetime) : Prop :=
  0 <= year t < 10 ^ 4 ∧ 0 <= month t < 10 ^ 2 ∧ 0 <= day t < 10 ^ 2 ∧ 0 <= hour t < 10 ^ 2 ∧ 0 <= minute t < 10 ^ 2 ∧
  0 <= second t < 10 ^ 2 ∧ microsecond t = 0 ∧ ∃ off, utcoffset t = Some off ∧ 0 <= off < 86400.

Lemma fits_isoformat t : iso_ok t → fits (PStr (isoformat t)) 27.
Proof.
  intros (Hy & Hmo & Hd & Hh & Hmi & Hs & Hu & off & Ho & Hoff). unfold isoformat. rewrite Hu, Ho. simpl (0 =? 0).
  assert (H1 : 0 <= Z.abs off / 3600 < 10 ^ 2) by dlia. assert (H2 : 0 <= Z.abs off mod 3600 / 60 < 10 ^ 2) by dlia.
  replace (off <? 0) with false by (symmetry; apply Z.ltb_ge; lia). apply (fits_clean _ 25).
  - repeat (apply clean_app; [first [apply pad_left_clean | reflexivity]|]). apply pad_left_clean.
  - rewrite !chars_app, !zlen_app. rewrite (pad_left_length 4), !(pad_left_length 2); [vm_compute; discriminate|lia..].
Qed.

Lemma profile_iso t : datetime_ok t = true → profile_time t → iso_ok t ∧ iso_ok (to_utc t).
Proof.
  unfold datetime_ok, date_ok, profile_time, iso_ok, PAKISTAN_TIME. intros H (Ho & Hy & Hu). bool_prop.
  pose proof (days_in_month_range (year t) (month t)). split.
  - split_and!; try lia. exists 18000. split; [exact Ho|lia].
  - unfold to_utc. rewrite Ho. set (secs := _ - _).
    pose proof (days_in_month_range (year t) (month t - 1)). pose proof (Z.mod_pos_bound secs 86400 ltac:(lia)).
    assert (Hneg : secs < 86400) by (unfold secs; lia).
    destruct (Z.ltb_spec secs 0) as [Hl|Hl]; [|rewrite (proj2 (Z.leb_gt 86400 secs)) by lia].
    + unfold prev_day. destruct (1 <? day t) eqn:E1; [|destruct (1 <? month t) eqn:E2]; bool_prop;
        cbn [year month day hour minute second microsecond utcoffset]; split_and!; try (lia || dlia); by exists 0.
    + cbn [year month day hour minute second microsecond utcoffset]. split_and!; try (lia || dlia). by exists 0.
Qed.

(** ** One record *)
Lemma fits_facts u a e lt s p o l :
  fits (opt_str u) 50 → fits (opt_int a) 5 → datetime_ok lt = true → profile_time lt → 0 <= e < 10 ^ 10 → 0 <= s < 10 ^ 3 →
  0 <= p < 10 ^ 3 → 0 <= o < 10 ^ 6 → 0 <= l < 10 ^ 2 → fits (facts_json (mkFacts u a e lt (to_utc lt) s p o l)) 263.
Proof.
  intros Hu Ha Hok Hp He Hs Hpu Ho Hl. destruct (profile_iso lt Hok Hp) as [H1 H2].
  eapply fits_mono; [apply (fits_dict _ [50; 5; 10; 27; 27; 3; 3; 6; 2])|lazy; discriminate]. fits_fields; cbn [snd].
  - exact Hu.
  - exact Ha.
  - by apply (fits_int 10); [lia|].
  - by apply fits_isoformat.
  - by apply fits_isoformat.
  - by apply (fits_int 3); [lia|].
  - by apply (fits_int 3); [lia|].
  - by apply (fits_int 6); [lia|].
  - by apply (fits_int 2); [lia|].
Qed.

Lemma text_id_fits raw u : (length raw ≤ 24)%nat → _text_id raw = Ok u → fits (PStr u) 50.
Proof.
  intros Hlen H. unfold _text_id in H. destruct (_ || _) eqn:E; [done|]. injection H as <-. apply orb_false_iff in E as [_ E].
  apply (fits_printable _ 24).
  - rewrite chars_of_chars. apply forallb_forall. intros b Hb. unfold printable, in_range.
    destruct (existsb_exists (λ b, (zb b <? 32) || (126 <? zb b)) (rstrip_bytes is_space (before x00 raw))) as [_ Hex].
    destruct ((zb b <? 32) || (126 <? zb b)) eqn:Eb; [|bool_prop; lia]. rewrite Hex in E by eauto. done.
  - rewrite chars_of_chars. unfold zlen. pose proof (rstrip_length is_space (before x00 raw)). pose proof (before_length x00 raw). lia.
Qed.
Lemma fits_number n raw : (length raw ≤ 4)%nat → n = le_int raw → fits (PStr (py_str n)) 50 ∧ 0 <= n < 10 ^ 10.
Proof.
  intros Hlen ->. pose proof (le_int_range raw) as Hr.
  assert (256 ^ Z.of_nat (length raw) <= 256 ^ 4) by (apply Z.pow_le_mono_r; lia).
  split; [|lia]. eapply fits_mono; [apply (fits_clean _ 10); [apply py_str_clean|apply (py_str_length 10); lia]|lia].
Qed.
Lemma byte_at_bound raw i : 0 <= byte_at raw i < 10 ^ 3.
Proof. unfold byte_at. pose proof (zb_range (nth i raw x00)). lia. Qed.
Lemma encode_bound t e : datetime_ok t = true → encode_time t = Ok e → profile_time t ∧ 0 <= e < 10 ^ 10.
Proof. intros Hok [Hp ->]%encode_time_ok. split; [done|]. pose proof (packed_range t Hok Hp). lia. Qed.
Lemma slice_le {A} a b n (l : list A) : (b - a ≤ n)%nat → (length (slice a b l) ≤ n)%nat.
Proof. intros H. unfold slice. rewrite length_take. lia. Qed.

Lemma facts_of u a e s p o l f : _facts u a e s p o l = Ok f → fits (opt_str u) 50 → fits (opt_int a) 5 → 0 <= s < 10 ^ 3 →
  0 <= p < 10 ^ 3 → 0 <= o < 10 ^ 6 → 0 <= l < 10 ^ 2 → fits (facts_json f) 263.
Proof.
  intros (lt & Hok & He & ->)%facts_ok Hu Ha Hs Hp Ho Hl. destruct (encode_bound lt e Hok He) as [Ht Hb]. by apply fits_facts.
Qed.

Lemma source_facts_fit raw n o f : decode_source raw n o = Ok f → o < 10 ^ 6 → n < 10 ^ 2 → fits (facts_json f) 263.
Proof.
  intros H Ho Hn. pose proof (decode_source_shape _ _ _ _ H) as (_ & _ & Ho0 & Hlen). unfold decode_source in H. inv_step H.
  assert (Hn0 : 0 <= n) by (unfold zlen in Hlen; lia).
  assert (Huid : fits (opt_int (if negb (n =? 16) then Some (le_int (slice 0 2 raw)) else None)) 5).
  { destruct (negb (n =? 16)); [|eapply fits_mono; [apply fits_none|lia]]. apply (fits_int 5); [lia|].
    pose proof (le_int_range (slice 0 2 raw)). pose proof (slice_le 0 2 2 raw ltac:(lia)).
    assert (256 ^ Z.of_nat (length (slice 0 2 raw)) <= 256 ^ 2) by (apply Z.pow_le_mono_r; lia). lia. }
  pose proof (byte_at_bound raw) as Hb. repeat inv_step H; try (eapply facts_of; [exact H|..]; auto; try lia).
  - eapply fits_mono; [apply fits_none|lia].
  - apply (fits_number _ (slice 0 4 raw)); [by apply slice_le|done].
  - match goal with E : _text_id _ = Ok _ |- _ => apply text_id_fits in E; [exact E|by apply slice_le] end.
Qed.

Lemma live_facts_fit raw n o f : decode_live_record raw n o = Ok f → o < 10 ^ 6 → n < 10 ^ 2 → fits (facts_json f) 263.
Proof.
  intros H Ho Hn. unfold decode_live_record in H. inv_step H. bool_prop. pose proof (byte_at_bound raw) as Hb.
  apply bind_ok in H as (u & Hu & H).
  assert (Hfit : fits (PStr u) 50).
  { destruct (bool_decide _) in Hu.
    - injection Hu as <-. apply (fits_number _ (slice 0 4 raw)); [by apply slice_le|done].
    - eapply text_id_fits; [|exact Hu]. by apply slice_le. }
  inv_step H. apply bind_ok in H as (e & He & H). eapply facts_of; [exact H|exact Hfit|..]; auto; try lia.
  - eapply fits_mono; [apply fits_none|lia].
  - unfold zlen in *. lia.
Qed.

Lemma error_fits (code : string) : code ∈ "SOURCE_RECORD_BOUNDARY" :: "LIVE_RECORD_BOUNDARY" :: record_errors → fits (PStr code) 40.
Proof.
  assert (Forall (λ c, forallb clean (chars c) = true ∧ zlen (chars c) <= 38) ("SOURCE_RECORD_BOUNDARY" :: "LIVE_RECORD_BOUNDARY" :: record_errors)) as H.
  { repeat constructor; vm_compute; discriminate. }
  intros Hc. rewrite Forall_forall in H. destruct (H code Hc) as [H1 H2]. by apply (fits_clean _ 38).
Qed.

Lemma evidence_fits source raw size index e : derive_record source raw size index = Ok e →
  0 <= span_offset source size index < 10 ^ 6 → 0 <= size < 10 ^ 2 → fits (evidence_json e) 446.
Proof.
  intros H Ho Hs. set (o := span_offset source size index) in *.
  assert (Hcases : ∃ code facts, e = mkEvidence o size (sha256_hex (span raw o size)) code facts ∧ fits (opt_str code) 40 ∧
    fits (match facts with Some f => facts_json f | None => PNone end) 263).
  { unfold derive_record in H. fold o in H.
    destruct ((if source then decode_source else decode_live_record) (span raw o size) size o) as [f|c m] eqn:E.
    - injection H as <-. exists None, (Some f). split_and!; [done|eapply fits_mono; [apply fits_none|lia]|].
      destruct source; [eapply source_facts_fit|eapply live_facts_fit]; try done; lia.
    - assert (Hm : c = DecodeError ∧ m ∈ "SOURCE_RECORD_BOUNDARY" :: "LIVE_RECORD_BOUNDARY" :: record_errors).
      { destruct source; [apply decode_source_msg in E as [-> E]|apply decode_live_record_msg in E as [-> E]]; (split; [done|]);
          rewrite elem_of_cons in E; rewrite !elem_of_cons; tauto. }
      destruct Hm as [-> Hm]. injection H as <-. exists (Some m), None.
      split_and!; [done|by apply error_fits|eapply fits_mono; [apply fits_none|lia]]. }
  destruct Hcases as (code & facts & -> & Hc & Hf).
  eapply fits_mono; [apply (fits_dict _ [6; 2; 66; 40; 263])|lazy; discriminate]. fits_fields; cbn [snd].
  - by apply (fits_int 6); [lia|].
  - by apply (fits_int 2); [lia|].
  - apply fits_sha.
  - exact Hc.
  - exact Hf.
Qed.

(** ** A step *)

(** The texts of a work row and of an earlier interpretation are bounded by their
    columns; the numbers by theirs. *)
Record work_fits (w : ZktCustodyWork) : Prop := {
  fit_key : fits (PStr (w_work_key w)) 200;
  fit_profile : fits (opt_str (w_decoder_profile w)) 400;
  fit_version : fits (opt_str (w_decoder_version w)) 400;
  fit_manifest : fits (opt_int (w_source_manifest_id w)) 20;
  fit_revision : fits (PInt (w_evidence_revision w)) 20 }.

Definition layout_small (l : Layout) : Prop :=
  0 <= l_size l < 10 ^ 2 ∧ l_total l < 10 ^ 6 ∧ 0 <= l_errors l <= l_processed l ∧ l_processed l <= l_total l.
Definition header_small (h : Header) : Prop :=
  0 <= h_command h < 10 ^ 5 ∧ 0 <= h_checksum h < 10 ^ 5 ∧ 0 <= h_session_id h < 10 ^ 5 ∧ 0 <= h_reply_id h < 10 ^ 5.
Record plan_small (p : Plan) : Prop := {
  small_layouts : Forall layout_small (p_layouts p);
  small_count : zlen (p_layouts p) <= 4;
  small_header : ∀ h, p_header p = Some h → header_small h;
  small_framing : fits (opt_str (p_framing_error p)) 50 }.

Lemma layout_fits l : layout_small l → fits (layout_json l) 78.
Proof.
  intros (Hs & Ht & He & Hp). eapply fits_mono; [apply (fits_dict _ [2; 6; 6; 6])|lazy; discriminate]. fits_fields; cbn [snd].
  - apply (fits_int 2); lia.
  - apply (fits_int 6); lia.
  - apply (fits_int 6); lia.
  - apply (fits_int 6); lia.
Qed.
Lemma header_fits o : (∀ h, o = Some h → header_small h) → fits (opt_header o) 200.
Proof.
  destruct o as [h|]; [|intros _; eapply fits_mono; [apply fits_none|lia]]. intros Hh. destruct (Hh h eq_refl) as (H1 & H2 & H3 & H4).
  eapply fits_mono; [apply (fits_dict _ [5; 5; 5; 5; 5; 5])|lazy; discriminate].
  fits_fields; cbn [snd]; [apply (fits_int 5); lia.. |apply fits_bool|apply fits_bool].
Qed.
Lemma plan_fits p : plan_small p → fits (plan_json p) 700.
Proof.
  intros [Hl Hc Hh Hf]. eapply fits_mono; [apply (fits_dict _ [5; 200; 50; 322])|lazy; discriminate]. fits_fields; cbn [snd].
  - apply fits_bool.
  - by apply header_fits.
  - exact Hf.
  - eapply fits_mono; [apply (fits_list _ 78), Forall_fmap; eapply Forall_impl; [exact Hl|apply layout_fits]|].
    unfold zlen in *. rewrite length_map. lia.
Qed.

Lemma result_fits ls : fits (PStr (result_of ls)) 30.
Proof.
  unfold result_of. eapply fits_mono; [apply (fits_clean _ 20)|lia];
    destruct (negb _); try destruct (1 <? _); try destruct (bool_decide _); vm_compute; try reflexivity; discriminate.
Qed.
Lemma plausible_fits ls : Forall layout_small ls → zlen ls <= 4 → fits (PList (map PInt (plausible ls))) 18.
Proof.
  intros Hl Hc. eapply fits_mono; [apply (fits_list _ 2)|].
  - unfold plausible. rewrite map_map. apply Forall_fmap, Forall_forall. intros l [Hin _]%list_elem_of_In%filter_In.
    rewrite Forall_forall in Hl. apply list_elem_of_In in Hin. destruct (Hl l Hin) as (Hs & _). apply (fits_int 2); [lia|exact Hs].
  - unfold plausible, zlen in *. rewrite !length_map. pose proof (List.filter_length_le (λ l, (l_errors l =? 0) && complete ls) ls). lia.
Qed.

Lemma value_fits w fp index prior previous plan recs raw :
  work_fits w → w_expected_digest w = Some (sha256_hex raw) → w_expected_bytes w = Some (zlen raw) → zlen raw <= PACKET_MAX →
  fits (PStr fp) 66 → fits (PInt index) 6 → fits prior 600 → fits (opt_str previous) 66 → plan_small plan →
  Forall (λ e, fits (evidence_json e) 446) recs → zlen recs <= RECORDS_PER_STEP →
  fits (step_value w fp index prior previous plan recs) MAX_PLAINTEXT.
Proof.
  intros [F1 F2 F3 F4 F5] Hd Hb Hraw Hfp Hi Hprior Hprev Hplan Hrecs Hn. pose proof (small_layouts _ Hplan) as Hls.
  pose proof (small_count _ Hplan) as Hc.
  eapply fits_mono; [apply (fits_dict _ [6; 20; 200; 66; 40; 40; 400; 400; 20; 66; 6; 20; 6; 600; 66; 30; 6; 6; 700; 18; 58000])|lazy; discriminate].
  unfold PACKET_MAX, RECORDS_PER_STEP in *. rewrite Hd, Hb. fits_fields; cbn [snd]; try assumption.
  - apply (fits_int 6); lia.
  - eapply fits_mono; [apply (fits_clean _ 11)|]; vm_compute; try reflexivity; discriminate.
  - eapply fits_mono; [apply (fits_clean _ 30)|]; vm_compute; try reflexivity; discriminate.
  - eapply fits_mono; [apply (fits_clean _ 30)|]; vm_compute; try reflexivity; discriminate.
  - apply fits_sha.
  - apply (fits_int 6); unfold zlen in *; lia.
  - apply result_fits.
  - apply (fits_int 6); unfold zlen in *; lia.
  - apply (fits_int 6); [lia|]. unfold zlen in *. pose proof (List.filter_length_le failed recs). lia.
  - by apply plan_fits.
  - by apply plausible_fits.
  - eapply fits_mono; [apply (fits_list _ 446), Forall_fmap, Hrecs|]. unfold zlen in *. rewrite length_map. lia.
Qed.
