(* ===== verification/DerivedChain.v ===== *)
(** * What a derived interpretation chain establishes

    The batches of [derive_step] are the decoding of every record of every
    candidate layout, cut into pieces of 128; a chain completes within MAX_STEPS;
    [verified_steps] accepts the chains [derive_step] writes, and whatever chain
    it accepts accounts for every raw span in order. *)
From S2P Require Import Prelude PyText Hashes PyJson Calendar ZktPacket ZktDecode QueueEvidence Custody DerivedEvidence DerivedSize.
Open Scope string_scope.
Open Scope list_scope.
Open Scope Z_scope.

Lemma py_range_one a b : py_range a b 1 = seqZ a (b - a).
Proof.
  unfold py_range, seqZ. replace ((b - a + 1 - 1) / 1) with (b - a) by (rewrite Z.div_1_r; lia).
  apply map_ext. intros i. lia.
Qed.

(** ** Spans: the (size, index) pairs of the records still to decode *)
Definition unfinished (l : Layout) : Z := l_total l - l_processed l.
Definition layout_spans (l : Layout) : list (Z * Z) := map (pair (l_size l)) (seqZ (l_processed l) (unfinished l)).
Definition spans (ls : list Layout) : list (Z * Z) := concat (map layout_spans ls).
Definition layout_ok (l : Layout) : Prop := 0 <= l_errors l ∧ l_errors l <= l_processed l ∧ l_processed l <= l_total l.

(** Progress: the layouts after the records with these error flags. *)
Fixpoint mark (ls : list Layout) (flags : list bool) : list Layout :=
  match ls with
  | [] => []
  | l :: ls' => let n := Z.to_nat (unfinished l) in fold_left advance (take n flags) l :: mark ls' (drop n flags)
  end.

Definition count (flags : list bool) : Z := zlen (List.filter (λ b, b) flags).

Lemma advance_run flags l : fold_left advance flags l =
  mkLayout (l_size l) (l_total l) (l_processed l + zlen flags) (l_errors l + count flags).
Proof.
  revert l. induction flags as [|b flags IH]; intros l; simpl.
  - unfold zlen, count, zlen. simpl. rewrite !Z.add_0_r. by destruct l.
  - rewrite IH. unfold advance, count, zlen. cbn [l_size l_total l_processed l_errors]. destruct b; simpl; f_equal; lia.
Qed.

Lemma layout_spans_length l : layout_ok l → length (layout_spans l) = Z.to_nat (unfinished l).
Proof. intros _. unfold layout_spans. by rewrite length_map, length_seqZ. Qed.

Lemma count_bound flags : 0 <= count flags <= zlen flags.
Proof. unfold count, zlen. pose proof (List.filter_length_le (λ b : bool, b) flags). lia. Qed.

Lemma advance_ok flags l : layout_ok l → (length flags ≤ Z.to_nat (unfinished l))%nat → layout_ok (fold_left advance flags l).
Proof.
  unfold layout_ok, unfinished. intros (? & ? & ?) Hn. rewrite advance_run. pose proof (count_bound flags) as [? ?].
  unfold zlen in *. cbn [l_total l_processed l_errors]. split_and!; lia.
Qed.

Lemma mark_ok ls flags : Forall layout_ok ls → Forall layout_ok (mark ls flags).
Proof.
  intros H. revert flags. induction H as [|l ls Hl _ IH]; intros flags; simpl; constructor; [|apply IH].
  apply advance_ok; [done|]. rewrite length_take. lia.
Qed.

Lemma drop_seqZ n a k : drop n (seqZ a k) = seqZ (a + Z.of_nat n) (k - Z.of_nat n).
Proof.
  revert a k. induction n as [|n IH]; intros a k; [rewrite drop_0; f_equal; lia|].
  destruct (decide (0 < k)) as [Hk|Hk]; [|rewrite !seqZ_nil by lia; done].
  rewrite seqZ_cons by done. simpl. rewrite IH. f_equal; lia.
Qed.

Lemma advance_spans flags l : layout_ok l → (length flags ≤ Z.to_nat (unfinished l))%nat →
  layout_spans (fold_left advance flags l) = drop (length flags) (layout_spans l).
Proof.
  intros _ Hn. rewrite advance_run. unfold layout_spans, unfinished, zlen. cbn [l_size l_total l_processed].
  change (map (pair (l_size l)) ?x) with (pair (l_size l) <$> x). rewrite <- fmap_drop, drop_seqZ. f_equal. f_equal. lia.
Qed.

Lemma mark_spans ls flags : Forall layout_ok ls → spans (mark ls flags) = drop (length flags) (spans ls).
Proof.
  intros H. revert flags. unfold spans. induction H as [|l ls Hl _ IH]; intros flags; simpl; [by rewrite drop_nil|].
  rewrite advance_spans, IH by (done || rewrite length_take; lia).
  rewrite drop_app, layout_spans_length, length_take, length_drop by done. f_equal.
  destruct (decide (length flags ≤ Z.to_nat (unfinished l))%nat); [by rewrite Nat.min_r by lia|].
  rewrite !drop_ge; [done| |]; rewrite layout_spans_length by done; lia.
Qed.

Lemma mark_mark ls b1 b2 : Forall layout_ok ls → (length b1 ≤ length (spans ls))%nat → mark (mark ls b1) b2 = mark ls (b1 ++ b2).
Proof.
  intros H. revert b1 b2. unfold spans. induction H as [|l ls Hl _ IH]; intros b1 b2 Hlen; simpl; [done|].
  simpl in Hlen. rewrite length_app, layout_spans_length in Hlen by done.
  set (n := Z.to_nat (unfinished l)) in *.
  assert (Hu : Z.to_nat (unfinished (fold_left advance (take n b1) l)) = (n - length b1)%nat).
  { rewrite advance_run. unfold unfinished, zlen. cbn [l_total l_processed]. rewrite length_take. unfold n, unfinished. lia. }
  rewrite Hu, <- fold_left_app, take_app, drop_app. f_equal.
  destruct (decide (n ≤ length b1)%nat).
  - replace (n - length b1)%nat with 0%nat by lia. rewrite !drop_0. apply IH. rewrite length_drop. lia.
  - rewrite (drop_ge b1) by lia. simpl. rewrite IH by (simpl; lia). done.
Qed.

Lemma complete_spans ls : Forall layout_ok ls → complete ls = true ↔ spans ls = [].
Proof.
  unfold complete, spans. induction 1 as [|l ls Hl _ IH]; simpl; [done|]. rewrite andb_true_iff, IH, app_nil, Z.eqb_eq.
  assert (layout_spans l = [] ↔ l_processed l = l_total l) as ->; [|done].
  rewrite <- (length_zero_iff_nil (layout_spans l)), layout_spans_length by done. unfold unfinished, layout_ok in *. lia.
Qed.

(** ** The common loop of [derive_step] and [_verify_coverage] *)
Section walk.
Context {S : Type} (step : Z * Z → S → res (S * bool)) (used : S → Z).

Definition walk_index (acc : Layout * S) (index : Z) : res (Layout * S) :=
  '(s, b) ← step (l_size acc.1, index) acc.2; Ok (advance acc.1 b, s).

Fixpoint walk_layouts (ls : list Layout) (s : S) : res (list Layout * S) :=
  match ls with
  | [] => Ok ([], s)
  | l :: ls' =>
      '(l, s) ← foldR walk_index (py_range (l_processed l) (layout_stop l (used s)) 1) (l, s);
      if used s =? RECORDS_PER_STEP then Ok (l :: ls', s)
      else '(ls', s) ← walk_layouts ls' s; Ok (l :: ls', s)
  end.

(** The same work on a flat list of spans. *)
Fixpoint run (sps : list (Z * Z)) (s : S) : res (S * list bool) :=
  match sps with
  | [] => Ok (s, [])
  | sp :: sps' => '(s, b) ← step sp s; '(s, bs) ← run sps' s; Ok (s, b :: bs)
  end.

Lemma run_app sps1 sps2 s :
  run (sps1 ++ sps2) s = ('(s, b1) ← run sps1 s; '(s, b2) ← run sps2 s; Ok (s, b1 ++ b2)).
Proof.
  revert s. induction sps1 as [|sp sps1 IH]; intros s; simpl.
  - by destruct (run sps2 s) as [[? ?]|].
  - destruct (step sp s) as [[s1 b]|]; simpl; [|done]. rewrite IH. destruct (run sps1 s1) as [[s2 b1]|]; simpl; [|done].
    by destruct (run sps2 s2) as [[s3 b2]|].
Qed.

Lemma walk_range a n l s :
  foldR walk_index (seqZ a n) (l, s) = ('(s, bs) ← run (map (pair (l_size l)) (seqZ a n)) s; Ok (fold_left advance bs l, s)).
Proof.
  destruct (decide (0 <= n)) as [Hn|Hn]; [|by rewrite seqZ_nil by lia].
  rewrite <- (Z2Nat.id n Hn). generalize (Z.to_nat n) as k. clear n Hn. intros k. revert a l s.
  induction k as [|k IH]; intros a l s; [done|]. rewrite Nat2Z.inj_succ, seqZ_cons, Z.pred_succ by lia. simpl.
  unfold walk_index at 2. simpl. destruct (step (l_size l, a) s) as [[s1 b]|]; simpl; [|done].
  rewrite IH. simpl. by destruct (run _ s1) as [[s2 bs]|].
Qed.

Hypothesis step_used : ∀ sp s s' b, step sp s = Ok (s', b) → used s' = used s + 1.

Lemma run_used sps s s' bs : run sps s = Ok (s', bs) → used s' = used s + zlen sps ∧ length bs = length sps.
Proof.
  revert s bs. induction sps as [|sp sps IH]; intros s bs; simpl.
  - intros [= -> <-]. unfold zlen. simpl. split; [lia|done].
  - intros ([s1 b] & H1 & ([s2 bs2] & H2 & [= -> <-])%bind_ok)%bind_ok. apply step_used in H1. apply IH in H2 as [H2 H3].
    unfold zlen in *. simpl. split; lia.
Qed.

Lemma take_spans k (l : Layout) ls : layout_ok l →
  take k (spans (l :: ls)) = take k (layout_spans l) ++ take (k - Z.to_nat (unfinished l)) (spans ls).
Proof. intros Hl. unfold spans. simpl. by rewrite take_app, layout_spans_length. Qed.

Lemma take_seqZ n a k : take n (seqZ a k) = seqZ a (Z.min k (Z.of_nat n)).
Proof.
  revert a k. induction n as [|n IH]; intros a k; [rewrite take_0, seqZ_nil by lia; done|].
  destruct (decide (0 < k)) as [Hk|Hk]; [|rewrite !seqZ_nil by lia; done].
  rewrite (seqZ_cons _ k), (seqZ_cons _ (k `min` _)) by lia. simpl. rewrite IH. do 2 f_equal. lia.
Qed.

Lemma mark_nil ls : mark ls [] = ls.
Proof. induction ls as [|l ls IH]; simpl; [done|]. by rewrite take_nil, drop_nil, IH. Qed.

(** A walk is the run over the next spans, as many as the step has room for. *)
Lemma walk_run ls s : Forall layout_ok ls → used s < RECORDS_PER_STEP →
  walk_layouts ls s = ('(s, bs) ← run (take (Z.to_nat (RECORDS_PER_STEP - used s)) (spans ls)) s; Ok (mark ls bs, s)).
Proof.
  intros H. revert s. induction H as [|l ls Hl _ IH]; intros s Hs; [unfold spans; simpl; by rewrite take_nil|].
  cbn [walk_layouts]. rewrite py_range_one, walk_range, take_spans by done.
  set (k := Z.to_nat (RECORDS_PER_STEP - used s)). assert (Hk : Z.of_nat k = RECORDS_PER_STEP - used s) by lia.
  assert (Ht : map (pair (l_size l)) (seqZ (l_processed l) (layout_stop l (used s) - l_processed l)) = take k (layout_spans l)).
  { unfold layout_spans. change (map (pair (l_size l)) ?x) with (pair (l_size l) <$> x). rewrite <- fmap_take, take_seqZ.
    f_equal. f_equal. unfold layout_stop, unfinished, k. lia. }
  rewrite Ht, run_app. destruct (run (take k (layout_spans l)) s) as [[s1 b1]|] eqn:E; simpl; [|done].
  destruct (run_used _ _ _ _ E) as [Hu Hb]. unfold zlen in Hu. rewrite length_take, layout_spans_length in Hu, Hb by done.
  destruct (Z.eqb_spec (used s1) RECORDS_PER_STEP) as [He|He].
  - replace (k - Z.to_nat (unfinished l))%nat with 0%nat by lia. simpl. rewrite app_nil_r. do 2 f_equal.
    rewrite take_ge, drop_ge, mark_nil by lia. done.
  - rewrite IH by lia. replace (Z.to_nat (RECORDS_PER_STEP - used s1)) with (k - Z.to_nat (unfinished l))%nat by lia.
    destruct (run _ s1) as [[s2 b2]|]; simpl; [|done].
    assert (length b1 = Z.to_nat (unfinished l)) as Hb1 by lia.
    by rewrite <- Hb1, take_app_length, drop_app_length.
Qed.
End walk.

Lemma foldR_ext {A T} (f g : T → A → res T) l s : (∀ s x, f s x = g s x) → foldR f l s = foldR g l s.
Proof. intros H. revert s. induction l as [|x l IH]; intros s; simpl; [done|]. rewrite H. destruct (g s x); simpl; [apply IH|done]. Qed.

(** ** Decoding *)
Section decoding.
Context (source : bool) (raw : bytes).

Lemma derive_record_total size index : ∃ e, derive_record source raw size index = Ok e.
Proof.
  unfold derive_record.
  destruct ((if source then decode_source else decode_live_record) _ size _) as [f|c m] eqn:E; [by eexists|].
  destruct source; [apply decode_source_msg in E as [-> _]|apply decode_live_record_msg in E as [-> _]]; by eexists.
Qed.

(** The reference: the evidence of one record, on its own. *)
Definition evidence_at (sp : Z * Z) : Evidence :=
  match derive_record source raw sp.1 sp.2 with Ok e => e | Raise _ _ => mkEvidence 0 0 "" None None end.
Lemma derive_record_at sp : derive_record source raw sp.1 sp.2 = Ok (evidence_at sp).
Proof. unfold evidence_at. by destruct (derive_record_total sp.1 sp.2) as [e ->]. Qed.

Definition derive_one (sp : Z * Z) (recs : list Evidence) : res (list Evidence * bool) :=
  e ← derive_record source raw sp.1 sp.2; Ok (recs ++ [e], failed e).

Lemma derive_one_at sp recs : derive_one sp recs = Ok (recs ++ [evidence_at sp], failed (evidence_at sp)).
Proof. unfold derive_one. by rewrite derive_record_at. Qed.

Lemma derive_layouts_walk ls recs : derive_layouts source raw ls recs = walk_layouts derive_one zlen ls recs.
Proof.
  revert recs. induction ls as [|l ls IH]; intros recs; [done|]. cbn [derive_layouts walk_layouts].
  rewrite (foldR_ext _ (walk_index derive_one)).
  - destruct (foldR _ _ _) as [[l1 recs1]|]; simpl; [|done]. by rewrite IH.
  - intros [l1 recs1] i. unfold derive_index, walk_index, derive_one. simpl. by destruct (derive_record source raw (l_size l1) i).
Qed.

Lemma derive_run sps recs : run derive_one sps recs = Ok (recs ++ map evidence_at sps, map (λ sp, failed (evidence_at sp)) sps).
Proof.
  revert recs. induction sps as [|sp sps IH]; intros recs; simpl; [by rewrite app_nil_r|].
  rewrite derive_one_at. simpl. rewrite IH. simpl. by rewrite <- app_assoc.
Qed.

Definition batch (sps : list (Z * Z)) : list (Z * Z) := take (Z.to_nat RECORDS_PER_STEP) sps.
Definition flags_of (sps : list (Z * Z)) : list bool := map (λ sp, failed (evidence_at sp)) sps.

(** A step decodes the next 128 spans. *)
Lemma derive_layouts_batch ls : Forall layout_ok ls →
  derive_layouts source raw ls [] = Ok (mark ls (flags_of (batch (spans ls))), map evidence_at (batch (spans ls))).
Proof.
  intros Hls. rewrite derive_layouts_walk, walk_run; [|..|done|done].
  - rewrite derive_run. done.
  - intros sp recs recs' b H. unfold derive_one in H. apply bind_ok in H as (e & _ & [= <- _]). unfold zlen. rewrite length_app. simpl. lia.
Qed.

(** ** Verifying *)
Definition verify_one (sp : Z * Z) (s : list pyval * Z) : res ((list pyval * Z) * bool) :=
  match s.1 with
  | [] => Raise DerivedEvidenceInvalid "DERIVED_RECORD_COVERAGE_CHANGED"
  | row :: rest => b ← verify_record source raw sp.1 sp.2 row; Ok ((rest, s.2 + (if b : bool then 1 else 0)), b)
  end.

Lemma verify_one_cons sp row rest e : verify_one sp (row :: rest, e) =
  (b ← verify_record source raw sp.1 sp.2 row; Ok ((rest, e + (if b : bool then 1 else 0)), b)).
Proof. done. Qed.

Lemma verify_layouts_walk n ls rest errors : verify_layouts source raw n ls rest errors =
  ('(ls, s) ← walk_layouts verify_one (λ s, n - zlen s.1) ls (rest, errors); Ok (ls, s.1, s.2)).
Proof.
  revert rest errors. induction ls as [|l ls IH]; intros rest errors; [done|]. cbn [verify_layouts walk_layouts fst].
  set (f := verify_index source raw). set (g := walk_index verify_one).
  assert (H : ∀ ix l rest errors, foldR f ix (l, rest, errors) = ('(l, s) ← foldR g ix (l, (rest, errors)); Ok (l, s.1, s.2))).
  { induction ix as [|i ix IHi]; intros l1 rest1 errors1; [done|]. cbn [foldR].
    assert (Hi : f (l1, rest1, errors1) i = ('(l, s) ← g (l1, (rest1, errors1)) i; Ok (l, s.1, s.2))).
    { unfold f, g, verify_index, walk_index, verify_one. simpl. destruct rest1 as [|row rest1]; [done|].
      by destruct (verify_record source raw (l_size l1) i row). }
    rewrite Hi. destruct (g (l1, (rest1, errors1)) i) as [[l2 [rest2 errors2]]|]; simpl; [apply IHi|done]. }
  rewrite H. destruct (foldR g _ _) as [[l1 [rest1 errors1]]|]; simpl; [|done].
  destruct (_ =? _); [done|]. rewrite IH. by destruct (walk_layouts _ _ ls _) as [[ls2 s2]|].
Qed.

Definition verify_rows (sps : list (Z * Z)) (rows : list pyval) : res (list bool) :=
  mapR (λ p, verify_record source raw p.1.1 p.1.2 p.2) (zip sps rows).

Lemma count_cons b bs : count (b :: bs) = (if b then 1 else 0) + count bs.
Proof. unfold count, zlen. destruct b; simpl; lia. Qed.

Lemma verify_run sps rows rest errors : length rows = length sps →
  run verify_one sps (rows ++ rest, errors) = (bs ← verify_rows sps rows; Ok ((rest, errors + count bs), bs)).
Proof.
  revert rows errors. induction sps as [|sp sps IH]; intros [|row rows] errors Hlen; try done; simpl.
  - by rewrite Z.add_0_r.
  - rewrite verify_one_cons. unfold verify_rows. simpl. destruct (verify_record source raw sp.1 sp.2 row) as [b|]; simpl; [|done].
    rewrite IH by (simpl in Hlen; lia). fold (verify_rows sps rows). destruct (verify_rows sps rows) as [bs|]; simpl; [|done].
    rewrite count_cons. by rewrite Z.add_assoc.
Qed.

Lemma verify_run_short sps rest errors s bs : run verify_one sps (rest, errors) = Ok (s, bs) → (length sps ≤ length rest)%nat.
Proof.
  revert rest errors s bs. induction sps as [|sp sps IH]; intros rest errors s bs H; simpl in *; [lia|].
  apply bind_ok in H as ([[rest1 e1] b] & H1 & ([s2 bs2] & H2 & _)%bind_ok). unfold verify_one in H1. simpl in H1.
  destruct rest as [|row rest]; [done|]. apply bind_ok in H1 as (b1 & _ & [= <- _ _]). apply IH in H2. simpl. lia.
Qed.

Lemma verify_layouts_batch n ls rest errors : Forall layout_ok ls → n = zlen rest →
  verify_layouts source raw n ls rest errors =
  ('(s, bs) ← run verify_one (batch (spans ls)) (rest, errors); Ok (mark ls bs, s.1, s.2)).
Proof.
  intros Hls ->. rewrite verify_layouts_walk, walk_run; [|..|done|].
  - simpl. replace (RECORDS_PER_STEP - (zlen rest - zlen rest)) with RECORDS_PER_STEP by lia. fold (batch (spans ls)).
    by destruct (run _ _ _) as [[s bs]|].
  - intros sp [r e] [r' e'] b H. unfold verify_one in H. simpl in *. destruct r as [|row r]; [done|].
    apply bind_ok in H as (b' & _ & [= <- _ _]). unfold zlen. simpl. lia.
  - simpl. rewrite Z.sub_diag. done.
Qed.
End decoding.

(** ** Plans start from nothing decoded *)
Lemma fresh_ok n sizes : 0 <= n → Forall (λ z, 0 < z) sizes → Forall layout_ok (fresh_layouts n sizes).
Proof.
  intros Hn H. unfold fresh_layouts. apply Forall_fmap. eapply Forall_impl; [exact H|]. intros z Hz. unfold layout_ok. simpl in *.
  split_and!; [lia|lia|]. apply Z.div_pos; lia.
Qed.

Lemma live_sizes_eq : live_sizes = [12; 32; 36; 52].
Proof. vm_compute. reflexivity. Qed.

Lemma source_size_pos n : n ∈ SOURCE_SIZES → 0 < n.
Proof. unfold SOURCE_SIZES, TAILED_SOURCE_SIZE. set_unfold. lia. Qed.

Lemma live_filter_pos (f : Z → bool) : Forall (λ z, 0 < z) (List.filter f live_sizes).
Proof.
  apply Forall_forall. intros z [Hz _]%list_elem_of_In%filter_In. rewrite live_sizes_eq in Hz. simpl in Hz. lia.
Qed.

Lemma plan_ok raw kind : Forall layout_ok (p_layouts (_plan raw kind)).
Proof.
  unfold _plan. destruct (is_source kind); cbn [p_layouts].
  { apply fresh_ok; [unfold zlen; lia|]. case_bool_decide as Hs; constructor; [by apply source_size_pos|constructor]. }
  destruct (bool_decide (kind = _)); [constructor|]. destruct (negb _) eqn:E; [constructor|]. destruct (_ || _); [constructor|].
  apply fresh_ok; [bool_prop; lia|apply live_filter_pos].
Qed.

(** What one stored record says of its span. *)
Definition accounts (source : bool) (raw : bytes) (sp : Z * Z) (row : pyval) : Prop :=
  let offset := span_offset source sp.1 sp.2 in
  get "offset" row = PInt offset ∧ get "length" row = PInt sp.1 ∧ get "raw_digest" row = PStr (sha256_hex (span raw offset sp.1)) ∧
  ((∃ code, get "error_code" row = PStr code ∧ code ≠ "" ∧ get "facts" row = PNone) ∨
   (get "error_code" row = PNone ∧ get "offset" (get "facts" row) = PInt offset ∧ get "length" (get "facts" row) = PInt sp.1)).
Definition rejected (row : pyval) : bool := negb (is_none (get "error_code" row)).

Lemma is_int_eq v z : is_int v z = true → v = PInt z.
Proof. destruct v; simpl; try done. by intros ->%Z.eqb_eq. Qed.
Lemma eq_str_eq v s : eq_str v s = true → v = PStr s.
Proof. destruct v; simpl; try done. by intros ->%bool_decide_eq_true. Qed.
Lemma is_none_eq v : is_none v = true → v = PNone.
Proof. by destruct v. Qed.

Lemma verify_record_ok source raw sp row b :
  verify_record source raw sp.1 sp.2 row = Ok b → accounts source raw sp row ∧ b = rejected row.
Proof.
  unfold verify_record, accounts, rejected. destruct (negb _) eqn:E; [done|].
  apply negb_false_iff, andb_true_iff in E as [[[_ H1%is_int_eq]%andb_true_iff H2%is_int_eq]%andb_true_iff H3%eq_str_eq].
  destruct (get "error_code" row) as [| | | |code| |] eqn:Ec; try done.
  - destruct (_ && _) eqn:E2; [|done]. intros [= <-].
    apply andb_true_iff in E2 as [[_ H4%is_int_eq]%andb_true_iff H5%is_int_eq]. split_and!; try done. by right.
  - destruct (_ || _) eqn:E2; [done|]. intros [= <-]. apply orb_false_iff in E2 as [[H4 _]%orb_false_iff H5%negb_false_iff].
    split_and!; try done. left. exists code. split_and!; [done| |by apply is_none_eq]. by apply bool_decide_eq_false in H4.
Qed.

Lemma verify_rows_ok source raw sps rows bs : length rows = length sps → verify_rows source raw sps rows = Ok bs →
  Forall2 (accounts source raw) sps rows ∧ bs = map rejected rows.
Proof.
  unfold verify_rows. revert rows bs. induction sps as [|sp sps IH]; intros [|row rows] bs Hlen H; try done; simpl in *.
  - injection H as <-. by split.
  - apply bind_ok in H as (b & H1 & (bs1 & H2 & [= <-])%bind_ok). apply verify_record_ok in H1 as [H1 ->].
    apply IH in H2 as [H2 ->]; [|lia]. split; [by constructor|done].
Qed.

Definition step_records (v : pyval) : list pyval := match get "records" v with PList l => l | _ => [] end.
Definition records_of (values : list pyval) : list pyval := concat (map step_records values).

Lemma verify_coverage_ok w raw v progress dv progress' : Forall layout_ok (p_layouts progress) →
  _verify_coverage w raw v progress dv = Ok progress' →
  let sps := batch (spans (p_layouts progress)) in
  Forall2 (accounts (p_source progress) raw) sps (step_records v) ∧
  progress' = set_layouts progress (mark (p_layouts progress) (map rejected (step_records v))) ∧
  get "result" v = PStr (result_of (p_layouts progress')).
Proof.
  intros Hok. unfold _verify_coverage, step_records. destruct (negb (provenance_ok _ _ _)); [done|].
  destruct (get "records" v) as [| | | | |records|]; try done. destruct (get "error_count" v) as [| |ec| | | |]; try done.
  destruct (negb _); [done|]. rewrite verify_layouts_batch by done.
  intros ([[ls rest] errors] & H & H2)%bind_ok. apply bind_ok in H as ([s bs] & Hrun & [= <- <- <-]).
  destruct (_ || _) eqn:E1 in H2; [done|]. destruct (_ || _) eqn:E2 in H2; [done|]. injection H2 as <-.
  apply orb_false_iff in E1 as [[E1%negb_false_iff _]%orb_false_iff _].
  apply orb_false_iff in E2 as [_ E2%negb_false_iff%eq_str_eq]. apply bool_decide_eq_true, nil_length_inv in E1.
  pose proof (verify_run_short _ _ _ _ _ _ _ Hrun) as Hlen.
  set (sps := batch (spans (p_layouts progress))) in *.
  rewrite <- (take_drop (length sps) records) in Hrun.
  rewrite verify_run in Hrun by (rewrite length_take; lia). apply bind_ok in Hrun as (bs' & Hv & [= <- <-]). simpl in E1.
  assert (Htake : take (length sps) records = records) by (rewrite take_ge; [done|rewrite <- (take_drop (length sps) records), E1, app_nil_r, length_take; lia]).
  rewrite Htake in Hv. apply verify_rows_ok in Hv as [Hv ->]; [done|].
  rewrite <- Htake, length_take. lia.
Qed.

(** ** The spans of a layout tile the body *)
Definition body_of (source : bool) (raw : bytes) : bytes := if source then raw else drop 8 raw.

Lemma layout_tiles (source : bool) raw size : 0 < size → (zlen (body_of source raw)) mod size = 0 →
  concat (map (λ sp, span raw (span_offset source sp.1 sp.2) sp.1) (layout_spans (mkLayout size (zlen (body_of source raw) / size) 0 0)))
  = body_of source raw.
Proof.
  intros Hs Hm. set (b := body_of source raw) in *. unfold layout_spans, unfinished. cbn [l_size l_total l_processed].
  rewrite Z.sub_0_r. set (k := Z.to_nat (zlen b / size)). rewrite map_map. simpl.
  assert (Hk : (length b ≤ k * Z.to_nat size)%nat).
  { pose proof (Z.div_mod (zlen b) size ltac:(lia)). pose proof (Z.div_pos (zlen b) size ltac:(unfold zlen; lia) Hs).
    apply Nat2Z.inj_le. unfold k. rewrite Nat2Z.inj_mul, !Z2Nat.id by lia. fold (zlen b). lia. }
  rewrite <- (concat_chunks (Z.to_nat size) k b Hk) at 2. f_equal. unfold seqZ. fold k.
  change (map ?f (?g <$> ?l)) with (map f (map g l)). rewrite map_map. apply map_ext. intros i.
  unfold span, slice, chunk_at, span_offset, b, body_of. rewrite Z.add_0_r.
  replace (Z.to_nat (_ + size) - Z.to_nat _)%nat with (Z.to_nat size) by (destruct source; lia). f_equal.
  destruct source; [f_equal; lia|]. rewrite drop_drop. f_equal. lia.
Qed.

Lemma plan_tiles raw kind l : l ∈ p_layouts (_plan raw kind) →
  p_source (_plan raw kind) = is_source kind ∧
  concat (map (λ sp, span raw (span_offset (is_source kind) sp.1 sp.2) sp.1) (layout_spans l)) = body_of (is_source kind) raw.
Proof.
  unfold _plan. destruct (is_source kind) eqn:Ek; cbn [p_layouts p_source].
  - intros (z & -> & Hz)%list_elem_of_fmap. case_bool_decide as Hn; [|by apply not_elem_of_nil in Hz].
    apply list_elem_of_singleton in Hz as ->. split; [done|]. apply (layout_tiles true); [by apply source_size_pos|apply Z_mod_same_full].
  - destruct (bool_decide (kind = _)); [by intros ?%not_elem_of_nil|]. destruct (negb _) eqn:E; [by intros ?%not_elem_of_nil|].
    destruct (_ || _); [by intros ?%not_elem_of_nil|]. cbn [p_layouts p_source].
    intros (z & -> & Hz)%list_elem_of_fmap. split; [done|]. bool_prop.
    assert (Hb : zlen raw - 8 = zlen (body_of false raw)) by (unfold zlen, body_of in *; rewrite length_drop; lia). rewrite Hb in *.
    pose proof (live_filter_pos (λ size, zlen (body_of false raw) mod size =? 0)) as Hp. rewrite Forall_forall in Hp.
    apply (layout_tiles false); [by apply Hp|]. apply list_elem_of_In, filter_In in Hz as [_ Hz]. lia.
Qed.

(** ** Whatever chain is accepted accounts for every span *)
Section chain.
Context {token : Type} (token_len : token → Z) (encrypt_json : pyval → res token) (decrypt_json : token → res pyval)
  (pii_fernet_key : bool).
Local Abbreviation Row := (@ZktDerivedEvidence token).

Lemma unseal_agrees (row : Row) w plan v : _unseal token_len decrypt_json pii_fernet_key row w plan = Ok v → row_agrees row w v = true.
Proof.
  unfold _unseal. destruct (negb pii_fernet_key); [done|]. destruct (_ <? _); [done|]. destruct (decrypt_json _) as [v'|]; [|by destruct (_ || _)].
  destruct (row_agrees row w v') eqn:E; [|done]. simpl. destruct (get "layouts" _); try done. destruct (negb _); [done|].
  destruct (negb _); [done|]. by intros [= <-].
Qed.

Lemma row_result (row : Row) w v : row_agrees row w v = true → get "result" v = PStr (d_result row).
Proof. unfold row_agrees. rewrite !andb_true_iff. intros H. apply eq_str_eq, H. Qed.

Lemma Forall2_take_app {A B} (P : A → B → Prop) l k1 k2 n :
  Forall2 P (take n l) k1 → n = length k1 → (n ≤ length l)%nat →
  ∀ m, Forall2 P (take m (drop n l)) k2 → Forall2 P (take (n + length k2) l) (k1 ++ k2).
Proof.
  intros H1 -> Hn m H2. pose proof (Forall2_length _ _ _ H2) as Hl. rewrite length_take, length_drop in Hl.
  rewrite <- (take_drop (length k1) l) at 1. rewrite take_app, length_take, Nat.min_l by lia.
  rewrite (take_ge (take _ _)) by (rewrite length_take; lia). apply Forall2_app; [done|].
  replace (length k1 + length k2 - length k1)%nat with (length k2) by lia.
  rewrite <- Hl. destruct (decide (m ≤ length l - length k1)%nat); [by rewrite Nat.min_l by lia|].
  rewrite Nat.min_r by lia. rewrite take_ge in H2 by (rewrite length_drop; lia). by rewrite take_ge by (rewrite length_drop; lia).
Qed.

(** The state of the reader after some rows. *)
Record read_to (raw : bytes) (plan : Plan) (rows : list Row) (acc : Plan * list pyval) : Prop := {
  read_progress : acc.1 = set_layouts plan (mark (p_layouts plan) (map rejected (records_of acc.2)));
  read_spans : (length (records_of acc.2) ≤ length (spans (p_layouts plan)))%nat;
  read_covers : Forall2 (accounts (p_source plan) raw) (take (length (records_of acc.2)) (spans (p_layouts plan))) (records_of acc.2);
  read_result : ∀ row, last rows = Some row → d_result row = result_of (p_layouts acc.1);
  read_values : ∀ v, last acc.2 = Some v → get "result" v = PStr (result_of (p_layouts acc.1)) }.

Lemma read_to_step w raw plan dv rows row acc acc' : Forall layout_ok (p_layouts plan) → read_to raw plan rows acc →
  verify_step token_len decrypt_json pii_fernet_key w raw plan dv acc row = Ok acc' → read_to raw plan (rows ++ [row]) acc'.
Proof.
  intros Hok [Hp Hn Hc _ _] H. destruct acc as [progress values]. cbn [fst snd] in *. unfold verify_step in H.
  apply bind_ok in H as (v & Hu & (progress' & Hv & [= <-])%bind_ok). subst progress.
  assert (Hok' : Forall layout_ok (mark (p_layouts plan) (map rejected (records_of values)))) by by apply mark_ok.
  apply verify_coverage_ok in Hv as (H1 & H2 & H3); [|exact Hok']. cbn [set_layouts p_layouts p_source] in H1.
  rewrite mark_spans, length_map in H1 by done. set (n := length (records_of values)) in *.
  pose proof (Forall2_length _ _ _ H1) as Hl. unfold batch in Hl. rewrite length_take, length_drop in Hl.
  assert (Hrec : records_of (values ++ [v]) = records_of values ++ step_records v)
    by (unfold records_of; rewrite map_app, concat_app; simpl; by rewrite app_nil_r).
  constructor; cbn [fst snd]; rewrite ?Hrec, ?length_app, ?last_snoc.
  - rewrite H2. unfold set_layouts. cbn [p_source p_header p_framing_error p_layouts]. f_equal.
    rewrite mark_mark, map_app; [done|done|]. rewrite length_map. exact Hn.
  - fold n. lia.
  - eapply Forall2_take_app; [exact Hc|done|exact Hn|exact H1].
  - intros r [= <-]. apply unseal_agrees, row_result in Hu. congruence.
  - intros v' [= <-]. exact H3.
Qed.

(** an accepted chain accounts for the bytes. When [verified_steps] yields its
    values, their records are, in order and without gap or repeat, one for each
    record span of each candidate layout, with the span's offset, length and
    digest; the spans of every layout put together are the whole body; and the
    final result is the one the accepted and rejected records determine. *)
Theorem verified_steps_cover s w raw version dv values :
  verified_steps token_len decrypt_json pii_fernet_key s w raw version dv = Ok values →
  let plan := _plan raw (w_kind w) in
  Forall2 (accounts (p_source plan) raw) (spans (p_layouts plan)) (records_of values) ∧
  (∀ l, l ∈ p_layouts plan →
     concat (map (λ sp, span raw (span_offset (is_source (w_kind w)) sp.1 sp.2) sp.1) (layout_spans l)) = body_of (is_source (w_kind w)) raw) ∧
  ∃ v, last values = Some v ∧
    get "result" v = PStr (result_of (mark (p_layouts plan) (map rejected (records_of values)))) ∧
    result_of (mark (p_layouts plan) (map rejected (records_of values))) ≠ "PENDING".
Proof.
  unfold verified_steps. destruct (negb _); [done|]. intros (rows & _ & H)%bind_ok. set (plan := _plan raw (w_kind w)) in *.
  destruct (last rows) as [row|] eqn:Hrow; [|done]. destruct (bool_decide (d_result row = _)) eqn:Ep; [done|]. apply bool_decide_eq_false in Ep.
  destruct (foldR _ _ _) as [[progress vs]|] eqn:E; [|done]. injection H as ->.
  assert (Hok : Forall layout_ok (p_layouts plan)) by apply plan_ok.
  apply (foldR_inv _ (λ done acc, read_to raw plan done acc ∧ length acc.2 = length done)) in E as [[Hp Hn Hc Hr Hv] Hlen].
  - cbn [fst snd] in *. specialize (Hr row Hrow). rewrite Hp in Hr, Hv. cbn [set_layouts p_layouts] in Hr, Hv. split_and!.
    + assert (Hdone : spans (mark (p_layouts plan) (map rejected (records_of values))) = []).
      { apply complete_spans; [by apply mark_ok|]. destruct (complete _) eqn:Ec; [done|]. exfalso. apply Ep. rewrite Hr.
        unfold result_of. by rewrite Ec. }
      rewrite mark_spans, length_map in Hdone by done. apply (f_equal length) in Hdone. rewrite length_drop in Hdone. simpl in Hdone.
      by rewrite take_ge in Hc by lia.
    + intros l Hl. by apply plan_tiles.
    + destruct (last values) as [v|] eqn:Ev; [exists v; split_and!; [done|by apply Hv|congruence]|].
      exfalso. apply last_None in Ev. subst values. simpl in Hlen. symmetry in Hlen. apply nil_length_inv in Hlen. by subst rows.
  - split; [|done]. constructor; cbn [fst snd records_of map concat length]; [|simpl; lia|by rewrite take_0|done|done].
    simpl. rewrite mark_nil. by destruct plan.
  - intros read x acc acc' [Hread Hl] Hstep. split; [by eapply read_to_step|].
    unfold verify_step in Hstep. destruct acc. apply bind_ok in Hstep as (? & _ & (? & _ & [= <-])%bind_ok). simpl in *.
    rewrite !length_app. simpl. lia.
Qed.
End chain.

(** ** The plan of some bytes is small *)
Lemma plan_shape raw kind : zlen raw <= PACKET_MAX → plan_small (_plan raw kind).
Proof.
  intros Hraw. pose proof (plan_ok raw kind) as Hok. unfold PACKET_MAX in Hraw.
  assert (Hdiv : ∀ n z, 0 < z → 0 <= n <= 65536 → n / z < 10 ^ 6).
  { intros n z Hz Hn. apply Z.div_lt_upper_bound; nia. }
  assert (Hsmall : ∀ n sizes, 0 <= n <= 65536 → Forall (λ z, 0 < z < 10 ^ 2) sizes → Forall layout_small (fresh_layouts n sizes)).
  { intros n sizes Hn Hs. apply Forall_fmap. eapply Forall_impl; [exact Hs|]. intros z Hz. unfold layout_small. simpl in *.
    pose proof (Hdiv n z ltac:(lia) Hn). pose proof (Z.div_pos n z ltac:(lia) ltac:(lia)). lia. }
  assert (Hlive : ∀ f, Forall (λ z, 0 < z < 10 ^ 2) (List.filter f live_sizes)).
  { intros f. apply Forall_forall. intros z [Hz _]%list_elem_of_In%filter_In. rewrite live_sizes_eq in Hz. simpl in Hz. lia. }
  assert (Hcount : ∀ f : Z → bool, zlen (List.filter f live_sizes) <= 4).
  { intros f. unfold zlen. pose proof (List.filter_length_le f live_sizes).
    assert (length live_sizes = 4%nat) by by rewrite live_sizes_eq. lia. }
  assert (Hle : ∀ a b, (b - a ≤ 2)%nat → 0 <= le_int (slice a b raw) < 10 ^ 5).
  { intros a b Hab. pose proof (le_int_range (slice a b raw)). pose proof (slice_le a b 2 raw Hab).
    assert (256 ^ Z.of_nat (length (slice a b raw)) <= 256 ^ 2) by (apply Z.pow_le_mono_r; lia). lia. }
  assert (Hcode : ∀ s, forallb clean (chars s) = true → zlen (chars s) <= 40 → fits (opt_str (Some s)) 50).
  { intros s H1 H2. eapply fits_mono; [by apply (fits_clean _ 40)|lia]. }
  assert (Hnone : fits (opt_str None) 50) by (eapply fits_mono; [apply fits_none|lia]).
  unfold _plan. destruct (is_source kind).
  { constructor; cbn [p_layouts p_header p_framing_error]; [| |done|].
    - apply Hsmall; [unfold zlen in *; lia|]. case_bool_decide as Hs; constructor; [|constructor].
      pose proof (source_size_pos _ Hs). unfold SOURCE_SIZES, TAILED_SOURCE_SIZE in Hs. set_unfold. lia.
    - unfold fresh_layouts, zlen. rewrite length_map. case_bool_decide; simpl; lia.
    - case_bool_decide; [by apply Hcode|exact Hnone]. }
  destruct (bool_decide (kind = _)); [by constructor; [constructor|..|apply Hcode]|].
  destruct (negb _) eqn:E; [by constructor; [constructor|..|apply Hcode]|]. bool_prop.
  assert (Hhead : ∀ h, Some (mkHeader (le_int (slice 0 2 raw)) (le_int (slice 2 4 raw)) (le_int (slice 4 6 raw)) (le_int (slice 6 8 raw))) = Some h →
    header_small h) by (intros h [= <-]; split_and!; apply Hle; lia).
  destruct (_ || _); [by constructor; [constructor|..|apply Hcode]|].
  constructor; cbn [p_layouts p_header p_framing_error]; [|..|done|].
  - apply Hsmall; [lia|apply Hlive].
  - unfold fresh_layouts, zlen. rewrite length_map. apply Hcount.
  - case_bool_decide; [by apply Hcode|exact Hnone].
Qed.

(** ** The interface of the sealed evidence column

    What a chain needs of [encrypt_json] and [decrypt_json]: an ASCII value within
    the plaintext bound is sealed in a token within the ciphertext bound, which
    opens to the same object (keys in order, as [sort_keys=True] wrote them). *)
Class Sealing {token : Type} (token_len : token → Z) (encrypt_json : pyval → res token) (decrypt_json : token → res pyval) : Prop :=
  seal_ok : ∀ v, ascii_json v = true → plain_json v = true → zlen (dumps_plain v) <= MAX_PLAINTEXT →
    ∃ t, encrypt_json v = Ok t ∧ token_len t <= MAX_CIPHERTEXT ∧ decrypt_json t = Ok (canon v).

(** ** Reading the fields of a step *)
Lemma step_fields w fp i pr prev plan recs : let V := step_value w fp i pr prev plan recs in
  get "schema_version" V = PInt 1 ∧ get "authority" V = PStr "UNQUALIFIED" ∧ get "work_key" V = PStr (w_work_key w) ∧
  get "input_fingerprint" V = PStr fp ∧ get "interpretation_version" V = PStr INTERPRETATION_VERSION ∧
  get "decoder_version" V = PStr DECODER_VERSION ∧ get "reported_profile" V = opt_str (w_decoder_profile w) ∧
  get "reported_decoder_version" V = opt_str (w_decoder_version w) ∧ get "source_manifest_id" V = opt_int (w_source_manifest_id w) ∧
  get "input_digest" V = opt_str (w_expected_digest w) ∧ get "input_bytes" V = opt_int (w_expected_bytes w) ∧
  get "evidence_revision" V = PInt (w_evidence_revision w) ∧ get "step_index" V = PInt i ∧ get "prior_interpretation" V = pr ∧
  get "previous_digest" V = opt_str prev ∧ get "result" V = PStr (result_of (p_layouts plan)) ∧
  get "record_count" V = PInt (zlen recs) ∧ get "error_count" V = PInt (zlen (List.filter failed recs)) ∧
  get "plan" V = plan_json plan ∧ get "plausible_layouts" V = PList (map PInt (plausible (p_layouts plan))) ∧
  get "records" V = PList (map evidence_json recs).
Proof. cbv zeta. split_and!; reflexivity. Qed.

Lemma plain_opt_str o : plain_json (opt_str o) = true.
Proof. by destruct o. Qed.
Lemma plain_opt_int o : plain_json (opt_int o) = true.
Proof. by destruct o. Qed.
Lemma plain_dict m : bool_decide (NoDup (map fst m)) = true → Forall (λ kv, plain_json kv.2 = true) m → plain_json (PDict m) = true.
Proof. intros H1 H2. simpl. rewrite H1. simpl. apply forallb_forall. rewrite Forall_forall in H2. intros x Hx. apply H2. by apply list_elem_of_In. Qed.
Lemma plain_list l : Forall (λ v, plain_json v = true) l → plain_json (PList l) = true.
Proof. intros H. simpl. apply forallb_forall. rewrite Forall_forall in H. intros x Hx. apply H. by apply list_elem_of_In. Qed.
Create HintDb plain.
#[export] Hint Resolve plain_opt_str plain_opt_int : plain.
Ltac plain_fields := apply plain_dict; [reflexivity|]; repeat (apply Forall_cons; split; [cbn [snd]; auto with plain|]); try apply Forall_nil_2.

Lemma plain_layout l : plain_json (layout_json l) = true.
Proof. plain_fields. Qed.
Lemma plain_header o : plain_json (opt_header o) = true.
Proof. destruct o; [|done]. plain_fields. Qed.
#[export] Hint Resolve plain_layout plain_header : plain.
Lemma plain_plan p : plain_json (plan_json p) = true.
Proof. plain_fields. apply plain_list, Forall_fmap, Forall_true. intros l. apply plain_layout. Qed.
Lemma plain_evidence e : plain_json (evidence_json e) = true.
Proof. plain_fields. destruct (ev_facts e); [|done]. plain_fields. Qed.
#[export] Hint Resolve plain_plan plain_evidence : plain.
Lemma plain_step w fp i pr prev plan recs : plain_json pr = true → plain_json (step_value w fp i pr prev plan recs) = true.
Proof.
  intros Hpr. plain_fields.
  - apply plain_list, Forall_fmap, Forall_true. done.
  - apply plain_list, Forall_fmap, Forall_true. intros e. apply plain_evidence.
Qed.

Section complete.
Context {token : Type} (token_len : token → Z) (encrypt_json : pyval → res token) (decrypt_json : token → res pyval).
Local Abbreviation Row := (@ZktDerivedEvidence token).
Context (w : ZktCustodyWork) (raw : bytes) (p0 : pyval).

Definition plan0 : Plan := _plan raw (w_kind w).
Definition todo : list (Z * Z) := spans (p_layouts plan0).
Definition BATCH : nat := Z.to_nat RECORDS_PER_STEP.
(** The layouts after [k] steps, and the records of step [k]. *)
Definition layouts_at (k : nat) : list Layout := mark (p_layouts plan0) (flags_of (p_source plan0) raw (take (k * BATCH) todo)).
Definition spans_at (k : nat) : list (Z * Z) := batch (drop (k * BATCH) todo).
Definition records_at (k : nat) : list Evidence := map (evidence_at (p_source plan0) raw) (spans_at k).
Definition prior_at (k : nat) : pyval := match k with O => p0 | _ => canon p0 end.
Definition value_at (k : nat) (previous : option string) : pyval :=
  step_value w (input_fingerprint w) (Z.of_nat k) (prior_at k) previous (set_layouts plan0 (layouts_at (S k))) (records_at k).

Lemma plan0_ok : Forall layout_ok (p_layouts plan0).
Proof. apply plan_ok. Qed.
Lemma layouts_at_ok k : Forall layout_ok (layouts_at k).
Proof. apply mark_ok, plan0_ok. Qed.
Lemma layouts_at_0 : layouts_at 0 = p_layouts plan0.
Proof. apply mark_nil. Qed.
Lemma layouts_at_spans k : spans (layouts_at k) = drop (k * BATCH) todo.
Proof.
  unfold layouts_at. rewrite mark_spans by apply plan0_ok. unfold flags_of. rewrite length_map, length_take. fold todo.
  destruct (decide (k * BATCH ≤ length todo)%nat); [by rewrite Nat.min_l by lia|]. rewrite Nat.min_r, !drop_ge by lia. done.
Qed.
Lemma layouts_at_S k : mark (layouts_at k) (flags_of (p_source plan0) raw (spans_at k)) = layouts_at (S k).
Proof.
  unfold layouts_at, spans_at, batch. rewrite mark_mark; [|apply plan0_ok|].
  - unfold flags_of. rewrite <- map_app. fold BATCH. rewrite take_take_drop. do 3 f_equal. lia.
  - unfold flags_of. rewrite length_map, length_take. fold todo. lia.
Qed.
Lemma pending_at k : result_of (layouts_at k) = "PENDING" ↔ (k * BATCH < length todo)%nat.
Proof.
  pose proof (complete_spans (layouts_at k) (layouts_at_ok k)) as H. rewrite layouts_at_spans in H. unfold result_of.
  destruct (complete (layouts_at k)); simpl.
  - assert (Hn : drop (k * BATCH) todo = []) by by apply H. apply (f_equal length) in Hn. rewrite length_drop in Hn. simpl in Hn.
    split; [|lia]. destruct (1 <? _); [done|]. by destruct (bool_decide _).
  - split; [|done]. intros _. destruct (decide (k * BATCH < length todo)%nat); [done|]. rewrite drop_ge in H by lia.
    destruct H as [_ H]. by specialize (H eq_refl).
Qed.

(** The layouts of every step have the sizes and totals of the plan. *)
Definition same_shape (l l' : Layout) : Prop := l_size l' = l_size l ∧ l_total l' = l_total l.
Lemma mark_shape ls flags : Forall2 same_shape ls (mark ls flags).
Proof. revert flags. induction ls as [|l ls IH]; intros flags; constructor; [|apply IH]. by rewrite advance_run. Qed.

Lemma small_at k : zlen raw <= PACKET_MAX → plan_small (set_layouts plan0 (layouts_at k)).
Proof.
  intros Hraw. destruct (plan_shape raw (w_kind w) Hraw) as [Hl Hc Hh Hf]. fold plan0 in *. constructor; try done.
  - simpl. pose proof (mark_shape (p_layouts plan0) (flags_of (p_source plan0) raw (take (k * BATCH) todo))) as Hs. fold (layouts_at k) in Hs.
    pose proof (layouts_at_ok k) as Hok. clear -Hl Hs Hok. induction Hs as [|l l' ls ls' [H1 H2] Hs IH]; [constructor|].
    inversion Hl as [|? ? (Ha & Hb & _) Hl']; subst. inversion Hok as [|? ? (Hc & Hd & He) Hok']; subst.
    constructor; [|by apply IH]. unfold layout_small. rewrite H1, H2 in *. lia.
  - simpl. unfold zlen in *. pose proof (Forall2_length _ _ _ (mark_shape (p_layouts plan0) (flags_of (p_source plan0) raw (take (k * BATCH) todo)))) as Hn.
    fold (layouts_at k) in Hn. lia.
Qed.

Lemma span_bounds sp : zlen raw <= PACKET_MAX → sp ∈ todo → 0 <= span_offset (p_source plan0) sp.1 sp.2 < 10 ^ 6 ∧ 0 <= sp.1 < 10 ^ 2.
Proof.
  intros Hraw Hsp. unfold PACKET_MAX in Hraw. unfold todo, spans in Hsp. apply list_elem_of_In, in_concat in Hsp as (l & Hl & Hsp).
  apply in_map_iff in Hl as (lay & <- & Hlay). apply in_map_iff in Hsp as (i & <- & Hi). apply list_elem_of_In, elem_of_seqZ in Hi.
  pose proof (plan_shape raw (w_kind w) Hraw) as [Hs _ _ _]. rewrite Forall_forall in Hs. apply list_elem_of_In in Hlay.
  specialize (Hs lay Hlay) as (H1 & H2 & H3 & H4). unfold unfinished in Hi. simpl. split; [|exact H1].
  assert (Ht : l_total lay * l_size lay <= zlen raw); [|unfold span_offset; destruct (p_source plan0); nia].
  unfold plan0, _plan in Hlay. clear -Hlay H1. destruct (is_source (w_kind w)); [|destruct (bool_decide (w_kind w = _));
    [|destruct (negb _) eqn:E; [|destruct (_ || _)]]]; cbn [p_layouts] in Hlay; try (by apply not_elem_of_nil in Hlay);
    apply list_elem_of_fmap in Hlay as (z & -> & Hz); cbn [l_total l_size] in *.
  - pose proof (Z.mul_div_le (zlen raw) z). destruct (decide (z = 0)) as [->|]; [unfold zlen; lia|lia].
  - pose proof (Z.mul_div_le (zlen raw - 8) z). destruct (decide (z = 0)) as [->|]; [unfold zlen; lia|lia].
Qed.

Lemma spans_at_todo k sp : sp ∈ spans_at k → sp ∈ todo.
Proof.
  unfold spans_at, batch. intros H. rewrite <- (take_drop (k * BATCH) todo), elem_of_app. right.
  rewrite <- (take_drop (Z.to_nat RECORDS_PER_STEP) (drop _ todo)), elem_of_app. by left.
Qed.

Lemma records_at_fit k : zlen raw <= PACKET_MAX →
  Forall (λ e, fits (evidence_json e) 446) (records_at k) ∧ zlen (records_at k) <= RECORDS_PER_STEP.
Proof.
  intros Hraw. unfold records_at. split.
  - apply Forall_fmap, Forall_forall. intros sp Hsp%spans_at_todo. destruct (span_bounds sp Hraw Hsp) as [H1 H2].
    eapply evidence_fits; [apply derive_record_at|exact H1|exact H2].
  - unfold zlen, spans_at, batch. rewrite length_map, length_take. unfold RECORDS_PER_STEP. lia.
Qed.

(** ** The rows a chain consists of *)
Record good_row (k : nat) (previous : option string) (row : Row) : Prop := {
  g_work : d_work_id row = w_id w;
  g_version : d_version row = INTERPRETATION_VERSION;
  g_print : d_fingerprint row = input_fingerprint w;
  g_index : d_step_index row = Z.of_nat k;
  g_result : d_result row = result_of (layouts_at (S k));
  g_count : d_record_count row = zlen (records_at k);
  g_errors : d_error_count row = zlen (List.filter failed (records_at k));
  g_previous : d_previous_digest row = previous;
  g_digest : d_evidence_digest row = digest (value_at k previous);
  g_short : token_len (d_protected row) <= MAX_CIPHERTEXT;
  g_open : decrypt_json (d_protected row) = Ok (canon (value_at k previous)) }.

Fixpoint good_chain (k : nat) (previous : option string) (rows : list Row) : Prop :=
  match rows with
  | [] => True
  | row :: rows' => good_row k previous row ∧ good_chain (S k) (Some (d_evidence_digest row)) rows'
  end.

Context (plain_p0 : plain_json p0 = true).

Lemma plain_value k previous : plain_json (value_at k previous) = true.
Proof. apply plain_step. destruct k; [done|by apply plain_canon]. Qed.

Lemma stored_layouts_ok ls ls' : Forall2 same_shape ls ls' → Forall layout_ok ls' →
  forallb stored_layout_ok (zip (map canon (map layout_json ls')) ls) = true.
Proof.
  induction 1 as [|l l' ls ls' [H1 H2] _ IH]; intros Hok; [done|]. inversion Hok as [|? ? (Ha & Hb & Hc) Hok']; subst.
  cbn [map zip zip_with forallb]. rewrite IH, andb_true_r by done. unfold stored_layout_ok. cbn [fst snd].
  rewrite !get_canon by apply plain_layout. change (get "size" (layout_json l')) with (PInt (l_size l')).
  change (get "total" (layout_json l')) with (PInt (l_total l')). change (get "processed" (layout_json l')) with (PInt (l_processed l')).
  change (get "errors" (layout_json l')) with (PInt (l_errors l')). cbn [canon]. rewrite H1, H2, !num_refl by done.
  change (is_dict (canon (layout_json l'))) with true. rewrite <- H2. simpl. rewrite !andb_true_iff, !Z.leb_le. lia.
Qed.

Lemma read_layouts ls ls' : Forall2 same_shape ls ls' →
  zip_with (λ v l, mkLayout (l_size l) (l_total l) (default 0 (as_int (get "processed" v))) (default 0 (as_int (get "errors" v))))
    (map canon (map layout_json ls')) ls = ls'.
Proof.
  induction 1 as [|l l' ls ls' [H1 H2] _ IH]; [done|]. cbn [map zip_with]. rewrite IH, !get_canon by apply plain_layout.
  change (get "processed" (layout_json l')) with (PInt (l_processed l')).
  change (get "errors" (layout_json l')) with (PInt (l_errors l')). simpl. rewrite <- H1, <- H2. by destruct l'.
Qed.

Lemma good_row_agrees k previous row : good_row k previous row → row_agrees row w (canon (value_at k previous)) = true.
Proof.
  intros []. unfold row_agrees. rewrite digest_canon, !get_canon by apply plain_value.
  destruct (step_fields w (input_fingerprint w) (Z.of_nat k) (prior_at k) previous (set_layouts plan0 (layouts_at (S k))) (records_at k))
    as (F1 & F2 & F3 & F4 & F5 & _ & _ & _ & _ & _ & _ & _ & F6 & _ & F7 & F8 & F9 & F10 & _).
  fold (value_at k previous) in *.
  rewrite F1, F2, F3, F4, F5, F6, F7, F8, F9, F10. cbn [canon eq_str].
  rewrite g_digest0, g_print0, g_version0, g_index0, g_previous0, g_result0, g_count0, g_errors0.
  rewrite !bool_decide_eq_true_2, !num_refl by done. rewrite (proj2 (py_eq_canon (opt_str previous) (plain_opt_str _))). done.
Qed.

Lemma plan_of_step k previous : get "plan" (canon (value_at k previous)) = canon (plan_json (set_layouts plan0 (layouts_at (S k)))).
Proof. rewrite get_canon by apply plain_value. reflexivity. Qed.
Lemma shape_at k : Forall2 same_shape (p_layouts plan0) (layouts_at k).
Proof. apply mark_shape. Qed.

Lemma unseal_good k previous row : good_row k previous row →
  _unseal token_len decrypt_json true row w plan0 = Ok (canon (value_at k previous)).
Proof.
  intros Hg. pose proof (good_row_agrees _ _ _ Hg) as Ha. destruct Hg. unfold _unseal. simpl negb.
  rewrite (proj2 (Z.ltb_ge _ _)) by done. rewrite g_open0, Ha, plan_of_step. cbn [negb].
  rewrite !get_canon by apply plain_plan. set (P := set_layouts plan0 (layouts_at (S k))).
  change (get "layouts" (plan_json P)) with (PList (map layout_json (layouts_at (S k)))). cbn [canon].
  change (get "source" (plan_json P)) with (PBool (p_source plan0)). change (get "header" (plan_json P)) with (opt_header (p_header plan0)).
  change (get "framing_error" (plan_json P)) with (opt_str (p_framing_error plan0)).
  rewrite (proj2 (py_eq_canon (opt_header _) (plain_header _))), (proj2 (py_eq_canon (opt_str (p_framing_error plan0)) (plain_opt_str _))).
  cbn [canon]. rewrite num_refl, bool_decide_eq_true_2, stored_layouts_ok by (apply shape_at || apply layouts_at_ok || done ||
    (rewrite !length_map; symmetry; apply (Forall2_length _ _ _ (shape_at (S k))))). reflexivity.
Qed.

Lemma read_plan_good k previous : read_plan plan0 (canon (value_at k previous)) = set_layouts plan0 (layouts_at (S k)).
Proof.
  unfold read_plan, set_layouts. rewrite plan_of_step, get_canon by apply plain_plan. f_equal.
  change (get "layouts" (plan_json (set_layouts plan0 (layouts_at (S k))))) with (PList (map layout_json (layouts_at (S k)))).
  cbn [canon]. apply read_layouts, shape_at.
Qed.

(** ** A good chain is read and verified *)
Fixpoint all_pending (rows : list Row) : Prop :=
  match rows with [] => True | row :: rows' => (rows' ≠ [] → d_result row = "PENDING") ∧ all_pending rows' end.

Lemma good_linked k previous rows : good_chain k previous rows → all_pending rows → chain_linked (Z.of_nat k) previous rows = true.
Proof.
  revert k previous. induction rows as [|row rows IH]; intros k previous Hc Hp; [done|]. destruct Hc as [Hg Hc], Hp as [Hp1 Hp2].
  cbn [chain_linked]. specialize (IH _ _ Hc Hp2). replace (Z.of_nat k + 1) with (Z.of_nat (S k)) by lia. rewrite IH. destruct Hg.
  rewrite g_index0, g_previous0, g_count0, g_errors0, Z.eqb_refl, bool_decide_eq_true_2 by done. cbn [andb].
  assert (Hlen : zlen (records_at k) <= RECORDS_PER_STEP).
  { unfold zlen, records_at, spans_at, batch. rewrite length_map, length_take. unfold RECORDS_PER_STEP. lia. }
  assert (Hf : 0 <= zlen (List.filter failed (records_at k)) <= zlen (records_at k)).
  { unfold zlen. pose proof (List.filter_length_le failed (records_at k)). lia. }
  rewrite !(proj2 (Z.leb_le _ _)) by lia. rewrite !andb_true_r.
  destruct rows as [|r rows]; [by rewrite bool_decide_eq_true_2|]. rewrite (bool_decide_eq_true_2 (d_result row = _)), orb_true_r; [done|]. by apply Hp1.
Qed.

Lemma sort_sorted (rows : list Row) k previous : good_chain k previous rows → sort_by d_step_index rows = rows.
Proof.
  revert k previous. induction rows as [|row rows IH]; intros k previous; [done|]. intros [Hg Hc]. simpl. rewrite (IH _ _ Hc).
  destruct rows as [|row2 rows]; [done|]. simpl. destruct Hc as [Hg2 _]. rewrite (g_index _ _ _ Hg), (g_index _ _ _ Hg2).
  by rewrite (proj2 (Z.leb_le _ _)) by lia.
Qed.

Lemma chain_rows_good (s : session) rows : List.filter (in_chain w (input_fingerprint w) INTERPRETATION_VERSION) (stored s) = rows →
  good_chain 0 None rows → all_pending rows → zlen rows <= MAX_STEPS →
  _chain_rows s w (input_fingerprint w) INTERPRETATION_VERSION = Ok rows.
Proof.
  intros Hf Hc Hp Hn. unfold _chain_rows. rewrite Hf, (sort_sorted _ _ _ Hc). rewrite take_ge by (unfold zlen in *; lia).
  rewrite (proj2 (Z.ltb_ge _ _)) by done. pose proof (good_linked 0 None rows Hc Hp) as H.
  change (Z.of_nat 0) with 0 in H. by rewrite H.
Qed.

Definition chain_end (previous : option string) (rows : list Row) : option string :=
  match last rows with Some row => Some (d_evidence_digest row) | None => previous end.
Lemma chain_end_cons previous row rows : chain_end previous (row :: rows) = chain_end (Some (d_evidence_digest row)) rows.
Proof. unfold chain_end. destruct rows as [|r rows]; [done|]. rewrite last_cons. destruct (last (r :: rows)) eqn:E; [done|]. by apply last_None in E. Qed.

Lemma good_chain_snoc k previous rows row :
  good_chain k previous (rows ++ [row]) ↔ good_chain k previous rows ∧ good_row (k + length rows) (chain_end previous rows) row.
Proof.
  revert k previous. induction rows as [|r rows IH]; intros k previous; simpl.
  - rewrite Nat.add_0_r. split; intros [? ?]; by split.
  - rewrite IH, chain_end_cons. replace (S k + length rows)%nat with (k + S (length rows))%nat by lia.
    split; [intros (? & ? & ?)|intros [[? ?] ?]]; by split_and!.
Qed.

Lemma good_pending k previous rows : good_chain k previous rows →
  (2 ≤ length rows → (k + length rows - 1) * BATCH < length todo)%nat → all_pending rows.
Proof.
  revert k previous. induction rows as [|r rows IH]; intros k previous Hc Hn; [done|]. destruct Hc as [Hg Hc]. simpl in *. split.
  - intros Hne. rewrite (g_result _ _ _ Hg). apply pending_at. destruct rows as [|r2 rows]; [done|]. simpl in Hn. unfold BATCH in *. nia.
  - apply (IH _ _ Hc). intros H2. assert (H3 : ((k + S (length rows) - 1) * BATCH < length todo)%nat) by (apply Hn; lia).
    replace (S k + length rows - 1)%nat with (k + S (length rows) - 1)%nat by lia. exact H3.
Qed.

Context (Hin : input_ok w raw = true) (Hfit : work_fits w) (Hp0 : fits p0 600) (Hp1 : fits (canon p0) 600)
  `{!Sealing token_len encrypt_json decrypt_json}.

Lemma raw_small : zlen raw <= PACKET_MAX.
Proof. pose proof Hin as H. unfold input_ok in H. rewrite !andb_true_iff, Z.leb_le in H. apply H. Qed.

Lemma value_fits_at k previous : (k < 1000)%nat → fits (opt_str previous) 66 → fits (value_at k previous) MAX_PLAINTEXT.
Proof.
  intros Hk Hprev. pose proof raw_small as Hraw. destruct (records_at_fit k Hraw) as [H1 H2].
  pose proof Hin as H. unfold input_ok in H. rewrite !andb_true_iff, !bool_decide_eq_true in H. destruct H as [[[_ Hb] _] Hd].
  apply (value_fits _ _ _ _ _ _ _ raw); try done.
  - apply fits_sha.
  - apply (fits_int 6); lia.
  - by destruct k.
  - by apply small_at.
Qed.

Lemma prior_of_step k previous : ∃ m, canon (value_at k previous) = PDict m ∧ assoc "prior_interpretation" m = Some (prior_at (S k)).
Proof.
  pose proof (plain_value k previous) as Hp. unfold value_at, step_value in *. cbn [canon]. eexists. split; [reflexivity|].
  cbn [plain_json] in Hp. apply andb_true_iff in Hp as [Hp%bool_decide_eq_true _]. rewrite assoc_canon by exact Hp.
  change (Some (canon (prior_at k)) = Some (prior_at (S k))). f_equal. destruct k; [done|apply canon_idem].
Qed.

(** What the next call starts from. *)
Lemma step_start_good (s : session) rows :
  List.filter (in_chain w (input_fingerprint w) INTERPRETATION_VERSION) (stored s) = rows → prefetch s = None → good_chain 0 None rows →
  (rows = [] → earlier_interpretation s w (input_fingerprint w) = p0) → (rows ≠ [] → length rows * BATCH < length todo)%nat →
  zlen rows < MAX_STEPS →
  step_start token_len decrypt_json true s w raw = Ok (s, rows, Some (set_layouts plan0 (layouts_at (length rows)), prior_at (length rows))).
Proof.
  intros Hf Hpre Hc He Hpend Hn.
  assert (Hall : all_pending rows).
  { apply (good_pending 0 None _ Hc). intros H2. assert (Hne : rows ≠ []) by (intros ->; simpl in H2; lia).
    specialize (Hpend Hne). unfold BATCH in *. nia. }
  unfold step_start, _initial_history_proved. rewrite Hpre. cbn [fst snd]. rewrite (chain_rows_good s rows) by (done || lia). cbn [mbind res_bind].
  destruct rows as [|r0 rs0] using rev_ind; [|clear IHrs0].
  - simpl. rewrite He, layouts_at_0 by done. unfold set_layouts. fold plan0. by destruct plan0.
  - rewrite last_snoc. apply good_chain_snoc in Hc as [Hc Hg]. fold plan0. rewrite (unseal_good _ _ _ Hg). cbn [mbind res_bind Nat.add] in *.
    rewrite length_app in *. cbn [length] in *. rewrite Nat.add_1_r in *.
    rewrite (g_result _ _ _ Hg), (bool_decide_eq_true_2 (result_of _ = _)) by (apply pending_at, Hpend; by destruct rs0). cbn [negb].
    destruct (prior_of_step (length rs0) (chain_end None rs0)) as (m & Em & Hm). rewrite Em. cbv beta iota.
    rewrite Hm, <- Em, read_plan_good. done.
Qed.

Lemma end_fits rows : good_chain 0 None rows → fits (opt_str (chain_end None rows)) 66.
Proof.
  unfold chain_end. destruct rows as [|r0 rs0] using rev_ind; intros Hc; [eapply fits_mono; [apply fits_none|lia]|]. rewrite last_snoc.
  apply good_chain_snoc in Hc as [_ Hg]. rewrite (g_digest _ _ _ Hg). apply fits_sha.
Qed.

(** One call appends the next row of the chain. *)
Lemma derive_next (s : session) rows :
  List.filter (in_chain w (input_fingerprint w) INTERPRETATION_VERSION) (stored s) = rows → unflushed s = [] → prefetch s = None →
  good_chain 0 None rows → (rows = [] → earlier_interpretation s w (input_fingerprint w) = p0) →
  (rows ≠ [] → length rows * BATCH < length todo)%nat → zlen rows < MAX_STEPS →
  ∃ row, derive_step token_len encrypt_json decrypt_json true s w raw true = Ok (mkSession (stored s ++ [row]) [] (transaction s) None, row) ∧
    good_row (length rows) (chain_end None rows) row.
Proof.
  intros Hf Hun Hpre Hc He Hpend Hn. assert (HM : MAX_STEPS < 1000) by (vm_compute; reflexivity).
  unfold derive_step. rewrite Hin, (step_start_good s rows) by done. cbn [negb mbind res_bind]. rewrite (proj2 (Z.leb_gt _ _)) by done.
  cbn [set_layouts p_source p_layouts]. rewrite derive_layouts_batch by apply layouts_at_ok. rewrite layouts_at_spans.
  change (batch (drop (length rows * BATCH) todo)) with (spans_at (length rows)). rewrite layouts_at_S. cbn [mbind res_bind].
  change (map (evidence_at (p_source plan0) raw) (spans_at (length rows))) with (records_at (length rows)).
  assert (Hprev : (d_evidence_digest <$> last rows) = chain_end None rows) by (unfold chain_end; by destruct (last rows)). rewrite Hprev.
  change (step_value _ _ _ _ _ _ _) with (value_at (length rows) (chain_end None rows)).
  destruct (value_fits_at (length rows) (chain_end None rows)) as [Hasc Hlen]; [unfold zlen in Hn; lia|by apply end_fits|].
  rewrite (proj2 (Z.ltb_ge _ _)) by exact Hlen.
  destruct (seal_ok _ Hasc (plain_value _ _) Hlen) as (t & Henc & Ht & Hdec). rewrite Henc. cbn [mbind res_bind].
  rewrite Hun, Hpre. eexists. split; [reflexivity|]. constructor; done.
Qed.

(** ** What was written is accepted *)
Lemma evidence_at_cases sp : ∃ code facts, let o := span_offset (p_source plan0) sp.1 sp.2 in
  evidence_at (p_source plan0) raw sp = mkEvidence o sp.1 (sha256_hex (span raw o sp.1)) code facts ∧
  ((code = None ∧ ∃ f, facts = Some f ∧ facts_offset f = o ∧ facts_length f = sp.1) ∨
   (facts = None ∧ ∃ c, code = Some c ∧ c ∈ "SOURCE_RECORD_BOUNDARY" :: "LIVE_RECORD_BOUNDARY" :: record_errors)).
Proof.
  unfold evidence_at, derive_record. set (o := span_offset _ _ _).
  destruct ((if p_source plan0 then decode_source else decode_live_record) (span raw o sp.1) sp.1 o) as [f|c m] eqn:E.
  - exists None, (Some f). split; [done|]. left. split; [done|]. exists f. split; [done|].
    destruct (p_source plan0); [apply decode_source_shape in E|apply decode_live_record_shape in E]; tauto.
  - assert (Hm : c = DecodeError ∧ m ∈ "SOURCE_RECORD_BOUNDARY" :: "LIVE_RECORD_BOUNDARY" :: record_errors).
    { destruct (p_source plan0); [apply decode_source_msg in E as [-> E]|apply decode_live_record_msg in E as [-> E]]; (split; [done|]);
        rewrite elem_of_cons in E; rewrite !elem_of_cons; tauto. }
    destruct Hm as [-> Hm]. exists (Some m), None. split; [done|]. right. eauto.
Qed.

Lemma code_short c : c ∈ "SOURCE_RECORD_BOUNDARY" :: "LIVE_RECORD_BOUNDARY" :: record_errors → bool_decide (c = "") || (80 <? text_len c) = false.
Proof.
  assert (H : Forall (λ c, bool_decide (c = "") || (80 <? text_len c) = false) ("SOURCE_RECORD_BOUNDARY" :: "LIVE_RECORD_BOUNDARY" :: record_errors))
    by (repeat constructor).
  rewrite Forall_forall in H. apply H.
Qed.

Lemma verify_record_good sp :
  verify_record (p_source plan0) raw sp.1 sp.2 (canon (evidence_json (evidence_at (p_source plan0) raw sp)))
  = Ok (failed (evidence_at (p_source plan0) raw sp)).
Proof.
  destruct (evidence_at_cases sp) as (code & facts & -> & Hcases). set (o := span_offset _ _ _) in *.
  set (E := mkEvidence _ _ _ _ _). unfold verify_record. fold o. rewrite !get_canon by apply plain_evidence.
  change (get "offset" (evidence_json E)) with (PInt o). change (get "length" (evidence_json E)) with (PInt sp.1).
  change (get "raw_digest" (evidence_json E)) with (PStr (sha256_hex (span raw o sp.1))).
  change (get "error_code" (evidence_json E)) with (opt_str code).
  change (get "facts" (evidence_json E)) with (match facts with Some f => facts_json f | None => PNone end).
  change (is_dict (canon (evidence_json E))) with true. cbn [canon is_int eq_str andb]. rewrite !Z.eqb_refl, bool_decide_eq_true_2 by done.
  cbn [negb andb]. destruct Hcases as [(-> & f & -> & Ho & Hl)|(-> & c & -> & Hc)]; cbn [opt_str canon].
  - assert (Hp : plain_json (facts_json f) = true) by plain_fields. rewrite !get_canon by exact Hp.
    change (get "offset" (facts_json f)) with (PInt (facts_offset f)). change (get "length" (facts_json f)) with (PInt (facts_length f)).
    change (is_dict (canon (facts_json f))) with true. cbn [canon is_int andb]. by rewrite Ho, Hl, !Z.eqb_refl.
  - by rewrite code_short.
Qed.

Lemma verify_rows_good sps :
  verify_rows (p_source plan0) raw sps (map canon (map evidence_json (map (evidence_at (p_source plan0) raw) sps)))
  = Ok (flags_of (p_source plan0) raw sps).
Proof.
  unfold verify_rows. induction sps as [|sp sps IH]; [done|]. cbn [map].
  match goal with |- context [zip (?a :: ?l) (?b :: ?k)] => change (zip (a :: l) (b :: k)) with ((a, b) :: zip l k) end.
  cbn [mapR fst snd]. rewrite verify_record_good. cbn [mbind res_bind]. rewrite IH. done.
Qed.

Lemma count_flags sps : count (flags_of (p_source plan0) raw sps) = zlen (List.filter failed (map (evidence_at (p_source plan0) raw) sps)).
Proof.
  induction sps as [|sp sps IH]; [done|]. unfold flags_of in *. cbn [map]. rewrite count_cons, IH. simpl.
  destruct (failed _); [rewrite zlen_cons; lia|lia].
Qed.

Lemma same_typed_str o : same_typed (canon (opt_str o)) (opt_str o) = true.
Proof. destruct o; [|done]. simpl. by apply bool_decide_eq_true. Qed.
Lemma same_typed_int o : same_typed (canon (opt_int o)) (opt_int o) = true.
Proof. destruct o; [|done]. simpl. apply Z.eqb_refl. Qed.

Lemma verify_coverage_good k previous : _verify_coverage w raw (canon (value_at k previous)) (set_layouts plan0 (layouts_at k)) DECODER_VERSION
  = Ok (set_layouts plan0 (layouts_at (S k))).
Proof.
  unfold _verify_coverage, provenance_ok. rewrite plan_of_step, !get_canon by apply plain_value.
  destruct (step_fields w (input_fingerprint w) (Z.of_nat k) (prior_at k) previous (set_layouts plan0 (layouts_at (S k))) (records_at k))
    as (_ & _ & _ & _ & _ & F1 & F2 & F3 & F4 & F5 & F6 & F7 & _ & _ & _ & F8 & F9 & F10 & _ & F11 & F12).
  fold (value_at k previous) in *. rewrite F1, F2, F3, F4, F5, F6, F7, F8, F9, F10, F11, F12.
  rewrite !same_typed_str, !same_typed_int. change (same_typed (canon (PStr ?x)) (PStr ?x)) with (bool_decide (x = x)).
  change (same_typed (canon (PInt ?x)) (PInt ?x)) with (x =? x). rewrite bool_decide_eq_true_2, Z.eqb_refl by done. cbn [andb negb canon].
  set (rows := map canon (map evidence_json (records_at k))).
  assert (Hlen : length rows = length (spans_at k)) by (unfold rows, records_at; by rewrite !length_map).
  assert (Hz : zlen rows = zlen (records_at k)) by (unfold zlen, records_at; by rewrite Hlen, length_map).
  assert (Hle : zlen rows <= RECORDS_PER_STEP).
  { unfold zlen. rewrite Hlen. unfold spans_at, batch. rewrite length_take. unfold RECORDS_PER_STEP. lia. }
  rewrite (proj2 (Z.leb_le _ _)) by exact Hle. cbn [is_int]. rewrite Hz, Z.eqb_refl. cbn [andb negb set_layouts p_source p_layouts].
  rewrite <- Hz, verify_layouts_batch by (apply layouts_at_ok || done). rewrite layouts_at_spans.
  change (batch (drop (k * BATCH) todo)) with (spans_at k).
  rewrite <- (app_nil_r rows), verify_run by exact Hlen. unfold rows, records_at. rewrite verify_rows_good. cbn [mbind res_bind fst snd].
  rewrite layouts_at_S, count_flags. cbn [length]. rewrite bool_decide_eq_true_2, Z.add_0_l, Z.eqb_refl by done. cbn [negb orb].
  unfold set_layouts at 1. cbn [p_source p_header p_framing_error]. fold (set_layouts plan0 (layouts_at (S k))).
  rewrite (proj1 (py_eq_canon _ (plain_plan _))). cbn [negb orb p_layouts set_layouts].
  assert (Hpl : plain_json (PList (map PInt (plausible (layouts_at (S k))))) = true) by (apply plain_list, Forall_fmap, Forall_true; done).
  change (PList (map canon ?l)) with (canon (PList l)). rewrite (proj2 (py_eq_canon _ Hpl)). cbn [eq_str negb orb].
  by rewrite bool_decide_eq_true_2.
Qed.

Lemma verify_step_good k previous row vs : good_row k previous row →
  verify_step token_len decrypt_json true w raw plan0 DECODER_VERSION (set_layouts plan0 (layouts_at k), vs) row
  = Ok (set_layouts plan0 (layouts_at (S k)), vs ++ [canon (value_at k previous)]).
Proof. intros Hg. unfold verify_step. rewrite (unseal_good _ _ _ Hg). cbn [mbind res_bind]. by rewrite verify_coverage_good. Qed.

(** ** The whole chain *)
Definition steps : nat := Nat.max 1 ((length todo + (BATCH - 1)) / BATCH).
Lemma steps_cover : (length todo ≤ steps * BATCH)%nat.
Proof. unfold steps, BATCH, RECORDS_PER_STEP. change (Z.to_nat 128) with 128%nat. pose proof (Nat.div_mod (length todo + (128 - 1)) 128 ltac:(lia)).
  pose proof (Nat.mod_upper_bound (length todo + (128 - 1)) 128 ltac:(lia)). lia. Qed.
Lemma steps_needed k : (0 < k < steps → k * BATCH < length todo)%nat.
Proof. unfold steps, BATCH, RECORDS_PER_STEP. change (Z.to_nat 128) with 128%nat. pose proof (Nat.div_mod (length todo + (128 - 1)) 128 ltac:(lia)).
  pose proof (Nat.mod_upper_bound (length todo + (128 - 1)) 128 ltac:(lia)). lia. Qed.

Lemma spans_fresh n sizes : Forall (λ z, 0 < z) sizes → 0 <= n → zlen (spans (fresh_layouts n sizes)) = sumZ (map (λ z, n / z) sizes).
Proof.
  intros H Hn. unfold spans, sumZ. induction H as [|z sizes Hz _ IH]; [done|]. cbn [fresh_layouts map concat foldr] in *. rewrite zlen_app.
  unfold fresh_layouts in IH. rewrite IH. f_equal. unfold zlen, layout_spans, unfinished. cbn [l_size l_total l_processed].
  rewrite length_map, length_seqZ. pose proof (Z.div_pos n z Hn Hz). lia.
Qed.
Lemma todo_bound : zlen todo <= 10587.
Proof.
  pose proof raw_small as Hraw. unfold PACKET_MAX in Hraw. unfold todo, plan0, _plan. destruct (is_source (w_kind w)); cbn [p_layouts].
  { case_bool_decide as Hs; [|by vm_compute]. rewrite spans_fresh by (unfold zlen; lia || (constructor; [by apply source_size_pos|constructor])).
    pose proof (source_size_pos _ Hs). unfold sumZ. simpl. rewrite Z_div_same_full by lia. lia. }
  destruct (bool_decide (w_kind w = _)); [by vm_compute|]. destruct (negb _) eqn:E; [by vm_compute|]. destruct (_ || _); [by vm_compute|].
  bool_prop. cbn [p_layouts]. rewrite spans_fresh by (apply live_filter_pos || lia). rewrite live_sizes_eq. set (n := zlen raw - 8) in *.
  assert (n / 12 <= 5460 ∧ n / 32 <= 2047 ∧ n / 36 <= 1820 ∧ n / 52 <= 1260 ∧ 0 <= n / 12 ∧ 0 <= n / 32 ∧ 0 <= n / 36 ∧ 0 <= n / 52) as Hd by dlia.
  unfold sumZ. cbn [List.filter]. destruct (n mod 12 =? 0), (n mod 32 =? 0), (n mod 36 =? 0), (n mod 52 =? 0); cbn [map foldr]; lia.
Qed.
Lemma steps_bound : Z.of_nat steps < MAX_STEPS.
Proof.
  replace MAX_STEPS with 84 by (vm_compute; reflexivity). pose proof todo_bound as Hb. unfold zlen in Hb.
  unfold steps, BATCH, RECORDS_PER_STEP. change (Z.to_nat 128) with 128%nat.
  pose proof (Nat.div_mod (length todo + (128 - 1)) 128 ltac:(lia)).
  pose proof (Nat.mod_upper_bound (length todo + (128 - 1)) 128 ltac:(lia)). lia.
Qed.

Fixpoint derive_many (n : nat) (s : session) : res session :=
  match n with
  | O => Ok s
  | S n => s ← derive_many n s; '(s, _) ← derive_step token_len encrypt_json decrypt_json true s w raw true; Ok s
  end.

Lemma good_in_chain k previous rows : good_chain k previous rows →
  List.filter (in_chain w (input_fingerprint w) INTERPRETATION_VERSION) rows = rows.
Proof.
  revert k previous. induction rows as [|row rows IH]; intros k previous; [done|]. intros [[] Hc]. simpl. rewrite (IH _ _ Hc).
  unfold in_chain. by rewrite g_work0, g_version0, g_print0, Z.eqb_refl, !bool_decide_eq_true_2.
Qed.

Lemma derive_many_good (s : session) k :
  List.filter (in_chain w (input_fingerprint w) INTERPRETATION_VERSION) (stored s) = [] → unflushed s = [] → prefetch s = None →
  earlier_interpretation s w (input_fingerprint w) = p0 → (k ≤ steps)%nat →
  ∃ rows, derive_many k s = Ok (mkSession (stored s ++ rows) [] (transaction s) None) ∧ length rows = k ∧ good_chain 0 None rows.
Proof.
  intros Hf Hun Hpre He. induction k as [|k IH]; intros Hk.
  { exists []. rewrite app_nil_r. simpl. split_and!; [|done|done]. destruct s; simpl in *. by subst. }
  destruct IH as (rows & Hd & Hlen & Hc); [lia|]. cbn [derive_many]. rewrite Hd. cbn [mbind res_bind]. set (s1 := mkSession _ _ _ _).
  destruct (derive_next s1 rows) as (row & Hs & Hg).
  - unfold s1. simpl. by rewrite List.filter_app, Hf, (good_in_chain _ _ _ Hc).
  - done.
  - done.
  - done.
  - intros ->. simpl in Hlen. subst k. unfold s1. rewrite <- He. unfold earlier_interpretation. simpl. by rewrite app_nil_r.
  - intros Hne. rewrite Hlen. apply steps_needed. destruct rows; [done|]. simpl in Hlen. lia.
  - unfold zlen. rewrite Hlen. pose proof steps_bound. lia.
  - rewrite Hs. exists (rows ++ [row]). cbn [mbind res_bind stored s1 transaction]. rewrite <- app_assoc, length_app. simpl.
    split_and!; [done|lia|]. apply good_chain_snoc. split; [done|]. exact Hg.
Qed.

Definition json_at (sp : Z * Z) : pyval := canon (evidence_json (evidence_at (p_source plan0) raw sp)).

Lemma records_of_cons v vs : records_of (v :: vs) = step_records v ++ records_of vs.
Proof. done. Qed.

Lemma verify_chain k previous rows vs : good_chain k previous rows →
  ∃ vals, foldR (verify_step token_len decrypt_json true w raw plan0 DECODER_VERSION) rows (set_layouts plan0 (layouts_at k), vs)
    = Ok (set_layouts plan0 (layouts_at (k + length rows)), vs ++ vals) ∧
  length vals = length rows ∧ records_of vals = map json_at (concat (map spans_at (seq k (length rows)))).
Proof.
  revert k previous vs. induction rows as [|row rows IH]; intros k previous vs Hc.
  { exists []. rewrite app_nil_r, Nat.add_0_r. done. }
  destruct Hc as [Hg Hc]. cbn [foldR]. rewrite (verify_step_good _ _ _ _ Hg). cbn [mbind res_bind].
  destruct (IH _ _ (vs ++ [canon (value_at k previous)]) Hc) as (vals & Hf & Hl & Hr). exists (canon (value_at k previous) :: vals).
  rewrite Hf. split; [by rewrite <- app_assoc; replace (S k + length rows)%nat with (k + length (row :: rows))%nat by (simpl; lia)|]. split; [simpl; by rewrite Hl|].
  rewrite records_of_cons, Hr. cbn [length seq map concat]. rewrite map_app. f_equal. unfold step_records.
  rewrite get_canon by apply plain_value. change (get "records" (value_at k previous)) with (PList (map evidence_json (records_at k))).
  cbn [canon]. unfold records_at. by rewrite !map_map.
Qed.
End complete.

(** ** Chains complete, and what they record is read back *)
Section theorems.
Context {token : Type} (token_len : token → Z) (encrypt_json : pyval → res token) (decrypt_json : token → res pyval)
  `{!Sealing token_len encrypt_json decrypt_json}.

(** An unstarted interpretation: nothing pending in the session, no row of this
    version for the input, and rows within their columns. *)
Record unstarted (s : @session token) (w : ZktCustodyWork) : Prop := {
  un_flushed : unflushed s = [];
  un_prefetch : prefetch s = None;
  un_rows : List.filter (in_chain w (input_fingerprint w) INTERPRETATION_VERSION) (stored s) = [];
  un_fits : ∀ r, r ∈ stored s → 0 <= d_id r < 10 ^ 18 ∧ fits (PStr (d_version r)) 200 ∧ fits (PStr (d_evidence_digest r)) 200 }.

Lemma set_layouts_id p : set_layouts p (p_layouts p) = p.
Proof. by destruct p. Qed.

Lemma earlier_fits (s : @session token) w fp :
  (∀ r, r ∈ stored s → 0 <= d_id r < 10 ^ 18 ∧ fits (PStr (d_version r)) 200 ∧ fits (PStr (d_evidence_digest r)) 200) →
  let p := earlier_interpretation s w fp in plain_json p = true ∧ fits p 600 ∧ fits (canon p) 600.
Proof.
  intros H. unfold earlier_interpretation. destruct (sort_by _ _) as [|r l] eqn:E.
  { cbv zeta. split_and!; [done|..]; (eapply fits_mono; [apply fits_none|lia]). }
  assert (Hr : r ∈ stored s).
  { assert (Hin : r ∈ r :: l) by by left. rewrite <- E, sort_by_perm in Hin. by apply list_elem_of_In, filter_In in Hin as [?%list_elem_of_In _]. }
  destruct (H r Hr) as (H1 & H2 & H3). cbv zeta. split_and!.
  - plain_fields.
  - eapply fits_mono; [apply (fits_dict _ [18; 200; 200])|lazy; discriminate]. fits_fields; cbn [snd]; [by apply (fits_int 18); [lia|]|done..].
  - change (canon _) with (PDict [("evidence_digest", PStr (d_evidence_digest r)); ("id", PInt (d_id r)); ("version", PStr (d_version r))]).
    eapply fits_mono; [apply (fits_dict _ [200; 18; 200])|lazy; discriminate]. fits_fields; cbn [snd]; [done|by apply (fits_int 18); [lia|]|done].
Qed.

(** The chain of an unstarted interpretation. *)
Record finished (s s' : @session token) (w : ZktCustodyWork) (raw : bytes) (rows : list ZktDerivedEvidence) : Prop := {
  f_session : s' = mkSession (stored s ++ rows) [] (transaction s) None;
  f_length : length rows = steps w raw;
  f_chain : good_chain token_len decrypt_json w raw (earlier_interpretation s w (input_fingerprint w)) 0 None rows;
  f_pending : all_pending rows;
  f_rows : _chain_rows s' w (input_fingerprint w) INTERPRETATION_VERSION = Ok rows;
  f_last : ∃ row rows', rows = rows' ++ [row] ∧ d_result row ≠ "PENDING" }.

Lemma chain_exists s w raw : input_ok w raw = true → work_fits w → unstarted s w →
  plain_json (earlier_interpretation s w (input_fingerprint w)) = true ∧
  ∃ rows s', derive_many token_len encrypt_json decrypt_json w raw (steps w raw) s = Ok s' ∧ finished s s' w raw rows.
Proof.
  intros Hin Hfit [Hu Hp Hr Hf]. destruct (earlier_fits s w (input_fingerprint w) Hf) as (H1 & H2 & H3). split; [done|].
  destruct (derive_many_good token_len encrypt_json decrypt_json w raw _ H1 Hin Hfit H2 H3 s (steps w raw) Hr Hu Hp eq_refl ltac:(lia))
    as (rows & Hd & Hlen & Hc).
  assert (Hall : all_pending rows) by (eapply good_pending; [exact Hc|]; intros ?; rewrite Hlen in *; apply steps_needed; lia).
  exists rows, (mkSession (stored s ++ rows) [] (transaction s) None). split; [done|]. constructor; try done.
  - apply (chain_rows_good _ _ _ _ _ _ _) with (2 := Hc); [|done|].
    + cbn [stored]. by rewrite List.filter_app, Hr, (good_in_chain _ _ _ _ _ _ _ _ Hc).
    + unfold zlen. rewrite Hlen. pose proof (steps_bound w raw Hin). lia.
  - destruct rows as [|row rows _] using rev_ind; [unfold steps in Hlen; simpl in Hlen; lia|]. exists row, rows. split; [done|].
    apply good_chain_snoc in Hc as [_ Hg]. erewrite g_result by exact Hg. rewrite pending_at. rewrite length_app in Hlen. cbn [length] in Hlen.
    replace (S (0 + length rows)) with (steps w raw) by lia. pose proof (steps_cover w raw). lia.
Qed.


Lemma chain_verified s s' w raw rows : input_ok w raw = true → plain_json (earlier_interpretation s w (input_fingerprint w)) = true →
  finished s s' w raw rows →
  ∃ values, verified_steps token_len decrypt_json true s' w raw INTERPRETATION_VERSION DECODER_VERSION = Ok values ∧
    length values = length rows ∧ records_of values = map (json_at w raw) (concat (map (spans_at w raw) (seq 0 (length rows)))).
Proof.
  intros Hin Hplain [_ _ Hc _ Hrows (row & rows' & -> & Hres)].
  destruct (verify_chain token_len decrypt_json w raw _ Hplain 0 None _ [] Hc) as (values & Hv & Hl & Hr).
  rewrite layouts_at_0, set_layouts_id in Hv. exists values. unfold verified_steps. rewrite Hin, Hrows. cbn [negb mbind res_bind].
  rewrite last_snoc, (bool_decide_eq_false_2 _ Hres). fold (plan0 w raw). by rewrite Hv.
Qed.

(** C31: batching loses nothing. The finished chain of an interpretation is accepted
    by [verified_steps], and the records it returns are exactly the decoding, one
    by one, of every record of every candidate layout: the steps of 128 are
    equivalent to decoding all of it at once. *)
Theorem verified_steps_roundtrip s w raw : input_ok w raw = true → work_fits w → unstarted s w →
  ∃ n s' values, derive_many token_len encrypt_json decrypt_json w raw n s = Ok s' ∧
    verified_steps token_len decrypt_json true s' w raw INTERPRETATION_VERSION DECODER_VERSION = Ok values ∧
    length values = n ∧
    records_of values = map (λ sp, canon (evidence_json (evidence_at (p_source (_plan raw (w_kind w))) raw sp)))
                          (spans (p_layouts (_plan raw (w_kind w)))).
Proof.
  intros Hin Hfit Hun. destruct (chain_exists s w raw Hin Hfit Hun) as (Hplain & rows & s' & Hd & Hfin).
  destruct (chain_verified s s' w raw rows Hin Hplain Hfin) as (values & Hv & Hl & Hr).
  exists (steps w raw), s', values. rewrite (f_length _ _ _ _ _ Hfin) in *. split_and!; [done|done|done|]. rewrite Hr.
  unfold spans_at, batch. fold BATCH. change (λ k, take BATCH (drop (k * BATCH) (todo w raw))) with (λ k, chunk_at BATCH k (todo w raw)).
  rewrite (concat_chunks BATCH) by apply steps_cover. done.
Qed.
End theorems.

(** ** A concrete interpretation: one 8-byte source record *)
#[export] Instance clear_sealing : Sealing (λ _ : pyval, 0) (λ v, Ok v) (λ v, Ok (canon v)).
Proof. intros v _ _ _. exists v. split_and!; [done|by vm_compute|done]. Qed.

Definition wit_raw : bytes := replicate 8 x00.
Definition wit_work : ZktCustodyWork :=
  mkWork 1 "work" 3 None "SOURCE_RECORD" (Some "ZK1") None None None (Some 8) (Some (sha256_hex wit_raw))
    "PENDING" "AWAITING_INTERPRETATION" "ADD_PROTOCOL" 1 0 None 0 None 0 None None 0.
Definition wit_session : @session pyval := mkSession [] [] 1 None.

Lemma wit_input : input_ok wit_work wit_raw = true.
Proof.
  unfold input_ok. rewrite (bool_decide_eq_true_2 (w_expected_digest wit_work = Some (sha256_hex wit_raw))) by reflexivity. reflexivity.
Qed.
Lemma wit_fits : work_fits wit_work.
Proof. constructor; split; vm_compute; try reflexivity; discriminate. Qed.
Lemma wit_unstarted : unstarted wit_session wit_work.
Proof. constructor; [done..|]. intros r []%not_elem_of_nil. Qed.


Lemma verified_steps_roundtrip_witness :
  ∃ n s' values, derive_many (λ _ : pyval, 0) (λ v, Ok v) (λ v, Ok (canon v)) wit_work wit_raw n wit_session = Ok s' ∧
    verified_steps (λ _ : pyval, 0) (λ v, Ok (canon v)) true s' wit_work wit_raw INTERPRETATION_VERSION DECODER_VERSION = Ok values ∧
    length (records_of values) = 1%nat.
Proof.
  destruct (verified_steps_roundtrip (λ _ : pyval, 0) (λ v, Ok v) (λ v, Ok (canon v)) wit_session wit_work wit_raw wit_input wit_fits wit_unstarted)
    as (n & s' & values & H1 & H2 & _ & H3). exists n, s', values. split; [exact H1|]. split; [exact H2|]. rewrite H3, length_map. reflexivity.
Defined.

Lemma verified_steps_cover_witness :
  ∃ s' values, verified_steps (λ _ : pyval, 0) (λ v, Ok (canon v)) true s' wit_work wit_raw INTERPRETATION_VERSION DECODER_VERSION = Ok values ∧
    Forall2 (accounts true wit_raw) [(8, 0)] (records_of values).
Proof.
  destruct (chain_exists (λ _ : pyval, 0) (λ v, Ok v) (λ v, Ok (canon v)) wit_session wit_work wit_raw wit_input wit_fits wit_unstarted)
    as (Hp & rows & s' & Hd & Hfin).
  destruct (chain_verified (λ _ : pyval, 0) (λ v, Ok (canon v)) wit_session s' wit_work wit_raw rows wit_input Hp Hfin) as (values & Hv & _).
  exists s', values. split; [exact Hv|]. exact (proj1 (verified_steps_cover _ _ _ _ _ _ _ _ _ Hv)).
Defined.
