(* ===== verification/CustodyWork.v ===== *)
(** * Custody work: inspection and the fair batch (zkt_custody_work.py, zkt_custody.py)

    A work row is inspected against the committed receipts and source rows it
    names; the bytes it authenticates go to the interpretation chain. The handlers
    mutate rows as they go and an exception keeps what was assigned before it, so
    they are functions from a world to a world and a result; a savepoint restores
    the world it started from.

    Parameters: pydantic's field validation, Fernet, the clock, and two operations
    of zkt_source_attendance.py that reach the ingestion service, [binding_event]
    and [process_source]. *)
From S2P Require Import Prelude PyText Hashes PyJson Calendar ZktPacket ZktDecode OccurrenceMatch QueueEvidence Custody DerivedEvidence.
Open Scope string_scope.
Open Scope list_scope.
Open Scope Z_scope.

Record AttendanceEvent := mkEvent {
  ae_id : Z; ae_event_uid : string; ae_connector_id : Z; ae_zkt_device_id : Z; ae_device_serial : option string; ae_uid : option string;
  ae_user_id : string; ae_device_event_time : datetime; ae_captured_at : datetime; ae_source : string; ae_status : option string;
  ae_punch : option string; ae_raw_event : pyval; ae_ords_status : string;
  ae_identity_resolution_status : string; ae_identity_repair_reason : option string; ae_manual_release_required : bool;
  ae_cnic_lookup_hash : option string; ae_cnic_encrypted : option string; ae_display_name : option string; ae_raw_punch : bool;
  ae_clock_drift_seconds : option string; ae_clock_quality : string; ae_oracle_confirmed_at : option Z; ae_oracle_confirmation_path : option string }.
Record ZktSourceCutover := mkCutover {
  sc_id : Z; sc_connector_id : Z; sc_source_epoch_id : Z; sc_first_new_ordinal : Z; sc_terminal_serial : string; sc_model : string;
  sc_record_size : Z; sc_authority_digest : string; sc_protected_authority : string }.
Record ZktSourceAttendance := mkBinding {
  sb_id : Z; sb_occurrence_alias_id : Z; sb_canonical_alias_id : Z; sb_cutover_id : Z; sb_work_id : Z; sb_evidence_id : Z;
  sb_evidence_digest : string; sb_attendance_event_id : Z; sb_facts_digest : string }.
Record OrdsOutbox := mkOutbox {
  ob_id : Z; ob_attendance_event_id : option Z; ob_delivery_type : string; ob_status : string; ob_payload_hash : option string;
  ob_attempt_count : Z; ob_next_attempt_at : option Z; ob_last_attempt_at : option Z; ob_acknowledged_at : option Z;
  ob_last_http_status : option Z; ob_last_error : option string; ob_created_at : Z }.
Record ZktOracleIntent := mkIntent {
  oi_id : Z; oi_outbox_id : Z; oi_attendance_event_id : Z; oi_occurrence_alias_id : Z; oi_connector_id : Z; oi_verification_scope : string;
  oi_payload_digest : option string; oi_protected_payload : option string; oi_protected_check : option string; oi_prepared_at : option Z;
  oi_post_attempts : Z; oi_last_post_at : option Z }.
Record ZktOracleContentReceipt := mkContentReceipt {
  cr_intent_id : Z; cr_event_uid : string; cr_payload_digest : string; cr_request_digest : string; cr_verification_scope : string;
  cr_content_token : string; cr_claim_attempt : Z }.
Record ZktOracleMembershipReceipt := mkMembershipReceipt {
  mr_intent_id : Z; mr_event_uid : string; mr_payload_digest : string; mr_request_digest : string; mr_response_digest : string;
  mr_verification_scope : string; mr_claim_attempt : Z }.
(** Approvals of an event: the rows that authorise a held delivery. *)
Record AttendanceForceReleaseDecision := mkRelease {
  fr_id : Z; fr_item_id : Z; fr_attendance_event_id : Z; fr_proof : pyval; fr_payload_encrypted : string; fr_payload_digest : string }.
(** The run item of an approval; [result] is a JSON object. *)
Record AttendanceRecoveryItem := mkRecoveryItem {
  rv_id : Z; rv_status : string; rv_error_code : option string; rv_result : list (string * pyval); rv_completed_at : option Z; rv_updated_at : Z }.
Record AttendanceSafeRepairDecision := mkSafeRepair { sr_attendance_event_id : Z; sr_actor : string }.
Record AttendanceRepairItem := mkRepairItem { ri_attendance_event_id : Z; ri_job_approved_at : option Z }.
(** Stored rows, and those added to the session and not flushed ([session.new]). *)
Record approvals := mkApprovals {
  releases : list AttendanceForceReleaseDecision; new_releases : list AttendanceForceReleaseDecision;
  safe_repairs : list AttendanceSafeRepairDecision; new_safe_repairs : list AttendanceSafeRepairDecision;
  repair_items : list AttendanceRepairItem }.
Definition no_approvals : approvals := mkApprovals [] [] [] [] [].
Record ZktLegacyHandoff := mkHandoff { lh_connector_id : Z; wake_cursor : Z; wake_through : Z }.
Record ZktCustodySchedule := mkSchedule { cs_connector_id : Z; priority_burst : Z }.

(** The attendance side: what source rows become. *)
Record ledger := mkLedger {
  events : list AttendanceEvent; bindings : list ZktSourceAttendance; outboxes : list OrdsOutbox; intents : list ZktOracleIntent;
  content_receipts : list ZktOracleContentReceipt; membership_receipts : list ZktOracleMembershipReceipt; approved : approvals;
  recovery_items : list AttendanceRecoveryItem }.
Definition empty_ledger : ledger := mkLedger [] [] [] [] [] [] no_approvals [].
Definition with_events (v : list AttendanceEvent) (l : ledger) : ledger :=
  mkLedger v (bindings l) (outboxes l) (intents l) (content_receipts l) (membership_receipts l) (approved l) (recovery_items l).
Definition with_bindings (v : list ZktSourceAttendance) (l : ledger) : ledger :=
  mkLedger (events l) v (outboxes l) (intents l) (content_receipts l) (membership_receipts l) (approved l) (recovery_items l).
Definition with_outboxes (v : list OrdsOutbox) (l : ledger) : ledger :=
  mkLedger (events l) (bindings l) v (intents l) (content_receipts l) (membership_receipts l) (approved l) (recovery_items l).
Definition with_intents (v : list ZktOracleIntent) (l : ledger) : ledger :=
  mkLedger (events l) (bindings l) (outboxes l) v (content_receipts l) (membership_receipts l) (approved l) (recovery_items l).
Definition with_content_receipts (v : list ZktOracleContentReceipt) (l : ledger) : ledger :=
  mkLedger (events l) (bindings l) (outboxes l) (intents l) v (membership_receipts l) (approved l) (recovery_items l).
Definition with_membership_receipts (v : list ZktOracleMembershipReceipt) (l : ledger) : ledger :=
  mkLedger (events l) (bindings l) (outboxes l) (intents l) (content_receipts l) v (approved l) (recovery_items l).
Definition with_recovery_items (v : list AttendanceRecoveryItem) (l : ledger) : ledger :=
  mkLedger (events l) (bindings l) (outboxes l) (intents l) (content_receipts l) (membership_receipts l) (approved l) v.
Record world := mkWorld {
  tables : db; evidence : @session string; connectors : list Connector; attendance : ledger; cutovers : list ZktSourceCutover;
  handoffs : list ZktLegacyHandoff; schedules : list ZktCustodySchedule }.
Definition set_tables (d : db) (x : world) : world :=
  mkWorld d (evidence x) (connectors x) (attendance x) (cutovers x) (handoffs x) (schedules x).
Definition set_evidence (s : @session string) (x : world) : world :=
  mkWorld (tables x) s (connectors x) (attendance x) (cutovers x) (handoffs x) (schedules x).
Definition set_attendance (l : ledger) (x : world) : world :=
  mkWorld (tables x) (evidence x) (connectors x) l (cutovers x) (handoffs x) (schedules x).
Definition set_handoffs (l : list ZktLegacyHandoff) (x : world) : world :=
  mkWorld (tables x) (evidence x) (connectors x) (attendance x) (cutovers x) l (schedules x).
Definition set_schedules (l : list ZktCustodySchedule) (x : world) : world :=
  mkWorld (tables x) (evidence x) (connectors x) (attendance x) (cutovers x) (handoffs x) l.

(** ** Handlers: the world is kept when an exception is raised *)
Definition M (A : Type) : Type := world → world * res A.
#[export] Instance M_ret : MRet M := λ A a x, (x, Ok a).
#[export] Instance M_bind : MBind M := λ A B f m x,
  match m x with (x', Ok a) => f a x' | (x', Raise c e) => (x', Raise c e) end.
Definition raise {A} (c : exn_class) (m : string) : M A := λ x, (x, Raise c m).
Definition lift {A} (r : res A) : M A := λ x, (x, r).
Definition gets {A} (f : world → A) : M A := λ x, (x, Ok (f x)).
Definition modify (f : world → world) : M () := λ x, (f x, Ok ()).
Definition when_ (b : bool) (m : M ()) : M () := if b then m else mret ().
(** [with session.begin_nested()]: pending rows are flushed first, and stay when the
    block is rolled back. *)
Definition flushed (x : world) : world := set_evidence (flush (evidence x)) x.
Definition savepoint {A} (m : M A) : M A := λ x,
  match m (flushed x) with (x', Ok a) => (x', Ok a) | (_, Raise c e) => (flushed x, Raise c e) end.
(** [try: m except ...]: [handler] decides on the class. *)
Definition catch {A} (m : M A) (handler : exn_class → string → option (M A)) : M A := λ x,
  match m x with
  | (x', Ok a) => (x', Ok a)
  | (x', Raise c e) => match handler c e with Some h => h x' | None => (x', Raise c e) end
  end.

Definition work_row (wid : Z) (d : db) : option ZktCustodyWork := List.find (λ w, w_id w =? wid) (works d).
Definition get_work (wid : Z) : M ZktCustodyWork := λ x,
  (x, match work_row wid (tables x) with Some w => Ok w | None => Raise AttributeError "work" end).
Definition update_work (wid : Z) (f : ZktCustodyWork → ZktCustodyWork) : M () :=
  modify (λ x, set_tables (set_works (tables x) (map (λ w, if w_id w =? wid then f w else w) (works (tables x)))) x).

(** [work.state, work.reason_code, work.owner = ...] and [work.next_attempt_at = ...] *)
Definition assign_state (state reason owner : string) (w : ZktCustodyWork) : ZktCustodyWork :=
  set_state w state reason owner (w_next_attempt_at w).
Definition assign_next (next : option Z) (w : ZktCustodyWork) : ZktCustodyWork :=
  set_state w (w_state w) (w_reason_code w) (w_owner w) next.
Definition mark_state (wid : Z) (state reason owner : string) : M () := update_work wid (assign_state state reason owner).

Section inspect.
Context (validate_observation : pyval → option Observation) (decrypt_json : string → res pyval)
  (decrypt_text : option string → res (option string)) (encrypt_json : pyval → res string) (pii_fernet_key : bool) (utc_now : Z)
  (binding_event : world → Connector → ZktOccurrenceAlias → res (option Z))
  (process_source : Connector → Z → bytes → M ()).

Definition token_len (s : string) : Z := zlen (chars s).

(** ** Source obligations *)
Definition source_work_key (c : Connector) (m : TerminalRecordManifest) : string :=
  key [PStr "zkt-source-work-v1"; PStr (c_connector_id c); PInt (m_id m); PInt (m_zkt_device_id m); PStr (m_terminal_serial m);
       PInt (m_generation m); opt_int (m_source_epoch_id m); PInt (m_ordinal m); opt_int (m_record_size m); PStr (m_raw_record_digest m);
       PStr (m_terminal_record_key m)].

Definition in_source_sizes (o : option Z) : bool := match o with Some n => bool_decide (n ∈ SOURCE_SIZES) | None => false end.
Definition nonempty (o : option string) : bool := match o with Some s => negb (bool_decide (s = "")) | None => false end.

Definition source_binding_ok (c : Connector) (m : TerminalRecordManifest) : bool :=
  match c_terminal c with
  | None => false
  | Some t =>
      (m_connector_id m =? c_id c) && (m_zkt_device_id m =? t_id t) && serial_is (m_terminal_serial m) (t_confirmed_serial t)
      && serial_is (m_terminal_serial m) (t_serial t) && m_canonical_source m
      && match m_source_epoch_id m with Some e => negb (e =? 0) | None => false end
      && bool_decide (m_disposition m = "RAW_PRESERVED") && bool_decide (m_attendance_event_id m = None)
      && nonempty (m_protected_raw_record m) && in_source_sizes (m_record_size m)
  end.

Definition source_work_matches (c : Connector) (m : TerminalRecordManifest) (w : ZktCustodyWork) : bool :=
  (w_connector_id w =? c_id c) && bool_decide (w_kind w = "SOURCE_LEDGER") && bool_decide (w_terminal_serial w = Some (m_terminal_serial m))
  && bool_decide (w_expected_digest w = Some (m_raw_record_digest m)) && bool_decide (w_expected_bytes w = m_record_size m)
  && bool_decide (w_work_key w = source_work_key c m).

Definition source_work (d : db) (c : Connector) (m : TerminalRecordManifest) : ZktCustodyWork :=
  mkWork (next_id w_id (works d)) (source_work_key c m) (c_id c) (Some (m_id m)) "SOURCE_LEDGER" (Some (m_terminal_serial m)) None None None
    (m_record_size m) (Some (m_raw_record_digest m)) "PENDING" "AWAITING_INTERPRETATION" "ADD_PROTOCOL" 1 0 (Some utc_now) utc_now
    None 0 None None utc_now.

(** The loop body; [existing] is read before the loop. *)
Definition attach_source_one (c : Connector) (existing : list ZktCustodyWork) (d : db) (m : TerminalRecordManifest) : res db :=
  if negb (source_binding_ok c m) then Raise ValueError "SOURCE_WORK_BINDING"
  else
    match List.find (λ w, bool_decide (w_source_manifest_id w = Some (m_id m))) existing with
    | Some prior => if source_work_matches c m prior then Ok d else Raise ValueError "SOURCE_WORK_CONFLICT"
    | None => Ok (set_works d (works d ++ [source_work d c m]))
    end.

Definition attach_source_work (d : db) (c : Connector) (rows : list TerminalRecordManifest) : res db :=
  if 100 <? zlen rows then Raise ValueError "SOURCE_WORK_BATCH_BOUNDS"
  else if bool_decide (length rows = 0%nat) then Ok d
  else
    '(d, _) ← bind_manifest_occurrences d c rows;
    foldR (attach_source_one c (works d)) rows d.

(** ** The delivery hold of an occurrence *)
Definition alias_bound (zkt : Terminal) (c : Connector) (a : ZktOccurrenceAlias) (m : TerminalRecordManifest) : bool :=
  (a_zkt_device_id a =? t_id zkt) && (m_connector_id m =? c_id c) && (m_zkt_device_id m =? t_id zkt) && m_canonical_source m
  && serial_is (m_terminal_serial m) (t_confirmed_serial zkt)
  && bool_decide ((Some (a_source_epoch_id a), a_ordinal a, a_raw_digest a) = (m_source_epoch_id m, m_ordinal m, m_raw_record_digest m)).

Definition occurrence_attendance_id (x : world) (c : Connector) (a : ZktOccurrenceAlias) : res (option Z) :=
  match a_attendance_event_id a with Some e => Ok (Some e) | None => binding_event x c a end.

Definition source_occurrence_delivery_hold (x : world) (c : Connector) (occurrence : string) : res (option string) :=
  let alias := List.find (λ a, bool_decide (a_occurrence_id a = occurrence)) (aliases (tables x)) in
  let manifest := a ← alias; List.find (λ m, m_id m =? a_manifest_id a) (manifests (tables x)) in
  match alias, manifest, c_terminal c with
  | Some a, Some m, Some zkt =>
      if negb (alias_bound zkt c a m) then Ok (Some "SOURCE_OCCURRENCE_LINK_CONFLICT")
      else if negb (bool_decide (a_attendance_event_id a = m_attendance_event_id m)) then Ok (Some "SOURCE_ATTENDANCE_LINK_CHANGED")
      else
        match occurrence_attendance_id x c a with
        | Raise cl e => if is_value_error cl || bool_decide (cl = RuntimeError) then Ok (Some "SOURCE_DERIVED_ATTENDANCE_CHANGED") else Raise cl e
        | Ok None => Ok None
        | Ok (Some event_id) =>
            match List.find (λ e, ae_id e =? event_id) (events (attendance x)) with
            | None => Ok (Some "SOURCE_ATTENDANCE_BINDING_UNVERIFIED")
            | Some e =>
                if negb ((ae_connector_id e =? c_id c) && (ae_zkt_device_id e =? t_id zkt)
                         && bool_decide (ae_device_serial e = Some (m_terminal_serial m)))
                then Ok (Some "SOURCE_ATTENDANCE_BINDING_UNVERIFIED")
                else if existsb (λ m', bool_decide (m_attendance_event_id m' = Some (ae_id e)) && (m_zkt_device_id m' =? t_id zkt)
                          && bool_decide (m_source_epoch_id m' = Some (a_source_epoch_id a)) && m_canonical_source m'
                          && negb (m_ordinal m' =? a_ordinal a)) (manifests (tables x))
                then Ok (Some "LEGACY_EVENT_SHARED_BY_SOURCE_OCCURRENCES") else Ok None
            end
        end
  | _, _, _ => Ok (Some "SOURCE_OCCURRENCE_LINK_CONFLICT")
  end.

(** ** inspect_source_ledger *)
Definition ledger_evidence_ok (c : Connector) (m : TerminalRecordManifest) (w : ZktCustodyWork) (d : db) : bool :=
  match c_terminal c, (e ← m_source_epoch_id m; List.find (λ x, e_id x =? e) (epochs d)) with
  | Some t, Some epoch =>
      (m_connector_id m =? w_connector_id w) && (m_zkt_device_id m =? t_id t) && m_canonical_source m
      && (e_zkt_device_id epoch =? t_id t) && (e_generation epoch =? m_generation m)
      && bool_decide (w_terminal_serial w = Some (m_terminal_serial m)) && serial_is (m_terminal_serial m) (t_confirmed_serial t)
      && serial_is (m_terminal_serial m) (t_serial t) && bool_decide (source_work_key c m = w_work_key w)
      && bool_decide (w_expected_digest w = Some (m_raw_record_digest m)) && bool_decide (m_record_size m = w_expected_bytes w)
      && bool_decide (m_disposition m = "RAW_PRESERVED") && bool_decide (m_attendance_event_id m = None)
  | _, _ => false
  end.

(** The stored bytes of a manifest, decoded and compared with the obligation. *)
Definition ledger_bytes (m : TerminalRecordManifest) (w : ZktCustodyWork) : res bytes :=
  encoded ← decrypt_text (m_protected_raw_record m);
  match encoded with
  | None => Raise EvidenceInvalid "SOURCE_WORK_BYTES_UNAVAILABLE"
  | Some t =>
      if bool_decide (t = "") || (684 <? text_len t) then Raise EvidenceInvalid "SOURCE_WORK_BYTES_UNAVAILABLE"
      else
        match b64decode (chars t) with
        | None => Raise EvidenceInvalid "SOURCE_WORK_BYTES_CHANGED"
        | Some raw =>
            if bool_decide (w_expected_bytes w = Some (zlen raw)) && bool_decide (w_expected_digest w = Some (sha256_hex raw)) then Ok raw
            else Raise EvidenceInvalid "SOURCE_WORK_BYTES_CHANGED"
        end
  end.

Definition inspect_source_ledger (wid : Z) : M bytes :=
  if negb pii_fernet_key then raise RuntimeError "CUSTODY_KEY_UNAVAILABLE"
  else
    w ← get_work wid;
    d ← gets tables;
    cs ← gets connectors;
    match (i ← w_source_manifest_id w; List.find (λ m, m_id m =? i) (manifests d)), List.find (λ c, c_id c =? w_connector_id w) cs with
    | Some m, Some c =>
        if negb (ledger_evidence_ok c m w d) then raise EvidenceInvalid "SOURCE_WORK_EVIDENCE_CHANGED"
        else
          raw ← lift (ledger_bytes m w);
          match bind_manifest_occurrences d c [m] with
          | Raise SourceAssociationError e => raise EvidenceInvalid e
          | Raise cl e => raise cl e
          | Ok (_, []) => raise KeyError "manifest"
          | Ok (d', (_, a) :: _) =>
              _ ← modify (set_tables d');
              x ← gets (λ x, x);
              hold ← lift (source_occurrence_delivery_hold x c (a_occurrence_id a));
              _ ← match hold with
                  | Some h => mark_state wid "HELD_OCCURRENCE" h "ADD_RECONCILIATION"
                  | None => mark_state wid "WAIT_PROFILE" "PROFILE_QUALIFICATION_REQUIRED" "ADD_PROTOCOL"
                  end;
              mret raw
          end
    | _, _ => raise EvidenceInvalid "SOURCE_WORK_EVIDENCE_CHANGED"
    end.

(** ** materialize_packet *)
Definition receipts_of (d : db) (wid : Z) : list ZktObservationReceipt :=
  sort_by r_id (List.filter (λ r, existsb (λ l, (wr_work_id l =? wid) && (wr_receipt_id l =? r_id r)) (work_receipts d)) (receipts d)).
Definition evidence_maximum : Z := 2 * ((PACKET_MAX + FRAGMENT_DATA - 1) / FRAGMENT_DATA).

(** [Observation.model_validate] *)
Definition model_validate (v : pyval) : option Observation :=
  o ← validate_observation v; if verify_observation o then Some o else None.

(** The observation of a receipt: decrypted, compared with its digest, validated. *)
Definition receipt_observation (r : ZktObservationReceipt) (invalid : string) : res Observation :=
  protected ← decrypt_json (r_protected_observation r);
  let value := get "observation" protected in
  if has_nan value then Raise ValueError "Out of range float values are not JSON compliant"
  else if negb (bool_decide (digest value = r_payload_digest r)) then Raise EvidenceInvalid "RECEIPT_DIGEST_MISMATCH"
  else match model_validate value with Some o => Ok o | None => Raise EvidenceInvalid invalid end.

Definition same_decoder (o : Observation) (w : ZktCustodyWork) : bool :=
  bool_decide ((Some (o_decoder_profile o), Some (o_decoder_version o)) = (w_decoder_profile w, w_decoder_version w)).
Definition observation_bound (r : ZktObservationReceipt) (o : Observation) (w : ZktCustodyWork) : bool :=
  bool_decide (r_error_code r = None) && (r_connector_id r =? w_connector_id w) && bool_decide (w_terminal_serial w = Some (o_terminal_serial o))
  && bool_decide (w_capture_epoch w = Some (o_capture_epoch o)) && same_decoder o w.

Definition collect (w : ZktCustodyWork) (acc : list PacketFragment * option bytes) (r : ZktObservationReceipt)
    : res (list PacketFragment * option bytes) :=
  let '(fragments, packet) := acc in
  o ← receipt_observation r "PACKET_SCHEMA_INVALID";
  if negb (observation_bound r o w) then Raise EvidenceInvalid "PACKET_EVIDENCE_BINDING"
  else
    match b64decode (chars (o_raw_b64 o)) with
    | None => Raise ValueError "raw_b64"
    | Some raw =>
        if bool_decide (w_kind w = "PACKET_FRAGMENT") && bool_decide (o_raw_format o = "PACKET_FRAGMENT") then
          f ← parse_fragment raw; Ok (fragments ++ [f], packet)
        else if bool_decide (w_kind w ∈ ["LIVE_PACKET"; "LIVE_FRAME"]) && bool_decide (o_raw_format o = w_kind w)
                && bool_decide (packet = None) then Ok (fragments, Some raw)
        else Raise EvidenceInvalid "PACKET_EVIDENCE_KIND"
    end.

Definition materialize_packet (d : db) (w : ZktCustodyWork) : res (option bytes) :=
  let rows := take (Z.to_nat (evidence_maximum + 1)) (receipts_of d (w_id w)) in
  if bool_decide (length rows = 0%nat) || (evidence_maximum <? zlen rows) then Raise EvidenceInvalid "PACKET_EVIDENCE_BOUNDS"
  else if negb pii_fernet_key then Raise RuntimeError "CUSTODY_KEY_UNAVAILABLE"
  else
    '(fragments, packet) ← foldR (collect w) rows ([], None);
    packet ← (if bool_decide (length fragments = 0%nat) then Ok packet
              else match reassemble fragments with
                   | Ok p => Ok p
                   | Raise cl e => if is_value_error cl then Raise EvidenceInvalid "PACKET_FRAGMENT_CONFLICT" else Raise cl e
                   end);
    match packet with
    | None => Ok None
    | Some p =>
        if bool_decide (w_expected_bytes w = Some (zlen p)) && bool_decide (w_expected_digest w = Some (sha256_hex p)) then Ok (Some p)
        else Raise EvidenceInvalid "PACKET_DIGEST_MISMATCH"
    end.

(** ** inspect_source *)
Definition source_bound (r : ZktObservationReceipt) (o : Observation) (raw : bytes) (w : ZktCustodyWork) : bool :=
  observation_bound r o w && bool_decide (o_raw_format o = "SOURCE_RECORD") && bool_decide (w_expected_bytes w = Some (zlen raw))
  && bool_decide (w_expected_digest w = Some (o_raw_digest o)).

Definition assign_owner (owner : string) (w : ZktCustodyWork) : ZktCustodyWork :=
  set_state w (w_state w) (w_reason_code w) owner (w_next_attempt_at w).
Definition assign_reason (state reason : string) (w : ZktCustodyWork) : ZktCustodyWork :=
  set_state w state reason (w_owner w) (w_next_attempt_at w).

Definition terminal_matches (serial : string) (c : option Connector) : bool :=
  match c ≫= c_terminal with Some t => serial_is serial (t_serial t) && serial_is serial (t_confirmed_serial t) | None => false end.

Definition inspect_source (wid : Z) : M bytes :=
  w ← get_work wid;
  d ← gets tables;
  match receipts_of d wid with
  | [r] =>
      if negb pii_fernet_key then raise RuntimeError "CUSTODY_KEY_UNAVAILABLE"
      else
        o ← lift (receipt_observation r "SOURCE_SCHEMA_INVALID");
        raw ← lift (match b64decode (chars (o_raw_b64 o)) with Some raw => Ok raw | None => Raise ValueError "raw_b64" end);
        if negb (source_bound r o raw w) then raise EvidenceInvalid "SOURCE_EVIDENCE_BINDING"
        else
          cs ← gets connectors;
          let connector := List.find (λ c, c_id c =? w_connector_id w) cs in
          _ ← update_work wid (assign_owner "ADD_RECONCILIATION");
          match connector, terminal_matches (o_terminal_serial o) connector, o_occurrence o with
          | Some c, true, Some _ =>
              bound ← catch (savepoint (λ x, match bind_source_occurrence (tables x) c r o with
                                             | Ok (d', occurrence) => (set_tables d' x, Ok occurrence) | Raise cl e => (x, Raise cl e) end))
                        (λ cl e, if bool_decide (cl = SourceAssociationError) then Some (raise EvidenceInvalid e) else None);
              match bound with
              | None =>
                  _ ← update_work wid (assign_reason "WAIT_SOURCE" "CANONICAL_SOURCE_PENDING");
                  _ ← update_work wid (assign_next (Some (utc_now + 30 * 1000000)));
                  mret raw
              | Some occurrence =>
                  x ← gets (λ x, x);
                  hold ← lift (source_occurrence_delivery_hold x c occurrence);
                  _ ← match hold with
                      | Some h => update_work wid (assign_reason "HELD_OCCURRENCE" h)
                      | None => update_work wid (assign_reason "SOURCE_ASSOCIATED" "EXACT_CANONICAL_SOURCE_BYTES")
                      end;
                  mret raw
              end
          | Some c, true, None => _ ← update_work wid (assign_reason "WAIT_SOURCE" "SOURCE_REFERENCE_REQUIRED"); mret raw
          | _, _, _ => _ ← update_work wid (assign_reason "WAIT_SOURCE" "TERMINAL_BINDING_CHANGED"); mret raw
          end
  | _ => raise EvidenceInvalid "SOURCE_EVIDENCE_BOUNDS"
  end.

(** ** inspect_work *)
Definition begin_attempt (w : ZktCustodyWork) : ZktCustodyWork :=
  mkWork (w_id w) (w_work_key w) (w_connector_id w) (w_source_manifest_id w) (w_kind w) (w_terminal_serial w) (w_capture_epoch w)
    (w_decoder_profile w) (w_decoder_version w) (w_expected_bytes w) (w_expected_digest w) (w_state w) (w_reason_code w) (w_owner w)
    (w_evidence_revision w) (w_evidence_revision w) None utc_now (Some INTERPRETATION_VERSION) (w_attempt_count w + 1)
    (w_assembled_digest w) (w_assembled_at w) (w_created_at w).
Definition assembled (raw : bytes) (w : ZktCustodyWork) : ZktCustodyWork :=
  mkWork (w_id w) (w_work_key w) (w_connector_id w) (w_source_manifest_id w) (w_kind w) (w_terminal_serial w) (w_capture_epoch w)
    (w_decoder_profile w) (w_decoder_version w) (w_expected_bytes w) (w_expected_digest w) (w_state w) (w_reason_code w) (w_owner w)
    (w_evidence_revision w) (w_processed_revision w) (w_next_attempt_at w) (w_updated_at w) (w_interpretation_version w) (w_attempt_count w)
    (Some (sha256_hex raw)) (Some (default utc_now (w_assembled_at w))) (w_created_at w).

(** The authenticated bytes of a work row, or [None] while fragments are missing. *)
Definition authenticate (wid : Z) (kind : string) : M (option bytes) :=
  if bool_decide (kind = "SOURCE_LEDGER") then raw ← inspect_source_ledger wid; mret (Some raw)
  else if bool_decide (kind = "SOURCE_RECORD") then raw ← inspect_source wid; mret (Some raw)
  else
    w ← get_work wid;
    d ← gets tables;
    packet ← lift (materialize_packet d w);
    match packet with
    | None => _ ← mark_state wid "WAIT_FRAGMENTS" "INCOMPLETE_PACKET" "ADD_PROTOCOL"; mret None
    | Some raw =>
        _ ← update_work wid (assembled raw);
        _ ← mark_state wid "WAIT_PROFILE" "PROFILE_QUALIFICATION_REQUIRED" "ADD_PROTOCOL";
        mret (Some raw)
    end.

(** [derived.derive_step(session, work, raw, flush=False)] *)
Definition derive (wid : Z) (raw : bytes) : M string := λ x,
  match work_row wid (tables x) with
  | None => (x, Raise AttributeError "work")
  | Some w =>
      match derive_step token_len encrypt_json decrypt_json pii_fernet_key (evidence x) w raw false with
      | Ok (s, row) => (set_evidence s x, Ok (d_result row))
      | Raise cl e => (x, Raise cl e)
      end
  end.

Definition create_attendance (wid : Z) (raw : bytes) (source_permit : option bool) : M () :=
  w ← get_work wid;
  cs ← gets connectors;
  cut ← gets cutovers;
  let permit := match source_permit with Some b => b | None => bool_decide (w_connector_id w ∈ map sc_connector_id cut) end in
  if negb permit then mret ()
  else
    match List.find (λ c, c_id c =? w_connector_id w) cs with
    | None => raise AttributeError "connector"
    | Some c =>
        catch (savepoint (process_source c wid raw))
          (λ cl e,
             if bool_decide (cl = SourceAttendanceHold) then Some (mark_state wid "HELD_SOURCE" e "ADD_RECONCILIATION")
             else if bool_decide (cl = SQLAlchemyError) || bool_decide (cl = RuntimeError) then
               Some (_ ← mark_state wid "RETRY_SYSTEM" "SOURCE_ATTENDANCE_TRANSACTION_RETRY" "ADD_OPERATIONS";
                     update_work wid (assign_next (Some (utc_now + 60 * 1000000))))
             else None)
    end.

Definition interpret (wid : Z) (kind : string) (source_permit : option bool) : M () :=
  bytes ← authenticate wid kind;
  match bytes with
  | None => mret ()
  | Some raw =>
      result ← derive wid raw;
      if bool_decide (result = "PENDING") then
        _ ← mark_state wid "INTERPRETING" "DERIVED_EVIDENCE_INCOMPLETE" "ADD_PROTOCOL";
        update_work wid (assign_next (Some utc_now))
      else
        w ← get_work wid;
        if bool_decide (kind = "SOURCE_LEDGER") && negb (bool_decide (w_state w = "HELD_OCCURRENCE"))
        then create_attendance wid raw source_permit else mret ()
  end.

Definition evidence_error (cl : exn_class) : bool := bool_decide (cl ∈ [EvidenceInvalid; DerivedEvidenceInvalid]).
Definition system_error (cl : exn_class) : bool := bool_decide (cl = InvalidToken) || is_value_error cl || bool_decide (cl = RuntimeError).

Definition inspect_work (wid : Z) (source_permit : option bool) : M () :=
  w ← get_work wid;
  if bool_decide (w_state w = "HELD_EXCEPTION") then mret ()
  else
    _ ← update_work wid begin_attempt;
    if negb (bool_decide (w_kind w ∈ SUPPORTED_KINDS)) then mark_state wid "WAIT_PROFILE" "UNKNOWN_RAW_FORMAT" "ADD_PROTOCOL"
    else
      catch (interpret wid (w_kind w) source_permit)
        (λ cl e,
           if evidence_error cl then Some (mark_state wid "HELD_EXCEPTION" e "ADD_EVIDENCE_REVIEW")
           else if system_error cl then
             Some (_ ← mark_state wid "RETRY_SYSTEM" "CUSTODY_DECRYPT_UNAVAILABLE" "ADD_OPERATIONS";
                   update_work wid (assign_next (Some (utc_now + 60 * 1000000))))
           else None).

(** ** Repair of receipts without work *)
Definition has_link (d : db) (r : ZktObservationReceipt) : bool := existsb (λ l, wr_receipt_id l =? r_id r) (work_receipts d).
Definition backfill_one (locked : Z → bool) (acc : world * Z) (r : ZktObservationReceipt) : res (world * Z) :=
  let '(x, repaired) := acc in
  match List.find (λ c, (c_id c =? r_connector_id r) && negb (locked (c_id c))) (connectors x) with
  | None => Ok (x, repaired)
  | Some c =>
      if has_link (tables x) r then Ok (x, repaired)
      else
        protected ← decrypt_json (r_protected_observation r);
        let value := get "observation" protected in
        if has_nan value then Raise ValueError "Out of range float values are not JSON compliant"
        else if negb (bool_decide (digest value = r_payload_digest r)) then Raise ValueError "RECEIPT_DIGEST_MISMATCH"
        else
          '(d, _) ← attach_work utc_now (tables x) c r (if is_dict value then value else PNone);
          Ok (set_tables d x, repaired + 1)
  end.
Definition backfill_work (locked : Z → bool) (x : world) (limit : Z) : res (world * Z) :=
  let maximum := Z.max 1 (Z.min limit 500) in
  let rows := take (Z.to_nat maximum) (sort_by r_id (List.filter (λ r, negb (has_link (tables x) r)) (receipts (tables x)))) in
  foldR (backfill_one locked) rows (x, 0).
End inspect.

(** ** The fair batch *)
Definition PRIORITY_BURST : Z := 8.
Definition RECENT_LIVE_SECONDS : Z := 60.
Definition LIVE_KINDS : list string := ["LIVE_PACKET"; "LIVE_FRAME"; "PACKET_FRAGMENT"].

(** The choice of one pick: the recent head while the burst lasts, or when no older
    row is left. *)
Record picks := mkPicks { chosen : list (Z * bool); recent_left : list Z; oldest_left : list Z; burst : Z }.

Fixpoint skip (selected : list Z) (rows : list Z) : list Z :=
  match rows with
  | [] => []
  | r :: rows' => if bool_decide (r ∈ selected) then skip selected rows' else rows
  end.
Definition selected (p : picks) : list Z := map fst (chosen p).
Definition advance_indices (p : picks) : picks :=
  mkPicks (chosen p) (skip (selected p) (recent_left p)) (skip (selected p) (oldest_left p)) (burst p).

Definition choose (p : picks) : option (Z * bool) :=
  match recent_left p, oldest_left p with
  | [], [] => None
  | r :: _, [] => Some (r, true)
  | [], o :: _ => Some (o, false)
  | r :: _, o :: _ => if burst p <? PRIORITY_BURST then Some (r, true) else Some (o, false)
  end.
Definition take_pick (p : picks) (pick : Z * bool) : picks :=
  mkPicks (chosen p ++ [pick]) (recent_left p) (oldest_left p) (if pick.2 then Z.min PRIORITY_BURST (burst p + 1) else 0).

(** ** Candidate pages *)
Definition SUPPORTED (w : ZktCustodyWork) : bool := bool_decide (w_kind w ∈ SUPPORTED_KINDS).
Definition due_at (now : Z) (w : ZktCustodyWork) : bool := match w_next_attempt_at w with Some t => t <=? now | None => false end.
Definition _revision_hold (w : ZktCustodyWork) : bool :=
  bool_decide (w_next_attempt_at w = None) && SUPPORTED w && negb (bool_decide (w_state w = "HELD_EXCEPTION")).
Definition str_lt (s t : string) : bool := bytes_leb (chars s) (chars t) && negb (bool_decide (s = t)).
Definition _revision_ranges : list (ZktCustodyWork → bool) :=
  [(λ w, bool_decide (w_interpretation_version w = None));
   (λ w, match w_interpretation_version w with Some v => str_lt v INTERPRETATION_VERSION | None => false end);
   (λ w, match w_interpretation_version w with Some v => str_lt INTERPRETATION_VERSION v | None => false end)].

(** Orders of the queries: by (next_attempt_at, id), by (version, created_at, id), by
    (created_at, id) downwards, and by age. *)
Definition lex {A} (c d : A → A → comparison) (x y : A) : comparison := match c x y with Eq => d x y | r => r end.
Definition by_key {A} (k : A → Z) (x y : A) : comparison := Z.compare (k x) (k y).
Definition leb_of {A} (c : A → A → comparison) (x y : A) : bool := match c x y with Gt => false | _ => true end.
Definition by_version (x y : ZktCustodyWork) : comparison :=
  let v w := default "" (w_interpretation_version w) in
  if bool_decide (v x = v y) then Eq else if bytes_leb (chars (v x)) (chars (v y)) then Lt else Gt.
Definition stamp (w : ZktCustodyWork) : Z := default (w_created_at w) (w_next_attempt_at w).

Definition page (quota : Z) (leb : ZktCustodyWork → ZktCustodyWork → bool) (f : ZktCustodyWork → bool) (d : db) : list ZktCustodyWork :=
  take (Z.to_nat quota) (sort_with leb (List.filter f (works d))).
Definition of_connector (cid : Z) (f : ZktCustodyWork → bool) (w : ZktCustodyWork) : bool := (w_connector_id w =? cid) && f w.

Definition _oldest_candidates (d : db) (cid now quota : Z) : list ZktCustodyWork :=
  let due := page quota (leb_of (lex (by_key stamp) (by_key w_id))) (of_connector cid (due_at now)) d in
  let holds := flat_map (λ range, page quota (leb_of (lex by_version (lex (by_key w_created_at) (by_key w_id))))
                                    (of_connector cid (λ w, _revision_hold w && range w)) d) _revision_ranges in
  take (Z.to_nat quota) (sort_with (leb_of (lex (by_key stamp) (by_key w_id))) (due ++ holds)).

Definition recent_candidates (d : db) (cid now quota : Z) : list ZktCustodyWork :=
  page quota (leb_of (lex (by_key (λ w, - w_created_at w)) (by_key (λ w, - w_id w))))
    (of_connector cid (λ w, due_at now w && bool_decide (w_kind w ∈ LIVE_KINDS)
       && (now - RECENT_LIVE_SECONDS * 1000000 <=? w_created_at w) && (w_created_at w <=? now))) d.

(** [wake_source_page] (zkt_handoff_commit.py) *)
Definition wake_source_page (now cid limit : Z) : M () := λ x,
  match List.find (λ h, lh_connector_id h =? cid) (handoffs x) with
  | None => (x, Ok ())
  | Some h =>
      if wake_through h <=? wake_cursor h then (x, Ok ())
      else
        let rows := page (Z.max 1 (Z.min limit 500)) (leb_of (by_key w_id))
          (of_connector cid (λ w, bool_decide (w_kind w = "SOURCE_LEDGER") && (wake_cursor h <? w_id w) && (w_id w <=? wake_through h))) (tables x) in
        let wake w := if bool_decide (w_id w ∈ map w_id rows) && bool_decide (w_next_attempt_at w = None) && bool_decide (w_state w = "WAIT_PROFILE")
                      then assign_next (Some now) w else w in
        let cursor := match last rows with Some w => w_id w | None => wake_through h end in
        (set_handoffs (map (λ h, if lh_connector_id h =? cid then mkHandoff cid cursor (wake_through h) else h) (handoffs x))
           (set_tables (set_works (tables x) (map wake (works (tables x)))) x), Ok ())
  end.

Section batch.
(** [now] is read once for the candidate queries; [woken_at] is the clock when the
    holds of a connector are woken, later than [now]. *)
Context (inspect : bool → Z → M ()) (expired : nat → bool) (locked : Z → bool) (now : Z) (woken_at : Z → Z).

Definition store_burst (cid b : Z) : M () :=
  modify (λ x, set_schedules (map (λ s, if cs_connector_id s =? cid then mkSchedule cid b else s) (schedules x)) x).

(** [while len(selected) < quota]; [checks] counts the readings of the clock and
    [processed] the rows inspected by the whole batch. *)
Fixpoint pick_loop (cid : Z) (permit : bool) (quota : nat) (p : picks) (processed : Z) (checks : nat) : M (picks * Z * nat) :=
  match quota with
  | O => mret (p, processed, checks)
  | S quota =>
      let p := advance_indices p in
      match choose p with
      | None => mret (p, processed, checks)
      | Some pick =>
          let look := negb (processed =? 0) in
          if look && expired checks then mret (p, processed, S checks)
          else
            _ ← inspect permit pick.1;
            _ ← store_burst cid (burst (take_pick p pick));
            pick_loop cid permit quota (take_pick p pick) (processed + 1) (if look then S checks else checks)
      end
  end.

(** [with derived.initial_evidence_batch(...)] *)
Definition with_evidence_batch {A} (candidates : list ZktCustodyWork) (m : M A) : M A := λ x,
  match initial_evidence_batch (evidence x) candidates with
  | Raise c e => (x, Raise c e)
  | Ok s => let '(x', r) := m (set_evidence s x) in (set_evidence (end_evidence_batch (evidence x')) x', r)
  end.

(** [list({row.id: row for row in [*recent, *oldest]}.values())] *)
Definition candidates_of (recent oldest : list ZktCustodyWork) : list ZktCustodyWork :=
  recent ++ List.filter (λ w, bool_decide (w_id w ∉ map w_id recent)) oldest.

Record batch_state := mkBatch { b_processed : Z; b_cursor : Z; b_attempted : Z; b_locked : Z; b_checks : nat }.

(** One connector under its lock; [true] asks the batch to stop. *)
Definition visit (cid quota : Z) (s : batch_state) : M (batch_state * bool) :=
  cs ← gets connectors;
  match List.find (λ c, (c_id c =? cid) && negb (locked cid)) cs with
  | None => mret (mkBatch (b_processed s) cid (b_attempted s) (b_locked s + 1) (b_checks s), false)
  | Some _ =>
      _ ← wake_source_page (woken_at cid) cid quota;
      d ← gets tables;
      let recent := recent_candidates d cid now quota in
      let oldest := _oldest_candidates d cid now quota in
      schedule ← gets (λ x, List.find (λ s, cs_connector_id s =? cid) (schedules x));
      _ ← match schedule with
          | Some _ => mret ()
          | None => modify (λ x, set_schedules (schedules x ++ [mkSchedule cid 0]) x)
          end;
      let b := match schedule with Some s => priority_burst s | None => 0 end in
      if negb ((0 <=? b) && (b <=? PRIORITY_BURST)) then raise RuntimeError "CUSTODY_SCHEDULE_INVALID"
      else
        permit ← gets (λ x, bool_decide (cid ∈ map sc_connector_id (cutovers x)));
        '(_, processed, checks) ← with_evidence_batch (candidates_of recent oldest)
          (pick_loop cid permit (Z.to_nat quota) (mkPicks [] (map w_id recent) (map w_id oldest) b) (b_processed s) (b_checks s));
        if negb (bool_decide (length (recent ++ oldest) = 0%nat)) && (processed =? b_processed s)
        then mret (mkBatch processed (b_cursor s) (b_attempted s) (b_locked s) checks, true)
        else mret (mkBatch processed cid (b_attempted s) (b_locked s) checks, false)
  end.

Fixpoint batch_loop (ids : list Z) (quota : Z) (s : batch_state) : M batch_state :=
  match ids with
  | [] => mret s
  | cid :: ids' =>
      let look := negb (b_attempted s =? 0) in
      if look && expired (b_checks s) then mret s
      else
        let s := mkBatch (b_processed s) (b_cursor s) (b_attempted s + 1) (b_locked s) (if look then S (b_checks s) else b_checks s) in
        '(s, stop) ← visit cid quota s;
        if stop : bool then mret s else batch_loop ids' quota s
  end.

(** The connectors with due work, in rotation after the cursor. *)
Definition connector_due (x : world) (c : Connector) : bool :=
  zkt_custody_enabled c
  && (existsb (λ h, (lh_connector_id h =? c_id c) && (wake_cursor h <? wake_through h)) (handoffs x)
      || existsb (of_connector (c_id c) (λ w, due_at now w || (_revision_hold w && existsb (λ range, range w) _revision_ranges))) (works (tables x))).
Definition rotation (after : Z) (ids : list Z) : list Z :=
  sort_with (leb_of (lex (by_key (λ i, if i <=? after then 1 else 0)) (by_key (λ i, i)))) ids.
Definition due_connectors (x : world) (after maximum : Z) : list Z :=
  take (Z.to_nat maximum) (rotation after (map c_id (List.filter (connector_due x) (connectors x)))).

Definition advance_work_batch (limit after_connector : Z) : M batch_state :=
  let maximum := Z.max 1 (Z.min limit 500) in
  ids ← gets (λ x, due_connectors x after_connector maximum);
  let quota := Z.max 1 (maximum / Z.max 1 (zlen ids)) in
  s ← batch_loop ids quota (mkBatch 0 after_connector 0 0 0);
  _ ← modify flushed;
  mret s.
End batch.

(** [advance_work]: the whole budget in one batch from the first connector. *)
Definition advance_work (inspect : bool → Z → M ()) (locked : Z → bool) (now : Z) (woken_at : Z → Z) (limit : Z) : M Z :=
  s ← advance_work_batch inspect (λ _, false) locked now woken_at limit 0; mret (b_processed s).
