(* ===== verification/CustodyFair.v ===== *)
(** * The custody batch is fair and complete

    Within one connector a batch picks recent live rows first, at most
    PRIORITY_BURST in a row while an older row waits; the burst survives between
    batches. So a row's place in the oldest page bounds when it is inspected, and
    a batch with room inspects every candidate once. *)
From S2P Require Import Prelude PyText Hashes PyJson ZktPacket ZktDecode QueueEvidence Custody DerivedEvidence CustodyWork.
Open Scope string_scope.
Open Scope list_scope.
Open Scope Z_scope.

(** ** Picks as a step relation *)
Inductive pick_step : picks → picks → Prop :=
  | pick_one p pick : choose (advance_indices p) = Some pick → pick_step p (take_pick (advance_indices p) pick).

(** Reading a run of a handler back. *)
Lemma M_bind_ok {A B} (m : M A) (f : A → M B) x x' b : (m ≫= f) x = (x', Ok b) → ∃ x1 a, m x = (x1, Ok a) ∧ f a x1 = (x', Ok b).
Proof. unfold mbind, M_bind. destruct (m x) as [x1 [a|c e]]; [eauto|done]. Qed.

Section loop.
Context (inspect : bool → Z → M ()) (expired : nat → bool).

(** Why a loop ended. *)
Definition stopped (quota n : nat) (p p' : picks) : Prop :=
  (p' = p ∧ n = quota) ∨ (p' = advance_indices p ∧ (choose p' = None ∨ ∃ k, expired k = true)).

Lemma pick_loop_steps cid permit quota p processed checks x x' p' processed' checks' :
  pick_loop inspect expired cid permit quota p processed checks x = (x', Ok (p', processed', checks')) →
  ∃ n p0, nsteps pick_step n p p0 ∧ processed' = processed + Z.of_nat n ∧ stopped quota n p0 p'.
Proof.
  revert p processed checks x. induction quota as [|quota IH]; intros p processed checks x H.
  { injection H as <- <- <- <-. exists 0%nat, p. split_and!; [constructor|lia|by left]. }
  cbn [pick_loop] in H. destruct (choose (advance_indices p)) as [pick|] eqn:Ec.
  2:{ injection H as <- <- <- <-. exists 0%nat, p. split_and!; [constructor|lia|]. right. split; [done|by left]. }
  destruct (negb (processed =? 0) && expired checks) eqn:Eb.
  { injection H as <- <- <- <-. exists 0%nat, p. split_and!; [constructor|lia|]. right. split; [done|]. right. exists checks.
    by apply andb_true_iff in Eb as [_ Eb]. }
  apply M_bind_ok in H as (x1 & u1 & _ & H). apply M_bind_ok in H as (x2 & u2 & _ & H).
  destruct (IH _ _ _ _ H) as (n & p0 & Hs & -> & Hstop). exists (S n), p0. split_and!; [|lia|].
  - econstructor; [by constructor|exact Hs].
  - destruct Hstop as [[-> ->]|Hstop]; [by left|by right].
Qed.
End loop.

(** ** What a run of picks keeps *)
Section run.
Context (recent oldest : list Z) (b0 : Z).

(** A page is read from the front: what was passed over is selected. *)
Definition read_page (page rest sel : list Z) : Prop := ∃ k, rest = drop k page ∧ ∀ i, i ∈ take k page → i ∈ sel.

Lemma read_skip page rest sel : read_page page rest sel → read_page page (skip sel rest) sel.
Proof.
  intros (k & -> & Hk). remember (drop k page) as l eqn:El. revert k El Hk. induction l as [|r l IH]; intros k El Hk; simpl.
  - exists k. by rewrite <- El.
  - case_bool_decide as Hr; [|by exists k; rewrite <- El].
    assert (Hd : drop (S k) page = l) by (rewrite <- Nat.add_1_r, <- drop_drop, <- El; done).
    apply (IH (S k)); [done|]. intros i Hi. assert (Ht : take (S k) page = take k page ++ [r]).
    { rewrite <- Nat.add_1_r, <- take_take_drop, <- El. done. }
    rewrite Ht, elem_of_app, list_elem_of_singleton in Hi. destruct Hi as [Hi | ->]; [by apply Hk|done].
Qed.

Lemma skip_head sel rest r l : skip sel rest = r :: l → r ∉ sel.
Proof. induction rest as [|a rest IH]; simpl; [done|]. case_bool_decide; [done|]. by intros [= <- _]. Qed.

Lemma skip_nil page rest sel : read_page page rest sel → skip sel rest = [] → ∀ i, i ∈ page → i ∈ sel.
Proof.
  intros Hr Hs i Hi. apply read_skip in Hr as (k & Hk & Hin). rewrite Hs in Hk.
  rewrite <- (take_drop k page), <- Hk, app_nil_r in Hi. by apply Hin.
Qed.

Lemma read_more page rest sel j : read_page page rest sel → read_page page rest (sel ++ [j]).
Proof. intros (k & -> & Hk). exists k. split; [done|]. intros i Hi. apply elem_of_app. left. by apply Hk. Qed.

(** The priority flags a burst allows while older rows wait. *)
Fixpoint allowed (b : Z) (flags : list bool) : Prop :=
  match flags with
  | [] => True
  | true :: flags => b < PRIORITY_BURST ∧ allowed (b + 1) flags
  | false :: flags => allowed 0 flags
  end.
Definition falses (flags : list bool) : Z := zlen (List.filter negb flags).

(** At most 8 picks between two older rows. *)
Lemma allowed_bound b flags : 0 <= b <= PRIORITY_BURST → allowed b flags → zlen flags <= 9 * falses flags + (PRIORITY_BURST - b).
Proof.
  unfold PRIORITY_BURST, falses, zlen. revert b. induction flags as [|[] flags IH]; intros b Hb Ha; simpl in *; [lia|..].
  - destruct Ha as [Hlt Ha]. unfold PRIORITY_BURST in Hlt. specialize (IH (b + 1) ltac:(lia) Ha). lia.
  - specialize (IH 0 ltac:(lia) Ha). lia.
Qed.

Fixpoint burst_after (b : Z) (flags : list bool) : Z :=
  match flags with
  | [] => b
  | true :: flags => burst_after (Z.min PRIORITY_BURST (b + 1)) flags
  | false :: flags => burst_after 0 flags
  end.
Lemma burst_after_snoc b flags f : burst_after b (flags ++ [f]) = if f then Z.min PRIORITY_BURST (burst_after b flags + 1) else 0.
Proof. revert b. induction flags as [|[] flags IH]; intros b; simpl; [by destruct f|apply IH..]. Qed.
Lemma allowed_snoc b flags f : 0 <= b <= PRIORITY_BURST → allowed b flags → (f = true → burst_after b flags < PRIORITY_BURST) → allowed b (flags ++ [f]).
Proof.
  unfold PRIORITY_BURST. revert b. induction flags as [|[] flags IH]; intros b Hb Ha Hf; simpl in *.
  - destruct f; simpl; [|done]. split; [by apply Hf|done].
  - destruct Ha as [Hlt Ha]. unfold PRIORITY_BURST in Hlt. split; [done|]. rewrite Z.min_r in Hf by (unfold PRIORITY_BURST; lia).
    apply IH; [lia|done|done].
  - apply IH; [lia|done|done].
Qed.

(** The invariant of a run. [waits o pos]: row [o] of the page is not yet picked. *)
Record run_ok (p : picks) : Prop := {
  run_recent : read_page recent (recent_left p) (selected p);
  run_oldest : read_page oldest (oldest_left p) (selected p);
  run_nodup : NoDup (selected p);
  run_from : ∀ i, i ∈ selected p → i ∈ recent ++ oldest;
  run_burst : burst p = burst_after b0 (map snd (chosen p));
  run_waits : ∀ (pos : nat) (o : Z), oldest !! pos = Some o → o ∉ selected p →
    allowed b0 (map snd (chosen p)) ∧ ∀ i, (i, false) ∈ chosen p → i ∈ take pos oldest }.

Lemma page_head (page : list Z) (k : nat) r l : drop k page = r :: l → page !! k = Some r.
Proof. intros H. rewrite <- (Nat.add_0_r k), <- lookup_drop, H. done. Qed.

Lemma selected_snoc p pick : selected (take_pick p pick) = selected p ++ [pick.1].
Proof. unfold selected, take_pick. cbn [chosen]. by rewrite map_app. Qed.

Lemma indices_ok p : run_ok p → run_ok (advance_indices p).
Proof. intros []. constructor; try done; by apply read_skip. Qed.

(** A chosen row is new and comes from a page. *)
Lemma head_new page rest sel r l : read_page page rest sel → skip sel rest = r :: l → (r ∉ sel) ∧ r ∈ page.
Proof.
  intros Hr Hs. split; [by eapply skip_head|]. apply read_skip in Hr as (k & Hk & _). rewrite Hs in Hk. symmetry in Hk.
  apply page_head in Hk. by eapply list_elem_of_lookup_2.
Qed.
Lemma choose_new p pick : run_ok p → choose (advance_indices p) = Some pick → (pick.1 ∉ selected p) ∧ pick.1 ∈ recent ++ oldest.
Proof.
  intros [Hr Ho _ _ _ _] H. unfold choose in H. cbn [recent_left oldest_left advance_indices] in H. rewrite elem_of_app.
  destruct (skip (selected p) (recent_left p)) as [|r rs] eqn:Er, (skip (selected p) (oldest_left p)) as [|o os] eqn:Eo; [done|..];
    [|..|destruct (_ <? _)]; injection H as <-; cbn [fst];
    first [destruct (head_new _ _ _ _ _ Ho Eo); by auto | destruct (head_new _ _ _ _ _ Hr Er); by auto].
Qed.

(** While row [o] waits, a priority pick needs room in the burst, and an ordinary
    pick takes a row before [o]. *)
Lemma choose_waiting p pick (pos : nat) (o : Z) : run_ok p → oldest !! pos = Some o → o ∉ selected p → choose (advance_indices p) = Some pick → pick.1 ≠ o →
  (pick.2 = true → burst p < PRIORITY_BURST) ∧ (pick.2 = false → pick.1 ∈ take pos oldest).
Proof.
  intros Hok Hpos Hns H Hne. destruct (indices_ok p Hok) as [_ (k & Hk & Hin) _ _ _ _].
  assert (Hkp : (k ≤ pos)%nat).
  { destruct (decide (pos < k)%nat) as [Hlt|]; [|lia]. exfalso. apply Hns, Hin. apply list_elem_of_lookup. exists pos. by rewrite lookup_take_lt. }
  assert (Hlook : drop k oldest !! (pos - k)%nat = Some o) by (rewrite lookup_drop, <- Hpos; f_equal; lia).
  unfold choose in H. destruct (recent_left (advance_indices p)) as [|r rs] eqn:Er; destruct (oldest_left (advance_indices p)) as [|o' os] eqn:Eo;
    try (rewrite <- Hk in Hlook; done).
  - injection H as <-. split; [done|]. intros _. simpl in *. symmetry in Hk. pose proof (page_head _ _ _ _ Hk) as Hh.
    assert (k ≠ pos) by congruence. apply list_elem_of_lookup. exists k. by rewrite lookup_take_lt by lia.
  - change (burst (advance_indices p)) with (burst p) in H. destruct (Z.ltb_spec (burst p) PRIORITY_BURST); injection H as <-; simpl.
    + split; [done|done].
    + split; [done|]. intros _. simpl in *. symmetry in Hk. pose proof (page_head _ _ _ _ Hk) as Hh.
      assert (k ≠ pos) by congruence. apply list_elem_of_lookup. exists k. by rewrite lookup_take_lt by lia.
Qed.

Context (Hb0 : 0 <= b0 <= PRIORITY_BURST).

Lemma run_step p p' : run_ok p → pick_step p p' → run_ok p'.
Proof.
  intros Hok Hstep. inversion Hstep as [? pick Hc]; subst. destruct (choose_new p pick Hok Hc) as [Hnew Hin].
  pose proof (indices_ok p Hok) as [Hr Ho Hnd Hfrom Hbu Hw]. change (selected (advance_indices p)) with (selected p) in *.
  change (chosen (advance_indices p)) with (chosen p) in *. constructor; rewrite ?selected_snoc; cbn [take_pick recent_left oldest_left chosen burst].
  - by apply read_more.
  - by apply read_more.
  - apply NoDup_app. split_and!; [done| |apply NoDup_singleton]. intros x Hx ->%list_elem_of_singleton. done.
  - intros i. rewrite elem_of_app, list_elem_of_singleton. intros [Hi | ->]; [by apply Hfrom|done].
  - rewrite map_app. simpl. rewrite burst_after_snoc, <- Hbu. done.
  - intros pos o Hpos Hns. rewrite elem_of_app, list_elem_of_singleton in Hns.
    assert (Hns1 : o ∉ selected p) by tauto. assert (Hne : pick.1 ≠ o) by (intros <-; tauto).
    destruct (Hw pos o Hpos Hns1) as [Ha Hf]. destruct (choose_waiting p pick pos o Hok Hpos Hns1 Hc Hne) as [H1 H2]. split.
    + rewrite map_app. apply allowed_snoc; [done|done|]. intros Ht. specialize (H1 Ht). rewrite (run_burst _ Hok) in H1. exact H1.
    + intros i. rewrite elem_of_app, list_elem_of_singleton. intros [Hi|Hi]; [by apply Hf|]. destruct pick as [j f]. injection Hi as -> <-. by apply H2.
Qed.

Lemma run_start : run_ok (mkPicks [] recent oldest b0).
Proof.
  constructor; cbn [recent_left oldest_left selected chosen burst map].
  - exists 0%nat. split; [done|]. intros i []%not_elem_of_nil.
  - exists 0%nat. split; [done|]. intros i []%not_elem_of_nil.
  - constructor.
  - intros i []%not_elem_of_nil.
  - done.
  - intros pos o _ _. split; [done|]. intros i []%not_elem_of_nil.
Qed.

Lemma run_steps n p : nsteps pick_step n (mkPicks [] recent oldest b0) p → run_ok p ∧ length (chosen p) = n.
Proof.
  intros H. enough (∀ q, run_ok q → nsteps pick_step n q p → run_ok p ∧ length (chosen p) = (length (chosen q) + n)%nat) as Hg.
  { destruct (Hg _ run_start H) as [? Hl]. split; [done|]. simpl in Hl. lia. }
  clear H. induction n as [|n IH]; intros q Hq Hs; inversion Hs as [|? ? q' ? Hstep Hrest]; subst; [split; [done|lia]|].
  pose proof (run_step _ _ Hq Hstep) as Hq'. destruct (IH _ Hq' Hrest) as [? Hl]. split; [done|]. rewrite Hl.
  inversion Hstep; subst. simpl. rewrite length_app. simpl. lia.
Qed.

(** A row that still waits bounds the number of picks. *)
Lemma waiting_bound p (pos : nat) (o : Z) : run_ok p → oldest !! pos = Some o → o ∉ selected p → zlen (chosen p) <= 9 * Z.of_nat pos + (PRIORITY_BURST - b0).
Proof.
  intros [_ _ Hnd _ _ Hw] Hpos Hns. destruct (Hw pos o Hpos Hns) as [Ha Hf]. apply allowed_bound in Ha; [|done].
  unfold zlen in Ha. rewrite length_map in Ha. unfold zlen. enough (falses (map snd (chosen p)) <= Z.of_nat pos) by lia.
  assert (Hsub : (length (map fst (List.filter (λ q, negb q.2) (chosen p))) ≤ length (take pos oldest))%nat).
  { apply submseteq_length, NoDup_submseteq.
    - clear -Hnd. unfold selected in Hnd. induction (chosen p) as [|[i f] l IH]; simpl in *; [constructor|].
      apply NoDup_cons in Hnd as [Hi Hnd]. destruct f; simpl; [by apply IH|]. apply NoDup_cons. split; [|by apply IH].
      intros (q & -> & Hq)%list_elem_of_fmap. apply Hi. apply list_elem_of_fmap. exists q. split; [done|].
      by apply list_elem_of_In, filter_In in Hq as [?%list_elem_of_In _].
    - intros i (q & -> & Hq)%list_elem_of_fmap. apply list_elem_of_In, filter_In in Hq as [Hq%list_elem_of_In Hq2].
      apply Hf. destruct q as [j []]; [done|]. done. }
  rewrite length_map, length_take in Hsub. unfold falses, zlen.
  assert (Heq : length (List.filter negb (map snd (chosen p))) = length (List.filter (λ q, negb q.2) (chosen p))).
  { clear. induction (chosen p) as [|[i f] l IH]; simpl; [done|]. destruct f; simpl; by rewrite IH. }
  rewrite Heq. lia.
Qed.
End run.

Lemma stopped_selected expired quota n p p' : stopped expired quota n p p' → selected p' = selected p.
Proof. by intros [[-> _]|[-> _]]. Qed.

(** C28: an older row is served. Whatever live rows keep arriving, the row at place
    [pos] of the connector's oldest page has been inspected once the loop has made
    9 (pos + 1) picks, less the burst already spent before this batch. *)
Theorem oldest_row_served inspect expired cid permit quota recent oldest b processed checks x x' p' processed' checks' (pos : nat) (o : Z) :
  pick_loop inspect expired cid permit quota (mkPicks [] recent oldest b) processed checks x = (x', Ok (p', processed', checks')) →
  0 <= b <= PRIORITY_BURST → oldest !! pos = Some o → 9 * (Z.of_nat pos + 1) - b <= processed' - processed → o ∈ selected p'.
Proof.
  intros H Hb Hpos Hn. apply pick_loop_steps in H as (n & p0 & Hs & -> & Hstop). rewrite (stopped_selected _ _ _ _ _ Hstop).
  destruct (run_steps recent oldest b Hb n p0 Hs) as [Hok Hlen]. destruct (decide (o ∈ selected p0)) as [|Hns]; [done|]. exfalso.
  pose proof (waiting_bound recent oldest b Hb p0 pos o Hok Hpos Hns) as Hw. unfold zlen, PRIORITY_BURST in *. lia.
Qed.

Lemma all_selected recent oldest b p : run_ok recent oldest b p → choose (advance_indices p) = None → ∀ i, i ∈ recent ++ oldest → i ∈ selected p.
Proof.
  intros [Hr Ho _ _ _ _] Hc i. unfold choose in Hc. cbn [recent_left oldest_left advance_indices] in Hc.
  destruct (skip (selected p) (recent_left p)) as [|r rs] eqn:Er, (skip (selected p) (oldest_left p)) as [|o os] eqn:Eo;
    [|done|done|by destruct (burst _ <? _)]. rewrite elem_of_app. intros [Hi|Hi]; [exact (skip_nil _ _ _ Hr Er i Hi)|exact (skip_nil _ _ _ Ho Eo i Hi)].
Qed.

(** A batch with room is complete. When the quota covers the candidates and the
    time budget does not run out, every row of both pages is inspected, each once,
    and nothing else is. *)
Theorem batch_visits_all inspect expired cid permit quota recent oldest b processed checks x x' p' processed' checks' :
  pick_loop inspect expired cid permit quota (mkPicks [] recent oldest b) processed checks x = (x', Ok (p', processed', checks')) →
  0 <= b <= PRIORITY_BURST → (∀ k, expired k = false) → (length (remove_dups (recent ++ oldest)) <= quota)%nat →
  selected p' ≡ₚ remove_dups (recent ++ oldest) ∧ processed' = processed + zlen (remove_dups (recent ++ oldest)).
Proof.
  intros H Hb Hex Hq. apply pick_loop_steps in H as (n & p0 & Hs & -> & Hstop). rewrite (stopped_selected _ _ _ _ _ Hstop).
  destruct (run_steps recent oldest b Hb n p0 Hs) as [Hok Hlen].
  assert (Hsub : selected p0 ⊆+ remove_dups (recent ++ oldest)).
  { apply NoDup_submseteq; [apply Hok|]. intros i Hi. apply elem_of_remove_dups. by eapply run_from. }
  assert (Hn : length (selected p0) = n) by (unfold selected; by rewrite length_map).
  enough (Hp : selected p0 ≡ₚ remove_dups (recent ++ oldest)) by (split; [done|]; unfold zlen; rewrite <- Hp; lia).
  destruct Hstop as [[_ ->]|[-> [Hc|[k Hk]]]]; [|..|by rewrite Hex in Hk].
  - apply submseteq_length_Permutation; [done|]. lia.
  - apply NoDup_Permutation; [apply Hok|apply NoDup_remove_dups|]. intros i. rewrite elem_of_remove_dups. split; [by eapply run_from|].
    by eapply all_selected.
Qed.

(** ** Concrete batches: live rows 11 to 30 keep the priority, rows 1 and 2 wait *)
Definition wit_inspect (permit : bool) (wid : Z) : M () := mret ().
Definition wit_world : world := mkWorld (mkDb [] [] [] [] [] [] []) (mkSession [] [] 1 None) [] empty_ledger [] [] [].
Definition wit_recent : list Z := seqZ 11 20.

Lemma oldest_row_served_witness :
  ∃ x' p' processed' checks', pick_loop wit_inspect (λ _, false) 3 false 18 (mkPicks [] wit_recent [1; 2] 0) 0 0 wit_world
    = (x', Ok (p', processed', checks')) ∧ 2 ∈ selected p'.
Proof.
  destruct (pick_loop wit_inspect (λ _, false) 3 false 18 (mkPicks [] wit_recent [1; 2] 0) 0 0 wit_world) as [x' [[[p' processed'] checks']|c m]] eqn:E.
  - exists x', p', processed', checks'. split; [reflexivity|].
    apply (oldest_row_served _ _ _ _ _ _ _ _ _ _ _ _ _ _ _ 1%nat 2 E); [vm_compute; split; discriminate|reflexivity|].
    vm_compute in E. injection E as _ _ <- _. vm_compute. discriminate.
  - exfalso. vm_compute in E. discriminate E.
Defined.

Lemma batch_visits_all_witness :
  ∃ x' p' processed' checks', pick_loop wit_inspect (λ _, false) 3 false 22 (mkPicks [] wit_recent [1; 2] 0) 0 0 wit_world
    = (x', Ok (p', processed', checks')) ∧ processed' = 22.
Proof.
  destruct (pick_loop wit_inspect (λ _, false) 3 false 22 (mkPicks [] wit_recent [1; 2] 0) 0 0 wit_world) as [x' [[[p' processed'] checks']|c m]] eqn:E.
  - exists x', p', processed', checks'. split; [reflexivity|].
    destruct (batch_visits_all _ _ _ _ _ _ _ _ _ _ _ _ _ _ _ E) as [_ H]; [vm_compute; split; discriminate|reflexivity|vm_compute; lia|].
    rewrite H. reflexivity.
  - exfalso. vm_compute in E. discriminate E.
Defined.
