(* ===== verification/CustodyInspect.v ===== *)
(** * What inspecting a work row can and cannot change

    Inspection reads committed custody and writes derived state: the row itself,
    occurrence aliases, observation links and interpretation steps. *)
From S2P Require Import Prelude PyText Hashes PyJson ZktPacket ZktDecode OccurrenceMatch QueueEvidence Custody DerivedEvidence CustodyWork.
Open Scope string_scope.
Open Scope list_scope.
Open Scope Z_scope.

(** ** Custody is kept *)
Definition others (wid : Z) (d : db) : list ZktCustodyWork := List.filter (λ w, negb (w_id w =? wid)) (works d).
Record kept (wid : Z) (x x' : world) : Prop := {
  k_receipts : receipts (tables x') = receipts (tables x);
  k_work_receipts : work_receipts (tables x') = work_receipts (tables x);
  k_manifests : manifests (tables x') = manifests (tables x);
  k_epochs : epochs (tables x') = epochs (tables x);
  k_works : map w_id (works (tables x')) = map w_id (works (tables x));
  k_others : others wid (tables x') = others wid (tables x);
  k_aliases : aliases (tables x) `prefix_of` aliases (tables x');
  k_links : links (tables x) `prefix_of` links (tables x');
  k_evidence : stored (evidence x) ++ unflushed (evidence x) `prefix_of` stored (evidence x') ++ unflushed (evidence x');
  k_prefetch : prefetch (evidence x') = None ↔ prefetch (evidence x) = None;
  k_connectors : connectors x' = connectors x;
  k_schedules : schedules x' = schedules x }.

#[export] Instance kept_po wid : PreOrder (kept wid).
Proof.
  split; [intros x; by constructor|]. intros x y z [] []. constructor; try congruence; try (by etrans); tauto.
Qed.

(** What every run of a handler relates, whether it returns or raises. *)
Definition preserves (R : relation world) {A} (m : M A) : Prop := ∀ x x' r, m x = (x', r) → R x x'.
Abbreviation keeps wid := (preserves (kept wid)).

Section preserves.
Context (R : relation world) {Rpo : PreOrder R}.

Lemma preserves_pure {A} (f : world → res A) : preserves R (λ x, (x, f x)).
Proof. by intros x x' r [= <- _]. Qed.
Lemma preserves_ret {A} (a : A) : preserves R (mret a).
Proof. apply (preserves_pure (λ _, Ok a)). Qed.
Lemma preserves_raise {A} c e : preserves R (@raise A c e).
Proof. apply (preserves_pure (λ _, Raise c e)). Qed.
Lemma preserves_lift {A} (r : res A) : preserves R (lift r).
Proof. apply (preserves_pure (λ _, r)). Qed.
Lemma preserves_gets {A} (f : world → A) : preserves R (gets f).
Proof. apply (preserves_pure (λ x, Ok (f x))). Qed.
Lemma preserves_get_work wid : preserves R (get_work wid).
Proof. apply preserves_pure. Qed.
Lemma preserves_modify f : (∀ x, R x (f x)) → preserves R (modify f).
Proof. intros Hf x x' r [= <- _]. apply Hf. Qed.
Lemma preserves_bind {A B} (m : M A) (f : A → M B) : preserves R m → (∀ a, preserves R (f a)) → preserves R (m ≫= f).
Proof.
  intros Hm Hf x x' r. unfold mbind, M_bind. destruct (m x) as [x1 [a|c e]] eqn:E; intros H.
  - etrans; [exact (Hm _ _ _ E)|exact (Hf _ _ _ _ H)].
  - injection H as <- _. exact (Hm _ _ _ E).
Qed.
Lemma preserves_savepoint {A} (m : M A) : (∀ x, R x (flushed x)) → preserves R m → preserves R (savepoint m).
Proof.
  intros Hf Hm x x' r. unfold savepoint. destruct (m (flushed x)) as [x1 [a|c e]] eqn:E; intros [= <- _]; [|apply Hf].
  etrans; [apply Hf|exact (Hm _ _ _ E)].
Qed.
Lemma preserves_catch {A} (m : M A) h : preserves R m → (∀ c e n, h c e = Some n → preserves R n) → preserves R (catch m h).
Proof.
  intros Hm Hh x x' r. unfold catch. destruct (m x) as [x1 [a|c e]] eqn:E; [intros [= <- _]; exact (Hm _ _ _ E)|].
  destruct (h c e) as [n|] eqn:En; [|intros [= <- _]; exact (Hm _ _ _ E)]. intros H. etrans; [exact (Hm _ _ _ E)|exact (Hh _ _ _ En _ _ _ H)].
Qed.
End preserves.

Lemma update_kept wid f x : (∀ w, w_id (f w) = w_id w) →
  kept wid x (set_tables (set_works (tables x) (map (λ w, if w_id w =? wid then f w else w) (works (tables x)))) x).
Proof.
  intros Hf. constructor; cbn [tables evidence set_tables set_works receipts work_receipts manifests epochs works aliases links]; try done.
  - rewrite map_map. apply map_ext. intros w. by destruct (_ =? _).
  - unfold others. cbn [works set_works]. generalize (works (tables x)) as l. induction l as [|w l IH]; [done|]. simpl.
    destruct (w_id w =? wid) eqn:E; simpl; [by rewrite Hf, E|]. rewrite E. simpl. by rewrite IH.
Qed.
Lemma keeps_update wid f : (∀ w, w_id (f w) = w_id w) → keeps wid (update_work wid f).
Proof. intros Hf x x' r [= <- _]. by apply update_kept. Qed.
Lemma keeps_mark wid a b c : keeps wid (mark_state wid a b c).
Proof. by apply keeps_update. Qed.

Lemma flushed_kept wid x : kept wid x (flushed x).
Proof. constructor; try done. simpl. by rewrite app_nil_r. Qed.

Definition grows (d d' : db) : Prop :=
  receipts d' = receipts d ∧ work_receipts d' = work_receipts d ∧ manifests d' = manifests d ∧ epochs d' = epochs d ∧ works d' = works d ∧
  aliases d `prefix_of` aliases d' ∧ links d `prefix_of` links d'.
Lemma grows_kept wid x d : grows (tables x) d → kept wid x (set_tables d x).
Proof. intros (H1 & H2 & H3 & H4 & H5 & H6 & H7). constructor; simpl; unfold others; by rewrite ?H5. Qed.

Lemma bind_grows d c rows d' r : bind_manifest_occurrences d c rows = Ok (d', r) → grows d d'.
Proof.
  unfold bind_manifest_occurrences. destruct (_ || _); [done|]. destruct (bool_decide (length rows = _)); [by intros [= <- _]|].
  destruct (existsb _ _); [done|].
  destruct (negb (bool_decide (NoDup (map coordinate_of rows))) || negb (bool_decide (NoDup (map (identity_of d) rows)))); [done|].
  intros ([pending rs] & _ & [= <- _])%bind_ok. split_and!; try done. by apply prefix_app_r.
Qed.

Lemma source_grows d c r o d' i : bind_source_occurrence d c r o = Ok (d', i) → grows d d'.
Proof.
  unfold bind_source_occurrence. assert (Hr : grows d d) by by split_and!.
  destruct (o_occurrence o) as [oc|], (c_terminal c) as [t|]; try (by intros [= <- _]).
  destruct (_ || _); [by intros [= <- _]|]. destruct (source_manifest _ _ _ _ _) as [m|]; [|by intros [= <- _]].
  destruct (negb _); [done|]. intros ([d1 result] & Hb%bind_grows & H)%bind_ok. destruct result as [|[j a] result]; [done|].
  destruct (List.find _ _) as [prior|]; [destruct (_ =? _); [|done]|]; injection H as <- _; [done|].
  destruct Hb as (H1 & H2 & H3 & H4 & H5 & H6 & H7). split_and!; try done. simpl. by apply prefix_app_r.
Qed.

(** A step of interpretation appends to the rows not yet flushed. *)
Lemma history_same {token} (s : @session token) w fp s' b : _initial_history_proved s w fp = (s', b) →
  stored s' = stored s ∧ unflushed s' = unflushed s ∧ (prefetch s' = None ↔ prefetch s = None).
Proof. unfold _initial_history_proved. destruct (prefetch s) as [[t inputs]|] eqn:E; intros [= <- _]; [|by rewrite E]. done. Qed.

Lemma derive_appends {token} (len : token → Z) enc dec key (s : @session token) w raw s' row :
  derive_step len enc dec key s w raw false = Ok (s', row) →
  stored s' = stored s ∧ unflushed s `prefix_of` unflushed s' ∧ (prefetch s' = None ↔ prefetch s = None).
Proof.
  unfold derive_step. destruct (negb _); [done|]. intros ([[s1 rows] start] & Hs & H)%bind_ok.
  assert (Hsame : stored s1 = stored s ∧ unflushed s1 = unflushed s ∧ (prefetch s1 = None ↔ prefetch s = None)).
  { unfold step_start in Hs. destruct (_initial_history_proved s w (input_fingerprint w)) as [s2 first] eqn:Eh. apply history_same in Eh.
    apply bind_ok in Hs as (rs & _ & Hs). destruct (last rs) as [r|]; [|by injection Hs as <- _ _].
    apply bind_ok in Hs as (v & _ & Hs). destruct (negb _); [by injection Hs as <- _ _|]. destruct v; try done.
    destruct (assoc _ _); [by injection Hs as <- _ _|done]. }
  destruct Hsame as (H1 & H2 & H3). destruct start as [[plan prior]|]; [|destruct (last rows); [|done]; injection H as <- _; by rewrite H1, H2, H3].
  destruct (_ <=? _); [done|]. apply bind_ok in H as ([layouts recs] & _ & H). destruct (_ <? _); [done|].
  apply bind_ok in H as (t & _ & [= <- _]). simpl. rewrite H1, H2. split_and!; [done|by apply prefix_app_r|done].
Qed.

Create HintDb keeps.
#[export] Hint Extern 1 (preserves ?R (mret _)) => apply (preserves_ret R) : keeps.
#[export] Hint Extern 1 (preserves ?R (raise _ _)) => apply (preserves_raise R) : keeps.
#[export] Hint Extern 1 (preserves ?R (lift _)) => apply (preserves_lift R) : keeps.
#[export] Hint Extern 1 (preserves ?R (gets _)) => apply (preserves_gets R) : keeps.
#[export] Hint Extern 1 (preserves ?R (get_work _)) => apply (preserves_get_work R) : keeps.
#[export] Hint Extern 1 (preserves _ (update_work _ _)) => apply keeps_update; done : keeps.
#[export] Hint Resolve keeps_mark : keeps.
(** Every path of a handler: binds, branches, then the leaves. *)
Ltac keeps_tac :=
  repeat first
    [ progress (cbv beta; eauto with keeps)
    | match goal with |- preserves ?R (_ ≫= _) => apply (preserves_bind R); [|intros ?] end
    | match goal with |- preserves _ (match ?x with _ => _ end) => destruct x eqn:? end
    | match goal with |- preserves _ (if ?b then _ else _) => destruct b end ].

Section inspect.
Context (validate_observation : pyval → option Observation) (decrypt_json : string → res pyval)
  (decrypt_text : option string → res (option string)) (encrypt_json : pyval → res string) (pii_fernet_key : bool) (utc_now : Z)
  (binding_event : world → Connector → ZktOccurrenceAlias → res (option Z)) (process_source : Connector → Z → bytes → M ()).
Context (wid : Z) (process_keeps : ∀ c raw, keeps wid (process_source c wid raw)).

(** Reads leave the world as it is, so what they return is about the world a later
    write starts from. *)
Lemma read_bind {A B} (g : world → A) (f : A → M B) x : (gets g ≫= f) x = f (g x) x.
Proof. done. Qed.
Lemma lift_bind {A B} (m : res A) (f : A → M B) x : (lift m ≫= f) x = match m with Ok a => f a x | Raise c e => (x, Raise c e) end.
Proof. unfold mbind, M_bind, lift. by destruct m. Qed.
Lemma write_keeps {A} d (f : () → M A) x x' r : grows (tables x) d → keeps wid (f ()) → (modify (set_tables d) ≫= f) x = (x', r) → kept wid x x'.
Proof. intros Hg Hf H. unfold mbind, M_bind, modify in H. etrans; [by apply grows_kept|exact (Hf _ _ _ H)]. Qed.

Lemma ledger_keeps : keeps wid (inspect_source_ledger decrypt_text pii_fernet_key binding_event wid).
Proof.
  unfold inspect_source_ledger. destruct (negb _); [apply (preserves_raise (kept wid))|]. apply (preserves_bind (kept wid)); [apply (preserves_get_work (kept wid))|intros w].
  intros x x' r H. rewrite !read_bind in H. destruct (w_source_manifest_id w ≫= _) as [m|]; [|by injection H as <- _].
  destruct (List.find _ (connectors x)) as [c|]; [|by injection H as <- _]. destruct (negb _); [by injection H as <- _|].
  rewrite lift_bind in H. destruct (ledger_bytes _ _ _) as [raw|]; [|by injection H as <- _].
  destruct (bind_manifest_occurrences (tables x) c [m]) as [[d' [|[i a] l]]|cl e] eqn:Eb; [by injection H as <- _| |by destruct cl; injection H as <- _].
  apply bind_grows in Eb. eapply write_keeps; [exact Eb| |exact H]. keeps_tac.
Qed.

Lemma source_keeps : keeps wid (inspect_source validate_observation decrypt_json pii_fernet_key utc_now binding_event wid).
Proof.
  unfold inspect_source. keeps_tac. apply (preserves_catch (kept wid)); [|intros cl e n H; case_bool_decide; [injection H as <-; apply (preserves_raise (kept wid))|done]].
  apply (preserves_savepoint (kept wid)); [apply flushed_kept|]. intros x x' r H. destruct (bind_source_occurrence _ _ _ _) as [[d' occ]|] eqn:Eb; [|by injection H as <- _].
  injection H as <- _. by eapply grows_kept, source_grows.
Qed.

Lemma derive_keeps raw : keeps wid (derive decrypt_json encrypt_json pii_fernet_key wid raw).
Proof.
  intros x x' r. unfold derive. destruct (work_row _ _) as [w|]; [|by intros [= <- _]].
  destruct (derive_step _ _ _ _ _ _ _ _) as [[s row]|] eqn:Ed; intros [= <- _]; [|done]. apply derive_appends in Ed as (H1 & H2 & H3).
  constructor; try done. simpl. rewrite H1. by apply prefix_app.
Qed.

Lemma create_keeps raw permit : keeps wid (create_attendance utc_now process_source wid raw permit).
Proof.
  unfold create_attendance. keeps_tac. apply (preserves_catch (kept wid)); [by apply (preserves_savepoint (kept wid)); [apply flushed_kept|]|]. intros cl e n H.
  revert H. destruct (bool_decide (cl = SourceAttendanceHold)); [intros [= <-]; apply keeps_mark|].
  destruct (bool_decide (cl = SQLAlchemyError) || bool_decide (cl = RuntimeError)); [|done]. intros [= <-]. keeps_tac.
Qed.

Lemma interpret_keeps kind permit : keeps wid
  (interpret validate_observation decrypt_json decrypt_text encrypt_json pii_fernet_key utc_now binding_event process_source wid kind permit).
Proof.
  unfold interpret, authenticate. pose proof ledger_keeps. pose proof source_keeps. pose proof derive_keeps. pose proof create_keeps. keeps_tac.
Qed.

Lemma inspect_keeps permit : keeps wid
  (inspect_work validate_observation decrypt_json decrypt_text encrypt_json pii_fernet_key utc_now binding_event process_source wid permit).
Proof.
  unfold inspect_work. pose proof interpret_keeps. keeps_tac. apply (preserves_catch (kept wid)); [done|]. intros cl e n.
  destruct (evidence_error cl); [intros [= <-]; apply keeps_mark|]. destruct (system_error cl); [|done]. intros [= <-]. keeps_tac.
Qed.

(** The classes [except] clauses of [inspect_work] turn into a state of the row. *)
Definition handled (c : exn_class) : bool := evidence_error c || system_error c.
Lemma inspect_errors permit x x' c e :
  inspect_work validate_observation decrypt_json decrypt_text encrypt_json pii_fernet_key utc_now binding_event process_source wid permit x
    = (x', Raise c e) → handled c = false.
Proof.
  intros H. unfold inspect_work, mbind, M_bind, get_work in H. destruct (work_row wid (tables x)) as [w|]; [|by injection H as _ <- _].
  destruct (bool_decide _); [done|]. simpl in H. destruct (negb _); [done|]. unfold catch in H.
  destruct (interpret _ _ _ _ _ _ _ _ _ _ _ _) as [x1 [u|cl m]]; [done|].
  destruct (evidence_error cl) eqn:E1; [done|]. destruct (system_error cl) eqn:E2; [done|]. injection H as _ <- _. unfold handled. by rewrite E1, E2.
Qed.

(** inspection keeps custody. Whatever a work row and its evidence look like,
    inspecting it rewrites no receipt, no link to work, no source row and no other
    work row, only appends aliases, observation links and interpretation steps, and
    no evidence error, unreadable ciphertext or missing key leaves it as an
    exception: one bad row cannot stop the rows after it. *)
Theorem inspect_work_contained permit x x' r :
  inspect_work validate_observation decrypt_json decrypt_text encrypt_json pii_fernet_key utc_now binding_event process_source wid permit x = (x', r) →
  kept wid x x' ∧ ∀ c e, r = Raise c e → handled c = false.
Proof.
  intros H. split; [exact (inspect_keeps _ _ _ _ H)|]. intros c e ->. exact (inspect_errors _ _ _ _ _ H).
Qed.
End inspect.

(** ** Packets come from authentic receipts *)
Section packet.
Context (validate_observation : pyval → option Observation) (decrypt_json : string → res pyval) (pii_fernet_key : bool).

(** The receipt's ciphertext opens to the observation its digest names, which is
    valid and belongs to the work row. *)
Definition opens_to (w : ZktCustodyWork) (r : ZktObservationReceipt) (o : Observation) : Prop :=
  (∃ protected, decrypt_json (r_protected_observation r) = Ok protected ∧ digest (get "observation" protected) = r_payload_digest r ∧
     model_validate validate_observation (get "observation" protected) = Some o) ∧ observation_bound r o w = true.
Definition carries (w : ZktCustodyWork) (r : ZktObservationReceipt) (f : PacketFragment) : Prop :=
  ∃ o raw, opens_to w r o ∧ b64decode (chars (o_raw_b64 o)) = Some raw ∧ parse_fragment raw = Ok f.

Lemma observation_ok r invalid o : receipt_observation validate_observation decrypt_json r invalid = Ok o →
  ∃ protected, decrypt_json (r_protected_observation r) = Ok protected ∧ digest (get "observation" protected) = r_payload_digest r ∧
     model_validate validate_observation (get "observation" protected) = Some o.
Proof.
  unfold receipt_observation. intros (protected & Hd & H)%bind_ok. exists protected. split; [done|]. destruct (has_nan _); [done|].
  destruct (bool_decide (digest _ = _)) eqn:E; [|done]. apply bool_decide_eq_true in E. simpl in H. destruct (model_validate _ _); [|done].
  by injection H as ->.
Qed.

Record collected (w : ZktCustodyWork) (rows : list ZktObservationReceipt) (acc : list PacketFragment * option bytes) : Prop := {
  c_open : Forall (λ r, ∃ o, opens_to w r o) rows;
  c_fragments : w_kind w = "PACKET_FRAGMENT" → Forall2 (carries w) rows acc.1 ∧ acc.2 = None;
  c_packet : w_kind w ≠ "PACKET_FRAGMENT" → acc.1 = [] }.

Lemma collect_step w rows r acc acc' : collected w rows acc → collect validate_observation decrypt_json w acc r = Ok acc' → collected w (rows ++ [r]) acc'.
Proof.
  intros [Ho Hf Hp] H. destruct acc as [fragments packet]. unfold collect in H. apply bind_ok in H as (o & Hobs & H).
  destruct (observation_bound r o w) eqn:Eb; [|done]. cbn [negb] in H.
  assert (Hopen : opens_to w r o) by (split; [by eapply observation_ok|done]).
  assert (Hall : Forall (λ r, ∃ o, opens_to w r o) (rows ++ [r])) by (apply Forall_app; split; [done|constructor; [by exists o|constructor]]).
  destruct (b64decode _) as [raw|] eqn:Er; [|done]. destruct (bool_decide (w_kind w = "PACKET_FRAGMENT")) eqn:Ek.
  - apply bool_decide_eq_true in Ek. destruct (Hf Ek) as [Hf2 Hnone]. simpl in Hf2, Hnone. subst packet. destruct (bool_decide (o_raw_format o = _)); simpl in H.
    + apply bind_ok in H as (f & Hfrag & [= <-]). constructor; [done| |done]. intros _. split; [|done].
      apply Forall2_app; [done|]. constructor; [|constructor]. by exists o, raw.
    + destruct (_ && _) eqn:E2 in H; [|done]. apply andb_true_iff in E2 as [[E2%bool_decide_eq_true _]%andb_true_iff _]. rewrite Ek in E2. set_solver.
  - apply bool_decide_eq_false in Ek. simpl in H. destruct (_ && _) in H; [|done]. injection H as <-. constructor; [done|done|]. intros _. exact (Hp Ek).
Qed.

(** C27: an assembled packet is authentic. When [materialize_packet] returns bytes,
    they have the length and digest the obligation announces, every receipt linked
    to the row opens to the observation its digest names and is bound to the row,
    and a fragmented packet is the reassembly of exactly those receipts' fragments. *)
Theorem materialize_packet_sound d w p :
  materialize_packet validate_observation decrypt_json pii_fernet_key d w = Ok (Some p) →
  w_expected_bytes w = Some (zlen p) ∧ w_expected_digest w = Some (sha256_hex p) ∧
  Forall (λ r, ∃ o, opens_to w r o) (receipts_of d (w_id w)) ∧
  (w_kind w = "PACKET_FRAGMENT" → ∃ fragments, Forall2 (carries w) (receipts_of d (w_id w)) fragments ∧ reassemble fragments = Ok (Some p)).
Proof.
  unfold materialize_packet. set (all := receipts_of d (w_id w)). destruct (_ || _) eqn:E0; [done|]. apply orb_false_iff in E0 as [E0 E1].
  destruct (negb pii_fernet_key); [done|]. apply bool_decide_eq_false in E0. apply Z.ltb_ge in E1.
  assert (Hall : take (Z.to_nat (evidence_maximum + 1)) all = all).
  { apply take_ge. unfold zlen in E1. rewrite length_take in E1. assert (0 <= evidence_maximum) by (vm_compute; discriminate). lia. }
  rewrite Hall in *. intros ([fragments packet] & Hloop & H)%bind_ok. apply (foldR_inv _ (collected w)) in Hloop as [Ho Hf Hp].
  - apply bind_ok in H as (packet' & Hre & H). destruct packet' as [q|]; [|done].
    destruct (_ && _) eqn:E2 in H; [|done]. injection H as ->. apply andb_true_iff in E2 as [H1%bool_decide_eq_true H2%bool_decide_eq_true].
    split_and!; [done|done|done|]. intros Hk. destruct (Hf Hk) as [Hf2 Hnone]. exists fragments. split; [done|]. simpl in Hf2.
    destruct (bool_decide (length fragments = 0%nat)) eqn:E3.
    + apply bool_decide_eq_true in E3. apply Forall2_length in Hf2. lia.
    + destruct (reassemble fragments) as [o|c m]; [by injection Hre as ->|]. by destruct (is_value_error c).
  - constructor; [constructor|intros _; split; [constructor|done]|done].
  - intros rows r acc acc' Hc Hs. by eapply collect_step.
Qed.
End packet.

(** ** A held row can stay due *)
Section held.
Context (validate_observation : pyval → option Observation) (decrypt_json : string → res pyval)
  (decrypt_text : option string → res (option string)) (encrypt_json : pyval → res string) (pii_fernet_key : bool) (utc_now : Z)
  (binding_event : world → Connector → ZktOccurrenceAlias → res (option Z)) (process_source : Connector → Z → bytes → M ()).

(** A source row whose occurrence is pending gets a deadline; when its chain is then
    found invalid the row is held with that deadline, and inspecting it when due
    does nothing at all: it stays due. *)
Lemma held_row_stays_due wid permit x x1 x2 raw w t e :
  work_row wid (tables x) = Some w → w_kind w = "SOURCE_RECORD" → w_state w ≠ "HELD_EXCEPTION" →
  update_work wid (begin_attempt utc_now) x = (x1, Ok ()) →
  inspect_source validate_observation decrypt_json pii_fernet_key utc_now binding_event wid x1 = (x2, Ok raw) →
  w_next_attempt_at <$> work_row wid (tables x2) = Some (Some t) →
  derive decrypt_json encrypt_json pii_fernet_key wid raw x2 = (x2, Raise DerivedEvidenceInvalid e) →
  ∃ x3 w3, inspect_work validate_observation decrypt_json decrypt_text encrypt_json pii_fernet_key utc_now binding_event process_source wid permit x = (x3, Ok ()) ∧
    work_row wid (tables x3) = Some w3 ∧ w_state w3 = "HELD_EXCEPTION" ∧ w_next_attempt_at w3 = Some t ∧
    inspect_work validate_observation decrypt_json decrypt_text encrypt_json pii_fernet_key utc_now binding_event process_source wid permit x3 = (x3, Ok ()).
Proof.
  intros Hw Hk Hs Hb Hi Hn Hd. destruct (work_row wid (tables x2)) as [w2|] eqn:Ew2; [|done]. simpl in Hn. injection Hn as Hn.
  set (x3 := (mark_state wid "HELD_EXCEPTION" e "ADD_EVIDENCE_REVIEW" x2).1).
  assert (Hrow : work_row wid (tables x3) = Some (assign_state "HELD_EXCEPTION" e "ADD_EVIDENCE_REVIEW" w2)).
  { unfold x3, mark_state, update_work, modify, work_row in *. simpl. clear -Ew2. induction (works (tables x2)) as [|a l IH]; [done|]. simpl in *.
    destruct (w_id a =? wid) eqn:E; simpl; rewrite E; [by injection Ew2 as ->|by apply IH]. }
  exists x3, (assign_state "HELD_EXCEPTION" e "ADD_EVIDENCE_REVIEW" w2). split_and!; [|done|done|done|].
  - unfold inspect_work, mbind, M_bind, get_work. rewrite Hw, (bool_decide_eq_false_2 _ Hs), Hb, Hk. simpl. unfold catch, interpret, authenticate.
    simpl. unfold mbind, M_bind. rewrite Hi. unfold mret, M_ret. rewrite Hd. reflexivity.
  - unfold inspect_work, mbind, M_bind, get_work. rewrite Hrow. reflexivity.
Qed.
End held.


(** ** Concrete rows: one receipt of three bytes *)
Definition wit_raw : bytes := [x01; x02; x03].
Definition wit_value : pyval := PStr "observation".
Definition wit_observation (kind : string) (occurrence : option (string * Z)) : Observation :=
  mkObservation (observation_id "ZK1" "e" 1) "ZK1" "e" 1 (Some 1000) None None "AQID" (sha256_hex wit_raw) kind "p" "1" "UNKNOWN" None None occurrence.
Definition wit_receipt : ZktObservationReceipt :=
  mkReceipt 1 "r" 3 "o" (digest wit_value) None (Some "ZK1") (Some "e") (Some 1) (Some "p") (Some "1") "sealed" "ACCEPTED" None.
Definition wit_work (kind : string) : ZktCustodyWork :=
  mkWork 9 "k" 3 None kind (Some "ZK1") (Some "e") (Some "p") (Some "1") (Some 3) (Some (sha256_hex wit_raw)) "PENDING" "AWAITING_INTERPRETATION"
    "ADD_PROTOCOL" 1 0 (Some 0) 0 None 0 None None 0.
Definition wit_tables (kind : string) : db := mkDb [] [] [] [wit_receipt] [] [wit_work kind] [mkWorkReceipt 9 1 0 (Some 3)].
Definition wit_open (_ : string) : res pyval := Ok (PDict [("observation", wit_value)]).
Definition wit_world (kind : string) (rows : list (@ZktDerivedEvidence string)) : world :=
  mkWorld (wit_tables kind) (mkSession rows [] 1 None) [wit_connector] empty_ledger [] [] [].

Lemma materialize_packet_sound_witness :
  ∃ p, materialize_packet (λ _, Some (wit_observation "LIVE_PACKET" None)) wit_open true (wit_tables "LIVE_PACKET") (wit_work "LIVE_PACKET") = Ok (Some p) ∧
    w_expected_digest (wit_work "LIVE_PACKET") = Some (sha256_hex p).
Proof.
  exists wit_raw. assert (H : materialize_packet (λ _, Some (wit_observation "LIVE_PACKET" None)) wit_open true (wit_tables "LIVE_PACKET")
    (wit_work "LIVE_PACKET") = Ok (Some wit_raw)) by (vm_compute; reflexivity).
  split; [exact H|]. exact (proj1 (proj2 (materialize_packet_sound _ _ _ _ _ _ H))).
Defined.

Definition wit_inspect (o : Observation) : world → world * res () :=
  inspect_work (λ _, Some o) wit_open (λ _, Ok None) (λ _, Ok "sealed") true 1000 (λ _ _ _, Ok None) (λ _ _ _, mret ()) 9 None.

Definition wit_packet : world * res () := wit_inspect (wit_observation "LIVE_PACKET" None) (wit_world "LIVE_PACKET" []).
Lemma inspect_work_contained_witness :
  wit_packet.2 = Ok () ∧ receipts (tables wit_packet.1) = [wit_receipt] ∧ length (unflushed (evidence wit_packet.1)) = 1%nat.
Proof.
  assert (E : wit_inspect (wit_observation "LIVE_PACKET" None) (wit_world "LIVE_PACKET" []) = (wit_packet.1, wit_packet.2)) by apply surjective_pairing.
  destruct (inspect_work_contained _ _ _ _ _ _ _ _ 9 (λ _ _, preserves_ret (kept 9) ()) _ _ _ _ E) as [Hk _].
  split_and!; [vm_compute; reflexivity|exact (k_receipts _ _ _ Hk)|vm_compute; reflexivity].
Defined.

(** The same row as a source record whose occurrence is unknown and whose chain does
    not start at step 0: it is held, still due, and inspecting it again does nothing. *)
Definition wit_source : Observation := wit_observation "SOURCE_RECORD" (Some ("00000000-0000-0000-0000-000000000000", 0)).
Definition wit_broken : @ZktDerivedEvidence string :=
  mkRow 1 9 INTERPRETATION_VERSION (input_fingerprint (wit_work "SOURCE_RECORD")) 5 "PENDING" 0 0 None "d" "sealed".

Example held_row_stays_due_concrete :
  let x := (wit_inspect wit_source (wit_world "SOURCE_RECORD" [wit_broken])).1 in
  map (λ w, (w_state w, w_next_attempt_at w)) (works (tables x)) = [("HELD_EXCEPTION", Some 30001000)] ∧ wit_inspect wit_source x = (x, Ok ()) ∧
  map w_id (_oldest_candidates (tables x) 3 30001000 1) = [9].
Proof. vm_compute. split_and!; reflexivity. Qed.
