(* ===== verification/CustodyBatch.v ===== *)
(** * What a whole inspection batch guarantees

    The batch calls its inspector through an interface: an inspector changes at most
    the row it is given, and raises nothing that its own [except] clauses name.
    Against that interface the batch keeps custody, stays within its limit, and a
    bad row never ends it. *)
From S2P Require Import Prelude PyText Hashes PyJson ZktPacket ZktDecode OccurrenceMatch QueueEvidence Custody DerivedEvidence CustodyWork CustodyFair CustodyInspect.
Open Scope string_scope.
Open Scope list_scope.
Open Scope Z_scope.

(** ** The interface of an inspector *)
Class Inspector (inspect : bool → Z → M ()) := {
  inspector_keeps : ∀ permit wid, preserves (kept wid) (inspect permit wid);
  inspector_errors : ∀ permit wid x x' c e, inspect permit wid x = (x', Raise c e) → handled c = false }.

#[export] Instance inspect_work_inspector validate_observation decrypt_json decrypt_text encrypt_json pii_fernet_key utc_now binding_event process_source :
  (∀ wid c raw, preserves (kept wid) (process_source c wid raw)) →
  Inspector (λ permit wid, inspect_work validate_observation decrypt_json decrypt_text encrypt_json pii_fernet_key utc_now binding_event process_source
    wid (Some permit)).
Proof.
  intros Hp. constructor; intros permit wid.
  - apply inspect_keeps. intros c raw. apply Hp.
  - intros x x' c e. apply inspect_errors.
Qed.

(** ** Custody across a batch *)
Record custody (x x' : world) : Prop := {
  cu_receipts : receipts (tables x') = receipts (tables x);
  cu_work_receipts : work_receipts (tables x') = work_receipts (tables x);
  cu_manifests : manifests (tables x') = manifests (tables x);
  cu_epochs : epochs (tables x') = epochs (tables x);
  cu_works : map w_id (works (tables x')) = map w_id (works (tables x));
  cu_aliases : aliases (tables x) `prefix_of` aliases (tables x');
  cu_links : links (tables x) `prefix_of` links (tables x');
  cu_evidence : stored (evidence x) ++ unflushed (evidence x) `prefix_of` stored (evidence x') ++ unflushed (evidence x') }.

#[export] Instance custody_po : PreOrder custody.
Proof. split; [intros x; by constructor|]. intros x y z [] []. constructor; try congruence; by etrans. Qed.

Lemma kept_custody wid x x' : kept wid x x' → custody x x'.
Proof. intros []. by constructor. Qed.

(** The schedule of every connector is one the batch accepts, and no evidence batch
    is open. *)
Definition valid (x : world) : Prop := ∀ s, s ∈ schedules x → 0 <= priority_burst s <= PRIORITY_BURST.
Record ready (x : world) : Prop := { ready_prefetch : prefetch (evidence x) = None; ready_schedules : valid x }.

Section batch.
Context (inspect : bool → Z → M ()) {Hinspect : Inspector inspect} (expired : nat → bool) (locked : Z → bool) (now : Z) (woken_at : Z → Z).

(** What a handler of the batch does from a world where schedules are valid: custody
    is kept, schedules stay valid, and only an unhandled exception leaves it. *)
Definition safe {A} (m : M A) : Prop := ∀ x x' r, valid x → m x = (x', r) →
  custody x x' ∧ valid x' ∧ (prefetch (evidence x') = None ↔ prefetch (evidence x) = None) ∧ ∀ c e, r = Raise c e → handled c = false.

Lemma safe_ret {A} (a : A) : safe (mret a).
Proof. intros x x' r Hv [= <- <-]. by split_and!. Qed.
Lemma safe_gets {A} (f : world → A) : safe (gets f).
Proof. intros x x' r Hv [= <- <-]. by split_and!. Qed.
Lemma safe_bind {A B} (m : M A) (f : A → M B) : safe m → (∀ a, safe (f a)) → safe (m ≫= f).
Proof.
  intros Hm Hf x x' r Hv. unfold mbind, M_bind. destruct (m x) as [x1 [a|c e]] eqn:E; destruct (Hm _ _ _ Hv E) as (H1 & H2 & H3 & H4); intros H.
  - destruct (Hf _ _ _ _ H2 H) as (H5 & H6 & H7 & H8). split_and!; [by etrans|done|tauto|done].
  - injection H as <- <-. split_and!; try done. intros ? ? [= <- _]. by apply (H4 c e).
Qed.
Lemma safe_inspect permit wid : safe (inspect permit wid).
Proof.
  intros x x' r Hv H. pose proof (inspector_keeps _ _ _ _ _ H) as Hk. split_and!.
  - by eapply kept_custody.
  - unfold valid. by rewrite (k_schedules _ _ _ Hk).
  - apply (k_prefetch _ _ _ Hk).
  - intros c e ->. by eapply inspector_errors.
Qed.
Lemma safe_schedules f : (∀ l, (∀ s, s ∈ l → 0 <= priority_burst s <= PRIORITY_BURST) → ∀ s, s ∈ f l → 0 <= priority_burst s <= PRIORITY_BURST) →
  safe (modify (λ x, set_schedules (f (schedules x)) x)).
Proof. intros Hf x x' r Hv [= <- <-]. split_and!; try done. intros s. simpl. by apply Hf. Qed.

Lemma safe_store cid b : 0 <= b <= PRIORITY_BURST → safe (store_burst cid b).
Proof.
  intros Hb. apply safe_schedules. intros l Hl s (t & -> & Ht)%list_elem_of_fmap. destruct (_ =? _); [done|by apply Hl].
Qed.

Lemma safe_pick cid permit quota : ∀ p processed checks, 0 <= burst p <= PRIORITY_BURST →
  safe (pick_loop inspect expired cid permit quota p processed checks).
Proof.
  induction quota as [|quota IH]; intros p processed checks Hb; [apply safe_ret|]. cbn [pick_loop]. destruct (choose _) as [pick|]; [|apply safe_ret].
  destruct (_ && _); [apply safe_ret|]. apply safe_bind; [apply safe_inspect|intros _].
  assert (Hb' : 0 <= burst (take_pick (advance_indices p) pick) <= PRIORITY_BURST).
  { simpl. destruct pick.2; unfold PRIORITY_BURST in *; lia. }
  apply safe_bind; [by apply safe_store|intros _]. by apply IH.
Qed.

Lemma safe_wake t cid limit : safe (wake_source_page t cid limit).
Proof.
  intros x x' r Hv. unfold wake_source_page. destruct (List.find _ _) as [h|]; [|intros [= <- <-]; by split_and!].
  destruct (_ <=? _); intros [= <- <-]; [by split_and!|]. split_and!; try done. constructor; try done. simpl.
  rewrite map_map. apply map_ext. intros w. by destruct (_ && _).
Qed.

(** Candidate pages never exceed the bound of the evidence batch. *)
Lemma page_length quota leb f d : (length (page quota leb f d) <= Z.to_nat quota)%nat.
Proof. unfold page. rewrite length_take. lia. Qed.
Lemma candidates_length d cid quota : quota <= 500 → zlen (candidates_of (recent_candidates d cid now quota) (_oldest_candidates d cid now quota)) <= 1000.
Proof.
  intros Hq. unfold candidates_of, zlen. rewrite length_app.
  pose proof (page_length quota (leb_of (lex (by_key (λ w, - w_created_at w)) (by_key (λ w, - w_id w))))
    (of_connector cid (λ w, due_at now w && bool_decide (w_kind w ∈ LIVE_KINDS)
       && (now - RECENT_LIVE_SECONDS * 1000000 <=? w_created_at w) && (w_created_at w <=? now))) d) as H1. fold (recent_candidates d cid now quota) in H1.
  pose proof (List.filter_length_le (λ w, bool_decide (w_id w ∉ map w_id (recent_candidates d cid now quota))) (_oldest_candidates d cid now quota)) as H2.
  assert (H3 : (length (_oldest_candidates d cid now quota) <= Z.to_nat quota)%nat) by (unfold _oldest_candidates; rewrite length_take; lia). lia.
Qed.

(** From a ready world: custody is kept, the world is ready again, and only an
    unhandled exception leaves. *)
Definition sound {A} (x : world) (o : world * res A) (P : A → Prop) : Prop :=
  custody x o.1 ∧ ready o.1 ∧ match o.2 with Ok a => P a | Raise c _ => handled c = false end.

Lemma safe_sound {A} (m : M A) x : safe m → ready x → sound x (m x) (λ _, True).
Proof.
  intros Hm [Hn Hs]. destruct (m x) as [x' r] eqn:E. destruct (Hm _ _ _ Hs E) as (H1 & H2 & H3 & H4). split_and!; [done| |].
  - split; [by apply H3|done].
  - destruct r as [|c e]; [done|]. by apply (H4 c e).
Qed.
Lemma sound_ret {A} (a : A) x P : ready x → P a → sound x ((mret a : M A) x) P.
Proof. intros Hr Ha. split_and!; [reflexivity|exact Hr|exact Ha]. Qed.
Lemma sound_bind {A B} (m : M A) (f : A → M B) x P Q : sound x (m x) P →
  (∀ x1 a, m x = (x1, Ok a) → ready x1 → P a → sound x1 (f a x1) Q) → sound x ((m ≫= f) x) Q.
Proof.
  unfold mbind, M_bind. destruct (m x) as [x1 [a|c e]]; intros (H1 & H2 & H3) Hf; simpl in *; [|by split_and!].
  destruct (Hf _ _ eq_refl H2 H3) as (H4 & H5 & H6). split_and!; [by etrans|done|done].
Qed.

(** The evidence batch opens from a closed one and closes again. *)
Lemma with_batch_sound {A} candidates (m : M A) x P : zlen candidates <= 1000 → safe m → (∀ x x' a, m x = (x', Ok a) → P a) → ready x →
  sound x (with_evidence_batch candidates m x) P.
Proof.
  intros Hl Hm HP [Hn Hs]. unfold with_evidence_batch, initial_evidence_batch. rewrite Hn.
  destruct (Z.ltb_spec 1000 (zlen candidates)); [lia|]. set (x0 := set_evidence _ x). destruct (m x0) as [x1 r1] eqn:Em.
  destruct (Hm x0 _ _ Hs Em) as (H1 & H2 & _ & H4). split_and!; [destruct H1; by constructor|by split|].
  destruct r1 as [a|c e]; [by eapply HP|]. by apply (H4 c e).
Qed.

Lemma pick_count cid permit quota : ∀ p processed checks x x' p' processed' checks',
  pick_loop inspect expired cid permit quota p processed checks x = (x', Ok (p', processed', checks')) →
  processed <= processed' <= processed + Z.of_nat quota.
Proof.
  induction quota as [|quota IH]; intros p processed checks x x' p' processed' checks' H; [injection H as _ _ <- _; lia|]. cbn [pick_loop] in H.
  destruct (choose _) as [pick|]; [|injection H as _ _ <- _; lia]. destruct (_ && _) in H; [injection H as _ _ <- _; lia|].
  apply M_bind_ok in H as (x1 & u1 & _ & H). apply M_bind_ok in H as (x2 & u2 & _ & H). apply IH in H. lia.
Qed.

(** ** One connector *)
Record advanced (cid quota : Z) (s s' : batch_state) : Prop := {
  ad_processed : b_processed s <= b_processed s' <= b_processed s + quota;
  ad_attempted : b_attempted s' = b_attempted s;
  ad_locked : b_locked s <= b_locked s' <= b_locked s + 1;
  ad_cursor : b_cursor s' = b_cursor s ∨ b_cursor s' = cid }.

Lemma visit_sound cid quota s x : 1 <= quota <= 500 → ready x → sound x (visit inspect expired locked now woken_at cid quota s x) (λ o, advanced cid quota s o.1).
Proof.
  intros Hq Hr. unfold visit. rewrite read_bind. destruct (List.find _ (connectors x)) as [c|].
  2:{ apply sound_ret; [done|]. constructor; simpl; lia. }
  eapply sound_bind; [by apply safe_sound; [apply safe_wake|]|]. intros x1 _ _ Hr1 _. rewrite !read_bind.
  set (schedule := List.find _ (schedules x1)).
  assert (Hb : 0 <= match schedule with Some s => priority_burst s | None => 0 end <= PRIORITY_BURST).
  { destruct schedule as [t|] eqn:Ef; [|unfold PRIORITY_BURST; lia]. apply find_some in Ef as [Hin%list_elem_of_In _]. by apply (ready_schedules _ Hr1). }
  eapply sound_bind; [apply safe_sound; [|done]; destruct schedule; [apply safe_ret|]|].
  { apply (safe_schedules (λ l, l ++ [mkSchedule cid 0])). intros l Hl t. rewrite elem_of_app, list_elem_of_singleton.
    intros [Ht | ->]; [by apply Hl|]. simpl. unfold PRIORITY_BURST. lia. }
  intros x2 _ _ Hr2 _. set (b := match schedule with Some _ => _ | None => _ end) in *.
  destruct (negb ((0 <=? b) && (b <=? PRIORITY_BURST))) eqn:Eb; [exfalso; apply negb_true_iff, andb_false_iff in Eb as [E%Z.leb_gt|E%Z.leb_gt]; lia|].
  rewrite read_bind. eapply sound_bind.
  - apply (with_batch_sound _ _ _ (λ o, b_processed s <= o.1.2 <= b_processed s + quota)); [apply candidates_length; lia|by apply safe_pick| |done].
    intros y y' [[p' processed'] checks'] H. apply pick_count in H. simpl. lia.
  - intros x3 [[p' processed'] checks'] _ Hr3 Hc. simpl in Hc. clear Eb. destruct (_ && _); (apply sound_ret; [done|]; constructor; simpl; lia).
Qed.

(** ** The whole batch *)
Record within_batch (n quota : Z) (ids : list Z) (s s' : batch_state) : Prop := {
  wb_processed : b_processed s <= b_processed s' <= b_processed s + n * quota;
  wb_attempted : b_attempted s <= b_attempted s' <= b_attempted s + n;
  wb_locked : b_locked s <= b_locked s' <= b_locked s + (b_attempted s' - b_attempted s);
  wb_cursor : b_cursor s' = b_cursor s ∨ b_cursor s' ∈ ids }.

Lemma batch_sound quota ids : 1 <= quota <= 500 → ∀ s x, ready x →
  sound x (batch_loop inspect expired locked now woken_at ids quota s x) (within_batch (zlen ids) quota ids s).
Proof.
  intros Hq. induction ids as [|cid ids IH]; intros s x Hr; cbn [batch_loop].
  { apply sound_ret; [done|]. unfold zlen. constructor; simpl; lia. }
  assert (Hz : zlen (cid :: ids) = zlen ids + 1) by (unfold zlen; simpl; lia). assert (0 <= zlen ids) by (unfold zlen; lia). rewrite Hz.
  destruct (_ && _); [apply sound_ret; [done|]; constructor; nia|].
  eapply sound_bind; [by apply visit_sound|]. intros x1 [s1 stop] _ Hr1 [H1 H2 H3 H4]. simpl in *. destruct stop.
  { apply sound_ret; [done|]. constructor; [nia|lia|lia|]. rewrite elem_of_cons. tauto. }
  destruct (IH s1 x1 Hr1) as (H5 & H6 & H7). split_and!; [done|done|]. destruct (batch_loop _ _ _ _ _ _ _ _ _) as [x2 [s2|c e]]; [|done]. simpl in *.
  destruct H7 as [H8 H9 H10 H11]. constructor; [nia|lia|lia|]. rewrite elem_of_cons. destruct H11 as [->|]; tauto.
Qed.

Lemma quota_total limit n : 0 <= n <= Z.max 1 (Z.min limit 500) →
  1 <= Z.max 1 (Z.max 1 (Z.min limit 500) / Z.max 1 n) <= 500 ∧ n * Z.max 1 (Z.max 1 (Z.min limit 500) / Z.max 1 n) <= Z.max 1 (Z.min limit 500).
Proof.
  intros Hn. set (m := Z.max 1 (Z.min limit 500)) in *. assert (Hm : 1 <= m <= 500) by lia. clearbody m. destruct (decide (n = 0)) as [->|].
  - change (Z.max 1 0) with 1. rewrite Z.div_1_r. lia.
  - replace (Z.max 1 n) with n by lia. pose proof (Z.mul_div_le m n). assert (1 <= m / n) by (apply Z.div_le_lower_bound; lia).
    assert (m / n <= m) by (apply Z.div_le_upper_bound; nia). lia.
Qed.

Lemma advance_sound limit after x : ready x → sound x (advance_work_batch inspect expired locked now woken_at limit after x)
  (λ s, 0 <= b_processed s <= Z.max 1 (Z.min limit 500) ∧ 0 <= b_locked s <= b_attempted s ∧
        b_attempted s <= zlen (due_connectors now x after (Z.max 1 (Z.min limit 500))) ∧
        (b_cursor s = after ∨ b_cursor s ∈ due_connectors now x after (Z.max 1 (Z.min limit 500)))).
Proof.
  intros Hr. unfold advance_work_batch. rewrite read_bind. set (ids := due_connectors _ _ _ _). set (m := Z.max 1 (Z.min limit 500)).
  assert (Hn : 0 <= zlen ids <= m) by (unfold zlen, ids, due_connectors; rewrite length_take; unfold m; lia).
  destruct (quota_total limit (zlen ids) Hn) as [Hq Ht]. fold m in Hq, Ht. set (quota := Z.max 1 (m / Z.max 1 (zlen ids))) in *.
  eapply sound_bind; [by apply batch_sound|]. intros x1 s1 _ Hr1 [H1 H2 H3 H4]. simpl in *.
  destruct Hr1 as [Hp Hv]. split; [|split; [by split|]].
  - constructor; try done. simpl. by rewrite app_nil_r.
  - simpl. split_and!; try lia. done.
Qed.
End batch.

(** C12: a batch keeps custody. Started with valid schedules and no evidence batch
    open, a fair batch over any inspector that meets the interface, run to the end
    or stopped by its clock, rewrites no receipt, link or source row, loses no work
    row and no interpretation step, leaves schedules valid and the evidence batch
    closed, and raises only what no [except] clause of inspection names: neither a
    bad schedule nor the evidence batch's own limits can stop it. *)
Theorem advance_work_contained inspect expired locked now woken_at limit after x x' r : Inspector inspect → ready x →
  advance_work_batch inspect expired locked now woken_at limit after x = (x', r) → custody x x' ∧ ready x' ∧ ∀ c e, r = Raise c e → handled c = false.
Proof.
  intros Hi Hr H. pose proof (advance_sound inspect expired locked now woken_at limit after x Hr) as (H1 & H2 & H3). rewrite H in H1, H2, H3.
  split_and!; [done|done|]. intros c e ->. exact H3.
Qed.

(** A batch is bounded. It inspects at most [limit] rows, clamped to 1..500, over
    at most that many connectors; locked connectors are among those attempted, and
    the cursor it returns is the one given or a due connector. *)
Theorem advance_work_bounded inspect expired locked now woken_at limit after x x' s : Inspector inspect → ready x →
  advance_work_batch inspect expired locked now woken_at limit after x = (x', Ok s) →
  0 <= b_processed s <= Z.max 1 (Z.min limit 500) ∧ 0 <= b_locked s <= b_attempted s ∧
  b_attempted s <= zlen (due_connectors now x after (Z.max 1 (Z.min limit 500))) <= Z.max 1 (Z.min limit 500) ∧
  (b_cursor s = after ∨ b_cursor s ∈ due_connectors now x after (Z.max 1 (Z.min limit 500))).
Proof.
  intros Hi Hr H. pose proof (advance_sound inspect expired locked now woken_at limit after x Hr) as (_ & _ & H3). rewrite H in H3.
  destruct H3 as (H4 & H5 & H6 & H7). split_and!; try done; try lia. unfold zlen, due_connectors. rewrite length_take. lia.
Qed.

(** ** A concrete batch: one connector with one live packet *)
Definition wit_inspector : bool → Z → M () := λ permit wid,
  inspect_work (λ _, Some (wit_observation "LIVE_PACKET" None)) wit_open (λ _, Ok None) (λ _, Ok "sealed") true 1000 (λ _ _ _, Ok None)
    (λ _ _ _, mret ()) wid (Some permit).
Lemma wit_inspector_ok : Inspector wit_inspector.
Proof. apply inspect_work_inspector. intros wid c raw. apply (preserves_ret (kept wid)). Qed.
Definition wit_start : world := CustodyInspect.wit_world "LIVE_PACKET" [].
Lemma wit_ready : ready wit_start.
Proof. split; [done|]. intros s []%not_elem_of_nil. Qed.
Definition wit_batch : world * res batch_state := advance_work_batch wit_inspector (λ _, false) (λ _, false) 1000 (λ _, 1001) 100 0 wit_start.

Lemma advance_work_contained_witness :
  receipts (tables wit_batch.1) = [wit_receipt] ∧ length (stored (evidence wit_batch.1)) = 1%nat ∧ ready wit_batch.1.
Proof.
  destruct (advance_work_contained wit_inspector (λ _, false) (λ _, false) 1000 (λ _, 1001) 100 0 wit_start wit_batch.1 wit_batch.2 wit_inspector_ok wit_ready)
    as (H1 & H2 & _); [apply surjective_pairing|]. split_and!; [exact (cu_receipts _ _ H1)|vm_compute; reflexivity|exact H2].
Defined.

Lemma advance_work_bounded_witness : ∃ s, wit_batch.2 = Ok s ∧ b_processed s = 1 ∧ b_processed s <= 100 ∧ b_cursor s = 3.
Proof.
  exists (mkBatch 1 3 1 0 0). assert (E : wit_batch = (wit_batch.1, Ok (mkBatch 1 3 1 0 0))) by (vm_compute; reflexivity).
  destruct (advance_work_bounded wit_inspector (λ _, false) (λ _, false) 1000 (λ _, 1001) 100 0 wit_start _ _ wit_inspector_ok wit_ready E) as (H1 & _).
  split_and!; [vm_compute; reflexivity|reflexivity|exact (proj2 H1)|reflexivity].
Defined.
