(* ===== verification/SourceAttendance.v ===== *)
(** * Source attendance (zkt_source_attendance.py, zkt_oracle_delivery.register_intent)

    A committed cutover authorises one source epoch of a terminal to create
    attendance. A ledger row becomes one attendance event, a binding from its
    occurrence alias and an owned delivery intent; a copy of the row in a later
    epoch is bound to the event of the alias it copies, found by walking the epochs
    up to the root. [binding_event] checks a binding again from the custody bytes.

    Parameters: Fernet, the clock, and [ingest_attendance] of service.py, which
    stores the event (the pydantic checks of its input included). *)
From S2P Require Import Prelude PyText Hashes PyJson Calendar ZktPacket ZktDecode OccurrenceMatch QueueEvidence Custody DerivedEvidence CustodyWork.
Open Scope string_scope.
Open Scope list_scope.
Open Scope Z_scope.

Definition POLICY : string := "EXPERIMENTAL_SOURCE_ATTENDANCE_V1".
Definition AUTHORITY : string := "QUIESCED_LEGACY_CUSTODY_AND_SOURCE_BOUNDARY_V1".
Definition MAX_EPOCHS : nat := 32.
Definition VERIFICATION_SCOPE : string := "ORACLE_RAW_DAY_TIMES_V2".
Definition MEMBERSHIP_SCOPE : string := "ORACLE_UID_MEMBERSHIP_V1".
Abbreviation step_row := (@ZktDerivedEvidence string).
Definition hold {A} (reason : string) : res A := Raise SourceAttendanceHold reason.

(** The fields of AttendanceEventIn that [process_source] sets. *)
Record AttendanceEventIn := mkEventIn {
  in_event_uid : string; in_terminal_serial : string; in_uid : option string; in_user_id : string; in_device_event_time : datetime;
  in_captured_at : datetime; in_source : string; in_status : string; in_punch : string; in_raw_event : pyval }.

(** time_utils.ensure_utc *)
Definition ensure_utc (t : datetime) : datetime :=
  match utcoffset t with
  | None => mkDT (year t) (month t) (day t) (hour t) (minute t) (second t) (microsecond t) (Some 0)
  | Some _ => to_utc t
  end.

Section attendance.
Context (decrypt_json : string → res pyval) (decrypt_text : option string → res (option string)) (pii_fernet_key : bool)
  (pii_lookup_key : string) (utc_now : Z)
  (ingest_attendance : Connector → AttendanceEventIn → M (list string * list string)).

(** attendance_repair._protected_digest *)
Definition _protected_digest (v : pyval) : res string :=
  if bool_decide (pii_lookup_key = "") then Raise RepairError "ADD_PII_LOOKUP_KEY is required for protected repair evidence."
  else Ok (hex (hmac_sha256 (chars pii_lookup_key) (dumps_ascii v))).

(** ** The cutover *)
Definition cutover_material (s : ZktSourceCutover) (c : Connector) (e : TerminalSourceEpoch) (migration_digest writer_digest boot_id : pyval) : pyval :=
  PDict [("schema_version", PInt 1); ("authority", PStr AUTHORITY); ("policy", PStr POLICY); ("connector_id", PStr (c_connector_id c));
    ("terminal_serial", PStr (sc_terminal_serial s)); ("source_epoch", PStr (e_epoch_id e)); ("first_new_ordinal", PInt (sc_first_new_ordinal s));
    ("model", PStr (sc_model s)); ("record_size", PInt (sc_record_size s)); ("decoder_version", PStr DECODER_VERSION);
    ("migration_digest", migration_digest); ("writer_digest", writer_digest); ("boot_id", boot_id)].

Definition is_token (v : pyval) : bool := match v with PStr s => HEX64 s | _ => false end.
Definition epoch_row (i : Z) (d : db) : option TerminalSourceEpoch := List.find (λ e, e_id e =? i) (epochs d).

(** The tests before the protected digest. *)
Definition cutover_ok (s : ZktSourceCutover) (c : Connector) (t : Terminal) (e : TerminalSourceEpoch) (value : pyval) : bool :=
  bool_decide (c_firmware_family c = Some "zkt") && (e_zkt_device_id e =? t_id t) && serial_is (sc_terminal_serial s) (t_serial t)
  && serial_is (sc_terminal_serial s) (t_confirmed_serial t) && bool_decide (t_model t = Some (sc_model s))
  && bool_decide (sc_model s ∈ MODEL_PROFILES.*1) && bool_decide (sc_record_size s ∈ SOURCE_SIZES)
  && (0 <=? sc_first_new_ordinal s) && (sc_first_new_ordinal s <? 2 ^ 31) && is_dict value
  && match get "boot_id" value with PStr b => (1 <=? text_len b) && (text_len b <=? 100) | _ => false end
  && is_token (get "migration_digest" value) && is_token (get "writer_digest" value).

Definition _cutover (x : world) (c : Connector) : res (option ZktSourceCutover) :=
  match List.find (λ s, sc_connector_id s =? c_id c) (cutovers x) with
  | None => Ok None
  | Some s =>
      value ← decrypt_json (sc_protected_authority s);
      match c_terminal c, epoch_row (sc_source_epoch_id s) (tables x) with
      | Some t, Some e =>
          if negb (cutover_ok s c t e value) then hold "SOURCE_CUTOVER_EVIDENCE_CHANGED"
          else
            authority ← _protected_digest value;
            if bool_decide (authority = sc_authority_digest s)
               && py_eq value (cutover_material s c e (get "migration_digest" value) (get "writer_digest" value) (get "boot_id" value))
            then Ok (Some s) else hold "SOURCE_CUTOVER_EVIDENCE_CHANGED"
      | _, _ => hold "SOURCE_CUTOVER_EVIDENCE_CHANGED"
      end
  end.

(** ** The canonical alias of an occurrence *)
Definition manifest_row (i : Z) (d : db) : option TerminalRecordManifest := List.find (λ m, m_id m =? i) (manifests d).
Definition derivation_bound (c : Connector) (t : Terminal) (a : ZktOccurrenceAlias) (m : TerminalRecordManifest) : bool :=
  (a_zkt_device_id a =? t_id t) && (m_connector_id m =? c_id c) && (m_zkt_device_id m =? t_id t) && m_canonical_source m
  && serial_is (m_terminal_serial m) (t_serial t) && bool_decide (t_confirmed_serial t = t_serial t)
  && bool_decide (m_disposition m = "RAW_PRESERVED") && bool_decide (m_attendance_event_id m = None) && bool_decide (a_attendance_event_id a = None)
  && bool_decide ((Some (a_source_epoch_id a), a_ordinal a, a_raw_digest a) = (m_source_epoch_id m, m_ordinal m, m_raw_record_digest m)).
Definition derivation_epoch (t : Terminal) (a : ZktOccurrenceAlias) (m : TerminalRecordManifest) (e : TerminalSourceEpoch) : bool :=
  (e_zkt_device_id e =? t_id t) && (e_generation e =? m_generation m)
  && bool_decide (a_occurrence_id a = occurrence_id (m_terminal_serial m) (e_epoch_id e) (m_ordinal m) (m_raw_record_digest m)).

Definition _manifest (d : db) (c : Connector) (alias : option ZktOccurrenceAlias) : res (TerminalRecordManifest * TerminalSourceEpoch) :=
  match alias, (a ← alias; manifest_row (a_manifest_id a) d), c_terminal c with
  | Some a, Some m, Some t =>
      if negb (derivation_bound c t a m) then hold "SOURCE_DERIVATION_BINDING_CHANGED"
      else
        match (i ← m_source_epoch_id m; epoch_row i d) with
        | Some e => if derivation_epoch t a m e then Ok (m, e) else hold "SOURCE_DERIVATION_EPOCH_CHANGED"
        | None => hold "SOURCE_DERIVATION_EPOCH_CHANGED"
        end
  | _, _, _ => hold "SOURCE_DERIVATION_BINDING_CHANGED"
  end.

Definition parent_ok (p e : TerminalSourceEpoch) : bool :=
  (e_zkt_device_id p =? e_zkt_device_id e) && (e_generation p =? e_generation e) && (e_sequence p <? e_sequence e).
Definition prior_manifest (d : db) (m : TerminalRecordManifest) (p : TerminalSourceEpoch) : option TerminalRecordManifest :=
  List.find (λ n, (m_zkt_device_id n =? m_zkt_device_id m) && bool_decide (m_source_epoch_id n = Some (e_id p)) && m_canonical_source n
    && (m_ordinal n =? m_ordinal m)) (manifests d).
Definition same_copy (c : Connector) (prior m : TerminalRecordManifest) : bool :=
  bool_decide (m_raw_record_digest prior = m_raw_record_digest m) && bool_decide (m_record_size prior = m_record_size m)
  && bool_decide (m_terminal_serial prior = m_terminal_serial m) && (m_connector_id prior =? c_id c).
Definition alias_of (d : db) (i : Z) : option ZktOccurrenceAlias := List.find (λ a, a_manifest_id a =? i) (aliases d).

(** [for _ in range(MAX_EPOCHS)] *)
Fixpoint canonical_loop (fuel : nat) (d : db) (c : Connector) (s : ZktSourceCutover) (root : ZktOccurrenceAlias) (m : TerminalRecordManifest)
    (e : TerminalSourceEpoch) (seen : list Z) (reached : bool) : res ZktOccurrenceAlias :=
  match fuel with
  | O => hold "SOURCE_RECOVERY_ANCESTRY_INVALID"
  | S fuel =>
      if bool_decide (e_id e ∈ seen) then hold "SOURCE_RECOVERY_ANCESTRY_INVALID"
      else
        let reached := reached || (e_id e =? sc_source_epoch_id s) in
        match e_parent_epoch_id e with
        | None =>
            if negb reached then hold "SOURCE_CUTOVER_EPOCH_UNRELATED"
            else if m_ordinal m <? sc_first_new_ordinal s then hold "SOURCE_BEFORE_CUTOVER"
            else Ok root
        | Some i =>
            match epoch_row i d with
            | None => hold "SOURCE_RECOVERY_PARENT_CHANGED"
            | Some p =>
                if negb (parent_ok p e) then hold "SOURCE_RECOVERY_PARENT_CHANGED"
                else
                  match prior_manifest d m p with
                  | Some prior =>
                      if e_id e =? sc_source_epoch_id s then hold "SOURCE_PREDATES_CUTOVER_EPOCH"
                      else if negb (same_copy c prior m) then hold "SOURCE_CHANGED_OCCURRENCE_REVIEW"
                      else
                        match alias_of d (m_id prior) with
                        | Some a => _ ← _manifest d c (Some a); canonical_loop fuel d c s a prior p (e_id e :: seen) reached
                        | None => hold "SOURCE_DERIVATION_BINDING_CHANGED"
                        end
                  | None =>
                      if bool_decide (m_source_kind m = "RECOVERY_PREFIX") then hold "SOURCE_RECOVERY_PREFIX_MISSING"
                      else canonical_loop fuel d c s root m p (e_id e :: seen) reached
                  end
            end
        end
  end.

Definition _canonical (d : db) (c : Connector) (alias : option ZktOccurrenceAlias) (s : ZktSourceCutover) : res ZktOccurrenceAlias :=
  '(m, e) ← _manifest d c alias;
  match alias with
  | None => hold "SOURCE_DERIVATION_BINDING_CHANGED"
  | Some a =>
      if negb (bool_decide (m_record_size m = Some (sc_record_size s))) then hold "SOURCE_PROFILE_LAYOUT_CHANGED"
      else canonical_loop MAX_EPOCHS d c s a m e [] false
  end.
(** ** Validated bindings *)
Definition EVIDENCE_KEYS : list string :=
  ["reconciliation_source"; "source_policy"; "profile_qualification"; "source_epoch_id"; "source_ordinal"; "raw_record_digest"; "encoded_time";
   "interpretation_digest"].
Definition _facts_material (e : AttendanceEvent) : pyval :=
  PDict [("event_uid", PStr (ae_event_uid e)); ("connector_id", PInt (ae_connector_id e)); ("zkt_device_id", PInt (ae_zkt_device_id e));
    ("terminal_serial", opt_str (ae_device_serial e)); ("user_id", PStr (ae_user_id e)); ("uid", opt_str (ae_uid e));
    ("device_event_time", PStr (isoformat (ensure_utc (ae_device_event_time e)))); ("captured_at", PStr (isoformat (ensure_utc (ae_captured_at e))));
    ("source", PStr (ae_source e)); ("status", opt_str (ae_status e)); ("punch", opt_str (ae_punch e));
    ("source_evidence", PDict (map (λ k, (k, get k (ae_raw_event e))) EVIDENCE_KEYS))].

Definition event_row (i : Z) (x : world) : option AttendanceEvent := List.find (λ e, ae_id e =? i) (events (attendance x)).
Definition evidence_row (i : Z) (x : world) : option step_row := List.find (λ r, d_id r =? i) (stored (evidence x)).
Definition binding_of (i : Z) (x : world) : option ZktSourceAttendance := List.find (λ b, sb_occurrence_alias_id b =? i) (bindings (attendance x)).

(** The tests before the facts digest. *)
Definition binding_ok (c : Connector) (s : ZktSourceCutover) (a root : ZktOccurrenceAlias) (b : ZktSourceAttendance) (e : AttendanceEvent)
    (w : ZktCustodyWork) (r : step_row) : bool :=
  (a_id root =? sb_canonical_alias_id b) && bool_decide (ae_event_uid e = a_occurrence_id root) && (ae_connector_id e =? c_id c)
  && (ae_zkt_device_id e =? a_zkt_device_id a) && serial_is (sc_terminal_serial s) (ae_device_serial e)
  && bool_decide (w_source_manifest_id w = Some (a_manifest_id a)) && (w_connector_id w =? c_id c) && bool_decide (w_kind w = "SOURCE_LEDGER")
  && (d_work_id r =? w_id w) && bool_decide (d_evidence_digest r = sb_evidence_digest b) && bool_decide (d_result r = "UNQUALIFIED_FACTS").

(** The same facts decoded again from custody. *)
Definition facts_bound (a : ZktOccurrenceAlias) (e : AttendanceEvent) (r : step_row) (raw : bytes) (steps : list pyval) (f : PunchFacts) : bool :=
  bool_decide (sha256_hex raw = a_raw_digest a)
  && match steps with [v] => negb (has_nan v) && bool_decide (d_evidence_digest r = digest v) | _ => false end
  && bool_decide (user_id f = Some (ae_user_id e)) && bool_decide (ae_uid e = None)
  && bool_decide (ensure_utc (ae_device_event_time e) = utc_time f)
  && bool_decide ((ae_status e, ae_punch e) = (Some (py_str (status f)), Some (py_str (punch f)))).

Definition binding_facts (x : world) (s : ZktSourceCutover) (a : ZktOccurrenceAlias) (e : AttendanceEvent) (w : ZktCustodyWork)
    (r : step_row) (m : TerminalRecordManifest) : res () :=
  encoded ← decrypt_text (m_protected_raw_record m);
  match encoded with
  | None => Raise ValueError ""
  | Some t =>
      if bool_decide (t = "") || (684 <? text_len t) then Raise ValueError ""
      else
        match b64decode (chars t) with
        | None => Raise ValueError "base64"
        | Some raw =>
            steps ← verified_steps token_len decrypt_json pii_fernet_key (evidence x) w raw INTERPRETATION_VERSION DECODER_VERSION;
            f ← decode_source raw (sc_record_size s) 0;
            if facts_bound a e r raw steps f then Ok () else Raise ValueError ""
        end
  end.

Definition binding_event (x : world) (c : Connector) (a : ZktOccurrenceAlias) : res (option AttendanceEvent) :=
  match binding_of (a_id a) x with
  | None => Ok None
  | Some b =>
      cutover ← _cutover x c;
      match cutover with
      | None => hold "SOURCE_CUTOVER_EVIDENCE_CHANGED"
      | Some s =>
          if negb (sc_id s =? sb_cutover_id b) then hold "SOURCE_CUTOVER_EVIDENCE_CHANGED"
          else
            root ← _canonical (tables x) c (Some a) s;
            match event_row (sb_attendance_event_id b) x, work_row (sb_work_id b) (tables x), evidence_row (sb_evidence_id b) x with
            | Some e, Some w, Some r =>
                if negb (binding_ok c s a root b e w r) then hold "SOURCE_DERIVED_ATTENDANCE_CHANGED"
                else
                  facts ← _protected_digest (_facts_material e);
                  if negb (bool_decide (facts = sb_facts_digest b)) then hold "SOURCE_DERIVED_ATTENDANCE_CHANGED"
                  else
                    match manifest_row (a_manifest_id a) (tables x) with
                    | None => Raise AttributeError "protected_raw_record"
                    | Some m =>
                        match binding_facts x s a e w r m with
                        | Ok _ => Ok (Some e)
                        | Raise cl t => if is_value_error cl || bool_decide (cl = TypeError) then hold "SOURCE_DERIVED_ATTENDANCE_CHANGED" else Raise cl t
                        end
                    end
            | _, _, _ => hold "SOURCE_DERIVED_ATTENDANCE_CHANGED"
            end
      end
  end.
Definition binding_event_id (x : world) (c : Connector) (a : ZktOccurrenceAlias) : res (option Z) := option_map ae_id <$> binding_event x c a.

(** ** The delivery intent (zkt_oracle_delivery.py) *)
Definition _occurrence_bound (x : world) (c : Connector) (a : ZktOccurrenceAlias) : res bool :=
  held ← source_occurrence_delivery_hold binding_event_id x c (a_occurrence_id a);
  match held, epoch_row (a_source_epoch_id a) (tables x), manifest_row (a_manifest_id a) (tables x) with
  | None, Some e, Some m =>
      Ok ((e_zkt_device_id e =? a_zkt_device_id a) && (e_generation e =? m_generation m)
          && bool_decide (a_occurrence_id a = occurrence_id (m_terminal_serial m) (e_epoch_id e) (a_ordinal a) (a_raw_digest a)))
  | _, _, _ => Ok false
  end.

Definition set_intents (l : list ZktOracleIntent) (x : world) : world :=
  set_attendance (with_intents l (attendance x)) x.

Definition register_intent (c : Connector) (e : AttendanceEvent) (o : OrdsOutbox) (a : ZktOccurrenceAlias) (scope : string) : M () :=
  if negb (bool_decide (scope ∈ [VERIFICATION_SCOPE; MEMBERSHIP_SCOPE])) then raise ValueError "ZKT_ORACLE_VERIFICATION_SCOPE_UNKNOWN"
  else if negb (zkt_custody_enabled c && bool_decide (c_firmware_family c = Some "zkt") && (ae_connector_id e =? c_id c)
                && bool_decide (ob_attendance_event_id o = Some (ae_id e))) then raise ValueError "ZKT_ORACLE_OCCURRENCE_BINDING"
  else
    x ← gets (λ x, x);
    bound_id ← lift (occurrence_attendance_id binding_event_id x c a);
    if negb (bool_decide (bound_id = Some (ae_id e)) && bool_decide (ae_event_uid e = a_occurrence_id a)) then raise ValueError "ZKT_ORACLE_OCCURRENCE_BINDING"
    else
      bound ← lift (_occurrence_bound x c a);
      if negb bound then raise ValueError "ZKT_ORACLE_OCCURRENCE_BINDING"
      else
        match List.find (λ i, oi_attendance_event_id i =? ae_id e) (intents (attendance x)) with
        | Some prior =>
            if bool_decide ((oi_outbox_id prior, oi_occurrence_alias_id prior, oi_connector_id prior, oi_verification_scope prior)
                            = (ob_id o, a_id a, c_id c, scope)) then mret ()
            else raise ValueError "ZKT_ORACLE_INTENT_CONFLICT"
        | None =>
            modify (set_intents (intents (attendance x)
              ++ [mkIntent (next_id oi_id (intents (attendance x))) (ob_id o) (ae_id e) (a_id a) (c_id c) scope
                    None None None None 0 None]))
        end.

(** ** process_source *)
Definition created (wid : Z) : M bool := _ ← mark_state wid "ATTENDANCE_CREATED" POLICY "ADD_DELIVERY"; mret true.

Definition raw_evidence (m : TerminalRecordManifest) (f : PunchFacts) (r : step_row) : pyval :=
  PDict [("reconciliation_source", PStr "VERIFIED_TERMINAL_SOURCE"); ("source_policy", PStr POLICY); ("profile_qualification", PStr "NOT_ASSERTED");
    ("source_epoch_id", opt_int (m_source_epoch_id m)); ("source_ordinal", PInt (m_ordinal m)); ("raw_record_digest", PStr (m_raw_record_digest m));
    ("encoded_time", PInt (encoded_time f)); ("interpretation_digest", PStr (d_evidence_digest r))].
Definition event_in (a : ZktOccurrenceAlias) (m : TerminalRecordManifest) (user : string) (f : PunchFacts) (r : step_row) : AttendanceEventIn :=
  mkEventIn (a_occurrence_id a) (m_terminal_serial m) None user (utc_time f) (ensure_utc (m_created_at m)) "CURRENT_RECONCILE"
    (py_str (status f)) (py_str (punch f)) (raw_evidence m f r).

(** The single usable step of the interpretation, and the facts it holds. *)
Definition usable_step (s : ZktSourceCutover) (v : pyval) : bool :=
  eq_str (get "result" v) "UNQUALIFIED_FACTS" && py_eq (get "plausible_layouts" v) (PList [PInt (sc_record_size s)])
  && match get "records" v with PList [_] => true | _ => false end.
Definition step_facts (v : pyval) : pyval := match get "records" v with PList (r :: _) => get "facts" r | _ => PNone end.

Definition usable_facts (x : world) (s : ZktSourceCutover) (w : ZktCustodyWork) (raw : bytes) : res (PunchFacts * string) :=
  steps ← verified_steps token_len decrypt_json pii_fernet_key (evidence x) w raw INTERPRETATION_VERSION DECODER_VERSION;
  match steps with
  | [v] =>
      if negb (usable_step s v) then hold "SOURCE_INTERPRETATION_NOT_USABLE"
      else
        f ← decode_source raw (sc_record_size s) 0;
        if negb (py_eq (step_facts v) (facts_json f)) then hold "SOURCE_INTERPRETATION_CHANGED"
        else match user_id f with Some user => Ok (f, user) | None => hold "SOURCE_IDENTITY_REFERENCE_UNAVAILABLE" end
  | _ => hold "SOURCE_INTERPRETATION_NOT_USABLE"
  end.

Definition first_evidence (x : world) (w : ZktCustodyWork) : option step_row :=
  List.find (λ r, in_chain w (input_fingerprint w) INTERPRETATION_VERSION r && (d_step_index r =? 0)) (stored (evidence x)).

Definition set_bindings (l : list ZktSourceAttendance) (x : world) : world :=
  set_attendance (with_bindings l (attendance x)) x.
Definition set_outboxes (l : list OrdsOutbox) (x : world) : world :=
  set_attendance (with_outboxes l (attendance x)) x.

(** A canonical row is ingested under its occurrence id. *)
Definition create_event (c : Connector) (a : ZktOccurrenceAlias) (f : PunchFacts) (user : string) (r : step_row) : M AttendanceEvent :=
  x ← gets (λ x, x);
  match manifest_row (a_manifest_id a) (tables x) with
  | None => raise AttributeError "manifest"
  | Some m =>
      if existsb (λ e, bool_decide (ae_event_uid e = a_occurrence_id a)) (events (attendance x)) then raise SourceAttendanceHold "SOURCE_CANONICAL_UID_ALREADY_EXISTS"
      else
        '(accepted, duplicate) ← ingest_attendance c (event_in a m user f r);
        if negb (bool_decide (accepted = [a_occurrence_id a]) && bool_decide (length duplicate = 0%nat))
        then raise SourceAttendanceHold "SOURCE_CANONICAL_INGEST_CONFLICT"
        else
          x ← gets (λ x, x);
          match List.find (λ e, bool_decide (ae_event_uid e = a_occurrence_id a)) (events (attendance x)) with
          | Some e => mret e
          | None => raise AttributeError "event"
          end
  end.

(** The binding of the alias to its event. *)
Definition bind_event (s : ZktSourceCutover) (a root : ZktOccurrenceAlias) (w : ZktCustodyWork) (r : step_row) (e : AttendanceEvent) : M () :=
  facts ← lift (_protected_digest (_facts_material e));
  modify (λ x, set_bindings (bindings (attendance x) ++ [mkBinding (next_id sb_id (bindings (attendance x))) (a_id a) (a_id root) (sc_id s) (w_id w)
    (d_id r) (d_evidence_digest r) (ae_id e) facts]) x).

Definition outbox_of (e : AttendanceEvent) (x : world) : option OrdsOutbox :=
  List.find (λ o, bool_decide (ob_attendance_event_id o = Some (ae_id e))) (outboxes (attendance x)).
Definition own_delivery (c : Connector) (a : ZktOccurrenceAlias) (e : AttendanceEvent) : M () :=
  x ← gets (λ x, x);
  o ← match outbox_of e x with
      | Some o => mret o
      | None =>
          let o := mkOutbox (next_id ob_id (outboxes (attendance x))) (Some (ae_id e)) "CURRENT_RECONCILE" (ae_ords_status e)
                     None 0 None None None None None utc_now in
          _ ← modify (set_outboxes (outboxes (attendance x) ++ [o])); mret o
      end;
  register_intent c e o a MEMBERSHIP_SCOPE.

Definition process_source (c : Connector) (wid : Z) (raw : bytes) : M bool :=
  x ← gets (λ x, x);
  w ← get_work wid;
  cutover ← lift (_cutover x c);
  match cutover with
  | None => mret false
  | Some s =>
      if negb (bool_decide (w_kind w = "SOURCE_LEDGER")) then mret false
      else if negb (zkt_custody_enabled c) then raise SourceAttendanceHold "SOURCE_CUSTODY_NOT_ENABLED"
      else
        let alias := i ← w_source_manifest_id w; alias_of (tables x) i in
        root ← lift (_canonical (tables x) c alias s);
        match alias with
        | None => raise SourceAttendanceHold "SOURCE_DERIVATION_BINDING_CHANGED"
        | Some a =>
            existing ← lift (binding_event x c a);
            match existing with
            | Some _ => created wid
            | None =>
                '(f, user) ← lift (usable_facts x s w raw);
                let evidence := lift (match first_evidence x w with Some r => Ok r | None => Raise AttributeError "evidence" end) in
                if negb (a_id root =? a_id a) then
                  ancestor ← lift (binding_event x c root);
                  match ancestor with
                  | None =>
                      _ ← mark_state wid "WAIT_SOURCE" "SOURCE_ANCESTOR_ATTENDANCE_PENDING" "ADD_RECONCILIATION";
                      _ ← update_work wid (assign_next (Some (utc_now + 30 * 1000000)));
                      mret true
                  | Some e => r ← evidence; _ ← bind_event s a root w r e; created wid
                  end
                else
                  r ← evidence;
                  e ← create_event c a f user r;
                  _ ← bind_event s a root w r e;
                  _ ← own_delivery c a e;
                  created wid
            end
        end
  end.
End attendance.
