(* ===== verification/SourceBinding.v ===== *)
(** * One attendance event per occurrence

    What a binding proves about the event it names, which aliases can share an
    event, and that processing a row again creates nothing. *)
From S2P Require Import Prelude PyText Hashes PyJson Calendar ZktPacket ZktDecode OccurrenceMatch QueueEvidence Custody DerivedEvidence CustodyWork CustodyFair CustodyInspect CustodyBatch SourceAttendance.
Open Scope string_scope.
Open Scope list_scope.
Open Scope Z_scope.

(** The keys the database enforces. *)
Record keyed (d : db) : Prop := {
  keyed_manifests : NoDup (map m_id (manifests d));
  keyed_aliases : aliases_ok (aliases d) }.

(** ** The canonical alias *)
Section canonical.
Context (d : db) (c : Connector) (s : ZktSourceCutover) (Hkeys : keyed d).

(** An alias and the manifest it names, accepted by [_manifest]. *)
Record backed (a : ZktOccurrenceAlias) (m : TerminalRecordManifest) (e : TerminalSourceEpoch) : Prop := {
  bk_row : manifest_row (a_manifest_id a) d = Some m;
  bk_epoch : (i ← m_source_epoch_id m; epoch_row i d) = Some e;
  bk_coordinates : Some (a_source_epoch_id a) = m_source_epoch_id m ∧ a_ordinal a = m_ordinal m ∧ a_raw_digest a = m_raw_record_digest m;
  bk_device : a_zkt_device_id a = m_zkt_device_id m;
  bk_fresh : a_attendance_event_id a = None ∧ m_attendance_event_id m = None }.

Lemma manifest_backed a m e : _manifest d c (Some a) = Ok (m, e) → backed a m e.
Proof.
  unfold _manifest. simpl. destruct (manifest_row _ _) as [n|] eqn:Em; [|done]. destruct (c_terminal c) as [t|]; [|done].
  destruct (derivation_bound c t a n) eqn:Eb; [|done]. destruct (m_source_epoch_id n ≫= _) as [f|] eqn:Ee; [|done]. simpl.
  destruct (derivation_epoch t a n f); [|done]. intros [= -> ->]. unfold derivation_bound in Eb. bool_prop. constructor; try done.
  - simplify_eq. done.
  - lia.
Qed.
(** Epochs reached by following parents. *)
Inductive lineage : TerminalSourceEpoch → TerminalSourceEpoch → Prop :=
  | lineage_refl e : lineage e e
  | lineage_up e p q i : lineage e p → e_parent_epoch_id p = Some i → epoch_row i d = Some q → lineage e q.

Lemma epoch_row_id i e : epoch_row i d = Some e → e_id e = i.
Proof. intros [_ ?%Z.eqb_eq]%find_some. done. Qed.
Lemma manifest_row_elem m : m ∈ manifests d → manifest_row (m_id m) d = Some m.
Proof. intros Hm. apply (find_unique m_id); [apply Hkeys|done|]. intros n. apply Z.eqb_eq. Qed.

Record canonical_of (a : ZktOccurrenceAlias) (m : TerminalRecordManifest) (e : TerminalSourceEpoch) (root : ZktOccurrenceAlias) : Prop := {
  co_alias : root = a ∨ root ∈ aliases d;
  co_copy : a_raw_digest root = m_raw_record_digest m ∧ a_ordinal root = m_ordinal m ∧ a_zkt_device_id root = m_zkt_device_id m;
  co_new : sc_first_new_ordinal s <= m_ordinal m;
  co_backed : ∃ n f, backed root n f ∧ m_record_size n = m_record_size m ∧ lineage e f;
  co_cutover : ∃ f, lineage e f ∧ e_id f = sc_source_epoch_id s }.

Lemma canonical_loop_sound e0 fuel : ∀ a m ea e seen reached root, backed a m ea → lineage e0 ea → lineage e0 e →
  (reached = true → ∃ f, lineage e0 f ∧ e_id f = sc_source_epoch_id s) →
  canonical_loop fuel d c s a m e seen reached = Ok root → canonical_of a m e0 root.
Proof.
  induction fuel as [|fuel IH]; intros a m ea e seen reached root Hb Ha Hl Hr H; [done|]. cbn [canonical_loop] in H.
  destruct (bool_decide (e_id e ∈ seen)); [done|]. set (reached' := reached || (e_id e =? sc_source_epoch_id s)) in H.
  assert (Hr' : reached' = true → ∃ f, lineage e0 f ∧ e_id f = sc_source_epoch_id s).
  { unfold reached'. intros [?|?%Z.eqb_eq]%orb_true_iff; [by apply Hr|by exists e]. }
  destruct (e_parent_epoch_id e) as [i|] eqn:Ep.
  2:{ destruct reached' eqn:Er; [|done]. cbn [negb] in H. destruct (Z.ltb_spec (m_ordinal m) (sc_first_new_ordinal s)); [done|]. injection H as <-.
      pose proof Hb as [_ _ (_ & H1 & H2) H3 _]. constructor; [by left|done|done| |by apply Hr']. by exists m, ea. }
  destruct (epoch_row i d) as [p|] eqn:Ei; [|done]. destruct (negb (parent_ok p e)); [done|].
  assert (Hp : lineage e0 p) by by eapply lineage_up.
  destruct (prior_manifest d m p) as [prior|] eqn:Epr.
  2:{ destruct (bool_decide (m_source_kind m = _)); [done|]. by eapply (IH _ _ _ p). }
  destruct (_ =? _) in H; [done|]. destruct (same_copy c prior m) eqn:Es; [|done]. cbn [negb] in H.
  destruct (alias_of d (m_id prior)) as [b|] eqn:Eb; [|done]. apply bind_ok in H as ([n f] & Hn%manifest_backed & H).
  apply find_some in Epr as [Hin%list_elem_of_In Hprior]. apply find_some in Eb as [Hbin%list_elem_of_In Hbid%Z.eqb_eq].
  assert (n = prior) as -> by (pose proof (bk_row _ _ _ Hn) as Hrow; rewrite Hbid, (manifest_row_elem _ Hin) in Hrow; congruence).
  unfold same_copy in Es. bool_prop. rename select (m_source_epoch_id prior = Some (e_id p)) into Hs.
  assert (f = p) as ->.
  { pose proof (bk_epoch _ _ _ Hn) as He. rewrite Hs in He. simpl in He. rewrite (epoch_row_id _ _ Ei), Ei in He. congruence. }
  destruct (IH _ _ _ p _ _ _ Hn Hp Hp Hr' H) as [Hal (C1 & C2 & C3) Hnew (n & f & Hnf & Hsz & Hlf) Hcut].
  constructor; [|split_and!; congruence|congruence| |done].
  - right. by destruct Hal as [-> |].
  - exists n, f. split_and!; [done|congruence|done].
Qed.

Lemma canonical_sound a root : _canonical d c (Some a) s = Ok root →
  ∃ m e, backed a m e ∧ m_record_size m = Some (sc_record_size s) ∧ canonical_of a m e root.
Proof.
  unfold _canonical. generalize MAX_EPOCHS as fuel. intros fuel ([m e] & Hm%manifest_backed & H)%bind_ok. cbv beta iota in H.
  destruct (bool_decide (m_record_size m = _)) eqn:Er; [|discriminate H]. cbn [negb] in H. apply bool_decide_eq_true in Er. exists m, e.
  split_and!; [exact Hm|exact Er|]. eapply (canonical_loop_sound e); [exact Hm|constructor|constructor| |exact H]. discriminate.
Qed.
End canonical.

(** ** What a binding proves *)
Section binding.
Context (decrypt_json : string → res pyval) (decrypt_text : option string → res (option string)) (pii_fernet_key : bool) (pii_lookup_key : string).
#[local] Abbreviation binding_event := (binding_event decrypt_json decrypt_text pii_fernet_key pii_lookup_key).

Record bound (x : world) (c : Connector) (a : ZktOccurrenceAlias) (e : AttendanceEvent) (b : ZktSourceAttendance) (s : ZktSourceCutover)
    (root : ZktOccurrenceAlias) (w : ZktCustodyWork) (r : step_row) (m : TerminalRecordManifest) : Prop := {
  bd_binding : binding_of (a_id a) x = Some b;
  bd_cutover : _cutover decrypt_json pii_lookup_key x c = Ok (Some s);
  bd_canonical : _canonical (tables x) c (Some a) s = Ok root;
  bd_event : event_row (sb_attendance_event_id b) x = Some e;
  bd_ok : binding_ok c s a root b e w r = true;
  bd_manifest : manifest_row (a_manifest_id a) (tables x) = Some m;
  bd_facts : binding_facts decrypt_json decrypt_text pii_fernet_key x s a e w r m = Ok () }.

Lemma binding_inv x c a e : binding_event x c a = Ok (Some e) → ∃ b s root w r m, bound x c a e b s root w r m.
Proof.
  unfold SourceAttendance.binding_event. destruct (binding_of _ _) as [b|] eqn:Eb; [|done]. intros ([s|] & Hs & H)%bind_ok; [|done].
  destruct (negb _); [done|]. apply bind_ok in H as (root & Hroot & H).
  destruct (event_row _ _) as [e'|] eqn:Ee; [|done]. destruct (work_row _ _) as [w|] eqn:Ew; [|done]. destruct (evidence_row _ _) as [r|] eqn:Er; [|done].
  destruct (binding_ok _ _ _ _ _ _ _ _) eqn:Eok; [|done]. cbn [negb] in H. apply bind_ok in H as (facts & Hfacts & H). destruct (negb _); [done|].
  destruct (manifest_row _ _) as [m|] eqn:Em; [|done]. destruct (binding_facts _ _ _ _ _ _ _ _ _ _) as [[]|cl t] eqn:Ef; [|by destruct (_ || _)].
  injection H as ->. exists b, s, root, w, r, m. by constructor.
Qed.

Lemma binding_facts_inv x s a e w r m : binding_facts decrypt_json decrypt_text pii_fernet_key x s a e w r m = Ok () →
  ∃ t raw steps f, decrypt_text (m_protected_raw_record m) = Ok (Some t) ∧ b64decode (chars t) = Some raw ∧
    verified_steps token_len decrypt_json pii_fernet_key (evidence x) w raw INTERPRETATION_VERSION DECODER_VERSION = Ok steps ∧
    decode_source raw (sc_record_size s) 0 = Ok f ∧ facts_bound a e r raw steps f = true.
Proof.
  unfold binding_facts. intros ([t|] & Ht & H)%bind_ok; [|done]. destruct (_ || _); [done|]. destruct (b64decode _) as [raw|] eqn:Er; [|done].
  apply bind_ok in H as (steps & Hs & H). apply bind_ok in H as (f & Hf & H). destruct (facts_bound _ _ _ _ _ _) eqn:Eb; [|done].
  by exists t, raw, steps, f.
Qed.

(** A bound event is the decoding of preserved bytes. When [binding_event]
    returns an event for an alias, the bytes kept for that alias hash to its digest
    and decode, in the layout of the cutover, to exactly the user, the time, the
    status and the punch of the event, and the event's uid is the occurrence id of
    an alias with the same digest, ordinal and terminal. *)
Theorem binding_event_decodes x c a e : keyed (tables x) → a ∈ aliases (tables x) → binding_event x c a = Ok (Some e) →
  ∃ s m t raw f root, manifest_row (a_manifest_id a) (tables x) = Some m ∧ decrypt_text (m_protected_raw_record m) = Ok (Some t) ∧
    b64decode (chars t) = Some raw ∧ sha256_hex raw = a_raw_digest a ∧ decode_source raw (sc_record_size s) 0 = Ok f ∧
    user_id f = Some (ae_user_id e) ∧ utc_time f = ensure_utc (ae_device_event_time e) ∧
    ae_status e = Some (py_str (status f)) ∧ ae_punch e = Some (py_str (punch f)) ∧
    root ∈ aliases (tables x) ∧ ae_event_uid e = a_occurrence_id root ∧
    (a_raw_digest root, a_ordinal root, a_zkt_device_id root) = (a_raw_digest a, a_ordinal a, a_zkt_device_id a).
Proof.
  intros Hk Ha (b & s & root & w & r & m & [_ _ Hc _ Hok Hm Hf])%binding_inv. apply binding_facts_inv in Hf as (t & raw & steps & f & Ht & Hr & _ & Hd & Hb).
  destruct (canonical_sound _ _ _ Hk _ _ Hc) as (n & e0 & [_ _ (_ & Ho & Hg) Hz _] & _ & [Hal (C1 & C2 & C3) _ _ _]).
  unfold facts_bound in Hb. unfold binding_ok in Hok. bool_prop. exists s, m, t, raw, f, root. split_and!; try done; try congruence.
  by destruct Hal as [-> |].
Qed.

(** only copies of one record share an event. Two aliases whose bindings both
    validate to the same event are copies of one terminal record: same raw digest,
    same ordinal, same terminal. Different punches never collapse into one event. *)
Theorem shared_event_exact_copies x c a a' e : keyed (tables x) → a ∈ aliases (tables x) → a' ∈ aliases (tables x) →
  binding_event x c a = Ok (Some e) → binding_event x c a' = Ok (Some e) →
  (a_raw_digest a, a_ordinal a, a_zkt_device_id a) = (a_raw_digest a', a_ordinal a', a_zkt_device_id a').
Proof.
  intros Hk Ha Ha' (b & s & root & w & r & m & [_ _ Hc _ Hok _ _])%binding_inv (b' & s' & root' & w' & r' & m' & [_ _ Hc' _ Hok' _ _])%binding_inv.
  destruct (canonical_sound _ _ _ Hk _ _ Hc) as (n & e0 & [_ _ (_ & Ho & Hg) Hz _] & _ & [Hal (C1 & C2 & C3) _ _ _]).
  destruct (canonical_sound _ _ _ Hk _ _ Hc') as (n' & e0' & [_ _ (_ & Ho' & Hg') Hz' _] & _ & [Hal' (C1' & C2' & C3') _ _ _]).
  assert (Hin : root ∈ aliases (tables x)) by by destruct Hal as [-> |]. assert (Hin' : root' ∈ aliases (tables x)) by by destruct Hal' as [-> |].
  unfold binding_ok in Hok, Hok'. bool_prop. assert (root = root') as ->; [|congruence].
  destruct (keyed_aliases _ Hk) as (_ & _ & Hocc & _). apply (NoDup_map_inj a_occurrence_id (aliases (tables x))); [done..|congruence].
Qed.

(** ** What a binding does not depend on *)
Definition touched (wid : Z) (f : ZktCustodyWork → ZktCustodyWork) (x : world) : world :=
  set_tables (set_works (tables x) (map (λ w, if w_id w =? wid then f w else w) (works (tables x)))) x.

Lemma work_row_touched wid f x i : (∀ w, w_id (f w) = w_id w) →
  work_row i (tables (touched wid f x)) = (λ w, if w_id w =? wid then f w else w) <$> work_row i (tables x).
Proof.
  intros Hf. unfold work_row. simpl. induction (works (tables x)) as [|w l IH]; [done|]. simpl.
  assert (Hid : w_id (if w_id w =? wid then f w else w) = w_id w) by by destruct (_ =? _). rewrite Hid. by destruct (w_id w =? i).
Qed.

(** The rows a binding is read from; work rows up to their state. *)
Record same_source (x y : world) : Prop := {
  ss_epochs : epochs (tables y) = epochs (tables x);
  ss_manifests : manifests (tables y) = manifests (tables x);
  ss_aliases : aliases (tables y) = aliases (tables x);
  ss_cutovers : cutovers y = cutovers x }.
Record same_binding (x y : world) : Prop := {
  sm_source : same_source x y;
  sm_evidence : evidence y = evidence x;
  sm_events : events (attendance y) = events (attendance x);
  sm_bindings : bindings (attendance y) = bindings (attendance x);
  sm_work : ∀ i, work_row i (tables y) = work_row i (tables x) ∨
    ∃ w a b o, work_row i (tables x) = Some w ∧ work_row i (tables y) = Some (assign_state a b o w) }.

Lemma cutover_frame x y c : same_source x y → _cutover decrypt_json pii_lookup_key y c = _cutover decrypt_json pii_lookup_key x c.
Proof. intros [He _ _ Hc]. unfold _cutover, epoch_row. by rewrite Hc, He. Qed.

Lemma loop_frame x y c s fuel : same_source x y → ∀ root m e seen reached,
  canonical_loop fuel (tables y) c s root m e seen reached = canonical_loop fuel (tables x) c s root m e seen reached.
Proof.
  intros [He Hm Ha _]. induction fuel as [|fuel IH]; intros root m e seen reached; [done|]. cbn [canonical_loop].
  unfold epoch_row, prior_manifest, alias_of, _manifest, manifest_row, epoch_row. rewrite He, Hm, Ha. destruct (bool_decide (_ ∈ _)); [done|].
  destruct (e_parent_epoch_id e); [|done]. destruct (List.find _ (epochs _)); [|done]. destruct (negb _); [done|].
  destruct (List.find _ (manifests _)); [|by rewrite IH]. destruct (_ =? _); [done|]. destruct (negb _); [done|].
  destruct (List.find _ (aliases _)); [|done]. destruct (match _ with Some _ => _ | None => _ end); [|done]. cbn [mbind res_bind]. apply IH.
Qed.
Lemma canonical_frame x y c al s : same_source x y → _canonical (tables y) c al s = _canonical (tables x) c al s.
Proof.
  intros Hs. pose proof Hs as [He Hm _ _]. unfold _canonical. generalize MAX_EPOCHS as fuel. intros fuel.
  assert (Heq : _manifest (tables y) c al = _manifest (tables x) c al) by (unfold _manifest, manifest_row, epoch_row; by rewrite He, Hm).
  rewrite Heq. clear Heq. destruct (_manifest (tables x) c al) as [[m e]|]; cbn [mbind res_bind]; [|reflexivity]. destruct al; [|reflexivity]. destruct (negb _); [reflexivity|].
  by apply loop_frame.
Qed.

Lemma binding_event_frame x y c al : same_binding x y → binding_event y c al = binding_event x c al.
Proof.
  intros [Hs Hev Hes Hbs Hw]. unfold SourceAttendance.binding_event. unfold binding_of at 1. rewrite Hbs. fold (binding_of (a_id al) x).
  destruct (binding_of _ x) as [bd|]; [|reflexivity]. rewrite (cutover_frame _ _ _ Hs).
  destruct (_cutover _ _ x c) as [[s|]|]; cbn [mbind res_bind]; [|reflexivity|reflexivity]. destruct (negb _); [reflexivity|].
  rewrite (canonical_frame _ _ _ _ _ Hs). destruct (_canonical _ _ _ _) as [root|]; cbn [mbind res_bind]; [|reflexivity].
  unfold event_row at 1, evidence_row at 1, manifest_row at 1. rewrite Hes, Hev, (ss_manifests _ _ Hs).
  fold (event_row (sb_attendance_event_id bd) x). fold (evidence_row (sb_evidence_id bd) x). fold (manifest_row (a_manifest_id al) (tables x)).
  destruct (event_row _ x) as [e|]; [|reflexivity].
  assert (Hf : ∀ w r m, binding_facts decrypt_json decrypt_text pii_fernet_key y s al e w r m = binding_facts decrypt_json decrypt_text pii_fernet_key x s al e w r m).
  { intros w r m. unfold binding_facts. by rewrite Hev. }
  destruct (Hw (sb_work_id bd)) as [-> |(w & a & b & o & -> & ->)].
  - destruct (work_row _ _) as [w|]; [|reflexivity]. destruct (evidence_row _ x) as [r|]; [|reflexivity]. destruct (negb _); [reflexivity|].
    destruct (_protected_digest _ _); cbn [mbind res_bind]; [|reflexivity]. destruct (negb _); [reflexivity|]. destruct (manifest_row _ _); [|reflexivity].
    by rewrite Hf.
  - destruct (evidence_row _ x) as [r|]; [|reflexivity].
    change (binding_ok c s al root bd e (assign_state a b o w) r) with (binding_ok c s al root bd e w r). destruct (negb _); [reflexivity|].
    destruct (_protected_digest _ _); cbn [mbind res_bind]; [|reflexivity]. destruct (negb _); [reflexivity|]. destruct (manifest_row _ _) as [m|]; [|reflexivity].
    rewrite Hf. change (binding_facts decrypt_json decrypt_text pii_fernet_key x s al e (assign_state a b o w) r m)
      with (binding_facts decrypt_json decrypt_text pii_fernet_key x s al e w r m). reflexivity.
Qed.

(** ** Creating attendance *)

(** What is relied on of ingestion: it adds to the attendance tables, events and
    outbox rows, and touches neither custody nor bindings and intents. *)
Class Ingest (ingest : Connector → AttendanceEventIn → M (list string * list string)) := {
  ingest_frame : ∀ c ev x x' r, ingest c ev x = (x', r) → ∃ l, x' = set_attendance l x ∧ events (attendance x) `prefix_of` events l ∧
    bindings l = bindings (attendance x) ∧ intents l = intents (attendance x) }.

Context (utc_now : Z) (ingest : Connector → AttendanceEventIn → M (list string * list string)) {Hingest : Ingest ingest}.
#[local] Abbreviation process_source := (process_source decrypt_json decrypt_text pii_fernet_key pii_lookup_key utc_now ingest).
#[local] Abbreviation register_intent := (register_intent decrypt_json decrypt_text pii_fernet_key pii_lookup_key).

(** Steps that only add to the attendance tables. *)
Definition adds (x x' : world) : Prop := ∃ l, x' = set_attendance l x.
#[export] Instance adds_po : PreOrder adds.
Proof.
  split; [intros x; exists (attendance x); by destruct x|]. intros x y z [l ->] [l' ->]. by exists l'.
Qed.
Lemma adds_source x x' : adds x x' → same_source x x'.
Proof. by intros [l ->]. Qed.

Lemma create_event_inv c a f user r x x' e : create_event ingest c a f user r x = (x', Ok e) →
  adds x x' ∧ ae_event_uid e = a_occurrence_id a ∧ bindings (attendance x') = bindings (attendance x) ∧
  (∀ e', e' ∈ events (attendance x) → ae_event_uid e' ≠ a_occurrence_id a).
Proof.
  unfold create_event. rewrite read_bind. destruct (manifest_row _ _) as [m|]; [|done]. destruct (existsb _ _) eqn:Ex; [done|]. intros H.
  apply M_bind_ok in H as (x1 & [accepted duplicate] & Hi & H). destruct (negb _); [done|]. rewrite read_bind in H.
  destruct (List.find _ _) as [e'|] eqn:Ef; [|done]. injection H as <- ->. apply find_some in Ef as [_ He%bool_decide_eq_true].
  destruct (ingest_frame _ _ _ _ _ Hi) as (l & -> & Hp & Hb & _). split_and!; [by exists l|done|done|]. intros e' He' Huid.
  rewrite <- not_true_iff_false in Ex. apply Ex. apply existsb_exists. exists e'.
  split; [by apply list_elem_of_In|by apply bool_decide_eq_true].
Qed.

Lemma register_inv c e o a scope x x' : register_intent c e o a scope x = (x', Ok ()) → a_attendance_event_id a = None →
  adds x x' ∧ same_binding x x' ∧ (∃ e', binding_event x c a = Ok (Some e') ∧ ae_id e' = ae_id e) ∧
  ∃ i, i ∈ intents (attendance x') ∧ (oi_outbox_id i, oi_attendance_event_id i, oi_occurrence_alias_id i, oi_connector_id i, oi_verification_scope i)
    = (ob_id o, ae_id e, a_id a, c_id c, scope).
Proof.
  unfold SourceAttendance.register_intent. intros H Ha. destruct (negb (bool_decide (scope ∈ _))); [done|]. destruct (negb _); [done|].
  rewrite read_bind, lift_bind in H. unfold occurrence_attendance_id in H. rewrite Ha in H. unfold binding_event_id in H.
  destruct (binding_event x c a) as [oe|] eqn:Eb; [|done]. cbn [fmap res_fmap] in H.
  destruct (bool_decide (option_map ae_id oe = Some (ae_id e)) && _) eqn:E1; [|done]. apply andb_true_iff in E1 as [E1%bool_decide_eq_true _].
  destruct oe as [e'|]; [|done]. injection E1 as E1. cbn [negb] in H. rewrite lift_bind in H.
  destruct (_occurrence_bound _ _ _ _ _ _ _) as [[]|]; [|done|done]. cbn [negb] in H.
  assert (Hsame : ∀ l, same_binding x (set_intents l x)) by (intros l; constructor; [done..|by left]).
  destruct (List.find _ _) as [prior|] eqn:Ef.
  - destruct (bool_decide _) eqn:Ep in H; [|done]. injection H as <-. apply bool_decide_eq_true in Ep. injection Ep as P1 P2 P3 P4.
    apply find_some in Ef as [Hin%list_elem_of_In Hid%Z.eqb_eq]. split_and!; [done|constructor; [done..|by left]|by exists e'|].
    exists prior. split; [done|]. congruence.
  - injection H as <-. split_and!; [by eexists|apply Hsame|by exists e'|]. eexists. split; [simpl; apply elem_of_app; right; by apply list_elem_of_singleton|done].
Qed.

(** The path of [process_source] that creates an event, as one run. *)
Record creation (c : Connector) (wid : Z) (x x' : world) (w : ZktCustodyWork) (s : ZktSourceCutover) (a : ZktOccurrenceAlias) : Prop := {
  cr_work : work_row wid (tables x) = Some w;
  cr_cutover : _cutover decrypt_json pii_lookup_key x c = Ok (Some s);
  cr_kind : w_kind w = "SOURCE_LEDGER";
  cr_enabled : zkt_custody_enabled c = true;
  cr_alias : (i ← w_source_manifest_id w; alias_of (tables x) i) = Some a;
  cr_canonical : ∃ root, _canonical (tables x) c (Some a) s = Ok root ∧ a_id root = a_id a;
  cr_run : ∃ s' root w' f user r e x1 x2 x3, create_event ingest c a f user r x = (x1, Ok e) ∧
    bind_event pii_lookup_key s' a root w' r e x1 = (x2, Ok ()) ∧
    own_delivery decrypt_json decrypt_text pii_fernet_key pii_lookup_key utc_now c a e x2 = (x3, Ok ()) ∧
    x' = touched wid (assign_state "ATTENDANCE_CREATED" POLICY "ADD_DELIVERY") x3 }.

Lemma created_attendance wid x x' b : created wid x = (x', Ok b) → attendance x' = attendance x.
Proof. by intros [= <- _]. Qed.
Lemma bind_event_attendance s a root w r e x x' : bind_event pii_lookup_key s a root w r e x = (x', Ok ()) →
  adds x x' ∧ events (attendance x') = events (attendance x).
Proof.
  unfold bind_event. rewrite lift_bind. destruct (_protected_digest _ _); [|done]. intros [= <-]. split; [by eexists|done].
Qed.

Lemma process_source_cases c wid raw x x' : process_source c wid raw x = (x', Ok true) →
  events (attendance x') = events (attendance x) ∨ ∃ w s a, creation c wid x x' w s a.
Proof.
  unfold SourceAttendance.process_source. rewrite read_bind. intros H. apply M_bind_ok in H as (x0 & w & Hw & H).
  unfold get_work in Hw. destruct (work_row wid (tables x)) as [w0|] eqn:Ew; [|done]. injection Hw as <- ->. rewrite lift_bind in H.
  destruct (_cutover _ _ x c) as [[s|]|] eqn:Ec; [|done|done]. destruct (bool_decide (w_kind w = _)) eqn:Ek; [|done]. cbn [negb] in H.
  destruct (zkt_custody_enabled c) eqn:Een; [|done]. cbn [negb] in H. cbv zeta in H. rewrite lift_bind in H.
  destruct (w_source_manifest_id w ≫= _) as [a|] eqn:Ea; [|by destruct (_canonical _ _ _ _)]. destruct (_canonical _ _ _ _) as [root|] eqn:Er; [|done].
  rewrite lift_bind in H. destruct (binding_event x c a) as [[e|]|] eqn:Eb; [left; by rewrite (created_attendance _ _ _ _ H)| |done]. rewrite lift_bind in H.
  destruct (usable_facts _ _ _ _ _ _) as [[f user]|]; [|done]. destruct (a_id root =? a_id a) eqn:Eid; cbn [negb] in H.
  - right. exists w, s, a. rewrite lift_bind in H. destruct (first_evidence x w) as [r|]; [|done].
    apply M_bind_ok in H as (x1 & e & H1 & H). apply M_bind_ok in H as (x2 & [] & H2 & H). apply M_bind_ok in H as (x3 & [] & H3 & H).
    injection H as <-. bool_prop. constructor; try done; [by exists root|]. exists s, root, w, f, user, r, e, x1, x2, x3. by split_and!.
  - left. rewrite lift_bind in H. destruct (binding_event x c root) as [[e|]|]; [|by injection H as <-|done]. rewrite lift_bind in H.
    destruct (first_evidence x w) as [r|]; [|done]. apply M_bind_ok in H as (x1 & [] & H1%bind_event_attendance & H%created_attendance). by rewrite H, (proj2 H1).
Qed.

Lemma own_delivery_inv c a e x x' : own_delivery decrypt_json decrypt_text pii_fernet_key pii_lookup_key utc_now c a e x = (x', Ok ()) →
  a_attendance_event_id a = None → adds x x' ∧ events (attendance x') = events (attendance x) ∧
  (∃ e', binding_event x' c a = Ok (Some e') ∧ ae_id e' = ae_id e) ∧
  ∃ i, i ∈ intents (attendance x') ∧ (oi_attendance_event_id i, oi_occurrence_alias_id i, oi_connector_id i, oi_verification_scope i)
    = (ae_id e, a_id a, c_id c, MEMBERSHIP_SCOPE).
Proof.
  unfold own_delivery. rewrite read_bind. intros H Ha. apply M_bind_ok in H as (x1 & o & H1 & H2).
  assert (Hx : adds x x1 ∧ events (attendance x1) = events (attendance x)).
  { destruct (outbox_of e x) as [o'|]; [by injection H1 as <- <-|]. injection H1 as <- <-. split; [by eexists|done]. }
  destruct Hx as [Hx He]. destruct (register_inv _ _ _ _ _ _ _ H2 Ha) as (H3 & H4 & (e' & H5 & H6) & (i & H7 & H8)).
  split_and!; [by etrans|by rewrite (sm_events _ _ H4)| |].
  - exists e'. split; [|done]. by rewrite (binding_event_frame _ _ _ _ H4).
  - exists i. split; [done|]. congruence.
Qed.

Lemma touched_same wid a b o x : same_binding x (touched wid (assign_state a b o) x).
Proof.
  constructor; [done..|]. intros i. rewrite work_row_touched by done. destruct (work_row i (tables x)) as [w|]; [|by left]. simpl.
  destruct (_ =? _); [|by left]. right. by exists w, a, b, o.
Qed.

(** A row whose binding validates is settled: processing it changes its state only. *)
Lemma process_settled c wid raw x w s a root e : work_row wid (tables x) = Some w → _cutover decrypt_json pii_lookup_key x c = Ok (Some s) →
  w_kind w = "SOURCE_LEDGER" → zkt_custody_enabled c = true → (i ← w_source_manifest_id w; alias_of (tables x) i) = Some a →
  _canonical (tables x) c (Some a) s = Ok root → binding_event x c a = Ok (Some e) →
  process_source c wid raw x = (touched wid (assign_state "ATTENDANCE_CREATED" POLICY "ADD_DELIVERY") x, Ok true).
Proof.
  intros Hw Hc Hk He Ha Hr Hb. unfold SourceAttendance.process_source. rewrite read_bind. unfold get_work.
  unfold mbind at 1, M_bind at 1. rewrite Hw, lift_bind, Hc. rewrite (bool_decide_eq_true_2 _ Hk), He. cbn [negb]. cbv zeta. rewrite Ha, lift_bind, Hr, lift_bind, Hb.
  reflexivity.
Qed.

(** C10: a source row becomes attendance once. When [process_source] adds an event,
    it carries the occurrence id of the row's alias, which no event had before; its
    binding validates against the custody bytes; the membership-scoped delivery
    intent of that alias owns it; and processing the row again, whatever bytes are
    passed, adds no event, binding, outbox row or intent. *)
Theorem process_source_once c wid raw x x' : keyed (tables x) → process_source c wid raw x = (x', Ok true) →
  events (attendance x') ≠ events (attendance x) →
  ∃ a e i, a ∈ aliases (tables x) ∧ binding_event x' c a = Ok (Some e) ∧ ae_event_uid e = a_occurrence_id a ∧
    (∀ e', e' ∈ events (attendance x) → ae_event_uid e' ≠ a_occurrence_id a) ∧ i ∈ intents (attendance x') ∧
    (oi_attendance_event_id i, oi_occurrence_alias_id i, oi_connector_id i, oi_verification_scope i) = (ae_id e, a_id a, c_id c, MEMBERSHIP_SCOPE) ∧
    ∀ raw', ∃ x'', process_source c wid raw' x' = (x'', Ok true) ∧ attendance x'' = attendance x'.
Proof.
  intros Hk H Hnew. destruct (process_source_cases _ _ _ _ _ H) as [|(w & s & a & [Hw Hc Hkind Hen Ha (root & Hr & Hid) Hrun])]; [done|].
  destruct Hrun as (s' & root' & w' & f & user & r & e & x1 & x2 & x3 & H1 & H2 & H3 & ->).
  assert (Hin : a ∈ aliases (tables x)).
  { destruct (w_source_manifest_id w); [|done]. apply find_some in Ha as [?%list_elem_of_In _]. done. }
  destruct (canonical_sound _ _ _ Hk _ _ Hr) as (m & e0 & Hbk & _ & [Hal _ _ _ _]).
  destruct (create_event_inv _ _ _ _ _ _ _ _ H1) as (A1 & _ & _ & Hfresh). apply bind_event_attendance in H2 as [A2 _].
  destruct (own_delivery_inv _ _ _ _ _ H3 (proj1 (bk_fresh _ _ _ _ Hbk))) as (A3 & _ & (e' & Hb & He') & (i & Hi & Hi')).
  pose proof (touched_same wid "ATTENDANCE_CREATED" POLICY "ADD_DELIVERY" x3) as Hsame.
  set (x' := touched wid _ x3) in *. assert (Hb' : binding_event x' c a = Ok (Some e')) by by rewrite (binding_event_frame _ _ _ _ Hsame).
  assert (Hs : same_source x x3) by (apply adds_source; by do 2 (etrans; [eassumption|])).
  assert (Hs' : same_source x x') by (destruct Hs, (sm_source _ _ Hsame); constructor; congruence).
  assert (Hroot : root = a).
  { apply (NoDup_map_inj a_id (aliases (tables x))); [apply (keyed_aliases _ Hk)|by destruct Hal as [-> |]|done|done]. }
  subst root. exists a, e', i. split_and!; [done|done| |done|done|by rewrite He'|].
  - destruct (binding_inv _ _ _ _ Hb') as (b & t & root2 & w2 & r2 & m2 & [_ Hc2 Hr2 _ Hok _ _]).
    rewrite (cutover_frame _ _ _ Hs'), Hc in Hc2. injection Hc2 as <-. rewrite (canonical_frame _ _ _ _ _ Hs'), Hr in Hr2. injection Hr2 as <-.
    unfold binding_ok in Hok. bool_prop. done.
  - intros raw'. eexists. split; [|].
    + eapply (process_settled c wid raw' x' _ s a a e'); [|by rewrite (cutover_frame _ _ _ Hs')| |done| |by rewrite (canonical_frame _ _ _ _ _ Hs')|done].
      * unfold x'. rewrite work_row_touched by done. destruct A1 as [l1 ->], A2 as [l2 ->], A3 as [l3 ->]. simpl. rewrite Hw. simpl.
        apply find_some in Hw as [_ Hwid]. rewrite Hwid. reflexivity.
      * exact Hkind.
      * simpl. rewrite <- Ha. destruct (w_source_manifest_id w); [|done]. simpl. unfold alias_of. simpl. by rewrite (ss_aliases _ _ Hs).
    + done.
Qed.

(** ** Processing inside an inspection *)
Lemma adds_kept wid x x' : adds x x' → kept wid x x'.
Proof. intros [l ->]. by constructor. Qed.
Lemma keeps_attendance wid f : preserves (kept wid) (modify (λ x, set_attendance (f x) x)).
Proof. apply (preserves_modify (kept wid)). intros x. apply adds_kept. by eexists. Qed.

Lemma process_keeps wid c raw : preserves (kept wid) (process_source c wid raw).
Proof.
  assert (Hi : ∀ ev, preserves (kept wid) (ingest c ev)).
  { intros ev x x' r H. destruct (ingest_frame _ _ _ _ _ H) as (l & -> & _). apply adds_kept. by eexists. }
  assert (Hb : ∀ s a root w r e, preserves (kept wid) (bind_event pii_lookup_key s a root w r e)).
  { intros. unfold bind_event. keeps_tac. apply (keeps_attendance wid (λ x, with_bindings _ (attendance x))). }
  assert (Hr : ∀ e o a sc, preserves (kept wid) (register_intent c e o a sc)).
  { intros. unfold SourceAttendance.register_intent. keeps_tac. apply (keeps_attendance wid (λ x, with_intents _ (attendance x))). }
  assert (Ho : ∀ a e, preserves (kept wid) (own_delivery decrypt_json decrypt_text pii_fernet_key pii_lookup_key utc_now c a e)).
  { intros. unfold own_delivery. keeps_tac. apply (keeps_attendance wid (λ x, with_outboxes _ (attendance x))). }
  unfold SourceAttendance.process_source, create_event, created. keeps_tac.
Qed.
End binding.

(** The inspector the worker runs: source rows bind and create attendance. *)
#[export] Instance source_inspector validate_observation decrypt_json decrypt_text encrypt_json pii_fernet_key pii_lookup_key utc_now ingest :
  Ingest ingest → Inspector (λ permit wid, inspect_work validate_observation decrypt_json decrypt_text encrypt_json pii_fernet_key utc_now
    (binding_event_id decrypt_json decrypt_text pii_fernet_key pii_lookup_key)
    (λ c i raw, _ ← process_source decrypt_json decrypt_text pii_fernet_key pii_lookup_key utc_now ingest c i raw; mret ()) wid (Some permit)).
Proof.
  intros Hi. apply inspect_work_inspector. intros wid c raw. apply (preserves_bind (kept wid)); [by apply process_keeps|]. intros _. apply (preserves_ret (kept wid)).
Qed.

(** ** A concrete cutover: a 16-byte record of a G3 becomes attendance, and its copy
    in the next epoch is bound to the same event *)
Definition wit_conn : Connector := mkConn 3 "site-3" (Some "zkt") true (Some wit_terminal) "Z1" "Zone 1" "D1".
Definition wit_epoch : TerminalSourceEpoch := mkEpoch 5 sample_epoch 7 1 1 None.
Definition wit_next_epoch : TerminalSourceEpoch := mkEpoch 6 "00000000-0000-0000-0000-000000000001" 7 1 2 (Some 5).
Definition wit_digest : string := Eval vm_compute in sha256_hex sample_source_raw.
Definition wit_row (id epoch : Z) : TerminalRecordManifest :=
  mkManifest id 3 7 "ZK1" 1 (Some epoch) 4 true (Some 16) wit_digest "k" None "RAW_PRESERVED" (Some "raw") "BASELINE" (mkDT 2026 1 2 3 4 5 0 (Some 0)).
Definition wit_alias (id manifest : Z) (e : TerminalSourceEpoch) : ZktOccurrenceAlias :=
  mkAlias id (occurrence_id "ZK1" (e_epoch_id e) 4 wit_digest) 7 (e_id e) 4 manifest wit_digest None.
Definition wit_alias1 : ZktOccurrenceAlias := Eval vm_compute in wit_alias 1 10 wit_epoch.
Definition wit_alias2 : ZktOccurrenceAlias := Eval vm_compute in wit_alias 2 11 wit_next_epoch.
Definition wit_ledger (id manifest : Z) : ZktCustodyWork :=
  mkWork id "k" 3 (Some manifest) "SOURCE_LEDGER" (Some "ZK1") None None None (Some 16) (Some wit_digest) "WAIT_PROFILE" "PROFILE_QUALIFICATION_REQUIRED"
    "ADD_PROTOCOL" 1 1 None 0 None 1 None None 0.
Definition wit_authority (s : ZktSourceCutover) : pyval :=
  cutover_material s wit_conn wit_epoch (PStr zeros64) (PStr zeros64) (PStr "boot").
Definition wit_cutover0 : ZktSourceCutover := mkCutover 2 3 5 4 "ZK1" "G3" 16 "" "authority".
Definition wit_cutover : ZktSourceCutover :=
  Eval vm_compute in mkCutover 2 3 5 4 "ZK1" "G3" 16 (hex (hmac_sha256 (chars "key") (dumps_ascii (wit_authority wit_cutover0)))) "authority".
Definition wit_step (w : ZktCustodyWork) : pyval :=
  match derive_layouts true sample_source_raw (p_layouts (_plan sample_source_raw "SOURCE_LEDGER")) [] with
  | Ok (layouts, recs) => step_value w (input_fingerprint w) 0 PNone None (set_layouts (_plan sample_source_raw "SOURCE_LEDGER") layouts) recs
  | Raise _ _ => PNone
  end.
Definition wit_step1 : pyval := Eval vm_compute in wit_step (wit_ledger 9 10).
Definition wit_step2 : pyval := Eval vm_compute in wit_step (wit_ledger 12 11).
Definition wit_decrypt (token : string) : res pyval :=
  Ok (if bool_decide (token = "authority") then wit_authority wit_cutover
      else if bool_decide (token = "first") then wit_step1 else wit_step2).
Definition wit_text (_ : option string) : res (option string) := Ok (Some (of_chars (b64encode sample_source_raw))).
Definition wit_evidence : list step_row := Eval vm_compute in
  [mkRow 1 9 INTERPRETATION_VERSION (input_fingerprint (wit_ledger 9 10)) 0 "UNQUALIFIED_FACTS" 1 0 None (digest wit_step1) "first";
   mkRow 2 12 INTERPRETATION_VERSION (input_fingerprint (wit_ledger 12 11)) 0 "UNQUALIFIED_FACTS" 1 0 None (digest wit_step2) "copy"].
Definition wit_ingest (c : Connector) (ev : AttendanceEventIn) : M (list string * list string) := λ x,
  let e := mkEvent (next_id ae_id (events (attendance x))) (in_event_uid ev) (c_id c) 7 (Some (in_terminal_serial ev)) (in_uid ev) (in_user_id ev)
    (in_device_event_time ev) (in_captured_at ev) (in_source ev) (Some (in_status ev)) (Some (in_punch ev)) (in_raw_event ev) "PENDING"
    "WAITING_FOR_SNAPSHOT" None false None None None false None "UNKNOWN" None None in
  (set_attendance (with_events (events (attendance x) ++ [e]) (attendance x)) x,
   Ok ([in_event_uid ev], [])).
Lemma wit_ingest_ok : Ingest wit_ingest.
Proof. constructor. intros c ev x x' r [= <- _]. eexists. split_and!; [done|by apply prefix_app_r|done|done]. Qed.

Definition wit_before : world :=
  mkWorld (mkDb [wit_epoch; wit_next_epoch] [wit_row 10 5; wit_row 11 6] [wit_alias1; wit_alias2] [] []
      [wit_ledger 9 10; wit_ledger 12 11] [])
    (mkSession wit_evidence [] 1 None) [wit_conn] empty_ledger [wit_cutover] [] [].
Definition wit_process (wid : Z) : world → world * res bool := process_source wit_decrypt wit_text true "key" 1000 wit_ingest wit_conn wid sample_source_raw.
Definition wit_first : world := Eval vm_compute in (wit_process 9 wit_before).1.
Definition wit_both : world := Eval vm_compute in (wit_process 12 wit_first).1.
Definition wit_bound (x : world) (a : ZktOccurrenceAlias) : res (option AttendanceEvent) := binding_event wit_decrypt wit_text true "key" x wit_conn a.

Definition wit_no_event : AttendanceEvent :=
  mkEvent 0 "" 0 0 None None "" (mkDT 2026 1 2 3 4 5 0 (Some 0)) (mkDT 2026 1 2 3 4 5 0 (Some 0)) "" None None PNone ""
    "" None false None None None false None "" None None.
Definition wit_event : AttendanceEvent := List.hd wit_no_event (events (attendance wit_first)).

Lemma wit_keyed x : aliases (tables x) = aliases (tables wit_before) → manifests (tables x) = manifests (tables wit_before) → keyed (tables x).
Proof.
  intros Ha Hm. constructor; [rewrite Hm|rewrite Ha; split_and!]; refine (bool_decide_unpack _ _); vm_compute; exact I.
Qed.
Lemma wit_first_bound : wit_bound wit_first wit_alias1 = Ok (Some wit_event).
Proof. vm_compute. reflexivity. Qed.
Lemma wit_both_aliases : aliases (tables wit_both) = [wit_alias1; wit_alias2].
Proof. vm_compute. reflexivity. Qed.
Lemma wit_both_bound a : a ∈ aliases (tables wit_both) → wit_bound wit_both a = Ok (Some wit_event).
Proof.
  rewrite wit_both_aliases. intros [-> |[-> |[]%not_elem_of_nil]%elem_of_cons]%elem_of_cons; vm_compute; reflexivity.
Qed.

Lemma process_source_once_witness :
  ∃ e, wit_bound wit_first wit_alias1 = Ok (Some e) ∧ ae_user_id e = "7" ∧
    ∃ x'', wit_process 9 wit_first = (x'', Ok true) ∧ length (events (attendance x'')) = 1%nat.
Proof.
  assert (E : wit_process 9 wit_before = (wit_first, Ok true)) by (vm_compute; reflexivity).
  destruct (process_source_once wit_decrypt wit_text true "key" 1000 wit_ingest (Hingest := wit_ingest_ok) wit_conn 9 sample_source_raw _ _
    (wit_keyed wit_before eq_refl eq_refl) E) as (_ & _ & _ & _ & _ & _ & _ & _ & _ & Hagain); [vm_compute; discriminate|].
  destruct (Hagain sample_source_raw) as (x'' & H1 & H2). exists wit_event. split_and!; [exact wit_first_bound|vm_compute; reflexivity|].
  exists x''. split; [exact H1|rewrite H2; vm_compute; reflexivity].
Defined.

Lemma wit_both_keyed : keyed (tables wit_both).
Proof. apply wit_keyed; vm_compute; reflexivity. Qed.
Lemma wit_both_elem : wit_alias1 ∈ aliases (tables wit_both) ∧ wit_alias2 ∈ aliases (tables wit_both).
Proof. rewrite wit_both_aliases. split; [left|right; left]. Qed.

Lemma binding_event_decodes_witness :
  ∃ t raw f, wit_text None = Ok (Some t) ∧ b64decode (chars t) = Some raw ∧ sha256_hex raw = wit_digest ∧ user_id f = Some (ae_user_id wit_event).
Proof.
  destruct (binding_event_decodes wit_decrypt wit_text true "key" wit_both wit_conn wit_alias2 wit_event
    wit_both_keyed (proj2 wit_both_elem) (wit_both_bound _ (proj2 wit_both_elem)))
    as (s & m & t & raw & f & root & _ & Ht & Hr & Hg & _ & Hu & _).
  exists t, raw, f. split_and!; [exact Ht|exact Hr|exact Hg|exact Hu].
Defined.

Lemma shared_event_exact_copies_witness :
  a_raw_digest wit_alias1 = a_raw_digest wit_alias2 ∧
  wit_bound wit_both wit_alias1 = wit_bound wit_both wit_alias2.
Proof.
  pose proof (wit_both_bound _ (proj1 wit_both_elem)) as H1. pose proof (wit_both_bound _ (proj2 wit_both_elem)) as H2. split.
  - pose proof (shared_event_exact_copies wit_decrypt wit_text true "key" wit_both wit_conn _ _ wit_event wit_both_keyed
      (proj1 wit_both_elem) (proj2 wit_both_elem) H1 H2) as H. exact (f_equal (λ p, p.1.1) H).
  - exact (eq_trans H1 (eq_sym H2)).
Defined.
