(* ===== verification/ManualGuard.v ===== *)
(** * The approval guard of attendance (attendance_manual_guard.py)

    An event that has ever been held for identity needs an approval before it can be
    delivered or confirmed. [before_flush] is the session hook that applies the
    requirement to every row a transaction changed: it runs before the rows reach
    the database, whichever operation changed them. *)
From S2P Require Import Prelude PyText PyJson Calendar QueueEvidence Custody CustodyWork.
Open Scope string_scope.
Open Scope list_scope.
Open Scope Z_scope.

(** ** Which events need an approval *)
Definition HELD : list string := ["BLOCKED_IDENTITY"; "QUARANTINED_IDENTITY_REUSE"; "WAITING_FOR_SNAPSHOT"].
Definition held (e : AttendanceEvent) : bool := bool_decide (ae_ords_status e ∈ HELD).

Definition requires_approval (e : AttendanceEvent) : bool :=
  if bool_decide (ae_identity_resolution_status e = "RESOLVED_SYNCED_CNIC") && bool_decide (ae_identity_repair_reason e = Some "VERIFIED_SYNCED_CNIC")
     && negb (held e) && nonempty (ae_cnic_lookup_hash e) && bool_decide (ae_clock_quality e = "OK") then false
  else ae_manual_release_required e || held e.

(** ** Approvals *)
(** The last pending decision, or the newest stored one. *)
Definition decision_for (ap : approvals) (i : Z) : option AttendanceForceReleaseDecision :=
  match last (List.filter (λ d, fr_attendance_event_id d =? i) (new_releases ap)) with
  | Some d => Some d
  | None =>
      if i =? 0 then None
      else head (sort_by (λ d, - fr_id d) (List.filter (λ d, fr_attendance_event_id d =? i) (releases ap)))
  end.

Definition is_system (actor : string) : bool := bool_decide (take 7 (chars actor) = chars "system:").

Definition delivery_authorized (ap : approvals) (e : AttendanceEvent) : bool :=
  if negb (requires_approval e) then true
  else if bool_decide (is_Some (decision_for ap (ae_id e))) then true
  else if existsb (λ r, (sr_attendance_event_id r =? ae_id e) && negb (is_system (sr_actor r))) (new_safe_repairs ap) then true
  else if negb (ae_id e =? 0) && existsb (λ r, (sr_attendance_event_id r =? ae_id e) && negb (is_system (sr_actor r))) (safe_repairs ap) then true
  else existsb (λ r, (ri_attendance_event_id r =? ae_id e) && bool_decide (is_Some (ri_job_approved_at r))) (repair_items ap).

(** [zkt_content_event_ids] is a set the caller may have loaded for many events. *)
Definition generic_confirmation_allowed (l : ledger) (zkt_content_event_ids : option (list Z)) (e : AttendanceEvent) : bool :=
  let requires_content :=
    match zkt_content_event_ids with
    | Some ids => bool_decide (ae_id e ∈ ids)
    | None => existsb (λ i, oi_attendance_event_id i =? ae_id e) (intents l)
    end in
  if requires_content then false
  else if negb (requires_approval e) then true
  else delivery_authorized (approved l) e && bool_decide (decision_for (approved l) (ae_id e) = None).

(** ** retain_manual_approval_requirement *)
Definition DELIVERING : list string := ["PENDING"; "IN_FLIGHT"; "FAILED_RETRYABLE"; "RETRYING"; "ACKED"; "ACKED_CHECK"].

Definition set_release_required (b : bool) (e : AttendanceEvent) : AttendanceEvent :=
  mkEvent (ae_id e) (ae_event_uid e) (ae_connector_id e) (ae_zkt_device_id e) (ae_device_serial e) (ae_uid e) (ae_user_id e) (ae_device_event_time e)
    (ae_captured_at e) (ae_source e) (ae_status e) (ae_punch e) (ae_raw_event e) (ae_ords_status e) (ae_identity_resolution_status e)
    (ae_identity_repair_reason e) b (ae_cnic_lookup_hash e) (ae_cnic_encrypted e) (ae_display_name e) (ae_raw_punch e) (ae_clock_drift_seconds e)
    (ae_clock_quality e) (ae_oracle_confirmed_at e) (ae_oracle_confirmation_path e).
(** [event.ords_status, oracle_confirmed_at, oracle_confirmation_path = ...] *)
Definition set_delivery (status : string) (confirmed_at : option Z) (path : option string) (e : AttendanceEvent) : AttendanceEvent :=
  mkEvent (ae_id e) (ae_event_uid e) (ae_connector_id e) (ae_zkt_device_id e) (ae_device_serial e) (ae_uid e) (ae_user_id e) (ae_device_event_time e)
    (ae_captured_at e) (ae_source e) (ae_status e) (ae_punch e) (ae_raw_event e) status (ae_identity_resolution_status e)
    (ae_identity_repair_reason e) (ae_manual_release_required e) (ae_cnic_lookup_hash e) (ae_cnic_encrypted e) (ae_display_name e) (ae_raw_punch e)
    (ae_clock_drift_seconds e) (ae_clock_quality e) confirmed_at path.
Definition set_ords_status (status : string) (e : AttendanceEvent) : AttendanceEvent :=
  set_delivery status (ae_oracle_confirmed_at e) (ae_oracle_confirmation_path e) e.
(** The outbox columns an operation assigns; the row keeps its keys. *)
Definition set_outbox (status : string) (next_attempt_at acknowledged_at last_http_status : option Z) (last_error : option string) (o : OrdsOutbox) : OrdsOutbox :=
  mkOutbox (ob_id o) (ob_attendance_event_id o) (ob_delivery_type o) status (ob_payload_hash o) (ob_attempt_count o) next_attempt_at
    (ob_last_attempt_at o) acknowledged_at last_http_status last_error (ob_created_at o).

(** [history.deleted]: the value the row was loaded with, when it changed. *)
Definition deleted {A} `{EqDecision A} (old : option AttendanceEvent) (col : AttendanceEvent → A) (e : AttendanceEvent) : list A :=
  match old with Some o => if bool_decide (col o = col e) then [] else [col o] | None => [] end.

Definition retain_event (ap : approvals) (old : option AttendanceEvent) (e : AttendanceEvent) : AttendanceEvent :=
  let prior_status := deleted old ae_ords_status e in
  let prior_required := deleted old ae_manual_release_required e in
  let e :=
    if negb (requires_approval e) then set_release_required false e
    else if held e || existsb (λ s, bool_decide (s ∈ HELD)) prior_status || existsb (λ b, b) prior_required then set_release_required true e
    else e in
  if ae_manual_release_required e && bool_decide (ae_ords_status e ∈ DELIVERING) && negb (delivery_authorized ap e)
  then set_delivery "BLOCKED_IDENTITY" None None e else e.

Definition retain_outbox (ap : approvals) (evs : list AttendanceEvent) (o : OrdsOutbox) : OrdsOutbox :=
  if negb (bool_decide (ob_status o ∈ DELIVERING)) then o
  else
    match (i ← ob_attendance_event_id o; if i =? 0 then None else row_by ae_id i evs) with
    | Some e =>
        if delivery_authorized ap e then o
        else set_outbox "BLOCKED_IDENTITY" None None (ob_last_http_status o) (Some "MANUAL_APPROVAL_REQUIRED") o
    | None => o
    end.

(** The hook on the rows a transaction added or changed: [es] and [os] are their
    ids, [old] the rows as they were loaded. *)
Definition before_flush (old : ledger) (es os : list Z) (l : ledger) : ledger :=
  let evs := map (λ e, if bool_decide (ae_id e ∈ es) then retain_event (approved l) (row_by ae_id (ae_id e) (events old)) e else e) (events l) in
  with_outboxes (map (λ o, if bool_decide (ob_id o ∈ os) then retain_outbox (approved l) evs o else o) (outboxes l)) (with_events evs l).

(** ** What the hook leaves behind *)
Lemma set_release_required_id e b : ae_manual_release_required e = b → set_release_required b e = e.
Proof. intros <-. by destruct e. Qed.

Lemma requires_not_held e : requires_approval e = true → held e = false → ae_manual_release_required e = true.
Proof. unfold requires_approval. intros H Hh. destruct (_ && _); [done|]. by rewrite Hh, orb_false_r in H. Qed.

Lemma requires_set e : requires_approval (set_release_required (requires_approval e) e) = requires_approval e.
Proof.
  destruct (requires_approval e) eqn:E; unfold requires_approval in *; unfold held in *; simpl.
  - destruct (_ && _); [done|]. done.
  - destruct (_ && _); [done|]. by apply orb_false_iff in E as [_ ->].
Qed.

(** The flag becomes the requirement itself: the loaded values the hook looks at
    never decide. *)
Lemma retain_event_eq ap old e :
  retain_event ap old e =
    let e' := set_release_required (requires_approval e) e in
    if requires_approval e && bool_decide (ae_ords_status e ∈ DELIVERING) && negb (delivery_authorized ap e')
    then set_delivery "BLOCKED_IDENTITY" None None e' else e'.
Proof.
  unfold retain_event. destruct (requires_approval e) eqn:E; simpl; [|done].
  assert ((if held e || existsb (λ s, bool_decide (s ∈ HELD)) (deleted old ae_ords_status e)
              || existsb (λ b, b) (deleted old ae_manual_release_required e) then set_release_required true e else e)
          = set_release_required true e) as ->.
  { destruct (held e) eqn:Hh; simpl; [done|]. rewrite (set_release_required_id e true) by by apply requires_not_held. by destruct (_ || _). }
  done.
Qed.

Lemma retain_event_id ap old e : ae_id (retain_event ap old e) = ae_id e.
Proof. rewrite retain_event_eq. cbv zeta. by destruct (_ && _). Qed.

Lemma authorized_requires ap e : delivery_authorized ap e = false → requires_approval e = true.
Proof. unfold delivery_authorized. by destruct (requires_approval e). Qed.

Lemma retain_event_authorized ap old e :
  ae_ords_status (retain_event ap old e) ∈ DELIVERING → delivery_authorized ap (retain_event ap old e) = true.
Proof.
  rewrite retain_event_eq. cbv zeta. set (e' := set_release_required (requires_approval e) e).
  destruct (requires_approval e && _ && _) eqn:E.
  - simpl. intros H. exfalso. revert H. unfold DELIVERING. set_solver.
  - intros Hs. destruct (delivery_authorized ap e') eqn:Ha; [done|]. apply authorized_requires in Ha as Hr.
    unfold e' in Hr. rewrite requires_set in Hr. rewrite Hr in E. simpl in E. rewrite andb_true_r in E. by rewrite bool_decide_eq_false in E.
Qed.

Lemma blocked_stays ap e : retain_event ap None (set_delivery "BLOCKED_IDENTITY" None None (set_release_required true e))
  = set_delivery "BLOCKED_IDENTITY" None None (set_release_required true e).
Proof.
  rewrite retain_event_eq. cbv zeta. set (b := set_delivery _ _ _ _).
  assert (held b = true) as Hh by by vm_compute.
  assert (requires_approval b = true) as ->.
  { unfold requires_approval. rewrite Hh. destruct (_ && _) eqn:E; [|apply orb_true_r]. exfalso. bool_prop. congruence. }
  rewrite set_release_required_id by done. by replace (bool_decide (ae_ords_status b ∈ DELIVERING)) with false by by vm_compute.
Qed.

Lemma retain_event_twice ap old old' e : retain_event ap old' (retain_event ap old e) = retain_event ap old e.
Proof.
  rewrite (retain_event_eq ap old e). cbv zeta. destruct (requires_approval e && _ && _) eqn:E.
  - bool_prop. rewrite H. rewrite retain_event_eq, <- (retain_event_eq ap None). apply blocked_stays.
  - rewrite retain_event_eq. cbv zeta. rewrite requires_set. simpl ae_ords_status.
    rewrite set_release_required_id by done. by rewrite E.
Qed.

Lemma retain_outbox_id ap evs o : ob_id (retain_outbox ap evs o) = ob_id o.
Proof. unfold retain_outbox. by repeat case_match. Qed.

Lemma retain_outbox_twice ap evs o : retain_outbox ap evs (retain_outbox ap evs o) = retain_outbox ap evs o.
Proof.
  unfold retain_outbox at 2 3. destruct (negb _) eqn:E; [unfold retain_outbox; by rewrite E|].
  destruct (_ ≫= _) as [e|] eqn:E1; [|unfold retain_outbox; by rewrite E, E1].
  destruct (delivery_authorized _ _) eqn:E2; [unfold retain_outbox; by rewrite E, E1, E2|]. done.
Qed.

(** Approval follows the event: the delivery columns only matter while it is held. *)
Lemma authorized_set_delivery ap e status at_ path :
  status ∉ HELD → delivery_authorized ap e = true → delivery_authorized ap (set_delivery status at_ path e) = true.
Proof.
  intros Hs Ha. destruct (delivery_authorized ap (set_delivery status at_ path e)) eqn:E; [done|].
  apply authorized_requires in E as Hr. assert (requires_approval e = true) as Hre.
  { unfold requires_approval in Hr |- *. unfold held in *. simpl in Hr. rewrite (bool_decide_false (status ∈ HELD)) in Hr by done. simpl in Hr.
    destruct (bool_decide (ae_identity_resolution_status e = _)), (bool_decide (ae_identity_repair_reason e = _)), (nonempty _), (bool_decide (ae_clock_quality e = _));
      simpl in *; try done; rewrite ?orb_false_r in Hr; rewrite Hr; by destruct (bool_decide _). }
  unfold delivery_authorized in E, Ha. rewrite Hr in E. rewrite Hre in Ha. simpl in E, Ha. congruence.
Qed.

Lemma authorized_set_required ap e : delivery_authorized ap e = true → delivery_authorized ap (set_release_required (requires_approval e) e) = true.
Proof. unfold delivery_authorized. rewrite requires_set. done. Qed.

(** The hook leaves an approved event alone, but for the flag. *)
Lemma retain_event_approved ap old e : delivery_authorized ap e = true → retain_event ap old e = set_release_required (requires_approval e) e.
Proof. intros Ha. rewrite retain_event_eq. cbv zeta. by rewrite authorized_set_required, andb_false_r by done. Qed.

(** *** On the whole session *)
Definition flush_event (old : ledger) (ap : approvals) (es : list Z) (e : AttendanceEvent) : AttendanceEvent :=
  if bool_decide (ae_id e ∈ es) then retain_event ap (row_by ae_id (ae_id e) (events old)) e else e.
Definition flush_outbox (ap : approvals) (evs : list AttendanceEvent) (os : list Z) (o : OrdsOutbox) : OrdsOutbox :=
  if bool_decide (ob_id o ∈ os) then retain_outbox ap evs o else o.

Lemma before_flush_eq old es os l :
  before_flush old es os l =
    let evs := map (flush_event old (approved l) es) (events l) in
    with_outboxes (map (flush_outbox (approved l) evs os) (outboxes l)) (with_events evs l).
Proof. done. Qed.

Lemma flush_event_id old ap es e : ae_id (flush_event old ap es e) = ae_id e.
Proof. unfold flush_event. case_bool_decide; [apply retain_event_id|done]. Qed.
Lemma flush_outbox_id ap evs os o : ob_id (flush_outbox ap evs os o) = ob_id o.
Proof. unfold flush_outbox. case_bool_decide; [apply retain_outbox_id|done]. Qed.

Lemma flush_event_history old old' ap es e : flush_event old ap es e = flush_event old' ap es e.
Proof. unfold flush_event. case_bool_decide; [by rewrite !retain_event_eq|done]. Qed.
Lemma flush_event_twice old old' ap es e : flush_event old' ap es (flush_event old ap es e) = flush_event old ap es e.
Proof.
  unfold flush_event at 1. rewrite flush_event_id. unfold flush_event.
  destruct (bool_decide (ae_id e ∈ es)); [apply retain_event_twice|done].
Qed.
Lemma flush_outbox_twice ap evs os o : flush_outbox ap evs os (flush_outbox ap evs os o) = flush_outbox ap evs os o.
Proof.
  unfold flush_outbox at 1. rewrite flush_outbox_id. unfold flush_outbox.
  destruct (bool_decide (ob_id o ∈ os)); [apply retain_outbox_twice|done].
Qed.

(** C20: After a flush no row the transaction changed is queued, in flight, retrying or
    confirmed unless the event needs no approval or has one: neither a changed
    event, nor a changed outbox row of any event. *)
Theorem flush_holds_unapproved old es os l :
  let l' := before_flush old es os l in
  (∀ e, e ∈ events l' → ae_id e ∈ es → ae_ords_status e ∈ DELIVERING → delivery_authorized (approved l') e = true) ∧
  (∀ o i e, o ∈ outboxes l' → ob_id o ∈ os → ob_status o ∈ DELIVERING → ob_attendance_event_id o = Some i → i ≠ 0 →
     row_by ae_id i (events l') = Some e → delivery_authorized (approved l') e = true).
Proof.
  cbv zeta. rewrite before_flush_eq. simpl. split.
  - intros e' (e & -> & _)%list_elem_of_fmap. rewrite flush_event_id. intros Hin. unfold flush_event. rewrite bool_decide_true by done.
    apply retain_event_authorized.
  - intros o' i e (o & -> & _)%list_elem_of_fmap. rewrite flush_outbox_id. intros Hin. unfold flush_outbox. rewrite bool_decide_true by done.
    unfold retain_outbox. case_bool_decide as Hd; simpl; [|done].
    destruct (_ ≫= _) as [e0|] eqn:E; simpl in E.
    + destruct (delivery_authorized _ e0) eqn:Ha.
      * intros _ Hi Hne Hrow. rewrite Hi in E. simpl in E. rewrite (proj2 (Z.eqb_neq i 0) Hne) in E. congruence.
      * simpl. intros H. exfalso. revert H. unfold DELIVERING. set_solver.
    + intros _ Hi Hne Hrow. rewrite Hi in E. simpl in E. rewrite (proj2 (Z.eqb_neq i 0) Hne) in E. congruence.
Qed.

(** C29: The hook is a function of the session alone: it gives the same rows whatever
    values the rows were loaded with, so the tests on an earlier held status and
    on an earlier requirement decide nothing; and flushing again changes nothing. *)
Theorem flush_ignores_history old old' es os l :
  before_flush old es os l = before_flush old' es os l ∧
  before_flush old' es os (before_flush old es os l) = before_flush old es os l.
Proof.
  assert (Hh : map (flush_event old (approved l) es) (events l) = map (flush_event old' (approved l) es) (events l)).
  { apply map_ext. intros e. apply flush_event_history. }
  rewrite !before_flush_eq. cbv zeta. simpl. split; [by rewrite Hh|].
  assert (He : map (flush_event old' (approved l) es) (map (flush_event old (approved l) es) (events l)) = map (flush_event old (approved l) es) (events l)).
  { rewrite map_map. apply map_ext. intros e. apply flush_event_twice. }
  unfold with_outboxes, with_events. simpl. rewrite He. f_equal. rewrite map_map. apply map_ext. intros o. apply flush_outbox_twice.
Qed.

(** An event that was held and still needs its approval; the transaction moves it to
    PENDING and clears the requirement in one step. *)
Definition sample_event (status : string) (required : bool) : AttendanceEvent :=
  mkEvent 1 "u" 3 7 (Some "ZK1") None "7" (mkDT 2026 1 2 3 4 5 0 (Some 0)) (mkDT 2026 1 2 3 4 6 0 (Some 0)) "LIVE" None None PNone status
    "WAITING_FOR_SNAPSHOT" None required None None None false None "OK" None None.
Definition sample_ledger (e : AttendanceEvent) : ledger := with_events [e] empty_ledger.

Example history_not_consulted :
  events (before_flush (sample_ledger (sample_event "BLOCKED_IDENTITY" true)) [1] [] (sample_ledger (sample_event "PENDING" false)))
    = [sample_event "PENDING" false] ∧
  events (before_flush (sample_ledger (sample_event "BLOCKED_IDENTITY" true)) [1] [] (sample_ledger (sample_event "PENDING" true)))
    = [sample_event "BLOCKED_IDENTITY" true].
Proof. split; vm_compute; reflexivity. Qed.
