(* ===== verification/OracleDelivery.v ===== *)
(** * Delivery of source attendance to Oracle (zkt_oracle_delivery.py)

    A row with a registered intent is delivered by its own route: the payload is
    frozen under a keyed digest when the row is first claimed, Oracle is asked for
    the record before and after the POST, and only a reply bound to the frozen
    payload completes the row, in the transaction that stores its receipt. Every
    operation is one transaction: its rows pass the approval hook when it commits.

    Parameters: Fernet, the clock, [datetime.fromisoformat], the replies of Oracle,
    and two checks of the identity modules, [superseded_by_automatic_release]
    (attendance_direct_ords.py) and [delivery_proof_valid] (attendance_safe_repair.py). *)
From S2P Require Import Prelude PyText Hashes PyJson Calendar ZktPacket ZktDecode OccurrenceMatch QueueEvidence Custody DerivedEvidence CustodyWork SourceAttendance ManualGuard.
Open Scope string_scope.
Open Scope list_scope.
Open Scope Z_scope.

Definition TOKEN : string → bool := HEX64.
Definition CONFLICTS : list string := ["MISMATCH"; "IMMUTABLE_MISMATCH"; "CROSS_DEVICE_UID_COLLISION"; "CHANGED"; "IDENTITY_HOLD"; "DOWNSTREAM_HOLD"].
Definition PROJECTION_FIELDS : list string :=
  ["event_uid"; "zone_id"; "device_id"; "device_serial"; "user_id"; "employee_name"; "cnic"; "timestamp"; "raw_punch"; "capturetype"; "trust_status"].

(** ** The payload of an event (service.py, attendance_recovery.py) *)
Definition ORACLE_ALLOWED_CAPTURE_TYPES : list string := ["LIVE"; "LIVE_POLL"; "DUMP_RECONNECT"; "DUMP_STARTUP"; "MANUAL_REPROCESS"].
Definition CONNECTOR_OWNED_CAPTURE_SOURCES : list string := ["DUMP_STARTUP"; "DUMP_RECONNECT"; "RECONCILE_15M"].
Definition VERIFIED_IDENTITY_RESOLUTION_STATUSES : list string :=
  ["MANUALLY_APPROVED_CURRENT_TERMINAL"; "RESOLVED_RETAINED_IDENTITY"; "RESOLVED_DIRECTORY_EVIDENCE"; "RESOLVED_DIRECTORY_EVENT_GROUP";
   "RESOLVED_CURRENT_IDENTITY_EVIDENCE"; "RESOLVED_HISTORICAL_ALIAS"; "RESOLVED_TOMBSTONE"; "RESOLVED_ATTENDANCE_REPAIR"; "RESOLVED_HIKVISION_NAME";
   "RESOLVED"; "RESOLVED_CURRENT_SNAPSHOT"; "RESOLVED_SYNCED_CNIC"].

(** [t.isoformat(...).replace("+00:00", "Z")] of a value in UTC *)
Definition utc_z (t : datetime) : string :=
  isoformat (mkDT (year t) (month t) (day t) (hour t) (minute t) (second t) (microsecond t) None) +:+ "Z".
Definition utc_z_microseconds (t : datetime) : string :=
  isoformat (mkDT (year t) (month t) (day t) (hour t) (minute t) (second t) 0 None) +:+ "." +:+ pad_left 6 (py_str (microsecond t)) +:+ "Z".

Definition MIN_PLAUSIBLE_ATTENDANCE_TIME : datetime := mkDT 2010 1 1 0 0 0 0 (Some 0).
Definition MAX_DEVICE_CLOCK_LEAD : Z := 86400 * 1000000.
Definition utc_instant (t : datetime) : Z := default 0 (instant (ensure_utc t)).
Definition attendance_device_time_is_plausible (device_event_time captured_at : datetime) : bool :=
  (utc_instant MIN_PLAUSIBLE_ATTENDANCE_TIME <=? utc_instant device_event_time)
  && (utc_instant device_event_time <=? utc_instant captured_at + MAX_DEVICE_CLOCK_LEAD).

Definition trusted_capture_terminal_serial (t : Terminal) (source : string) (supplied_serial : option string) (captured_at : datetime)
    : option string * option string :=
  if nonempty supplied_serial then (supplied_serial, Some "PAYLOAD")
  else if negb (bool_decide (source ∈ CONNECTOR_OWNED_CAPTURE_SOURCES)) then (None, None)
  else if nonempty (t_serial t) && bool_decide (t_binding_state t = "CONFIRMED") && bool_decide (t_confirmed_serial t = t_serial t)
          && match t_serial_confirmed_at t with Some at_ => utc_instant at_ <=? utc_instant captured_at | None => false end
  then (t_serial t, Some "VERIFIED_CONNECTOR_BINDING") else (None, None).

Definition _terminal_provenance_verified (e : AttendanceEvent) (c : Connector) : bool :=
  match c_terminal c with
  | None => false
  | Some t =>
      if negb (nonempty (t_confirmed_serial t)) then false
      else if negb (bool_decide (t_serial t = t_confirmed_serial t)) then false
      else
        let serial := (trusted_capture_terminal_serial t (ae_source e) (ae_device_serial e) (ae_captured_at e)).1 in
        nonempty serial && bool_decide (serial = t_confirmed_serial t)
  end.

Definition capture_type (e : AttendanceEvent) : string :=
  if bool_decide (ae_source e = "RECONCILE_15M") then "DUMP_RECONNECT"
  else if bool_decide (ae_source e ∈ ORACLE_ALLOWED_CAPTURE_TYPES) then ae_source e else "MANUAL_REPROCESS".
Definition trust_status (e : AttendanceEvent) : string :=
  if bool_decide (ae_clock_quality e = "OK") then
    if bool_decide (capture_type e ∈ ["LIVE"; "LIVE_POLL"]) then "TRUSTED_LIVE" else "BACKFILL_ACCEPTED_CLOCK_OK"
  else "SUSPECT_DEVICE_TIME".
Definition oracle_payload (c : Connector) (t : Terminal) (e : AttendanceEvent) (cnic : string) : pyval :=
  PDict [("event_uid", PStr (ae_event_uid e)); ("zone_id", PStr (c_zone_id c)); ("zone_name", PStr (c_zone_name c)); ("device_id", PStr (c_device_id c));
    ("device_serial", PStr (match t_serial t with Some s => if bool_decide (s = "") then "unknown" else s | None => "unknown" end));
    ("user_id", PStr (ae_user_id e)); ("employee_name", opt_str (ae_display_name e)); ("cnic", PStr cnic);
    ("timestamp", PStr (utc_z (ensure_utc (ae_device_event_time e)))); ("status", opt_str (ae_status e)); ("punch", opt_str (ae_punch e));
    ("raw_punch", PStr (if ae_raw_punch e then "T" else "F")); ("capturetype", PStr (capture_type e)); ("trust_status", PStr (trust_status e));
    ("clockdiff", match ae_clock_drift_seconds e with Some r => PFloat r | None => PNone end)].

(** ** Decimals: [Decimal(str(x)).quantize(Decimal("0.001"), ROUND_HALF_UP)] *)
Fixpoint cut (p : byte → bool) (l : bytes) : bytes * option bytes :=
  match l with [] => ([], None) | b :: l' => if p b then ([], Some l') else let '(h, t) := cut p l' in (b :: h, t) end.
Definition signed (l : bytes) : bool * bytes :=
  match l with b :: l' => if bool_decide (b = x2d) then (true, l') else if bool_decide (b = x2b) then (false, l') else (false, l) | [] => (false, l) end.

(** A finite decimal: sign, coefficient and exponent. *)
Definition decimal (text : string) : option (bool * Z * Z) :=
  let '(neg, body) := signed (chars text) in
  let '(mantissa, ex) := cut (λ b, bool_decide (b = x65) || bool_decide (b = x45)) body in
  let '(ip, fp) := cut (λ b, bool_decide (b = x2e)) mantissa in
  let fp := default [] fp in
  c ← digits_value (ip ++ fp);
  e ← match ex with None => Some 0 | Some l => let '(n, l) := signed l in z ← digits_value l; Some (if (n : bool) then - z else z) end;
  Some (neg, c, e - zlen fp).

(** Nearest multiple of [d], halves away from zero. *)
Definition half_up (c d : Z) : Z := (2 * c + d) / (2 * d).
Definition thousandths (c e : Z) : Z := if -3 <=? e then c * 10 ^ (e + 3) else half_up c (10 ^ (-3 - e)).
Definition format_3f (neg : bool) (t : Z) : string :=
  (if neg then "-" else "") +:+ py_str (t / 1000) +:+ "." +:+ pad_left 3 (py_str (t mod 1000)).
(** NUMBER(10,3) as text; [None] for what the code refuses. *)
Definition clock_number (v : pyval) : option string :=
  match v with
  | PBool _ => None
  | _ =>
      '(neg, c, e) ← decimal (py_str_val v);
      if 10 ^ 10 <=? thousandths c e then None else Some (format_3f neg (thousandths c e))
  end.

(** ** Claims, replies and proofs *)
Record MembershipProof := mkProof { mp_event_uid : string; mp_payload_digest : string; mp_request_digest : string; mp_response_digest : string }.
Inductive token := NoToken | ContentToken (t : string) | Membership (p : MembershipProof).
(** A claim of the worker: outbox id, payload, connector id, was_retry. *)
Record worker_claim := mkWorkerClaim { wc_row_id : Z; wc_payload : pyval; wc_connector_id : Z; wc_was_retry : bool }.
Record claim := mkClaim { cl_row_id : Z; cl_intent_id : Z; cl_attempt : Z; cl_payload_digest : string; cl_payload : pyval; cl_check : pyval }.

(** ** Assignments to rows *)
Definition _hold_row (reason : string) (o : OrdsOutbox) : OrdsOutbox :=
  set_outbox "QUARANTINED_IDENTITY_CONFLICT" None None (ob_last_http_status o) (Some reason) o.
Definition _hold_event : AttendanceEvent → AttendanceEvent := set_delivery "QUARANTINED_IDENTITY_CONFLICT" None None.
Definition retry_seconds (attempt_count : Z) : Z := Z.min 600 (2 ^ Z.min attempt_count 9).
Definition _retry_row (utc_now : Z) (reason : string) (o : OrdsOutbox) : OrdsOutbox :=
  set_outbox "FAILED_RETRYABLE" (Some (utc_now + retry_seconds (ob_attempt_count o) * 1000000)) None (ob_last_http_status o) (Some reason) o.
Definition _retry_event : AttendanceEvent → AttendanceEvent := set_delivery "FAILED_RETRYABLE" None None.
Definition ack_row (utc_now : Z) : OrdsOutbox → OrdsOutbox := set_outbox "ACKED_CHECK" None (Some utc_now) (Some 200) None.
Definition ack_event (utc_now : Z) (path : string) : AttendanceEvent → AttendanceEvent := set_delivery "ACKED_CHECK" (Some utc_now) (Some path).

(** A row and its event assigned together. *)
Definition assign (row event : Z) (f : OrdsOutbox → OrdsOutbox) (g : AttendanceEvent → AttendanceEvent) (l : ledger) : ledger :=
  with_outboxes (update_by ob_id row f (outboxes l)) (with_events (update_by ae_id event g (events l)) l).
Definition _hold (row event : Z) (reason : string) : ledger → ledger := assign row event (_hold_row reason) _hold_event.
Definition _retry (utc_now row event : Z) (reason : string) : ledger → ledger := assign row event (_retry_row utc_now reason) _retry_event.
Definition PENDING_REASON : string := "ZKT_ORACLE_CONTENT_VERIFICATION_PENDING".

(** Columns of an intent that are written after its registration. *)
Definition freeze (payload_digest protected_payload protected_check : string) (utc_now : Z) (i : ZktOracleIntent) : ZktOracleIntent :=
  mkIntent (oi_id i) (oi_outbox_id i) (oi_attendance_event_id i) (oi_occurrence_alias_id i) (oi_connector_id i) (oi_verification_scope i)
    (Some payload_digest) (Some protected_payload) (Some protected_check) (Some utc_now) (oi_post_attempts i) (oi_last_post_at i).
Definition count_post (utc_now : Z) (i : ZktOracleIntent) : ZktOracleIntent :=
  mkIntent (oi_id i) (oi_outbox_id i) (oi_attendance_event_id i) (oi_occurrence_alias_id i) (oi_connector_id i) (oi_verification_scope i)
    (oi_payload_digest i) (oi_protected_payload i) (oi_protected_check i) (oi_prepared_at i) (oi_post_attempts i + 1) (Some utc_now).
Definition put_intent (i : Z) (f : ZktOracleIntent → ZktOracleIntent) (l : ledger) : ledger := with_intents (update_by oi_id i f (intents l)) l.

(** ** Membership replies (worker.py) *)
Definition event_uid_is_valid (v : pyval) : bool := match v with PStr s => HEX64 s | _ => false end.
Definition ords_membership_missing (status : option Z) (body : pyval) (requested : gset string) : option (gset string) :=
  if negb (bool_decide (status = Some 200)) || negb (is_dict body) || negb (is_true (get "success" body)) then None
  else
    match get "missing_event_uids" body with
    | PList missing =>
        if existsb (λ v, negb (event_uid_is_valid v)) missing then None
        else
          let missing_set : gset string := list_to_set (omap as_str missing) in
          if negb (bool_decide (size missing_set = length missing)) || negb (bool_decide (missing_set ⊆ requested)) then None
          else if negb (py_eq (get "received_count" body) (PInt (Z.of_nat (size requested)))) then None
          else if negb (py_eq (get "missing_count" body) (PInt (Z.of_nat (size missing_set)))) then None
          else if negb (py_eq (get "existing_count" body) (PInt (Z.of_nat (size requested) - Z.of_nat (size missing_set)))) then None
          else Some missing_set
    | _ => None
    end.

(** A reply over HTTP: no reply, or a status and the JSON of the body if it parses. *)
Definition http_reply : Type := option (Z * option pyval).
Definition _membership_request (configured : bool) (reply : http_reply) : option pyval :=
  if negb configured then None
  else match reply with Some (status, body) => if status =? 200 then body else None | None => None end.

(** What the operations call and do not define: Fernet and its key, the lookup key of
    the keyed digests, Python's ISO parser, and two checks of the identity modules. *)
Class Platform := {
  decrypt_json : string → res pyval;
  encrypt_json : pyval → res string;
  decrypt_text : option string → res (option string);
  decrypt_cnic : option string → res (option string);
  pii_fernet_key : bool;
  pii_lookup_key : string;
  fromisoformat : string → option datetime;
  superseded_by_automatic_release : world → AttendanceEvent → option AttendanceForceReleaseDecision → res bool;
  delivery_proof_valid : world → AttendanceEvent → Connector → res bool }.

Section delivery.
Context {platform : Platform}.

Abbreviation protected_digest := (_protected_digest pii_lookup_key).
Abbreviation attendance_id := (occurrence_attendance_id (binding_event_id decrypt_json decrypt_text pii_fernet_key pii_lookup_key)).
Abbreviation occurrence_bound := (_occurrence_bound decrypt_json decrypt_text pii_fernet_key pii_lookup_key).

(** [value[key]] *)
Definition item (k : string) (v : pyval) : res pyval :=
  match v with
  | PDict d => match assoc k d with Some w => Ok w | None => Raise KeyError k end
  | _ => Raise TypeError k
  end.

Definition unrepresentable {A} : res A := Raise EvidenceChanged "ZKT_ORACLE_PROJECTION_UNREPRESENTABLE".
Definition projected_timestamp (v : pyval) : res pyval :=
  match v with
  | PStr s =>
      match fromisoformat (replace_z s) with
      | Some stamp => if bool_decide (utcoffset stamp = None) then unrepresentable else Ok (PStr (utc_z_microseconds (to_utc stamp)))
      | None => unrepresentable
      end
  | _ => Raise AttributeError "replace"
  end.
Definition projected_clock (v : pyval) : res pyval :=
  match v with PNone => Ok PNone | _ => match clock_number v with Some s => Ok (PStr s) | None => unrepresentable end end.

Definition projection_check (payload : pyval) : res pyval :=
  fields ← mapR (λ k, v ← item k payload; Ok (k, v)) PROJECTION_FIELDS;
  timestamp ← item "timestamp" payload;
  timestamp ← projected_timestamp timestamp;
  drift ← item "clockdiff" payload;
  drift ← projected_clock drift;
  request_digest ← protected_digest payload;
  Ok (PDict [("contract_version", PStr "2"); ("verification_scope", PStr VERIFICATION_SCOPE); ("request_digest", PStr request_digest);
             ("projection", PDict (assoc_set "clockdiff" drift (assoc_set "timestamp" timestamp fields)))]).

Definition verification_check (payload : pyval) (scope : string) : res pyval :=
  if bool_decide (scope = VERIFICATION_SCOPE) then projection_check payload
  else if bool_decide (scope = MEMBERSHIP_SCOPE) then
    request_digest ← protected_digest payload;
    uid ← item "event_uid" payload;
    Ok (PDict [("contract_version", PStr "1"); ("verification_scope", PStr MEMBERSHIP_SCOPE); ("request_digest", PStr request_digest);
               ("event_uids", PList [uid])])
  else Raise EvidenceChanged "ZKT_ORACLE_VERIFICATION_SCOPE_UNKNOWN".

(** ** The evidence an intent rests on, as it is now *)
Definition require (b : bool) : res () := if b then Ok () else Raise EvidenceChanged "ZKT_ORACLE_CURRENT_EVIDENCE_CHANGED".
Definition event_at (i : Z) (x : world) : option AttendanceEvent := row_by ae_id i (events (attendance x)).
Definition alias_at (i : Z) (d : db) : option ZktOccurrenceAlias := row_by a_id i (aliases d).

(** The tests of [_current], left to right. *)
Definition current_guards (x : world) (i : ZktOracleIntent) (row : OrdsOutbox) (e : AttendanceEvent) (c : Connector) (a : ZktOccurrenceAlias) : res () :=
  let ap := approved (attendance x) in
  _ ← require (bool_decide (c_firmware_family c = Some "zkt") && (ob_id row =? oi_outbox_id i)
               && bool_decide (ob_attendance_event_id row = Some (ae_id e)) && (ae_connector_id e =? c_id c));
  bound_id ← attendance_id x c a;
  _ ← require (bool_decide (bound_id = Some (ae_id e)) && bool_decide (ae_event_uid e = a_occurrence_id a) && bool_decide (is_Some (c_terminal c)));
  bound ← occurrence_bound x c a;
  _ ← require (bound && _terminal_provenance_verified e c && delivery_authorized ap e);
  _ ← match decision_for ap (ae_id e) with
      | None => Ok ()
      | Some d => ok ← superseded_by_automatic_release x e (Some d); require ok
      end;
  _ ← require (bool_decide (ae_identity_resolution_status e ∈ VERIFIED_IDENTITY_RESOLUTION_STATUSES));
  proof ← delivery_proof_valid x e c;
  require (proof && negb (bool_decide (ae_clock_quality e = "INVALID"))
           && attendance_device_time_is_plausible (ae_device_event_time e) (ae_captured_at e)).

Definition _current (x : world) (i : ZktOracleIntent) (row : OrdsOutbox) : res (AttendanceEvent * pyval * pyval) :=
  if negb pii_fernet_key || bool_decide (pii_lookup_key = "") then Raise RuntimeError "ZKT_ORACLE_KEYS_UNAVAILABLE"
  else
    match event_at (oi_attendance_event_id i) x, row_by c_id (oi_connector_id i) (connectors x), alias_at (oi_occurrence_alias_id i) (tables x) with
    | Some e, Some c, Some a =>
        _ ← current_guards x i row e c a;
        cnic ← decrypt_cnic (ae_cnic_encrypted e);
        match cnic, c_terminal c with
        | Some cnic, Some t =>
            if bool_decide (cnic = "") then Raise EvidenceChanged "ZKT_ORACLE_IDENTITY_UNAVAILABLE"
            else
              let payload := oracle_payload c t e cnic in
              check ← verification_check payload (oi_verification_scope i);
              Ok (e, payload, check)
        | _, _ => Raise EvidenceChanged "ZKT_ORACLE_IDENTITY_UNAVAILABLE"
        end
    | _, _, _ => Raise EvidenceChanged "ZKT_ORACLE_CURRENT_EVIDENCE_CHANGED"
    end.

Definition decrypt_column (o : option string) : res pyval := match o with Some s => decrypt_json s | None => Ok (PDict []) end.

(** ** split_claims *)
Record split_state := mkSplit {
  sp_ledger : ledger; sp_ordinary : list worker_claim; sp_content : list claim; sp_events : list Z; sp_rows : list Z }.
Definition intent_of (row : Z) (l : ledger) : option ZktOracleIntent := List.find (λ i, oi_outbox_id i =? row) (intents l).
Definition touch (row event : Z) (l : ledger) (s : split_state) : split_state :=
  mkSplit l (sp_ordinary s) (sp_content s) (event :: sp_events s) (row :: sp_rows s).

(** The payload of a claim is frozen, or compared with what is frozen. *)
Definition prepare (utc_now : Z) (x : world) (i : ZktOracleIntent) (row : OrdsOutbox) (c : worker_claim) : res (string * pyval * pyval * ledger) :=
  '(_, payload, check) ← _current x i row;
  if negb (py_eq payload (wc_payload c)) || negb (wc_connector_id c =? oi_connector_id i) then Raise EvidenceChanged "ZKT_ORACLE_CLAIM_CHANGED"
  else
    match oi_payload_digest i with
    | None =>
        if bool_decide (is_Some (oi_protected_payload i)) || bool_decide (is_Some (oi_protected_check i)) then Raise EvidenceChanged "ZKT_ORACLE_PARTIAL_INTENT"
        else
          payload_digest ← protected_digest payload;
          protected_payload ← encrypt_json payload;
          protected_check ← encrypt_json check;
          Ok (payload_digest, payload, check, put_intent (oi_id i) (freeze payload_digest protected_payload protected_check utc_now) (attendance x))
    | Some payload_digest =>
        now_digest ← protected_digest payload;
        if negb (bool_decide (payload_digest = now_digest)) then Raise EvidenceChanged "ZKT_ORACLE_FROZEN_EVIDENCE_CHANGED"
        else
          frozen ← decrypt_column (oi_protected_payload i);
          if negb (py_eq frozen payload) then Raise EvidenceChanged "ZKT_ORACLE_FROZEN_EVIDENCE_CHANGED"
          else
            frozen_check ← decrypt_column (oi_protected_check i);
            if negb (py_eq frozen_check check) then Raise EvidenceChanged "ZKT_ORACLE_FROZEN_EVIDENCE_CHANGED"
            else Ok (payload_digest, payload, check, attendance x)
    end.

Definition split_one (utc_now : Z) (x : world) (s : split_state) (c : worker_claim) : split_state :=
  let l := sp_ledger s in
  match intent_of (wc_row_id c) l with
  | None => mkSplit l (sp_ordinary s ++ [c]) (sp_content s) (sp_events s) (sp_rows s)
  | Some i =>
      match row_by ob_id (oi_outbox_id i) (outboxes l) with
      | None => s
      | Some row =>
          if negb (bool_decide (ob_status row = "IN_FLIGHT")) then s
          else
            match prepare utc_now (set_attendance l x) i row c, event_at (oi_attendance_event_id i) (set_attendance l x) with
            | Ok (payload_digest, payload, check, l'), _ =>
                mkSplit l' (sp_ordinary s) (sp_content s ++ [mkClaim (ob_id row) (oi_id i) (ob_attempt_count row) payload_digest payload check])
                  (sp_events s) (sp_rows s)
            | Raise EvidenceChanged _, Some e => touch (ob_id row) (ae_id e) (_hold (ob_id row) (ae_id e) "ZKT_ORACLE_EVIDENCE_UNAVAILABLE_OR_CHANGED" l) s
            | Raise EvidenceChanged _, None =>
                mkSplit (with_outboxes (update_by ob_id (ob_id row) (λ o, set_outbox "QUARANTINED_IDENTITY_CONFLICT" None (ob_acknowledged_at o)
                           (ob_last_http_status o) (Some "ZKT_ORACLE_EVENT_MISSING") o) (outboxes l)) l)
                  (sp_ordinary s) (sp_content s) (sp_events s) (ob_id row :: sp_rows s)
            | Raise _ _, Some e => touch (ob_id row) (ae_id e) (_retry utc_now (ob_id row) (ae_id e) PENDING_REASON l) s
            | Raise _ _, None => s
            end
      end
  end.

(** The rows of a transaction pass the approval hook when it commits. *)
Definition commit (es os : list Z) (x : world) (l : ledger) : world := set_attendance (before_flush (attendance x) es os l) x.

Definition split_claims (utc_now : Z) (x : world) (claims : list worker_claim) : world * list worker_claim * list claim :=
  let s := fold_left (split_one utc_now x) claims (mkSplit (attendance x) [] [] [] []) in
  (commit (sp_events s) (sp_rows s) x (sp_ledger s), sp_ordinary s, sp_content s).

(** ** Owning a claim *)
Definition _owned (x : world) (c : claim) : option (OrdsOutbox * ZktOracleIntent) :=
  match row_by ob_id (cl_row_id c) (outboxes (attendance x)), row_by oi_id (cl_intent_id c) (intents (attendance x)) with
  | Some row, Some i =>
      if bool_decide (ob_status row = "IN_FLIGHT") && (ob_attempt_count row =? cl_attempt c) && (ob_id row =? oi_outbox_id i)
         && bool_decide (oi_payload_digest i = Some (cl_payload_digest c)) then Some (row, i) else None
  | _, _ => None
  end.

(** The payload and check of the claim, now and as they were frozen. *)
Definition unchanged (x : world) (c : claim) (i : ZktOracleIntent) (row : OrdsOutbox) : res bool :=
  '(_, payload, check) ← _current x i row;
  if negb (py_eq payload (cl_payload c)) || negb (py_eq check (cl_check c)) then Ok false
  else
    frozen ← decrypt_column (oi_protected_payload i);
    if negb (py_eq frozen payload) then Ok false
    else frozen_check ← decrypt_column (oi_protected_check i); Ok (py_eq frozen_check check).

Definition reserve_post (utc_now : Z) (x : world) (c : claim) : world * res bool :=
  match _owned x c with
  | None => (x, Ok false)
  | Some (row, i) =>
      match unchanged x c i row with
      | Ok true => (commit [] [] x (put_intent (oi_id i) (count_post utc_now) (attendance x)), Ok true)
      | Ok false | Raise EvidenceChanged _ => (x, Ok false)
      | Raise cl m => (x, Raise cl m)
      end
  end.

(** ** Asking Oracle *)
Definition UNKNOWN : string * token := ("UNKNOWN", NoToken).

(** The raw and downstream columns a classification must come with. *)
Definition content_consistent (c : claim) (classification : string) (raw downstream : pyval) : bool :=
  if bool_decide (classification = "MATCH") then
    is_true raw && eq_str downstream (if eq_str (get "raw_punch" (cl_payload c)) "T" then "RAW_ONLY" else "MATCH")
  else if bool_decide (classification ∈ ["MISSING"; "MISMATCH"; "CROSS_DEVICE_UID_COLLISION"]) then is_false raw && eq_str downstream "NOT_VERIFIED"
  else if bool_decide (classification ∈ ["DOWNSTREAM_PENDING"; "IDENTITY_HOLD"; "DOWNSTREAM_HOLD"]) then is_true raw && eq_str downstream "NOT_VERIFIED"
  else false.

Definition verify_content (c : claim) (response : pyval) : string * token :=
  if negb (is_dict response) then UNKNOWN
  else
    match get "results" response with
    | PList [row] =>
        if negb (is_true (get "success" response) && eq_str (get "contract_version" response) "2"
                 && eq_str (get "verification_scope" response) VERIFICATION_SCOPE
                 && py_eq (get "request_digest" response) (get "request_digest" (cl_check c))) then UNKNOWN
        else if negb (is_dict row && py_eq (get "event_uid" row) (get "event_uid" (cl_payload c))) then UNKNOWN
        else
          match get "classification" row, get "current_content_token" row with
          | PStr classification, PStr t =>
              if TOKEN t && content_consistent c classification (get "raw_projection_verified" row) (get "downstream_status" row)
              then (classification, ContentToken t) else UNKNOWN
          | _, _ => UNKNOWN
          end
    | _ => UNKNOWN
    end.

Definition is_int (v : pyval) : bool := match v with PInt _ => true | _ => false end.
Definition normalized_reply (response : pyval) : pyval :=
  PDict (map (λ k, (k, get k response)) ["success"; "received_count"; "existing_count"; "missing_count"; "missing_event_uids"]).

Definition verify_membership (c : claim) (response : option pyval) : res (string * token) :=
  expected ← verification_check (cl_payload c) MEMBERSHIP_SCOPE;
  if negb (py_eq (cl_check c) expected) then Ok UNKNOWN
  else
    match get "event_uid" (cl_payload c), response with
    | PStr uid, Some r =>
        if negb (is_dict r) || existsb (λ f, negb (is_int (get f r))) ["received_count"; "missing_count"; "existing_count"] then Ok UNKNOWN
        else
          match ords_membership_missing (Some 200) r {[uid]} with
          | None => Ok UNKNOWN
          | Some missing =>
              if bool_decide (uid ∈ missing) then Ok ("MISSING", NoToken)
              else
                match get "request_digest" (cl_check c) with
                | PStr request_digest =>
                    response_digest ← protected_digest (normalized_reply r);
                    Ok ("UID_PRESENT", Membership (mkProof uid (cl_payload_digest c) request_digest response_digest))
                | _ => Raise KeyError "request_digest"
                end
          end
    | _, _ => Ok UNKNOWN
    end.

(** What Oracle answered: the content reader (which raises on a failed request) and
    the membership reader. *)
Record oracle_answer := mkAnswer { an_content : res pyval; an_configured : bool; an_membership : http_reply }.

Definition verify (c : claim) (a : oracle_answer) : res (string * token) :=
  let scope := get "verification_scope" (cl_check c) in
  if eq_str scope MEMBERSHIP_SCOPE then verify_membership c (_membership_request (an_configured a) (an_membership a))
  else if negb (eq_str scope VERIFICATION_SCOPE) then Ok UNKNOWN
  else response ← an_content a; Ok (verify_content c response).

(** ** persist_result *)
Definition membership_settles (c : claim) (i : ZktOracleIntent) (e : AttendanceEvent) (classification : string) (t : token) : option MembershipProof :=
  match t with
  | Membership p =>
      if bool_decide (classification = "UID_PRESENT") && bool_decide (oi_verification_scope i = MEMBERSHIP_SCOPE)
         && bool_decide (mp_event_uid p = ae_event_uid e) && bool_decide (oi_payload_digest i = Some (mp_payload_digest p))
         && eq_str (get "request_digest" (cl_check c)) (mp_request_digest p) && TOKEN (mp_response_digest p) then Some p else None
  | _ => None
  end.
Definition content_settles (i : ZktOracleIntent) (classification : string) (t : token) : option string :=
  match t with
  | ContentToken s =>
      if bool_decide (classification = "MATCH") && bool_decide (oi_verification_scope i = VERIFICATION_SCOPE) && TOKEN s then Some s else None
  | _ => None
  end.

(** A receipt is stored once per intent, payload and token. *)
Definition add_membership_receipt (c : claim) (i : ZktOracleIntent) (e : AttendanceEvent) (p : MembershipProof) (l : ledger) : ledger :=
  if existsb (λ r, (mr_intent_id r =? oi_id i) && bool_decide (mr_payload_digest r = cl_payload_digest c)) (membership_receipts l) then l
  else with_membership_receipts (membership_receipts l ++
    [mkMembershipReceipt (oi_id i) (ae_event_uid e) (cl_payload_digest c) (mp_request_digest p) (mp_response_digest p) MEMBERSHIP_SCOPE (cl_attempt c)]) l.
Definition add_content_receipt (c : claim) (i : ZktOracleIntent) (e : AttendanceEvent) (t : string) (l : ledger) : res ledger :=
  if existsb (λ r, (cr_intent_id r =? oi_id i) && bool_decide (cr_payload_digest r = cl_payload_digest c) && bool_decide (cr_content_token r = t))
       (content_receipts l) then Ok l
  else
    request_digest ← protected_digest (cl_check c);
    Ok (with_content_receipts (content_receipts l ++
      [mkContentReceipt (oi_id i) (ae_event_uid e) (cl_payload_digest c) request_digest VERIFICATION_SCOPE t (cl_attempt c)]) l).

(** The classification after the evidence is read again. *)
Definition rechecked (x : world) (c : claim) (i : ZktOracleIntent) (row : OrdsOutbox) (classification : string) : string :=
  match unchanged x c i row with
  | Ok true => classification
  | Ok false | Raise EvidenceChanged _ => "CHANGED"
  | Raise _ _ => "UNKNOWN"
  end.

Definition settle_result (utc_now : Z) (c : claim) (i : ZktOracleIntent) (e : AttendanceEvent) (row : Z) (classification : string) (t : token) (l : ledger)
    : res ledger :=
  match membership_settles c i e classification t, content_settles i classification t with
  | Some p, _ => Ok (assign row (ae_id e) (ack_row utc_now) (ack_event utc_now "ADD_ZKT_UID_ONLY_V1") (add_membership_receipt c i e p l))
  | None, Some s => l ← add_content_receipt c i e s l; Ok (assign row (ae_id e) (ack_row utc_now) (ack_event utc_now "ADD_ZKT_PROJECTION_V2") l)
  | None, None =>
      if bool_decide (classification ∈ ["IDENTITY_HOLD"; "DOWNSTREAM_HOLD"]) then Ok (_hold row (ae_id e) ("ZKT_ORACLE_" +:+ classification) l)
      else if bool_decide (classification ∈ CONFLICTS) then
        Ok (_hold row (ae_id e) (if bool_decide (classification = "CHANGED") then "ZKT_ORACLE_EVIDENCE_CHANGED" else "ZKT_ORACLE_CONTENT_CONFLICT") l)
      else if bool_decide (classification = "DOWNSTREAM_PENDING") then Ok (_retry utc_now row (ae_id e) "ZKT_ORACLE_DOWNSTREAM_VERIFICATION_PENDING" l)
      else if bool_decide (classification = "REJECTED") then Ok (_hold row (ae_id e) "ZKT_ORACLE_POST_REJECTED" l)
      else Ok (_retry utc_now row (ae_id e) PENDING_REASON l)
  end.

Definition persist_result (utc_now : Z) (x : world) (c : claim) (classification : string) (t : token) : world * res () :=
  match _owned x c with
  | None => (x, Ok ())
  | Some (row, i) =>
      match event_at (oi_attendance_event_id i) x with
      | None => (x, Ok ())
      | Some e =>
          match settle_result utc_now c i e (ob_id row) (rechecked x c i row classification) t (attendance x) with
          | Ok l => (commit [ae_id e] [ob_id row] x l, Ok ())
          | Raise cl m => (x, Raise cl m)
          end
      end
  end.

(** ** deliver: the steps of one claim

    [one] asks Oracle, reserves and sends the POST if the record is missing, asks
    again, and persists. Every step may raise; then nothing is concluded. *)
Definition POST_REJECTED : list Z := [400; 404; 405; 410; 422].
Definition outcome (r : res (string * token)) : string * token := match r with Ok v => v | Raise _ _ => UNKNOWN end.
(** After the POST and the second question. *)
Definition after_post (post_status : option Z) (r : string * token) : string * token :=
  match post_status with
  | Some s => if bool_decide (r.1 = "MISSING") && bool_decide (s ∈ POST_REJECTED) then ("REJECTED", r.2) else r
  | None => r
  end.
End delivery.
