(* ===== verification/OracleSystem.v ===== *)
(** * Oracle delivery as a system of interleaved steps

    Workers split claims, ask Oracle, reserve and send POSTs, persist results; other
    transactions of the application run between any two of these steps, replies are
    arbitrary and a worker may stop at any point. [evolves] is what every
    transaction on the delivery tables promises; the invariants hold in every
    reachable state of the interleaving. *)
From S2P Require Import Prelude PyText Hashes PyJson Calendar ZktPacket ZktDecode OccurrenceMatch QueueEvidence Custody DerivedEvidence CustodyWork SourceAttendance ManualGuard OracleDelivery.
Open Scope string_scope.
Open Scope list_scope.
Open Scope Z_scope.

(** ** What a transaction may do to the delivery tables *)
Definition confirmed (o : OrdsOutbox) : Prop := ob_status o ∈ ["ACKED"; "ACKED_CHECK"; "ACKED_FIRMWARE"].

Record keys_unique (l : ledger) : Prop := {
  ku_outboxes : NoDup (map ob_id (outboxes l));
  ku_intents : NoDup (map oi_id (intents l));
  ku_routes : NoDup (map oi_outbox_id (intents l)) }.

(** A later version of an intent: its keys and scope stay, a frozen payload stays. *)
Record intent_le (i i' : ZktOracleIntent) : Prop := {
  il_key : (oi_id i', oi_outbox_id i', oi_attendance_event_id i', oi_occurrence_alias_id i', oi_connector_id i', oi_verification_scope i')
           = (oi_id i, oi_outbox_id i, oi_attendance_event_id i, oi_occurrence_alias_id i, oi_connector_id i, oi_verification_scope i);
  il_frozen : oi_payload_digest i ≠ None →
    (oi_payload_digest i', oi_protected_payload i', oi_protected_check i') = (oi_payload_digest i, oi_protected_payload i, oi_protected_check i);
  il_posts : oi_post_attempts i <= oi_post_attempts i' }.

#[export] Instance intent_le_preorder : PreOrder intent_le.
Proof.
  split; [by intros i; constructor|]. intros i j k [H1 H2 H3] [H4 H5 H6]. constructor; [congruence| |lia].
  intros H. rewrite H5; [auto|]. specialize (H2 H). congruence.
Qed.

(** A receipt for the frozen payload of an intent, under the intent's own scope. *)
Definition has_receipt (l : ledger) (i : ZktOracleIntent) : Prop :=
  (∃ r, r ∈ content_receipts l ∧ cr_intent_id r = oi_id i ∧ oi_payload_digest i = Some (cr_payload_digest r) ∧ TOKEN (cr_content_token r) = true
        ∧ oi_verification_scope i = VERIFICATION_SCOPE) ∨
  (∃ r, r ∈ membership_receipts l ∧ mr_intent_id r = oi_id i ∧ oi_payload_digest i = Some (mr_payload_digest r)
        ∧ oi_verification_scope i = MEMBERSHIP_SCOPE).

Record evolves (l l' : ledger) : Prop := {
  ev_keys : keys_unique l → keys_unique l';
  ev_intents : ∃ kept new, intents l' = kept ++ new ∧ Forall2 intent_le (intents l) kept ∧ (∀ i, i ∈ new → 0 <= oi_post_attempts i);
  ev_content : content_receipts l ⊆ content_receipts l';
  ev_membership : membership_receipts l ⊆ membership_receipts l';
  ev_confirmed : keys_unique l → ∀ o' i', o' ∈ outboxes l' → i' ∈ intents l' → oi_outbox_id i' = ob_id o' → confirmed o' →
    has_receipt l' i' ∨ ∃ o i, o ∈ outboxes l ∧ i ∈ intents l ∧ intent_le i i' ∧ oi_outbox_id i = ob_id o ∧ confirmed o }.

Lemma intent_le_id i i' : intent_le i i' → oi_id i' = oi_id i ∧ oi_outbox_id i' = oi_outbox_id i ∧ oi_verification_scope i' = oi_verification_scope i.
Proof. intros [H _ _]. by injection H. Qed.

Lemma intent_le_digest i i' d : intent_le i i' → oi_payload_digest i = Some d → oi_payload_digest i' = Some d.
Proof. intros [_ H _] Hd. rewrite Hd in H. specialize (H ltac:(done)). congruence. Qed.

Lemma has_receipt_mono l l' i i' :
  content_receipts l ⊆ content_receipts l' → membership_receipts l ⊆ membership_receipts l' → intent_le i i' → has_receipt l i → has_receipt l' i'.
Proof.
  intros Hc Hm Hle. destruct (intent_le_id _ _ Hle) as (Hi & _ & Hs).
  intros [(r & Hr & He & Hd & Ht & Hsc)|(r & Hr & He & Hd & Hsc)]; [left|right]; exists r;
    (split_and!; [auto|congruence|by eapply intent_le_digest|done || congruence..]).
Qed.

Lemma evolves_old l l' i : evolves l l' → i ∈ intents l → ∃ i', i' ∈ intents l' ∧ intent_le i i'.
Proof.
  intros [_ (kept & new & Hk & Hf & _) _ _ _] Hi. apply list_elem_of_lookup in Hi as [n Hn].
  destruct (Forall2_lookup_l _ _ _ _ _ Hf Hn) as (i' & Hi' & Hle). exists i'. split; [|done].
  rewrite Hk. apply elem_of_app. left. by apply list_elem_of_lookup_2 in Hi'.
Qed.

#[export] Instance evolves_preorder : PreOrder evolves.
Proof.
  split.
  - intros l. constructor; [done| |done|done|].
    + exists (intents l), []. split_and!; [by rewrite app_nil_r|apply Forall_Forall2_diag, Forall_forall; intros; reflexivity|by intros ? []%not_elem_of_nil].
    + intros _ o i Ho Hi Hr Hc. right. by exists o, i.
  - intros l1 l2 l3 H12 H23. destruct H12 as [K12 (k1 & n1 & E1 & F1 & P1) C12 M12 A12], H23 as [K23 (k2 & n2 & E2 & F2 & P2) C23 M23 A23].
    constructor; [auto| |set_solver|set_solver|].
    + rewrite E1 in F2. apply Forall2_app_inv_l in F2 as (k2a & k2b & Fa & Fb & ->).
      exists k2a, (k2b ++ n2). split_and!; [by rewrite E2, app_assoc| |].
      * by transitivity k1.
      * intros i [Hi|Hi]%elem_of_app; [|by apply P2]. apply list_elem_of_lookup in Hi as [n Hn].
        destruct (Forall2_lookup_r _ _ _ _ _ Fb Hn) as (j & Hj & [_ _ Hp]). apply list_elem_of_lookup_2 in Hj. specialize (P1 j Hj). lia.
    + intros K o i Ho Hi Hr Hc. destruct (A23 (K12 K) o i Ho Hi Hr Hc) as [?|(o2 & i2 & Ho2 & Hi2 & Hle & Hr2 & Hc2)]; [by left|].
      destruct (A12 K o2 i2 Ho2 Hi2 Hr2 Hc2) as [H|(o1 & i1 & Ho1 & Hi1 & Hle1 & Hr1 & Hc1)].
      * left. by eapply has_receipt_mono.
      * right. exists o1, i1. split_and!; try done. by transitivity i2.
Qed.

(** *** The building blocks *)
Lemma evolves_rows l l' :
  intents l' = intents l → content_receipts l' = content_receipts l → membership_receipts l' = membership_receipts l →
  map ob_id (outboxes l') = map ob_id (outboxes l) →
  (∀ o', o' ∈ outboxes l' → confirmed o' → ∃ o, o ∈ outboxes l ∧ ob_id o = ob_id o' ∧ confirmed o) → evolves l l'.
Proof.
  intros Hi Hc Hm Ho Hconf. constructor; [|exists (intents l), []|by rewrite Hc|by rewrite Hm|].
  - intros [H1 H2 H3]. constructor; [by rewrite Ho|by rewrite Hi..].
  - split_and!; [by rewrite Hi, app_nil_r|apply Forall_Forall2_diag, Forall_forall; intros; reflexivity|by intros ? []%not_elem_of_nil].
  - intros _ o' i' Ho' Hi' Hr Hcf. right. destruct (Hconf o' Ho' Hcf) as (o & H1 & H2 & H3).
    exists o, i'. rewrite <- Hi. split_and!; [done|done|reflexivity|congruence|done].
Qed.

Lemma evolves_assign l row ev f g :
  (∀ o, ob_id (f o) = ob_id o) → (∀ o, ¬ confirmed (f o)) → evolves l (assign row ev f g l).
Proof.
  intros Hid Hn. apply evolves_rows; try done; simpl.
  - by apply update_by_keys.
  - intros o' [[Ho' _]|(o & _ & _ & ->)]%elem_of_update_by Hc; [by exists o'|by apply Hn in Hc].
Qed.

Lemma flush_outbox_confirmed ap evs os o : confirmed (flush_outbox ap evs os o) → confirmed o.
Proof.
  unfold flush_outbox. case_bool_decide; [|done]. unfold retain_outbox. destruct (negb _); [done|].
  destruct (_ ≫= _); [|done]. destruct (delivery_authorized _ _); [done|]. unfold confirmed. simpl. set_solver.
Qed.

Lemma evolves_flush old es os l : evolves l (before_flush old es os l).
Proof.
  rewrite before_flush_eq. cbv zeta. apply evolves_rows; try done; simpl.
  - rewrite map_map. apply map_ext. intros o. apply flush_outbox_id.
  - intros o' (o & -> & Ho)%list_elem_of_fmap Hc. exists o. split_and!; [done|by rewrite flush_outbox_id|by eapply flush_outbox_confirmed].
Qed.

Lemma evolves_put l j f : (∀ i, i ∈ intents l → oi_id i = j → intent_le i (f i)) → evolves l (put_intent j f l).
Proof.
  intros Hf. set (g := λ i, if oi_id i =? j then f i else i).
  assert (Hg : ∀ i, i ∈ intents l → intent_le i (g i)).
  { intros i Hi. unfold g. destruct (Z.eqb_spec (oi_id i) j); [auto|reflexivity]. }
  assert (Hmap : ∀ (A : Type) (p : ZktOracleIntent → A), (∀ i i', intent_le i i' → p i' = p i) → map p (map g (intents l)) = map p (intents l)).
  { intros A p Hp. rewrite map_map. apply map_ext_in. intros i Hi%list_elem_of_In. auto. }
  unfold put_intent, update_by. fold g. constructor; simpl; [|exists (map g (intents l)), []|done|done|].
  - intros [H1 H2 H3]. constructor; simpl; [done| |].
    + rewrite (Hmap Z oi_id); [done|]. intros. by apply intent_le_id.
    + rewrite (Hmap Z oi_outbox_id); [done|]. intros. by apply intent_le_id.
  - split_and!; [by rewrite app_nil_r| |by intros ? []%not_elem_of_nil].
    apply Forall2_fmap_r. apply Forall_Forall2_diag, Forall_forall. intros i Hi. by apply Hg.
  - intros _ o i' Ho (i & -> & Hi)%list_elem_of_fmap Hr Hc. right. exists o, i. specialize (Hg i Hi).
    destruct (intent_le_id _ _ Hg) as (_ & Hob & _). split_and!; [done|done|done|congruence|done].
Qed.

(** Completing a row whose own intent has a receipt. *)
Lemma evolves_ack l l2 row ev g now i :
  intents l2 = intents l → outboxes l2 = outboxes l → content_receipts l ⊆ content_receipts l2 → membership_receipts l ⊆ membership_receipts l2 →
  i ∈ intents l → oi_outbox_id i = row → has_receipt l2 i → evolves l (assign row ev (ack_row now) g l2).
Proof.
  intros Hi Ho Hc Hm Hin Hrow Hrec. constructor; [|exists (intents l), []|done|done|].
  - intros [H1 H2 H3]. constructor; simpl; [|by rewrite Hi..]. rewrite update_by_keys by done. by rewrite Ho.
  - simpl. split_and!; [by rewrite Hi, app_nil_r|apply Forall_Forall2_diag, Forall_forall; intros; reflexivity|by intros ? []%not_elem_of_nil].
  - intros [_ _ K] o' i' Ho' Hi' Hr Hconf. simpl in Ho', Hi'. rewrite Ho in Ho'. rewrite Hi in Hi'.
    apply elem_of_update_by in Ho' as [[Ho' _]|(o & _ & Hid & ->)]; [right; by exists o', i'|]. left.
    assert (i' = i) as -> by (eapply (NoDup_map_inj oi_outbox_id); [done..|]; simpl in Hr; congruence). done.
Qed.

Section system.
Context {platform : Platform}.
Abbreviation digest_of := (_protected_digest pii_lookup_key).

Lemma attendance_set l x : attendance (set_attendance l x) = l.
Proof. done. Qed.

Lemma hold_evolves row ev reason l : evolves l (_hold row ev reason l).
Proof. apply evolves_assign; [done|]. intros o. unfold confirmed. simpl. set_solver. Qed.
Lemma retry_evolves now row ev reason l : evolves l (_retry now row ev reason l).
Proof. apply evolves_assign; [done|]. intros o. unfold confirmed. simpl. set_solver. Qed.

(** ** Splitting *)
(** What a prepared claim carries: the digest of its payload, held by its intent. *)
Lemma prepare_spec now x i row c d p ck l' :
  prepare now x i row c = Ok (d, p, ck, l') →
  digest_of p = Ok d ∧ verification_check p (oi_verification_scope i) = Ok ck ∧
  (l' = attendance x ∧ oi_payload_digest i = Some d ∨
   oi_payload_digest i = None ∧ ∃ tp tc, l' = put_intent (oi_id i) (freeze d tp tc now) (attendance x)).
Proof.
  unfold prepare. intros H. apply bind_ok in H as ([[e payload] check] & Hc & H). destruct (_ || _) eqn:Eg; [done|].
  assert (Hv : verification_check payload (oi_verification_scope i) = Ok check).
  { unfold _current in Hc. inv_res Hc. by simplify_eq. }
  destruct (oi_payload_digest i) as [d0|] eqn:Ed.
  - inv_res H. bool_prop. injection H as <- <- <- <-. subst. eauto.
  - inv_res H. injection H as <- <- <- <-. split_and!; [done..|]. right. eauto.
Qed.

Lemma freeze_le d tp tc now i : oi_payload_digest i = None → intent_le i (freeze d tp tc now i).
Proof. intros Hn. constructor; simpl; [done| |lia]. by rewrite Hn. Qed.

Lemma prepare_evolves now x i row c d p ck l' :
  keys_unique (attendance x) → i ∈ intents (attendance x) → prepare now x i row c = Ok (d, p, ck, l') → evolves (attendance x) l'.
Proof.
  intros K Hi (_ & _ & [[-> _]|[Hn (tp & tc & ->)]])%prepare_spec; [reflexivity|].
  apply evolves_put. intros j Hj Hid. apply freeze_le.
  assert (j = i) as -> by (eapply (NoDup_map_inj oi_id); [apply K|done..]). done.
Qed.

Lemma intent_of_some row l i : intent_of row l = Some i → i ∈ intents l ∧ oi_outbox_id i = row.
Proof. intros [Hi Hr]%List.find_some. apply Z.eqb_eq in Hr. split; [by apply list_elem_of_In|done]. Qed.

(** A claim of an intent: the digest of its payload is the one frozen on its intent. *)
Definition claim_ok (l : ledger) (c : claim) : Prop :=
  digest_of (cl_payload c) = Ok (cl_payload_digest c) ∧
  ∃ i, i ∈ intents l ∧ oi_id i = cl_intent_id c ∧ oi_outbox_id i = cl_row_id c ∧ oi_payload_digest i = Some (cl_payload_digest c) ∧
    verification_check (cl_payload c) (oi_verification_scope i) = Ok (cl_check c).

Lemma claim_ok_mono l l' c : evolves l l' → claim_ok l c → claim_ok l' c.
Proof.
  intros He (Hd & i & Hi & Hid & Hob & Hpd & Hv). split; [done|]. destruct (evolves_old _ _ _ He Hi) as (i' & Hi' & Hle). exists i'.
  destruct (intent_le_id _ _ Hle) as (H1 & H2 & H3). split_and!; [done|congruence|congruence|by eapply intent_le_digest|by rewrite H3].
Qed.

(** The state of the loop after some claims. *)
Record split_inv (x : world) (done_ : list worker_claim) (s : split_state) : Prop := {
  si_keys : keys_unique (sp_ledger s);
  si_evolves : evolves (attendance x) (sp_ledger s);
  si_claims : ∀ c, c ∈ sp_content s → claim_ok (sp_ledger s) c;
  si_routes : map oi_outbox_id (intents (sp_ledger s)) = map oi_outbox_id (intents (attendance x));
  si_ordinary : sp_ordinary s = List.filter (λ c, negb (existsb (λ i, oi_outbox_id i =? wc_row_id c) (intents (attendance x)))) done_ }.

Lemma routes_existsb l l' row : map oi_outbox_id (intents l) = map oi_outbox_id (intents l') →
  existsb (λ i, oi_outbox_id i =? row) (intents l) = existsb (λ i, oi_outbox_id i =? row) (intents l').
Proof.
  assert (∀ k, existsb (λ i, oi_outbox_id i =? row) k = existsb (λ z, z =? row) (map oi_outbox_id k)) as H.
  { intros k. induction k as [|a k IH]; simpl; [done|]. by rewrite IH. }
  intros E. by rewrite !H, E.
Qed.

Lemma intent_of_exists row l : existsb (λ i, oi_outbox_id i =? row) (intents l) = bool_decide (is_Some (intent_of row l)).
Proof.
  unfold intent_of. induction (intents l) as [|a k IH]; simpl; [done|]. destruct (oi_outbox_id a =? row) eqn:E; simpl; [done|apply IH].
Qed.

(** An iteration that leaves the two lists alone, or adds a claim. *)
Lemma split_inv_keep x done_ s c s' :
  split_inv x done_ s → is_Some (intent_of (wc_row_id c) (sp_ledger s)) →
  evolves (sp_ledger s) (sp_ledger s') → map oi_outbox_id (intents (sp_ledger s')) = map oi_outbox_id (intents (sp_ledger s)) →
  sp_ordinary s' = sp_ordinary s → (∀ c', c' ∈ sp_content s' → c' ∈ sp_content s ∨ claim_ok (sp_ledger s') c') →
  split_inv x (done_ ++ [c]) s'.
Proof.
  intros [K E C R O] Hi He Hr Ho Hc. constructor; [by apply (ev_keys _ _ He)|by transitivity (sp_ledger s)| |congruence|].
  - intros c' [H|H]%Hc; [|done]. eapply claim_ok_mono; [done|]. by apply C.
  - rewrite List.filter_app. simpl. rewrite <- (routes_existsb _ _ _ R), intent_of_exists, bool_decide_true by done. simpl.
    by rewrite app_nil_r, Ho.
Qed.

Lemma split_one_inv now x done_ s c : split_inv x done_ s → split_inv x (done_ ++ [c]) (split_one now x s c).
Proof.
  intros Hs. assert (Hkeep : is_Some (intent_of (wc_row_id c) (sp_ledger s)) → split_inv x (done_ ++ [c]) s).
  { intros Hi. eapply split_inv_keep; [done|done|reflexivity|done|done|]. by left. }
  unfold split_one. destruct (intent_of _ _) as [i|] eqn:Ei.
  2:{ destruct Hs as [K E C R O]. constructor; try done. rewrite List.filter_app, <- O. simpl.
      rewrite <- (routes_existsb _ _ _ R), intent_of_exists, Ei. done. }
  specialize (Hkeep (mk_is_Some _ _ eq_refl)). apply intent_of_some in Ei as Hi.
  destruct (row_by _ _ _) as [row|] eqn:Er; [|done]. destruct (negb _); [done|]. apply row_by_some in Er as [_ Hrow].
  assert (Htouch : ∀ l', evolves (sp_ledger s) l' → intents l' = intents (sp_ledger s) → ∀ es os,
    split_inv x (done_ ++ [c]) (mkSplit l' (sp_ordinary s) (sp_content s) es os)).
  { intros l' He Hin es os. eapply split_inv_keep; [done|by eexists|done|simpl; by rewrite Hin|done|]. by left. }
  destruct (prepare _ _ _ _ _) as [[[[d p] ck] l']|cl m] eqn:Ep.
  - pose proof (si_keys _ _ _ Hs) as K.
    pose proof (prepare_evolves _ (set_attendance (sp_ledger s) x) i row c d p ck l' K (proj1 Hi) Ep) as He. simpl in He.
    apply prepare_spec in Ep as (Hd & Hv & Hl).
    assert (Hroutes : map oi_outbox_id (intents l') = map oi_outbox_id (intents (sp_ledger s))).
    { destruct Hl as [[-> _]|[_ (tp & tc & ->)]]; [done|]. simpl. unfold update_by. rewrite map_map. apply map_ext. intros j. by destruct (_ =? _). }
    eapply split_inv_keep; [done|by eexists|done|done|done|]. intros c'. simpl. rewrite elem_of_app. intros [H|H]; [by left|].
    right. apply list_elem_of_singleton in H as ->. split; [done|]. simpl.
    destruct Hl as [[-> Hpd]|[_ (tp & tc & ->)]].
    + exists i. split_and!; [apply Hi|done|done|done|done].
    + exists (freeze d tp tc now i). split_and!; [|done|done|done|done]. simpl.
      pose proof (elem_of_update_by_2 oi_id (oi_id i) (freeze d tp tc now) _ _ (proj1 Hi)) as H. by rewrite Z.eqb_refl in H.
  - destruct cl; (destruct (event_at _ _) as [e|]; [apply Htouch|first [exact Hkeep|apply Htouch]]);
      first [apply hold_evolves|apply retry_evolves|done|idtac].
    apply evolves_rows; try done; simpl; [by apply update_by_keys|].
    intros o' [[Ho' _]|(o & _ & _ & ->)]%elem_of_update_by Hcf; [by exists o'|]. exfalso. revert Hcf. unfold confirmed. simpl. set_solver.
Qed.

Lemma split_inv_end now x claims :
  keys_unique (attendance x) → split_inv x claims (fold_left (split_one now x) claims (mkSplit (attendance x) [] [] [] [])).
Proof.
  intros K. apply (fold_left_inv (split_one now x) (split_inv x)).
  - constructor; simpl; [done|reflexivity|by intros ? []%not_elem_of_nil|done|done].
  - intros done_ c s. apply split_one_inv.
Qed.

Lemma split_evolves now x claims x' ordinary content :
  keys_unique (attendance x) → split_claims now x claims = (x', ordinary, content) →
  evolves (attendance x) (attendance x') ∧ (∀ c, c ∈ content → claim_ok (attendance x') c).
Proof.
  intros K [= <- <- <-]. destruct (split_inv_end now x claims K) as [K' E C R O]. unfold commit. simpl.
  pose proof (evolves_flush (attendance x) (sp_events (fold_left (split_one now x) claims (mkSplit (attendance x) [] [] [] [])))
    (sp_rows (fold_left (split_one now x) claims (mkSplit (attendance x) [] [] [] [])))
    (sp_ledger (fold_left (split_one now x) claims (mkSplit (attendance x) [] [] [] [])))) as Hf.
  split; [by etransitivity|]. intros c Hc. eapply claim_ok_mono; [done|by apply C].
Qed.

(** ** Settling *)
Lemma add_membership_receipt_spec c i e p l :
  oi_payload_digest i = Some (cl_payload_digest c) → oi_verification_scope i = MEMBERSHIP_SCOPE →
  let l' := add_membership_receipt c i e p l in
  intents l' = intents l ∧ outboxes l' = outboxes l ∧ content_receipts l' = content_receipts l ∧ membership_receipts l ⊆ membership_receipts l' ∧
  has_receipt l' i.
Proof.
  intros Hd Hs. unfold add_membership_receipt. destruct (existsb _ _) eqn:E; simpl.
  - split_and!; try done. apply existsb_exists in E as (r & Hr%list_elem_of_In & Hm). bool_prop. right. exists r. split_and!; [done|done|congruence|done].
  - split_and!; [done..|set_solver|]. right. eexists. simpl. split_and!; [apply elem_of_app; right; by left|done..].
Qed.

Lemma add_content_receipt_spec c i e t l l' :
  oi_payload_digest i = Some (cl_payload_digest c) → oi_verification_scope i = VERIFICATION_SCOPE → TOKEN t = true →
  add_content_receipt c i e t l = Ok l' →
  intents l' = intents l ∧ outboxes l' = outboxes l ∧ content_receipts l ⊆ content_receipts l' ∧ membership_receipts l' = membership_receipts l ∧
  has_receipt l' i.
Proof.
  intros Hd Hs Ht. unfold add_content_receipt. destruct (existsb _ _) eqn:E; simpl.
  - intros [= <-]. split_and!; try done. apply existsb_exists in E as (r & Hr%list_elem_of_In & Hm). bool_prop.
    left. exists r. split_and!; [done|done|congruence|congruence|done].
  - intros H. apply bind_ok in H as (d & Hdig & [= <-]). simpl. split_and!; [done..|set_solver|done|].
    left. eexists. simpl. split_and!; [apply elem_of_app; right; by left|done..].
Qed.

Lemma settle_evolves now c i e row classification t l l' :
  i ∈ intents l → oi_outbox_id i = row → oi_payload_digest i = Some (cl_payload_digest c) →
  settle_result now c i e row classification t l = Ok l' → evolves l l'.
Proof.
  intros Hi Hrow Hd. unfold settle_result. destruct (membership_settles _ _ _ _ _) as [p|] eqn:Em.
  { intros [= <-]. unfold membership_settles in Em. destruct t as [| |p0]; try done. destruct (_ && _) eqn:Eg; [|done]. bool_prop.
    destruct (add_membership_receipt_spec c i e p l) as (A1 & A2 & A3 & A4 & A5); [done..|].
    eapply evolves_ack; [done|done|by rewrite A3|done|done|done|done]. }
  destruct (content_settles _ _ _) as [s|] eqn:Ec.
  { intros H. apply bind_ok in H as (l2 & Hl2 & [= <-]). unfold content_settles in Ec. destruct t as [|s0|]; try done.
    destruct (_ && _) eqn:Eg; [|done]. injection Ec as ->. bool_prop.
    destruct (add_content_receipt_spec c i e s l l2) as (A1 & A2 & A3 & A4 & A5); [done..|].
    eapply evolves_ack; [done|done|done|by rewrite A4|done|done|done]. }
  intros H. repeat (destruct (bool_decide _) in H); injection H as <-; first [apply hold_evolves|apply retry_evolves].
Qed.

Lemma owned_spec x c row i :
  _owned x c = Some (row, i) →
  row ∈ outboxes (attendance x) ∧ ob_id row = cl_row_id c ∧ i ∈ intents (attendance x) ∧ oi_id i = cl_intent_id c ∧ oi_outbox_id i = ob_id row ∧
  ob_status row = "IN_FLIGHT" ∧ ob_attempt_count row = cl_attempt c ∧ oi_payload_digest i = Some (cl_payload_digest c).
Proof.
  unfold _owned. destruct (row_by ob_id _ _) as [r|] eqn:Er; [|done]. destruct (row_by oi_id _ _) as [j|] eqn:Ej; [|done].
  destruct (_ && _) eqn:E; [|done]. intros [= <- <-]. apply row_by_some in Er, Ej. bool_prop. naive_solver.
Qed.

Lemma persist_evolves now x c classification t : keys_unique (attendance x) → evolves (attendance x) (attendance (persist_result now x c classification t).1).
Proof.
  intros K. unfold persist_result. destruct (_owned _ _) as [[row i]|] eqn:Eo; [|reflexivity]. apply owned_spec in Eo as (_ & _ & Hi & _ & Hob & _ & _ & Hd).
  destruct (event_at _ _) as [e|]; [|reflexivity]. destruct (settle_result _ _ _ _ _ _ _ _) as [l|] eqn:Es; [|reflexivity]. simpl.
  transitivity l; [by eapply settle_evolves|apply evolves_flush].
Qed.

Lemma count_post_le now i : intent_le i (count_post now i).
Proof. constructor; simpl; [done|done|lia]. Qed.

Lemma commit_nothing x l : attendance (commit [] [] x l) = l.
Proof.
  unfold commit. simpl. rewrite before_flush_eq. cbv zeta. destruct l as [es bs os is_ cs ms ap]. simpl. unfold with_outboxes, with_events. simpl.
  f_equal; (etransitivity; [|apply map_id]); by apply map_ext.
Qed.

(** A reserved POST is counted on the intent of its claim. *)
Lemma reserve_spec now x c :
  (reserve_post now x c).2 = Ok true ∧ attendance (reserve_post now x c).1 = put_intent (cl_intent_id c) (count_post now) (attendance x)
  ∨ (reserve_post now x c).2 ≠ Ok true ∧ (reserve_post now x c).1 = x.
Proof.
  unfold reserve_post. destruct (_owned _ _) as [[row i]|] eqn:Eo; [|by right]. apply owned_spec in Eo as (_ & _ & _ & Hid & _).
  destruct (unchanged _ _ _ _) as [[|]|cl m]; [left| |]; [|by right|by destruct cl; right].
  simpl. split; [done|]. change (attendance (commit [] [] x (put_intent (oi_id i) (count_post now) (attendance x))) = put_intent (cl_intent_id c) (count_post now) (attendance x)).
  by rewrite commit_nothing, Hid.
Qed.

Lemma reserve_evolves now x c : evolves (attendance x) (attendance (reserve_post now x c).1).
Proof.
  destruct (reserve_spec now x c) as [[_ ->]|[_ ->]]; [|reflexivity]. apply evolves_put. intros. apply count_post_le.
Qed.

(** ** The interleaving *)
(** Where a claim stands in [deliver.one]. *)
Inductive phase :=
  | Checking | Reserving (t : token) | Posting | Rechecking (post_status : option Z) | Persisting (classification : string) (t : token).
Record task := mkTask { tk_claim : claim; tk_phase : phase }.
Record system := mkSystem { sys : world; tasks : list task; posts : list (Z * pyval) }.

Definition after_check (r : string * token) : phase := if bool_decide (r.1 = "MISSING") then Reserving r.2 else Persisting r.1 r.2.
Definition after_reserve (t : token) (r : res bool) : phase :=
  match r with Ok true => Posting | Ok false => Persisting "CHANGED" t | Raise _ _ => Persisting "UNKNOWN" NoToken end.

Inductive step : system → system → Prop :=
  | split_step now claims s x' ordinary content :
      split_claims now (sys s) claims = (x', ordinary, content) →
      step s (mkSystem x' (tasks s ++ map (λ c, mkTask c Checking) content) (posts s))
  | check_step s pre c post answer :
      tasks s = pre ++ mkTask c Checking :: post →
      step s (mkSystem (sys s) (pre ++ mkTask c (after_check (outcome (verify c answer))) :: post) (posts s))
  | reserve_step now s pre c t post :
      tasks s = pre ++ mkTask c (Reserving t) :: post →
      step s (mkSystem (reserve_post now (sys s) c).1 (pre ++ mkTask c (after_reserve t (reserve_post now (sys s) c).2) :: post) (posts s))
  (** The request goes out; its reply, if any, has a status. *)
  | post_step s pre c post status :
      tasks s = pre ++ mkTask c Posting :: post →
      step s (mkSystem (sys s) (pre ++ mkTask c (Rechecking status) :: post) (posts s ++ [(cl_intent_id c, cl_payload c)]))
  (** An error other than a lost reply ends the attempt, before or after sending. *)
  | post_failed_step s pre c post sent :
      tasks s = pre ++ mkTask c Posting :: post →
      step s (mkSystem (sys s) (pre ++ mkTask c (Persisting "UNKNOWN" NoToken) :: post) (posts s ++ if sent : bool then [(cl_intent_id c, cl_payload c)] else []))
  | recheck_step s pre c status post answer :
      tasks s = pre ++ mkTask c (Rechecking status) :: post →
      let r := after_post status (outcome (verify c answer)) in
      step s (mkSystem (sys s) (pre ++ mkTask c (Persisting r.1 r.2) :: post) (posts s))
  | persist_step now s pre c classification t post :
      tasks s = pre ++ mkTask c (Persisting classification t) :: post →
      step s (mkSystem (persist_result now (sys s) c classification t).1 (pre ++ post) (posts s))
  (** A worker stops: its task is gone. *)
  | stop_step s pre t post : tasks s = pre ++ t :: post → step s (mkSystem (sys s) (pre ++ post) (posts s))
  (** Any other transaction of the application. *)
  | other_step s x' : evolves (attendance (sys s)) (attendance x') → step s (mkSystem x' (tasks s) (posts s)).

(** POSTs sent, and reserved ones about to be sent, of an intent. *)
Definition posting (t : task) : bool := match tk_phase t with Posting => true | _ => false end.
Definition pending (ts : list task) (ps : list (Z * pyval)) (k : Z) : Z :=
  zlen (List.filter (λ p, p.1 =? k) ps) + zlen (List.filter (λ t, posting t && (cl_intent_id (tk_claim t) =? k)) ts).

Definition post_ok (l : ledger) (p : Z * pyval) : Prop :=
  ∃ i d, i ∈ intents l ∧ oi_id i = p.1 ∧ oi_payload_digest i = Some d ∧ digest_of p.2 = Ok d.

Record inv (s : system) : Prop := {
  inv_keys : keys_unique (attendance (sys s));
  inv_confirmed : ∀ o i, o ∈ outboxes (attendance (sys s)) → i ∈ intents (attendance (sys s)) → oi_outbox_id i = ob_id o → confirmed o →
    has_receipt (attendance (sys s)) i;
  inv_tasks : ∀ t, t ∈ tasks s → claim_ok (attendance (sys s)) (tk_claim t);
  inv_posts : ∀ p, p ∈ posts s → post_ok (attendance (sys s)) p;
  inv_count : ∀ i, i ∈ intents (attendance (sys s)) → pending (tasks s) (posts s) (oi_id i) <= oi_post_attempts i }.

Lemma post_ok_mono l l' p : evolves l l' → post_ok l p → post_ok l' p.
Proof.
  intros He (i & d & Hi & Hid & Hd & Hp). destruct (evolves_old _ _ _ He Hi) as (i' & Hi' & Hle). exists i', d.
  destruct (intent_le_id _ _ Hle) as (H1 & _ & _). split_and!; [done|congruence|by eapply intent_le_digest|done].
Qed.

Lemma filter_false {A} (p : A → bool) l : (∀ a, a ∈ l → p a = false) → List.filter p l = [].
Proof. induction l as [|a l IH]; intros H; simpl; [done|]. rewrite (H a) by by left. apply IH. intros b Hb. apply H. by right. Qed.

(** An intent that was not there before has no POSTs. *)
Lemma pending_new s k : inv s → (∀ i, i ∈ intents (attendance (sys s)) → oi_id i ≠ k) → pending (tasks s) (posts s) k = 0.
Proof.
  intros [_ _ Ht Hp _] Hk. unfold pending. rewrite !filter_false; [done| |].
  - intros t (_ & i & Hi & Hid & _)%Ht. apply andb_false_intro2, Z.eqb_neq. rewrite <- Hid. auto.
  - intros p (i & _ & Hi & Hid & _)%Hp. apply Z.eqb_neq. rewrite <- Hid. auto.
Qed.

Lemma count_mono s l' i' : inv s → evolves (attendance (sys s)) l' → i' ∈ intents l' → pending (tasks s) (posts s) (oi_id i') <= oi_post_attempts i'.
Proof.
  intros Hinv He Hi'. pose proof (ev_keys _ _ He (inv_keys _ Hinv)) as [_ Hn _].
  destruct (ev_intents _ _ He) as (kept & new & Hk & Hf & Hpos). rewrite Hk in Hi', Hn. rewrite List.map_app in Hn. apply NoDup_app in Hn as (_ & Hdis & _).
  apply elem_of_app in Hi' as [Hi'|Hi'].
  - apply list_elem_of_lookup in Hi' as [n Hn]. destruct (Forall2_lookup_r _ _ _ _ _ Hf Hn) as (i & Hi & Hle). apply list_elem_of_lookup_2 in Hi.
    pose proof (inv_count _ Hinv i Hi). destruct (intent_le_id _ _ Hle) as (-> & _ & _). destruct Hle as [_ _ Hle]. lia.
  - rewrite pending_new; [by apply Hpos|done|]. intros i Hi Heq. apply list_elem_of_lookup in Hi as [n Hn].
    destruct (Forall2_lookup_l _ _ _ _ _ Hf Hn) as (j & Hj & Hle). apply list_elem_of_lookup_2 in Hj. destruct (intent_le_id _ _ Hle) as (Hid & _ & _).
    apply (Hdis (oi_id i')); [rewrite <- Heq, <- Hid|]; by apply list_elem_of_fmap_2.
Qed.

Lemma confirmed_mono s l' : inv s → evolves (attendance (sys s)) l' →
  ∀ o i, o ∈ outboxes l' → i ∈ intents l' → oi_outbox_id i = ob_id o → confirmed o → has_receipt l' i.
Proof.
  intros Hinv He o i Ho Hi Hr Hc. destruct (ev_confirmed _ _ He (inv_keys _ Hinv) o i Ho Hi Hr Hc) as [H|(o0 & i0 & Ho0 & Hi0 & Hle & Hr0 & Hc0)]; [done|].
  eapply has_receipt_mono; [apply He|apply He|done|]. by eapply inv_confirmed.
Qed.

(** A step that changes the world as promised, keeps claims that hold and sends no
    POST keeps the invariant. *)
Lemma inv_evolve s x' ts :
  inv s → evolves (attendance (sys s)) (attendance x') →
  (∀ t, t ∈ ts → claim_ok (attendance (sys s)) (tk_claim t) ∨ claim_ok (attendance x') (tk_claim t)) →
  (∀ k, pending ts (posts s) k <= pending (tasks s) (posts s) k) →
  inv (mkSystem x' ts (posts s)).
Proof.
  intros Hinv He Ht Hc. constructor; simpl.
  - exact (ev_keys _ _ He (inv_keys _ Hinv)).
  - by apply (confirmed_mono s).
  - intros t [H|H]%Ht; [by eapply claim_ok_mono|done].
  - intros p Hp. eapply post_ok_mono; [done|]. by apply (inv_posts _ Hinv).
  - intros i Hi. specialize (Hc (oi_id i)). pose proof (count_mono _ _ _ Hinv He Hi). lia.
Qed.

Definition one_if (b : bool) : Z := if b then 1 else 0.
Lemma pending_task pre t post ps k :
  pending (pre ++ t :: post) ps k = pending (pre ++ post) ps k + one_if (posting t && (cl_intent_id (tk_claim t) =? k)).
Proof.
  unfold pending, zlen, one_if. rewrite !List.filter_app, !length_app. cbn [List.filter]. destruct (posting t && _); cbn [length]; lia.
Qed.
Lemma pending_post ts ps p k : pending ts (ps ++ [p]) k = pending ts ps k + one_if (p.1 =? k).
Proof. unfold pending, zlen, one_if. rewrite List.filter_app, length_app. cbn [List.filter]. destruct (p.1 =? k); cbn [length]; lia. Qed.
Lemma pending_checking ts cs ps k : pending (ts ++ map (λ c, mkTask c Checking) cs) ps k = pending ts ps k.
Proof.
  unfold pending. rewrite List.filter_app. rewrite (filter_false _ (map _ cs)); [by rewrite app_nil_r|]. by intros t (c & -> & _)%list_elem_of_fmap.
Qed.

(** Replacing a task by one of the same claim that is not about to post. *)
Lemma inv_replace s x' pre c ph ph' post :
  inv s → tasks s = pre ++ mkTask c ph :: post → evolves (attendance (sys s)) (attendance x') → posting (mkTask c ph') = false →
  inv (mkSystem x' (pre ++ mkTask c ph' :: post) (posts s)).
Proof.
  intros Hinv Ht He Hp. apply inv_evolve; [done|done| |].
  - intros t H. left. pose proof (inv_tasks _ Hinv) as Hc. rewrite Ht in Hc. apply elem_of_app in H as [H|[-> |H]%elem_of_cons].
    + apply Hc. set_solver.
    + apply (Hc (mkTask c ph)). set_solver.
    + apply Hc. set_solver.
  - intros k. rewrite Ht, !pending_task, Hp. simpl. unfold one_if. destruct (_ && _); lia.
Qed.

Lemma inv_drop s x' pre t post :
  inv s → tasks s = pre ++ t :: post → evolves (attendance (sys s)) (attendance x') → inv (mkSystem x' (pre ++ post) (posts s)).
Proof.
  intros Hinv Ht He. apply inv_evolve; [done|done| |].
  - intros t' H. left. apply (inv_tasks _ Hinv). rewrite Ht. set_solver.
  - intros k. rewrite Ht, pending_task. unfold one_if. destruct (_ && _); lia.
Qed.

Lemma inv_reserved s now pre c t post :
  inv s → tasks s = pre ++ mkTask c (Reserving t) :: post → attendance (reserve_post now (sys s) c).1 = put_intent (cl_intent_id c) (count_post now) (attendance (sys s)) →
  inv (mkSystem (reserve_post now (sys s) c).1 (pre ++ mkTask c Posting :: post) (posts s)).
Proof.
  intros Hinv Ht Hr. pose proof (inv_replace s (reserve_post now (sys s) c).1 pre c _ (Reserving t) post Hinv Ht (reserve_evolves now (sys s) c) eq_refl) as H.
  destruct H as [K C T P N]. simpl in *. constructor; simpl; [done|done| |done|].
  - intros t' Hin. apply elem_of_app in Hin as [Hin|[-> |Hin]%elem_of_cons]; [apply T; set_solver|apply (T (mkTask c (Reserving t))); set_solver|apply T; set_solver].
  - intros i' Hi'. rewrite Hr in Hi'. simpl in Hi'. rewrite pending_task. simpl.
    pose proof (inv_count _ Hinv) as N0. rewrite Ht in N0.
    apply elem_of_update_by in Hi' as [[Hi' Hne]|(i & Hi & Hid & ->)].
    + specialize (N0 _ Hi'). rewrite pending_task in N0. simpl in N0. unfold one_if in *. destruct (Z.eqb_spec (cl_intent_id c) (oi_id i')); lia.
    + specialize (N0 _ Hi). rewrite pending_task in N0. simpl in N0 |- *. unfold one_if in *. destruct (_ =? _); lia.
Qed.

Lemma inv_posted s pre c post status :
  inv s → tasks s = pre ++ mkTask c Posting :: post →
  inv (mkSystem (sys s) (pre ++ mkTask c (Rechecking status) :: post) (posts s ++ [(cl_intent_id c, cl_payload c)])).
Proof.
  intros Hinv Ht. pose proof (inv_replace s (sys s) pre c _ (Rechecking status) post Hinv Ht ltac:(reflexivity) eq_refl) as [K C T P N].
  constructor; simpl in *; [done|done|done| |].
  - intros p [Hp|Hp%list_elem_of_singleton]%elem_of_app; [by apply P|]. subst p.
    destruct (T (mkTask c (Rechecking status)) ltac:(set_solver)) as (Hd & i & Hi & Hid & _ & Hpd & _). exists i. simpl in *. by eexists.
  - intros i Hi. rewrite pending_post, pending_task. simpl. pose proof (inv_count _ Hinv i Hi) as N0. rewrite Ht, pending_task in N0. simpl in N0.
    unfold one_if in *. destruct (_ =? _); lia.
Qed.

Lemma step_inv s s' : inv s → step s s' → inv s'.
Proof.
  intros Hinv Hstep. destruct Hstep as [now claims s x' ordinary content H|s pre c post answer H|now s pre c t post H|s pre c post status H
    |s pre c post sent H|s pre c status post answer H r|now s pre c classification t post H|s pre t post H|s x' He].
  - destruct (split_evolves _ _ _ _ _ _ (inv_keys _ Hinv) H) as [He Hc]. apply inv_evolve; [done|done| |].
    + intros t [Ht|(c & -> & Hin)%list_elem_of_fmap]%elem_of_app; [left; by apply (inv_tasks _ Hinv)|right; by apply Hc].
    + intros k. by rewrite pending_checking.
  - eapply inv_replace; [done|done|reflexivity|]. unfold after_check. by destruct (bool_decide _).
  - destruct (reserve_spec now (sys s) c) as [[Hr Hw]|[Hr Hw]].
    + rewrite Hr. by eapply inv_reserved.
    + eapply inv_replace; [done|done|apply reserve_evolves|]. destruct (reserve_post now (sys s) c).2 as [[|]|]; done.
  - by apply inv_posted.
  - destruct sent.
    + pose proof (inv_posted s pre c post None Hinv H) as Hp. eapply (inv_replace _ (sys s) pre c (Rechecking None)) in Hp; [exact Hp|done|reflexivity|done].
    + rewrite app_nil_r. eapply inv_replace; [done|done|reflexivity|done].
  - eapply inv_replace; [done|done|reflexivity|done].
  - eapply inv_drop; [done|done|]. by apply persist_evolves, inv_keys.
  - eapply inv_drop; [done|done|reflexivity].
  - apply inv_evolve; [done|done|intros t Ht; left; by apply (inv_tasks _ Hinv)|done].
Qed.

Lemma steps_inv s s' : inv s → rtc step s s' → inv s'.
Proof. intros Hinv Hs. induction Hs; [done|]. eauto using step_inv. Qed.

(** A start: no task is running, nothing confirmed lacks its receipt. *)
Record start (s : system) : Prop := {
  st_keys : keys_unique (attendance (sys s));
  st_confirmed : ∀ o i, o ∈ outboxes (attendance (sys s)) → i ∈ intents (attendance (sys s)) → oi_outbox_id i = ob_id o → confirmed o →
    has_receipt (attendance (sys s)) i;
  st_idle : tasks s = [] ∧ posts s = [];
  st_attempts : ∀ i, i ∈ intents (attendance (sys s)) → 0 <= oi_post_attempts i }.

Lemma start_inv s : start s → inv s.
Proof.
  intros [K C [Ht Hp] A]. constructor; [done|done|rewrite Ht; by intros ? []%not_elem_of_nil|rewrite Hp; by intros ? []%not_elem_of_nil|].
  rewrite Ht, Hp. apply A.
Qed.

(** ** What holds in every run *)
(** C2: In every reachable state of the interleaved delivery, a row owned by an intent
    is confirmed (ACKED, ACKED_CHECK or ACKED_FIRMWARE) only if a receipt is stored
    for that intent, for the digest of its frozen payload and under its own scope:
    content for the content scope, membership for the membership scope. *)
Theorem confirmed_only_with_receipt s s' o i :
  start s → rtc step s s' → o ∈ outboxes (attendance (sys s')) → i ∈ intents (attendance (sys s')) → oi_outbox_id i = ob_id o → confirmed o →
  has_receipt (attendance (sys s')) i.
Proof. intros Hs Hr. pose proof (steps_inv _ _ (start_inv _ Hs) Hr) as H. by apply (inv_confirmed _ H). Qed.

(** C11: Every POST that was ever sent carries a payload with the digest frozen on its
    intent, so two POSTs of one intent carry the same digest; and the POSTs sent for
    an intent never exceed its stored count of attempts, whatever stops or fails. *)
Theorem posts_frozen_and_counted s s' :
  start s → rtc step s s' →
  (∀ k payload, (k, payload) ∈ posts s' → ∃ i d, i ∈ intents (attendance (sys s')) ∧ oi_id i = k ∧ oi_payload_digest i = Some d ∧ digest_of payload = Ok d) ∧
  (∀ k p q, (k, p) ∈ posts s' → (k, q) ∈ posts s' → digest_of p = digest_of q) ∧
  (∀ i, i ∈ intents (attendance (sys s')) → zlen (List.filter (λ p, p.1 =? oi_id i) (posts s')) <= oi_post_attempts i).
Proof.
  intros Hs Hr. pose proof (steps_inv _ _ (start_inv _ Hs) Hr) as H. split_and!.
  - intros k p Hp. apply (inv_posts _ H _ Hp).
  - intros k p q Hp Hq. destruct (inv_posts _ H _ Hp) as (i & d & Hi & Hid & Hd & Ep), (inv_posts _ H _ Hq) as (j & d' & Hj & Hjd & Hd' & Eq). simpl in *.
    assert (i = j) as -> by (eapply (NoDup_map_inj oi_id); [apply (inv_keys _ H)|done|done|simpl in *; congruence]). congruence.
  - intros i Hi. pose proof (inv_count _ H i Hi) as Hc. unfold pending in Hc. unfold zlen in *. lia.
Qed.

Lemma step_evolves s s' : inv s → step s s' → evolves (attendance (sys s)) (attendance (sys s')).
Proof.
  intros Hinv Hstep. destruct Hstep; simpl; try reflexivity; [|apply reserve_evolves|by apply persist_evolves, inv_keys|done].
  by eapply split_evolves; [apply inv_keys|].
Qed.
Lemma steps_evolve s s' : inv s → rtc step s s' → evolves (attendance (sys s)) (attendance (sys s')).
Proof. intros Hinv Hs. induction Hs; [reflexivity|]. etransitivity; [by apply step_evolves|]. eauto using step_inv. Qed.

(** From any reachable state on, an intent stays: its outbox row, event, alias,
    connector and scope never change, its payload, check and digest never change
    once frozen, its count of POSTs never falls, and a receipt is never removed. *)
Theorem intent_immutable s0 s s' i :
  start s0 → rtc step s0 s → rtc step s s' → i ∈ intents (attendance (sys s)) →
  (∃ i', i' ∈ intents (attendance (sys s')) ∧ intent_le i i') ∧
  content_receipts (attendance (sys s)) ⊆ content_receipts (attendance (sys s')) ∧ membership_receipts (attendance (sys s)) ⊆ membership_receipts (attendance (sys s')).
Proof.
  intros Hs H1 H2 Hi. pose proof (steps_evolve _ _ (steps_inv _ _ (start_inv _ Hs) H1) H2) as He.
  split_and!; [by eapply evolves_old|apply He|apply He].
Qed.

(** Splitting the claims of a batch sends to ordinary delivery exactly the claims,
    in order, whose row has no intent; a claim of an intent never falls back to it.
    Each claim sent to content delivery carries the payload frozen on its intent
    and the check of that payload under the intent's scope. *)
Theorem split_claims_routes now x claims x' ordinary content :
  keys_unique (attendance x) → split_claims now x claims = (x', ordinary, content) →
  ordinary = List.filter (λ c, negb (existsb (λ i, oi_outbox_id i =? wc_row_id c) (intents (attendance x)))) claims ∧
  ∀ c, c ∈ content → claim_ok (attendance x') c.
Proof.
  intros K H. split; [|by eapply split_evolves]. injection H as _ <- _. apply (si_ordinary _ _ _ (split_inv_end now x claims K)).
Qed.

(** C16: A claim whose row was taken again or is not in flight any more changes nothing:
    it reserves no POST and stores no result, whatever Oracle answered. *)
Theorem stale_claim_inert now x c classification t o :
  keys_unique (attendance x) → o ∈ outboxes (attendance x) → ob_id o = cl_row_id c →
  ob_attempt_count o ≠ cl_attempt c ∨ ob_status o ≠ "IN_FLIGHT" →
  reserve_post now x c = (x, Ok false) ∧ persist_result now x c classification t = (x, Ok ()).
Proof.
  intros [K _ _] Ho Hid Hst. assert (_owned x c = None) as E; [|by unfold reserve_post, persist_result; rewrite E].
  destruct (_owned x c) as [[row i]|] eqn:E; [|done]. apply owned_spec in E as (Hr & Hrid & _ & _ & _ & Hf & Ha & _).
  assert (row = o) as -> by (eapply (NoDup_map_inj ob_id); [done..|congruence]). naive_solver.
Qed.
End system.
