(* ===== verification/OracleReply.v ===== *)
(** * Requests and replies of Oracle delivery

    The shape of the check that is sent, what a positive reply proves about the claim
    it answers, and that such a reply completes the row through the approval hook. *)
From S2P Require Import Prelude PyText Hashes PyJson Calendar ZktPacket ZktDecode OccurrenceMatch QueueEvidence Custody DerivedEvidence CustodyWork SourceAttendance ManualGuard OracleDelivery OracleSystem.
Open Scope string_scope.
Open Scope list_scope.
Open Scope Z_scope.

(** ** Rounding to NUMBER(10,3) *)
Lemma dec_value_nonneg l : forallb is_digit l = true → 0 <= dec_value l.
Proof.
  induction l as [|b l IH] using rev_ind; [done|]. rewrite forallb_app, dec_value_snoc. simpl. rewrite andb_true_r. intros [H1 H2]%andb_true_iff.
  unfold is_digit, in_range in H2. bool_prop. specialize (IH H1). lia.
Qed.

Lemma decimal_nonneg text neg c e : decimal text = Some (neg, c, e) → 0 <= c.
Proof.
  unfold decimal. destruct (signed _) as [n body]. destruct (cut _ body) as [m ex]. destruct (cut _ m) as [ip fp].
  unfold digits_value. case_bool_decide; [done|]. destruct (forallb is_digit (ip ++ default [] fp)) eqn:Ef; [|done].
  simpl. destruct (match ex with None => _ | Some _ => _ end); [|done]. simpl. intros [= _ <- _]. by apply dec_value_nonneg.
Qed.

Lemma half_up_nearest c d : 0 < d → 2 * Z.abs (half_up c d * d - c) <= d.
Proof.
  intros Hd. unfold half_up. pose proof (Z.div_mod (2 * c + d) (2 * d) ltac:(lia)). pose proof (Z.mod_pos_bound (2 * c + d) (2 * d) ltac:(lia)). nia.
Qed.

Lemma thousandths_nonneg c e : 0 <= c → 0 <= thousandths c e.
Proof.
  intros Hc. unfold thousandths, half_up. destruct (Z.leb_spec (-3) e).
  - apply Z.mul_nonneg_nonneg; [done|apply Z.pow_nonneg; lia].
  - pose proof (Z.pow_pos_nonneg 10 (-3 - e)). apply Z.div_pos; lia.
Qed.

(** The number [t] thousandths is nearest to [c * 10^e]. *)
Definition nearest (t c e : Z) : Prop :=
  if -3 <=? e then t = c * 10 ^ (e + 3) else 2 * Z.abs (t * 10 ^ (-3 - e) - c) <= 10 ^ (-3 - e).

Lemma thousandths_nearest c e : nearest (thousandths c e) c e.
Proof.
  unfold nearest, thousandths. destruct (Z.leb_spec (-3) e); [done|]. apply half_up_nearest. apply Z.pow_pos_nonneg; lia.
Qed.

(** ** Requests *)
Section requests.
Context {platform : Platform}.
Abbreviation digest_of := (_protected_digest pii_lookup_key).

Lemma request_digest_bound payload scope check d :
  digest_of payload = Ok d → verification_check payload scope = Ok check →
  get "request_digest" check = PStr d ∧ get "verification_scope" check = PStr scope ∧ scope ∈ [VERIFICATION_SCOPE; MEMBERSHIP_SCOPE].
Proof.
  intros Hd. unfold verification_check, projection_check. case_bool_decide as E1; [subst; intros H|case_bool_decide as E2; [subst; intros H|done]].
  - repeat (apply bind_ok in H as (? & ? & H)). injection H as <-. simpl. split_and!; [congruence|done|set_solver].
  - repeat (apply bind_ok in H as (? & ? & H)). injection H as <-. simpl. split_and!; [congruence|done|set_solver].
Qed.

Lemma items_get payload ks fs : mapR (λ k, v ← item k payload; Ok (k, v)) ks = Ok fs → fs = map (λ k, (k, get k payload)) ks.
Proof.
  intros H%mapR_Forall2. induction H as [|k p ks fs Hk _ IH]; simpl; [done|]. apply bind_ok in Hk as (v & Hv & [= <-]). rewrite IH. do 2 f_equal.
  unfold item in Hv. destruct payload; try done. simpl. destruct (assoc k d); [|done]. simpl. congruence.
Qed.

Definition projection_fields (g : string → pyval) (ts drift : pyval) : list (string * pyval) :=
  [("event_uid", g "event_uid"); ("zone_id", g "zone_id"); ("device_id", g "device_id"); ("device_serial", g "device_serial"); ("user_id", g "user_id");
   ("employee_name", g "employee_name"); ("cnic", g "cnic"); ("timestamp", ts); ("raw_punch", g "raw_punch"); ("capturetype", g "capturetype");
   ("trust_status", g "trust_status"); ("clockdiff", drift)].
Lemma projection_fields_eq g ts drift :
  assoc_set "clockdiff" drift (assoc_set "timestamp" ts (map (λ k, (k, g k)) PROJECTION_FIELDS)) = projection_fields g ts drift.
Proof. reflexivity. Qed.

Lemma projected_clock_spec v drift :
  projected_clock v = Ok drift →
  v = PNone ∧ drift = PNone ∨
  ∃ neg c e t, decimal (py_str_val v) = Some (neg, c, e) ∧ nearest t c e ∧ 0 <= t < 10 ^ 10 ∧ drift = PStr (format_3f neg t).
Proof.
  intros H. destruct (is_none v) eqn:En; [left; destruct v; try done; by injection H as <-|]. right.
  assert (Hc : ∃ text, clock_number v = Some text ∧ drift = PStr text).
  { destruct v; try done; unfold projected_clock in H; (destruct (clock_number _) as [text|]; [|done]); injection H as <-; eauto. }
  destruct Hc as (s & Hs & ->). unfold clock_number in Hs.
  assert (H' : (decimal (py_str_val v) ≫= λ '(neg, c, e), if 10 ^ 10 <=? thousandths c e then None else Some (format_3f neg (thousandths c e))) = Some s)
    by (destruct v; done).
  destruct (decimal (py_str_val v)) as [[[neg c] e]|] eqn:Ed; [|done]. simpl in H'.
  destruct (Z.leb_spec (10 ^ 10) (thousandths c e)); [done|]. injection H' as <-. exists neg, c, e, (thousandths c e).
  split_and!; [done|apply thousandths_nearest|apply thousandths_nonneg; by eapply decimal_nonneg|lia|done].
Qed.

End requests.

(** ** Replies *)
Lemma size_omap_nil (missing : list pyval) (s : gset string) : s = list_to_set (omap as_str missing) → size s = length missing → s = ∅ → missing = [].
Proof. intros -> Hs He. rewrite He, size_empty in Hs. by destruct missing. Qed.

Section replies.
Context {platform : Platform}.
Abbreviation digest_of := (_protected_digest pii_lookup_key).

Lemma verify_content_match c response t :
  verify_content c response = ("MATCH", t) →
  ∃ row s, get "success" response = PBool true ∧ eq_str (get "verification_scope" response) VERIFICATION_SCOPE = true ∧
    py_eq (get "request_digest" response) (get "request_digest" (cl_check c)) = true ∧ get "results" response = PList [row] ∧
    py_eq (get "event_uid" row) (get "event_uid" (cl_payload c)) = true ∧ get "classification" row = PStr "MATCH" ∧
    get "raw_projection_verified" row = PBool true ∧ t = ContentToken s ∧ TOKEN s = true.
Proof.
  unfold verify_content, UNKNOWN. destruct (is_dict response); simpl; [|done]. destruct (get "results" response) as [| | | | |[|row [|]]|] eqn:Er; try done.
  destruct (is_true (get "success" response) && _ && _ && _) eqn:E1; simpl; [|done]. destruct (is_dict row && _) eqn:E2; simpl; [|done].
  destruct (get "classification" row) as [| | | |cls| |] eqn:Ec; try done. destruct (get "current_content_token" row) as [| | | |tok| |]; try done.
  destruct (TOKEN tok && _) eqn:E3; [|done]. intros [= -> <-]. apply andb_true_iff in E3 as [Ht Hk]. exists row, tok.
  apply andb_true_iff in E1 as [E1 Hreq]. apply andb_true_iff in E1 as [E1 Hsc]. apply andb_true_iff in E1 as [Hsuc _]. apply andb_true_iff in E2 as [_ Huid].
  unfold content_consistent in Hk. rewrite bool_decide_true in Hk by done. apply andb_true_iff in Hk as [Hraw _].
  split_and!; try done; [by destruct (get "success" response) as [|[]| | | | |]|by destruct (get "raw_projection_verified" row) as [|[]| | | | |]].
Qed.

Lemma verify_content_not_uid c response t : verify_content c response ≠ ("UID_PRESENT", t).
Proof.
  assert (Hc : ∀ raw ds, content_consistent c "UID_PRESENT" raw ds = false) by reflexivity.
  unfold verify_content, UNKNOWN. intros H. repeat (destruct_match H; try done). injection H as -> <-.
  match goal with E : TOKEN _ && _ = true |- _ => by rewrite Hc, andb_false_r in E end.
Qed.

Lemma membership_present r uid missing :
  ords_membership_missing (Some 200) r {[uid]} = Some missing → uid ∉ missing →
  get "success" r = PBool true ∧ get "missing_event_uids" r = PList [] ∧ py_eq (get "received_count" r) (PInt 1) = true ∧
  py_eq (get "existing_count" r) (PInt 1) = true ∧ py_eq (get "missing_count" r) (PInt 0) = true.
Proof.
  unfold ords_membership_missing. intros H Hu. destruct (_ || _ || _) eqn:E0; [done|]. destruct (get "missing_event_uids" r) as [| | | | |l|] eqn:El; try done.
  destruct (existsb _ l); [done|]. cbv zeta in H. set (ms := list_to_set (omap as_str l) : gset string) in *.
  destruct (negb (bool_decide (size ms = length l)) || _) eqn:E1; [done|]. rewrite size_singleton in H. change (Z.of_nat 1) with 1 in H.
  destruct (py_eq (get "received_count" r) (PInt 1)) eqn:Er; [|done]. destruct (py_eq (get "missing_count" r) _) eqn:Em; [|done].
  destruct (py_eq (get "existing_count" r) _) eqn:Ee; [|done]. injection H as <-. bool_prop.
  assert (ms = ∅) as Hms by set_solver. assert (l = []) as -> by by eapply (size_omap_nil _ ms).
  rewrite Hms, size_empty in Em, Ee. split_and!; [by destruct (get "success" r) as [|[]| | | | |]|done..].
Qed.

Lemma verify_membership_classes c a classification t :
  verify_membership c a = Ok (classification, t) → classification ∈ ["UNKNOWN"; "MISSING"; "UID_PRESENT"].
Proof.
  unfold verify_membership. intros H. apply bind_ok in H as (ex & _ & H).
  repeat (first [destruct_match H | apply bind_ok in H as (? & _ & H)]; try done); injection H as <- <-; set_solver.
Qed.

(** A positive answer is about this claim: MATCH means the content reader
    answered the request with the digest of the claim's frozen payload, for one row
    with the claim's uid, raw columns verified, and a content token; UID_PRESENT
    means the membership reader, asked for the claim's uid alone, answered with
    status 200 that one was received, one exists and none is missing, and the
    proof names the frozen payload. No other answer is positive. *)
Theorem positive_answer_bound l c a classification t :
  claim_ok l c → verify c a = Ok (classification, t) → classification ∈ ["MATCH"; "UID_PRESENT"] →
  (classification = "MATCH" ∧ ∃ response row s, an_content a = Ok response ∧ get "success" response = PBool true ∧
     get "request_digest" response = PStr (cl_payload_digest c) ∧ get "results" response = PList [row] ∧
     py_eq (get "event_uid" row) (get "event_uid" (cl_payload c)) = true ∧ get "raw_projection_verified" row = PBool true ∧ t = ContentToken s ∧ TOKEN s = true) ∨
  (classification = "UID_PRESENT" ∧ ∃ response uid response_digest, an_membership a = Some (200, Some response) ∧ get "success" response = PBool true ∧
     get "event_uid" (cl_payload c) = PStr uid ∧ get "missing_event_uids" response = PList [] ∧ py_eq (get "received_count" response) (PInt 1) = true ∧
     py_eq (get "existing_count" response) (PInt 1) = true ∧ digest_of (normalized_reply response) = Ok response_digest ∧
     t = Membership (mkProof uid (cl_payload_digest c) (cl_payload_digest c) response_digest)).
Proof.
  intros (Hd & i & _ & _ & _ & _ & Hv) H Hcls. destruct (request_digest_bound _ _ _ _ Hd Hv) as (Hreq & Hsc & _).
  unfold verify in H. rewrite Hsc in H. simpl in H. destruct (bool_decide (oi_verification_scope i = MEMBERSHIP_SCOPE)) eqn:Em.
  - assert (classification = "UID_PRESENT") as -> by (apply verify_membership_classes in H; set_solver). right. split; [done|].
    unfold verify_membership in H. apply bind_ok in H as (ex & _ & H). destruct (negb _); [done|].
    destruct (get "event_uid" (cl_payload c)) as [| | | |uid| |] eqn:Eu; try done.
    destruct (_membership_request _ _) as [r|] eqn:Er; [|done]. destruct (_ || _); [done|].
    destruct (ords_membership_missing _ _ _) as [ms|] eqn:Ems; [|done]. case_bool_decide as Hin; [done|]. rewrite Hreq in H.
    apply bind_ok in H as (rd & Hrd & [= <-]). destruct (membership_present _ _ _ Ems Hin) as (P1 & P2 & P3 & P4 & _).
    unfold _membership_request in Er. destruct (an_configured a); [|done]. destruct (an_membership a) as [[st body]|]; [|done]. simpl in Er.
    destruct (Z.eqb_spec st 200); [|done]. subst. exists r, uid, rd. by split_and!.
  - destruct (negb _); [by injection H as <- <-; set_solver|]. apply bind_ok in H as (response & Hr & H). apply Ok_inj in H.
    assert (classification = "MATCH") as ->.
    { apply elem_of_cons in Hcls as [-> |Hcls]; [done|]. apply list_elem_of_singleton in Hcls as ->. by apply verify_content_not_uid in H. }
    left. split; [done|]. destruct (verify_content_match _ _ _ H) as (row & s & P1 & _ & P3 & P4 & P5 & _ & P7 & P8 & P9). exists response, row, s.
    rewrite Hreq in P3. apply py_eq_str in P3. by split_and!.
Qed.

(** ** Completion *)
(** Assigning a row and its approved event passes the hook unchanged. *)
Lemma flush_assigned old l row e f g :
  row_by ob_id (ob_id row) (outboxes l) = Some row → row_by ae_id (ae_id e) (events l) = Some e → ob_attendance_event_id row = Some (ae_id e) →
  (∀ o, ob_id (f o) = ob_id o ∧ ob_attendance_event_id (f o) = ob_attendance_event_id o) → (∀ a, ae_id (g a) = ae_id a) →
  delivery_authorized (approved l) (g e) = true →
  let l' := before_flush old [ae_id e] [ob_id row] (assign (ob_id row) (ae_id e) f g l) in
  row_by ob_id (ob_id row) (outboxes l') = Some (f row) ∧ row_by ae_id (ae_id e) (events l') = Some (set_release_required (requires_approval (g e)) (g e)).
Proof.
  intros Hrow Hev Hlink Hf Hg Hauth. cbv zeta. rewrite before_flush_eq. cbv zeta. simpl.
  set (evs := map (flush_event old (approved l) [ae_id e]) (update_by ae_id (ae_id e) g (events l))).
  assert (Hev' : row_by ae_id (ae_id e) evs = Some (set_release_required (requires_approval (g e)) (g e))).
  { unfold evs. rewrite row_by_map by (intros; apply flush_event_id). rewrite row_by_update by done. rewrite Hev. simpl. f_equal.
    unfold flush_event. rewrite bool_decide_true by (rewrite Hg; by left). by apply retain_event_approved. }
  split; [|done]. rewrite row_by_map by (intros; apply flush_outbox_id). rewrite row_by_update by apply Hf. rewrite Hrow. simpl. f_equal.
  unfold flush_outbox. rewrite bool_decide_true by (rewrite (proj1 (Hf _)); by left). unfold retain_outbox. destruct (negb _); [done|].
  rewrite (proj2 (Hf _)), Hlink. simpl. destruct (_ =? 0); [done|]. rewrite Hev'. by rewrite authorized_set_required.
Qed.

(** What an unchanged claim says about its row and event. *)
Lemma unchanged_spec x c i row e :
  unchanged x c i row = Ok true → event_at (oi_attendance_event_id i) x = Some e →
  pii_lookup_key ≠ "" ∧ ob_attendance_event_id row = Some (ae_id e) ∧ delivery_authorized (approved (attendance x)) e = true.
Proof.
  unfold unchanged. intros H He. apply bind_ok in H as ([[e' payload] check] & Hc & _). unfold _current in Hc. rewrite He in Hc.
  destruct (_ || _) eqn:Ek; [done|]. destruct (row_by c_id _ _) as [co|]; [|done]. destruct (alias_at _ _) as [al|]; [|done].
  apply bind_ok in Hc as ([] & Hg & _). unfold current_guards, require in Hg. bool_prop.
  apply bind_ok in Hg as ([] & G1 & Hg). apply bind_ok in Hg as (bid & _ & Hg). apply bind_ok in Hg as ([] & _ & Hg).
  apply bind_ok in Hg as (b & _ & Hg). apply bind_ok in Hg as ([] & G2 & _).
  destruct (bool_decide (c_firmware_family co = _) && _ && _ && _) eqn:E1; [|done]. destruct (b && _ && _) eqn:E2; [|done]. bool_prop. done.
Qed.

Lemma protected_digest_ok v : pii_lookup_key ≠ "" → ∃ d, digest_of v = Ok d.
Proof. intros H. unfold _protected_digest. rewrite bool_decide_false by done. eauto. Qed.

(** The receipts are added to the ledger, which is otherwise as before. *)
Lemma settled_positive now c i e row classification t l :
  pii_lookup_key ≠ "" → oi_payload_digest i = Some (cl_payload_digest c) →
  is_Some (membership_settles c i e classification t) ∨ is_Some (content_settles i classification t) →
  ∃ l2 path, settle_result now c i e row classification t l = Ok (assign row (ae_id e) (ack_row now) (ack_event now path) l2) ∧
    outboxes l2 = outboxes l ∧ events l2 = events l ∧ approved l2 = approved l ∧ has_receipt l2 i.
Proof.
  intros Hk Hd Hs. unfold settle_result. destruct (membership_settles _ _ _ _ _) as [p|] eqn:Em.
  - eexists _, _. split; [done|]. unfold membership_settles in Em. destruct t as [| |p0]; try done. destruct (_ && _) eqn:Eg; [|done]. bool_prop.
    destruct (add_membership_receipt_spec c i e p l) as (_ & A2 & _ & _ & A5); [done..|].
    unfold add_membership_receipt in *. destruct (existsb _ _); by split_and!.
  - destruct Hs as [[? ?]|[s Ec]]; [done|]. rewrite Ec. unfold content_settles in Ec. destruct t as [|s0|]; try done. destruct (_ && _) eqn:Eg; [|done].
    injection Ec as ->. bool_prop. destruct (add_content_receipt c i e s l) as [l2|] eqn:Ea.
    + exists l2, "ADD_ZKT_PROJECTION_V2". split; [done|]. destruct (add_content_receipt_spec c i e s l l2) as (_ & A2 & _ & _ & A5); [done..|].
      unfold add_content_receipt in Ea. destruct (existsb _ _) in Ea; [by simplify_eq/=|]. apply bind_ok in Ea as (? & _ & [= <-]). by split_and!.
    + exfalso. unfold add_content_receipt in Ea. destruct (existsb _ _) in Ea; [done|]. destruct (protected_digest_ok (cl_check c) Hk) as [d' Hd']. by rewrite Hd' in Ea.
Qed.

(** A positive result of a claim that still owns its row and whose evidence is
    unchanged completes it: after the commit, the approval hook included, the row
    and its event are ACKED_CHECK with the time of the confirmation, nothing is
    scheduled again, and the receipt for the frozen payload is stored. *)
Theorem persist_completes now x c row i e classification t :
  keys_unique (attendance x) → _owned x c = Some (row, i) → event_at (oi_attendance_event_id i) x = Some e → unchanged x c i row = Ok true →
  is_Some (membership_settles c i e classification t) ∨ is_Some (content_settles i classification t) →
  ∃ x' e', persist_result now x c classification t = (x', Ok ()) ∧
    row_by ob_id (ob_id row) (outboxes (attendance x')) = Some (ack_row now row) ∧
    event_at (ae_id e) x' = Some e' ∧ ae_ords_status e' = "ACKED_CHECK" ∧ ae_oracle_confirmed_at e' = Some now ∧ has_receipt (attendance x') i.
Proof.
  intros [K _ _] Ho He Hu Hs. destruct (owned_spec _ _ _ _ Ho) as (Hrow & _ & _ & _ & _ & _ & _ & Hd).
  destruct (unchanged_spec _ _ _ _ _ Hu He) as (Hk & Hlink & Hauth). unfold persist_result. rewrite Ho, He. unfold rechecked. rewrite Hu.
  destruct (settled_positive now c i e (ob_id row) classification t (attendance x) Hk Hd Hs) as (l2 & path & -> & Hob & Hev & Hap & Hrec).
  assert (Hrow' : row_by ob_id (ob_id row) (outboxes l2) = Some row) by (rewrite Hob; by apply row_by_unique).
  assert (Hev' : row_by ae_id (ae_id e) (events l2) = Some e).
  { rewrite Hev. unfold event_at in He. apply row_by_some in He as Hid. destruct Hid as [_ Hid]. by rewrite Hid. }
  assert (Hauth' : delivery_authorized (approved l2) (ack_event now path e) = true).
  { rewrite Hap. apply authorized_set_delivery; [unfold HELD; set_solver|done]. }
  destruct (flush_assigned (attendance x) l2 row e (ack_row now) (ack_event now path)) as [H1 H2]; [done..|].
  eexists _, _. split; [done|]. split; [exact H1|]. split; [exact H2|]. split_and!; [done|done|].
  eapply has_receipt_mono; [..|reflexivity|exact Hrec]; done.
Qed.
End replies.

(** ** A concrete run: missing, posted, found and completed *)
Definition wit_occurrence : string := Eval vm_compute in occurrence_id "ZK1" sample_epoch 4 zeros64.
Definition wit_time : datetime := mkDT 2026 1 2 3 4 5 0 (Some 0).
Definition wit_manifest_row : TerminalRecordManifest :=
  mkManifest 10 3 7 "ZK1" 1 (Some 5) 4 true (Some 16) zeros64 "k" (Some 1) "RAW_PRESERVED" (Some "raw") "BASELINE" wit_time.
Definition wit_tables : db :=
  mkDb [mkEpoch 5 sample_epoch 7 1 1 None] [wit_manifest_row] [mkAlias 1 wit_occurrence 7 5 4 10 zeros64 (Some 1)] [] [] [] [].
Definition wit_attendance_event : AttendanceEvent :=
  mkEvent 1 wit_occurrence 3 7 (Some "ZK1") None "7" wit_time wit_time "LIVE" (Some "0") (Some "1") PNone "PENDING" "RESOLVED" None false None (Some "sealed")
    (Some "Ali") false (Some "-0.0005") "OK" None None.
Definition wit_outbox (status : string) : OrdsOutbox := mkOutbox 1 (Some 1) "LIVE" status None 1 None (Some 100) None None None 50.
Definition wit_intent : ZktOracleIntent := mkIntent 1 1 1 1 3 VERIFICATION_SCOPE None None None None 0 None.
Definition wit_world0 (status : string) : world :=
  mkWorld wit_tables (mkSession [] [] 1 None) [wit_connector] (mkLedger [wit_attendance_event] [] [wit_outbox status] [wit_intent] [] [] no_approvals []) [] [] [].

Definition wit_payload : pyval := Eval vm_compute in oracle_payload wit_connector wit_terminal wit_attendance_event "1234512345671".
Definition wit_seal (decrypted : string → res pyval) : Platform := {|
  decrypt_json := decrypted; encrypt_json := λ v, Ok (if is_none (get "contract_version" v) then "payload" else "check");
  decrypt_text := λ _, Ok None; decrypt_cnic := λ _, Ok (Some "1234512345671"); pii_fernet_key := true; pii_lookup_key := "key";
  fromisoformat := λ _, Some wit_time; superseded_by_automatic_release := λ _ _ _, Ok false; delivery_proof_valid := λ _ _ _, Ok true |}.
Definition wit_check : pyval := Eval vm_compute in
  match projection_check (platform := wit_seal (λ _, Ok PNone)) wit_payload with Ok v => v | Raise _ _ => PNone end.
Definition wit_platform : Platform := wit_seal (λ s, Ok (if bool_decide (s = "payload") then wit_payload else wit_check)).

Example wit_clock : get "clockdiff" (get "projection" wit_check) = PStr "-0.001".
Proof. reflexivity. Qed.

Definition wit_digest : string := Eval vm_compute in match get "request_digest" wit_check with PStr s => s | _ => "" end.
Definition wit_reply (classification : string) (raw : bool) (downstream : string) : oracle_answer :=
  mkAnswer (Ok (PDict [("success", PBool true); ("contract_version", PStr "2"); ("verification_scope", PStr VERIFICATION_SCOPE);
    ("request_digest", PStr wit_digest);
    ("results", PList [PDict [("event_uid", PStr wit_occurrence); ("classification", PStr classification); ("current_content_token", PStr zeros64);
      ("raw_projection_verified", PBool raw); ("downstream_status", PStr downstream)]])])) true None.

Definition wit_claim : claim := mkClaim 1 1 1 wit_digest wit_payload wit_check.
Definition wit_worker_claim (row : Z) : worker_claim := mkWorkerClaim row wit_payload 3 false.

Definition wit_s0 : system := mkSystem (wit_world0 "IN_FLIGHT") [] [].
Definition wit_x1 : world := Eval vm_compute in (split_claims (platform := wit_platform) 1000 (wit_world0 "IN_FLIGHT") [wit_worker_claim 1; wit_worker_claim 9]).1.1.
Definition wit_s1 : system := mkSystem wit_x1 [mkTask wit_claim Checking] [].
Definition wit_s2 : system := mkSystem wit_x1 [mkTask wit_claim (Reserving (ContentToken zeros64))] [].
Definition wit_x3 : world := Eval vm_compute in (reserve_post (platform := wit_platform) 2000 wit_x1 wit_claim).1.
Definition wit_s3 : system := mkSystem wit_x3 [mkTask wit_claim Posting] [].
Definition wit_s4 : system := mkSystem wit_x3 [mkTask wit_claim (Rechecking (Some 201))] [(1, wit_payload)].
Definition wit_s5 : system := mkSystem wit_x3 [mkTask wit_claim (Persisting "MATCH" (ContentToken zeros64))] [(1, wit_payload)].
Definition wit_x6 : world := Eval vm_compute in (persist_result (platform := wit_platform) 3000 wit_x3 wit_claim "MATCH" (ContentToken zeros64)).1.
Definition wit_s6 : system := mkSystem wit_x6 [] [(1, wit_payload)].

Abbreviation wit_step := (step (platform := wit_platform)).
Lemma wit_split : split_claims (platform := wit_platform) 1000 (wit_world0 "IN_FLIGHT") [wit_worker_claim 1; wit_worker_claim 9]
  = (wit_x1, [wit_worker_claim 9], [wit_claim]).
Proof. vm_compute. reflexivity. Qed.
Lemma wit_reserve : reserve_post (platform := wit_platform) 2000 wit_x1 wit_claim = (wit_x3, Ok true).
Proof. vm_compute. reflexivity. Qed.
Lemma wit_persist : persist_result (platform := wit_platform) 3000 wit_x3 wit_claim "MATCH" (ContentToken zeros64) = (wit_x6, Ok ()).
Proof. vm_compute. reflexivity. Qed.
Lemma wit_verify_missing : verify (platform := wit_platform) wit_claim (wit_reply "MISSING" false "NOT_VERIFIED") = Ok ("MISSING", ContentToken zeros64).
Proof. vm_compute. reflexivity. Qed.
Lemma wit_verify_match : verify (platform := wit_platform) wit_claim (wit_reply "MATCH" true "MATCH") = Ok ("MATCH", ContentToken zeros64).
Proof. vm_compute. reflexivity. Qed.

Lemma wit_steps_posted : rtc wit_step wit_s1 wit_s4.
Proof.
  apply (rtc_l _ _ wit_s2).
  { pose proof (check_step (platform := wit_platform) wit_s1 [] wit_claim [] (wit_reply "MISSING" false "NOT_VERIFIED") eq_refl) as H.
    rewrite wit_verify_missing in H. exact H. }
  apply (rtc_l _ _ wit_s3).
  { pose proof (reserve_step (platform := wit_platform) 2000 wit_s2 [] wit_claim (ContentToken zeros64) [] eq_refl) as H.
    change (sys wit_s2) with wit_x1 in H. rewrite wit_reserve in H. exact H. }
  apply (rtc_l _ _ wit_s4); [|apply rtc_refl]. exact (post_step (platform := wit_platform) wit_s3 [] wit_claim [] (Some 201) eq_refl).
Qed.
Lemma wit_steps_done : rtc wit_step wit_s4 wit_s6.
Proof.
  apply (rtc_l _ _ wit_s5).
  { pose proof (recheck_step (platform := wit_platform) wit_s4 [] wit_claim (Some 201) [] (wit_reply "MATCH" true "MATCH") eq_refl) as H.
    cbv zeta in H. rewrite wit_verify_match in H. exact H. }
  apply (rtc_l _ _ wit_s6); [|apply rtc_refl].
  pose proof (persist_step (platform := wit_platform) 3000 wit_s5 [] wit_claim "MATCH" (ContentToken zeros64) [] eq_refl) as H.
  change (sys wit_s5) with wit_x3 in H. rewrite wit_persist in H. exact H.
Qed.
Lemma wit_step_split : wit_step wit_s0 wit_s1.
Proof. exact (split_step (platform := wit_platform) 1000 [wit_worker_claim 1; wit_worker_claim 9] wit_s0 _ _ _ wit_split). Qed.
Lemma wit_steps : rtc wit_step wit_s0 wit_s6.
Proof. eapply rtc_l; [exact wit_step_split|]. transitivity wit_s4; [exact wit_steps_posted|exact wit_steps_done]. Qed.

Lemma wit_keys_of x : map ob_id (outboxes (attendance x)) = [1] → map oi_id (intents (attendance x)) = [1] → map oi_outbox_id (intents (attendance x)) = [1] →
  keys_unique (attendance x).
Proof. intros H1 H2 H3. constructor; [rewrite H1|rewrite H2|rewrite H3]; repeat constructor; set_solver. Qed.
Lemma wit_start : start wit_s0.
Proof.
  constructor; [by apply wit_keys_of| |done|].
  - intros o i Ho%list_elem_of_singleton _ _ Hc. subst o. exfalso. revert Hc. unfold confirmed. simpl. set_solver.
  - intros i Hi%list_elem_of_singleton. by subst i.
Qed.

Definition wit_row6 : OrdsOutbox := ack_row 3000 (wit_outbox "IN_FLIGHT").
Definition wit_intent6 : ZktOracleIntent := Eval vm_compute in List.hd wit_intent (intents (attendance wit_x6)).

Lemma confirmed_only_with_receipt_witness :
  ob_status wit_row6 = "ACKED_CHECK" ∧ wit_row6 ∈ outboxes (attendance wit_x6) ∧ has_receipt (attendance wit_x6) wit_intent6.
Proof.
  assert (Hr : wit_row6 ∈ outboxes (attendance wit_x6)) by (apply list_elem_of_singleton; reflexivity). split_and!; [reflexivity|exact Hr|].
  refine (confirmed_only_with_receipt (platform := wit_platform) wit_s0 wit_s6 wit_row6 wit_intent6 wit_start wit_steps Hr _ eq_refl _).
  - apply list_elem_of_singleton. reflexivity.
  - right. left.
Defined.

Lemma posts_frozen_and_counted_witness :
  posts wit_s6 = [(1, wit_payload)] ∧ oi_post_attempts wit_intent6 = 1 ∧
  ∃ i d, i ∈ intents (attendance wit_x6) ∧ oi_id i = 1 ∧ oi_payload_digest i = Some d ∧ _protected_digest "key" wit_payload = Ok d.
Proof.
  split_and!; [reflexivity|reflexivity|].
  apply (proj1 (posts_frozen_and_counted (platform := wit_platform) wit_s0 wit_s6 wit_start wit_steps)). left.
Defined.

Lemma wit_steps_split : rtc wit_step wit_s0 wit_s1.
Proof. apply rtc_once. exact wit_step_split. Qed.
Lemma wit_steps_rest : rtc wit_step wit_s1 wit_s6.
Proof. transitivity wit_s4; [exact wit_steps_posted|exact wit_steps_done]. Qed.

Lemma intent_immutable_witness :
  ∃ i i', i ∈ intents (attendance wit_x1) ∧ oi_payload_digest i = Some wit_digest ∧ i' ∈ intents (attendance wit_x6) ∧ intent_le i i'.
Proof.
  exists (List.hd wit_intent (intents (attendance wit_x1))).
  assert (Hi : List.hd wit_intent (intents (attendance wit_x1)) ∈ intents (attendance wit_x1)) by left.
  destruct (intent_immutable (platform := wit_platform) wit_s0 wit_s1 wit_s6 _ wit_start wit_steps_split wit_steps_rest Hi) as [(i' & H1 & H2) _].
  exists i'. split_and!; [exact Hi|reflexivity|exact H1|exact H2].
Defined.

Lemma wit_keys0 status : keys_unique (attendance (wit_world0 status)).
Proof. by apply wit_keys_of. Qed.
Lemma wit_keys3 : keys_unique (attendance wit_x3).
Proof. by apply wit_keys_of. Qed.

Lemma split_claims_routes_witness :
  claim_ok (platform := wit_platform) (attendance wit_x1) wit_claim ∧
  [wit_worker_claim 9] = List.filter (λ c, negb (existsb (λ i, oi_outbox_id i =? wc_row_id c) [wit_intent])) [wit_worker_claim 1; wit_worker_claim 9].
Proof.
  destruct (split_claims_routes (platform := wit_platform) 1000 (wit_world0 "IN_FLIGHT") _ _ _ _ (wit_keys0 "IN_FLIGHT") wit_split) as [H1 H2].
  split; [apply H2; left|exact H1].
Defined.

Lemma stale_claim_inert_witness :
  persist_result (platform := wit_platform) 9000 (wit_world0 "PENDING") wit_claim "MATCH" (ContentToken zeros64) = (wit_world0 "PENDING", Ok ()).
Proof.
  refine (proj2 (stale_claim_inert (platform := wit_platform) 9000 (wit_world0 "PENDING") wit_claim "MATCH" (ContentToken zeros64) (wit_outbox "PENDING")
    (wit_keys0 "PENDING") _ eq_refl _)); [left|]. right. discriminate.
Defined.


Lemma wit_claim_ok : claim_ok (platform := wit_platform) (attendance wit_x1) wit_claim.
Proof. apply (split_evolves (platform := wit_platform) _ _ _ _ _ _ (wit_keys0 "IN_FLIGHT") wit_split). left. Qed.
Lemma positive_answer_bound_witness :
  ∃ response, an_content (wit_reply "MATCH" true "MATCH") = Ok response ∧ get "request_digest" response = PStr wit_digest.
Proof.
  destruct (positive_answer_bound (platform := wit_platform) _ _ _ _ _ wit_claim_ok wit_verify_match) as [[_ (r & row & s & H1 & _ & H2 & _)]|[H _]].
  - left.
  - exists r. split; [exact H1|exact H2].
  - discriminate H.
Defined.

Lemma persist_completes_witness :
  ∃ x' e', persist_result (platform := wit_platform) 3000 wit_x3 wit_claim "MATCH" (ContentToken zeros64) = (x', Ok ()) ∧
    event_at 1 x' = Some e' ∧ ae_ords_status e' = "ACKED_CHECK".
Proof.
  destruct (persist_completes (platform := wit_platform) 3000 wit_x3 wit_claim (wit_outbox "IN_FLIGHT") (List.hd wit_intent (intents (attendance wit_x3)))
    wit_attendance_event "MATCH" (ContentToken zeros64) wit_keys3) as (x' & e' & H1 & _ & H2 & H3 & _).
  - reflexivity.
  - reflexivity.
  - vm_compute. reflexivity.
  - right. eexists. reflexivity.
  - exists x', e'. split_and!; [exact H1|exact H2|exact H3].
Defined.
