(* ===== verification/OrdsWorker.v ===== *)
(** * The ordinary delivery worker (worker.py)

    What the worker does with replies of Oracle: classification of replies, the
    circuit breaker of the route, the results of a delivery batch, and the two
    audits that check confirmed rows again. Every operation is one transaction
    over the outbox and the events; the alerts it raises are not modelled.

    Time is in microseconds. Replies are parameters. *)
From S2P Require Import Prelude PyText Hashes PyJson Calendar QueueEvidence Custody CustodyWork SourceAttendance ManualGuard OracleDelivery OracleSystem.
Open Scope string_scope.
Open Scope list_scope.
Open Scope Z_scope.

Definition SECOND : Z := 1000000.

(** ** The circuit breaker *)
Definition ORDS_CIRCUIT_BACKOFF_INITIAL_SECONDS : Z := 15.
Definition ORDS_CIRCUIT_BACKOFF_MAX_SECONDS : Z := 300.
Record circuit := mkCircuit { circuit_failures : Z; circuit_open_until : Z }.
Definition closed : circuit := mkCircuit 0 0.

Definition ords_circuit_is_open (now : Z) (c : circuit) : bool := now <? circuit_open_until c.
Definition ords_circuit_retry_after_seconds (now : Z) (c : circuit) : Z := Z.max 0 (Z.quot (circuit_open_until c - now + 999000) SECOND).

Definition truthy_str (o : option string) : bool := nonempty o.
Definition record_ords_route_result (status : option Z) (transport_error : option string) (now : Z) (c : circuit) : circuit :=
  match status with
  | Some _ => closed
  | None =>
      if negb (truthy_str transport_error) then c
      else
        let failures := circuit_failures c + 1 in
        let exponent := Z.min (failures - 1) 20 in
        let delay := Z.min ORDS_CIRCUIT_BACKOFF_MAX_SECONDS (ORDS_CIRCUIT_BACKOFF_INITIAL_SECONDS * 2 ^ exponent) in
        mkCircuit failures (Z.max (circuit_open_until c) (now + delay * SECOND))
  end.

(** ** Replies *)
Definition forced_rate (batch_size concurrency : Z) : Z * Z :=
  let slots := Z.max 1 (Z.min concurrency 64) in (Z.max 0 (Z.min batch_size slots), slots).

Definition ords_delivery_succeeded (status : option Z) (body : pyval) : bool :=
  match status with
  | Some s => if s =? 409 then true else bool_decide (s ∈ [200; 201]) && is_dict body && is_true (get "success" body)
  | None => false
  end.
Definition ORDS_PERMANENT_REJECTION_STATUSES : list Z := [400; 413; 422].
Definition ords_failure_is_permanent (status : option Z) : bool :=
  match status with Some s => bool_decide (s ∈ ORDS_PERMANENT_REJECTION_STATUSES) | None => false end.

Definition ORDS_SAFE_TRANSPORT_ERRORS : list string :=
  ["ConnectError"; "ConnectTimeout"; "NetworkError"; "PoolTimeout"; "ReadError"; "ReadTimeout"; "RemoteProtocolError"; "TimeoutException";
   "WriteError"; "WriteTimeout"].
Definition word_byte (b : byte) : byte := if is_alnum b || bool_decide (b = x5f) then b else x5f.
Definition ords_failure_category (status : option Z) (transport_error : option string) (response_parsed : bool) : string :=
  match transport_error with
  | Some e =>
      if bool_decide (e = "") then
        match status with None => "TRANSPORT_UNKNOWN" | Some s => if response_parsed then "HTTP_" +:+ py_str s else "HTTP_" +:+ py_str s +:+ "_INVALID_JSON" end
      else
        let safe := if bool_decide (e ∈ ORDS_SAFE_TRANSPORT_ERRORS) then e else "Error" in
        "TRANSPORT_" +:+ of_chars (take 60 (map upper_byte (map word_byte (chars safe))))
  | None => match status with None => "TRANSPORT_UNKNOWN" | Some s => if response_parsed then "HTTP_" +:+ py_str s else "HTTP_" +:+ py_str s +:+ "_INVALID_JSON" end
  end.

(** A request: it raised, or it has a status and a body that may be empty or not JSON. *)
Inductive http_outcome := HttpError (error_class : string) | HttpReply (status : Z) (content : option (option pyval)).
Record reply := mkReply { rp_status : option Z; rp_body : pyval; rp_error : option string; rp_parsed : bool }.
Definition read_reply (empty_ok : Z → bool) (o : http_outcome) : reply :=
  match o with
  | HttpError e => mkReply None PNone (Some e) false
  | HttpReply s (Some (Some body)) => mkReply (Some s) body None true
  | HttpReply s (Some None) => mkReply (Some s) PNone None false
  | HttpReply s None => mkReply (Some s) PNone None (empty_ok s)
  end.
Definition post_ords_claim : http_outcome → reply := read_reply (λ s, s =? 409).
Definition post_ords_membership_check : http_outcome → reply := read_reply (λ _, false).

(** ** Transactions over the outbox and the events *)
Record tx := mkTx { tx_ledger : ledger; tx_events : list Z; tx_rows : list Z }.
Definition begin_tx (x : world) : tx := mkTx (attendance x) [] [].
Definition tx_row (i : Z) (f : OrdsOutbox → OrdsOutbox) (t : tx) : tx :=
  mkTx (with_outboxes (update_by ob_id i f (outboxes (tx_ledger t))) (tx_ledger t)) (tx_events t) (i :: tx_rows t).
Definition tx_event (i : Z) (g : AttendanceEvent → AttendanceEvent) (t : tx) : tx :=
  mkTx (with_events (update_by ae_id i g (events (tx_ledger t))) (tx_ledger t)) (i :: tx_events t) (tx_rows t).
Definition tx_items (v : list AttendanceRecoveryItem) (t : tx) : tx := mkTx (with_recovery_items v (tx_ledger t)) (tx_events t) (tx_rows t).
Definition on_event (e : option AttendanceEvent) (g : AttendanceEvent → AttendanceEvent) (t : tx) : tx :=
  match e with Some e => tx_event (ae_id e) g t | None => t end.
Definition commit_tx (x : world) (t : tx) : world := commit (tx_events t) (tx_rows t) x (tx_ledger t).

(** [session.get(AttendanceEvent, row.attendance_event_id) if row.attendance_event_id else None] *)
Definition event_of (l : ledger) (o : OrdsOutbox) : option AttendanceEvent :=
  i ← ob_attendance_event_id o; if i =? 0 then None else row_by ae_id i (events l).
Definition outbox_at (i : Z) (l : ledger) : option OrdsOutbox := row_by ob_id i (outboxes l).
Definition backoff (now attempt_count : Z) : option Z := Some (now + retry_seconds attempt_count * SECOND).

(** ** Results of a batch *)
Definition apply_ords_confirmation (now claimed_id : Z) (path : string) (t : tx) : tx :=
  match outbox_at claimed_id (tx_ledger t) with
  | None => t
  | Some row =>
      let event := event_of (tx_ledger t) row in
      if match event with Some e => negb (generic_confirmation_allowed (tx_ledger t) None e) | None => false end then t
      else on_event event (set_delivery "ACKED_CHECK" (Some now) (Some path)) (tx_row claimed_id (set_outbox "ACKED_CHECK" None (Some now) (Some 200) None) t)
  end.

Definition apply_ords_membership_failure (now claimed_id : Z) (r : reply) (t : tx) : tx :=
  match outbox_at claimed_id (tx_ledger t) with
  | None => t
  | Some row =>
      let category := ords_failure_category (rp_status r) (rp_error r) (rp_parsed r) in
      on_event (event_of (tx_ledger t) row) (set_ords_status "FAILED_RETRYABLE")
        (tx_row claimed_id (λ o, set_outbox "FAILED_RETRYABLE" (backoff now (ob_attempt_count o)) (ob_acknowledged_at o) (rp_status r)
                                   (Some ("CHECK_" +:+ category)) o) t)
  end.

Definition apply_ords_delivery_result (now claimed_id : Z) (r : reply) (t : tx) : tx :=
  match outbox_at claimed_id (tx_ledger t) with
  | None => t
  | Some row =>
      let event := event_of (tx_ledger t) row in
      if match event with Some e => negb (generic_confirmation_allowed (tx_ledger t) None e) | None => false end then t
      else
        let category := ords_failure_category (rp_status r) (rp_error r) (rp_parsed r) in
        if ords_delivery_succeeded (rp_status r) (rp_body r) then
          on_event event (set_delivery "ACKED" (Some now) (Some "ADD_DELIVERY")) (tx_row claimed_id (set_outbox "ACKED" None (Some now) (rp_status r) None) t)
        else if ords_failure_is_permanent (rp_status r) then
          on_event event (set_ords_status "QUARANTINED_ORDS_REJECTED")
            (tx_row claimed_id (λ o, set_outbox "QUARANTINED_ORDS_REJECTED" None (ob_acknowledged_at o) (rp_status r) (Some category) o) t)
        else
          on_event event (set_ords_status "FAILED_RETRYABLE")
            (tx_row claimed_id (λ o, set_outbox "FAILED_RETRYABLE" (backoff now (ob_attempt_count o)) (ob_acknowledged_at o) (rp_status r) (Some category) o) t)
  end.

Definition apply_ords_batch_results (now : Z) (x : world) (claims : list worker_claim) (confirmed_claim_ids : list Z)
    (membership_failure : option reply) (results : list (Z * reply)) : world :=
  let t := fold_left (λ t i, apply_ords_confirmation now i "ORDS_MEMBERSHIP_CHECK" t) confirmed_claim_ids (begin_tx x) in
  let t := match membership_failure with
           | Some r => fold_left (λ t c, apply_ords_membership_failure now (wc_row_id c) r t) claims t
           | None => t
           end in
  commit_tx x (fold_left (λ t '(i, r), apply_ords_delivery_result now i r t) results t).

(** ** _deliver_ordinary_claims *)
Definition claim_uid (c : worker_claim) : string := match get "event_uid" (wc_payload c) with PStr s => s | _ => "" end.
Record ordinary_plan := mkPlan { send_claims : list worker_claim; confirmed_ids : list Z; check_failure : option reply }.
Definition plan_ordinary (claims : list worker_claim) (check : reply) : ordinary_plan :=
  match ords_membership_missing (rp_status check) (rp_body check) (list_to_set (map claim_uid claims)) with
  | Some missing =>
      mkPlan (List.filter (λ c, bool_decide (claim_uid c ∈ missing)) claims)
        (map wc_row_id (List.filter (λ c, negb (bool_decide (claim_uid c ∈ missing))) claims)) None
  | None =>
      if match rp_status check with Some s => bool_decide (s ∈ [404; 405]) | None => false end then mkPlan claims [] None
      else mkPlan [] [] (Some check)
  end.

(** The first status, and the first transport error of a request without one. *)
Definition route_result (replies : list reply) : option Z * option string :=
  (head (omap rp_status replies), head (omap (λ r, match rp_status r with None => rp_error r | Some _ => None end) replies)).

Definition _deliver_ordinary_claims (now monotonic : Z) (x : world) (cb : circuit) (claims : list worker_claim) (check : http_outcome)
    (post : worker_claim → http_outcome) : world * circuit :=
  let check := post_ords_membership_check check in
  let plan := plan_ordinary claims check in
  let results := map (λ c, (wc_row_id c, post_ords_claim (post c))) (send_claims plan) in
  let '(status, error) := route_result (check :: map snd results) in
  (apply_ords_batch_results now x claims (confirmed_ids plan) (check_failure plan) results, record_ords_route_result status error monotonic cb).

(** ** Audits of confirmed rows *)
Definition clamp_limit (limit : Z) : nat := Z.to_nat (Z.max 1 (Z.min limit 500)).
Definition due (next : option Z) (now : Z) : bool := match next with None => true | Some t => t <=? now end.
Definition stale_before (now timeout_seconds : Z) : Z := now - Z.max 60 (timeout_seconds * 3) * SECOND.
Definition no_intent (l : ledger) (o : OrdsOutbox) : bool := negb (existsb (λ i, oi_outbox_id i =? ob_id o) (intents l)).
(** A claim of an audit: row id, event uid, connector id. *)
Record audit_claim := mkAudit { ac_row_id : Z; ac_event_uid : string; ac_connector_id : Z }.
Definition never_or_before (o : option Z) (t : Z) : bool := match o with None => true | Some a => a <? t end.

Definition UID_INVALID_FIRMWARE : string := "Firmware receipt cannot be verified because its attendance event_uid is invalid or missing.".
Definition UID_INVALID_REVERIFY : string := "Oracle membership cannot be reverified because the attendance event_uid is invalid or missing.".
(** [row.attempt_count += 1; row.last_attempt_at = now] with the columns of a claim *)
Definition take_row (status : string) (now : Z) (acknowledged_at : option Z) (o : OrdsOutbox) : OrdsOutbox :=
  mkOutbox (ob_id o) (ob_attendance_event_id o) (ob_delivery_type o) status (ob_payload_hash o) (ob_attempt_count o + 1) None (Some now)
    acknowledged_at (ob_last_http_status o) None (ob_created_at o).

(** *** Firmware receipts *)
Definition firmware_stale (now timeout : Z) (l : ledger) (o : OrdsOutbox) : bool :=
  bool_decide (ob_status o = "FIRMWARE_RECEIPT_VERIFYING") && no_intent l o && never_or_before (ob_last_attempt_at o) (stale_before now timeout).
Definition recover_firmware (now : Z) (t : tx) (o : OrdsOutbox) : tx :=
  on_event (event_of (tx_ledger t) o) (set_delivery "FIRMWARE_RECEIPT_UNVERIFIED" None None)
    (tx_row (ob_id o) (λ o, set_outbox "FIRMWARE_RECEIPT_UNVERIFIED" (Some now) None (ob_last_http_status o) (Some "RECOVERED_STALE_FIRMWARE_RECEIPT_CHECK") o) t).
Definition firmware_candidate (now : Z) (l : ledger) (o : OrdsOutbox) : bool :=
  bool_decide (ob_status o ∈ ["ACKED_FIRMWARE"; "FIRMWARE_RECEIPT_UNVERIFIED"]) && no_intent l o && due (ob_next_attempt_at o) now.

Definition claim_firmware (now : Z) (acc : tx * list audit_claim) (o : OrdsOutbox) : tx * list audit_claim :=
  let '(t, claims) := acc in
  match event_of (tx_ledger t) o with
  | Some e =>
      if negb (HEX64 (ae_event_uid e)) then
        (tx_event (ae_id e) (set_ords_status "QUARANTINED_INVALID_EVENT_UID")
           (tx_row (ob_id o) (λ o, set_outbox "QUARANTINED_INVALID_EVENT_UID" None (ob_acknowledged_at o) (ob_last_http_status o) (Some UID_INVALID_FIRMWARE) o) t), claims)
      else if negb (generic_confirmation_allowed (tx_ledger t) None e) then
        let decided := bool_decide (is_Some (decision_for (approved (tx_ledger t)) (ae_id e))) in
        let status := if decided then "FAILED_RETRYABLE" else "BLOCKED_IDENTITY" in
        let reason := if decided then "CONTENT_VERIFICATION_REQUIRED" else "MANUAL_APPROVAL_REQUIRED" in
        (tx_event (ae_id e) (set_ords_status status)
           (tx_row (ob_id o) (λ o, set_outbox status None (ob_acknowledged_at o) (ob_last_http_status o) (Some reason) o) t), claims)
      else
        (tx_event (ae_id e) (set_delivery "FIRMWARE_RECEIPT_VERIFYING" None None) (tx_row (ob_id o) (take_row "FIRMWARE_RECEIPT_VERIFYING" now None) t),
         claims ++ [mkAudit (ob_id o) (ae_event_uid e) (ae_connector_id e)])
  | None =>
      (tx_row (ob_id o) (λ o, set_outbox "QUARANTINED_INVALID_EVENT_UID" None (ob_acknowledged_at o) (ob_last_http_status o) (Some UID_INVALID_FIRMWARE) o) t, claims)
  end.

(** [locked] are rows another transaction holds: [FOR UPDATE SKIP LOCKED]. *)
Definition claim_firmware_receipt_audit_batch (now timeout limit : Z) (locked : Z → bool) (x : world) : world * list audit_claim :=
  let l := attendance x in
  let t := fold_left (recover_firmware now) (take (Z.to_nat (Z.max 1 limit)) (List.filter (firmware_stale now timeout l) (outboxes l))) (begin_tx x) in
  let candidates := take (clamp_limit limit) (sort_by ob_id (List.filter (λ o, firmware_candidate now l o && negb (locked (ob_id o))) (outboxes l))) in
  let '(t, claims) := fold_left (claim_firmware now) candidates (t, []) in
  (commit_tx x t, claims).

Definition apply_firmware_receipt_audit_failure (now claimed_id : Z) (r : reply) (t : tx) : tx :=
  match outbox_at claimed_id (tx_ledger t) with
  | None => t
  | Some row =>
      let category := ords_failure_category (rp_status r) (rp_error r) (rp_parsed r) in
      on_event (event_of (tx_ledger t) row) (set_delivery "FIRMWARE_RECEIPT_UNVERIFIED" None None)
        (tx_row claimed_id (λ o, set_outbox "FIRMWARE_RECEIPT_UNVERIFIED" (backoff now (ob_attempt_count o)) None (rp_status r)
                                   (Some ("FIRMWARE_CHECK_" +:+ category)) o) t)
  end.
Definition requeue_missing (reason : string) (now claimed_id : Z) (t : tx) : tx :=
  match outbox_at claimed_id (tx_ledger t) with
  | None => t
  | Some row => on_event (event_of (tx_ledger t) row) (set_delivery "PENDING" None None) (tx_row claimed_id (set_outbox "PENDING" (Some now) None (Some 200) (Some reason)) t)
  end.
Definition apply_firmware_receipt_missing : Z → Z → tx → tx := requeue_missing "FIRMWARE_RECEIPT_NOT_IN_ORACLE".

Definition apply_audit_results (failure : Z → Z → reply → tx → tx) (missing_row : Z → Z → tx → tx) (path : string)
    (now : Z) (x : world) (claims : list audit_claim) (missing : option (gset string)) (r : reply) : world :=
  commit_tx x (fold_left (λ t c,
    match missing with
    | None => failure now (ac_row_id c) r t
    | Some m => if bool_decide (ac_event_uid c ∈ m) then missing_row now (ac_row_id c) t else apply_ords_confirmation now (ac_row_id c) path t
    end) claims (begin_tx x)).
Definition apply_firmware_receipt_audit_results : Z → world → list audit_claim → option (gset string) → reply → world :=
  apply_audit_results apply_firmware_receipt_audit_failure apply_firmware_receipt_missing "FIRMWARE_RECEIPT_MEMBERSHIP_CHECK".

(** *** Confirmed membership *)
Definition membership_stale (now timeout : Z) (l : ledger) (o : OrdsOutbox) : bool :=
  bool_decide (ob_status o = "MEMBERSHIP_REVERIFYING") && no_intent l o && never_or_before (ob_last_attempt_at o) (stale_before now timeout).
Definition recover_membership (now : Z) (t : tx) (o : OrdsOutbox) : tx :=
  on_event (event_of (tx_ledger t) o) (set_ords_status "MEMBERSHIP_REVERIFY_RETRY")
    (tx_row (ob_id o) (λ o, set_outbox "MEMBERSHIP_REVERIFY_RETRY" (Some now) (ob_acknowledged_at o) (ob_last_http_status o) (Some "RECOVERED_STALE_MEMBERSHIP_REVERIFY") o) t).

Definition proof_at (e : AttendanceEvent) (o : OrdsOutbox) : Z :=
  match ae_oracle_confirmed_at e, ob_acknowledged_at o with Some t, _ => t | None, Some t => t | None, None => ob_created_at o end.
Definition membership_candidate (now reverify_seconds : Z) (l : ledger) (o : OrdsOutbox) : bool :=
  match (i ← ob_attendance_event_id o; row_by ae_id i (events l)) with
  | Some e =>
      negb (existsb (λ d, fr_attendance_event_id d =? ae_id e) (releases (approved l))) && no_intent l o
      && (bool_decide (ob_status o ∈ ["ACKED"; "ACKED_CHECK"]) && (proof_at e o <=? now - Z.max 60 reverify_seconds * SECOND)
            && match ob_last_attempt_at o with None => true | Some t => t <=? proof_at e o end
          || bool_decide (ob_status o = "MEMBERSHIP_REVERIFY_RETRY") && due (ob_next_attempt_at o) now)
  | None => false
  end.
(** Retries first, then by id. *)
Definition retry_first (a b : OrdsOutbox) : bool :=
  let k o := if bool_decide (ob_status o = "MEMBERSHIP_REVERIFY_RETRY") then 0 else 1 in
  (k a <? k b) || (k a =? k b) && (ob_id a <=? ob_id b).

Definition claim_membership (now : Z) (acc : tx * list audit_claim) (o : OrdsOutbox) : tx * list audit_claim :=
  let '(t, claims) := acc in
  let quarantine := tx_row (ob_id o) (λ o, set_outbox "QUARANTINED_INVALID_EVENT_UID" None (ob_acknowledged_at o) (ob_last_http_status o) (Some UID_INVALID_REVERIFY) o) t in
  match event_of (tx_ledger t) o with
  | Some e =>
      if negb (HEX64 (ae_event_uid e)) then (tx_event (ae_id e) (set_delivery "QUARANTINED_INVALID_EVENT_UID" None None) quarantine, claims)
      else
        (tx_event (ae_id e) (set_ords_status "MEMBERSHIP_REVERIFYING") (tx_row (ob_id o) (λ o, take_row "MEMBERSHIP_REVERIFYING" now (ob_acknowledged_at o) o) t),
         claims ++ [mkAudit (ob_id o) (ae_event_uid e) (ae_connector_id e)])
  | None => (quarantine, claims)
  end.
Definition claim_confirmed_membership_audit_batch (now timeout reverify_seconds limit : Z) (locked : Z → bool) (x : world) : world * list audit_claim :=
  let l := attendance x in
  let t := fold_left (recover_membership now) (take (Z.to_nat (Z.max 1 limit)) (List.filter (membership_stale now timeout l) (outboxes l))) (begin_tx x) in
  let candidates := take (clamp_limit limit)
    (sort_with retry_first (List.filter (λ o, membership_candidate now reverify_seconds l o && negb (locked (ob_id o))) (outboxes l))) in
  let '(t, claims) := fold_left (claim_membership now) candidates (t, []) in
  (commit_tx x t, claims).

Definition apply_confirmed_membership_audit_failure (now claimed_id : Z) (r : reply) (t : tx) : tx :=
  match outbox_at claimed_id (tx_ledger t) with
  | None => t
  | Some row =>
      let category := ords_failure_category (rp_status r) (rp_error r) (rp_parsed r) in
      on_event (event_of (tx_ledger t) row) (set_ords_status "MEMBERSHIP_REVERIFY_RETRY")
        (tx_row claimed_id (λ o, set_outbox "MEMBERSHIP_REVERIFY_RETRY" (backoff now (ob_attempt_count o)) (ob_acknowledged_at o) (rp_status r)
                                   (Some ("REVERIFY_" +:+ category)) o) t)
  end.
Definition apply_confirmed_membership_missing : Z → Z → tx → tx := requeue_missing "CONFIRMED_EVENT_MISSING_FROM_ORACLE".
Definition apply_confirmed_membership_audit_results : Z → world → list audit_claim → option (gset string) → reply → world :=
  apply_audit_results apply_confirmed_membership_audit_failure apply_confirmed_membership_missing "PERIODIC_MEMBERSHIP_REVERIFY".
(** What an audit concludes from the reply to its claims. *)
Definition audit_missing (claims : list audit_claim) (r : reply) : option (gset string) :=
  ords_membership_missing (rp_status r) (rp_body r) (list_to_set (map ac_event_uid claims)).

(** ** The circuit breaker over a history of route results *)
Record route_event := mkRoute { re_status : option Z; re_error : option string; re_now : Z }.
Definition transport_failure (r : route_event) : bool := bool_decide (re_status r = None) && truthy_str (re_error r).
Definition run_circuit (h : list route_event) : circuit := fold_left (λ c r, record_ords_route_result (re_status r) (re_error r) (re_now r) c) h closed.

(** The transport failures since the last reply, newest first. *)
Fixpoint failing (h : list route_event) : list route_event :=
  match h with
  | [] => []
  | r :: h' => if bool_decide (re_status r = None) then (if truthy_str (re_error r) then r :: failing h' else failing h') else []
  end.
Definition circuit_delay (k : Z) : Z := Z.min ORDS_CIRCUIT_BACKOFF_MAX_SECONDS (ORDS_CIRCUIT_BACKOFF_INITIAL_SECONDS * 2 ^ Z.min (k - 1) 20) * SECOND.

Lemma circuit_delay_bounds k : 1 <= k → 15 * SECOND <= circuit_delay k <= 300 * SECOND.
Proof.
  intros Hk. unfold circuit_delay, SECOND, ORDS_CIRCUIT_BACKOFF_MAX_SECONDS, ORDS_CIRCUIT_BACKOFF_INITIAL_SECONDS.
  assert (2 ^ 0 <= 2 ^ Z.min (k - 1) 20) by (apply Z.pow_le_mono_r; lia). lia.
Qed.

Lemma run_circuit_snoc h r : run_circuit (h ++ [r]) = record_ords_route_result (re_status r) (re_error r) (re_now r) (run_circuit h).
Proof. unfold run_circuit. by rewrite fold_left_app. Qed.

(** Times do not go back. *)
Definition monotone_times (h : list route_event) : Prop := StronglySorted (λ a b, re_now a <= re_now b) h ∧ Forall (λ r, 0 <= re_now r) h.

Lemma failing_elem h r : r ∈ failing h → r ∈ h.
Proof.
  induction h as [|a h IH]; simpl; [done|]. case_bool_decide; [|by intros ?%not_elem_of_nil].
  destruct (truthy_str _); rewrite ?elem_of_cons; naive_solver.
Qed.

Lemma monotone_snoc h r : monotone_times (h ++ [r]) → monotone_times h ∧ 0 <= re_now r ∧ ∀ a, a ∈ h → re_now a <= re_now r.
Proof.
  intros [Hs Hp]. apply Forall_app in Hp as [Hp Hr]. inversion Hr; subst. split_and!; [|done|].
  - split; [|done]. clear Hp Hr. induction h as [|a h IH]; [constructor|]. inversion Hs as [|? ? Hs' Hf]; subst.
    apply Forall_app in Hf as [Hf _]. constructor; [by apply IH|done].
  - intros a Ha. clear Hp Hr. induction h as [|b h IH]; [by apply not_elem_of_nil in Ha|]. inversion Hs as [|? ? Hs' Hf]; subst.
    apply elem_of_cons in Ha as [-> |Ha]; [|by apply IH]. apply Forall_app in Hf as [_ Hf]. by inversion Hf.
Qed.

(** After any history of route results the breaker holds exactly the failures since
    the last HTTP reply: it counts them; without one it is closed; otherwise it
    stays open for at least the pause of their number (15 s doubling) and at most
    300 s, counted from the newest failure. *)
Theorem circuit_follows_failures h :
  monotone_times h →
  circuit_failures (run_circuit h) = zlen (failing (rev h)) ∧
  match failing (rev h) with
  | [] => circuit_open_until (run_circuit h) = 0
  | r :: _ => re_now r + circuit_delay (zlen (failing (rev h))) <= circuit_open_until (run_circuit h) <= re_now r + 300 * SECOND
  end.
Proof.
  induction h as [|r h IH] using rev_ind; intros Hm; [done|]. apply monotone_snoc in Hm as (Hm & Hr & Hle). specialize (IH Hm) as [IHf IHo].
  rewrite run_circuit_snoc, rev_app_distr. simpl. unfold record_ords_route_result.
  destruct (re_status r) as [s|]; simpl; [done|]. destruct (truthy_str (re_error r)); simpl; [|done].
  set (fs := failing (rev h)) in *. replace (zlen (r :: fs)) with (zlen fs + 1) by (unfold zlen; simpl; lia).
  rewrite IHf. split; [done|]. fold (circuit_delay (zlen fs + 1)).
  pose proof (circuit_delay_bounds (zlen fs + 1) ltac:(unfold zlen; lia)) as Hb. unfold circuit_delay in *.
  assert (circuit_open_until (run_circuit h) <= re_now r + 300 * SECOND); [|lia].
  destruct fs as [|a fs'] eqn:E; [unfold SECOND; lia|].
  assert (a ∈ h) as Ha by (apply list_elem_of_In, in_rev, list_elem_of_In, failing_elem; fold fs; rewrite E; left).
  specialize (Hle a Ha). lia.
Qed.

(** ** What the worker may do to a ledger

    [wstep P]: keys, links, intents, receipts, approvals and the POST counters of run items stay, and a row becomes
    confirmed only where [P] holds. *)
Definition route (o : OrdsOutbox) : Z * option Z := (ob_id o, ob_attendance_event_id o).
Definition item_key (v : AttendanceRecoveryItem) : Z * option pyval := (rv_id v, assoc "direct_post_attempts" (rv_result v)).
Record wstep (P : Z → Prop) (l l' : ledger) : Prop := {
  ws_intents : intents l' = intents l;
  ws_content : content_receipts l' = content_receipts l;
  ws_membership : membership_receipts l' = membership_receipts l;
  ws_approved : approved l' = approved l;
  ws_items : map item_key (recovery_items l') = map item_key (recovery_items l);
  ws_rows : map route (outboxes l') = map route (outboxes l);
  ws_events : map ae_id (events l') = map ae_id (events l);
  ws_confirmed : ∀ o', o' ∈ outboxes l' → confirmed o' → (∃ o, o ∈ outboxes l ∧ ob_id o = ob_id o' ∧ confirmed o) ∨ P (ob_id o') }.

#[export] Instance wstep_preorder P : PreOrder (wstep P).
Proof.
  split; [intros l; constructor; try done; eauto|]. intros a b c [H1 H2 H3 H4 Hi H5 H6 H7] [K1 K2 K3 K4 Ki K5 K6 K7].
  constructor; try congruence. intros o' Ho' Hc. destruct (K7 o' Ho' Hc) as [(o & Ho & Hid & Hco)|]; [|by right].
  destruct (H7 o Ho Hco) as [(o0 & Ho0 & Hid0 & Hc0)|Hp]; [left; exists o0; split_and!; [done|congruence|done]|right; by rewrite <- Hid].
Qed.

Lemma route_id l l' : map route l' = map route l → map ob_id l' = map ob_id l.
Proof. intros H. rewrite <- !(map_map route fst). by rewrite H. Qed.

(** An intent names the event of its outbox row, as [register_intent] demands. *)
Definition linked (l : ledger) : Prop := ∀ o i, o ∈ outboxes l → i ∈ intents l → oi_outbox_id i = ob_id o →
  ob_attendance_event_id o = Some (oi_attendance_event_id i) ∧ oi_attendance_event_id i ≠ 0 ∧ oi_attendance_event_id i ∈ map ae_id (events l).
(** No intent owns the row. *)
Definition unowned (l : ledger) (r : Z) : Prop := ∀ i, i ∈ intents l → oi_outbox_id i ≠ r.

Lemma linked_wstep P l l' : wstep P l l' → linked l → linked l'.
Proof.
  intros [H1 _ _ _ _ H5 H6 _] Hl o' i Ho' Hi Hr. rewrite H1 in Hi. rewrite H6.
  assert (route o' ∈ map route (outboxes l)) as (o & Heq & Ho)%list_elem_of_fmap by (rewrite <- H5; by apply list_elem_of_fmap_2).
  injection Heq as Hid Hev. rewrite Hev. apply (Hl o i Ho Hi). congruence.
Qed.

Lemma wstep_evolves P l l' : (∀ r, P r → unowned l r) → wstep P l l' → evolves l l'.
Proof.
  intros HP [H1 H2 H3 _ _ H5 _ H7]. constructor; [|exists (intents l), []|by rewrite H2|by rewrite H3|].
  - intros [K1 K2 K3]. constructor; [by rewrite (route_id _ _ H5)|by rewrite H1..].
  - split_and!; [by rewrite H1, app_nil_r|apply Forall_Forall2_diag, Forall_forall; intros; reflexivity|by intros ? []%not_elem_of_nil].
  - intros _ o' i' Ho' Hi' Hr Hc. right. destruct (H7 o' Ho' Hc) as [(o & Ho & Hid & Hco)|Hp].
    + exists o, i'. rewrite <- H1. split_and!; [done|done|reflexivity|congruence|done].
    + exfalso. rewrite H1 in Hi'. by apply (HP _ Hp i' Hi').
Qed.

(** *** Building blocks *)
Lemma wstep_row (P : Z → Prop) t r f :
  (∀ o, route (f o) = route o) → (∀ o, ¬ confirmed (f o)) ∨ P r → wstep P (tx_ledger t) (tx_ledger (tx_row r f t)).
Proof.
  intros Hr Hc. constructor; try done; simpl.
  - unfold update_by. rewrite map_map. apply map_ext. intros o. by destruct (_ =? _).
  - intros o' [[Ho' _]|(o & Ho & Hid & ->)]%elem_of_update_by Hco; [left; by exists o'|].
    destruct Hc as [Hc|Hc]; [by apply Hc in Hco|]. right. pose proof (Hr o) as [= -> _]. by rewrite Hid.
Qed.
Lemma wstep_event (P : Z → Prop) t e g : (∀ a, ae_id (g a) = ae_id a) → wstep P (tx_ledger t) (tx_ledger (on_event e g t)).
Proof.
  intros Hg. destruct e as [e|]; simpl; [|reflexivity]. constructor; try done; simpl; [by apply update_by_keys|]. intros o Ho Hc. left. by exists o.
Qed.
Lemma wstep_pair (P : Z → Prop) t r f e g :
  (∀ o, route (f o) = route o) → (∀ a, ae_id (g a) = ae_id a) → (∀ o, ¬ confirmed (f o)) ∨ P r →
  wstep P (tx_ledger t) (tx_ledger (on_event e g (tx_row r f t))).
Proof. intros Hf Hg Hc. etransitivity; [by apply (wstep_row P t r f)|by apply wstep_event]. Qed.

Lemma wstep_items P t t' v :
  map item_key v = map item_key (recovery_items (tx_ledger t')) → wstep P (tx_ledger t) (tx_ledger t') → wstep P (tx_ledger t) (tx_ledger (tx_items v t')).
Proof. intros Hv [H1 H2 H3 H4 Hi H5 H6 H7]. constructor; try done. simpl. congruence. Qed.
Lemma tx_items_same t : tx_items (recovery_items (tx_ledger t)) t = t.
Proof. by destruct t as [[]]. Qed.

Lemma wstep_fold {A} (P : Z → Prop) (f : tx → A → tx) (as_ : list A) (is_ : list ZktOracleIntent) t :
  (∀ t a, a ∈ as_ → linked (tx_ledger t) → intents (tx_ledger t) = is_ → wstep P (tx_ledger t) (tx_ledger (f t a))) →
  linked (tx_ledger t) → intents (tx_ledger t) = is_ → wstep P (tx_ledger t) (tx_ledger (fold_left f as_ t)).
Proof.
  revert t. induction as_ as [|a as_ IH]; intros t Hf Hl Hi; simpl; [reflexivity|].
  assert (wstep P (tx_ledger t) (tx_ledger (f t a))) as H1 by (apply Hf; [left|done..]).
  etransitivity; [exact H1|]. apply IH; [|by eapply linked_wstep|by rewrite (ws_intents _ _ _ H1)]. intros t' a' Ha'. apply Hf. by right.
Qed.

Lemma wstep_commit (P : Z → Prop) x t : wstep P (attendance x) (tx_ledger t) → wstep P (attendance x) (attendance (commit_tx x t)).
Proof.
  intros H. etransitivity; [exact H|]. unfold commit_tx, commit. simpl. rewrite before_flush_eq. cbv zeta. constructor; try done; simpl.
  - rewrite map_map. apply map_ext. intros o. unfold route. f_equal; [apply flush_outbox_id|]. unfold flush_outbox, retain_outbox.
    destruct (bool_decide _); [|done]. destruct (negb _); [done|]. destruct (_ ≫= _); [|done]. by destruct (delivery_authorized _ _).
  - rewrite map_map. apply map_ext. intros e. apply flush_event_id.
  - intros o' (o & -> & Ho)%list_elem_of_fmap Hc. left. exists o. split_and!; [done|by rewrite flush_outbox_id|by eapply flush_outbox_confirmed].
Qed.

(** A row whose event is allowed generic confirmation, or that has none, has no intent. *)
Lemma allowed_unowned l row :
  linked l → row ∈ outboxes l →
  match event_of l row with Some e => negb (generic_confirmation_allowed l None e) | None => false end = false → unowned l (ob_id row).
Proof.
  intros Hl Hrow H i Hi Hr. destruct (Hl row i Hrow Hi Hr) as (Hev & Hne & Hin). unfold event_of in H. rewrite Hev in H. simpl in H.
  rewrite (proj2 (Z.eqb_neq _ 0) Hne) in H. destruct (row_by ae_id _ _) as [e|] eqn:Ee.
  - apply row_by_some in Ee as [_ Hid]. unfold generic_confirmation_allowed in H. cbv zeta iota in H.
    assert (existsb (λ j, oi_attendance_event_id j =? ae_id e) (intents l) = true) as E.
    { apply existsb_exists. exists i. split; [by apply list_elem_of_In|]. rewrite Hid. apply Z.eqb_refl. }
    by rewrite E in H.
  - apply list_elem_of_fmap in Hin as (e & Heq & He). apply list_elem_of_In in He. pose proof (List.find_none _ _ Ee _ He) as Hf. simpl in Hf.
    rewrite Heq in Hf. by rewrite Z.eqb_refl in Hf.
Qed.

Ltac not_confirmed := intros ?; unfold confirmed; simpl; set_solver.

Lemma confirmation_wstep (P : Z → Prop) now r path t :
  linked (tx_ledger t) → (unowned (tx_ledger t) r → P r) → wstep P (tx_ledger t) (tx_ledger (apply_ords_confirmation now r path t)).
Proof.
  intros Hl HP. unfold apply_ords_confirmation. destruct (outbox_at _ _) as [row|] eqn:Er; [|reflexivity]. cbv zeta.
  destruct (match event_of _ _ with Some _ => _ | None => _ end) eqn:Eg; [reflexivity|]. apply row_by_some in Er as [Hrow <-].
  apply wstep_pair; [done|done|]. right. apply HP. by apply allowed_unowned.
Qed.
Lemma membership_failure_wstep P now r rp t : wstep P (tx_ledger t) (tx_ledger (apply_ords_membership_failure now r rp t)).
Proof. unfold apply_ords_membership_failure. destruct (outbox_at _ _); [|reflexivity]. apply wstep_pair; [done|done|left; not_confirmed]. Qed.
Lemma delivery_result_wstep (P : Z → Prop) now r rp t :
  linked (tx_ledger t) → (unowned (tx_ledger t) r → ords_delivery_succeeded (rp_status rp) (rp_body rp) = true → P r) →
  wstep P (tx_ledger t) (tx_ledger (apply_ords_delivery_result now r rp t)).
Proof.
  intros Hl HP. unfold apply_ords_delivery_result. destruct (outbox_at _ _) as [row|] eqn:Er; [|reflexivity]. cbv zeta.
  destruct (match event_of _ _ with Some _ => _ | None => _ end) eqn:Eg; [reflexivity|]. apply row_by_some in Er as [Hrow <-].
  destruct (ords_delivery_succeeded _ _) eqn:Es; [|destruct (ords_failure_is_permanent _)].
  - apply wstep_pair; [done|done|]. right. apply HP; [|done]. by apply allowed_unowned.
  - apply wstep_pair; [done|done|left; not_confirmed].
  - apply wstep_pair; [done|done|left; not_confirmed].
Qed.

(** *** The transactions *)
Lemma unowned_intents l l' r : intents l = intents l' → unowned l r → unowned l' r.
Proof. unfold unowned. by intros ->. Qed.

Section transactions.
Context (x : world) (Hl : linked (attendance x)).
Abbreviation free := (unowned (attendance x)).

Lemma batch_results_wstep (P : Z → Prop) now claims ids failure results :
  (∀ r, r ∈ ids → free r → P r) →
  (∀ r rp, (r, rp) ∈ results → free r → ords_delivery_succeeded (rp_status rp) (rp_body rp) = true → P r) →
  wstep P (attendance x) (attendance (apply_ords_batch_results now x claims ids failure results)).
Proof using Hl.
  intros H1 H2. unfold apply_ords_batch_results. apply wstep_commit. cbv zeta.
  assert (S1 : wstep P (attendance x) (tx_ledger (fold_left (λ t i, apply_ords_confirmation now i "ORDS_MEMBERSHIP_CHECK" t) ids (begin_tx x)))).
  { apply (wstep_fold P _ ids (intents (attendance x)) (begin_tx x)); [|done|done]. intros t r Hr Hlt Hi. apply confirmation_wstep; [done|].
    intros Hu. apply H1; [done|]. by eapply unowned_intents. }
  revert S1. generalize (fold_left (λ t i, apply_ords_confirmation now i "ORDS_MEMBERSHIP_CHECK" t) ids (begin_tx x)) as t1. intros t1 S1.
  assert (S2 : wstep P (attendance x) (tx_ledger (match failure with
    Some r => fold_left (λ t c, apply_ords_membership_failure now (wc_row_id c) r t) claims t1 | None => t1 end))).
  { destruct failure as [rp|]; [|done]. etransitivity; [exact S1|].
    apply (wstep_fold P _ claims (intents (attendance x)) t1); [|by eapply linked_wstep|apply S1]. intros. apply membership_failure_wstep. }
  revert S2. generalize (match failure with Some r => fold_left (λ t c, apply_ords_membership_failure now (wc_row_id c) r t) claims t1 | None => t1 end) as t2.
  intros t2 S2. etransitivity; [exact S2|]. apply (wstep_fold P _ results (intents (attendance x)) t2); [|by eapply linked_wstep|apply S2].
  intros t [r rp] Hr Hlt Hi. apply delivery_result_wstep; [done|]. intros Hu Hs. eapply H2; [done| |done]. by eapply unowned_intents.
Qed.

Lemma audit_results_wstep (P : Z → Prop) failure missing_row path now claims missing r :
  (∀ now i r t, wstep P (tx_ledger t) (tx_ledger (failure now i r t))) → (∀ now i t, wstep P (tx_ledger t) (tx_ledger (missing_row now i t))) →
  (∀ c m, c ∈ claims → missing = Some m → ac_event_uid c ∉ m → free (ac_row_id c) → P (ac_row_id c)) →
  wstep P (attendance x) (attendance (apply_audit_results failure missing_row path now x claims missing r)).
Proof using Hl.
  intros Hf Hm Hc. unfold apply_audit_results. apply wstep_commit.
  apply (wstep_fold P _ claims (intents (attendance x)) (begin_tx x)); [|done|done]. intros t c Hin Hlt Hi.
  destruct missing as [m|]; [|apply Hf]. case_bool_decide as Hu; [apply Hm|]. apply confirmation_wstep; [done|]. intros Hfree. eapply Hc; [done..|].
  by eapply unowned_intents.
Qed.

End transactions.

Lemma requeue_wstep P reason now i t : wstep P (tx_ledger t) (tx_ledger (requeue_missing reason now i t)).
Proof. unfold requeue_missing. destruct (outbox_at _ _); [|reflexivity]. apply wstep_pair; [done|done|left; not_confirmed]. Qed.
Lemma firmware_failure_wstep P now i r t : wstep P (tx_ledger t) (tx_ledger (apply_firmware_receipt_audit_failure now i r t)).
Proof. unfold apply_firmware_receipt_audit_failure. destruct (outbox_at _ _); [|reflexivity]. apply wstep_pair; [done|done|left; not_confirmed]. Qed.
Lemma membership_audit_failure_wstep P now i r t : wstep P (tx_ledger t) (tx_ledger (apply_confirmed_membership_audit_failure now i r t)).
Proof. unfold apply_confirmed_membership_audit_failure. destruct (outbox_at _ _); [|reflexivity]. apply wstep_pair; [done|done|left; not_confirmed]. Qed.

(** A loop that also collects claims. *)
Lemma wstep_claims {A} (P : Z → Prop) (f : tx * list A → OrdsOutbox → tx * list A) os acc :
  (∀ acc o, wstep P (tx_ledger acc.1) (tx_ledger (f acc o).1)) → wstep P (tx_ledger acc.1) (tx_ledger (fold_left f os acc).1).
Proof.
  intros Hf. revert acc. induction os as [|o os IH]; intros acc; simpl; [reflexivity|]. etransitivity; [apply Hf|apply IH].
Qed.

Lemma claim_firmware_wstep P now acc o : wstep P (tx_ledger acc.1) (tx_ledger (claim_firmware now acc o).1).
Proof.
  destruct acc as [t claims]. unfold claim_firmware. destruct (event_of _ _) as [e|]; [|apply wstep_row; [done|left; not_confirmed]].
  destruct (negb _); [|destruct (negb _)]; cbn [fst]; apply (wstep_pair P t (ob_id o) _ (Some e)); try done; left; [not_confirmed| |not_confirmed].
  destruct (bool_decide _); not_confirmed.
Qed.
Lemma claim_membership_wstep P now acc o : wstep P (tx_ledger acc.1) (tx_ledger (claim_membership now acc o).1).
Proof.
  destruct acc as [t claims]. unfold claim_membership. destruct (event_of _ _) as [e|]; [|apply wstep_row; [done|left; not_confirmed]].
  destruct (negb _); cbn [fst]; apply (wstep_pair P t (ob_id o) _ (Some e)); try done; left; not_confirmed.
Qed.

Lemma recover_wstep P (f : tx → OrdsOutbox → tx) os t :
  (∀ t o, wstep P (tx_ledger t) (tx_ledger (f t o))) → wstep P (tx_ledger t) (tx_ledger (fold_left f os t)).
Proof. intros Hf. revert t. induction os as [|o os IH]; intros t; simpl; [reflexivity|]. etransitivity; [apply Hf|apply IH]. Qed.

Lemma firmware_claims_wstep P x now timeout limit locked :
  wstep P (attendance x) (attendance (claim_firmware_receipt_audit_batch now timeout limit locked x).1).
Proof.
  unfold claim_firmware_receipt_audit_batch. cbv zeta. set (t := fold_left (recover_firmware now) _ _).
  pose proof (recover_wstep P (recover_firmware now) (take (Z.to_nat (Z.max 1 limit)) (List.filter (firmware_stale now timeout (attendance x)) (outboxes (attendance x)))) (begin_tx x)) as H1.
  set (os := take (clamp_limit limit) _). pose proof (wstep_claims P (claim_firmware now) os (t, []) (claim_firmware_wstep P now)) as H2.
  destruct (fold_left (claim_firmware now) os (t, [])) as [t' claims]. simpl. apply wstep_commit. etransitivity; [|exact H2].
  apply H1. intros. unfold recover_firmware. apply wstep_pair; [done|done|left; not_confirmed].
Qed.
Lemma membership_claims_wstep P x now timeout reverify limit locked :
  wstep P (attendance x) (attendance (claim_confirmed_membership_audit_batch now timeout reverify limit locked x).1).
Proof.
  unfold claim_confirmed_membership_audit_batch. cbv zeta. set (t := fold_left (recover_membership now) _ _).
  pose proof (recover_wstep P (recover_membership now) (take (Z.to_nat (Z.max 1 limit)) (List.filter (membership_stale now timeout (attendance x)) (outboxes (attendance x)))) (begin_tx x)) as H1.
  set (os := take (clamp_limit limit) _). pose proof (wstep_claims P (claim_membership now) os (t, []) (claim_membership_wstep P now)) as H2.
  destruct (fold_left (claim_membership now) os (t, [])) as [t' claims]. simpl. apply wstep_commit. etransitivity; [|exact H2].
  apply H1. intros. unfold recover_membership. apply wstep_pair; [done|done|left; not_confirmed].
Qed.

(** Ordinary delivery confirms a row only on a positive reply: a row that is
    confirmed after a batch and was not before has no intent and belongs to a claim
    whose uid Oracle listed as present, in a reply that accounts for every uid
    asked, or whose own POST was accepted (200 or 201 with success, or 409). *)
Theorem ordinary_confirms_only_positive now monotonic x cb claims check post o' :
  linked (attendance x) →
  o' ∈ outboxes (attendance (_deliver_ordinary_claims now monotonic x cb claims check post).1) → confirmed o' →
  (∃ o, o ∈ outboxes (attendance x) ∧ ob_id o = ob_id o' ∧ confirmed o) ∨
  unowned (attendance x) (ob_id o') ∧ ∃ c, c ∈ claims ∧ wc_row_id c = ob_id o' ∧
    ((∃ missing, ords_membership_missing (rp_status (post_ords_membership_check check)) (rp_body (post_ords_membership_check check))
        (list_to_set (map claim_uid claims)) = Some missing ∧ claim_uid c ∉ missing) ∨
     ords_delivery_succeeded (rp_status (post_ords_claim (post c))) (rp_body (post_ords_claim (post c))) = true).
Proof.
  intros Hl. unfold _deliver_ordinary_claims. cbv zeta. set (r := post_ords_membership_check check). set (plan := plan_ordinary claims r).
  destruct (route_result _) as [status error]. cbn [fst].
  set (P := λ k, unowned (attendance x) k ∧ ∃ c, c ∈ claims ∧ wc_row_id c = k ∧
    ((∃ missing, ords_membership_missing (rp_status r) (rp_body r) (list_to_set (map claim_uid claims)) = Some missing ∧ claim_uid c ∉ missing) ∨
     ords_delivery_succeeded (rp_status (post_ords_claim (post c))) (rp_body (post_ords_claim (post c))) = true)).
  assert (Hsend : ∀ c, c ∈ send_claims plan → c ∈ claims).
  { unfold plan, plan_ordinary. destruct (ords_membership_missing _ _ _) as [m|]; [|destruct (match rp_status r with Some _ => _ | None => _ end)]; simpl;
      [|done|by intros ? ?%not_elem_of_nil]. intros c [Hc _]%list_elem_of_In%List.filter_In. by apply list_elem_of_In. }
  assert (Hw : wstep P (attendance x) (attendance (apply_ords_batch_results now x claims (confirmed_ids plan) (check_failure plan)
    (map (λ c, (wc_row_id c, post_ords_claim (post c))) (send_claims plan))))).
  { apply batch_results_wstep; [done| |].
    - intros k Hk Hfree. split; [done|]. unfold plan, plan_ordinary in Hk.
      destruct (ords_membership_missing _ _ _) as [m|] eqn:Em; [|destruct (match rp_status r with Some _ => _ | None => _ end); by apply not_elem_of_nil in Hk].
      apply list_elem_of_fmap in Hk as (c & -> & Hc). apply list_elem_of_In, List.filter_In in Hc as [Hc Hn]. bool_prop.
      exists c. split_and!; [by apply list_elem_of_In|done|left; eauto].
    - intros k rp (c & Heq & Hc)%list_elem_of_fmap Hfree Hs. injection Heq as -> ->. split; [done|]. exists c. split_and!; [by apply Hsend|done|by right]. }
  intros Ho Hc. exact (ws_confirmed _ _ _ Hw o' Ho Hc).
Qed.
