(* ===== verification/OrdsClaim.v ===== *)
(** * Claiming a delivery batch (worker.claim_ords_batch)

    One transaction recovers rows a stopped worker left in flight, then takes due
    rows for delivery: live rows first, and after four of them one row of the
    history backlog, which is ranked one connector at a time. A row is claimed,
    held or refused; forced releases are capped.

    Parameters: those of the delivery and of the direct-approval modules. *)
From S2P Require Import Prelude PyText Hashes PyJson Calendar QueueEvidence Custody DerivedEvidence CustodyWork SourceAttendance ManualGuard OracleDelivery OracleSystem OracleReply OrdsWorker.
Open Scope string_scope.
Open Scope list_scope.
Open Scope Z_scope.

Record AttendanceDeliverySchedule := mkDelivery { priority_served : Z; last_connector_id : Z }.
Definition TAKEOVER : string := "TAKEOVER".
Definition TAKEOVER_UNCERTAIN : string := "PREVIOUS_POST_UNCERTAIN".

(** What the claim calls in attendance_direct_ords.py, attendance_force_release.py and
    attendance_release_safety.py. *)
Class WorkerPlatform := {
  worker_delivery :: Platform;
  automatic_takeover : world → AttendanceEvent → AttendanceForceReleaseDecision → res (option string);
  delivery_payload : world → AttendanceEvent → option Connector → res (option pyval);
  time_refusal : AttendanceEvent → bool }.

(** The state of the loop. *)
Record batch := mkBatch { bt_tx : tx; bt_claims : list worker_claim; bt_forced : Z }.

Definition eligible (now : Z) (o : OrdsOutbox) : bool :=
  bool_decide (ob_status o ∈ ["PENDING"; "FAILED_RETRYABLE"]) && due (ob_next_attempt_at o) now.
Definition is_history (o : OrdsOutbox) : bool := bool_decide (ob_delivery_type o = "FULL_HISTORY").

(** ** Stale rows *)
Definition in_flight_stale (now timeout : Z) (o : OrdsOutbox) : bool :=
  bool_decide (ob_status o = "IN_FLIGHT") && match ob_last_attempt_at o with Some t => t <? stale_before now timeout | None => false end.
Definition recover_in_flight (now : Z) (t : tx) (o : OrdsOutbox) : tx :=
  on_event (event_of (tx_ledger t) o) (set_ords_status "FAILED_RETRYABLE")
    (tx_row (ob_id o) (λ o, set_outbox "FAILED_RETRYABLE" (Some now) (ob_acknowledged_at o) (ob_last_http_status o) (Some "RECOVERED_STALE_IN_FLIGHT") o) t).
Definition recover_all (now timeout : Z) (locked : Z → bool) (x : world) : tx :=
  fold_left (recover_in_flight now)
    (take 100 (sort_by ob_id (List.filter (λ o, in_flight_stale now timeout o && negb (locked (ob_id o))) (outboxes (attendance x))))) (begin_tx x).

(** ** The two queues, as the database shows them *)
Definition priority_queue (now limit : Z) (locked : Z → bool) (l : ledger) : list Z :=
  map ob_id (take (Z.to_nat (Z.max 100 (limit * 4)))
    (sort_by ob_id (List.filter (λ o, eligible now o && negb (is_history o) && negb (locked (ob_id o))) (outboxes l)))).

Definition history_rows (now : Z) (l : ledger) : list (OrdsOutbox * Z) :=
  omap (λ o, if eligible now o && is_history o then e ← (i ← ob_attendance_event_id o; row_by ae_id i (events l)); Some (o, ae_connector_id e) else None)
    (outboxes l).
(** [row_number() over (partition by connector order by id)] *)
Definition position (rows : list (OrdsOutbox * Z)) (p : OrdsOutbox * Z) : Z :=
  zlen (List.filter (λ q, (q.2 =? p.2) && (ob_id q.1 <=? ob_id p.1)) rows).
(** Position, then connectors after the last one served, then the connector. *)
Definition rank_le (rows : list (OrdsOutbox * Z)) (last : Z) (p q : OrdsOutbox * Z) : bool :=
  let after c := if last <? c then 0 else 1 in
  (position rows p <? position rows q)
  || (position rows p =? position rows q) && ((after p.2 <? after q.2) || (after p.2 =? after q.2) && (p.2 <=? q.2)).
Definition background_queue (now limit last : Z) (locked : Z → bool) (l : ledger) : list Z :=
  let rows := history_rows now l in
  List.filter (λ i, negb (locked i)) (map (λ p, ob_id p.1) (take (Z.to_nat (Z.max 100 limit)) (sort_with (rank_le rows last) rows))).

(** ** One row *)
Definition refuse (status : string) (error : string) (o : OrdsOutbox) : OrdsOutbox :=
  set_outbox status None (ob_acknowledged_at o) (ob_last_http_status o) (Some error) o.
Definition take_claim (now : Z) (payload : pyval) (o : OrdsOutbox) : OrdsOutbox :=
  mkOutbox (ob_id o) (ob_attendance_event_id o) (ob_delivery_type o) "IN_FLIGHT" (Some (sha256_hex (dumps_ascii payload))) (ob_attempt_count o + 1) None
    (Some now) (ob_acknowledged_at o) (ob_last_http_status o) None (ob_created_at o).
Definition terminal_at (i : Z) (x : world) : option Terminal := row_by t_id i (omap c_terminal (connectors x)).
Definition claim_cnic (r : res (option string)) : option string := match r with Ok (Some s) => if bool_decide (s = "") then None else Some s | _ => None end.

Section claims.
Context {platform : WorkerPlatform} (now : Z) (identity_snapshot_gate_enabled : bool) (forced_cap : Z) (x : world).

(** A row and its event are held together. *)
Definition hold_row (i : Z) (e : AttendanceEvent) (f : OrdsOutbox → OrdsOutbox) (status : string) (b : batch) : batch :=
  mkBatch (tx_event (ae_id e) (set_ords_status status) (tx_row i f (bt_tx b))) (bt_claims b) (bt_forced b).
Definition hold_with (i : Z) (e : AttendanceEvent) (status error : string) : batch → batch := hold_row i e (refuse status error) status.
Definition claim_with (row : OrdsOutbox) (payload : pyval) (connector_id : Z) (forced : bool) (b : batch) : batch :=
  mkBatch (tx_row (ob_id row) (take_claim now payload) (bt_tx b))
    (bt_claims b ++ [mkWorkerClaim (ob_id row) payload connector_id (bool_decide (ob_status row = "FAILED_RETRYABLE"))])
    (if forced then bt_forced b + 1 else bt_forced b).

(** hold_uncertain_takeover (attendance_direct_ords.py): the run item says why. *)
Definition UNCERTAIN_REASON : string :=
  "An earlier approval for this punch may already have reached Oracle with another identity. It cannot be replaced by hand or released automatically; review the Oracle record first.".
Definition close_uncertain (v : AttendanceRecoveryItem) : AttendanceRecoveryItem :=
  mkRecoveryItem (rv_id v) "NEEDS_REVIEW" (Some TAKEOVER_UNCERTAIN)
    (assoc_set "needs_attention" (PBool true) (assoc_set "reason" (PStr UNCERTAIN_REASON) (rv_result v)))
    (match rv_completed_at v with Some t => Some t | None => Some now end) now.
Definition hold_uncertain_takeover (row : Z) (e : AttendanceEvent) (d : AttendanceForceReleaseDecision) (b : batch) : batch :=
  let b := hold_with row e "QUARANTINED_IDENTITY_CONFLICT" TAKEOVER_UNCERTAIN b in
  if fr_item_id d =? 0 then b
  else mkBatch (tx_items (update_by rv_id (fr_item_id d) close_uncertain (recovery_items (tx_ledger (bt_tx b)))) (bt_tx b)) (bt_claims b) (bt_forced b).

(** A direct approval that still owns its punch. *)
Definition claim_direct (row : OrdsOutbox) (e : AttendanceEvent) (d : AttendanceForceReleaseDecision) (takeover : option string) (b : batch) : res batch :=
  let l := tx_ledger (bt_tx b) in
  let connector := row_by c_id (ae_connector_id e) (connectors x) in
  if time_refusal e then Ok (hold_with (ob_id row) e "QUARANTINED_INVALID_DEVICE_TIME" "The punch time is invalid; it is never sent to Oracle." b)
  else if bool_decide (takeover = Some TAKEOVER_UNCERTAIN) then Ok (hold_uncertain_takeover (ob_id row) e d b)
  else
    payload ← delivery_payload (set_attendance l x) e connector;
    match payload with
    | None => Ok (hold_with (ob_id row) e "BLOCKED_IDENTITY" "The approved punch changed or its user/CNIC is unavailable." b)
    | Some p =>
        if forced_cap <=? bt_forced b then Ok b
        else match connector with Some c => Ok (claim_with row p (c_id c) true b) | None => Raise AttributeError "connector" end
    end.

(** The checks of an ordinary row; [owner] is an approval the automatic release took over. *)
Definition claim_ordinary (row : OrdsOutbox) (event : option AttendanceEvent) (owner : bool) (b : batch) : res batch :=
  let l := tx_ledger (bt_tx b) in
  let x := set_attendance l x in
  let ap := approved l in
  let invalid o := set_outbox "QUARANTINED_INVALID_EVENT_UID" (ob_next_attempt_at o) (ob_acknowledged_at o) (ob_last_http_status o)
    (Some "Rejected before ORDS delivery: event_uid is not a 64-character lowercase hex digest.") o in
  match event with
  | None => Ok (mkBatch (tx_row (ob_id row) invalid (bt_tx b)) (bt_claims b) (bt_forced b))
  | Some e =>
      if negb (HEX64 (ae_event_uid e)) then Ok (hold_row (ob_id row) e invalid "QUARANTINED_INVALID_EVENT_UID" b)
      else if negb (delivery_authorized ap e) then
        Ok (hold_with (ob_id row) e "BLOCKED_IDENTITY" "Administrator approval is required. Open Force release attendance." b)
      else
        match row_by c_id (ae_connector_id e) (connectors x), terminal_at (ae_zkt_device_id e) x with
        | Some c, Some zkt =>
            if negb (_terminal_provenance_verified e c) then
              Ok (hold_with (ob_id row) e "QUARANTINED_MISSING_TERMINAL_PROVENANCE" "Verified terminal provenance is required before Oracle delivery." b)
            else
              match claim_cnic (decrypt_cnic (ae_cnic_encrypted e)),
                    identity_snapshot_gate_enabled && negb (bool_decide (ae_identity_resolution_status e ∈ VERIFIED_IDENTITY_RESOLUTION_STATUSES)) with
              | Some cnic, false =>
                  if bool_decide (ae_clock_quality e = "INVALID") || negb (attendance_device_time_is_plausible (ae_device_event_time e) (ae_captured_at e)) then
                    Ok (hold_row (ob_id row) e (λ o, set_outbox "QUARANTINED_INVALID_DEVICE_TIME" None (ob_acknowledged_at o) (ob_last_http_status o) (ob_last_error o) o)
                          "QUARANTINED_INVALID_DEVICE_TIME" b)
                  else
                    proof ← delivery_proof_valid x e c;
                    if negb proof then
                      Ok (hold_row (ob_id row) e (λ o, set_outbox "BLOCKED_IDENTITY" (ob_next_attempt_at o) (ob_acknowledged_at o) (ob_last_http_status o)
                            (Some "The saved identity evidence changed. A new repair check is required.") o) "BLOCKED_IDENTITY" b)
                    else if bool_decide (is_Some (decision_for ap (ae_id e))) && negb owner then
                      payload ← delivery_payload x e (Some c);
                      match payload with
                      | None => Ok (hold_with (ob_id row) e "BLOCKED_IDENTITY" "The approved identity or source changed. Review this forced release." b)
                      | Some p => if forced_cap <=? bt_forced b then Ok b else Ok (claim_with row p (c_id c) true b)
                      end
                    else Ok (claim_with row (oracle_payload c zkt e cnic) (c_id c) false b)
              | _, _ =>
                  Ok (hold_row (ob_id row) e (λ o, set_outbox "BLOCKED_IDENTITY" (ob_next_attempt_at o) (ob_acknowledged_at o) (ob_last_http_status o) (ob_last_error o) o)
                        "BLOCKED_IDENTITY" b)
              end
        | _, _ => Ok (hold_with (ob_id row) e "QUARANTINED_MISSING_TERMINAL_PROVENANCE" "Verified terminal provenance is required before Oracle delivery." b)
        end
  end.

Definition claim_row (i : Z) (b : batch) : res batch :=
  let l := tx_ledger (bt_tx b) in
  match outbox_at i l with
  | None => Ok b
  | Some row =>
      let event := event_of l row in
      let decision := e ← event; decision_for (approved l) (ae_id e) in
      takeover ← match event, decision with Some e, Some d => automatic_takeover (set_attendance l x) e d | _, _ => Ok None end;
      let owner := bool_decide (takeover = Some TAKEOVER) in
      match event, decision with
      | Some e, Some d =>
          if eq_str (get "policy" (fr_proof d)) "manual-direct-ords-v1" && negb owner then claim_direct row e d takeover b else claim_ordinary row event owner b
      | _, _ => claim_ordinary row event owner b
      end
  end.

(** ** The loop: [while priority or background] *)
Definition pick (s : AttendanceDeliverySchedule) (priority background : list Z) : option (bool * Z * list Z * list Z) :=
  match priority, background with
  | [], [] => None
  | p :: ps, [] => Some (false, p, ps, [])
  | [], q :: qs => Some (true, q, [], qs)
  | p :: ps, q :: qs => if 4 <=? priority_served s then Some (true, q, priority, qs) else Some (false, p, ps, background)
  end.
Definition serve (use_background : bool) (i : Z) (l : ledger) (s : AttendanceDeliverySchedule) : AttendanceDeliverySchedule :=
  if use_background then
    let source := o ← outbox_at i l; e ← ob_attendance_event_id o; row_by ae_id e (events l) in
    mkDelivery 0 (match source with Some e => ae_connector_id e | None => last_connector_id s end)
  else mkDelivery (Z.min 4 (priority_served s + 1)) (last_connector_id s).

Fixpoint claim_loop (fuel : nat) (limit : Z) (s : AttendanceDeliverySchedule) (priority background : list Z) (b : batch)
    : res (AttendanceDeliverySchedule * batch) :=
  match fuel with
  | O => Ok (s, b)
  | S fuel =>
      match pick s priority background with
      | None => Ok (s, b)
      | Some (use_background, i, priority, background) =>
          let s := serve use_background i (tx_ledger (bt_tx b)) s in
          b' ← claim_row i b;
          if (zlen (bt_claims b) <? zlen (bt_claims b')) && (limit <=? zlen (bt_claims b')) then Ok (s, b')
          else claim_loop fuel limit s priority background b'
      end
  end.
End claims.

(** A missing schedule row is created first, in a savepoint that flushes the session:
    then the queues see the recovered rows. *)
Definition claim_ords_batch `{WorkerPlatform} (now timeout : Z) (gate : bool) (limit forced_limit : Z) (locked : Z → bool) (x : world)
    (schedule : option AttendanceDeliverySchedule) : res (world * AttendanceDeliverySchedule * list worker_claim) :=
  let t := recover_all now timeout locked x in
  let t := match schedule with
           | Some _ => t
           | None => mkTx (before_flush (attendance x) (tx_events t) (tx_rows t) (tx_ledger t)) (tx_events t) (tx_rows t)
           end in
  let view := match schedule with Some _ => attendance x | None => tx_ledger t end in
  let s := default (mkDelivery 0 0) schedule in
  let priority := priority_queue now limit locked view in
  let background := background_queue now limit (last_connector_id s) locked view in
  '(s, b) ← claim_loop now gate (Z.max 0 forced_limit) x (length priority + length background) limit s priority background (mkBatch t [] 0);
  Ok (commit_tx x (bt_tx b), s, bt_claims b).

(** ** The order of service *)
(** The rows in the order the loop takes them, with their queue. *)
Fixpoint merged (fuel : nat) (served : Z) (priority background : list Z) : list (bool * Z) :=
  match fuel with
  | O => []
  | S fuel =>
      match pick (mkDelivery served 0) priority background with
      | None => []
      | Some (use_background, i, priority, background) =>
          (use_background, i) :: merged fuel (if use_background : bool then 0 else Z.min 4 (served + 1)) priority background
      end
  end.

Lemma pick_length s p q u i p' q' : pick s p q = Some (u, i, p', q') → (length p' + length q' < length p + length q)%nat ∧ i :: p' ++ q' ≡ₚ p ++ q.
Proof.
  unfold pick. destruct p as [|a p], q as [|c q]; [done|..].
  - intros [= <- <- <- <-]. simpl. split; [lia|done].
  - intros [= <- <- <- <-]. simpl. split; [lia|done].
  - case_match; intros [= <- <- <- <-]; simpl.
    + split; [lia|]. rewrite <- Permutation_middle. constructor.
    + split; [lia|done].
Qed.
Lemma pick_empty s p q : pick s p q = None → p = [] ∧ q = [].
Proof. unfold pick. destruct p, q; try done. by case_match. Qed.

Lemma merged_perm fuel served p q : (length p + length q ≤ fuel)%nat → map snd (merged fuel served p q) ≡ₚ p ++ q.
Proof.
  revert served p q. induction fuel as [|fuel IH]; intros served p q Hf.
  - destruct p, q; simpl in *; try lia. done.
  - cbn [merged]. destruct (pick _ p q) as [[[[u i] p'] q']|] eqn:E.
    + apply pick_length in E as [Hlt Hp]. cbn [map snd]. rewrite IH by lia. done.
    + apply pick_empty in E as [-> ->]. done.
Qed.

(** A background row is reached after at most four live rows for each background row
    up to and including it. *)
Lemma merged_background fuel served p q k j :
  (length p + length q ≤ fuel)%nat → 0 <= served → q !! k = Some j →
  ∃ m, (Z.of_nat m <= 5 * Z.of_nat k + 4 - Z.min 4 served) ∧ merged fuel served p q !! m = Some (true, j).
Proof.
  revert served p q k. induction fuel as [|fuel IH]; intros served p q k Hf Hs Hk.
  { destruct q; simpl in *; [done|lia]. }
  cbn [merged]. destruct q as [|c q]; [done|]. destruct p as [|a p]; cbn [pick].
  - destruct k as [|k]; simpl in Hk.
    + injection Hk as <-. exists 0%nat. split; [lia|done].
    + destruct (IH 0 [] q k ltac:(simpl in *; lia) ltac:(lia) Hk) as (m & Hm & Hl). exists (S m). split; [lia|done].
  - cbn [priority_served]. destruct (Z.leb_spec 4 served).
    + destruct k as [|k]; simpl in Hk.
      * injection Hk as <-. exists 0%nat. split; [lia|done].
      * destruct (IH 0 (a :: p) q k ltac:(simpl in *; lia) ltac:(lia) Hk) as (m & Hm & Hl). exists (S m). split; [lia|done].
    + destruct (IH (Z.min 4 (served + 1)) p (c :: q) k ltac:(simpl in *; lia) ltac:(lia) Hk) as (m & Hm & Hl). exists (S m). split; [lia|done].
Qed.

Section order.
Context {platform : WorkerPlatform} (now : Z) (gate : bool) (forced_cap : Z) (x : world).
Abbreviation claim_row := (claim_row now gate forced_cap x).

Lemma pick_served s p q : pick s p q = pick (mkDelivery (priority_served s) 0) p q.
Proof. done. Qed.
Lemma serve_served u i l s : priority_served (serve u i l s) = if u then 0 else Z.min 4 (priority_served s + 1).
Proof. by destruct u. Qed.

(** The loop runs [claim_row] over a prefix of that order. *)
Lemma claim_loop_prefix fuel limit s p q b s' b' :
  claim_loop now gate forced_cap x fuel limit s p q b = Ok (s', b') →
  ∃ n, foldR (λ b i, claim_row i b) (take n (map snd (merged fuel (priority_served s) p q))) b = Ok b' ∧
    (n = length (merged fuel (priority_served s) p q) ∨ limit <= zlen (bt_claims b')).
Proof.
  revert s p q b. induction fuel as [|fuel IH]; intros s p q b H; cbn [claim_loop merged] in *.
  - injection H as <- <-. exists 0%nat. split; [done|by left].
  - rewrite <- pick_served. destruct (pick s p q) as [[[[u i] p'] q']|] eqn:E.
    2:{ injection H as <- <-. exists 0%nat. split; [done|by left]. }
    apply bind_ok in H as (b1 & Hb1 & H). destruct (_ && _) eqn:Eg.
    + injection H as <- <-. bool_prop. exists 1%nat. cbn [map take foldR snd]. rewrite Hb1. simpl. split; [done|by right].
    + apply IH in H as (n & Hn & Hor). rewrite serve_served in Hn, Hor. exists (S n). cbn [map take foldR length snd]. rewrite Hb1. simpl.
      split; [done|]. destruct Hor as [-> |]; [by left|by right].
Qed.

(** C26: The loop of the claim reaches rows in a fixed order: every due row of either
    queue has its place in it, the loop stops early only when the batch is full, and
    the row at place k of the history queue is reached after at most 5k + 4 others,
    however many live rows wait. *)
Theorem claim_loop_serves limit s p q b s' b' :
  0 <= priority_served s → claim_loop now gate forced_cap x (length p + length q) limit s p q b = Ok (s', b') →
  let order := merged (length p + length q) (priority_served s) p q in
  map snd order ≡ₚ p ++ q ∧
  (∃ n, foldR (λ b i, claim_row i b) (take n (map snd order)) b = Ok b' ∧ (zlen (bt_claims b') < limit → (length order ≤ n)%nat)) ∧
  ∀ k j, q !! k = Some j → ∃ m, Z.of_nat m <= 5 * Z.of_nat k + 4 - Z.min 4 (priority_served s) ∧ order !! m = Some (true, j).
Proof.
  intros Hs H. cbv zeta. split_and!.
  - by apply merged_perm.
  - apply claim_loop_prefix in H as (n & Hn & Hor). exists n. split; [done|]. lia.
  - intros k j Hk. by apply merged_background.
Qed.
End order.

(** ** What one row does to the batch *)
(** An approved row is claimed; any other is left or held with its own event. *)
Inductive row_effect (now i : Z) (b : batch) : batch → Prop :=
  | row_left : row_effect now i b b
  | row_held row e f status items :
      outbox_at i (tx_ledger (bt_tx b)) = Some row → (∀ e0, e = Some e0 → event_of (tx_ledger (bt_tx b)) row = Some e0) → (∀ o, route (f o) = route o) →
      (∀ o, ¬ confirmed (f o)) → map item_key items = map item_key (recovery_items (tx_ledger (bt_tx b))) →
      row_effect now i b (mkBatch (tx_items items (on_event e (set_ords_status status) (tx_row i f (bt_tx b)))) (bt_claims b) (bt_forced b))
  | row_claimed row e payload connector_id forced :
      outbox_at i (tx_ledger (bt_tx b)) = Some row → event_of (tx_ledger (bt_tx b)) row = Some e →
      delivery_authorized (approved (tx_ledger (bt_tx b))) e = true → row_effect now i b (claim_with now row payload connector_id forced b).

Lemma outbox_at_id i l row : outbox_at i l = Some row → row ∈ outboxes l ∧ ob_id row = i.
Proof. apply row_by_some. Qed.

Lemma decision_authorized ap e : is_Some (decision_for ap (ae_id e)) → delivery_authorized ap e = true.
Proof. intros H. unfold delivery_authorized. destruct (negb _); [done|]. by rewrite bool_decide_true. Qed.

Lemma close_keys now k l : map item_key (update_by rv_id k (close_uncertain now) l) = map item_key l.
Proof.
  unfold update_by. rewrite map_map. apply map_ext. intros v. destruct (rv_id v =? k); [|done].
  unfold item_key, close_uncertain. simpl. by rewrite !assoc_set_ne.
Qed.

Section effects.
Context {platform : WorkerPlatform} (now : Z) (gate : bool) (forced_cap : Z) (x : world).

Lemma hold_effect i b row e f status :
  outbox_at i (tx_ledger (bt_tx b)) = Some row → event_of (tx_ledger (bt_tx b)) row = Some e → (∀ o, route (f o) = route o) → (∀ o, ¬ confirmed (f o)) →
  row_effect now i b (hold_row (ob_id row) e f status b).
Proof.
  intros Hr He Hf Hc. destruct (outbox_at_id _ _ _ Hr) as [_ Hid]. unfold hold_row. rewrite Hid.
  rewrite <- (tx_items_same (tx_event _ _ _)). apply (row_held now i b row (Some e) f status); try done. intros e0 [= <-]. done.
Qed.
Lemma uncertain_effect i b row e d :
  outbox_at i (tx_ledger (bt_tx b)) = Some row → event_of (tx_ledger (bt_tx b)) row = Some e →
  row_effect now i b (hold_uncertain_takeover now (ob_id row) e d b).
Proof.
  intros Hr He. unfold hold_uncertain_takeover, hold_with. cbv zeta. destruct (_ =? 0); [by apply hold_effect; [..|not_confirmed]|].
  destruct (outbox_at_id _ _ _ Hr) as [_ Hid]. rewrite Hid. apply (row_held now i b row (Some e)); try done; [by intros e0 [= <-]|not_confirmed|apply close_keys].
Qed.

Lemma claim_direct_effect i b row e d takeover b' :
  outbox_at i (tx_ledger (bt_tx b)) = Some row → event_of (tx_ledger (bt_tx b)) row = Some e → decision_for (approved (tx_ledger (bt_tx b))) (ae_id e) = Some d →
  claim_direct now forced_cap x row e d takeover b = Ok b' → row_effect now i b b'.
Proof.
  intros Hr He Hd. unfold claim_direct, hold_with. intros H.
  destruct (time_refusal e); [injection H as <-; by apply hold_effect; [..|not_confirmed]|].
  destruct (bool_decide _); [injection H as <-; by apply uncertain_effect|].
  apply bind_ok in H as ([p|] & _ & H); [|injection H as <-; by apply hold_effect; [..|not_confirmed]].
  destruct (_ <=? _); [injection H as <-; constructor|]. destruct (row_by c_id _ _) as [c|]; [|done]. injection H as <-.
  eapply row_claimed; [done..|]. apply decision_authorized. rewrite Hd. done.
Qed.

Lemma claim_ordinary_effect i b row event owner b' :
  outbox_at i (tx_ledger (bt_tx b)) = Some row → event_of (tx_ledger (bt_tx b)) row = event →
  claim_ordinary now gate forced_cap x row event owner b = Ok b' → row_effect now i b b'.
Proof.
  intros Hr He. unfold claim_ordinary, hold_with. cbv zeta. intros H. destruct (outbox_at_id _ _ _ Hr) as [_ Hid].
  destruct event as [e|].
  2:{ injection H as <-. rewrite Hid, <- (tx_items_same (tx_row _ _ _)). apply (row_held now i b row None _ ""); try done. not_confirmed. }
  destruct (negb (HEX64 _)); [injection H as <-; by apply hold_effect; [..|not_confirmed]|].
  destruct (delivery_authorized _ e) eqn:Ea; simpl in H; [|injection H as <-; by apply hold_effect; [..|not_confirmed]].
  destruct (row_by c_id _ _) as [c|]; [|injection H as <-; by apply hold_effect; [..|not_confirmed]].
  destruct (terminal_at _ _) as [t|]; [|injection H as <-; by apply hold_effect; [..|not_confirmed]].
  destruct (negb _); [injection H as <-; by apply hold_effect; [..|not_confirmed]|].
  destruct (claim_cnic _) as [cnic|]; [|injection H as <-; by apply hold_effect; [..|not_confirmed]].
  destruct (gate && _); [injection H as <-; by apply hold_effect; [..|not_confirmed]|].
  destruct (_ || _); [injection H as <-; by apply hold_effect; [..|not_confirmed]|].
  apply bind_ok in H as (pf & _ & H). destruct (negb pf); [injection H as <-; by apply hold_effect; [..|not_confirmed]|].
  destruct (bool_decide _ && _); [|injection H as <-; by eapply row_claimed].
  apply bind_ok in H as ([p|] & _ & H); [|injection H as <-; by apply hold_effect; [..|not_confirmed]].
  destruct (_ <=? _); injection H as <-; [constructor|by eapply row_claimed].
Qed.

Lemma claim_row_effect i b b' : claim_row now gate forced_cap x i b = Ok b' → row_effect now i b b'.
Proof.
  unfold claim_row. destruct (outbox_at i _) as [row|] eqn:Er; [|intros [= <-]; constructor]. cbv zeta. intros H. apply bind_ok in H as (takeover & _ & H).
  destruct (event_of _ row) as [e|] eqn:Ee; cbn [mbind option_bind] in H; [|by eapply claim_ordinary_effect].
  destruct (decision_for _ _) as [d|] eqn:Ed; [|by eapply claim_ordinary_effect].
  destruct (_ && _); [by eapply claim_direct_effect|by eapply claim_ordinary_effect].
Qed.
End effects.

Lemma row_effect_claims now i b b' : row_effect now i b b' → zlen (bt_claims b') <= zlen (bt_claims b) + 1.
Proof. intros [| |]; simpl; unfold zlen; rewrite ?length_app; simpl; lia. Qed.

Lemma claim_loop_limit `{WorkerPlatform} now gate cap x fuel limit s p q b s' b' :
  zlen (bt_claims b) < limit → claim_loop now gate cap x fuel limit s p q b = Ok (s', b') → zlen (bt_claims b') <= limit.
Proof.
  revert s p q b. induction fuel as [|fuel IH]; intros s p q b Hb Hr; cbn [claim_loop] in Hr; [injection Hr as <- <-; lia|].
  destruct (pick s p q) as [[[[u i] p'] q']|]; [|injection Hr as <- <-; lia].
  apply bind_ok in Hr as (b1 & Hb1 & Hr). apply claim_row_effect, row_effect_claims in Hb1.
  destruct (_ && _) eqn:Eg; [injection Hr as <- <-; lia|]. apply IH in Hr; [done|]. apply andb_false_iff in Eg as [Eg|Eg]; bool_prop; lia.
Qed.

(** ** The whole batch *)
Definition unique_links (l : ledger) : Prop := ∀ o1 o2 a, o1 ∈ outboxes l → o2 ∈ outboxes l →
  ob_attendance_event_id o1 = Some a → ob_attendance_event_id o2 = Some a → ob_id o1 = ob_id o2.

Lemma outbox_at_update i j f l : (∀ o, ob_id (f o) = ob_id o) →
  outbox_at j (with_outboxes (update_by ob_id i f (outboxes l)) l) = if j =? i then f <$> outbox_at j l else outbox_at j l.
Proof.
  intros Hf. unfold outbox_at. simpl. destruct (Z.eqb_spec j i) as [-> |Hne]; [by apply row_by_update|].
  unfold update_by. rewrite row_by_map by (intros a; destruct (_ =? _); auto). destruct (row_by ob_id j (outboxes l)) as [o|] eqn:E; simpl; [|done].
  apply row_by_some in E as [_ Hid]. by rewrite (proj2 (Z.eqb_neq _ _)) by congruence.
Qed.

Lemma event_of_link l o e : event_of l o = Some e → ob_attendance_event_id o = Some (ae_id e).
Proof.
  unfold event_of. destruct (ob_attendance_event_id o) as [a|]; [|done]. simpl. destruct (a =? 0); [done|]. intros [_ Hid]%row_by_some. congruence.
Qed.
Lemma event_of_other l o k g : (∀ a, ae_id (g a) = ae_id a) → ob_attendance_event_id o ≠ Some k →
  event_of (with_events (update_by ae_id k g (events l)) l) o = event_of l o.
Proof.
  intros Hg Hne. unfold event_of. destruct (ob_attendance_event_id o) as [a|]; [|done]. simpl. destruct (a =? 0); [done|].
  unfold update_by. rewrite row_by_map by (intros e; destruct (_ =? _); auto). destruct (row_by ae_id a (events l)) as [e|] eqn:E; simpl; [|done].
  apply row_by_some in E as [_ Hid]. by rewrite (proj2 (Z.eqb_neq _ _)) by congruence.
Qed.

Record batch_inv (now : Z) (l0 : ledger) (done_ : list Z) (b : batch) : Prop := {
  bi_step : wstep (λ _, False) l0 (tx_ledger (bt_tx b));
  bi_rest : ∀ j, j ∉ done_ → outbox_at j (tx_ledger (bt_tx b)) = outbox_at j l0;
  bi_claims : ∀ c, c ∈ bt_claims b → wc_row_id c ∈ done_ ∧ ∃ row e, outbox_at (wc_row_id c) l0 = Some row ∧
    outbox_at (wc_row_id c) (tx_ledger (bt_tx b)) = Some (take_claim now (wc_payload c) row) ∧
    event_of (tx_ledger (bt_tx b)) row = Some e ∧ delivery_authorized (approved l0) e = true;
  bi_nodup : NoDup (map wc_row_id (bt_claims b)) }.

Lemma row_effect_wstep now i b b' : row_effect now i b b' → wstep (λ _, False) (tx_ledger (bt_tx b)) (tx_ledger (bt_tx b')).
Proof.
  intros [|row e f status items Hr He Hf Hc Hit|row e payload cid forced Hr He Ha]; [reflexivity|by apply wstep_items, wstep_pair; [destruct e|..|left]|].
  apply wstep_row; [done|]. left. not_confirmed.
Qed.

Lemma batch_inv_hold now l0 done_ b i row e f status items :
  unique_links l0 → batch_inv now l0 done_ b → i ∉ done_ → outbox_at i (tx_ledger (bt_tx b)) = Some row →
  (∀ e0, e = Some e0 → event_of (tx_ledger (bt_tx b)) row = Some e0) → (∀ o, route (f o) = route o) → (∀ o, ¬ confirmed (f o)) →
  map item_key items = map item_key (recovery_items (tx_ledger (bt_tx b))) → batch_inv now l0 (done_ ++ [i]) (mkBatch (tx_items items (on_event e (set_ords_status status) (tx_row i f (bt_tx b)))) (bt_claims b) (bt_forced b)).
Proof.
  intros Hu [S R C N] Hi Hr He Hf Hc Hit. set (l := tx_ledger (bt_tx b)) in *.
  assert (Hids : ∀ o, ob_id (f o) = ob_id o) by (intros o; pose proof (Hf o) as [= H _]; done).
  assert (Hat : ∀ j, outbox_at j (tx_ledger (tx_items items (on_event e (set_ords_status status) (tx_row i f (bt_tx b))))) = if j =? i then f <$> outbox_at j l else outbox_at j l).
  { intros j. rewrite <- outbox_at_update by done. by destruct e. }
  constructor; [|..|done]; cbn [bt_tx bt_claims].
  - etransitivity; [exact S|]. apply wstep_items, wstep_pair; [by destruct e|done|done|by left].
  - intros j Hj. rewrite Hat. assert (j ≠ i) as Hne by set_solver. rewrite (proj2 (Z.eqb_neq _ _) Hne). apply R. set_solver.
  - intros c Hc'. destruct (C c Hc') as (Hin & row0 & e0 & H1 & H2 & H3 & H4). split; [set_solver|]. exists row0, e0.
    assert (wc_row_id c ≠ i) as Hne by congruence. rewrite Hat, (proj2 (Z.eqb_neq _ _) Hne). split_and!; [done|done| |done].
    destruct e as [e1|]; [|done]. simpl. rewrite <- H3. unfold tx_row. simpl. apply (event_of_other (with_outboxes _ l)); [done|].
    intros Hl. apply Hne. specialize (He e1 eq_refl). apply event_of_link in He.
    apply outbox_at_id in H1 as [Hrow0 Hid0]. rewrite R in Hr by done. apply outbox_at_id in Hr as [Hrow Hid].
    rewrite <- Hid0, <- Hid. by eapply Hu.
Qed.

Lemma batch_inv_claim now l0 done_ b i row e payload cid forced :
  batch_inv now l0 done_ b → i ∉ done_ → outbox_at i (tx_ledger (bt_tx b)) = Some row → event_of (tx_ledger (bt_tx b)) row = Some e →
  delivery_authorized (approved (tx_ledger (bt_tx b))) e = true → batch_inv now l0 (done_ ++ [i]) (claim_with now row payload cid forced b).
Proof.
  intros [S R C N] Hi Hr He Ha. destruct (outbox_at_id _ _ _ Hr) as [_ Hid]. set (l := tx_ledger (bt_tx b)) in *.
  assert (Hat : ∀ j, outbox_at j (tx_ledger (bt_tx (claim_with now row payload cid forced b))) = if j =? i then take_claim now payload <$> outbox_at j l else outbox_at j l).
  { intros j. unfold claim_with. rewrite Hid. by apply (outbox_at_update i j (take_claim now payload) l). }
  assert (Hrest : ∀ j, j ∉ done_ ++ [i] → outbox_at j (tx_ledger (bt_tx (claim_with now row payload cid forced b))) = outbox_at j l0).
  { intros j Hj. rewrite Hat. assert (j ≠ i) as Hne by set_solver. rewrite (proj2 (Z.eqb_neq _ _) Hne). apply R. set_solver. }
  constructor; [|done| |].
  - etransitivity; [exact S|]. apply wstep_row; [done|]. left. not_confirmed.
  - intros c Hc. unfold claim_with in Hc. simpl in Hc. apply elem_of_app in Hc as [Hc|Hc%list_elem_of_singleton].
    + destruct (C c Hc) as (Hin & row0 & e0 & H1 & H2 & H3 & H4). split; [set_solver|]. exists row0, e0.
      assert (wc_row_id c ≠ i) as Hne by congruence. rewrite Hat, (proj2 (Z.eqb_neq _ _) Hne). by split_and!.
    + subst c. cbn [wc_row_id wc_payload]. rewrite Hid. split; [set_solver|]. exists row, e. rewrite Hat, Z.eqb_refl, Hr. simpl.
      split_and!; [by rewrite <- R|done|done|by rewrite <- (ws_approved _ _ _ S)].
  - unfold claim_with. simpl. rewrite List.map_app. apply NoDup_app. split_and!; [done| |apply NoDup_singleton].
    intros r (c & -> & Hc)%list_elem_of_fmap Hs. apply list_elem_of_singleton in Hs. simpl in Hs. apply Hi. rewrite <- Hid, <- Hs. by apply C.
Qed.

Lemma batch_inv_fold `{WorkerPlatform} now gate cap x l0 ids b b' :
  unique_links l0 → NoDup ids → batch_inv now l0 [] b → foldR (λ b i, claim_row now gate cap x i b) ids b = Ok b' → batch_inv now l0 ids b'.
Proof.
  intros Hu Hn Hb Hf.
  assert (∀ d, NoDup (d ++ ids) → batch_inv now l0 d b → batch_inv now l0 (d ++ ids) b') as Hgen; [|by apply (Hgen [])].
  clear Hn Hb. revert b Hf. induction ids as [|i ids IH]; intros b Hf d Hn Hb; simpl in Hf.
  - injection Hf as <-. by rewrite app_nil_r.
  - apply bind_ok in Hf as (b1 & Hb1 & Hf). replace (d ++ i :: ids) with ((d ++ [i]) ++ ids) in Hn |- * by by rewrite <- app_assoc.
    assert (i ∉ d) as Hi. { intros Hi. apply NoDup_app in Hn as (Hn & _ & _). apply NoDup_app in Hn as (_ & Hn & _). apply (Hn i Hi). by left. }
    apply (IH b1 Hf (d ++ [i])); [done|]. apply claim_row_effect in Hb1 as [|row e f status items Hr He Hrt Hc Hit|row e payload cid forced Hr He Ha].
    + destruct Hb as [S R C N]. constructor; [done|intros j Hj; apply R; set_solver| |done]. intros c Hc. destruct (C c Hc) as [Hin Hex]. split; [set_solver|done].
    + by eapply batch_inv_hold.
    + by eapply batch_inv_claim.
Qed.

(** *** The queues *)
Lemma NoDup_map_take {A B} (f : A → B) n l : NoDup (map f l) → NoDup (map f (take n l)).
Proof. intros H. rewrite <- (take_drop n l), List.map_app in H. by apply NoDup_app in H as (? & _ & _). Qed.
Lemma NoDup_map_perm {A B} (f : A → B) l k : l ≡ₚ k → NoDup (map f k) → NoDup (map f l).
Proof. intros Hp. by rewrite (Permutation_map f Hp). Qed.

Lemma history_rows_elem now l p : p ∈ history_rows now l → p.1 ∈ outboxes l ∧ eligible now p.1 = true ∧ is_history p.1 = true.
Proof.
  intros (o & Ho & H)%list_elem_of_omap. destruct (eligible now o && is_history o) eqn:E; [|done]. bool_prop.
  apply bind_Some in H as (e & _ & [= <-]). by split_and!.
Qed.
Lemma history_rows_nodup now l : NoDup (map ob_id (outboxes l)) → NoDup (map (λ p, ob_id p.1) (history_rows now l)).
Proof.
  unfold history_rows. set (g := λ o, if eligible now o && is_history o then _ else _).
  assert (Hg : ∀ o p, g o = Some p → p.1 = o).
  { intros o p H. unfold g in H. destruct (eligible now o && is_history o); [|done]. by apply bind_Some in H as (e & _ & [= <-]). }
  clearbody g. induction (outboxes l) as [|o os IH]; simpl; [done|]. intros [Ha Hl]%NoDup_cons. destruct (g o) as [p|] eqn:E; [|by apply IH].
  simpl. constructor; [|by apply IH]. intros (q & Hq & (o' & Ho' & Hgo)%list_elem_of_omap)%list_elem_of_fmap.
  apply Ha. apply Hg in E, Hgo. rewrite <- E, Hq, Hgo. by apply list_elem_of_fmap_2.
Qed.

Lemma priority_elem now limit locked l j :
  j ∈ priority_queue now limit locked l → ∃ o, o ∈ outboxes l ∧ ob_id o = j ∧ eligible now o = true ∧ is_history o = false.
Proof.
  unfold priority_queue. intros (o & -> & Ho)%list_elem_of_fmap. exists o. apply elem_of_take in Ho as (n & Hn & _). apply list_elem_of_lookup_2 in Hn.
  rewrite sort_by_perm in Hn. apply list_elem_of_In, List.filter_In in Hn as [Hin Hp]. bool_prop. split_and!; [by apply list_elem_of_In|done..].
Qed.
Lemma background_elem now limit last locked l j :
  j ∈ background_queue now limit last locked l → ∃ o, o ∈ outboxes l ∧ ob_id o = j ∧ eligible now o = true ∧ is_history o = true.
Proof.
  unfold background_queue. cbv zeta. intros [Hj _]%list_elem_of_In%List.filter_In. apply list_elem_of_In, list_elem_of_fmap in Hj as (p & -> & Hp).
  apply elem_of_take in Hp as (n & Hn & _). apply list_elem_of_lookup_2 in Hn. rewrite sort_with_perm in Hn. apply history_rows_elem in Hn as (H1 & H2 & H3). eauto.
Qed.

Lemma queues_nodup now limit last locked l :
  NoDup (map ob_id (outboxes l)) → NoDup (priority_queue now limit locked l ++ background_queue now limit last locked l).
Proof.
  intros Hn. apply NoDup_app. split_and!.
  - unfold priority_queue. apply NoDup_map_take. eapply NoDup_map_perm; [apply sort_by_perm|]. by apply NoDup_map_filter.
  - intros j Hp Hb. apply priority_elem in Hp as (o & Ho & Hid & _ & Hh). apply background_elem in Hb as (o' & Ho' & Hid' & _ & Hh').
    assert (o = o') as <- by (eapply (NoDup_map_inj ob_id); [done..|congruence]). congruence.
  - unfold background_queue. cbv zeta. rewrite <- (map_id (List.filter _ _)). apply NoDup_map_filter. rewrite map_id.
    apply NoDup_map_take. eapply NoDup_map_perm; [apply sort_with_perm|]. by apply history_rows_nodup.
Qed.

(** *** The start of the loop *)
(** Each row is the stored one, or a stale one that was recovered. *)
Definition recovered (now timeout : Z) (x : world) (l : ledger) : Prop :=
  ∀ j row, outbox_at j l = Some row → ∃ o, outbox_at j (attendance x) = Some o ∧ ob_attempt_count row = ob_attempt_count o ∧
    (row = o ∨ in_flight_stale now timeout o = true).

Record recovery_inv (now timeout : Z) (x : world) (t : tx) : Prop := {
  ri_rows : recovered now timeout x (tx_ledger t);
  ri_touched : ∀ j, j ∈ tx_rows t → ∃ o, outbox_at j (attendance x) = Some o ∧ in_flight_stale now timeout o = true;
  ri_step : wstep (λ _, False) (attendance x) (tx_ledger t) }.

Lemma recover_all_inv now timeout locked x : NoDup (map ob_id (outboxes (attendance x))) → recovery_inv now timeout x (recover_all now timeout locked x).
Proof.
  intros Hn. unfold recover_all. set (os := take 100 _).
  assert (Hos : ∀ o, o ∈ os → o ∈ outboxes (attendance x) ∧ in_flight_stale now timeout o = true).
  { intros o (n & Hk & _)%elem_of_take. apply list_elem_of_lookup_2 in Hk. rewrite sort_by_perm in Hk. apply list_elem_of_In, List.filter_In in Hk as [Hin Hp].
    bool_prop. split; [by apply list_elem_of_In|done]. }
  clearbody os. assert (H0 : recovery_inv now timeout x (begin_tx x)).
  { constructor; [intros j row Hr; exists row; eauto|by intros j ?%not_elem_of_nil|reflexivity]. }
  revert H0. generalize (begin_tx x) as t. induction os as [|o os IH]; intros t Ht; simpl; [done|]. apply IH; [intros o' Ho'; apply Hos; by right|].
  destruct (Hos o ltac:(left)) as [Hin Hst]. assert (Hox : outbox_at (ob_id o) (attendance x) = Some o) by by apply row_by_unique.
  destruct Ht as [R T S]. constructor.
  - intros j row. unfold recover_in_flight. set (e := event_of _ o).
    set (f := λ o : OrdsOutbox, set_outbox "FAILED_RETRYABLE" (Some now) (ob_acknowledged_at o) (ob_last_http_status o) (Some "RECOVERED_STALE_IN_FLIGHT") o).
    assert (Hat : outbox_at j (tx_ledger (on_event e (set_ords_status "FAILED_RETRYABLE") (tx_row (ob_id o) f t)))
      = if j =? ob_id o then f <$> outbox_at j (tx_ledger t) else outbox_at j (tx_ledger t)).
    { rewrite <- outbox_at_update by done. by destruct e. }
    rewrite Hat. destruct (Z.eqb_spec j (ob_id o)) as [-> |Hne]; [|apply R].
    intros (row1 & Hr1 & ->)%fmap_Some. destruct (R _ _ Hr1) as (o1 & Ho1 & Hatt & _). exists o. rewrite Hox in Ho1. injection Ho1 as <-. eauto.
  - intros j. assert (tx_rows (recover_in_flight now t o) = ob_id o :: tx_rows t) as ->.
    { unfold recover_in_flight. by destruct (event_of _ _). }
    intros [-> |Hj]%elem_of_cons; [eauto|by apply T].
  - etransitivity; [exact S|]. unfold recover_in_flight. apply wstep_pair; [done|done|left; not_confirmed].
Qed.

(** The flush of a savepoint changes only the rows it touched, and keeps their attempts. *)
Lemma flushed_recovered now timeout x t :
  recovery_inv now timeout x t → recovered now timeout x (before_flush (attendance x) (tx_events t) (tx_rows t) (tx_ledger t)).
Proof.
  intros [R T S] j row. rewrite before_flush_eq. cbv zeta. unfold outbox_at at 1. simpl. rewrite row_by_map by (intros; apply flush_outbox_id).
  intros (row0 & Hr0 & ->)%fmap_Some. destruct (R _ _ Hr0) as (o & Ho & Hatt & Hor). exists o. unfold flush_outbox. case_bool_decide as Hin; [|done].
  destruct (T _ Hin) as (o1 & Ho1 & Hst). apply outbox_at_id in Hr0 as [_ Hid]. rewrite Hid, Ho in Ho1. injection Ho1 as <-. split_and!; [done| |by right].
  unfold retain_outbox. destruct (negb _); [done|]. destruct (_ ≫= _); [|done]. by destruct (delivery_authorized _ _).
Qed.

Lemma unique_links_routes l l' : map route (outboxes l') = map route (outboxes l) → unique_links l → unique_links l'.
Proof.
  intros Hr Hu o1 o2 a H1 H2 E1 E2.
  assert (Hin : ∀ o, o ∈ outboxes l' → ∃ o', o' ∈ outboxes l ∧ route o = route o').
  { intros o Ho. assert (route o ∈ map route (outboxes l)) as (o' & ? & ?)%list_elem_of_fmap by (rewrite <- Hr; by apply list_elem_of_fmap_2). eauto. }
  destruct (Hin _ H1) as (p1 & P1 & Q1), (Hin _ H2) as (p2 & P2 & Q2). injection Q1 as I1 L1. injection Q2 as I2 L2.
  rewrite I1, I2. apply (Hu p1 p2 a); congruence.
Qed.

(** A claimed row passes the approval hook. *)
Lemma claim_committed now l0 ids x b c :
  batch_inv now l0 ids b → c ∈ bt_claims b →
  ∃ row, outbox_at (wc_row_id c) l0 = Some row ∧ outbox_at (wc_row_id c) (attendance (commit_tx x (bt_tx b))) = Some (take_claim now (wc_payload c) row).
Proof.
  intros [S _ C _] Hc. destruct (C c Hc) as (_ & row & e & H1 & H2 & H3 & H4). exists row. split; [done|].
  unfold commit_tx, commit. simpl. rewrite before_flush_eq. cbv zeta. unfold outbox_at. simpl. rewrite row_by_map by (intros; apply flush_outbox_id).
  unfold outbox_at in H2. rewrite H2. simpl. f_equal. unfold flush_outbox. destruct (bool_decide _); [|done]. unfold retain_outbox. destruct (negb _); [done|].
  set (l := tx_ledger (bt_tx b)) in *. rewrite <- (ws_approved _ _ _ S) in H4. simpl.
  unfold event_of in H3. destruct (ob_attendance_event_id row) as [a|]; [|done]. simpl in H3 |- *. destruct (a =? 0); [done|].
  rewrite row_by_map by (intros; apply flush_event_id). rewrite H3. simpl. unfold flush_event. destruct (bool_decide _).
  - rewrite retain_event_approved by done. by rewrite authorized_set_required.
  - by rewrite H4.
Qed.

(** A claimed batch is sound: at most [limit] claims, for distinct rows; each row was
    due (or left in flight by a stopped worker) before, and after the commit, the
    approval hook included, it is IN_FLIGHT with one more attempt, the time of the
    claim and the hash of the payload that will be sent. *)
Theorem claim_batch_sound `{WorkerPlatform} now timeout gate limit forced_limit locked x schedule x' s' claims :
  NoDup (map ob_id (outboxes (attendance x))) → unique_links (attendance x) → 1 <= limit →
  claim_ords_batch now timeout gate limit forced_limit locked x schedule = Ok (x', s', claims) →
  zlen claims <= limit ∧ NoDup (map wc_row_id claims) ∧
  ∀ c, c ∈ claims → ∃ o o', outbox_at (wc_row_id c) (attendance x) = Some o ∧ outbox_at (wc_row_id c) (attendance x') = Some o' ∧
    (eligible now o = true ∨ in_flight_stale now timeout o = true) ∧ ob_status o' = "IN_FLIGHT" ∧ ob_attempt_count o' = ob_attempt_count o + 1 ∧
    ob_last_attempt_at o' = Some now ∧ ob_payload_hash o' = Some (sha256_hex (dumps_ascii (wc_payload c))).
Proof.
  intros Hn Hu Hlim. unfold claim_ords_batch. cbv zeta. pose proof (recover_all_inv now timeout locked x Hn) as Hrec.
  set (t0 := recover_all now timeout locked x) in *.
  set (t := match schedule with Some _ => t0 | None => _ end). set (view := match schedule with Some _ => attendance x | None => tx_ledger t end).
  set (s := default (mkDelivery 0 0) schedule). set (p := priority_queue now limit locked view). set (q := background_queue now limit (last_connector_id s) locked view).
  intros H0. apply bind_ok in H0 as ([s1 b] & Hloop & [= <- <- <-]).
  assert (Ht : recovered now timeout x (tx_ledger t) ∧ wstep (λ _, False) (attendance x) (tx_ledger t)).
  { unfold t. destruct schedule; [split; apply Hrec|]. split; [by apply flushed_recovered|].
    apply (wstep_commit (λ _, False) x t0), Hrec. }
  destruct Ht as [Hr Hw].
  assert (Hnv : NoDup (map ob_id (outboxes view))).
  { unfold view. destruct schedule; [done|]. by rewrite (route_id _ _ (ws_rows _ _ _ Hw)). }
  pose proof (claim_loop_limit now gate (Z.max 0 forced_limit) x _ limit s p q (mkBatch t [] 0) s1 b ltac:(simpl; unfold zlen; simpl; lia) Hloop) as Hlen.
  apply claim_loop_prefix in Hloop as (n & Hf & _). set (ids := take n _) in Hf.
  assert (Hperm : map snd (merged (length p + length q) (priority_served s) p q) ≡ₚ p ++ q) by by apply merged_perm.
  assert (Hids : NoDup ids). { unfold ids. rewrite <- (map_id (take _ _)). apply NoDup_map_take. rewrite map_id, Hperm. by apply queues_nodup. }
  assert (Hul : unique_links (tx_ledger t)) by (eapply unique_links_routes; [apply Hw|done]).
  assert (Hb : batch_inv now (tx_ledger t) ids b).
  { eapply batch_inv_fold; [done|done| |exact Hf]. constructor; simpl; [reflexivity|done|by intros ? ?%not_elem_of_nil|constructor]. }
  split_and!; [done|apply Hb|]. intros c Hc. destruct (claim_committed _ _ _ x _ _ Hb Hc) as (row & H1 & H2).
  destruct (Hr _ _ H1) as (o & Ho & Hatt & Hor). exists o, (take_claim now (wc_payload c) row). split_and!; [done|done| |done|simpl; by rewrite Hatt|done|done].
  assert (Hin : wc_row_id c ∈ p ++ q).
  { destruct (bi_claims _ _ _ _ Hb c Hc) as [Hin _]. apply elem_of_take in Hin as (m & Hm & _). apply list_elem_of_lookup_2 in Hm. by rewrite Hperm in Hm. }
  assert (Hel : ∃ ov, outbox_at (wc_row_id c) view = Some ov ∧ eligible now ov = true).
  { apply elem_of_app in Hin as [Hin|Hin]; [apply priority_elem in Hin|apply background_elem in Hin]; destruct Hin as (ov & Hov & <- & He & _);
      exists ov; (split; [by apply row_by_unique|done]). }
  destruct Hel as (ov & Hov & Hel). unfold view in Hov. destruct schedule; [left; congruence|].
  destruct Hor as [-> |Hst]; [left; congruence|by right].
Qed.

(** ** The worker beside the delivery of intents *)
Inductive worker_tx `{WorkerPlatform} : world → world → Prop :=
  | claim_tx now timeout gate limit forced_limit locked x schedule x' s' claims :
      claim_ords_batch now timeout gate limit forced_limit locked x schedule = Ok (x', s', claims) → worker_tx x x'
  | results_tx now x claims ids failure results : worker_tx x (apply_ords_batch_results now x claims ids failure results)
  | firmware_claim_tx now timeout limit locked x : worker_tx x (claim_firmware_receipt_audit_batch now timeout limit locked x).1
  | firmware_results_tx now x claims missing r : worker_tx x (apply_firmware_receipt_audit_results now x claims missing r)
  | membership_claim_tx now timeout reverify limit locked x : worker_tx x (claim_confirmed_membership_audit_batch now timeout reverify limit locked x).1
  | membership_results_tx now x claims missing r : worker_tx x (apply_confirmed_membership_audit_results now x claims missing r).

Lemma recover_all_wstep P now timeout locked x : wstep P (attendance x) (tx_ledger (recover_all now timeout locked x)).
Proof. unfold recover_all. apply (recover_wstep P _ _ (begin_tx x)). intros t o. unfold recover_in_flight. apply wstep_pair; [done|done|left; not_confirmed]. Qed.

Lemma wstep_weaken (P Q : Z → Prop) l l' : (∀ r, P r → Q r) → wstep P l l' → wstep Q l l'.
Proof. intros HPQ [H1 H2 H3 H4 H5 H6 H7 H8]. constructor; try done. intros o Ho Hc. destruct (H8 o Ho Hc); [by left|right; auto]. Qed.

Lemma claim_fold_wstep `{WorkerPlatform} now gate cap x ids b b' :
  foldR (λ b i, claim_row now gate cap x i b) ids b = Ok b' → wstep (λ _, False) (tx_ledger (bt_tx b)) (tx_ledger (bt_tx b')).
Proof.
  revert b. induction ids as [|i ids IH]; intros b Hf; simpl in Hf; [by injection Hf as <-|].
  apply bind_ok in Hf as (b1 & Hb1 & Hf). etransitivity; [by eapply row_effect_wstep, claim_row_effect|by apply IH].
Qed.

Lemma claim_wstep `{WorkerPlatform} now timeout gate limit forced_limit locked x schedule x' s' claims :
  claim_ords_batch now timeout gate limit forced_limit locked x schedule = Ok (x', s', claims) → wstep (λ _, False) (attendance x) (attendance x').
Proof.
  unfold claim_ords_batch. cbv zeta. set (t0 := recover_all now timeout locked x).
  pose proof (recover_all_wstep (λ _, False) now timeout locked x : wstep _ (attendance x) (tx_ledger t0)) as Hw0.
  set (t := match schedule with Some _ => t0 | None => _ end). intros H0. apply bind_ok in H0 as ([s1 b] & Hloop & [= <- <- <-]).
  apply wstep_commit. apply claim_loop_prefix in Hloop as (n & Hf & _). etransitivity; [|by eapply claim_fold_wstep]. simpl. unfold t.
  destruct schedule; [done|]. by apply (wstep_commit (λ _, False) x t0).
Qed.

Lemma worker_tx_wstep `{WorkerPlatform} x x' : linked (attendance x) → worker_tx x x' → wstep (unowned (attendance x)) (attendance x) (attendance x').
Proof.
  intros Hl Htx. destruct Htx as [now timeout gate limit fl locked x sch x' s' claims Hc|now x claims ids failure results
    |now timeout limit locked x|now x claims missing r|now timeout reverify limit locked x|now x claims missing r].
  - apply (wstep_weaken (λ _, False)); [done|]. by eapply claim_wstep.
  - by apply batch_results_wstep.
  - apply firmware_claims_wstep.
  - apply audit_results_wstep; [done|intros; apply firmware_failure_wstep|intros; apply requeue_wstep|done].
  - apply membership_claims_wstep.
  - apply audit_results_wstep; [done|intros; apply membership_audit_failure_wstep|intros; apply requeue_wstep|done].
Qed.

(** C13: Every transaction of the ordinary worker, claiming a batch, storing its results
    and both audits, is an admissible step beside the delivery of intents: where
    intents are linked to the events of their rows it never confirms a row that an
    intent owns, removes no receipt and changes no intent, and it keeps the links.
    So the guarantees of the delivery hold whatever the worker does in between. *)
Theorem worker_respects_intents `{WorkerPlatform} s x' :
  linked (attendance (sys s)) → worker_tx (sys s) x' →
  step s (mkSystem x' (tasks s) (posts s)) ∧ linked (attendance x') ∧ intents (attendance x') = intents (attendance (sys s)).
Proof.
  intros Hl Htx. pose proof (worker_tx_wstep _ _ Hl Htx) as Hw.
  split_and!; [|by eapply linked_wstep|apply Hw]. apply other_step. by eapply wstep_evolves.
Qed.

(** ** A concrete batch *)
#[local] Instance wit_worker : WorkerPlatform := {|
  worker_delivery := wit_platform; automatic_takeover := λ _ _ _, Ok None; delivery_payload := λ _ _ _, Ok None; time_refusal := λ _, false |}.

Definition wit_plain (status : string) : world :=
  mkWorld wit_tables (mkSession [] [] 1 None) [wit_connector] (mkLedger [wit_attendance_event] [] [wit_outbox status] [] [] [] no_approvals []) [] [] [].
Definition wit_claimed : world * AttendanceDeliverySchedule * list worker_claim := Eval vm_compute in
  match claim_ords_batch 5000000 20 true 5 0 (λ _, false) (wit_plain "PENDING") (Some (mkDelivery 0 0)) with
  | Ok r => r | Raise _ _ => (wit_plain "PENDING", mkDelivery 0 0, []) end.

Lemma wit_batch_ok : claim_ords_batch 5000000 20 true 5 0 (λ _, false) (wit_plain "PENDING") (Some (mkDelivery 0 0)) = Ok wit_claimed.
Proof. vm_compute. reflexivity. Qed.
Lemma wit_unique_links status : unique_links (attendance (wit_plain status)).
Proof. intros o1 o2 a H1%list_elem_of_singleton H2%list_elem_of_singleton _ _. by subst. Qed.

Lemma claim_batch_sound_witness :
  ∃ o', outbox_at 1 (attendance wit_claimed.1.1) = Some o' ∧ ob_status o' = "IN_FLIGHT" ∧ ob_attempt_count o' = 2.
Proof.
  destruct (claim_batch_sound 5000000 20 true 5 0 (λ _, false) (wit_plain "PENDING") (Some (mkDelivery 0 0)) wit_claimed.1.1 wit_claimed.1.2 wit_claimed.2)
    as (_ & _ & Hc).
  - repeat constructor. set_solver.
  - apply wit_unique_links.
  - lia.
  - exact wit_batch_ok.
  - destruct (Hc (mkWorkerClaim 1 wit_payload 3 false)) as (o & o' & H1 & H2 & _ & H4 & H5 & _); [left|].
    exists o'. split_and!; [exact H2|exact H4|]. rewrite H5. injection H1 as <-. reflexivity.
Defined.

(** Two live rows and a history row, after three live rows were served. *)
Lemma claim_loop_serves_witness :
  ∃ m, Z.of_nat m <= 1 ∧ merged 3 3 [11; 12] [21] !! m = Some (true, 21).
Proof.
  assert (E : claim_loop 0 true 0 (wit_plain "PENDING") 3 9 (mkDelivery 3 0) [11; 12] [21] (mkBatch (begin_tx (wit_plain "PENDING")) [] 0)
    = Ok (mkDelivery 1 0, mkBatch (begin_tx (wit_plain "PENDING")) [] 0)) by (vm_compute; reflexivity).
  assert (H0 : 0 <= priority_served (mkDelivery 3 0)) by (simpl; lia).
  destruct (proj2 (proj2 (claim_loop_serves 0 true 0 (wit_plain "PENDING") 9 (mkDelivery 3 0) [11; 12] [21] _ _ _ H0 E)) 0%nat 21 eq_refl) as (m & Hm & Hl).
  exists m. split; [simpl in Hm; lia|exact Hl].
Defined.

Lemma wit_linked status : linked (attendance (wit_world0 status)).
Proof. intros o i Ho%list_elem_of_singleton Hi%list_elem_of_singleton _. subst. split_and!; [done|done|left]. Qed.
Lemma worker_respects_intents_witness :
  let s := mkSystem (wit_world0 "PENDING") [] [] in
  step s (mkSystem (claim_firmware_receipt_audit_batch 5000000 20 5 (λ _, false) (wit_world0 "PENDING")).1 [] []).
Proof.
  exact (proj1 (worker_respects_intents (mkSystem (wit_world0 "PENDING") [] []) _ (wit_linked "PENDING")
    (firmware_claim_tx 5000000 20 5 (λ _, false) (wit_world0 "PENDING")))).
Defined.

(** Oracle has the record of the only claim. *)
Definition wit_present : http_outcome :=
  HttpReply 200 (Some (Some (PDict [("success", PBool true); ("missing_event_uids", PList []); ("received_count", PInt 1); ("missing_count", PInt 0);
    ("existing_count", PInt 1)]))).
Definition wit_acked : OrdsOutbox := set_outbox "ACKED_CHECK" None (Some 7000000) (Some 200) None (wit_outbox "IN_FLIGHT").
Lemma wit_ordinary_row : outboxes (attendance (_deliver_ordinary_claims 7000000 0 (wit_plain "IN_FLIGHT") closed [mkWorkerClaim 1 wit_payload 3 false] wit_present
  (λ _, HttpError "ReadTimeout")).1) = [wit_acked].
Proof. vm_compute. reflexivity. Qed.
Lemma wit_plain_linked : linked (attendance (wit_plain "IN_FLIGHT")).
Proof. intros o i _ Hi. by apply not_elem_of_nil in Hi. Qed.
Lemma wit_plain_open o : o ∈ outboxes (attendance (wit_plain "IN_FLIGHT")) → ¬ confirmed o.
Proof. intros Ho%list_elem_of_singleton. subst o. unfold confirmed. simpl. set_solver. Qed.
Lemma wit_acked_in l : l = [wit_acked] → wit_acked ∈ l.
Proof. intros ->. left. Qed.
Lemma ordinary_confirms_only_positive_witness :
  ∃ c, ob_status wit_acked = "ACKED_CHECK" ∧ c ∈ [mkWorkerClaim 1 wit_payload 3 false] ∧ wc_row_id c = ob_id wit_acked.
Proof.
  destruct (ordinary_confirms_only_positive 7000000 0 (wit_plain "IN_FLIGHT") closed [mkWorkerClaim 1 wit_payload 3 false] wit_present
    (λ _, HttpError "ReadTimeout") wit_acked wit_plain_linked (wit_acked_in _ wit_ordinary_row)) as [(o & Ho & _ & Hc)|[_ (c & Hc & Hid & _)]].
  - right. left.
  - destruct (wit_plain_open o Ho Hc).
  - exists c. split_and!; [reflexivity|exact Hc|exact Hid].
Defined.

Definition wit_history : list route_event := [mkRoute (Some 200) None 0; mkRoute None (Some "ReadTimeout") (10 * SECOND); mkRoute None (Some "ConnectError") (40 * SECOND)].
Lemma circuit_follows_failures_witness :
  circuit_failures (run_circuit wit_history) = 2 ∧ ords_circuit_is_open (69 * SECOND) (run_circuit wit_history) = true ∧
  ords_circuit_is_open (341 * SECOND) (run_circuit wit_history) = false.
Proof.
  destruct (circuit_follows_failures wit_history) as [H1 H2].
  - split; [repeat constructor; vm_compute; discriminate|repeat constructor; vm_compute; discriminate].
  - split_and!; [exact H1| |].
    + apply Z.ltb_lt. apply Z.lt_le_trans with (70 * SECOND); [vm_compute; reflexivity|]. exact (proj1 H2).
    + apply Z.ltb_ge. etransitivity; [exact (proj2 H2)|]. vm_compute. discriminate.
Defined.
