(* ===== verification/ForceDelivery.v ===== *)
(** * Delivery of approved identity overrides (attendance_force_delivery.py)

    A punch with an explicit approval is sent as the payload the approval froze.
    Oracle is asked for the content before and after the POST, and only its content
    answer completes the row. A direct approval records its intent to send before
    the POST, so an uncertain reply is never followed by a blind second POST. A
    damaged legacy id is only ever looked up, never sent.

    Parameters: those of the delivery worker; replies of Oracle are arguments.
    [note_delivered_cnic], a hint for check-in messages, is left out. *)
From S2P Require Import Prelude PyText Hashes PyJson Calendar ZktPacket ZktDecode OccurrenceMatch QueueEvidence Custody DerivedEvidence CustodyWork SourceAttendance ManualGuard OracleDelivery OracleSystem OrdsWorker OrdsClaim.
Open Scope string_scope.
Open Scope list_scope.
Open Scope Z_scope.

(** ** Damaged legacy ids (attendance_legacy_uid.py)

    Positions count bytes; an id with a character outside ASCII is refused either way. *)
Fixpoint positions {A} (p : A → bool) (i : Z) (l : list A) : list Z :=
  match l with [] => [] | a :: l' => if p a then i :: positions p (i + 1) l' else positions p (i + 1) l' end.
Definition DAMAGED (b : byte) : bool := bool_decide (b ∈ [x3f; x08; x14]).
Definition first (l : list Z) : Z := default 0 (head l).
Definition final (l : list Z) : Z := default 0 (last l).

Definition potentially_recoverable (v : pyval) : bool :=
  match v with
  | PStr s =>
      if negb (zlen (chars s) =? 64) then false
      else
        let bad := positions (λ b, negb (is_hex b)) 0 (chars s) in
        (3 <=? zlen bad) && (zlen bad <=? 4) && (24 <=? first bad) && (final bad <=? 35) && (final bad - first bad <=? 3)
        && forallb (λ b, is_hex b || DAMAGED b) (chars s)
  | _ => false
  end.

Definition matches_original (damaged original : pyval) : bool :=
  match damaged, original with
  | PStr d, PStr o =>
      if negb (potentially_recoverable damaged) || negb (HEX64 o) then false
      else
        let pairs := zip (chars d) (chars o) in
        let differences := positions (λ p, negb (bool_decide (p.1 = p.2))) 0 pairs in
        (zlen differences =? 4) && (24 <=? first differences) && (final differences <=? 35) && (final differences - first differences =? 3)
        && (3 <=? zlen (List.filter (λ p, negb (bool_decide (p.1 = p.2)) && DAMAGED p.1) pairs))
  | _, _ => false
  end.

#[global] Arguments potentially_recoverable : simpl never.
#[global] Arguments matches_original : simpl never.

(** ** The repair service of Oracle (attendance_repair._ords_request)

    The message of [OracleRepairError] stands for its [code]. *)
Definition _oracle_transaction_failure (body : option pyval) : option string :=
  match body with
  | Some payload =>
      if negb (is_dict payload) || negb (eq_str (get "error_code" payload) "REPAIR_TRANSACTION_FAILED") then None
      else
        match get "oracle_sqlcode" payload with
        | PInt c =>
            if (c =? 0) || (c <? -99999) || (99999 <? c) then None
            else
              let line := match get "failure_line" payload with PInt n => if (n <? 1) || (100000 <? n) then "" else "_L" +:+ py_str n | _ => "" end in
              Some ("ORACLE_REPAIR_" +:+ (if c <? 0 then "N" else "P") +:+ py_str (Z.abs c) +:+ line)
        | _ => None
        end
  | None => None
  end.

Definition server_code (body : option pyval) : string :=
  match body with
  | Some (PDict d) => let v := get "error_code" (PDict d) in upper (if truthy v then py_str_val v else "")
  | _ => ""
  end.

Definition _ords_request (configured : bool) (reply : http_reply) : res pyval :=
  if negb configured then Raise OracleRepairError "ORDS_AUTHENTICATION_NOT_CONFIGURED"
  else
    match reply with
    | None => Raise OracleRepairError "ORDS_TRANSPORT_ERROR"
    | Some (status, body) =>
        let http := "ORDS_HTTP_" +:+ py_str status in
        if bool_decide (status ∈ [401; 403]) then Raise OracleRepairError "ORDS_AUTHENTICATION_FAILED"
        else if bool_decide (status ∈ [408; 429]) || (500 <=? status) then
          Raise OracleRepairError (default http (if 500 <=? status then _oracle_transaction_failure body else None))
        else if (status =? 409) && bool_decide (server_code body = "DOWNSTREAM_ADAPTER_NOT_READY") then Raise OracleRepairError "ORDS_CAPABILITY_MISSING"
        else if (status =? 409) && bool_decide (server_code body = "OPERATION_ID_CONTENT_CONFLICT") then Raise OracleRepairError "ORDS_OPERATION_CONFLICT"
        else if 400 <=? status then Raise OracleRepairError http
        else match body with Some (PDict d) => Ok (PDict d) | _ => Raise OracleRepairError "ORDS_MALFORMED_RESPONSE" end
    end.

(** ** Claims *)
Definition DIRECT_POLICY : string := "manual-direct-ords-v1".
Record forced_claim := mkForced { fc_row_id : Z; fc_decision_id : Z; fc_attempt : Z; fc_direct : bool; fc_payload : pyval; fc_check : pyval }.

Definition empty_text (v : pyval) : bool := is_none v || eq_str v "".
(** [key in value], for a dict *)
Definition has_key (k : string) (v : pyval) : bool := match v with PDict d => bool_decide (is_Some (assoc k d)) | _ => false end.

Definition content_check_facts (proof payload : pyval) : res pyval :=
  facts ← item "immutable_facts" proof;
  match facts with
  | PDict d =>
      if eq_str (get "policy" proof) DIRECT_POLICY && has_key "terminal" proof && empty_text (get "terminal" proof)
         && has_key "device_serial" facts && empty_text (get "device_serial" facts) && eq_str (get "device_serial" payload) "unknown"
      then Ok (PDict (assoc_set "device_serial" (PStr "unknown") d)) else Ok facts
  | _ => Raise AttributeError "get"
  end.

Definition or_empty_text (v : pyval) : pyval := if truthy v then v else PStr "".

Section force.
Context {platform : WorkerPlatform}.
Abbreviation digest := (_protected_digest pii_lookup_key).

Definition _identity_digest (display_name cnic : pyval) : res string :=
  digest (PDict [("display_name", or_empty_text display_name); ("cnic", or_empty_text cnic)]).

(** The read-only question about the approved punch. *)
Definition forced_check (e : AttendanceEvent) (c : Connector) (d : AttendanceForceReleaseDecision) (payload : pyval) : res pyval :=
  original_facts ← item "immutable_facts" (fr_proof d);
  facts ← content_check_facts (fr_proof d) payload;
  let serial := if py_eq (get "device_serial" facts) (get "device_serial" original_facts) then opt_str (ae_device_serial e) else get "device_serial" facts in
  facts_digest ← digest facts;
  name ← item "employee_name" payload;
  cnic ← item "cnic" payload;
  identity ← _identity_digest name cnic;
  Ok (PDict [("contract_version", PStr "1"); ("connector_id", PStr (c_connector_id c)); ("terminal_serial", serial);
    ("items", PList [PDict [("event_uid", PStr (ae_event_uid e)); ("immutable_facts", facts); ("immutable_facts_digest", PStr facts_digest);
      ("desired_identity", PDict [("employee_name", name); ("cnic", cnic); ("identity_digest", PStr identity)])]])]).

(** ** split_claims *)
Record forced_state := mkForcedState { fs_tx : tx; fs_ordinary : list worker_claim; fs_forced : list forced_claim }.
Definition CHANGED_APPROVAL : string := "The saved approval no longer matches the attendance.".

Definition blocked (row : OrdsOutbox) (e : AttendanceEvent) (t : tx) : tx :=
  tx_event (ae_id e) (set_ords_status "BLOCKED_IDENTITY")
    (tx_row (ob_id row) (λ o, set_outbox "BLOCKED_IDENTITY" (ob_next_attempt_at o) (ob_acknowledged_at o) (ob_last_http_status o) (Some CHANGED_APPROVAL) o) t).

Definition split_forced_one (x : world) (s : forced_state) (c : worker_claim) : res forced_state :=
  let l := tx_ledger (fs_tx s) in
  let ordinary := mkForcedState (fs_tx s) (fs_ordinary s ++ [c]) (fs_forced s) in
  match outbox_at (wc_row_id c) l with
  | None => Ok ordinary
  | Some row =>
      match (e ← (i ← ob_attendance_event_id row; row_by ae_id i (events l)); d ← decision_for (approved l) (ae_id e); Some (e, d)) with
      | None => Ok ordinary
      | Some (e, d) =>
          superseded ← superseded_by_automatic_release (set_attendance l x) e (Some d);
          if (superseded : bool) then Ok ordinary
          else
            let connector := row_by c_id (ae_connector_id e) (connectors x) in
            payload ← delivery_payload (set_attendance l x) e connector;
            match payload with
            | Some p =>
                if negb (py_eq p (wc_payload c)) then Ok (mkForcedState (blocked row e (fs_tx s)) (fs_ordinary s) (fs_forced s))
                else
                  match connector with
                  | None => Raise AttributeError "connector_id"
                  | Some cn =>
                      check ← forced_check e cn d p;
                      Ok (mkForcedState (fs_tx s) (fs_ordinary s)
                        (fs_forced s ++ [mkForced (ob_id row) (fr_id d) (ob_attempt_count row) (eq_str (get "policy" (fr_proof d)) DIRECT_POLICY) p check]))
                  end
            | None => Ok (mkForcedState (blocked row e (fs_tx s)) (fs_ordinary s) (fs_forced s))
            end
      end
  end.

Definition split_forced_claims (x : world) (claims : list worker_claim) : res (world * list worker_claim * list forced_claim) :=
  s ← foldR (split_forced_one x) claims (mkForcedState (begin_tx x) [] []);
  Ok (commit_tx x (fs_tx s), fs_ordinary s, fs_forced s).

(** ** A claim that still owns its row: the row, its event and the current approval *)
Definition forced_row (x : world) (c : forced_claim) : option OrdsOutbox :=
  match outbox_at (fc_row_id c) (attendance x) with
  | Some row => if bool_decide (ob_status row = "IN_FLIGHT") && (ob_attempt_count row =? fc_attempt c) then Some row else None
  | None => None
  end.
(** [session.get(AttendanceEvent, row.attendance_event_id)]; [decision_for] reads its id. *)
Definition forced_event (x : world) (row : OrdsOutbox) : res AttendanceEvent :=
  match (i ← ob_attendance_event_id row; event_at i x) with Some e => Ok e | None => Raise AttributeError "id" end.
Definition forced_decision (x : world) (c : forced_claim) (e : AttendanceEvent) : option AttendanceForceReleaseDecision :=
  match decision_for (approved (attendance x)) (ae_id e) with
  | Some d => if fr_id d =? fc_decision_id c then Some d else None
  | None => None
  end.
Definition item_at (i : Z) (l : ledger) : res AttendanceRecoveryItem :=
  match row_by rv_id i (recovery_items l) with Some v => Ok v | None => Raise AttributeError "result" end.
Definition put_item (i : Z) (f : AttendanceRecoveryItem → AttendanceRecoveryItem) (t : tx) : tx :=
  tx_items (update_by rv_id i f (recovery_items (tx_ledger t))) t.
Definition set_result (result : list (string * pyval)) (v : AttendanceRecoveryItem) : AttendanceRecoveryItem :=
  mkRecoveryItem (rv_id v) (rv_status v) (rv_error_code v) result (rv_completed_at v) (rv_updated_at v).

Definition still_authorized (x : world) (c : forced_claim) : res bool :=
  match forced_row x c with
  | None => Ok false
  | Some row =>
      e ← forced_event x row;
      match forced_decision x c e with
      | None => Ok false
      | Some _ =>
          payload ← delivery_payload x e (row_by c_id (ae_connector_id e) (connectors x));
          Ok (match payload with Some p => py_eq p (fc_payload c) | None => false end)
      end
  end.

(** ** reserve_direct_post *)
Definition POST_COUNT : string := "direct_post_attempts".
(** [prior + 1]: the counter is an integer, written only here. *)
Definition one_more (prior : pyval) : res pyval :=
  match prior with PInt n => Ok (PInt (n + 1)) | PBool b => Ok (PInt ((if b then 1 else 0) + 1)) | _ => Raise TypeError "direct_post_attempts" end.
Definition prior_posts (v : AttendanceRecoveryItem) : pyval := default (PInt 0) (assoc POST_COUNT (rv_result v)).

Definition reserve_direct_post (x : world) (c : forced_claim) (classification : string) : world * res bool :=
  match forced_row x c with
  | None => (x, Ok false)
  | Some row =>
      match (e ← forced_event x row;
             match forced_decision x c e with
             | None => Ok None
             | Some d =>
                 v ← item_at (fr_item_id d) (attendance x);
                 let prior := prior_posts v in
                 if truthy prior && (negb (bool_decide (classification = "MISSING")) || negb (HEX64 (ae_event_uid e))) then Ok None
                 else count ← one_more prior; Ok (Some (rv_id v, assoc_set POST_COUNT count (rv_result v)))
             end) with
      | Ok (Some (i, result)) => (commit_tx x (put_item i (set_result result) (begin_tx x)), Ok true)
      | Ok None => (x, Ok false)
      | Raise cl m => (x, Raise cl m)
      end
  end.

(** ** Asking Oracle *)
Definition CONTENT_CLASSES : list string := ["MATCH"; "MISSING"; "MISMATCH"; "IMMUTABLE_MISMATCH"; "CROSS_DEVICE_UID_COLLISION"].
Definition LEGACY_REFUSALS : list string := ["LEGACY_SOURCE_MISSING"; "LEGACY_SOURCE_CONFLICT"; "LEGACY_SOURCE_AMBIGUOUS"].
(** [re.fullmatch(r"[0-9a-f]{64}", token or "")] *)
Definition token_matches (t : pyval) : res bool :=
  match t with PStr s => Ok (HEX64 s) | _ => if truthy t then Raise TypeError "expected string" else Ok false end.
(** [value in {...}]: asking a set about a list or a dict raises. *)
Definition in_set (v : pyval) (l : list string) : res bool :=
  if negb (hashable v) then Raise TypeError "unhashable" else Ok (existsb (eq_str v) l).

(** The one result row about the punch of the claim. *)
Definition result_row (c : forced_claim) (response : pyval) : res (option pyval) :=
  match get "results" response with
  | PList [row] =>
      if negb (is_true (get "success" response)) then Ok None
      else if negb (is_dict row) then Ok None
      else uid ← item "event_uid" (fc_payload c); Ok (if py_eq (get "event_uid" row) uid then Some row else None)
  | _ => Ok None
  end.

Definition verify_forced (c : forced_claim) (response : res pyval) : res (string * pyval) :=
  response ← response;
  row ← result_row c response;
  match row with
  | None => Ok ("UNKNOWN", PNone)
  | Some row =>
      let classification := get "classification" row in
      let t := get "current_content_token" row in
      answered ← in_set classification ["MATCH"; "MISSING"; "MISMATCH"];
      bound ← (if (answered : bool) then token_matches t else Ok true);
      if negb bound then Ok ("UNKNOWN", PNone)
      else
        known ← in_set classification CONTENT_CLASSES;
        Ok (match classification with PStr s => if (known : bool) then (s, t) else ("UNKNOWN", PNone) | _ => ("UNKNOWN", PNone) end)
  end.

Definition verify_legacy (c : forced_claim) (response : res pyval) : res (string * pyval * pyval) :=
  response ← response;
  row ← result_row c response;
  match row with
  | None => Ok ("UNKNOWN", PNone, PNone)
  | Some row =>
      let classification := get "classification" row in
      if eq_str classification "LEGACY_SOURCE_MATCH" then
        let t := get "current_content_token" row in
        let original := get "matched_event_uid" row in
        bound ← token_matches t;
        if negb bound then Ok ("UNKNOWN", PNone, PNone)
        else uid ← item "event_uid" (fc_payload c);
             Ok (if matches_original uid original then ("LEGACY_SOURCE_MATCH", t, original) else ("UNKNOWN", PNone, PNone))
      else
        refused ← in_set classification LEGACY_REFUSALS;
        Ok (match classification with PStr s => if (refused : bool) then (s, PNone, PNone) else ("UNKNOWN", PNone, PNone) | _ => ("UNKNOWN", PNone, PNone) end)
  end.

(** ** persist_result *)
Definition PENDING_CODE : string := "ORACLE_CONTENT_VERIFICATION_PENDING".
Definition CONFLICTING : list string := ["MISMATCH"; "IMMUTABLE_MISMATCH"; "CROSS_DEVICE_UID_COLLISION"; "CHANGED"].
Definition CREDENTIAL_CODES : list string := ["ORDS_AUTHENTICATION_FAILED"; "ORDS_AUTHENTICATION_NOT_CONFIGURED"].
Definition ATTENTION_CODES : list string :=
  ["ORDS_AUTHENTICATION_FAILED"; "ORDS_AUTHENTICATION_NOT_CONFIGURED"; "ORDS_HTTP_404"; "ORDS_HTTP_405"; "ORDS_HTTP_400"; "ORDS_MALFORMED_RESPONSE"].
(** attendance_force_release.explain, on the codes used here *)
Definition explain (code : string) : string :=
  if bool_decide (code = "EVIDENCE_CHANGED") then "The approved employee or punch changed. This record was not released."
  else if bool_decide (code = "ORACLE_CONFLICT") then "Oracle contains different attendance or employee details. Review is required."
  else if bool_decide (code = "ORACLE_UNAVAILABLE") then "Oracle verification is unavailable. The approved attendance is saved."
  else "The record needs review before it can be released.".
Definition or_default (o : option string) (d : string) : string := match o with Some s => if bool_decide (s = "") then d else s | None => d end.
Definition code_in (o : option string) (l : list string) : bool := match o with Some s => bool_decide (s ∈ l) | None => false end.
(** [{**result, ...}] *)
Definition merge (new : list (string * pyval)) (result : list (string * pyval)) : list (string * pyval) :=
  fold_left (λ r kv, assoc_set kv.1 kv.2 r) new result.

(** What an outcome assigns to the row, the event and the run item. *)
Record assignment := mkAssignment {
  as_row : OrdsOutbox → OrdsOutbox; as_event : AttendanceEvent → AttendanceEvent; as_item : AttendanceRecoveryItem → AttendanceRecoveryItem }.
Definition quarantined (status error : string) (item_ : AttendanceRecoveryItem → AttendanceRecoveryItem) : assignment :=
  mkAssignment (refuse status error) (set_ords_status status) item_.
Definition reviewed (error : string) (completed_at : option Z) (new : list (string * pyval)) (updated : Z) (v : AttendanceRecoveryItem) : AttendanceRecoveryItem :=
  mkRecoveryItem (rv_id v) "NEEDS_REVIEW" (Some error) (merge new (rv_result v)) (match completed_at with Some t => Some t | None => rv_completed_at v end) updated.

Definition confirmed_outcome (now : datetime) (legacy : bool) (payload_digest : string) (t matched : pyval) : assignment :=
  let at_ := utc_instant now in
  mkAssignment (ack_row at_) (ack_event at_ (if legacy then "ADD_FORCE_LEGACY_SOURCE_CHECK" else "ADD_FORCE_CONTENT_CHECK"))
    (λ v, mkRecoveryItem (rv_id v) "CONFIRMED" None
       (merge ([("oracle_verified_payload_digest", PStr payload_digest); ("oracle_content_token", t); ("oracle_verified_at", PStr (isoformat now));
                ("reason", PStr (if legacy then "Oracle confirmed the matching original punch already stored there." else "Oracle confirmed the approved attendance."));
                ("needs_attention", PBool false)] ++ (if legacy then [("matched_oracle_event_uid", matched)] else [])) (rv_result v))
       (Some at_) at_).

Definition retry_item (attempt_count at_ : Z) (error_code : option string) (v : AttendanceRecoveryItem) : AttendanceRecoveryItem :=
  let error := or_default error_code PENDING_CODE in
  mkRecoveryItem (rv_id v) (rv_status v) (Some error)
    (merge ([("reason", PStr (explain "ORACLE_UNAVAILABLE")); ("delivery_error", PStr error);
             ("needs_attention", PBool ((10 <=? attempt_count) || code_in error_code ATTENTION_CODES))] ++
            (if code_in error_code CREDENTIAL_CODES
             then [("reason", PStr "Oracle verification credentials need administrator attention. The attendance remains saved.")] else [])) (rv_result v))
    (rv_completed_at v) at_.

Definition retry_outcome (attempt_count at_ : Z) (error_code : option string) : assignment :=
  let error := or_default error_code PENDING_CODE in
  mkAssignment
    (λ o, set_outbox "FAILED_RETRYABLE" (Some (at_ + retry_seconds attempt_count * 1000000)) (ob_acknowledged_at o) (ob_last_http_status o) (Some error) o)
    (set_ords_status "FAILED_RETRYABLE") (retry_item attempt_count at_ error_code).

Definition forced_outcome (now : datetime) (d : AttendanceForceReleaseDecision) (row : OrdsOutbox) (classification : string) (t matched : pyval) (error_code : option string)
    : assignment :=
  let at_ := utc_instant now in
  if bool_decide (classification = "MATCH") then confirmed_outcome now false (fr_payload_digest d) t matched
  else if bool_decide (classification = "LEGACY_SOURCE_MATCH") then confirmed_outcome now true (fr_payload_digest d) t matched
  else if bool_decide (classification ∈ CONFLICTING) then
    let code := if bool_decide (classification = "CHANGED") then "EVIDENCE_CHANGED" else "ORACLE_CONFLICT" in
    quarantined "QUARANTINED_IDENTITY_CONFLICT" code (reviewed code None [("reason", PStr (explain code))] at_)
  else if bool_decide (classification ∈ LEGACY_REFUSALS) then
    quarantined "QUARANTINED_INVALID_EVENT_UID" classification (reviewed classification (Some at_)
      [("reason", PStr (if bool_decide (classification = "LEGACY_SOURCE_MISSING") then "No matching original punch was found in Oracle. This damaged ID was not sent."
                        else "Oracle has a different or ambiguous punch. Nothing was sent; review is required.")); ("needs_attention", PBool true)] at_)
  else if bool_decide (classification = "INVALID_EVENT_UID") then
    quarantined "QUARANTINED_INVALID_EVENT_UID" "INVALID_EVENT_UID" (reviewed "INVALID_EVENT_UID" (Some at_)
      [("reason", PStr "Oracle cannot accept this older punch ID. The punch and approval remain saved for ID repair."); ("needs_attention", PBool true)] at_)
  else if bool_decide (classification = "REJECTED") then
    quarantined "QUARANTINED_ORDS_REJECTED" (or_default error_code "ORACLE_REJECTED") (reviewed "ORACLE_REJECTED" None
      [("reason", PStr "Oracle rejected this attendance. An administrator must review it.")] at_)
  else
    retry_outcome (ob_attempt_count row) at_ error_code.

(** A legacy answer is checked again against the stored event. *)
Definition legacy_checked (c : forced_claim) (e : AttendanceEvent) (classification : string) (t matched : pyval) : res string :=
  if negb (bool_decide (classification = "LEGACY_SOURCE_MATCH")) then Ok classification
  else if negb (fc_direct c && matches_original (PStr (ae_event_uid e)) matched) then Ok "UNKNOWN"
  else bound ← token_matches t; Ok (if (bound : bool) then classification else "UNKNOWN").

Definition assign_forced (a : assignment) (row event item_ : Z) (t : tx) : tx :=
  put_item item_ (as_item a) (tx_event event (as_event a) (tx_row row (as_row a) t)).

Definition persist_forced (now : datetime) (x : world) (c : forced_claim) (classification : string) (t : pyval) (error_code : option string) (matched : pyval)
    : world * res () :=
  match forced_row x c with
  | None => (x, Ok ())
  | Some row =>
      match (e ← forced_event x row;
             match forced_decision x c e with
             | None => Ok None
             | Some d =>
                 payload ← decrypt_json (fr_payload_encrypted d);
                 if negb (py_eq payload (fc_payload c)) then Ok None
                 else
                   v ← item_at (fr_item_id d) (attendance x);
                   classification ← legacy_checked c e classification t matched;
                   Ok (Some (ae_id e, rv_id v, forced_outcome now d row classification t matched error_code))
             end) with
      | Ok (Some (e, v, a)) => (commit_tx x (assign_forced a (ob_id row) e v (begin_tx x)), Ok ())
      | Ok None => (x, Ok ())
      | Raise cl m => (x, Raise cl m)
      end
  end.

(** ** deliver_forced: the steps of one claim

    Any exception ends in an UNKNOWN result with the code of the exception; the
    message of an exception that has a [code] stands for it. *)
Record forced_result := mkResult { fo_class : string; fo_token : pyval; fo_code : option string; fo_matched : pyval }.
Inductive forced_phase :=
  | FChecking
  | FAuthorizing (classification : string) (t : pyval)
  | FReserving (classification : string) (t : pyval)
  | FPosting (classification : string) (number : option (Z * Z))
  | FRechecking (post_status : option Z)
  | FPersisting (r : forced_result).

Definition exception_code (cl : exn_class) (m : string) : string :=
  match cl with OracleRepairError | RepairError => m | _ => PENDING_CODE end.
Definition failed (cl : exn_class) (m : string) : forced_phase := FPersisting (mkResult "UNKNOWN" PNone (Some (exception_code cl m)) PNone).
Definition conclude (classification : string) (t : pyval) (code : option string) : forced_phase := FPersisting (mkResult classification t code PNone).

Definition should_send (c : forced_claim) (classification : string) : bool :=
  bool_decide (classification = "MISSING") || fc_direct c && negb (bool_decide (classification = "MATCH")).
Definition after_question (c : forced_claim) (response : res pyval) : forced_phase :=
  let uid := get "event_uid" (fc_payload c) in
  if fc_direct c && potentially_recoverable uid then
    match verify_legacy c response with Ok (classification, t, matched) => FPersisting (mkResult classification t None matched) | Raise cl m => failed cl m end
  else if negb (event_uid_is_valid uid) then conclude "INVALID_EVENT_UID" PNone None
  else
    match verify_forced c response with
    | Ok (classification, t) => if should_send c classification then FAuthorizing classification t else conclude classification t None
    | Raise cl m => failed cl m
    end.
Definition after_authorization (c : forced_claim) (classification : string) (t : pyval) (r : res bool) : forced_phase :=
  match r with
  | Ok true => if fc_direct c then FReserving classification t else FPosting classification None
  | Ok false => conclude "CHANGED" t None
  | Raise cl m => failed cl m
  end.
(** The POST a reservation stands for: its run item and the POSTs counted before it. *)
Definition count_of (v : pyval) : Z := match v with PInt n => n | PBool b => if b then 1 else 0 | _ => 0 end.
Definition posts_of (v : AttendanceRecoveryItem) : Z := count_of (prior_posts v).
Definition reservation (x : world) (c : forced_claim) : option (Z * Z) :=
  row ← forced_row x c; e ← (i ← ob_attendance_event_id row; event_at i x); d ← forced_decision x c e;
  v ← row_by rv_id (fr_item_id d) (recovery_items (attendance x)); Some (rv_id v, posts_of v).
Definition after_reservation (x : world) (c : forced_claim) (classification : string) (t : pyval) (r : res bool) : forced_phase :=
  match r with
  | Ok true => FPosting classification (reservation x c)
  | Ok false => conclude classification t (Some PENDING_CODE)
  | Raise cl m => failed cl m
  end.
Definition after_forced_post (post_status : option Z) (r : res (string * pyval)) : forced_phase :=
  match r with
  | Ok (classification, t) =>
      match post_status with
      | Some s => if negb (bool_decide (classification = "MATCH")) && bool_decide (s ∈ POST_REJECTED)
                  then conclude "REJECTED" t (Some ("ORDS_HTTP_" +:+ py_str s)) else conclude classification t None
      | None => conclude classification t None
      end
  | Raise cl m => failed cl m
  end.
End force.
