(* ===== verification/ForceSystem.v ===== *)
(** * Delivery of approved overrides as a system of interleaved steps

    Workers ask Oracle, check the approval again, reserve and send POSTs and persist
    results; other transactions run between any two steps, a worker may stop at any
    point and a POST may be lost. [sent] records every POST with the claim, the
    answer that led to it and its reservation. *)
From S2P Require Import Prelude PyText Hashes PyJson Calendar ZktPacket ZktDecode OccurrenceMatch QueueEvidence Custody DerivedEvidence CustodyWork SourceAttendance ManualGuard OracleDelivery OracleSystem OracleReply OrdsWorker OrdsClaim ForceDelivery.
Open Scope string_scope.
Open Scope list_scope.
Open Scope Z_scope.

(** ** The system *)
Record forced_task := mkForcedTask { ft_claim : forced_claim; ft_phase : forced_phase }.
Record sent_post := mkSent { st_claim : forced_claim; st_class : string; st_number : option (Z * Z) }.
Record forced_system := mkForcedSystem { fsys : world; ftasks : list forced_task; fsent : list sent_post }.

(** Other transactions never lower the count of POSTs of a run item. *)
Definition counts_le (l l' : ledger) : Prop :=
  ∀ k v, row_by rv_id k (recovery_items l) = Some v → ∃ v', row_by rv_id k (recovery_items l') = Some v' ∧ posts_of v <= posts_of v'.

#[export] Instance counts_le_preorder : PreOrder counts_le.
Proof.
  split; [intros l k v H; by exists v|]. intros a b c H1 H2 k v Hv. destruct (H1 k v Hv) as (v1 & Hv1 & Hl1).
  destruct (H2 k v1 Hv1) as (v2 & Hv2 & Hl2). exists v2. split; [done|lia].
Qed.

Lemma item_keys_counts l l' : map item_key (recovery_items l') = map item_key (recovery_items l) → counts_le l l'.
Proof.
  unfold counts_le. generalize (recovery_items l) (recovery_items l'). intros vs. induction vs as [|a vs IH]; intros [|b ws] Hk k v; simpl; try done.
  injection Hk as Hid Hc Hk. rewrite Hid. destruct (rv_id a =? k); [|by apply IH]. intros [= <-]. exists b. split; [done|].
  unfold posts_of, prior_posts, POST_COUNT. rewrite Hc. lia.
Qed.
Lemma wstep_counts P l l' : wstep P l l' → counts_le l l'.
Proof. intros H. apply item_keys_counts, H. Qed.

(** An outcome never touches the counter. *)
Lemma merge_other k new r : k ∉ map fst new → assoc k (merge new r) = assoc k r.
Proof.
  unfold merge. revert r. induction new as [|[k' v] new IH]; intros r Hk; simpl in *; [done|]. rewrite IH by set_solver. apply assoc_set_ne. set_solver.
Qed.

Lemma NoDup_sub {A} (l k : list A) : l ⊆+ k → NoDup k → NoDup l.
Proof. intros (m & Hm)%submseteq_Permutation. rewrite Hm. by intros (? & _ & _)%NoDup_app. Qed.

Section system.
Context {platform : WorkerPlatform}.

(** ** One operation *)
Lemma put_item_wstep (P : Z → Prop) t t' i f :
  (∀ v, item_key (f v) = item_key v) → wstep P (tx_ledger t) (tx_ledger t') → wstep P (tx_ledger t) (tx_ledger (put_item i f t')).
Proof.
  intros Hf H. apply wstep_items; [|done]. unfold update_by. rewrite map_map. apply map_ext. intros v. by destruct (_ =? _).
Qed.

(** An outcome keeps the key columns, keeps the counter, and confirms only on a match. *)
Record outcome_ok (classification : string) (a : assignment) : Prop := {
  ok_row : ∀ o, route (as_row a o) = route o;
  ok_event : ∀ e, ae_id (as_event a e) = ae_id e;
  ok_item : ∀ v, item_key (as_item a v) = item_key v;
  ok_confirmed : (∀ o, ¬ confirmed (as_row a o)) ∨ classification = "MATCH" ∨ classification = "LEGACY_SOURCE_MATCH" }.

Lemma item_key_merge v s e new ca ua : POST_COUNT ∉ map fst new →
  item_key (mkRecoveryItem (rv_id v) s e (merge new (rv_result v)) ca ua) = item_key v.
Proof. intros H. unfold item_key. simpl. f_equal. by apply merge_other. Qed.

Lemma keys_free (new : list (string * pyval)) : forallb (λ kv, negb (bool_decide (kv.1 = POST_COUNT))) new = true → POST_COUNT ∉ map fst new.
Proof. intros H (kv & Hk & Hin)%list_elem_of_fmap. rewrite forallb_forall in H. specialize (H kv (proj1 (list_elem_of_In _ _) Hin)). bool_prop. done. Qed.

Lemma quarantined_ok classification status error it :
  (∀ v, item_key (it v) = item_key v) → status ∉ ["ACKED"; "ACKED_CHECK"; "ACKED_FIRMWARE"] → outcome_ok classification (quarantined status error it).
Proof. intros Hit Hs. by constructor; [..|left]. Qed.

Lemma forced_outcome_ok now d row classification t matched code :
  outcome_ok classification (forced_outcome now d row classification t matched code).
Proof.
  unfold forced_outcome. cbv zeta.
  destruct (bool_decide (classification = "MATCH")) eqn:E1; [bool_prop; constructor; [done|done|intros v; by apply item_key_merge, keys_free|auto]|].
  destruct (bool_decide (classification = "LEGACY_SOURCE_MATCH")) eqn:E2; [bool_prop; constructor; [done|done|intros v; by apply item_key_merge, keys_free|auto]|].
  repeat match goal with |- outcome_ok _ (if ?b then _ else _) => destruct b end;
    try (apply quarantined_ok; [intros v; by apply item_key_merge, keys_free|set_solver]).
  constructor; [done|done| |left; intros o; unfold confirmed; simpl; set_solver].
  intros v. apply item_key_merge, keys_free. by destruct (code_in code CREDENTIAL_CODES).
Qed.

Lemma forced_row_spec x c row :
  forced_row x c = Some row → outbox_at (fc_row_id c) (attendance x) = Some row ∧ ob_id row = fc_row_id c ∧ ob_status row = "IN_FLIGHT" ∧ ob_attempt_count row = fc_attempt c.
Proof.
  unfold forced_row. destruct (outbox_at _ _) as [o|] eqn:E; [|done]. destruct (_ && _) eqn:Eg; [|done]. intros [= <-]. bool_prop.
  apply outbox_at_id in E as Hid. naive_solver.
Qed.

(** What [persist_result] does: nothing, or one outcome for the row it owns. *)
Inductive persisted (now : datetime) (x : world) (c : forced_claim) (classification : string) (t : pyval) (code : option string) (matched : pyval) : world → Prop :=
  | persisted_none : persisted now x c classification t code matched x
  | persisted_outcome row e d payload v settled :
      forced_row x c = Some row → forced_event x row = Ok e → forced_decision x c e = Some d →
      decrypt_json (fr_payload_encrypted d) = Ok payload → py_eq payload (fc_payload c) = true →
      item_at (fr_item_id d) (attendance x) = Ok v → legacy_checked c e classification t matched = Ok settled →
      persisted now x c classification t code matched
        (commit_tx x (assign_forced (forced_outcome now d row settled t matched code) (ob_id row) (ae_id e) (rv_id v) (begin_tx x))).

Lemma persist_spec now x c classification t code matched :
  persisted now x c classification t code matched (persist_forced now x c classification t code matched).1.
Proof.
  unfold persist_forced. destruct (forced_row x c) as [row|] eqn:Er; [|constructor].
  destruct (forced_event x row) as [e|] eqn:Ee; [|constructor]. cbn [mbind res_bind].
  destruct (forced_decision x c e) as [d|] eqn:Ed; [|constructor].
  destruct (decrypt_json _) as [payload|] eqn:Ep; [|constructor]. cbn [mbind res_bind].
  destruct (py_eq _ _) eqn:Eq; [|constructor]. simpl negb. cbv iota.
  destruct (item_at _ _) as [v|] eqn:Ev; [|constructor]. cbn [mbind res_bind].
  destruct (legacy_checked _ _ _ _ _) as [settled|] eqn:Es; [|constructor]. cbn [mbind res_bind fst]. by eapply persisted_outcome.
Qed.

Lemma persist_wstep now x c classification t code matched :
  wstep (λ r, r = fc_row_id c ∧ (classification = "MATCH" ∨ classification = "LEGACY_SOURCE_MATCH"))
    (attendance x) (attendance (persist_forced now x c classification t code matched).1).
Proof.
  destruct (persist_spec now x c classification t code matched) as [|row e d payload v settled Hr He Hd _ _ Hv Hs]; [reflexivity|].
  apply wstep_commit, (put_item_wstep _ (begin_tx x)); [apply (forced_outcome_ok now d row settled)|]. destruct (forced_outcome_ok now d row settled t matched code) as [Ho Hev Hit Hc].
  apply forced_row_spec in Hr as (_ & Hid & _). apply (wstep_pair _ (begin_tx x) _ _ (Some e)); [done|done|].
  destruct Hc as [Hc|Hc]; [by left|right]. split; [done|]. unfold legacy_checked in Hs.
  destruct (bool_decide (classification = "LEGACY_SOURCE_MATCH")) eqn:El; bool_prop; [auto|]. simpl in Hs. injection Hs as <-. done.
Qed.

Lemma commit_items x t : recovery_items (attendance (commit_tx x t)) = recovery_items (tx_ledger t).
Proof. unfold commit_tx, commit. rewrite before_flush_eq. done. Qed.

(** What a reservation establishes. *)
Lemma reserve_direct_spec x c classification x' r :
  reserve_direct_post x c classification = (x', r) →
  x' = x ∧ r ≠ Ok true ∨
  r = Ok true ∧ ∃ v, row_by rv_id (rv_id v) (recovery_items (attendance x)) = Some v ∧ reservation x c = Some (rv_id v, posts_of v) ∧
    (posts_of v ≠ 0 → classification = "MISSING") ∧
    recovery_items (attendance x') = update_by rv_id (rv_id v) (set_result (assoc_set POST_COUNT (PInt (posts_of v + 1)) (rv_result v))) (recovery_items (attendance x)).
Proof.
  unfold reserve_direct_post, reservation. destruct (forced_row x c) as [row|] eqn:Er; [|intros [= <- <-]; by left].
  unfold forced_event. cbn [mbind option_bind]. destruct (ob_attendance_event_id row ≫= _) as [e|] eqn:Ee; [|intros [= <- <-]; by left].
  cbn [mbind res_bind option_bind]. destruct (forced_decision x c e) as [d|] eqn:Ed; [|intros [= <- <-]; by left]. unfold item_at. cbn [mbind option_bind].
  destruct (row_by rv_id _ _) as [v|] eqn:Ev; [|intros [= <- <-]; by left]. cbn [mbind res_bind option_bind]. cbv zeta.
  destruct (truthy (prior_posts v) && _) eqn:Eg; [intros [= <- <-]; by left|].
  destruct (one_more (prior_posts v)) as [count|] eqn:Ec; [|intros [= <- <-]; by left]. cbn [mbind res_bind]. intros [= <- <-]. right. split; [done|].
  apply row_by_some in Ev as Hid. destruct Hid as [_ Hid]. rewrite <- Hid in Ev. exists v. split_and!; [done|done| |].
  - intros Hne. apply andb_false_iff in Eg as [Eg|Eg]; [|apply orb_false_iff in Eg as [Eg _]; bool_prop; done].
    exfalso. apply Hne. unfold posts_of. destruct (prior_posts v); simpl in *; bool_prop; try done. by destruct b.
  - assert (count = PInt (posts_of v + 1)) as -> by (unfold posts_of; destruct (prior_posts v); simpl in *; congruence).
    by rewrite commit_items.
Qed.

Inductive forced_step : forced_system → forced_system → Prop :=
  | forced_split claims s x' ordinary forced :
      split_forced_claims (fsys s) claims = Ok (x', ordinary, forced) →
      forced_step s (mkForcedSystem x' (ftasks s ++ map (λ c, mkForcedTask c FChecking) forced) (fsent s))
  | forced_question s pre c post response :
      ftasks s = pre ++ mkForcedTask c FChecking :: post →
      forced_step s (mkForcedSystem (fsys s) (pre ++ mkForcedTask c (after_question c response) :: post) (fsent s))
  | forced_authorization s pre c classification t post :
      ftasks s = pre ++ mkForcedTask c (FAuthorizing classification t) :: post →
      forced_step s (mkForcedSystem (fsys s)
        (pre ++ mkForcedTask c (after_authorization c classification t (still_authorized (fsys s) c)) :: post) (fsent s))
  | forced_reservation s pre c classification t post x' r :
      ftasks s = pre ++ mkForcedTask c (FReserving classification t) :: post → reserve_direct_post (fsys s) c classification = (x', r) →
      forced_step s (mkForcedSystem x' (pre ++ mkForcedTask c (after_reservation (fsys s) c classification t r) :: post) (fsent s))
  | forced_post s pre c classification number post status :
      ftasks s = pre ++ mkForcedTask c (FPosting classification number) :: post →
      forced_step s (mkForcedSystem (fsys s) (pre ++ mkForcedTask c (FRechecking status) :: post) (fsent s ++ [mkSent c classification number]))
  | forced_post_raises s pre c classification number post cl m reached :
      ftasks s = pre ++ mkForcedTask c (FPosting classification number) :: post →
      forced_step s (mkForcedSystem (fsys s) (pre ++ mkForcedTask c (failed cl m) :: post)
        (fsent s ++ if (reached : bool) then [mkSent c classification number] else []))
  | forced_recheck s pre c status post response :
      ftasks s = pre ++ mkForcedTask c (FRechecking status) :: post →
      forced_step s (mkForcedSystem (fsys s) (pre ++ mkForcedTask c (after_forced_post status (verify_forced c response)) :: post) (fsent s))
  | forced_persist now s pre c r post :
      ftasks s = pre ++ mkForcedTask c (FPersisting r) :: post →
      forced_step s (mkForcedSystem (persist_forced now (fsys s) c (fo_class r) (fo_token r) (fo_code r) (fo_matched r)).1 (pre ++ post) (fsent s))
  | forced_stop s pre t post : ftasks s = pre ++ t :: post → forced_step s (mkForcedSystem (fsys s) (pre ++ post) (fsent s))
  | forced_other s x' : counts_le (attendance (fsys s)) (attendance x') → forced_step s (mkForcedSystem x' (ftasks s) (fsent s)).

(** ** Splitting *)
Lemma split_forced_step x s w s' : split_forced_one x s w = Ok s' →
  wstep (λ _, False) (tx_ledger (fs_tx s)) (tx_ledger (fs_tx s')) ∧
  ((fs_ordinary s' = fs_ordinary s ++ [w] ∧ fs_forced s' = fs_forced s) ∨
   (fs_ordinary s' = fs_ordinary s ∧ (fs_forced s' = fs_forced s ∨
      ∃ c, fs_forced s' = fs_forced s ++ [c] ∧ fc_row_id c = wc_row_id w ∧ py_eq (fc_payload c) (wc_payload w) = true))).
Proof.
  unfold split_forced_one. cbv zeta. intros H.
  assert (Hb : ∀ row e, wstep (λ _, False) (tx_ledger (fs_tx s)) (tx_ledger (blocked row e (fs_tx s)))).
  { intros row e. apply (wstep_pair _ (fs_tx s) _ _ (Some e)); [done|done|left; not_confirmed]. }
  destruct (outbox_at _ _) as [row|] eqn:Er; [|injection H as <-; split; [reflexivity|by left]].
  destruct (_ ≫= _) as [[e d]|]; [|injection H as <-; split; [reflexivity|by left]].
  apply bind_ok in H as ([|] & _ & H); [injection H as <-; split; [reflexivity|by left]|].
  apply bind_ok in H as ([p|] & _ & H); [|injection H as <-; split; [apply Hb|right; split; [done|by left]]].
  destruct (py_eq p (wc_payload w)) eqn:Ep; simpl negb in H; cbv iota in H; [|injection H as <-; split; [apply Hb|right; split; [done|by left]]].
  destruct (row_by c_id _ _) as [cn|]; [|done]. apply bind_ok in H as (check & _ & H). injection H as <-. split; [reflexivity|]. right. split; [done|]. right.
  eexists. split_and!; [done| |done]. by apply outbox_at_id in Er as [_ Hid].
Qed.

Record forced_split_inv (x : world) (done_ : list worker_claim) (s : forced_state) : Prop := {
  fsi_step : wstep (λ _, False) (attendance x) (tx_ledger (fs_tx s));
  fsi_rows : map wc_row_id (fs_ordinary s) ++ map fc_row_id (fs_forced s) ⊆+ map wc_row_id done_;
  fsi_ordinary : fs_ordinary s ⊆ done_;
  fsi_payload : ∀ c, c ∈ fs_forced s → ∃ w, w ∈ done_ ∧ wc_row_id w = fc_row_id c ∧ py_eq (fc_payload c) (wc_payload w) = true }.

Lemma split_forced_inv x claims s' :
  foldR (split_forced_one x) claims (mkForcedState (begin_tx x) [] []) = Ok s' → forced_split_inv x claims s'.
Proof.
  set (s0 := mkForcedState _ _ _). assert (forced_split_inv x [] s0) as H0 by (constructor; [reflexivity|done|done|by intros ? ?%not_elem_of_nil]).
  clearbody s0. intros Hf. rewrite <- (app_nil_l claims). revert H0 Hf. generalize (@nil worker_claim) as d. revert s0.
  induction claims as [|w claims IH]; intros s0 d H0 Hf; simpl in Hf.
  { apply Ok_inj in Hf as <-. by rewrite app_nil_r. }
  apply bind_ok in Hf as (s1 & H1 & Hf). rewrite cons_middle, app_assoc. apply (IH s1); [|done]. clear IH Hf.
  apply split_forced_step in H1 as [Hw H1]. destruct H0 as [S R O P]. constructor; [by etransitivity|..].
  - rewrite List.map_app. simpl. destruct H1 as [[-> ->]|[-> [-> |(c & -> & Hc & _)]]]; rewrite ?List.map_app; simpl.
    + rewrite <- app_assoc, (Permutation_app_comm [_]), app_assoc. by apply submseteq_app.
    + by apply submseteq_inserts_r.
    + rewrite app_assoc, Hc. by apply submseteq_app.
  - destruct H1 as [[-> _]|[-> _]]; set_solver.
  - intros c Hc. destruct H1 as [[_ Hfc]|[_ [Hfc|(c0 & Hfc & Hid & Hp)]]]; rewrite Hfc in Hc.
    + destruct (P c Hc) as (w0 & ? & ? & ?). exists w0. set_solver.
    + destruct (P c Hc) as (w0 & ? & ? & ?). exists w0. set_solver.
    + apply elem_of_app in Hc as [Hc|Hc%list_elem_of_singleton]; [destruct (P c Hc) as (w0 & ? & ? & ?); exists w0; set_solver|].
      subst c. exists w. split_and!; [set_solver|done|done].
Qed.

Lemma split_forced_wstep x claims x' ordinary forced :
  split_forced_claims x claims = Ok (x', ordinary, forced) → wstep (λ _, False) (attendance x) (attendance x').
Proof. unfold split_forced_claims. intros H. apply bind_ok in H as (s & Hs & [= <- _ _]). apply wstep_commit. by apply (split_forced_inv _ _ _ Hs). Qed.

(** ** The invariant *)
Abbreviation uid_of c := (get "event_uid" (fc_payload c)).
(** A POST may only follow an answer of Oracle about this claim. *)
Definition sendable (c : forced_claim) (classification : string) (t : pyval) : Prop :=
  event_uid_is_valid (uid_of c) = true ∧ (∃ response, verify_forced c response = Ok (classification, t)) ∧ should_send c classification = true.
Definition number_ok (c : forced_claim) (classification : string) (n : option (Z * Z)) : Prop :=
  match n with None => fc_direct c = false | Some (_, m) => fc_direct c = true ∧ (m ≠ 0 → classification = "MISSING") end.
Definition result_ok (c : forced_claim) (r : forced_result) : Prop :=
  (fo_class r = "MATCH" → ∃ response, verify_forced c response = Ok ("MATCH", fo_token r)) ∧
  (fo_class r = "LEGACY_SOURCE_MATCH" → ∃ response, verify_legacy c response = Ok ("LEGACY_SOURCE_MATCH", fo_token r, fo_matched r)).
Definition phase_ok (t : forced_task) : Prop :=
  let c := ft_claim t in
  match ft_phase t with
  | FChecking | FRechecking _ => True
  | FAuthorizing classification t => sendable c classification t
  | FReserving classification t => sendable c classification t ∧ fc_direct c = true
  | FPosting classification n => (∃ t, sendable c classification t) ∧ number_ok c classification n
  | FPersisting r => result_ok c r
  end.
Definition sent_ok (p : sent_post) : Prop :=
  (∃ t, sendable (st_claim p) (st_class p) t) ∧ number_ok (st_claim p) (st_class p) (st_number p).
Definition task_number (t : forced_task) : option (Z * Z) := match ft_phase t with FPosting _ n => n | _ => None end.
Definition numbers (s : forced_system) : list (Z * Z) := omap st_number (fsent s) ++ omap task_number (ftasks s).
Definition counted (l : ledger) (n : Z * Z) : Prop := ∃ v, row_by rv_id n.1 (recovery_items l) = Some v ∧ n.2 < posts_of v.

Record forced_inv (s : forced_system) : Prop := {
  fv_tasks : ∀ t, t ∈ ftasks s → phase_ok t;
  fv_sent : ∀ p, p ∈ fsent s → sent_ok p;
  fv_numbers : NoDup (numbers s);
  fv_counted : ∀ n, n ∈ numbers s → counted (attendance (fsys s)) n }.

Lemma counted_mono l l' n : counts_le l l' → counted l n → counted l' n.
Proof. intros Hle (v & Hv & Hn). destruct (Hle _ _ Hv) as (v' & Hv' & Hl). exists v'. split; [done|lia]. Qed.

Lemma numbers_task x pre t post ps :
  numbers (mkForcedSystem x (pre ++ t :: post) ps) ≡ₚ option_list (task_number t) ++ numbers (mkForcedSystem x (pre ++ post) ps).
Proof.
  unfold numbers. simpl. rewrite !omap_app. cbn [omap list_omap]. destruct (task_number t) as [n|]; simpl; [|done].
  rewrite !app_assoc, <- Permutation_middle. done.
Qed.

(** A step that changes the world as promised and whose numbers are among the old
    ones keeps the invariant. *)
Lemma inv_keep s s' :
  forced_inv s → counts_le (attendance (fsys s)) (attendance (fsys s')) → (∀ t, t ∈ ftasks s' → t ∈ ftasks s ∨ phase_ok t) →
  (∀ p, p ∈ fsent s' → p ∈ fsent s ∨ sent_ok p) → numbers s' ⊆+ numbers s → forced_inv s'.
Proof.
  intros [T P N C] Hle Ht Hp Hn. constructor.
  - intros t [H|H]%Ht; auto.
  - intros p [H|H]%Hp; auto.
  - by eapply NoDup_sub.
  - intros n Hin. eapply counted_mono; [done|]. apply C. by eapply elem_of_submseteq.
Qed.

(** Replacing a task by one that is not about to post. *)
Lemma inv_advance s x' pre c ph ph' post :
  forced_inv s → ftasks s = pre ++ mkForcedTask c ph :: post → counts_le (attendance (fsys s)) (attendance x') →
  phase_ok (mkForcedTask c ph') → task_number (mkForcedTask c ph') = None →
  forced_inv (mkForcedSystem x' (pre ++ mkForcedTask c ph' :: post) (fsent s)).
Proof.
  intros Hinv Ht Hle Hok Hn. apply (inv_keep s); [done|done| |by left|].
  - simpl. intros t. rewrite Ht, !elem_of_app, !elem_of_cons. naive_solver.
  - rewrite numbers_task, Hn. destruct s as [x ts ps]. simpl in *. subst ts. rewrite numbers_task. by apply submseteq_inserts_l.
Qed.
Lemma inv_discard s x' pre t post :
  forced_inv s → ftasks s = pre ++ t :: post → counts_le (attendance (fsys s)) (attendance x') → forced_inv (mkForcedSystem x' (pre ++ post) (fsent s)).
Proof.
  intros Hinv Ht Hle. apply (inv_keep s); [done|done| |by left|].
  - simpl. intros t'. rewrite Ht, !elem_of_app, !elem_of_cons. naive_solver.
  - destruct s as [x ts ps]. simpl in *. subst ts. rewrite numbers_task. by apply submseteq_inserts_l.
Qed.

Lemma unknown_ok c classification t code m :
  classification ∉ ["MATCH"; "LEGACY_SOURCE_MATCH"] → phase_ok (mkForcedTask c (FPersisting (mkResult classification t code m))).
Proof. intros H. split; simpl; intros ->; exfalso; apply H; set_solver. Qed.

Lemma verify_forced_class c response classification t :
  verify_forced c response = Ok (classification, t) → classification ∈ "UNKNOWN" :: CONTENT_CLASSES.
Proof.
  unfold verify_forced. intros H. apply bind_ok in H as (r & _ & H). apply bind_ok in H as ([row|] & _ & H); [|injection H as <- _; set_solver].
  cbv zeta in H. apply bind_ok in H as (a & _ & H). apply bind_ok in H as (b & _ & H). destruct (negb b); [injection H as <- _; set_solver|].
  apply bind_ok in H as (k & Hk & H). unfold in_set in Hk. destruct (negb _); [done|]. apply Ok_inj in Hk as <-.
  destruct (get "classification" row); try (injection H as <- _; set_solver). destruct (existsb _ _) eqn:E; injection H as <- _; [|set_solver].
  apply existsb_exists in E as (k & Hk & Heq). simpl in Heq. bool_prop. subst. right. by apply list_elem_of_In.
Qed.

Lemma verified_ok c response classification t code : verify_forced c response = Ok (classification, t) → phase_ok (mkForcedTask c (conclude classification t code)).
Proof.
  intros H. split; simpl; [intros ->; eauto|]. intros ->. apply verify_forced_class in H. unfold CONTENT_CLASSES in H. set_solver.
Qed.

Lemma question_ok c response : phase_ok (mkForcedTask c (after_question c response)).
Proof.
  unfold after_question. cbv zeta. destruct (_ && _) eqn:El.
  { destruct (verify_legacy c response) as [[[cl t] m]|] eqn:E; [|apply unknown_ok; set_solver].
    split; simpl; [|intros ->; eauto]. intros ->. exfalso. revert E. unfold verify_legacy. intros H.
    apply bind_ok in H as (r & _ & H). apply bind_ok in H as ([row|] & _ & H); [|done]. cbv zeta in H. destruct (eq_str _ _).
    - apply bind_ok in H as (b & _ & H). destruct (negb b); [done|]. apply bind_ok in H as (u & _ & H). by destruct (matches_original _ _).
    - apply bind_ok in H as (b & Hb & H). unfold in_set in Hb. destruct (negb _); [done|]. apply Ok_inj in Hb as <-. destruct (get "classification" row); try done.
      destruct (existsb _ _) eqn:Ex; [|done]. injection H as -> _ _. by vm_compute in Ex. }
  destruct (event_uid_is_valid _) eqn:Ev; simpl; [|apply unknown_ok; set_solver].
  destruct (verify_forced c response) as [[cl t]|] eqn:E; [|apply unknown_ok; set_solver].
  destruct (should_send c cl) eqn:Es; [split_and!; eauto|by eapply verified_ok].
Qed.

Lemma authorization_ok c classification t r :
  sendable c classification t → phase_ok (mkForcedTask c (after_authorization c classification t r)) ∧ task_number (mkForcedTask c (after_authorization c classification t r)) = None.
Proof.
  intros Hs. unfold after_authorization. destruct r as [[|]|]; [|split; [apply unknown_ok; set_solver|done]..].
  destruct (fc_direct c) eqn:Ed; (split; [|done]); (split; [by eauto|done]).
Qed.

Lemma recheck_ok c status response : phase_ok (mkForcedTask c (after_forced_post status (verify_forced c response))).
Proof.
  unfold after_forced_post. destruct (verify_forced c response) as [[cl t]|] eqn:E; [|apply unknown_ok; set_solver].
  destruct status as [st|]; [|by eapply verified_ok]. destruct (_ && _); [apply unknown_ok; set_solver|by eapply verified_ok].
Qed.

Lemma posts_set v n : posts_of (set_result (assoc_set POST_COUNT (PInt n) (rv_result v)) v) = n.
Proof. unfold posts_of, prior_posts. simpl. by rewrite assoc_set_eq. Qed.

Lemma inv_reserve s pre c classification t post x' r :
  forced_inv s → ftasks s = pre ++ mkForcedTask c (FReserving classification t) :: post → reserve_direct_post (fsys s) c classification = (x', r) →
  forced_inv (mkForcedSystem x' (pre ++ mkForcedTask c (after_reservation (fsys s) c classification t r) :: post) (fsent s)).
Proof.
  intros Hinv Ht Hr. assert (phase_ok (mkForcedTask c (FReserving classification t))) as [Hsend Hdir] by (apply (fv_tasks _ Hinv); rewrite Ht; set_solver).
  apply reserve_direct_spec in Hr as [[-> Hr]|(-> & v & Hv & Hres & Hmiss & Hitems)].
  { eapply inv_advance; [done|done|reflexivity| |]; destruct r as [[|]|]; try done.
    destruct Hsend as (_ & (response & Hresp) & _). by eapply verified_ok. }
  assert (Hle : counts_le (attendance (fsys s)) (attendance x')).
  { intros k w Hw. rewrite Hitems. destruct (Z.eq_dec k (rv_id v)) as [-> |Hne].
    - rewrite row_by_update by done. rewrite Hw in Hv. injection Hv as ->. eexists. split; [by rewrite Hw|]. rewrite posts_set. lia.
    - exists w. split; [|lia]. unfold update_by. rewrite row_by_map by (intros a; by destruct (_ =? _)). rewrite Hw. simpl.
      apply row_by_some in Hw as [_ ->]. by rewrite (proj2 (Z.eqb_neq _ _) Hne). }
  cbn [after_reservation]. rewrite Hres. pose proof (inv_advance s x' pre c _ FChecking post Hinv Ht Hle ltac:(done) eq_refl) as [T P N C]. constructor.
  - simpl. intros t' [H|[-> |H]%elem_of_cons]%elem_of_app; [apply T; set_solver| |apply T; set_solver]. split; [by eauto|by split].
  - done.
  - rewrite numbers_task in N |- *. simpl in *. constructor; [|done]. intros Hin.
    destruct (fv_counted _ Hinv (rv_id v, posts_of v)) as (w & Hw & Hlt); [|simpl in *; rewrite Hv in Hw; injection Hw as ->; lia].
    destruct s as [x ts ps]. simpl in *. subst ts. unfold numbers in *. simpl in *. rewrite !omap_app in *. simpl. done.
  - intros n. rewrite numbers_task. simpl. intros [-> |Hin]%elem_of_cons.
    + exists (set_result (assoc_set POST_COUNT (PInt (posts_of v + 1)) (rv_result v)) v). simpl. rewrite Hitems, row_by_update, Hv by done. rewrite posts_set. split; [done|lia].
    + apply C. rewrite numbers_task. simpl. done.
Qed.

Lemma inv_send s pre c classification n post ph :
  forced_inv s → ftasks s = pre ++ mkForcedTask c (FPosting classification n) :: post → phase_ok (mkForcedTask c ph) → task_number (mkForcedTask c ph) = None →
  forced_inv (mkForcedSystem (fsys s) (pre ++ mkForcedTask c ph :: post) (fsent s ++ [mkSent c classification n])).
Proof.
  intros Hinv Ht Hok Hn. assert (phase_ok (mkForcedTask c (FPosting classification n))) as Hp by (apply (fv_tasks _ Hinv); rewrite Ht; set_solver).
  apply (inv_keep s); [done|reflexivity| | |].
  - simpl. intros t. rewrite Ht, !elem_of_app, !elem_of_cons. naive_solver.
  - simpl. intros p [H|H%list_elem_of_singleton]%elem_of_app; [by left|]. right. subst p. exact Hp.
  - destruct s as [x ts ps]. simpl in *. subst ts. rewrite !numbers_task, Hn. unfold numbers. simpl. rewrite !omap_app. simpl.
    destruct n as [n|]; simpl; [|by rewrite app_nil_r]. by rewrite <- Permutation_cons_append.
Qed.

Lemma forced_step_inv s s' : forced_inv s → forced_step s s' → forced_inv s'.
Proof.
  intros Hinv Hstep. destruct Hstep as [claims s x' ordinary forced H|s pre c post response H|s pre c cl t post H|s pre c cl t post x' r H Hr
    |s pre c cl n post status H|s pre c cl n post ec m reached H|s pre c status post response H|now s pre c r post H|s pre t post H|s x' Hle].
  - apply (inv_keep s); [done|by eapply wstep_counts, split_forced_wstep| |by left|].
    + simpl. intros t [Ht|(c & -> & _)%list_elem_of_fmap]%elem_of_app; [by left|by right].
    + unfold numbers. simpl. rewrite omap_app. assert (omap task_number (map (λ c, mkForcedTask c FChecking) forced) = []) as -> by (clear; by induction forced).
      by rewrite app_nil_r.
  - eapply inv_advance; [done|done|reflexivity|apply question_ok|]. unfold after_question. cbv zeta.
    repeat case_match; done.
  - assert (phase_ok (mkForcedTask c (FAuthorizing cl t))) as Hp by (apply (fv_tasks _ Hinv); rewrite H; set_solver).
    destruct (authorization_ok c cl t (still_authorized (fsys s) c) Hp). by eapply inv_advance.
  - by eapply inv_reserve.
  - by eapply inv_send.
  - destruct reached; [eapply inv_send; [done|done|apply unknown_ok; set_solver|done]|]. rewrite app_nil_r.
    eapply inv_advance; [done|done|reflexivity|apply unknown_ok; set_solver|done].
  - eapply inv_advance; [done|done|reflexivity|apply recheck_ok|]. unfold after_forced_post. repeat case_match; done.
  - eapply inv_discard; [done|done|]. eapply wstep_counts, persist_wstep.
  - by eapply inv_discard.
  - apply (inv_keep s); [done|done|by left|by left|done].
Qed.

Lemma forced_steps_inv s s' : forced_inv s → rtc forced_step s s' → forced_inv s'.
Proof. intros Hinv Hs. induction Hs; [done|]. eauto using forced_step_inv. Qed.
Lemma idle_inv s : ftasks s = [] → fsent s = [] → forced_inv s.
Proof.
  intros Ht Hp. constructor; [rewrite Ht; by intros ? ?%not_elem_of_nil|rewrite Hp; by intros ? ?%not_elem_of_nil|..]; unfold numbers; rewrite Ht, Hp; simpl; [constructor|].
  by intros ? ?%not_elem_of_nil.
Qed.

(** ** What the answers say *)
Lemma result_row_spec c body row : result_row c body = Ok (Some row) →
  get "success" body = PBool true ∧ get "results" body = PList [row] ∧ py_eq (get "event_uid" row) (uid_of c) = true.
Proof.
  unfold result_row. destruct (get "results" body) as [| | | | |rows|] eqn:Er; try done. destruct rows as [|r [|]]; try done.
  destruct (is_true _) eqn:Es; [|done]. destruct (is_dict r); [|done]. simpl. intros H. apply bind_ok in H as (u & Hu & H).
  destruct (py_eq _ _) eqn:Ep; [|done]. injection H as <-. destruct (get "success" body) as [|[|]| | | | |]; try done. split_and!; [done|done|].
  destruct (fc_payload c) as [| | | | | |d]; try done. simpl in Hu |- *. destruct (assoc _ d); [|done]. by injection Hu as ->.
Qed.

Lemma token_matches_ok t : token_matches t = Ok true → ∃ s, t = PStr s ∧ HEX64 s = true.
Proof. destruct t as [| | | |s| |]; unfold token_matches; try (by destruct (truthy _)). intros [= H]. eauto. Qed.

(** Oracle answered MATCH with a content token, in the one result about this punch. *)
Definition content_match (c : forced_claim) (response : res pyval) : Prop :=
  ∃ body row t, response = Ok body ∧ get "success" body = PBool true ∧ get "results" body = PList [row] ∧ py_eq (get "event_uid" row) (uid_of c) = true ∧
    get "classification" row = PStr "MATCH" ∧ get "current_content_token" row = PStr t ∧ HEX64 t = true.
Lemma verify_forced_match c response t : verify_forced c response = Ok ("MATCH", t) → content_match c response.
Proof.
  unfold verify_forced. intros H. apply bind_ok in H as (body & -> & H). apply bind_ok in H as ([row|] & Hr & H); [|done]. cbv zeta in H.
  apply result_row_spec in Hr as (H1 & H2 & H3). apply bind_ok in H as (a & Ha & H). apply bind_ok in H as (b & Hb & H).
  destruct b; [|done]. simpl in H. apply bind_ok in H as (k & _ & H). destruct (get "classification" row) as [| | | |cl| |] eqn:Ec; try done.
  destruct k; [|done]. injection H as -> _. change (Ok true = Ok a) in Ha. injection Ha as <-. apply token_matches_ok in Hb as (t' & Ht & Hh).
  by exists body, row, t'.
Qed.

(** It found the undamaged original of this punch. *)
Definition legacy_match (c : forced_claim) (e : AttendanceEvent) (response : res pyval) : Prop :=
  fc_direct c = true ∧ ∃ body row m t, response = Ok body ∧ get "success" body = PBool true ∧ get "results" body = PList [row] ∧
    py_eq (get "event_uid" row) (uid_of c) = true ∧ get "classification" row = PStr "LEGACY_SOURCE_MATCH" ∧ get "current_content_token" row = PStr t ∧ HEX64 t = true ∧
    get "matched_event_uid" row = m ∧ matches_original (PStr (ae_event_uid e)) m = true.
Lemma verify_legacy_match c e response t m settled :
  verify_legacy c response = Ok ("LEGACY_SOURCE_MATCH", t, m) → legacy_checked c e "LEGACY_SOURCE_MATCH" t m = Ok settled →
  settled = "LEGACY_SOURCE_MATCH" → legacy_match c e response.
Proof.
  unfold verify_legacy. intros H. apply bind_ok in H as (body & -> & H). apply bind_ok in H as ([row|] & Hr & H); [|done]. cbv zeta in H.
  apply result_row_spec in Hr as (H1 & H2 & H3). destruct (eq_str (get "classification" row) _) eqn:Ec.
  2:{ apply bind_ok in H as (k & Hk & H). destruct (get "classification" row); try done. destruct k; [|done]. injection H as -> _ _. by vm_compute in Ec. }
  apply bind_ok in H as ([|] & Hb & H); [|done]. simpl in H. apply bind_ok in H as (u & _ & H). destruct (matches_original u _); [|done]. injection H as <- <-.
  apply token_matches_ok in Hb as (t' & Ht & Hh). unfold legacy_checked. rewrite bool_decide_eq_true_2 by done. simpl.
  destruct (fc_direct c) eqn:Ed; simpl; [|by intros [= <-]]. destruct (matches_original (PStr _) _) eqn:Em; simpl; [|by intros [= <-]]. intros _ _.
  split; [done|]. destruct (get "classification" row) as [| | | |cl| |] eqn:E; try done. simpl in Ec. bool_prop. subst cl.
  by exists body, row, (get "matched_event_uid" row), t'.
Qed.

(** ** What holds in every run *)
(** A POST of a run item that no answer MISSING allowed. *)
Definition blind (k : Z) (p : sent_post) : bool :=
  match st_number p with Some (i, _) => (i =? k) && negb (bool_decide (st_class p = "MISSING")) | None => false end.

Lemma blind_first k ps : NoDup (omap st_number ps) → (∀ p, p ∈ ps → sent_ok p) → zlen (List.filter (blind k) ps) <= 1.
Proof.
  intros Hn Hok. assert (Hb : ∀ p, p ∈ ps → blind k p = true → st_number p = Some (k, 0)).
  { intros p Hp Hb. destruct (Hok p Hp) as [_ Hno]. unfold blind in Hb. unfold number_ok in Hno. destruct (st_number p) as [[i m]|]; [|done]. bool_prop. subst i.
    destruct (Z.eq_dec m 0) as [-> |Hm]; [done|]. destruct Hno as [_ Hno]. by apply Hno in Hm. }
  clear Hok. induction ps as [|p ps IH]; [done|]. cbn [List.filter]. destruct (blind k p) eqn:E.
  - rewrite (filter_false _ ps); [done|]. intros q Hq. destruct (blind k q) eqn:Eq; [|done]. exfalso.
    apply Hb in E; [|by left]. apply Hb in Eq; [|by right]. cbn [omap list_omap] in Hn. rewrite E in Hn. apply NoDup_cons in Hn as [Hn _]. apply Hn.
    apply list_elem_of_omap. by exists q.
  - apply IH; [|intros q Hq; apply Hb; by right]. cbn [omap list_omap] in Hn. destruct (st_number p); [by apply NoDup_cons in Hn as [_ Hn]|done].
Qed.

(** C17: Every POST ever sent has a well-formed id and follows an answer of Oracle about
    its claim: MISSING for an ordinary override, anything but a match for the first
    POST of a direct approval. A later POST of the same approval also needs MISSING,
    its number is below the count stored on the run item, and at most one POST per run
    item was not preceded by MISSING, whatever stops, fails or runs in between. *)
Theorem direct_posts_once s s' :
  ftasks s = [] → fsent s = [] → rtc forced_step s s' →
  (∀ p, p ∈ fsent s' →
     event_uid_is_valid (uid_of (st_claim p)) = true ∧ (∃ response t, verify_forced (st_claim p) response = Ok (st_class p, t)) ∧
     match st_number p with
     | None => fc_direct (st_claim p) = false ∧ st_class p = "MISSING"
     | Some (k, m) => fc_direct (st_claim p) = true ∧ st_class p ≠ "MATCH" ∧ (m ≠ 0 → st_class p = "MISSING") ∧
         ∃ v, row_by rv_id k (recovery_items (attendance (fsys s'))) = Some v ∧ m < posts_of v
     end) ∧
  ∀ k, zlen (List.filter (blind k) (fsent s')) <= 1.
Proof.
  intros Ht Hp Hr. pose proof (forced_steps_inv _ _ (idle_inv _ Ht Hp) Hr) as [_ P N C]. split.
  - intros p Hin. destruct (P p Hin) as [(t & Hu & (response & Hv) & Hs) Hno]. split_and!; [done|by eauto|]. unfold should_send in Hs. unfold number_ok in Hno.
    destruct (st_number p) as [[k m]|] eqn:En.
    + destruct Hno as [Hd Hm]. split_and!; [done| |done|].
      * intros Hc. rewrite Hc in Hs. by rewrite Hd in Hs.
      * apply (C (k, m)). unfold numbers. apply elem_of_app. left. apply list_elem_of_omap. by exists p.
    + rewrite Hno, andb_false_l, orb_false_r in Hs. bool_prop. done.
  - intros k. apply blind_first; [|done]. unfold numbers in N. by apply NoDup_app in N as (? & _ & _).
Qed.


(** ** Beside the other routes *)
(** The transactions of the ordinary worker keep the counts of POSTs. *)
Lemma worker_counts x x' : linked (attendance x) → worker_tx x x' → counts_le (attendance x) (attendance x').
Proof. intros Hl Hw. by eapply wstep_counts, worker_tx_wstep. Qed.

Lemma ordinary_unowned now x claims x1 ordinary journal c :
  keys_unique (attendance x) → OracleDelivery.split_claims now x claims = (x1, ordinary, journal) → c ∈ ordinary → unowned (attendance x1) (wc_row_id c).
Proof.
  intros K [= <- <- _] Hc. destruct (split_inv_end now x claims K) as [_ _ _ R O]. rewrite O in Hc.
  apply list_elem_of_In, List.filter_In in Hc as [_ Hc]. unfold commit. rewrite before_flush_eq. simpl. intros i Hi Heq.
  rewrite <- (routes_existsb _ _ _ R) in Hc. apply negb_true_iff, not_true_iff_false in Hc. apply Hc, existsb_exists.
  exists i. split; [by apply list_elem_of_In|by apply Z.eqb_eq].
Qed.

(** The three routes of a batch share no row: after the split, a row of ordinary or
    forced delivery has no intent, a row of the journal route has one, and no row is in
    both ordinary and forced delivery. Persisting a forced result of a row without an
    intent is a step the delivery of intents admits, so its guarantees hold beside it. *)
Theorem forced_routes now x claims x1 rest journal x2 ordinary forced :
  keys_unique (attendance x) → NoDup (map wc_row_id claims) →
  OracleDelivery.split_claims now x claims = (x1, rest, journal) → split_forced_claims x1 rest = Ok (x2, ordinary, forced) →
  NoDup (map wc_row_id ordinary ++ map fc_row_id forced) ∧
  (∀ r, r ∈ map wc_row_id ordinary ++ map fc_row_id forced → unowned (attendance x2) r ∧ r ∉ map cl_row_id journal) ∧
  (∀ c, c ∈ forced → ∃ w, w ∈ claims ∧ wc_row_id w = fc_row_id c ∧ py_eq (fc_payload c) (wc_payload w) = true) ∧
  (∀ c x' now r, c ∈ forced → unowned (attendance x') (fc_row_id c) →
     evolves (attendance x') (attendance (persist_forced now x' c (fo_class r) (fo_token r) (fo_code r) (fo_matched r)).1)).
Proof.
  intros K Hn Hsp Hf. pose proof (split_forced_wstep _ _ _ _ _ Hf) as Hw. unfold split_forced_claims in Hf. apply bind_ok in Hf as (s & Hs & [= <- <- <-]).
  destruct (split_forced_inv _ _ _ Hs) as [_ R O P].
  assert (Hrest : rest `sublist_of` claims).
  { destruct (split_inv_end now x claims K) as [_ _ _ _ Ho]. injection Hsp as _ <- _. rewrite Ho. clear. induction claims as [|c cs IH]; simpl; [constructor|].
    destruct (negb _); [by apply sublist_skip|by apply sublist_cons]. }
  assert (Hsub : rest ⊆ claims) by (intros c Hc; eapply elem_of_submseteq; [done|by apply sublist_submseteq]).
  assert (Hrow : ∀ r, r ∈ map wc_row_id (fs_ordinary s) ++ map fc_row_id (fs_forced s) → ∃ c, c ∈ rest ∧ wc_row_id c = r).
  { intros r Hr. eapply elem_of_submseteq in Hr; [|exact R]. apply list_elem_of_fmap in Hr as (c & -> & Hc). eauto. }
  split_and!.
  - eapply NoDup_sub; [exact R|]. eapply NoDup_sub; [by apply sublist_submseteq, (fmap_sublist wc_row_id)|done].
  - intros r (c & Hc & <-)%Hrow. pose proof (ordinary_unowned _ _ _ _ _ _ _ K Hsp Hc) as Hu. split.
    + intros i. rewrite (ws_intents _ _ _ Hw). apply Hu.
    + intros (j & Hj & Hin)%list_elem_of_fmap. destruct (split_evolves _ _ _ _ _ _ K Hsp) as [_ Hok]. destruct (Hok j Hin) as (_ & i & Hi & _ & Ho & _).
      apply (Hu i Hi). congruence.
  - intros c Hc. destruct (P c Hc) as (w & Hw1 & Hw2 & Hw3). exists w. split_and!; [by apply Hsub|done|done].
  - intros c x' now' r Hc Hu. eapply wstep_evolves; [|apply persist_wstep]. by intros r' [-> _].
Qed.

(** A content match for a claim that still owns its row, under its newest approval,
    completes the delivery: after the commit, the approval hook included, the row and
    its event are ACKED_CHECK at that time, and the run item is CONFIRMED with the
    digest of the approved payload and Oracle's token, its count of POSTs unchanged. *)
Theorem forced_completes now x c row e d payload v t code matched :
  forced_row x c = Some row → forced_event x row = Ok e → forced_decision x c e = Some d → decrypt_json (fr_payload_encrypted d) = Ok payload →
  py_eq payload (fc_payload c) = true → item_at (fr_item_id d) (attendance x) = Ok v →
  ∃ x' e' v', persist_forced now x c "MATCH" t code matched = (x', Ok ()) ∧
    outbox_at (fc_row_id c) (attendance x') = Some (ack_row (utc_instant now) row) ∧
    event_at (ae_id e) x' = Some e' ∧ ae_ords_status e' = "ACKED_CHECK" ∧ ae_oracle_confirmed_at e' = Some (utc_instant now) ∧
    row_by rv_id (rv_id v) (recovery_items (attendance x')) = Some v' ∧ rv_status v' = "CONFIRMED" ∧
    assoc "oracle_verified_payload_digest" (rv_result v') = Some (PStr (fr_payload_digest d)) ∧ assoc "oracle_content_token" (rv_result v') = Some t ∧
    posts_of v' = posts_of v.
Proof.
  intros Hr He Hd Hp Heq Hv. unfold persist_forced. rewrite Hr, He. cbn [mbind res_bind]. rewrite Hd, Hp. cbn [mbind res_bind]. rewrite Heq. simpl negb. cbv iota.
  rewrite Hv. cbn [mbind res_bind]. change (legacy_checked c e "MATCH" t matched) with (Ok "MATCH" : res string). cbn [mbind res_bind].
  apply forced_row_spec in Hr as (Hrow & Hid & _). unfold forced_event in He. destruct (_ ≫= _) as [e0|] eqn:Ee; [|done]. injection He as ->.
  apply bind_Some in Ee as (i & Hi & Hev). unfold event_at in Hev. apply row_by_some in Hev as Hei. destruct Hei as [_ Hei]. subst i.
  unfold item_at in Hv. destruct (row_by rv_id _ _) as [v0|] eqn:Ev; [|done]. injection Hv as ->. apply row_by_some in Ev as Hvi. destruct Hvi as [_ Hvi]. rewrite <- Hvi in Ev.
  unfold forced_decision in Hd. destruct (decision_for _ (ae_id e)) as [d0|] eqn:Edf; [|done].
  assert (Hauth : delivery_authorized (approved (attendance x)) (ack_event (utc_instant now) "ADD_FORCE_CONTENT_CHECK" e) = true) by (apply decision_authorized; simpl; rewrite Edf; done).
  rewrite <- Hid in Hrow |- *.
  destruct (flush_assigned (attendance x) (attendance x) row e (ack_row (utc_instant now)) (ack_event (utc_instant now) "ADD_FORCE_CONTENT_CHECK")) as [H1 H2]; [done..|].
  eexists _, _, (as_item (forced_outcome now d row "MATCH" t matched code) v). split; [done|]. split; [exact H1|]. split; [exact H2|]. split_and!; [done|done| |done|..].
  - rewrite commit_items. simpl. rewrite row_by_update by done. by rewrite Ev.
  - simpl. rewrite !assoc_set_ne by done. apply assoc_set_eq.
  - simpl. rewrite !assoc_set_ne by done. apply assoc_set_eq.
  - unfold posts_of, prior_posts. simpl. by rewrite !assoc_set_ne.
Qed.
End system.
