(* ===== verification/ForceRun.v ===== *)
(** * A concrete run of a direct approval

    One approved punch: Oracle does not have it, the POST is reserved and sent, its
    reply is lost, Oracle is asked again and has the content. *)
From S2P Require Import Prelude PyText Hashes PyJson Calendar ZktPacket ZktDecode OccurrenceMatch QueueEvidence Custody DerivedEvidence CustodyWork SourceAttendance SourceBinding ManualGuard OracleDelivery OracleSystem OracleReply OrdsWorker OrdsClaim ForceDelivery ForceSystem.
Open Scope string_scope.
Open Scope list_scope.
Open Scope Z_scope.

#[local] Instance run_platform : WorkerPlatform := {|
  worker_delivery := wit_platform; automatic_takeover := λ _ _ _, Ok None; delivery_payload := λ _ _ _, Ok (Some wit_payload); time_refusal := λ _, false |}.

Definition run_proof : pyval :=
  PDict [("policy", PStr DIRECT_POLICY); ("terminal", PStr "ZK1"); ("immutable_facts", PDict [("device_serial", PStr "ZK1")])].
Definition run_decision : AttendanceForceReleaseDecision := mkRelease 9 5 1 run_proof "payload" zeros64.
Definition run_item : AttendanceRecoveryItem := mkRecoveryItem 5 "WAITING_ORACLE" None [] None 0.
Definition run_world : world :=
  mkWorld wit_tables (mkSession [] [] 1 None) [wit_connector]
    (mkLedger [wit_attendance_event] [] [wit_outbox "IN_FLIGHT"] [] [] [] (mkApprovals [run_decision] [] [] [] []) [run_item]) [] [] [].

Definition run_claim : forced_claim := Eval vm_compute in
  match split_forced_claims run_world [wit_worker_claim 1] with Ok (_, _, [c]) => c | _ => mkForced 0 0 0 false PNone PNone end.
Definition run_answer (classification : string) : res pyval :=
  Ok (PDict [("success", PBool true); ("results", PList [PDict [("event_uid", PStr wit_occurrence); ("classification", PStr classification);
    ("current_content_token", PStr zeros64)]])]).

Definition run_s0 : forced_system := mkForcedSystem run_world [] [].
Definition run_x1 : world := Eval vm_compute in match split_forced_claims run_world [wit_worker_claim 1] with Ok (x, _, _) => x | _ => run_world end.
Definition run_x2 : world := Eval vm_compute in (reserve_direct_post run_x1 run_claim "MISSING").1.
Definition run_sent : list sent_post := [mkSent run_claim "MISSING" (Some (5, 0))].
Definition run_result : forced_result := mkResult "MATCH" (PStr zeros64) None PNone.
Definition run_s6 : forced_system := mkForcedSystem run_x2 [mkForcedTask run_claim (FPersisting run_result)] run_sent.

Lemma run_split : split_forced_claims run_world [wit_worker_claim 1] = Ok (run_x1, [], [run_claim]).
Proof. vm_compute. reflexivity. Qed.
Lemma run_question : after_question run_claim (run_answer "MISSING") = FAuthorizing "MISSING" (PStr zeros64).
Proof. vm_compute. reflexivity. Qed.
Lemma run_authorized : still_authorized run_x1 run_claim = Ok true.
Proof. vm_compute. reflexivity. Qed.
Lemma run_reserve : reserve_direct_post run_x1 run_claim "MISSING" = (run_x2, Ok true).
Proof. vm_compute. reflexivity. Qed.
Lemma run_recheck : after_forced_post None (verify_forced run_claim (run_answer "MATCH")) = FPersisting run_result.
Proof. vm_compute. reflexivity. Qed.

Lemma direct_run : rtc forced_step run_s0 run_s6.
Proof.
  set (at_ x ph ps := mkForcedSystem x [mkForcedTask run_claim ph] ps).
  apply (rtc_l _ _ (at_ run_x1 FChecking [])); [exact (forced_split [wit_worker_claim 1] run_s0 _ _ _ run_split)|].
  apply (rtc_l _ _ (at_ run_x1 (FAuthorizing "MISSING" (PStr zeros64)) [])).
  { pose proof (forced_question (at_ run_x1 FChecking []) [] run_claim [] (run_answer "MISSING") eq_refl) as H. rewrite run_question in H. exact H. }
  apply (rtc_l _ _ (at_ run_x1 (FReserving "MISSING" (PStr zeros64)) [])).
  { pose proof (forced_authorization (at_ run_x1 (FAuthorizing "MISSING" (PStr zeros64)) []) [] run_claim _ _ [] eq_refl) as H.
    change (fsys (at_ run_x1 (FAuthorizing "MISSING" (PStr zeros64)) [])) with run_x1 in H. rewrite run_authorized in H. exact H. }
  apply (rtc_l _ _ (at_ run_x2 (FPosting "MISSING" (Some (5, 0))) [])).
  { exact (forced_reservation (at_ run_x1 (FReserving "MISSING" (PStr zeros64)) []) [] run_claim _ _ [] _ _ eq_refl run_reserve). }
  apply (rtc_l _ _ (at_ run_x2 (FRechecking None) run_sent)).
  { exact (forced_post (at_ run_x2 (FPosting "MISSING" (Some (5, 0))) []) [] run_claim _ _ [] None eq_refl). }
  apply rtc_once. pose proof (forced_recheck (at_ run_x2 (FRechecking None) run_sent) [] run_claim None [] (run_answer "MATCH") eq_refl) as H.
  rewrite run_recheck in H. exact H.
Qed.

Lemma direct_posts_once_witness :
  fsent run_s6 = [mkSent run_claim "MISSING" (Some (5, 0))] ∧ zlen (List.filter (blind 5) (fsent run_s6)) <= 1 ∧
  ∃ v, row_by rv_id 5 (recovery_items (attendance run_x2)) = Some v ∧ 0 < posts_of v.
Proof.
  destruct (direct_posts_once run_s0 run_s6 eq_refl eq_refl direct_run) as [H1 H2].
  destruct (H1 (mkSent run_claim "MISSING" (Some (5, 0)))) as (_ & _ & _ & _ & _ & Hv); [left|]. split_and!; [reflexivity|apply H2|exact Hv].
Defined.

Definition run_row : OrdsOutbox := wit_outbox "IN_FLIGHT".
Definition run_now : datetime := mkDT 2026 1 2 4 0 0 0 (Some 0).
Definition run_acked : OrdsOutbox := Eval vm_compute in ack_row (utc_instant run_now) run_row.
Lemma run_persist : outboxes (attendance (persist_forced run_now run_x2 run_claim "MATCH" (PStr zeros64) None PNone).1) = [run_acked].
Proof. vm_compute. reflexivity. Qed.
Lemma run_acked_in l : l = [run_acked] → run_acked ∈ l.
Proof. intros ->. left. Qed.
Lemma run_open o : o ∈ outboxes (attendance run_x2) → ¬ confirmed o.
Proof. intros Ho%list_elem_of_singleton. subst o. unfold confirmed. simpl. set_solver. Qed.


(** The same batch with a row of the journal route. *)
Definition run_both : world :=
  set_attendance (with_intents [mkIntent 2 2 1 1 3 VERIFICATION_SCOPE None None None None 0 None] (attendance run_world)) run_world.
Lemma run_routes : OracleDelivery.split_claims 1000 run_both [wit_worker_claim 1; wit_worker_claim 2] = (run_both, [wit_worker_claim 1], []).
Proof. vm_compute. reflexivity. Qed.
Lemma run_forced : ∃ x', split_forced_claims run_both [wit_worker_claim 1] = Ok (x', [], [run_claim]).
Proof. eexists. vm_compute. reflexivity. Qed.
Lemma run_keys : keys_unique (attendance run_both).
Proof. constructor; repeat constructor; set_solver. Qed.
Lemma forced_routes_witness :
  ∃ x', split_forced_claims run_both [wit_worker_claim 1] = Ok (x', [], [run_claim]) ∧ unowned (attendance x') 1.
Proof.
  destruct run_forced as [x' Hx]. exists x'. split; [exact Hx|].
  assert (Hn : NoDup (map wc_row_id [wit_worker_claim 1; wit_worker_claim 2])) by (apply (bool_decide_unpack _); vm_compute; exact I).
  destruct (forced_routes 1000 run_both _ _ _ _ _ _ _ run_keys Hn run_routes Hx) as (_ & H & _). apply (H 1). left.
Defined.

Lemma forced_completes_witness :
  ∃ x' v', persist_forced run_now run_x2 run_claim "MATCH" (PStr zeros64) None PNone = (x', Ok ()) ∧
    row_by rv_id 5 (recovery_items (attendance x')) = Some v' ∧ rv_status v' = "CONFIRMED" ∧ posts_of v' = 1.
Proof.
  destruct (forced_completes run_now run_x2 run_claim run_row wit_attendance_event run_decision wit_payload
    (List.hd run_item (recovery_items (attendance run_x2))) (PStr zeros64) None PNone)
    as (x' & e' & v' & H1 & _ & _ & _ & _ & H2 & H3 & _ & _ & H4); [vm_compute; reflexivity..|].
  exists x', v'. split_and!; [exact H1|exact H2|exact H3|exact H4].
Defined.

(** A damaged id: four bytes of one block are unreadable; the original differs there only. *)
Example damaged_found :
  matches_original (PStr "000000000000000000000000????000000000000000000000000000000000000") (PStr "000000000000000000000000abcd000000000000000000000000000000000000") = true ∧
  matches_original (PStr "000000000000000000000000????000000000000000000000000000000000000") (PStr "000000000000000000000000abcd000000000000000000000000000000000001") = false ∧
  potentially_recoverable (PStr "0000????00000000000000000000000000000000000000000000000000000000") = false.
Proof. vm_compute. done. Qed.
