(* ===== verification/RuntimeContract.v ===== *)
(** * Runtime obligations of the firmware profiles

    runtime_contract.py: which workers and queues a runtime profile must report,
    when a worker's snapshot counts as fresh, and the status of the journal's
    storage owner; with the field lists of hil_startup.py other components share.
    Uptimes are seconds, ticks milliseconds. *)
From S2P Require Import Prelude PyText Hashes PyJson.
Open Scope string_scope.
Open Scope list_scope.
Open Scope Z_scope.

(** hil_startup.PHASES *)
Definition HIL_STARTUP_PHASES : list string :=
  ["NOT_STARTED"; "STORAGE_WAIT"; "OWNER_START"; "RECOVERING"; "TRANSPORT_START"; "CHECKING_READER"; "CAPTURE_START"; "READY"].
Definition STORAGE_COUNTERS : list string :=
  ["write_failures"; "read_failures"; "persistence_probe_failures"; "persistence_probe_total_failures";
   "legacy_read_faults"; "legacy_append_faults"; "legacy_retire_faults"].
Definition STORAGE_ERRORS : list string :=
  ["error_code"; "upgrade_error"; "persistence_probe_error"; "legacy_error_code"; "local_failure_source";
   "error_operation"; "persistence_probe_operation"; "legacy_error_operation"].

(** ** Profiles *)
Record RuntimeContract := mkContract {
  workers : gset string; queues : gset string; delivery_authority : string; auxiliary_workers : gset string }.
#[export] Instance RuntimeContract_eq_dec : EqDecision RuntimeContract. Proof. solve_decision. Defined.

Definition LEGACY_QUEUES : gset string :=
  list_to_set ["live"; "bulk"; "segmented_live"; "segmented_bulk"; "segmented_ords"; "segmented_blocked";
    "segmented_receipts"; "segmented_evidence"].
Definition RUNTIMES : list (string * RuntimeContract) :=
  [("ZKT_LEGACY", mkContract {["add_delivery"; "ords_delivery"]} LEGACY_QUEUES "LEGACY_DUAL" {["storage_owner"; "journal_add_delivery"]});
   ("HIKVISION_V1", mkContract {["add_delivery"; "hikvision_source"]} {["hikvision_source"]} "ADD" ∅);
   ("ZKT_JOURNAL_V1", mkContract {["capture"; "storage_owner"; "add_delivery"]} {["journal"; "legacy_migration"]} "ADD"
      {["legacy_add_delivery"; "legacy_ords_delivery"]})].
(** hil_startup.RUNTIME = RUNTIMES["ZKT_JOURNAL_V1"] *)
Definition RUNTIME : RuntimeContract := default (mkContract ∅ ∅ "" ∅) (assoc "ZKT_JOURNAL_V1" RUNTIMES).

Definition runtime_contract (diagnostics : pyval) (family : string) (allow_unknown_authority : bool) : res RuntimeContract :=
  let default_profile := if bool_decide (family = "hikvision") then "HIKVISION_V1" else "ZKT_LEGACY" in
  let profile := if truthy (get "runtime_profile" diagnostics) then get "runtime_profile" diagnostics else PStr default_profile in
  if negb (hashable profile) then Raise TypeError "unhashable type"
  else
    match profile with
    | PStr p =>
        match assoc p RUNTIMES with
        | None => Raise ValueError "RUNTIME_PROFILE_MISMATCH"
        | Some contract =>
            if negb (Bool.eqb (bool_decide (p = "HIKVISION_V1")) (bool_decide (family = "hikvision")))
            then Raise ValueError "RUNTIME_PROFILE_MISMATCH"
            else if bool_decide (p = "ZKT_JOURNAL_V1") && negb (py_eq (get "schema_version" diagnostics) (PInt 2)
                      && py_eq (get "journal_format" diagnostics) (PInt 1))
            then Raise ValueError "JOURNAL_CAPABILITIES_INCOMPLETE"
            else if bool_decide (p = "ZKT_JOURNAL_V1") && negb (hashable (get "delivery_authority" diagnostics))
            then Raise TypeError "unhashable type"
            else if bool_decide (p = "ZKT_JOURNAL_V1")
                    && negb (eq_str (get "delivery_authority" diagnostics) "ADD"
                             || (allow_unknown_authority && eq_str (get "delivery_authority" diagnostics) "UNKNOWN"))
            then Raise ValueError "JOURNAL_CAPABILITIES_INCOMPLETE"
            else Ok contract
        end
    | _ => Raise ValueError "RUNTIME_PROFILE_MISMATCH"
    end.

(** [-5000 <= now - v <= until] for an integer [v] *)
Definition tick_between (v : pyval) (now until : Z) : bool :=
  match v with PInt t => (-5000 <=? now - t) && (now - t <=? until) | _ => false end.

Definition worker_snapshot_fresh (worker : pyval) (uptime_seconds : option Z) (runtime : RuntimeContract) : bool :=
  match uptime_seconds with
  | None => false
  | Some up =>
      let now := up * 1000 in
      let model := get_or "execution_model" (PStr "TASK") worker in
      if eq_str model "ON_DEMAND" then
        if negb (bool_decide (Some runtime = assoc "ZKT_JOURNAL_V1" RUNTIMES)) || negb (eq_str (get "name" worker) "capture") then false
        else
          let started := get "operation_started_uptime_ms" worker in
          (if negb (is_none started) then tick_between started now 14999
           else is_zero (get "pending_requests" worker))
          && tick_between (get "sampled_uptime_ms" worker) now 90000
      else eq_str model "TASK" && tick_between (get "last_activity_uptime_ms" worker) now 90000
  end.

(** The compatibility reader owns a journal even before ADD cutover. *)
Definition journal_owner_status (diagnostics : pyval) (uptime_seconds : option Z) : res string :=
  let storage := if truthy (get "journal_storage" diagnostics) then get "journal_storage" diagnostics else PDict [] in
  if negb (is_dict storage) then Raise AttributeError "get"
  else if negb (match uptime_seconds with Some up => tick_between (get "sampled_uptime_ms" storage) (up * 1000) 44999 | None => false end
                && is_true (get "observed" storage) && is_true (get "fresh" storage)) then Ok "UNKNOWN"
  else
    let durability := get "durability" storage in
    let appended := get "last_append_result" storage in
    if negb (hashable durability) then Raise TypeError "unhashable type"
    else if eq_str durability "DEGRADED" then Ok "DEGRADED"
    else if eq_str durability "FULL" then Ok "FULL"
    else if negb (is_true (get "ready" storage)) || negb (is_false (get "checkpoint_recovery_pending" storage)) then Ok "DEGRADED"
    else if negb (hashable appended) then Raise TypeError "unhashable type"
    else if negb (is_none appended || eq_str appended "OK") then Ok (if eq_str appended "FULL" then "FULL" else "DEGRADED")
    else Ok (if eq_str durability "HEALTHY" then "HEALTHY" else "UNKNOWN").

Definition journal_storage_status (diagnostics : pyval) (uptime_seconds : option Z) : res (option string) :=
  if negb (eq_str (get "runtime_profile" diagnostics) "ZKT_JOURNAL_V1") then Ok None
  else Some <$> journal_owner_status diagnostics uptime_seconds.
