(* ===== verification/DeviceHealth.v ===== *)
(** * Derived device health

    device_health.py: every OPEN alert maps through POLICY to a tier, a currency
    and a gating flag; the terminal link and the heartbeat age add derived
    reasons; derive_health combines them into the lifecycle and the device error
    the HIL and factory holds key on. Instants are microseconds since the epoch;
    the ISO parser of the standard library is a parameter. *)
From S2P Require Import Prelude PyText Hashes PyJson QueueEvidence RuntimeContract.
Open Scope string_scope.
Open Scope list_scope.
Open Scope Z_scope.

(** ** Tiers, currencies and the policy table *)
Inductive tier := DEGRADED | WARNING.
Inductive currency := CURRENT | HELD | PREVIOUS_BOOT | LATCHED.
(** How an alert's currency is judged: the [currency] strings of Policy. *)
Inductive evidence_kind := BY_DIAGNOSTICS | BY_LED | BY_POSITIVE | BY_REJECTION | BY_TRANSPORT | BY_LATCHED.
(** [tier]: a fixed tier, one that depends on the evidence, or no health effect. *)
Inductive policy_tier := Fixed (t : tier) | RULE | NoTier.

#[export] Instance tier_eq_dec : EqDecision tier. Proof. solve_decision. Defined.
#[export] Instance currency_eq_dec : EqDecision currency. Proof. solve_decision. Defined.
#[export] Instance policy_tier_eq_dec : EqDecision policy_tier. Proof. solve_decision. Defined.

Definition TIER_RANK (t : option tier) : Z := match t with Some DEGRADED => 0 | Some WARNING => 1 | None => 2 end.

Definition CUSTODY_MESSAGE_TYPES : list string :=
  ["heartbeat"; "attendance_batch"; "queue_evidence"; "zkt_observation_batch"; "reconcile_source_manifest";
   "reconcile_chunk"; "source_tail_chunk"; "user_snapshot"; "hikvision_observation"; "hikvision_history_page"].
(** hil_startup.PHASES without READY, and the two phases of a bridge image. *)
Definition STARTUP_PHASES : list string :=
  List.filter (λ p, negb (bool_decide (p = "READY"))) HIL_STARTUP_PHASES ++ ["BRIDGE_VALIDATION"; "AUTHORITY_HOLD"].
Definition WORKFLOW_OWNED_CODES : list string :=
  ["ADMIN_REVOKE_OVERDUE"; "ATTENDANCE_EVENT_QUARANTINED"; "ATTENDANCE_REPAIR_NEEDS_ATTENTION";
   "ATTENDANCE_REPAIR_STALLED"; "ORDS_DELIVERY_FAILED"; "DUPLICATE_USER_CNIC"; "ORACLE_RECEIPT_CONNECTOR_MISMATCH";
   "HISTORY_BACKFILL_BLOCKED"; "USER_CNIC_FORMAT_SUSPECT"; "CHECKIN_NOTIFY_DEGRADED"].
Definition DIAGNOSTICS_CODES : list string := ["ESP_DURABILITY_FAULT"; "ESP_DELIVERY_WORKER_FAULT"].

Record Policy := mkPolicy {
  priority : Z; gating : bool; evidence : evidence_kind; clear_condition : string; policy_tier_of : policy_tier }.

Definition POLICY : list (string * Policy) :=
  [("QUARANTINED_DUPLICATE_SERIAL", mkPolicy 5 true BY_POSITIVE
      "Clears when no other connector claims this terminal serial." (Fixed DEGRADED));
   ("ESP_FATAL", mkPolicy 10 true BY_LED
      "Clears when the ESP reports a non-fatal LED state." (Fixed DEGRADED));
   ("ZKT_SERIAL_MISMATCH", mkPolicy 20 true BY_POSITIVE
      "Clears when the terminal reports its assigned serial." (Fixed DEGRADED));
   ("ESP_DURABILITY_FAULT", mkPolicy 30 true BY_DIAGNOSTICS
      "Clears when firmware that reports storage diagnostics verifies healthy, persisted and recovered storage." RULE);
   ("ESP_PRESERVATION_UNVERIFIED", mkPolicy 32 true BY_LATCHED
      "Clears when firmware that reports storage diagnostics verifies healthy, persisted and recovered storage." (Fixed WARNING));
   ("ESP_RESTART_LOOP", mkPolicy 35 true BY_POSITIVE
      "Clears once the ESP stays up for 30 minutes." (Fixed DEGRADED));
   ("ESP_DELIVERY_WORKER_FAULT", mkPolicy 40 true BY_DIAGNOSTICS
      "Clears when every required delivery worker reports running with a fresh tick." RULE);
   ("HEARTBEAT_STALE", mkPolicy 45 false BY_TRANSPORT
      "Clears when ADD accepts the next heartbeat." (Fixed DEGRADED));
   ("ESP_LOCAL_FAILURE", mkPolicy 50 true BY_LED
      "Clears when the ESP reports a healthy LED state, or at the next reboot." RULE);
   ("HIK_CAPTURE_UNHEALTHY", mkPolicy 55 true BY_POSITIVE
      "Clears when the Hikvision terminal is online and its last check succeeded." RULE);
   ("DEVICE_MESSAGE_REJECTED", mkPolicy 60 true BY_REJECTION
      "Clears when ADD accepts the next message of each rejected type. A refused queue_evidence clears only once ADD holds each refused copy's bytes. Once ADD accepts a later queue_evidence, copies it does not hold no longer hold HIL or factory work, but stay open as a warning until an operator verifies the device and resolves them." RULE);
   ("ADD_MESSAGE_PROCESSING_FAILED", mkPolicy 65 false BY_REJECTION
      "Clears when ADD processes the next message of each failed type; a queue_evidence clears only once ADD holds each copy it could not process, or an operator resolves it." RULE);
   ("HIK_LIGHT_RECONCILE_BLOCKED", mkPolicy 70 true BY_POSITIVE
      "Clears when the Hikvision history audit is scanning or complete." (Fixed WARNING));
   ("OTA_DEVICE_ROLLED_BACK", mkPolicy 75 true BY_LATCHED
      "Clears when a later deployment to this device succeeds." (Fixed WARNING));
   ("OTA_DEVICE_REPORTED_FAILURE", mkPolicy 75 true BY_LATCHED
      "Clears when a later deployment to this device succeeds." (Fixed WARNING));
   ("ZKT_CONNECTION_FLAPPING", mkPolicy 80 true BY_POSITIVE
      "Clears after three consecutive successful terminal connections." (Fixed WARNING));
   ("TERMINAL_DISCONNECTED", mkPolicy 85 false BY_TRANSPORT
      "Clears when the terminal link reconnects." (Fixed WARNING));
   ("TERMINAL_STABILIZING_STALLED", mkPolicy 86 false BY_TRANSPORT
      "Clears when the terminal link reports ONLINE." (Fixed WARNING));
   ("DELIVERY_AUTHORITY_UNKNOWN", mkPolicy 90 false BY_POSITIVE
      "Clears when the journal reports valid ADD delivery authority." (Fixed WARNING));
   ("ESP_OFFLINE", mkPolicy 100 false BY_TRANSPORT
      "Clears when ADD accepts a heartbeat." NoTier);
   ("TERMINAL_LINK_DOWN", mkPolicy 101 false BY_POSITIVE
      "Clears when the terminal link is connected or stabilizing." NoTier);
   ("ZKT_CLOCK_DRIFT", mkPolicy 102 false BY_POSITIVE
      "Clears when the terminal clock is within two minutes of trusted time." NoTier);
   ("HIK_CLOCK_DRIFT", mkPolicy 102 false BY_POSITIVE
      "Clears when the terminal clock is within two minutes of trusted time." NoTier);
   ("ESP_CLOCK_SKEW", mkPolicy 102 false BY_POSITIVE
      "Clears when the ESP's heartbeat clock is within two minutes of ADD time." NoTier);
   ("USER_SNAPSHOT_TRUNCATED", mkPolicy 103 false BY_LATCHED
      "Clears when a complete, stable user snapshot is received." NoTier);
   ("HISTORY_BACKFILL_BLOCKED", mkPolicy 104 false BY_POSITIVE
      "Clears when history backfill is running or complete." NoTier);
   ("ORDS_DELIVERY_FAILED", mkPolicy 105 false BY_LATCHED
      "Clears when Oracle delivery succeeds." NoTier);
   ("ORDS_EVENT_REJECTED", mkPolicy 105 false BY_LATCHED
      "Clears through the Oracle rejection review." NoTier);
   ("CHECKIN_NOTIFY_DEGRADED", mkPolicy 105 false BY_LATCHED
      "Clears when employee check-in notifications are delivered again." NoTier);
   ("ATTENDANCE_EVENT_QUARANTINED", mkPolicy 106 false BY_LATCHED
      "Clears when the quarantined attendance events are released." NoTier);
   ("ATTENDANCE_TIMESTAMP_QUARANTINED", mkPolicy 106 false BY_LATCHED
      "Clears through the attendance timestamp review." NoTier);
   ("ATTENDANCE_REPAIR_NEEDS_ATTENTION", mkPolicy 107 false BY_LATCHED
      "Clears when the attendance repair completes." NoTier);
   ("ATTENDANCE_REPAIR_STALLED", mkPolicy 107 false BY_LATCHED
      "Clears when the attendance repair completes." NoTier);
   ("ADD_SOURCE_COVERAGE_INVALIDATED", mkPolicy 108 false BY_LATCHED
      "Clears through a source coverage review." NoTier);
   ("ADD_SOURCE_GENERATION_LINEAGE_DIVERGED", mkPolicy 108 false BY_LATCHED
      "Clears through a source coverage review." NoTier);
   ("ADD_SOURCE_COVERAGE_UNVERIFIED", mkPolicy 108 false BY_LATCHED
      "Clears through a source coverage review." NoTier);
   ("ADD_SOURCE_TAIL_STALE_GENERATION", mkPolicy 108 false BY_POSITIVE
      "Clears when ADD commits a tail in the current coverage generation." NoTier);
   ("TERMINAL_SOURCE_EXCEPTION", mkPolicy 108 false BY_LATCHED
      "Clears through a source exception review." NoTier);
   ("TERMINAL_NEWEST_RECORD_CORRECTED", mkPolicy 108 false BY_LATCHED
      "Clears when an operator resolves it after HR verifies the punch corrected from an unwritten newest terminal record." NoTier);
   ("TERMINAL_NEWEST_RECORD_CHANGED", mkPolicy 108 false BY_LATCHED
      "Clears when an operator resolves it after HR verifies the punch ADD took from an unwritten newest terminal record." NoTier);
   ("TERMINAL_NEWEST_RECORD_PUNCH_UNRECEIVED", mkPolicy 108 false BY_LATCHED
      "Clears by itself once ADD accounts for every listed slot: a complete source reconcile reads it while later records exist, or LIVE capture delivers its punch." NoTier);
   ("TERMINAL_NEWEST_RECORD_RELEASE_HELD", mkPolicy 108 false BY_LATCHED
      "Clears by itself once every listed punch is released or confirmed by a complete source reconcile." NoTier);
   ("USER_DELETION_JOB_INCOMPLETE", mkPolicy 109 false BY_LATCHED
      "Clears when the user deletion job completes." NoTier);
   ("DUPLICATE_USER_CNIC", mkPolicy 109 false BY_LATCHED
      "Clears when the duplicate CNIC is resolved." NoTier);
   ("USER_CNIC_FORMAT_SUSPECT", mkPolicy 109 false BY_LATCHED
      "Clears at the next user snapshot once no active user's name hides a CNIC typo." NoTier);
   ("ORACLE_RECEIPT_CONNECTOR_MISMATCH", mkPolicy 109 false BY_LATCHED
      "Clears when Oracle receipts match this connector." NoTier);
   ("ADMIN_REVOKE_OVERDUE", mkPolicy 109 false BY_LATCHED
      "Clears when the temporary admin is revoked." NoTier)].
Definition UNKNOWN_POLICY : Policy :=
  mkPolicy 110 false BY_LATCHED "No automatic clear condition is known for this code." NoTier.
Definition policy_for (code : string) : Policy := default UNKNOWN_POLICY (assoc code POLICY).

Definition ZKT_LINK : list (string * string) :=
  [("ONLINE", "CONNECTED"); ("RECOVERING", "STABILIZING"); ("SESSION_REFRESH", "MAINTENANCE");
   ("RESTARTING", "MAINTENANCE"); ("BOOTING", "STARTING"); ("SUSPECT", "RECONNECTING"); ("CONNECTING", "RECONNECTING");
   ("DISCOVERING", "RECONNECTING"); ("RETRY_WAIT", "RECONNECTING"); ("OFFLINE", "RECONNECTING"); ("FLAPPING", "FLAPPING")].
Definition HIK_POLL_ERRORS (e : Z) : string :=
  match e with
  | 1 => "HIK_CONFIGURATION" | 2 => "HIK_NETWORK" | 3 => "HIK_AUTH" | 4 => "HIK_HTTP_STATUS"
  | 5 => "HIK_OVERSIZED" | 6 => "HIK_SOURCE_CHANGED" | 7 => "HIK_INVALID_RESPONSE" | 8 => "HIK_STORAGE"
  | _ => "HIK_POLL_ERROR"
  end.

(** ** Settings, connectors and alerts *)
Record Settings := mkSettings {
  device_health_derived_enabled : bool; offline_after_seconds : Z; journal_startup_grace_seconds : Z;
  terminal_disconnected_warning_seconds : Z; terminal_stabilizing_warning_seconds : Z;
  terminal_maintenance_budget_seconds : Z; message_rejection_current_seconds : Z; message_failure_warning_count : Z;
  message_failure_warning_seconds : Z; heartbeat_failure_degraded_seconds : Z; heartbeat_stale_degraded_seconds : Z;
  device_health_latched_led_tier : tier; device_health_latched_led_sources : string }.

Record ZKTDevice := mkZKT {
  connection_state : option string; last_transition_at : option Z; offline_since : option Z; zkt_last_seen_at : option Z;
  capability_profile : pyval }.

Record Connector := mkConnector {
  connected : bool; last_seen_at : option Z; last_disconnect_at : option Z; firmware_family : option string;
  firmware_version : option string; firmware_diagnostics : pyval; firmware_diagnostics_at : option Z;
  boot_id : option string; lifecycle_state : string; last_error_code : option string;
  last_error_message : option string; zkt_device : option ZKTDevice }.

Record DeviceAlert := mkAlert {
  alert_id : Z; code : string; severity : string; alert_message : string; details : pyval;
  first_seen_at : Z; alert_last_seen_at : Z }.

Definition SECOND : Z := 1000000.

(** ** Times and versions *)
Section health.
Context (fromisoformat : string → option Z) (settings : Settings).

(** parse_datetime: [datetime.fromisoformat(value.replace("Z", "+00:00"))] in UTC *)
Definition parse_datetime (s : string) : option Z := fromisoformat (replace_z s).

Definition _age (now : Z) (value : option Z) : option Z := (λ v, now - v) <$> value.

(** [_when]: a text that does not parse is no time. *)
Definition _when (v : pyval) : option Z :=
  match v with PStr s => if bool_decide (s = "") then None else parse_datetime s | _ => None end.

Definition at_most (age : option Z) (seconds : Z) : bool :=
  match age with Some a => a <=? seconds * SECOND | None => false end.
Definition more_than (age : option Z) (seconds : Z) : bool :=
  match age with Some a => seconds * SECOND <? a | None => false end.

Definition connector_fresh (c : Connector) (now : Z) : bool :=
  connected c && at_most (_age now (last_seen_at c)) (offline_after_seconds settings).

Definition latched_led_sources : list string :=
  List.filter (λ s, negb (bool_decide (s = "")))
    (map (λ part, of_chars (strip_bytes part)) (split_byte x2c (chars (device_health_latched_led_sources settings)))).

(** ota.semantic_version: an optional "zone-lite-" and three runs of digits. *)
Definition semantic_version (v : option string) : option (Z * Z * Z) :=
  let s := strip_bytes (chars (default "" v)) in
  let prefix := chars "zone-lite-" in
  let body := if bool_decide (take (length prefix) s = prefix) then drop (length prefix) s else s in
  match map digits_value (split_byte x2e body) with
  | [Some a; Some b; Some c] => Some (a, b, c)
  | _ => None
  end.

Definition non_empty (s : string) : option string := if bool_decide (s = "") then None else Some s.

Definition plain_version (v : option string) : option string :=
  match semantic_version v with
  | Some (a, b, c) => Some (py_str a +:+ "." +:+ py_str b +:+ "." +:+ py_str c)
  | None => non_empty (strip (default "" v))
  end.

Definition version_leb (v w : Z * Z * Z) : bool :=
  let '(a, b, c) := v in let '(x, y, z) := w in
  (a <? x) || ((a =? x) && ((b <? y) || ((b =? y) && (c <=? z)))).

(** [connector.firmware_family or "zkt"] *)
Definition family_of (c : Connector) : string :=
  match firmware_family c with Some f => if bool_decide (f = "") then "zkt" else f | None => "zkt" end.

Definition diagnostics_reporting (c : Connector) : string :=
  if bool_decide (family_of c = "zkt")
     && match semantic_version (firmware_version c) with Some v => version_leb v (2, 5, 2) | None => false end
  then "NOT_REPORTED_BY_FIRMWARE"
  else if truthy (firmware_diagnostics c) then "REPORTED" else "MISSING".

(** In microseconds; the samples are milliseconds. *)
Definition _estimated_uptime (c : Connector) (now : Z) : option Z :=
  match get "sampled_uptime_ms" (firmware_diagnostics c), firmware_diagnostics_at c with
  | PInt sampled, Some at_ => Some (sampled * 1000 + (now - at_))
  | _, _ => None
  end.

(** [datetime.fromtimestamp] refuses years past 9999. *)
Definition _epoch (v : pyval) : option Z :=
  match v with PInt z => if (z <=? 0) || (253402300799 <? z) then None else Some (z * SECOND) | _ => None end.

(** ** The terminal link *)
Record Link := mkLink { link_state : string; raw_state : option string; since : option Z; link_reason : string; link_message : string }.

Definition _minutes (age : Z) : string :=
  let minutes := age / (60 * SECOND) in
  py_str minutes +:+ " minute" +:+ (if minutes =? 1 then "" else "s").

Definition hikvision_live_capture_ready (health : pyval) (now : Z) : bool :=
  eq_str (get "capture_mode" health) "stream" && is_true (get "stream_open" health)
  && is_zero (get "stream_error" health) && is_zero (get "source_storage_failures" health)
  && match _age now (_epoch (get "last_stream_message_epoch" health)) with
     | Some age => (0 <=? age) && (age <=? 90 * SECOND)
     | None => false
     end.

(** [int(s)]: an optional sign and digits. *)
Definition int_text (s : string) : option Z :=
  match strip_bytes (chars s) with
  | x2d :: l => Z.opp <$> digits_value l
  | x2b :: l => digits_value l
  | l => digits_value l
  end.

(** [int(health.get("poll_error") or 0)], 0 when it is not an integer. *)
Definition poll_error (health : pyval) : Z :=
  match get "poll_error" health with
  | PInt z => z
  | PBool true => 1
  | PStr s => default 0 (int_text s)
  | _ => 0
  end.

Definition _hikvision_link (zkt : ZKTDevice) (raw : string) (now : Z) (uptime : option Z) : Link :=
  let health := get "hikvision_health" (capability_profile zkt) in
  let error := poll_error health in
  if bool_decide (raw = "ONLINE") && (error =? 6) && eq_str (get "poll_stage" health) "events"
     && hikvision_live_capture_ready health now then
    mkLink "CONNECTED" (Some raw) (last_transition_at zkt) "HIK_LIVE_CAPTURE"
      "Live Hikvision capture is connected; retained-history verification requires review."
  else if negb (bool_decide (error ∈ [0; 2; 8])) then
    mkLink "ERROR" (Some raw) (last_transition_at zkt) (HIK_POLL_ERRORS error)
      ("The Hikvision terminal check is failing (" +:+ HIK_POLL_ERRORS error +:+ ").")
  else if bool_decide (raw = "ONLINE") && negb (error =? 2) then
    mkLink "CONNECTED" (Some raw) (last_transition_at zkt) "LINK_UP" "The terminal link is up."
  else
    let since := match offline_since zkt with
                 | Some t => Some t
                 | None => match _epoch (get "last_successful_poll_epoch" health) with
                           | Some t => Some t | None => last_transition_at zkt end
                 end in
    let age := _age now since in
    let reason := if error =? 2 then "HIK_NETWORK" else raw in
    if more_than age (terminal_disconnected_warning_seconds settings) then
      mkLink "DISCONNECTED" (Some raw) since reason
        ("The Hikvision terminal has been unreachable for " +:+ _minutes (default 0 age) +:+ ".")
    else if match uptime with Some u => u <? terminal_disconnected_warning_seconds settings * SECOND | None => false end then
      mkLink "STARTING" (Some raw) since "HIK_WAITING" "The connector is waiting for its first successful Hikvision check."
    else mkLink "RECONNECTING" (Some raw) since reason "The connector is reconnecting to the Hikvision terminal.".

Definition underscores_to_spaces (s : string) : string :=
  of_chars (map (λ b, if bool_decide (b = x5f) then x20 else b) (chars s)).

Definition terminal_link (c : Connector) (now : Z) (uptime : option Z) : Link :=
  match zkt_device c with
  | None => mkLink "UNKNOWN" None None "NO_TERMINAL" "No terminal is bound to this connector."
  | Some zkt =>
      let raw := upper (match connection_state zkt with Some s => if bool_decide (s = "") then "UNKNOWN" else s | None => "UNKNOWN" end) in
      if negb (connector_fresh c now) then
        mkLink "UNKNOWN" (Some raw) (last_disconnect_at c) "ESP_DISCONNECTED"
          "The ESP is not connected, so the terminal link is unknown."
      else if bool_decide (family_of c = "hikvision") then
        _hikvision_link zkt raw now (match uptime with Some u => Some u | None => _estimated_uptime c now end)
      else
        let mapped := default "UNKNOWN" (assoc raw ZKT_LINK) in
        let moved := last_transition_at zkt in
        let transition_age := _age now moved in
        if bool_decide (mapped = "CONNECTED") then mkLink "CONNECTED" (Some raw) moved "LINK_UP" "The terminal link is up."
        else if bool_decide (mapped = "STABILIZING") then
          if more_than transition_age (terminal_stabilizing_warning_seconds settings) then
            mkLink "STABILIZING" (Some raw) moved "STABILIZING_STALLED"
              ("The terminal link has been stabilizing for " +:+ _minutes (default 0 transition_age) +:+ ".")
          else mkLink "STABILIZING" (Some raw) moved "STABILIZING" "The terminal link is back and proving it is stable."
        else if bool_decide (mapped = "MAINTENANCE") then
          if negb (more_than transition_age (terminal_maintenance_budget_seconds settings)) then
            mkLink "MAINTENANCE" (Some raw) moved raw "The terminal session is in a planned refresh or protocol restart."
          else mkLink "DISCONNECTED" (Some raw) moved "MAINTENANCE_OVERRAN"
                 ("A planned terminal session " +:+ underscores_to_spaces (lower raw) +:+ " has lasted "
                  +:+ _minutes (default 0 transition_age) +:+ ".")
        else if bool_decide (mapped ∈ ["STARTING"; "RECONNECTING"]) then
          let since := match offline_since zkt with Some t => Some t | None => moved end in
          let age := _age now since in
          if more_than age (terminal_disconnected_warning_seconds settings) then
            mkLink "DISCONNECTED" (Some raw) since raw
              ("The terminal has been unreachable for " +:+ _minutes (default 0 age) +:+ " (" +:+ raw +:+ ").")
          else mkLink mapped (Some raw) since raw
                 (if bool_decide (mapped = "STARTING") then "The connector is starting its terminal session."
                  else "The connector is reconnecting to the terminal (" +:+ raw +:+ ").")
        else if bool_decide (mapped = "FLAPPING") then
          mkLink "FLAPPING" (Some raw) moved "FLAPPING" "The terminal link is unstable; the connector is in protective backoff."
        else mkLink "UNKNOWN" (Some raw) moved raw "The terminal link state was not reported."
  end.

(** ** Diagnostics evidence *)
Definition dict_or_empty (v : pyval) : pyval := match v with PDict d => PDict d | _ => PDict [] end.

Definition diagnostics_starting (ev : pyval) (uptime_seconds : option Z) : bool :=
  match uptime_seconds with
  | None => false
  | Some u =>
      if journal_startup_grace_seconds settings <=? u then false
      else
        match get "phase" (dict_or_empty (get "journal_runtime" ev)) with
        | PStr p => bool_decide (p ∈ STARTUP_PHASES)
        | _ => false
        end
        || (eq_str (get "runtime_profile" ev) "ZKT_JOURNAL_V1" && eq_str (get "delivery_authority" ev) "UNKNOWN")
  end.

Definition soft_owner_not_ready (ev : pyval) : bool :=
  let journal := get "journal_storage" ev in
  is_dict journal && (is_false (get "ready" journal) || is_true (get "checkpoint_recovery_pending" journal)).

(** [value not in (None, "", 0, False)] *)
Definition _reported (v : pyval) : bool := negb (is_none v || eq_str v "" || is_zero v).

Definition positive_int (v : pyval) : bool := match v with PInt z => 0 <? z | _ => false end.

Definition hard_storage_evidence (ev : pyval) : bool :=
  let storage := dict_or_empty (get "storage" ev) in
  let journal := dict_or_empty (get "journal_storage" ev) in
  existsb (λ n, _reported (get n storage)) STORAGE_ERRORS
  || existsb (λ n, positive_int (get n storage)) STORAGE_COUNTERS
  || negb (is_none (get "last_append_result" journal) || eq_str (get "last_append_result" journal) "OK"
           || eq_str (get "last_append_result" journal) "EMPTY")
  || existsb (λ n, _reported (get n journal)) ["last_failure_operation"; "last_filesystem_error"; "last_nvs_error"]
  || eq_str (get "durability" storage) "FULL" || eq_str (get "durability" journal) "FULL".

Definition classify_led_latch (led_state : option string) (ev : pyval) (storage_verified workers_verified : bool)
    (version : option string) : option pyval :=
  if negb (bool_decide (upper (strip (default "" led_state)) = "LOCAL_FAILURE")) || negb (is_dict ev) then None
  else
    let storage := dict_or_empty (get "storage" ev) in
    let source := get "local_failure_source" storage in
    let latch kind := Some (PDict [("kind", PStr kind); ("source", source); ("firmware_version", opt_str (plain_version version))]) in
    if storage_verified && workers_verified then latch "LED_LATCH_STORAGE_VERIFIED"
    else if eq_str (get "durability" storage) "DEGRADED" && truthy source
            && negb (_reported (get "error_code" storage)) && negb (_reported (get "persistence_probe_error" storage))
            && is_zero (get "write_failures" storage) && is_zero (get "read_failures" storage)
            && negb (existsb (λ n, _reported (get n storage))
                 ["persistence_probe_failures"; "persistence_probe_total_failures"; "legacy_read_faults";
                  "legacy_append_faults"; "legacy_retire_faults"; "legacy_error_code"])
            && is_true (get "persistence_verified" storage) && is_true (get "recovery_complete" storage)
            && workers_verified then latch "LED_LATCH_NO_IO_ERRORS"
    else None.

(** ** The rollback-slot residue latch *)
Definition ROLLBACK_SLOT_RESIDUE : string := "OTA_ROLLBACK_SLOT_RESIDUE".
Definition RESIDUE_FIRMWARE_VERSION : string := "2.6.15".
Definition RESIDUE_APPLICATION_SHA256 : string := "832c0c3d8dac6e41d7cd0a9d4fbe4508e4f66982fa5ddeceaca4dc5adcbd80d6".
Definition RESIDUE_LED_SOURCE : string := "zone_lite.c:3196".
Definition RESIDUE_UPGRADE_ERROR : string := "STORAGE_DIRECT_ROLLBACK_IMAGE_UNQUALIFIED".
Record ResidueImage := mkResidueImage {
  application_sha256 : string; source : string; durability : string; remedy_version : option string }.
Definition RESIDUE_IMAGES : list (string * ResidueImage) :=
  [(RESIDUE_FIRMWARE_VERSION, mkResidueImage RESIDUE_APPLICATION_SHA256 RESIDUE_LED_SOURCE "DEGRADED" None);
   ("2.7.8", mkResidueImage "b8d0ca7e20d28d4114cff56fc69676e681a37bf9f7e831a243a65f9a1a972a3e"
      "zone_lite.c:3573" "UNKNOWN" (Some "2.8.1"));
   ("2.8.0", mkResidueImage "21ac81b292b463cf7fa1bf0d6ce364a49493951836ad962a19dcae049f40ed76"
      "zone_lite.c:3875" "UNKNOWN" (Some "2.8.1"))].
Definition RESIDUE_ERROR_FIELDS : list string :=
  ["error_code"; "error_operation"; "persistence_probe_error"; "persistence_probe_operation"; "legacy_error_code";
   "legacy_error_operation"; "legacy_error_queue"].
Definition RESIDUE_HISTORY_DAYS : Z := 14.

(** [RESIDUE_IMAGES.get(version)] *)
Definition residue_image (version : option string) : option ResidueImage := v ← version; assoc v RESIDUE_IMAGES.

Definition rollback_slot_residue_candidate (ev : pyval) (version : option string) : bool :=
  if negb (is_dict ev) || negb (is_dict (get "storage" ev)) then false
  else
    let storage := get "storage" ev in
    let runtime := dict_or_empty (get "ota_runtime" ev) in
    match residue_image (plain_version version) with
    | None => false
    | Some image =>
        eq_str (get "image_sha256" runtime) (application_sha256 image)
        && is_none (get "journal_storage" ev)
        && eq_str (get "local_failure_source" storage) (source image)
        && (is_none (get "local_failure_last_source" storage) || eq_str (get "local_failure_last_source" storage) (source image))
        && eq_str (get "upgrade_error" storage) RESIDUE_UPGRADE_ERROR
        && negb (is_true (get "upgrade_ready" storage))
        && eq_str (get "durability" storage) (durability image)
        && is_true (get "recovery_complete" storage)
        && match get "write_failures" storage with PInt z => z =? 0 | _ => false end
        && match get "read_failures" storage with PInt z => z =? 0 | _ => false end
        && forallb (λ n, is_none (get n storage) || is_zero (get n storage)) STORAGE_COUNTERS
        && negb (existsb (λ n, _reported (get n storage)) RESIDUE_ERROR_FIELDS)
        && (is_none (get "fault_class" storage) || eq_str (get "fault_class" storage) "NONE")
    end.

(** [{name: storage[name] for name in names if test(storage.get(name))}] *)
Definition pick (test : pyval → bool) (storage : pyval) (names : list string) : list (string * pyval) :=
  omap (λ n, if test (get n storage) then Some (n, get n storage) else None) names.

Definition storage_io_fault (storage : pyval) : option pyval :=
  let faults := pick positive_int storage STORAGE_COUNTERS in
  let faults := fold_left (λ d kv, assoc_set kv.1 kv.2 d) (pick _reported storage RESIDUE_ERROR_FIELDS) faults in
  let faults := if is_none (get "fault_class" storage) || eq_str (get "fault_class" storage) "NONE" then faults
                else assoc_set "fault_class" (get "fault_class" storage) faults in
  if bool_decide (length faults = 0%nat) then None else Some (PDict faults).

Definition rollback_slot_residue_latch (record history : pyval) (version : option string) : option pyval :=
  let v := plain_version version in
  match residue_image v with
  | None => None
  | Some image =>
      if negb (truthy record) || negb (truthy history) || negb (truthy (get "clean" history)) then None
      else Some (PDict ([("kind", PStr ROLLBACK_SLOT_RESIDUE); ("source", PStr (source image));
                         ("firmware_version", opt_str v); ("upgrade_error", PStr RESIDUE_UPGRADE_ERROR)]
             ++ match remedy_version image with
                | Some m => if bool_decide (m = "") then [] else [("remedy_version", PStr m)] | None => [] end
             ++ [("residue", record);
                 ("history", PDict (map (λ k, (k, get k history)) ["days"; "boots_checked"; "boots_without_storage_counters"]))]))
  end.

Definition _residue (d : pyval) : bool := eq_str (get "kind" (get "latch" d)) ROLLBACK_SLOT_RESIDUE.

(** ** Rejections *)

(** One rejection entry: its dict, and [_when] of its first and last times (a row
    from before per-type tracking carries its own timestamps instead). *)
Record entry := mkEntry { entry_dict : pyval; first_at : option Z; last_at : option Z }.

Definition entry_of (d : pyval) : entry := mkEntry d (_when (get "first_at" d)) (_when (get "last_at" d)).

(** [str(x or default)] *)
Definition text_or (v : pyval) (d : string) : string := if truthy v then py_str_val v else d.

Definition _rejection_entries (row : DeviceAlert) : list (string * entry) :=
  match get "types" (details row) with
  | PDict ((_ :: _) as types) => omap (λ kv, if is_dict kv.2 then Some (kv.1, entry_of kv.2) else None) types
  | _ => [(text_or (get "message_type" (details row)) "unknown",
           mkEntry (PDict [("category", get "error_category" (details row)); ("count", PInt 1)])
             (Some (first_seen_at row)) (Some (alert_last_seen_at row)))]
  end.

Definition plural (n : Z) (one many : string) : string := if n =? 1 then one else many.

Definition _unheld_summary (e : pyval) : string :=
  let '(pending, untracked) := unheld_evidence e in
  let conflicts := match get "pending" e with
                   | PList l => zlen (List.filter (λ item, is_dict item && operator_only item) l) | _ => 0 end in
  let note := if conflicts =? 1 then " (1 is an identity conflict)"
              else if negb (conflicts =? 0) then " (" +:+ py_str conflicts +:+ " are identity conflicts)" else "" in
  let parts := (if negb (pending =? 0) then
                  [py_str pending +:+ " refused record" +:+ plural pending "" "s" +:+ " not yet held" +:+ note] else [])
               ++ (if negb (untracked =? 0) then
                     [py_str untracked +:+ " unmatched refusal" +:+ plural untracked "" "s"] else []) in
  let parts := match parts with
               | [] => []
               | _ => if custody_only e then parts ++ ["no HIL or factory hold since a later acceptance"] else parts
               end in
  match parts with [] => "" | _ => "; " +:+ join_str ", " parts end.

Definition _entry_current (now : Z) (e : entry) : bool :=
  if custody_only (entry_dict e) then false
  else at_most (_age now (last_at e)) (message_rejection_current_seconds settings).

Definition _rejection_gating (row : DeviceAlert) (p : Policy) : bool :=
  if negb (gating p) || negb (bool_decide (code row ∈ ["DEVICE_MESSAGE_REJECTED"; "ADD_MESSAGE_PROCESSING_FAILED"])) then gating p
  else
    let entries := _rejection_entries row in
    negb (negb (bool_decide (length entries = 0%nat)) && forallb (λ e, custody_only (entry_dict e.2)) entries).

(** ** Currency *)
Definition _refreshed_by_last_heartbeat (row : DeviceAlert) (c : Connector) : bool :=
  let marker := match (zkt ← zkt_device c; zkt_last_seen_at zkt) with Some t => Some t | None => last_seen_at c end in
  match marker with None => true | Some t => t <=? alert_last_seen_at row end.

Definition alert_currency (row : DeviceAlert) (c : Connector) (now : Z) : currency :=
  match evidence (policy_for (code row)) with
  | BY_DIAGNOSTICS =>
      let binding := get "binding" (details row) in
      if is_none binding then CURRENT
      else if eq_str binding "INFERRED_PREVIOUS"
              || negb match get "boot_id" (details row), boot_id c with
                      | PStr b, Some b' => bool_decide (b = b') | PNone, None => true | _, _ => false end
      then PREVIOUS_BOOT
      else if _refreshed_by_last_heartbeat row c then CURRENT else HELD
  | BY_LED => if truthy (get "led_clear_since" (details row)) then HELD else CURRENT
  | BY_POSITIVE => CURRENT
  | BY_REJECTION => if existsb (λ e, _entry_current now e.2) (_rejection_entries row) then CURRENT else LATCHED
  | BY_TRANSPORT => if connector_fresh c now then LATCHED else CURRENT
  | BY_LATCHED => LATCHED
  end.

(** ** Tiers *)
Definition _latched_led_tier (d : pyval) : option tier :=
  let latch := get "latch" d in
  if negb (eq_str (get "kind" latch) "LED_LATCH_NO_IO_ERRORS") then None
  else
    let version := match plain_version (as_str (get "firmware_version" latch)) with Some v => v | None => "None" end in
    if bool_decide (version +:+ ":" +:+ py_str_val (get "source" latch) ∈ latched_led_sources)
    then Some (device_health_latched_led_tier settings) else Some DEGRADED.

Definition or_tier (o : option tier) (t : tier) : option tier := Some (default t o).

(** [ADD_MESSAGE_PROCESSING_FAILED]: an entry that failed often enough for long enough. *)
Definition keeps_failing (e : entry) : bool :=
  (message_failure_warning_count settings <=? int_or_0 (get "count" (entry_dict e)))
  && match first_at e, last_at e with
     | Some f, Some l => message_failure_warning_seconds settings * SECOND <=? l - f
     | _, _ => false
     end.

Definition _rule_tier (row : DeviceAlert) (c : Connector) (cur : currency) (now : Z) (link : Link) : option tier :=
  let d := details row in
  let has s := bool_decide (code row = s) in
  if has "ESP_DURABILITY_FAULT" then
    if bool_decide (cur = PREVIOUS_BOOT) then
      Some (if bool_decide (diagnostics_reporting c = "NOT_REPORTED_BY_FIRMWARE") then WARNING else DEGRADED)
    else if _residue d then Some DEGRADED
    else or_tier (_latched_led_tier d) DEGRADED
  else if has "ESP_DELIVERY_WORKER_FAULT" then Some (if bool_decide (cur = PREVIOUS_BOOT) then WARNING else DEGRADED)
  else if has "ESP_LOCAL_FAILURE" then
    if eq_str (get "kind" (get "latch" d)) "LED_LATCH_STORAGE_VERIFIED" then Some WARNING
    else or_tier (_latched_led_tier d) (if bool_decide (cur = HELD) then WARNING else DEGRADED)
  else if has "HIK_CAPTURE_UNHEALTHY" then
    let reason := get "reason" d in
    if eq_str reason "HIK_STORAGE" then Some DEGRADED
    else if is_none reason || eq_str reason "HIK_NETWORK" || eq_str reason "HIK_WAITING" then
      if bool_decide (link_state link = "DISCONNECTED") then Some WARNING else None
    else Some WARNING
  else
    let entries := _rejection_entries row in
    if has "DEVICE_MESSAGE_REJECTED" then
      if existsb (λ e, bool_decide (e.1 ∈ CUSTODY_MESSAGE_TYPES) && _entry_current now e.2) entries
      then Some DEGRADED else Some WARNING
    else if has "ADD_MESSAGE_PROCESSING_FAILED" then
      if match assoc "heartbeat" entries with
         | Some e => _entry_current now e
             && match _age now (first_at e) with Some a => heartbeat_failure_degraded_seconds settings * SECOND <=? a | None => false end
         | None => false
         end then Some DEGRADED
      else if existsb (λ e, keeps_failing e.2) entries then Some WARNING else None
    else Some DEGRADED.

Definition _error_code (row : DeviceAlert) : string :=
  let d := details row in
  let has s := bool_decide (code row = s) in
  if has "HIK_CAPTURE_UNHEALTHY" then prefix_chars 120 (text_or (get "reason" d) (code row))
  else if has "OTA_DEVICE_ROLLED_BACK" then
    if eq_str (get "classification" d) "TARGET_BOOT_INTERRUPTED" then "OTA_TARGET_BOOT_INTERRUPTED"
    else "OTA_PREVIOUS_FIRMWARE_OBSERVED"
  else if (has "ESP_DURABILITY_FAULT" || has "ESP_LOCAL_FAILURE") && _residue d then ROLLBACK_SLOT_RESIDUE
  else if has "OTA_DEVICE_REPORTED_FAILURE" && truthy (get "error_code" d) then
    prefix_chars 120 ("OTA_" +:+ py_str_val (get "error_code" d))
  else code row.

(** ** Reasons *)
Record OperatorPolicy := mkOperator { resolvable : bool; refusal_code : option string; refusal : option string }.
Definition refuse (c t : string) : OperatorPolicy := mkOperator false (Some c) (Some t).
Definition may_resolve : OperatorPolicy := mkOperator true None None.

Record Reason := mkReason {
  r_code : string; r_error_code : option string; r_tier : option tier; r_currency : currency; r_gating : bool;
  r_severity : option string; r_message : string; r_since : option Z; r_last_seen_at : option Z;
  r_clear_condition : string; r_priority : Z; r_alert : option DeviceAlert; r_operator : OperatorPolicy }.

(** Reason.alert_id *)
Definition r_alert_id (r : Reason) : option Z := alert_id <$> r_alert r.

Definition operator_policy (c : string) (alert : option DeviceAlert) (cur : currency) (duplicate_claimed : option bool) : OperatorPolicy :=
  match alert with
  | None => refuse "DERIVED_REASON" "Derived from live state; it clears on its own."
  | Some _ =>
      if bool_decide (c ∈ WORKFLOW_OWNED_CODES) then refuse "ALERT_WORKFLOW_OWNED" "Its own review workflow resolves this alert."
      else if bool_decide (assoc c POLICY = None) then
        refuse "ALERT_WORKFLOW_OWNED" "This alert code has no reviewed operator resolution."
      else if bool_decide (c = "ESP_PRESERVATION_UNVERIFIED") then
        refuse "ALERT_CONDITION_CURRENT" "Preservation stays unverified until firmware that reports storage verifies it."
      else if bool_decide (c = "QUARANTINED_DUPLICATE_SERIAL") then
        if bool_decide (duplicate_claimed = Some false) then may_resolve
        else refuse "ALERT_CONDITION_CURRENT" "Another connector may still claim this terminal serial."
      else if bool_decide (cur = CURRENT) then refuse "ALERT_CONDITION_CURRENT" "The latest evidence still asserts this condition."
      else if bool_decide (cur = HELD) && bool_decide (c ∈ DIAGNOSTICS_CODES) then
        refuse "ALERT_CONDITION_CURRENT" "Held on this boot until the device reports verified evidence."
      else may_resolve
  end.

(** alert_reason, without the text of [_evidence_summary]. *)
Definition alert_reason (row : DeviceAlert) (c : Connector) (now : Z) (link : Link) : Reason :=
  let p := policy_for (code row) in
  let cur := alert_currency row c now in
  let t := match policy_tier_of p with
           | RULE => _rule_tier row c cur now link
           | Fixed t => Some t
           | NoTier => None
           end in
  mkReason (code row) (Some (_error_code row)) t cur (_rejection_gating row p) (Some (severity row)) (alert_message row)
    (match _when (get "boot_first_seen_at" (details row)) with Some t => Some t | None => Some (first_seen_at row) end)
    (Some (alert_last_seen_at row)) (clear_condition p) (priority p) (Some row)
    (operator_policy (code row) (Some row) cur None).

Definition _derived (c message : string) (since : option Z) : Reason :=
  let p := policy_for c in
  mkReason c None (match policy_tier_of p with Fixed t => Some t | _ => None end) CURRENT (gating p) None message since None
    (clear_condition p) (priority p) None (operator_policy c None CURRENT None).

Definition derived_reasons (c : Connector) (now : Z) (link : Link) : list Reason :=
  if negb (connector_fresh c now) then []
  else
    let seen := (zkt ← zkt_device c; zkt_last_seen_at zkt) in
    let stale := _age now seen in
    (if more_than stale (heartbeat_stale_degraded_seconds settings) then
       [_derived "HEARTBEAT_STALE"
          ("The ESP is connected, but ADD has not accepted a heartbeat for " +:+ py_str (default 0 stale / SECOND) +:+ " s.") seen]
     else [])
    ++ (if bool_decide (link_state link = "DISCONNECTED") then
          [_derived "TERMINAL_DISCONNECTED" (link_message link) (since link)]
        else if bool_decide (link_reason link = "STABILIZING_STALLED") then
          [_derived "TERMINAL_STABILIZING_STALLED" (link_message link) (since link)]
        else []).

(** ** The derivation *)

(** [_sort_key]: a missing time sorts last. *)
Definition _sort_key (r : Reason) : list (option Z) :=
  [Some (if bool_decide (r_code r = "QUARANTINED_DUPLICATE_SERIAL") then 0 else 1); Some (TIER_RANK (r_tier r));
   Some (r_priority r); r_since r; Some (default 0 (r_alert_id r))].

Fixpoint keys_leb (a b : list (option Z)) : bool :=
  match a, b with
  | [], _ => true
  | _, [] => false
  | x :: a', y :: b' =>
      match x, y with
      | Some p, Some q => (p <? q) || ((p =? q) && keys_leb a' b')
      | Some _, None => true
      | None, Some _ => false
      | None, None => keys_leb a' b'
      end
  end.
Definition reason_leb (r s : Reason) : bool := keys_leb (_sort_key r) (_sort_key s).

Record Health := mkHealth {
  h_mode : string; h_source : string; h_evaluated_at : Z; h_tier : string; h_lifecycle_state : string;
  h_derived_lifecycle : string; h_last_error_code : option string; h_last_error_message : option string;
  h_reasons : list Reason; h_other_active_alerts : list Reason; h_terminal_link : Link }.

Definition mode : string := if device_health_derived_enabled settings then "ENFORCED" else "SHADOW".

Definition derive_health (c : Connector) (alerts : list DeviceAlert) (now : Z) (src : string) (uptime : option Z) : Health :=
  let link := terminal_link c now uptime in
  let all := map (λ row, alert_reason row c now link) alerts in
  let has_tier r := match r_tier r with Some _ => true | None => false end in
  let reasons := List.filter has_tier all in
  let others := List.filter (λ r, negb (has_tier r)) all in
  let stored := lifecycle_state c in
  let held_offline := negb (bool_decide (src = "HEARTBEAT")) && bool_decide (stored = "OFFLINE") in
  let reasons := sort_with reason_leb (reasons ++ (if held_offline then [] else derived_reasons c now link)) in
  let others := sort_with reason_leb others in
  let tier :=
    if held_offline || negb (connector_fresh c now) then "OFFLINE"
    else if existsb (λ r, bool_decide (r_tier r = Some DEGRADED)) reasons then "DEGRADED"
    else if negb (bool_decide (length reasons = 0%nat)) then "ONLINE_WITH_WARNINGS"
    else "ONLINE" in
  let lifecycle :=
    if existsb (λ r, bool_decide (r_code r = "QUARANTINED_DUPLICATE_SERIAL")) reasons then "QUARANTINED_DUPLICATE_SERIAL"
    else if negb (bool_decide (src = "HEARTBEAT")) && bool_decide (stored = "ONBOARDING") then stored
    else tier in
  let error := List.find r_gating reasons in
  mkHealth mode src now tier stored lifecycle (e ← error; r_error_code e) (r_message <$> error) reasons others link.

(** apply_device_health on the OPEN alerts of the connector: the evaluation and
    the connector after the write. *)
Definition apply_device_health (c : Connector) (alerts : list DeviceAlert) (src : string) (now : Z) (uptime : option Z)
    : Health * Connector :=
  let h := derive_health c alerts now src uptime in
  (h, if bool_decide (h_mode h = "ENFORCED") then
        mkConnector (connected c) (last_seen_at c) (last_disconnect_at c) (firmware_family c) (firmware_version c)
          (firmware_diagnostics c) (firmware_diagnostics_at c) (boot_id c) (h_derived_lifecycle h) (h_last_error_code h)
          (h_last_error_message h) (zkt_device c)
      else c).

Definition tier_text (t : option tier) : string :=
  match t with Some DEGRADED => "DEGRADED" | Some WARNING => "WARNING" | None => "None" end.
Definition currency_text (c : currency) : string :=
  match c with CURRENT => "CURRENT" | HELD => "HELD" | PREVIOUS_BOOT => "PREVIOUS_BOOT" | LATCHED => "LATCHED" end.

Definition health_telemetry (h : Health) (c : Connector) : pyval :=
  PDict [("v", PInt 1); ("mode", PStr (h_mode h)); ("lifecycle", PStr (lifecycle_state c));
         ("derived_lifecycle", PStr (h_derived_lifecycle h)); ("tier", PStr (h_tier h));
         ("reasons", PList (map (λ r, PStr (r_code r +:+ ":" +:+ tier_text (r_tier r) +:+ ":" +:+ currency_text (r_currency r)))
                              (take 12 (h_reasons h))));
         ("terminal", PStr (link_state (h_terminal_link h)))].

Definition truthy_code (o : option string) : bool := match o with Some s => negb (bool_decide (s = "")) | None => false end.

Definition gate_effect (stored derived : option string) : string :=
  if truthy_code stored && negb (truthy_code derived) then "HOLD_LIFTED"
  else if truthy_code derived && negb (truthy_code stored) then "HOLD_ADDED"
  else if negb (bool_decide (stored = derived)) then "HOLD_CODE_CHANGED" else "UNCHANGED".
End health.

(** ** Order of the sort keys *)
Lemma keys_leb_total a b : length a = length b → keys_leb a b = true ∨ keys_leb b a = true.
Proof.
  revert b. induction a as [|x a IH]; intros [|y b] Hl; simpl in *; try done; [by left|].
  injection Hl as Hl. destruct x as [p|], y as [q|]; auto.
  destruct (Z.lt_trichotomy p q) as [H|[->|H]].
  - left. by rewrite (proj2 (Z.ltb_lt _ _) H).
  - rewrite Z.ltb_irrefl, Z.eqb_refl. simpl. auto.
  - right. by rewrite (proj2 (Z.ltb_lt _ _) H).
Qed.

Lemma keys_leb_trans a b c : keys_leb a b = true → keys_leb b c = true → keys_leb a c = true.
Proof.
  revert b c. induction a as [|x a IH]; intros [|y b] [|z c]; simpl; try done.
  destruct x as [p|], y as [q|], z as [r|]; try done; [|by eauto].
  rewrite !orb_true_iff, !andb_true_iff, !Z.ltb_lt, !Z.eqb_eq.
  intros [?|[? ?]] [?|[? ?]]; [left; lia..|]. right. split; [lia|]. by eapply IH.
Qed.

Lemma keys_leb_antisym a b : keys_leb a b = true → keys_leb b a = true → a = b.
Proof.
  revert b. induction a as [|x a IH]; intros [|y b]; simpl; try done.
  destruct x as [p|], y as [q|]; try done; [|intros; f_equal; auto].
  rewrite !orb_true_iff, !andb_true_iff, !Z.ltb_lt, !Z.eqb_eq.
  intros [?|[? ?]] [?|[? ?]]; try lia. f_equal; [congruence|auto].
Qed.

Lemma reason_leb_total r s : reason_leb r s = true ∨ reason_leb s r = true.
Proof. by apply keys_leb_total. Qed.
Lemma reason_leb_trans r s t : reason_leb r s = true → reason_leb s t = true → reason_leb r t = true.
Proof. apply keys_leb_trans. Qed.
#[export] Hint Resolve reason_leb_total reason_leb_trans : dev.

Section derivation.
Context (iso : string → option Z) (cfg : Settings).

Definition has_tier (r : Reason) : bool := match r_tier r with Some _ => true | None => false end.
Definition held_offline (c : Connector) (src : string) : bool :=
  negb (bool_decide (src = "HEARTBEAT")) && bool_decide (lifecycle_state c = "OFFLINE").

(** The reasons of an evaluation, before sorting. *)
Definition raw_reasons (c : Connector) (alerts : list DeviceAlert) (now : Z) (src : string) (up : option Z) : list Reason :=
  let link := terminal_link cfg c now up in
  List.filter has_tier (map (λ row, alert_reason iso cfg row c now link) alerts)
  ++ (if held_offline c src then [] else derived_reasons cfg c now link).

Lemma derive_reasons c alerts now src up :
  h_reasons (derive_health iso cfg c alerts now src up) = sort_with reason_leb (raw_reasons c alerts now src up).
Proof. done. Qed.

Lemma alert_reason_id row c now link : r_alert_id (alert_reason iso cfg row c now link) = Some (alert_id row).
Proof. done. Qed.

Lemma derived_reasons_shape c now link r :
  r ∈ derived_reasons cfg c now link →
  r_gating r = false ∧ r_alert r = None ∧ r_error_code r = None ∧ r_priority r ∈ [45; 85; 86] ∧
  (r_tier r = Some DEGRADED → more_than (_age now (zkt ← zkt_device c; zkt_last_seen_at zkt)) (heartbeat_stale_degraded_seconds cfg) = true).
Proof.
  unfold derived_reasons. destruct (negb (connector_fresh cfg c now)); [by intros ?%not_elem_of_nil|].
  rewrite elem_of_app. intros [H|H].
  - destruct (more_than _ _) eqn:E; [|by apply not_elem_of_nil in H]. apply list_elem_of_singleton in H as ->.
    split_and!; try done. by left.
  - repeat case_bool_decide; try (by apply not_elem_of_nil in H); apply list_elem_of_singleton in H as ->;
      (split_and!; [done|done|done|set_solver|done]).
Qed.

Lemma derived_reasons_unique c now link r s :
  r ∈ derived_reasons cfg c now link → s ∈ derived_reasons cfg c now link → r_priority r = r_priority s → r = s.
Proof.
  unfold derived_reasons. destruct (negb (connector_fresh cfg c now)); [by intros ?%not_elem_of_nil|].
  destruct (more_than _ _), (bool_decide (link_state link = "DISCONNECTED")),
    (bool_decide (link_reason link = "STABILIZING_STALLED"));
  cbn [app]; rewrite ?elem_of_cons, ?elem_of_nil; intros Hr Hs Hp; destruct_or?; subst; done.
Qed.

Lemma key_facts r s :
  reason_leb r s = true → reason_leb s r = true →
  r_priority r = r_priority s ∧ default 0 (r_alert_id r) = default 0 (r_alert_id s) ∧ r_tier r = r_tier s.
Proof.
  intros H1 H2. pose proof (keys_leb_antisym _ _ H1 H2) as H. unfold _sort_key in H. simplify_eq. split_and!; try done.
  destruct (r_tier r) as [[]|], (r_tier s) as [[]|]; done.
Qed.

(** Two reasons of one evaluation with the same sort key are the same reason. *)
Lemma raw_reasons_unique c alerts now src up r s :
  NoDup (map alert_id alerts) → Forall (λ a, 0 < alert_id a) alerts →
  r ∈ raw_reasons c alerts now src up → s ∈ raw_reasons c alerts now src up →
  reason_leb r s = true → reason_leb s r = true → r = s.
Proof.
  intros Hnd Hpos Hr Hs H1 H2. destruct (key_facts _ _ H1 H2) as (Hp & Hid & _).
  assert (Hcase : ∀ q, q ∈ raw_reasons c alerts now src up →
    (∃ a, a ∈ alerts ∧ q = alert_reason iso cfg a c now (terminal_link cfg c now up)) ∨
    (q ∈ derived_reasons cfg c now (terminal_link cfg c now up))).
  { intros q. unfold raw_reasons. rewrite elem_of_app. intros [H|H]; [left|right].
    - apply list_elem_of_In, filter_In in H as [H _]. apply list_elem_of_In, list_elem_of_fmap in H as (a & -> & ?). eauto.
    - by destruct (held_offline c src); [apply not_elem_of_nil in H|]. }
  rewrite Forall_forall in Hpos.
  destruct (Hcase r Hr) as [(a & Ha & ->)|Hdr], (Hcase s Hs) as [(b & Hb & ->)|Hds].
  - rewrite !alert_reason_id in Hid. simpl in Hid. by rewrite (NoDup_map_inj alert_id alerts Hnd a b Ha Hb Hid).
  - exfalso. rewrite alert_reason_id in Hid. unfold r_alert_id in Hid.
    rewrite (proj1 (proj2 (derived_reasons_shape _ _ _ _ Hds))) in Hid. simpl in Hid. specialize (Hpos a Ha). lia.
  - exfalso. rewrite alert_reason_id in Hid. unfold r_alert_id in Hid.
    rewrite (proj1 (proj2 (derived_reasons_shape _ _ _ _ Hdr))) in Hid. simpl in Hid. specialize (Hpos b Hb). lia.
  - by eapply derived_reasons_unique.
Qed.

(** The alert behind every gating reason. *)
Lemma gating_reason_alert c alerts now src up r :
  r ∈ raw_reasons c alerts now src up → r_gating r = true →
  ∃ a, a ∈ alerts ∧ r = alert_reason iso cfg a c now (terminal_link cfg c now up) ∧ has_tier r = true.
Proof.
  unfold raw_reasons. rewrite elem_of_app. intros [H|H] Hg.
  - apply list_elem_of_In, filter_In in H as [H Ht]. apply list_elem_of_In, list_elem_of_fmap in H as (a & -> & ?). eauto.
  - destruct (held_offline c src); [by apply not_elem_of_nil in H|].
    apply derived_reasons_shape in H as [H _]. congruence.
Qed.

Lemma alert_reason_raw c alerts now src up a :
  a ∈ alerts → has_tier (alert_reason iso cfg a c now (terminal_link cfg c now up)) = true →
  alert_reason iso cfg a c now (terminal_link cfg c now up) ∈ raw_reasons c alerts now src up.
Proof.
  intros Ha Ht. unfold raw_reasons. apply elem_of_app. left. apply list_elem_of_In, filter_In. split; [|done].
  by apply list_elem_of_In, (list_elem_of_fmap_2 (λ row, alert_reason iso cfg row c now (terminal_link cfg c now up))).
Qed.

Lemma elem_reasons c alerts now src up r :
  r ∈ h_reasons (derive_health iso cfg c alerts now src up) ↔ r ∈ raw_reasons c alerts now src up.
Proof. rewrite derive_reasons. by rewrite sort_with_perm. Qed.

Lemma alert_reasons_unique c alerts now link r s :
  NoDup (map alert_id alerts) → r ∈ map (λ row, alert_reason iso cfg row c now link) alerts →
  s ∈ map (λ row, alert_reason iso cfg row c now link) alerts → reason_leb r s = true → reason_leb s r = true → r = s.
Proof.
  intros Hnd (a & -> & Ha)%list_elem_of_fmap (b & -> & Hb)%list_elem_of_fmap H1 H2.
  destruct (key_facts _ _ H1 H2) as (_ & Hid & _). rewrite !alert_reason_id in Hid. simpl in Hid.
  by rewrite (NoDup_map_inj alert_id alerts Hnd a b Ha Hb Hid).
Qed.

(** The evaluation does not depend on the order in which the database returns
    the OPEN alerts: with distinct positive ids, any permutation gives the same
    lifecycle, device error, reasons and other alerts. *)
Theorem derive_health_order_independent c alerts alerts' now src up :
  NoDup (map alert_id alerts) → Forall (λ a, 0 < alert_id a) alerts → alerts ≡ₚ alerts' →
  derive_health iso cfg c alerts now src up = derive_health iso cfg c alerts' now src up.
Proof.
  intros Hnd Hpos Hp.
  assert (Hr : sort_with reason_leb (raw_reasons c alerts now src up) = sort_with reason_leb (raw_reasons c alerts' now src up)).
  { apply sort_with_unique; [auto with dev|eauto with dev|intros; by eapply raw_reasons_unique|].
    unfold raw_reasons. by rewrite (filter_perm _ _ _ (fmap_Permutation _ _ _ Hp)). }
  assert (Ho : ∀ link, sort_with reason_leb (List.filter (λ r, negb (has_tier r)) (map (λ row, alert_reason iso cfg row c now link) alerts))
    = sort_with reason_leb (List.filter (λ r, negb (has_tier r)) (map (λ row, alert_reason iso cfg row c now link) alerts'))).
  { intros link. apply sort_with_unique; [auto with dev|eauto with dev| |by apply filter_perm, fmap_Permutation].
    intros r s [Hr1 _]%list_elem_of_In%filter_In [Hs1 _]%list_elem_of_In%filter_In.
    apply list_elem_of_In in Hr1, Hs1. by eapply alert_reasons_unique. }
  unfold derive_health. unfold raw_reasons, held_offline, has_tier in Hr. rewrite Hr.
  unfold has_tier in Ho. by rewrite Ho.
Qed.

(** Whether an OPEN alert holds HIL and factory work: it gates and has a tier. *)
Definition holds_work (c : Connector) (now : Z) (up : option Z) (a : DeviceAlert) : bool :=
  let r := alert_reason iso cfg a c now (terminal_link cfg c now up) in r_gating r && has_tier r.

Lemma no_hold_iff c alerts now src up :
  h_last_error_code (derive_health iso cfg c alerts now src up) = None ↔ ∀ a, a ∈ alerts → holds_work c now up a = false.
Proof.
  change (h_last_error_code _) with
    (e ← List.find r_gating (h_reasons (derive_health iso cfg c alerts now src up)); r_error_code e).
  destruct (List.find _ _) as [r|] eqn:E; simpl; split.
  - apply find_some in E as [Hin%list_elem_of_In Hg]. rewrite elem_reasons in Hin.
    by destruct (gating_reason_alert _ _ _ _ _ _ Hin Hg) as (a & Ha & -> & Ht).
  - apply find_some in E as [Hin%list_elem_of_In Hg]. rewrite elem_reasons in Hin.
    destruct (gating_reason_alert _ _ _ _ _ _ Hin Hg) as (a & Ha & -> & Ht). intros H.
    specialize (H a Ha). unfold holds_work in H. by rewrite Hg, Ht in H.
  - intros _ a Ha. destruct (holds_work c now up a) eqn:Eh; [exfalso|done]. apply andb_true_iff in Eh as [Hg Ht].
    eapply find_none in E; [rewrite Hg in E; done|]. apply list_elem_of_In, elem_reasons. by apply alert_reason_raw.
  - done.
Qed.

(** The device error is exactly the most urgent gating alert. When the
    evaluation reports a device error, it is the error code of an OPEN alert that
    gates and has a health tier, and no other such alert sorts before it; when it
    reports none, no OPEN alert with a health tier gates. *)
Theorem device_error_backed c alerts now src up :
  let reason a := alert_reason iso cfg a c now (terminal_link cfg c now up) in
  match h_last_error_code (derive_health iso cfg c alerts now src up) with
  | Some e => ∃ a, a ∈ alerts ∧ holds_work c now up a = true ∧ e = _error_code a ∧
      ∀ b, b ∈ alerts → holds_work c now up b = true → reason_leb (reason a) (reason b) = true
  | None => ∀ a, a ∈ alerts → holds_work c now up a = false
  end.
Proof.
  intros reason. destruct (h_last_error_code _) as [e|] eqn:Ee; [|exact (proj1 (no_hold_iff _ _ _ _ _) Ee)].
  change (h_last_error_code _) with
    (e ← List.find r_gating (h_reasons (derive_health iso cfg c alerts now src up)); r_error_code e) in Ee.
  rewrite derive_reasons in Ee. destruct (List.find _ _) as [r|] eqn:E; simpl in Ee; [|done].
  apply (find_sorted_least (λ x y, reason_leb x y = true)) in E as (Hg & Hin & Hleast).
  - rewrite sort_with_perm in Hin. destruct (gating_reason_alert _ _ _ _ _ _ Hin Hg) as (a & Ha & -> & Ht).
    exists a. split_and!; [done|by apply andb_true_iff|by injection Ee|]. intros b Hb [Hbg Hbt]%andb_true_iff.
    apply Hleast; [|done]. rewrite sort_with_perm. by apply alert_reason_raw.
  - intros y. by destruct (reason_leb_total y y).
  - apply sort_with_sorted; eauto with dev.
Qed.

(** How bad a tier is. *)
Definition tier_level (t : string) : Z :=
  if bool_decide (t = "OFFLINE") then 3 else if bool_decide (t = "DEGRADED") then 2
  else if bool_decide (t = "ONLINE_WITH_WARNINGS") then 1 else 0.

Lemma derive_tier_level c alerts now src up :
  tier_level (h_tier (derive_health iso cfg c alerts now src up)) =
  if held_offline c src || negb (connector_fresh cfg c now) then 3
  else if existsb (λ r, bool_decide (r_tier r = Some DEGRADED)) (raw_reasons c alerts now src up) then 2
  else if bool_decide (raw_reasons c alerts now src up = []) then 0 else 1.
Proof.
  unfold derive_health. cbn [h_tier]. fold has_tier.
  change (negb (bool_decide (src = "HEARTBEAT")) && bool_decide (lifecycle_state c = "OFFLINE")) with (held_offline c src).
  destruct (held_offline c src || negb (connector_fresh cfg c now)); [done|].
  match goal with |- context [sort_with reason_leb ?l] => change l with (raw_reasons c alerts now src up) end.
  rewrite (existsb_perm _ _ _ (sort_with_perm _ _)).
  rewrite (Permutation_length (sort_with_perm reason_leb (raw_reasons c alerts now src up))).
  destruct (existsb _ _); [done|]. by destruct (raw_reasons c alerts now src up).
Qed.

Lemma raw_reasons_mono c alerts alerts' now src up :
  (∀ a, a ∈ alerts → a ∈ alerts') → ∀ r, r ∈ raw_reasons c alerts now src up → r ∈ raw_reasons c alerts' now src up.
Proof.
  intros Hsub r. unfold raw_reasons. rewrite !elem_of_app. intros [H|H]; [left|by right].
  apply list_elem_of_In, filter_In in H as [H Ht]. apply list_elem_of_In, filter_In. split; [|done].
  apply list_elem_of_In, list_elem_of_fmap in H as (a & -> & Ha).
  by apply list_elem_of_In, (list_elem_of_fmap_2 (λ row, alert_reason iso cfg row c now _)), Hsub.
Qed.

(** Opening an alert never makes a device look healthier: with more OPEN
    alerts the tier is at least as bad, and a hold on HIL and factory work (a
    device error) stays a hold. *)
Theorem more_alerts_never_healthier c alerts alerts' now src up :
  (∀ a, a ∈ alerts → a ∈ alerts') →
  let h := derive_health iso cfg c alerts now src up in
  let h' := derive_health iso cfg c alerts' now src up in
  tier_level (h_tier h) <= tier_level (h_tier h') ∧ (h_last_error_code h' = None → h_last_error_code h = None).
Proof.
  intros Hsub h h'. split.
  - unfold h, h'. rewrite !derive_tier_level. destruct (_ || _); [done|]. pose proof (raw_reasons_mono c _ _ now src up Hsub) as Hm.
    destruct (existsb _ (raw_reasons c alerts now src up)) eqn:E.
    + apply existsb_exists in E as (r & Hr%list_elem_of_In & Hd). erewrite (proj2 (existsb_exists _ _)); [done|].
      exists r. split; [|done]. by apply list_elem_of_In, Hm.
    + destruct (existsb _ (raw_reasons c alerts' now src up)); [by case_bool_decide|].
      repeat case_bool_decide; try lia. exfalso. destruct (raw_reasons c alerts now src up) as [|r l]; [done|].
      eapply not_elem_of_nil. rewrite <- H0. apply (Hm r). by left.
  - unfold h, h'. rewrite !no_hold_iff. eauto.
Qed.

(** The alert codes a terminal, its network or its history raises. *)
Definition TERMINAL_CODES : list string :=
  ["ZKT_CONNECTION_FLAPPING"; "TERMINAL_DISCONNECTED"; "TERMINAL_STABILIZING_STALLED"; "TERMINAL_LINK_DOWN";
   "HIK_LIGHT_RECONCILE_BLOCKED"; "ZKT_CLOCK_DRIFT"; "HIK_CLOCK_DRIFT"].

(** A terminal problem alone never makes the ESP DEGRADED. A DEGRADED tier
    comes from a stale heartbeat, or from an OPEN alert that is not about the
    terminal link, its clock or its history; a Hikvision capture alert degrades
    only for the ESP's own storage. *)
Theorem degraded_is_not_the_terminal c alerts now src up :
  h_tier (derive_health iso cfg c alerts now src up) = "DEGRADED" →
  more_than (_age now (zkt ← zkt_device c; zkt_last_seen_at zkt)) (heartbeat_stale_degraded_seconds cfg) = true ∨
  ∃ a, a ∈ alerts ∧ r_tier (alert_reason iso cfg a c now (terminal_link cfg c now up)) = Some DEGRADED ∧
    (code a ∉ TERMINAL_CODES) ∧ (code a = "HIK_CAPTURE_UNHEALTHY" → get "reason" (details a) = PStr "HIK_STORAGE").
Proof.
  intros H. assert (tier_level (h_tier (derive_health iso cfg c alerts now src up)) = 2) as Hl by by rewrite H.
  rewrite derive_tier_level in Hl. destruct (_ || _); [done|]. destruct (existsb _ _) eqn:E; [|by case_bool_decide].
  apply existsb_exists in E as (r & Hr%list_elem_of_In & Hd%bool_decide_eq_true). unfold raw_reasons in Hr.
  apply elem_of_app in Hr as [Hr|Hr].
  - right. apply list_elem_of_In, filter_In in Hr as [Hr _]. apply list_elem_of_In, list_elem_of_fmap in Hr as (a & -> & Ha).
    exists a. split_and!; [done|done| |].
    + intros Hc. assert (Hp : policy_tier_of (policy_for (code a)) ∈ [Fixed WARNING; NoTier]).
      { unfold TERMINAL_CODES in Hc. rewrite !elem_of_cons, elem_of_nil in Hc.
        destruct_or! Hc; try done; rewrite Hc; vm_compute; set_solver. }
      rewrite !elem_of_cons, elem_of_nil in Hp. unfold alert_reason in Hd. cbn [r_tier] in Hd.
      by destruct_or! Hp; try done; rewrite Hp in Hd.
    + intros Hc. unfold alert_reason in Hd. cbn [r_tier] in Hd. rewrite Hc in Hd.
      change (policy_tier_of (policy_for "HIK_CAPTURE_UNHEALTHY")) with RULE in Hd.
      unfold _rule_tier in Hd. rewrite Hc in Hd. cbn -[terminal_link eq_str] in Hd.
      destruct (eq_str (get "reason" (details a)) "HIK_STORAGE") eqn:Es.
      * destruct (get "reason" (details a)); try done. simpl in Es. by apply bool_decide_eq_true in Es as ->.
      * exfalso. repeat case_match; done.
  - left. destruct (held_offline c src); [by apply not_elem_of_nil in Hr|].
    apply derived_reasons_shape in Hr as (_ & _ & _ & _ & Hr). auto.
Qed.
End derivation.

(** ** The residue latch and I/O faults *)
Lemma is_zero_not_positive v : is_none v || is_zero v = true → positive_int v = false.
Proof. destruct v; simpl; try done. rewrite Z.eqb_eq. intros ->. done. Qed.

Lemma pick_none test storage names : (∀ n, n ∈ names → test (get n storage) = false) → pick test storage names = [].
Proof.
  unfold pick. induction names as [|a l IH]; intros H; [done|]. csimpl. rewrite (H a) by left.
  apply IH. intros x Hx. apply H. by right.
Qed.

(** The rollback-slot residue classification is never given to storage that
    failed: evidence accepted as a residue candidate names no I/O fault (no
    counter, no error field and no fault class), and its upgrade error is the
    one rollback-image code. *)
Theorem residue_candidate_has_no_io_fault ev version :
  rollback_slot_residue_candidate ev version = true →
  storage_io_fault (get "storage" ev) = None ∧ get "upgrade_error" (get "storage" ev) = PStr RESIDUE_UPGRADE_ERROR ∧
  plain_version version ∈ [Some "2.6.15"; Some "2.7.8"; Some "2.8.0"].
Proof.
  unfold rollback_slot_residue_candidate. destruct (_ || _); [done|].
  destruct (residue_image (plain_version version)) as [image|] eqn:Ei; [|done].
  rewrite !andb_true_iff, forallb_forall. intros [[[[[[[[[[[[_ _] _] _] Hu] _] _] _] _] _] Hc] He] Hf].
  split_and!.
  - unfold storage_io_fault. rewrite Hf.
    rewrite !pick_none; [done| |].
    + intros n Hn%list_elem_of_In. apply is_zero_not_positive. auto.
    + intros n Hn. destruct (_reported (get n _)) eqn:E; [exfalso|done]. apply negb_true_iff in He.
      rewrite (proj2 (existsb_exists _ _)) in He; [done|]. exists n. split; [by apply list_elem_of_In|done].
  - destruct (get "upgrade_error" _); try done. simpl in Hu. by apply bool_decide_eq_true in Hu as ->.
  - unfold residue_image in Ei. destruct (plain_version version) as [v|]; [|done]. cbn in Ei.
    repeat case_bool_decide; subst; try done; set_solver.
Qed.

(** ** Witnesses *)

(** The default settings. *)
Definition default_settings : Settings :=
  mkSettings true 75 600 300 600 600 300 3 300 120 90 WARNING "2.6.15:add_connector.c:3764,2.6.15:add_connector.c:3787".
Definition wit_zkt : ZKTDevice := mkZKT (Some "ONLINE") (Some 0) None (Some (1000 * SECOND)) (PDict []).
Definition wit_connector : Connector :=
  mkConnector true (Some (1000 * SECOND)) None (Some "zkt") (Some "2.8.1") PNone None (Some "boot-a") "ONLINE" None None (Some wit_zkt).
Definition wit_fatal : DeviceAlert := mkAlert 7 "ESP_FATAL" "HIGH" "Fatal" (PDict []) 0 (1000 * SECOND).
Definition wit_flapping : DeviceAlert := mkAlert 4 "ZKT_CONNECTION_FLAPPING" "MEDIUM" "Flapping" (PDict []) 0 (1000 * SECOND).
Definition wit_iso : string → option Z := λ _, None.
Definition wit_health (alerts : list DeviceAlert) : Health :=
  derive_health wit_iso default_settings wit_connector alerts (1010 * SECOND) "HEARTBEAT" None.

Lemma derive_health_order_independent_witness :
  wit_health [wit_fatal; wit_flapping] = wit_health [wit_flapping; wit_fatal] ∧
  h_last_error_code (wit_health [wit_flapping; wit_fatal]) = Some "ESP_FATAL".
Proof.
  split; [|by vm_compute]. apply (derive_health_order_independent wit_iso default_settings).
  - change (NoDup [7; 4]). repeat constructor; set_solver.
  - repeat constructor; vm_compute; done.
  - constructor.
Defined.

Lemma more_alerts_never_healthier_witness :
  h_tier (wit_health [wit_flapping]) = "ONLINE_WITH_WARNINGS" ∧ h_tier (wit_health [wit_flapping; wit_fatal]) = "DEGRADED" ∧
  tier_level (h_tier (wit_health [wit_flapping])) <= tier_level (h_tier (wit_health [wit_flapping; wit_fatal])).
Proof.
  split_and!; [by vm_compute|by vm_compute|].
  apply (more_alerts_never_healthier wit_iso default_settings). set_solver.
Defined.

Lemma degraded_is_not_the_terminal_witness :
  more_than (_age (1010 * SECOND) (Some (1000 * SECOND))) 90 = true ∨
  ∃ a, a ∈ [wit_flapping; wit_fatal]
    ∧ r_tier (alert_reason wit_iso default_settings a wit_connector (1010 * SECOND)
        (terminal_link default_settings wit_connector (1010 * SECOND) None)) = Some DEGRADED
    ∧ (code a ∉ TERMINAL_CODES) ∧ (code a = "HIK_CAPTURE_UNHEALTHY" → get "reason" (details a) = PStr "HIK_STORAGE").
Proof.
  apply (degraded_is_not_the_terminal wit_iso default_settings wit_connector [wit_flapping; wit_fatal] (1010 * SECOND)
           "HEARTBEAT" None). by vm_compute.
Defined.

Definition wit_residue : pyval :=
  PDict [("storage", PDict [("local_failure_source", PStr "zone_lite.c:3875"); ("upgrade_error", PStr RESIDUE_UPGRADE_ERROR);
                            ("durability", PStr "UNKNOWN"); ("recovery_complete", PBool true);
                            ("write_failures", PInt 0); ("read_failures", PInt 0)]);
         ("ota_runtime", PDict [("image_sha256", PStr "21ac81b292b463cf7fa1bf0d6ce364a49493951836ad962a19dcae049f40ed76")])].

Lemma residue_candidate_has_no_io_fault_witness :
  storage_io_fault (get "storage" wit_residue) = None ∧
  get "upgrade_error" (get "storage" wit_residue) = PStr RESIDUE_UPGRADE_ERROR ∧
  plain_version (Some "zone-lite-2.8.0") ∈ [Some "2.6.15"; Some "2.7.8"; Some "2.8.0"].
Proof. apply (residue_candidate_has_no_io_fault wit_residue (Some "zone-lite-2.8.0")). by vm_compute. Defined.
