(* ===== verification/HilSmoke.v ===== *)
(** * HIL smoke-test evaluation

    hil_validation.py: [evaluate_smoke] reads evidence ADD collected for one
    device under test (telemetry samples, the two recovery tests, attendance
    proofs) and gives a verdict with its reasons. Instants are microseconds.
    The lists [failed] and [missing] the code appends to are one [findings]
    value; Python sets are [gset], dicts [gmap]. *)
From S2P Require Import Prelude PyText.
Open Scope string_scope.
Open Scope list_scope.
Open Scope Z_scope.

Definition seconds (n : Z) : Z := n * 1000000.
Definition minutes (n : Z) : Z := seconds (60 * n).

(** ** Evidence *)
Record HilTarget := mkTarget { connector_id : string; mac : string; terminal_serial : string }.
Record ReleaseIdentity := mkRelease {
  version : string; git_sha : string; artifact_sha256 : string; application_sha256 : string; signing_key_id : string }.
#[export] Instance HilTarget_eq_dec : EqDecision HilTarget. Proof. solve_decision. Defined.
#[export] Instance ReleaseIdentity_eq_dec : EqDecision ReleaseIdentity. Proof. solve_decision. Defined.

Definition HEALTH_FIELDS : list string :=
  ["storage_healthy"; "persistence_verified"; "recovery_complete"; "workers_healthy"; "counts_known"; "terminal_certified"].
Definition COUNTER_FIELDS : list string := ["write_failures"; "read_failures"; "worker_restarts"; "message_rejections"].
Definition SOURCE_FIELDS : list string := ["source_generation"; "committed_cursor"; "source_count"].

Record RebootStartupTransition := mkTransition {
  command_id : string; recovery_telemetry_id : Z; phase : string; pending_checks : list string; unobserved_fields : list string }.

Record SmokeSample := mkSample {
  telemetry_id : Z; recorded_at : Z; diagnostics_at : Z; target : HilTarget; release : ReleaseIdentity; boot_id : string;
  storage_healthy : option bool; persistence_verified : option bool; recovery_complete : option bool;
  workers_healthy : option bool; counts_known : option bool; terminal_certified : option bool;
  source_generation : option Z; committed_cursor : option Z; source_count : option Z;
  write_failures : option Z; read_failures : option Z; worker_restarts : option Z; message_rejections : option Z;
  reboot_startup : option RebootStartupTransition }.

Inductive recovery_kind := ADD_INTERRUPT_30S | ESP_REBOOT.
Inductive test_outcome := SUCCEEDED | FAILED | INCOMPLETE.
#[export] Instance recovery_kind_eq_dec : EqDecision recovery_kind. Proof. solve_decision. Defined.
#[export] Instance test_outcome_eq_dec : EqDecision test_outcome. Proof. solve_decision. Defined.

Record RecoveryTest := mkTest {
  test_command_id : string; test_run_id : string; kind : recovery_kind; test_target : HilTarget;
  issued_at : Z; test_started_at : Z; expires_at : Z; recovered_at : Z; outcome : test_outcome;
  durable_dedup_verified : bool; safe_checkpoint_verified : bool; automatic_expiry_verified : bool;
  interruption_observed : bool; interruption_seconds : option Z; boot_before : string; boot_after : string }.

Record AttendanceProof := mkProof {
  event_id : Z; observed_at : Z; logical_record_count : Z; oracle_receipt_id : option Z; exception_receipt_id : option string }.

Record SmokeEvidence := mkEvidence {
  run_id : string; deployment_id : string; ev_target : HilTarget; ev_release : ReleaseIdentity;
  release_state : string; deployment_state : string; started_at : Z; ended_at : Z; ready_at : Z;
  samples : list SmokeSample; recovery_tests : list RecoveryTest; attendance : list AttendanceProof;
  certificate_ids : list string; source_continuity_verified : option bool; tail_verified_at : option Z;
  preserved_evidence_before : gset string; preserved_evidence_after : gset string;
  transferred_evidence_receipts : gset string; queue_preservation_verified : option bool;
  alert_review_complete : option bool; unresolved_regression : option bool }.

Record SmokeVerdict := mkVerdict { verdict : string; reasons : list string }.

(** [getattr(sample, name)] for the fields the loops name. *)
Definition health_field (name : string) (s : SmokeSample) : option bool :=
  if bool_decide (name = "storage_healthy") then storage_healthy s
  else if bool_decide (name = "persistence_verified") then persistence_verified s
  else if bool_decide (name = "recovery_complete") then recovery_complete s
  else if bool_decide (name = "workers_healthy") then workers_healthy s
  else if bool_decide (name = "counts_known") then counts_known s
  else if bool_decide (name = "terminal_certified") then terminal_certified s else None.
Definition int_field (name : string) (s : SmokeSample) : option Z :=
  if bool_decide (name = "source_generation") then source_generation s
  else if bool_decide (name = "committed_cursor") then committed_cursor s
  else if bool_decide (name = "source_count") then source_count s
  else if bool_decide (name = "write_failures") then write_failures s
  else if bool_decide (name = "read_failures") then read_failures s
  else if bool_decide (name = "worker_restarts") then worker_restarts s
  else if bool_decide (name = "message_rejections") then message_rejections s else None.

(** ** Findings: the lists [failed] and [missing] *)
Record findings := mkFindings { failed : list string; missing : list string }.
Definition none : findings := mkFindings [] [].
Definition fail (s : string) : findings := mkFindings [s] [].
Definition miss (s : string) : findings := mkFindings [] [s].
Definition both (f g : findings) : findings := mkFindings (failed f ++ failed g) (missing f ++ missing g).
Infix "⊕" := both (at level 50, left associativity).
(** [if b: append] and a loop of appends. *)
Definition when (b : bool) (f : findings) : findings := if b then f else none.
Definition each {A} (f : A → findings) (l : list A) : findings := foldr (λ x acc, f x ⊕ acc) none l.

(** [x] when false, missing when unknown. *)
Definition tri (v : option bool) (name : string) : findings :=
  match v with Some true => none | Some false => fail name | None => miss name end.

(** ** The run as a whole *)
Definition check_run (e : SmokeEvidence) (now : Z) : findings :=
  let start := started_at e in let stop := ended_at e in
  when ((stop <? start) || (now <? stop) || (start <? ready_at e)) (miss "INVALID_OBSERVATION_INTERVAL")
  ⊕ when (stop - start <? seconds 900) (miss "OBSERVATION_UNDER_15_MINUTES")
  ⊕ when (negb (bool_decide (release_state e = "HIL_ONLY")) || negb (bool_decide (deployment_state e = "SUCCEEDED")))
      (fail "RELEASE_OR_DEPLOYMENT_NOT_ELIGIBLE")
  ⊕ match unresolved_regression e with
    | Some true => fail "UNRESOLVED_REGRESSION" | None => miss "REGRESSION_REVIEW_MISSING" | Some false => none end
  ⊕ tri (source_continuity_verified e) "SOURCE_CONTINUITY_VERIFIED"
  ⊕ tri (queue_preservation_verified e) "QUEUE_PRESERVATION_VERIFIED"
  ⊕ tri (alert_review_complete e) "ALERT_REVIEW_COMPLETE"
  ⊕ when (bool_decide (certificate_ids e = []) || existsb (λ v, bool_decide (v = "")) (certificate_ids e))
      (miss "RECONCILIATION_CERTIFICATE_MISSING")
  ⊕ when (match tail_verified_at e with
          | None => true | Some t => negb ((start + minutes 8 <=? t) && (t <=? stop)) end)
      (miss "FINAL_TAIL_VERIFICATION_MISSING")
  ⊕ when (negb (bool_decide (preserved_evidence_before e ⊆ preserved_evidence_after e ∪ transferred_evidence_receipts e)))
      (fail "PRESERVED_EVIDENCE_MISSING").

(** ** Recovery tests *)
Definition check_test_set (tests : list RecoveryTest) : findings :=
  when (negb (bool_decide (length tests = 2%nat))
        || negb (existsb (λ t, bool_decide (kind t = ADD_INTERRUPT_30S)) tests
                 && existsb (λ t, bool_decide (kind t = ESP_REBOOT)) tests))
    (miss "RECOVERY_TESTS_MISSING_OR_REPEATED")
  ⊕ when (negb (bool_decide (NoDup (map test_command_id tests)))) (fail "REUSED_RECOVERY_COMMAND").

Definition outcome_text (o : test_outcome) : string :=
  match o with SUCCEEDED => "SUCCEEDED" | FAILED => "FAILED" | INCOMPLETE => "INCOMPLETE" end.
Definition kind_text (k : recovery_kind) : string :=
  match k with ADD_INTERRUPT_30S => "ADD_INTERRUPT_30S" | ESP_REBOOT => "ESP_REBOOT" end.

Definition test_time_ok (e : SmokeEvidence) (t : RecoveryTest) : bool :=
  let start := started_at e in
  let '(minute_from, minute_to) := match kind t with ADD_INTERRUPT_30S => (3, 5) | ESP_REBOOT => (5, 8) end in
  (start <=? issued_at t) && (issued_at t <=? test_started_at t) && (test_started_at t <? expires_at t)
  && (expires_at t <=? ended_at e)
  && (start + minutes minute_from <=? test_started_at t) && (test_started_at t <? recovered_at t)
  && (recovered_at t <=? start + minutes minute_to).

(** The conditions that append for one test; [valid] is that none of them held. *)
Definition check_test (e : SmokeEvidence) (t : RecoveryTest) : findings :=
  when (negb (bool_decide (test_run_id t = run_id e)) || negb (bool_decide (test_target t = ev_target e)))
    (fail "RECOVERY_SCOPE_MISMATCH")
  ⊕ match outcome t with
    | SUCCEEDED => none
    | FAILED => fail ("RECOVERY_" +:+ outcome_text FAILED)
    | INCOMPLETE => miss ("RECOVERY_" +:+ outcome_text INCOMPLETE)
    end
  ⊕ when (negb (durable_dedup_verified t) || negb (safe_checkpoint_verified t)) (miss "RECOVERY_DURABILITY_UNVERIFIED")
  ⊕ when (negb (test_time_ok e t)) (fail "RECOVERY_TIME_INVALID")
  ⊕ match kind t with
    | ADD_INTERRUPT_30S =>
        when (negb (bool_decide (interruption_seconds t = Some 30)) || negb (automatic_expiry_verified t)
              || negb (interruption_observed t) || negb (bool_decide (boot_before t = boot_after t)))
          (fail "TRANSPORT_RECOVERY_INVALID")
    | ESP_REBOOT => when (bool_decide (boot_before t = boot_after t)) (miss "REBOOT_NOT_OBSERVED")
    end.
Definition is_clean (f : findings) : bool := bool_decide (failed f = []) && bool_decide (missing f = []).
Definition valid_tests (e : SmokeEvidence) : list RecoveryTest := List.filter (λ t, is_clean (check_test e t)) (recovery_tests e).

(** ** Samples *)
Definition sorted_samples (e : SmokeEvidence) : list SmokeSample := sort_by recorded_at (samples e).

Definition check_coverage (e : SmokeEvidence) (ss : list SmokeSample) : findings :=
  when (negb (bool_decide (NoDup (map telemetry_id ss)))) (fail "DUPLICATE_TELEMETRY")
  ⊕ when (match head ss, last ss with
          | Some first, Some final =>
              (started_at e + seconds 45 <? recorded_at first) || (recorded_at final <? ended_at e - seconds 45)
          | _, _ => true
          end) (miss "OBSERVATION_TELEMETRY_INCOMPLETE").

(** [by_id.get(i)]: of samples with one id the last is kept. *)
Definition by_id (ss : list SmokeSample) (i : Z) : option SmokeSample :=
  List.find (λ s, bool_decide (telemetry_id s = i)) (reverse ss).

(** The state of the loop over the samples. *)
Record scan := mkScan {
  scan_findings : findings; transitions : gset Z; finished_boots : gset string;
  completed_checks : gmap string (gset string); observed_fields : gmap string (gset string) }.
Definition scan0 : scan := mkScan none ∅ ∅ ∅ ∅.
Definition of_boot (m : gmap string (gset string)) (b : string) : gset string := default ∅ (m !! b).

Definition names (l : list string) : gset string := list_to_set l.
Definition is_Some_true (v : option bool) : bool := bool_decide (v = Some true).
Definition known_field (v : option Z) : bool := match v with Some _ => true | None => false end.
Definition not_true_checks (s : SmokeSample) : gset string :=
  names (List.filter (λ n, negb (is_Some_true (health_field n s))) HEALTH_FIELDS).
Definition true_checks (s : SmokeSample) : gset string :=
  names (List.filter (λ n, is_Some_true (health_field n s)) HEALTH_FIELDS).

Definition reboot_matches (e : SmokeEvidence) (s : SmokeSample) (tr : RebootStartupTransition) : list RecoveryTest :=
  List.filter (λ t, bool_decide (kind t = ESP_REBOOT) && bool_decide (test_command_id t = command_id tr)
      && bool_decide (boot_after t = boot_id s) && (test_started_at t <=? recorded_at s) && (recorded_at s <? recovered_at t))
    (valid_tests e).

Definition recovered_ok (e : SmokeEvidence) (s recovered : SmokeSample) (t : RecoveryTest) : bool :=
  (recorded_at s <? recorded_at recovered) && (recorded_at recovered <=? recovered_at t)
  && bool_decide (boot_id recovered = boot_id s)
  && match reboot_startup recovered with None => true | Some _ => false end
  && bool_decide (target recovered = ev_target e) && bool_decide (release recovered = ev_release e)
  && forallb (λ n, is_Some_true (health_field n recovered)) HEALTH_FIELDS
  && forallb (λ n, known_field (int_field n recovered)) (SOURCE_FIELDS ++ COUNTER_FIELDS).

Definition zero_or_unknown (v : option Z) : bool := match v with None => true | Some z => z =? 0 end.

(** [valid] of the loop: the startup transition of one sample. *)
Definition transition_ok (e : SmokeEvidence) (ss : list SmokeSample) (st : scan) (s : SmokeSample)
    (tr : RebootStartupTransition) : bool :=
  let pending := names (pending_checks tr) in
  let unobserved := names (unobserved_fields tr) in
  match reboot_matches e s tr, by_id ss (recovery_telemetry_id tr) with
  | [t], Some recovered =>
      recovered_ok e s recovered t
      && negb (bool_decide (boot_id s ∈ finished_boots st)) && negb (bool_decide (pending = ∅))
      && bool_decide (size pending = length (pending_checks tr))
      && bool_decide (size unobserved = length (unobserved_fields tr))
      && bool_decide (pending = not_true_checks s)
      && bool_decide (pending ∩ of_boot (completed_checks st) (boot_id s) = ∅)
      && bool_decide (unobserved ∩ of_boot (observed_fields st) (boot_id s) = ∅)
      && forallb (λ n, negb (known_field (int_field n s)) || (bool_decide (n = "source_count") && bool_decide (source_count s = Some 0)))
           (unobserved_fields tr)
      && forallb (λ n, zero_or_unknown (int_field n s)) COUNTER_FIELDS
  | _, _ => false
  end.

Definition check_sample_identity (e : SmokeEvidence) (s : SmokeSample) : findings :=
  when (negb (bool_decide (target s = ev_target e)) || negb (bool_decide (release s = ev_release e))) (fail "DEVICE_OR_ARTIFACT_MISMATCH")
  ⊕ when (negb ((started_at e <=? recorded_at s) && (recorded_at s <=? ended_at e))) (fail "TELEMETRY_OUTSIDE_OBSERVATION")
  ⊕ when (negb ((0 <=? recorded_at s - diagnostics_at s) && (recorded_at s - diagnostics_at s <=? seconds 45)))
      (miss "STALE_DIAGNOSTICS").

(** The health and known-field loops at the end of the body. *)
Definition check_fields (s : SmokeSample) (pending unobserved : gset string) : findings :=
  each (λ n, when (negb (is_Some_true (health_field n s)) && negb (bool_decide (n ∈ pending)))
               (if bool_decide (health_field n s = Some false) then fail (upper n) else miss (upper n))) HEALTH_FIELDS
  ⊕ each (λ n, when (negb (known_field (int_field n s)) && negb (bool_decide (n ∈ unobserved)))
               (miss (upper n +:+ "_MISSING"))) (SOURCE_FIELDS ++ COUNTER_FIELDS).

Definition add_names (m : gmap string (gset string)) (b : string) (ns : gset string) : gmap string (gset string) :=
  <[b := of_boot m b ∪ ns]> m.

Definition scan_sample (e : SmokeEvidence) (ss : list SmokeSample) (st : scan) (s : SmokeSample) : scan :=
  let identity := check_sample_identity e s in
  let '(verdict, trans, finished, pending, unobserved) :=
    match reboot_startup s with
    | Some tr =>
        if transition_ok e ss st s tr
        then (none, {[telemetry_id s]} ∪ transitions st, finished_boots st, names (pending_checks tr), names (unobserved_fields tr))
        else (fail "INVALID_REBOOT_STARTUP_TRANSITION", transitions st, finished_boots st, ∅, ∅)
    | None => (none, transitions st, {[boot_id s]} ∪ finished_boots st, ∅, ∅)
    end in
  let observed := names (List.filter (λ n, known_field (int_field n s) && negb (bool_decide (n ∈ unobserved)))
                           (SOURCE_FIELDS ++ COUNTER_FIELDS)) in
  mkScan (scan_findings st ⊕ identity ⊕ verdict ⊕ check_fields s pending unobserved) trans finished
    (add_names (completed_checks st) (boot_id s) (true_checks s)) (add_names (observed_fields st) (boot_id s) observed).

Definition scan_samples (e : SmokeEvidence) (ss : list SmokeSample) : scan := fold_left (scan_sample e ss) ss scan0.

(** ** Consecutive samples *)
Definition pairs {A} (l : list A) : list (A * A) := zip l (tail l).

Definition gap_covered (e : SmokeEvidence) (previous s : SmokeSample) : bool :=
  existsb (λ t, (test_started_at t - seconds 45 <=? recorded_at previous) && (recorded_at s <=? recovered_at t + seconds 45))
    (valid_tests e).
Definition reset_planned (e : SmokeEvidence) (previous s : SmokeSample) : bool :=
  existsb (λ t, bool_decide (kind t = ESP_REBOOT) && bool_decide (boot_before t = boot_id previous)
      && bool_decide (boot_after t = boot_id s) && (recorded_at previous <=? test_started_at t)
      && (test_started_at t <=? recorded_at s) && (recorded_at s <=? recovered_at t + seconds 45)) (valid_tests e).
Definition boot_changed (p : SmokeSample * SmokeSample) : bool := negb (bool_decide (boot_id p.2 = boot_id p.1)).

Definition check_pair (e : SmokeEvidence) (p : SmokeSample * SmokeSample) : findings :=
  when ((seconds 45 <? recorded_at p.2 - recorded_at p.1) && negb (gap_covered e p.1 p.2)) (miss "UNEXPLAINED_TELEMETRY_GAP")
  ⊕ when (boot_changed p && negb (reset_planned e p.1 p.2)) (fail "UNPLANNED_RESET").
Definition boot_changes (ss : list SmokeSample) : Z := zlen (List.filter boot_changed (pairs ss)).

(** ** Known values: cursors never regress, counters never change *)
Definition regress_text (name : string) : string :=
  if bool_decide (name = "source_generation") then "SOURCE_GENERATION_CHANGED"
  else if bool_decide (name = "committed_cursor") then "SOURCE_CURSOR_REGRESSED" else "SOURCE_COUNT_REGRESSED".

Definition excused (trans : gset Z) (s : SmokeSample) : gset string :=
  if bool_decide (telemetry_id s ∈ trans)
  then match reboot_startup s with Some tr => names (unobserved_fields tr) | None => ∅ end else ∅.

Definition step_source (trans : gset Z) (s : SmokeSample) (acc : findings * gmap string Z) (name : string)
    : findings * gmap string Z :=
  match int_field name s with
  | None => acc
  | Some value =>
      if bool_decide (name ∈ excused trans s) then acc
      else
        let bad := match acc.2 !! name with
                   | Some before => if bool_decide (name = "source_generation") then negb (value =? before) else value <? before
                   | None => false
                   end in
        (acc.1 ⊕ when bad (fail (regress_text name)), <[name := value]> acc.2)
  end.

Definition step_counter (initial : option string) (s : SmokeSample) (acc : findings * gmap (string * string) Z) (name : string)
    : findings * gmap (string * string) Z :=
  match int_field name s with
  | None => acc
  | Some value =>
      let before := acc.2 !! (boot_id s, name) in
      let regressed := match before with Some b => value <? b | None => false end in
      let grew := match before with
                  | Some b => b <? value
                  | None => negb (bool_decide (Some (boot_id s) = initial)) && (0 <? value) end in
      (acc.1 ⊕ when regressed (fail ("COUNTER_REGRESSED_" +:+ upper name)) ⊕ when grew (fail ("NEW_" +:+ upper name)),
       <[(boot_id s, name) := value]> acc.2)
  end.

Record known := mkKnown { known_findings : findings; known_source : gmap string Z; known_counters : gmap (string * string) Z }.
Definition known0 : known := mkKnown none ∅ ∅.
Definition step_known (trans : gset Z) (initial : option string) (k : known) (s : SmokeSample) : known :=
  let '(f, src) := fold_left (step_source trans s) SOURCE_FIELDS (known_findings k, known_source k) in
  let '(f, cnt) := fold_left (step_counter initial s) COUNTER_FIELDS (f, known_counters k) in
  mkKnown f src cnt.
Definition check_known (trans : gset Z) (ss : list SmokeSample) : known :=
  fold_left (step_known trans (boot_id <$> head ss)) ss known0.

Definition check_end (ss : list SmokeSample) : findings :=
  when (negb (boot_changes ss =? 1)) (miss "EXACTLY_ONE_CONTROLLED_REBOOT_REQUIRED")
  ⊕ when (match last ss with Some s => negb (bool_decide (committed_cursor s = source_count s)) | None => false end)
      (miss "SOURCE_TAIL_UNFINISHED").

(** ** Attendance *)
Definition has_oracle (r : AttendanceProof) : bool := match oracle_receipt_id r with Some z => negb (z =? 0) | None => false end.
Definition has_exception (r : AttendanceProof) : bool :=
  match exception_receipt_id r with Some s => negb (bool_decide (s = "")) | None => false end.

Definition check_attendance_row (e : SmokeEvidence) (r : AttendanceProof) : findings :=
  when (negb ((started_at e <=? observed_at r) && (observed_at r <=? ended_at e))) (fail "ATTENDANCE_OUTSIDE_OBSERVATION")
  ⊕ when (negb (logical_record_count r =? 1)) (fail "ATTENDANCE_LOGICAL_COUNT_INVALID")
  ⊕ when (Bool.eqb (has_oracle r) (has_exception r)) (miss "ATTENDANCE_SETTLEMENT_UNPROVEN").

Definition check_attendance (e : SmokeEvidence) : findings :=
  when (bool_decide (length (attendance e) = 0%nat)) (miss "NO_QUALIFYING_ATTENDANCE")
  ⊕ when (negb (bool_decide (NoDup (map event_id (attendance e))))) (fail "DUPLICATE_ATTENDANCE_EVIDENCE")
  ⊕ each (check_attendance_row e) (attendance e)
  ⊕ each (λ t, when (negb (existsb (λ r, has_oracle r && (test_started_at t - seconds 60 <=? observed_at r)
                                          && (observed_at r <=? recovered_at t + seconds 60)) (attendance e)))
                (miss ("NO_ORACLE_ATTENDANCE_AROUND_" +:+ kind_text (kind t)))) (valid_tests e).

(** ** The verdict *)
Definition all_findings (e : SmokeEvidence) (now : Z) : findings :=
  let ss := sorted_samples e in
  let sc := scan_samples e ss in
  check_run e now
  ⊕ (check_test_set (recovery_tests e) ⊕ each (check_test e) (recovery_tests e))
  ⊕ (check_coverage e ss ⊕ scan_findings sc)
  ⊕ each (check_pair e) (pairs ss)
  ⊕ (known_findings (check_known (transitions sc) ss) ⊕ check_end ss)
  ⊕ check_attendance e.

(** [dict.fromkeys]: the first of equal reasons, in order. *)
Fixpoint fromkeys (seen l : list string) : list string :=
  match l with
  | [] => []
  | x :: l' => if bool_decide (x ∈ seen) then fromkeys seen l' else x :: fromkeys (x :: seen) l'
  end.

Definition verdict_of (f : findings) : SmokeVerdict :=
  mkVerdict (if negb (bool_decide (failed f = [])) then "FAILED"
             else if negb (bool_decide (missing f = [])) then "INCOMPLETE" else "PASS")
    (fromkeys [] (failed f ++ missing f)).

(** [aware] is whether [now] carries its timezone. *)
Definition evaluate_smoke (e : SmokeEvidence) (now : Z) (aware : bool) : res SmokeVerdict :=
  if negb aware then Raise ValueError "Validation time must include its timezone"
  else Ok (verdict_of (all_findings e now)).

(** ** Clean findings *)
Definition clean (f : findings) : Prop := failed f = [] ∧ missing f = [].

Lemma clean_both f g : clean (f ⊕ g) ↔ clean f ∧ clean g.
Proof. unfold clean, both. simpl. rewrite !app_nil. naive_solver. Qed.
Lemma clean_none : clean none.
Proof. done. Qed.
Lemma clean_fail s : clean (fail s) ↔ False.
Proof. split; [by intros [? _]|done]. Qed.
Lemma clean_miss s : clean (miss s) ↔ False.
Proof. split; [by intros [_ ?]|done]. Qed.
Lemma clean_when b f : ¬ clean f → clean (when b f) ↔ b = false.
Proof. intros Hf. destruct b; simpl; split; intros H; try done. Qed.
Lemma clean_when_fail b s : clean (when b (fail s)) ↔ b = false.
Proof. apply clean_when. intros [? _]. done. Qed.
Lemma clean_when_miss b s : clean (when b (miss s)) ↔ b = false.
Proof. apply clean_when. intros [_ ?]. done. Qed.
Lemma clean_each {A} (f : A → findings) l : clean (each f l) ↔ ∀ x, x ∈ l → clean (f x).
Proof.
  induction l as [|a l IH]; simpl; [split; [set_solver|intros _; apply clean_none]|].
  rewrite clean_both, IH. setoid_rewrite elem_of_cons. naive_solver.
Qed.
Lemma clean_tri v name : clean (tri v name) ↔ v = Some true.
Proof. destruct v as [[]|]; simpl; rewrite ?clean_fail, ?clean_miss; by split. Qed.
Lemma is_clean_iff f : is_clean f = true ↔ clean f.
Proof. unfold is_clean, clean. by rewrite andb_true_iff, !bool_decide_eq_true. Qed.
Create Rewrite HintDb clean.
#[export] Hint Rewrite clean_both clean_when_fail clean_when_miss @clean_each clean_tri clean_fail clean_miss
  orb_false_iff negb_false_iff andb_true_iff Z.ltb_ge Z.leb_le Z.eqb_eq Z.ltb_lt : clean.
Ltac cleaned H := autorewrite with clean in H.

(** ** The tests of a clean evaluation *)
Definition test_passed (e : SmokeEvidence) (from until : Z) (t : RecoveryTest) : Prop :=
  test_run_id t = run_id e ∧ test_target t = ev_target e ∧ outcome t = SUCCEEDED ∧
  durable_dedup_verified t = true ∧ safe_checkpoint_verified t = true ∧
  started_at e + minutes from <= test_started_at t < recovered_at t ∧ recovered_at t <= started_at e + minutes until.

Lemma check_test_clean e t :
  clean (check_test e t) →
  match kind t with
  | ADD_INTERRUPT_30S => test_passed e 3 5 t ∧ interruption_seconds t = Some 30 ∧ boot_before t = boot_after t
  | ESP_REBOOT => test_passed e 5 8 t ∧ boot_before t ≠ boot_after t
  end.
Proof.
  unfold check_test, test_time_ok, test_passed. rewrite !clean_both, !clean_when_fail, clean_when_miss.
  intros ((((Hscope & Hout) & Hdur) & Htime) & Hk). destruct (outcome t); cleaned Hout; try done.
  destruct (kind t); cleaned Htime; cleaned Hk; cleaned Hscope; cleaned Hdur;
    repeat match goal with H : _ ∧ _ |- _ => destruct H | H : bool_decide _ = _ |- _ => first
      [apply bool_decide_eq_true in H | apply bool_decide_eq_false in H] end; split_and!; auto.
Qed.

Lemma valid_tests_clean e t : t ∈ valid_tests e ↔ t ∈ recovery_tests e ∧ clean (check_test e t).
Proof.
  unfold valid_tests. rewrite <- is_clean_iff, !list_elem_of_In, filter_In. done.
Qed.

Lemma test_set_clean tests :
  clean (check_test_set tests) →
  ∃ ti tr, tests ≡ₚ [ti; tr] ∧ kind ti = ADD_INTERRUPT_30S ∧ kind tr = ESP_REBOOT ∧ test_command_id ti ≠ test_command_id tr.
Proof.
  unfold check_test_set. rewrite clean_both, clean_when_miss, clean_when_fail. intros [H1 H2]. cleaned H1.
  destruct H1 as [Hlen%bool_decide_eq_true [Hi Hr]]. apply negb_false_iff, bool_decide_eq_true in H2.
  apply existsb_exists in Hi as (ti & Hi%list_elem_of_In & Hki%bool_decide_eq_true).
  apply existsb_exists in Hr as (tr & Hr%list_elem_of_In & Hkr%bool_decide_eq_true).
  destruct tests as [|a [|b [|]]]; try done. cbn in H2. apply NoDup_cons in H2 as [Hne _]. rewrite list_elem_of_singleton in Hne.
  rewrite !elem_of_cons, elem_of_nil in Hi, Hr. destruct Hi as [->|[->|[]]], Hr as [->|[->|[]]]; try congruence.
  - exists a, b. split_and!; auto.
  - exists b, a. split_and!; auto. constructor.
Qed.

(** ** Coverage in time *)
Definition near (e : SmokeEvidence) (ss : list SmokeSample) (t : Z) : Prop :=
  (∃ s, s ∈ ss ∧ Z.abs (recorded_at s - t) <= seconds 45) ∨
  ∃ test, test ∈ valid_tests e ∧ test_started_at test - seconds 45 <= t <= recovered_at test + seconds 45.

Lemma pair_gap e p : clean (check_pair e p) →
  recorded_at p.2 - recorded_at p.1 <= seconds 45 ∨
  ∃ t, t ∈ valid_tests e ∧ test_started_at t - seconds 45 <= recorded_at p.1 ∧ recorded_at p.2 <= recovered_at t + seconds 45.
Proof.
  unfold check_pair. rewrite clean_both, clean_when_miss. intros [H _]. apply andb_false_iff in H as [H|H].
  - left. apply Z.ltb_ge in H. lia.
  - right. apply negb_false_iff, existsb_exists in H as (t & Ht%list_elem_of_In & H). cleaned H. eauto.
Qed.

Lemma cover_from e a l t :
  (∀ p, p ∈ pairs (a :: l) → clean (check_pair e p)) → recorded_at a <= t →
  (∀ z, last (a :: l) = Some z → t <= recorded_at z + seconds 45) → near e (a :: l) t.
Proof.
  revert a. induction l as [|b l IH]; intros a Hp Ht Hl.
  - left. exists a. split; [by left|]. specialize (Hl a eq_refl). lia.
  - assert (Hab : (a, b) ∈ pairs (a :: b :: l)) by (unfold pairs; simpl; by left).
    destruct (Z.le_gt_cases (recorded_at b) t) as [Hb|Hb].
    + destruct (IH b) as [(s & Hs & ?)|?]; [|done|intros z Hz; apply Hl; by rewrite last_cons_cons| |by right].
      * intros p Hin. apply Hp. unfold pairs in *. simpl in *. by right.
      * left. exists s. split; [by right|done].
    + destruct (pair_gap _ _ (Hp _ Hab)) as [Hg|(t' & Ht' & ? & ?)]; simpl in *.
      * left. exists a. split; [by left|]. lia.
      * right. exists t'. split; [done|]. lia.
Qed.

Lemma covered_everywhere e ss t :
  clean (check_coverage e ss) → (∀ p, p ∈ pairs ss → clean (check_pair e p)) →
  started_at e <= t <= ended_at e → near e ss t.
Proof.
  unfold check_coverage. rewrite clean_both, clean_when_miss. intros [_ H] Hp Ht.
  destruct ss as [|a l]; [done|]. destruct (last (a :: l)) as [z|] eqn:Hz; simpl in H; [|done]. cleaned H.
  destruct (Z.le_gt_cases (recorded_at a) t) as [Ha|Ha].
  - apply cover_from; [done|done|]. intros z' Hz'. rewrite Hz in Hz'. injection Hz' as <-. lia.
  - left. exists a. split; [by left|]. lia.
Qed.

(** ** Exactly one boot change, the commanded one *)
Definition one_reboot (ss : list SmokeSample) (t : RecoveryTest) (before after : list SmokeSample) : Prop :=
  ss = before ++ after ∧ before ≠ [] ∧ after ≠ [] ∧
  Forall (λ s, boot_id s = boot_before t) before ∧ Forall (λ s, boot_id s = boot_after t) after.

Lemma same_boot a l : List.filter boot_changed (pairs (a :: l)) = [] → Forall (λ s, boot_id s = boot_id a) (a :: l).
Proof.
  revert a. induction l as [|b l IH]; intros a H; [by repeat constructor|].
  unfold pairs in H. simpl in H. unfold boot_changed at 1 in H. simpl in H. case_bool_decide as E; [|done]. simpl in H.
  constructor; [done|]. rewrite <- E. by apply IH.
Qed.

Lemma boot_split a l : length (List.filter boot_changed (pairs (a :: l))) = 1%nat →
  ∃ before x y after, a :: l = before ++ [x; y] ++ after ∧ (x, y) ∈ pairs (a :: l) ∧ boot_changed (x, y) = true ∧
    Forall (λ s, boot_id s = boot_id x) (before ++ [x]) ∧ Forall (λ s, boot_id s = boot_id y) (y :: after).
Proof.
  revert a. induction l as [|b l IH]; intros a H; [done|]. unfold pairs in H. simpl in H.
  destruct (boot_changed (a, b)) eqn:E; simpl in H.
  - exists [], a, b, l. split_and!; [done|by left|done|by repeat constructor|]. apply same_boot, nil_length_inv. by injection H.
  - destruct (IH b H) as (bf & x & y & af & Heq & Hin & Hc & H1 & H2). exists (a :: bf), x, y, af. rewrite Heq.
    split_and!; [done|by rewrite <- Heq; right|done| |done]. simpl. constructor; [|done].
    unfold boot_changed in E. simpl in E. apply negb_false_iff, bool_decide_eq_true in E. rewrite <- E.
    rewrite Forall_forall in H1. destruct bf as [|b' bf]; injection Heq as -> _; apply H1; set_solver.
Qed.

Lemma planned_reboot e ss :
  boot_changes ss = 1 → (∀ p, p ∈ pairs ss → clean (check_pair e p)) →
  ∃ t before after, t ∈ valid_tests e ∧ kind t = ESP_REBOOT ∧ one_reboot ss t before after.
Proof.
  unfold boot_changes, zlen. intros H Hp. destruct ss as [|a l]; [done|].
  destruct (boot_split a l) as (bf & x & y & af & Heq & Hin & Hc & H1 & H2); [lia|].
  specialize (Hp _ Hin). unfold check_pair in Hp. rewrite clean_both, clean_when_fail, Hc in Hp. destruct Hp as [_ Hp].
  simpl in Hp. apply negb_false_iff, existsb_exists in Hp as (t & Ht%list_elem_of_In & Hp). cleaned Hp.
  destruct Hp as [[[[[Hk Hbb] Hba] _] _] _]. rewrite bool_decide_eq_true in Hk, Hbb, Hba. simpl in *.
  exists t, (bf ++ [x]), (y :: af). split_and!; [done|done|]. split_and!.
  - rewrite Heq, <- app_assoc. done.
  - by destruct bf.
  - done.
  - by rewrite Hbb.
  - by rewrite Hba.
Qed.

(** ** Values the samples report *)
Definition source_value (trans : gset Z) (name : string) (s : SmokeSample) : option Z :=
  if bool_decide (name ∈ excused trans s) then None else int_field name s.
Definition counter_value (b name : string) (s : SmokeSample) : option Z :=
  if bool_decide (boot_id s = b) then int_field name s else None.
(** How two reported values of a source field may follow each other. *)
Definition follows (name : string) (before value : Z) : Prop :=
  if bool_decide (name = "source_generation") then value = before else before <= value.


(** A loop over field names that checks each reported value against the last
    one known under its key, then remembers it. *)
Section remember.
Context {K : Type} `{Countable K} (key : string → K) (value : string → option Z) (check : string → option Z → Z → findings).
Context (key_inj : ∀ n n', key n = key n' → n = n').

Definition remember (acc : findings * gmap K Z) (n : string) : findings * gmap K Z :=
  match value n with
  | None => acc
  | Some v => (acc.1 ⊕ check n (acc.2 !! key n) v, <[key n := v]> acc.2)
  end.

Lemma remember_lookup ns f m k :
  (∀ n, n ∈ ns → key n ≠ k) → (fold_left remember ns (f, m)).2 !! k = m !! k.
Proof.
  revert f m. induction ns as [|a ns IH]; intros f m Hk; simpl; [done|]. unfold remember at 2.
  destruct (value a) as [v|]; simpl; rewrite IH by (intros; apply Hk; by right); [|done].
  apply lookup_insert_ne, Hk. by left.
Qed.

Lemma remember_spec ns f m :
  NoDup ns →
  let r := fold_left remember ns (f, m) in
  (clean r.1 → clean f ∧ ∀ n v, n ∈ ns → value n = Some v → clean (check n (m !! key n) v)) ∧
  (∀ n, n ∈ ns → r.2 !! key n = match value n with Some v => Some v | None => m !! key n end).
Proof using key_inj.
  revert f m. induction ns as [|a ns IH]; intros f m Hnd; simpl; [split; [set_solver|set_solver]|].
  apply NoDup_cons in Hnd as [Ha Hnd].
  assert (Hne : ∀ n, n ∈ ns → key n ≠ key a) by (intros n Hn Heq; by apply key_inj in Heq as ->).
  unfold remember at 2 4. destruct (value a) as [v|] eqn:Ev; simpl.
  - destruct (IH (f ⊕ check a (m !! key a) v) (<[key a := v]> m) Hnd) as [H1 H2]. split.
    + intros Hc. destruct (H1 Hc) as [[Hf Hw]%clean_both Hn]. split; [done|]. intros n w [->|Hin]%elem_of_cons Hv.
      * rewrite Ev in Hv. by injection Hv as <-.
      * specialize (Hn n w Hin Hv). rewrite lookup_insert_ne in Hn; [done|]. by apply not_eq_sym, Hne.
    + intros n [->|Hin]%elem_of_cons.
      * rewrite remember_lookup by done. by rewrite Ev, lookup_insert_eq.
      * rewrite H2 by done. rewrite lookup_insert_ne; [done|]. by apply not_eq_sym, Hne.
  - destruct (IH f m Hnd) as [H1 H2]. split.
    + intros Hc. destruct (H1 Hc) as [Hf Hn]. split; [done|]. intros n w [->|Hin]%elem_of_cons Hv; [congruence|by eapply Hn].
    + intros n [->|Hin]%elem_of_cons; [|by apply H2]. by rewrite remember_lookup, Ev.
Qed.
End remember.

Definition source_check (n : string) (before : option Z) (v : Z) : findings :=
  when match before with
       | Some b => if bool_decide (n = "source_generation") then negb (v =? b) else v <? b
       | None => false end (fail (regress_text n)).
Definition counter_check (initial : option string) (b n : string) (before : option Z) (v : Z) : findings :=
  when match before with Some x => v <? x | None => false end (fail ("COUNTER_REGRESSED_" +:+ upper n))
  ⊕ when match before with Some x => x <? v | None => negb (bool_decide (Some b = initial)) && (0 <? v) end (fail ("NEW_" +:+ upper n)).

Definition counter_key (b n : string) : string * string := (b, n).

Lemma step_source_eq trans s ns acc :
  fold_left (step_source trans s) ns acc = fold_left (remember id (λ n, source_value trans n s) source_check) ns acc.
Proof.
  revert acc. induction ns as [|n ns IH]; intros acc; simpl; [done|]. rewrite IH. f_equal. unfold step_source, remember, source_value.
  destruct (int_field n s); by case_bool_decide.
Qed.
Lemma step_counter_eq initial s ns acc :
  fold_left (step_counter initial s) ns acc
  = fold_left (remember (counter_key (boot_id s)) (λ n, int_field n s) (counter_check initial (boot_id s))) ns acc.
Proof.
  revert acc. induction ns as [|n ns IH]; intros acc; simpl; [done|]. rewrite IH. f_equal. unfold step_counter, remember, counter_check.
  destruct (int_field n s); [|done]. f_equal. unfold both. simpl. by rewrite !app_assoc.
Qed.

(** The invariant of the loop over the samples read so far: it remembers the last
    value of each field, and clean findings mean each value followed the last. *)
Definition known_ok (trans : gset Z) (initial : option string) (read : list SmokeSample) (k : known) : Prop :=
  (∀ n, n ∈ SOURCE_FIELDS → known_source k !! n = last (omap (source_value trans n) read)) ∧
  (∀ n b, n ∈ COUNTER_FIELDS → known_counters k !! (b, n) = last (omap (counter_value b n) read)) ∧
  (clean (known_findings k) →
   (∀ n, n ∈ SOURCE_FIELDS → StronglySorted (follows n) (omap (source_value trans n) read)) ∧
   (∀ n b, n ∈ COUNTER_FIELDS → StronglySorted eq (omap (counter_value b n) read) ∧
      (Some b ≠ initial → Forall (λ v, v <= 0) (omap (counter_value b n) read)))).

Lemma follows_trans n x y z : follows n x y → follows n y z → follows n x z.
Proof. unfold follows. case_bool_decide; lia. Qed.

Lemma source_check_clean n before v : clean (source_check n before v) → ∀ b, before = Some b → follows n b v.
Proof.
  unfold source_check, follows. rewrite clean_when_fail. intros H b ->. case_bool_decide.
  - by apply negb_false_iff, Z.eqb_eq in H.
  - by apply Z.ltb_ge in H.
Qed.
Lemma counter_check_clean initial b n before v : clean (counter_check initial b n before v) →
  match before with Some x => x = v | None => Some b ≠ initial → v <= 0 end.
Proof.
  unfold counter_check. rewrite clean_both, !clean_when_fail. destruct before as [x|]; intros [H1 H2].
  - apply Z.ltb_ge in H1, H2. lia.
  - intros Hb. rewrite bool_decide_eq_false_2 in H2 by done. simpl in H2. by apply Z.ltb_ge in H2.
Qed.

Lemma omap_snoc {A B} (f : A → option B) l x : omap f (l ++ [x]) = omap f l ++ match f x with Some y => [y] | None => [] end.
Proof. rewrite omap_app. simpl. by destruct (f x). Qed.
Lemma last_omap_snoc {A B} (f : A → option B) l x :
  last (omap f (l ++ [x])) = match f x with Some y => Some y | None => last (omap f l) end.
Proof. rewrite omap_snoc. destruct (f x); [by rewrite last_snoc|by rewrite app_nil_r]. Qed.

Lemma known_ok_step trans initial read k s :
  known_ok trans initial read k → known_ok trans initial (read ++ [s]) (step_known trans initial k s).
Proof.
  intros (HS & HC & HF). unfold step_known.
  rewrite step_source_eq. destruct (fold_left _ SOURCE_FIELDS _) as [f1 src] eqn:E1.
  rewrite step_counter_eq. destruct (fold_left _ COUNTER_FIELDS _) as [f2 cnt] eqn:E2.
  destruct (remember_spec id (λ n, source_value trans n s) source_check (λ n n' E, E) SOURCE_FIELDS
    (known_findings k) (known_source k)) as [S1 S2]; [by apply (bool_decide_unpack _); vm_compute|].
  assert (Hinj : ∀ n n', counter_key (boot_id s) n = counter_key (boot_id s) n' → n = n') by (unfold counter_key; congruence).
  destruct (remember_spec (counter_key (boot_id s)) (λ n, int_field n s) (counter_check initial (boot_id s)) Hinj
    COUNTER_FIELDS f1 (known_counters k)) as [C1 C2]; [by apply (bool_decide_unpack _); vm_compute|].
  assert (C3 : ∀ n b, b ≠ boot_id s → cnt !! (b, n) = known_counters k !! (b, n)).
  { intros n b Hb. pose proof (remember_lookup (counter_key (boot_id s)) (λ n, int_field n s) (counter_check initial (boot_id s))
      COUNTER_FIELDS f1 (known_counters k) (b, n)) as Hl. rewrite E2 in Hl. apply Hl. unfold counter_key. congruence. }
  rewrite E1 in S1, S2. rewrite E2 in C1, C2. unfold counter_key in C1, C2. cbn [fst snd id] in *. split_and!; cbn.
  - intros n Hn. rewrite last_omap_snoc, <- HS by done. by rewrite S2.
  - intros n b Hn. rewrite last_omap_snoc, <- HC by done. unfold counter_value. case_bool_decide as Eb; subst; [by rewrite C2|by rewrite C3].
  - intros Hcl. destruct (C1 Hcl) as [Hf1 Hcnt]. destruct (S1 Hf1) as [Hk Hsrc]. destruct (HF Hk) as [HF1 HF2]. split.
    + intros n Hn. rewrite omap_snoc. destruct (source_value trans n s) as [v|] eqn:Ev; [|rewrite app_nil_r; auto].
      apply StronglySorted_snoc; [apply follows_trans|auto|]. rewrite <- HS by done. by apply source_check_clean, Hsrc.
    + intros n b Hn. destruct (HF2 n b Hn) as [He Hz]. rewrite omap_snoc. unfold counter_value at 2 4.
      case_bool_decide as Eb; [subst b|by rewrite app_nil_r]. destruct (int_field n s) as [v|] eqn:Ev; [|by rewrite app_nil_r].
      pose proof (counter_check_clean _ _ _ _ _ (Hcnt n v Hn Ev)) as Hv. rewrite HC in Hv by done. split.
      * apply StronglySorted_snoc; [congruence|done|]. intros x Hx. by rewrite Hx in Hv.
      * intros Hi. apply Forall_app. split; [auto|]. constructor; [|done].
        destruct (last _) as [x|] eqn:El; [|auto]. subst x. specialize (Hz Hi). rewrite Forall_forall in Hz.
        by apply Hz, last_Some_elem_of.
Qed.

Lemma check_known_ok trans ss : known_ok trans (boot_id <$> head ss) ss (check_known trans ss).
Proof.
  unfold check_known. generalize (boot_id <$> head ss) as initial. intros initial.
  apply (fold_left_inv _ (known_ok trans initial)); [|intros; by apply known_ok_step].
  split_and!; [done|done|]. intros _. split; intros; [constructor|split; [constructor|constructor]].
Qed.

(** ** Health of every sample *)
Definition healthy (s : SmokeSample) : Prop :=
  (∀ n, n ∈ HEALTH_FIELDS → health_field n s = Some true) ∧
  (∀ n, n ∈ SOURCE_FIELDS ++ COUNTER_FIELDS → is_Some (int_field n s)).

(** A sample of the commanded reboot's new boot, before it recovered: no counter
    it reports is nonzero, and a healthy sample of that boot follows in time. *)
Definition starting (e : SmokeEvidence) (ss : list SmokeSample) (s : SmokeSample) : Prop :=
  ∃ tr t r, reboot_startup s = Some tr ∧ t ∈ valid_tests e ∧ kind t = ESP_REBOOT ∧ boot_after t = boot_id s ∧
    test_started_at t <= recorded_at s < recovered_at t ∧
    (∀ n, n ∈ unobserved_fields tr → int_field n s = None ∨ n = "source_count") ∧
    (∀ n, n ∈ COUNTER_FIELDS → zero_or_unknown (int_field n s) = true) ∧
    r ∈ ss ∧ boot_id r = boot_id s ∧ recorded_at s < recorded_at r <= recovered_at t ∧ healthy r.

Definition sample_ok (e : SmokeEvidence) (ss : list SmokeSample) (s : SmokeSample) : Prop :=
  target s = ev_target e ∧ release s = ev_release e ∧ started_at e <= recorded_at s <= ended_at e ∧
  0 <= recorded_at s - diagnostics_at s <= seconds 45 ∧ (healthy s ∨ starting e ss s).

Lemma identity_clean e s : clean (check_sample_identity e s) →
  target s = ev_target e ∧ release s = ev_release e ∧ started_at e <= recorded_at s <= ended_at e ∧
  0 <= recorded_at s - diagnostics_at s <= seconds 45.
Proof.
  unfold check_sample_identity. intros H. cleaned H. destruct H as [[[H1 H2] [H3 H4]] [H5 H6]].
  rewrite bool_decide_eq_true in H1, H2. done.
Qed.

Lemma fields_clean s : clean (check_fields s ∅ ∅) → healthy s.
Proof.
  unfold check_fields. rewrite clean_both, !clean_each. intros [H1 H2]. split; intros n Hn.
  - specialize (H1 n Hn). rewrite (bool_decide_eq_false_2 (n ∈ ∅)) in H1 by set_solver. unfold is_Some_true in H1.
    destruct (health_field n s) as [[]|]; [done| |]; exfalso; revert H1; simpl; [by rewrite clean_fail|by rewrite clean_miss].
  - specialize (H2 n Hn). rewrite clean_when_miss, (bool_decide_eq_false_2 (n ∈ ∅)) in H2 by set_solver.
    destruct (int_field n s); [eauto|done].
Qed.

Lemma recovered_healthy e s r t : recovered_ok e s r t = true →
  boot_id r = boot_id s ∧ recorded_at s < recorded_at r <= recovered_at t ∧ healthy r.
Proof.
  unfold recovered_ok. rewrite !andb_true_iff, !forallb_forall. intros [[[[[[[H1 H2] H3] _] _] _] H4] H5].
  bool_prop. split_and!; [done|lia|lia|]. split; intros n Hn%list_elem_of_In.
  - by apply H4, bool_decide_eq_true in Hn.
  - apply H5 in Hn. destruct (int_field n r); [eauto|done].
Qed.

Lemma transition_starting e ss st s tr :
  reboot_startup s = Some tr → transition_ok e ss st s tr = true → starting e ss s.
Proof.
  intros Hs. unfold transition_ok. destruct (reboot_matches e s tr) as [|t [|]] eqn:Em; [done| |done].
  destruct (by_id ss _) as [r|] eqn:Er; [|done]. rewrite !andb_true_iff, !forallb_forall.
  intros [[[[[[[[[H1 _] _] _] _] _] _] _] H2] H3]. apply recovered_healthy in H1 as (Hb & Hr & Hh).
  assert (Ht : t ∈ reboot_matches e s tr) by (rewrite Em; by left).
  unfold reboot_matches in Ht. apply list_elem_of_In, filter_In in Ht as [Ht%list_elem_of_In Hm]. bool_prop.
  apply find_some in Er as [Hin%list_elem_of_In _]. rewrite elem_of_reverse in Hin.
  exists tr, t, r. split_and!; try done.
  - intros n Hn%list_elem_of_In%H2. apply orb_true_iff in Hn as [Hn|Hn].
    + left. by destruct (int_field n s).
    + right. by apply andb_true_iff in Hn as [Hn%bool_decide_eq_true _].
  - intros n Hn%list_elem_of_In. by apply H3.
  - lia.
  - lia.
Qed.

Definition scan_ok (e : SmokeEvidence) (ss read : list SmokeSample) (st : scan) : Prop :=
  (clean (scan_findings st) → ∀ s, s ∈ read → sample_ok e ss s) ∧
  (∀ i, i ∈ transitions st → ∃ s, s ∈ read ∧ telemetry_id s = i ∧ starting e ss s).

Lemma scan_ok_step e ss read st s : scan_ok e ss read st → scan_ok e ss (read ++ [s]) (scan_sample e ss st s).
Proof.
  intros [H1 H2]. unfold scan_sample. destruct (reboot_startup s) as [tr|] eqn:Etr; [destruct (transition_ok e ss st s tr) eqn:Eok|].
  - pose proof (transition_starting _ _ _ _ _ Etr Eok) as Hst. split; cbn.
    + rewrite !clean_both. intros [[[Hf Hid] _] _] x. rewrite elem_of_app, list_elem_of_singleton. intros [Hx| ->]; [auto|].
      destruct (identity_clean _ _ Hid) as (? & ? & ? & ?). split_and!; auto; lia.
    + intros i. rewrite elem_of_union, elem_of_singleton. intros [->|Hi]; [exists s; set_solver|].
      destruct (H2 i Hi) as (x & ? & ? & ?). exists x. set_solver.
  - split; cbn.
    + rewrite !clean_both, clean_fail. naive_solver.
    + intros i Hi. destruct (H2 i Hi) as (x & ? & ? & ?). exists x. set_solver.
  - split; cbn.
    + rewrite !clean_both. intros [[[Hf Hid] _] Hfl] x. rewrite elem_of_app, list_elem_of_singleton. intros [Hx| ->]; [auto|].
      destruct (identity_clean _ _ Hid) as (? & ? & ? & ?). apply fields_clean in Hfl. split_and!; auto; lia.
    + intros i Hi. destruct (H2 i Hi) as (x & ? & ? & ?). exists x. set_solver.
Qed.

Lemma scan_samples_ok e ss : scan_ok e ss ss (scan_samples e ss).
Proof.
  apply (fold_left_inv _ (scan_ok e ss)); [|intros; by apply scan_ok_step]. split; [set_solver|]. intros i Hi. cbn in Hi. set_solver.
Qed.

(** Outside [source_count], the values excused during startup are unreported. *)
Lemma source_value_plain e ss n s :
  NoDup (map telemetry_id ss) → n ≠ "source_count" → s ∈ ss →
  source_value (transitions (scan_samples e ss)) n s = int_field n s.
Proof.
  intros Hnd Hn Hs. unfold source_value. case_bool_decide as E; [|done]. symmetry. unfold excused in E.
  case_bool_decide as Ei; [|set_solver]. destruct (proj2 (scan_samples_ok e ss) _ Ei) as (s' & Hs' & Hid & Hst).
  apply (NoDup_map_inj telemetry_id ss) in Hid as ->; [|done..].
  destruct Hst as (tr & t & r & Htr & _ & _ & _ & _ & Hu & _). rewrite Htr in E. unfold names in E.
  apply elem_of_list_to_set in E. destruct (Hu n E); done.
Qed.

(** ** What a PASS means *)
Record smoke_qualified (e : SmokeEvidence) (now : Z) : Prop := {
  q_interval : ready_at e <= started_at e ∧ started_at e + minutes 15 <= ended_at e <= now;
  q_release : release_state e = "HIL_ONLY" ∧ deployment_state e = "SUCCEEDED";
  q_reviews : source_continuity_verified e = Some true ∧ queue_preservation_verified e = Some true ∧
    alert_review_complete e = Some true ∧ unresolved_regression e = Some false;
  q_preserved : preserved_evidence_before e ⊆ preserved_evidence_after e ∪ transferred_evidence_receipts e;
  q_recovery : ∃ ti tr before after,
    recovery_tests e ≡ₚ [ti; tr] ∧ kind ti = ADD_INTERRUPT_30S ∧ kind tr = ESP_REBOOT ∧
    test_command_id ti ≠ test_command_id tr ∧ test_passed e 3 5 ti ∧ interruption_seconds ti = Some 30 ∧
    boot_before ti = boot_after ti ∧ test_passed e 5 8 tr ∧ boot_before tr ≠ boot_after tr ∧
    one_reboot (sorted_samples e) tr before after ∧
    (∀ n s v, n ∈ COUNTER_FIELDS → s ∈ after → int_field n s = Some v → v <= 0);
  q_samples : ∀ s, s ∈ samples e → sample_ok e (samples e) s;
  q_coverage : ∀ t, started_at e <= t <= ended_at e → near e (samples e) t;
  q_cursor : StronglySorted Z.le (omap committed_cursor (sorted_samples e));
  q_generation : ∀ s s' g g', s ∈ samples e → s' ∈ samples e →
    source_generation s = Some g → source_generation s' = Some g' → g = g';
  q_counters : ∀ n s s' v v', n ∈ COUNTER_FIELDS → s ∈ samples e → s' ∈ samples e → boot_id s = boot_id s' →
    int_field n s = Some v → int_field n s' = Some v' → v = v';
  q_source_complete : ∃ s, last (sorted_samples e) = Some s ∧ committed_cursor s = source_count s;
  q_attendance : attendance e ≠ [] ∧ NoDup (map event_id (attendance e)) ∧
    (∀ r, r ∈ attendance e → started_at e <= observed_at r <= ended_at e ∧ logical_record_count r = 1 ∧
      has_oracle r = negb (has_exception r)) ∧
    ∀ t, t ∈ recovery_tests e → ∃ r, r ∈ attendance e ∧ has_oracle r = true ∧
      test_started_at t - seconds 60 <= observed_at r <= recovered_at t + seconds 60 }.

Lemma sorted_eq_all l (x y : Z) : StronglySorted eq l → x ∈ l → y ∈ l → x = y.
Proof.
  induction 1 as [|a l Hl IH Ha]; [set_solver|]. rewrite Forall_forall in Ha.
  intros [->|Hx]%elem_of_cons [->|Hy]%elem_of_cons; auto. symmetry. auto.
Qed.

Lemma omap_ext_in {A B} (f g : A → option B) (l : list A) : (∀ x, x ∈ l → f x = g x) → omap f l = omap g l.
Proof.
  induction l as [|a l IH]; intros H; [done|]. csimpl. rewrite (H a) by left. rewrite IH; [done|]. intros x Hx. apply H. by right.
Qed.

Lemma elem_sorted e s : s ∈ sorted_samples e ↔ s ∈ samples e.
Proof. unfold sorted_samples. by rewrite sort_by_perm. Qed.

Lemma sample_ok_sorted e s : sample_ok e (sorted_samples e) s → sample_ok e (samples e) s.
Proof.
  intros (? & ? & ? & ? & [Hh|(tr & t & r & H)]); split_and!; auto; try lia. right. exists tr, t, r.
  rewrite elem_sorted in H. done.
Qed.

Lemma near_sorted e t : near e (sorted_samples e) t → near e (samples e) t.
Proof. intros [(s & Hs & ?)|?]; [left|by right]. exists s. by rewrite elem_sorted in Hs. Qed.

(** The known-value loop over the sorted samples of a clean evaluation. *)
Lemma known_clean_facts e :
  let ss := sorted_samples e in
  NoDup (map telemetry_id ss) → clean (known_findings (check_known (transitions (scan_samples e ss)) ss)) →
  StronglySorted Z.le (omap committed_cursor ss) ∧
  (∀ s s' g g', s ∈ ss → s' ∈ ss → source_generation s = Some g → source_generation s' = Some g' → g = g') ∧
  (∀ n b, n ∈ COUNTER_FIELDS → StronglySorted eq (omap (counter_value b n) ss) ∧
     (Some b ≠ boot_id <$> head ss → Forall (λ v, v <= 0) (omap (counter_value b n) ss))).
Proof.
  intros ss Hnd Hc. destruct (check_known_ok (transitions (scan_samples e ss)) ss) as (_ & _ & H).
  destruct (H Hc) as [HS HC]. split_and!; [| |done].
  - specialize (HS "committed_cursor" ltac:(right; by left)).
    rewrite (omap_ext_in _ committed_cursor) in HS by (intros s Hs; by rewrite (source_value_plain e ss)). exact HS.
  - specialize (HS "source_generation" ltac:(by left)).
    rewrite (omap_ext_in _ source_generation) in HS by (intros s Hs; by rewrite (source_value_plain e ss)).
    intros s s' g g' Hs Hs' Hg Hg'. apply (sorted_eq_all (omap source_generation ss)).
    + clear -HS. induction HS as [|a l Hl IH Ha]; constructor; [done|]. eapply Forall_impl; [exact Ha|]. by intros x.
    + apply list_elem_of_omap. eauto.
    + apply list_elem_of_omap. eauto.
Qed.

Lemma attendance_clean e : clean (check_attendance e) →
  attendance e ≠ [] ∧ NoDup (map event_id (attendance e)) ∧
  (∀ r, r ∈ attendance e → started_at e <= observed_at r <= ended_at e ∧ logical_record_count r = 1 ∧
    has_oracle r = negb (has_exception r)) ∧
  ∀ t, t ∈ valid_tests e → ∃ r, r ∈ attendance e ∧ has_oracle r = true ∧
    test_started_at t - seconds 60 <= observed_at r <= recovered_at t + seconds 60.
Proof.
  unfold check_attendance. rewrite !clean_both, !clean_each, clean_when_miss, clean_when_fail.
  intros [[[H1 H2] H3] H4]. split_and!.
  - intros E. by rewrite E in H1.
  - by apply negb_false_iff, bool_decide_eq_true in H2.
  - intros r Hr. specialize (H3 r Hr). unfold check_attendance_row in H3. cleaned H3. destruct H3 as [[H3 H5] H6].
    split_and!; [lia|lia|done|]. by destruct (has_oracle r), (has_exception r).
  - intros t Ht. specialize (H4 t Ht). rewrite clean_when_miss in H4. apply negb_false_iff, existsb_exists in H4 as (r & Hr%list_elem_of_In & H4).
    cleaned H4. exists r. naive_solver.
Qed.

Lemma run_clean e now : clean (check_run e now) →
  (ready_at e <= started_at e ∧ started_at e + minutes 15 <= ended_at e <= now) ∧
  (release_state e = "HIL_ONLY" ∧ deployment_state e = "SUCCEEDED") ∧
  (source_continuity_verified e = Some true ∧ queue_preservation_verified e = Some true ∧
    alert_review_complete e = Some true ∧ unresolved_regression e = Some false) ∧
  preserved_evidence_before e ⊆ preserved_evidence_after e ∪ transferred_evidence_receipts e.
Proof.
  unfold check_run. rewrite !clean_both, !clean_tri, !clean_when_miss, !clean_when_fail.
  intros [[[[[[[[[H1 H2] H3] H4] H5] H6] H7] H8] H9] H10]. bool_prop. unfold minutes, seconds in *.
  split_and!; try lia; try done. destruct (unresolved_regression e) as [[]|]; [by apply clean_fail in H4|done|by apply clean_miss in H4].
Qed.

Lemma verdict_pass f : verdict (verdict_of f) = "PASS" → clean f ∧ reasons (verdict_of f) = [].
Proof.
  unfold verdict_of, clean. destruct f as [[|x l] [|y m]]; cbn; done.
Qed.

(** The reboot the samples show is the one recovery test of that kind. *)
Lemma recovery_clean e :
  let ss := sorted_samples e in
  clean (check_test_set (recovery_tests e)) → (∀ t, t ∈ recovery_tests e → clean (check_test e t)) →
  boot_changes ss = 1 → (∀ p, p ∈ pairs ss → clean (check_pair e p)) →
  (∀ n b, n ∈ COUNTER_FIELDS → Some b ≠ boot_id <$> head ss → Forall (λ v, v <= 0) (omap (counter_value b n) ss)) →
  ∃ ti tr before after,
    recovery_tests e ≡ₚ [ti; tr] ∧ kind ti = ADD_INTERRUPT_30S ∧ kind tr = ESP_REBOOT ∧
    test_command_id ti ≠ test_command_id tr ∧ test_passed e 3 5 ti ∧ interruption_seconds ti = Some 30 ∧
    boot_before ti = boot_after ti ∧ test_passed e 5 8 tr ∧ boot_before tr ≠ boot_after tr ∧
    one_reboot ss tr before after ∧ (∀ n s v, n ∈ COUNTER_FIELDS → s ∈ after → int_field n s = Some v → v <= 0).
Proof.
  intros ss Hset Htests Hone Hpairs Hz. destruct (test_set_clean _ Hset) as (ti & tr & Hp & Hki & Hkr & Hcmd).
  destruct (planned_reboot e ss Hone Hpairs) as (t & before & after & Ht & Hk & Hr).
  assert (Hin : ∀ x, x ∈ recovery_tests e ↔ x = ti ∨ x = tr) by (intros x; rewrite Hp; set_solver).
  apply valid_tests_clean in Ht as [Ht _]. apply Hin in Ht as [-> | ->]; [congruence|].
  pose proof (check_test_clean e ti (Htests ti ltac:(apply Hin; auto))) as Hi. rewrite Hki in Hi.
  pose proof (check_test_clean e tr (Htests tr ltac:(apply Hin; auto))) as Hb. rewrite Hkr in Hb.
  exists ti, tr, before, after. destruct Hi as (? & ? & ?), Hb as (? & Hne). split_and!; try done.
  intros n s v Hn Hs Hv. destruct Hr as (Heq & Hbn & _ & Hb1 & Hb2). rewrite Forall_forall in Hb1, Hb2.
  assert (Hhd : Some (boot_after tr) ≠ boot_id <$> head ss).
  { destruct before as [|a before]; [done|]. rewrite Heq. simpl. intros [= E]. rewrite (Hb1 a) in E by left. done. }
  specialize (Hz n _ Hn Hhd). rewrite Forall_forall in Hz. apply Hz, list_elem_of_omap. exists s. split.
  - rewrite Heq. apply elem_of_app. by right.
  - unfold counter_value. by rewrite bool_decide_eq_true_2 by auto.
Qed.


(** The verdict and its reasons do not depend on the order in which the
    telemetry samples were collected, when no two carry the same instant. *)
Theorem smoke_order_independent e ss' now aware :
  NoDup (map recorded_at (samples e)) → samples e ≡ₚ ss' →
  let e' := mkEvidence (run_id e) (deployment_id e) (ev_target e) (ev_release e) (release_state e) (deployment_state e)
    (started_at e) (ended_at e) (ready_at e) ss' (recovery_tests e) (attendance e) (certificate_ids e)
    (source_continuity_verified e) (tail_verified_at e) (preserved_evidence_before e) (preserved_evidence_after e)
    (transferred_evidence_receipts e) (queue_preservation_verified e) (alert_review_complete e) (unresolved_regression e) in
  evaluate_smoke e' now aware = evaluate_smoke e now aware.
Proof.
  intros Hnd Hp e'. assert (Hs : sorted_samples e' = sorted_samples e).
  { unfold sorted_samples. symmetry. by apply sort_by_unique. }
  unfold evaluate_smoke, all_findings. rewrite Hs. done.
Qed.

(** ** Witnesses: a run that passes, with one startup sample after the reboot *)
Definition wit_target : HilTarget := mkTarget "isb-01" "aa:bb:cc:dd:ee:ff" "SN1".
Definition wit_release : ReleaseIdentity := mkRelease "2.8.1" "" "" "" "key".
Definition wit_sample (i : Z) : SmokeSample :=
  let ok := Some true in
  mkSample (i + 1) (seconds (30 * i)) (seconds (30 * i)) wit_target wit_release (if i <=? 11 then "A" else "B")
    ok ok ok ok ok (if i =? 12 then None else ok) (Some 4) (Some (100 + i)) (Some (100 + i)) (Some 0) (Some 0) (Some 0) (Some 0)
    (if i =? 12 then Some (mkTransition "cmd-2" 14 "CHECKING_READER" ["terminal_certified"] []) else None).
Definition wit_interrupt : RecoveryTest :=
  mkTest "cmd-1" "run" ADD_INTERRUPT_30S wit_target (seconds 190) (seconds 200) (seconds 300) (seconds 240) SUCCEEDED
    true true true true (Some 30) "A" "A".
Definition wit_reboot : RecoveryTest :=
  mkTest "cmd-2" "run" ESP_REBOOT wit_target (seconds 320) (seconds 330) (seconds 600) (seconds 420) SUCCEEDED
    true true false false None "A" "B".
Definition wit_evidence (ss : list SmokeSample) : SmokeEvidence :=
  mkEvidence "run" "dep" wit_target wit_release "HIL_ONLY" "SUCCEEDED" 0 (seconds 900) 0 ss [wit_interrupt; wit_reboot]
    [mkProof 1 (seconds 210) 1 (Some 8) None; mkProof 2 (seconds 400) 1 (Some 9) None] ["cert"] (Some true) (Some (seconds 600))
    ∅ ∅ ∅ (Some true) (Some true) (Some false).
Definition wit_samples : list SmokeSample := map (λ i, wit_sample (Z.of_nat i)) (seq 0 31).


Lemma smoke_order_independent_witness :
  evaluate_smoke (wit_evidence (rev wit_samples)) (seconds 900) true
  = evaluate_smoke (wit_evidence wit_samples) (seconds 900) true.
Proof.
  apply (smoke_order_independent (wit_evidence wit_samples) (rev wit_samples)).
  - apply (bool_decide_unpack _). vm_compute. exact I.
  - apply Permutation_rev.
Defined.
