(* ===== verification/HilStartup.v ===== *)
(** * Telemetry samples and the controlled-reboot startup classification

    hil_observation._sample turns one stored heartbeat into a [SmokeSample] with
    its errors; hil_startup.classify_startup recognises the unfinished checks of
    a commanded reboot. An exception inside the classification is no
    classification, so it is an [option]. The ISO parser of the standard library
    is a parameter: it returns the instant and whether the text had a zone. *)
From S2P Require Import Prelude PyText Hashes PyJson RuntimeContract HilSmoke.
Open Scope string_scope.
Open Scope list_scope.
Open Scope Z_scope.

(** ** Stored rows *)
Record DeviceTelemetry := mkTelemetry {
  row_id : Z; row_created_at : Z; row_boot_id : option string; row_uptime_seconds : option Z; row_payload : pyval }.
Record DeviceLog := mkLog { log_code : string; log_boot_id : option string; log_received_at : Z }.

(** The part of the details a sample keeps next to it. *)
Record SampleDetails := mkDetails {
  errors : list string; detail_queues : option (list (string * Z)); qualified_reader : pyval; qualified_reader_pending : bool;
  worker_restart_counts : list (string * pyval) }.

Definition dict_list (v : pyval) : option (list pyval) :=
  match v with PList l => if forallb is_dict l then Some l else None | _ => None end.
Definition item_name (v : pyval) : option string := as_str (get "name" v).
(** The names of items that all have one. *)
Definition named (l : list pyval) : option (list string) := mapM item_name l.
Definition find_named (n : string) (l : list pyval) : pyval :=
  default PNone (List.find (λ v, bool_decide (item_name v = Some n)) l).
Definition dict_or (v : pyval) : pyval := if is_dict v then v else PDict [].
Definition or_empty (v : pyval) : pyval := if truthy v then v else PDict [].

(** [_queues]: the record counts of the required queues, when all are known. *)
Definition _queues (diagnostics : pyval) : option (list (string * Z)) :=
  rows ← dict_list (get "queues" diagnostics);
  ns ← named rows;
  if negb (bool_decide (NoDup ns)) || negb (forallb (λ q, bool_decide (q ∈ ns)) ["journal"; "legacy_migration"]) then None
  else mapM (λ q, let row := find_named q rows in
               if is_true (get "count_known" row) && integer (get "records" row)
               then (λ r, (q, r)) <$> as_int (get "records" row) else None) ["journal"; "legacy_migration"].

(** ** The qualified reader *)
Definition PROOF_KEYS : list string :=
  ["schema_version"; "verified"; "matrix_sha256"; "version"; "application_sha256"; "slot_address"; "slot_size";
   "proof_generation"; "sampled_uptime_ms"].
Definition same_keys (d : list (string * pyval)) (keys : list string) : bool :=
  bool_decide (length d = length keys) && forallb (λ k, bool_decide (k ∈ d.*1)) keys.

Definition generation_ok (v : pyval) : bool :=
  match v with
  | PStr s => match digits_value (chars s) with
              | Some z => (1 <=? zlen (chars s)) && (zlen (chars s) <=? 20) && bool_decide (py_str z = s)
                          && (1 <=? z) && (z <=? 2 ^ 64 - 1)
              | None => false
              end
  | _ => false
  end.

Definition qualified_reader_proof (diagnostics admission : pyval) (uptime_seconds : option Z) : res pyval :=
  let reader := get "reader" admission in
  match get "qualified_reader" diagnostics with
  | PDict proof =>
      let p k := get k (PDict proof) in
      if negb (same_keys proof PROOF_KEYS) || negb (is_dict reader)
         || negb match p "schema_version" with PInt z => z =? 1 | _ => false end
         || negb (is_true (p "verified"))
         || negb (py_eq (p "matrix_sha256") (get "matrix_sha256" admission))
         || negb (py_eq (p "version") (get "version" reader))
         || negb (py_eq (p "application_sha256") (get "application_sha256" reader))
         || negb match p "slot_address" with PInt z => (z =? 0x2A0000) || (z =? 0x520000) | _ => false end
         || negb match p "slot_size" with PInt z => z =? 0x280000 | _ => false end
         || negb match p "sampled_uptime_ms", uptime_seconds with
                 | PInt s, Some up => (0 <=? s) && (0 <=? up) && (-1000 <=? up * 1000 - s) && (up * 1000 - s <=? 45000)
                 | _, _ => false end
         || negb (generation_ok (p "proof_generation"))
      then Raise ValueError "Exact fresh retained reader proof is missing or invalid."
      else Ok (PDict (List.filter (λ kv, negb (bool_decide (kv.1 = "sampled_uptime_ms"))) proof))
  | _ => Raise ValueError "Exact fresh retained reader proof is missing or invalid."
  end.

Section sample.
Context (fromisoformat : string → option (Z * bool)).

(** [_time]: an instant with a timezone, or nothing. *)
Definition _time (v : pyval) : option Z :=
  match v with PStr s => match fromisoformat (replace_z s) with Some (t, true) => Some t | _ => None end | _ => None end.

Definition none_removed (d : list (string * pyval)) : list (string * pyval) := List.filter (λ kv, negb (is_none kv.2)) d.

(** The reader part of a sample: the proof, whether it is pending, and the error. *)
Definition reader_part (diagnostics baseline : pyval) (uptime : option Z) : res (pyval * bool * list string) :=
  match baseline with
  | PDict b =>
      match assoc "reader_admission" b with
      | None => Ok (PNone, false, [])
      | Some admission =>
          match qualified_reader_proof diagnostics admission uptime with
          | Ok proof => Ok (proof, false, if py_eq proof (get "qualified_reader" baseline) then [] else ["QUALIFIED_READER_CHANGED"])
          | Raise _ _ =>
              if negb (is_dict admission) then Raise AttributeError "get"
              else
                let minimal := match get "qualified_reader" diagnostics with PDict raw => none_removed raw | _ => [] end in
                let pending :=
                  py_eq (PDict minimal) (PDict [("schema_version", PInt 1); ("verified", PBool false);
                                                ("matrix_sha256", get "matrix_sha256" admission)])
                  && match get "schema_version" (PDict minimal) with PInt _ => true | _ => false end
                  && is_dict (get "journal_runtime" diagnostics)
                  && is_false (get "writer_ready" (get "journal_runtime" diagnostics)) in
                Ok (PNone, pending, [if pending then "QUALIFIED_READER_PROOF_PENDING" else "QUALIFIED_READER_UNVERIFIED"])
          end
      end
  | _ => Raise TypeError "baseline"
  end.

Definition opt_bool (v : pyval) : option bool := match v with PBool b => Some b | _ => None end.
Definition opt_count (v : pyval) : option Z := if integer v then as_int v else None.
Definition true_or_unknown (b : bool) : option bool := if b then Some true else None.

Definition workers_ok (ws : list pyval) (ns : list string) (uptime : option Z) : bool :=
  bool_decide (NoDup ns)
  && bool_decide (workers RUNTIME ⊆ list_to_set ns ∧ list_to_set ns ⊆ workers RUNTIME ∪ auxiliary_workers RUNTIME)
  && forallb (λ w, (eq_str (get "state" w) "RUNNING" || eq_str (get "state" w) "WAITING_NETWORK")
                   && worker_snapshot_fresh w uptime RUNTIME) ws.

Definition storage_part (diagnostics storage : pyval) (uptime : option Z) : option bool * list string :=
  let shape_bad := negb (is_dict (get_or "journal_storage" (PDict []) diagnostics)) in
  let diagnostics := if shape_bad then match diagnostics with PDict d => PDict (assoc_set "journal_storage" (PDict []) d) | v => v end
                     else diagnostics in
  let faults := existsb (λ k, truthy (get k storage))
    ["error_code"; "upgrade_error"; "persistence_probe_error"; "legacy_error_code"; "legacy_read_faults"; "legacy_append_faults";
     "legacy_retire_faults"] in
  let '(status, raised) := match journal_storage_status diagnostics uptime with
                           | Ok s => (s, false) | Raise _ _ => (Some "UNKNOWN", true) end in
  let health := if is_none (get "durability" storage) || bool_decide (status ∈ [None; Some "UNKNOWN"]) then None
                else Some (eq_str (get "durability" storage) "HEALTHY" && negb faults && bool_decide (status = Some "HEALTHY")) in
  let incident := get "hil_reboot_persistence_incident" (or_empty (get "journal_storage" diagnostics)) in
  let '(health, unknown) := if is_true incident then (Some false, false)
                            else if negb (is_false incident) then (None, true) else (health, false) in
  (health, (if shape_bad then ["JOURNAL_STORAGE_SHAPE_INVALID"] else [])
           ++ (if raised : bool then ["JOURNAL_STORAGE_SHAPE_INVALID"] else [])
           ++ (if unknown : bool then ["REBOOT_PERSISTENCE_INCIDENT_STATE_UNKNOWN"] else [])).

Definition terminal_part (baseline terminal source_generation : pyval) (tgt : HilTarget) : option bool :=
  if negb (truthy (get "serial" terminal)) || negb (is_bool (get "online" terminal)) || negb (integer source_generation) then None
  else Some (eq_str (get "serial" terminal) (terminal_serial tgt) && is_true (get "online" terminal)
             && py_eq source_generation (get "source_generation" baseline)).

Definition freshness_bad (row : DeviceTelemetry) (sampled : option Z) (tick : pyval) : bool :=
  negb match sampled with Some s => (0 <=? row_created_at row - s) && (row_created_at row - s <=? seconds 45) | None => false end
  || negb (integer tick)
  || negb match row_uptime_seconds row, tick with
          | Some up, PInt t => (0 <=? up) && (-5000 <=? up * 1000 - t) && (up * 1000 - t <=? 5000)
          | _, _ => false end.

Definition application_bad (diagnostics ota : pyval) (identity : ReleaseIdentity) : bool :=
  negb (py_eq (get "schema_version" diagnostics) (PInt 2)) || negb (py_eq (get "journal_format" diagnostics) (PInt 1))
  || negb (eq_str (get "runtime_profile" diagnostics) "ZKT_JOURNAL_V1")
  || negb (eq_str (get "running_version" ota) (version identity))
  || negb (eq_str (get "image_sha256" ota) (application_sha256 identity))
  || negb (eq_str (get "running_partition" ota) "ota_0" || eq_str (get "running_partition" ota) "ota_1")
  || negb (is_true (get "secure_boot" ota)) || negb (is_true (get "rollback_enabled" ota)).

Definition if_err (b : bool) (e : string) : list string := if b then [e] else [].

Definition cursor_exceeds (cursor count : pyval) : bool :=
  match cursor, count with PInt c, PInt n => (0 <=? c) && (0 <=? n) && (n <? c) | _, _ => false end.

(** The workers with their names, when the list has that shape. *)
Definition worker_list (diagnostics : pyval) : option (list pyval * list string) :=
  l ← dict_list (if truthy (get "workers" diagnostics) then get "workers" diagnostics else PList []);
  ns ← named l; Some (l, ns).

Definition restart_total (restarts : list pyval) : option Z :=
  if negb (bool_decide (length restarts = 0%nat)) && forallb integer restarts
  then Some (foldr (λ v acc, default 0 (as_int v) + acc) 0 restarts) else None.

Definition rejections (logs : list DeviceLog) (boot : option string) (recorded : Z) : Z :=
  zlen (List.filter (λ l, bool_decide (log_code l = "DEVICE_MESSAGE_REJECTED") && bool_decide (log_boot_id l = boot)
                          && (log_received_at l <=? recorded)) logs).

(** [_sample]; [logs] are the device logs of the observation. *)
Definition _sample (row : DeviceTelemetry) (baseline : pyval) (tgt : HilTarget) (identity : ReleaseIdentity) (logs : list DeviceLog)
    : res (SmokeSample * SampleDetails) :=
  let payload := dict_or (row_payload row) in
  let raw := or_empty (get "diagnostics" payload) in
  let diagnostics := dict_or raw in
  let shape_ok := is_dict (or_empty (get "storage" diagnostics)) && is_dict (or_empty (get "ota" payload))
                  && is_dict (or_empty (get "zkt" payload)) in
  let part v := if shape_ok then or_empty v else PDict [] in
  let storage := part (get "storage" diagnostics) in
  let ota := part (get "ota" payload) in
  let terminal := part (get "zkt" payload) in
  let sampled := _time (get "_trusted_envelope_sent_at" payload) in
  reader ← reader_part diagnostics baseline (row_uptime_seconds row);
  let '(proof, pending, reader_errors) := reader in
  let '(ws, ns) := default ([], []) (worker_list diagnostics) in
  let qs := _queues diagnostics in
  let generation := get "source_generation" diagnostics in
  let cursor := get "committed_source_cursor" diagnostics in
  let count := get "attendance_count" terminal in
  let '(storage_health, storage_errors) := storage_part diagnostics storage (row_uptime_seconds row) in
  let boot := match row_boot_id row with Some b => if bool_decide (b = "") then None else Some b | None => None end in
  let errs := if_err (negb (is_dict raw)) "DIAGNOSTICS_SHAPE_INVALID"
    ++ if_err (negb shape_ok) "TELEMETRY_SHAPE_INVALID"
    ++ if_err (freshness_bad row sampled (get "sampled_uptime_ms" diagnostics)) "DIAGNOSTICS_FRESHNESS_UNPROVEN"
    ++ if_err (negb match boot with Some b => eq_str (get "boot_id" diagnostics) b | None => false end) "DIAGNOSTICS_BOOT_MISMATCH"
    ++ if_err (application_bad diagnostics ota identity) "SIGNED_WRITER_APPLICATION_MISMATCH"
    ++ if_err (negb (eq_str (get "delivery_authority" diagnostics) "ADD")) "DELIVERY_AUTHORITY_UNVERIFIED"
    ++ reader_errors
    ++ if_err (match worker_list diagnostics with Some _ => false | None => true end) "WORKER_SHAPE_INVALID"
    ++ if_err (cursor_exceeds cursor count) "SOURCE_CURSOR_EXCEEDS_COUNT"
    ++ storage_errors in
  Ok (mkSample (row_id row) (row_created_at row) (default (row_created_at row - seconds 46) sampled) tgt identity
        (default "MISSING" boot) storage_health (opt_bool (get "persistence_verified" storage))
        (opt_bool (get "recovery_complete" storage)) (true_or_unknown (workers_ok ws ns (row_uptime_seconds row)))
        (true_or_unknown (match qs with Some _ => true | None => false end)) (terminal_part baseline terminal generation tgt)
        (opt_count generation) (opt_count cursor) (opt_count count)
        (opt_count (get "write_failures" storage)) (opt_count (get "read_failures" storage))
        (restart_total (map (get "restart_count") ws)) (Some (rejections logs (row_boot_id row) (row_created_at row))) None,
      mkDetails errs qs proof pending (zip ns (map (get "restart_count") ws))).
End sample.

(** ** The startup classification *)
Definition WORKER_COUNTERS (name : string) : list string :=
  if bool_decide (name = "storage_owner") then ["failures"; "refusals"]
  else if bool_decide (name = "capture") then ["failures"; "timeouts"]
  else if bool_decide (name = "add_delivery") then ["failures"; "consecutive_failures"; "timeouts"; "refusals"] else [].

(** [fresh(value, tick)]: [-5000 <= tick - value < 45000] *)
Definition fresh (v tick : pyval) : bool :=
  match v, tick with PInt x, PInt t => (0 <=? x) && (-5000 <=? t - x) && (t - x <? 45000) | _, _ => false end.

Definition all_health (s : SmokeSample) : bool := forallb (λ n, is_Some_true (health_field n s)) HEALTH_FIELDS.

(** The sample, the reboot test and the recovery sample belong together. *)
Definition bound_ok (row : DeviceTelemetry) (s : SmokeSample) (d : SampleDetails) (control : pyval) (t : RecoveryTest)
    (r : SmokeSample) : bool :=
  is_dict control && py_eq (get "recovery_telemetry_id" control) (PInt (telemetry_id r))
  && bool_decide (boot_id s = boot_after t) && bool_decide (boot_id r = boot_after t)
  && (test_started_at t <=? diagnostics_at s) && (diagnostics_at s <=? recorded_at s)
  && (recorded_at s <? recorded_at r) && (recorded_at r <=? recovered_at t)
  && match reboot_startup r with None => true | Some _ => false end
  && all_health r
  && match row_uptime_seconds row with
     | Some up => (0 <=? up) && (seconds up <=? diagnostics_at s - test_started_at t + seconds 5) | None => false end
  && forallb (λ e, bool_decide (e ∈ ["DELIVERY_AUTHORITY_UNVERIFIED"; "QUALIFIED_READER_PROOF_PENDING"])) (errors d).

Definition at_most_int (v : pyval) (n : Z) : bool := match v with PInt z => (0 <=? z) && (z <=? n) | _ => false end.

Definition runtime_ok (diag runtime : pyval) (ph : string) : bool :=
  let tick := get "sampled_uptime_ms" diag in
  let authority := get "delivery_authority" diag in
  integer tick && bool_decide (ph ∈ HIL_STARTUP_PHASES)
  && (eq_str authority "ADD" || eq_str authority "UNKNOWN") && py_eq (get "delivery_authority" runtime) authority
  && forallb (λ k, is_bool (get k runtime)) ["observed"; "reader_ready"; "writer_ready"]
  && zero (get "failures" runtime)
  && forallb (λ k, at_most_int (get k runtime) 1) ["storage_starts"; "delivery_starts"; "capture_starts"; "proof_attempts"]
  && at_most_int (get "start_attempts" runtime) 3
  && (is_none (get "compatibility" runtime) || eq_str (get "compatibility" runtime) "")
  && Bool.eqb (bool_decide (ph = "NOT_STARTED")) (is_false (get "observed" runtime))
  && negb (bool_decide (ph = "NOT_STARTED") && (is_true (get "reader_ready" runtime) || is_true (get "writer_ready" runtime)))
  && negb (is_true (get "writer_ready" runtime) && negb (bool_decide (ph = "READY")))
  && (negb (is_true (get "observed" runtime)) || fresh (get "sampled_uptime_ms" runtime) tick).

Definition storage_clean (storage : pyval) : bool :=
  forallb (λ k, is_none (get k storage) || eq_str (get k storage) "" || is_zero (get k storage)) STORAGE_ERRORS
  && forallb (λ k, is_none (get k storage) || zero (get k storage)) STORAGE_COUNTERS
  && (is_none (get "fault_class" storage) || eq_str (get "fault_class" storage) "NONE").

Definition journal_clean (journal : pyval) : bool :=
  is_false (get "hil_reboot_persistence_incident" journal)
  && (is_none (get "last_append_result" journal) || eq_str (get "last_append_result" journal) "OK")
  && (is_none (get "last_failure_operation" journal) || eq_str (get "last_failure_operation" journal) "")
  && forallb (λ k, is_none (get k journal) || is_zero (get k journal)) ["last_filesystem_error"; "last_nvs_error"]
  && forallb (λ k, is_bool (get k journal)) ["observed"; "fresh"; "ready"; "checkpoint_recovery_pending"]
  && zero (get "pending_appends" journal) && is_false (get "checkpoint_recovery_pending" journal).

(** The journal's and the storage's durability agree with their progress. *)
Definition durability_ok (diag runtime storage journal : pyval) (ph : string) : bool :=
  let ready := is_true (get "ready" journal) in
  let dur := get "durability" journal in
  let verified := is_true (get "persistence_verified" storage) in
  let complete := is_true (get "recovery_complete" storage) in
  (if is_true (get "fresh" journal) then
     is_true (get "observed" journal) && fresh (get "sampled_uptime_ms" journal) (get "sampled_uptime_ms" diag)
     && eq_str dur (if ready then "HEALTHY" else "DEGRADED")
   else is_false (get "observed" journal) && is_false (get "ready" journal) && eq_str dur "UNKNOWN")
  && (py_eq (get "durability" storage) dur
      || (eq_str dur "HEALTHY" && eq_str (get "durability" storage) "UNKNOWN"
          && (is_false (get "persistence_verified" storage) || is_false (get "recovery_complete" storage))))
  && forallb (λ k, is_bool (get k storage)) ["persistence_verified"; "recovery_complete"]
  && negb (negb ready && (verified || complete))
  && negb (bool_decide (ph = "READY")
           && (negb (is_true (get "writer_ready" runtime)) || negb (is_true (get "reader_ready" runtime)) || negb ready
               || negb (eq_str (get "delivery_authority" diag) "ADD"))).

Definition worker_ok (diag runtime journal : pyval) (uptime : option Z) (w : pyval) : bool :=
  let name := default "" (item_name w) in
  let state s := eq_str (get "state" w) s in
  let started := get "operation_started_uptime_ms" w in
  zero (get "restart_count" w)
  && forallb (λ k, is_none (get k w) || zero (get k w))
       ["restart_attempts"; "failures"; "timeouts"; "refusals"; "consecutive_failures"]
  && forallb (λ k, zero (get k w)) (WORKER_COUNTERS name)
  && existsb state ["UNKNOWN"; "STOPPED"; "WAITING_RESOURCE"; "RUNNING"; "WAITING_NETWORK"]
  && (if state "RUNNING" || state "WAITING_NETWORK" then worker_snapshot_fresh w uptime RUNTIME
      else if bool_decide (name = "storage_owner") then
        negb (is_true (get "ready" journal)) && Bool.eqb (state "UNKNOWN") (is_false (get "observed" journal))
      else if bool_decide (name = "capture") then negb (is_true (get "writer_ready" runtime))
      else if bool_decide (name = "add_delivery") then
        negb (match get "delivery_starts" runtime with PInt z => 0 <? z | _ => false end && negb (state "UNKNOWN"))
      else true)
  && (is_none started
      || match started, get "sampled_uptime_ms" diag with
         | PInt x, PInt t => (0 <=? x) && (-5000 <=? t - x) && (t - x <? 15000) | _, _ => false end).

Definition queue_ok (item : pyval) : bool :=
  if is_true (get "count_known" item) then integer (get "records" item)
  else is_false (get "count_known" item) && is_none (get "records" item)
       && existsb (eq_str (get "count_reason" item)) ["STALE_OWNER"; "NONEMPTY_OR_UNVERIFIED"; "UNVERIFIED_MIGRATION"].

Definition terminal_ok (terminal : pyval) (s : SmokeSample) : bool :=
  (eq_str (get "serial" terminal) "" || eq_str (get "serial" terminal) (terminal_serial (target s)))
  && is_bool (get "online" terminal)
  && existsb (eq_str (get "connection_state" terminal)) ["BOOTING"; "UNKNOWN"; "DISCOVERING"; "CONNECTING"; "RECOVERING"; "ONLINE"]
  && zero (get "consecutive_failures" terminal) && zero (get "flap_count_15m" terminal).

Definition unknown (n : string) (s : SmokeSample) : bool := negb (known_field (int_field n s)).

(** Fields the boot has not observed yet, with the checks on them; [None] when
    they are not an ordinary unfinished prefix. *)
Definition unobserved_of (storage terminal : pyval) (s : SmokeSample) : option (list string) :=
  let base := List.filter (λ n, unknown n s) ["write_failures"; "read_failures"; "source_generation"; "committed_cursor"] in
  if negb (Bool.eqb (unknown "source_generation" s) (unknown "committed_cursor" s))
     || negb (Bool.eqb (unknown "write_failures" s) (unknown "read_failures" s)) then None
  else if unknown "write_failures" s
          && (is_true (get "persistence_verified" storage) || is_true (get "recovery_complete" storage)
              || existsb (λ k, negb (is_none (get k storage))) STORAGE_COUNTERS) then None
  else if unknown "source_generation" s && is_false (get "online" terminal)
          && existsb (eq_str (get "connection_state" terminal)) ["BOOTING"; "UNKNOWN"; "DISCOVERING"; "CONNECTING"]
          && bool_decide (source_count s = Some 0) then Some (base ++ ["source_count"])
  else if unknown "source_count" s then None
  else Some base.

Definition pending_of (s : SmokeSample) : list string := List.filter (λ n, negb (is_Some_true (health_field n s))) HEALTH_FIELDS.

Definition startup_facts (diag storage journal runtime terminal : pyval) : pyval :=
  PDict [("storage", storage); ("journal_storage", journal); ("journal_runtime", runtime); ("workers", get "workers" diag);
         ("queues", get "queues" diag);
         ("terminal", PDict (map (λ k, (k, get k terminal))
            ["serial"; "online"; "connection_state"; "attendance_count"; "consecutive_failures"; "flap_count_15m"]));
         ("delivery_authority", get "delivery_authority" diag); ("source_generation", get "source_generation" diag);
         ("committed_source_cursor", get "committed_source_cursor" diag)].

Definition reader_pending_ok (d : SampleDetails) (runtime : pyval) (ph : string) : bool :=
  negb (bool_decide ("QUALIFIED_READER_PROOF_PENDING" ∈ errors d))
  || (qualified_reader_pending d && is_false (get "writer_ready" runtime) && negb (bool_decide (ph = "READY"))).

(** [names] of a list of dicts that all have a distinct one. *)
Definition unique_names (v : pyval) : option (list pyval * list string) :=
  l ← dict_list v; ns ← named l; if bool_decide (NoDup ns) then Some (l, ns) else None.

Definition checked (b : bool) : option unit := if b then Some () else None.

(** [classify_startup], with [_classify_startup] inside. *)
Definition classify_startup (row : DeviceTelemetry) (s : SmokeSample) (d : SampleDetails) (control : pyval)
    (test : option RecoveryTest) (recovered : option SmokeSample) : option (RebootStartupTransition * pyval) :=
  t ← test; r ← recovered;
  _ ← checked (bound_ok row s d control t r);
  let payload := row_payload row in
  let diag := get "diagnostics" payload in
  let storage := get "storage" diag in let journal := get "journal_storage" diag in
  let runtime := get "journal_runtime" diag in let terminal := get "zkt" payload in
  _ ← checked (is_dict diag && is_dict storage && is_dict journal && is_dict runtime && is_dict terminal);
  ph ← as_str (get "phase" runtime);
  _ ← checked (reader_pending_ok d runtime ph);
  _ ← checked (runtime_ok diag runtime ph && storage_clean storage && journal_clean journal);
  _ ← checked (durability_ok diag runtime storage journal ph);
  ws ← unique_names (get "workers" diag);
  _ ← checked (bool_decide (workers RUNTIME ⊆ list_to_set ws.2 ∧ list_to_set ws.2 ⊆ workers RUNTIME ∪ auxiliary_workers RUNTIME));
  _ ← checked (forallb (worker_ok diag runtime journal (row_uptime_seconds row)) ws.1);
  qs ← unique_names (get "queues" diag);
  _ ← checked (bool_decide (queues RUNTIME ⊆ list_to_set qs.2));
  _ ← checked (forallb (λ q, queue_ok (find_named q qs.1)) (elements (queues RUNTIME)));
  _ ← checked (terminal_ok terminal s);
  unobserved ← unobserved_of storage terminal s;
  _ ← checked (negb (bool_decide (pending_of s = [])));
  Some (mkTransition (test_command_id t) (telemetry_id r) ph (pending_of s) unobserved,
        startup_facts diag storage journal runtime terminal).

(** ** Reading a classification back *)
Lemma checked_some b u : checked b = Some u ↔ b = true.
Proof. destruct b, u; naive_solver. Qed.

(** Every guard a classification passed. *)
Record classified (row : DeviceTelemetry) (s : SmokeSample) (d : SampleDetails) (control : pyval) (t : RecoveryTest)
    (r : SmokeSample) (tr : RebootStartupTransition) (ph : string) (ws qs : list pyval * list string) : Prop := {
  c_bound : bound_ok row s d control t r = true;
  c_dict : is_dict (get "diagnostics" (row_payload row)) = true ∧ is_dict (get "storage" (get "diagnostics" (row_payload row))) = true;
  c_runtime : runtime_ok (get "diagnostics" (row_payload row)) (get "journal_runtime" (get "diagnostics" (row_payload row))) ph = true;
  c_storage : storage_clean (get "storage" (get "diagnostics" (row_payload row))) = true;
  c_journal : journal_clean (get "journal_storage" (get "diagnostics" (row_payload row))) = true;
  c_workers : unique_names (get "workers" (get "diagnostics" (row_payload row))) = Some ws;
  c_names : workers RUNTIME ⊆ list_to_set ws.2;
  c_worker : ∀ w, w ∈ ws.1 → worker_ok (get "diagnostics" (row_payload row))
    (get "journal_runtime" (get "diagnostics" (row_payload row)))
    (get "journal_storage" (get "diagnostics" (row_payload row))) (row_uptime_seconds row) w = true;
  c_queues : unique_names (get "queues" (get "diagnostics" (row_payload row))) = Some qs;
  c_terminal : terminal_ok (get "zkt" (row_payload row)) s = true;
  c_unobserved : unobserved_of (get "storage" (get "diagnostics" (row_payload row))) (get "zkt" (row_payload row)) s
    = Some (unobserved_fields tr);
  c_pending : pending_of s ≠ [];
  c_result : tr = mkTransition (test_command_id t) (telemetry_id r) ph (pending_of s) (unobserved_fields tr) }.

Lemma classify_inv row s d control test recovered tr facts :
  classify_startup row s d control test recovered = Some (tr, facts) →
  ∃ t r ph ws qs, test = Some t ∧ recovered = Some r ∧ classified row s d control t r tr ph ws qs.
Proof.
  unfold classify_startup. intros H.
  apply bind_Some in H as (t & Ht & H). apply bind_Some in H as (r & Hr & H).
  apply bind_Some in H as (? & Hb%checked_some & H). apply bind_Some in H as (? & Hd%checked_some & H).
  apply bind_Some in H as (ph & Hph & H). apply bind_Some in H as (? & Hrp%checked_some & H).
  apply bind_Some in H as (? & Hrt%checked_some & H). apply bind_Some in H as (? & Hdur%checked_some & H).
  apply bind_Some in H as (ws & Hws & H). apply bind_Some in H as (? & Hwn%checked_some & H).
  apply bind_Some in H as (? & Hwo%checked_some & H). apply bind_Some in H as (qs & Hqs & H).
  apply bind_Some in H as (? & Hqn%checked_some & H). apply bind_Some in H as (? & Hqo%checked_some & H).
  apply bind_Some in H as (? & Hte%checked_some & H). apply bind_Some in H as (un & Hun & H).
  apply bind_Some in H as (? & Hp%checked_some & H).
  assert (Htr : tr = mkTransition (test_command_id t) (telemetry_id r) ph (pending_of s) un) by congruence.
  exists t, r, ph, ws, qs. split_and!; [done|done|]. apply bool_decide_eq_true in Hwn as [Hwn _].
  apply andb_true_iff in Hrt as [[Hrt Hst]%andb_true_iff Hjo]. rewrite !andb_true_iff in Hd. destruct Hd as [[[[Hd1 Hd2] _] _] _].
  rewrite forallb_forall in Hwo. subst tr.
  exact (Build_classified row s d control t r (mkTransition (test_command_id t) (telemetry_id r) ph (pending_of s) un) ph ws qs
    Hb (conj Hd1 Hd2) Hrt Hst Hjo Hws Hwn (λ w Hw, Hwo w (proj1 (list_elem_of_In _ _) Hw)) Hqs Hte Hun
    (proj1 (bool_decide_eq_false _) (proj1 (negb_true_iff _) Hp)) eq_refl).
Qed.

Lemma zero_value v : zero v = true → v = PInt 0.
Proof. destruct v; simpl; try done. rewrite Z.eqb_eq. by intros ->. Qed.
Lemma none_or_zero v : is_none v || zero v = true → v = PNone ∨ v = PInt 0.
Proof. rewrite orb_true_iff. intros [H|H]; [left; by destruct v|right; by apply zero_value]. Qed.

Lemma named_elem l ns : named l = Some ns → ∀ n, n ∈ ns → ∃ w, w ∈ l ∧ item_name w = Some n.
Proof.
  revert ns. induction l as [|a l IH]; intros ns H.
  - injection H as <-. set_solver.
  - unfold named in H. simpl in H. apply bind_Some in H as (x & Hx & (ns' & Hns & [= <-])%bind_Some).
    intros n [->|Hn]%elem_of_cons; [exists a; split; [by left|done]|].
    destruct (IH ns' Hns n Hn) as (w & ? & ?). exists w. split; [by right|done].
Qed.

Lemma unique_names_some v ws : unique_names v = Some ws →
  v = PList ws.1 ∧ named ws.1 = Some ws.2 ∧ NoDup ws.2.
Proof.
  unfold unique_names. intros H. apply bind_Some in H as (l & Hl & H). apply bind_Some in H as (ns & Hns & H).
  case_bool_decide; [|done]. injection H as <-. split_and!; [|done|done].
  destruct v; try done. simpl in Hl. by destruct (forallb is_dict l0); simplify_eq.
Qed.

Lemma worker_ok_counters diag runtime journal up w :
  worker_ok diag runtime journal up w = true →
  get "restart_count" w = PInt 0 ∧
  (∀ k, k ∈ ["restart_attempts"; "failures"; "timeouts"; "refusals"; "consecutive_failures"] → get k w = PNone ∨ get k w = PInt 0) ∧
  (∀ k, k ∈ WORKER_COUNTERS (default "" (item_name w)) → get k w = PInt 0).
Proof.
  unfold worker_ok. rewrite !andb_true_iff, !forallb_forall. intros [[[[[H1 H2] H3] _] _] _]. split_and!.
  - by apply zero_value.
  - intros k Hk%list_elem_of_In. by apply none_or_zero, H2.
  - intros k Hk%list_elem_of_In. by apply zero_value, H3.
Qed.

Lemma unreported_falsy v : is_none v || eq_str v "" || is_zero v = true → truthy v = false.
Proof.
  destruct v as [|[]|z|f|t| |]; cbn; try done.
  - by rewrite Z.eqb_eq, negb_false_iff, Z.eqb_eq.
  - by rewrite negb_false_iff.
  - by rewrite orb_false_r, negb_false_iff.
Qed.
Lemma is_false_value v : is_false v = true → v = PBool false.
Proof. by destruct v as [|[]| | | | |]. Qed.

Lemma bound_facts row s d control t r : bound_ok row s d control t r = true →
  boot_id s = boot_after t ∧ boot_id r = boot_after t ∧ test_started_at t <= recorded_at s < recorded_at r ∧
  recorded_at r <= recovered_at t ∧ reboot_startup r = None ∧ all_health r = true.
Proof.
  unfold bound_ok. rewrite !andb_true_iff. intros [[[[[[[[[[[_ _] H1] H2] H3] H4] H5] H6] H7] H8] _] _].
  apply bool_decide_eq_true in H1, H2. apply Z.leb_le in H3, H4, H6. apply Z.ltb_lt in H5.
  split_and!; [exact H1|exact H2|lia|exact H5|exact H6|by destruct (reboot_startup r)|exact H8].
Qed.

Definition startup_workers : list string := ["capture"; "storage_owner"; "add_delivery"].
Lemma startup_workers_required n : n ∈ startup_workers → n ∈ workers RUNTIME.
Proof. unfold startup_workers. rewrite !elem_of_cons, elem_of_nil. intros [->|[->|[->|[]]]]; by apply (bool_decide_unpack _). Qed.

(** a sample is classified as ordinary startup only when it reports no fault.
    Every storage counter is absent or zero, no storage error is reported, no
    reboot persistence incident is recorded, every worker reports no failure, and
    the three mandatory workers report their own counters as zero; a later sample
    of the same boot, within the reboot test, has every check healthy. *)
Theorem startup_hides_no_fault row s d control test recovered tr facts :
  classify_startup row s d control test recovered = Some (tr, facts) →
  let diag := get "diagnostics" (row_payload row) in
  (∀ k, k ∈ STORAGE_COUNTERS → get k (get "storage" diag) = PNone ∨ get k (get "storage" diag) = PInt 0) ∧
  (∀ k, k ∈ STORAGE_ERRORS → truthy (get k (get "storage" diag)) = false) ∧
  get "hil_reboot_persistence_incident" (get "journal_storage" diag) = PBool false ∧
  (∃ ws, get "workers" diag = PList ws ∧
    (∀ w k, w ∈ ws → k ∈ ["restart_attempts"; "failures"; "timeouts"; "refusals"; "consecutive_failures"] →
      get "restart_count" w = PInt 0 ∧ (get k w = PNone ∨ get k w = PInt 0)) ∧
    ∀ n, n ∈ startup_workers → ∃ w, w ∈ ws ∧ item_name w = Some n ∧ ∀ k, k ∈ WORKER_COUNTERS n → get k w = PInt 0) ∧
  ∃ t r, test = Some t ∧ recovered = Some r ∧ boot_id r = boot_id s ∧
    test_started_at t <= recorded_at s < recorded_at r ∧ recorded_at r <= recovered_at t ∧ all_health r = true.
Proof.
  intros H diag. destruct (classify_inv _ _ _ _ _ _ _ _ H) as (t & r & ph & ws & qs & -> & -> & Hc).
  pose proof (c_storage _ _ _ _ _ _ _ _ _ _ Hc) as Hs. pose proof (c_journal _ _ _ _ _ _ _ _ _ _ Hc) as Hj.
  pose proof (c_bound _ _ _ _ _ _ _ _ _ _ Hc) as Hb. destruct (unique_names_some _ _ (c_workers _ _ _ _ _ _ _ _ _ _ Hc)) as (Hw & Hn & _).
  apply bound_facts in Hb as (Hb1 & Hb2 & Hb3 & Hb4 & _ & Hb5).
  unfold storage_clean in Hs. rewrite !andb_true_iff, !forallb_forall in Hs. destruct Hs as [[Hse Hsc] _].
  unfold journal_clean in Hj. rewrite !andb_true_iff in Hj. destruct Hj as [[[[[[Hj _] _] _] _] _] _].
  split; [|split; [|split; [|split]]].
  - intros k Hk%list_elem_of_In. by apply none_or_zero, Hsc.
  - intros k Hk%list_elem_of_In. by apply unreported_falsy, Hse.
  - apply is_false_value, Hj.
  - exists ws.1. split; [exact Hw|split].
    + intros w k Hin Hk. destruct (worker_ok_counters _ _ _ _ _ (c_worker _ _ _ _ _ _ _ _ _ _ Hc w Hin)) as (H1 & H2 & _). auto.
    + intros n Hin%startup_workers_required. apply (c_names _ _ _ _ _ _ _ _ _ _ Hc), elem_of_list_to_set in Hin.
      destruct (named_elem _ _ Hn n Hin) as (w & Hww & Hname). exists w. split; [exact Hww|split; [exact Hname|]].
      destruct (worker_ok_counters _ _ _ _ _ (c_worker _ _ _ _ _ _ _ _ _ _ Hc w Hww)) as (_ & _ & H3).
      rewrite Hname in H3. exact H3.
  - exists t, r. split; [done|split; [done|]]. rewrite Hb2, Hb1. split; [done|split; [exact Hb3|split; [exact Hb4|exact Hb5]]].
Qed.

(** ** The evaluator accepts what the classifier produced *)

(** [sample.model_copy(update={"reboot_startup": transition})] *)
Definition with_startup (s : SmokeSample) (tr : RebootStartupTransition) : SmokeSample :=
  mkSample (telemetry_id s) (recorded_at s) (diagnostics_at s) (target s) (release s) (boot_id s)
    (storage_healthy s) (persistence_verified s) (recovery_complete s) (workers_healthy s) (counts_known s) (terminal_certified s)
    (source_generation s) (committed_cursor s) (source_count s) (write_failures s) (read_failures s) (worker_restarts s)
    (message_rejections s) (Some tr).

Lemma with_startup_int n s tr : int_field n (with_startup s tr) = int_field n s.
Proof. done. Qed.
Lemma with_startup_health n s tr : health_field n (with_startup s tr) = health_field n s.
Proof. done. Qed.

Lemma matches_one e s tr t :
  NoDup (map test_command_id (recovery_tests e)) → t ∈ valid_tests e → kind t = ESP_REBOOT →
  command_id tr = test_command_id t → boot_after t = boot_id s →
  test_started_at t <= recorded_at s < recovered_at t → reboot_matches e s tr = [t].
Proof.
  intros Hnd Ht Hk Hcmd Hb Hrec. unfold reboot_matches. apply (filter_unique test_command_id).
  - unfold valid_tests. clear -Hnd. induction (recovery_tests e) as [|a l IH]; simpl in *; [done|].
    apply NoDup_cons in Hnd as [Ha Hl]. destruct (is_clean _); simpl; [|auto]. apply NoDup_cons. split; [|auto].
    intros (x & Hx & Hin)%list_elem_of_fmap. apply Ha. rewrite Hx. apply list_elem_of_fmap_2.
    apply list_elem_of_In, filter_In in Hin as [Hin _]. by apply list_elem_of_In.
  - exact Ht.
  - rewrite !andb_true_iff, !bool_decide_eq_true. rewrite Z.leb_le, Z.ltb_lt. split_and!; [done|done|done|lia|lia].
  - intros y _. rewrite !andb_true_iff, !bool_decide_eq_true. intros [[[[_ H] _] _] _]. congruence.
Qed.

Lemma unobserved_of_facts storage terminal s un :
  unobserved_of storage terminal s = Some un →
  NoDup un ∧ ∀ n, n ∈ un → unknown n s = true ∨ (n = "source_count" ∧ source_count s = Some 0).
Proof.
  unfold unobserved_of. destruct (_ || _); [done|]. destruct (unknown "write_failures" s && _); [done|].
  set (base := List.filter _ _). intros H.
  assert (Hb : NoDup base).
  { apply NoDup_ListNoDup, List.NoDup_filter, NoDup_ListNoDup. by apply (bool_decide_unpack _). }
  assert (Hin : ∀ n, n ∈ base → unknown n s = true ∧ n ≠ "source_count").
  { intros n [Hn Hu]%list_elem_of_In%filter_In. split; [done|]. intros ->. apply list_elem_of_In in Hn.
    rewrite !elem_of_cons, elem_of_nil in Hn. by destruct_or! Hn. }
  destruct (unknown "source_generation" s && _ && _ && _) eqn:E.
  - injection H as <-. apply andb_true_iff in E as [_ E%bool_decide_eq_true]. split.
    + apply NoDup_app. split_and!; [done| |apply NoDup_singleton]. intros n Hn Hs%list_elem_of_singleton. by apply (Hin n).
    + intros n [Hn|Hn%list_elem_of_singleton]%elem_of_app; [left; by apply Hin|by right].
  - destruct (unknown "source_count" s); [done|]. injection H as <-. split; [done|]. intros n Hn. left. by apply Hin.
Qed.

Lemma size_names l : NoDup l → size (names l) = length l.
Proof. intros H. unfold names. by apply size_list_to_set. Qed.

Lemma pending_nodup s : NoDup (pending_of s).
Proof. apply NoDup_ListNoDup, List.NoDup_filter, NoDup_ListNoDup. by apply (bool_decide_unpack _). Qed.

(** *** The counters of a classified sample *)
Lemma dict_or_empty_id v : is_dict v = true → or_empty v = v.
Proof. destruct v as [| | | | | |[|]]; done. Qed.

Lemma count_zero v : v = PNone ∨ v = PInt 0 → zero_or_unknown (opt_count v) = true.
Proof. by intros [-> | ->]. Qed.

Lemma restart_zero ws : (∀ w, w ∈ ws → get "restart_count" w = PInt 0) → zero_or_unknown (restart_total (map (get "restart_count") ws)) = true.
Proof.
  intros H. unfold restart_total. destruct (_ && _); [|done]. simpl. apply Z.eqb_eq. induction ws as [|w ws IH]; simpl; [done|].
  rewrite (H w) by left. simpl. rewrite IH; [done|]. intros x Hx. apply H. by right.
Qed.

Lemma worker_list_names diag ws : unique_names (get "workers" diag) = Some ws → worker_list diag = Some ws.
Proof.
  intros H. destruct (unique_names_some _ _ H) as (Hv & Hn & _). unfold worker_list, unique_names in *. rewrite Hv in *.
  replace (if truthy (PList ws.1) then PList ws.1 else PList []) with (PList ws.1) by by destruct (ws.1).
  destruct (dict_list _) as [l|] eqn:El; simpl in H; [|done]. assert (l = ws.1) as -> by (simpl in El; by destruct (forallb _ _); simplify_eq).
  simpl. rewrite Hn. simpl. by destruct ws.
Qed.

Lemma dict_or_id v : is_dict v = true → dict_or v = v.
Proof. unfold dict_or. by intros ->. Qed.
Lemma get_dict k v : is_dict (get k v) = true → is_dict v = true.
Proof. by destruct v. Qed.

(** The counters [_sample] copies are the reported ones, or unknown. *)
Lemma sample_counters iso row baseline tgt identity logs s d :
  _sample iso row baseline tgt identity logs = Ok (s, d) →
  let diag := get "diagnostics" (row_payload row) in
  is_dict diag = true → is_dict (get "storage" diag) = true →
  (write_failures s = opt_count (get "write_failures" (get "storage" diag)) ∨ write_failures s = None) ∧
  (read_failures s = opt_count (get "read_failures" (get "storage" diag)) ∨ read_failures s = None) ∧
  worker_restarts s = restart_total (map (get "restart_count") (default ([], []) (worker_list diag)).1) ∧
  target s = tgt ∧ release s = identity.
Proof.
  intros H diag Hd Hs. unfold _sample in H. rewrite (dict_or_id (row_payload row)) in H by by eapply get_dict.
  fold diag in H. rewrite (dict_or_empty_id diag Hd), (dict_or_id diag Hd), (dict_or_empty_id _ Hs) in H.
  apply bind_ok in H as ([[proof pending] errs] & _ & H).
  destruct (default ([], []) (worker_list diag)) as [ws ns]. destruct (storage_part _ _ _) as [sh se].
  apply Ok_inj, (f_equal fst) in H. cbn [fst] in H. subst s. cbn [write_failures read_failures worker_restarts target release fst].
  destruct (_ && _); split_and!; auto.
Qed.

Lemma classified_counters iso row baseline tgt identity logs s d control t r tr ph ws qs :
  _sample iso row baseline tgt identity logs = Ok (s, d) → classified row s d control t r tr ph ws qs →
  message_rejections s = Some 0 → ∀ n, n ∈ COUNTER_FIELDS → zero_or_unknown (int_field n s) = true.
Proof.
  intros Hs Hc Hm. destruct (c_dict _ _ _ _ _ _ _ _ _ _ Hc) as [Hd1 Hd2].
  destruct (sample_counters _ _ _ _ _ _ _ _ Hs Hd1 Hd2) as (Hw & Hr & Hx & _).
  pose proof (c_storage _ _ _ _ _ _ _ _ _ _ Hc) as Hst. unfold storage_clean in Hst. rewrite !andb_true_iff, !forallb_forall in Hst.
  destruct Hst as [[_ Hst] _]. rewrite (worker_list_names _ _ (c_workers _ _ _ _ _ _ _ _ _ _ Hc)) in Hx.
  intros n. unfold COUNTER_FIELDS. rewrite !elem_of_cons, elem_of_nil. intros [->|[->|[->|[->|[]]]]].
  - change (zero_or_unknown (write_failures s) = true). destruct Hw as [-> | ->]; [|done]. apply count_zero, none_or_zero, Hst. by left.
  - change (zero_or_unknown (read_failures s) = true). destruct Hr as [-> | ->]; [|done].
    apply count_zero, none_or_zero, Hst. right. by left.
  - change (zero_or_unknown (worker_restarts s) = true). rewrite Hx. apply restart_zero. intros w Hw'.
    exact (proj1 (worker_ok_counters _ _ _ _ _ (c_worker _ _ _ _ _ _ _ _ _ _ Hc w Hw'))).
  - change (zero_or_unknown (message_rejections s) = true). by rewrite Hm.
Qed.

(** The evaluator accepts the transition the classifier produced. For a
    classified sample of the reboot test of a run, with the recovery sample
    stored, its counters reported and no message of the boot rejected, the check
    [evaluate_smoke] makes independently of the classifier holds, as long as the
    boot has not already finished or reported what the transition excuses. *)
Theorem startup_transition_accepted iso baseline logs e ss st row s d control t r tr facts :
  _sample iso row baseline (ev_target e) (ev_release e) logs = Ok (s, d) → message_rejections s = Some 0 →
  classify_startup row s d control (Some t) (Some r) = Some (tr, facts) →
  NoDup (map test_command_id (recovery_tests e)) → t ∈ valid_tests e → kind t = ESP_REBOOT →
  by_id ss (telemetry_id r) = Some r → target r = ev_target e → release r = ev_release e →
  (∀ n, n ∈ SOURCE_FIELDS ++ COUNTER_FIELDS → is_Some (int_field n r)) →
  (boot_id s ∉ finished_boots st) →
  names (pending_checks tr) ∩ of_boot (completed_checks st) (boot_id s) = ∅ →
  names (unobserved_fields tr) ∩ of_boot (observed_fields st) (boot_id s) = ∅ →
  transition_ok e ss st (with_startup s tr) tr = true.
Proof.
  intros Hsample Hmsg H Hnd Ht Hk Hid Htg Hrel Hknown Hfin Hdone Hobs.
  destruct (classify_inv _ _ _ _ _ _ _ _ H) as (t' & r' & ph & ws & qs & [= <-] & [= <-] & Hc).
  pose proof (classified_counters _ _ _ _ _ _ _ _ _ _ _ _ _ _ _ Hsample Hc Hmsg) as Hzero.
  destruct (bound_facts _ _ _ _ _ _ (c_bound _ _ _ _ _ _ _ _ _ _ Hc)) as (Hb1 & Hb2 & Hb3 & Hb4 & Hb5 & Hb6).
  pose proof (c_result _ _ _ _ _ _ _ _ _ _ Hc) as Htr. pose proof (c_pending _ _ _ _ _ _ _ _ _ _ Hc) as Hp.
  destruct (unobserved_of_facts _ _ _ _ (c_unobserved _ _ _ _ _ _ _ _ _ _ Hc)) as [Hund Hun].
  assert (Hpc : pending_checks tr = pending_of s) by by rewrite Htr.
  unfold transition_ok. rewrite (matches_one e _ tr t); [|done|done|done|by rewrite Htr|done|simpl; lia].
  replace (recovery_telemetry_id tr) with (telemetry_id r) by by rewrite Htr. rewrite Hid.
  rewrite !andb_true_iff. split_and!.
  - unfold recovered_ok. rewrite !andb_true_iff, !bool_decide_eq_true, Z.ltb_lt, Z.leb_le, !forallb_forall. split_and!.
    + simpl. lia.
    + exact Hb4.
    + simpl. congruence.
    + by rewrite Hb5.
    + exact Htg.
    + exact Hrel.
    + unfold all_health in Hb6. rewrite forallb_forall in Hb6. exact Hb6.
    + intros n Hn%list_elem_of_In%Hknown. by destruct Hn as [v ->].
  - simpl. by rewrite bool_decide_eq_false_2.
  - rewrite negb_true_iff, bool_decide_eq_false, Hpc. intros He. apply Hp. destruct (pending_of s) as [|n l]; [done|].
    exfalso. assert (n ∈ names (n :: l)) as Hn by (apply elem_of_list_to_set; by left). by rewrite He in Hn.
  - rewrite Hpc. apply bool_decide_eq_true, size_names, pending_nodup.
  - by apply bool_decide_eq_true, size_names.
  - rewrite Hpc. by apply bool_decide_eq_true.
  - by apply bool_decide_eq_true.
  - by apply bool_decide_eq_true.
  - apply forallb_forall. intros n Hn%list_elem_of_In. rewrite with_startup_int. destruct (Hun n Hn) as [Hu|[-> Hs]].
    + unfold unknown in Hu. by rewrite Hu.
    + simpl. rewrite Hs. by rewrite orb_true_r.
  - apply forallb_forall. intros n Hn%list_elem_of_In. rewrite with_startup_int. auto.
Qed.

(** ** Witnesses: a writer still waiting for its storage after the reboot *)
Definition wit_worker (name : string) : pyval :=
  PDict ([("name", PStr name); ("state", PStr "UNKNOWN")]
         ++ map (λ k, (k, PInt 0)) ["restart_count"; "failures"; "timeouts"; "refusals"; "consecutive_failures"]).
Definition wit_queue (name : string) : pyval :=
  PDict [("name", PStr name); ("count_known", PBool false); ("count_reason", PStr "STALE_OWNER")].
Definition wit_diagnostics : pyval :=
  PDict [("boot_id", PStr "B"); ("schema_version", PInt 2); ("journal_format", PInt 1); ("runtime_profile", PStr "ZKT_JOURNAL_V1");
    ("sampled_uptime_ms", PInt 25000); ("delivery_authority", PStr "UNKNOWN");
    ("storage", PDict [("durability", PStr "UNKNOWN"); ("persistence_verified", PBool false); ("recovery_complete", PBool false)]);
    ("journal_storage", PDict [("hil_reboot_persistence_incident", PBool false); ("observed", PBool false); ("fresh", PBool false);
       ("ready", PBool false); ("checkpoint_recovery_pending", PBool false); ("durability", PStr "UNKNOWN"); ("pending_appends", PInt 0)]);
    ("journal_runtime", PDict ([("phase", PStr "STORAGE_WAIT"); ("observed", PBool true); ("reader_ready", PBool false);
       ("writer_ready", PBool false); ("start_attempts", PInt 1); ("delivery_authority", PStr "UNKNOWN");
       ("sampled_uptime_ms", PInt 24000)]
       ++ map (λ k, (k, PInt 0)) ["failures"; "storage_starts"; "delivery_starts"; "capture_starts"; "proof_attempts"]));
    ("workers", PList (map wit_worker startup_workers)); ("queues", PList (map wit_queue ["journal"; "legacy_migration"]))].
Definition wit_row : DeviceTelemetry :=
  mkTelemetry 13 (seconds 360) (Some "B") (Some 25)
    (PDict [("_trusted_envelope_sent_at", PStr "sent"); ("diagnostics", wit_diagnostics);
       ("ota", PDict [("running_version", PStr "2.8.1"); ("image_sha256", PStr ""); ("running_partition", PStr "ota_0");
          ("secure_boot", PBool true); ("rollback_enabled", PBool true)]);
       ("zkt", PDict [("serial", PStr "SN1"); ("online", PBool false); ("connection_state", PStr "BOOTING");
          ("attendance_count", PInt 0); ("consecutive_failures", PInt 0); ("flap_count_15m", PInt 0)])]).
Definition wit_iso : string → option (Z * bool) := λ _, Some (seconds 358, true).
Definition wit_sampled : SmokeSample * SampleDetails :=
  match _sample wit_iso wit_row (PDict []) wit_target wit_release [] with
  | Ok p => p | Raise _ _ => (wit_sample 0, mkDetails [] None PNone false []) end.
Definition wit_control : pyval := PDict [("recovery_telemetry_id", PInt 14)].
Definition wit_transition : RebootStartupTransition :=
  mkTransition "cmd-2" 14 "STORAGE_WAIT"
    ["storage_healthy"; "persistence_verified"; "recovery_complete"; "workers_healthy"; "counts_known"; "terminal_certified"]
    ["write_failures"; "read_failures"; "source_generation"; "committed_cursor"; "source_count"].
Definition wit_facts : pyval :=
  startup_facts wit_diagnostics (get "storage" wit_diagnostics) (get "journal_storage" wit_diagnostics)
    (get "journal_runtime" wit_diagnostics) (get "zkt" (row_payload wit_row)).

Lemma wit_classified :
  classify_startup wit_row wit_sampled.1 wit_sampled.2 wit_control (Some wit_reboot) (Some (wit_sample 13)) = Some (wit_transition, wit_facts).
Proof. vm_compute. reflexivity. Qed.

Lemma startup_hides_no_fault_witness :
  ∃ ws, get "workers" wit_diagnostics = PList ws ∧ length ws = 3%nat ∧
    ∀ n, n ∈ startup_workers → ∃ w, w ∈ ws ∧ item_name w = Some n ∧ ∀ k, k ∈ WORKER_COUNTERS n → get k w = PInt 0.
Proof.
  destruct (startup_hides_no_fault _ _ _ _ _ _ _ _ wit_classified) as (_ & _ & _ & (ws & Hws & _ & Hn) & _).
  exists ws. split; [exact Hws|]. split; [|exact Hn].
  assert (E : get "workers" (get "diagnostics" (row_payload wit_row)) = PList (map wit_worker startup_workers)) by (vm_compute; reflexivity).
  rewrite E in Hws. injection Hws as <-. reflexivity.
Defined.

Lemma startup_transition_accepted_witness :
  transition_ok (wit_evidence []) [wit_sample 13] scan0 (with_startup wit_sampled.1 wit_transition) wit_transition = true.
Proof.
  apply (startup_transition_accepted wit_iso (PDict []) [] (wit_evidence []) [wit_sample 13] scan0 wit_row wit_sampled.1
           wit_sampled.2 wit_control wit_reboot (wit_sample 13) wit_transition wit_facts).
  - vm_compute. reflexivity.
  - vm_compute. reflexivity.
  - exact wit_classified.
  - apply (bool_decide_unpack _). vm_compute. exact I.
  - right. left.
  - reflexivity.
  - vm_compute. reflexivity.
  - reflexivity.
  - reflexivity.
  - intros n Hn. apply (proj1 (Forall_forall (λ n, is_Some (int_field n (wit_sample 13))) (SOURCE_FIELDS ++ COUNTER_FIELDS))) in Hn; [exact Hn|].
    apply (bool_decide_unpack _). vm_compute. exact I.
  - apply (bool_decide_unpack _). vm_compute. exact I.
  - apply (bool_decide_unpack _). vm_compute. exact I.
  - apply (bool_decide_unpack _). vm_compute. exact I.
Defined.
