(* ===== verification/ReleaseScope.v ===== *)
(** * Exact release scopes (hil_scope.py, zkt270_scope.py, hil_2615_cities.py, zkt_life_factory_bridges.py,
      zkt_factory_contract.py, storage_recovery.py, zkt_bridge_contract.py, zkt274_bld9_k50.py,
      zkt282_lhrcentral.py, zkt283_fsdmain.py)

    A HIL_ONLY release names the boards it may reach by connector, MAC and terminal serial. This file
    has the parser of such lists and the reviewed lists a release may expose; [_parse_release_hil_targets]
    (ota.py) chooses among them by the identity of the release. *)
From S2P Require Import Prelude PyText PyJson.
Open Scope string_scope.
Open Scope list_scope.
Open Scope Z_scope.

(** ** Targets *)
Record HilTarget := mkTarget { ht_connector_id : string; ht_mac : string; ht_terminal_serial : string }.
#[export] Instance HilTarget_eq_dec : EqDecision HilTarget. Proof. solve_decision. Defined.

Definition model_dump (t : HilTarget) : pyval :=
  PDict [("connector_id", PStr (ht_connector_id t)); ("mac", PStr (ht_mac t)); ("terminal_serial", PStr (ht_terminal_serial t))].

(** [(?:[0-9a-f]{2}:){5}[0-9a-f]{2}] *)
Definition hex_groups (sep : byte) (sizes : list nat) (s : string) : bool :=
  let groups := split_byte sep (chars s) in bool_decide (map length groups = sizes) && forallb (forallb is_hex) groups.
Definition canonical_mac (value : string) : res string :=
  let value := lower (strip value) in
  if hex_groups x3a [2; 2; 2; 2; 2; 2]%nat value then Ok value else Raise ValueError "HIL target requires an exact ESP MAC".
Definition exact_identity (value : string) : bool :=
  bool_decide (value = strip value) && forallb (λ b, 32 <=? zb b) (chars value).

(** [HilTarget.model_validate(row)]: the three text fields and no other. *)
Definition text_field (k : string) (row : pyval) : option string := as_str (get k row).
Definition model_validate (row : pyval) : res HilTarget :=
  match row, text_field "connector_id" row, text_field "mac" row, text_field "terminal_serial" row with
  | PDict fields, Some c, Some m, Some s =>
      if forallb (λ kv, bool_decide (kv.1 ∈ ["connector_id"; "mac"; "terminal_serial"])) fields
         && (1 <=? text_len c) && (text_len c <=? 100) && (1 <=? text_len s) && (text_len s <=? 120)
         && exact_identity c && exact_identity s
      then match canonical_mac m with Ok m => Ok (mkTarget c m s) | Raise _ e => Raise ValidationError e end
      else Raise ValidationError "HilTarget"
  | _, _, _, _ => Raise ValidationError "HilTarget"
  end.

Definition distinct (l : list string) : bool := bool_decide (NoDup l).
Definition parse_hil_targets (value : pyval) : res (list HilTarget) :=
  match value with
  | PList rows =>
      if (1 <=? zlen rows) && (zlen rows <=? 8) then
        targets ← mapR model_validate rows;
        if negb (distinct (map ht_connector_id targets)) then Raise ValueError "HIL scope repeats a target connector_id"
        else if negb (distinct (map ht_mac targets)) then Raise ValueError "HIL scope repeats a target mac"
        else if negb (distinct (map ht_terminal_serial targets)) then Raise ValueError "HIL scope repeats a target terminal_serial"
        else Ok targets
      else Raise ValueError "HIL scope requires an ordered list of one to eight exact targets"
  | _ => Raise ValueError "HIL scope requires an ordered list of one to eight exact targets"
  end.

(** ** The nationwide fleet *)
Record NationwideTarget := mkNationwide {
  nt_identity : HilTarget; nt_name : string; nt_location : string; nt_model : string; nt_wave : string; nt_hours : Z;
  nt_prerequisite : option string }.
Definition _target (connector mac serial name location model wave : string) (prerequisite : option string) : NationwideTarget :=
  mkNationwide (mkTarget connector mac serial) name location model wave (if bool_decide (wave ∈ ["B"; "D"]) then 168 else 72) prerequisite.
Definition TARGETS : list NationwideTarget :=
 [ _target "2ca9a4c2-5ae4-4330-8d14-840223672897" "a4:cb:8f:d4:66:64" "PGB1261200074" "SLICTOWER 3FL" "SLICTOWER" "G3" "A" None;
   _target "ef1b6fe9-592b-4cf3-95e7-9c6b600f7812" "ac:27:6e:a5:47:64" "AEXH232260005" "Swat 01" "SWAT" "SilkBio-101TC/ID" "B" None;
   _target "ab5f934a-5430-4ba2-a86d-5ac849276e0d" "a4:cb:8f:d4:61:ac" "CKPG221260316" "Faisalabad 02" "FAISALABAD" "uFace800 Plus/ID" "B" None;
   _target "0e991162-5ab9-467a-a952-4dc4c420691c" "ac:27:6e:a3:10:0c" "RKQ4245100152" "Multan 01" "MULTAN" "uFace800" "B" None;
   _target "06d8706c-8b9e-4a48-b8c7-a76d16da6ed4" "ac:27:6e:a3:de:e8" "AF4C211861133" "Multan 02" "MULTAN" "uFace800/ID" "B" None;
   _target "bf4badc7-5f9c-42aa-8b3a-8a43f8daeb5e" "e0:72:a1:d7:05:c4" "CJH9211060009" "Peshawar 02" "PESHAWAR" "MB40-VL/ID" "B" None;
   _target "510baddb-8eff-4817-bc48-549ee34bbd0f" "ac:27:6e:a4:4e:d4" "PGB1261300022" "BLD5 01" "BLD5" "G3" "C" None;
   _target "beb5f8eb-e4f3-4620-8f1a-cfa460bb1b73" "ac:27:6e:a5:5a:20" "CKPG221260245" "Faisalabad 01" "FAISALABAD" "uFace800 Plus/ID" "C" None;
   _target "9726fe6c-2905-447a-9041-2fa606660058" "ac:27:6e:a3:16:d4" "AEH2232460004" "Lahore 01" "LAHORE" "G3" "C" None;
   _target "474fd36e-6c75-4e0d-9c1f-cc97c4a442f8" "ac:27:6e:a3:07:f8" "OCN6060066052700045" "Quetta 01" "QUETTA" "uFace800/ID" "C" None;
   _target "233dac02-eb1b-4598-a876-e3a7b1ecfd54" "e0:72:a1:d5:08:a0" "CJH9211060002" "Peshawar 06" "PESHAWAR" "MB40-VL/ID" "C" None;
   _target "4567587c-29ee-4e59-92a4-6c36650a84aa" "e0:72:a1:d6:3c:7c" "PGB1261200077" "SLICTOWER 13FL" "SLICTOWER" "G3" "D" (Some "PERSISTENCE_AND_BOOT_PROOF");
   _target "8727e27a-77be-41c7-bb9e-5a7f31e4ae67" "ac:27:6e:a4:54:b4" "CKPG221260408" "Lahore 02" "LAHORE" "uFace800 Plus/ID" "D" (Some "STORAGE_AND_RECONCILIATION");
   _target "7d6fadcc-f93e-4c35-b4cc-852af1ffac0c" "a4:cb:8f:d4:67:70" "RKQ4254900154" "Karachi 01" "KARACHI" "uFace800" "D" (Some "CONTACT_AND_OUTAGE_DIAGNOSIS");
   _target "a1ff7b24-4dcb-4dde-ad41-1a8401c7b006" "e0:72:a1:d6:f3:28" "PGB1254700027" "G&P BLD8" "BLD8" "G3" "D" (Some "EXACT_FACTORY_BRIDGE");
   _target "2f5cedd8-e314-47b0-8074-bc4bb8a603cc" "ac:27:6e:a3:0a:08" "PGB1261300034" "BLD9 01" "BLD9" "G3" "D" (Some "EXACT_FACTORY_BRIDGE");
   _target "a886e2d9-204d-425c-bc8f-ded85fc89874" "ac:27:6e:a5:4c:d8" "PGB1254700036" "BLD9 02" "BLD9" "G3" "D" (Some "EXACT_FACTORY_BRIDGE") ].
Definition BY_ID (connector : string) : option NationwideTarget :=
  List.find (λ t, bool_decide (ht_connector_id (nt_identity t) = connector)) TARGETS.

(** The rules of an upgrade batch, in the order the function tests them. *)
Definition batch_wave (passed : list string) : option string :=
  nt_wave <$> List.find (λ t, negb (bool_decide (ht_connector_id (nt_identity t) ∈ passed))) TARGETS.
Definition validate_upgrade_batch (targets : list HilTarget) (passed active : list string) (paused : bool) : res unit :=
  let requested := remove_dups (map ht_connector_id targets) in
  let together := remove_dups (requested ++ active) in
  if paused then Raise ValueError "ROLLOUT_PAUSED"
  else if bool_decide (requested = []) || negb (bool_decide (length requested = length targets)) || existsb (λ c, bool_decide (c ∈ active)) requested
       then Raise ValueError "INVALID_UPGRADE_BATCH"
  else if negb (forallb (λ c, bool_decide (is_Some (BY_ID c))) (requested ++ passed ++ active)) then Raise ValueError "TARGET_OUTSIDE_APPROVED_SCOPE"
  else if 2 <? zlen together then Raise ValueError "MAXIMUM_TWO_UPGRADES"
  else if negb (forallb (λ t, bool_decide (nt_identity <$> BY_ID (ht_connector_id t) = Some t)) targets) then Raise ValueError "EXACT_TARGET_IDENTITY_MISMATCH"
  else if negb (distinct (map nt_location (omap BY_ID together))) then Raise ValueError "ONE_UPGRADE_PER_LOCATION"
  else if existsb (λ c, negb (bool_decide (nt_wave <$> BY_ID c = batch_wave passed))) requested then Raise ValueError "PREVIOUS_WAVE_INCOMPLETE"
  else Ok tt.

Definition signed_hil_targets : list pyval := map (λ t, model_dump (nt_identity t)) TARGETS.
Definition bridge_hil_targets (raw : pyval) : res (list HilTarget) :=
  match raw with
  | PList rows =>
      if (1 <=? zlen rows) && (zlen rows <=? zlen TARGETS) && py_eq raw (PList (take (length rows) signed_hil_targets))
      then Ok (map nt_identity (take (length rows) TARGETS))
      else Raise ValueError "Journal bridge HIL scope must retain the exact nationwide prefix."
  | _ => Raise ValueError "Journal bridge HIL scope must retain the exact nationwide prefix."
  end.

(** ** Cities, factory bridges and the factory trial *)
Definition CITY_TARGETS : list (string * HilTarget) :=
 [ ("ZONE-FAISALABAD-01", mkTarget "beb5f8eb-e4f3-4620-8f1a-cfa460bb1b73" "ac:27:6e:a5:5a:20" "CKPG221260245");
   ("ZONE-FAISALABAD-02", mkTarget "ab5f934a-5430-4ba2-a86d-5ac849276e0d" "a4:cb:8f:d4:61:ac" "CKPG221260316");
   ("ZONE-MULTAN-01", mkTarget "0e991162-5ab9-467a-a952-4dc4c420691c" "ac:27:6e:a3:10:0c" "RKQ4245100152");
   ("ZONE-MULTAN-02", mkTarget "06d8706c-8b9e-4a48-b8c7-a76d16da6ed4" "ac:27:6e:a3:de:e8" "AF4C211861133");
   ("ZONE-LAHORE-01", mkTarget "9726fe6c-2905-447a-9041-2fa606660058" "ac:27:6e:a3:16:d4" "AEH2232460004");
   ("ZONE-LAHORE-02", mkTarget "8727e27a-77be-41c7-bb9e-5a7f31e4ae67" "ac:27:6e:a4:54:b4" "CKPG221260408");
   ("ZONE-QUETTA-01", mkTarget "474fd36e-6c75-4e0d-9c1f-cc97c4a442f8" "ac:27:6e:a3:07:f8" "OCN6060066052700045");
   ("ZONE-KARACHI-01", mkTarget "7d6fadcc-f93e-4c35-b4cc-852af1ffac0c" "a4:cb:8f:d4:67:70" "RKQ4254900154") ].
Definition CITY_FACTORY_PREDECESSORS : list (string * (string * string * string)) :=
 [ ("ZONE-FAISALABAD-01", ("2.4.12", "d5dd25324c47056370c755604de8edcf34038c2ef4ae2aeb4013557ace5e9e26", "2.5.2"));
   ("ZONE-FAISALABAD-02", ("2.4.12", "00de32ec6d41344feaae39bf4a35c9592f708d684eca286efb04f8d343195101", "2.5.2"));
   ("ZONE-MULTAN-01", ("2.4.12", "c3d2605cbd44f801516c87ef6406b5b0bb51d560e1dda9ef746c4a71b15da7b4", "2.5.2"));
   ("ZONE-MULTAN-02", ("2.4.12", "4c7f3e29eed08f9f0ba68ef45d51f6ad53d6e42dcc81e6780b39b09d05909ea9", "2.5.2"));
   ("ZONE-LAHORE-01", ("2.5.2", "e972ba4c56fa5763abf56c82d24f70c1e990285e2728a6a842a9f1121bb0df37", "2.4.12"));
   ("ZONE-LAHORE-02", ("2.5.2", "2d092070c67f587b167348319495672f9a5e19b3ebbaf36dba13618bf17be424", "2.4.12"));
   ("ZONE-QUETTA-01", ("2.4.12", "d889e83460b0baa3d6c81784a603d17b80640b57d65a40161bf5097a32d4670d", "2.5.2")) ].
Definition LIFE_TARGETS : list (string * HilTarget) :=
 [ ("LF-ZONE-BLD9-01", mkTarget "2f5cedd8-e314-47b0-8074-bc4bb8a603cc" "ac:27:6e:a3:0a:08" "PGB1261300034");
   ("LF-ZONE-BLD9-02", mkTarget "a886e2d9-204d-425c-bc8f-ded85fc89874" "ac:27:6e:a5:4c:d8" "PGB1254700036");
   ("LF-ZONE-G&PBLD8-01", mkTarget "a1ff7b24-4dcb-4dde-ad41-1a8401c7b006" "e0:72:a1:d6:f3:28" "PGB1254700027");
   ("LF-ZONE-BLD1-01", mkTarget "d4b8e5ee-8539-4719-b92f-a9458f6600d3" "14:c1:9f:46:ae:1c" "PGB1261300043") ].
Definition LIFE_FACTORY_PREDECESSORS : list (string * (string * string * string)) :=
 [ ("LF-ZONE-BLD9-01", ("2.5.2", "191b63c5f18485a9aa7f705f77679f932e79f326e1bf87e3c4bb237d249fb786", "2.4.12"));
   ("LF-ZONE-BLD9-02", ("2.5.2", "00dcc3514b997570fcdf7495f7b8a85302bcff6c2670120d13245f93c0424e8b", "2.4.12"));
   ("LF-ZONE-G&PBLD8-01", ("2.5.2", "e068ee75073e3198f7894f04a249169eef96feb996d9b7db7e5a8c7a04829e91", "2.4.12"));
   ("LF-ZONE-BLD1-01", ("2.5.2", "0cbd3350d316fe4c9c21d334d593c499b2eee6b671e84aec9e28b4591e78feb3", "2.4.12")) ].

(** (release id, version, source SHA, signed artifact SHA, application SHA) *)
Definition identity : Type := string * string * string * string * option string.
Definition SIGNED_BRIDGE_IDENTITIES : list (string * identity) :=
 [ ("2.4.12", ("zone-lite-2.4.12", "2.4.12", "45690c400057eb343828fa5c13f4865866f8ed9c",
     "7a939dff0f9e9787faf47a22ef2b6de21aa0a0352f04e3eae4762c2530107010",
     Some "cf9e6e2deff0a237b0bb007fe95e2468fab2503fbceccc8d91c7834f0a6ba589"));
   ("2.5.2", ("zone-lite-2.5.2", "2.5.2", "c8c5a0e91aa6ff3d12adce0f1f48b8110ea4b532",
     "e818e8e7db5d9aa1c92b798d03d088026b36bbe9f4672f908450aa4aa85ef564",
     Some "4b4aa0697551f527b48b58e95229cd21e362f6ba25398a2d46263bdbf289146b")) ].

Definition FACTORY_BRIDGE_VERSION : string := "2.6.22".
Definition FACTORY_TRIAL_MARKER : string := ":FACTORY_TRIAL=1".
Definition factory_target (connector mac serial : string) (generation : Z) (digest : string) : pyval :=
  PDict [("connector_id", PStr connector); ("mac", PStr mac); ("terminal_serial", PStr serial); ("onboarding_generation", PInt generation);
         ("factory_version", PStr "2.5.2"); ("factory_application_sha256", PStr digest)].
Definition FACTORY_TARGETS : list pyval :=
  [ factory_target "a1ff7b24-4dcb-4dde-ad41-1a8401c7b006" "e0:72:a1:d6:f3:28" "PGB1254700027" 4 "e068ee75073e3198f7894f04a249169eef96feb996d9b7db7e5a8c7a04829e91";
    factory_target "2f5cedd8-e314-47b0-8074-bc4bb8a603cc" "ac:27:6e:a3:0a:08" "PGB1261300034" 1 "191b63c5f18485a9aa7f705f77679f932e79f326e1bf87e3c4bb237d249fb786";
    factory_target "a886e2d9-204d-425c-bc8f-ded85fc89874" "ac:27:6e:a5:4c:d8" "PGB1254700036" 2 "00dcc3514b997570fcdf7495f7b8a85302bcff6c2670120d13245f93c0424e8b" ].
Definition factory_trial_signing_contract : pyval :=
  PDict [("schema_version", PInt 1); ("targets", PList FACTORY_TARGETS); ("require_3fl_writer_hil", PBool true)].
Definition is_type_int (v : pyval) : bool := match v with PInt _ => true | _ => false end.
Definition validate_factory_trial_contract (value : pyval) : res pyval :=
  if is_dict value && py_eq value factory_trial_signing_contract && is_type_int (get "schema_version" value)
     && is_true (get "require_3fl_writer_hil" value)
     && match get "targets" value with
        | PList targets => forallb (λ t, is_dict t && is_type_int (get "onboarding_generation" t)) targets | _ => false end
  then Ok value else Raise ValueError "Factory trial requires its exact signed three-device policy.".
Definition factory_trial_targets : list pyval :=
  map (λ t, PDict [("connector_id", get "connector_id" t); ("mac", get "mac" t); ("terminal_serial", get "terminal_serial" t)]) FACTORY_TARGETS.
Definition factory_trial_exposure (raw : pyval) : res (list pyval) :=
  match raw with
  | PList rows =>
      if (1 <=? zlen rows) && (zlen rows <=? zlen factory_trial_targets) && py_eq raw (PList (take (length rows) factory_trial_targets))
      then Ok rows else Raise ValueError "Factory trial exposure requires an exact ordered factory-target prefix."
  | _ => Raise ValueError "Factory trial exposure requires an exact ordered factory-target prefix."
  end.

(** ** One-shot recovery: the two Peshawar boards *)
Definition RECOVERY_VERSIONS : list string := ["2.6.24"; "2.6.25"; "2.6.26"; "2.6.27"].
Definition recovery_release_id (version : string) : option string :=
  if bool_decide (version ∈ RECOVERY_VERSIONS) then Some ("zone-lite-" +:+ version) else None.
Definition RECOVERY_TARGETS : list HilTarget :=
  [ mkTarget "bf4badc7-5f9c-42aa-8b3a-8a43f8daeb5e" "e0:72:a1:d7:05:c4" "CJH9211060009";
    mkTarget "233dac02-eb1b-4598-a876-e3a7b1ecfd54" "e0:72:a1:d5:08:a0" "CJH9211060002" ].
Definition recovery_hil_targets (raw : pyval) : res (list HilTarget) :=
  targets ← parse_hil_targets raw;
  if bool_decide (targets = RECOVERY_TARGETS) then Ok targets else Raise ValueError "Storage recovery requires its exact reviewed Peshawar scope.".

(** ** The reviewed K50 of the signed 2.7.4 *)
Definition K50_ZONE : string := "ZONE-BLD9-01".
Definition K50_TARGET : HilTarget := mkTarget "9d8c589f-9735-4b58-9277-a385a60d0c9b" "ac:27:6e:a3:33:28" "ANM4261301077".
Definition K50_LOCATION : string := "BLD9".
Definition K50_RELEASE_IDENTITY : identity :=
  ("zone-lite-2.7.4", "2.7.4", "87e14fe6e9756cd65a27e64ac1a7420fe35aa816",
   "9a3e2226b7abff11cc264472356c186d3b9cce87a0df059aeb0a9965f1f095c5",
   Some "3e4bb613ab046df5ad29e4a1ab37fd801e1778e6b0d2c41c6604fe75bbea2fac").
Definition K50_FACTORY_PREDECESSOR : string * string * string :=
  ("2.5.2", "c8c4356bb6a7fd4dc781e893ad5290593599b2d167be30c271bd1d5db61934f1", "2.4.12").
Definition K50_BRIDGE_IDENTITY : option identity := assoc (K50_FACTORY_PREDECESSOR.2) SIGNED_BRIDGE_IDENTITIES.
(** [OFFER_RELEASES.get(identity)] *)
Definition K50_OFFER_RELEASES (i : identity) : option string :=
  if bool_decide (i = K50_RELEASE_IDENTITY) then Some "HIL_ONLY"
  else if bool_decide (Some i = K50_BRIDGE_IDENTITY) then Some "AVAILABLE" else None.
Definition k50_exposed_targets : list pyval := signed_hil_targets ++ [model_dump K50_TARGET].
Definition k50_exposure (i : identity) (raw : pyval) : option (list HilTarget) :=
  if bool_decide (i = K50_RELEASE_IDENTITY) && py_eq raw (PList k50_exposed_targets) then Some (map nt_identity TARGETS ++ [K50_TARGET]) else None.

(** ** Pinned prefixes: LHRCENTRAL for 2.8.2, FSDMAIN for 2.8.3 *)
Record Pin := mkPin { pin_name : string; pin_mac : string; pin_terminal_serial : string }.
Definition LHRCENTRAL_PINS : list Pin :=
  [ mkPin "LHRCENTRAL-01" "ac:27:6e:a3:44:68" "COVP232060159"; mkPin "LHRCENTRAL-02" "14:c1:9f:46:97:d0" "COVP232060174";
    mkPin "LHRCENTRAL-03" "a4:cb:8f:d4:55:28" "COVP232060177" ].
Definition FSDMAIN_PINS : list Pin :=
  [ mkPin "FSDMAIN-01" "30:30:f9:17:87:2c" "CKPG231060360"; mkPin "FSDMAIN-02" "8c:bf:ea:17:95:d0" "AF4C204260255";
    mkPin "FSDMAIN-03" "30:30:f9:1f:90:10" "AF4C225060506" ].
Definition FSDMAIN_MAX_TARGETS : Z := 3.
Definition CONNECTOR_ID (s : string) : bool := hex_groups x2d [8; 4; 4; 4; 12]%nat s.

(** What the two exposures share: the list starts with the first pin or is not this scope. *)
Definition pinned_exposure (pins : list Pin) (most : Z) (too_many inexact : string) (raw : pyval) : res (option (list HilTarget)) :=
  match raw, pins with
  | PList (PDict first :: rest), pin0 :: _ =>
      if negb (eq_str (get "mac" (PDict first)) (pin_mac pin0)) then Ok None
      else if most <? zlen (PDict first :: rest) then Raise ValueError too_many
      else
        targets ← mapR model_validate (PDict first :: rest);
        if negb (py_eq raw (PList (map model_dump targets))) || negb (distinct (map ht_connector_id targets))
           || existsb (λ tp, negb (bool_decide (ht_mac tp.1 = pin_mac tp.2) && bool_decide (ht_terminal_serial tp.1 = pin_terminal_serial tp.2))
                             || negb (CONNECTOR_ID (ht_connector_id tp.1))) (zip targets pins)
        then Raise ValueError inexact else Ok (Some targets)
  | _, _ => Ok None
  end.
Definition lhrcentral_exposure (release_id version : string) (raw : pyval) : res (option (list HilTarget)) :=
  if bool_decide ((release_id, version) = ("zone-lite-2.8.2", "2.8.2")) then
    pinned_exposure LHRCENTRAL_PINS (zlen LHRCENTRAL_PINS) "The 2.8.2 LHRCENTRAL scope has at most three targets."
      "The 2.8.2 HIL scope must be an exact ordered prefix of the LHRCENTRAL ESPs." raw
  else Ok None.
Definition fsdmain_exposure (release_id version : string) (raw : pyval) : res (option (list HilTarget)) :=
  if bool_decide ((release_id, version) = ("zone-lite-2.8.3", "2.8.3")) then
    pinned_exposure FSDMAIN_PINS (Z.min (zlen FSDMAIN_PINS) FSDMAIN_MAX_TARGETS)
      "The 2.8.3 FSDMAIN scope has at most three targets, each one of its pins."
      "The 2.8.3 HIL scope must be an exact ordered prefix of the FSDMAIN ESPs." raw
  else Ok None.

(** ** The scopes of ota.py *)
Definition HIL_269_PARALLEL_IDENTITY : identity :=
  ("zone-lite-2.6.9", "2.6.9", "b71da5291d8940c28b3179b26dc97e0a90da3841",
   "1ab737d94cc7965cf5d04fb02af17ad7b642c3bb3a56f9531235cf93bd62134d",
   Some "ad71339fef6926b21a21a05c1e1c4e30a936e0df5be6160871c7283841ad91b8").
Definition HIL_269_PARALLEL_PREFIX_SIZE : nat := 3.
Definition FACTORY_3FL_BRIDGE_TARGET : HilTarget := mkTarget "2ca9a4c2-5ae4-4330-8d14-840223672897" "a4:cb:8f:d4:66:64" "PGB1261200074".
Definition HIL_269_EXACT_TARGETS : list HilTarget :=
  [ mkTarget "ef1b6fe9-592b-4cf3-95e7-9c6b600f7812" "ac:27:6e:a5:47:64" "AEXH232260005";
    mkTarget "4567587c-29ee-4e59-92a4-6c36650a84aa" "e0:72:a1:d6:3c:7c" "PGB1261200077";
    FACTORY_3FL_BRIDGE_TARGET;
    mkTarget "bf4badc7-5f9c-42aa-8b3a-8a43f8daeb5e" "e0:72:a1:d7:05:c4" "CJH9211060009";
    mkTarget "233dac02-eb1b-4598-a876-e3a7b1ecfd54" "e0:72:a1:d5:08:a0" "CJH9211060002" ].
Definition HIL_2615_BLD5_IDENTITY : identity :=
  ("zone-lite-2.6.15", "2.6.15", "a88998346d5b1ce1ddf4d19e3963b7245e46633b",
   "e2a2167fca307d73dbeb495bcc26baa535591794066b02a3de2848589c28887f",
   Some "832c0c3d8dac6e41d7cd0a9d4fbe4508e4f66982fa5ddeceaca4dc5adcbd80d6").
Definition HIL_2615_BLD5_TARGET : HilTarget := mkTarget "510baddb-8eff-4817-bc48-549ee34bbd0f" "ac:27:6e:a4:4e:d4" "PGB1261300022".
Definition HIL_2615_BLD5_TARGETS : list HilTarget := HIL_269_EXACT_TARGETS ++ [HIL_2615_BLD5_TARGET].
Definition HIL_2615_CITY_TARGETS : list HilTarget := HIL_2615_BLD5_TARGETS ++ map snd CITY_TARGETS.
Definition FACTORY_BRIDGE_TARGETS : list (string * HilTarget) := CITY_TARGETS ++ LIFE_TARGETS.
Definition FACTORY_BRIDGE_PREDECESSORS : list (string * (string * string * string)) := CITY_FACTORY_PREDECESSORS ++ LIFE_FACTORY_PREDECESSORS.
Definition FACTORY_3FL_BRIDGE_ZONE : string := "ZONE-SLICTOWER-3FL".
Definition FLEET_PLATFORM_VERSIONS : list string :=
  ["2.7.1"; "2.7.2"; "2.7.3"; "2.7.4"; "2.7.5"; "2.7.6"; "2.7.7"; "2.7.8"; "2.8.0"; "2.8.1"; "2.8.2"; "2.8.3"].

(** The bridges and the writer whose exact scope is signed. *)
Definition SIGNED_SCOPE_VERSIONS : list string :=
  ["2.6.16"; "2.6.17"; "2.6.18"; "2.6.19"; "2.6.20"; "2.6.21"; "2.6.23"; "2.7.0"].
Definition names_release (release_id version : string) (versions : list string) : bool :=
  bool_decide (version ∈ versions) && bool_decide (release_id = "zone-lite-" +:+ version).

Definition _parse_release_hil_targets (i : identity) (raw : pyval) : res (list HilTarget) :=
  let '(release_id, version, _, _, _) := i in
  if names_release release_id version [FACTORY_BRIDGE_VERSION] then rows ← factory_trial_exposure raw; mapR model_validate rows
  else if names_release release_id version SIGNED_SCOPE_VERSIONS then bridge_hil_targets raw
  else if names_release release_id version RECOVERY_VERSIONS then recovery_hil_targets raw
  else match k50_exposure i raw with
       | Some targets => Ok targets
       | None =>
           lhrcentral ← lhrcentral_exposure release_id version raw;
           match lhrcentral with
           | Some targets => Ok targets
           | None =>
               fsdmain ← fsdmain_exposure release_id version raw;
               match fsdmain with
               | Some targets => Ok targets
               | None =>
                   if names_release release_id version FLEET_PLATFORM_VERSIONS then bridge_hil_targets raw
                   else if bool_decide (i = HIL_2615_BLD5_IDENTITY) && py_eq raw (PList (map model_dump HIL_2615_CITY_TARGETS))
                   then Ok HIL_2615_CITY_TARGETS
                   else parse_hil_targets raw
               end
           end
       end.

(** ** What a parsed scope contains *)
(** A board some reviewed list names: one of the nationwide fleet, the K50, a recovery board or a pinned board of the two later scopes. *)
Definition pinned (t : HilTarget) (pins : list Pin) : Prop :=
  ∃ pin, pin ∈ pins ∧ ht_mac t = pin_mac pin ∧ ht_terminal_serial t = pin_terminal_serial pin ∧ CONNECTOR_ID (ht_connector_id t) = true.
Definition reviewed (t : HilTarget) : Prop :=
  t ∈ map nt_identity TARGETS ∨ t = K50_TARGET ∨ t ∈ RECOVERY_TARGETS ∨ pinned t (LHRCENTRAL_PINS ++ FSDMAIN_PINS).

Lemma take_subset {A} (n : nat) (l : list A) x : x ∈ take n l → x ∈ l.
Proof. intros H. rewrite <- (take_drop n l). apply elem_of_app. by left. Qed.

Lemma bridge_targets_reviewed raw ts : bridge_hil_targets raw = Ok ts → ts ≠ [] ∧ ∀ t, t ∈ ts → t ∈ map nt_identity TARGETS.
Proof.
  unfold bridge_hil_targets. destruct raw as [| | | | |rows|]; try done. destruct (_ && _) eqn:E; [|done]. intros [= <-]. bool_prop. split.
  - intros Hz%(f_equal length). rewrite length_map, length_take in Hz. unfold zlen in *. simpl in *. lia.
  - intros t (x & -> & Hx%take_subset)%list_elem_of_fmap. by apply list_elem_of_fmap_2.
Qed.

Lemma recovery_targets_reviewed raw ts : recovery_hil_targets raw = Ok ts → ts = RECOVERY_TARGETS.
Proof. unfold recovery_hil_targets. intros (x & _ & E)%bind_ok. case_bool_decide; [|done]. congruence. Qed.

(** A list no longer than its pins is paired with them entirely. *)
Lemma zip_left {A B} (l : list A) (k : list B) a : (length l ≤ length k)%nat → a ∈ l → ∃ b, (a, b) ∈ zip l k ∧ b ∈ k.
Proof.
  revert k. induction l as [|x l IH]; intros k Hlen; [by intros ?%elem_of_nil|]. destruct k as [|y k]; [simpl in Hlen; lia|].
  intros [->|Hin]%elem_of_cons; [exists y; split; simpl; set_solver|]. destruct (IH k) as (b & Hb & Hk); [simpl in Hlen; lia|done|].
  exists b. split; simpl; set_solver.
Qed.

Lemma pinned_exposure_sound pins most e1 e2 raw ts :
  pinned_exposure pins most e1 e2 raw = Ok (Some ts) → most <= zlen pins → ts ≠ [] ∧ ∀ t, t ∈ ts → pinned t pins.
Proof.
  unfold pinned_exposure. destruct raw as [| | | | |[|[| | | | | |first] rest]|]; try done. destruct pins as [|pin0 pins]; [done|].
  destruct (negb _); [done|]. destruct (most <? _) eqn:El; [done|]. intros (x & Hx & E)%bind_ok Hm.
  destruct (_ || _) eqn:Ec; [done|]. apply Ok_inj in E. injection E as <-. pose proof (mapR_length _ _ _ Hx) as Hlen. bool_prop. unfold zlen in *. split.
  - intros ->. simpl in Hlen. lia.
  - intros t Ht. destruct (zip_left x (pin0 :: pins) t) as (pin & Hz & Hp); [simpl in *; lia|done|].
    match goal with H : existsb _ _ = false |- _ => rename H into Hex end.
    destruct (negb (bool_decide (ht_mac t = pin_mac pin) && bool_decide (ht_terminal_serial t = pin_terminal_serial pin)) || negb (CONNECTOR_ID (ht_connector_id t))) eqn:Et.
    + assert (existsb (λ tp, negb (bool_decide (ht_mac tp.1 = pin_mac tp.2) && bool_decide (ht_terminal_serial tp.1 = pin_terminal_serial tp.2))
                             || negb (CONNECTOR_ID (ht_connector_id tp.1))) (zip x (pin0 :: pins)) = true) as Hyes; [|congruence].
      apply List.existsb_exists. exists (t, pin). split; [by apply list_elem_of_In|done].
    + bool_prop. exists pin. done.
Qed.

Lemma names_release_app release_id version l k :
  names_release release_id version (l ++ k) = names_release release_id version l || names_release release_id version k.
Proof.
  unfold names_release. destruct (bool_decide (release_id = _)); [|by rewrite !andb_false_r]. rewrite !andb_true_r.
  apply eq_true_iff_eq. rewrite orb_true_iff, !bool_decide_eq_true. apply elem_of_app.
Qed.

(** The scope of a platform, journal or recovery release holds reviewed boards only. *)
Lemma parsed_scope_reviewed release_id version git image app raw ts :
  _parse_release_hil_targets (release_id, version, git, image, app) raw = Ok ts →
  names_release release_id version (FLEET_PLATFORM_VERSIONS ++ SIGNED_SCOPE_VERSIONS ++ RECOVERY_VERSIONS) = true →
  ts ≠ [] ∧ ∀ t, t ∈ ts → reviewed t.
Proof.
  unfold _parse_release_hil_targets. intros E Hn. rewrite !names_release_app in Hn.
  destruct (names_release release_id version [FACTORY_BRIDGE_VERSION]) eqn:Ef.
  { exfalso. unfold names_release in Ef. bool_prop. match goal with H : version ∈ _ |- _ => apply list_elem_of_singleton in H; subst version end.
    revert Hn. unfold names_release. destruct (bool_decide (release_id = _)); vm_compute; congruence. }
  destruct (names_release _ _ SIGNED_SCOPE_VERSIONS).
  { apply bridge_targets_reviewed in E as [? Hr]. split; [done|]. intros t Ht. left. auto. }
  destruct (names_release _ _ RECOVERY_VERSIONS).
  { apply recovery_targets_reviewed in E as ->. split; [done|]. intros t Ht. right. right. by left. }
  rewrite !orb_false_r in Hn. destruct (k50_exposure _ _) as [k|] eqn:Ek.
  { apply Ok_inj in E as <-. unfold k50_exposure in Ek. destruct (_ && _); [|done].
    assert (k = map nt_identity TARGETS ++ [K50_TARGET]) as -> by congruence. split; [done|].
    intros t [Ht| ->%list_elem_of_singleton]%elem_of_app; [by left|by right; left]. }
  apply bind_ok in E as (lhr & El & E). destruct lhr as [x|].
  { apply Ok_inj in E as <-. unfold lhrcentral_exposure in El. case_bool_decide; [|done]. apply pinned_exposure_sound in El as [? Hp]; [|reflexivity].
    split; [done|]. intros t (pin & ? & ?)%Hp. right. right. right. exists pin. split; [apply elem_of_app; by left|done]. }
  apply bind_ok in E as (fsd & Ed & E). destruct fsd as [x|].
  { apply Ok_inj in E as <-. unfold fsdmain_exposure in Ed. case_bool_decide; [|done]. apply pinned_exposure_sound in Ed as [? Hp]; [|reflexivity].
    split; [done|]. intros t (pin & ? & ?)%Hp. right. right. right. exists pin. split; [apply elem_of_app; by right|done]. }
  rewrite Hn in E. apply bridge_targets_reviewed in E as [? Hr]. split; [done|]. intros t Ht. left. auto.
Qed.
