(* ===== verification/ReleaseContract.v ===== *)
(** * Signed release contracts (terminal_families.py, storage_contract.py, storage_recovery.py,
      zkt_bridge_contract.py, zkt_reader_matrix.py, zkt_writer_contract.py)

    What the signed manifest of a release must say before the release is stored, offered or served:
    its terminal family, the hardware qualification of a Hikvision image, and the queue-storage contract
    of its version, which pins the images the board may be running. The image validators bind the
    compiled role in the image to the contract. *)
From S2P Require Import Prelude PyText Hashes PyJson ReleaseScope.
Open Scope string_scope.
Open Scope list_scope.
Open Scope Z_scope.

(** ** Terminal families *)
Definition FAMILIES : list string := ["zkt"; "hikvision"].
Definition HIKVISION_RELEASE_GATES : list string :=
  ["live_latency"; "live_during_history_and_crud"; "full_retained_history"; "profile_crud"; "identity_lifecycle";
   "add_ords_independent_delivery"; "power_loss_recovery"; "storage_pressure"; "source_epoch_reset"; "signed_family_ota_rollback";
   "capacity_150000"; "soak_72_hours"].
Definition HIKVISION_POLL_RELEASE_GATES : list string :=
  List.filter (λ g, negb (bool_decide (g ∈ ["live_latency"; "live_during_history_and_crud"]))) HIKVISION_RELEASE_GATES
  ++ ["poll_5s_latency"; "poll_during_history_and_crud"].

Definition firmware_family (value : pyval) : res string :=
  match value with
  | PNone => Ok "zkt"
  | PStr s => if bool_decide (s ∈ FAMILIES) then Ok s else Raise ValueError "UNKNOWN_FIRMWARE_FAMILY"
  | _ => Raise ValueError "UNKNOWN_FIRMWARE_FAMILY"
  end.
Definition release_family (manifest : pyval) : res string :=
  family ← firmware_family (get "firmware_family" manifest);
  if bool_decide (family = "hikvision") && negb (eq_str (get "project_name" manifest) "zone_lite_hikvision")
  then Raise ValueError "FIRMWARE_PROJECT_FAMILY_MISMATCH" else Ok family.
Definition require_family_match (connector_family : option string) (manifest : pyval) : res unit :=
  connector ← firmware_family (from_option PStr PNone connector_family);
  release ← release_family manifest;
  if bool_decide (connector = release) then Ok tt else Raise ValueError "FIRMWARE_FAMILY_MISMATCH".

(** The proof of a Hikvision image; asking a set about a list or an object raises. *)
Definition hikvision_proof_ok (proof : pyval) : res bool :=
  let mode := get_or "capture_mode" (PStr "stream") proof in
  let gates := if eq_str mode "poll" then HIKVISION_POLL_RELEASE_GATES else HIKVISION_RELEASE_GATES in
  if negb (eq_str (get "model" proof) "DS-K1T342EFWX") then Ok false
  else if negb (hashable mode) then Raise TypeError "unhashable type"
  else Ok ((eq_str mode "stream" || eq_str mode "poll")
           && (negb (eq_str mode "poll")
               || match get "poll_interval_seconds" proof with PInt n => bool_decide (n ∈ [2; 5]) | _ => false end)
           && truthy (get "terminal_firmware" proof) && truthy (get "profile_id" proof)
           && match get "soak_seconds" proof with PInt n => 259200 <=? n | _ => false end
           && match get_or "evidence_sha256" (PStr "") proof with PStr d => HEX64 d | _ => false end
           && is_dict (get "gates" proof) && forallb (λ g, eq_str (get g (get "gates" proof)) "PASS") gates).
Definition require_production_qualification (manifest : pyval) : res unit :=
  family ← release_family manifest;
  if negb (bool_decide (family = "hikvision")) then Ok tt
  else
    let proof := get "hardware_qualification" manifest in
    if negb (is_dict proof) then Raise ValueError "HIKVISION_HARDWARE_QUALIFICATION_REQUIRED"
    else
      ok ← hikvision_proof_ok proof;
      if (ok : bool) then Ok tt else Raise ValueError "HIKVISION_HARDWARE_QUALIFICATION_INCOMPLETE".

(** ** Images a board may be running

    Each contract extends the one before it by the release it replaces; its versions are the keys of its images, in order. *)
Definition COMPAT_VERSION : string := "2.5.4".
Definition CANDIDATE_VERSION : string := "2.6.0".
Definition COMPAT_MARKER : string := "ZONE_STORAGE_CONTRACT_V1:LEGACY:READ=2:LANES=3F:COMPAT=2.5.4".
Definition DIRECT_VERSIONS : list string :=
  ["2.6.1"; "2.6.2"; "2.6.3"; "2.6.4"; "2.6.5"; "2.6.6"; "2.6.7"; "2.6.8"; "2.6.9"; "2.6.10"; "2.6.11"; "2.6.12"; "2.6.13"; "2.6.14"; "2.6.15"]
  ++ FLEET_PLATFORM_VERSIONS.
Definition DIRECT_BASELINE_IMAGES : list (string * string) :=
  [("2.4.12", "cf9e6e2deff0a237b0bb007fe95e2468fab2503fbceccc8d91c7834f0a6ba589");
   ("2.5.2", "4b4aa0697551f527b48b58e95229cd21e362f6ba25398a2d46263bdbf289146b")].
Definition RETRY_BASELINE_IMAGES : list (string * string) := DIRECT_BASELINE_IMAGES ++ [("2.6.6", "69ec4cf34204d84d76933c30510ed78d46ec11d294f7257697af19047ce6869e")].
Definition DIAGNOSTIC_BASELINE_IMAGES : list (string * string) := RETRY_BASELINE_IMAGES ++ [("2.6.7", "3bed51d23d85fe50c03642e95f1d1d1e0b45960ccbf97d551645c0b268da1f1c")].
Definition CONTENTION_BASELINE_IMAGES : list (string * string) := DIAGNOSTIC_BASELINE_IMAGES ++ [("2.6.8", "fecc5df0223a3c7c8b019a445bcf829bc8d09dd93e920aecc8446908fadeadc6")].
Definition PRESSURE_BASELINE_IMAGES : list (string * string) := CONTENTION_BASELINE_IMAGES ++ [("2.6.9", "ad71339fef6926b21a21a05c1e1c4e30a936e0df5be6160871c7283841ad91b8")].
Definition PROBE_BASELINE_IMAGES : list (string * string) := PRESSURE_BASELINE_IMAGES ++ [("2.6.10", "a95370b1487d9c1454dfb932c41432451f24ef69d0abc1292a5c0262c17c243c")].
Definition LIVE_FRAME_BASELINE_IMAGES : list (string * string) := PROBE_BASELINE_IMAGES ++ [("2.6.12", "3f9028126c8dde9816486783a27a9802ed41179cd9f8caf9935deb79a0057fc1")].
Definition DELIVERY_BASELINE_IMAGES : list (string * string) := LIVE_FRAME_BASELINE_IMAGES ++ [("2.6.13", "c7be4171153333563f9ed6e43f91376d42dfb9d3ca2faefda2ca6d1ac87b2def")].
Definition LOCK_BASELINE_IMAGES : list (string * string) := DELIVERY_BASELINE_IMAGES ++ [("2.6.14", "7d0381fc68a01b34ab6989dfed2b5a1a93f39c293bfd0b7db1734b0871fa6469")].
Definition FLEET_BASELINE_IMAGES : list (string * string) := LOCK_BASELINE_IMAGES ++ [("2.6.15", "832c0c3d8dac6e41d7cd0a9d4fbe4508e4f66982fa5ddeceaca4dc5adcbd80d6")].
Definition PLATFORM_BASELINE_IMAGES : list (string * string) := FLEET_BASELINE_IMAGES ++ [("2.7.2", "e908496e0695d8c29e96a6f2db3840060eeab526c4012e29a3deef826f7c8eea")].
Definition TRACE_BASELINE_IMAGES : list (string * string) := PLATFORM_BASELINE_IMAGES ++ [("2.7.3", "98855248bb4325103b5253ab4b15f4e939adf3ace89c208d463b09ec9ca21a6a")].
Definition INVENTORY_BASELINE_IMAGES : list (string * string) := TRACE_BASELINE_IMAGES ++ [("2.7.4", "3e4bb613ab046df5ad29e4a1ab37fd801e1778e6b0d2c41c6604fe75bbea2fac")].
Definition REPAIR_BASELINE_IMAGES : list (string * string) := INVENTORY_BASELINE_IMAGES ++ [("2.7.5", "430e2daf29dd99ff006a476ff584e4201493d661cee67e4b4f9ba15545b17a40")].
Definition REFORMAT_BASELINE_IMAGES : list (string * string) := REPAIR_BASELINE_IMAGES ++ [("2.7.6", "9d7050768f1cb716e9bc11f9b7b4d20b423b3eccbe1531809130457998e96f0c")].
Definition EXCEPTION_BASELINE_IMAGES : list (string * string) := REFORMAT_BASELINE_IMAGES ++ [("2.7.7", "6d9ee63dd7e5917c83a3ada14685405c0081073d593a7901487eb2a3fd2c3bc1")].
Definition SECURE_PULL_BASELINE_IMAGES : list (string * string) := EXCEPTION_BASELINE_IMAGES ++ [("2.7.8", "b8d0ca7e20d28d4114cff56fc69676e681a37bf9f7e831a243a65f9a1a972a3e")].
Definition SLOT_RULE_BASELINE_IMAGES : list (string * string) := SECURE_PULL_BASELINE_IMAGES ++ [("2.8.0", "21ac81b292b463cf7fa1bf0d6ce364a49493951836ad962a19dcae049f40ed76")].
Definition RECORD49_BASELINE_IMAGES : list (string * string) := SLOT_RULE_BASELINE_IMAGES ++ [("2.8.1", "21238fa36df844642545e8c2f6bcfec03be37470890b776a600c39c0cdd1f5f0")].

Definition platform_baselines (version : string) : list (string * string) :=
  if bool_decide (version ∈ ["2.8.2"; "2.8.3"]) then RECORD49_BASELINE_IMAGES
  else if bool_decide (version = "2.8.1") then SLOT_RULE_BASELINE_IMAGES
  else if bool_decide (version = "2.8.0") then SECURE_PULL_BASELINE_IMAGES
  else if bool_decide (version = "2.7.8") then EXCEPTION_BASELINE_IMAGES
  else if bool_decide (version = "2.7.7") then REFORMAT_BASELINE_IMAGES
  else if bool_decide (version = "2.7.6") then REPAIR_BASELINE_IMAGES
  else if bool_decide (version = "2.7.5") then INVENTORY_BASELINE_IMAGES
  else if bool_decide (version = "2.7.4") then TRACE_BASELINE_IMAGES
  else if bool_decide (version = "2.7.3") then PLATFORM_BASELINE_IMAGES
  else FLEET_BASELINE_IMAGES.
Definition direct_images (version : string) : list (string * string) :=
  if bool_decide (version ∈ FLEET_PLATFORM_VERSIONS) then platform_baselines version
  else if bool_decide (version = "2.6.15") then LOCK_BASELINE_IMAGES
  else if bool_decide (version = "2.6.14") then DELIVERY_BASELINE_IMAGES
  else if bool_decide (version = "2.6.13") then LIVE_FRAME_BASELINE_IMAGES
  else if bool_decide (version ∈ ["2.6.11"; "2.6.12"]) then PROBE_BASELINE_IMAGES
  else if bool_decide (version = "2.6.10") then PRESSURE_BASELINE_IMAGES
  else if bool_decide (version = "2.6.9") then CONTENTION_BASELINE_IMAGES
  else if bool_decide (version = "2.6.8") then DIAGNOSTIC_BASELINE_IMAGES
  else if bool_decide (version = "2.6.7") then RETRY_BASELINE_IMAGES
  else DIRECT_BASELINE_IMAGES.
Definition images_value (images : list (string * string)) : pyval := PDict (map (λ vd, (vd.1, PStr vd.2)) images).
Definition versions_value (images : list (string * string)) : pyval := PList (map (λ vd, PStr vd.1) images).

Definition expected_contract (version : string) : pyval :=
  if bool_decide (version ∈ DIRECT_VERSIONS) then
    PDict [("schema_version", PInt 2); ("read_format", PInt 2); ("reader_mask", PInt 63); ("write_format", PInt 1);
           ("allowed_bootstrap_versions", versions_value (direct_images version)); ("allowed_bootstrap_images", images_value (direct_images version))]
  else
    PDict [("schema_version", PInt 1); ("read_format", PInt 2); ("reader_mask", PInt 63);
           ("write_format", PInt (if bool_decide (version = CANDIDATE_VERSION) then 2 else 1)); ("compatibility_version", PStr COMPAT_VERSION)].
Definition FORMAT_KEYS : list string := ["schema_version"; "read_format"; "reader_mask"; "write_format"].

(** ** Bridges between the legacy queue and the journal *)
Definition BRIDGE_VERSIONS : list string := ["2.6.16"; "2.6.17"; "2.6.18"; "2.6.19"; "2.6.20"; "2.6.21"; "2.6.22"; "2.6.23"].
Definition BRIDGE_MARKER : string := "ZONE_STORAGE_CONTRACT_V3:BRIDGE:LEGACY=2:JOURNAL=1:READERS=3F:CAPTURE=1:AUTHORITY=1".
Definition PREDECESSOR_IMAGES : list (string * string) :=
  [("2.4.12", "cf9e6e2deff0a237b0bb007fe95e2468fab2503fbceccc8d91c7834f0a6ba589");
   ("2.5.2", "4b4aa0697551f527b48b58e95229cd21e362f6ba25398a2d46263bdbf289146b");
   ("2.6.15", "832c0c3d8dac6e41d7cd0a9d4fbe4508e4f66982fa5ddeceaca4dc5adcbd80d6")].
Definition bridge_contract (version : pyval) : res pyval :=
  match version with
  | PStr v =>
      if bool_decide (v ∈ BRIDGE_VERSIONS) then
        let images := if bool_decide (v = FACTORY_BRIDGE_VERSION) then [] else PREDECESSOR_IMAGES in
        Ok (PDict [("allowed_bootstrap_images", images_value images); ("allowed_bootstrap_versions", versions_value images);
                   ("compatibility_version", PStr v); ("delivery_authority", PStr "LEGACY_UNTIL_PERSISTED_ADD_CUTOVER");
                   ("journal_capture", PBool true); ("journal_read_format", PInt 1); ("journal_reader_mask", PInt 63);
                   ("journal_write_format", PInt 1); ("read_format", PInt 2); ("reader_mask", PInt 63); ("schema_version", PInt 3);
                   ("write_format", PInt 1)])
      else Raise ValueError "Journal bridge version is unqualified."
  | _ => Raise ValueError "Journal bridge version is unqualified."
  end.

(** [type(a) is type(b)] *)
Definition same_type (a b : pyval) : bool :=
  match a, b with
  | PNone, PNone | PBool _, PBool _ | PInt _, PInt _ | PFloat _, PFloat _ | PStr _, PStr _ | PList _, PList _ | PDict _, PDict _ => true
  | _, _ => false
  end.
Definition same_types (expected contract : pyval) : bool :=
  match expected with PDict fields => forallb (λ kv, same_type (get kv.1 contract) kv.2) fields | _ => false end.
Definition has_key (k : string) (v : pyval) : bool := match v with PDict d => bool_decide (k ∈ d.*1) | _ => false end.

Definition validate_bridge_manifest (manifest : pyval) : res pyval :=
  let contract := get "queue_storage" manifest in
  let version := default "" (as_str (get "version" manifest)) in
  expected ← bridge_contract (get "version" manifest);
  if negb (eq_str (get "release_id" manifest) ("zone-lite-" +:+ version) && eq_str (get "firmware_family" manifest) "zkt"
           && eq_str (get "project_name" manifest) "zone_lite" && eq_str (get "release_channel" manifest) "EXPERIMENTAL_HIL_ONLY"
           && eq_str (get "minimum_bootstrap_version" manifest) (if bool_decide (version = FACTORY_BRIDGE_VERSION) then "2.5.2" else "2.4.12")
           && py_eq (get "hil_targets" manifest) (PList signed_hil_targets)
           && is_dict contract && py_eq contract expected && same_types expected contract)
  then Raise ValueError "Journal bridge requires its exact experimental HIL storage contract."
  else if bool_decide (version = FACTORY_BRIDGE_VERSION) then _ ← validate_factory_trial_contract (get "factory_trial" manifest); Ok contract
  else if has_key "factory_trial" manifest then Raise ValueError "Factory trial policy is exclusive to its exact bridge."
  else Ok contract.

(** ** One-shot recovery *)
Definition RECOVERY_MARKER : string := "ZONE_STORAGE_CONTRACT_V2:RECOVERY:READ=2:LANES=3F:BASE=2.5.2".
Definition RECOVERY_CONTRACT : pyval :=
  PDict [("allowed_bootstrap_images", images_value [("2.5.2", "4b4aa0697551f527b48b58e95229cd21e362f6ba25398a2d46263bdbf289146b")]);
         ("allowed_bootstrap_versions", PList [PStr "2.5.2"]); ("read_format", PInt 2); ("reader_mask", PInt 63); ("schema_version", PInt 2);
         ("write_format", PInt 1)].
Definition validate_recovery_manifest (manifest : pyval) (version : string) : res pyval :=
  let contract := get "queue_storage" manifest in
  if match recovery_release_id version with Some release_id => eq_str (get "release_id" manifest) release_id | None => false end
     && eq_str (get "version" manifest) version && eq_str (get "firmware_family" manifest) "zkt" && eq_str (get "project_name" manifest) "zone_lite"
     && eq_str (get "minimum_bootstrap_version" manifest) "2.5.2" && eq_str (get "release_channel" manifest) "EXPERIMENTAL_HIL_ONLY"
     && negb (has_key "factory_trial" manifest) && negb (has_key "runtime_profile" manifest)
     && is_dict contract && py_eq contract RECOVERY_CONTRACT && forallb (λ k, is_type_int (get k contract)) FORMAT_KEYS
  then _ ← recovery_hil_targets (get "hil_targets" manifest); Ok contract
  else Raise ValueError "Storage recovery manifest is missing or unqualified.".

(** ** The readers a 2.7.0 writer may replace *)
Definition MATRIX_VERSIONS : list string := ["2.6.23"; "2.6.22"].
Definition MATRIX_ID : string := "zkt-2.7.0-readers-v1".
Definition ENTRY_KEYS : list string := ["version"; "release_id"; "application_sha256"; "artifact_sha256"; "source_sha"; "signing_key_id"].
Definition MARKER_PREFIX : string := "ZONE_STORAGE_CONTRACT_V5:WRITER:LEGACY=2:JOURNAL=1:READERS=3F:AUTHORITY=ADD:MATRIX=".
Definition canonical (v : pyval) : bytes := dumps_ascii v.

(** [set(d) == keys] for distinct keys *)
Definition keys_are (v : pyval) (keys : list string) : bool :=
  match v with PDict d => bool_decide (length d = length keys) && forallb (λ k, bool_decide (k ∈ d.*1)) keys | _ => false end.
(** [[A-Za-z0-9][A-Za-z0-9._-]{0,79}] *)
Definition key_id_ok (v : pyval) : bool :=
  match v with
  | PStr s => match chars s with
              | b :: l => is_alnum b && forallb (λ c, is_alnum c || one_of "._-" c) l && (zlen l <=? 79)
              | [] => false
              end
  | _ => false
  end.
Definition digest_ok (v : pyval) (size : Z) : bool :=
  match v with PStr s => class_match is_hex size size s && (2 <=? zlen (remove_dups (chars s))) | _ => false end.

Definition check_reader (version : string) (row : pyval) : res unit :=
  if negb (is_dict row && keys_are row ENTRY_KEYS && eq_str (get "version" row) version && eq_str (get "release_id" row) ("zone-lite-" +:+ version))
  then Raise ValueError "Reader matrix entries must have their exact ordered identities."
  else if negb (key_id_ok (get "signing_key_id" row)) then Raise ValueError "Reader matrix signing key identity is invalid."
  else if negb (digest_ok (get "application_sha256" row) 64 && digest_ok (get "artifact_sha256" row) 64 && digest_ok (get "source_sha" row) 40)
  then Raise ValueError "Reader matrix digest is invalid or a placeholder."
  else Ok tt.
Definition distinct_rows (k : string) (rows : list pyval) : bool := distinct (omap (λ r, as_str (get k r)) rows).
Definition validate_matrix (value : pyval) (require_pinned : bool) : res pyval :=
  match get "readers" value with
  | PList rows =>
      if negb (keys_are value ["schema_version"; "matrix_id"; "state"; "readers"]
               && match get "schema_version" value with PInt n => n =? 1 | _ => false end && eq_str (get "matrix_id" value) MATRIX_ID)
      then Raise ValueError "Reader matrix schema or identity is invalid."
      else if eq_str (get "state" value) "BLOCKED" && bool_decide (length rows = 0%nat) && negb require_pinned then Ok value
      else if negb (eq_str (get "state" value) "PINNED") || negb (bool_decide (length rows = length MATRIX_VERSIONS))
      then Raise ValueError "Reader matrix is unpopulated or incomplete."
      else
        _ ← mapR (λ vr, check_reader vr.1 vr.2) (zip MATRIX_VERSIONS rows);
        if distinct_rows "application_sha256" rows && distinct_rows "artifact_sha256" rows then Ok value
        else Raise ValueError "Reader matrix image identities must be distinct."
  | _ => Raise ValueError "Reader matrix schema or identity is invalid."
  end.

(** zkt_reader_matrix.json *)
Definition reader_row (version application artifact source : string) : pyval :=
  PDict [("application_sha256", PStr application); ("artifact_sha256", PStr artifact); ("release_id", PStr ("zone-lite-" +:+ version));
         ("signing_key_id", PStr "9fc614e085ba24f260ad92be0812103beef0b43c74881d72e800caf68c602a55"); ("source_sha", PStr source);
         ("version", PStr version)].
Definition READER_MATRIX : pyval :=
  PDict [("matrix_id", PStr MATRIX_ID);
         ("readers", PList
            [reader_row "2.6.23" "2ee98dfd2b944761c23913958b5b5bee7f570ab9c016373ff38e4b62c2f57248"
               "e2c29dc7b48078db93c0cea369a9bc6764e2658196fedcd271290df645258b10" "92b8701be486c4d534f244df3196f7d0cbc640f8";
             reader_row "2.6.22" "bc20d5f47b9330f8c7c65d84e5d5bc3d10cd3530c62e5c137616c7bf55e0500b"
               "401ab992d1aafc4dba139165e1782f66577d9d6661f69d281b51ee42df64c270" "774f9e37517b4c3b91db655848306d8821d604d7"]);
         ("schema_version", PInt 1); ("state", PStr "PINNED")].
Definition load_matrix (require_pinned : bool) : res pyval := validate_matrix READER_MATRIX require_pinned.
Definition matrix_hash (matrix : pyval) : res string := v ← validate_matrix matrix false; Ok (sha256_hex (canonical v)).
Definition matrix_marker (matrix : pyval) : res string := h ← matrix_hash matrix; Ok (MARKER_PREFIX +:+ h).
Definition matrix_rows (matrix : pyval) : list pyval := match get "readers" matrix with PList rows => rows | _ => [] end.

(** [min(versions, key=lambda v: tuple(map(int, v.split("."))))] over the validated versions *)
Definition version_key (s : string) : list Z := omap digits_value (split_byte x2e (chars s)).
Fixpoint key_ltb (a b : list Z) : bool :=
  match a, b with
  | _, [] => false
  | [], _ :: _ => true
  | x :: a', y :: b' => (x <? y) || ((x =? y) && key_ltb a' b')
  end.
Definition minimum_reader_version (matrix : pyval) : res string :=
  v ← validate_matrix matrix true;
  match omap (λ r, as_str (get "version" r)) (matrix_rows v) with
  | first :: rest => Ok (fold_left (λ m s, if key_ltb (version_key s) (version_key m) then s else m) rest first)
  | [] => Raise ValueError "min() iterable argument is empty"
  end.

Definition writer_fields (schema : Z) (rest : list (string * pyval)) : pyval :=
  PDict ([("schema_version", PInt schema); ("read_format", PInt 2); ("reader_mask", PInt 63); ("write_format", PInt 1);
          ("journal_read_format", PInt 1); ("journal_write_format", PInt 1); ("journal_reader_mask", PInt 63);
          ("journal_capture", PBool true); ("delivery_authority", PStr "ADD")] ++ rest).
(** Without a matrix the pinned one is loaded. *)
Definition writer_matrix_contract (matrix : pyval) : res pyval :=
  matrix ← (if is_none matrix then load_matrix true else validate_matrix matrix true);
  hash ← matrix_hash matrix;
  Ok (writer_fields 5
        [("reader_matrix", matrix); ("reader_matrix_sha256", PStr hash); ("allowed_bootstrap_versions", PList (map PStr MATRIX_VERSIONS));
         ("allowed_bootstrap_images", PDict (omap (λ r, (λ v, (v, get "application_sha256" r)) <$> as_str (get "version" r)) (matrix_rows matrix)))]).
Definition selected_reader (contract : pyval) (version : string) (application_sha256 : option string) : option pyval :=
  if negb (py_eq (get "schema_version" contract) (PInt 5)) then None
  else match writer_matrix_contract (get "reader_matrix" contract) with
       | Raise _ _ => None
       | Ok expected =>
           if bool_decide (canonical contract = canonical expected) then
             List.find (λ r, eq_str (get "version" r) version
                             && match application_sha256 with Some d => eq_str (get "application_sha256" r) d | None => false end)
               (matrix_rows (get "reader_matrix" expected))
           else None
       end.

(** ** The 2.7.0 writer *)
Definition WRITER_VERSION : string := "2.7.0".
Definition REQUIRED_BRIDGE_VERSION : string := "2.6.17".
Definition WRITER_MARKER : string := "ZONE_STORAGE_CONTRACT_V4:WRITER:LEGACY=2:JOURNAL=1:READERS=3F:AUTHORITY=ADD:BRIDGE=2.6.17".
Definition BRIDGE_APPLICATION : string := "f803361f8c3e1ed03f57814793942ebda45bbbd10cd0c1e77239602f5e6e32a1".
Definition writer_contract : pyval :=
  writer_fields 4
    [("compatibility_version", PStr REQUIRED_BRIDGE_VERSION); ("allowed_bootstrap_versions", PList [PStr REQUIRED_BRIDGE_VERSION]);
     ("allowed_bootstrap_images", images_value [(REQUIRED_BRIDGE_VERSION, BRIDGE_APPLICATION)])].
Definition validate_writer_manifest (manifest : pyval) : res pyval :=
  let contract := get "queue_storage" manifest in
  let matrix := is_dict contract && py_eq (get "schema_version" contract) (PInt 5) in
  expected ← (if matrix then writer_matrix_contract PNone else Ok writer_contract);
  minimum ← (if matrix then minimum_reader_version (get "reader_matrix" expected) else Ok REQUIRED_BRIDGE_VERSION);
  if eq_str (get "version" manifest) WRITER_VERSION && eq_str (get "release_id" manifest) "zone-lite-2.7.0"
     && eq_str (get "firmware_family" manifest) "zkt" && eq_str (get "project_name" manifest) "zone_lite"
     && eq_str (get "release_channel" manifest) "EXPERIMENTAL_HIL_ONLY" && eq_str (get "minimum_bootstrap_version" manifest) minimum
     && eq_str (get "runtime_profile" manifest) "ZKT_JOURNAL_V1" && py_eq (get "hil_targets" manifest) (PList signed_hil_targets)
     && is_dict contract && bool_decide (canonical contract = canonical expected) && same_types expected contract
  then Ok contract else Raise ValueError "Journal writer requires its exact experimental HIL storage contract.".

(** ** The contract of a version *)
Definition validate_storage_contract (manifest : pyval) (version : string) : res pyval :=
  if bool_decide (version ∈ BRIDGE_VERSIONS) then
    if negb (eq_str (get "version" manifest) version) then Raise ValueError "Journal bridge version disagrees with its manifest."
    else validate_bridge_manifest manifest
  else if bool_decide (version = WRITER_VERSION) then validate_writer_manifest manifest
  else if bool_decide (version ∈ RECOVERY_VERSIONS) then validate_recovery_manifest manifest version
  else
    let contract := get "queue_storage" manifest in
    let required := bool_decide (version ∈ COMPAT_VERSION :: CANDIDATE_VERSION :: DIRECT_VERSIONS) in
    if is_none contract && negb required then Ok PNone
    else if negb required || negb (py_eq contract (expected_contract version)) || negb (forallb (λ k, is_type_int (get k contract)) FORMAT_KEYS)
    then Raise ValueError "Firmware storage contract is missing or unqualified."
    else if bool_decide (version = CANDIDATE_VERSION) && negb (eq_str (get "minimum_bootstrap_version" manifest) COMPAT_VERSION)
    then Raise ValueError "Segmented storage requires the compatibility predecessor."
    else if bool_decide (version ∈ DIRECT_VERSIONS) && negb (eq_str (get "minimum_bootstrap_version" manifest) "2.4.12")
    then Raise ValueError "Direct legacy-write storage requires the qualified baseline."
    else Ok contract.

(** ** Images

    [image.count(needle)]: occurrences that do not overlap, from the left; [skip] bytes belong to the last one. *)
Fixpoint has_prefix (p l : bytes) : bool :=
  match p, l with
  | [], _ => true
  | a :: p', b :: l' => bool_decide (a = b) && has_prefix p' l'
  | _ :: _, [] => false
  end.
Fixpoint count_from (skip : nat) (needle l : bytes) : Z :=
  match l with
  | [] => 0
  | _ :: l' =>
      match skip with
      | S skip' => count_from skip' needle l'
      | O => if has_prefix needle l then 1 + count_from (length needle - 1) needle l' else count_from 0 needle l'
      end
  end.
Definition count_in (needle image : bytes) : Z := count_from 0 needle image.

(** The ESP descriptor: magic, version and project name. *)
Definition descriptor_ok (image : bytes) (version : string) : bool :=
  (112 <=? zlen image) && bool_decide (head image = Some xe9) && (le_int (slice 32 36 image) =? 0xABCD5432)
  && bool_decide (before x00 (slice 48 80 image) = chars version) && bool_decide (before x00 (slice 80 112 image) = chars "zone_lite").
Definition bridge_marker (version : string) : res string :=
  if bool_decide (version ∈ BRIDGE_VERSIONS) then
    Ok (BRIDGE_MARKER +:+ (if bool_decide (version = "2.6.16") then "" else ":VERSION=" +:+ version)
        +:+ (if bool_decide (version = FACTORY_BRIDGE_VERSION) then FACTORY_TRIAL_MARKER else ""))
  else Raise ValueError "Journal bridge version is unqualified.".
Definition validate_bridge_image (image : bytes) (version : string) : res unit :=
  marker ← bridge_marker version;
  if descriptor_ok image version && (count_in (chars marker ++ [x00]) image =? 1) && (count_in (chars "ZONE_STORAGE_CONTRACT_V3:") image =? 1)
     && (count_in (chars "ZONE_STORAGE_CONTRACT_V1:") image =? 0) && (count_in (chars "ZONE_STORAGE_CONTRACT_V2:") image =? 0)
  then Ok tt else Raise ValueError "Journal bridge image lacks its exact descriptor or compiled reader/capture marker.".
Definition validate_recovery_image (image : bytes) (version : string) : res unit :=
  if bool_decide (version ∈ RECOVERY_VERSIONS) && descriptor_ok image version && (count_in (chars RECOVERY_MARKER ++ [x00]) image =? 1)
     && (count_in (chars "ZONE_STORAGE_CONTRACT_V") image =? 1)
  then Ok tt else Raise ValueError "Storage recovery image lacks its exact descriptor or compiled recovery marker.".
Definition contract_tag (n : Z) : bytes := chars ("ZONE_STORAGE_CONTRACT_V" +:+ py_str n +:+ ":").
Definition validate_writer_image (image : bytes) (manifest : pyval) : res unit :=
  let matrix := negb (count_in (contract_tag 5) image =? 0) in
  marker ← (if matrix then m ← load_matrix true; matrix_marker m else Ok WRITER_MARKER);
  contract ← validate_writer_manifest manifest;
  if negb (Bool.eqb matrix (py_eq (get "schema_version" contract) (PInt 5))) then Raise ValueError "Writer image and manifest use different reader contracts."
  else if descriptor_ok image WRITER_VERSION && (count_in (chars marker ++ [x00]) image =? 1)
          && (count_in (contract_tag (if matrix then 5 else 4)) image =? 1)
          && forallb (λ n, count_in (contract_tag n) image =? 0) [1; 2; 3; (if matrix then 4 else 5)]
  then Ok tt else Raise ValueError "Journal writer image lacks its exact descriptor or compiled writer marker.".

(** ** The pinned matrix is valid, and what a direct contract allows *)
Example pinned_matrix : is_ok (load_matrix true) = true ∧ minimum_reader_version READER_MATRIX = Ok "2.6.22".
Proof. vm_compute. done. Qed.

Definition plain_contract (version : string) : bool :=
  negb (bool_decide (version ∈ BRIDGE_VERSIONS)) && negb (bool_decide (version = WRITER_VERSION)) && negb (bool_decide (version ∈ RECOVERY_VERSIONS))
  && bool_decide (version ∈ COMPAT_VERSION :: CANDIDATE_VERSION :: DIRECT_VERSIONS).
Lemma direct_plain version : version ∈ DIRECT_VERSIONS → plain_contract version = true.
Proof.
  intros Hv. assert (forallb plain_contract DIRECT_VERSIONS = true) as Hall by (vm_compute; reflexivity).
  rewrite forallb_forall in Hall. by apply Hall, list_elem_of_In.
Qed.

Lemma direct_expected manifest version contract :
  version ∈ DIRECT_VERSIONS → validate_storage_contract manifest version = Ok contract →
  contract = get "queue_storage" manifest ∧ py_eq contract (expected_contract version) = true.
Proof.
  intros Hv%direct_plain E. unfold plain_contract in Hv. bool_prop. unfold validate_storage_contract in E.
  rewrite !bool_decide_eq_false_2 in E by done. rewrite (bool_decide_eq_true_2 (version ∈ _ :: _)) in E by done. cbv zeta in E. cbn [negb orb] in E.
  rewrite andb_false_r in E. destruct (negb (py_eq _ _) || _) eqn:Ec; [done|]. bool_prop. repeat (destruct (_ && _); [done|]). apply Ok_inj in E as <-. done.
Qed.

(** The contract of a direct version lists its predecessors and pins the image of each. *)
Lemma direct_contract manifest version contract :
  version ∈ DIRECT_VERSIONS → plain_json manifest = true → validate_storage_contract manifest version = Ok contract →
  truthy contract = true ∧ get "allowed_bootstrap_versions" contract = PList (map PStr (map fst (direct_images version)))
  ∧ ∃ images, get "allowed_bootstrap_images" contract = PDict images
      ∧ ∀ v e, assoc v images = Some e → ∃ digest, (v, digest) ∈ direct_images version ∧ e = PStr digest.
Proof.
  intros Hv Hm E. destruct (direct_expected manifest version contract Hv E) as [Hc He]. clear E.
  assert (plain_json contract = true) as Hp by (rewrite Hc; by apply plain_get). unfold expected_contract in He.
  rewrite bool_decide_eq_true_2 in He by done. destruct (py_eq_dict_inv _ _ He) as [fields ->]. simpl in Hp. apply andb_true_iff in Hp as [Hd%bool_decide_eq_true Hp].
  destruct (py_eq_get _ _ "allowed_bootstrap_versions" (versions_value (direct_images version)) Hd He eq_refl) as (vs & Evs & Hvs).
  destruct (py_eq_get _ _ "allowed_bootstrap_images" (images_value (direct_images version)) Hd He eq_refl) as (im & Eim & Him).
  unfold get. rewrite Evs, Eim. simpl. split; [|split].
  - destruct fields; [done|]. done.
  - unfold versions_value in Hvs. rewrite <- (map_map fst PStr) in Hvs. destruct (py_eq_list_inv _ _ Hvs) as [l ->]. by apply py_eq_strs in Hvs as ->.
  - unfold images_value in Him. destruct (py_eq_dict_inv _ _ Him) as [images ->]. exists images. split; [done|]. intros v e Hve.
    rewrite py_eq_dict, andb_true_iff, forallb_forall in Him. destruct Him as [_ Him]. apply assoc_elem, list_elem_of_In, Him in Hve. simpl in Hve.
    destruct (assoc v _) as [y|] eqn:Ey; [|done]. apply assoc_elem, list_elem_of_fmap in Ey as ([v' digest] & [= -> ->] & Hin). apply py_eq_str in Hve as ->. eauto.
Qed.
