(* ===== verification/OtaModel.v ===== *)
(** * Firmware rollout: tables, states and versions (ota.py)

    A release is a signed image. A campaign installs one release on the boards of one
    zone, a deployment on one board. This file has the tables the rollout touches, the
    states of a deployment with their transition table, and the version, digest and
    storage-floor tests. A table is a list of rows in insertion order, which is the
    order of their ids; ids come from one counter. A handler is a function from the
    tables to a result with the new tables: when it raises, its transaction or
    savepoint is rolled back and the tables are the old ones. *)
From S2P Require Import Prelude PyText Hashes PyJson QueueEvidence RuntimeContract DeviceHealth ReleaseScope ReleaseContract.
Open Scope string_scope.
Open Scope list_scope.
Open Scope Z_scope.

(** ** States of a deployment *)
Inductive deployment_state :=
  | PENDING | OFFERED | DOWNLOADING | VERIFYING | READY_TO_BOOT | BOOTED_PENDING | RECONCILING
  | SUCCEEDED | FAILED | ROLLED_BACK | CANCELLED | SUPERSEDED | RELEASE_REVOKED.
Inductive campaign_status := ACTIVE | PAUSED | CAMPAIGN_CANCELLED | COMPLETED.

#[export] Instance deployment_state_eq_dec : EqDecision deployment_state. Proof. solve_decision. Defined.
#[export] Instance campaign_status_eq_dec : EqDecision campaign_status. Proof. solve_decision. Defined.

Definition state_text (s : deployment_state) : string :=
  match s with
  | PENDING => "PENDING" | OFFERED => "OFFERED" | DOWNLOADING => "DOWNLOADING" | VERIFYING => "VERIFYING"
  | READY_TO_BOOT => "READY_TO_BOOT" | BOOTED_PENDING => "BOOTED_PENDING" | RECONCILING => "RECONCILING"
  | SUCCEEDED => "SUCCEEDED" | FAILED => "FAILED" | ROLLED_BACK => "ROLLED_BACK" | CANCELLED => "CANCELLED"
  | SUPERSEDED => "SUPERSEDED" | RELEASE_REVOKED => "RELEASE_REVOKED"
  end.
Definition campaign_text (s : campaign_status) : string :=
  match s with ACTIVE => "ACTIVE" | PAUSED => "PAUSED" | CAMPAIGN_CANCELLED => "CANCELLED" | COMPLETED => "COMPLETED" end.

Definition ACTIVE_DEPLOYMENT_STATES : list deployment_state :=
  [OFFERED; DOWNLOADING; VERIFYING; READY_TO_BOOT; BOOTED_PENDING; RECONCILING].
Definition TERMINAL_DEPLOYMENT_STATES : list deployment_state :=
  [SUCCEEDED; FAILED; ROLLED_BACK; CANCELLED; SUPERSEDED; RELEASE_REVOKED].

Definition active_state (s : deployment_state) : bool := bool_decide (s ∈ ACTIVE_DEPLOYMENT_STATES).
Definition terminal_state (s : deployment_state) : bool := bool_decide (s ∈ TERMINAL_DEPLOYMENT_STATES).

(** [DEPLOYMENT_TRANSITIONS.get(status, set())] *)
Definition DEPLOYMENT_TRANSITIONS (s : deployment_state) : list deployment_state :=
  match s with
  | PENDING => [OFFERED; CANCELLED; SUPERSEDED; RELEASE_REVOKED]
  | OFFERED => [OFFERED; DOWNLOADING; READY_TO_BOOT; BOOTED_PENDING; FAILED; CANCELLED; RELEASE_REVOKED]
  | DOWNLOADING => [DOWNLOADING; VERIFYING; READY_TO_BOOT; BOOTED_PENDING; FAILED; CANCELLED; RELEASE_REVOKED]
  | VERIFYING => [VERIFYING; READY_TO_BOOT; BOOTED_PENDING; FAILED; CANCELLED; RELEASE_REVOKED]
  | READY_TO_BOOT => [READY_TO_BOOT; BOOTED_PENDING; FAILED; ROLLED_BACK; RELEASE_REVOKED]
  | BOOTED_PENDING => [BOOTED_PENDING; RECONCILING; FAILED; ROLLED_BACK; RELEASE_REVOKED]
  | RECONCILING => [RECONCILING; SUCCEEDED; FAILED; ROLLED_BACK; RELEASE_REVOKED]
  | _ => []
  end.

(** A reported state is a word; [record_progress] takes the words of the two sets. *)
Definition parse_state (s : string) : option deployment_state :=
  List.find (λ d, bool_decide (state_text d = s)) (ACTIVE_DEPLOYMENT_STATES ++ TERMINAL_DEPLOYMENT_STATES).

(** ** Tables *)
Record FirmwareRelease := mkRelease {
  r_id : Z; r_release_id : string; r_version : string; r_git_sha : string; r_image_sha256 : string; r_image_size : Z;
  r_partition_layout : string; r_minimum_bootstrap_version : string; r_storage_name : string; r_manifest : pyval;
  r_state : string; r_revoked_at : option Z; r_revoked_by : option string; r_signing_key_id : string }.

Record FirmwareCampaign := mkCampaign {
  c_id : Z; c_campaign_id : string; c_release_id : Z; c_zone_id : string; c_status : campaign_status; c_actor : string;
  c_idempotency_key : string; c_reason : string; c_typed_confirmation : string; c_eligible_count : Z;
  c_legacy_skipped_count : Z; c_pause_reason : option string; c_created_at : Z; c_updated_at : Z;
  c_archived_at : option Z; c_archived_by : option string }.

Record FirmwareDeployment := mkDeployment {
  d_id : Z; d_deployment_id : string; d_campaign_id : Z; d_release_id : Z; d_connector_id : Z; d_status : deployment_state;
  d_previous_version : option string; d_target_version : string; d_bytes_written : Z; d_attempt_count : Z;
  d_error_code : option string; d_error_message : option string; d_offered_at : option Z; d_completed_at : option Z;
  d_created_at : Z; d_updated_at : Z }.

Record FirmwareEvent := mkEvent { e_id : Z; e_deployment_id : Z; e_state : string; e_details : pyval; e_created_at : Z }.

Record FirmwareDownloadGrant := mkGrant {
  g_id : Z; g_token_hash : string; g_deployment_id : Z; g_connector_id : Z; g_expires_at : Z; g_created_at : Z;
  g_last_used_at : option Z }.

(** The terminal a connector is bound to, as far as admission reads it. *)
Record ZKTDevice := mkZkt {
  z_serial : option string; z_expected_serial : option string; z_confirmed_serial : option string; z_binding_state : string;
  z_serial_confirmed_by : option string; z_model : option string; z_platform : option string }.

(** The columns of a connector the rollout reads or writes. *)
Record Connector := mkBoard {
  k_id : Z; k_connector_id : string; k_zone_id : string; k_firmware_family : option string; k_firmware_version : option string;
  k_hardware_id : string; k_active : bool; k_connected : bool; k_boot_id : option string; k_last_sequence : Z;
  k_ota_capable : bool; k_ota_secure_boot : bool; k_ota_rollback_enabled : bool; k_ota_partition_layout : option string;
  k_ota_running_partition : option string; k_ota_image_sha256 : option string; k_ota_state : string;
  k_ota_floor_latched_at : option Z; k_firmware_diagnostics : pyval; k_firmware_diagnostics_at : option Z;
  k_zkt_custody_enabled : bool; k_last_error_code : option string; k_last_error_message : option string;
  k_is_spare : bool; k_terminal : option ZKTDevice; k_display_name : string }.

(** The heartbeat handler stores every sample with its sequence. *)
Record DeviceTelemetry := mkTelemetry {
  t_id : Z; t_connector_id : Z; t_boot_id : option string; t_sequence : Z; t_uptime_seconds : option Z; t_outbox_depth : Z;
  t_payload : pyval; t_created_at : Z }.

Record fleet := mkFleet {
  releases : list FirmwareRelease; campaigns : list FirmwareCampaign; deployments : list FirmwareDeployment;
  firmware_events : list FirmwareEvent; grants : list FirmwareDownloadGrant; hil_run_deployments : list Z;
  boards : list Connector; telemetry : list DeviceTelemetry; next_id : Z }.

(** ** Writing rows *)
Definition set_campaigns (cs : list FirmwareCampaign) (w : fleet) : fleet :=
  mkFleet (releases w) cs (deployments w) (firmware_events w) (grants w) (hil_run_deployments w) (boards w) (telemetry w) (next_id w).
Definition set_deployments (ds : list FirmwareDeployment) (w : fleet) : fleet :=
  mkFleet (releases w) (campaigns w) ds (firmware_events w) (grants w) (hil_run_deployments w) (boards w) (telemetry w) (next_id w).
Definition set_boards (ks : list Connector) (w : fleet) : fleet :=
  mkFleet (releases w) (campaigns w) (deployments w) (firmware_events w) (grants w) (hil_run_deployments w) ks (telemetry w) (next_id w).
Definition set_releases (rs : list FirmwareRelease) (w : fleet) : fleet :=
  mkFleet rs (campaigns w) (deployments w) (firmware_events w) (grants w) (hil_run_deployments w) (boards w) (telemetry w) (next_id w).

Definition update_campaign (i : Z) (f : FirmwareCampaign → FirmwareCampaign) (w : fleet) : fleet := set_campaigns (update_by c_id i f (campaigns w)) w.
Definition update_deployment (i : Z) (f : FirmwareDeployment → FirmwareDeployment) (w : fleet) : fleet := set_deployments (update_by d_id i f (deployments w)) w.
Definition update_board (i : Z) (f : Connector → Connector) (w : fleet) : fleet := set_boards (update_by k_id i f (boards w)) w.

(** [session.add(FirmwareEvent(...))] and [session.add(FirmwareDownloadGrant(...))] with a fresh id *)
Definition add_event (deployment : Z) (state : string) (details : pyval) (now : Z) (w : fleet) : fleet :=
  mkFleet (releases w) (campaigns w) (deployments w) (firmware_events w ++ [mkEvent (next_id w) deployment state details now])
    (grants w) (hil_run_deployments w) (boards w) (telemetry w) (next_id w + 1).
Definition add_grant (token_hash : string) (deployment connector expires_at now : Z) (w : fleet) : fleet :=
  mkFleet (releases w) (campaigns w) (deployments w) (firmware_events w)
    (grants w ++ [mkGrant (next_id w) token_hash deployment connector expires_at now None]) (hil_run_deployments w)
    (boards w) (telemetry w) (next_id w + 1).

(** [session.get(...)] *)
Definition release_of (w : fleet) (i : Z) : option FirmwareRelease := row_by r_id i (releases w).
Definition campaign_of (w : fleet) (i : Z) : option FirmwareCampaign := row_by c_id i (campaigns w).
Definition deployment_of (w : fleet) (i : Z) : option FirmwareDeployment := row_by d_id i (deployments w).
Definition board_of (w : fleet) (i : Z) : option Connector := row_by k_id i (boards w).
Definition events_of (w : fleet) (deployment : Z) : list FirmwareEvent :=
  List.filter (λ e, e_deployment_id e =? deployment) (firmware_events w).
Definition events_in (w : fleet) (deployment : Z) (states : list string) : list FirmwareEvent :=
  List.filter (λ e, bool_decide (e_state e ∈ states)) (events_of w deployment).
Definition grants_of (w : fleet) (deployment : Z) : list FirmwareDownloadGrant :=
  List.filter (λ g, g_deployment_id g =? deployment) (grants w).

(** ** Versions, digests and capabilities *)
Definition OTA_LAYOUT : string := "zone-lite-ota-v1".

Definition capability_is_eligible (k : Connector) : bool :=
  k_ota_capable k && k_ota_secure_boot k && k_ota_rollback_enabled k && bool_decide (k_ota_partition_layout k = Some OTA_LAYOUT).

Definition version_at_least (running : option string) (minimum : string) : bool :=
  match semantic_version running, semantic_version (Some minimum) with
  | Some r, Some m => version_leb m r
  | _, _ => false
  end.

Definition _versions_match (running target : option string) : bool :=
  match semantic_version running with Some v => bool_decide (semantic_version target = Some v) | None => false end.

(** [str((release.manifest or {}).get("application_sha256") or "")], when it is 64 lower-case hexadecimal digits *)
Definition _application_sha256 (r : FirmwareRelease) : option string :=
  let v := get "application_sha256" (r_manifest r) in
  let s := if truthy v then py_str_val v else "" in
  if HEX64 s then Some s else None.

Definition offerable (r : FirmwareRelease) : bool := bool_decide (r_state r ∈ ["AVAILABLE"; "HIL_ONLY"]).

(** ** The storage floor *)
Definition STORAGE_EXCEPTION_CODE : string := "STORAGE_REPAIR_EXCEPTION".
Definition REDO_AWARE_VERSION : Z * Z * Z := (2, 7, 6).
Definition STORAGE_EXCEPTION_CONFIRMED_STATES : list string :=
  ["CONFIRMING"; "CONFIRMED"; "ROUND_DONE"; "ROUND_SHORT"; "UNREPAIRED"; "UNHEALTHY"].

(** Asking a set about a list or an object raises. *)
Definition redo_floor_evidence (evidence : pyval) : res bool :=
  if negb (is_dict evidence) then Ok false
  else
    let storage := dict_or_empty (get "storage" evidence) in
    let repair := dict_or_empty (get "repair" storage) in
    let reclaim := dict_or_empty (get "reclaim" repair) in
    let runtime := dict_or_empty (get "ota_runtime" evidence) in
    let exception := dict_or_empty (get "storage_exception" runtime) in
    let state := get "state" exception in
    if is_true (get "ota_floor" reclaim) || eq_str (get "confirm_reason" runtime) STORAGE_EXCEPTION_CODE then Ok true
    else if hashable state then Ok (existsb (eq_str state) STORAGE_EXCEPTION_CONFIRMED_STATES)
    else Raise TypeError "unhashable type".

Definition _redo_floor_exclusion (r : FirmwareRelease) (k : Connector) : res (option string) :=
  match semantic_version (Some (r_version r)) with
  | None => Ok None
  | Some v =>
      if negb (bool_decide (k_firmware_family k = Some "zkt")) || version_leb REDO_AWARE_VERSION v then Ok None
      else
        floored ← match k_ota_floor_latched_at k with Some _ => Ok true | None => redo_floor_evidence (k_firmware_diagnostics k) end;
        Ok (if (floored : bool) then Some "STORAGE_REDO_FLOOR" else None)
  end.

(** ** What the rollout takes from elsewhere

    The clock texts of [datetime] (isoformat, fromisoformat, strftime) and the settings;
    then the functions of other modules a handler calls. They read the tables and never
    write them; [row_lock_free] says whether both row locks of [lock_for_assignment] are
    free at once, [try_assignment_lock] whether the advisory lock is, [stored_image] whether
    a name resolves to a file below the firmware store, [firmware_hil_targets] the decoded
    setting of the ordered HIL scope when there is one, [rsa_verify] the check of a signature
    over canonical bytes with the configured key, [int_of_float] Python's [int] of a float. *)
Class OtaPlatform := {
  iso : Z → string;
  fromiso : string → option Z;
  clock_text : Z → string;
  firmware_ota_enabled : bool;
  firmware_hil_enabled : bool;
  firmware_download_resume_enabled : bool;
  firmware_download_grant_seconds : Z;
  firmware_hil_target_mac : string;
  firmware_hikvision_hil_target_mac : string;
  admission_hold : fleet → FirmwareRelease → Connector → option Z → Z → res (option string);
  writer_predecessor_hold : fleet → Connector → FirmwareRelease → Z → res (option string);
  signing_key_configured : bool;
  rsa_verify : string → bytes → res unit;
  store_available : bool;
  int_of_float : string → res Z;
  firmware_hil_targets : option (res pyval);
  schedule : fleet → FirmwareRelease → Z → res pyval;
  ready_event_matches : fleet → FirmwareEvent → FirmwareDeployment → FirmwareRelease → bool;
  accepted_full_event_matches : fleet → FirmwareEvent → FirmwareDeployment → FirmwareRelease → bool;
  trial : fleet → Connector → string → Z → res unit;
  revoked_evidence : fleet → Connector → FirmwareDeployment → FirmwareRelease → Z → res unit;
  stored_image : string → bool;
  try_assignment_lock : fleet → Connector → bool;
  row_lock_free : fleet → Connector → FirmwareDeployment → bool }.

(** [json] text or null *)
Definition opt_str (o : option string) : pyval := match o with Some s => PStr s | None => PNone end.
Definition opt_text (v : pyval) : option string := match v with PStr s => Some s | _ => None end.
Definition merge_details (base extra : list (string * pyval)) : list (string * pyval) :=
  fold_left (λ d kv, assoc_set kv.1 kv.2 d) extra base.

Definition within (s : string) (l : list string) : bool := bool_decide (s ∈ l).

(** [except ValueError: return h] *)
Definition except_value {A} (r h : res A) : res A := match r with Raise c _ => if is_value_error c then h else r | Ok _ => r end.

Definition code_in (code : option string) (l : list string) : bool := match code with Some c => bool_decide (c ∈ l) | None => false end.
Definition ota_slot (o : option string) : bool := code_in o ["ota_0"; "ota_1"].
