(* ===== verification/OtaReaders.v ===== *)
(** * The reader a writer is admitted over (zkt_reader_evidence.py, zkt_writer_contract.py, zkt_rollback_receipt.py)

    A 2.7.0 writer is offered only over a reader of its signed matrix. The offer records the reader;
    [admitted_reader] reads it back from the one OFFERED event, [current_reader_admission] selects it from the
    running image. [verify_failed_boot_return] accepts the report of a board that is back on its bridge. *)
From S2P Require Import Prelude PyText Hashes PyJson QueueEvidence RuntimeContract DeviceHealth ReleaseScope ReleaseContract OtaModel.
Open Scope string_scope.
Open Scope list_scope.
Open Scope Z_scope.

(** [text.removeprefix("zone-lite-")] *)
Definition remove_family (s : string) : string :=
  if has_prefix (chars "zone-lite-") (chars s) then of_chars (drop 10 (chars s)) else s.

Definition reader_for_writer (r : FirmwareRelease) (k : Connector) : res (option pyval) :=
  contract ← validate_writer_manifest (r_manifest r);
  if negb (py_eq (get "schema_version" contract) (PInt 5)) then Ok None
  else Ok (selected_reader contract (remove_family (default "" (k_firmware_version k))) (k_ota_image_sha256 k)).

Definition reader_release_matches (r : FirmwareRelease) (reader : pyval) : bool :=
  eq_str (get "release_id" reader) (r_release_id r) && eq_str (get "version" reader) (r_version r) && eq_str (get "source_sha" reader) (r_git_sha r)
  && eq_str (get "signing_key_id" reader) (r_signing_key_id r) && eq_str (get "artifact_sha256" reader) (r_image_sha256 r)
  && py_eq (opt_str (_application_sha256 r)) (get "application_sha256" reader) && bool_decide (r_state r = "HIL_ONLY")
  && bool_decide (r_revoked_at r = None).

Definition reader_entry_for_manifest (manifest version : pyval) : res pyval :=
  contract ← validate_writer_manifest manifest;
  if negb (py_eq (get "schema_version" contract) (PInt 5)) then Raise ValueError "Historical writer contracts cannot authorize a new writer."
  else match List.find (λ row, py_eq (get "version" row) version) (matrix_rows (get "reader_matrix" contract)) with
       | None => Raise ValueError "Reader version is outside the exact writer matrix."
       | Some row => Ok (PDict [("schema_version", PInt 1); ("matrix_sha256", get "reader_matrix_sha256" contract); ("reader", row)])
       end.

Definition current_reader_admission (r : FirmwareRelease) (k : Connector) : res pyval :=
  reader ← reader_for_writer r k;
  match reader with
  | None => Raise ValueError "Current reader identity is not in the writer matrix."
  | Some row => reader_entry_for_manifest (r_manifest r) (get "version" row)
  end.

(** Both rows are read again from the tables. *)
Definition admitted_reader (w : fleet) (d : FirmwareDeployment) (r : FirmwareRelease) : res pyval :=
  match deployment_of w (d_id d), release_of w (r_id r) with
  | Some d, Some r =>
      if negb (d_release_id d =? r_id r) then Raise ValueError "Writer admission deployment scope changed."
      else match events_in w (d_id d) ["OFFERED"] with
           | [e] =>
               if negb (is_dict (e_details e)) then Raise ValueError "Writer admission has no unique committed reader selection."
               else
                 let value := get "reader_admission" (e_details e) in
                 if negb (is_dict value && is_dict (get "reader" value)) then Raise ValueError "Writer admission reader identity is missing."
                 else
                   expected ← reader_entry_for_manifest (r_manifest r) (get "version" (get "reader" value));
                   if bool_decide (canonical value = canonical expected)
                      && _versions_match (d_previous_version d) (opt_text (get "version" (get "reader" expected)))
                   then Ok expected
                   else Raise ValueError "Writer admission reader identity disagrees with the deployment."
           | _ => Raise ValueError "Writer admission has no unique committed reader selection."
           end
  | _, _ => Raise ValueError "Writer admission deployment scope changed."
  end.

(** ** A failed boot that came back to its bridge *)
Definition BRIDGE_MESSAGE : string := "Failed-boot recovery requires the exact previously accepted bridge.".
Definition refuse_bridge {A} : res A := Raise ValueError BRIDGE_MESSAGE.
Definition board_deployments (w : fleet) (k : Connector) : list FirmwareDeployment :=
  List.filter (λ o, d_connector_id o =? k_id k) (deployments w).

Definition returned_report_ok (k : Connector) (d : FirmwareDeployment) (r : FirmwareRelease) (version : string) (bytes_written : Z)
    (running_version running_partition : option string) : bool :=
  bool_decide (k_firmware_family k = Some "zkt") && bool_decide (r_version r = "2.7.0") && bool_decide (d_target_version d = "2.7.0")
  && bool_decide (remove_family (default "" (d_previous_version d)) = version) && bool_decide (running_version = Some version)
  && ota_slot running_partition && (bytes_written =? r_image_size r) && (d_bytes_written d =? r_image_size r).

(** The SUCCEEDED event of the bridge's own installation. *)
Definition bridge_event_ok (e : FirmwareEvent) (bridge d : FirmwareDeployment) (reader : FirmwareRelease) (version : string)
    (image_sha256 running_partition : option string) : bool :=
  (e_created_at e <? d_created_at d) && py_eq (get "image_sha256" (e_details e)) (opt_str image_sha256)
  && eq_str (get "running_version" (e_details e)) version && py_eq (get "running_partition" (e_details e)) (opt_str running_partition)
  && py_eq (get "bytes_written" (e_details e)) (PInt (r_image_size reader)) && (d_bytes_written bridge =? r_image_size reader).

Definition failure_event_ok (e : FirmwareEvent) (r : FirmwareRelease) (running_partition : option string) : bool :=
  let failed := e_details e in
  eq_str (get "error_code" failed) "BOOT_HEALTH_TIMEOUT" && eq_str (get "running_version" failed) "2.7.0"
  && py_eq (get "image_sha256" failed) (opt_str (_application_sha256 r)) && py_eq (get "bytes_written" failed) (PInt (r_image_size r))
  && ota_slot (opt_text (get "running_partition" failed)) && negb (py_eq (get "running_partition" failed) (opt_str running_partition)).

Definition verify_failed_boot_return (w : fleet) (k : Connector) (d : FirmwareDeployment) (r : FirmwareRelease) (bytes_written : Z)
    (running_version running_partition image_sha256 : option string) : res (list (string * pyval)) :=
  selection ← (if py_eq (get "schema_version" (get "queue_storage" (r_manifest r))) (PInt 5)
               then v ← admitted_reader w d r; Ok (Some v) else Ok None);
  let version := match selection with
                 | Some v => default "" (opt_text (get "version" (get "reader" v))) | None => REQUIRED_BRIDGE_VERSION end in
  if negb (returned_report_ok k d r version bytes_written running_version running_partition) then refuse_bridge
  else
    _ ← require_family_match (Some "zkt") (r_manifest r);
    if negb (bool_decide (d_id <$> last (board_deployments w k) = Some (d_id d))) then refuse_bridge
    else match last (List.filter (λ o, d_id o <? d_id d) (board_deployments w k)) with
    | None => refuse_bridge
    | Some bridge =>
        if negb (bool_decide (d_status bridge = SUCCEEDED) && bool_decide (d_target_version bridge = version) && (d_created_at bridge <? d_created_at d))
        then refuse_bridge
        else match release_of w (d_release_id bridge) with
        | None => refuse_bridge
        | Some reader =>
            if negb (bool_decide (r_version reader = version) && offerable reader && bool_decide (is_Some (_application_sha256 reader))
                     && bool_decide (image_sha256 = _application_sha256 reader)) then refuse_bridge
            else if match selection with Some v => negb (reader_release_matches reader (get "reader" v)) | None => false end then refuse_bridge
            else
              _ ← require_family_match (Some "zkt") (r_manifest reader);
              match last (events_in w (d_id bridge) ["SUCCEEDED"]) with
              | None => refuse_bridge
              | Some e =>
                  if negb (bridge_event_ok e bridge d reader version image_sha256 running_partition) then refuse_bridge
                  else
                    let failure := if bool_decide (d_status d = FAILED) then last (events_in w (d_id d) ["FAILED"]) else None in
                    if bool_decide (d_status d = FAILED) && negb (match failure with Some f => failure_event_ok f r running_partition | None => false end)
                    then refuse_bridge
                    else
                      Ok ([("schema_version", PInt 1); ("bridge_deployment_id", PStr (d_deployment_id bridge)); ("bridge_boot_event_id", PInt (e_id e));
                           ("failure_event_id", match failure with Some f => PInt (e_id f) | None => PNone end);
                           ("failure_report_received", PBool (bool_decide (is_Some failure)))]
                          ++ match selection with Some v => [("reader_admission", v)] | None => [] end)
              end
        end
    end.
