(* ===== verification/OtaTargets.v ===== *)
(** * Which boards a release may reach (hil_scope.py, zkt_ota_admission.py, zkt274_bld9_k50.py, zkt282_lhrcentral.py,
      zkt283_fsdmain.py, ota.py)

    [target_matches] compares a board with a pinned identity. [_permitted_hil_targets] is the part of the
    scope of a HIL_ONLY release that may start now; [pending_offer_hold] is the guard of every first offer to
    a ZKT board; the factory bridges lead single boards from their factory image to an OTA slot. *)
From S2P Require Import Prelude PyText Hashes PyJson QueueEvidence RuntimeContract DeviceHealth ReleaseScope ReleaseContract OtaModel.
Open Scope string_scope.
Open Scope list_scope.
Open Scope Z_scope.

(** ** Exact matches *)
Definition bound_to (t : HilTarget) (states : list string) (k : Connector) : bool :=
  k_active k && negb (k_is_spare k) && bool_decide (k_connector_id k = ht_connector_id t) && bool_decide (lower (k_hardware_id k) = ht_mac t)
  && match k_terminal k with
     | Some z => bool_decide (z_serial z = Some (ht_terminal_serial t)) && bool_decide (z_confirmed_serial z = Some (ht_terminal_serial t))
                 && bool_decide (z_expected_serial z = Some (ht_terminal_serial t)) && within (z_binding_state z) states
     | None => false
     end.
Definition target_matches (t : HilTarget) (k : Connector) : bool := bound_to t ["CONFIRMED"] k.

Definition release_identity (r : FirmwareRelease) : identity :=
  (r_release_id r, r_version r, r_git_sha r, r_image_sha256 r, _application_sha256 r).

(** *** The K50 *)
Definition k50_admits (t : HilTarget) (k : Connector) : bool :=
  target_matches t k && (negb (bool_decide (t = K50_TARGET)) || bool_decide (k_zone_id k = K50_ZONE)).
Definition offer_location (r : FirmwareRelease) (k : Connector) : option string :=
  if negb (bool_decide (k_firmware_family k = Some "zkt")) || negb (bool_decide (k_zone_id k = K50_ZONE)) || negb (target_matches K50_TARGET k) then None
  else if bool_decide (K50_OFFER_RELEASES (release_identity r) = Some (r_state r)) then Some K50_LOCATION else None.

(** *** LHRCENTRAL and FSDMAIN *)
Definition hil_list (r : FirmwareRelease) : pyval := get "_hil_targets" (r_manifest r).
Definition exposed (r : FirmwareRelease) (exposure : string → string → pyval → res (option (list HilTarget))) (release_id version : string)
    : res (list HilTarget) :=
  if bool_decide (r_state r = "HIL_ONLY") && bool_decide ((r_release_id r, r_version r) = (release_id, version)) then
    except_value (ts ← exposure (r_release_id r) (r_version r) (hil_list r); Ok (default [] ts)) (Ok [])
  else Ok [].
Definition lhrcentral_admits (k : Connector) (r : FirmwareRelease) : res bool :=
  ts ← exposed r lhrcentral_exposure "zone-lite-2.8.2" "2.8.2"; Ok (existsb (λ t, target_matches t k) ts).
Definition fsdmain_matches (t : HilTarget) (k : Connector) : bool := bound_to t ["CONFIRMED"; "PENDING_DEVICE_ACK"] k.
Definition fsdmain_targets (r : FirmwareRelease) : res (list HilTarget) := exposed r fsdmain_exposure "zone-lite-2.8.3" "2.8.3".
Definition fsdmain_target_admits (r : FirmwareRelease) (t : HilTarget) (k : Connector) : res bool :=
  ts ← fsdmain_targets r; Ok (bool_decide (t ∈ ts) && fsdmain_matches t k).
Definition fsdmain_admits (k : Connector) (r : FirmwareRelease) : res bool :=
  ts ← fsdmain_targets r; Ok (existsb (λ t, fsdmain_matches t k) ts).

Definition hil_target_admits (r : FirmwareRelease) (t : HilTarget) (k : Connector) : res bool :=
  if k50_admits t k then Ok true else fsdmain_target_admits r t k.
(** [any(... for target in targets)] *)
Fixpoint any_admits (r : FirmwareRelease) (ts : list HilTarget) (k : Connector) : res bool :=
  match ts with
  | [] => Ok false
  | t :: ts' => b ← hil_target_admits r t k; if (b : bool) then Ok true else any_admits r ts' k
  end.

(** ** The guard of a first offer *)
Definition JOURNAL_VERSIONS : list string := BRIDGE_VERSIONS ++ ["2.7.0"].
Definition QUALIFIED_MODELS : list string := map nt_model TARGETS.
Definition some_text (o : option string) : bool := match o with Some s => negb (bool_decide (s = "")) | None => false end.

Definition admitted_addition (k : Connector) (r : FirmwareRelease) : bool :=
  bool_decide (r_state r = "AVAILABLE") && bool_decide (BY_ID (k_connector_id k) = None)
  && negb (bool_decide (k_connector_id k = ht_connector_id K50_TARGET)) && k_active k && negb (k_is_spare k)
  && match k_terminal k with
     | Some z => bool_decide (z_binding_state z = "CONFIRMED") && some_text (z_confirmed_serial z) && bool_decide (z_serial z = z_confirmed_serial z)
                 && code_in (z_model z) QUALIFIED_MODELS
     | None => false
     end.

Definition terminal_unconfirmed (terminal : option ZKTDevice) : bool :=
  match terminal with
  | None => true
  | Some z => negb (bool_decide (z_binding_state z = "CONFIRMED")) || negb (some_text (z_confirmed_serial z))
              || negb (bool_decide (z_serial z = z_confirmed_serial z))
              || (bool_decide (z_serial_confirmed_by z = Some "AUTO_ONBOARD_EXPECTED_SERIAL") && negb (some_text (z_model z)) && negb (some_text (z_platform z)))
  end.
Definition unconfirmed_terminal_offer (k : Connector) (r : FirmwareRelease) : bool :=
  bool_decide (r_state r = "AVAILABLE") && negb (bool_decide (k_connector_id k = ht_connector_id K50_TARGET)) && k_active k && negb (k_is_spare k)
  && match BY_ID (k_connector_id k) with None => true | Some t => bool_decide (lower (k_hardware_id k) = ht_mac (nt_identity t)) end
  && terminal_unconfirmed (k_terminal k).

Definition nationwide_match (k : Connector) : bool :=
  match BY_ID (k_connector_id k) with Some t => target_matches (nt_identity t) k | None => false end.
Definition offer_admitted (k : Connector) (r : FirmwareRelease) : res bool :=
  if nationwide_match k || bool_decide (is_Some (offer_location r k)) then Ok true
  else
    lhrcentral ← lhrcentral_admits k r;
    if (lhrcentral : bool) then Ok true
    else
      fsdmain ← fsdmain_admits k r;
      Ok ((fsdmain : bool) || admitted_addition k r || unconfirmed_terminal_offer k r).
Definition pending_offer_hold (w : fleet) (k : Connector) (r : FirmwareRelease) : res (option string) :=
  if negb (bool_decide (k_firmware_family k = Some "zkt")) || negb (existsb (λ o, within (r_version o) JOURNAL_VERSIONS) (releases w)) then Ok None
  else
    admitted ← offer_admitted k r;
    Ok (if negb (admitted : bool) then Some "NATIONWIDE_EXACT_TARGET_REQUIRED"
        else if negb (k_connected k) then Some "NATIONWIDE_TARGET_OFFLINE" else None).

(** ** Factory bridges *)
Definition FACTORY_3FL_BRIDGE_RELEASE : string * string * string * option string :=
  ("zone-lite-2.5.2", "2.5.2", "e818e8e7db5d9aa1c92b798d03d088026b36bbe9f4672f908450aa4aa85ef564", assoc "2.5.2" DIRECT_BASELINE_IMAGES).
Definition city_bridge (r : FirmwareRelease) (zone : string) : option string :=
  match assoc zone FACTORY_BRIDGE_PREDECESSORS with
  | Some predecessor => if bool_decide (r_release_id r = "zone-lite-" +:+ predecessor.2) then Some predecessor.2 else None
  | None => None
  end.
Definition factory_bridge_target (r : FirmwareRelease) (zone : string) : res (option HilTarget) :=
  match city_bridge r zone with
  | Some version =>
      if negb (bool_decide (r_state r = "AVAILABLE")) || negb (bool_decide (Some (release_identity r) = assoc version SIGNED_BRIDGE_IDENTITIES))
      then Raise ValueError "The city factory bridge requires the exact published signed image."
      else match assoc zone FACTORY_BRIDGE_TARGETS with Some t => Ok (Some t) | None => Raise KeyError zone end
  | None =>
      if bool_decide (zone = K50_ZONE) && bool_decide (r_release_id r = "zone-lite-2.4.12") then
        if negb (bool_decide (r_state r = "AVAILABLE")) || negb (bool_decide (Some (release_identity r) = K50_BRIDGE_IDENTITY))
        then Raise ValueError "The ZONE-BLD9-01 factory bridge requires the exact published signed 2.4.12 image."
        else Ok (Some K50_TARGET)
      else if negb (bool_decide (zone = FACTORY_3FL_BRIDGE_ZONE)) || negb (bool_decide (r_release_id r = "zone-lite-2.5.2")) then Ok None
      else if negb (bool_decide (r_state r = "AVAILABLE"))
              || negb (bool_decide ((r_release_id r, r_version r, r_image_sha256 r, _application_sha256 r) = FACTORY_3FL_BRIDGE_RELEASE))
      then Raise ValueError "The SLICTOWER 3FL bridge requires the exact published 2.5.2 image."
      else Ok (Some FACTORY_3FL_BRIDGE_TARGET)
  end.

Definition factory_predecessor (zone : string) : string * option string :=
  match (if bool_decide (zone = K50_ZONE) then Some K50_FACTORY_PREDECESSOR else assoc zone FACTORY_BRIDGE_PREDECESSORS) with
  | Some predecessor => (predecessor.1.1, Some predecessor.1.2)
  | None => ("2.4.12", assoc "2.4.12" DIRECT_BASELINE_IMAGES)
  end.
Definition factory_bridge_exclusion (k : Connector) (t : HilTarget) : option string :=
  let '(version, digest) := factory_predecessor (k_zone_id k) in
  if negb (target_matches t k) then Some "BRIDGE_EXACT_IDENTITY_MISMATCH"
  else if negb (k_connected k) then Some "BRIDGE_TARGET_OFFLINE"
  else if negb (_versions_match (k_firmware_version k) (Some version)) || negb (bool_decide (k_ota_running_partition k = Some "factory"))
          || negb (bool_decide (k_ota_image_sha256 k = digest)) then Some "BRIDGE_FACTORY_PREDECESSOR_MISMATCH"
  else None.

(** ** The part of a HIL scope that may start now *)
(** The events about a release in the given states, with their board and deployment. *)
Definition release_events (w : fleet) (release : Z) (states : list string) : list (FirmwareEvent * Connector * FirmwareDeployment) :=
  omap (λ e, if within (e_state e) states then
      d ← deployment_of w (e_deployment_id e);
      if d_release_id d =? release then k ← board_of w (d_connector_id d); Some (e, k, d) else None
    else None) (firmware_events w).
Definition target_evidence (r : FirmwareRelease) (t : HilTarget) (events : list (FirmwareEvent * Connector * FirmwareDeployment))
    : option (FirmwareEvent * FirmwareDeployment) :=
  last (omap (λ ekd, let '(e, k, d) := ekd in
    if target_matches t k && py_eq (get "target" (e_details e)) (model_dump t) && eq_str (get "git_sha" (e_details e)) (r_git_sha r)
       && eq_str (get "artifact_sha256" (e_details e)) (r_image_sha256 r)
       && py_eq (get "application_sha256" (e_details e)) (opt_str (_application_sha256 r))
    then Some (e, d) else None) events).
Definition hil_passed (e : FirmwareEvent) (d : FirmwareDeployment) : bool :=
  bool_decide (e_state e = "HIL_ACCEPTED") && eq_str (get "outcome" (e_details e)) "PASS" && bool_decide (d_status d = SUCCEEDED).
Definition HIL_EVENTS : list string := ["HIL_ACCEPTED"; "HIL_FAILED"; "HIL_INCOMPLETE"].
Definition BRIDGE_EVENTS : list string := ["BRIDGE_READY"; "BRIDGE_FAILED"; "BRIDGE_INCOMPLETE"].

Definition candidate_passed (candidate : FirmwareRelease) (events : list (FirmwareEvent * Connector * FirmwareDeployment)) (t : HilTarget) : res unit :=
  match target_evidence candidate t events with
  | None => Raise ValueError "The previous target has no hardening-candidate HIL acceptance."
  | Some (e, d) => if hil_passed e d then Ok tt
                   else Raise ValueError "The previous target must pass hardening-candidate HIL before the next compatibility update."
  end.
Definition _require_previous_candidate_acceptance (w : fleet) (r : FirmwareRelease) (targets : list HilTarget) (index : nat) : res unit :=
  if negb (bool_decide (r_version r = COMPAT_VERSION)) || bool_decide (index = 0%nat) then Ok tt
  else match List.find (λ c, bool_decide (r_version c = CANDIDATE_VERSION) && bool_decide (r_state c = "HIL_ONLY")) (releases w) with
       | Some candidate =>
           if py_eq (hil_list candidate) (PList (map model_dump targets)) then
             _ ← mapR (candidate_passed candidate (release_events w (r_id candidate) HIL_EVENTS)) (take index targets); Ok tt
           else Raise ValueError "The matching hardening candidate must pass the previous target before compatibility rollout continues."
       | None => Raise ValueError "The matching hardening candidate must pass the previous target before compatibility rollout continues."
       end.

Definition _parallel_hil_prefix (r : FirmwareRelease) (targets : list HilTarget) : nat :=
  let signed_patch :=
    names_release (r_release_id r) (r_version r) ["2.6.10"; "2.6.11"; "2.6.12"; "2.6.13"; "2.6.14"; "2.6.15"] && bool_decide (r_state r = "HIL_ONLY")
    && class_match is_hex 40 40 (r_git_sha r) && HEX64 (r_image_sha256 r) && bool_decide (is_Some (_application_sha256 r)) in
  if bool_decide (targets = HIL_269_EXACT_TARGETS) && (bool_decide (release_identity r = HIL_269_PARALLEL_IDENTITY) || signed_patch)
  then HIL_269_PARALLEL_PREFIX_SIZE else 0%nat.
Definition _is_2615_extension (r : FirmwareRelease) (scope targets : list HilTarget) : bool :=
  bool_decide (r_state r = "HIL_ONLY") && bool_decide (release_identity r = HIL_2615_BLD5_IDENTITY) && bool_decide (targets = scope).

Section permitted.
Context `{OtaPlatform}.

Definition accepted (w : fleet) (r : FirmwareRelease) (t : HilTarget) : bool :=
  match target_evidence r t (release_events w (r_id r) (HIL_EVENTS ++ BRIDGE_EVENTS)) with
  | None => false
  | Some (e, d) =>
      if within (r_version r) (drop 1 BRIDGE_VERSIONS) then bool_decide (d_status d = SUCCEEDED) && ready_event_matches w e d r
      else if bool_decide (r_version r = "2.7.0") then accepted_full_event_matches w e d r
      else hil_passed e d
  end.

(** The ordered half: targets before [index] were accepted. *)
Fixpoint first_unaccepted (w : fleet) (r : FirmwareRelease) (targets rest : list HilTarget) (index : nat) : res (option (list HilTarget)) :=
  match rest with
  | [] => Raise ValueError "All ordered HIL targets already have acceptance; release remains HIL_ONLY."
  | t :: rest' =>
      if accepted w r t then first_unaccepted w r targets rest' (S index)
      else _ ← _require_previous_candidate_acceptance w r targets index; Ok (Some [t])
  end.

Definition ordered_targets (w : fleet) (r : FirmwareRelease) (targets : list HilTarget) : res (option (list HilTarget)) :=
  let bld5 := _is_2615_extension r HIL_2615_BLD5_TARGETS targets in
  let pending l := List.filter (λ t, negb (accepted w r t)) l in
  if _is_2615_extension r HIL_2615_CITY_TARGETS targets then
    match pending targets with
    | [] => Raise ValueError "All reviewed city HIL targets already have acceptance; release remains HIL_ONLY."
    | ts => Ok (Some ts)
    end
  else
    let prefix := if bld5 then HIL_269_PARALLEL_PREFIX_SIZE else _parallel_hil_prefix r targets in
    let independent := if bool_decide (prefix = 0%nat) then [] else take prefix targets ++ (if bld5 then [HIL_2615_BLD5_TARGET] else []) in
    match pending independent with
    | [] => let until := if bld5 then (length targets - 1)%nat else length targets in
            first_unaccepted w r targets (drop prefix (take until targets)) prefix
    | ts => Ok (Some ts)
    end.

Definition hil_disabled {A} : res A := Raise ValueError "Ordered firmware HIL quarantine is disabled.".
Definition shared_targets (w : fleet) (r : FirmwareRelease) (now : Z) : res (option (list HilTarget)) :=
  let bridge := within (r_version r) JOURNAL_VERSIONS in
  if negb firmware_hil_enabled || (negb bridge && bool_decide (length (option_list firmware_hil_targets) = 0%nat)) then hil_disabled
  else
    _ ← (if bridge then _ ← validate_storage_contract (r_manifest r) (r_version r); Ok tt else Ok tt);
    targets ← _parse_release_hil_targets (release_identity r) (hil_list r);
    configured ← (if bridge then Ok targets
                  else match firmware_hil_targets with Some json => raw ← json; parse_hil_targets raw | None => hil_disabled end);
    if negb (bool_decide (targets = configured))
       && negb ((_is_2615_extension r HIL_2615_BLD5_TARGETS targets || _is_2615_extension r HIL_2615_CITY_TARGETS targets)
                && bool_decide (configured = HIL_269_EXACT_TARGETS))
    then Raise ValueError "Ordered HIL targets do not match the configured exact scope."
    else
      nationwide ← schedule w r now;
      if is_none nationwide then ordered_targets w r targets
      else if truthy (get "hold" nationwide) then Raise ValueError ("Nationwide HIL scope held: " +:+ py_str_val (get "hold" nationwide))
      else if is_none (get "selected" nationwide) then
        Raise ValueError "No online pending target is available in the exposed HIL scope; deferred targets remain incomplete."
      else t ← model_validate (get "selected" nationwide); Ok (Some [t]).

Definition permitted_hil_targets (w : fleet) (r : FirmwareRelease) (now : Z) : res (option (list HilTarget)) :=
  let raw := hil_list r in
  if is_none raw then Ok None
  else if within (r_version r) RECOVERY_VERSIONS then
    if negb firmware_hil_enabled then hil_disabled
    else
      _ ← validate_storage_contract (r_manifest r) (r_version r);
      if negb (bool_decide (r_state r = "HIL_ONLY")) || negb (bool_decide (Some (r_release_id r) = recovery_release_id (r_version r)))
      then Raise ValueError "Storage recovery is restricted to its exact HIL-only release."
      else ts ← recovery_hil_targets raw; Ok (Some ts)
  else if within (r_version r) FLEET_PLATFORM_VERSIONS then
    if negb firmware_hil_enabled then hil_disabled
    else
      _ ← validate_storage_contract (r_manifest r) (r_version r);
      if negb (bool_decide (r_state r = "HIL_ONLY")) || negb (names_release (r_release_id r) (r_version r) FLEET_PLATFORM_VERSIONS)
      then Raise ValueError "The 2.7 platform is restricted to its exact HIL-only release."
      else ts ← _parse_release_hil_targets (release_identity r) raw; Ok (Some ts)
  else shared_targets w r now.
End permitted.
