(* ===== verification/OtaProgress.v ===== *)
(** * Progress of one deployment (ota.py)

    [record_progress] applies one checked transition reported by a board or inferred by
    the backend; a failure pauses the campaign, the last success completes it.
    [resolve_download] opens a download grant, [parse_single_range] and [firmware_chunks]
    serve the bytes. *)
From S2P Require Import Prelude PyText Hashes PyJson QueueEvidence RuntimeContract DeviceHealth ReleaseScope ReleaseContract OtaModel OtaReaders.
Open Scope string_scope.
Open Scope list_scope.
Open Scope Z_scope.

(** ** The campaign after an outcome *)
Definition set_campaign_status (s : campaign_status) (reason : option string) (now : Z) (c : FirmwareCampaign) : FirmwareCampaign :=
  mkCampaign (c_id c) (c_campaign_id c) (c_release_id c) (c_zone_id c) s (c_actor c) (c_idempotency_key c) (c_reason c)
    (c_typed_confirmation c) (c_eligible_count c) (c_legacy_skipped_count c) reason (c_created_at c) now (c_archived_at c) (c_archived_by c).

Definition live (c : FirmwareCampaign) : bool := bool_decide (c_status c ∈ [ACTIVE; PAUSED]).

Definition deployment_pause_reason (k : Connector) (st : deployment_state) (error_code : option string) : string :=
  k_connector_id k +:+ ": " +:+ state_text st +:+ " (" +:+ (match error_code with Some e => if bool_decide (e = "") then "UNKNOWN" else e | None => "UNKNOWN" end) +:+ ")".

(** [s.removeprefix] when [s.startswith] *)
Fixpoint drop_prefix (p s : bytes) : option bytes :=
  match p, s with
  | [], _ => Some s
  | a :: p', b :: s' => if bool_decide (a = b) then drop_prefix p' s' else None
  | _, [] => None
  end.

(** [_DEPLOYMENT_OUTCOME_REASON.fullmatch]: an outcome word, then one parenthesised text without parentheses *)
Definition parenthesised (s : bytes) : bool :=
  match rev s with
  | close :: body => bool_decide (close = x29) && forallb (λ b, negb (bool_decide (b ∈ [x28; x29]))) body
  | [] => false
  end.
Definition _DEPLOYMENT_OUTCOME_REASON (s : bytes) : bool :=
  match drop_prefix (chars "FAILED (") s, drop_prefix (chars "ROLLED_BACK (") s with
  | Some rest, _ => parenthesised rest
  | None, Some rest => parenthesised rest
  | None, None => false
  end.

Definition own_outcome (k : Connector) (reason : string) : bool :=
  match drop_prefix (chars (k_connector_id k +:+ ": ")) (chars reason) with
  | Some rest => _DEPLOYMENT_OUTCOME_REASON rest
  | None => false
  end.

Definition pause_for_deployment_outcome (k : Connector) (st : deployment_state) (error_code : option string) (now : Z)
    (c : FirmwareCampaign) : FirmwareCampaign :=
  let paused := set_campaign_status PAUSED (Some (deployment_pause_reason k st error_code)) now c in
  match c_status c, c_pause_reason c with
  | CAMPAIGN_CANCELLED, _ => c
  | PAUSED, Some reason => if negb (bool_decide (reason = "")) && negb (own_outcome k reason) then c else paused
  | _, _ => paused
  end.

Definition statuses_of (w : fleet) (campaign : Z) : list deployment_state :=
  map d_status (List.filter (λ d, d_campaign_id d =? campaign) (deployments w)).

Definition complete_if_succeeded (w : fleet) (campaign : option FirmwareCampaign) (now : Z) : fleet * bool :=
  match campaign with
  | None => (w, false)
  | Some c =>
      if negb (live c) then (w, false)
      else
        let statuses := statuses_of w (c_id c) in
        if bool_decide (statuses = []) || existsb (λ s, negb (bool_decide (s = SUCCEEDED))) statuses then (w, false)
        else match campaign_of w (c_id c) with
             | Some locked =>
                 if live locked then (update_campaign (c_id c) (set_campaign_status COMPLETED None now) w, true) else (w, false)
             | None => (w, false)
             end
  end.

(** ** A report *)
Record progress := mkProgress {
  p_state : string; p_bytes_written : Z; p_running_version : option string; p_running_partition : option string;
  p_image_sha256 : option string; p_error_code : option string; p_error_message : option string;
  p_event_details : list (string * pyval) }.


(** A failed boot of 2.7.0 that returned to its bridge: the one report a terminal deployment still takes. *)
Definition failed_boot_return (d : FirmwareDeployment) (st : deployment_state) (error_code : option string) : bool :=
  bool_decide (st = ROLLED_BACK) && bool_decide (d_target_version d = "2.7.0")
  && code_in error_code ["BOOT_HEALTH_TIMEOUT"; "PREVIOUS_FIRMWARE_OBSERVED"]
  && (bool_decide (d_status d ∈ [READY_TO_BOOT; BOOTED_PENDING; RECONCILING])
      || (bool_decide (d_status d = FAILED) && bool_decide (d_error_code d = Some "BOOT_HEALTH_TIMEOUT"))).

Definition progressed (st : deployment_state) (p : progress) (now : Z) (d : FirmwareDeployment) : FirmwareDeployment :=
  mkDeployment (d_id d) (d_deployment_id d) (d_campaign_id d) (d_release_id d) (d_connector_id d) st
    (d_previous_version d) (d_target_version d) (Z.max (d_bytes_written d) (p_bytes_written p)) (d_attempt_count d)
    (p_error_code p) (p_error_message p) (d_offered_at d) (if terminal_state st then Some now else d_completed_at d)
    (d_created_at d) now.

Definition set_board_ota (state : string) (latched : option Z) (k : Connector) : Connector :=
  mkBoard (k_id k) (k_connector_id k) (k_zone_id k) (k_firmware_family k) (k_firmware_version k) (k_hardware_id k) (k_active k)
    (k_connected k) (k_boot_id k) (k_last_sequence k) (k_ota_capable k) (k_ota_secure_boot k) (k_ota_rollback_enabled k)
    (k_ota_partition_layout k) (k_ota_running_partition k) (k_ota_image_sha256 k) state latched (k_firmware_diagnostics k)
    (k_firmware_diagnostics_at k) (k_zkt_custody_enabled k) (k_last_error_code k) (k_last_error_message k) (k_is_spare k) (k_terminal k) (k_display_name k).

Definition floors (st : deployment_state) (error_code : option string) : bool :=
  bool_decide (st ∈ [RECONCILING; FAILED])
  && code_in error_code [STORAGE_EXCEPTION_CODE; "STORAGE_REPAIR_EXCEPTION_UNREPAIRED"; "STORAGE_REPAIR_EXCEPTION_UNHEALTHY"].

Definition board_after (st : deployment_state) (error_code : option string) (now : Z) (k : Connector) : Connector :=
  set_board_ota
    (if bool_decide (st = SUCCEEDED) then "OTA_READY" else if bool_decide (st = ROLLED_BACK) then "ROLLBACK_REQUIRED"
     else if active_state st then "UPDATING" else k_ota_state k)
    (match k_ota_floor_latched_at k with None => if floors st error_code then Some now else None | Some t => Some t end) k.

Definition progress_details (d : FirmwareDeployment) (p : progress) (recovery : option (list (string * pyval))) : pyval :=
  PDict (merge_details
    ([("bytes_written", PInt (Z.max (d_bytes_written d) (p_bytes_written p))); ("error_code", opt_str (p_error_code p));
      ("running_version", opt_str (p_running_version p)); ("running_partition", opt_str (p_running_partition p));
      ("image_sha256", opt_str (p_image_sha256 p))]
     ++ match recovery with Some r => [("recovery", PDict r)] | None => [] end
     ++ match p_error_message p with Some m => if bool_decide (m = "") then [] else [("error_message", PStr (prefix_chars 500 m))] | None => [] end)
    (p_event_details p)).

Definition booted (st : deployment_state) : bool := bool_decide (st ∈ [BOOTED_PENDING; RECONCILING; SUCCEEDED]).

(** The guards on bytes, version, slot and digest. *)
Definition check_progress (d : FirmwareDeployment) (r : FirmwareRelease) (st : deployment_state) (p : progress) : res unit :=
  if (p_bytes_written p <? d_bytes_written d) || (r_image_size r <? p_bytes_written p) then
    Raise ValueError "Firmware byte progress is outside the signed artifact bounds."
  else if bool_decide (st ∈ [READY_TO_BOOT; BOOTED_PENDING]) && negb (p_bytes_written p =? r_image_size r) then
    Raise ValueError "Boot progress requires the complete signed firmware image."
  else if negb (booted st) then Ok tt
  else if negb (_versions_match (p_running_version p) (Some (d_target_version d))) then
    Raise ValueError "Reported running firmware does not match the deployment target."
  else if negb (ota_slot (p_running_partition p)) then
    Raise ValueError "Reported running partition is not an OTA application slot."
  else match _application_sha256 r with
       | Some digest => if bool_decide (p_image_sha256 p = Some digest) then Ok tt
                        else Raise ValueError "Reported running image digest does not match the signed release."
       | None => Raise ValueError "Reported running image digest does not match the signed release."
       end.

Definition apply_progress (w : fleet) (k : Connector) (d : FirmwareDeployment) (st : deployment_state) (p : progress)
    (recovery : option (list (string * pyval))) (now : Z) : fleet :=
  let w := update_deployment (d_id d) (progressed st p now) w in
  let w := add_event (d_id d) (state_text st) (progress_details d p recovery) now w in
  let w := if bool_decide (st ∈ [FAILED; ROLLED_BACK]) then
             update_campaign (d_campaign_id d) (pause_for_deployment_outcome k st (p_error_code p) now) w else w in
  let w := if bool_decide (st = SUCCEEDED) then (complete_if_succeeded w (campaign_of w (d_campaign_id d)) now).1 else w in
  update_board (k_id k) (board_after st (p_error_code p) now) w.

Section progress.
Context `{OtaPlatform}.

Definition record_progress (w : fleet) (k : Connector) (public_id : string) (p : progress) (now : Z) : res (fleet * FirmwareDeployment) :=
  match parse_state (p_state p) with
  | None => Raise ValueError "Unknown firmware deployment state."
  | Some st =>
      match List.find (λ d, bool_decide (d_deployment_id d = public_id) && (d_connector_id d =? k_id k)) (deployments w) with
      | None => Raise ValueError "Unknown firmware deployment."
      | Some d =>
          let returned := failed_boot_return d st (p_error_code p) in
          if terminal_state (d_status d) && negb returned then Ok (w, d)
          else if negb (bool_decide (st ∈ DEPLOYMENT_TRANSITIONS (d_status d))) && negb returned then
            Raise ValueError ("Illegal firmware transition " +:+ state_text (d_status d) +:+ " -> " +:+ state_text st +:+ ".")
          else
            match release_of w (d_release_id d) with
            | None => Raise ValueError "Firmware release is unavailable."
            | Some r =>
                _ ← (if bool_decide (r_version r = "2.6.22") && booted st then revoked_evidence w k d r now else Ok tt);
                recovery ← (if returned then
                    v ← verify_failed_boot_return w k d r (p_bytes_written p) (p_running_version p) (p_running_partition p) (p_image_sha256 p);
                    Ok (Some (assoc_set "reported_reason" (opt_str (p_error_code p)) v))
                  else Ok None);
                _ ← check_progress d r st p;
                Ok (apply_progress w k d st p recovery now, progressed st p now d)
            end
      end
  end.

Definition set_board_error (state code message : string) (k : Connector) : Connector :=
  mkBoard (k_id k) (k_connector_id k) (k_zone_id k) (k_firmware_family k) (k_firmware_version k) (k_hardware_id k) (k_active k)
    (k_connected k) (k_boot_id k) (k_last_sequence k) (k_ota_capable k) (k_ota_secure_boot k) (k_ota_rollback_enabled k)
    (k_ota_partition_layout k) (k_ota_running_partition k) (k_ota_image_sha256 k) state (k_ota_floor_latched_at k)
    (k_firmware_diagnostics k) (k_firmware_diagnostics_at k) (k_zkt_custody_enabled k) (Some code) (Some message) (k_is_spare k) (k_terminal k) (k_display_name k).

(** service.fail_ota_deployment; the alert it raises is not part of the tables here. *)
Definition fail_ota_deployment (w : fleet) (k : Connector) (d : FirmwareDeployment) (error_code error_message : string)
    (bytes_written : option Z) (now : Z) : res fleet :=
  r ← record_progress w k (d_deployment_id d)
        (mkProgress "FAILED" (default (d_bytes_written d) bytes_written) None None None (Some error_code) (Some error_message) []) now;
  Ok (update_board (k_id k) (set_board_error "OTA_BLOCKED" ("OTA_" +:+ error_code) error_message) r.1).

(** ** The answer to a report *)
Definition progress_receipt (w : fleet) (d : FirmwareDeployment) (requested : string) : res (list (string * pyval)) :=
  match release_of w (d_release_id d) with
  | None => Raise ValueError "Firmware release is unavailable."
  | Some r =>
      let confirm := bool_decide (requested = "BOOTED_PENDING") && bool_decide (d_status d = BOOTED_PENDING) in
      let receipt := [("schema_version", PInt 1); ("deployment_id", PStr (d_deployment_id d)); ("state", PStr (state_text (d_status d)));
        ("target_version", PStr (d_target_version d)); ("application_sha256", opt_str (_application_sha256 r));
        ("confirm", PBool confirm); ("error_code", opt_str (d_error_code d))] in
      let receipt :=
        if bool_decide (requested = "BOOTED_PENDING") && bool_decide (d_error_code d = Some STORAGE_EXCEPTION_CODE) then
          let other := existsb (λ o, negb (d_connector_id o =? d_connector_id d) && bool_decide (d_error_code o = Some STORAGE_EXCEPTION_CODE)
                                     && active_state (d_status o)) (deployments w) in
          let campaign_active := match campaign_of w (d_campaign_id d) with Some c => bool_decide (c_status c = ACTIVE) | None => false end in
          receipt ++ [("storage_exception_allowed", PBool (confirm && offerable r && campaign_active && negb other))]
        else receipt in
      Ok (if bool_decide (d_status d = ROLLED_BACK) && bool_decide (d_target_version d = "2.7.0") then
            let details := match last (events_in w (d_id d) ["ROLLED_BACK"]) with Some e => e_details e | None => PDict [] end in
            let recovery := get "recovery" details in
            if py_eq (get "schema_version" recovery) (PInt 1) then
              receipt ++ [("rollback_application_sha256", get "image_sha256" details)]
              ++ (if py_eq (get "schema_version" (get "reader_admission" recovery)) (PInt 1)
                  then [("reader_admission", get "reader_admission" recovery)] else [])
            else receipt
          else receipt)
  end.
End progress.
