(* ===== verification/OtaDownload.v ===== *)
(** * Downloads and returns to the previous firmware (ota.py, web.py)

    [resolve_download] opens a grant, [parse_single_range] reads the one byte range a
    board may ask for and [firmware_chunks] streams it.
    [previous_firmware_return_evidence] recognises a board that is back on its previous
    firmware. [storage_predecessor_exclusion] is the test on the running image that both
    the assignment and every download repeat. *)
From S2P Require Import Prelude PyText Hashes PyJson QueueEvidence RuntimeContract DeviceHealth ReleaseScope ReleaseContract OtaModel OtaReaders OtaTargets OtaProgress.
Open Scope string_scope.
Open Scope list_scope.
Open Scope Z_scope.

(** ** Byte ranges *)
(** [int(s)] on ASCII text: a sign and groups of digits joined by single underscores *)
Definition digit_groups (l : bytes) : option Z :=
  let groups := split_byte x5f l in
  if forallb (λ g, negb (bool_decide (g = []))) groups then digits_value (concat groups) else None.
Definition py_int (l : bytes) : option Z :=
  match strip_bytes l with
  | x2d :: rest => Z.opp <$> digit_groups rest
  | x2b :: rest => digit_groups rest
  | rest => digit_groups rest
  end.

(** [s.partition(sep)]: the text before the first separator, and the text after it if there is one *)
Fixpoint partition_byte (sep : byte) (l : bytes) : bytes * option bytes :=
  match l with
  | [] => ([], None)
  | b :: l' => if bool_decide (b = sep) then ([], Some l') else let '(h, t) := partition_byte sep l' in (b :: h, t)
  end.

(** The header is ASCII text. *)
Definition parse_single_range (value : option string) (size : Z) : res (option (Z * Z)) :=
  match value with
  | None => Ok None
  | Some v =>
      if bool_decide (v = "") then Ok None
      else match drop_prefix (chars "bytes=") (chars v) with
           | None => Raise ValueError "Only one byte range is supported."
           | Some rest =>
               if bool_decide (x2c ∈ chars v) then Raise ValueError "Only one byte range is supported."
               else
                 let '(start_text, end_text) := partition_byte x2d rest in
                 match end_text, digits_value start_text with
                 | Some end_text, Some start =>
                     last ← (if bool_decide (end_text = []) then Ok (size - 1)
                             else match py_int end_text with Some e => Ok e
                                   | None => Raise ValueError ("invalid literal for int() with base 10: " +:+ py_repr (of_chars end_text)) end);
                     if (size <=? start) || (last <? start) then Raise ValueError "Byte range is outside the firmware image."
                     else Ok (Some (start, Z.min last (size - 1)))
                 | _, _ => Raise ValueError "Invalid byte range."
                 end
           end
  end.

(** web._firmware_chunks over the bytes of the image from its position on; [fuel] bounds the reads. *)
Definition CHUNK_SIZE : Z := 64 * 1024.
Fixpoint read_chunks (fuel : nat) (file : bytes) (remaining : Z) : list bytes :=
  match fuel with
  | O => []
  | S fuel' =>
      if remaining =? 0 then []
      else
        let chunk := take (Z.to_nat (Z.min CHUNK_SIZE remaining)) file in
        if bool_decide (chunk = []) then []
        else chunk :: read_chunks fuel' (drop (length chunk) file) (remaining - zlen chunk)
  end.
Definition firmware_chunks (file : bytes) (start last : Z) : list bytes :=
  read_chunks (S (Z.to_nat (last - start + 1))) (drop (Z.to_nat start) file) (last - start + 1).

(** ** The running image a release may replace *)
Definition RECOVERY_OFFERABLE_STATES : list deployment_state := [PENDING; OFFERED; DOWNLOADING; VERIFYING].
Definition JOURNAL_BRIDGES : list string := ["2.6.16"; "2.6.17"; "2.6.18"; "2.6.19"; "2.6.20"; "2.6.21"; "2.6.23"].

(** Predecessors that count although they were never promoted. *)
Definition hil_retry (version qualified : string) : bool :=
  (within version ["2.6.7"] && within qualified ["2.6.6"])
  || (within version ["2.6.8"] && within qualified ["2.6.6"; "2.6.7"])
  || (within version ["2.6.9"] && within qualified ["2.6.6"; "2.6.7"; "2.6.8"])
  || (within version ["2.6.10"] && within qualified ["2.6.6"; "2.6.7"; "2.6.8"; "2.6.9"])
  || (within version ["2.6.11"; "2.6.12"; "2.6.13"; "2.6.14"; "2.6.15"] && within qualified ["2.6.6"; "2.6.7"; "2.6.8"; "2.6.9"; "2.6.10"])
  || (within version ["2.6.13"; "2.6.14"; "2.6.15"] && within qualified ["2.6.12"])
  || (within version ["2.6.14"; "2.6.15"] && within qualified ["2.6.13"])
  || (within version ["2.6.15"] && within qualified ["2.6.14"])
  || (within version JOURNAL_BRIDGES && within qualified ["2.6.15"])
  || (within version FLEET_PLATFORM_VERSIONS
      && within qualified ["2.6.6"; "2.6.7"; "2.6.8"; "2.6.9"; "2.6.10"; "2.6.12"; "2.6.13"; "2.6.14"; "2.6.15"])
  || (within version (drop 2 FLEET_PLATFORM_VERSIONS) && within qualified ["2.7.2"])
  || (within version (drop 3 FLEET_PLATFORM_VERSIONS) && within qualified ["2.7.3"])
  || (within version (drop 4 FLEET_PLATFORM_VERSIONS) && within qualified ["2.7.4"])
  || (within version (drop 5 FLEET_PLATFORM_VERSIONS) && within qualified ["2.7.5"])
  || (within version (drop 6 FLEET_PLATFORM_VERSIONS) && within qualified ["2.7.6"])
  || (within version (drop 7 FLEET_PLATFORM_VERSIONS) && within qualified ["2.7.7"])
  || (within version (drop 8 FLEET_PLATFORM_VERSIONS) && within qualified ["2.7.8"])
  || (within version (drop 9 FLEET_PLATFORM_VERSIONS) && within qualified ["2.8.0"])
  || (within version (drop 10 FLEET_PLATFORM_VERSIONS) && within qualified ["2.8.1"]).

Definition unhealthy_storage (storage : pyval) : bool :=
  negb (is_true (get "upgrade_ready" storage)) || negb (eq_str (get "upgrade_contract" storage) COMPAT_MARKER)
  || truthy (get "upgrade_error" storage) || negb (eq_str (get "durability" storage) "HEALTHY")
  || negb (is_true (get "persistence_verified" storage)) || negb (is_true (get "recovery_complete" storage)).

(** The latest SUCCEEDED event of the board, with its deployment and release. *)
Definition accepted_boot (w : fleet) (k : Connector) : option (FirmwareEvent * FirmwareDeployment * FirmwareRelease) :=
  last (omap (λ e, if bool_decide (e_state e = "SUCCEEDED") then
      d ← deployment_of w (e_deployment_id e);
      if d_connector_id d =? k_id k then r ← release_of w (d_release_id d); Some (e, d, r) else None
    else None) (firmware_events w)).

Section downloads.
Context `{OtaPlatform}.

(** The direct-bootstrap half: the running version must be qualified and its signed image the running one. *)
Definition direct_bootstrap_exclusion (w : fleet) (r : FirmwareRelease) (k : Connector) (contract : pyval) : res (option string) :=
  match get "allowed_bootstrap_versions" contract with
  | PList versions =>
      match List.find (λ v, _versions_match (k_firmware_version k) (opt_text v)) versions with
      | Some (PStr qualified) =>
          match get "allowed_bootstrap_images" contract with
          | PDict images =>
              match assoc qualified images with
              | Some expected =>
                  let states := if hil_retry (r_version r) qualified then ["AVAILABLE"; "HIL_ONLY"] else ["AVAILABLE"] in
                  let predecessor := List.find (λ p, bool_decide (r_release_id p = "zone-lite-" +:+ qualified) && within (r_state p) states) (releases w) in
                  Ok (match predecessor with
                      | Some p =>
                          if py_eq (opt_str (_application_sha256 p)) expected && py_eq (opt_str (k_ota_image_sha256 k)) expected
                             && ota_slot (k_ota_running_partition k)
                          then None else Some "DIRECT_BOOTSTRAP_IMAGE_UNVERIFIED"
                      | None => Some "DIRECT_BOOTSTRAP_IMAGE_UNVERIFIED"
                      end)
              | None => Raise KeyError qualified
              end
          | _ => Raise KeyError "allowed_bootstrap_images"
          end
      | _ => Ok (Some "DIRECT_BOOTSTRAP_VERSION_UNQUALIFIED")
      end
  | PNone => Ok None
  | _ => Raise TypeError "allowed_bootstrap_versions"
  end.

(** The compatibility half, for images that write format 2. *)
Definition compatibility_exclusion (w : fleet) (k : Connector) (now : Z) : res (option string) :=
  if negb (_versions_match (k_firmware_version k) (Some COMPAT_VERSION)) then Ok (Some "COMPATIBILITY_FIRMWARE_REQUIRED")
  else
    let fresh := match k_firmware_diagnostics_at k with Some t => (0 <=? now - t) && (now - t <=? 45 * SECOND) | None => false end in
    if negb fresh || unhealthy_storage (get "storage" (k_firmware_diagnostics k)) then Ok (Some "COMPATIBILITY_RECOVERY_NOT_VERIFIED")
    else match accepted_boot w k with
         | None => Ok (Some "COMPATIBILITY_ACCEPTANCE_MISSING")
         | Some (e, d, p) =>
             contract ← except_value (validate_storage_contract (r_manifest p) (r_version p)) (Ok PNone);
             Ok (if bool_decide (d_status d = SUCCEEDED) && offerable p && bool_decide (r_version p = COMPAT_VERSION) && truthy contract
                    && py_eq (get "image_sha256" (e_details e)) (opt_str (_application_sha256 p))
                    && _versions_match (opt_text (get "running_version" (e_details e))) (Some COMPAT_VERSION)
                    && ota_slot (opt_text (get "running_partition" (e_details e)))
                 then None else Some "COMPATIBILITY_ACCEPTANCE_MISMATCH")
         end.

Definition storage_predecessor_exclusion (w : fleet) (r : FirmwareRelease) (k : Connector) (deployment : option Z) (now : Z) : res (option string) :=
  match validate_storage_contract (r_manifest r) (r_version r) with
  | Raise c m => if is_value_error c then Ok (Some "STORAGE_CONTRACT_INVALID") else Raise c m
  | Ok contract =>
      floor ← _redo_floor_exclusion r k;
      match floor with
      | Some reason => Ok (Some reason)
      | None =>
          if bool_decide (r_version r = "2.6.22") then admission_hold w r k deployment now
          else if bool_decide (r_version r = "2.7.0") then
            hold ← writer_predecessor_hold w k r now;
            Ok (match hold with
                | Some reason => Some reason
                | None => if k_zkt_custody_enabled k then None else Some "JOURNAL_ADD_CUSTODY_DISABLED"
                end)
          else if within (r_version r) JOURNAL_BRIDGES && negb (bool_decide (r_state r = "HIL_ONLY")) then Ok (Some "JOURNAL_BRIDGE_HIL_ONLY")
          else if within (r_version r) RECOVERY_VERSIONS && negb (bool_decide (r_state r = "HIL_ONLY")) then Ok (Some "STORAGE_RECOVERY_HIL_ONLY")
          else
            direct ← (if truthy contract then direct_bootstrap_exclusion w r k contract else Ok None);
            match direct with
            | Some reason => Ok (Some reason)
            | None =>
                if negb (truthy contract) then Ok None
                else match contract with
                     | PDict fields =>
                         match assoc "write_format" fields with
                         | Some format => if py_eq format (PInt 2) then compatibility_exclusion w k now else Ok None
                         | None => Raise KeyError "write_format"
                         end
                     | _ => Raise TypeError "write_format"
                     end
            end
      end
  end.

(** ** Opening a grant *)
Definition configured_hil_mac (r : FirmwareRelease) : res string :=
  family ← release_family (r_manifest r);
  Ok (lower (strip (if bool_decide (family = "hikvision") then firmware_hikvision_hil_target_mac else firmware_hil_target_mac))).

(** [str((release.manifest or {}).get("_hil_target_mac") or "").lower()] *)
Definition hil_target_mac (r : FirmwareRelease) : string :=
  let v := get "_hil_target_mac" (r_manifest r) in lower (if truthy v then py_str_val v else "").

Definition hil_download_check (w : fleet) (r : FirmwareRelease) (d : FirmwareDeployment) (board : option Connector) (now : Z) : res unit :=
  if negb (match campaign_of w (d_campaign_id d) with Some c => bool_decide (c_status c = ACTIVE) | None => false end)
     || negb (active_state (d_status d)) then Raise ValueError "HIL firmware campaign is not active."
  else
    configured ← configured_hil_mac r;
    permitted ← permitted_hil_targets w r now;
    match permitted with
    | Some (t :: ts) =>
        admits ← match board with Some k => any_admits r (t :: ts) k | None => Ok false end;
        if (admits : bool) then Ok tt
        else Raise ValueError "HIL firmware grant exact target mismatch."
    | _ =>
        let target := hil_target_mac r in
        if negb firmware_hil_enabled || bool_decide (target = "") || negb (bool_decide (target = configured)) then
          Raise ValueError "HIL firmware release is unavailable."
        else if match board with Some k => bool_decide (lower (k_hardware_id k) = target) | None => false end then Ok tt
        else Raise ValueError "HIL firmware grant target mismatch."
    end.

Definition set_last_used (now : Z) (g : FirmwareDownloadGrant) : FirmwareDownloadGrant :=
  mkGrant (g_id g) (g_token_hash g) (g_deployment_id g) (g_connector_id g) (g_expires_at g) (g_created_at g) (Some now).
Definition update_grant (i : Z) (f : FirmwareDownloadGrant → FirmwareDownloadGrant) (w : fleet) : fleet :=
  mkFleet (releases w) (campaigns w) (deployments w) (firmware_events w) (update_by g_id i f (grants w)) (hil_run_deployments w)
    (boards w) (telemetry w) (next_id w).

Definition bridge_download_check (w : fleet) (r : FirmwareRelease) (d : FirmwareDeployment) (k : Connector) : res unit :=
  let campaign := campaign_of w (d_campaign_id d) in
  target ← factory_bridge_target r (match campaign with Some c => c_zone_id c | None => k_zone_id k end);
  match target with
  | None => Ok tt
  | Some t =>
      if match campaign with Some c => bool_decide (c_status c = ACTIVE) && bool_decide (k_zone_id k = c_zone_id c) | None => false end
         && bool_decide (factory_bridge_exclusion k t = None)
      then Ok tt else Raise ValueError "Factory-to-OTA bridge exact target or predecessor changed."
  end.

Definition reader_unchanged (w : fleet) (d : FirmwareDeployment) (r : FirmwareRelease) (k : Connector) : res bool :=
  admitted ← admitted_reader w d r; current ← current_reader_admission r k; Ok (py_eq admitted current).

Definition resolve_download (w : fleet) (token : string) (now : Z) : res (fleet * FirmwareRelease) :=
  match List.find (λ g, bool_decide (g_token_hash g = sha256_hex (chars token)) && (now <? g_expires_at g)) (grants w) with
  | None => Raise ValueError "Firmware download grant is invalid or expired."
  | Some g =>
      match deployment_of w (g_deployment_id g) with
      | None => Raise ValueError "Firmware deployment is no longer active."
      | Some d =>
          if terminal_state (d_status d) then Raise ValueError "Firmware deployment is no longer active."
          else match release_of w (d_release_id d) with
          | None => Raise ValueError "Firmware release is unavailable."
          | Some r =>
              if negb (offerable r) then Raise ValueError "Firmware release is unavailable."
              else if within (r_version r) RECOVERY_VERSIONS && negb (bool_decide (d_status d ∈ RECOVERY_OFFERABLE_STATES)) then
                Raise ValueError "A selected one-shot storage recovery image is never downloaded again."
              else
                let board := board_of w (g_connector_id g) in
                _ ← (if bool_decide (r_state r = "HIL_ONLY") then hil_download_check w r d board now else Ok tt);
                match board with
                | None => Raise ValueError "Firmware storage predecessor is no longer eligible."
                | Some k =>
                    exclusion ← storage_predecessor_exclusion w r k (Some (d_id d)) now;
                    match exclusion with
                    | Some _ => Raise ValueError "Firmware storage predecessor is no longer eligible."
                    | None =>
                        same ← (if bool_decide (r_version r = "2.7.0") then reader_unchanged w d r k else Ok true);
                        if negb same then Raise ValueError "Firmware grant retained-reader identity changed."
                        else
                          _ ← bridge_download_check w r d k;
                          _ ← (if bool_decide (r_version r = "2.6.22") then trial w k (d_deployment_id d) now else Ok tt);
                          if negb (stored_image (r_storage_name r)) then Raise ValueError "Firmware image is unavailable."
                          else Ok (update_grant (g_id g) (set_last_used now) w, r)
                    end
                end
          end
      end
  end.
End downloads.
