(* ===== verification/OtaStore.v ===== *)
(** * The release store (ota.py)

    [sync_release_store] registers the signed packages of the firmware store. A package is a directory with
    a manifest, its signature, the image and, for a quarantined release, a HIL marker. The order of the packages is
    that of the directory listing. An exception of any package rolls the whole transaction back. *)
From S2P Require Import Prelude PyText Hashes PyJson QueueEvidence RuntimeContract DeviceHealth ReleaseScope ReleaseContract OtaModel OtaReaders OtaTargets OtaProgress OtaDownload.
Open Scope string_scope.
Open Scope list_scope.
Open Scope Z_scope.

Record Package := mkPackage {
  pk_directory : string; pk_manifest : list (string * pyval); pk_signature : string; pk_file : string → option bytes; pk_marker : option pyval }.

(** [d[key]] *)
Definition item (k : string) (d : list (string * pyval)) : res pyval := match assoc k d with Some v => Ok v | None => Raise KeyError k end.
Definition item_text (k : string) (d : list (string * pyval)) : res string := v ← item k d; Ok (py_str_val v).
(** [str(d.get(k) or "")], [str(d.get(k, ""))] *)
Definition or_text (v : pyval) : string := if truthy v then py_str_val v else "".
Definition text_or (k : string) (v : pyval) : string := py_str_val (get_or k (PStr "") v).
(** [os.path.basename] *)
Definition basename (s : string) : string := of_chars (default [] (last (split_byte x2f (chars s)))).

(** What is read from a package once its signature, family, contract and image are verified. *)
Record Verified := mkVerified {
  vf_release_id : string; vf_version : string; vf_image_name : string; vf_image : bytes; vf_digest : string; vf_application : string }.

Definition EXPERIMENTAL : string := "EXPERIMENTAL_HIL_ONLY".
Definition experimental (manifest : pyval) : bool := eq_str (get "release_channel" manifest) EXPERIMENTAL.
Definition no_text (s : string) : bool := bool_decide (s = "").
Definition failed {A} (release_id what : string) : res A := Raise RuntimeError ("Firmware release " +:+ release_id +:+ what).

(** The row a query found is the one that changes. *)
Fixpoint update_first {A} (p : A → bool) (f : A → A) (l : list A) : list A :=
  match l with [] => [] | x :: l' => if p x then f x :: l' else x :: update_first p f l' end.

Section store.
Context `{OtaPlatform}.

(** [int(v)] *)
Definition int_val (v : pyval) : res Z :=
  match v with
  | PInt z => Ok z
  | PBool b => Ok (if b then 1 else 0)
  | PFloat r => int_of_float r
  | PStr s => match py_int (chars s) with Some z => Ok z | None => Raise ValueError ("invalid literal for int() with base 10: " +:+ py_repr s) end
  | _ => Raise TypeError "int() argument must be a string, a bytes-like object or a real number"
  end.

Definition _verify_manifest (manifest : pyval) (signature : string) : res unit :=
  if negb signing_key_configured then Raise RuntimeError "ADD_FIRMWARE_SIGNING_PUBLIC_KEY_PEM_B64 is required for OTA."
  else rsa_verify signature (dumps_ascii manifest).

Definition verify_image (version : pyval) (manifest : pyval) (image : bytes) : res unit :=
  match version with
  | PStr v =>
      if bool_decide (v ∈ BRIDGE_VERSIONS) then validate_bridge_image image v
      else if bool_decide (v = WRITER_VERSION) then validate_writer_image image manifest
      else if bool_decide (v ∈ RECOVERY_VERSIONS) then validate_recovery_image image v
      else Ok tt
  | _ => if hashable version then Ok tt else Raise TypeError "unhashable type"
  end.

(** [hmac.compare_digest] takes ASCII texts only. *)
Definition image_is (release_id digest : string) (image : bytes) (fields : list (string * pyval)) : res unit :=
  declared ← item_text "image_sha256" fields;
  if negb (forallb (λ b, zb b <? 128) (chars declared)) then Raise TypeError "comparing strings with non-ASCII characters is not supported"
  else if negb (bool_decide (digest = declared)) then failed release_id " failed immutable artifact verification."
  else
    size ← (v ← item "image_size" fields; int_val v);
    if zlen image =? size then Ok tt else failed release_id " failed immutable artifact verification.".

Definition verify_package (p : Package) (release_id : string) : res Verified :=
  let fields := pk_manifest p in
  let manifest := PDict fields in
  _ ← _verify_manifest manifest (strip (pk_signature p));
  _ ← release_family manifest;
  _ ← validate_storage_contract manifest (text_or "version" manifest);
  path ← item_text "image_name" fields;
  match pk_file p (basename path) with
  | None => Raise OSError (basename path)
  | Some image =>
      let digest := sha256_hex image in
      _ ← image_is release_id digest image fields;
      _ ← verify_image (get "version" manifest) manifest image;
      let application := or_text (get "application_sha256" manifest) in
      if negb (no_text application) && negb (HEX64 application) then failed release_id " has an invalid ESP application digest."
      else
        schema ← int_val (get_or "schema_version" (PInt 1) manifest);
        if (2 <=? schema) && no_text application then failed release_id " is missing its ESP application digest."
        else if negb (eq_str (get "partition_layout" manifest) OTA_LAYOUT) then failed release_id " has an unknown partition layout."
        else Ok (mkVerified release_id (text_or "version" manifest) (basename path) image digest application)
  end.

(** The HIL marker: the one board or the ordered boards of a quarantined release. *)
Definition read_marker (fields : list (string * pyval)) (v : Verified) (marker : pyval) : res (pyval * pyval) :=
  let manifest := PDict fields in
  if negb (is_dict marker) then Raise AttributeError "get"
  else if experimental manifest && negb (match get "schema_version" marker with PInt n => n =? 2 | _ => false end && has_key "targets" marker)
  then Raise ValueError "Experimental journal bridge requires ordered exact HIL identities."
  else
    scope ← (if has_key "targets" marker then
               git_sha ← item_text "git_sha" fields;
               targets ← _parse_release_hil_targets (vf_release_id v, vf_version v, git_sha, vf_digest v, Some (vf_application v)) (get "targets" marker);
               if truthy (get "target_mac" marker) then Raise RuntimeError "HIL marker cannot mix ordered and legacy target scopes."
               else if negb (eq_str (get "application_sha256" marker) (vf_application v))
               then Raise RuntimeError "Ordered HIL marker must bind the application digest."
               else Ok (PNone, PList (map model_dump targets))
             else Ok (PStr (lower (strip (or_text (get "target_mac" marker)))), PNone));
    if negb (truthy scope.1) && negb (truthy scope.2) then failed (vf_release_id v) " has an invalid HIL quarantine marker."
    else
      git_sha ← item_text "git_sha" fields;
      if negb (bool_decide (or_text (get "git_sha" marker) = git_sha)) then failed (vf_release_id v) " HIL marker has a different source SHA."
      else if negb (bool_decide (or_text (get "image_sha256" marker) = vf_digest v)) then failed (vf_release_id v) " HIL marker has a different image hash."
      else Ok scope.

(** The state a package publishes, and the manifest stored with it. *)
Definition publication (p : Package) (v : Verified) : res (string * pyval) :=
  let manifest := PDict (pk_manifest p) in
  scope ← match pk_marker p with
          | Some marker => s ← read_marker (pk_manifest p) v marker; Ok ("HIL_ONLY", s)
          | None =>
              if experimental manifest then Raise ValueError "Experimental journal bridge requires an exact HIL quarantine marker."
              else _ ← require_production_qualification manifest; Ok ("AVAILABLE", (PNone, PNone))
          end;
  Ok (scope.1, PDict (assoc_set "_hil_targets" scope.2.2 (assoc_set "_hil_target_mac" scope.2.1
                        (assoc_set "_publication_mode" (PStr scope.1) (pk_manifest p))))).

(** A registered release keeps its signed identity. *)
Definition immutable_kept (r : FirmwareRelease) (manifest : pyval) : bool :=
  eq_str (get "version" manifest) (r_version r) && eq_str (get "git_sha" manifest) (r_git_sha r)
  && eq_str (get "image_sha256" manifest) (r_image_sha256 r) && py_eq (get "image_size" manifest) (PInt (r_image_size r))
  && eq_str (get "signing_key_id" manifest) (r_signing_key_id r) && eq_str (get "partition_layout" manifest) (r_partition_layout r)
  && eq_str (get_or "minimum_bootstrap_version" (PStr "2.2.0") manifest) (r_minimum_bootstrap_version r).
Definition signed_part (manifest : pyval) : pyval :=
  match manifest with PDict d => PDict (List.filter (λ kv, negb (has_prefix (chars "_") (chars kv.1))) d) | _ => PDict [] end.
Definition set_published (state : string) (manifest : pyval) (r : FirmwareRelease) : FirmwareRelease :=
  mkRelease (r_id r) (r_release_id r) (r_version r) (r_git_sha r) (r_image_sha256 r) (r_image_size r) (r_partition_layout r)
    (r_minimum_bootstrap_version r) (r_storage_name r) manifest state (r_revoked_at r) (r_revoked_by r) (r_signing_key_id r).

Definition new_release (w : fleet) (p : Package) (v : Verified) (state : string) (stored : pyval) : res FirmwareRelease :=
  version ← item_text "version" (pk_manifest p);
  git_sha ← item_text "git_sha" (pk_manifest p);
  key ← item_text "signing_key_id" (pk_manifest p);
  layout ← item_text "partition_layout" (pk_manifest p);
  Ok (mkRelease (next_id w) (vf_release_id v) version git_sha (vf_digest v) (zlen (vf_image v)) layout
        (py_str_val (get_or "minimum_bootstrap_version" (PStr "2.2.0") (PDict (pk_manifest p))))
        (pk_directory p +:+ "/" +:+ vf_image_name v) stored state None None key).

(** The unique columns of add_firmware_releases *)
Definition release_clash (r o : FirmwareRelease) : bool :=
  bool_decide (r_release_id o = r_release_id r) || bool_decide (r_version o = r_version r) || bool_decide (r_image_sha256 o = r_image_sha256 r)
  || bool_decide (r_storage_name o = r_storage_name r).
Definition add_release (r : FirmwareRelease) (w : fleet) : fleet :=
  mkFleet (releases w ++ [r]) (campaigns w) (deployments w) (firmware_events w) (grants w) (hil_run_deployments w) (boards w) (telemetry w) (next_id w + 1).

Definition sync_package (w : fleet) (p : Package) : res fleet :=
  let manifest := PDict (pk_manifest p) in
  let release_id := text_or "release_id" manifest in
  if no_text release_id then Ok w
  else
    v ← verify_package p release_id;
    publish ← publication p v;
    match List.find (λ r, bool_decide (r_release_id r = release_id)) (releases w) with
    | Some r =>
        if negb (immutable_kept r manifest) then failed release_id " changed immutable identity."
        else if negb (py_eq (signed_part (r_manifest r)) manifest) then failed release_id " changed its signed manifest."
        else if bool_decide (r_state r = "REVOKED") then Ok w
        else Ok (set_releases (update_first (λ r, bool_decide (r_release_id r = release_id)) (set_published publish.1 publish.2) (releases w)) w)
    | None =>
        r ← new_release w p v publish.1 publish.2;
        if existsb (release_clash r) (releases w) then Raise IntegrityError "add_firmware_releases"
        else Ok (add_release r w)
    end.

Definition sync_release_store (w : fleet) (packages : list Package) : res fleet :=
  if negb (firmware_ota_enabled || firmware_hil_enabled) then Ok w
  else if negb store_available then Raise RuntimeError "Configured firmware store is unavailable."
  else foldR sync_package packages w.
End store.
