(* ===== verification/OtaInterruption.v ===== *)
(** * Interrupted downloads (ota_interruption.py)

    A 2.6.0 to 2.6.15 board whose download stopped with a resumable error may be offered the
    same image again: after a backoff, at most three attempts within an hour of the first
    stop, and only while the campaign runs and the release is offered. Every other outcome
    fails the deployment closed. The switch is off by default. *)
From S2P Require Import Prelude PyText Hashes PyJson QueueEvidence RuntimeContract DeviceHealth ReleaseScope ReleaseContract OtaModel OtaReaders OtaTargets OtaProgress OtaDownload.
Open Scope string_scope.
Open Scope list_scope.
Open Scope Z_scope.

Definition RESUMABLE_DOWNLOAD_ERRORS : list string := ["DOWNLOAD_INCOMPLETE"; "DOWNLOAD_BEGIN_FAILED"].
Definition RESUMABLE_FIRST : Z * Z * Z := (2, 6, 0).
Definition RESUMABLE_LAST : Z * Z * Z := (2, 6, 15).
Definition DOWNLOAD_ATTEMPT_LIMIT : Z := 3.
Definition DOWNLOAD_RETRY_BACKOFF_SECONDS (number : Z) : Z := if number =? 1 then 120 else 600.
Definition RESUMED_GRANT_LIMIT : Z := 2 * (DOWNLOAD_ATTEMPT_LIMIT - 1).
Definition DOWNLOAD_RETRY_DEADLINE_SECONDS : Z := 900.
Definition DOWNLOAD_RESUME_WINDOW_SECONDS : Z := 3600.
Definition BOOT_START_SAMPLES : nat := 60.
Definition ATTEMPT_UPTIME_SLACK_SECONDS : Z := 2.
Definition DOWNLOAD_INTERRUPTED : string := "DOWNLOAD_INTERRUPTED".
Definition DOWNLOAD_RETRY_OFFERED : string := "DOWNLOAD_RETRY_OFFERED".
Definition DOWNLOAD_RETRIES_EXHAUSTED : string := "DOWNLOAD_RETRIES_EXHAUSTED".
Definition DOWNLOAD_RETRY_NOT_TAKEN : string := "DOWNLOAD_RETRY_NOT_TAKEN".
Definition DOWNLOAD_RETRY_WITHDRAWN : string := "DOWNLOAD_RETRY_WITHDRAWN".
Definition HELD_DOWNLOAD_SWEEP_LIMIT : nat := 50.
Definition _OWN_RETURN_EVIDENCE : list string :=
  ["2.6.16"; "2.6.17"; "2.6.18"; "2.6.19"; "2.6.20"; "2.6.21"; "2.6.22"; "2.6.23"; "2.7.0"; "2.7.6"; "2.7.7"; "2.7.8";
   "2.8.0"; "2.8.1"; "2.8.2"; "2.8.3"] ++ RECOVERY_VERSIONS.

(** ** Heartbeats *)
Record Heartbeat := mkHeartbeat {
  hb_firmware_version : option string; hb_uptime_seconds : option Z; hb_ota_state : string; hb_ota_target_version : string;
  hb_ota_running_version : option string; hb_ota_running_partition : option string; hb_ota_image_sha256 : option string;
  hb_ota_last_error : string; hb_ota_bytes_written : Z }.

Definition in_scope_version (v : option string) : bool :=
  match semantic_version v with Some x => version_leb RESUMABLE_FIRST x && version_leb x RESUMABLE_LAST | None => false end.

Definition has_own_return_evidence (r : option FirmwareRelease) : bool :=
  match r with Some r => within (r_version r) _OWN_RETURN_EVIDENCE | None => true end.

Definition return_in_scope (d : FirmwareDeployment) (r : option FirmwareRelease) : bool :=
  negb (has_own_return_evidence r) && in_scope_version (d_previous_version d).

Definition assignment_needs_serializing (k : Connector) (d : FirmwareDeployment) : bool :=
  bool_decide (k_firmware_family k = Some "zkt") && in_scope_version (k_firmware_version k) && in_scope_version (d_previous_version d).

Definition downloading (d : FirmwareDeployment) : bool := bool_decide (d_status d ∈ [OFFERED; DOWNLOADING]).

(** ** The recorded stops of a deployment *)
Definition _interruptions (w : fleet) (d : FirmwareDeployment) : list FirmwareEvent := events_in w (d_id d) [DOWNLOAD_INTERRUPTED].

Definition newest (l : list Z) : option Z := fold_right (λ t m, Some (match m with Some u => Z.max t u | None => t end)) None l.
Definition oldest (l : list Z) : option Z := fold_right (λ t m, Some (match m with Some u => Z.min t u | None => t end)) None l.

Definition _first_interruption_at (w : fleet) (d : FirmwareDeployment) : option Z := oldest (map e_created_at (_interruptions w d)).

(** The latest stop that ADD has neither offered again nor granted since. *)
Definition awaiting_retry_offer (w : fleet) (d : FirmwareDeployment) : option FirmwareEvent :=
  match last (_interruptions w d) with
  | None => None
  | Some latest =>
      if existsb (λ e, e_id latest <? e_id e) (events_in w (d_id d) [DOWNLOAD_RETRY_OFFERED]) then None
      else if existsb (λ g, e_created_at latest <=? g_created_at g) (grants_of w (d_id d)) then None
      else Some latest
  end.

(** The start of a boot: the smallest receipt less uptime over its latest samples. *)
Definition _boot_start (w : fleet) (k : Connector) (boot : option string) : option Z :=
  match boot with
  | None => None
  | Some b =>
      if bool_decide (b = "") then None
      else
        let samples := List.filter (λ t, (t_connector_id t =? k_id k) && bool_decide (t_boot_id t = Some b)
                                         && bool_decide (t_uptime_seconds t ≠ None)) (telemetry w) in
        oldest (omap (λ t, match t_uptime_seconds t with
                           | Some up => if 0 <=? up then Some (t_created_at t - up * SECOND) else None
                           | None => None end)
                     (take BOOT_START_SAMPLES (rev samples)))
  end.

Definition _built_after (w : fleet) (k : Connector) (sample : DeviceTelemetry) (at_ : Z) : bool :=
  match t_uptime_seconds sample with
  | None => false
  | Some up =>
      if (up <? 0) || (t_created_at sample <=? at_) then false
      else match _boot_start w k (t_boot_id sample) with
           | None => false
           | Some started => (at_ - started) - ATTEMPT_UPTIME_SLACK_SECONDS * SECOND <=? up * SECOND
           end
  end.

Definition unverified_image_current (w : fleet) (k : Connector) (d : FirmwareDeployment) (uptime_seconds : option Z) (now : Z) : bool :=
  if bool_decide (d_status d = OFFERED) then false
  else match uptime_seconds with
       | None => true
       | Some up =>
           if up <? 0 then true
           else match newest (map g_created_at (grants_of w (d_id d))) with
                | None => false
                | Some granted =>
                    let own := now - up * SECOND in
                    let started := match _boot_start w k (k_boot_id k) with Some s => Z.min own s | None => own end in
                    granted - ATTEMPT_UPTIME_SLACK_SECONDS * SECOND <=? started + up * SECOND
                end
       end.

Section interruption.
Context `{OtaPlatform}.

Definition resume_enabled : bool := firmware_download_resume_enabled.

(** A missing key, a value that is not an index or a text that does not parse is no time; a value without [replace] escapes. *)
Definition _retry_after (e : FirmwareEvent) : res (option Z) :=
  match e_details e with
  | PDict fields =>
      match assoc "retry_after" fields with
      | None => Ok None
      | Some (PStr s) => Ok (DeviceHealth.parse_datetime fromiso s)
      | Some _ => Raise AttributeError "replace"
      end
  | _ => Ok None
  end.

Definition _hold_expired (w : fleet) (d : FirmwareDeployment) (latest : FirmwareEvent) (now : Z) : res (option string) :=
  retry_after ← _retry_after latest;
  match retry_after with
  | None => Ok (Some "no backoff was recorded for the stop")
  | Some t =>
      if t + DOWNLOAD_RETRY_DEADLINE_SECONDS * SECOND <=? now then
        Ok (Some ("the ESP did not take ADD's re-offer within " +:+ py_str (DOWNLOAD_RETRY_DEADLINE_SECONDS / 60) +:+ " min of "
                  +:+ clock_text t +:+ " UTC"))
      else match _first_interruption_at w d with
           | Some first =>
               if first + DOWNLOAD_RESUME_WINDOW_SECONDS * SECOND <=? now then
                 Ok (Some ("the " +:+ py_str (DOWNLOAD_RESUME_WINDOW_SECONDS / 60) +:+ " min resume window after the first stop closed"))
               else Ok None
           | None => Ok None
           end
  end.

(** Why no further attempt may be granted: every grant since the first stop counts. *)
Definition granted_since (w : fleet) (d : FirmwareDeployment) (first : Z) : list FirmwareDownloadGrant :=
  List.filter (λ g, first <=? g_created_at g) (grants_of w (d_id d)).
Definition _re_offers_spent (w : fleet) (d : FirmwareDeployment) : option string :=
  match _first_interruption_at w d with
  | None => None
  | Some first =>
      if RESUMED_GRANT_LIMIT <=? zlen (granted_since w d first) then
        Some ("ADD already issued the " +:+ py_str RESUMED_GRANT_LIMIT +:+ " assignments allowed after the first stop (two resumed attempts, each re-sent once)")
      else None
  end.

(** [lock_for_assignment]: both rows locked at once and read again, or no assignment now. *)
Definition lock_for_assignment (w : fleet) (k : Connector) (d : FirmwareDeployment) : option FirmwareDeployment :=
  if negb (row_lock_free w k d) then None
  else match deployment_of w (d_id d) with
       | None => None
       | Some locked =>
           if negb (active_state (d_status locked)) then None
           else match campaign_of w (d_campaign_id locked) with
                | Some c => if bool_decide (c_status c = ACTIVE) then Some locked else None
                | None => None
                end
       end.

(** ** Failing a held download *)
Definition stop_text (e : FirmwareEvent) : string :=
  "The resumable download stopped (" +:+ (let v := get "error_code" (e_details e) in if truthy v then py_str_val v else "DOWNLOAD_INCOMPLETE")
  +:+ ") at " +:+ py_str_val (get "bytes_written" (e_details e)) +:+ " of " +:+ py_str_val (get "image_size" (e_details e)) +:+ " bytes".

Definition held_message (stop reason error_code : string) : string :=
  prefix_chars 1000
    (if bool_decide (error_code = DOWNLOAD_RETRY_NOT_TAKEN) then
       stop +:+ " and " +:+ reason +:+ ". The campaign is paused; check the ESP's HTTPS path to ADD and its OTA admission before a new attempt."
     else if bool_decide (error_code = DOWNLOAD_RETRIES_EXHAUSTED) then
       stop +:+ " and " +:+ reason +:+ ". The campaign is paused; check the site's network path to ADD before a new attempt."
     else stop +:+ " and ADD withdrew its re-offer: " +:+ reason +:+ ".").

Definition fail_held_download (w : fleet) (deployment : Z) (reason error_code : string) (now : Z) : res (fleet * bool) :=
  match deployment_of w deployment with
  | None => Ok (w, false)
  | Some locked =>
      if negb (downloading locked) then Ok (w, false)
      else match awaiting_retry_offer w locked, board_of w (d_connector_id locked) with
           | Some latest, Some k =>
               w' ← fail_ota_deployment w k locked error_code (held_message (stop_text latest) reason error_code) None now;
               Ok (w', true)
           | _, _ => Ok (w, false)
           end
  end.

Definition stopped (w : fleet) (d : FirmwareDeployment) : bool := downloading d && negb (bool_decide (_interruptions w d = [])).

(** Every held download of a campaign (pause, cancel, revoke). *)
Definition fail_held_downloads (w : fleet) (campaign : Z) (reason : string) (now : Z) : res (fleet * Z) :=
  foldR (λ acc d,
      match awaiting_retry_offer acc.1 d with
      | None => Ok acc
      | Some _ => r ← fail_held_download acc.1 (d_id d) reason DOWNLOAD_RETRY_WITHDRAWN now; Ok (r.1, if (r.2 : bool) then acc.2 + 1 else acc.2)
      end)
    (List.filter (λ d, (d_campaign_id d =? campaign) && stopped w d) (deployments w)) (w, 0).

Definition hold_verdict (w : fleet) (d : FirmwareDeployment) (latest : FirmwareEvent) (now : Z) : res (option (string * string)) :=
  let status := c_status <$> campaign_of w (d_campaign_id d) in
  if negb resume_enabled then Ok (Some ("download resume is turned off", DOWNLOAD_RETRY_WITHDRAWN))
  else if negb (bool_decide (status = Some ACTIVE)) then
    Ok (Some ("the campaign is " +:+ match status with Some s => lower (campaign_text s) | None => "missing" end, DOWNLOAD_RETRY_WITHDRAWN))
  else
    expired ← _hold_expired w d latest now;
    Ok (match expired with Some reason => Some (reason, DOWNLOAD_RETRY_NOT_TAKEN) | None => None end).

Definition expire_one (acc : fleet * Z) (d : FirmwareDeployment) (now : Z) : res (fleet * Z) :=
  match awaiting_retry_offer acc.1 d with
  | None => Ok acc
  | Some latest =>
      verdict ← hold_verdict acc.1 d latest now;
      match verdict with
      | None => Ok acc
      | Some (reason, code) => r ← fail_held_download acc.1 (d_id d) reason code now; Ok (r.1, if (r.2 : bool) then acc.2 + 1 else acc.2)
      end
  end.
Definition expire_held_downloads (w : fleet) (now : Z) (limit : nat) : res (fleet * Z) :=
  foldR (λ acc d, expire_one acc d now) (take limit (List.filter (stopped w) (deployments w))) (w, 0).

(** ** Deciding a stop reported by a heartbeat *)
Inductive interruption :=
  | WAIT
  | RETRY_SCHEDULED (retry_after : string) (number : Z)
  | NOT_TAKEN (error_code message : string)
  | EXHAUSTED (error_code message : string).

Definition set_interrupted (message : string) (now : Z) (d : FirmwareDeployment) : FirmwareDeployment :=
  mkDeployment (d_id d) (d_deployment_id d) (d_campaign_id d) (d_release_id d) (d_connector_id d) (d_status d)
    (d_previous_version d) (d_target_version d) (d_bytes_written d) (d_attempt_count d) (Some DOWNLOAD_INTERRUPTED) (Some message)
    (d_offered_at d) (d_completed_at d) (d_created_at d) now.

Definition resumable (w : fleet) (k : Connector) (d : FirmwareDeployment) (r : FirmwareRelease) (hb : Heartbeat) (error_code runtime_state : string) : bool :=
  resume_enabled && bool_decide (k_firmware_family k = Some "zkt") && bool_decide (runtime_state = "DOWNLOADING")
  && within error_code RESUMABLE_DOWNLOAD_ERRORS && downloading d && negb (has_own_return_evidence (Some r))
  && in_scope_version (hb_firmware_version hb) && in_scope_version (d_previous_version d)
  && _versions_match (Some (hb_ota_target_version hb)) (Some (d_target_version d))
  && bool_decide (c_status <$> campaign_of w (d_campaign_id d) = Some ACTIVE) && offerable r.

Definition record_stop (w : fleet) (k : Connector) (d : FirmwareDeployment) (r : FirmwareRelease) (hb : Heartbeat) (error_code : string)
    (offered_at now : Z) : fleet * interruption :=
  let stops := _interruptions w d in
  let number := zlen stops + 1 in
  let bytes_written := Z.min (r_image_size r) (Z.max (d_bytes_written d) (hb_ota_bytes_written hb)) in
  let window_closed := match stops with e :: _ => e_created_at e + DOWNLOAD_RESUME_WINDOW_SECONDS * SECOND <=? now | [] => false end in
  let exhausted := (DOWNLOAD_ATTEMPT_LIMIT <=? number) || window_closed in
  let retry_after := now + DOWNLOAD_RETRY_BACKOFF_SECONDS number * SECOND in
  let details := PDict [("interruption", PInt number); ("attempt_limit", PInt DOWNLOAD_ATTEMPT_LIMIT); ("error_code", PStr error_code);
    ("bytes_written", PInt bytes_written); ("image_size", PInt (r_image_size r)); ("running_version", opt_str (hb_firmware_version hb));
    ("boot_id", opt_str (k_boot_id k)); ("attempt_offered_at", PStr (iso offered_at));
    ("retry_after", if exhausted then PNone else PStr (iso retry_after))] in
  let w := add_event (d_id d) DOWNLOAD_INTERRUPTED details now w in
  if exhausted then
    let stops := if window_closed then "stopped again after the " +:+ py_str (DOWNLOAD_RESUME_WINDOW_SECONDS / 60) +:+ " min resume window closed"
                 else "stopped " +:+ py_str number +:+ " times" in
    (w, EXHAUSTED DOWNLOAD_RETRIES_EXHAUSTED
          ("The resumable download " +:+ stops +:+ "; the last stop was " +:+ error_code +:+ " at " +:+ py_str bytes_written +:+ " of "
           +:+ py_str (r_image_size r) +:+ " bytes. The campaign is paused; check the site's network path to ADD before a new attempt."))
  else
    (update_deployment (d_id d) (set_interrupted
       ("The resumable download stopped (" +:+ error_code +:+ ") at " +:+ py_str bytes_written +:+ " of " +:+ py_str (r_image_size r)
        +:+ " bytes. ADD re-offers the same signed image after " +:+ clock_text retry_after +:+ " UTC; this was attempt " +:+ py_str number
        +:+ " of " +:+ py_str DOWNLOAD_ATTEMPT_LIMIT +:+ ".") now) w,
     RETRY_SCHEDULED (iso retry_after) number).

Definition download_interruption (w : fleet) (k : Connector) (d : FirmwareDeployment) (r : FirmwareRelease) (hb : Heartbeat)
    (error_code runtime_state : string) (now : Z) : res (fleet * option interruption) :=
  if negb (resumable w k d r hb error_code runtime_state) then Ok (w, None)
  else
    let stops := _interruptions w d in
    let offers := match last stops with
                  | Some e => List.filter (λ g, e_created_at e <? g_created_at g) (grants_of w (d_id d))
                  | None => grants_of w (d_id d) end in
    match newest (map g_created_at offers), last stops with
    | None, None => Ok (w, None)
    | None, Some latest =>
        expired ← _hold_expired w d latest now;
        match expired with
        | Some reason =>
            let code := get "error_code" (e_details latest) in
            Ok (w, Some (NOT_TAKEN DOWNLOAD_RETRY_NOT_TAKEN (prefix_chars 1000
              ("The resumable download stopped (" +:+ (if truthy code then py_str_val code else error_code) +:+ ") and " +:+ reason
               +:+ ". The campaign is paused; check the ESP's HTTPS path to ADD and its OTA admission before a new attempt."))))
        | None => Ok (w, Some WAIT)
        end
    | Some offered_at, _ =>
        match last (List.filter (λ t, t_connector_id t =? k_id k) (telemetry w)) with
        | Some previous =>
            if bool_decide (t_boot_id previous = k_boot_id k) && _built_after w k previous offered_at then
              let '(w', decision) := record_stop w k d r hb error_code offered_at now in Ok (w', Some decision)
            else Ok (w, Some WAIT)
        | None => Ok (w, Some WAIT)
        end
    end.

(** ** At the next poll for an assignment *)
Definition resumed_attempt_refusal (w : fleet) (k : Connector) (d : FirmwareDeployment) (now : Z) : res (fleet * bool) :=
  if negb (downloading d) then Ok (w, false)
  else match _first_interruption_at w d with
       | None => Ok (w, false)
       | Some first =>
           let verdict :=
             if negb resume_enabled then Some ("download resume is turned off", DOWNLOAD_RETRY_WITHDRAWN)
             else match _re_offers_spent w d with
                  | Some reason => Some (reason, DOWNLOAD_RETRIES_EXHAUSTED)
                  | None =>
                      if first + DOWNLOAD_RESUME_WINDOW_SECONDS * SECOND <=? now then
                        Some ("the " +:+ py_str (DOWNLOAD_RESUME_WINDOW_SECONDS / 60) +:+ " min resume window after the first stop closed",
                              DOWNLOAD_RETRIES_EXHAUSTED)
                      else None
                  end in
           match verdict with
           | None => Ok (w, false)
           | Some (reason, code) =>
               let message := prefix_chars 1000
                 (if bool_decide (code = DOWNLOAD_RETRIES_EXHAUSTED) then
                    "The resumable download stopped and the ESP asked for it again, but " +:+ reason
                    +:+ ". The campaign is paused; check the site's network path to ADD before a new attempt."
                  else "The resumable download stopped and ADD withdrew its re-offer: " +:+ reason +:+ ".") in
               w' ← fail_ota_deployment w k d code message None now;
               Ok (w', true)
           end
       end.

Definition count_attempt (d : FirmwareDeployment) : FirmwareDeployment :=
  mkDeployment (d_id d) (d_deployment_id d) (d_campaign_id d) (d_release_id d) (d_connector_id d) (d_status d)
    (d_previous_version d) (d_target_version d) (d_bytes_written d) (d_attempt_count d + 1) (d_error_code d) (d_error_message d)
    (d_offered_at d) (d_completed_at d) (d_created_at d) (d_updated_at d).

Definition download_retry_hold (w : fleet) (d : FirmwareDeployment) (latest : FirmwareEvent) (now : Z) : res (fleet * bool) :=
  if negb resume_enabled then r ← fail_held_download w (d_id d) "download resume is turned off" DOWNLOAD_RETRY_WITHDRAWN now; Ok (r.1, true)
  else
    expired ← _hold_expired w d latest now;
    match expired with
    | Some reason => r ← fail_held_download w (d_id d) reason DOWNLOAD_RETRY_NOT_TAKEN now; Ok (r.1, true)
    | None =>
        retry_after ← _retry_after latest;
        match retry_after with
        | None => Raise TypeError "no backoff"
        | Some t =>
            if now <? t then Ok (w, true)
            else match _re_offers_spent w d with
                 | Some reason => r ← fail_held_download w (d_id d) reason DOWNLOAD_RETRIES_EXHAUSTED now; Ok (r.1, true)
                 | None =>
                     let n := get "interruption" (e_details latest) in
                     let details := PDict [("after_interruption", n); ("attempt", PInt (match n with PInt z => z | _ => 0 end + 1));
                                           ("attempt_limit", PInt DOWNLOAD_ATTEMPT_LIMIT)] in
                     Ok (add_event (d_id d) DOWNLOAD_RETRY_OFFERED details now (update_deployment (d_id d) count_attempt w), false)
                 end
        end
    end.
End interruption.
