(* ===== verification/OtaAssignment.v ===== *)
(** * Campaigns and assignments (ota.py)

    [assignment_for_connector] answers a board's poll: the one active deployment of its
    zone, or the next pending one, after every admission check, with a download grant.
    [create_campaign] starts a zone's campaign, [control_campaign] pauses, resumes or
    cancels it, [revoke_release] withdraws a release. *)
From S2P Require Import Prelude PyText Hashes PyJson QueueEvidence RuntimeContract DeviceHealth ReleaseScope ReleaseContract OtaModel OtaReaders OtaTargets OtaProgress OtaDownload OtaStore OtaInterruption.
Open Scope string_scope.
Open Scope list_scope.
Open Scope Z_scope.

(** ** Polls *)
Record Assignment := mkAssignment {
  a_deployment_id : string; a_release_id : string; a_version : string; a_image_sha256 : string; a_artifact_sha256 : string;
  a_image_size : Z; a_partition_layout : string; a_firmware_family : string; a_download_url : string }.

(** The deployments of the zone's ACTIVE campaigns, oldest first. *)
Definition in_active_campaign (w : fleet) (zone : string) (d : FirmwareDeployment) : bool :=
  match campaign_of w (d_campaign_id d) with
  | Some c => bool_decide (c_zone_id c = zone) && bool_decide (c_status c = ACTIVE)
  | None => false
  end.
Definition zone_deployment (w : fleet) (zone : string) (p : deployment_state → bool) : option FirmwareDeployment :=
  List.find (λ d, in_active_campaign w zone d && p (d_status d)) (deployments w).

Definition set_offered (now : Z) (d : FirmwareDeployment) : FirmwareDeployment :=
  mkDeployment (d_id d) (d_deployment_id d) (d_campaign_id d) (d_release_id d) (d_connector_id d) OFFERED
    (d_previous_version d) (d_target_version d) (d_bytes_written d) (d_attempt_count d + 1) None None (Some now) (d_completed_at d)
    (d_created_at d) (d_updated_at d).
Definition set_hold (code : string) (d : FirmwareDeployment) : FirmwareDeployment :=
  mkDeployment (d_id d) (d_deployment_id d) (d_campaign_id d) (d_release_id d) (d_connector_id d) (d_status d)
    (d_previous_version d) (d_target_version d) (d_bytes_written d) (d_attempt_count d) (Some code)
    (Some "Waiting for the device to be online as an approved fleet target.") (d_offered_at d) (d_completed_at d)
    (d_created_at d) (d_updated_at d).

(** [try: a = r; except ValueError: return refused(reason)] *)
Definition or_refuse {A} (r : res A) (reason : string) (cont : A → res (option string)) : res (option string) :=
  match r with
  | Ok a => cont a
  | Raise c m => if is_value_error c then Ok (Some reason) else Raise c m
  end.

Section assignment.
Context `{OtaPlatform}.

Definition hil_refusal (w : fleet) (k : Connector) (r : FirmwareRelease) (now : Z) : res (option string) :=
  or_refuse (permitted_hil_targets w r now) "HIL_TARGETS_INVALID" (λ permitted,
    match permitted with
    | Some (t :: ts) => admits ← any_admits r (t :: ts) k; Ok (if (admits : bool) then None else Some "HIL_TARGET_NOT_ADMITTED")
    | _ =>
        let target := hil_target_mac r in
        configured ← configured_hil_mac r;
        Ok (if negb firmware_hil_enabled || bool_decide (target = "") || negb (bool_decide (target = configured)) then Some "HIL_TARGET_NOT_CONFIGURED"
            else if negb (bool_decide (lower (k_hardware_id k) = target)) then Some "HIL_TARGET_MISMATCH" else None)
    end).

(** Every admission check of an offerable release, in order: the reason of the first that refuses. *)
Definition admission_refusal (w : fleet) (k : Connector) (d : FirmwareDeployment) (r : FirmwareRelease) (now : Z) : res (option string) :=
  if within (r_version r) RECOVERY_VERSIONS && negb (bool_decide (d_status d ∈ RECOVERY_OFFERABLE_STATES)) then Ok (Some "RECOVERY_IMAGE_SELECTED")
  else
    or_refuse (_ ← require_family_match (k_firmware_family k) (r_manifest r);
               if bool_decide (r_state r = "AVAILABLE") then require_production_qualification (r_manifest r) else Ok tt) "RELEASE_NOT_QUALIFIED" (λ _,
    if negb (version_at_least (k_firmware_version k) (r_minimum_bootstrap_version r)) then Ok (Some "BOOTSTRAP_VERSION_TOO_OLD")
    else
      exclusion ← storage_predecessor_exclusion w r k (Some (d_id d)) now;
      match exclusion with
      | Some reason => Ok (Some reason)
      | None =>
          or_refuse (factory_bridge_target r (k_zone_id k)) "FACTORY_BRIDGE_TARGET_INVALID" (λ bridge,
          if match bridge with Some t => negb (bool_decide (factory_bridge_exclusion k t = None)) | None => false end then Ok (Some "FACTORY_BRIDGE_EXCLUDED")
          else if bool_decide (r_state r = "AVAILABLE") && negb firmware_ota_enabled then Ok (Some "FIRMWARE_OTA_DISABLED")
          else
            hil ← (if bool_decide (r_state r = "HIL_ONLY") then hil_refusal w k r now else Ok None);
            match hil with
            | Some reason => Ok (Some reason)
            | None =>
                match _application_sha256 r with
                | None => Ok (Some "APPLICATION_DIGEST_MISSING")
                | Some _ =>
                    if bool_decide (r_version r = "2.6.22") then
                      or_refuse (trial w k (d_deployment_id d) now) "FACTORY_TRIAL_NOT_ADMITTED" (λ _, Ok None)
                    else Ok None
                end
            end)
      end).

(** A refusal: a held download fails closed with it instead of waiting. *)
Definition refused (w : fleet) (d : FirmwareDeployment) (held : option FirmwareEvent) (reason : string) (now : Z) : res (fleet * option Assignment) :=
  match held with
  | Some _ => r ← fail_held_download w (d_id d) ("admission refused (" +:+ reason +:+ ")") DOWNLOAD_RETRY_WITHDRAWN now; Ok (r.1, None)
  | None => Ok (w, None)
  end.

(** The grant; a token hash is unique. *)
Definition grant_download (w : fleet) (k : Connector) (d : FirmwareDeployment) (r : FirmwareRelease) (digest public_base token : string) (now : Z)
    : res (fleet * option Assignment) :=
  family ← release_family (r_manifest r);
  let hash := sha256_hex (chars token) in
  if existsb (λ g, bool_decide (g_token_hash g = hash)) (grants w) then Raise IntegrityError "add_firmware_download_grants.token_hash"
  else Ok (add_grant hash (d_id d) (k_id k) (now + firmware_download_grant_seconds * SECOND) now w,
           Some (mkAssignment (d_deployment_id d) (r_release_id r) (r_version r) digest (r_image_sha256 r) (r_image_size r)
                   (r_partition_layout r) family (public_base +:+ "/device/v2/firmware/download/" +:+ token))).

(** The first offer of a pending deployment: [None] when it waits. *)
Definition offer_pending (w : fleet) (k : Connector) (d : FirmwareDeployment) (r : FirmwareRelease) (now : Z) : res (fleet * bool) :=
  waiting ← pending_offer_hold w k r;
  match waiting with
  | Some hold => Ok (update_deployment (d_id d) (set_hold hold) w, false)
  | None =>
      details ← (if bool_decide (r_version r = "2.7.0") then
                   except_value (v ← current_reader_admission r k; Ok (Some [("reader_admission", v)])) (Ok None)
                 else Ok (Some []));
      match details with
      | None => Ok (w, false)
      | Some fields => Ok (add_event (d_id d) "OFFERED" (PDict fields) now (update_deployment (d_id d) (set_offered now) w), true)
      end
  end.

(** A deployment already offered: a 2.7.0 target keeps its admitted reader; a held download waits, fails or is offered
    again; a resumed one is bounded. *)
Definition reader_refusal (w : fleet) (k : Connector) (d : FirmwareDeployment) (r : FirmwareRelease) : res (option string) :=
  if bool_decide (r_version r = "2.7.0") then
    or_refuse (reader_unchanged w d r k) "READER_ADMISSION_INVALID" (λ same, Ok (if (same : bool) then None else Some "READER_ADMISSION_CHANGED"))
  else Ok None.

Definition resume_gate (w : fleet) (k : Connector) (d : FirmwareDeployment) (held : option FirmwareEvent) (serialized : bool) (now : Z) : res (fleet * bool) :=
  match held with
  | Some latest => download_retry_hold w d latest now
  | None => if serialized then resumed_attempt_refusal w k d now else Ok (w, false)
  end.

Definition assign (w : fleet) (k : Connector) (d : FirmwareDeployment) (held : option FirmwareEvent) (serialized pending : bool)
    (public_base token : string) (now : Z) : res (fleet * option Assignment) :=
  match release_of w (d_release_id d) with
  | None => refused w d held "RELEASE_UNAVAILABLE" now
  | Some r =>
      if negb (offerable r) then refused w d held "RELEASE_UNAVAILABLE" now
      else
        reason ← admission_refusal w k d r now;
        match reason with
        | Some reason => refused w d held reason now
        | None =>
            let digest := default "" (_application_sha256 r) in
            if pending then
              o ← offer_pending w k d r now;
              if (o.2 : bool) then grant_download o.1 k d r digest public_base token now else Ok (o.1, None)
            else
              reader ← reader_refusal w k d r;
              match reader with
              | Some reason => refused w d held reason now
              | None =>
                  g ← resume_gate w k d held serialized now;
                  if (g.2 : bool) then Ok (g.1, None) else grant_download g.1 k d r digest public_base token now
              end
        end
  end.

(** [public_base] is the validated HTTPS origin. *)
Definition assignment_for_connector (w : fleet) (k : Connector) (public_base token : string) (now : Z) : res (fleet * option Assignment) :=
  if negb (capability_is_eligible k) || negb (try_assignment_lock w k) then Ok (w, None)
  else
    match zone_deployment w (k_zone_id k) active_state with
    | Some d =>
        if negb (d_connector_id d =? k_id k) then Ok (w, None)
        else
          let held := awaiting_retry_offer w d in
          if negb (bool_decide (held = None)) || assignment_needs_serializing k d then
            match lock_for_assignment w k d with
            | None => Ok (w, None)
            | Some locked => assign w k locked (awaiting_retry_offer w locked) true false public_base token now
            end
          else assign w k d None false false public_base token now
    | None =>
        match zone_deployment w (k_zone_id k) (λ s, bool_decide (s = PENDING)) with
        | Some d => if d_connector_id d =? k_id k then assign w k d None false true public_base token now else Ok (w, None)
        | None => Ok (w, None)
        end
    end.

(** ** Controls *)
Definition CAMPAIGN_CONTROL_STATES (action : string) : option campaign_status :=
  assoc action [("pause", PAUSED); ("resume", ACTIVE); ("cancel", CAMPAIGN_CANCELLED)].
Definition CAMPAIGN_CONTROL_SOURCES (action : string) : list campaign_status :=
  default [] (assoc action [("pause", [ACTIVE]); ("resume", [PAUSED]); ("cancel", [ACTIVE; PAUSED])]).
Definition CAMPAIGN_CONTROL_VERBS (action : string) : string :=
  default "" (assoc action [("pause", "paused"); ("resume", "resumed"); ("cancel", "cancelled")]).
Definition CAMPAIGN_CONTROL_REASONS (action : string) : string :=
  default action (assoc action [("pause", "Paused with one click"); ("resume", "Resumed with one click"); ("cancel", "Cancelled with one click")]).

Definition set_status (s : deployment_state) (d : FirmwareDeployment) : FirmwareDeployment :=
  mkDeployment (d_id d) (d_deployment_id d) (d_campaign_id d) (d_release_id d) (d_connector_id d) s
    (d_previous_version d) (d_target_version d) (d_bytes_written d) (d_attempt_count d) (d_error_code d) (d_error_message d)
    (d_offered_at d) (d_completed_at d) (d_created_at d) (d_updated_at d).

Definition cancellable (s : deployment_state) : bool := bool_decide (s ∈ [PENDING; OFFERED; DOWNLOADING]).
Definition cancel_deployments (campaign : Z) (w : fleet) : fleet :=
  set_deployments (map (λ d, if (d_campaign_id d =? campaign) && cancellable (d_status d) then set_status CANCELLED d else d) (deployments w)) w.

Definition resume_check (w : fleet) (c : FirmwareCampaign) : res unit :=
  if negb (match release_of w (c_release_id c) with Some r => offerable r | None => false end) then
    Raise ValueError "This campaign cannot resume because its signed release is unavailable."
  else if existsb (λ o, bool_decide (c_zone_id o = c_zone_id c) && negb (c_id o =? c_id c) && live o) (campaigns w) then
    Raise ValueError "This zone already has another active or paused firmware campaign."
  else Ok tt.

Definition control_reason (reason : option string) (action : string) : string :=
  let s := prefix_chars 200 (strip (default "" reason)) in if bool_decide (s = "") then CAMPAIGN_CONTROL_REASONS action else s.

Definition control_campaign (w : fleet) (public_id action : string) (reason : option string) (now : Z) : res (fleet * Z) :=
  match List.find (λ c, bool_decide (c_campaign_id c = public_id)) (campaigns w) with
  | None => Raise LookupError "Firmware campaign not found."
  | Some c =>
      match CAMPAIGN_CONTROL_STATES action with
      | None => Raise ValueError "Unknown firmware campaign control."
      | Some target =>
          if negb (bool_decide (c_status c ∈ CAMPAIGN_CONTROL_SOURCES action)) then
            Raise ValueError ("A " +:+ lower (campaign_text (c_status c)) +:+ " firmware campaign cannot be " +:+ CAMPAIGN_CONTROL_VERBS action +:+ ".")
          else
            let text := control_reason reason action in
            _ ← (if bool_decide (action = "resume") then resume_check w c else Ok tt);
            failed ← (if within action ["pause"; "cancel"] then
                        fail_held_downloads w (c_id c) ("the campaign was " +:+ lower (campaign_text target) +:+ " (" +:+ text +:+ ")") now
                      else Ok (w, 0));
            let w1 := update_campaign (c_id c) (set_campaign_status target (if bool_decide (action = "resume") then None else Some text) now) failed.1 in
            Ok (if bool_decide (action = "cancel") then cancel_deployments (c_id c) w1 else w1, failed.2)
      end
  end.

(** web.revoke_firmware_release: the release is withdrawn and its live campaigns are paused. *)
Definition set_revoked (actor : string) (now : Z) (r : FirmwareRelease) : FirmwareRelease :=
  mkRelease (r_id r) (r_release_id r) (r_version r) (r_git_sha r) (r_image_sha256 r) (r_image_size r) (r_partition_layout r)
    (r_minimum_bootstrap_version r) (r_storage_name r) (r_manifest r) "REVOKED" (Some now) (Some actor) (r_signing_key_id r).
Definition set_revoke_pause (reason : string) (c : FirmwareCampaign) : FirmwareCampaign :=
  set_campaign_status PAUSED (Some (prefix_chars 200 ("Release revoked: " +:+ reason))) (c_updated_at c) c.

Definition revoke_release (w : fleet) (public_id actor reason : string) (now : Z) : res fleet :=
  match List.find (λ r, bool_decide (r_release_id r = public_id)) (releases w) with
  | None => Raise LookupError "Firmware release not found."
  | Some r =>
      let w := set_releases (update_by r_id (r_id r) (set_revoked actor now) (releases w)) w in
      foldR (λ w c,
          failed ← fail_held_downloads w (c_id c) ("the release was revoked (" +:+ reason +:+ ")") now;
          Ok (update_campaign (c_id c) (set_revoke_pause reason) failed.1))
        (List.filter (λ c, (c_release_id c =? r_id r) && live c) (campaigns w)) w
  end.
End assignment.
