(* ===== verification/OtaReturn.v ===== *)
(** * Heartbeats, returns and retries (service.py, ota.py, ota_interruption.py)

    [apply_ota_heartbeat_diagnostics] turns a board's OTA journal in a heartbeat into
    evidence: a return to the previous firmware, a stopped download, a reported failure.
    [record_device_reported_return] handles the board's own report of a return.
    [classify_return] labels it, [retry_interrupted_target] is the owner's retry. *)
From S2P Require Import Prelude PyText Hashes PyJson QueueEvidence RuntimeContract DeviceHealth ReleaseScope ReleaseContract OtaModel OtaReaders OtaTargets OtaProgress OtaDownload OtaStore OtaInterruption OtaAssignment.
Open Scope string_scope.
Open Scope list_scope.
Open Scope Z_scope.

Definition TARGET_BOOT_INTERRUPTED : string := "TARGET_BOOT_INTERRUPTED".
Definition UNCLASSIFIED : string := "UNCLASSIFIED".
Definition UNVERIFIED_IMAGE : string := "PARTITION_HASH_FAILED".
Definition TARGET_LIFETIME_LIMIT_SECONDS : Z := 300.
Definition RECEIPT_SKEW_SECONDS : Z := 10.
Definition RETURN_REPORT_WAIT_SECONDS : Z := 600.
Definition TARGET_BOOT_RETRY_LIMIT : Z := 2.
Definition IMAGE_VERIFY_RETRY_LIMIT : Z := 2.
Definition RETRY_REQUESTED : string := "RETRY_REQUESTED".
Definition ONE_CLICK_RETRY : string := "One-click retry of the same target".
Definition RETRY_NOT_RETRYABLE : string :=
  "Only a target boot that ADD classified TARGET_BOOT_INTERRUPTED, or a downloaded image that did not verify on the ESP (PARTITION_HASH_FAILED), can be retried.".

(** What these handlers take from elsewhere: the evidence around a return (rollback_evidence), the local boot wait of
    service.py, the release schedule, the owner's warnings and a random public id per new row. *)
Class ReturnPlatform := {
  rollback_evidence : fleet → Connector → FirmwareDeployment → pyval → Z → res pyval;
  local_boot_is_waiting : Heartbeat → FirmwareRelease → bool;
  nationwide_schedule_applies : FirmwareRelease → bool;
  retry_warnings : fleet → Connector → Z → list pyval;
  warnings_digest : list pyval → string;
  evidence_summary : pyval → string;
  token_hex : Z → string }.

(** ** A return observed in two heartbeats *)
Definition target_boot_event (w : fleet) (d : FirmwareDeployment) : option FirmwareEvent :=
  last (events_in w (d_id d) ["BOOTED_PENDING"; "RECONCILING"]).

(** A field of a stored telemetry payload; [.upper()] of its OTA state. *)
Definition old_upper (v : pyval) : string := match v with PStr s => upper s | _ => "" end.

Definition returning (k : Connector) (d : FirmwareDeployment) (hb : Heartbeat) : bool :=
  bool_decide (d_status d ∈ [BOOTED_PENDING; RECONCILING])
  && match d_previous_version d with Some v => negb (bool_decide (v = "")) | None => false end
  && match k_boot_id k with Some b => negb (bool_decide (b = "")) | None => false end
  && _versions_match (hb_firmware_version hb) (d_previous_version d)
  && negb (_versions_match (hb_firmware_version hb) (Some (d_target_version d)))
  && match hb_ota_running_version hb with
     | Some v => bool_decide (v = "") || _versions_match (Some v) (hb_firmware_version hb) | None => true end
  && negb (bool_decide (upper (hb_ota_state hb) = "UPDATING"))
  && (bool_decide (hb_ota_target_version hb = "") || _versions_match (Some (hb_ota_target_version hb)) (Some (d_target_version d))).

(** The stored boot report is a digest-checked boot of the target from an OTA slot. *)
Definition checked_boot (d : FirmwareDeployment) (r : FirmwareRelease) (e : FirmwareEvent) : bool :=
  match _application_sha256 r with
  | Some digest =>
      eq_str (get "image_sha256" (e_details e)) digest
      && _versions_match (opt_text (get "running_version" (e_details e))) (Some (d_target_version d))
      && ota_slot (opt_text (get "running_partition" (e_details e)))
  | None => false
  end.

(** The earlier heartbeat of the same boot agrees: 15 to 90 s old, its uptime within 10 s of the elapsed time. *)
Definition coherent_sample (k : Connector) (d : FirmwareDeployment) (hb : Heartbeat) (up now : Z) (boot : FirmwareEvent) (previous : DeviceTelemetry) : bool :=
  let age := now - t_created_at previous in
  let old := t_payload previous in
  let old_ota := get "ota" old in
  bool_decide (t_boot_id previous = k_boot_id k) && (t_sequence previous <? k_last_sequence k)
  && match t_uptime_seconds previous with
     | Some before => (0 <=? before) && (0 <? up - before) && (Z.abs ((up - before) * SECOND - age) <=? 10 * SECOND)
     | None => false end
  && (e_created_at boot <? t_created_at previous)
  && (15 * SECOND <=? age) && (age <=? 90 * SECOND)
  && _versions_match (opt_text (get "firmware_version" old)) (d_previous_version d)
  && negb (bool_decide (old_upper (get "state" old_ota) = "UPDATING"))
  && (negb (truthy (get "target_version" old_ota)) || _versions_match (opt_text (get "target_version" old_ota)) (Some (d_target_version d)))
  && match hb_ota_image_sha256 hb with
     | Some s => bool_decide (s = "") || negb (truthy (get "image_sha256" old_ota)) || eq_str (get "image_sha256" old_ota) s | None => true end.

Section returns.
Context `{OtaPlatform} `{ReturnPlatform}.

Definition previous_firmware_return_evidence (w : fleet) (k : Connector) (d : FirmwareDeployment) (hb : Heartbeat) (now : Z) : option pyval :=
  match hb_uptime_seconds hb, release_of w (d_release_id d), target_boot_event w d with
  | Some up, Some r, Some boot =>
      if negb (returning k d hb) || (up <? 0) || negb (checked_boot d r boot) then None
      else if now - up * SECOND <=? e_created_at boot + 10 * SECOND then None
      else match last (List.filter (λ t, t_connector_id t =? k_id k) (telemetry w)) with
           | Some previous =>
               if coherent_sample k d hb up now boot previous then
                 Some (PDict [("source", PStr "authenticated_heartbeat_return"); ("reset_cause", PStr "not_reported");
                   ("deployment_id", PStr (d_deployment_id d)); ("target_version", PStr (d_target_version d));
                   ("previous_version", opt_str (d_previous_version d)); ("target_boot_event_id", PInt (e_id boot));
                   ("prior_telemetry_id", PInt (t_id previous)); ("boot_id", opt_str (k_boot_id k));
                   ("sequence", PInt (k_last_sequence k)); ("uptime_seconds", PInt up); ("observed_at", PStr (iso now))])
               else None
           | None => None
           end
  | _, _, _ => None
  end.

(** ** Labels *)
(** TARGET_BOOT_INTERRUPTED only when no reason speaks against it. [evidence] is what rollback_evidence returns. *)
Definition classify_return (d : FirmwareDeployment) (r : option FirmwareRelease) (evidence : pyval) : string * list string :=
  let target := get "target_boot" evidence in
  let lifetime := get "max" (get "estimated_lifetime_seconds" target) in
  let reasons :=
    (if has_own_return_evidence r then ["TARGET_HAS_OWN_RETURN_EVIDENCE"] else [])
    ++ (if in_scope_version (d_previous_version d) then [] else ["PREVIOUS_FIRMWARE_OUT_OF_SCOPE"])
    ++ (if negb (bool_decide (d_status d = BOOTED_PENDING)) || truthy (get "reported_reconciling" target) then ["TARGET_REPORTED_CONFIRMATION"] else [])
    ++ (if eq_str (get "last_progress_code" target) "RUNTIME_HEALTHY" || truthy (get "reported_runtime_healthy" target)
        then ["TARGET_REPORTED_RUNTIME_HEALTHY"] else [])
    ++ (if truthy (get "failure_reports" target) then ["TARGET_REPORTED_FAILURE"] else [])
    ++ match lifetime with
       | PInt z => if TARGET_LIFETIME_LIMIT_SECONDS <=? z then ["TARGET_LIFETIME_NOT_SHORT"] else []
       | _ => ["TARGET_BOOT_START_UNBOUNDED"]
       end in
  (if bool_decide (reasons = []) then TARGET_BOOT_INTERRUPTED else UNCLASSIFIED, reasons).

(** service._diagnose_target_return around diagnose_return: missing evidence never blocks the return. *)
Definition diagnose_target_return (w : fleet) (k : Connector) (d : FirmwareDeployment) (evidence : pyval) (now : Z) : res (string * pyval) :=
  match rollback_evidence w k d evidence now with
  | Ok found =>
      let '(label, reasons) := classify_return d (release_of w (d_release_id d)) found in
      let fields := match found with PDict f => f | _ => [] end in
      Ok (label, PDict (merge_details fields [("classification", PStr label); ("unclassified_reasons", PList (map PStr reasons));
                                              ("summary", PStr (evidence_summary found))]))
  | Raise c m =>
      if is_value_error c || bool_decide (c ∈ [KeyError; TypeError]) then
        Ok (UNCLASSIFIED, PDict [("classification", PStr UNCLASSIFIED); ("unclassified_reasons", PList [PStr "EVIDENCE_UNAVAILABLE"])])
      else Raise c m
  end.

Definition interrupted_message (diagnosis : pyval) : string :=
  let lifetime := get "estimated_lifetime_seconds" (get "target_boot" diagnosis) in
  let low := get "min" lifetime in
  "The ESP reset about " +:+ (if is_none low then "?" else py_str_val low) +:+ "-" +:+ py_str_val (get "max" lifetime) +:+ " s after booting "
  +:+ py_str_val (get "target_version" diagnosis) +:+ " and before the image was confirmed, so the bootloader returned it to "
  +:+ py_str_val (get "previous_version" diagnosis) +:+ ". The new image sent no failure report: ADD cannot tell a crash from a power or reset event, so read the rollback evidence. The campaign is paused. Before any new attempt check the ESP's power, its reset history and its current storage and queue state (shown with the retry); the owner may then retry the same target with one click.".

(** service._flag_target_return, without the alert *)
Definition flag_return (code message : string) (k : Connector) : Connector := set_board_error (k_ota_state k) ("OTA_" +:+ code) message k.

Definition OBSERVED_MESSAGE : string :=
  "The ESP has returned to its previous firmware after a verified target boot. Two fresh heartbeats confirm the return; the reset cause was not reported. The campaign remains paused for review.".

(** A return this heartbeat proves: the deployment is rolled back under its label. *)
Definition record_observed_return (w : fleet) (k : Connector) (d : FirmwareDeployment) (hb : Heartbeat) (evidence : pyval) (now : Z) : res fleet :=
  match deployment_of w (d_id d) with
  | Some locked =>
      if negb (bool_decide (d_status locked ∈ [BOOTED_PENDING; RECONCILING])) then Ok w
      else
        g ← diagnose_target_return w k d evidence now;
        let interrupted := bool_decide (g.1 = TARGET_BOOT_INTERRUPTED) in
        let code := if interrupted then TARGET_BOOT_INTERRUPTED else "PREVIOUS_FIRMWARE_OBSERVED" in
        let message := if interrupted then interrupted_message g.2 else OBSERVED_MESSAGE in
        r ← record_progress w k (d_deployment_id d)
              (mkProgress "ROLLED_BACK" (d_bytes_written d) (hb_firmware_version hb) (hb_ota_running_partition hb) (hb_ota_image_sha256 hb)
                 (Some code) (Some message) [("return_evidence", evidence); ("diagnosis", g.2)]) now;
        Ok (update_board (k_id k) (flag_return code message) r.1)
  | None => Ok w
  end.

(** ** The heartbeat *)
Definition failure_code (reported : string) : string :=
  match chars reported with
  | b :: rest => if is_upper b && forallb (λ c, is_upper c || is_digit c || bool_decide (c = x5f)) rest && (zlen rest <=? 63) then reported
                 else "DEVICE_REPORTED_FAILURE"
  | [] => "DEVICE_REPORTED_FAILURE"
  end.

Definition OTA_FAILURE_MESSAGES : list (string * string) :=
  [("IMAGE_TOO_LARGE", "The signed OTA image does not fit the inactive application slot.");
   ("DOWNLOAD_BEGIN_FAILED", "The ESP could not begin the secure OTA download.");
   ("IMAGE_DESCRIPTOR_MISMATCH", "The downloaded image descriptor does not match the assigned release.");
   ("DOWNLOAD_OR_SIGNATURE_FAILED", "The ESP could not complete and authenticate the OTA download.");
   ("PARTITION_HASH_FAILED", "The downloaded image did not verify on the device. Retry the same target to download it again from the start.");
   ("IMAGE_HASH_MISMATCH", "The written OTA partition digest does not match the signed release.");
   ("STORAGE_REDO_FLOOR", "The ESP keeps custody in its storage redo area; only 2.7.6 or later may be installed.")].

(** [connector.ota_state = "UPDATING"] *)
Definition mark_updating (k : Connector) (w : fleet) : fleet :=
  update_board (k_id k) (λ b, set_board_ota "UPDATING" (k_ota_floor_latched_at b) b) w.

(** The newest active deployment of the board in a live campaign. *)
Definition watched_deployment (w : fleet) (k : Connector) : option FirmwareDeployment :=
  last (List.filter (λ d, (d_connector_id d =? k_id k) && active_state (d_status d)
                          && match campaign_of w (d_campaign_id d) with Some c => live c | None => false end) (deployments w)).

(** A reported error of the watched deployment: held for a resumption, or failed closed. *)
Definition apply_reported_error (w : fleet) (k : Connector) (d : FirmwareDeployment) (r : FirmwareRelease) (hb : Heartbeat)
    (error_code runtime_state : string) (now : Z) : res fleet :=
  i ← download_interruption w k d r hb error_code runtime_state now;
  let bytes := Some (Z.min (r_image_size r) (Z.max (d_bytes_written d) (hb_ota_bytes_written hb))) in
  match i.2 with
  | Some WAIT | Some (RETRY_SCHEDULED _ _) => Ok (mark_updating k i.1)
  | Some (NOT_TAKEN code message) | Some (EXHAUSTED code message) => fail_ota_deployment i.1 k d code message bytes now
  | None => fail_ota_deployment i.1 k d error_code
              (default "The ESP reported a fail-closed OTA error." (assoc error_code OTA_FAILURE_MESSAGES)) bytes now
  end.

Definition apply_ota_heartbeat_diagnostics (w : fleet) (k : Connector) (hb : Heartbeat) (now : Z) : res fleet :=
  let target_version := strip (hb_ota_target_version hb) in
  let runtime_state := upper (strip (hb_ota_state hb)) in
  let reported_error := upper (strip (hb_ota_last_error hb)) in
  match watched_deployment w k with
  | None => Ok w
  | Some d =>
      match previous_firmware_return_evidence w k d hb now with
      | Some evidence => record_observed_return w k d hb evidence now
      | None =>
          if bool_decide (target_version = "") || negb (_versions_match (Some target_version) (Some (d_target_version d))) then Ok w
          else if bool_decide (runtime_state = "UPDATING") then Ok (mark_updating k w)
          else if bool_decide (reported_error = UNVERIFIED_IMAGE) && downloading d
                  && negb (unverified_image_current w k d (hb_uptime_seconds hb) now) then Ok (mark_updating k w)
          else if bool_decide (reported_error = "") then
            Ok (if within runtime_state ["DOWNLOADING"; "VERIFYING"; "READY_TO_BOOT"; "BOOTED_PENDING"; "RECONCILING"] then mark_updating k w else w)
          else match release_of w (d_release_id d) with
               | None => Ok w
               | Some r =>
                   if bool_decide (k_firmware_family k = Some "zkt") && bool_decide (d_status d = READY_TO_BOOT) && local_boot_is_waiting hb r
                   then Ok (mark_updating k w)
                   else apply_reported_error w k d r hb (failure_code reported_error) runtime_state now
               end
      end
  end.

(** ** The board's own report of a return *)
Definition device_return_in_scope (w : fleet) (d : FirmwareDeployment) (running_version : option string) : bool :=
  bool_decide (d_status d = BOOTED_PENDING) && _versions_match running_version (d_previous_version d)
  && negb (_versions_match running_version (Some (d_target_version d))) && return_in_scope d (release_of w (d_release_id d)).

Definition _started_after_target (w : fleet) (k : Connector) (d : FirmwareDeployment) (boot : FirmwareEvent) (boot_id : string) (started : Z) : bool :=
  if e_created_at boot + RECEIPT_SKEW_SECONDS * SECOND <? started then true
  else match last (List.filter (λ e, e_id e <? e_id boot) (events_in w (d_id d) ["READY_TO_BOOT"])) with
       | None => false
       | Some ready =>
           if started <=? e_created_at ready then false
           else
             let earlier := List.filter (λ t, (t_connector_id t =? k_id k) && (t_created_at t <? e_created_at ready)
                                              && bool_decide (t_boot_id t ≠ None)) (telemetry w) in
             match fold_left (λ m t, match m with Some u => if t_created_at t <? t_created_at u then Some u else Some t | None => Some t end) earlier None with
             | Some t => bool_decide (t_boot_id t ≠ Some boot_id)
             | None => false
             end
       end.

Definition device_return_evidence (w : fleet) (k : Connector) (d : FirmwareDeployment) : option pyval :=
  match target_boot_event w d, k_boot_id k with
  | Some boot, Some boot_id =>
      if bool_decide (boot_id = "") then None
      else match last (List.filter (λ t, (t_connector_id t =? k_id k) && bool_decide (t_boot_id t = Some boot_id)) (telemetry w)) with
           | None => None
           | Some row =>
               match t_uptime_seconds row with
               | None => None
               | Some up =>
                   let version := opt_text (get "firmware_version" (t_payload row)) in
                   if (up <? 0) || negb (_versions_match version (d_previous_version d)) || _versions_match version (Some (d_target_version d)) then None
                   else if _started_after_target w k d boot boot_id (t_created_at row - up * SECOND) then
                     Some (PDict [("source", PStr "device_reported_bootloader_rollback"); ("reset_cause", PStr "not_reported");
                       ("deployment_id", PStr (d_deployment_id d)); ("target_version", PStr (d_target_version d));
                       ("previous_version", opt_str (d_previous_version d)); ("target_boot_event_id", PInt (e_id boot));
                       ("prior_telemetry_id", PInt (t_id row)); ("boot_id", PStr boot_id); ("uptime_seconds", PInt up);
                       ("observed_at", PStr (iso (t_created_at row)))])
                   else None
               end
           end
  | _, _ => None
  end.

Definition return_report_may_wait (w : fleet) (d : FirmwareDeployment) (now : Z) : bool :=
  match newest (map e_created_at (events_in w (d_id d) ["BOOTED_PENDING"; "RECONCILING"])) with
  | Some t => now <? t + RETURN_REPORT_WAIT_SECONDS * SECOND
  | None => false
  end.

Definition is_bootloader_rollback (k : Connector) (error_code : option string) : bool :=
  bool_decide (k_firmware_family k = Some "zkt") && bool_decide (upper (strip (default "" error_code)) = "BOOTLOADER_ROLLBACK").

Definition RETURN_MESSAGE : string :=
  "The ESP reported that its bootloader returned to the previous firmware before the new image was confirmed; the reset cause was not reported. The campaign remains paused for review.".

(** [None]: outside its scope, the caller records the report unchanged. *)
Definition record_device_reported_return (w : fleet) (k : Connector) (public_id : string) (p : progress) (now : Z) : res (fleet * option FirmwareDeployment) :=
  if negb (is_bootloader_rollback k (p_error_code p)) then Ok (w, None)
  else
    match List.find (λ d, bool_decide (d_deployment_id d = public_id) && (d_connector_id d =? k_id k)) (deployments w) with
    | None => Ok (w, None)
    | Some d =>
        if negb (device_return_in_scope w d (p_running_version p)) then Ok (w, None)
        else match device_return_evidence w k d with
             | None => if return_report_may_wait w d now then
                         Raise ReturnEvidencePending "RETURN_EVIDENCE_PENDING: ADD records this return once the return boot's first heartbeat arrives; repeat the report."
                       else Ok (w, None)
             | Some evidence =>
                 g ← diagnose_target_return w k d evidence now;
                 let interrupted := bool_decide (g.1 = TARGET_BOOT_INTERRUPTED) in
                 let code := if interrupted then TARGET_BOOT_INTERRUPTED else "BOOTLOADER_ROLLBACK" in
                 let message := if interrupted then interrupted_message g.2
                                else match p_error_message p with Some m => if bool_decide (m = "") then RETURN_MESSAGE else m | None => RETURN_MESSAGE end in
                 r ← record_progress w k (d_deployment_id d)
                       (mkProgress "ROLLED_BACK" (p_bytes_written p) (p_running_version p) (p_running_partition p) (p_image_sha256 p)
                          (Some code) (Some message)
                          [("return_evidence", evidence); ("diagnosis", g.2); ("device_error_code", PStr "BOOTLOADER_ROLLBACK");
                           ("device_error_message", opt_str (p_error_message p))]) now;
                 Ok (update_board (k_id k) (flag_return code message) r.1, Some r.2)
             end
    end.

(** web: the report of a board. A return report in scope takes the heartbeat's evidence; any other is recorded as it is. *)
Definition report_progress (w : fleet) (k : Connector) (public_id : string) (p : progress) (now : Z) : res (fleet * list (string * pyval)) :=
  let candidate := bool_decide (p_state p = "ROLLED_BACK") && is_bootloader_rollback k (p_error_code p)
    && match List.find (λ d, bool_decide (d_deployment_id d = public_id) && (d_connector_id d =? k_id k)) (deployments w) with
       | Some d => device_return_in_scope w d (p_running_version p) | None => false end in
  a ← (if candidate then record_device_reported_return w k public_id p now else Ok (w, None));
  b ← match a.2 with
      | Some d => Ok (a.1, d)
      | None => record_progress a.1 k public_id p now
      end;
  receipt ← progress_receipt b.1 b.2 (p_state p);
  Ok (b.1, receipt).
End returns.
