(* ===== verification/OtaScope.v ===== *)
(** * The scope of a campaign (ota.py)

    [_campaign_scope] synchronizes the release store and sorts the active boards of a zone into those a release may
    update and those it may not, with the reason. [preview_campaign_scope] signs the scope into a token that expires;
    [verify_campaign_scope_token] accepts the token only while the scope is still the same. *)
From S2P Require Import Prelude PyText Hashes PyJson PyLoads QueueEvidence RuntimeContract DeviceHealth ReleaseScope ReleaseContract OtaModel OtaReaders OtaTargets OtaProgress OtaDownload OtaStore.
Open Scope string_scope.
Open Scope list_scope.
Open Scope Z_scope.

(** What the scope and its reservations take from elsewhere: the packages in the store at an instant, the root secret and its
    fallback, [secrets.token_urlsafe], the [repr] of a float, the UTF-16 and UTF-32 codecs, the factory trial's snapshot of a board, the stability warnings of a board, the HIL schedule's
    reservations (the sealed details of an event) and whether a row lock of a campaign is held elsewhere. *)
Class ScopePlatform := {
  store_packages : Z → list Package;
  fleet_root_secret : string;
  pii_lookup_key : string;
  scope_nonce : Z → string;
  float_repr : bytes → string;
  wide_text : bytes → option bytes;
  predecessor_snapshot : fleet → FirmwareRelease → Connector → res pyval;
  schedule_reserved : fleet → FirmwareRelease → Z → res bool;
  campaign_warnings : fleet → Connector → FirmwareRelease → Z → list pyval;
  reserve : fleet → FirmwareRelease → FirmwareCampaign → FirmwareDeployment → Z → res (option pyval);
  reserve_trial : fleet → FirmwareRelease → FirmwareCampaign → FirmwareDeployment → Connector → Z → res pyval;
  database_busy : fleet → FirmwareCampaign → bool }.

(** ** Text of a token *)
(** [base64.urlsafe_b64encode(raw).rstrip(b"=")] *)
Definition url_char (b : byte) : byte := if bool_decide (b = x2b) then x2d else if bool_decide (b = x2f) then x5f else b.
Definition url_encode (raw : bytes) : bytes := rstrip_bytes (λ b, bool_decide (b = EQUALS)) (map url_char (b64encode raw)).

(** [base64.urlsafe_b64decode]: bytes outside the alphabet are skipped and the first complete padding ends the data. [left] holds the bits
    not yet written, [pos] the place in the quad, [pads] the padding seen in it. *)
Definition url_value (b : byte) : option Z :=
  b64_value (if bool_decide (b = x2d) then x2b else if bool_decide (b = x5f) then x2f else b).
Fixpoint url_decode_from (l : bytes) (pos left pads : Z) : option bytes :=
  match l with
  | [] => if pos =? 0 then Some [] else None
  | b :: l' =>
      if bool_decide (b = EQUALS) then
        if 2 <=? pos then if 4 <=? pos + (pads + 1) then Some [] else url_decode_from l' pos left (pads + 1)
        else url_decode_from l' pos left pads
      else match url_value b with
           | None => url_decode_from l' pos left pads
           | Some v =>
               if pos =? 0 then url_decode_from l' 1 v 0
               else if pos =? 1 then cons (bz (left * 4 + v / 16)) <$> url_decode_from l' 2 (v mod 16) 0
               else if pos =? 2 then cons (bz (left * 16 + v / 4)) <$> url_decode_from l' 3 (v mod 4) 0
               else cons (bz (left * 64 + v)) <$> url_decode_from l' 0 0 0
           end
  end.
(** The text is padded to whole quads first; it must be ASCII. *)
Definition url_decode (s : bytes) : option bytes :=
  if forallb (λ b, zb b <? 128) s then url_decode_from (s ++ List.repeat EQUALS (Z.to_nat (- zlen s mod 4))) 0 0 0 else None.

(** ** Which boards *)
Definition _scope_exclusion_reason (k : Connector) (hil_target_mac minimum_version : string) : option string :=
  if negb (k_ota_capable k) then Some "OTA_NOT_CAPABLE"
  else if negb (k_ota_secure_boot k) then Some "SECURE_BOOT_REQUIRED"
  else if negb (k_ota_rollback_enabled k) then Some "ROLLBACK_REQUIRED"
  else if negb (bool_decide (k_ota_partition_layout k = Some OTA_LAYOUT)) then Some "PARTITION_LAYOUT_MISMATCH"
  else if negb (version_at_least (k_firmware_version k) minimum_version) then Some "BOOTSTRAP_VERSION_TOO_OLD"
  else if negb (no_text hil_target_mac) && negb (bool_decide (lower (k_hardware_id k) = hil_target_mac)) then Some "HIL_TARGET_MISMATCH"
  else None.

(** [.order_by(display_name, connector_id)] *)
Definition board_leb (a b : Connector) : bool :=
  if bool_decide (k_display_name a = k_display_name b) then bytes_leb (chars (k_connector_id a)) (chars (k_connector_id b))
  else bytes_leb (chars (k_display_name a)) (chars (k_display_name b)).
Definition zone_boards (w : fleet) (zone : string) : list Connector :=
  sort_with board_leb (List.filter (λ k, bool_decide (k_zone_id k = zone) && k_active k) (boards w)).

(** [any(target_matches(...) or target_admits(...) for target in targets)] *)
Fixpoint any_exact (r : FirmwareRelease) (ts : list HilTarget) (k : Connector) : res bool :=
  match ts with
  | [] => Ok false
  | t :: ts' =>
      b ← (if target_matches t k then Ok true else fsdmain_target_admits r t k);
      if (b : bool) then Ok true else any_exact r ts' k
  end.
Fixpoint filterR {A} (f : A → res bool) (l : list A) : res (list A) :=
  match l with
  | [] => Ok []
  | x :: l' => b ← f x; rest ← filterR f l'; Ok (if (b : bool) then x :: rest else rest)
  end.

Record Scope := mkScope { sc_release : FirmwareRelease; sc_connectors : list Connector; sc_eligible : list Connector; sc_excluded : list (Connector * string) }.
Definition excluded_reason (excluded : list (Connector * string)) (k : Connector) : option string :=
  snd <$> List.find (λ kr, k_id kr.1 =? k_id k) excluded.
Definition HIL_EXACTLY_ONE : string := "HIL campaign requires exactly one eligible connector with the target MAC".

Section scope.
Context `{OtaPlatform} `{ScopePlatform}.

(** The reason a board of the zone is left out. *)
Definition hil_exclusion (r : FirmwareRelease) (permitted : option (list HilTarget)) (k : Connector) (reason : option string) : res (option string) :=
  match permitted with
  | Some (t :: ts) =>
      exact ← any_exact r (t :: ts) k;
      if negb (exact : bool) then Ok (Some "HIL_EXACT_IDENTITY_MISMATCH")
      else
        admits ← any_admits r (t :: ts) k;
        Ok (if (admits : bool) then reason else Some "HIL_TARGET_ZONE_MISMATCH")
  | _ => Ok reason
  end.
Definition board_exclusion (w : fleet) (r : FirmwareRelease) (permitted : option (list HilTarget)) (bridge : option HilTarget) (mac : string) (now : Z)
    (k : Connector) : res (option string) :=
  let reason := _scope_exclusion_reason k (if bool_decide (r_state r = "HIL_ONLY") && bool_decide (permitted = None) then mac else "") (r_minimum_bootstrap_version r) in
  reason ← match require_family_match (k_firmware_family k) (r_manifest r) with
           | Ok _ => Ok reason
           | Raise c m => if is_value_error c then Ok (Some "FIRMWARE_FAMILY_MISMATCH") else Raise c m
           end;
  reason ← hil_exclusion r permitted k reason;
  let reason := match bridge with
                | Some t => match factory_bridge_exclusion k t with Some excluded => Some excluded | None => reason end
                | None => reason
                end in
  match reason with
  | Some reason => Ok (Some reason)
  | None => storage_predecessor_exclusion w r k None now
  end.

Definition sort_board (w : fleet) (r : FirmwareRelease) (permitted : option (list HilTarget)) (bridge : option HilTarget) (mac : string) (now : Z)
    (acc : list Connector * list (Connector * string)) (k : Connector) : res (list Connector * list (Connector * string)) :=
  reason ← board_exclusion w r permitted bridge mac now k;
  Ok (match reason with Some reason => (acc.1, acc.2 ++ [(k, reason)]) | None => (acc.1 ++ [k], acc.2) end).

(** A quarantined release keeps exactly one board. *)
Definition quarantine (r : FirmwareRelease) (permitted : option (list HilTarget)) (mac : string) (connectors eligible : list Connector)
    (excluded : list (Connector * string)) : res (list Connector) :=
  kept ← match permitted with
         | None => Ok (List.filter (λ k, bool_decide (lower (k_hardware_id k) = mac)) eligible)
         | Some ts => filterR (λ k, any_admits r ts k) eligible
         end;
  match kept with
  | [k] => Ok [k]
  | _ =>
      match permitted with
      | Some ts =>
          match List.find (λ k, existsb (λ t, bool_decide (k_connector_id k = ht_connector_id t)) ts) connectors with
          | None => Raise ValueError (HIL_EXACTLY_ONE +:+ "; the exact target is not active in this zone.")
          | Some k => match excluded_reason excluded k with
                      | Some reason => Raise ValueError (HIL_EXACTLY_ONE +:+ "; target exclusion: " +:+ reason +:+ ".")
                      | None => Raise ValueError (HIL_EXACTLY_ONE +:+ ".")
                      end
          end
      | None => Raise ValueError (HIL_EXACTLY_ONE +:+ ".")
      end
  end.

Definition bridge_alone (bridge : option HilTarget) (connectors eligible : list Connector) (excluded : list (Connector * string)) : res unit :=
  match bridge with
  | Some t =>
      if zlen eligible =? 1 then Ok tt
      else
        let exclusion := k ← List.find (λ k, bool_decide (k_connector_id k = ht_connector_id t)) connectors; excluded_reason excluded k in
        Raise ValueError ("Factory-to-OTA bridge requires exactly one eligible exact connector"
                          +:+ match exclusion with Some reason => "; target exclusion: " +:+ reason +:+ "." | None => "." end)
  | None => Ok tt
  end.

Definition legacy_quarantine_check (r : FirmwareRelease) (mac : string) : res unit :=
  configured ← configured_hil_mac r;
  if negb firmware_hil_enabled || no_text configured then Raise ValueError "Firmware HIL quarantine is disabled."
  else if negb (bool_decide (mac = configured)) then Raise ValueError "HIL release target does not match the configured ESP MAC."
  else Ok tt.

Definition _campaign_scope (w0 : fleet) (release_public_id zone_id : string) (now : Z) : res (fleet * Scope) :=
  w ← sync_release_store w0 (store_packages now);
  match List.find (λ r, bool_decide (r_release_id r = release_public_id) && offerable r) (releases w) with
  | None => Raise ValueError "Firmware release is not available."
  | Some r =>
      let hil := bool_decide (r_state r = "HIL_ONLY") in
      let mac := hil_target_mac r in
      if bool_decide (_application_sha256 r = None) then Raise ValueError "Firmware release lacks the ESP application digest required by OTA bootstraps."
      else if bool_decide (r_state r = "AVAILABLE") && negb firmware_ota_enabled then Raise ValueError "National firmware OTA remains disabled."
      else
        permitted ← (if hil then permitted_hil_targets w r now else Ok None);
        bridge ← factory_bridge_target r zone_id;
        _ ← (if hil && bool_decide (permitted = None) then legacy_quarantine_check r mac else Ok tt);
        let connectors := zone_boards w zone_id in
        sorted ← foldR (sort_board w r permitted bridge mac now) connectors ([], []);
        eligible ← (if hil then quarantine r permitted mac connectors sorted.1 sorted.2 else Ok sorted.1);
        _ ← bridge_alone bridge connectors eligible sorted.2;
        Ok (w, mkScope r connectors eligible sorted.2)
  end.

(** ** The signed scope *)
Definition zkt_text (f : ZKTDevice → option string) (k : Connector) : pyval := match k_terminal k with Some z => opt_str (f z) | None => PNone end.
Definition scope_row (k : Connector) : pyval :=
  PDict [("connector_id", PStr (k_connector_id k)); ("active", PBool (k_active k)); ("is_spare", PBool (k_is_spare k)); ("firmware_version", opt_str (k_firmware_version k));
         ("terminal_serial", zkt_text z_serial k); ("confirmed_serial", zkt_text z_confirmed_serial k); ("expected_serial", zkt_text z_expected_serial k);
         ("hardware_id", PStr (lower (k_hardware_id k))); ("ota_capable", PBool (k_ota_capable k)); ("ota_secure_boot", PBool (k_ota_secure_boot k));
         ("ota_rollback_enabled", PBool (k_ota_rollback_enabled k)); ("ota_partition_layout", opt_str (k_ota_partition_layout k))].
Definition id_leb (a b : Connector) : bool := bytes_leb (chars (k_connector_id a)) (chars (k_connector_id b)).
Definition _scope_digest (w : fleet) (zone_id : string) (s : Scope) (schedule_state : pyval) : res string :=
  let r := sc_release s in
  trial ← (if bool_decide (r_version r = FACTORY_BRIDGE_VERSION) then
             rows ← mapR (λ k, v ← predecessor_snapshot w r k; Ok (k_connector_id k, v)) (sc_eligible s);
             Ok [("factory_trial_baselines", PDict rows)]
           else Ok []);
  Ok (sha256_hex (dumps_ascii (PDict ([("release_id", PStr (r_release_id r)); ("release_state", PStr (r_state r)); ("artifact_sha256", PStr (r_image_sha256 r));
        ("application_sha256", opt_str (_application_sha256 r)); ("hil_targets", hil_list r); ("hil_target_mac", get "_hil_target_mac" (r_manifest r));
        ("nationwide_schedule", if truthy schedule_state then get "decision_sha256" schedule_state else PNone);
        ("eligible", PList (map PStr (sorted_strs (map k_connector_id (sc_eligible s))))); ("version", PStr (r_version r)); ("zone_id", PStr zone_id);
        ("connectors", PList (map scope_row (sort_with id_leb (sc_connectors s))))] ++ trial)))).

Definition _scope_signing_key : res bytes :=
  let value := if no_text fleet_root_secret then pii_lookup_key else fleet_root_secret in
  if no_text value then Raise RuntimeError "ADD_FLEET_ROOT_SECRET is required for ESP onboarding." else Ok (chars value).
Definition _encode_scope_token (payload : pyval) : res string :=
  let encoded := url_encode (dumps_ascii payload) in
  key ← _scope_signing_key;
  Ok (of_chars (encoded ++ [x2e] ++ url_encode (hmac_sha256 key encoded))).

Definition TOKEN_INVALID : string := "Firmware scope preview token is invalid.".
Definition _decode_scope_token (token : string) : res pyval :=
  match partition_byte x2e (chars token) with
  | (_, None) => Raise ValueError TOKEN_INVALID
  | (encoded, Some encoded_signature) =>
      key ← _scope_signing_key;
      match url_decode encoded_signature with
      | None => Raise ValueError TOKEN_INVALID
      | Some supplied =>
          if negb (bool_decide (hmac_sha256 key encoded = supplied)) then Raise ValueError TOKEN_INVALID
          else match url_decode encoded with
               | None => Raise ValueError TOKEN_INVALID
               | Some raw =>
                   payload ← match json_loads float_repr wide_text raw with
                             | Ok v => Ok v
                             | Raise c m => if is_value_error c || bool_decide (c = TypeError) then Raise ValueError TOKEN_INVALID else Raise c m
                             end;
                   if is_dict payload then Ok payload else Raise ValueError TOKEN_INVALID
               end
      end
  end.

Definition preview_campaign_scope (w0 : fleet) (release_public_id zone_id : string) (now : Z) : res (fleet * string * Scope) :=
  ws ← _campaign_scope w0 release_public_id zone_id now;
  nationwide ← schedule ws.1 (sc_release ws.2) now;
  digest ← _scope_digest ws.1 zone_id ws.2 nationwide;
  token ← _encode_scope_token (PDict [("release_id", PStr (r_release_id (sc_release ws.2))); ("zone_id", PStr zone_id); ("scope_digest", PStr digest);
            ("exp", PInt ((now + 5 * 60 * SECOND) / SECOND)); ("nonce", PStr (scope_nonce now))]);
  Ok (ws.1, token, ws.2).

Definition verify_campaign_scope_token (w0 : fleet) (token release_public_id zone_id : string) (now : Z) : res (fleet * Scope) :=
  payload ← _decode_scope_token token;
  expires ← int_val (if truthy (get "exp" payload) then get "exp" payload else PInt 0);
  if expires <=? now / SECOND then Raise ValueError "Firmware scope preview expired. Refresh the preview and confirm again."
  else if negb (eq_str (get "release_id" payload) release_public_id) || negb (eq_str (get "zone_id" payload) zone_id)
  then Raise ValueError "Firmware scope preview does not match this release and zone."
  else
    ws ← _campaign_scope w0 release_public_id zone_id now;
    nationwide ← schedule ws.1 (sc_release ws.2) now;
    digest ← _scope_digest ws.1 zone_id ws.2 nationwide;
    if eq_str (get "scope_digest" payload) digest then Ok ws
    else Raise ValueError "Firmware scope changed. Refresh the preview before starting the campaign.".
End scope.
