(* ===== verification/OtaCampaign.v ===== *)
(** * Starting and retrying campaigns (ota.py, ota_interruption.py)

    [create_campaign] starts a campaign from a signed scope, [retry_interrupted_target] adds
    one attempt to a paused one. OtaHistory.v closes, archives and clears campaigns. *)
From S2P Require Import Prelude PyText Hashes PyJson QueueEvidence RuntimeContract DeviceHealth ReleaseScope ReleaseContract OtaModel OtaReaders OtaTargets OtaProgress OtaDownload OtaStore OtaInterruption OtaAssignment OtaReturn OtaScope.
Open Scope string_scope.
Open Scope list_scope.
Open Scope Z_scope.

Definition ONE_CLICK_REASON : string := "One-click firmware update".
Definition RESERVATION : string := "HIL_SCOPE_RESERVED".
Definition TRIAL_RESERVED : string := "FACTORY_TRIAL_RESERVED".
Definition STABILITY_WARNINGS_OVERRIDDEN : string := "STABILITY_WARNINGS_OVERRIDDEN".

(** ** New rows *)
Definition add_campaign (c : FirmwareCampaign) (w : fleet) : fleet :=
  mkFleet (releases w) (campaigns w ++ [c]) (deployments w) (firmware_events w) (grants w) (hil_run_deployments w) (boards w) (telemetry w) (next_id w + 1).
Definition add_deployment (d : FirmwareDeployment) (w : fleet) : fleet :=
  mkFleet (releases w) (campaigns w) (deployments w ++ [d]) (firmware_events w) (grants w) (hil_run_deployments w) (boards w) (telemetry w) (next_id w + 1).

Section campaigns.
Context `{OtaPlatform} `{ReturnPlatform} `{ScopePlatform}.

Definition new_deployment (w : fleet) (campaign : Z) (r : FirmwareRelease) (k : Connector) (now : Z) : FirmwareDeployment :=
  mkDeployment (next_id w) (token_hex (next_id w)) campaign (r_id r) (k_id k) PENDING (k_firmware_version k) (r_version r) 0 0 None None None None now now.

(** A public id is unique. *)
Definition insert_deployment (w : fleet) (campaign : Z) (r : FirmwareRelease) (k : Connector) (now : Z) : res (fleet * FirmwareDeployment) :=
  let d := new_deployment w campaign r k now in
  if existsb (λ o, bool_decide (d_deployment_id o = d_deployment_id d)) (deployments w) then Raise IntegrityError "add_firmware_deployments.deployment_id"
  else Ok (add_deployment d w, d).

Definition warning_row (v : pyval) : pyval := PDict [("code", get "code" v); ("message", get "message" v)].

(** One eligible board of a new campaign: its deployment, the overridden warnings, its reservations. *)
Definition enlist (c : FirmwareCampaign) (r : FirmwareRelease) (actor : string) (w0 : fleet) (now : Z) (w : fleet) (k : Connector) : res fleet :=
  a ← insert_deployment w (c_id c) r k now;
  let warnings := campaign_warnings w0 k r now in
  let w := if bool_decide (warnings = []) then a.1
           else add_event (d_id a.2) STABILITY_WARNINGS_OVERRIDDEN (PDict [("actor", PStr actor); ("warnings", PList (map warning_row warnings))]) now a.1 in
  reserved ← reserve w r c a.2 now;
  let w := match reserved with Some details => add_event (d_id a.2) RESERVATION details now w | None => w end in
  if bool_decide (r_version r = "2.6.22") then
    details ← reserve_trial w r c a.2 k now; Ok (add_event (d_id a.2) TRIAL_RESERVED details now w)
  else Ok w.

Definition replayed (w : fleet) (actor key : string) : option FirmwareCampaign :=
  List.find (λ c, bool_decide (c_actor c = actor) && bool_decide (c_idempotency_key c = key)) (campaigns w).
Definition replay_matches (w : fleet) (c : FirmwareCampaign) (release_public_id zone_id : string) : bool :=
  bool_decide (c_zone_id c = zone_id)
  && match release_of w (c_release_id c) with Some r => bool_decide (r_release_id r = release_public_id) | None => false end.

Definition warning_text (warnings : list pyval) : string := join_str " " (map (λ v, py_str_val (get "message" v)) warnings).

Definition create_campaign (w : fleet) (release_public_id zone_id actor scope_token key : string) (reason : option string)
    (override : bool) (digest : option string) (now : Z) : res (fleet * FirmwareCampaign) :=
  match replayed w actor key with
  | Some c => if replay_matches w c release_public_id zone_id then Ok (w, c)
              else Raise ValueError "That idempotency key belongs to another firmware campaign."
  | None =>
      scope ← verify_campaign_scope_token w scope_token release_public_id zone_id now;
      let w := scope.1 in
      let r := sc_release scope.2 in
      let eligible := sc_eligible scope.2 in
      reserved ← schedule_reserved w r now;
      if (reserved : bool) then Raise ValueError "Nationwide HIL scope already has an unsettled reservation."
      else if existsb (λ c, bool_decide (c_zone_id c = zone_id) && live c) (campaigns w) then
        Raise ValueError "This zone already has an active or paused firmware campaign."
      else
        let flagged := concat (map (λ k, campaign_warnings w k r now) eligible) in
        if negb (bool_decide (flagged = [])) && negb override then
          Raise ValueError ("ESP stability warnings need the owner's override: " +:+ warning_text flagged)
        else if negb (bool_decide (flagged = [])) && negb (bool_decide (digest = Some (warnings_digest flagged))) then
          Raise ValueError "The ESP stability warnings changed since the preview; preview the scope again."
        else
          let text := strip (default "" reason) in
          let c := mkCampaign (next_id w) (token_hex (next_id w)) (r_id r) zone_id ACTIVE actor key (if bool_decide (text = "") then ONE_CLICK_REASON else text)
                     (r_version r) (zlen eligible) (zlen (sc_connectors scope.2) - zlen eligible) None now now None None in
          if existsb (λ o, bool_decide (c_campaign_id o = c_campaign_id c)) (campaigns w) then Raise IntegrityError "add_firmware_campaigns.campaign_id"
          else
            w' ← foldR (enlist c r actor w now) eligible (add_campaign c w);
            Ok (w', c)
  end.

(** ** The owner's retry *)
Definition retry_kind (d : FirmwareDeployment) : option string :=
  if bool_decide (d_status d = ROLLED_BACK) && bool_decide (d_error_code d = Some TARGET_BOOT_INTERRUPTED) then Some TARGET_BOOT_INTERRUPTED
  else if bool_decide (d_status d = FAILED) && bool_decide (d_error_code d = Some UNVERIFIED_IMAGE) then Some UNVERIFIED_IMAGE
  else None.

Definition count_outcomes (w : fleet) (d : FirmwareDeployment) (st : deployment_state) (code : string) : Z :=
  zlen (List.filter (λ o, (d_connector_id o =? d_connector_id d) && (d_release_id o =? d_release_id d) && bool_decide (d_status o = st)
                          && bool_decide (d_error_code o = Some code)) (deployments w)).
Definition _retry_count (w : fleet) (d : FirmwareDeployment) (kind : string) : Z * Z :=
  if bool_decide (kind = UNVERIFIED_IMAGE) then (count_outcomes w d FAILED UNVERIFIED_IMAGE, IMAGE_VERIFY_RETRY_LIMIT)
  else (count_outcomes w d ROLLED_BACK TARGET_BOOT_INTERRUPTED, TARGET_BOOT_RETRY_LIMIT).

Definition _pending_others (w : fleet) (c : FirmwareCampaign) : Z :=
  zlen (List.filter (λ s, bool_decide (s = PENDING)) (statuses_of w (c_id c))).

Definition _rollback_pause_reason (k : option Connector) (d : FirmwareDeployment) : option string :=
  (λ k, deployment_pause_reason k (d_status d) (d_error_code d)) <$> k.

Definition esp_state (w : fleet) (k : Connector) : pyval :=
  let storage := get "storage" (k_firmware_diagnostics k) in
  let reported := is_dict storage in
  let latest := match k_boot_id k with
                | Some b => if bool_decide (b = "") then None
                            else last (List.filter (λ t, (t_connector_id t =? k_id k) && bool_decide (t_boot_id t = Some b)) (telemetry w))
                | None => None end in
  PDict [("connected", PBool (k_connected k)); ("firmware_version", opt_str (k_firmware_version k)); ("boot_id", opt_str (k_boot_id k));
    ("storage_reported", PBool reported); ("storage_durability", if reported then get "durability" storage else PNone);
    ("storage_io_faults", if reported then default PNone (storage_io_fault storage) else PNone);
    ("diagnostics_at", match k_firmware_diagnostics_at k with Some t => PStr (iso t) | None => PNone end);
    ("outbox_depth", match latest with Some t => PInt (t_outbox_depth t) | None => PNone end);
    ("last_heartbeat_at", match latest with Some t => PStr (iso (t_created_at t)) | None => PNone end)].

Definition is_current (w : fleet) (c : FirmwareCampaign) (d : FirmwareDeployment) : option string :=
  if existsb (λ o, (d_campaign_id o =? c_id c) && (d_connector_id o =? d_connector_id d) && (d_id d <? d_id o)) (deployments w) then
    Some "A later attempt for this ESP already exists in the campaign."
  else if existsb active_state (statuses_of w (c_id c)) then Some "Another deployment in this campaign is still active."
  else None.

(** The board-side half of the refusal. *)
Definition board_refusal (w : fleet) (c : FirmwareCampaign) (d : FirmwareDeployment) (board : option Connector) : option string :=
  if negb (bool_decide (c_pause_reason c = _rollback_pause_reason board d)) then
    Some ("The campaign was paused for another reason (" +:+ match c_pause_reason c with
            | Some s => if bool_decide (s = "") then "none recorded" else s | None => "none recorded" end
          +:+ "). Review it, then resume the campaign or start a new one.")
  else match board with
       | None => Some "The ESP is no longer active in this campaign's zone."
       | Some k =>
           if negb (k_active k) || negb (bool_decide (k_zone_id k = c_zone_id c)) then Some "The ESP is no longer active in this campaign's zone."
           else if negb (k_connected k) then Some "The ESP is offline."
           else if negb (_versions_match (k_firmware_version k) (d_previous_version d)) then
             Some ("The ESP no longer runs " +:+ py_str_val (opt_str (d_previous_version d)) +:+ ".")
           else if negb (ota_slot (k_ota_running_partition k)) then Some "The ESP is not running from an OTA application slot."
           else match get "storage_io_faults" (esp_state w k) with
                | PDict faults =>
                    Some (prefix_chars 240 ("The ESP reports storage I/O faults on its current boot ("
                            +:+ join_str ", " (map (λ kv, kv.1 +:+ "=" +:+ py_str_val kv.2) (sort_keys faults)) +:+ ")")
                          +:+ "; recover its storage before another attempt.")
                | _ => None
                end
       end.

Definition retry_refusal (w : fleet) (c : FirmwareCampaign) (d : FirmwareDeployment) : option string :=
  match retry_kind d with
  | None => Some RETRY_NOT_RETRYABLE
  | Some kind =>
      if negb (bool_decide (c_status c = PAUSED)) then
        Some (if bool_decide (c_status c = CAMPAIGN_CANCELLED) then "A cancelled campaign cannot retry; start a new campaign."
              else "The campaign must be paused to retry a target.")
      else match release_of w (d_release_id d) with
           | None => Some "The signed release is no longer available."
           | Some r =>
               let interrupted := bool_decide (kind = TARGET_BOOT_INTERRUPTED) in
               if negb (offerable r) then Some "The signed release is no longer available."
               else if nationwide_schedule_applies r || (interrupted && has_own_return_evidence (Some r)) then
                 Some "This release has its own return evidence and HIL schedule; start a new campaign."
               else if interrupted && negb (in_scope_version (d_previous_version d)) then
                 Some ("A return to " +:+ py_str_val (opt_str (d_previous_version d))
                       +:+ " after an interrupted first boot can lose queued punches with no gap record (owner decision 6). Check the ESP's queue and the terminal's records against ADD, then start a new campaign.")
               else match is_current w c d with
                    | Some reason => Some reason
                    | None =>
                        let '(count, limit) := _retry_count w d kind in
                        if limit <=? count then
                          Some (if bool_decide (kind = UNVERIFIED_IMAGE) then
                                  py_str limit +:+ " downloads of " +:+ r_version r +:+ " did not verify on this ESP. Check its power and flash (each FAILED report names the failing step) before another attempt."
                                else py_str limit +:+ " boots of " +:+ r_version r +:+ " on this ESP were interrupted. Capture the ESP's UART at the site before another attempt.")
                        else board_refusal w c d (board_of w (d_connector_id d))
                    end
           end
  end.

Definition retry_interrupted_target (w : fleet) (campaign_public_id deployment_public_id actor : string) (override : bool)
    (reason : option string) (digest : option string) (resume_pending : Z) (now : Z) : res (fleet * FirmwareDeployment) :=
  match List.find (λ c, bool_decide (c_campaign_id c = campaign_public_id)) (campaigns w) with
  | None => Raise LookupError "Firmware campaign not found."
  | Some c =>
      match List.find (λ d, bool_decide (d_deployment_id d = deployment_public_id) && (d_campaign_id d =? c_id c)) (deployments w) with
      | None => Raise LookupError "Firmware deployment not found in this campaign."
      | Some d =>
          match release_of w (d_release_id d), retry_refusal w c d, board_of w (d_connector_id d) with
          | None, _, _ => Raise ValueError "The signed release is no longer available."
          | Some _, Some refusal, _ => Raise ValueError refusal
          | Some _, None, None => Raise AttributeError "id"
          | Some r, None, Some k =>
              let pending := _pending_others w c in
              let warnings := retry_warnings w k now in
              if negb (pending =? resume_pending) then
                Raise ValueError ("Retrying resumes the campaign, which also offers its " +:+ py_str pending +:+ " other pending deployment(s); review and confirm that number.")
              else if negb (bool_decide (warnings = [])) && negb override then
                Raise ValueError ("ESP stability warnings need the owner's override: " +:+ warning_text warnings)
              else if negb (bool_decide (warnings = [])) && negb (bool_decide (digest = Some (warnings_digest warnings))) then
                Raise ValueError "The ESP stability warnings changed since they were reviewed; review them again."
              else
                a ← insert_deployment w (c_id c) r k now;
                let kind := retry_kind d in
                let text := strip (default "" reason) in
                let details := PDict [("retry_of", PStr (d_deployment_id d)); ("classification", opt_str kind); ("actor", PStr actor);
                  ("reason", PStr (if bool_decide (text = "") then ONE_CLICK_RETRY else text));
                  ("interrupted_boots", PInt (_retry_count a.1 d (default "" kind)).1);
                  ("stability_warnings_overridden", PList (map warning_row warnings)); ("resumed_pending_deployments", PInt pending);
                  ("esp_state", esp_state w k)] in
                Ok (update_campaign (c_id c) (set_campaign_status ACTIVE None now) (add_event (d_id a.2) RETRY_REQUESTED details now a.1), a.2)
          end
      end
  end.
End campaigns.
