(* ===== verification/OtaHistory.v ===== *)
(** * Closing, archiving and clearing campaigns (firmware_campaigns.py)

    [create_for_zones] starts one campaign per zone, each in its own savepoint;
    [archive_campaign] hides a finished campaign; [clear_history] completes or cancels what
    is live, then deletes the closed campaigns that no check can read and archives the
    rest. [deletable] is the fixpoint that decides which those are. *)
From S2P Require Import Prelude PyText Hashes PyJson QueueEvidence RuntimeContract DeviceHealth ReleaseScope ReleaseContract OtaModel OtaReaders OtaTargets OtaProgress OtaDownload OtaStore OtaInterruption OtaAssignment OtaReturn OtaScope OtaCampaign.
Open Scope string_scope.
Open Scope list_scope.
Open Scope Z_scope.

Definition BULK_ZONE_LIMIT : Z := 30.
Definition MID_INSTALL_STATES : list deployment_state := [VERIFYING; READY_TO_BOOT; BOOTED_PENDING; RECONCILING].
Definition MID_INSTALL_FRESH : Z := 6 * 3600 * SECOND.
Definition NEVER_OFFERED_STATES : list deployment_state := [PENDING; CANCELLED; SUPERSEDED; RELEASE_REVOKED].
Definition DISPOSABLE_EVENTS : list string := [STABILITY_WARNINGS_OVERRIDDEN; RETRY_REQUESTED].
Definition WRITER_HISTORY_VERSIONS : list string := ["2.7.0"].
Definition HISTORY_LIMIT : nat := 2000.
Definition CLEAR_REASON : string := "Cleared from firmware history".
Definition CLOSE_REASON : string := "Closed for a new one-click update".

Definition closed (c : FirmwareCampaign) : bool := bool_decide (c_status c ∈ [CAMPAIGN_CANCELLED; COMPLETED]).

(** ** Archiving *)
Definition set_archived (actor : string) (now : Z) (c : FirmwareCampaign) : FirmwareCampaign :=
  mkCampaign (c_id c) (c_campaign_id c) (c_release_id c) (c_zone_id c) (c_status c) (c_actor c) (c_idempotency_key c) (c_reason c)
    (c_typed_confirmation c) (c_eligible_count c) (c_legacy_skipped_count c) (c_pause_reason c) (c_created_at c) (c_updated_at c) (Some now) (Some actor).

Definition archive_campaign (w : fleet) (public_id actor : string) (now : Z) : res (fleet * bool) :=
  match List.find (λ c, bool_decide (c_campaign_id c = public_id)) (campaigns w) with
  | None => Raise LookupError "Firmware campaign not found."
  | Some c =>
      if negb (closed c) then
        Raise ValueError ("Only a cancelled or completed campaign can be archived; this one is " +:+ lower (campaign_text (c_status c)) +:+ ".")
      else match c_archived_at c with
           | Some _ => Ok (w, false)
           | None => Ok (update_campaign (c_id c) (set_archived actor now) w, true)
           end
  end.

Definition unarchived (c : FirmwareCampaign) : bool := closed c && bool_decide (c_archived_at c = None).
Definition archive_closed (w : fleet) (actor : string) (now : Z) : fleet * list string :=
  (set_campaigns (map (λ c, if unarchived c then set_archived actor now c else c) (campaigns w)) w,
   map c_campaign_id (List.filter unarchived (campaigns w))).

(** ** Which closed campaigns may be deleted *)
Definition by_campaign (w : fleet) (campaign : Z) : list FirmwareDeployment := List.filter (λ d, d_campaign_id d =? campaign) (deployments w).

Definition never_offered (d : FirmwareDeployment) : bool :=
  bool_decide (d_offered_at d = None) && bool_decide (d_status d ∈ NEVER_OFFERED_STATES) && (d_bytes_written d =? 0) && (d_attempt_count d =? 0)
  && negb (bool_decide (d_target_version d ∈ WRITER_HISTORY_VERSIONS)).

(** No grant, no HIL run, only disposable events. *)
Definition unreferenced (w : fleet) (d : FirmwareDeployment) : bool :=
  bool_decide (grants_of w (d_id d) = []) && negb (bool_decide (d_id d ∈ hil_run_deployments w))
  && forallb (λ e, bool_decide (e_state e ∈ DISPOSABLE_EVENTS)) (events_of w (d_id d)).

Definition candidate (w : fleet) (campaign : Z) : bool := forallb (λ d, never_offered d && unreferenced w d) (by_campaign w campaign).

(** The campaigns in the history of a board. *)
Definition history (w : fleet) (board : Z) : list Z := map d_campaign_id (List.filter (λ d, d_connector_id d =? board) (deployments w)).

(** Every board of the campaign has its whole history among the candidates. *)
Definition settled_in (w : fleet) (candidates : list Z) (campaign : Z) : bool :=
  forallb (λ d, forallb (λ c, bool_decide (c ∈ candidates)) (history w (d_connector_id d))) (by_campaign w campaign).

(** One pass of the loop, over the candidates as they were when it began. *)
Definition discard (x : Z) (l : list Z) : list Z := List.filter (λ y, negb (y =? x)) l.
Definition sweep (w : fleet) (candidates : list Z) : list Z :=
  fold_left (λ cs c, if settled_in w cs c then cs else discard c cs) (sort_by (λ c, c) candidates) candidates.

(** [while changed]; [fuel] bounds the passes. *)
Fixpoint shrink (fuel : nat) (w : fleet) (candidates : list Z) : list Z :=
  match fuel with
  | O => candidates
  | S fuel' =>
      let next := sweep w candidates in
      if (length next =? length candidates)%nat then next else shrink fuel' w next
  end.

Definition deletable (w : fleet) (closed_campaigns : list FirmwareCampaign) : list Z :=
  let candidates := List.filter (candidate w) (map c_id closed_campaigns) in shrink (S (length candidates)) w candidates.

(** Events, deployments, then the campaigns that are still closed. *)
Definition delete_campaigns (w : fleet) (ids : list Z) : fleet :=
  let gone := List.filter (λ d, bool_decide (d_campaign_id d ∈ ids)) (deployments w) in
  mkFleet (releases w) (List.filter (λ c, negb (bool_decide (c_id c ∈ ids) && closed c)) (campaigns w))
    (List.filter (λ d, negb (bool_decide (d_campaign_id d ∈ ids))) (deployments w))
    (List.filter (λ e, negb (bool_decide (e_deployment_id e ∈ map d_id gone))) (firmware_events w))
    (grants w) (hil_run_deployments w) (boards w) (telemetry w) (next_id w).

Section history.
Context `{OtaPlatform} `{ReturnPlatform} `{ScopePlatform}.

(** ** Clearing *)
Record cleared := mkCleared { cl_completed : list string; cl_cancelled : list string; cl_kept : list string; cl_busy : list string }.

Definition fresh_install (now : Z) (d : FirmwareDeployment) : bool :=
  bool_decide (d_status d ∈ MID_INSTALL_STATES) && (now - MID_INSTALL_FRESH <=? d_updated_at d).

(** One live campaign: completed, kept while a board is mid-install, or cancelled. A held row is left for the next call. *)
Definition clear_one (now : Z) (acc : fleet * cleared) (c0 : FirmwareCampaign) : res (fleet * cleared) :=
  let '(w, r) := acc in
  match campaign_of w (c_id c0) with
  | None => Ok acc
  | Some c =>
      let rows := by_campaign w (c_id c) in
      let name := c_campaign_id c in
      let succeeded := negb (bool_decide (rows = [])) && forallb (λ d, bool_decide (d_status d = SUCCEEDED)) rows in
      if succeeded && database_busy w c then Ok (w, mkCleared (cl_completed r) (cl_cancelled r) (cl_kept r) (cl_busy r ++ [name]))
      else
        let '(w1, finished) := if succeeded then complete_if_succeeded w (Some c) now else (w, false) in
        if finished then Ok (w1, mkCleared (cl_completed r ++ [name]) (cl_cancelled r) (cl_kept r) (cl_busy r))
        else if existsb (fresh_install now) rows then Ok (w, mkCleared (cl_completed r) (cl_cancelled r) (cl_kept r ++ [name]) (cl_busy r))
        else if database_busy w c then Ok (w, mkCleared (cl_completed r) (cl_cancelled r) (cl_kept r) (cl_busy r ++ [name]))
        else match control_campaign w name "cancel" (Some CLEAR_REASON) now with
             | Ok (w', _) => Ok (w', mkCleared (cl_completed r) (cl_cancelled r ++ [name]) (cl_kept r) (cl_busy r))
             | Raise e m => if is_value_error e then Ok (w, r) else Raise e m
             end
  end.

Definition remove_closed (w : fleet) (actor : string) (now : Z) : fleet :=
  let rows := take HISTORY_LIMIT (List.filter unarchived (campaigns w)) in
  let removable := deletable w rows in
  let w := delete_campaigns w removable in
  let kept := List.filter (λ i, negb (bool_decide (i ∈ removable))) (map c_id rows) in
  set_campaigns (map (λ c, if bool_decide (c_id c ∈ kept) && bool_decide (c_archived_at c = None) then set_archived actor now c else c) (campaigns w)) w.

Definition clear_history (w : fleet) (actor : string) (now : Z) : res (fleet * cleared) :=
  a ← foldR (clear_one now) (take HISTORY_LIMIT (List.filter live (campaigns w))) (w, mkCleared [] [] [] []);
  Ok (remove_closed a.1 actor now, a.2).

(** ** Several zones at once *)
Definition zone_idempotency_key (key zone_id : string) : string :=
  "bulk:" +:+ prefix_chars 56 (sha256_hex (chars key ++ [x0a] ++ chars zone_id)).

Definition free_zone_step (now : Z) (zone_id : string) (w : fleet) (c0 : FirmwareCampaign) : res fleet :=
  match campaign_of w (c_id c0) with
  | None => Ok w
  | Some c =>
      let statuses := statuses_of w (c_id c) in
      let running := List.filter (λ s, negb (terminal_state s)) statuses in
      if negb (bool_decide (running = [])) then
        Raise ZoneBusy ("Zone " +:+ zone_id +:+ " already runs campaign " +:+ c_campaign_id c +:+ " (" +:+ py_str (zlen running) +:+ " device"
                        +:+ (if zlen running =? 1 then "" else "s") +:+ " queued or updating).")
      else
        let '(w1, finished) := if bool_decide (statuses = []) then (w, false) else complete_if_succeeded w (Some c) now in
        if finished then Ok w1 else a ← control_campaign w (c_campaign_id c) "cancel" (Some CLOSE_REASON) now; Ok a.1
  end.
Definition _free_zone (w : fleet) (zone_id : string) (now : Z) : res fleet :=
  foldR (free_zone_step now zone_id) (List.filter (λ c, bool_decide (c_zone_id c = zone_id) && live c) (campaigns w)) w.

Definition _create_zone (w : fleet) (release_public_id zone_id actor key : string) (now : Z) : res (fleet * FirmwareCampaign) :=
  match replayed w actor key with
  | Some c => if replay_matches w c release_public_id zone_id then Ok (w, c)
              else Raise ValueError "That idempotency key belongs to another firmware campaign."
  | None =>
      w1 ← _free_zone w zone_id now;
      preview ← preview_campaign_scope w1 release_public_id zone_id now;
      let '(w1, token, scope) := preview in
      let r := sc_release scope in
      let eligible := sc_eligible scope in
      let reasons := map snd (sc_excluded scope) in
      if bool_decide (eligible = []) then
        Raise ValueError ("No device in this zone is eligible for this release"
          +:+ if bool_decide (reasons = []) then "." else " (" +:+ join_str ", " (sorted_strs (remove_dups reasons)) +:+ ").")
      else
        let warnings := concat (map (λ k, campaign_warnings w1 k r now) eligible) in
        let flagged := negb (bool_decide (warnings = [])) in
        create_campaign w1 release_public_id zone_id actor token key (Some ONE_CLICK_REASON) flagged
          (if flagged then Some (warnings_digest warnings) else None) now
  end.

(** A zone's outcome: the campaign, or why it was refused; a refusal rolls back its savepoint. *)
Definition zone_result (w : fleet) (release_public_id actor key : string) (now : Z) (zone_id : string) : res (fleet * (string * option string * option string)) :=
  match _create_zone w release_public_id zone_id actor (zone_idempotency_key key zone_id) now with
  | Ok (w', c) => Ok (w', ("CREATED", Some (c_campaign_id c), None))
  | Raise ZoneBusy m => Ok (w, ("BUSY", None, Some m))
  | Raise IntegrityError _ => Ok (w, ("BUSY", None, Some ("Another firmware campaign started in zone " +:+ zone_id +:+ " meanwhile.")))
  | Raise e m => if is_value_error e || bool_decide (e = RuntimeError) then Ok (w, ("BLOCKED", None, Some m)) else Raise e m
  end.

Definition create_for_zones (w : fleet) (release_public_id : string) (zone_ids : list string) (actor key : string) (now : Z)
    : res (fleet * list (string * (string * option string * option string))) :=
  if (zlen zone_ids <? 1) || (BULK_ZONE_LIMIT <? zlen zone_ids) || negb (bool_decide (NoDup zone_ids)) then
    Raise ValueError ("Choose 1 to " +:+ py_str BULK_ZONE_LIMIT +:+ " distinct zones.")
  else
    foldR (λ acc zone, r ← zone_result acc.1 release_public_id actor key now zone; Ok (r.1, acc.2 ++ [(zone, r.2)])) zone_ids (w, []).
End history.
