(* ===== verification/OtaMoves.v ===== *)
(** * The rollout as moves on its tables

    Every handler of the rollout is a sequence of the moves below (shown in OtaSystem.v).
    [fleet_ok] is the invariant of the tables; every move keeps it. *)
From S2P Require Import Prelude PyText Hashes PyJson QueueEvidence RuntimeContract DeviceHealth ReleaseScope ReleaseContract OtaModel OtaReaders OtaTargets OtaProgress OtaDownload OtaStore OtaInterruption OtaAssignment OtaReturn OtaScope OtaCampaign OtaHistory.
Open Scope string_scope.
Open Scope list_scope.
Open Scope Z_scope.

(** ** The invariant *)
Definition whole_image (s : deployment_state) : bool := bool_decide (s ∈ [READY_TO_BOOT; BOOTED_PENDING; RECONCILING; SUCCEEDED]).

(** A stored report of state [s]: the complete signed image ran, from an OTA slot, under the target's version. *)
Definition checked_report (r : FirmwareRelease) (d : FirmwareDeployment) (s : deployment_state) (e : FirmwareEvent) : Prop :=
  e_deployment_id e = d_id d ∧ e_state e = state_text s ∧ checked_boot d r e = true ∧ get "bytes_written" (e_details e) = PInt (r_image_size r).

(** The reports behind a booted state, oldest first. *)
Definition boot_evidence (es : list FirmwareEvent) (r : FirmwareRelease) (d : FirmwareDeployment) : Prop :=
  match d_status d with
  | BOOTED_PENDING => ∃ a, a ∈ es ∧ checked_report r d BOOTED_PENDING a
  | RECONCILING => ∃ a b, a ∈ es ∧ b ∈ es ∧ e_id a < e_id b ∧ checked_report r d BOOTED_PENDING a ∧ checked_report r d RECONCILING b
  | SUCCEEDED => ∃ a b c, a ∈ es ∧ b ∈ es ∧ c ∈ es ∧ e_id a < e_id b < e_id c ∧ checked_report r d BOOTED_PENDING a
                   ∧ checked_report r d RECONCILING b ∧ checked_report r d SUCCEEDED c
  | _ => True
  end.

(** At most three stops; while the row may still be downloaded at most two, and none before its first offer. *)
Definition stop_bound (s : deployment_state) : Z := match s with PENDING => 0 | OFFERED | DOWNLOADING => 2 | _ => 3 end.

Record deployment_ok (w : fleet) (d : FirmwareDeployment) : Prop := mkDeploymentOk {
  ok_release : ∃ r, release_of w (d_release_id d) = Some r ∧ 0 <= d_bytes_written d <= r_image_size r
    ∧ (whole_image (d_status d) = true → d_bytes_written d = r_image_size r) ∧ boot_evidence (firmware_events w) r d;
  ok_campaign : d_campaign_id d ∈ map c_id (campaigns w);
  ok_fresh : d_id d < next_id w;
  ok_stops : zlen (_interruptions w d) <= stop_bound (d_status d) }.

Definition campaign_ok (w : fleet) (c : FirmwareCampaign) : Prop :=
  c_id c < next_id w ∧
  match c_status c with
  | COMPLETED => statuses_of w (c_id c) ≠ [] ∧ (∀ d, d ∈ deployments w → d_campaign_id d = c_id c → d_status d = SUCCEEDED)
  | CAMPAIGN_CANCELLED => ∀ d, d ∈ deployments w → d_campaign_id d = c_id c → cancellable (d_status d) = false
  | _ => True
  end.

Record fleet_ok (w : fleet) : Prop := mkFleetOk {
  f_deployments : NoDup (map d_id (deployments w));
  f_public : NoDup (map d_deployment_id (deployments w));
  f_campaigns : NoDup (map c_id (campaigns w));
  f_events : ∀ e, e ∈ firmware_events w → e_id e < next_id w ∧ e_deployment_id e < next_id w;
  f_sizes : ∀ r, r ∈ releases w → 0 <= r_image_size r;
  f_rows : ∀ d, d ∈ deployments w → deployment_ok w d;
  f_status : ∀ c, c ∈ campaigns w → campaign_ok w c;
  f_one_active : ∀ d o, d ∈ deployments w → o ∈ deployments w → d_campaign_id d = d_campaign_id o →
    active_state (d_status d) = true → active_state (d_status o) = true → d = o;
  f_one_live : ∀ c o, c ∈ campaigns w → o ∈ campaigns w → c_zone_id c = c_zone_id o → live c = true → live o = true → c = o }.

(** ** The moves *)
(** A release row keeps what a deployment was checked against. *)
Definition release_kept (r r' : FirmwareRelease) : Prop :=
  r_version r' = r_version r ∧ r_image_size r' = r_image_size r
  ∧ (∀ digest, _application_sha256 r = Some digest → _application_sha256 r' = Some digest).
Definition releases_kept (rs rs' : list FirmwareRelease) : Prop :=
  (∀ i r, row_by r_id i rs = Some r → ∃ r', row_by r_id i rs' = Some r' ∧ release_kept r r') ∧ (∀ r, r ∈ rs' → 0 <= r_image_size r).

(** The columns of a deployment that its lifecycle depends on. *)
Definition same_core (d d' : FirmwareDeployment) : Prop :=
  d_id d' = d_id d ∧ d_deployment_id d' = d_deployment_id d ∧ d_campaign_id d' = d_campaign_id d ∧ d_release_id d' = d_release_id d
  ∧ d_connector_id d' = d_connector_id d ∧ d_target_version d' = d_target_version d ∧ d_previous_version d' = d_previous_version d.
Definition touches (f : FirmwareDeployment → FirmwareDeployment) : Prop :=
  ∀ d, same_core d (f d) ∧ d_status (f d) = d_status d ∧ d_bytes_written (f d) = d_bytes_written d.
Definition same_campaign (c c' : FirmwareCampaign) : Prop :=
  c_id c' = c_id c ∧ c_zone_id c' = c_zone_id c ∧ c_release_id c' = c_release_id c ∧ c_campaign_id c' = c_campaign_id c.
(** A latched storage floor stays latched. *)
Definition floors_kept (ks ks' : list Connector) : Prop :=
  ∀ i k, row_by k_id i ks = Some k → k_ota_floor_latched_at k ≠ None → ∃ k', row_by k_id i ks' = Some k' ∧ k_ota_floor_latched_at k' ≠ None.

Definition allowed (d : FirmwareDeployment) (st : deployment_state) (code : option string) : Prop :=
  st ∈ DEPLOYMENT_TRANSITIONS (d_status d) ∨ failed_boot_return d st code = true.

(** A checked report: the row advances and its event is stored. *)
Definition advance (d : FirmwareDeployment) (st : deployment_state) (p : progress) (recovery : option (list (string * pyval))) (now : Z) (w : fleet) : fleet :=
  add_event (d_id d) (state_text st) (progress_details d p recovery) now (update_deployment (d_id d) (progressed st p now) w).
Record may_advance (w : fleet) (d : FirmwareDeployment) (st : deployment_state) (p : progress) : Prop := mkMayAdvance {
  ma_row : d ∈ deployments w;
  ma_pending : d_status d ≠ PENDING;
  ma_allowed : allowed d st (p_error_code p);
  ma_details : booted st = true → p_event_details p = [];
  ma_checked : ∃ r, release_of w (d_release_id d) = Some r ∧ check_progress d r st p = Ok tt }.

Definition set_world (ks : list Connector) (ts : list DeviceTelemetry) (runs : list Z) (next : Z) (w : fleet) : fleet :=
  mkFleet (releases w) (campaigns w) (deployments w) (firmware_events w) (grants w) runs ks ts next.

Inductive move (w : fleet) : fleet → Prop :=
  | mv_advance d st p recovery now : may_advance w d st p → move w (advance d st p recovery now w)
  | mv_offer d details now : d ∈ deployments w → d_status d = PENDING →
      (∃ c, c ∈ campaigns w ∧ c_id c = d_campaign_id d ∧ c_status c = ACTIVE) →
      (∀ o, o ∈ deployments w → d_campaign_id o = d_campaign_id d → active_state (d_status o) = false) →
      move w (add_event (d_id d) "OFFERED" details now (update_deployment (d_id d) (set_offered now) w))
  | mv_event i s details now : i < next_id w → s ≠ DOWNLOAD_INTERRUPTED → move w (add_event i s details now w)
  | mv_stop d f details now : d ∈ deployments w → downloading d = true → zlen (_interruptions w d) + 1 < 3 → touches f →
      move w (update_deployment (d_id d) f (add_event (d_id d) DOWNLOAD_INTERRUPTED details now w))
  | mv_exhausted d p recovery details now : d ∈ deployments w → downloading d = true → may_advance w d FAILED p →
      move w (advance d FAILED p recovery now (add_event (d_id d) DOWNLOAD_INTERRUPTED details now w))
  | mv_touch i f : touches f → move w (update_deployment i f w)
  | mv_grant hash i k expires now : move w (add_grant hash i k expires now w)
  | mv_live i f : (∀ c, same_campaign c (f c)) → (∀ c, c ∈ campaigns w → c_id c = i → live c = true ∧ live (f c) = true) →
      move w (update_campaign i f w)
  | mv_complete c now : c ∈ campaigns w → live c = true → statuses_of w (c_id c) ≠ [] →
      (∀ d, d ∈ deployments w → d_campaign_id d = c_id c → d_status d = SUCCEEDED) →
      move w (update_campaign (c_id c) (set_campaign_status COMPLETED None now) w)
  | mv_cancel c reason now : c ∈ campaigns w → live c = true →
      move w (cancel_deployments (c_id c) (update_campaign (c_id c) (set_campaign_status CAMPAIGN_CANCELLED reason now) w))
  | mv_annotate g : (∀ c, same_campaign c (g c) ∧ c_status (g c) = c_status c) → move w (set_campaigns (map g (campaigns w)) w)
  | mv_campaign c : c_id c = next_id w → c_status c = ACTIVE →
      (∀ o, o ∈ campaigns w → c_zone_id o = c_zone_id c → live o = false) → move w (add_campaign c w)
  | mv_deployment d : d_id d = next_id w → d_status d = PENDING → d_bytes_written d = 0 →
      d_deployment_id d ∉ map d_deployment_id (deployments w) → (∃ r, release_of w (d_release_id d) = Some r) →
      (∃ c, c ∈ campaigns w ∧ c_id c = d_campaign_id d ∧ live c = true) → move w (add_deployment d w)
  | mv_releases rs : releases_kept (releases w) rs → move w (set_releases rs w)
  | mv_delete ids : (∀ i, i ∈ ids → ∃ c, c ∈ campaigns w ∧ c_id c = i ∧ closed c = true) → move w (delete_campaigns w ids)
  | mv_grant_used i f : (∀ g, g_id (f g) = g_id g ∧ g_deployment_id (f g) = g_deployment_id g ∧ g_created_at (f g) = g_created_at g) →
      move w (update_grant i f w)
  | mv_world ks ts runs next : floors_kept (boards w) ks → next_id w <= next → move w (set_world ks ts runs next w).

Definition moves : fleet → fleet → Prop := rtc move.

(** ** Tables that only gain rows or keep what matters *)
Lemma elem_update_self {A} (key : A → Z) f l a : NoDup (map key l) → a ∈ l → (∀ b, key (f b) = key b) → f a ∈ update_by key (key a) f l.
Proof. intros _ Ha _. pose proof (elem_of_update_by_2 key (key a) f l a Ha) as H. by rewrite Z.eqb_refl in H. Qed.

(** The row updated by its own id is the only one that changes. *)
Lemma elem_update_unique {A} (key : A → Z) f l a b :
  NoDup (map key l) → a ∈ l → b ∈ update_by key (key a) f l → (b ∈ l ∧ key b ≠ key a) ∨ b = f a.
Proof.
  intros Hn Ha [[Hb Hne]|(o & Ho & Hk & ->)]%elem_of_update_by; [by left|]. right. f_equal. by eapply (NoDup_map_inj key).
Qed.

Lemma filter_app_ev {A} (p : A → bool) l x : List.filter p (l ++ [x]) = List.filter p l ++ (if p x then [x] else []).
Proof. rewrite List.filter_app. simpl. by destruct (p x). Qed.

Lemma events_in_add w i s details now j states :
  events_in (add_event i s details now w) j states
  = events_in w j states ++ (if (i =? j) && bool_decide (s ∈ states) then [mkEvent (next_id w) i s details now] else []).
Proof.
  unfold events_in, events_of. simpl. rewrite filter_app_ev. simpl. destruct (i =? j); simpl; [|by rewrite !app_nil_r].
  rewrite filter_app_ev. simpl. by destruct (bool_decide _).
Qed.

Lemma interruptions_add w i s details now d :
  zlen (_interruptions (add_event i s details now w) d)
  = zlen (_interruptions w d) + (if (i =? d_id d) && bool_decide (s = DOWNLOAD_INTERRUPTED) then 1 else 0).
Proof.
  unfold _interruptions, zlen. rewrite events_in_add, length_app.
  rewrite (bool_decide_ext (s ∈ [DOWNLOAD_INTERRUPTED]) (s = DOWNLOAD_INTERRUPTED)) by apply list_elem_of_singleton.
  destruct ((i =? d_id d) && bool_decide (s = DOWNLOAD_INTERRUPTED)); simpl; lia.
Qed.

(** ** Rows that keep their invariant *)
Lemma checked_report_keep r r' d d' s e :
  release_kept r r' → same_core d d' → checked_report r d s e → checked_report r' d' s e.
Proof.
  intros (_ & Hsz & Hsha) (Hid & _ & _ & _ & _ & Htv & _) (H1 & H2 & H3 & H4). unfold checked_report, checked_boot in *.
  destruct (_application_sha256 r) as [digest|]; [|done]. rewrite (Hsha _ eq_refl), Hsz, Hid, Htv. done.
Qed.

Lemma boot_evidence_keep es es' r r' d d' :
  release_kept r r' → same_core d d' → d_status d' = d_status d →
  (∀ e, e ∈ es → e_deployment_id e = d_id d → e ∈ es') → boot_evidence es r d → boot_evidence es' r' d'.
Proof.
  intros Hr Hd Hs He. unfold boot_evidence. rewrite Hs.
  assert (∀ s e, checked_report r d s e → checked_report r' d' s e) as K by (intros; by eapply checked_report_keep).
  assert (∀ s e, checked_report r d s e → e ∈ es → e ∈ es') as K' by (intros s e (? & _) ?; auto).
  destruct (d_status d); try done.
  - intros (a & Ha & Ca). exists a. eauto.
  - intros (a & b & Ha & Hb & Hlt & Ca & Cb). exists a, b. split_and!; eauto.
  - intros (a & b & c & Ha & Hb & Hc & Hlt & Ca & Cb & Cc). exists a, b, c. split_and!; eauto; lia.
Qed.

Lemma release_kept_refl r : release_kept r r.
Proof. done. Qed.
Lemma same_core_refl d : same_core d d.
Proof. done. Qed.
#[export] Hint Resolve release_kept_refl same_core_refl : dev.

(** What a table change may do around a row without breaking it. *)
Record row_frame (w w' : fleet) (d d' : FirmwareDeployment) : Prop := mkRowFrame {
  rf_core : same_core d d';
  rf_status : d_status d' = d_status d;
  rf_bytes : d_bytes_written d' = d_bytes_written d;
  rf_release : ∀ r, release_of w (d_release_id d) = Some r → ∃ r', release_of w' (d_release_id d) = Some r' ∧ release_kept r r';
  rf_campaign : d_campaign_id d ∈ map c_id (campaigns w) → d_campaign_id d ∈ map c_id (campaigns w');
  rf_events : ∀ e, e ∈ firmware_events w → e_deployment_id e = d_id d → e ∈ firmware_events w';
  rf_next : next_id w <= next_id w';
  rf_stops : zlen (_interruptions w' d') <= Z.max (zlen (_interruptions w d)) (stop_bound (d_status d)) }.

Lemma deployment_ok_keep w w' d d' : row_frame w w' d d' → deployment_ok w d → deployment_ok w' d'.
Proof.
  intros [Hcore Hst Hb Hrel Hcam Hev Hnx Hstop] [(r & Hr & Hby & Hwhole & Hboot) Hc Hf Hs].
  destruct (Hrel r Hr) as (r' & Hr' & Hk). pose proof Hcore as (Hid & _ & Hcid & Hrid & _). pose proof Hk as (_ & Hsz & _).
  constructor.
  - exists r'. rewrite Hrid, Hst, Hb, Hsz. split_and!; try done; try lia. by eapply boot_evidence_keep.
  - rewrite Hcid. auto.
  - lia.
  - rewrite Hst. lia.
Qed.

Lemma next_add_event i s details now w : next_id (add_event i s details now w) = next_id w + 1.
Proof. done. Qed.

(** A change outside the deployments, events and releases is a frame for every row. *)
Lemma plain_frame w w' d :
  releases w' = releases w → firmware_events w' = firmware_events w → next_id w <= next_id w' →
  (d_campaign_id d ∈ map c_id (campaigns w) → d_campaign_id d ∈ map c_id (campaigns w')) → row_frame w w' d d.
Proof.
  intros Hr He Hn Hc. constructor; try done; eauto with dev.
  - intros r H. exists r. unfold release_of in *. rewrite Hr. auto with dev.
  - rewrite He. auto.
  - unfold _interruptions, events_in, events_of. rewrite He. lia.
Qed.

(** Touching a row, or adding an event that is no stop, frames every row. *)
Lemma touch_frame w i f d : touches f → row_frame w (update_deployment i f w) d (if d_id d =? i then f d else d).
Proof.
  intros Hf. destruct (Hf d) as (Hc & Hs & Hb). destruct (d_id d =? i); [|by apply plain_frame].
  constructor; try done; eauto with dev.
  - unfold _interruptions. destruct Hc as (-> & _). unfold events_in, events_of. simpl. lia.
Qed.

Lemma event_frame w i s details now d :
  s ≠ DOWNLOAD_INTERRUPTED ∨ i ≠ d_id d → row_frame w (add_event i s details now w) d d.
Proof.
  intros Hs. constructor; try done; eauto with dev.
  - intros e He _. simpl. apply elem_of_app. by left.
  - simpl. lia.
  - rewrite interruptions_add. destruct Hs as [Hs|Hs].
    + rewrite (bool_decide_eq_false_2 _ Hs), andb_false_r. lia.
    + rewrite (proj2 (Z.eqb_neq _ _) Hs). simpl. lia.
Qed.

(** Frames compose. *)
Lemma row_frame_trans w1 w2 w3 d1 d2 d3 : row_frame w1 w2 d1 d2 → row_frame w2 w3 d2 d3 → row_frame w1 w3 d1 d3.
Proof.
  intros [C1 S1 B1 R1 M1 E1 N1 I1] [C2 S2 B2 R2 M2 E2 N2 I2].
  pose proof C1 as (a1 & a2 & a3 & a4 & a5 & a6 & a7). pose proof C2 as (b1 & b2 & b3 & b4 & b5 & b6 & b7).
  rewrite a3 in M2. rewrite a4 in R2. rewrite a1 in E2. constructor.
  - unfold same_core. split_and!; congruence.
  - congruence.
  - congruence.
  - intros r Hr. destruct (R1 r Hr) as (r' & Hr' & K1). destruct (R2 r' Hr') as (r'' & Hr'' & K2). exists r''. split; [done|].
    destruct K1 as (? & ? & ?), K2 as (? & ? & ?). unfold release_kept. split_and!; [congruence..|auto].
  - auto.
  - intros e He Hd. apply E2; [by apply E1|congruence].
  - lia.
  - rewrite S1 in I2. lia.
Qed.

(** ** Moves that rewrite rows in place *)
Lemma fleet_ok_map w w' g h :
  fleet_ok w → deployments w' = map g (deployments w) → campaigns w' = map h (campaigns w) →
  (∀ d, same_core d (g d)) → (∀ c, same_campaign c (h c)) →
  (∀ e, e ∈ firmware_events w' → e_id e < next_id w' ∧ e_deployment_id e < next_id w') →
  (∀ r, r ∈ releases w' → 0 <= r_image_size r) →
  (∀ d, d ∈ deployments w → deployment_ok w' (g d)) →
  (∀ c, c ∈ campaigns w → campaign_ok w' (h c)) →
  (∀ d o, d ∈ deployments w → o ∈ deployments w → d_campaign_id d = d_campaign_id o →
     active_state (d_status (g d)) = true → active_state (d_status (g o)) = true → d = o) →
  (∀ c, c ∈ campaigns w → live (h c) = true → live c = true) → fleet_ok w'.
Proof.
  intros Hok Hd Hc Hg Hh He Hs Hrow Hcam Hact Hlive. constructor; rewrite ?Hd, ?Hc.
  - rewrite map_map. rewrite (map_ext _ d_id); [apply Hok|]. intros a. apply Hg.
  - rewrite map_map. rewrite (map_ext _ d_deployment_id); [apply Hok|]. intros a. apply Hg.
  - rewrite map_map. rewrite (map_ext _ c_id); [apply Hok|]. intros a. apply Hh.
  - done.
  - done.
  - intros d (a & -> & Ha)%list_elem_of_fmap. auto.
  - intros c (a & -> & Ha)%list_elem_of_fmap. auto.
  - intros d o (a & -> & Ha)%list_elem_of_fmap (b & -> & Hb)%list_elem_of_fmap Heq H1 H2. f_equal. apply Hact; try done.
    destruct (Hg a) as (_ & _ & E1 & _), (Hg b) as (_ & _ & E2 & _). congruence.
  - intros c o (a & -> & Ha)%list_elem_of_fmap (b & -> & Hb)%list_elem_of_fmap Heq H1 H2. f_equal.
    apply (f_one_live _ Hok); auto. destruct (Hh a) as (_ & E1 & _), (Hh b) as (_ & E2 & _). congruence.
Qed.

(** A campaign stays well formed while its deployments keep their places and succeeded and closed ones their state. *)
Lemma campaign_ok_map w w' g h c :
  deployments w' = map g (deployments w) → (∀ d, same_core d (g d)) → same_campaign c (h c) → c_status (h c) = c_status c →
  next_id w <= next_id w' →
  (∀ d, d ∈ deployments w → d_campaign_id d = c_id c → d_status d = SUCCEEDED → c_status c = COMPLETED → d_status (g d) = SUCCEEDED) →
  (∀ d, d ∈ deployments w → d_campaign_id d = c_id c → cancellable (d_status (g d)) = true → cancellable (d_status d) = true) →
  campaign_ok w c → campaign_ok w' (h c).
Proof.
  intros Hd Hg (Hid & _) Hst Hn Hsucc Hcan [Hf Hc]. split; [rewrite Hid; lia|]. rewrite Hst, Hid.
  assert (∀ d, d ∈ deployments w' → ∃ a, a ∈ deployments w ∧ d = g a ∧ d_campaign_id a = d_campaign_id d) as Hin.
  { intros d. rewrite Hd. intros (a & -> & Ha)%list_elem_of_fmap. exists a. split_and!; [done..|]. destruct (Hg a) as (_ & _ & E & _). done. }
  destruct (c_status c) eqn:Ec; try done.
  - intros d (a & Ha & -> & Ea)%Hin Hda. destruct (cancellable (d_status (g a))) eqn:E; [|done].
    apply Hcan in E; [|done|congruence]. by rewrite Hc in E by (done || congruence).
  - destruct Hc as [Hne Hall]. split.
    + unfold statuses_of in *. rewrite Hd. intros H0. apply Hne.
      destruct (List.filter _ (deployments w)) as [|a l] eqn:E; [done|]. exfalso.
      assert (a ∈ List.filter (λ d, d_campaign_id d =? c_id c) (deployments w)) as Ha by (rewrite E; left).
      apply list_elem_of_In, List.filter_In in Ha as [Ha Hk]. apply map_eq_nil in H0.
      assert (g a ∈ List.filter (λ d, d_campaign_id d =? c_id c) (map g (deployments w))) as Hga.
      { apply list_elem_of_In, List.filter_In. split; [apply in_map, Ha|]. destruct (Hg a) as (_ & _ & -> & _). done. }
      rewrite H0 in Hga. by apply elem_of_nil in Hga.
    + intros d (a & Ha & -> & Ea)%Hin Hda. apply Hsucc; auto; try congruence. apply Hall; congruence.
Qed.

Lemma map_id_eq {A} (l : list A) : l = map (λ a, a) l.
Proof. symmetry. apply map_id. Qed.

(** Moves that change no deployment's state and no campaign's status. *)
Lemma fleet_ok_quiet w w' g h :
  fleet_ok w → deployments w' = map g (deployments w) → campaigns w' = map h (campaigns w) →
  (∀ d, same_core d (g d)) → (∀ c, same_campaign c (h c)) → (∀ c, c ∈ campaigns w → c_status (h c) = c_status c) →
  (∀ e, e ∈ firmware_events w' → e_id e < next_id w' ∧ e_deployment_id e < next_id w') →
  (∀ r, r ∈ releases w' → 0 <= r_image_size r) → next_id w <= next_id w' →
  (∀ d, d ∈ deployments w → row_frame w w' d (g d)) → fleet_ok w'.
Proof.
  intros Hok Hd Hc Hg Hh Hst He Hs Hn Hf. eapply fleet_ok_map; try done.
  - intros d Hin. eapply deployment_ok_keep; [by apply Hf|]. by apply Hok.
  - intros c Hin. eapply campaign_ok_map; try done; try (by apply Hok); auto.
    + intros d Hd' _ H1 _. by rewrite (rf_status _ _ _ _ (Hf d Hd')).
    + intros d Hd' _. by rewrite (rf_status _ _ _ _ (Hf d Hd')).
  - intros d o Hd' Ho Heq. rewrite (rf_status _ _ _ _ (Hf d Hd')), (rf_status _ _ _ _ (Hf o Ho)). by apply Hok.
  - intros c Hin. unfold live. by rewrite Hst.
Qed.

Lemma same_campaign_refl c : same_campaign c c.
Proof. done. Qed.
#[export] Hint Resolve same_campaign_refl : dev.

Lemma events_bound_add w i s details now :
  fleet_ok w → i < next_id w → ∀ e, e ∈ firmware_events (add_event i s details now w) →
  e_id e < next_id (add_event i s details now w) ∧ e_deployment_id e < next_id (add_event i s details now w).
Proof.
  intros Hok Hi e. simpl. intros [He| ->%list_elem_of_singleton]%elem_of_app; simpl; [|lia].
  destruct (f_events _ Hok e He). lia.
Qed.

Lemma quiet_ok w w' :
  fleet_ok w → deployments w' = deployments w → campaigns w' = campaigns w → firmware_events w' = firmware_events w →
  releases w' = releases w → next_id w <= next_id w' → fleet_ok w'.
Proof.
  intros Hok Hd Hc He Hr Hn. eapply (fleet_ok_quiet w w' (λ d, d) (λ c, c)); auto with dev; rewrite ?Hd, ?Hc, ?He, ?Hr; try apply map_id_eq.
  - intros e Hin. destruct (f_events _ Hok e Hin). lia.
  - apply Hok.
  - intros d _. apply plain_frame; rewrite ?Hc; auto.
Qed.

Lemma event_ok w i s details now : fleet_ok w → i < next_id w → s ≠ DOWNLOAD_INTERRUPTED → fleet_ok (add_event i s details now w).
Proof.
  intros Hok Hi Hs. eapply (fleet_ok_quiet w _ (λ d, d) (λ c, c)); auto with dev; simpl; try apply map_id_eq; try lia.
  - by apply events_bound_add.
  - apply Hok.
  - intros d _. apply event_frame. by left.
Qed.

Definition at_id (i : Z) (f : FirmwareDeployment → FirmwareDeployment) (d : FirmwareDeployment) : FirmwareDeployment := if d_id d =? i then f d else d.

Lemma touch_ok w i f : fleet_ok w → touches f → fleet_ok (update_deployment i f w).
Proof.
  intros Hok Hf. eapply (fleet_ok_quiet w _ (at_id i f) (λ c, c)); auto with dev; simpl; try apply map_id_eq; try lia.
  - intros d. unfold at_id. destruct (_ =? _); [apply Hf|done].
  - apply Hok.
  - apply Hok.
  - intros d _. by apply touch_frame.
Qed.

Lemma annotate_ok w g : fleet_ok w → (∀ c, same_campaign c (g c) ∧ c_status (g c) = c_status c) → fleet_ok (set_campaigns (map g (campaigns w)) w).
Proof.
  intros Hok Hg. eapply (fleet_ok_quiet w _ (λ d, d) g); auto with dev; simpl; try apply map_id_eq; try lia; try apply Hok; try (intros; apply Hg).
  intros d _. apply plain_frame; simpl; auto; try lia. intros H.
  rewrite map_map, (map_ext (λ c, c_id (g c)) c_id); [done|]. intros c. apply Hg.
Qed.

Lemma releases_ok w rs : fleet_ok w → releases_kept (releases w) rs → fleet_ok (set_releases rs w).
Proof.
  intros Hok [Hk Hs]. eapply (fleet_ok_quiet w _ (λ d, d) (λ c, c)); auto with dev; simpl; try apply map_id_eq; try lia; try apply Hok.
  intros d _. constructor; try done; eauto with dev; simpl; try lia. unfold _interruptions, events_in, events_of. simpl. lia.
Qed.

(** ** Transitions *)
(** Facts about the table, by looking at every pair of states. *)
Ltac by_table H := match type of H with ?x ∈ ?l => apply (bool_decide_eq_true_2 (x ∈ l)) in H end.

Lemma allowed_inv d st code :
  allowed d st code → st ∈ DEPLOYMENT_TRANSITIONS (d_status d) ∨ (st = ROLLED_BACK ∧ d_status d ∈ [READY_TO_BOOT; BOOTED_PENDING; RECONCILING; FAILED]).
Proof.
  intros [H|H]; [by left|right]. unfold failed_boot_return in H. apply andb_true_iff in H as [H Hs]. bool_prop. split; [done|].
  apply orb_true_iff in Hs as [Hs|[Hs _]%andb_true_iff]; bool_prop; [set_solver|]. rewrite Hs. set_solver.
Qed.

Definition step_table (s st : deployment_state) : bool :=
  bool_decide (st ∈ DEPLOYMENT_TRANSITIONS s) || (bool_decide (st = ROLLED_BACK) && bool_decide (s ∈ [READY_TO_BOOT; BOOTED_PENDING; RECONCILING; FAILED])).
Lemma allowed_table d st code : allowed d st code → step_table (d_status d) st = true.
Proof. intros [H|[H1 H2]]%allowed_inv; unfold step_table; apply orb_true_iff; [left|right]; rewrite ?andb_true_iff, ?bool_decide_eq_true; auto. Qed.

(** What an allowed step of a row that was offered cannot do. *)
Definition table_facts (s st : deployment_state) : bool :=
  negb (step_table s st) || bool_decide (s = PENDING) ||
  ((negb (active_state st) || active_state s) && (negb (cancellable st) || cancellable s) && negb (bool_decide (s = SUCCEEDED))
   && negb (bool_decide (st = PENDING))
   && (stop_bound s <=? stop_bound st)
   && (negb (bool_decide (st = RECONCILING)) || bool_decide (s ∈ [BOOTED_PENDING; RECONCILING]))
   && (negb (bool_decide (st = SUCCEEDED)) || bool_decide (s = RECONCILING))).
Lemma table_facts_hold s st : table_facts s st = true.
Proof. by destruct s, st; vm_compute. Qed.

Lemma offered_step d st code :
  allowed d st code → d_status d ≠ PENDING →
  (active_state st = true → active_state (d_status d) = true) ∧ (cancellable st = true → cancellable (d_status d) = true)
  ∧ d_status d ≠ SUCCEEDED ∧ stop_bound (d_status d) <= stop_bound st
  ∧ (st = RECONCILING → d_status d ∈ [BOOTED_PENDING; RECONCILING]) ∧ (st = SUCCEEDED → d_status d = RECONCILING).
Proof.
  intros H%allowed_table Hp. pose proof (table_facts_hold (d_status d) st) as T. unfold table_facts in T. rewrite H in T.
  rewrite (bool_decide_eq_false_2 _ Hp) in T. simpl in T.
  repeat (apply andb_true_iff in T as [T ?]). bool_prop.
  repeat match goal with H : (negb ?a || _)%bool = true |- _ => apply orb_true_iff in H end.
  split_and!; try done; try lia; intros Hx;
    repeat match goal with H : _ ∨ _ |- _ => destruct H as [H|H] end; bool_prop; congruence || done.
Qed.

Lemma state_text_stop st : state_text st ≠ DOWNLOAD_INTERRUPTED.
Proof. by destruct st. Qed.

(** ** What a checked report carries *)
Lemma check_progress_inv d r st p :
  check_progress d r st p = Ok tt →
  d_bytes_written d <= p_bytes_written p <= r_image_size r
  ∧ (st = READY_TO_BOOT ∨ st = BOOTED_PENDING → p_bytes_written p = r_image_size r)
  ∧ (booted st = true → _versions_match (p_running_version p) (Some (d_target_version d)) = true ∧ ota_slot (p_running_partition p) = true
       ∧ ∃ digest, _application_sha256 r = Some digest ∧ p_image_sha256 p = Some digest).
Proof.
  unfold check_progress. intros H. destruct (_ || _) eqn:E1; [done|]. destruct (bool_decide (st ∈ _) && _) eqn:E2; [done|]. bool_prop.
  split; [lia|]. split.
  { intros Hst. apply andb_false_iff in E2 as [E2|E2]; bool_prop; [|done]. exfalso. apply E2. destruct Hst as [-> | ->]; set_solver. }
  intros Hb. rewrite Hb in H. simpl in H. destruct (_versions_match _ _); [|done]. destruct (ota_slot _); [|done]. simpl in H.
  destruct (_application_sha256 r) as [s|]; [|done]. destruct (bool_decide (p_image_sha256 p = _)) eqn:E3; [|done]. bool_prop. eauto.
Qed.

Lemma opt_text_str o : opt_text (opt_str o) = o.
Proof. by destruct o. Qed.

(** The stored event of a booted report is a checked report of the new row. *)
Lemma checked_new r d st p recovery now i :
  check_progress d r st p = Ok tt → booted st = true → p_event_details p = [] → p_bytes_written p = r_image_size r →
  checked_report r (progressed st p now d) st (mkEvent i (d_id d) (state_text st) (progress_details d p recovery) now).
Proof.
  intros (Hb & _ & Hc)%check_progress_inv Hboot Hev Hfull. destruct (Hc Hboot) as (Hv & Hs & digest & Hsha & Himg).
  unfold checked_report, checked_boot. split_and!; [done|done| |].
  - rewrite Hsha. unfold progress_details. simpl e_details. rewrite Hev. unfold merge_details. simpl fold_left.
    change (get "image_sha256" _) with (opt_str (p_image_sha256 p)). change (get "running_version" _) with (opt_str (p_running_version p)).
    change (get "running_partition" _) with (opt_str (p_running_partition p)). rewrite Himg. simpl (eq_str _ _). rewrite !opt_text_str.
    rewrite bool_decide_eq_true_2 by done. by rewrite Hs, andb_true_r.
  - unfold progress_details. simpl e_details. rewrite Hev. change (get "bytes_written" _) with (PInt (Z.max (d_bytes_written d) (p_bytes_written p))).
    f_equal. lia.
Qed.

(** ** A checked report *)
(** [w] is [w0], or [w0] with the final stop of the row already recorded. *)
Record report_base (w0 w : fleet) (d : FirmwareDeployment) (st : deployment_state) : Prop := mkReportBase {
  rb_deployments : deployments w = deployments w0;
  rb_campaigns : campaigns w = campaigns w0;
  rb_releases : releases w = releases w0;
  rb_events : ∀ e, e ∈ firmware_events w0 → e ∈ firmware_events w;
  rb_bound : ∀ e, e ∈ firmware_events w → e_id e < next_id w ∧ e_deployment_id e < next_id w;
  rb_next : next_id w0 <= next_id w;
  rb_others : ∀ o, d_id o ≠ d_id d → zlen (_interruptions w o) = zlen (_interruptions w0 o);
  rb_own : zlen (_interruptions w d) <= stop_bound st }.

Lemma advance_others w0 w d st p recovery now o :
  report_base w0 w d st → d_id o ≠ d_id d → row_frame w0 (advance d st p recovery now w) o o.
Proof.
  intros B Hne. constructor; try done; simpl.
  - intros r Hr. exists r. unfold release_of in *. simpl. rewrite (rb_releases _ _ _ _ B). auto with dev.
  - by rewrite (rb_campaigns _ _ _ _ B).
  - intros e He _. apply elem_of_app. left. by apply (rb_events _ _ _ _ B).
  - pose proof (rb_next _ _ _ _ B). lia.
  - unfold advance. rewrite interruptions_add, (proj2 (Z.eqb_neq (d_id d) (d_id o))) by congruence. simpl.
    unfold _interruptions, events_in, events_of in *. simpl. pose proof (rb_others _ _ _ _ B o Hne) as H. unfold _interruptions, events_in, events_of in H. lia.
Qed.

(** The reports behind the new state. *)
Lemma advance_evidence w0 w d st p recovery now r :
  fleet_ok w0 → report_base w0 w d st → may_advance w0 d st p → release_of w0 (d_release_id d) = Some r → check_progress d r st p = Ok tt →
  (booted st = true → p_bytes_written p = r_image_size r) →
  boot_evidence (firmware_events (advance d st p recovery now w)) r (progressed st p now d).
Proof.
  intros Hok B M Hr Hc Hfull. pose proof M as [Hd Hpend Hal Hdet _].
  destruct (ok_release _ _ (f_rows _ Hok d Hd)) as (r' & Hr' & _ & _ & Hev). rewrite Hr in Hr'. injection Hr' as <-.
  destruct (offered_step _ _ _ Hal Hpend) as (_ & _ & _ & _ & Hrec & Hsuc).
  set (e := mkEvent (next_id w) (d_id d) (state_text st) (progress_details d p recovery) now).
  assert (firmware_events (advance d st p recovery now w) = firmware_events w ++ [e]) as -> by done.
  assert (∀ x, x ∈ firmware_events w0 → x ∈ firmware_events w ++ [e] ∧ e_id x < e_id e) as Hold.
  { intros x Hx%(rb_events _ _ _ _ B). split; [apply elem_of_app; by left|]. by apply (rb_bound _ _ _ _ B). }
  assert (booted st = true → e ∈ firmware_events w ++ [e] ∧ checked_report r (progressed st p now d) st e) as Hnew.
  { intros Hb. split; [apply elem_of_app; right; by apply list_elem_of_singleton|]. by apply checked_new; auto. }
  assert (∀ s x, checked_report r d s x → checked_report r (progressed st p now d) s x) as Hkeep by (intros s x; by apply checked_report_keep).
  unfold boot_evidence. simpl d_status. destruct st; try done.
  - destruct (Hnew eq_refl). eauto.
  - destruct (Hnew eq_refl) as [Hin Hch]. unfold boot_evidence in Hev. pose proof (Hrec eq_refl) as Hs.
    apply elem_of_cons in Hs as [Hs|Hs%list_elem_of_singleton]; rewrite Hs in Hev.
    + destruct Hev as (a & Ha & Ca). destruct (Hold a Ha) as [Ha' Hlt]. exists a, e. split_and!; auto.
    + destruct Hev as (a & b & Ha & Hb & _ & Ca & Cb). destruct (Hold a Ha) as [Ha' Hlt]. exists a, e. split_and!; auto.
  - destruct (Hnew eq_refl) as [Hin Hch]. unfold boot_evidence in Hev. rewrite (Hsuc eq_refl) in Hev.
    destruct Hev as (a & b & Ha & Hb & Hlt & Ca & Cb). destruct (Hold a Ha) as [Ha' _], (Hold b Hb) as [Hb' Hlt']. exists a, b, e. split_and!; auto.
Qed.

Lemma advance_row w0 w d st p recovery now :
  fleet_ok w0 → report_base w0 w d st → may_advance w0 d st p → deployment_ok (advance d st p recovery now w) (progressed st p now d).
Proof.
  intros Hok B M. pose proof M as [Hd Hpend Hal Hdet (r & Hr & Hc)].
  destruct (f_rows _ Hok d Hd) as [(r' & Hr' & Hby & Hwhole & _) Hcam Hfr _]. rewrite Hr in Hr'. injection Hr' as <-.
  destruct (offered_step _ _ _ Hal Hpend) as (_ & _ & _ & _ & Hrec & Hsuc). pose proof (check_progress_inv _ _ _ _ Hc) as (Hbytes & Hready & _).
  assert (whole_image st = true → p_bytes_written p = r_image_size r) as Hfull.
  { intros H. assert (whole_image (d_status d) = true → p_bytes_written p = r_image_size r) as K by (intros ?%Hwhole; lia).
    destruct st; try done; [apply Hready; auto..| |]; apply K.
    - pose proof (Hrec eq_refl) as [-> | ->%list_elem_of_singleton]%elem_of_cons; done.
    - by rewrite (Hsuc eq_refl). }
  constructor.
  - exists r. simpl. split_and!; try lia.
    + unfold release_of. simpl. rewrite (rb_releases _ _ _ _ B). done.
    + intros H%Hfull. lia.
    + eapply advance_evidence; try done. intros Hb. apply Hfull. by destruct st.
  - simpl. by rewrite (rb_campaigns _ _ _ _ B).
  - simpl. pose proof (rb_next _ _ _ _ B). lia.
  - unfold advance. rewrite interruptions_add, (bool_decide_eq_false_2 (state_text st = _)) by apply state_text_stop.
    rewrite andb_false_r. pose proof (rb_own _ _ _ _ B) as H. simpl.
    unfold _interruptions, events_in, events_of in *. simpl in *. lia.
Qed.

Lemma advance_fleet_ok w0 w d st p recovery now :
  fleet_ok w0 → report_base w0 w d st → may_advance w0 d st p → fleet_ok (advance d st p recovery now w).
Proof.
  intros Hok B M. pose proof M as [Hd Hpend Hal _ _]. pose proof (offered_step _ _ _ Hal Hpend) as (Hact & Hcan & Hns & _).
  assert (∀ o, o ∈ deployments w0 → d_id o = d_id d → o = d) as Huniq by (intros o Ho Hid; by eapply (NoDup_map_inj d_id), Hid; try done; apply Hok).
  assert (∀ o, o ∈ deployments w0 → (d_id o ≠ d_id d ∧ at_id (d_id d) (progressed st p now) o = o) ∨ (o = d ∧ at_id (d_id d) (progressed st p now) o = progressed st p now d)) as Hat.
  { intros o Ho. unfold at_id. destruct (Z.eqb_spec (d_id o) (d_id d)) as [E|E]; [right|by left]. by rewrite (Huniq o Ho E). }
  pose proof (rb_next _ _ _ _ B) as Hnx.
  eapply (fleet_ok_map w0 _ (at_id (d_id d) (progressed st p now)) (λ c, c)); auto with dev.
  - simpl. by rewrite (rb_deployments _ _ _ _ B).
  - simpl. rewrite (rb_campaigns _ _ _ _ B). apply map_id_eq.
  - intros o. unfold at_id. by destruct (_ =? _).
  - simpl. intros e [He| ->%list_elem_of_singleton]%elem_of_app; simpl.
    + destruct (rb_bound _ _ _ _ B e He). lia.
    + pose proof (ok_fresh _ _ (f_rows _ Hok d Hd)). lia.
  - simpl. rewrite (rb_releases _ _ _ _ B). apply Hok.
  - intros o Ho. destruct (Hat o Ho) as [[Hne ->]|[-> ->]].
    + eapply deployment_ok_keep; [by eapply advance_others|by apply Hok].
    + by eapply advance_row.
  - intros c Hc. eapply (campaign_ok_map w0 _ (at_id (d_id d) (progressed st p now)) (λ c, c)); auto with dev.
    + simpl. by rewrite (rb_deployments _ _ _ _ B).
    + intros o. unfold at_id. by destruct (_ =? _).
    + simpl. lia.
    + intros o Ho _ Hs _. destruct (Hat o Ho) as [[Hne ->]|[-> ->]]; [done|]. done.
    + intros o Ho _. destruct (Hat o Ho) as [[Hne ->]|[-> ->]]; [done|]. apply Hcan.
    + by apply Hok.
  - intros a b Ha Hb Heq H1 H2. apply (f_one_active _ Hok); try done.
    + destruct (Hat a Ha) as [[_ E]|[-> E]]; rewrite E in H1; auto.
    + destruct (Hat b Hb) as [[_ E]|[-> E]]; rewrite E in H2; auto.
Qed.

Lemma report_base_self w d st p : fleet_ok w → may_advance w d st p → report_base w w d st.
Proof.
  intros Hok M. constructor; auto; try lia; [by apply Hok|]. pose proof M as [Hd Hpend Hal _ _].
  pose proof (ok_stops _ _ (f_rows _ Hok d Hd)) as H. destruct (offered_step _ _ _ Hal Hpend) as (_ & _ & _ & Hdl & _). lia.
Qed.

Lemma report_base_stop w d p details now :
  fleet_ok w → d ∈ deployments w → downloading d = true → may_advance w d FAILED p →
  report_base w (add_event (d_id d) DOWNLOAD_INTERRUPTED details now w) d FAILED.
Proof.
  intros Hok Hd Hdl M. pose proof (f_rows _ Hok d Hd) as R. constructor; try done; simpl; try lia.
  - intros e He. apply elem_of_app. by left.
  - apply events_bound_add; [done|apply R].
  - intros o Ho. rewrite interruptions_add, (proj2 (Z.eqb_neq (d_id d) (d_id o))) by congruence. simpl. lia.
  - rewrite interruptions_add. pose proof (ok_stops _ _ R) as H.
    assert (stop_bound (d_status d) = 2) as E by (unfold downloading in Hdl; by destruct (d_status d)).
    simpl (stop_bound FAILED). destruct (_ && _); lia.
Qed.

Lemma update_campaigns_as i f w : campaigns (update_campaign i f w) = map (λ c, if c_id c =? i then f c else c) (campaigns w).
Proof. done. Qed.

(** Moves of one campaign's status. *)
Lemma status_ok w i f g :
  fleet_ok w → (∀ c, same_campaign c (f c)) → (∀ d, same_core d (g d)) →
  (∀ c, c ∈ campaigns w → c_id c = i → live c = true) →
  (∀ d, d ∈ deployments w → row_frame w (set_deployments (map g (deployments w)) (update_campaign i f w)) d (g d) ∨
     (d_status (g d) = CANCELLED ∧ d_bytes_written (g d) = d_bytes_written d ∧ cancellable (d_status d) = true ∧ d_campaign_id d = i)) →
  (∀ c, c ∈ campaigns w → c_id c = i → campaign_ok (set_deployments (map g (deployments w)) (update_campaign i f w)) (f c)) →
  fleet_ok (set_deployments (map g (deployments w)) (update_campaign i f w)).
Proof.
  intros Hok Hf Hg Hlive Hrow Hcam. set (w' := set_deployments _ _). set (h := λ c, if c_id c =? i then f c else c).
  assert (∀ c, same_campaign c (h c)) as Hh by (intros c; unfold h; destruct (_ =? _); auto with dev).
  assert (map c_id (campaigns w') = map c_id (campaigns w)) as Hids.
  { simpl. unfold update_by. rewrite map_map. apply map_ext. intros c. apply Hh. }
  eapply (fleet_ok_map w w' g h); auto with dev; try apply Hok.
  - intros d Hd. destruct (Hrow d Hd) as [H|(Hs & Hb & Hc & Hi)]; [eapply deployment_ok_keep; [done|by apply Hok]|].
    destruct (f_rows _ Hok d Hd) as [(r & Hr & Hby & _ & _) Hcm Hfr Hst]. destruct (Hg d) as (E1 & _ & E2 & E3 & _). constructor.
    + exists r. unfold boot_evidence. rewrite E3, Hs, Hb. split_and!; try done; lia.
    + rewrite E2, Hids. done.
    + rewrite E1. done.
    + rewrite Hs. assert (zlen (_interruptions w' (g d)) = zlen (_interruptions w d)) as ->.
      { unfold _interruptions. rewrite E1. done. }
      simpl. destruct (d_status d); simpl in Hst; lia.
  - intros c Hc. destruct (Z.eqb_spec (c_id c) i) as [E|E].
    { assert (h c = f c) as -> by (unfold h; by rewrite (proj2 (Z.eqb_eq _ _) E)). auto. }
    assert (h c = c) as Ehc by (unfold h; by rewrite (proj2 (Z.eqb_neq _ _) E)).
    eapply (campaign_ok_map w w' g h); try done; try (by rewrite Ehc); auto; try (simpl; lia); try by apply Hok.
    + intros d Hd Hdc Hs _. destruct (Hrow d Hd) as [H|(_ & _ & _ & Hi)]; [by rewrite (rf_status _ _ _ _ H)|congruence].
    + intros d Hd Hdc. destruct (Hrow d Hd) as [H|(_ & _ & _ & Hi)]; [by rewrite (rf_status _ _ _ _ H)|congruence].
  - intros d o Hd Ho Heq H1 H2. apply (f_one_active _ Hok); try done.
    + destruct (Hrow d Hd) as [H|(Hs & _)]; [by rewrite (rf_status _ _ _ _ H) in H1|by rewrite Hs in H1].
    + destruct (Hrow o Ho) as [H|(Hs & _)]; [by rewrite (rf_status _ _ _ _ H) in H2|by rewrite Hs in H2].
  - intros c Hc. unfold h. destruct (Z.eqb_spec (c_id c) i); auto.
Qed.

Lemma set_deployments_id w : set_deployments (map (λ d, d) (deployments w)) w = w.
Proof. destruct w. unfold set_deployments. simpl. by rewrite map_id. Qed.

Lemma campaign_only_ok w i f :
  fleet_ok w → (∀ c, same_campaign c (f c)) → (∀ c, c ∈ campaigns w → c_id c = i → live c = true) →
  (∀ c, c ∈ campaigns w → c_id c = i → campaign_ok (update_campaign i f w) (f c)) → fleet_ok (update_campaign i f w).
Proof.
  intros Hok Hf Hl Hc. rewrite <- (set_deployments_id (update_campaign i f w)).
  apply (status_ok w i f (λ d, d)); auto with dev.
  - intros d _. left. apply plain_frame; simpl; auto; try lia. intros H. by rewrite update_by_keys by (intros; apply Hf).
  - intros c H1 H2. change (deployments w) with (deployments (update_campaign i f w)). rewrite set_deployments_id. auto.
Qed.

Lemma live_ok w i f :
  fleet_ok w → (∀ c, same_campaign c (f c)) → (∀ c, c ∈ campaigns w → c_id c = i → live c = true ∧ live (f c) = true) → fleet_ok (update_campaign i f w).
Proof.
  intros Hok Hf Hl. apply campaign_only_ok; auto; [intros; by apply Hl|]. intros c Hc Hi. split.
  - destruct (Hf c) as (-> & _). simpl. apply (f_status _ Hok c Hc).
  - destruct (Hl c Hc Hi) as [_ H]. unfold live in H. by destruct (c_status (f c)).
Qed.

Lemma complete_ok w c now :
  fleet_ok w → c ∈ campaigns w → live c = true → statuses_of w (c_id c) ≠ [] →
  (∀ d, d ∈ deployments w → d_campaign_id d = c_id c → d_status d = SUCCEEDED) →
  fleet_ok (update_campaign (c_id c) (set_campaign_status COMPLETED None now) w).
Proof.
  intros Hok Hc Hl Hne Hall. apply campaign_only_ok; auto with dev; [by intros|..].
  - intros o Ho Hi. assert (o = c) as -> by (eapply (NoDup_map_inj c_id); try done; apply Hok). done.
  - intros o Ho Hi. split; simpl; [apply (f_status _ Hok o Ho)|]. rewrite Hi. auto.
Qed.

Lemma cancel_ok w c reason now :
  fleet_ok w → c ∈ campaigns w → live c = true →
  fleet_ok (cancel_deployments (c_id c) (update_campaign (c_id c) (set_campaign_status CAMPAIGN_CANCELLED reason now) w)).
Proof.
  intros Hok Hc Hl. unfold cancel_deployments. set (f := set_campaign_status CAMPAIGN_CANCELLED reason now).
  set (g := λ d, if (d_campaign_id d =? c_id c) && cancellable (d_status d) then set_status CANCELLED d else d).
  apply (status_ok w (c_id c) f g); auto.
  - done.
  - intros d. unfold g. by destruct (_ && _).
  - intros o Ho Hi. assert (o = c) as -> by (eapply (NoDup_map_inj c_id); try done; apply Hok). done.
  - intros d _. unfold g. destruct (_ && _) eqn:E; [right; bool_prop; done|left].
    apply plain_frame; simpl; auto; try lia. intros H. by rewrite update_by_keys.
  - intros o Ho Hi. split; simpl; [apply (f_status _ Hok o Ho)|]. rewrite Hi. intros d (a & -> & Ha)%list_elem_of_fmap. unfold g.
    destruct (d_campaign_id a =? c_id c) eqn:E1; simpl; [|intros Hx; bool_prop; congruence]. destruct (cancellable (d_status a)) eqn:E2; done.
Qed.

Lemma offer_ok w d details now :
  fleet_ok w → d ∈ deployments w → d_status d = PENDING → (∃ c, c ∈ campaigns w ∧ c_id c = d_campaign_id d ∧ c_status c = ACTIVE) →
  (∀ o, o ∈ deployments w → d_campaign_id o = d_campaign_id d → active_state (d_status o) = false) →
  fleet_ok (add_event (d_id d) "OFFERED" details now (update_deployment (d_id d) (set_offered now) w)).
Proof.
  intros Hok Hd Hp (c & Hc & Hcd & Hcs) Hnone.
  apply event_ok; [|by apply (f_rows _ Hok d Hd)|done]. set (g := at_id (d_id d) (set_offered now)).
  assert (∀ o, o ∈ deployments w → (d_id o ≠ d_id d ∧ g o = o) ∨ (o = d ∧ g o = set_offered now d)) as Hg.
  { intros o Ho. unfold g, at_id. destruct (Z.eqb_spec (d_id o) (d_id d)) as [E|E]; [right|by left].
    assert (o = d) as -> by (eapply (NoDup_map_inj d_id); try done; apply Hok). done. }
  eapply (fleet_ok_map w _ g (λ c, c)); auto with dev; simpl; try apply map_id_eq; try apply Hok.
  - intros o. unfold g, at_id. by destruct (_ =? _).
  - intros o Ho. destruct (Hg o Ho) as [[_ ->]|[-> ->]]; [eapply deployment_ok_keep; [apply plain_frame; simpl; auto; lia|by apply Hok]|].
    destruct (f_rows _ Hok d Hd) as [(r & Hr & Hby & _ & _) Hcm Hfr Hst]. constructor; try done.
    + exists r. simpl. split_and!; try done; lia.
    + assert (zlen (_interruptions (update_deployment (d_id d) (set_offered now) w) (set_offered now d)) = zlen (_interruptions w d)) as -> by done.
      rewrite Hp in Hst. simpl in *. lia.
  - intros o Ho. eapply (campaign_ok_map w _ g (λ c, c)); auto with dev; simpl; try lia.
    + intros x. unfold g, at_id. by destruct (_ =? _).
    + intros x Hx _ Hs _. destruct (Hg x Hx) as [[_ ->]|[-> ->]]; [done|]. congruence.
    + intros x Hx Hxo. destruct (Hg x Hx) as [[_ ->]|[-> ->]]; [done|]. by rewrite Hp.
    + by apply Hok.
  - intros a b Ha Hb Heq H1 H2. destruct (Hg a Ha) as [[Hna E1]|[-> E1]], (Hg b Hb) as [[Hnb E2]|[-> E2]]; rewrite ?E1, ?E2 in *; try done.
    + by apply (f_one_active _ Hok).
    + by rewrite (Hnone a Ha) in H1.
    + by rewrite (Hnone b Hb) in H2.
Qed.

Lemma stop_ok w d f details now :
  fleet_ok w → d ∈ deployments w → downloading d = true → zlen (_interruptions w d) + 1 < 3 → touches f →
  fleet_ok (update_deployment (d_id d) f (add_event (d_id d) DOWNLOAD_INTERRUPTED details now w)).
Proof.
  intros Hok Hd Hdl Hn Hf. apply touch_ok; [|done].
  eapply (fleet_ok_quiet w _ (λ d, d) (λ c, c)); auto with dev; simpl; try apply map_id_eq; try lia.
  - apply events_bound_add; [done|]. by apply (f_rows _ Hok d Hd).
  - apply Hok.
  - intros o Ho. destruct (decide (d_id o = d_id d)) as [E|E]; [|apply event_frame; by right].
    assert (o = d) as -> by (eapply (NoDup_map_inj d_id); try done; apply Hok). constructor; try done; eauto with dev; simpl; try lia.
    + intros e He _. apply elem_of_app. by left.
    + rewrite interruptions_add. assert (stop_bound (d_status d) = 2) by (unfold downloading in Hdl; by destruct (d_status d)).
      destruct (_ && _); lia.
Qed.

Lemma campaign_add_ok w c :
  fleet_ok w → c_id c = next_id w → c_status c = ACTIVE → (∀ o, o ∈ campaigns w → c_zone_id o = c_zone_id c → live o = false) →
  fleet_ok (add_campaign c w).
Proof.
  intros Hok Hid Hst Hz. constructor; simpl; try apply Hok.
  - rewrite map_app. apply NoDup_app. split_and!; [apply Hok| |apply NoDup_singleton].
    intros i (o & -> & Ho)%list_elem_of_fmap [= E]%list_elem_of_singleton. destruct (f_status _ Hok o Ho). lia.
  - intros e He. destruct (f_events _ Hok e He). lia.
  - intros d Hd. eapply deployment_ok_keep; [|by apply Hok]. apply plain_frame; simpl; auto; try lia. rewrite map_app. intros. apply elem_of_app. by left.
  - intros o [Ho| ->%list_elem_of_singleton]%elem_of_app.
    + eapply (campaign_ok_map w _ (λ d, d) (λ c, c)); auto with dev; simpl; try apply map_id_eq; try lia; by apply Hok.
    + split; simpl; [lia|]. by rewrite Hst.
  - intros a b [Ha| ->%list_elem_of_singleton]%elem_of_app [Hb| ->%list_elem_of_singleton]%elem_of_app Heq H1 H2; try done.
    + by apply (f_one_live _ Hok).
    + by rewrite (Hz a Ha Heq) in H1.
    + by rewrite (Hz b Hb) in H2.
Qed.

Lemma fresh_interruptions w d : fleet_ok w → next_id w <= d_id d → _interruptions w d = [].
Proof.
  intros Hok Hn. unfold _interruptions, events_in, events_of.
  assert (∀ l, (∀ e, e ∈ l → e_deployment_id e < next_id w) → List.filter (λ e, e_deployment_id e =? d_id d) l = []) as ->.
  - induction l as [|e l IH]; simpl; [done|]. intros He. rewrite (proj2 (Z.eqb_neq _ _)); [apply IH; intros; apply He; by right|].
    assert (e_deployment_id e < next_id w) by (apply He; by left). lia.
  - done.
  - intros e He. by apply Hok.
Qed.

Lemma deployment_add_ok w d :
  fleet_ok w → d_id d = next_id w → d_status d = PENDING → d_bytes_written d = 0 → d_deployment_id d ∉ map d_deployment_id (deployments w) →
  (∃ r, release_of w (d_release_id d) = Some r) → (∃ c, c ∈ campaigns w ∧ c_id c = d_campaign_id d ∧ live c = true) → fleet_ok (add_deployment d w).
Proof.
  intros Hok Hid Hst Hb Hp (r & Hr) (c & Hc & Hcd & Hl).
  assert (∀ i (o : FirmwareDeployment), o ∈ deployments w → d_id o = i → i < next_id w) as Hlt by (intros i o Ho <-; by apply (f_rows _ Hok)).
  constructor; simpl; try apply Hok.
  - rewrite map_app. apply NoDup_app. split_and!; [apply Hok| |apply NoDup_singleton].
    intros i (o & -> & Ho)%list_elem_of_fmap E%list_elem_of_singleton. pose proof (Hlt _ o Ho eq_refl). lia.
  - rewrite map_app. apply NoDup_app. split_and!; [apply Hok| |apply NoDup_singleton]. intros x Hx ->%list_elem_of_singleton. done.
  - intros e He. destruct (f_events _ Hok e He). lia.
  - intros o [Ho| ->%list_elem_of_singleton]%elem_of_app.
    + eapply deployment_ok_keep; [|by apply Hok]. apply plain_frame; simpl; auto; lia.
    + constructor; simpl; try lia.
      * exists r. unfold boot_evidence. rewrite Hst, Hb. split_and!; try done; try lia.
        apply (f_sizes _ Hok). apply row_by_some in Hr. by destruct Hr.
      * rewrite <- Hcd. by apply list_elem_of_fmap_2.
      * assert (_interruptions (add_deployment d w) d = []) as -> by (apply (fresh_interruptions w); [done|lia]). by rewrite Hst.
  - intros o Ho. destruct (f_status _ Hok o Ho) as [Hf Ho']. split; simpl; [lia|]. destruct (decide (c_id o = d_campaign_id d)) as [E|E].
    + assert (o = c) as -> by (eapply (NoDup_map_inj c_id); try done; [apply Hok|congruence]). unfold live in Hl. by destruct (c_status c).
    + destruct (c_status o); try done.
      * intros x [Hx| ->%list_elem_of_singleton]%elem_of_app Hxo; [by apply Ho'|congruence].
      * destruct Ho' as [Hne Hall]. split.
        -- unfold statuses_of in *. simpl. rewrite List.filter_app, map_app. intros [H0 _]%app_eq_nil. done.
        -- intros x [Hx| ->%list_elem_of_singleton]%elem_of_app Hxo; [by apply Hall|congruence].
  - intros a b [Ha| ->%list_elem_of_singleton]%elem_of_app [Hb'| ->%list_elem_of_singleton]%elem_of_app Heq H1 H2; try done.
    + by apply (f_one_active _ Hok).
    + by rewrite Hst in H2.
    + by rewrite Hst in H1.
Qed.

(** Deleting closed campaigns with their rows. *)
Lemma elem_of_filter_bool {A} (p : A → bool) l x : x ∈ List.filter p l ↔ x ∈ l ∧ p x = true.
Proof. by rewrite !list_elem_of_In, List.filter_In. Qed.

Lemma filter_filter {A} (p q : A → bool) l : List.filter p (List.filter q l) = List.filter (λ x, p x && q x) l.
Proof. induction l as [|x l IH]; simpl; [done|]. destruct (q x) eqn:E; simpl; rewrite ?E, ?IH, ?andb_true_r, ?andb_false_r; done. Qed.

Lemma filter_ext_in {A} (p q : A → bool) l : (∀ x, x ∈ l → p x = q x) → List.filter p l = List.filter q l.
Proof. intros H. apply List.filter_ext_in. intros x Hx. by apply H, list_elem_of_In. Qed.

Lemma delete_ok w ids :
  fleet_ok w → (∀ i, i ∈ ids → ∃ c, c ∈ campaigns w ∧ c_id c = i ∧ closed c = true) → fleet_ok (delete_campaigns w ids).
Proof.
  intros Hok Hids.
  assert (∀ c, c ∈ campaigns w → c_id c ∈ ids → closed c = true) as Hcl.
  { intros c Hc (o & Ho & E & H)%Hids. assert (o = c) as <- by (eapply (NoDup_map_inj c_id); try done; apply Hok). done. }
  assert (∀ d, d ∈ deployments (delete_campaigns w ids) → d ∈ deployments w ∧ d_campaign_id d ∉ ids) as Hin.
  { intros d. simpl. rewrite elem_of_filter_bool. intros [Hd H]. bool_prop. done. }
  constructor.
  - apply NoDup_map_filter, Hok.
  - apply NoDup_map_filter, Hok.
  - apply NoDup_map_filter, Hok.
  - intros e. simpl. rewrite elem_of_filter_bool. intros [He _]. by apply Hok.
  - apply Hok.
  - intros d [Hd Hni]%Hin.
    assert (∀ e : FirmwareEvent, e_deployment_id e = d_id d → bool_decide (e_deployment_id e ∈ map d_id (List.filter (λ d, bool_decide (d_campaign_id d ∈ ids)) (deployments w))) = false) as Hkeep.
    { intros e E. apply bool_decide_eq_false. rewrite E. intros (o & Eo & Ho)%list_elem_of_fmap. apply elem_of_filter_bool in Ho as [Ho H]. bool_prop.
      assert (o = d) as -> by (eapply (NoDup_map_inj d_id); try done; apply Hok). done. }
    eapply deployment_ok_keep; [|by apply Hok]. constructor; try done; eauto with dev; simpl.
    + intros (c & Ec & Hc)%list_elem_of_fmap. rewrite Ec. apply list_elem_of_fmap_2, elem_of_filter_bool. split; [done|].
      rewrite <- Ec, bool_decide_eq_false_2 by done. done.
    + intros e He E. apply elem_of_filter_bool. split; [done|]. by rewrite Hkeep.
    + assert (_interruptions (delete_campaigns w ids) d = _interruptions w d) as ->; [|lia]. unfold _interruptions, events_in, events_of. simpl.
      f_equal. rewrite filter_filter. apply filter_ext_in. intros e _. destruct (Z.eqb_spec (e_deployment_id e) (d_id d)) as [E|E]; [|done]. by rewrite Hkeep.
  - intros c. simpl. rewrite elem_of_filter_bool. intros [Hc Hk]. destruct (f_status _ Hok c Hc) as [Hf Hs]. split; [done|].
    assert (c_id c ∉ ids) as Hni.
    { intros Hx. rewrite (bool_decide_eq_true_2 _ Hx), (Hcl c Hc Hx) in Hk. done. }
    destruct (c_status c); try done.
    + intros d [Hd _]%Hin. by apply Hs.
    + destruct Hs as [Hne Hall]. split; [|intros d [Hd _]%Hin; by apply Hall]. unfold statuses_of in *. simpl. rewrite filter_filter.
      rewrite (filter_ext_in _ (λ d, d_campaign_id d =? c_id c)); [done|]. intros d _. destruct (Z.eqb_spec (d_campaign_id d) (c_id c)) as [E|]; [|done].
      rewrite E, bool_decide_eq_false_2 by done. done.
  - intros d o [Hd _]%Hin [Ho _]%Hin. by apply (f_one_active _ Hok).
  - intros c o. simpl. rewrite !elem_of_filter_bool. intros [Hc _] [Ho _]. by apply (f_one_live _ Hok).
Qed.

(** ** Every move keeps the invariant *)
Lemma move_ok w w' : fleet_ok w → move w w' → fleet_ok w'.
Proof.
  intros Hok Hm. destruct Hm.
  - eapply advance_fleet_ok; [done|by eapply report_base_self|done].
  - by apply offer_ok.
  - by apply event_ok.
  - by apply stop_ok.
  - eapply advance_fleet_ok; [done|by eapply report_base_stop|done].
  - by apply touch_ok.
  - eapply quiet_ok; try done. simpl. lia.
  - by apply live_ok.
  - by apply complete_ok.
  - by apply cancel_ok.
  - by apply annotate_ok.
  - by apply campaign_add_ok.
  - by apply deployment_add_ok.
  - by apply releases_ok.
  - by apply delete_ok.
  - by eapply quiet_ok.
  - by eapply quiet_ok.
Qed.

Lemma moves_ok w w' : fleet_ok w → moves w w' → fleet_ok w'.
Proof. intros Hok Hm. induction Hm as [|w w1 w2 H1 _ IH]; [done|]. apply IH. by eapply move_ok. Qed.
