(* ===== verification/OtaSystem.v ===== *)
(** * The handlers of the rollout as sequences of moves

    Each handler, when it succeeds on tables that satisfy [fleet_ok], is a sequence of
    moves. [ota_step] is one transaction of the rollout: any handler with any input, or a
    change elsewhere that the rollout allows. *)
From S2P Require Import Prelude PyText Hashes PyJson QueueEvidence RuntimeContract DeviceHealth ReleaseScope ReleaseContract OtaModel OtaReaders OtaTargets OtaProgress OtaDownload OtaStore OtaInterruption OtaAssignment OtaReturn OtaScope OtaCampaign OtaHistory OtaMoves.
Open Scope string_scope.
Open Scope list_scope.
Open Scope Z_scope.

Lemma moves_one w w' : move w w' → moves w w'.
Proof. apply rtc_once. Qed.
Lemma moves_refl w : moves w w.
Proof. apply rtc_refl. Qed.
#[export] Hint Resolve moves_one moves_refl : dev.

(** ** Boards *)
Lemma set_world_boards ks w : set_world ks (telemetry w) (hil_run_deployments w) (next_id w) w = set_boards ks w.
Proof. done. Qed.

Lemma floors_kept_update i f ks :
  (∀ k, k_id (f k) = k_id k) → (∀ k, k_ota_floor_latched_at k ≠ None → k_ota_floor_latched_at (f k) ≠ None) → floors_kept ks (update_by k_id i f ks).
Proof.
  intros Hid Hf j k Hj Hl. exists (if k_id k =? i then f k else k). split; [|destruct (_ =? _); auto].
  unfold update_by. rewrite (row_by_map k_id j (λ a, if k_id a =? i then f a else a)), Hj; [done|]. intros a. destruct (_ =? _); auto.
Qed.

Lemma board_moves w i f :
  (∀ k, k_id (f k) = k_id k) → (∀ k, k_ota_floor_latched_at k ≠ None → k_ota_floor_latched_at (f k) ≠ None) → moves w (update_board i f w).
Proof.
  intros Hid Hf. apply moves_one. unfold update_board. rewrite <- set_world_boards. apply mv_world; [|lia]. by apply floors_kept_update.
Qed.

(** ** One report *)
Lemma in_of_find {A} (p : A → bool) l x : List.find p l = Some x → x ∈ l ∧ p x = true.
Proof. intros [H1 H2]%List.find_some. split; [by apply list_elem_of_In|done]. Qed.

Lemma update_id_campaign i f w : (∀ c, c ∈ campaigns w → c_id c = i → f c = c) → update_campaign i f w = w.
Proof.
  intros H. destruct w as [rs cs ds es gs hs bs ts n]. unfold update_campaign, set_campaigns, update_by. simpl in *. f_equal.
  induction cs as [|c cs IH]; simpl; [done|]. f_equal.
  - destruct (Z.eqb_spec (c_id c) i); [|done]. apply H; [by left|done].
  - apply IH. intros o Ho. apply H. by right.
Qed.

Lemma complete_moves w c now : fleet_ok w → moves w (complete_if_succeeded w c now).1.
Proof.
  intros Hok. unfold complete_if_succeeded. destruct c as [c|]; [|auto with dev]. destruct (live c); simpl; [|auto with dev].
  destruct (_ || _) eqn:E; [auto with dev|]. destruct (campaign_of w (c_id c)) as [l|] eqn:El; [|auto with dev].
  destruct (live l) eqn:Ell; simpl; [|auto with dev]. apply row_by_some in El as [Hl Hid]. bool_prop. rewrite <- Hid in *. apply moves_one, mv_complete; try done.
  intros d Hd Hdc. destruct (decide (d_status d = SUCCEEDED)) as [|Hne]; [done|]. exfalso.
  match goal with H : existsb _ _ = false |- _ => rewrite <- not_true_iff_false in H; apply H end.
  apply List.existsb_exists. exists (d_status d). split; [|by rewrite bool_decide_eq_false_2].
  unfold statuses_of. apply in_map, List.filter_In. split; [by apply list_elem_of_In|]. by apply Z.eqb_eq.
Qed.

Lemma pause_moves w d k st code now :
  fleet_ok w → (∃ o, o ∈ deployments w ∧ d_campaign_id o = d_campaign_id d ∧ d_status o ≠ SUCCEEDED) →
  moves w (update_campaign (d_campaign_id d) (pause_for_deployment_outcome k st code now) w).
Proof.
  intros Hok (o & Ho & Hoc & Hos).
  assert (∀ c, c ∈ campaigns w → c_id c = d_campaign_id d → campaign_of w (d_campaign_id d) = Some c) as Hof.
  { intros c Hc <-. apply row_by_unique; [apply Hok|done]. }
  destruct (campaign_of w (d_campaign_id d)) as [c|] eqn:Ec; [|rewrite update_id_campaign; [auto with dev|by intros c Hc ?%Hof]].
  destruct (live c) eqn:Hl.
  - apply moves_one, mv_live.
    + intros x. unfold pause_for_deployment_outcome. destruct (c_status x), (c_pause_reason x); try destruct (_ && _); done.
    + intros x Hx Hxd. apply Hof in Hxd as [= ->]; [|done]. split; [done|].
      unfold pause_for_deployment_outcome. unfold live in Hl. destruct (c_status x) eqn:E; try done. destruct (c_pause_reason x); [|done].
      destruct (_ && _); [|done]. unfold live. by rewrite E.
  - rewrite update_id_campaign; [auto with dev|]. intros x Hx Hxd. pose proof (Hof x Hx Hxd) as [= ->]. unfold pause_for_deployment_outcome.
    unfold live in Hl. destruct (c_status x) eqn:E; try done. exfalso.
    destruct (f_status _ Hok x Hx) as [_ Hs]. rewrite E in Hs. apply Hos, Hs; [done|congruence].
Qed.

Lemma elem_advance w d st p recovery now : d ∈ deployments w → progressed st p now d ∈ deployments (advance d st p recovery now w).
Proof. intros Hd. simpl. pose proof (elem_of_update_by_2 d_id (d_id d) (progressed st p now) _ d Hd) as H. by rewrite Z.eqb_refl in H. Qed.

(** What follows the stored report: the campaign, the board. *)
Lemma apply_tail_moves w k d st p recovery now :
  d ∈ deployments w → fleet_ok (advance d st p recovery now w) → moves (advance d st p recovery now w) (apply_progress w k d st p recovery now).
Proof.
  intros Hd Hok. unfold apply_progress. fold (advance d st p recovery now w). set (w2 := advance d st p recovery now w) in *.
  set (w3 := if bool_decide (st ∈ [FAILED; ROLLED_BACK]) then _ else w2).
  set (w4 := if bool_decide (st = SUCCEEDED) then _ else w3).
  assert (moves w2 w3) as M3.
  { unfold w3. case_bool_decide as E; [|auto with dev]. apply pause_moves; [done|]. exists (progressed st p now d).
    split_and!; [by apply elem_advance|done|]. simpl. intros ->. apply elem_of_cons in E as [|E%list_elem_of_singleton]; done. }
  assert (moves w3 w4) as M4.
  { unfold w4. case_bool_decide; [|auto with dev]. apply complete_moves. by eapply moves_ok. }
  etrans; [exact M3|]. etrans; [exact M4|]. apply board_moves; [done|]. intros b Hb. simpl. by destruct (k_ota_floor_latched_at b).
Qed.

Section handlers.
Context `{OtaPlatform}.

Lemma record_progress_inv w k pid p now w' d' :
  record_progress w k pid p now = Ok (w', d') →
  ∃ d st, parse_state (p_state p) = Some st ∧ d ∈ deployments w ∧ d_deployment_id d = pid ∧ d_connector_id d = k_id k ∧
    ((w' = w ∧ d' = d ∧ terminal_state (d_status d) = true) ∨
     (allowed d st (p_error_code p) ∧ ∃ r recovery, release_of w (d_release_id d) = Some r ∧ check_progress d r st p = Ok tt
        ∧ w' = apply_progress w k d st p recovery now ∧ d' = progressed st p now d)).
Proof.
  unfold record_progress. intros E. destruct (parse_state _) as [st|]; [|done]. destruct (List.find _ _) as [d|] eqn:Ed; [|done].
  apply in_of_find in Ed as [Hd Hp]. bool_prop. exists d, st. split_and!; try done.
  destruct (terminal_state (d_status d) && negb (failed_boot_return d st (p_error_code p))) eqn:E1.
  - apply Ok_inj in E. injection E as <- <-. left. bool_prop. done.
  - right. destruct (negb _ && negb _) eqn:E2; [done|]. split.
    { apply andb_false_iff in E2 as [E2|E2]; bool_prop; [left|right]; done. }
    destruct (release_of w (d_release_id d)) as [r|]; [|done]. apply bind_ok in E as (u & _ & E). apply bind_ok in E as (recovery & _ & E).
    apply bind_ok in E as ([] & Hc & E). apply Ok_inj in E. injection E as <- <-. eauto 10.
Qed.

(** A row found by its public id is that row. *)
Lemma public_row w d x : fleet_ok w → d ∈ deployments w → x ∈ deployments w → d_deployment_id x = d_deployment_id d → x = d.
Proof. intros Hok Hd Hx E. eapply (NoDup_map_inj d_deployment_id); try done. apply Hok. Qed.

Lemma record_progress_moves w k pid p now w' d' :
  fleet_ok w → record_progress w k pid p now = Ok (w', d') →
  (∀ d, d ∈ deployments w → d_deployment_id d = pid → d_status d ≠ PENDING) →
  (∀ st, parse_state (p_state p) = Some st → booted st = true → p_event_details p = []) → moves w w'.
Proof.
  intros Hok (d & st & Hst & Hd & Hid & Hk & [(-> & _)|(Hal & r & recovery & Hr & Hc & -> & _)])%record_progress_inv Hpend Hdet; [auto with dev|].
  assert (move w (advance d st p recovery now w)) as M.
  { apply mv_advance. constructor; eauto. }
  etrans; [by apply moves_one|]. apply apply_tail_moves; [done|]. by eapply move_ok.
Qed.

Lemma parse_failed : parse_state "FAILED" = Some FAILED.
Proof. done. Qed.
Lemma parse_rolled_back : parse_state "ROLLED_BACK" = Some ROLLED_BACK.
Proof. done. Qed.

Lemma error_board_moves w i s code message : moves w (update_board i (set_board_error s code message) w).
Proof. by apply board_moves. Qed.
#[local] Hint Resolve error_board_moves : dev.

Lemma fail_moves w k d code message bytes now w' :
  fleet_ok w → d ∈ deployments w → d_status d ≠ PENDING → fail_ota_deployment w k d code message bytes now = Ok w' → moves w w'.
Proof.
  intros Hok Hd Hp E. unfold fail_ota_deployment in E. apply bind_ok in E as ([w1 d1] & E1 & E). apply Ok_inj in E as <-.
  etrans; [|by apply error_board_moves]. eapply record_progress_moves; try done.
  - intros x Hx Hid. by rewrite (public_row w d x Hok Hd Hx Hid).
Qed.

(** The final stop of a download and its failure are one move. *)
Lemma exhausted_moves w k d details code message bytes now w' :
  fleet_ok w → d ∈ deployments w → downloading d = true →
  fail_ota_deployment (add_event (d_id d) DOWNLOAD_INTERRUPTED details now w) k d code message bytes now = Ok w' → moves w w'.
Proof.
  intros Hok Hd Hdl E. unfold fail_ota_deployment in E. apply bind_ok in E as ([w1 d1] & E1 & E). apply Ok_inj in E as <-.
  etrans; [|by apply error_board_moves].
  apply record_progress_inv in E1 as (x & st & Hst & Hx & Hid & Hk & Hcase). apply (inj Some) in Hst. subst st.
  assert (x = d) as -> by (by eapply public_row). destruct Hcase as [(_ & _ & Ht)|(Hal & r & recovery & Hr & Hc & -> & _)].
  { unfold downloading in Hdl. by destruct (d_status d). }
  assert (move w (advance d FAILED (mkProgress "FAILED" (default (d_bytes_written d) bytes) None None None (Some code) (Some message) []) recovery now
                    (add_event (d_id d) DOWNLOAD_INTERRUPTED details now w))) as M.
  { apply mv_exhausted; try done. constructor; try done; [|eauto]. unfold downloading in Hdl. by destruct (d_status d). }
  etrans; [by apply moves_one|]. apply apply_tail_moves; [done|]. by eapply move_ok.
Qed.

(** ** Held downloads *)
(** The campaigns after some failures: the same rows, live ones still live. *)
Definition live_kept (w w' : fleet) : Prop :=
  ∃ h, campaigns w' = map h (campaigns w) ∧ ∀ c, same_campaign c (h c) ∧ (live c = true → live (h c) = true).

Lemma live_kept_refl w : live_kept w w.
Proof. exists (λ c, c). split; [apply map_id_eq|]. auto with dev. Qed.
Lemma live_kept_trans w1 w2 w3 : live_kept w1 w2 → live_kept w2 w3 → live_kept w1 w3.
Proof.
  intros (h & E1 & H1) (g & E2 & H2). exists (λ c, g (h c)). rewrite E2, E1, map_map. split; [done|]. intros c.
  destruct (H1 c) as [(?&?&?&?) ?], (H2 (h c)) as [(?&?&?&?) ?]. split; [unfold same_campaign; split_and!; congruence|auto].
Qed.
Lemma live_kept_same w w' : campaigns w' = campaigns w → live_kept w w'.
Proof. intros E. exists (λ c, c). rewrite E. split; [apply map_id_eq|]. auto with dev. Qed.
Lemma live_kept_update w i f : (∀ c, same_campaign c (f c) ∧ (live c = true → live (f c) = true)) → live_kept w (update_campaign i f w).
Proof. intros Hf. exists (λ c, if c_id c =? i then f c else c). split; [done|]. intros c. destruct (_ =? _); auto with dev. Qed.

(** The live row of an id, after changes that keep live rows. *)
Lemma live_kept_row w w' c : live_kept w w' → NoDup (map c_id (campaigns w)) → c ∈ campaigns w → live c = true →
  (∃ c', c' ∈ campaigns w' ∧ c_id c' = c_id c ∧ live c' = true) ∧ (∀ x, x ∈ campaigns w' → c_id x = c_id c → live x = true).
Proof.
  intros (h & E & Hh) Hn Hc Hl. rewrite E. split.
  - exists (h c). destruct (Hh c) as [(Hid & _) Hlive]. split_and!; [by apply list_elem_of_fmap_2|done|auto].
  - intros x (a & -> & Ha)%list_elem_of_fmap Hid. destruct (Hh a) as [(Hid' & _) Hlive].
    assert (a = c) as -> by (eapply (NoDup_map_inj c_id); try done; congruence). auto.
Qed.

Lemma pause_live_kept w k st code now i : live_kept w (update_campaign i (pause_for_deployment_outcome k st code now) w).
Proof.
  apply live_kept_update. intros c. unfold pause_for_deployment_outcome.
  destruct (c_status c), (c_pause_reason c); try destruct (_ && _); auto with dev; done.
Qed.

Lemma fail_live_kept w k d code message bytes now w' : fail_ota_deployment w k d code message bytes now = Ok w' → live_kept w w'.
Proof.
  intros E. unfold fail_ota_deployment in E. apply bind_ok in E as ([w1 d1] & E1 & E). apply Ok_inj in E as <-.
  apply (live_kept_trans w w1); [|by apply live_kept_same].
  apply record_progress_inv in E1 as (x & st & Hst & _ & _ & _ & [(-> & _)|(_ & r & recovery & _ & _ & -> & _)]); [apply live_kept_refl|].
  apply (inj Some) in Hst. subst st. unfold apply_progress. simpl.
  match goal with |- live_kept _ (update_board _ _ (update_campaign ?i ?f ?w2)) =>
    apply (live_kept_trans _ (update_campaign i f w2)); [|by apply live_kept_same]; apply (live_kept_trans _ w2); [by apply live_kept_same|apply pause_live_kept] end.
Qed.

Lemma downloading_offered d : downloading d = true → d_status d ≠ PENDING ∧ active_state (d_status d) = true.
Proof. unfold downloading. by destruct (d_status d). Qed.

Lemma deployment_of_in w i d : deployment_of w i = Some d → d ∈ deployments w ∧ d_id d = i.
Proof. apply row_by_some. Qed.

Lemma fail_held_moves w i reason code now w' b :
  fleet_ok w → fail_held_download w i reason code now = Ok (w', b) → moves w w' ∧ live_kept w w'.
Proof.
  intros Hok E. unfold fail_held_download in E. destruct (deployment_of w i) as [d|] eqn:Ed; [|apply Ok_inj in E; injection E as <- <-; auto using live_kept_refl with dev].
  apply deployment_of_in in Ed as [Hd Hi]. destruct (downloading d) eqn:Edl; simpl in E; [|apply Ok_inj in E; injection E as <- <-; auto using live_kept_refl with dev].
  destruct (awaiting_retry_offer w d) as [latest|]; [|apply Ok_inj in E; injection E as <- <-; auto using live_kept_refl with dev].
  destruct (board_of w _) as [k|]; [|apply Ok_inj in E; injection E as <- <-; auto using live_kept_refl with dev].
  apply bind_ok in E as (w1 & E1 & E). apply Ok_inj in E. injection E as <- <-. split; [|by eapply fail_live_kept].
  eapply fail_moves; try done. by apply downloading_offered.
Qed.

(** A loop whose body is a sequence of moves that keeps live campaigns. *)
Lemma foldR_moves {A S} (f : S → A → res S) (world : S → fleet) l s s' :
  (∀ s x s', fleet_ok (world s) → f s x = Ok s' → moves (world s) (world s') ∧ live_kept (world s) (world s')) →
  fleet_ok (world s) → foldR f l s = Ok s' → moves (world s) (world s') ∧ live_kept (world s) (world s').
Proof.
  intros Hf. revert s. induction l as [|x l IH]; intros s Hok; simpl.
  - intros [= <-]. auto using live_kept_refl with dev.
  - intros (s1 & E1 & E)%bind_ok. destruct (Hf _ _ _ Hok E1) as [M1 L1]. destruct (IH s1) as [M2 L2]; [by eapply moves_ok|done|].
    split; [by etrans|by eapply live_kept_trans].
Qed.

Lemma fail_held_downloads_moves w campaign reason now w' n :
  fleet_ok w → fail_held_downloads w campaign reason now = Ok (w', n) → moves w w' ∧ live_kept w w'.
Proof.
  intros Hok E. eapply (foldR_moves _ fst) in E; [done| |done]. clear. intros [w n] d [w' n'] Hok E. simpl in *.
  destruct (awaiting_retry_offer w d); [|apply Ok_inj in E; injection E as <- <-; auto using live_kept_refl with dev].
  apply bind_ok in E as ([w1 b] & E1 & E). apply Ok_inj in E. injection E as <- <-. by eapply fail_held_moves.
Qed.

Lemma expire_held_moves w now limit w' n : fleet_ok w → expire_held_downloads w now limit = Ok (w', n) → moves w w'.
Proof.
  intros Hok E. eapply (foldR_moves _ fst) in E; [by destruct E| |done]. clear. intros [w n] d [w' n'] Hok E. unfold expire_one in E. simpl in *.
  destruct (awaiting_retry_offer w d); [|apply Ok_inj in E; injection E as <- <-; auto using live_kept_refl with dev].
  apply bind_ok in E as (v & _ & E). destruct v as [[reason code]|]; [|apply Ok_inj in E; injection E as <- <-; auto using live_kept_refl with dev].
  apply bind_ok in E as ([w1 b] & E1 & E). apply Ok_inj in E. injection E as <- <-. by eapply fail_held_moves.
Qed.

(** ** Polls *)
Lemma touch_moves w i f : touches f → moves w (update_deployment i f w).
Proof. intros Hf. by apply moves_one, mv_touch. Qed.

Lemma retry_hold_moves w d latest now w' b :
  fleet_ok w → d ∈ deployments w → download_retry_hold w d latest now = Ok (w', b) → moves w w'.
Proof.
  intros Hok Hd E. unfold download_retry_hold in E.
  assert (∀ reason code w1 r, fail_held_download w (d_id d) reason code now = Ok r → w1 = r.1 → moves w w1) as Hfail.
  { intros reason code w1 [w2 b2] Hf ->. by eapply fail_held_moves. }
  destruct (negb resume_enabled); [apply bind_ok in E as (r & E1 & E); apply Ok_inj in E; injection E as <- <-; by eapply Hfail|].
  apply bind_ok in E as (x & _ & E). destruct x as [reason|]; [apply bind_ok in E as (r & E1 & E); apply Ok_inj in E; injection E as <- <-; by eapply Hfail|].
  apply bind_ok in E as (t & _ & E). destruct t as [t|]; [|done]. destruct (now <? t); [apply Ok_inj in E; injection E as <- <-; auto with dev|].
  destruct (_re_offers_spent w d); [apply bind_ok in E as (r & E1 & E); apply Ok_inj in E; injection E as <- <-; by eapply Hfail|].
  apply Ok_inj in E. injection E as <- <-. etrans; [by apply (touch_moves w (d_id d) count_attempt)|]. apply moves_one, mv_event; [|done].
  simpl. by apply (f_rows _ Hok d Hd).
Qed.

Lemma resumed_refusal_moves w k d now w' b :
  fleet_ok w → d ∈ deployments w → resumed_attempt_refusal w k d now = Ok (w', b) → moves w w'.
Proof.
  intros Hok Hd E. unfold resumed_attempt_refusal in E. destruct (downloading d) eqn:Edl; simpl in E; [|apply Ok_inj in E; injection E as <- <-; auto with dev].
  destruct (_first_interruption_at w d) as [first|]; [|apply Ok_inj in E; injection E as <- <-; auto with dev]. cbv zeta in E.
  match type of E with match ?v with _ => _ end = _ => destruct v as [[reason code]|] end; [|apply Ok_inj in E; injection E as <- <-; auto with dev].
  apply bind_ok in E as (w1 & E1 & E). apply Ok_inj in E. injection E as <- <-. eapply fail_moves; try done. by apply downloading_offered.
Qed.

Lemma refused_moves w d held reason now w' a : fleet_ok w → refused w d held reason now = Ok (w', a) → moves w w'.
Proof.
  intros Hok E. unfold refused in E. destruct held; [|apply Ok_inj in E; injection E as <- <-; auto with dev].
  apply bind_ok in E as ([w1 b] & E1 & E). apply Ok_inj in E. injection E as <- <-. by eapply fail_held_moves.
Qed.

Lemma grant_moves w k d r digest base token now w' a : grant_download w k d r digest base token now = Ok (w', a) → moves w w'.
Proof.
  intros E. unfold grant_download in E. apply bind_ok in E as (family & _ & E). cbv zeta in E. destruct (existsb _ _); [done|].
  apply Ok_inj in E. injection E as <- <-. apply moves_one, mv_grant.
Qed.

(** The one deployment a zone may be offered next. *)
Definition next_in_zone (w : fleet) (d : FirmwareDeployment) : Prop :=
  d ∈ deployments w ∧ d_status d = PENDING ∧ (∃ c, c ∈ campaigns w ∧ c_id c = d_campaign_id d ∧ c_status c = ACTIVE) ∧
  (∀ o, o ∈ deployments w → d_campaign_id o = d_campaign_id d → active_state (d_status o) = false).

Lemma offer_moves w k d r now w' b : next_in_zone w d → offer_pending w k d r now = Ok (w', b) → moves w w'.
Proof.
  intros (Hd & Hp & Hc & Hnone) E. unfold offer_pending in E. apply bind_ok in E as ([hold|] & _ & E).
  { apply Ok_inj in E. injection E as <- <-. by apply touch_moves. }
  apply bind_ok in E as (details & _ & E). destruct details as [fields|]; apply Ok_inj in E; injection E as <- <-; [|auto with dev].
  by apply moves_one, mv_offer.
Qed.

Lemma assign_moves w k d held serialized pending base token now w' a :
  fleet_ok w → d ∈ deployments w → (pending = true → next_in_zone w d) → assign w k d held serialized pending base token now = Ok (w', a) → moves w w'.
Proof.
  intros Hok Hd Hnext E. unfold assign in E. destruct (release_of w (d_release_id d)) as [r|]; [|by eapply refused_moves].
  destruct (negb (offerable r)); [by eapply refused_moves|]. apply bind_ok in E as (reason & _ & E). destruct reason; [by eapply refused_moves|].
  destruct pending.
  - apply bind_ok in E as ([w1 b] & E1 & E). simpl in E. apply offer_moves in E1; [|auto].
    destruct b; [etrans; [done|]; by eapply grant_moves|]. apply Ok_inj in E. injection E as <- <-. done.
  - apply bind_ok in E as (reader & _ & E). destruct reader; [by eapply refused_moves|]. apply bind_ok in E as ([w1 b] & E1 & E). simpl in E.
    assert (moves w w1) as M1.
    { unfold resume_gate in E1. destruct held; [by eapply retry_hold_moves|]. destruct serialized; [by eapply resumed_refusal_moves|].
      apply Ok_inj in E1. injection E1 as <- <-. auto with dev. }
    destruct b; [apply Ok_inj in E; injection E as <- <-; done|]. etrans; [done|]. by eapply grant_moves.
Qed.

Lemma zone_deployment_some w zone p d : zone_deployment w zone p = Some d →
  d ∈ deployments w ∧ p (d_status d) = true ∧ ∃ c, campaign_of w (d_campaign_id d) = Some c ∧ c_zone_id c = zone ∧ c_status c = ACTIVE.
Proof.
  intros [Hd Hp]%in_of_find. apply andb_true_iff in Hp as [Ha Hp]. split_and!; [done..|]. unfold in_active_campaign in Ha.
  destruct (campaign_of w _) as [c|]; [|done]. bool_prop. eauto.
Qed.

Lemma assignment_moves w k base token now w' a : fleet_ok w → assignment_for_connector w k base token now = Ok (w', a) → moves w w'.
Proof.
  intros Hok E. unfold assignment_for_connector in E. destruct (_ || _); [apply Ok_inj in E; injection E as <- <-; auto with dev|].
  destruct (zone_deployment w (k_zone_id k) active_state) as [d|] eqn:Ea.
  - apply zone_deployment_some in Ea as (Hd & _ & _). destruct (negb (_ =? _)); [apply Ok_inj in E; injection E as <- <-; auto with dev|]. cbv zeta in E.
    destruct (_ || _); [|by apply assign_moves in E]. destruct (lock_for_assignment w k d) as [l|] eqn:El; [|apply Ok_inj in E; injection E as <- <-; auto with dev].
    eapply assign_moves in E; try done. unfold lock_for_assignment in El. destruct (negb _); [done|].
    destruct (deployment_of w (d_id d)) as [x|] eqn:Ex; [|done]. apply deployment_of_in in Ex as [Hx _]. destruct (negb _); [done|].
    destruct (campaign_of _ _); [|done]. case_bool_decide; [|done]. by injection El as <-.
  - destruct (zone_deployment w (k_zone_id k) (λ s, bool_decide (s = PENDING))) as [d|] eqn:Ep; [|apply Ok_inj in E; injection E as <- <-; auto with dev].
    destruct (_ =? _); [|apply Ok_inj in E; injection E as <- <-; auto with dev].
    apply zone_deployment_some in Ep as (Hd & Hp & c & Hc & Hz & Hs). bool_prop. eapply assign_moves; try done. intros _.
    pose proof Hc as [Hin Hid]%row_by_some. split_and!; [done|done|eauto|]. intros o Ho Heq. destruct (active_state (d_status o)) eqn:Eo; [|done].
    pose proof (List.find_none _ _ Ea o (proj1 (list_elem_of_In _ _) Ho)) as Hno. simpl in Hno. unfold in_active_campaign in Hno.
    rewrite Heq, Hc, Hz, Hs, Eo in Hno. by rewrite !bool_decide_eq_true_2 in Hno.
Qed.

Lemma resolve_moves w token now w' r : resolve_download w token now = Ok (w', r) → moves w w'.
Proof.
  intros E. unfold resolve_download in E. destruct (List.find _ _) as [g|]; [|done]. destruct (deployment_of w _) as [d|]; [|done].
  destruct (terminal_state _); [done|]. destruct (release_of w _) as [r'|]; [|done]. destruct (negb (offerable r')); [done|]. destruct (_ && _); [done|].
  cbv zeta in E. apply bind_ok in E as (u & _ & E). destruct (board_of w _) as [k|]; [|done]. apply bind_ok in E as (x & _ & E). destruct x; [done|].
  apply bind_ok in E as (same & _ & E). destruct (negb same); [done|]. apply bind_ok in E as (u1 & _ & E). apply bind_ok in E as (u2 & _ & E).
  destruct (negb _); [done|]. apply Ok_inj in E. injection E as <- <-. by apply moves_one, mv_grant_used.
Qed.

(** ** Controls *)
Lemma control_moves w public_id action reason now w' n : fleet_ok w → control_campaign w public_id action reason now = Ok (w', n) → moves w w'.
Proof.
  intros Hok E. unfold control_campaign in E. destruct (List.find _ _) as [c|] eqn:Ec; [|done]. apply in_of_find in Ec as [Hc _].
  destruct (CAMPAIGN_CONTROL_STATES action) as [target|] eqn:Et; [|done]. destruct (negb (bool_decide _)) eqn:Es; [done|]. bool_prop. cbv zeta in E.
  apply bind_ok in E as (u & _ & E). apply bind_ok in E as ([w1 n1] & E1 & E). apply Ok_inj in E. injection E as <- <-. simpl.
  assert (live c = true) as Hl.
  { unfold live. apply bool_decide_eq_true. unfold CAMPAIGN_CONTROL_SOURCES in Es. simpl in Es. repeat case_bool_decide; simpl in Es; set_solver. }
  assert (moves w w1 ∧ live_kept w w1) as [M1 L1].
  { destruct (within action _); [by eapply fail_held_downloads_moves|]. apply Ok_inj in E1. injection E1 as <- <-. auto using live_kept_refl with dev. }
  etrans; [exact M1|]. destruct (live_kept_row w w1 c L1) as [(c' & Hc' & Hid & Hl') Hall]; [apply Hok|done..|].
  destruct (bool_decide (action = "cancel")) eqn:Ecancel.
  - bool_prop. subst action. injection Et as <-. rewrite <- Hid. by apply moves_one, mv_cancel.
  - apply moves_one, mv_live; [done|]. intros x Hx Hxid. split; [by apply Hall|]. unfold live. simpl. bool_prop.
    apply bool_decide_eq_true. unfold CAMPAIGN_CONTROL_STATES in Et. simpl in Et.
    destruct (bool_decide (action = "pause")); [simplify_eq; set_solver|]. destruct (bool_decide (action = "resume")); [simplify_eq; set_solver|].
    by rewrite bool_decide_eq_false_2 in Et.
Qed.

(** Pausing campaigns that were live when the loop began. *)
Lemma revoke_loop w0 reason now rows wi w' :
  fleet_ok w0 → (∀ c, c ∈ rows → c ∈ campaigns w0 ∧ live c = true) → moves w0 wi → live_kept w0 wi →
  foldR (λ w c, failed ← fail_held_downloads w (c_id c) ("the release was revoked (" +:+ reason +:+ ")") now;
                Ok (update_campaign (c_id c) (set_revoke_pause reason) failed.1)) rows wi = Ok w' → moves w0 w'.
Proof.
  intros Hok0. revert wi. induction rows as [|c rows IH]; intros wi Hrows M L E; simpl in E; [apply Ok_inj in E as <-; done|].
  apply bind_ok in E as (w2 & E2 & E). apply bind_ok in E2 as ([w1 n1] & E1 & E2). apply Ok_inj in E2 as <-.
  assert (fleet_ok wi) as Hoki by by eapply moves_ok. destruct (fail_held_downloads_moves _ _ _ _ _ _ Hoki E1) as [M1 L1].
  assert (live_kept w0 w1) as L' by by eapply live_kept_trans. destruct (Hrows c) as [Hc Hl]; [by left|].
  destruct (live_kept_row w0 w1 c L') as [_ Hall]; [apply Hok0|done..|]. refine (IH _ _ _ _ E).
  - intros x Hx. apply Hrows. by right.
  - etrans; [exact M|]. etrans; [exact M1|]. apply moves_one, mv_live; [done|]. intros x Hx Hid. split; [by apply Hall|done].
  - eapply live_kept_trans; [exact L'|]. by apply live_kept_update.
Qed.

Lemma revoke_moves w public_id actor reason now w' : fleet_ok w → revoke_release w public_id actor reason now = Ok w' → moves w w'.
Proof.
  intros Hok E. unfold revoke_release in E. destruct (List.find _ _) as [r|] eqn:Er; [|done]. cbv zeta in E.
  set (w0 := set_releases _ w) in E.
  assert (move w w0) as M0.
  { apply mv_releases. split.
    - intros i x Hx. exists (if r_id x =? r_id r then set_revoked actor now x else x). split.
      + unfold update_by. rewrite row_by_map, Hx; [done|]. intros a. by destruct (_ =? _).
      + destruct (_ =? _); auto with dev. done.
    - intros x (a & -> & Ha)%list_elem_of_fmap. pose proof (f_sizes _ Hok a Ha). by destruct (_ =? _). }
  etrans; [by apply moves_one|]. eapply revoke_loop in E; try done; auto using live_kept_refl with dev; [by eapply move_ok|].
  intros c [Hc Hp]%elem_of_filter_bool. bool_prop. done.
Qed.
End handlers.
