(* ===== verification/OtaPublish.v ===== *)
(** * What the release store publishes

    [sync_release_store] as moves of the tables: a registered release keeps its signed identity and a revoked
    one its state; a new release comes from a package whose signature and image were verified. *)
From S2P Require Import Prelude PyText Hashes PyJson QueueEvidence RuntimeContract DeviceHealth ReleaseScope ReleaseContract OtaModel OtaReaders OtaTargets OtaProgress OtaDownload OtaStore OtaInterruption OtaAssignment OtaReturn OtaScope OtaCampaign OtaHistory OtaMoves OtaSystem.
Open Scope string_scope.
Open Scope list_scope.
Open Scope Z_scope.

(** ** The application digest survives a comparison of manifests *)
Lemma hex64_chars s : HEX64 s = true → zlen (chars s) = 64 ∧ forallb is_hex (chars s) = true.
Proof. unfold HEX64, class_match, all_chars. intros He. bool_prop. split; [lia|done]. Qed.

Lemma hex_not_dot l : forallb is_hex l = true → drop (length l - 2) l ≠ chars ".0".
Proof.
  intros Hl E. assert (x2e ∈ l) as Hin.
  { rewrite <- (take_drop (length l - 2) l), E. apply elem_of_app. right. apply elem_of_cons. by left. }
  rewrite forallb_forall in Hl. apply list_elem_of_In, Hl in Hin. done.
Qed.

(** A value whose text is a digest is that text, or a number printed as it. *)
Lemma digest_value v : HEX64 (py_str_val v) = true → v = PStr (py_str_val v) ∨ (num v = Some (py_str_val v) ∧ is_bool v = false).
Proof.
  intros Hv. pose proof (hex64_chars _ Hv) as [Hlen Hhex]. destruct v as [|b|z|r|s|l|d]; [done|by destruct b|right; done| |by left| |].
  - right. split; [|done]. simpl. case_bool_decide as E1; [subst; done|]. case_bool_decide as E2; [subst; done|]. rewrite bool_decide_eq_false_2; [done|].
    by apply hex_not_dot.
  - exfalso. simpl in Hhex. done.
  - exfalso. simpl in Hhex. done.
Qed.

Lemma py_eq_num v w s : num v = Some s → py_eq v w = true → num w = Some s.
Proof.
  intros Hv He. destruct v; try done; destruct w; try done; cbn in He; try rewrite Hv in He;
    repeat match goal with H : context [match ?x with Some _ => _ | None => _ end] |- _ => destruct x eqn:?; try done end;
    try (apply bool_decide_eq_true in He; congruence); cbn in Hv; cbn; repeat case_bool_decide; congruence.
Qed.
Lemma number_text v h : num v = Some h → HEX64 h = true → (or_text v = "" ∨ HEX64 (or_text v) = true) → or_text v = h.
Proof.
  intros Hn Hh Ht. destruct v as [|[]|z|r|s|l|d]; try done; try (injection Hn as <-; done).
  - injection Hn as <-. unfold or_text. simpl. destruct (Z.eqb_spec z 0) as [->|]; [done|]. done.
  - unfold or_text in *. simpl truthy in *. case_bool_decide as E0.
    + exfalso. apply elem_of_cons in E0 as [->| ->%list_elem_of_singleton]; injection Hn as <-; done.
    + simpl in Ht |- *. destruct Ht as [->|Ht]; [injection Hn as <-; done|].
      destruct (digest_value (PFloat r) Ht) as [?|[Hd _]]; [done|]. simpl in Hd, Hn. congruence.
Qed.
Lemma same_digest v w h :
  or_text v = h → HEX64 h = true → py_eq v w = true → (or_text w = "" ∨ HEX64 (or_text w) = true) → or_text w = h.
Proof.
  intros Hv Hh He Hw. unfold or_text in Hv at 1. destruct (truthy v); [|by subst]. subst h.
  destruct (digest_value v Hh) as [Hs|[Hn _]].
  - rewrite Hs in He. destruct w as [|[]|z|r|s|l|d]; cbn in He; try done. apply bool_decide_eq_true in He as <-. unfold or_text. simpl.
    rewrite bool_decide_eq_false_2; [done|]. intros Hz. rewrite Hz in Hh. done.
  - apply number_text; [|done..]. by eapply py_eq_num.
Qed.

Lemma assoc_filter {A} (p : string * A → bool) k d : (∀ x, p (k, x) = true) → assoc k (List.filter p d) = assoc k d.
Proof.
  intros Hp. induction d as [|[n x] d IH]; simpl; [done|]. case_bool_decide as E; [subst; rewrite Hp; simpl; by rewrite bool_decide_eq_true_2|].
  destruct (p (n, x)); simpl; [by rewrite bool_decide_eq_false_2|done].
Qed.
Lemma py_eq_entry d e k x : py_eq (PDict d) (PDict e) = true → assoc k d = Some x → ∃ y, assoc k e = Some y ∧ py_eq x y = true.
Proof.
  rewrite py_eq_dict, andb_true_iff, forallb_forall. intros [_ Hs] Hx%assoc_elem%list_elem_of_In%Hs. simpl in Hx. destruct (assoc k e) as [y|]; [eauto|done].
Qed.

(** ** A verified package *)
Section publish.
Context `{OtaPlatform}.

Record verified_package (p : Package) (v : Verified) : Prop := {
  vp_signature : rsa_verify (strip (pk_signature p)) (dumps_ascii (PDict (pk_manifest p))) = Ok tt;
  vp_family : is_ok (release_family (PDict (pk_manifest p))) = true;
  vp_contract : is_ok (validate_storage_contract (PDict (pk_manifest p)) (vf_version v)) = true;
  vp_image : pk_file p (vf_image_name v) = Some (vf_image v);
  vp_digest : vf_digest v = sha256_hex (vf_image v);
  vp_declared : item_text "image_sha256" (pk_manifest p) = Ok (vf_digest v);
  vp_version : vf_version v = text_or "version" (PDict (pk_manifest p));
  vp_application : vf_application v = or_text (get "application_sha256" (PDict (pk_manifest p)));
  vp_hex : vf_application v = "" ∨ HEX64 (vf_application v) = true }.

Lemma verify_package_inv p release_id v : verify_package p release_id = Ok v → verified_package p v ∧ vf_release_id v = release_id.
Proof.
  unfold verify_package. cbv zeta. intros ([] & Hsig & E)%bind_ok. apply bind_ok in E as (family & Hf & E). apply bind_ok in E as (contract & Hc & E).
  apply bind_ok in E as (path & Hp & E). destruct (pk_file p (basename path)) as [image|] eqn:Ei; [|done].
  apply bind_ok in E as ([] & Him & E). apply bind_ok in E as (u & _ & E).
  destruct (negb (no_text _) && _) eqn:Eh; [done|]. apply bind_ok in E as (schema & _ & E). do 2 pass_guard E.
  apply Ok_inj in E as <-. split; [|done]. unfold _verify_manifest in Hsig. destruct (negb signing_key_configured); [done|].
  unfold image_is in Him. apply bind_ok in Him as (declared & Hd & Him). destruct (negb (forallb _ _)); [done|].
  destruct (bool_decide (_ = declared)) eqn:Ed; [|done]. apply bool_decide_eq_true in Ed. constructor; simpl; try done; try congruence; [by rewrite Hf|by rewrite Hc|].
  unfold no_text in Eh. case_bool_decide; [by left|]. right. simpl in Eh. by destruct (HEX64 _).
Qed.

(** ** What a publication stores *)
Record publishes (p : Package) (v : Verified) (state : string) (stored : pyval) : Prop := {
  pb_fields : ∃ fields, stored = PDict fields ∧ ∀ k, k ∉ ["_publication_mode"; "_hil_target_mac"; "_hil_targets"] → assoc k fields = assoc k (pk_manifest p);
  pb_state : state = "AVAILABLE" ∨ state = "HIL_ONLY";
  pb_available : state = "AVAILABLE" → experimental (PDict (pk_manifest p)) = false ∧ require_production_qualification (PDict (pk_manifest p)) = Ok tt;
  pb_quarantined : state = "HIL_ONLY" →
    truthy (get "_hil_target_mac" stored) = true
    ∨ ∃ git raw ts, _parse_release_hil_targets (vf_release_id v, vf_version v, git, vf_digest v, Some (vf_application v)) raw = Ok ts ∧ ts ≠ []
        ∧ get "_hil_targets" stored = PList (map model_dump ts) }.

Lemma read_marker_inv fields v marker mac targets :
  read_marker fields v marker = Ok (mac, targets) →
  (truthy mac = true ∧ targets = PNone)
  ∨ ∃ git raw ts, _parse_release_hil_targets (vf_release_id v, vf_version v, git, vf_digest v, Some (vf_application v)) raw = Ok ts ∧ ts ≠ []
      ∧ targets = PList (map model_dump ts).
Proof.
  unfold read_marker. destruct (negb (is_dict marker)); [done|]. destruct (experimental _ && _); [done|]. intros ([m t] & Es & E)%bind_ok. cbn [fst snd] in E.
  destruct (negb (truthy m) && negb (truthy t)) eqn:Et; [done|]. apply bind_ok in E as (git & _ & E). do 2 pass_guard E.
  apply Ok_inj in E. injection E as -> ->. destruct (has_key "targets" marker).
  - apply bind_ok in Es as (g & _ & Es). apply bind_ok in Es as (ts & Hts & Es). destruct (truthy (get "target_mac" marker)); [done|].
    pass_guard Es. apply Ok_inj in Es. injection Es as <- <-. right. exists g, (get "targets" marker), ts. split_and!; try done. by intros ->.
  - apply Ok_inj in Es. injection Es as <- <-. left. split; [|done]. by destruct (truthy (PStr _)).
Qed.

Lemma publication_inv p v state stored : publication p v = Ok (state, stored) → publishes p v state stored.
Proof.
  unfold publication. cbv zeta. intros ([st [mac targets]] & Es & E)%bind_ok. cbn [fst snd] in E. apply Ok_inj in E. injection E as <- <-.
  assert (∀ k, k ∉ ["_publication_mode"; "_hil_target_mac"; "_hil_targets"] →
    assoc k (assoc_set "_hil_targets" targets (assoc_set "_hil_target_mac" mac (assoc_set "_publication_mode" (PStr st) (pk_manifest p)))) = assoc k (pk_manifest p)) as Hk.
  { intros k Hk. rewrite !assoc_set_ne by (intros ->; apply Hk; set_solver). done. }
  assert (get "_hil_targets" (PDict (assoc_set "_hil_targets" targets (assoc_set "_hil_target_mac" mac (assoc_set "_publication_mode" (PStr st) (pk_manifest p))))) = targets) as Ht
    by (unfold get; by rewrite assoc_set_eq).
  assert (get "_hil_target_mac" (PDict (assoc_set "_hil_targets" targets (assoc_set "_hil_target_mac" mac (assoc_set "_publication_mode" (PStr st) (pk_manifest p))))) = mac) as Hm
    by (unfold get; by rewrite assoc_set_ne, assoc_set_eq).
  destruct (pk_marker p) as [marker|].
  - apply bind_ok in Es as ([m t] & Er & Es). apply Ok_inj in Es. injection Es as <- -> ->. constructor; [eauto|by right|done|]. intros _.
    rewrite Ht, Hm. apply read_marker_inv in Er as [[? _]|?]; [by left|by right].
  - destruct (experimental _) eqn:Ex; [done|]. apply bind_ok in Es as ([] & Hq & Es). apply Ok_inj in Es. injection Es as <- <- <-. constructor; [eauto|by left|done|done].
Qed.

(** ** The tables after a package *)
(** A published row keeps every column of its signed identity. *)
Definition same_identity (r r' : FirmwareRelease) : Prop :=
  r_id r' = r_id r ∧ r_release_id r' = r_release_id r ∧ r_version r' = r_version r ∧ r_git_sha r' = r_git_sha r ∧ r_image_sha256 r' = r_image_sha256 r
  ∧ r_image_size r' = r_image_size r ∧ r_partition_layout r' = r_partition_layout r ∧ r_minimum_bootstrap_version r' = r_minimum_bootstrap_version r
  ∧ r_storage_name r' = r_storage_name r ∧ r_signing_key_id r' = r_signing_key_id r.

(** A release that a package of the store stands behind. *)
Definition published_from (p : Package) (r : FirmwareRelease) : Prop :=
  ∃ v, verified_package p v ∧ publishes p v (r_state r) (r_manifest r) ∧ vf_release_id v = r_release_id r ∧ r_image_sha256 r = sha256_hex (vf_image v).

Definition republished (p : Package) (r r' : FirmwareRelease) : Prop :=
  same_identity r r' ∧ release_kept r r' ∧ r_state r ≠ "REVOKED" ∧ published_from p r'.

Definition named (release_id : string) (r : FirmwareRelease) : bool := bool_decide (r_release_id r = release_id).

Lemma eq_str_inv v s : eq_str v s = true → v = PStr s.
Proof. destruct v; simpl; try done. by intros ->%bool_decide_eq_true. Qed.

Lemma kept_application p v state stored r :
  verified_package p v → publishes p v state stored → py_eq (signed_part (r_manifest r)) (PDict (pk_manifest p)) = true →
  ∀ digest, _application_sha256 r = Some digest → _application_sha256 (set_published state stored r) = Some digest.
Proof.
  intros Hv Hp He digest Hd. unfold _application_sha256 in *. simpl r_manifest in *. fold (or_text (get "application_sha256" (r_manifest r))) in Hd.
  fold (or_text (get "application_sha256" stored)). cbv zeta in *. destruct (HEX64 _) eqn:Eh in Hd; [|done]. injection Hd as Hd.
  destruct (pb_fields _ _ _ _ Hp) as (fields & -> & Hf). specialize (Hf "application_sha256" ltac:(set_solver)).
  destruct (r_manifest r) as [| | | | | |old]; try (simpl in Hd; subst; done). unfold get in *.
  destruct (assoc "application_sha256" old) as [x|] eqn:Ex; [|simpl in Hd; subst; done]. simpl in Hd, Eh. simpl signed_part in He.
  eapply py_eq_entry in He as (y & Ey & Hxy); [|by rewrite assoc_filter]. rewrite Hf, Ey. simpl.
  pose proof (vp_hex _ _ Hv) as Hh. rewrite (vp_application _ _ Hv) in Hh. unfold get in Hh. rewrite Ey in Hh. simpl in Hh.
  pose proof (same_digest x y digest Hd ltac:(congruence) Hxy Hh) as ->. rewrite Hd in Eh. by rewrite Eh.
Qed.

Lemma republished_ok p v state stored r :
  verified_package p v → publishes p v state stored → vf_release_id v = r_release_id r → immutable_kept r (PDict (pk_manifest p)) = true →
  py_eq (signed_part (r_manifest r)) (PDict (pk_manifest p)) = true → r_state r ≠ "REVOKED" → republished p r (set_published state stored r).
Proof.
  intros Hv Hp Hid Hi He Hr. split; [done|]. split; [split; [done|split; [done|by eapply kept_application]]|]. split; [done|].
  exists v. split_and!; try done. simpl. rewrite <- (vp_digest _ _ Hv). unfold immutable_kept in Hi. bool_prop.
  match goal with H : eq_str (get "image_sha256" _) _ = true |- _ => apply eq_str_inv in H; rename H into Hg end.
  pose proof (vp_declared _ _ Hv) as Hd. unfold item_text, item in Hd. unfold get in Hg. destruct (assoc "image_sha256" (pk_manifest p)) as [x|]; [|done].
  simpl in Hg. subst x. simpl in Hd. congruence.
Qed.

Lemma sync_package_inv w p w' :
  sync_package w p = Ok w' →
  w' = w
  ∨ (∃ release_id r state stored, List.find (named release_id) (releases w) = Some r ∧ republished p r (set_published state stored r)
      ∧ w' = set_releases (update_first (named release_id) (set_published state stored) (releases w)) w)
  ∨ (∃ r, w' = add_release r w ∧ published_from p r ∧ r_id r = next_id w ∧ 0 <= r_image_size r
      ∧ ∀ o, o ∈ releases w → release_clash r o = false).
Proof.
  unfold sync_package. cbv zeta. set (rid := text_or "release_id" _). intros E. destruct (no_text rid); [left; by injection E|].
  apply bind_ok in E as (v & Hv & E). apply verify_package_inv in Hv as [Hv Hid]. apply bind_ok in E as ([state stored] & Hp%publication_inv & E). cbn [fst snd] in E.
  change (λ r : FirmwareRelease, bool_decide (r_release_id r = rid)) with (named rid) in E. destruct (List.find (named rid) (releases w)) as [r|] eqn:Er.
  - destruct (immutable_kept r _) eqn:Hi; [|done]. destruct (py_eq (signed_part _) _) eqn:He; [|done]. simpl in E. case_bool_decide as Hr; [left; by injection E|].
    right. left. exists rid, r, state, stored. split; [done|]. split; [|by injection E]. eapply republished_ok; try done. rewrite Hid.
    apply in_of_find in Er as [_ Er]. by apply bool_decide_eq_true in Er.
  - right. right. apply bind_ok in E as (r & Hnew & E). destruct (existsb _ _) eqn:Ex; [done|]. exists r. split; [by injection E|].
    unfold new_release in Hnew. do 4 apply bind_ok in Hnew as (? & _ & Hnew). apply Ok_inj in Hnew. subst r. split_and!; simpl; try done; [|unfold zlen; lia|].
    + exists v. split_and!; try done. apply Hv.
    + intros o Ho. destruct (release_clash _ o) eqn:Ec; [|done]. exfalso. apply not_true_iff_false in Ex. apply Ex, List.existsb_exists. exists o.
      split; [by apply list_elem_of_In|done].
Qed.

Lemma update_first_elem {A} (p : A → bool) f l x : x ∈ update_first p f l → x ∈ l ∨ ∃ y, List.find p l = Some y ∧ x = f y.
Proof.
  induction l as [|a l IH]; simpl; [by intros ?%elem_of_nil|]. destruct (p a); intros [->|Hx]%elem_of_cons; [right; eauto|left; set_solver|left; set_solver|].
  destruct (IH Hx) as [?|?]; [left; set_solver|by right].
Qed.
Lemma update_first_keep {A} (p : A → bool) f l x : x ∈ l → x ∈ update_first p f l ∨ (List.find p l = Some x ∧ f x ∈ update_first p f l).
Proof.
  induction l as [|a l IH]; simpl; [by intros ?%elem_of_nil|]. destruct (p a); intros [->|Hx]%elem_of_cons.
  - right. split; [done|]. set_solver.
  - left. set_solver.
  - left. set_solver.
  - destruct (IH Hx) as [?|[? ?]]; [left|right]; set_solver.
Qed.
Lemma update_first_row p f l i x :
  (∀ r, r_id (f r) = r_id r) → row_by r_id i l = Some x →
  ∃ x', row_by r_id i (update_first p f l) = Some x' ∧ (x' = x ∨ (List.find p l = Some x ∧ x' = f x)).
Proof.
  intros Hf. unfold row_by. induction l as [|a l IH]; simpl; [done|]. destruct (r_id a =? i) eqn:Ea.
  - intros [= <-]. destruct (p a); simpl; [rewrite Hf|]; rewrite Ea; eauto.
  - intros Hx. destruct (p a); simpl; [rewrite Hf|]; rewrite Ea; eauto.
Qed.

Lemma row_by_app {A} (key : A → Z) i l k x : row_by key i l = Some x → row_by key i (l ++ k) = Some x.
Proof. unfold row_by. induction l as [|a l IH]; simpl; [done|]. by destruct (key a =? i). Qed.

Lemma sync_package_moves w p w' : fleet_ok w → sync_package w p = Ok w' → moves w w'.
Proof.
  intros Hok [->|[(rid & r & state & stored & Hr & (_ & Hk & _) & ->)|(r & -> & _ & _ & Hsize & _)]]%sync_package_inv; [apply moves_refl| |].
  - apply moves_one, mv_releases. split.
    + intros i x Hx. destruct (update_first_row (named rid) (set_published state stored) _ i x ltac:(done) Hx) as (x' & Hx' & [->|[Hf ->]]); eauto with dev.
      exists (set_published state stored x). split; [done|]. rewrite Hr in Hf. by injection Hf as <-.
    + intros x [Hx|(y & Hy & ->)]%update_first_elem; [by apply (f_sizes _ Hok)|]. apply in_of_find in Hy as [Hy _]. by apply (f_sizes _ Hok y).
  - etrans; [apply moves_one, (mv_releases w (releases w ++ [r]))|].
    + split; [|intros x [Hx| ->%list_elem_of_singleton]%elem_of_app; [by apply (f_sizes _ Hok)|done]].
      intros i x Hx. exists x. split; [|auto with dev]. by apply row_by_app.
    + apply moves_one. change (add_release r w) with (set_world (boards w) (telemetry w) (hil_run_deployments w) (next_id w + 1) (set_releases (releases w ++ [r]) w)).
      apply (mv_world _ (boards w) (telemetry w) (hil_run_deployments w) (next_id w + 1)); simpl; [|lia]. intros i k Hk Hl. eauto.
Qed.

Lemma sync_moves w ps w' : fleet_ok w → sync_release_store w ps = Ok w' → moves w w'.
Proof.
  intros Hok E. unfold sync_release_store in E. destruct (negb _); [injection E as <-; apply moves_refl|]. destruct (negb _); [done|].
  revert w Hok E. induction ps as [|p ps IH]; intros w Hok; simpl; [intros [= <-]; apply moves_refl|].
  intros (w1 & E1 & E)%bind_ok. apply sync_package_moves in E1; [|done]. etrans; [exact E1|]. apply IH; [by eapply moves_ok|done].
Qed.

End publish.
