(* ===== verification/OtaReach.v ===== *)
(** * Every run of the rollout

    The remaining handlers as sequences of moves, the step relation of the whole rollout,
    and what holds along every run of it. *)
From S2P Require Import Prelude PyText Hashes PyJson QueueEvidence RuntimeContract DeviceHealth ReleaseScope ReleaseContract OtaModel OtaReaders OtaTargets OtaProgress OtaDownload OtaStore OtaInterruption OtaAssignment OtaReturn OtaScope OtaCampaign OtaHistory OtaMoves OtaSystem OtaPublish.
Open Scope string_scope.
Open Scope list_scope.
Open Scope Z_scope.

Section heartbeats.
Context `{OtaPlatform} `{ReturnPlatform}.

(** ** Heartbeats *)
Lemma download_interruption_inv w k d r hb code state now w1 i :
  download_interruption w k d r hb code state now = Ok (w1, i) →
  (w1 = w ∧ ∀ c m, i ≠ Some (EXHAUSTED c m)) ∨
  (downloading d = true ∧ ∃ details,
     (∃ c m, i = Some (EXHAUSTED c m) ∧ w1 = add_event (d_id d) DOWNLOAD_INTERRUPTED details now w) ∨
     (∃ t n m, i = Some (RETRY_SCHEDULED t n) ∧ zlen (_interruptions w d) + 1 < 3 ∧
        w1 = update_deployment (d_id d) (set_interrupted m now) (add_event (d_id d) DOWNLOAD_INTERRUPTED details now w))).
Proof.
  intros E. unfold download_interruption in E. destruct (resumable _ _ _ _ _ _ _) eqn:Er; simpl in E; [|apply Ok_inj in E; injection E as <- <-; by left].
  assert (downloading d = true) as Hdl by (unfold resumable in Er; bool_prop; done). cbv zeta in E.
  destruct (newest _) as [offered|].
  - destruct (last (List.filter _ (telemetry w))) as [previous|]; [|apply Ok_inj in E; injection E as <- <-; by left].
    destruct (_ && _); [|apply Ok_inj in E; injection E as <- <-; by left]. unfold record_stop in E. cbv zeta in E.
    destruct (_ || _) eqn:Ex; apply Ok_inj in E; injection E as <- <-; right; (split; [done|]); eexists.
    + left. eauto.
    + right. do 3 eexists. split_and!; [done| |done]. apply orb_false_iff in Ex as [Ex _]. apply Z.leb_gt in Ex. unfold DOWNLOAD_ATTEMPT_LIMIT in Ex. lia.
  - destruct (last (_interruptions w d)) as [latest|]; [|apply Ok_inj in E; injection E as <- <-; by left].
    apply bind_ok in E as (x & _ & E). destruct x; apply Ok_inj in E; injection E as <- <-; by left.
Qed.

Lemma updating_moves w k : moves w (mark_updating k w).
Proof. by apply board_moves. Qed.

Lemma reported_error_moves w k d r hb code state now w' :
  fleet_ok w → d ∈ deployments w → d_status d ≠ PENDING → apply_reported_error w k d r hb code state now = Ok w' → moves w w'.
Proof.
  intros Hok Hd Hp E. unfold apply_reported_error in E. apply bind_ok in E as ([w1 i] & Ei & E). cbv zeta in E. simpl in E.
  apply download_interruption_inv in Ei as [[-> Hi]|(Hdl & details & [(c & m & -> & ->)|(t & n & m & -> & Hn & ->)])].
  - destruct i as [[]|]; [apply Ok_inj in E as <-; apply updating_moves..|by eapply fail_moves|by destruct (Hi error_code message)|by eapply fail_moves].
  - by eapply exhausted_moves.
  - apply Ok_inj in E as <-. etrans; [|apply updating_moves]. by apply moves_one, mv_stop.
Qed.

Lemma flag_moves w i code message : moves w (update_board i (flag_return code message) w).
Proof. by apply board_moves. Qed.

Lemma observed_return_moves w k d hb evidence now w' :
  fleet_ok w → d ∈ deployments w → d_status d ≠ PENDING → record_observed_return w k d hb evidence now = Ok w' → moves w w'.
Proof.
  intros Hok Hd Hp E. unfold record_observed_return in E. destruct (deployment_of w (d_id d)) as [l|]; [|apply Ok_inj in E as <-; auto with dev].
  destruct (negb _); [apply Ok_inj in E as <-; auto with dev|]. apply bind_ok in E as (g & _ & E). cbv zeta in E.
  apply bind_ok in E as ([w1 d1] & E1 & E). apply Ok_inj in E as <-. etrans; [|apply flag_moves].
  eapply record_progress_moves; try done; [|intros st Hst; apply (inj Some) in Hst; by subst st].
  intros x Hx Hid. by rewrite (public_row w d x Hok Hd Hx Hid).
Qed.

Lemma watched_in w k d : watched_deployment w k = Some d → d ∈ deployments w ∧ active_state (d_status d) = true.
Proof.
  intros Hd%last_Some_elem_of. apply elem_of_filter_bool in Hd as [Hd Hp]. bool_prop. done.
Qed.
Lemma active_offered s : active_state s = true → s ≠ PENDING.
Proof. by destruct s. Qed.

Lemma heartbeat_moves w k hb now w' : fleet_ok w → apply_ota_heartbeat_diagnostics w k hb now = Ok w' → moves w w'.
Proof.
  intros Hok E. unfold apply_ota_heartbeat_diagnostics in E. cbv zeta in E.
  destruct (watched_deployment w k) as [d|] eqn:Ed; [|apply Ok_inj in E as <-; auto with dev].
  apply watched_in in Ed as [Hd Ha%active_offered]. destruct (previous_firmware_return_evidence _ _ _ _ _); [by eapply observed_return_moves|].
  destruct (_ || _); [apply Ok_inj in E as <-; auto with dev|]. destruct (bool_decide (_ = "UPDATING")); [apply Ok_inj in E as <-; apply updating_moves|].
  destruct (_ && _); [apply Ok_inj in E as <-; apply updating_moves|].
  destruct (bool_decide (_ = "")); [apply Ok_inj in E as <-; destruct (within _ _); auto using updating_moves with dev|].
  destruct (release_of w _) as [r|]; [|apply Ok_inj in E as <-; auto with dev].
  destruct (_ && _); [apply Ok_inj in E as <-; apply updating_moves|by eapply reported_error_moves].
Qed.

(** ** A board's report. It knows a deployment from its assignment, so not a pending one. *)
Lemma device_return_moves w k pid p now w' o :
  fleet_ok w → record_device_reported_return w k pid p now = Ok (w', o) → moves w w' ∧ (o = None → w' = w).
Proof.
  intros Hok E. unfold record_device_reported_return in E. destruct (negb _); [apply Ok_inj in E; injection E as <- <-; auto with dev|].
  destruct (List.find _ _) as [d|] eqn:Ed; [|apply Ok_inj in E; injection E as <- <-; auto with dev]. apply in_of_find in Ed as [Hd _].
  destruct (device_return_in_scope _ _ _) eqn:Es; simpl in E; [|apply Ok_inj in E; injection E as <- <-; auto with dev].
  destruct (device_return_evidence w k d).
  - apply bind_ok in E as (g & _ & E). cbv zeta in E. apply bind_ok in E as ([w1 d1] & E1 & E). apply Ok_inj in E. injection E as <- <-.
    split; [|done]. etrans; [|apply flag_moves]. eapply record_progress_moves; try done; [|intros st Hst; apply (inj Some) in Hst; by subst st].
    intros x Hx Hid. rewrite (public_row w d x Hok Hd Hx Hid). unfold device_return_in_scope in Es. bool_prop. congruence.
  - destruct (return_report_may_wait _ _ _); [done|]. apply Ok_inj in E; injection E as <- <-; auto with dev.
Qed.

Lemma report_moves w k pid p now w' receipt :
  fleet_ok w → report_progress w k pid p now = Ok (w', receipt) → p_event_details p = [] →
  (∀ d, d ∈ deployments w → d_deployment_id d = pid → d_status d ≠ PENDING) → moves w w'.
Proof.
  intros Hok E Hdet Hknown. unfold report_progress in E. cbv zeta in E. apply bind_ok in E as ([wa da] & Ea & E). apply bind_ok in E as ([wb db] & Eb & E).
  apply bind_ok in E as (x & _ & E). apply Ok_inj in E. injection E as <- <-. simpl in *.
  assert (moves w wa ∧ (da = None → wa = w)) as [Ma Hnone].
  { destruct (_ && _ && _); [by eapply device_return_moves|]. apply Ok_inj in Ea. injection Ea as <- <-. auto with dev. }
  destruct da as [d|]; [apply Ok_inj in Eb; injection Eb as <- <-; done|]. rewrite (Hnone eq_refl) in Eb. by eapply record_progress_moves.
Qed.
End heartbeats.

Section campaigns.
Context `{OtaPlatform} `{ReturnPlatform} `{ScopePlatform}.

(** ** Creation and retry *)
Lemma insert_moves w campaign r k now w' d :
  insert_deployment w campaign r k now = Ok (w', d) → (∃ r', release_of w (r_id r) = Some r') →
  (∃ c, c ∈ campaigns w ∧ c_id c = campaign ∧ live c = true) →
  moves w w' ∧ w' = add_deployment d w ∧ d_id d = next_id w.
Proof.
  intros E Hr Hc. unfold insert_deployment in E. cbv zeta in E. destruct (existsb _ _) eqn:Ex; [done|]. apply Ok_inj in E. injection E as <- <-.
  split; [|done]. apply moves_one, mv_deployment; try done. intros (o & Eo & Ho)%list_elem_of_fmap. apply not_true_iff_false in Ex. apply Ex.
  apply List.existsb_exists. exists o. split; [by apply list_elem_of_In|]. by apply bool_decide_eq_true.
Qed.

Lemma enlist_moves c r actor w0 now w k w' :
  fleet_ok w → (∃ r', release_of w (r_id r) = Some r') → c ∈ campaigns w → live c = true → enlist c r actor w0 now w k = Ok w' →
  moves w w' ∧ releases w' = releases w ∧ campaigns w' = campaigns w.
Proof.
  intros Hok Hr Hc Hl E. unfold enlist in E. apply bind_ok in E as ([w1 d] & E1 & E). cbv zeta in E. simpl in E.
  apply insert_moves in E1 as (M1 & -> & Hid); [|done|eauto]. apply bind_ok in E as (reserved & _ & E).
  set (wa := if bool_decide (campaign_warnings w0 k r now = []) then _ else _) in E.
  set (wb := match reserved with Some details => _ | None => wa end) in E.
  assert (moves (add_deployment d w) wa ∧ releases wa = releases w ∧ campaigns wa = campaigns w ∧ d_id d < next_id wa) as (Ma & Ra & Ca & Na).
  { unfold wa. destruct (bool_decide (_ = [])); simpl; (split_and!; [|done..|lia]); [auto with dev|]. apply moves_one, mv_event; simpl; [lia|done]. }
  assert (moves wa wb ∧ releases wb = releases w ∧ campaigns wb = campaigns w ∧ d_id d < next_id wb) as (Mb & Rb & Cb & Nb).
  { unfold wb. destruct reserved; simpl; (split_and!; [|done..|lia]); [|auto with dev]. apply moves_one, mv_event; [done|done]. }
  assert (moves w wb) as M by (etrans; [exact M1|]; by etrans). case_bool_decide.
  - apply bind_ok in E as (details & _ & E). apply Ok_inj in E as <-. split_and!; [|done..]. etrans; [exact M|]. apply moves_one, mv_event; done.
  - apply Ok_inj in E as <-. done.
Qed.

Lemma enlist_all_moves c r actor w0 now l w w' :
  fleet_ok w → (∃ r', release_of w (r_id r) = Some r') → c ∈ campaigns w → live c = true → foldR (enlist c r actor w0 now) l w = Ok w' → moves w w'.
Proof.
  revert w. induction l as [|k l IH]; intros w Hok Hr Hc Hl E; simpl in E; [apply Ok_inj in E as <-; auto with dev|].
  apply bind_ok in E as (w1 & E1 & E). destruct (enlist_moves _ _ _ _ _ _ _ _ Hok Hr Hc Hl E1) as (M1 & R1 & C1). etrans; [exact M1|].
  eapply IH; [by eapply moves_ok| | |done|done].
  - unfold release_of. by rewrite R1.
  - by rewrite C1.
Qed.

(** The scope names an offerable release of the synchronized store. *)
Lemma campaign_scope_inv w0 release zone now w s :
  _campaign_scope w0 release zone now = Ok (w, s) →
  sync_release_store w0 (store_packages now) = Ok w ∧ sc_release s ∈ releases w ∧ offerable (sc_release s) = true.
Proof.
  unfold _campaign_scope. intros (w1 & E1 & E)%bind_ok. destruct (List.find _ _) as [r|] eqn:Er; [|done]. apply in_of_find in Er as [Hr Ho].
  cbv zeta in E. do 2 pass_guard E. do 6 apply bind_ok in E as (? & _ & E). apply Ok_inj in E. injection E as <- <-. simpl. bool_prop. done.
Qed.
Lemma stored_release w r : r ∈ releases w → ∃ r', release_of w (r_id r) = Some r'.
Proof.
  intros Hr. unfold release_of, row_by. destruct (List.find _ _) as [r'|] eqn:E; [eauto|]. exfalso.
  pose proof (List.find_none _ _ E r (proj1 (list_elem_of_In _ _) Hr)) as Hn. simpl in Hn. lia.
Qed.
Lemma verified_scope_inv w0 token release zone now w s :
  verify_campaign_scope_token w0 token release zone now = Ok (w, s) → _campaign_scope w0 release zone now = Ok (w, s).
Proof.
  unfold verify_campaign_scope_token. intros (payload & _ & E)%bind_ok. apply bind_ok in E as (expires & _ & E). do 2 pass_guard E.
  apply bind_ok in E as (ws & Ews & E). do 2 apply bind_ok in E as (? & _ & E). destruct (eq_str _ _); [|done]. apply Ok_inj in E. by subst.
Qed.

Lemma create_moves w release zone actor token key reason override digest now w' c :
  fleet_ok w → create_campaign w release zone actor token key reason override digest now = Ok (w', c) → moves w w'.
Proof.
  intros Hok0 E. unfold create_campaign in E. destruct (replayed w actor key) as [x|].
  { destruct (replay_matches _ _ _ _); [|done]. apply Ok_inj in E. injection E as <- <-. auto with dev. }
  apply bind_ok in E as ([w1 s] & Es & E). apply verified_scope_inv, campaign_scope_inv in Es as (Es & Hr & _). cbn [fst snd] in E. cbv zeta in E.
  apply sync_moves in Es; [|done]. pose proof (moves_ok _ _ Hok0 Es) as Hok. etrans; [exact Es|]. clear Es Hok0 w. rename w1 into w. apply bind_ok in E as (reserved & _ & E). destruct reserved; [done|].
  destruct (existsb (λ o, bool_decide (c_zone_id o = _) && live o) (campaigns w)) eqn:Ez; [done|]. cbv zeta in E. destruct (_ && _); [done|]. destruct (_ && _); [done|]. set (c0 := mkCampaign _ _ _ _ _ _ _ _ _ _ _ _ _ _ _ _) in E.
  destruct (existsb (λ o, bool_decide (c_campaign_id o = _)) (campaigns w)); [done|]. apply bind_ok in E as (w1 & E1 & E). apply Ok_inj in E. injection E as <- <-.
  assert (move w (add_campaign c0 w)) as M.
  { apply mv_campaign; try done. intros o Ho Hz. destruct (live o) eqn:El; [|done]. apply not_true_iff_false in Ez. exfalso. apply Ez.
    apply List.existsb_exists. exists o. split; [by apply list_elem_of_In|]. rewrite El, andb_true_r. by apply bool_decide_eq_true. }
  etrans; [by apply moves_one|]. eapply enlist_all_moves; [by eapply move_ok| | | |exact E1]; [exact (stored_release _ _ Hr)| |done].
  simpl. apply elem_of_app. right. by apply list_elem_of_singleton.
Qed.

Lemma retry_paused w c d : retry_refusal w c d = None → c_status c = PAUSED.
Proof.
  unfold retry_refusal. destruct (retry_kind d); [|done]. destruct (bool_decide (c_status c = PAUSED)) eqn:E; simpl; [|done]. by bool_prop.
Qed.

Lemma retry_moves w cid did actor override reason digest pending now w' d :
  fleet_ok w → retry_interrupted_target w cid did actor override reason digest pending now = Ok (w', d) → moves w w'.
Proof.
  intros Hok E. unfold retry_interrupted_target in E. destruct (List.find _ (campaigns w)) as [c|] eqn:Ec; [|done]. apply in_of_find in Ec as [Hc _].
  destruct (List.find _ (deployments w)) as [x|] eqn:Ex; [|done]. destruct (release_of w (d_release_id x)) as [r|] eqn:Er; [|done].
  destruct (retry_refusal w c x) eqn:Eref; [done|]. destruct (board_of w _) as [k|]; [|done]. cbv zeta in E. destruct (negb _); [done|]. destruct (_ && _); [done|].
  destruct (_ && _); [done|]. apply bind_ok in E as ([w1 d1] & E1 & E). apply Ok_inj in E. injection E as <- <-. apply retry_paused in Eref.
  assert (live c = true) as Hl by (unfold live; by rewrite Eref). pose proof Er as [_ Hrid]%row_by_some.
  apply insert_moves in E1 as (M1 & -> & Hid); [|rewrite Hrid; eauto|eauto]. etrans; [exact M1|].
  match goal with |- moves _ (update_campaign _ _ ?w2) => etrans; [apply (moves_one _ w2), mv_event; simpl; [lia|done]|] end.
  apply moves_one, mv_live; [done|]. simpl. intros o Ho Ho'. assert (o = c) as -> by (eapply (NoDup_map_inj c_id); try done; apply Hok). done.
Qed.

(** ** Closing and clearing *)
Lemma archive_moves w public_id actor now w' b : archive_campaign w public_id actor now = Ok (w', b) → moves w w'.
Proof.
  intros E. unfold archive_campaign in E. destruct (List.find _ _) as [c|]; [|done]. destruct (negb _); [done|].
  destruct (c_archived_at c); apply Ok_inj in E; injection E as <- <-; [auto with dev|]. apply moves_one.
  apply (mv_annotate w (λ x, if c_id x =? c_id c then set_archived actor now x else x)). intros x. by destruct (_ =? _).
Qed.

Lemma archive_closed_moves w actor now : moves w (archive_closed w actor now).1.
Proof. apply moves_one, mv_annotate. intros c. by destruct (unarchived c). Qed.

Lemma discard_subset x l y : y ∈ discard x l → y ∈ l.
Proof. unfold discard. rewrite elem_of_filter_bool. by intros [Hy _]. Qed.

Lemma sweep_subset w l y : y ∈ sweep w l → y ∈ l.
Proof.
  unfold sweep. generalize (sort_by (λ c : Z, c) l) as order. intros order. revert l. induction order as [|c order IH]; intros l; simpl; [done|].
  intros Hy. apply IH in Hy. destruct (settled_in w l c); [done|by eapply discard_subset].
Qed.

Lemma shrink_subset fuel w l y : y ∈ shrink fuel w l → y ∈ l.
Proof.
  revert l. induction fuel as [|fuel IH]; intros l; simpl; [done|]. destruct (_ =? _)%nat; intros Hy; [by eapply sweep_subset|]. by apply IH, sweep_subset in Hy.
Qed.

Lemma deletable_subset w cs i : i ∈ deletable w cs → i ∈ map c_id cs ∧ candidate w i = true.
Proof. unfold deletable. intros Hy%shrink_subset. by apply elem_of_filter_bool in Hy. Qed.

Lemma remove_closed_moves w actor now : moves w (remove_closed w actor now).
Proof.
  unfold remove_closed. set (rows := take _ _). set (ids := deletable w rows).
  assert (move w (delete_campaigns w ids)) as M.
  { apply mv_delete. intros i [(c & -> & Hc)%list_elem_of_fmap _]%deletable_subset. unfold rows in Hc.
    assert (c ∈ List.filter unarchived (campaigns w)) as Hc' by (by eapply elem_of_take in Hc as (? & ? & ?); eapply list_elem_of_lookup_2).
    apply elem_of_filter_bool in Hc' as [Hin Hu]. unfold unarchived in Hu. bool_prop. eauto. }
  etrans; [by apply moves_one|]. cbv zeta. apply moves_one, mv_annotate. intros c. by destruct (_ && _).
Qed.

Lemma clear_one_moves now w r c w' r' : fleet_ok w → clear_one now (w, r) c = Ok (w', r') → moves w w'.
Proof.
  intros Hok E. unfold clear_one in E. destruct (campaign_of w (c_id c)) as [x|]; [|apply Ok_inj in E; injection E as <- <-; auto with dev]. cbv zeta in E.
  destruct (negb _ && _) eqn:Es.
  - destruct (database_busy w x); [apply Ok_inj in E; injection E as <- <-; auto with dev|].
    destruct (complete_if_succeeded w (Some x) now) as [w1 finished] eqn:Ec. pose proof (complete_moves w (Some x) now Hok) as Mc. rewrite Ec in Mc.
    destruct finished; [apply Ok_inj in E; injection E as <- <-; done|]. destruct (existsb _ _); [apply Ok_inj in E; injection E as <- <-; auto with dev|].
    destruct (control_campaign _ _ _ _ _) as [[w2 n]|e m] eqn:Ectl; [|destruct (is_value_error e); [apply Ok_inj in E; injection E as <- <-; auto with dev|done]].
    apply Ok_inj in E. injection E as <- <-. by eapply control_moves.
  - destruct (existsb _ _); [apply Ok_inj in E; injection E as <- <-; auto with dev|].
    destruct (database_busy w x); [apply Ok_inj in E; injection E as <- <-; auto with dev|].
    destruct (control_campaign _ _ _ _ _) as [[w2 n]|e m] eqn:Ectl; [|destruct (is_value_error e); [apply Ok_inj in E; injection E as <- <-; auto with dev|done]].
    apply Ok_inj in E. injection E as <- <-. by eapply control_moves.
Qed.

(** A loop whose body is a sequence of moves. *)
Lemma foldR_only_moves {A S} (f : S → A → res S) (world : S → fleet) l s s' :
  (∀ s x s', fleet_ok (world s) → f s x = Ok s' → moves (world s) (world s')) → fleet_ok (world s) → foldR f l s = Ok s' → moves (world s) (world s').
Proof.
  intros Hf. revert s. induction l as [|x l IH]; intros s Hok; simpl; [intros [= <-]; auto with dev|].
  intros (s1 & E1 & E)%bind_ok. pose proof (Hf _ _ _ Hok E1) as M1. etrans; [exact M1|]. apply IH; [by eapply moves_ok|done].
Qed.

Lemma clear_history_moves w actor now w' r : fleet_ok w → clear_history w actor now = Ok (w', r) → moves w w'.
Proof.
  intros Hok E. unfold clear_history in E. apply bind_ok in E as ([w1 r1] & E1 & E). apply Ok_inj in E. injection E as <- <-.
  eapply (foldR_only_moves _ fst) in E1; [|intros [wa ra] x [wb rb] Ha Hb; by eapply clear_one_moves|done]. etrans; [exact E1|]. apply remove_closed_moves.
Qed.

Lemma free_zone_moves w zone now w' : fleet_ok w → _free_zone w zone now = Ok w' → moves w w'.
Proof.
  intros Hok E. unfold _free_zone in E. eapply (foldR_only_moves _ (λ w, w)) in E; [done| |done]. clear. intros w c w' Hok E. unfold free_zone_step in E.
  destruct (campaign_of w (c_id c)) as [x|]; [|apply Ok_inj in E as <-; auto with dev]. cbv zeta in E. destruct (negb _); [done|].
  pose proof (complete_moves w (Some x) now Hok) as Mc. destruct (bool_decide (statuses_of w (c_id x) = [])); [|destruct (complete_if_succeeded w (Some x) now) as [w1 []]].
  - apply bind_ok in E as ([w2 n] & E2 & E). apply Ok_inj in E as <-. by eapply control_moves.
  - apply Ok_inj in E as <-. done.
  - apply bind_ok in E as ([w2 n] & E2 & E). apply Ok_inj in E as <-. by eapply control_moves.
Qed.

Lemma create_zone_moves w release zone actor key now w' c :
  fleet_ok w → _create_zone w release zone actor key now = Ok (w', c) → moves w w'.
Proof.
  intros Hok E. unfold _create_zone in E. destruct (replayed w actor key) as [x|].
  { destruct (replay_matches _ _ _ _); [|done]. apply Ok_inj in E. injection E as <- <-. auto with dev. }
  apply bind_ok in E as (w1 & E1 & E). pose proof (free_zone_moves _ _ _ _ Hok E1) as M1. apply bind_ok in E as ([[w2 token] s] & Ep & E).
  cbv zeta in E. case_bool_decide; [done|]. etrans; [exact M1|]. apply moves_ok in M1; [|done]. unfold preview_campaign_scope in Ep. apply bind_ok in Ep as ([w3 s'] & Ec & Ep).
  apply campaign_scope_inv in Ec as (Ec & _). do 3 apply bind_ok in Ep as (? & _ & Ep). apply Ok_inj in Ep. injection Ep as <- _ _. simpl in Ec. apply sync_moves in Ec; [|done].
  etrans; [exact Ec|]. eapply create_moves; [by eapply moves_ok|exact E].
Qed.

Lemma create_for_zones_moves w release zones actor key now w' rows :
  fleet_ok w → create_for_zones w release zones actor key now = Ok (w', rows) → moves w w'.
Proof.
  intros Hok E. unfold create_for_zones in E. destruct (_ || _); [done|]. eapply (foldR_only_moves _ fst) in E; [done| |done]. clear E.
  intros [wa ra] zone [wb rb] Ha E. apply bind_ok in E as ([w1 r1] & E1 & E). apply Ok_inj in E. injection E as <- <-. unfold zone_result in E1.
  destruct (_create_zone _ _ _ _ _ _) as [[w2 c]|e m] eqn:Ez.
  - apply Ok_inj in E1. injection E1 as <- <-. by eapply create_zone_moves.
  - assert (w1 = wa) as ->; [|simpl; auto with dev].
    destruct e; simpl in E1; try (case_bool_decide); try discriminate; apply Ok_inj in E1; by injection E1.
Qed.
End campaigns.
