(* ===== verification/OtaToken.v ===== *)
(** * The token of a campaign's scope

    A token is base64 text of a JSON payload and of its HMAC. Decoding a token that was encoded gives the payload back,
    so a previewed scope is confirmed as long as it has neither expired nor changed. *)
From S2P Require Import Prelude PyText Hashes PyJson PyLoads QueueEvidence RuntimeContract DeviceHealth ReleaseScope ReleaseContract OtaModel OtaReaders OtaTargets OtaProgress OtaDownload OtaStore OtaInterruption OtaAssignment OtaReturn OtaScope OtaCampaign OtaHistory OtaMoves OtaSystem OtaPublish OtaReach.
Open Scope string_scope.
Open Scope list_scope.
Open Scope Z_scope.

(** ** base64 without padding *)
Definition url_digit (v : Z) : byte := url_char (b64_char v).
Definition is_equals (b : byte) : bool := bool_decide (b = EQUALS).

Lemma url_digit_ok v : 0 <= v < 64 → url_value (url_digit v) = Some v ∧ is_equals (url_digit v) = false ∧ zb (url_digit v) < 128 ∧ url_digit v ≠ x2e.
Proof.
  intros Hv. assert (forallb (λ n, bool_decide (url_value (url_digit n) = Some n) && negb (is_equals (url_digit n)) && (zb (url_digit n) <? 128) && negb (bool_decide (url_digit n = x2e)))
    (map Z.of_nat (seq 0 64)) = true) as Hall by (vm_compute; reflexivity).
  rewrite List.forallb_forall in Hall. assert (List.In v (map Z.of_nat (seq 0 64))) as Hin.
  { apply List.in_map_iff. exists (Z.to_nat v). split; [lia|]. apply List.in_seq. lia. }
  apply Hall in Hin. clear Hall. bool_prop. split_and!; try done; lia.
Qed.

Fixpoint url_plain (raw : bytes) : list Z :=
  match raw with
  | [] => []
  | [a] => [zb a / 4; zb a mod 4 * 16]
  | [a; b] => [zb a / 4; zb a mod 4 * 16 + zb b / 16; zb b mod 16 * 4]
  | a :: b :: c :: raw' => [zb a / 4; zb a mod 4 * 16 + zb b / 16; zb b mod 16 * 4 + zb c / 64; zb c mod 64] ++ url_plain raw'
  end.

Lemma by_threes (P : bytes → Prop) : P [] → (∀ a, P [a]) → (∀ a b, P [a; b]) → (∀ a b c l, P l → P (a :: b :: c :: l)) → ∀ l, P l.
Proof. intros H0 H1 H2 H3. fix IH 1. intros [|a [|b [|c l]]]; [exact H0|apply H1|apply H2|apply H3, IH]. Qed.

Definition padding (raw : bytes) : bytes := List.repeat EQUALS (Z.to_nat (- zlen (url_plain raw) mod 4)).

Lemma url_plain_range raw : Forall (λ v, 0 <= v < 64) (url_plain raw).
Proof.
  induction raw as [|a|a b|a b c raw IH] using by_threes; simpl.
  - apply Forall_nil_2.
  - pose proof (zb_range a). rewrite !Forall_cons. split_and!; try apply Forall_nil_2; Z.to_euclidean_division_equations; lia.
  - pose proof (zb_range a). pose proof (zb_range b). rewrite !Forall_cons. split_and!; try apply Forall_nil_2; Z.to_euclidean_division_equations; lia.
  - pose proof (zb_range a). pose proof (zb_range b). pose proof (zb_range c). rewrite !Forall_cons. split_and!; try done; Z.to_euclidean_division_equations; lia.
Qed.

Lemma padding_three a b c raw : padding (a :: b :: c :: raw) = padding raw.
Proof.
  unfold padding. do 2 f_equal. unfold zlen. cbn [url_plain app length].
  replace (- Z.of_nat (S (S (S (S (length (url_plain raw))))))) with (- Z.of_nat (length (url_plain raw)) + (-1) * 4) by lia. by rewrite Z.mod_add.
Qed.
Lemma encode_padded raw : map url_char (b64encode raw) = map url_digit (url_plain raw) ++ padding raw.
Proof. induction raw as [|a|a b|a b c raw IH] using by_threes; try reflexivity. rewrite padding_three. cbn [b64encode map url_plain app]. by rewrite IH. Qed.

Lemma rstrip_padding p l n : (∀ x, x ∈ l → p x = false) → p EQUALS = true → rstrip_bytes p (l ++ List.repeat EQUALS n) = l.
Proof.
  intros Hl Hp. unfold rstrip_bytes. rewrite rev_app_distr. replace (rev (List.repeat EQUALS n)) with (List.repeat EQUALS n) by (by rewrite List.rev_repeat).
  induction n as [|n IH]; simpl; [|by rewrite Hp]. destruct (rev l) as [|x k] eqn:E; simpl; [by rewrite <- (rev_involutive l), E|].
  assert (x ∈ l) as Hx by (rewrite <- (rev_involutive l), E; simpl; apply elem_of_app; right; by apply list_elem_of_singleton).
  rewrite (Hl x Hx). change (rev (x :: k) = l). by rewrite <- E, rev_involutive.
Qed.
Lemma url_digits_ok raw x : x ∈ map url_digit (url_plain raw) → is_equals x = false ∧ zb x < 128 ∧ x ≠ x2e.
Proof.
  intros (v & -> & Hv)%list_elem_of_fmap. pose proof (url_plain_range raw) as Hr. rewrite Forall_forall in Hr. apply Hr in Hv.
  apply url_digit_ok in Hv. naive_solver.
Qed.
Lemma url_encode_plain raw : url_encode raw = map url_digit (url_plain raw).
Proof.
  unfold url_encode. rewrite encode_padded. apply rstrip_padding; [|done]. intros x (Hx & _)%url_digits_ok. exact Hx.
Qed.

(** ** Decoding *)
Lemma decode_digit v l pos left pads :
  0 <= v < 64 → url_decode_from (url_digit v :: l) pos left pads =
    (if pos =? 0 then url_decode_from l 1 v 0
     else if pos =? 1 then cons (bz (left * 4 + v / 16)) <$> url_decode_from l 2 (v mod 16) 0
     else if pos =? 2 then cons (bz (left * 16 + v / 4)) <$> url_decode_from l 3 (v mod 4) 0
     else cons (bz (left * 64 + v)) <$> url_decode_from l 0 0 0).
Proof. intros (Hv & He & _)%url_digit_ok. cbn [url_decode_from]. unfold is_equals in He. by rewrite He, Hv. Qed.

Lemma decode_pads left : url_decode_from [EQUALS; EQUALS] 2 left 0 = Some [] ∧ url_decode_from [EQUALS] 3 left 0 = Some [].
Proof. done. Qed.
Lemma byte_is z b : z = zb b → bz z = b.
Proof. intros ->. apply bz_zb. Qed.

(** The bytes of a group from its digits. *)
Lemma group_bytes a b c :
  bz (zb a / 4 * 4 + (zb a mod 4 * 16) / 16) = a ∧ bz (zb a / 4 * 4 + (zb a mod 4 * 16 + zb b / 16) / 16) = a ∧
  bz ((zb a mod 4 * 16 + zb b / 16) mod 16 * 16 + (zb b mod 16 * 4) / 4) = b ∧
  bz ((zb a mod 4 * 16 + zb b / 16) mod 16 * 16 + (zb b mod 16 * 4 + zb c / 64) / 4) = b ∧
  bz ((zb b mod 16 * 4 + zb c / 64) mod 4 * 64 + zb c mod 64) = c.
Proof.
  pose proof (zb_range a). pose proof (zb_range b). pose proof (zb_range c). split_and!; apply byte_is; Z.to_euclidean_division_equations; lia.
Qed.

Lemma decode_plain raw : url_decode_from (map url_digit (url_plain raw) ++ padding raw) 0 0 0 = Some raw.
Proof.
  induction raw as [|a|a b|a b c raw IH] using by_threes; [done|..]; try rewrite padding_three;
    match goal with |- context [url_plain ?r] => pose proof (url_plain_range r) as Hr end; cbn [url_plain app] in Hr;
    rewrite ?Forall_cons in Hr; destruct_and?; cbn [url_plain map app]; rewrite !decode_digit by done; simpl (_ =? _); cbv iota.
  - change (padding [a]) with [EQUALS; EQUALS]. rewrite (proj1 (decode_pads _)). destruct (group_bytes a a a) as (E & _). cbn. by rewrite E.
  - change (padding [a; b]) with [EQUALS]. rewrite (proj2 (decode_pads _)). destruct (group_bytes a b a) as (_ & E1 & E2 & _). cbn. by rewrite E1, E2.
  - rewrite IH. destruct (group_bytes a b c) as (_ & E1 & _ & E2 & E3). cbn. by rewrite E1, E2, E3.
Qed.

Lemma url_roundtrip raw : url_decode (url_encode raw) = Some raw.
Proof.
  rewrite url_encode_plain. unfold url_decode. assert (forallb (λ b, zb b <? 128) (map url_digit (url_plain raw)) = true) as ->.
  { apply List.forallb_forall. intros x Hx%list_elem_of_In. apply url_digits_ok in Hx as (_ & Hx & _). lia. }
  replace (zlen (map url_digit (url_plain raw))) with (zlen (url_plain raw)) by (unfold zlen; by rewrite length_map). apply decode_plain.
Qed.

(** ** A token gives its payload back *)
Lemma hex_ascii raw : ascii_text (hex raw) = true.
Proof.
  unfold ascii_text. induction raw as [|b raw IH]; cbn [hex]; [done|]. rewrite !chars_app, !forallb_app, IH. by destruct b.
Qed.
Lemma partition_fresh sep l k : sep ∉ l → partition_byte sep (l ++ sep :: k) = (l, Some k).
Proof.
  induction l as [|b l IH]; simpl; [by rewrite bool_decide_eq_true_2|]. intros [Hb Hl]%not_elem_of_cons.
  rewrite bool_decide_eq_false_2 by done. by rewrite IH.
Qed.

Section tokens.
Context `{OtaPlatform} `{ScopePlatform}.

Lemma token_roundtrip payload token :
  loadable payload = true → is_dict payload = true → _encode_scope_token payload = Ok token → _decode_scope_token token = Ok (canon payload).
Proof.
  intros Hl Hd. unfold _encode_scope_token. intros (key & Ek & E)%bind_ok. apply Ok_inj in E as <-. unfold _decode_scope_token. rewrite chars_of_chars.
  set (encoded := url_encode (dumps_ascii payload)). cbn [app].
  rewrite partition_fresh by (unfold encoded; rewrite url_encode_plain; intros (_ & _ & Hx)%url_digits_ok; done).
  rewrite Ek. cbn [mbind res_bind]. rewrite url_roundtrip, bool_decide_eq_true_2 by done. cbn [negb]. unfold encoded. rewrite url_roundtrip, loads_dumps by done. simpl.
  by destruct payload.
Qed.

Lemma campaign_scope_release w release zone now w1 s : _campaign_scope w release zone now = Ok (w1, s) → r_release_id (sc_release s) = release.
Proof.
  unfold _campaign_scope. intros (w2 & _ & E)%bind_ok. destruct (List.find _ _) as [r|] eqn:Er; [|done]. apply in_of_find in Er as [_ Hr]. bool_prop.
  cbv zeta in E. do 2 pass_guard E. do 6 apply bind_ok in E as (? & _ & E). apply Ok_inj in E. injection E as _ <-. done.
Qed.

Definition scope_expiry (now : Z) : Z := (now + 5 * 60 * SECOND) / SECOND.
Definition scope_payload (release zone digest : string) (now : Z) : pyval :=
  PDict [("release_id", PStr release); ("zone_id", PStr zone); ("scope_digest", PStr digest); ("exp", PInt (scope_expiry now)); ("nonce", PStr (scope_nonce now))].

Lemma preview_inv w release zone now w1 token s :
  preview_campaign_scope w release zone now = Ok (w1, token, s) →
  _campaign_scope w release zone now = Ok (w1, s) ∧ ∃ nationwide digest, schedule w1 (sc_release s) now = Ok nationwide ∧
    _scope_digest w1 zone s nationwide = Ok digest ∧ _encode_scope_token (scope_payload release zone digest now) = Ok token.
Proof.
  unfold preview_campaign_scope. intros ([w2 s2] & Es & E)%bind_ok. cbn [fst snd] in E. apply bind_ok in E as (nationwide & En & E).
  apply bind_ok in E as (digest & Ed & E). apply bind_ok in E as (t & Et & E). apply Ok_inj in E. injection E as <- <- <-.
  split; [done|]. exists nationwide, digest. apply campaign_scope_release in Es as <-. done.
Qed.

Lemma scope_digest_ascii w zone s n digest : _scope_digest w zone s n = Ok digest → ascii_text digest = true.
Proof. unfold _scope_digest. cbv zeta. intros (t & _ & E)%bind_ok. apply Ok_inj in E as <-. apply hex_ascii. Qed.

(** Python's last instant, the year 9999. *)
Definition DATETIME_END : Z := 253402300800 * SECOND.
Lemma expiry_digits now : 0 <= now < DATETIME_END → zlen (chars (py_str (Z.abs (scope_expiry now)))) <= MAX_STR_DIGITS ∧ 0 < scope_expiry now.
Proof.
  unfold DATETIME_END, scope_expiry. intros Hn. assert (300 <= (now + 5 * 60 * SECOND) / SECOND < 10 ^ Z.of_nat 12) as He.
  { unfold SECOND in *. change (10 ^ Z.of_nat 12) with 1000000000000. Z.to_euclidean_division_equations; lia. }
  split; [|lia]. rewrite Z.abs_eq by lia. unfold py_str. rewrite chars_of_chars. unfold MAX_STR_DIGITS, zlen.
  pose proof (dec_digits_length 12 (dec_fuel ((now + 5 * 60 * SECOND) / SECOND)) ((now + 5 * 60 * SECOND) / SECOND) ltac:(lia) ltac:(lia)). lia.
Qed.

Lemma payload_loadable release zone digest now :
  0 <= now < DATETIME_END → ascii_text release && ascii_text zone && ascii_text (scope_nonce now) = true → ascii_text digest = true →
  loadable (scope_payload release zone digest now) = true.
Proof.
  intros Hn%expiry_digits Ht Hd. unfold scope_payload. cbn [loadable forallb snd fst]. rewrite bool_decide_eq_true_2 by (simpl; repeat constructor; set_solver).
  bool_prop. rewrite Hd. repeat match goal with Hx : ascii_text _ = true |- _ => rewrite Hx; clear Hx end. rewrite (proj2 (Z.leb_le _ _)) by apply Hn. done.
Qed.

(** C40: A token returned by a preview confirms exactly the previewed scope: verifying it succeeds, for whatever tables and instant, exactly
    when less than the five minutes have passed, the release and the zone are the previewed ones, and the scope computed then has the digest
    of the previewed one; the scope returned is the one computed then. *)
Theorem token_confirms_previewed_scope w release zone now w1 token s :
  preview_campaign_scope w release zone now = Ok (w1, token, s) → 0 <= now < DATETIME_END →
  ascii_text release && ascii_text zone && ascii_text (scope_nonce now) = true →
  ∃ nationwide digest, schedule w1 (sc_release s) now = Ok nationwide ∧ _scope_digest w1 zone s nationwide = Ok digest ∧
  ∀ w2 release' zone' now' w3 s',
    verify_campaign_scope_token w2 token release' zone' now' = Ok (w3, s') ↔
      now' / SECOND < (now + 5 * 60 * SECOND) / SECOND ∧ release' = release ∧ zone' = zone ∧ _campaign_scope w2 release zone now' = Ok (w3, s') ∧
      ∃ nationwide', schedule w3 (sc_release s') now' = Ok nationwide' ∧ _scope_digest w3 zone s' nationwide' = Ok digest.
Proof.
  intros (Es & nationwide & digest & En & Ed & Et)%preview_inv Hn Ht. exists nationwide, digest. split_and!; [done..|]. intros w2 release' zone' now' w3 s'.
  pose proof (payload_loadable release zone digest now Hn Ht (scope_digest_ascii _ _ _ _ _ Ed)) as Hl. apply token_roundtrip in Et; [|done|done].
  unfold verify_campaign_scope_token. rewrite Et. set (p := scope_payload _ _ _ _) in *. cbn [mbind res_bind].
  assert (get "exp" (canon p) = PInt (scope_expiry now) ∧ get "release_id" (canon p) = PStr release ∧ get "zone_id" (canon p) = PStr zone
          ∧ get "scope_digest" (canon p) = PStr digest) as (-> & -> & -> & ->).
  { split_and!; (rewrite get_canon; [done|]); unfold p; cbn; reflexivity. }
  change (truthy (PInt (scope_expiry now))) with (negb (scope_expiry now =? 0)). destruct (expiry_digits now Hn) as [_ Hpos].
  replace (scope_expiry now =? 0) with false by lia. cbn [negb int_val mbind res_bind eq_str].
  change ((now + 5 * 60 * SECOND) / SECOND) with (scope_expiry now). split.
  - intros E. destruct (scope_expiry now <=? now' / SECOND) eqn:Hx; [done|]. destruct (_ || _) eqn:Hm; [done|]. bool_prop. apply bind_ok in E as ([w4 s4] & E4 & E). cbn [fst snd] in E. apply bind_ok in E as (n' & En' & E). apply bind_ok in E as (d' & Ed' & E).
    case_bool_decide; [|done]. apply Ok_inj in E. injection E as <- <-. subst. split_and!; try done; eauto; lia.
  - intros (Hx & -> & -> & Ec & n' & En' & Ed'). rewrite (proj2 (Z.leb_gt _ _)) by done. rewrite !bool_decide_eq_true_2 by done. cbn [negb orb].
    rewrite Ec. cbn [mbind res_bind fst snd]. rewrite En'. cbn [mbind res_bind]. rewrite Ed'. cbn [mbind res_bind]. by rewrite bool_decide_eq_true_2.
Qed.
End tokens.
