(* ===== verification/OtaCover.v ===== *)
(** * A campaign covers its scope

    The boards of a campaign are the boards of the zone its release may update, each with one pending deployment;
    a quarantined release gets exactly one board. *)
From S2P Require Import Prelude PyText Hashes PyJson PyLoads QueueEvidence RuntimeContract DeviceHealth ReleaseScope ReleaseContract OtaModel OtaReaders OtaTargets OtaProgress OtaDownload OtaStore OtaInterruption OtaAssignment OtaReturn OtaScope OtaCampaign OtaHistory OtaMoves OtaSystem OtaPublish OtaReach.
Open Scope string_scope.
Open Scope list_scope.
Open Scope Z_scope.

Section cover.
Context `{OtaPlatform} `{ReturnPlatform} `{ScopePlatform}.

(** ** The boards of a scope *)
Definition updatable (w : fleet) (r : FirmwareRelease) (zone : string) (now : Z) (k : Connector) : Prop :=
  k ∈ boards w ∧ k_zone_id k = zone ∧ k_active k = true ∧ k_ota_capable k = true ∧ k_ota_secure_boot k = true ∧ k_ota_rollback_enabled k = true ∧
  k_ota_partition_layout k = Some OTA_LAYOUT ∧ version_at_least (k_firmware_version k) (r_minimum_bootstrap_version r) = true ∧
  (∃ family, require_family_match (k_firmware_family k) (r_manifest r) = Ok family) ∧ storage_predecessor_exclusion w r k None now = Ok None.

Lemma zone_boards_in w zone k : k ∈ zone_boards w zone → k ∈ boards w ∧ k_zone_id k = zone ∧ k_active k = true.
Proof. unfold zone_boards. rewrite sort_with_perm. intros [Hk Hp]%elem_of_filter_bool. bool_prop. done. Qed.

Lemma no_exclusion k mac minimum :
  _scope_exclusion_reason k mac minimum = None →
  k_ota_capable k = true ∧ k_ota_secure_boot k = true ∧ k_ota_rollback_enabled k = true ∧ k_ota_partition_layout k = Some OTA_LAYOUT ∧
  version_at_least (k_firmware_version k) minimum = true.
Proof.
  unfold _scope_exclusion_reason. destruct (k_ota_capable k), (k_ota_secure_boot k), (k_ota_rollback_enabled k); simpl; try done.
  case_bool_decide; simpl; [|done]. destruct (version_at_least _ _); done.
Qed.
Lemma hil_exclusion_none r permitted k reason : hil_exclusion r permitted k reason = Ok None → reason = None.
Proof.
  unfold hil_exclusion. destruct permitted as [[|t ts]|]; try (intros E; apply Ok_inj in E; done). intros (exact & _ & E)%bind_ok. destruct exact; simpl in E; [|done].
  apply bind_ok in E as (admits & _ & E). apply Ok_inj in E. by destruct admits.
Qed.
Lemma board_exclusion_none w r permitted bridge mac now zone k :
  k ∈ zone_boards w zone → board_exclusion w r permitted bridge mac now k = Ok None → updatable w r zone now k.
Proof.
  intros (Hk & Hz & Ha)%zone_boards_in. unfold board_exclusion. cbv zeta. intros (reason & Er & E)%bind_ok. apply bind_ok in E as (reason' & Eh & E).
  assert (reason' = None ∧ storage_predecessor_exclusion w r k None now = Ok None) as [-> Hs].
  { destruct reason' as [x|]; [destruct bridge as [t|]; [destruct (factory_bridge_exclusion k t)|]; done|]. destruct bridge as [t|]; [destruct (factory_bridge_exclusion k t)|]; done. }
  apply hil_exclusion_none in Eh as ->. destruct (require_family_match _ _) as [family|c m] eqn:Ef; [|destruct (is_value_error c); done].
  apply Ok_inj, no_exclusion in Er as (H1' & H2' & H3' & H4' & H5'). unfold updatable. split_and!; eauto.
Qed.

(** Every board is sorted, the eligible ones are updatable. *)
Lemma sort_boards w r permitted bridge mac now l acc acc' :
  foldR (sort_board w r permitted bridge mac now) l acc = Ok acc' →
  acc'.1 ++ map fst acc'.2 ≡ₚ (acc.1 ++ map fst acc.2) ++ l ∧
  ∀ k, k ∈ acc'.1 → k ∈ acc.1 ∨ (k ∈ l ∧ board_exclusion w r permitted bridge mac now k = Ok None).
Proof.
  revert acc. induction l as [|k l IH]; intros acc E; simpl in E; [apply Ok_inj in E as <-; rewrite app_nil_r; auto|].
  apply bind_ok in E as (acc1 & E1 & E). apply IH in E as [Hp Hin]. unfold sort_board in E1. apply bind_ok in E1 as (reason & Er & E1). apply Ok_inj in E1. split.
  - rewrite Hp. subst acc1. destruct reason as [why|]; simpl; [rewrite map_app; simpl|]; by solve_Permutation.
  - intros x Hx. apply Hin in Hx as [Hx|[Hx Ho]]; [|right; split; [by right|done]]. subst acc1. destruct reason as [why|]; simpl in Hx; [by left|].
    apply elem_of_app in Hx as [Hx| ->%list_elem_of_singleton]; [by left|]. right. split; [left|done].
Qed.
Lemma filterR_in {A} (f : A → res bool) l l' x : filterR f l = Ok l' → x ∈ l' → x ∈ l.
Proof.
  revert l'. induction l as [|y l IH]; intros l' E; simpl in E; [by apply Ok_inj in E as <-|]. apply bind_ok in E as (b & _ & E). apply bind_ok in E as (rest & Er & E).
  apply Ok_inj in E as <-. destruct b; [intros [->|Hx]%elem_of_cons; [left|right; eauto]|]. intros Hx. right. eauto.
Qed.
Lemma quarantine_one r permitted mac connectors eligible excluded kept :
  quarantine r permitted mac connectors eligible excluded = Ok kept → ∃ k, kept = [k] ∧ k ∈ eligible.
Proof.
  unfold quarantine. intros (l & El & E)%bind_ok. assert (∀ x, x ∈ l → x ∈ eligible) as Hsub.
  { destruct permitted as [ts|]; [intros x; by apply filterR_in with (1 := El)|]. apply Ok_inj in El as <-. intros x [Hx _]%elem_of_filter_bool. done. }
  destruct l as [|k [|k' l]]; [| |]; try (destruct permitted; repeat case_match; done). apply Ok_inj in E as <-. exists k. split; [done|]. apply Hsub. left.
Qed.

Lemma campaign_scope_boards w0 release zone now w s :
  _campaign_scope w0 release zone now = Ok (w, s) →
  r_release_id (sc_release s) = release ∧ sc_connectors s = zone_boards w zone ∧ Forall (updatable w (sc_release s) zone now) (sc_eligible s) ∧
  (if bool_decide (r_state (sc_release s) = "HIL_ONLY") then ∃ k, sc_eligible s = [k] else sc_eligible s ++ map fst (sc_excluded s) ≡ₚ zone_boards w zone).
Proof.
  unfold _campaign_scope. intros (w1 & _ & E)%bind_ok. destruct (List.find _ _) as [r|] eqn:Er; [|done]. apply in_of_find in Er as [_ Hr]. bool_prop. cbv zeta in E.
  do 2 pass_guard E. apply bind_ok in E as (permitted & _ & E). apply bind_ok in E as (bridge & _ & E). apply bind_ok in E as (u & _ & E).
  apply bind_ok in E as (sorted & Es & E). apply bind_ok in E as (eligible & Ee & E). apply bind_ok in E as (u' & _ & E). apply Ok_inj in E. injection E as <- <-. simpl.
  apply sort_boards in Es as [Hp Hin]. simpl in Hp. assert (∀ k, k ∈ sorted.1 → updatable w1 r zone now k) as Hup.
  { intros k Hk. apply Hin in Hk as [Hk%elem_of_nil|[Hk Ho]]; [done|]. by eapply board_exclusion_none. }
  split; [done|]. split; [done|]. destruct (bool_decide (r_state r = "HIL_ONLY")).
  - apply quarantine_one in Ee as (k & -> & Hk). split; [|eauto]. apply Forall_singleton. auto.
  - apply Ok_inj in Ee as <-. split; [by apply Forall_forall|done].
Qed.

(** ** The rows of a new campaign *)
Lemma enlist_row c r actor w0 now w k w' :
  enlist c r actor w0 now w k = Ok w' →
  campaigns w' = campaigns w ∧ ∃ d, deployments w' = deployments w ++ [d] ∧ d_connector_id d = k_id k ∧ d_campaign_id d = c_id c ∧ d_release_id d = r_id r ∧
    d_status d = PENDING ∧ d_target_version d = r_version r ∧ d_bytes_written d = 0.
Proof.
  unfold enlist. intros ([w1 d] & E1 & E)%bind_ok. unfold insert_deployment in E1. cbv zeta in E1. destruct (existsb _ _); [done|]. apply Ok_inj in E1. injection E1 as <- <-.
  cbv zeta in E. apply bind_ok in E as (reserved & _ & E).
  assert (campaigns w' = campaigns w ∧ deployments w' = deployments w ++ [new_deployment w (c_id c) r k now]) as [-> ->].
  { destruct (bool_decide (r_version r = _)); [apply bind_ok in E as (details & _ & E)|]; apply Ok_inj in E as <-;
      destruct reserved, (bool_decide (campaign_warnings w0 k r now = [])); done. }
  split; [done|]. eexists. split; [done|]. done.
Qed.
Lemma enlist_rows c r actor w0 now l w w' :
  foldR (enlist c r actor w0 now) l w = Ok w' →
  campaigns w' = campaigns w ∧ ∃ new, deployments w' = deployments w ++ new ∧ map d_connector_id new = map k_id l ∧
    Forall (λ d, d_campaign_id d = c_id c ∧ d_release_id d = r_id r ∧ d_status d = PENDING ∧ d_target_version d = r_version r ∧ d_bytes_written d = 0) new.
Proof.
  revert w. induction l as [|k l IH]; intros w E; simpl in E; [apply Ok_inj in E as <-; split; [done|]; exists []; by rewrite app_nil_r|].
  apply bind_ok in E as (w1 & (Hc & d & Hd & Hk & Hrest)%enlist_row & E). apply IH in E as (-> & new & -> & Hm & Hf). split; [done|].
  exists (d :: new). rewrite Hd, <- app_assoc. simpl. rewrite Hk, Hm. split_and!; [done..|]. by constructor.
Qed.

(** C8: A campaign is created only from a token whose HMAC, release, zone, expiry and scope digest were verified, in a zone without a live
    campaign, and it is created ACTIVE with exactly one pending deployment of the release for each board of the scope, in the scope's order. Each of these
    boards is an active board of the zone with secure boot, rollback and the partition layout, of the release's family and with an admissible predecessor.
    A quarantined release gets exactly one board; for a published one every active board of the zone is enlisted or excluded with its reason. *)
Theorem campaign_covers_scope w release zone actor token key reason override digest now w' c :
  create_campaign w release zone actor token key reason override digest now = Ok (w', c) → replayed w actor key = None →
  ∃ w1 s, verify_campaign_scope_token w token release zone now = Ok (w1, s) ∧ r_release_id (sc_release s) = release ∧
    campaigns w' = campaigns w1 ++ [c] ∧ c_zone_id c = zone ∧ c_status c = ACTIVE ∧ c_eligible_count c = zlen (sc_eligible s) ∧
    (∀ o, o ∈ campaigns w1 → c_zone_id o = zone → live o = false) ∧
    (∃ new, deployments w' = deployments w1 ++ new ∧ map d_connector_id new = map k_id (sc_eligible s) ∧
       Forall (λ d, d_campaign_id d = c_id c ∧ d_release_id d = r_id (sc_release s) ∧ d_status d = PENDING ∧ d_target_version d = r_version (sc_release s) ∧ d_bytes_written d = 0) new) ∧
    Forall (updatable w1 (sc_release s) zone now) (sc_eligible s) ∧
    (if bool_decide (r_state (sc_release s) = "HIL_ONLY") then ∃ k, sc_eligible s = [k] else sc_eligible s ++ map fst (sc_excluded s) ≡ₚ zone_boards w1 zone).
Proof.
  intros E Hk. unfold create_campaign in E. rewrite Hk in E. apply bind_ok in E as ([w1 s] & Ev & E). exists w1, s. split; [done|].
  apply verified_scope_inv, campaign_scope_boards in Ev as (Hid & _ & Hup & Hall). cbn [fst snd] in E. cbv zeta in E. apply bind_ok in E as (reserved & _ & E).
  destruct reserved; [done|]. destruct (existsb _ _) eqn:Ez; [done|]. do 2 pass_guard E. destruct (existsb (λ o, bool_decide (c_campaign_id o = _)) _); [done|].
  apply bind_ok in E as (w2 & (Hc & new & Hd & Hm & Hf)%enlist_rows & E). apply Ok_inj in E. injection E as <- <-. split_and!; try done; [|by exists new].
  intros o Ho Hz. destruct (live o) eqn:El; [|done]. exfalso. apply not_true_iff_false in Ez. apply Ez. apply List.existsb_exists. exists o.
  split; [by apply list_elem_of_In|]. by rewrite El, bool_decide_eq_true_2.
Qed.
End cover.
