(* ===== verification/OtaRuns.v ===== *)
(** * Runs of the firmware rollout

    [ota_step] is one committed transaction of the rollout: a handler that returned, or a
    write of the rest of the service to the tables the rollout reads. [reachable] starts
    from tables without campaigns. The theorems are about reachable tables and about the
    rows a run carries from one state to a later one. *)
From S2P Require Import Prelude PyText Hashes PyJson QueueEvidence RuntimeContract DeviceHealth ReleaseScope ReleaseContract OtaModel OtaReaders OtaTargets OtaProgress OtaDownload OtaStore OtaInterruption OtaAssignment OtaReturn OtaScope OtaCampaign OtaHistory OtaMoves OtaSystem OtaPublish OtaReach.
Open Scope string_scope.
Open Scope list_scope.
Open Scope Z_scope.

(** ** The life of a deployment

    The abstract machine: the transition table, and the one return a failed boot still takes. *)
Definition lifecycle (s t : deployment_state) : Prop := t ∈ DEPLOYMENT_TRANSITIONS s ∨ (s = FAILED ∧ t = ROLLED_BACK).
#[export] Instance lifecycle_dec s t : Decision (lifecycle s t).
Proof. unfold lifecycle. apply _. Defined.

Definition evolved (d d' : FirmwareDeployment) : Prop :=
  same_core d d' ∧ d_bytes_written d <= d_bytes_written d' ∧ rtc lifecycle (d_status d) (d_status d').

(** Every later row with an id given out by then comes from the row that had it. *)
Definition descends (w w' : fleet) : Prop :=
  next_id w <= next_id w' ∧ ∀ d', d' ∈ deployments w' → d_id d' < next_id w → ∃ d, d ∈ deployments w ∧ evolved d d'.

Lemma evolved_refl d : evolved d d.
Proof. split_and!; [apply same_core_refl|lia|apply rtc_refl]. Qed.
Lemma evolved_trans d1 d2 d3 : evolved d1 d2 → evolved d2 d3 → evolved d1 d3.
Proof.
  intros ((a1 & a2 & a3 & a4 & a5 & a6 & a7) & B1 & R1) ((b1 & b2 & b3 & b4 & b5 & b6 & b7) & B2 & R2).
  split_and!; [unfold same_core; split_and!; congruence|lia|by etrans].
Qed.
Lemma evolved_touch d d' : same_core d d' → d_status d' = d_status d → d_bytes_written d' = d_bytes_written d → evolved d d'.
Proof. intros Hc Hs Hb. split_and!; [done|lia|rewrite Hs; apply rtc_refl]. Qed.

Lemma descends_trans w1 w2 w3 : descends w1 w2 → descends w2 w3 → descends w1 w3.
Proof.
  intros [N1 D1] [N2 D2]. split; [lia|]. intros d3 H3 Hlt. destruct (D2 d3 H3) as (d2 & H2 & E2); [lia|].
  pose proof E2 as ((Hid & _) & _). destruct (D1 d2 H2) as (d1 & H1 & E1); [lia|]. exists d1. split; [done|by eapply evolved_trans].
Qed.

Lemma descends_map w w' g :
  deployments w' = map g (deployments w) → next_id w <= next_id w' → (∀ d, d ∈ deployments w → evolved d (g d)) → descends w w'.
Proof. intros Hd Hn Hg. split; [done|]. intros d'. rewrite Hd. intros (d & -> & Hin)%list_elem_of_fmap _. eauto. Qed.
Lemma descends_sub w w' : (∀ d, d ∈ deployments w' → d ∈ deployments w) → next_id w <= next_id w' → descends w w'.
Proof. intros Hd Hn. split; [done|]. intros d Hin _. exists d. split; [auto|apply evolved_refl]. Qed.
Lemma descends_one w w' d f :
  deployments w' = update_by d_id (d_id d) f (deployments w) → next_id w <= next_id w' → NoDup (map d_id (deployments w)) → d ∈ deployments w →
  evolved d (f d) → descends w w'.
Proof.
  intros Hd Hn Hu Hin He. split; [done|]. intros d'. rewrite Hd. intros [[Ho _]| ->]%elem_update_unique _; [|eauto..|done|done].
  exists d'. split; [done|apply evolved_refl].
Qed.

Lemma advance_descends w0 w d st p recovery now :
  fleet_ok w0 → may_advance w0 d st p → deployments w = deployments w0 → next_id w0 <= next_id w → descends w0 (advance d st p recovery now w).
Proof.
  intros Hok [Hrow _ Ha _ _] Hd Hn. eapply (descends_one _ _ d (progressed st p now)); [simpl; by rewrite Hd|simpl; lia|apply Hok|done|].
  split_and!; [done|simpl; lia|]. apply rtc_once. destruct Ha as [Ha|Ha]; [by left|]. simpl.
  unfold failed_boot_return in Ha. bool_prop. subst st. destruct (d_status d) eqn:Es; simpl in *; try (left; set_solver); try done; by right.
Qed.

Lemma move_descends w w' : fleet_ok w → move w w' → descends w w'.
Proof.
  intros Hok Hm. destruct Hm as [d st p rec now Ha|d details now Hd Hs _ _|i s details now _ _|d f details now Hd _ _ Hf|d p rec details now Hd _ Ha|i f Hf
    | | | |c reason now Hc _| | |d Hid _ _ _ _ _| |ids _| | ].
  all: try (by (apply descends_sub; simpl; [done|lia])).
  - by apply advance_descends.
  - eapply descends_one; simpl; [done|lia|apply Hok|done|]. split_and!; [done|simpl; lia|]. apply rtc_once. left. rewrite Hs. set_solver.
  - destruct (Hf d) as (Hc & Hs & Hb). eapply descends_one; simpl; [done|lia|apply Hok|done|by apply evolved_touch].
  - apply advance_descends; [done|done|done|simpl; lia].
  - eapply (descends_map _ _ (λ d, if d_id d =? i then f d else d)); simpl; [done|lia|]. intros d _. destruct (Hf d) as (Hc & Hs & Hb).
    destruct (_ =? _); [by apply evolved_touch|apply evolved_refl].
  - eapply descends_map; simpl; [reflexivity|lia|]. intros d _. cbv beta. destruct (_ && _) eqn:E; [|apply evolved_refl]. bool_prop.
    split_and!; [done|simpl; lia|]. apply rtc_once. left. unfold cancellable in *. bool_prop. simpl.
    destruct (d_status d); set_solver.
  - split; [simpl; lia|]. simpl. intros d' [Hin| ->%list_elem_of_singleton]%elem_of_app Hlt; [|lia]. exists d'. split; [done|apply evolved_refl].
  - apply descends_sub; simpl; [|lia]. intros d. rewrite elem_of_filter_bool. by intros [Hd _].
Qed.

Lemma moves_descends w w' : fleet_ok w → moves w w' → descends w w'.
Proof.
  intros Hok Hm. induction Hm as [w|w w1 w2 H1 _ IH]; [apply descends_sub; [done|lia]|].
  eapply descends_trans; [by apply move_descends|]. apply IH. by eapply move_ok.
Qed.

Section runs.
Context `{OtaPlatform} `{ReturnPlatform} `{ScopePlatform}.

(** A board reports on a deployment it was assigned: its id is random and travels only in an assignment. *)
Definition assigned (w : fleet) (public_id : string) : Prop := ∀ d, d ∈ deployments w → d_deployment_id d = public_id → d_status d ≠ PENDING.

(** The rest of the service writes boards, telemetry and HIL runs; it never clears a latched floor. *)
Inductive ota_step (w : fleet) : fleet → Prop :=
  | step_report k public_id p now w' receipt :
      report_progress w k public_id p now = Ok (w', receipt) → p_event_details p = [] → assigned w public_id → ota_step w w'
  | step_heartbeat k hb now w' : apply_ota_heartbeat_diagnostics w k hb now = Ok w' → ota_step w w'
  | step_assignment k base token now w' a : assignment_for_connector w k base token now = Ok (w', a) → ota_step w w'
  | step_download token now w' r : resolve_download w token now = Ok (w', r) → ota_step w w'
  | step_expire now limit w' n : expire_held_downloads w now limit = Ok (w', n) → ota_step w w'
  | step_control public_id action reason now w' n : control_campaign w public_id action reason now = Ok (w', n) → ota_step w w'
  | step_revoke public_id actor reason now w' : revoke_release w public_id actor reason now = Ok w' → ota_step w w'
  | step_create release zone actor token key reason override digest now w' c :
      create_campaign w release zone actor token key reason override digest now = Ok (w', c) → ota_step w w'
  | step_create_zones release zones actor key now w' rows :
      create_for_zones w release zones actor key now = Ok (w', rows) → ota_step w w'
  | step_retry campaign deployment actor override reason digest pending now w' d :
      retry_interrupted_target w campaign deployment actor override reason digest pending now = Ok (w', d) → ota_step w w'
  | step_archive public_id actor now w' b : archive_campaign w public_id actor now = Ok (w', b) → ota_step w w'
  | step_archive_closed actor now : ota_step w (archive_closed w actor now).1
  | step_clear actor now w' r : clear_history w actor now = Ok (w', r) → ota_step w w'
  | step_sync packages w' : sync_release_store w packages = Ok w' → ota_step w w'
  | step_world ks ts runs next : floors_kept (boards w) ks → next_id w <= next → ota_step w (set_world ks ts runs next w).

(** The same transactions as requests, for evaluating a run. *)
Inductive request :=
  | Report (board : Z) (public_id : string) (p : progress)
  | Beat (board : Z) (hb : Heartbeat)
  | Poll (board : Z) (base token : string)
  | Fetch (token : string)
  | Expire
  | Control (public_id action : string)
  | Create (release zone actor key : string)
  | Clear (actor : string)
  | Telemetry (t : DeviceTelemetry)
  | Publish (packages : list Package).

Definition on_board (w : fleet) (i : Z) (f : Connector → res fleet) : res fleet :=
  match board_of w i with Some k => f k | None => Raise LookupError "connector" end.
Definition perform (w : fleet) (r : request * Z) : res fleet :=
  let now := r.2 in
  match r.1 with
  | Report i public_id p =>
      if bool_decide (p_event_details p = []) && forallb (λ d, negb (bool_decide (d_deployment_id d = public_id)) || negb (bool_decide (d_status d = PENDING))) (deployments w)
      then on_board w i (λ k, a ← report_progress w k public_id p now; Ok a.1) else Raise LookupError "deployment"
  | Beat i hb => on_board w i (λ k, apply_ota_heartbeat_diagnostics w k hb now)
  | Poll i base token => on_board w i (λ k, a ← assignment_for_connector w k base token now; Ok a.1)
  | Fetch token => a ← resolve_download w token now; Ok a.1
  | Expire => a ← expire_held_downloads w now HELD_DOWNLOAD_SWEEP_LIMIT; Ok a.1
  | Control public_id action => a ← control_campaign w public_id action None now; Ok a.1
  | Create release zone actor key =>
      preview ← preview_campaign_scope w release zone now;
      a ← create_campaign w release zone actor preview.1.2 key None false None now; Ok a.1
  | Clear actor => a ← clear_history w actor now; Ok a.1
  | Telemetry t => Ok (set_world (boards w) (telemetry w ++ [t]) (hil_run_deployments w) (next_id w) w)
  | Publish packages => sync_release_store w packages
  end.

Lemma perform_step w r w' : perform w r = Ok w' → ota_step w w'.
Proof.
  destruct r as [r now]. unfold perform, on_board. destruct r as [i pid p|i hb|i base token|token| |pid action|rel zone actor key|actor|t|packages]; cbn [fst snd]; intros E.
  - destruct (_ && _) eqn:Eg; [|done]. bool_prop. destruct (board_of w i) as [k|]; [|done]. apply bind_ok in E as ([w1 rc] & E & [= <-]).
    eapply step_report; [done..|]. intros d Hd Hp. match goal with H : forallb _ _ = true |- _ => rewrite List.forallb_forall in H; specialize (H d) end.
    intros Hst. rewrite bool_decide_eq_true_2, (bool_decide_eq_true_2 (d_status d = _)) in * by done. by apply list_elem_of_In in Hd; intuition.
  - destruct (board_of w i) as [k|]; [|done]. by eapply step_heartbeat.
  - destruct (board_of w i) as [k|]; [|done]. apply bind_ok in E as ([w1 a] & E & [= <-]). by eapply step_assignment.
  - apply bind_ok in E as ([w1 a] & E & [= <-]). by eapply step_download.
  - apply bind_ok in E as ([w1 a] & E & [= <-]). by eapply step_expire.
  - apply bind_ok in E as ([w1 a] & E & [= <-]). by eapply step_control.
  - apply bind_ok in E as (preview & _ & E). apply bind_ok in E as ([w1 a] & E & [= <-]). by eapply step_create.
  - apply bind_ok in E as ([w1 a] & E & [= <-]). by eapply step_clear.
  - injection E as <-. apply step_world; [|lia]. intros j k Hj Hl. eauto.
  - by eapply step_sync.
Qed.

Lemma performs_steps rs w w' : foldR perform rs w = Ok w' → rtc ota_step w w'.
Proof.
  revert w. induction rs as [|r rs IH]; intros w; simpl; [intros [= <-]; apply rtc_refl|].
  intros (w1 & E1%perform_step & E)%bind_ok. by eapply rtc_l, IH.
Qed.

Definition initial (w : fleet) : Prop :=
  campaigns w = [] ∧ deployments w = [] ∧ firmware_events w = [] ∧ grants w = [] ∧ (∀ r, r ∈ releases w → 0 <= r_image_size r).
Definition reachable (w : fleet) : Prop := ∃ w0, initial w0 ∧ rtc ota_step w0 w.

Lemma step_moves w w' : fleet_ok w → ota_step w w' → moves w w'.
Proof.
  intros Hok Hstep. destruct Hstep as [k pid p now w' rc E Hd Ha|k hb now w' E|k base token now w' a E|token now w' r E|now limit w' n E
    |pid action reason now w' n E|pid actor reason now w' E|rel zone actor token key reason ov digest now w' c E|rel zones actor key now w' rows E
    |cid did actor ov reason digest pending now w' d E|pid actor now w' b E|actor now|actor now w' r E|packages w' E|ks ts rns next Hf Hn].
  - by eapply report_moves.
  - by eapply heartbeat_moves.
  - by eapply assignment_moves.
  - by eapply resolve_moves.
  - by eapply expire_held_moves.
  - by eapply control_moves.
  - by eapply revoke_moves.
  - by eapply create_moves.
  - by eapply create_for_zones_moves.
  - by eapply retry_moves.
  - by eapply archive_moves.
  - apply archive_closed_moves.
  - by eapply clear_history_moves.
  - by eapply sync_moves.
  - by apply moves_one, mv_world.
Qed.

Lemma steps_moves w w' : fleet_ok w → rtc ota_step w w' → moves w w'.
Proof.
  intros Hok Hr. induction Hr as [|w w1 w2 H1' _ IH]; [apply moves_refl|]. pose proof (step_moves _ _ Hok H1') as M.
  etrans; [exact M|]. apply IH. by eapply moves_ok.
Qed.

Lemma initial_ok w : initial w → fleet_ok w.
Proof.
  intros (Hc & Hd & He & _ & Hr). constructor; rewrite ?Hc, ?Hd, ?He; try (by constructor); try (intros ? ?%elem_of_nil; done); [done|..].
  - intros ? ? ?%elem_of_nil; done.
  - intros ? ? ?%elem_of_nil; done.
Qed.

Lemma reachable_ok w : reachable w → fleet_ok w.
Proof. intros (w0 & Hi & Hr). eapply moves_ok; [by apply initial_ok|]. by apply steps_moves, Hr; apply initial_ok. Qed.

Lemma performs_reachable rs w w' : initial w → foldR perform rs w = Ok w' → reachable w'.
Proof. intros Hi Hr. exists w. split; [done|by eapply performs_steps]. Qed.
End runs.
