(* ===== verification/OtaDemo.v ===== *)
(** * A small rollout, evaluated

    One release, one zone with two boards, and a platform in which every test of the other
    modules passes. The witnesses of the rollout's theorems evaluate runs of it. *)
From S2P Require Import Prelude PyText Hashes PyJson QueueEvidence RuntimeContract DeviceHealth ReleaseScope ReleaseContract OtaModel OtaReaders OtaTargets OtaProgress OtaDownload OtaStore OtaInterruption OtaAssignment OtaReturn OtaScope OtaCampaign OtaHistory OtaMoves OtaSystem OtaPublish OtaReach OtaRuns.
Open Scope string_scope.
Open Scope list_scope.
Open Scope Z_scope.

#[export] Instance demo_platform : OtaPlatform := {|
  iso := py_str; fromiso := λ s, digits_value (chars s); clock_text := py_str;
  firmware_ota_enabled := true; firmware_hil_enabled := true; firmware_download_resume_enabled := true; firmware_download_grant_seconds := 900;
  firmware_hil_target_mac := ""; firmware_hikvision_hil_target_mac := "";
  signing_key_configured := true; rsa_verify := λ s _, if bool_decide (s = "signed") then Ok tt else Raise ValueError "signature"; store_available := true;
  int_of_float := λ _, Raise ValueError "float"; firmware_hil_targets := None; schedule := λ _ _ _, Ok PNone; ready_event_matches := λ _ _ _ _, false; accepted_full_event_matches := λ _ _ _ _, false;
  admission_hold := λ _ _ _ _ _, Ok None; writer_predecessor_hold := λ _ _ _ _, Ok None;
  trial := λ _ _ _ _, Ok tt; revoked_evidence := λ _ _ _ _ _, Ok tt;
  stored_image := λ _, true; try_assignment_lock := λ _ _, true; row_lock_free := λ _ _ _, true |}.

#[export] Instance demo_returns : ReturnPlatform := {|
  rollback_evidence := λ _ _ _ _ _, Ok (PDict []); local_boot_is_waiting := λ _ _, false; nationwide_schedule_applies := λ _, false;
  retry_warnings := λ _ _ _, []; warnings_digest := λ _, ""; evidence_summary := λ _, ""; token_hex := py_str |}.

#[export] Instance demo_scope : ScopePlatform := {|
  store_packages := λ _, []; fleet_root_secret := "root-secret"; pii_lookup_key := ""; scope_nonce := py_str; float_repr := of_chars; wide_text := λ _, None;
  predecessor_snapshot := λ _ _ _, Ok PNone; schedule_reserved := λ _ _ _, Ok false; campaign_warnings := λ _ _ _ _, [];
  reserve := λ _ _ _ _ _, Ok None; reserve_trial := λ _ _ _ _ _ _, Ok PNone; database_busy := λ _ _, false |}.

Definition demo_digest : string := "00112233445566778899aabbccddeeff00112233445566778899aabbccddeeff".
(** A release with the contract of its version, and the signed 2.6.13 the boards run. *)
Definition demo_manifest (version : string) : pyval :=
  PDict [("application_sha256", PStr demo_digest); ("minimum_bootstrap_version", PStr "2.4.12"); ("queue_storage", expected_contract version)].
Definition demo_image (i : Z) (version : string) : FirmwareRelease :=
  mkRelease i ("zone-lite-" +:+ version) version "git" "image" 150000 OTA_LAYOUT "2.4.12" ("zone-lite-" +:+ version +:+ ".bin") (demo_manifest version)
    "AVAILABLE" None None "key".
Definition demo_release : FirmwareRelease := demo_image 1 "2.6.14".
Definition previous_digest : string := "c7be4171153333563f9ed6e43f91376d42dfb9d3ca2faefda2ca6d1ac87b2def".
Definition demo_previous : FirmwareRelease :=
  mkRelease 5 "zone-lite-2.6.13" "2.6.13" "git" "image" 140000 OTA_LAYOUT "2.4.12" "zone-lite-2.6.13.bin" (PDict [("application_sha256", PStr previous_digest)])
    "HIL_ONLY" None None "key".
Definition demo_board (i : Z) (name : string) (zone : string) : Connector :=
  mkBoard i name zone (Some "zkt") (Some "2.6.13") "aa:bb" true true (Some "boot-1") 5 true true true (Some OTA_LAYOUT) (Some "ota_0") (Some previous_digest) "OTA_READY" None
    (PDict []) None true None None false None name.
Definition demo0 : fleet :=
  mkFleet [demo_release; demo_previous] [] [] [] [] [] [demo_board 2 "esp-a" "north"; demo_board 3 "esp-b" "north"; demo_board 4 "esp-c" "south"] [] 10.

Lemma demo0_initial : initial demo0.
Proof. repeat split; try done. intros r [->|[->|Hr%elem_of_nil]%elem_of_cons]%elem_of_cons; simpl; lia. Qed.

Definition at_second (n : Z) : Z := n * SECOND.
Definition demo_report (state : string) (bytes : Z) : progress :=
  mkProgress state bytes (Some "2.6.14") (Some "ota_1") (Some demo_digest) None None [].
(** A campaign over the northern zone; its first board installs and confirms the image. *)
Definition demo_offer : list (request * Z) :=
  [(Create "zone-lite-2.6.14" "north" "owner" "key-1", at_second 0); (Poll 2 "https://add" "token-1", at_second 10)].
Definition demo_install : list (request * Z) :=
  [(Fetch "token-1", at_second 11); (Report 2 "11" (demo_report "DOWNLOADING" 65536), at_second 20); (Report 2 "11" (demo_report "READY_TO_BOOT" 150000), at_second 30);
   (Report 2 "11" (demo_report "BOOTED_PENDING" 150000), at_second 60); (Report 2 "11" (demo_report "RECONCILING" 150000), at_second 70);
   (Report 2 "11" (demo_report "SUCCEEDED" 150000), at_second 80)].
Definition outcome (rs : list (request * Z)) (w : fleet) : fleet := match foldR perform rs w with Ok w' => w' | Raise _ _ => w end.
(** The download stops, is held, and is offered again after the backoff. *)
Definition demo_beat : Heartbeat :=
  mkHeartbeat (Some "2.6.13") (Some 1020) "DOWNLOADING" "2.6.14" None (Some "ota_0") None "DOWNLOAD_INCOMPLETE" 65536.
Definition demo_stop : list (request * Z) :=
  [(Report 2 "11" (demo_report "DOWNLOADING" 65536), at_second 15);
   (Telemetry (mkTelemetry 90 2 (Some "boot-1") 6 (Some 1020) 0 (PDict []) (at_second 30)), at_second 30); (Beat 2 demo_beat, at_second 31)].
Definition demo_again : list (request * Z) := [(Poll 2 "https://add" "token-2", at_second 160)].

Definition demo_offered : fleet := Eval vm_compute in outcome demo_offer demo0.
Definition demo_installed : fleet := Eval vm_compute in outcome (demo_offer ++ demo_install) demo0.
Definition demo_stopped : fleet := Eval vm_compute in outcome (demo_offer ++ demo_stop) demo0.
Definition demo_resumed : fleet := Eval vm_compute in outcome (demo_offer ++ demo_stop ++ demo_again) demo0.

Lemma demo_offered_reachable : reachable demo_offered.
Proof. apply (performs_reachable demo_offer demo0); [apply demo0_initial|]. vm_compute. reflexivity. Qed.
Lemma demo_installed_reachable : reachable demo_installed.
Proof. apply (performs_reachable (demo_offer ++ demo_install) demo0); [apply demo0_initial|]. vm_compute. reflexivity. Qed.
Lemma demo_stopped_reachable : reachable demo_stopped.
Proof. apply (performs_reachable (demo_offer ++ demo_stop) demo0); [apply demo0_initial|]. vm_compute. reflexivity. Qed.

(** The row with id [i], or an unused one. *)
Definition demo_row (w : fleet) (i : Z) : FirmwareDeployment :=
  default (new_deployment demo0 0 demo_release (demo_board 2 "esp-a" "north") 0) (deployment_of w i).
Lemma demo_row_in w i d : deployment_of w i = Some d → d ∈ deployments w.
Proof. by intros [Hd _]%deployment_of_in. Qed.
