(* ===== verification/OtaServe.v ===== *)
(** * The bytes a download serves (ota.py, web.py)

    What [parse_single_range] accepts, what [firmware_chunks] streams and how [download_firmware]
    answers: the asked slice of the image, so that an interrupted download and its continuation give the whole image. *)
From S2P Require Import Prelude PyText Hashes PyJson QueueEvidence RuntimeContract DeviceHealth ReleaseScope ReleaseContract OtaModel OtaReaders OtaTargets OtaProgress OtaDownload OtaStore OtaInterruption OtaAssignment OtaReturn OtaScope OtaCampaign OtaHistory OtaMoves OtaSystem OtaPublish OtaRuns OtaDemo.
Open Scope string_scope.
Open Scope list_scope.
Open Scope Z_scope.

(** ** Chunks *)
Lemma read_chunks_serve fuel file remaining :
  0 <= remaining <= zlen file → (Z.to_nat remaining < fuel)%nat →
  concat (read_chunks fuel file remaining) = take (Z.to_nat remaining) file
  ∧ Forall (λ c, 0 < zlen c <= CHUNK_SIZE) (read_chunks fuel file remaining).
Proof.
  revert file remaining. induction fuel as [|fuel IH]; intros file remaining Hr Hf; [lia|]. cbn [read_chunks].
  destruct (Z.eqb_spec remaining 0) as [->|Hne]; [by rewrite take_0|].
  set (chunk := take (Z.to_nat (Z.min CHUNK_SIZE remaining)) file).
  assert (zlen chunk = Z.min CHUNK_SIZE remaining) as Hlen.
  { unfold zlen, chunk in *. rewrite length_take. unfold CHUNK_SIZE in *. lia. }
  assert (0 < Z.min CHUNK_SIZE remaining) as Hpos by (unfold CHUNK_SIZE; lia).
  rewrite bool_decide_eq_false_2 by (intros ->; unfold zlen in Hlen; simpl in Hlen; lia).
  assert (length chunk = Z.to_nat (Z.min CHUNK_SIZE remaining)) as Hn by (unfold zlen in Hlen; lia).
  destruct (IH (drop (length chunk) file) (remaining - zlen chunk)) as [Hc Hall].
  { unfold zlen in *. rewrite length_drop. lia. } { lia. }
  split; [|constructor; [lia|done]]. cbn [concat]. rewrite Hc.
  replace (Z.to_nat remaining) with (length chunk + Z.to_nat (remaining - zlen chunk))%nat by lia.
  rewrite <- take_take_drop. f_equal. by rewrite Hn.
Qed.

Lemma firmware_chunks_slice file start last :
  0 <= start → start <= last + 1 → last < zlen file →
  concat (firmware_chunks file start last) = take (Z.to_nat (last - start + 1)) (drop (Z.to_nat start) file)
  ∧ Forall (λ c, 0 < zlen c <= CHUNK_SIZE) (firmware_chunks file start last).
Proof. intros Hs Hl Hf. apply read_chunks_serve; [unfold zlen in *; rewrite length_drop|]; lia. Qed.

(** ** Ranges *)
Lemma parse_range_bounds value size a b : parse_single_range value size = Ok (Some (a, b)) → 0 <= a <= b ∧ b < size.
Proof.
  unfold parse_single_range. destruct value as [v|]; [|done]. case_bool_decide; [done|]. destruct (drop_prefix _ _) as [rest|]; [|done].
  case_bool_decide; [done|]. destruct (partition_byte x2d rest) as [s [e|]]; [|done]. destruct (digits_value s) as [start|] eqn:Es; [|done].
  intros (last & _ & E)%bind_ok. destruct (_ || _) eqn:Eb; [done|]. apply Ok_inj in E. injection E as <- <-. apply orb_false_iff in Eb as [E1 E2].
  assert (0 <= start); [|lia]. unfold digits_value in Es. case_bool_decide; [done|]. destruct (forallb is_digit s) eqn:Ed; [|done]. injection Es as <-.
  unfold dec_value. assert (∀ v, 0 <= v → 0 <= fold_left (λ v b, 10 * v + (zb b - 48)) s v) as Hfold; [|by apply Hfold].
  clear - Ed. induction s as [|x s IH]; intros v Hv; simpl; [done|]. simpl in Ed. apply andb_true_iff in Ed as [Hx Hs]. apply IH; [done|].
  unfold is_digit, in_range in Hx. lia.
Qed.

Lemma partition_byte_app sep l k : sep ∉ l → partition_byte sep (l ++ sep :: k) = (l, Some k).
Proof.
  induction l as [|x l IH]; simpl; intros Hn; [by rewrite bool_decide_eq_true_2|]. rewrite bool_decide_eq_false_2 by set_solver. by rewrite IH by set_solver.
Qed.

Lemma digit_chars n b : b ∈ chars (py_str n) → 48 <= zb b <= 57.
Proof.
  intros Hb. pose proof (py_str_digits n) as Hd. unfold all_chars in Hd. rewrite forallb_forall in Hd. apply list_elem_of_In, Hd in Hb.
  unfold is_digit, in_range in Hb. lia.
Qed.
Lemma not_a_digit n b : zb b < 48 ∨ 57 < zb b → b ∉ chars (py_str n).
Proof. intros Hb Hc%digit_chars. lia. Qed.
Lemma py_str_chars_nonempty n : chars (py_str n) ≠ [].
Proof. unfold py_str. rewrite chars_of_chars. apply dec_digits_nonempty. unfold dec_fuel. lia. Qed.
Lemma py_str_digits_value n : 0 <= n → digits_value (chars (py_str n)) = Some n.
Proof.
  intros Hn. unfold digits_value. rewrite bool_decide_eq_false_2 by apply py_str_chars_nonempty. pose proof (py_str_digits n) as Hd. unfold all_chars in Hd.
  by rewrite Hd, py_str_value.
Qed.

Lemma split_byte_none sep l : sep ∉ l → split_byte sep l = [l].
Proof. induction l as [|x l IH]; simpl; intros Hn; [done|]. rewrite bool_decide_eq_false_2 by set_solver. by rewrite IH by set_solver. Qed.

Lemma digit_not_white b : 48 <= zb b <= 57 → is_white b = false.
Proof. intros Hb. unfold is_white, in_range. lia. Qed.

Lemma strip_digits n : strip_bytes (chars (py_str n)) = chars (py_str n).
Proof.
  unfold strip_bytes, rstrip_bytes. rewrite (drop_while_id is_white (chars (py_str n))).
  - rewrite drop_while_id; [apply rev_involutive|]. intros b k Hb. apply digit_not_white, (digit_chars n). apply list_elem_of_In, in_rev. rewrite Hb. apply in_eq.
  - intros b k Hb. apply digit_not_white, (digit_chars n). rewrite Hb. left.
Qed.

Lemma py_int_str n : 0 <= n → py_int (chars (py_str n)) = Some n.
Proof.
  intros Hn. unfold py_int. rewrite strip_digits.
  assert (digit_groups (chars (py_str n)) = Some n) as Hg.
  { unfold digit_groups. rewrite split_byte_none by (apply not_a_digit; by right). simpl. rewrite bool_decide_eq_false_2 by apply py_str_chars_nonempty.
    simpl. rewrite app_nil_r. by apply py_str_digits_value. }
  pose proof (not_a_digit n x2d ltac:(by left)) as H1. pose proof (not_a_digit n x2b ltac:(by left)) as H2.
  destruct (chars (py_str n)) as [|c l]; [done|]. destruct c; try exact Hg; exfalso; [apply H2|apply H1]; left.
Qed.

(** The text of a range header. *)
Definition range_header (start : Z) (last : option Z) : string :=
  "bytes=" +:+ py_str start +:+ "-" +:+ match last with Some e => py_str e | None => "" end.

Lemma range_parses start last size :
  0 <= start < size → match last with Some e => start <= e | None => True end →
  parse_single_range (Some (range_header start last)) size
  = Ok (Some (start, match last with Some e => Z.min e (size - 1) | None => size - 1 end)).
Proof.
  intros Hs Hl. unfold parse_single_range, range_header.
  set (tail := match last with Some e => py_str e | None => "" end).
  assert (chars ("bytes=" +:+ py_str start +:+ "-" +:+ tail) = chars "bytes=" ++ chars (py_str start) ++ x2d :: chars tail) as Hc
    by (rewrite !chars_app; done).
  assert (x2c ∉ chars tail) as Ht by (unfold tail; destruct last; [apply not_a_digit; by left|by apply not_elem_of_nil]).
  rewrite bool_decide_eq_false_2 by (intros E; rewrite E in Hc; done). rewrite Hc.
  change (drop_prefix (chars "bytes=") (chars "bytes=" ++ chars (py_str start) ++ x2d :: chars tail)) with (Some (chars (py_str start) ++ x2d :: chars tail)).
  rewrite bool_decide_eq_false_2.
  2:{ intros [Hb|[Hb|[Hb|Hb]%elem_of_cons]%elem_of_app]%elem_of_app; [vm_compute in Hb; set_solver|by apply (not_a_digit start x2c) in Hb; [|left]|done..]. }
  rewrite partition_byte_app by (apply not_a_digit; by left). rewrite py_str_digits_value by lia.
  unfold tail. destruct last as [e|].
  - rewrite bool_decide_eq_false_2 by apply py_str_chars_nonempty. rewrite py_int_str by lia. cbn [mbind res_bind].
    destruct (_ || _) eqn:E; [|done]. apply orb_true_iff in E. lia.
  - rewrite bool_decide_eq_true_2 by done. cbn [mbind res_bind]. destruct (_ || _) eqn:E; [apply orb_true_iff in E; lia|]. by rewrite Z.min_id.
Qed.

(** ** The handler (web.download_firmware) *)
Fixpoint contains_bytes (needle s : bytes) : bool :=
  match s with
  | [] => bool_decide (needle = [])
  | _ :: s' => match drop_prefix needle s with Some _ => true | None => contains_bytes needle s' end
  end.

(** An error reply, or the status, the first and last byte of the body and the release. *)
Inductive download_reply :=
  | Rejected (status : Z) (detail : string)
  | Serving (status first last : Z) (release : FirmwareRelease).

Section downloads.
Context `{OtaPlatform}.

(** A rejected request is not committed. *)
Definition download_firmware (w : fleet) (token : string) (header : option string) (now : Z) : res (fleet * download_reply) :=
  match (a ← resolve_download w token now; requested ← parse_single_range header (r_image_size a.2); Ok (a, requested)) with
  | Raise c m => if is_value_error c then Ok (w, Rejected (if contains_bytes (chars "range") (chars (lower m)) then 416 else 404) m) else Raise c m
  | Ok (a, requested) =>
      let '(start, last) := default (0, r_image_size a.2 - 1) requested in
      Ok (a.1, Serving (match requested with Some _ => 206 | None => 200 end) start last a.2)
  end.

(** When a download is served from an image of the release's size, the announced range is inside the image and the streamed
    chunks are exactly its bytes, none empty and none over 64 KiB; without a range header the body is the whole image with status 200, with
    one the status is 206. A rejected request changes nothing. *)
Theorem download_serves_image w token header now w' reply :
  download_firmware w token header now = Ok (w', reply) →
  match reply with
  | Rejected status _ => w' = w ∧ (status = 416 ∨ status = 404)
  | Serving status first last r => ∀ file, zlen file = r_image_size r →
      0 <= first <= last + 1 ∧ last < zlen file
      ∧ concat (firmware_chunks file first last) = take (Z.to_nat (last - first + 1)) (drop (Z.to_nat first) file)
      ∧ zlen (concat (firmware_chunks file first last)) = last - first + 1
      ∧ Forall (λ c, 0 < zlen c <= CHUNK_SIZE) (firmware_chunks file first last)
      ∧ (header = None → status = 200 ∧ concat (firmware_chunks file first last) = file)
      ∧ (status = 206 → first <= last)
  end.
Proof.
  unfold download_firmware. destruct (_ ≫= _) as [[a requested]|c m] eqn:E.
  2:{ destruct (is_value_error c); intros Ew; [|done]. apply Ok_inj in Ew. injection Ew as <- <-. split; [done|]. destruct (contains_bytes _ _); auto. }
  apply bind_ok in E as (x & _ & E). apply bind_ok in E as (q & Eq & E). apply Ok_inj in E. injection E as -> ->.
  destruct (default (0, r_image_size a.2 - 1) requested) as [first last] eqn:Ed. intros Ew. apply Ok_inj in Ew. injection Ew as <- <-. intros file Hf.
  assert (0 <= first ∧ first <= last + 1 ∧ last < zlen file ∧ (requested ≠ None → first <= last)) as (H1 & H2 & H3 & H4).
  { destruct requested as [[f l]|]; simpl in Ed; injection Ed as <- <-; [apply parse_range_bounds in Eq; lia|]. pose proof (Zle_0_nat (length file)). unfold zlen in *.
    split_and!; [lia..|done]. }
  destruct (firmware_chunks_slice file first last H1 H2 H3) as [Hc Hall]. split_and!; try done.
  - rewrite Hc. unfold zlen in *. rewrite length_take, length_drop. lia.
  - intros ->. simpl in Eq. injection Eq as <-. simpl in Ed. injection Ed as <- <-. split; [done|]. rewrite Hc, drop_0. apply take_ge. unfold zlen in *. lia.
  - intros Hs. apply H4. by destruct requested.
Qed.
End downloads.

(** C38: The header a board sends to resume after [n] bytes ("bytes=n-") is read back as the rest of the image, a closed range as
    itself cut at the end of the image, and the [n] bytes already written followed by the stream are the whole image. *)
Theorem resumed_download_is_whole file n last :
  0 <= n < zlen file → n <= last →
  parse_single_range (Some (range_header n None)) (zlen file) = Ok (Some (n, zlen file - 1))
  ∧ parse_single_range (Some (range_header n (Some last))) (zlen file) = Ok (Some (n, Z.min last (zlen file - 1)))
  ∧ take (Z.to_nat n) file ++ concat (firmware_chunks file n (zlen file - 1)) = file.
Proof.
  intros Hn Hl. split_and!; [by apply range_parses|by apply range_parses|].
  destruct (firmware_chunks_slice file n (zlen file - 1)) as [-> _]; [lia..|]. rewrite (take_ge (drop _ _)) by (rewrite length_drop; unfold zlen in *; lia).
  apply take_drop.
Qed.

(** ** Witnesses *)
Lemma download_serves_image_witness :
  ∃ w' r, download_firmware demo_offered "token-1" (Some "bytes=65536-") (at_second 20) = Ok (w', Serving 206 65536 149999 r)
    ∧ r_image_size r = 150000
    ∧ ∀ file, zlen file = r_image_size r → zlen (concat (firmware_chunks file 65536 149999)) = 149999 - 65536 + 1.
Proof.
  eexists _, _. split; [vm_compute; reflexivity|]. split; [reflexivity|]. intros file Hf.
  refine (proj1 (proj2 (proj2 (proj2 (download_serves_image demo_offered "token-1" (Some "bytes=65536-") (at_second 20) _ (Serving 206 65536 149999 _) _ file Hf))))).
  vm_compute. reflexivity.
Defined.
Lemma resumed_download_is_whole_witness :
  parse_single_range (Some "bytes=2-") 4 = Ok (Some (2, 3)) ∧ [x61; x62] ++ concat (firmware_chunks [x61; x62; x63; x64] 2 3) = [x61; x62; x63; x64].
Proof. split; apply (resumed_download_is_whole [x61; x62; x63; x64] 2 3); vm_compute; intuition congruence. Defined.
