(* ===== verification/OtaSafety.v ===== *)
(** * What every run of the rollout guarantees

    Theorems about [reachable] tables and about later states of a run: the invariant of the
    campaigns, the evidence behind a success, the refinement of the transition table, and
    the end of downloads. *)
From S2P Require Import Prelude PyText Hashes PyJson QueueEvidence RuntimeContract DeviceHealth ReleaseScope ReleaseContract OtaModel OtaReaders OtaTargets OtaProgress OtaDownload OtaStore OtaInterruption OtaAssignment OtaReturn OtaScope OtaCampaign OtaHistory OtaMoves OtaSystem OtaPublish OtaReach OtaRuns OtaDemo.
Open Scope string_scope.
Open Scope list_scope.
Open Scope Z_scope.

Section safety.
Context `{OtaPlatform} `{ReturnPlatform} `{ScopePlatform}.

(** ** The invariant *)
(** C3: In every reachable state a zone has at most one live (active or paused) campaign and its live campaigns at most one
    board being updated; a completed campaign has deployments and all succeeded; no deployment of a cancelled campaign is
    pending, offered or downloading; every deployment belongs to a stored release and campaign and its byte count is within the image. *)
Theorem rollout_invariant w :
  reachable w →
  (∀ c o, c ∈ campaigns w → o ∈ campaigns w → c_zone_id c = c_zone_id o → live c = true → live o = true → c = o)
  ∧ (∀ c o d e, campaign_of w (d_campaign_id d) = Some c → campaign_of w (d_campaign_id e) = Some o → c_zone_id c = c_zone_id o →
       live c = true → live o = true → d ∈ deployments w → e ∈ deployments w → active_state (d_status d) = true → active_state (d_status e) = true → d = e)
  ∧ (∀ c, c ∈ campaigns w → c_status c = COMPLETED → statuses_of w (c_id c) ≠ [] ∧ Forall (λ s, s = SUCCEEDED) (statuses_of w (c_id c)))
  ∧ (∀ c, c ∈ campaigns w → c_status c = CAMPAIGN_CANCELLED → Forall (λ s, s ∉ [PENDING; OFFERED; DOWNLOADING]) (statuses_of w (c_id c)))
  ∧ (∀ d, d ∈ deployments w → d_campaign_id d ∈ map c_id (campaigns w)
       ∧ ∃ r, release_of w (d_release_id d) = Some r ∧ 0 <= d_bytes_written d <= r_image_size r
              ∧ (whole_image (d_status d) = true → d_bytes_written d = r_image_size r)).
Proof.
  intros Hr. pose proof (reachable_ok w Hr) as Hok.
  assert (∀ c (P : deployment_state → Prop), (∀ d, d ∈ deployments w → d_campaign_id d = c_id c → P (d_status d)) → Forall P (statuses_of w (c_id c))) as Hall.
  { intros c P HP. unfold statuses_of. apply Forall_forall. intros s (d & -> & [Hd Hc]%elem_of_filter_bool)%list_elem_of_fmap. apply HP; [done|lia]. }
  split_and!.
  - apply Hok.
  - intros c o d e Hc Ho Hz Hlc Hlo Hd He. pose proof Hc as [Hc' Ec]%row_by_some. pose proof Ho as [Ho' Eo]%row_by_some.
    assert (c = o) as <- by (by eapply (f_one_live _ Hok)). apply (f_one_active _ Hok); [done..|congruence].
  - intros c Hc Est. destruct (f_status _ Hok c Hc) as [_ Hst]. rewrite Est in Hst. destruct Hst as [Hne Hsucc]. eauto.
  - intros c Hc Est. destruct (f_status _ Hok c Hc) as [_ Hst]. rewrite Est in Hst. apply Hall. intros d Hd Ed.
    pose proof (Hst d Hd Ed) as Hcan. unfold cancellable in Hcan. by apply bool_decide_eq_false in Hcan.
  - intros d Hd. destruct (f_rows _ Hok d Hd) as [(r & Er & Hb & Hw & _) Hcam _ _]. eauto 10.
Qed.

(** ** The evidence of a success *)
(** C4: A SUCCEEDED deployment of a reachable state has its complete image written and three stored reports in order, first
    boot, reconciling, success, each of the release's application digest under the target version from an OTA slot. *)
Theorem success_has_evidence w d :
  reachable w → d ∈ deployments w → d_status d = SUCCEEDED →
  ∃ r digest a b c, release_of w (d_release_id d) = Some r ∧ _application_sha256 r = Some digest ∧ d_bytes_written d = r_image_size r
    ∧ a ∈ firmware_events w ∧ b ∈ firmware_events w ∧ c ∈ firmware_events w ∧ e_id a < e_id b < e_id c
    ∧ e_state a = "BOOTED_PENDING" ∧ e_state b = "RECONCILING" ∧ e_state c = "SUCCEEDED"
    ∧ Forall (λ e, e_deployment_id e = d_id d ∧ get "image_sha256" (e_details e) = PStr digest
                   ∧ _versions_match (opt_text (get "running_version" (e_details e))) (Some (d_target_version d)) = true
                   ∧ ota_slot (opt_text (get "running_partition" (e_details e))) = true) [a; b; c].
Proof.
  intros Hr Hd Hst. pose proof (reachable_ok w Hr) as Hok. destruct (f_rows _ Hok d Hd) as [(r & Er & _ & Hw & Hev) _ _ _].
  unfold boot_evidence in Hev. rewrite Hst in *. destruct Hev as (a & b & c & Ha & Hb & Hc & Hlt & Ca & Cb & Cc).
  assert (∃ digest, _application_sha256 r = Some digest ∧ ∀ s e, checked_report r d s e → e_deployment_id e = d_id d ∧ get "image_sha256" (e_details e) = PStr digest
     ∧ _versions_match (opt_text (get "running_version" (e_details e))) (Some (d_target_version d)) = true
     ∧ ota_slot (opt_text (get "running_partition" (e_details e))) = true) as (digest & Hdig & Hrep).
  { destruct Ca as (_ & _ & Cb' & _). unfold checked_boot in Cb'. destruct (_application_sha256 r) as [digest|] eqn:Edig; [|done]. exists digest. split; [done|].
    intros s e (E1 & _ & E3 & _). unfold checked_boot in E3. rewrite Edig in E3. bool_prop.
    split_and!; try done. match goal with H : eq_str ?v _ = true |- _ => unfold eq_str in H; destruct v; try discriminate end. bool_prop. congruence. }
  exists r, digest, a, b, c. pose proof Ca as (Ea & Sa & _). pose proof Cb as (Eb & Sb & _). pose proof Cc as (Ec & Sc & _).
  split_and!; auto; try lia. repeat constructor; by eapply Hrep.
Qed.

(** ** Refinement of the transition table *)
Lemma steps_descend w w' : reachable w → rtc ota_step w w' → descends w w'.
Proof. intros Hr Hst. pose proof (reachable_ok w Hr) as Hok. apply moves_descends; [done|by apply steps_moves]. Qed.

Lemma evolved_row w w' d d' :
  reachable w → rtc ota_step w w' → d ∈ deployments w → d' ∈ deployments w' → d_id d' = d_id d → evolved d d'.
Proof.
  intros Hr Hst Hd Hd' Hid. pose proof (reachable_ok w Hr) as Hok. destruct (steps_descend w w' Hr Hst) as [_ Hdesc].
  destruct (Hdesc d' Hd') as (x & Hx & He). { rewrite Hid. apply (f_rows _ Hok d Hd). }
  assert (x = d) as <-; [|done]. pose proof He as ((E & _) & _). eapply (NoDup_map_inj d_id); [apply Hok|done|done|congruence].
Qed.

(** C5: Between any two states of a run a deployment keeps its public id, campaign, release, board, target and previous
    version, its byte count never decreases, and its status moves along the transition table [lifecycle]: the rollout refines
    that abstract machine. *)
Theorem deployments_follow_the_lifecycle w w' d d' :
  reachable w → rtc ota_step w w' → d ∈ deployments w → d' ∈ deployments w' → d_id d' = d_id d →
  same_core d d' ∧ d_bytes_written d <= d_bytes_written d' ∧ rtc lifecycle (d_status d) (d_status d').
Proof. apply evolved_row. Qed.

Lemma lifecycle_terminal s t : rtc lifecycle s t → terminal_state s = true → t = s ∨ (s = FAILED ∧ t = ROLLED_BACK).
Proof.
  intros Hr. induction Hr as [s|s u t Hsu _ IH]; intros Ht; [by left|]. destruct Hsu as [Hsu|[-> ->]].
  - destruct s; try done; by apply elem_of_nil in Hsu.
  - destruct IH as [->|[? _]]; [done|by right|done].
Qed.

(** ** The end of downloads *)
(** A grant that opens a download is of a deployment that is not terminal. *)
Lemma resolve_inv w token now w' r :
  resolve_download w token now = Ok (w', r) →
  ∃ g d k, List.find (λ g, bool_decide (g_token_hash g = sha256_hex (chars token)) && (now <? g_expires_at g)) (grants w) = Some g
    ∧ deployment_of w (g_deployment_id g) = Some d ∧ terminal_state (d_status d) = false ∧ release_of w (d_release_id d) = Some r ∧ offerable r = true
    ∧ board_of w (g_connector_id g) = Some k ∧ storage_predecessor_exclusion w r k (Some (d_id d)) now = Ok None.
Proof.
  intros E. unfold resolve_download in E. destruct (List.find _ _) as [g|]; [|done]. destruct (deployment_of w _) as [d|] eqn:Ed; [|done].
  destruct (terminal_state _) eqn:Et; [done|]. destruct (release_of w _) as [r'|] eqn:Er; [|done]. destruct (offerable r') eqn:Eo; simpl in E; [|done].
  destruct (_ && _); [done|]. cbv zeta in E. apply bind_ok in E as (u & _ & E). destruct (board_of w _) as [k|] eqn:Ek; [|done].
  apply bind_ok in E as (x & Ex & E). destruct x; [done|]. apply bind_ok in E as (same & _ & E). destruct (negb same); [done|].
  apply bind_ok in E as (u1 & _ & E). apply bind_ok in E as (u2 & _ & E). destruct (negb (stored_image _)); [done|]. apply Ok_inj in E. injection E as <- <-.
  exists g, d, k. by split_and!.
Qed.

(** C22: Once a deployment is terminal (succeeded, failed, rolled back, cancelled), no later state of the run serves its image:
    no token whose live grant is for it opens a download. *)
Theorem terminal_never_downloaded w w' d token now g :
  reachable w → rtc ota_step w w' → d ∈ deployments w → terminal_state (d_status d) = true →
  List.find (λ g, bool_decide (g_token_hash g = sha256_hex (chars token)) && (now <? g_expires_at g)) (grants w') = Some g →
  g_deployment_id g = d_id d → ∀ w2 r, resolve_download w' token now ≠ Ok (w2, r).
Proof.
  intros Hr Hst Hd Ht Hg Hgd w2 r (g' & d' & k & Eg & Ed & Et & _)%resolve_inv. rewrite Hg in Eg. injection Eg as <-.
  apply deployment_of_in in Ed as [Hd' Hid]. destruct (evolved_row w w' d d') as (_ & _ & Hlife); try done; [congruence|].
  apply lifecycle_terminal in Hlife as [E|[_ E]]; [..|done]; rewrite E in Et; [congruence|done].
Qed.

(** ** Bounded retries *)
(** C37: At most three stops of a download are ever recorded for one deployment, at most two while it may still be offered
    again, and none before its first offer. *)
Theorem stops_bounded w d :
  reachable w → d ∈ deployments w →
  zlen (_interruptions w d) <= DOWNLOAD_ATTEMPT_LIMIT ∧ (downloading d = true → zlen (_interruptions w d) < DOWNLOAD_ATTEMPT_LIMIT)
  ∧ (d_status d = PENDING → _interruptions w d = []).
Proof.
  intros Hr Hd. pose proof (ok_stops _ _ (f_rows _ (reachable_ok w Hr) d Hd)) as Hb. unfold DOWNLOAD_ATTEMPT_LIMIT.
  split_and!.
  - unfold stop_bound in Hb. destruct (d_status d); lia.
  - unfold downloading. intros Hdl. unfold stop_bound in Hb. destruct (d_status d); try discriminate; lia.
  - intros Hp. rewrite Hp in Hb. simpl in Hb. destruct (_interruptions w d); [done|]. unfold zlen in Hb. simpl in Hb. lia.
Qed.
End safety.

(** ** Witnesses *)
Lemma rollout_invariant_witness :
  statuses_of demo_installed 10 = [SUCCEEDED; PENDING] ∧
  ∀ d, d ∈ deployments demo_installed → d_campaign_id d ∈ map c_id (campaigns demo_installed)
       ∧ ∃ r, release_of demo_installed (d_release_id d) = Some r ∧ 0 <= d_bytes_written d <= r_image_size r
              ∧ (whole_image (d_status d) = true → d_bytes_written d = r_image_size r).
Proof. split; [reflexivity|]. apply (rollout_invariant demo_installed demo_installed_reachable). Defined.

Lemma success_has_evidence_witness :
  d_status (demo_row demo_installed 11) = SUCCEEDED ∧
  ∃ r digest a b c, release_of demo_installed 1 = Some r ∧ _application_sha256 r = Some digest ∧ 150000 = r_image_size r
    ∧ a ∈ firmware_events demo_installed ∧ b ∈ firmware_events demo_installed ∧ c ∈ firmware_events demo_installed ∧ e_id a < e_id b < e_id c
    ∧ e_state a = "BOOTED_PENDING" ∧ e_state b = "RECONCILING" ∧ e_state c = "SUCCEEDED"
    ∧ Forall (λ e, e_deployment_id e = 11 ∧ get "image_sha256" (e_details e) = PStr digest
                   ∧ _versions_match (opt_text (get "running_version" (e_details e))) (Some "2.6.14") = true
                   ∧ ota_slot (opt_text (get "running_partition" (e_details e))) = true) [a; b; c].
Proof.
  split; [reflexivity|]. apply (success_has_evidence demo_installed (demo_row demo_installed 11) demo_installed_reachable); [|reflexivity].
  apply (demo_row_in _ 11). reflexivity.
Defined.

Lemma deployments_follow_the_lifecycle_witness :
  same_core (demo_row demo_offered 11) (demo_row demo_installed 11) ∧ 0 <= 150000 ∧ rtc lifecycle OFFERED SUCCEEDED.
Proof.
  apply (deployments_follow_the_lifecycle demo_offered demo_installed (demo_row demo_offered 11) (demo_row demo_installed 11) demo_offered_reachable).
  - apply (performs_steps demo_install). vm_compute. reflexivity.
  - apply (demo_row_in _ 11). reflexivity.
  - apply (demo_row_in _ 11). reflexivity.
  - reflexivity.
Defined.

Lemma terminal_never_downloaded_witness :
  is_ok (resolve_download demo_offered "token-1" (at_second 90)) = true ∧ is_ok (resolve_download demo_installed "token-1" (at_second 90)) = false.
Proof.
  split; [vm_compute; reflexivity|]. destruct (resolve_download demo_installed "token-1" (at_second 90)) as [[w2 r]|c m] eqn:E; [|reflexivity]. exfalso. revert E.
  eapply (terminal_never_downloaded demo_installed demo_installed (demo_row demo_installed 11) "token-1" (at_second 90) _ demo_installed_reachable).
  - apply rtc_refl.
  - apply (demo_row_in _ 11). reflexivity.
  - reflexivity.
  - vm_compute. reflexivity.
  - reflexivity.
Defined.

Lemma stops_bounded_witness :
  zlen (_interruptions demo_stopped (demo_row demo_stopped 11)) = 1 ∧ zlen (_interruptions demo_stopped (demo_row demo_stopped 11)) <= DOWNLOAD_ATTEMPT_LIMIT.
Proof.
  split; [reflexivity|]. apply (stops_bounded demo_stopped (demo_row demo_stopped 11) demo_stopped_reachable).
  apply (demo_row_in _ 11). reflexivity.
Defined.
