(* ===== verification/OtaOffers.v ===== *)
(** * What a poll hands out

    The assignment a board receives, the bound on resumed attempts, the storage floor, and
    the stop of a campaign after a failure. *)
From S2P Require Import Prelude PyText Hashes PyJson QueueEvidence RuntimeContract DeviceHealth ReleaseScope ReleaseContract OtaModel OtaReaders OtaTargets OtaProgress OtaDownload OtaStore OtaInterruption OtaAssignment OtaReturn OtaScope OtaCampaign OtaHistory OtaMoves OtaSystem OtaPublish OtaReach OtaRuns OtaDemo OtaSafety.
Open Scope string_scope.
Open Scope list_scope.
Open Scope Z_scope.

Section offers.
Context `{OtaPlatform}.

Lemma refused_none w d held reason now w' a : refused w d held reason now = Ok (w', Some a) → False.
Proof.
  unfold refused. destruct held; [|by intros [= _ ?]]. intros (x & _ & E)%bind_ok. apply Ok_inj in E. by injection E.
Qed.

Lemma or_refuse_none {A} (r : res A) reason cont : or_refuse r reason cont = Ok None → ∃ x, r = Ok x ∧ cont x = Ok None.
Proof. unfold or_refuse. destruct r as [x|c m]; [eauto|]. by destruct (is_value_error c). Qed.

(** What holds when every admission check passes. *)
Lemma admission_inv w k d r now :
  admission_refusal w k d r now = Ok None →
  require_family_match (k_firmware_family k) (r_manifest r) = Ok tt
  ∧ version_at_least (k_firmware_version k) (r_minimum_bootstrap_version r) = true ∧ storage_predecessor_exclusion w r k (Some (d_id d)) now = Ok None
  ∧ (r_state r = "AVAILABLE" → firmware_ota_enabled = true) ∧ (r_state r = "HIL_ONLY" → hil_refusal w k r now = Ok None)
  ∧ ∃ digest, _application_sha256 r = Some digest.
Proof.
  unfold admission_refusal. destruct (_ && _); [done|]. intros (u & Hfam & E)%or_refuse_none. apply bind_ok in Hfam as ([] & Hfam & _). destruct (version_at_least _ _) eqn:Ev; simpl in E; [|done].
  apply bind_ok in E as (x & Ex & E). destruct x; [done|]. apply or_refuse_none in E as (b & _ & E).
  match type of E with (if ?c then _ else _) = _ => destruct c end; [done|].
  destruct (bool_decide (r_state r = "AVAILABLE") && negb firmware_ota_enabled) eqn:Ea; [done|].
  apply bind_ok in E as (hil & Eh & E). destruct hil; [done|]. destruct (_application_sha256 r) as [digest|] eqn:Ed; [|done]. split_and!; eauto.
  - intros Hst. rewrite bool_decide_eq_true_2 in Ea by done. by destruct firmware_ota_enabled.
  - intros Hst. by rewrite bool_decide_eq_true_2 in Eh.
Qed.

Lemma assign_inv w k d held serialized pending base token now w' a :
  assign w k d held serialized pending base token now = Ok (w', Some a) →
  ∃ r digest w1, release_of w (d_release_id d) = Some r ∧ offerable r = true ∧ admission_refusal w k d r now = Ok None ∧ _application_sha256 r = Some digest
    ∧ (if pending then offer_pending w k d r now = Ok (w1, true) else resume_gate w k d held serialized now = Ok (w1, false))
    ∧ grant_download w1 k d r digest base token now = Ok (w', Some a).
Proof.
  intros E. unfold assign in E. destruct (release_of w (d_release_id d)) as [r|] eqn:Er; [|by apply refused_none in E].
  destruct (offerable r) eqn:Eo; simpl in E; [|by apply refused_none in E]. apply bind_ok in E as (reason & Ea & E).
  destruct reason; [by apply refused_none in E|]. pose proof (admission_inv _ _ _ _ _ Ea) as (_ & _ & _ & _ & _ & digest & Ed). rewrite Ed in E. simpl in E.
  destruct pending; simpl in E.
  - apply bind_ok in E as ([w1 b] & E1 & E). simpl in E. destruct b; [|by injection E]. exists r, digest, w1. split_and!; done.
  - apply bind_ok in E as (reader & _ & E). destruct reader; [by apply refused_none in E|]. apply bind_ok in E as ([w1 b] & E1 & E). simpl in E.
    destruct b; [by injection E|]. exists r, digest, w1. split_and!; done.
Qed.

Lemma grant_inv w k d r digest base token now w' a :
  grant_download w k d r digest base token now = Ok (w', Some a) →
  ∃ family, release_family (r_manifest r) = Ok family ∧ (sha256_hex (chars token) ∉ map g_token_hash (grants w))
    ∧ w' = add_grant (sha256_hex (chars token)) (d_id d) (k_id k) (now + firmware_download_grant_seconds * SECOND) now w
    ∧ a = mkAssignment (d_deployment_id d) (r_release_id r) (r_version r) digest (r_image_sha256 r) (r_image_size r) (r_partition_layout r) family
            (base +:+ "/device/v2/firmware/download/" +:+ token).
Proof.
  intros E. unfold grant_download in E. apply bind_ok in E as (family & Ef & E). cbv zeta in E. destruct (existsb _ _) eqn:Ex; [done|].
  apply Ok_inj in E. injection E as <- <-. exists family. split_and!; try done. intros (g & Eg & Hg)%list_elem_of_fmap. apply not_true_iff_false in Ex. apply Ex.
  apply List.existsb_exists. exists g. split; [by apply list_elem_of_In|]. by apply bool_decide_eq_true.
Qed.

(** The deployment behind an assignment: the board's own, of its zone's active campaign, and the rows [lock_for_assignment] read again. *)
Lemma poll_inv w k base token now w' a :
  fleet_ok w → assignment_for_connector w k base token now = Ok (w', Some a) →
  capability_is_eligible k = true ∧ ∃ d held serialized (pending : bool),
    d ∈ deployments w ∧ d_connector_id d = k_id k ∧ in_active_campaign w (k_zone_id k) d = true
    ∧ (if pending then d_status d = PENDING ∧ zone_deployment w (k_zone_id k) active_state = None else active_state (d_status d) = true)
    ∧ (pending = false → assignment_needs_serializing k d = true ∨ awaiting_retry_offer w d ≠ None → held = awaiting_retry_offer w d ∧ serialized = true)
    ∧ assign w k d held serialized pending base token now = Ok (w', Some a).
Proof.
  intros Hok E. unfold assignment_for_connector in E. destruct (capability_is_eligible k); simpl in E; [|by injection E]. split; [done|].
  destruct (negb _); [by injection E|]. destruct (zone_deployment w (k_zone_id k) active_state) as [d|] eqn:Ez.
  - pose proof Ez as [Hin Hz]%in_of_find. apply andb_true_iff in Hz as [Hc Ha]. destruct (Z.eqb_spec (d_connector_id d) (k_id k)) as [Hk|]; simpl in E; [|by injection E].
    destruct (negb _ || _) eqn:Eser.
    + destruct (lock_for_assignment w k d) as [l|] eqn:El; [|by injection E]. assert (l = d) as ->.
      { unfold lock_for_assignment in El. destruct (row_lock_free w k d); simpl in El; [|done]. unfold deployment_of in El.
        rewrite (row_by_unique d_id _ d (f_deployments _ Hok) Hin) in El. destruct (active_state (d_status d)); simpl in El; [|done]. destruct (campaign_of _ _); [|done].
        case_bool_decide; [|done]. by injection El. }
      exists d, (awaiting_retry_offer w d), true, false. split_and!; done.
    + apply orb_false_iff in Eser as [E1 E2]. exists d, None, false, false. split_and!; try done. intros _ [Hn|Hn]; [congruence|].
      by rewrite bool_decide_eq_false_2 in E1.
  - destruct (zone_deployment w (k_zone_id k) (λ s, bool_decide (s = PENDING))) as [d|] eqn:Ep; [|by injection E].
    pose proof Ep as [Hin Hz]%in_of_find. apply andb_true_iff in Hz as [Hc Ha]. destruct (Z.eqb_spec (d_connector_id d) (k_id k)) as [Hk|]; [|by injection E].
    bool_prop. exists d, None, false, true. split_and!; done.
Qed.

Lemma offer_grants w k d r now w1 b : offer_pending w k d r now = Ok (w1, b) → grants w1 = grants w.
Proof.
  unfold offer_pending. intros ([hold|] & _ & E)%bind_ok; [by injection E as <- _|]. apply bind_ok in E as (details & _ & E). destruct details; apply Ok_inj in E; by injection E as <- _.
Qed.

(** An attempt that passes the gate: no grant was issued yet, and a resumed one is below the limit. *)
Lemma resume_gate_inv w k d held serialized now w1 :
  resume_gate w k d held serialized now = Ok (w1, false) →
  grants w1 = grants w ∧ ∀ first, serialized = true → downloading d = true → _first_interruption_at w d = Some first →
    zlen (granted_since w d first) < RESUMED_GRANT_LIMIT.
Proof.
  assert (∀ first, _re_offers_spent w d = None → _first_interruption_at w d = Some first → zlen (granted_since w d first) < RESUMED_GRANT_LIMIT) as Hspent.
  { intros first Er Hf. unfold _re_offers_spent in Er. rewrite Hf in Er. by destruct (Z.leb_spec RESUMED_GRANT_LIMIT (zlen (granted_since w d first))). }
  intros E. unfold resume_gate in E. destruct held as [latest|].
  - unfold download_retry_hold in E. destruct (negb resume_enabled); [apply bind_ok in E as (x & _ & E); by injection E|].
    apply bind_ok in E as (x & _ & E). destruct x; [apply bind_ok in E as (y & _ & E); by injection E|]. apply bind_ok in E as (t & _ & E).
    destruct t as [t|]; [|done]. destruct (now <? t); [by injection E|]. destruct (_re_offers_spent w d); [apply bind_ok in E as (y & _ & E); by injection E|].
    apply Ok_inj in E. injection E as <-. auto.
  - destruct serialized; [|by injection E as <-]. unfold resumed_attempt_refusal in E. destruct (downloading d) eqn:Edl; simpl in E; [|by injection E as <-].
    destruct (_first_interruption_at w d) as [first|] eqn:Ef; [|by injection E as <-]. cbv zeta in E.
    destruct (negb resume_enabled); [apply bind_ok in E as (y & _ & E); by injection E|].
    destruct (_re_offers_spent w d); [apply bind_ok in E as (y & _ & E); by injection E|].
    destruct (first + _ <=? now); [apply bind_ok in E as (y & _ & E); by injection E|]. apply Ok_inj in E. injection E as <-. split; [done|]. auto.
Qed.
End offers.

Section polls.
Context `{OtaPlatform} `{ReturnPlatform} `{ScopePlatform}.

(** C6: An assignment in a reachable state goes to the board its deployment is for, from an ACTIVE campaign of the board's zone,
    while no other deployment of a live campaign of that zone is being updated; it names the stored release, which may be offered, has an
    application digest and passed every admission check; exactly one grant is added, under the hash of a token no earlier grant had. *)
Theorem assignment_sound w k base token now w' a :
  reachable w → assignment_for_connector w k base token now = Ok (w', Some a) →
  capability_is_eligible k = true ∧ ∃ d c r,
    d ∈ deployments w ∧ d_deployment_id d = a_deployment_id a ∧ d_connector_id d = k_id k ∧ terminal_state (d_status d) = false
    ∧ campaign_of w (d_campaign_id d) = Some c ∧ c_zone_id c = k_zone_id k ∧ c_status c = ACTIVE
    ∧ (∀ o c', o ∈ deployments w → campaign_of w (d_campaign_id o) = Some c' → c_zone_id c' = k_zone_id k → live c' = true →
         active_state (d_status o) = true → o = d)
    ∧ release_of w (d_release_id d) = Some r ∧ offerable r = true ∧ a_version a = r_version r ∧ a_image_size a = r_image_size r
    ∧ _application_sha256 r = Some (a_image_sha256 a) ∧ admission_refusal w k d r now = Ok None
    ∧ (sha256_hex (chars token) ∉ map g_token_hash (grants w))
    ∧ ∃ i, grants w' = grants w ++ [mkGrant i (sha256_hex (chars token)) (d_id d) (k_id k) (now + firmware_download_grant_seconds * SECOND) now None].
Proof.
  intros Hr E. pose proof (reachable_ok w Hr) as Hok. apply poll_inv in E as [Hcap (d & held & ser & pending & Hd & Hk & Hz & Hst & _ & E)]; [|done].
  split; [done|]. apply assign_inv in E as (r & digest & w1 & Er & Ho & Ha & Hdig & Hgate & E). apply grant_inv in E as (family & _ & Hnew & -> & ->).
  assert (grants w1 = grants w) as Hg by (destruct pending; [by eapply offer_grants|by eapply resume_gate_inv]).
  pose proof Hz as Hact. unfold in_active_campaign in Hz. destruct (campaign_of w (d_campaign_id d)) as [c|] eqn:Ec; [|done]. bool_prop.
  rewrite Hg in Hnew. pose proof Ec as [Hcin Hcid]%row_by_some.
  exists d, c, r. split_and!; try done; [|..|exists (next_id w1); simpl; by rewrite Hg].
  - destruct pending; [destruct Hst as [-> _]; done|]. by destruct (d_status d).
  - intros o c' Hin Eo Hzo Hlive Hao. pose proof Eo as [Hin' Hid']%row_by_some.
    assert (c' = c) as -> by (apply (f_one_live _ Hok); try done; [congruence|by apply bool_decide_eq_true; rewrite H3; set_solver]).
    destruct pending; [|by apply (f_one_active _ Hok); congruence]. destruct Hst as [_ Hnone]. exfalso.
    pose proof (List.find_none _ _ Hnone o (proj1 (list_elem_of_In _ _) Hin)) as Hno. simpl in Hno. unfold in_active_campaign in Hno.
    rewrite Eo, Hao in Hno. rewrite !bool_decide_eq_true_2 in Hno by congruence. done.
Qed.

(** After the first recorded stop of a download, a board whose assignments are serialized is given the image again at most
    four times: the grant just issued is within the limit. *)
Theorem resumed_grants_bounded w k base token now w' a d first :
  reachable w → assignment_for_connector w k base token now = Ok (w', Some a) →
  d ∈ deployments w → d_deployment_id d = a_deployment_id a → assignment_needs_serializing k d = true → downloading d = true →
  _first_interruption_at w d = Some first → zlen (granted_since w' d first) <= RESUMED_GRANT_LIMIT.
Proof.
  intros Hr E Hd Hid Hser Hdl Hf. pose proof (reachable_ok w Hr) as Hok.
  apply poll_inv in E as [_ (x & held & ser & pending & Hx & Hk & Hz & Hst & Hserial & E)]; [|done].
  apply assign_inv in E as (r & digest & w1 & Er & Ho & Ha & Hdig & Hgate & E). apply grant_inv in E as (family & _ & Hnew & -> & ->). simpl in Hid.
  assert (x = d) as -> by (by eapply public_row). destruct pending.
  { destruct Hst as [Hst _]. unfold downloading in Hdl. by rewrite Hst in Hdl. }
  destruct (Hserial eq_refl (or_introl Hser)) as [-> ->]. destruct (resume_gate_inv _ _ _ _ _ _ _ Hgate) as [Hg Hlt]. specialize (Hlt first eq_refl Hdl Hf).
  unfold granted_since, grants_of, zlen in *. simpl. rewrite Hg, !List.filter_app, length_app. simpl. rewrite Z.eqb_refl. simpl.
  destruct (first <=? now); simpl; lia.
Qed.

(** ** The storage floor *)
Lemma floors_kept_refl ks : floors_kept ks ks.
Proof. intros i k Hk Hl. eauto. Qed.
Lemma moves_floors w w' : moves w w' → floors_kept (boards w) (boards w').
Proof.
  intros Hm. induction Hm as [w|w w1 w2 Hm1 _ IH]; [apply floors_kept_refl|]. intros i k Hk Hl.
  assert (floors_kept (boards w) (boards w1)) as H1' by (destruct Hm1; try apply floors_kept_refl; done).
  destruct (H1' i k Hk Hl) as (k1 & Hk1 & Hl1). by apply (IH i k1).
Qed.

Definition modern (version : string) : bool :=
  match semantic_version (Some version) with Some v => version_leb REDO_AWARE_VERSION v | None => true end.

Lemma floored_modern w r k deployment now :
  k_ota_floor_latched_at k ≠ None → k_firmware_family k = Some "zkt" → storage_predecessor_exclusion w r k deployment now = Ok None → modern (r_version r) = true.
Proof.
  intros Hl Hf E. unfold storage_predecessor_exclusion in E. destruct (validate_storage_contract _ _) as [contract|c m]; [|by destruct (is_value_error c)].
  apply bind_ok in E as (floor & Ef & E). destruct floor; [done|]. unfold _redo_floor_exclusion in Ef. unfold modern.
  destruct (semantic_version _) as [v|]; [|done]. rewrite bool_decide_eq_true_2 in Ef by done. cbn [negb orb] in Ef.
  destruct (version_leb _ v); [done|]. by destruct (k_ota_floor_latched_at k).
Qed.

(** C21: A board whose storage floor was latched at some point of a run keeps it, and while it is a zkt board no later state assigns
    it, or serves it, an image older than 2.7.6. *)
Theorem floored_board_never_downgraded w w' i k k' :
  reachable w → rtc ota_step w w' → board_of w i = Some k → k_ota_floor_latched_at k ≠ None →
  board_of w' i = Some k' → k_firmware_family k' = Some "zkt" →
  k_ota_floor_latched_at k' ≠ None
  ∧ (∀ base token now w2 a, assignment_for_connector w' k' base token now = Ok (w2, Some a) → modern (a_version a) = true)
  ∧ (∀ token now g w2 r, List.find (λ g, bool_decide (g_token_hash g = sha256_hex (chars token)) && (now <? g_expires_at g)) (grants w') = Some g →
       g_connector_id g = i → resolve_download w' token now = Ok (w2, r) → modern (r_version r) = true).
Proof.
  intros Hr Hst Hk Hl Hk' Hf. pose proof (reachable_ok w Hr) as Hok. pose proof (steps_moves _ _ Hok Hst) as Hm.
  destruct (moves_floors _ _ Hm i k Hk Hl) as (x & Hx & Hlx). unfold board_of in Hk'. rewrite Hx in Hk'. injection Hk' as ->. split_and!; [done|..].
  - intros base token now w2 a E. apply poll_inv in E as [_ (d & held & ser & pending & _ & _ & _ & _ & _ & E)]; [|by eapply moves_ok].
    apply assign_inv in E as (r & digest & w1 & _ & _ & Ha & _ & _ & E). apply grant_inv in E as (family & _ & _ & _ & ->).
    apply admission_inv in Ha as (_ & _ & Ha & _). by eapply floored_modern.
  - intros token now g w2 r Hg <- (g' & d & b & Eg & _ & _ & _ & _ & Eb & Ex)%resolve_inv. rewrite Hg in Eg. injection Eg as <-.
    unfold board_of in Eb. rewrite Hx in Eb. injection Eb as <-. by eapply floored_modern.
Qed.

(** ** After a failure *)
Lemma pause_not_active k st code now c : c_status (pause_for_deployment_outcome k st code now c) ≠ ACTIVE.
Proof. unfold pause_for_deployment_outcome. repeat case_match; simpl; congruence. Qed.

Lemma failed_progress_paused w k d st p recovery now c :
  st ∈ [FAILED; ROLLED_BACK] → campaign_of (apply_progress w k d st p recovery now) (d_campaign_id d) = Some c → c_status c ≠ ACTIVE.
Proof.
  intros Hst. unfold apply_progress. cbv zeta. rewrite (bool_decide_eq_true_2 _ Hst). rewrite (bool_decide_eq_false_2 (st = SUCCEEDED)) by set_solver.
  unfold campaign_of. simpl. rewrite row_by_update.
  - destruct (row_by _ _ _) as [x|]; [|done]. intros [= <-]. apply pause_not_active.
  - intros a. unfold pause_for_deployment_outcome. destruct (c_status a), (c_pause_reason a); try done. by destruct (_ && _).
Qed.

(** C23: When a board reports that its deployment failed or was rolled back, its campaign is not ACTIVE afterwards and no board is
    assigned a deployment of it until the campaign is resumed: any assignment from that state is of another campaign. *)
Theorem failure_stops_campaign w k public_id p now w' d d' :
  reachable w → record_progress w k public_id p now = Ok (w', d') → p_event_details p = [] → assigned w public_id →
  d ∈ deployments w → d_deployment_id d = public_id → terminal_state (d_status d) = false → d_status d' ∈ [FAILED; ROLLED_BACK] →
  (∀ c, campaign_of w' (d_campaign_id d) = Some c → c_status c ≠ ACTIVE)
  ∧ (∀ k2 base token now2 w2 a o, assignment_for_connector w' k2 base token now2 = Ok (w2, Some a) →
       o ∈ deployments w' → d_deployment_id o = a_deployment_id a → d_campaign_id o ≠ d_campaign_id d).
Proof.
  intros Hr E Hdet Has Hd Hid Ht Hst. pose proof (reachable_ok w Hr) as Hok.
  assert (fleet_ok w') as Hok' by (eapply moves_ok; [exact Hok|]; by eapply record_progress_moves).
  apply record_progress_inv in E as (x & st & Hp & Hx & Hidx & Hk & E). assert (x = d) as -> by (eapply public_row; [exact Hok|exact Hd|exact Hx|congruence]).
  destruct E as [(_ & _ & Ht')|(_ & r & recovery & _ & _ & -> & ->)]; [congruence|]. simpl in Hst.
  assert (∀ c, campaign_of (apply_progress w k d st p recovery now) (d_campaign_id d) = Some c → c_status c ≠ ACTIVE) as Hpause
    by (intros c; by apply failed_progress_paused). split; [done|].
  intros k2 base token now2 w2 a o Ea Ho Hoid Hcam. apply poll_inv in Ea as [_ (y & held & ser & pending & Hy & _ & Hz & _ & _ & Ea)]; [|done].
  apply assign_inv in Ea as (r2 & digest & w1 & _ & _ & _ & _ & _ & Ea). apply grant_inv in Ea as (family & _ & _ & _ & ->). simpl in Hoid.
  assert (o = y) as -> by (by eapply public_row). unfold in_active_campaign in Hz. rewrite Hcam in Hz.
  destruct (campaign_of _ (d_campaign_id d)) as [c|] eqn:Ec; [|done]. bool_prop. by apply (Hpause c).
Qed.
End polls.

(** ** Witnesses *)
Definition demo_esp (w : fleet) (i : Z) : Connector := default (demo_board 0 "" "") (board_of w i).

Lemma assignment_sound_witness :
  ∃ w' a, assignment_for_connector demo_stopped (demo_esp demo_stopped 2) "https://add" "token-2" (at_second 160) = Ok (w', Some a)
    ∧ capability_is_eligible (demo_esp demo_stopped 2) = true ∧ zlen (grants w') = 2.
Proof.
  eexists _, _. split; [vm_compute; reflexivity|]. split; [|vm_compute; reflexivity].
  eapply (assignment_sound demo_stopped (demo_esp demo_stopped 2) "https://add" "token-2" (at_second 160) _ _ demo_stopped_reachable).
  vm_compute. reflexivity.
Defined.

Lemma resumed_grants_bounded_witness :
  zlen (granted_since demo_resumed (demo_row demo_stopped 11) (at_second 31)) = 1
  ∧ zlen (granted_since demo_resumed (demo_row demo_stopped 11) (at_second 31)) <= RESUMED_GRANT_LIMIT.
Proof.
  split; [vm_compute; reflexivity|].
  eapply (resumed_grants_bounded demo_stopped (demo_esp demo_stopped 2) "https://add" "token-2" (at_second 160) demo_resumed _ (demo_row demo_stopped 11)
            (at_second 31) demo_stopped_reachable).
  - vm_compute. reflexivity.
  - apply (demo_row_in _ 11). reflexivity.
  - reflexivity.
  - vm_compute. reflexivity.
  - reflexivity.
  - vm_compute. reflexivity.
Defined.

(** A floored board and a release that knows its redo log. *)
Definition demo_floor0 : fleet :=
  set_boards [set_board_ota "OTA_READY" (Some 1) (demo_board 2 "esp-a" "north")]
    (set_releases [demo_image 1 "2.7.7"; demo_previous] demo0).
Definition demo_floor_created : list (request * Z) := [(Create "zone-lite-2.7.7" "north" "owner" "key-1", at_second 0)].
Definition demo_floor : fleet := Eval vm_compute in outcome demo_floor_created demo_floor0.

Lemma floored_board_never_downgraded_witness :
  k_ota_floor_latched_at (demo_esp demo_floor0 2) = Some 1 ∧
  ∃ w2 a, assignment_for_connector demo_floor (demo_esp demo_floor 2) "https://add" "token-1" (at_second 10) = Ok (w2, Some a) ∧ modern (a_version a) = true.
Proof.
  split; [reflexivity|]. eexists _, _. split; [vm_compute; reflexivity|].
  refine (proj1 (proj2 (floored_board_never_downgraded demo_floor0 demo_floor 2 (demo_esp demo_floor0 2) (demo_esp demo_floor 2) _ _ _ _ _ _))
            "https://add" "token-1" (at_second 10) _ _ _).
  - exists demo_floor0. split; [|apply rtc_refl]. repeat split; try done. intros r [->|[->|Hr%elem_of_nil]%elem_of_cons]%elem_of_cons; simpl; lia.
  - apply (performs_steps demo_floor_created). vm_compute. reflexivity.
  - reflexivity.
  - done.
  - reflexivity.
  - reflexivity.
  - vm_compute. reflexivity.
Defined.

Definition demo_failure : progress := mkProgress "FAILED" 65536 None None None (Some "IMAGE_SIGNATURE_INVALID") None [].
Definition demo_failed : fleet * FirmwareDeployment :=
  Eval vm_compute in match record_progress demo_offered (demo_esp demo_offered 2) "11" demo_failure (at_second 40) with
                     | Ok x => x | Raise _ _ => (demo_offered, demo_row demo_offered 11) end.
Lemma failure_stops_campaign_witness :
  d_status demo_failed.2 = FAILED ∧ ∀ c, campaign_of demo_failed.1 10 = Some c → c_status c ≠ ACTIVE.
Proof.
  split; [reflexivity|].
  apply (failure_stops_campaign demo_offered (demo_esp demo_offered 2) "11" demo_failure (at_second 40) demo_failed.1 (demo_row demo_offered 11) demo_failed.2
           demo_offered_reachable).
  - vm_compute. reflexivity.
  - reflexivity.
  - intros d Hd Hid. apply list_elem_of_In in Hd. vm_compute in Hd. destruct Hd as [<-|[<-|[]]]; done.
  - apply (demo_row_in _ 11). reflexivity.
  - reflexivity.
  - reflexivity.
  - left.
Defined.
