(* ===== verification/OtaPins.v ===== *)
(** * What the pinned identities guarantee

    An image whose contract pins its predecessors is offered and served only to a board that runs one of them; a
    quarantined platform image only to a board a reviewed list names. *)
From S2P Require Import Prelude PyText Hashes PyJson QueueEvidence RuntimeContract DeviceHealth ReleaseScope ReleaseContract OtaModel OtaReaders OtaTargets OtaProgress OtaDownload OtaStore OtaInterruption OtaAssignment OtaReturn OtaScope OtaCampaign OtaHistory OtaMoves OtaSystem OtaPublish OtaReach OtaToken OtaCover OtaRuns OtaDemo OtaSafety OtaOffers.
Open Scope string_scope.
Open Scope list_scope.
Open Scope Z_scope.

(** The board runs, from an OTA slot, a predecessor the version's contract lists, and the image is the pinned one, which is a stored release's. *)
Definition runs_pinned (w : fleet) (k : Connector) (version : string) : Prop :=
  ∃ v digest p, (v, digest) ∈ direct_images version ∧ _versions_match (k_firmware_version k) (Some v) = true ∧ k_ota_image_sha256 k = Some digest
    ∧ ota_slot (k_ota_running_partition k) = true ∧ p ∈ releases w ∧ r_release_id p = "zone-lite-" +:+ v ∧ offerable p = true ∧ _application_sha256 p = Some digest.

Section pins.
Context `{OtaPlatform}.

Lemma opt_str_eq o s : py_eq (opt_str o) (PStr s) = true → o = Some s.
Proof. intros E%py_eq_str. destruct o; [by injection E as ->|done]. Qed.

Lemma direct_bootstrap_pinned w r k contract images :
  get "allowed_bootstrap_versions" contract = PList (map PStr (map fst (direct_images (r_version r)))) →
  get "allowed_bootstrap_images" contract = PDict images →
  (∀ v e, assoc v images = Some e → ∃ digest, (v, digest) ∈ direct_images (r_version r) ∧ e = PStr digest) →
  direct_bootstrap_exclusion w r k contract = Ok None → runs_pinned w k (r_version r).
Proof.
  intros Hvs Him Hin E. unfold direct_bootstrap_exclusion in E. rewrite Hvs, Him in E.
  destruct (List.find _ _) as [q|] eqn:Eq; [|done]. apply in_of_find in Eq as [Hq Hm]. apply list_elem_of_fmap in Hq as (v & -> & _). simpl in Hm.
  destruct (assoc v images) as [e|] eqn:Ee; [|done]. apply Hin in Ee as (digest & Hd & ->). apply Ok_inj in E.
  destruct (List.find _ (releases w)) as [p|] eqn:Ep; [|done]. apply in_of_find in Ep as [Hp Hps].
  destruct (_ && _ && ota_slot _) eqn:Ec; [|done]. bool_prop. exists v, digest, p. split_and!; try done; [by apply opt_str_eq| |by apply opt_str_eq].
  unfold offerable. match goal with H : within _ _ = true |- _ => unfold within in H; apply bool_decide_eq_true in H; rename H into Hst end. apply bool_decide_eq_true.
  destruct (hil_retry _ _); [done|]. apply list_elem_of_singleton in Hst as ->. apply elem_of_cons. by left.
Qed.

(** Direct versions take the general path of the predecessor test. *)
Lemma direct_ordinary version :
  version ∈ DIRECT_VERSIONS →
  bool_decide (version = "2.6.22") = false ∧ bool_decide (version = "2.7.0") = false ∧ within version JOURNAL_BRIDGES = false ∧ within version RECOVERY_VERSIONS = false.
Proof.
  intros Hv. assert (forallb (λ v, negb (bool_decide (v = "2.6.22")) && negb (bool_decide (v = "2.7.0")) && negb (within v JOURNAL_BRIDGES)
                       && negb (within v RECOVERY_VERSIONS)) DIRECT_VERSIONS = true) as Hall by (vm_compute; reflexivity).
  rewrite forallb_forall in Hall. apply list_elem_of_In, Hall in Hv. rewrite !andb_true_iff, !negb_true_iff in Hv. tauto.
Qed.

Lemma exclusion_pinned w r k deployment now :
  r_version r ∈ DIRECT_VERSIONS → plain_json (r_manifest r) = true → storage_predecessor_exclusion w r k deployment now = Ok None →
  runs_pinned w k (r_version r).
Proof.
  intros Hv Hm E. unfold storage_predecessor_exclusion in E. destruct (validate_storage_contract _ _) as [contract|c m] eqn:Ec; [|by destruct (is_value_error c)].
  destruct (direct_contract _ _ _ Hv Hm Ec) as (Ht & Hvs & images & Him & Hin). apply bind_ok in E as (floor & _ & E). destruct floor; [done|].
  destruct (direct_ordinary _ Hv) as (E1 & E2 & E3 & E4). rewrite E1, E2, E3, E4 in E. cbn [andb] in E. rewrite Ht in E.
  apply bind_ok in E as (direct & Ed & E). destruct direct; [done|]. by eapply direct_bootstrap_pinned.
Qed.

(** ** Quarantined platform images *)
(** The board a target names: its connector, MAC and terminal, which it reports and an operator confirmed. *)
Definition exact_board (t : HilTarget) (k : Connector) : Prop :=
  k_active k = true ∧ k_is_spare k = false ∧ k_connector_id k = ht_connector_id t ∧ lower (k_hardware_id k) = ht_mac t ∧
  ∃ z, k_terminal k = Some z ∧ z_serial z = Some (ht_terminal_serial t) ∧ z_confirmed_serial z = Some (ht_terminal_serial t) ∧
       z_expected_serial z = Some (ht_terminal_serial t).

Lemma bound_exact t states k : bound_to t states k = true → exact_board t k.
Proof. unfold bound_to, exact_board. destruct (k_terminal k) as [z|]; intros Hb; bool_prop; [|done]. split_and!; try done. by exists z. Qed.
Lemma admits_exact r t k : hil_target_admits r t k = Ok true → exact_board t k.
Proof.
  unfold hil_target_admits, k50_admits. destruct (target_matches t k) eqn:Em; simpl.
  - intros _. by eapply bound_exact.
  - unfold fsdmain_target_admits. intros (ts & _ & E)%bind_ok. apply Ok_inj in E. apply andb_true_iff in E as [_ E]. by eapply bound_exact.
Qed.
Lemma any_admits_exact r ts k : any_admits r ts k = Ok true → ∃ t, t ∈ ts ∧ exact_board t k.
Proof.
  induction ts as [|t ts IH]; simpl; [done|]. intros (b & Hb & E)%bind_ok. destruct b.
  - exists t. split; [apply elem_of_cons; by left|]. by eapply admits_exact.
  - destruct (IH E) as (x & Hx & He). exists x. split; [apply elem_of_cons; by right|done].
Qed.

Lemma permitted_reviewed w r now ts :
  r_version r ∈ FLEET_PLATFORM_VERSIONS ++ RECOVERY_VERSIONS → permitted_hil_targets w r now = Ok (Some ts) → ts ≠ [] ∧ ∀ t, t ∈ ts → reviewed t.
Proof.
  intros Hv E. unfold permitted_hil_targets in E. cbv zeta in E. destruct (is_none (hil_list r)); [done|]. destruct (within (r_version r) RECOVERY_VERSIONS) eqn:Er.
  - pass_guard E. apply bind_ok in E as (c & _ & E). pass_guard E. apply bind_ok in E as (x & Hx%recovery_targets_reviewed & E). apply Ok_inj in E.
    injection E as <-. subst x. split; [done|]. intros t Ht. right. right. by left.
  - unfold within in Er at 1. apply bool_decide_eq_false in Er. apply elem_of_app in Hv as [Hv|]; [|done]. unfold within in E. rewrite bool_decide_eq_true_2 in E by done.
    pass_guard E. apply bind_ok in E as (c & _ & E). destruct (negb (bool_decide (r_state r = "HIL_ONLY")) || _) eqn:Eg; [done|]. apply orb_false_iff in Eg as [_ Hn].
    apply negb_false_iff in Hn. apply bind_ok in E as (x & Hx & E). apply Ok_inj in E. injection E as <-. eapply parsed_scope_reviewed; [exact Hx|].
    by rewrite names_release_app, Hn.
Qed.

Lemma quarantined_exact w k r now :
  r_version r ∈ FLEET_PLATFORM_VERSIONS ++ RECOVERY_VERSIONS → hil_list r ≠ PNone → hil_refusal w k r now = Ok None → ∃ t, reviewed t ∧ exact_board t k.
Proof.
  intros Hv Hl (permitted & Hp & E)%or_refuse_none. destruct permitted as [ts|].
  - apply permitted_reviewed in Hp as [Hne Hr]; [|done]. destruct ts as [|t ts]; [done|]. apply bind_ok in E as (b & Hb & E). destruct b; [|done].
    apply any_admits_exact in Hb as (x & Hx & He). eauto.
  - exfalso. unfold permitted_hil_targets in Hp. cbv zeta in Hp. destruct (is_none (hil_list r)) eqn:En; [by destruct (hil_list r)|].
    destruct (within _ RECOVERY_VERSIONS) eqn:Er.
    + pass_guard Hp. apply bind_ok in Hp as (c & _ & Hp). pass_guard Hp. by apply bind_ok in Hp as (x & _ & [=]).
    + unfold within in *. apply bool_decide_eq_false in Er. apply elem_of_app in Hv as [Hv|]; [|done]. rewrite bool_decide_eq_true_2 in Hp by done.
      pass_guard Hp. apply bind_ok in Hp as (c & _ & Hp). pass_guard Hp. by apply bind_ok in Hp as (x & _ & [=]).
Qed.
End pins.

Section pinned.
Context `{OtaPlatform} `{ReturnPlatform} `{ScopePlatform}.

(** C7: An image whose contract pins its predecessors (every 2.6.1 to 2.8.3 release outside the bridges) is offered, and its bytes are served, only
    while the board runs one of the listed versions from an OTA slot with exactly the pinned application image, which is that of a stored release.
    Stored manifests are JSON objects with each key once and no float. *)
Theorem pinned_images_only w :
  reachable w → (∀ r, r ∈ releases w → plain_json (r_manifest r) = true) →
  (∀ k base token now w' a, assignment_for_connector w k base token now = Ok (w', Some a) → a_version a ∈ DIRECT_VERSIONS → runs_pinned w k (a_version a))
  ∧ (∀ token now w' r, resolve_download w token now = Ok (w', r) → r_version r ∈ DIRECT_VERSIONS →
       ∃ g k, g ∈ grants w ∧ g_token_hash g = sha256_hex (chars token) ∧ board_of w (g_connector_id g) = Some k ∧ runs_pinned w k (r_version r)).
Proof.
  intros Hr Hm. pose proof (reachable_ok w Hr) as Hok. split.
  - intros k base token now w' a E Hv. apply poll_inv in E as [_ (d & held & ser & pending & _ & _ & _ & _ & _ & E)]; [|done].
    apply assign_inv in E as (r & digest & w1 & Er & _ & Ha & _ & _ & E). apply grant_inv in E as (family & _ & _ & _ & ->). simpl in *.
    apply admission_inv in Ha as (_ & _ & Hx & _). eapply exclusion_pinned; [done| |exact Hx]. apply row_by_some in Er as [Hin _]. auto.
  - intros token now w' r E Hv. apply resolve_inv in E as (g & d & k & Hg & _ & _ & Er & _ & Hk & Hx). apply in_of_find in Hg as [Hg Hh]. bool_prop.
    exists g, k. split_and!; try done. eapply exclusion_pinned; [done| |exact Hx]. apply row_by_some in Er as [Hin _]. auto.
Qed.

End pinned.

(** ** Witnesses *)
Lemma plain_releases w : forallb (λ r, plain_json (r_manifest r)) (releases w) = true → ∀ r, r ∈ releases w → plain_json (r_manifest r) = true.
Proof. rewrite forallb_forall. intros Hall r Hr. by apply Hall, list_elem_of_In. Qed.

Lemma pinned_images_only_witness :
  ∃ w' a, assignment_for_connector demo_stopped (demo_esp demo_stopped 2) "https://add" "token-2" (at_second 160) = Ok (w', Some a)
    ∧ a_version a = "2.6.14" ∧ runs_pinned demo_stopped (demo_esp demo_stopped 2) (a_version a).
Proof.
  eexists _, _. split; [vm_compute; reflexivity|]. split; [reflexivity|].
  refine (proj1 (pinned_images_only demo_stopped demo_stopped_reachable _) (demo_esp demo_stopped 2) "https://add" "token-2" (at_second 160) _ _ _ _).
  - apply plain_releases. vm_compute. reflexivity.
  - vm_compute. reflexivity.
  - apply (bool_decide_eq_true_1 _). vm_compute. reflexivity.
Defined.

(** The board of SLICTOWER 3FL, and a quarantined 2.7.7 exposed to it. *)
Definition tower : HilTarget := mkTarget "2ca9a4c2-5ae4-4330-8d14-840223672897" "a4:cb:8f:d4:66:64" "PGB1261200074".
Definition tower_board : Connector :=
  mkBoard 2 (ht_connector_id tower) "north" (Some "zkt") (Some "2.6.13") "A4:CB:8F:D4:66:64" true true (Some "boot-1") 5 true true true (Some OTA_LAYOUT) (Some "ota_0")
    (Some previous_digest) "OTA_READY" None (PDict []) None true None None false
    (Some (mkZkt (Some (ht_terminal_serial tower)) (Some (ht_terminal_serial tower)) (Some (ht_terminal_serial tower)) "CONFIRMED" None (Some "G3") None)) "SLICTOWER 3FL".
Definition tower_release : FirmwareRelease :=
  set_published "HIL_ONLY" (match demo_manifest "2.7.7" with PDict d => PDict (assoc_set "_hil_targets" (PList [model_dump tower]) d) | v => v end) (demo_image 1 "2.7.7").
Definition tower0 : fleet := set_boards [tower_board] (set_releases [tower_release; demo_previous] demo0).
Definition tower_created : list (request * Z) := [(Create "zone-lite-2.7.7" "north" "owner" "key-1", at_second 0)].
Definition tower_fleet : fleet := Eval vm_compute in outcome tower_created tower0.
Lemma tower_reachable : reachable tower_fleet.
Proof.
  exists tower0. split.
  - repeat split; try done. intros r [->|[->|Hr%elem_of_nil]%elem_of_cons]%elem_of_cons; simpl; lia.
  - apply (performs_steps tower_created). vm_compute. reflexivity.
Qed.

Definition tower_assigned : fleet * Assignment :=
  Eval vm_compute in match assignment_for_connector tower_fleet tower_board "https://add" "token-1" (at_second 10) with
                     | Ok (w, Some a) => (w, a) | _ => (demo0, mkAssignment "" "" "" "" "" 0 "" "" "") end.

(** A package for an empty store. *)
Definition demo_package : Package :=
  mkPackage "zone-lite-2.6.14"
    [("release_id", PStr "zone-lite-2.6.14"); ("version", PStr "2.6.14"); ("image_name", PStr "out/zone.bin"); ("image_sha256", PStr (sha256_hex (chars "image")));
     ("image_size", PInt 5); ("application_sha256", PStr demo_digest); ("schema_version", PInt 2); ("partition_layout", PStr OTA_LAYOUT); ("git_sha", PStr "git");
     ("signing_key_id", PStr "key"); ("minimum_bootstrap_version", PStr "2.4.12"); ("queue_storage", expected_contract "2.6.14")]
    " signed " (λ n, if bool_decide (n = "zone.bin") then Some (chars "image") else None) None.
Definition demo_store : fleet :=
  Eval vm_compute in match sync_release_store (set_releases [] demo0) [demo_package] with Ok w => w | Raise _ _ => demo0 end.

(** The scope of the northern zone, confirmed just before it expires and refused after. *)
Definition demo_preview : fleet * string * Scope :=
  Eval vm_compute in match preview_campaign_scope demo0 "zone-lite-2.6.14" "north" (at_second 0) with Ok x => x | Raise _ _ => (demo0, "", mkScope demo_release [] [] []) end.
Lemma token_confirms_previewed_scope_witness :
  map k_connector_id (sc_eligible demo_preview.2) = ["esp-a"; "esp-b"]
  ∧ verify_campaign_scope_token demo0 demo_preview.1.2 "zone-lite-2.6.14" "north" (at_second 299) = Ok (demo0, demo_preview.2)
  ∧ verify_campaign_scope_token demo0 demo_preview.1.2 "zone-lite-2.6.14" "north" (at_second 300) ≠ Ok (demo0, demo_preview.2).
Proof.
  split; [reflexivity|].
  destruct (token_confirms_previewed_scope demo0 "zone-lite-2.6.14" "north" (at_second 0) demo0 demo_preview.1.2 demo_preview.2) as (n & digest & En & Ed & Hv).
  - vm_compute. reflexivity.
  - vm_compute. split; congruence.
  - vm_compute. reflexivity.
  - split.
    + apply Hv. split; [vm_compute; reflexivity|]. split; [reflexivity|]. split; [reflexivity|]. split; [vm_compute; reflexivity|]. exists n. split; [exact En|exact Ed].
    + intros (Hx & _)%Hv. vm_compute in Hx. congruence.
Defined.

Definition tower_token : string := match preview_campaign_scope tower0 "zone-lite-2.7.7" "north" (at_second 0) with Ok x => x.1.2 | Raise _ _ => "" end.
Definition tower_campaign : fleet * FirmwareCampaign :=
  Eval vm_compute in match create_campaign tower0 "zone-lite-2.7.7" "north" "owner" tower_token "key-1" None false None (at_second 0) with
                     | Ok x => x | Raise _ _ => (demo0, mkCampaign 0 "" 0 "" PAUSED "" "" "" "" 0 0 None 0 0 None None) end.
Lemma campaign_covers_scope_witness :
  map c_zone_id (campaigns tower_campaign.1) = ["north"] ∧
  ∃ w1 s k, verify_campaign_scope_token tower0 tower_token "zone-lite-2.7.7" "north" (at_second 0) = Ok (w1, s) ∧ sc_eligible s = [k]
    ∧ updatable w1 (sc_release s) "north" (at_second 0) k ∧ map d_connector_id (deployments tower_campaign.1) = map d_connector_id (deployments w1) ++ [k_id k].
Proof.
  split; [reflexivity|].
  destruct (campaign_covers_scope tower0 "zone-lite-2.7.7" "north" "owner" tower_token "key-1" None false None (at_second 0) tower_campaign.1 tower_campaign.2)
    as (w1 & s & Ev & _ & _ & _ & _ & _ & _ & (new & Hd & Hm & _) & Hup & _).
  - vm_compute. reflexivity.
  - reflexivity.
  - assert (match verify_campaign_scope_token tower0 tower_token "zone-lite-2.7.7" "north" (at_second 0) with Ok (_, s) => length (sc_eligible s) = 1%nat | Raise _ _ => False end) as Hl
      by (vm_compute; reflexivity).
    rewrite Ev in Hl. destruct (sc_eligible s) as [|k [|k' l]] eqn:E; try discriminate Hl. exists w1, s, k. split; [exact Ev|]. split; [exact E|].
    split; [exact (proj1 (Forall_singleton _ _) Hup)|]. rewrite Hd, map_app, Hm. reflexivity.
Defined.
