(* ===== verification/OtaClose.v ===== *)
(** * Stopping campaigns and clearing their history

    An operator's control of a live campaign always takes effect and withdraws every
    outstanding re-offer. The history loop finds the largest set of campaigns that can be
    deleted, and a board's installation history is kept whole or removed whole. *)
From S2P Require Import Prelude PyText Hashes PyJson QueueEvidence RuntimeContract DeviceHealth ReleaseScope ReleaseContract OtaModel OtaReaders OtaTargets OtaProgress OtaDownload OtaStore OtaInterruption OtaAssignment OtaReturn OtaScope OtaCampaign OtaHistory OtaMoves OtaSystem OtaPublish OtaReach OtaRuns OtaDemo.
Open Scope string_scope.
Open Scope list_scope.
Open Scope Z_scope.

(** ** The campaigns that may be deleted *)
Lemma settled_mono w s l c : (∀ i, i ∈ s → i ∈ l) → settled_in w s c = true → settled_in w l c = true.
Proof.
  unfold settled_in. intros Hsub Hs. rewrite List.forallb_forall in *. intros d Hd. specialize (Hs d Hd). rewrite List.forallb_forall in *.
  intros i Hi. apply bool_decide_eq_true. apply Hsub. eapply bool_decide_eq_true, Hs, Hi.
Qed.

Definition pass (w : fleet) (order l : list Z) : list Z := fold_left (λ cs c, if settled_in w cs c then cs else discard c cs) order l.

Lemma discard_length x l : (length (discard x l) ≤ length l)%nat ∧ (x ∈ l → (length (discard x l) < length l)%nat).
Proof.
  unfold discard. induction l as [|y l [IH1 IH2]]; simpl; [split; [done|by intros ?%elem_of_nil]|]. destruct (Z.eqb_spec y x) as [->|Hne]; simpl.
  - split; [lia|]. intros _. lia.
  - split; [lia|]. intros [->|Hin]%elem_of_cons; [done|]. apply IH2 in Hin. lia.
Qed.
Lemma pass_length w order l : (length (pass w order l) ≤ length l)%nat.
Proof.
  revert l. induction order as [|c order IH]; intros l; simpl; [done|]. etrans; [apply IH|]. destruct (settled_in w l c); [done|apply discard_length].
Qed.

(** A pass that removes nothing found every candidate settled. *)
Lemma pass_fixed w order l :
  (∀ c, c ∈ order → c ∈ l) → length (pass w order l) = length l → pass w order l = l ∧ ∀ c, c ∈ order → settled_in w l c = true.
Proof.
  revert l. induction order as [|c order IH]; intros l Hin Hlen; simpl in *; [split; [done|by intros ? ?%elem_of_nil]|].
  destruct (settled_in w l c) eqn:E.
  - destruct (IH l) as [H1 H2]; [intros x Hx; apply Hin; by right|done|]. split; [done|]. intros x [->|Hx]%elem_of_cons; auto.
  - pose proof (pass_length w order (discard c l)). destruct (discard_length c l) as [_ Hlt]. specialize (Hlt (Hin c ltac:(left))). lia.
Qed.

(** A pass keeps every settled set. *)
Lemma pass_keeps w s order l : (∀ i, i ∈ s → settled_in w s i = true) → (∀ i, i ∈ s → i ∈ l) → ∀ i, i ∈ s → i ∈ pass w order l.
Proof.
  intros Hs. revert l. induction order as [|c order IH]; intros l Hl; simpl; [done|]. apply IH. intros i Hi. destruct (settled_in w l c) eqn:E; [auto|].
  apply elem_of_filter_bool. split; [auto|]. apply negb_true_iff, Z.eqb_neq. intros ->. by rewrite (settled_mono w s l c Hl (Hs c Hi)) in E.
Qed.

Lemma elem_of_sorted (l : list Z) i : i ∈ sort_by (λ c, c) l ↔ i ∈ l.
Proof. by rewrite sort_by_perm. Qed.
Lemma sweep_pass w l : sweep w l = pass w (sort_by (λ c, c) l) l.
Proof. done. Qed.

Lemma shrink_settled fuel w l i : (length l < fuel)%nat → i ∈ shrink fuel w l → settled_in w (shrink fuel w l) i = true.
Proof.
  revert l. induction fuel as [|fuel IH]; intros l Hf; simpl; [lia|]. pose proof (pass_length w (sort_by (λ c, c) l) l) as Hle. rewrite <- sweep_pass in Hle.
  destruct (Nat.eqb_spec (length (sweep w l)) (length l)) as [He|Hne]; [|apply IH; lia].
  destruct (pass_fixed w (sort_by (λ c, c) l) l) as [Hfix Hall]; [intros c Hc; by apply elem_of_sorted|exact He|].
  rewrite sweep_pass, Hfix. intros Hi. apply Hall. by apply elem_of_sorted.
Qed.

Lemma shrink_greatest fuel w s l : (∀ i, i ∈ s → settled_in w s i = true) → (∀ i, i ∈ s → i ∈ l) → ∀ i, i ∈ s → i ∈ shrink fuel w l.
Proof.
  intros Hs. revert l. induction fuel as [|fuel IH]; intros l Hl; simpl; [done|].
  assert (∀ i, i ∈ s → i ∈ sweep w l) as Hsw by (rewrite sweep_pass; by apply pass_keeps). destruct (_ =? _)%nat; [done|]. by apply IH.
Qed.

(** The loop that selects deletable campaigns ends with the largest set of closed, never offered campaigns in which every board
    of a member has its whole installation history: each member qualifies, and any other such set is contained in it. *)
Theorem deletable_is_greatest w cs :
  (∀ i, i ∈ deletable w cs → i ∈ map c_id cs ∧ candidate w i = true ∧ settled_in w (deletable w cs) i = true)
  ∧ (∀ s, (∀ i, i ∈ s → i ∈ map c_id cs ∧ candidate w i = true ∧ settled_in w s i = true) → ∀ i, i ∈ s → i ∈ deletable w cs).
Proof.
  split.
  - intros i Hi. pose proof (deletable_subset w cs i Hi) as [H1 H2]. split_and!; [done..|]. unfold deletable in *. apply shrink_settled; [lia|done].
  - intros s Hs. unfold deletable. apply shrink_greatest; [intros i Hi; by apply Hs|]. intros i (H1 & H2 & _)%Hs. by apply elem_of_filter_bool.
Qed.

Section closing.
Context `{OtaPlatform} `{ReturnPlatform} `{ScopePlatform}.

(** ** Histories *)
Lemma removed_deployments w actor now :
  deployments (remove_closed w actor now)
  = List.filter (λ d, negb (bool_decide (d_campaign_id d ∈ deletable w (take HISTORY_LIMIT (List.filter unarchived (campaigns w)))))) (deployments w).
Proof. done. Qed.

Lemma delete_keeps_events w ids d :
  fleet_ok w → d ∈ deployments w → d_campaign_id d ∉ ids → events_of (delete_campaigns w ids) (d_id d) = events_of w (d_id d).
Proof.
  intros Hok Hd Hni. unfold events_of. simpl. rewrite filter_filter. apply filter_ext_in. intros e _. destruct (Z.eqb_spec (e_deployment_id e) (d_id d)) as [E|]; [|done].
  rewrite bool_decide_eq_false_2; [done|]. rewrite E. intros (o & Eo & Ho)%list_elem_of_fmap. apply elem_of_filter_bool in Ho as [Ho Hc]. bool_prop.
  assert (o = d) as -> by (eapply (NoDup_map_inj d_id); try done; apply Hok). done.
Qed.

(** C25: Clearing the history of a reachable state treats each board's installation history as one: after the live campaigns were
    settled, every deployment is kept with all its events, or it was never offered nor referenced by a grant, a HIL run or a lasting event,
    and then every deployment of that board is gone with it. *)
Theorem clearing_keeps_histories_whole w actor now w' r :
  reachable w → clear_history w actor now = Ok (w', r) →
  ∃ w1, foldR (clear_one now) (take HISTORY_LIMIT (List.filter live (campaigns w))) (w, mkCleared [] [] [] []) = Ok (w1, r)
    ∧ ∀ d, d ∈ deployments w1 →
        (d ∈ deployments w' ∧ events_of w' (d_id d) = events_of w1 (d_id d))
        ∨ (never_offered d = true ∧ unreferenced w1 d = true ∧ ∀ o, o ∈ deployments w1 → d_connector_id o = d_connector_id d → o ∉ deployments w').
Proof.
  intros Hr E. pose proof (reachable_ok w Hr) as Hok. unfold clear_history in E. apply bind_ok in E as ([w1 r1] & E1 & E). apply Ok_inj in E. injection E as <- <-.
  exists w1. split; [done|]. assert (fleet_ok w1) as Hok1.
  { eapply (foldR_only_moves _ fst) in E1; [|intros [wa ra] x [wb rb] Ha Hb; by eapply clear_one_moves|done]. by eapply moves_ok. }
  intros d Hd. cbn [fst snd]. rewrite removed_deployments. set (rows := take _ _). set (ids := deletable w1 rows).
  destruct (decide (d_campaign_id d ∈ ids)) as [Hin|Hni].
  - right. destruct (deletable_subset w1 rows _ Hin) as [_ Hc]. unfold candidate in Hc. rewrite List.forallb_forall in Hc.
    assert (In d (by_campaign w1 (d_campaign_id d))) as Hby by (apply list_elem_of_In, elem_of_filter_bool; split; [done|lia]).
    pose proof (Hc d Hby) as Hdc. apply andb_true_iff in Hdc as [H1' H2']. split_and!; [done..|]. intros o Ho Hk [_ Hf]%elem_of_filter_bool.
    assert (settled_in w1 ids (d_campaign_id d) = true) as Hset by (unfold ids, deletable in *; apply shrink_settled; [lia|done]).
    unfold settled_in in Hset. rewrite List.forallb_forall in Hset. specialize (Hset d Hby). rewrite List.forallb_forall in Hset.
    specialize (Hset (d_campaign_id o)). apply bool_decide_eq_true in Hset; [by rewrite bool_decide_eq_true_2 in Hf|].
    apply list_elem_of_In, list_elem_of_fmap_2, elem_of_filter_bool. split; [done|lia].
  - left. split; [apply elem_of_filter_bool; split; [done|by rewrite bool_decide_eq_false_2]|]. by apply (delete_keeps_events w1 ids d).
Qed.

(** ** Failing held downloads never raises *)
(** Every deployment's board is stored (a foreign key of the table). *)
Definition staffed (w : fleet) : Prop := ∀ d, d ∈ deployments w → board_of w (d_connector_id d) ≠ None.
Definition held (w : fleet) (d : FirmwareDeployment) : Prop := downloading d = true ∧ awaiting_retry_offer w d ≠ None.

Definition failure (d : FirmwareDeployment) (code message : string) : progress :=
  mkProgress "FAILED" (d_bytes_written d) None None None (Some code) (Some message) [].

Lemma record_failure w k d code message now :
  fleet_ok w → d ∈ deployments w → downloading d = true → k_id k = d_connector_id d →
  record_progress w k (d_deployment_id d) (failure d code message) now
  = Ok (apply_progress w k d FAILED (failure d code message) None now, progressed FAILED (failure d code message) now d).
Proof.
  intros Hok Hd Hdl Hk. unfold record_progress. simpl p_state. rewrite parse_failed.
  destruct (List.find _ _) as [x|] eqn:Ex.
  2:{ exfalso. pose proof (List.find_none _ _ Ex d (proj1 (list_elem_of_In _ _) Hd)) as Hn. simpl in Hn. rewrite bool_decide_eq_true_2, Hk, Z.eqb_refl in Hn by done. done. }
  apply in_of_find in Ex as [Hx Hp]. bool_prop. assert (x = d) as -> by (by eapply public_row).
  destruct (f_rows _ Hok d Hd) as [(r & Er & Hb & _) _ _ _]. cbv zeta. rewrite Er.
  assert (failed_boot_return d FAILED (Some code) = false) as Hret by done. simpl p_error_code. rewrite Hret.
  assert (terminal_state (d_status d) = false ∧ FAILED ∈ DEPLOYMENT_TRANSITIONS (d_status d)) as [Ht Htr].
  { unfold downloading in Hdl. destruct (d_status d); try done; split; try done; set_solver. }
  rewrite Ht, (bool_decide_eq_true_2 _ Htr), andb_false_r. cbn [negb andb mbind res_bind].
  assert (check_progress d r FAILED (failure d code message) = Ok tt) as Hc.
  { unfold check_progress. simpl. destruct (_ || _) eqn:E; [apply orb_true_iff in E; lia|done]. }
  rewrite Hc. done.
Qed.

(** What a failed held download leaves of the other rows. *)
Lemma awaiting_same w w' d d' :
  grants w' = grants w → (∀ i, i ∈ [DOWNLOAD_INTERRUPTED; DOWNLOAD_RETRY_OFFERED] → events_in w' (d_id d') [i] = events_in w (d_id d) [i]) → d_id d' = d_id d →
  awaiting_retry_offer w' d' = awaiting_retry_offer w d.
Proof.
  intros Hg He Hid. unfold awaiting_retry_offer, _interruptions, grants_of. rewrite !He by set_solver. by rewrite Hg, Hid.
Qed.

Lemma fail_row w k d code message now :
  fleet_ok w → d ∈ deployments w → downloading d = true → k_id k = d_connector_id d →
  ∃ w', fail_ota_deployment w k d code message None now = Ok w'
    ∧ deployments w' = update_by d_id (d_id d) (progressed FAILED (failure d code message) now) (deployments w)
    ∧ (∀ o, awaiting_retry_offer w' o = awaiting_retry_offer w o) ∧ (∀ i, board_of w i ≠ None → board_of w' i ≠ None).
Proof.
  intros Hok Hd Hdl Hk. unfold fail_ota_deployment. simpl default. fold (failure d code message). rewrite record_failure by done. eexists. split; [done|]. cbn [fst].
  unfold apply_progress. cbv zeta. rewrite (bool_decide_eq_true_2 (FAILED ∈ _)) by set_solver. rewrite (bool_decide_eq_false_2 (FAILED = SUCCEEDED)) by done. split_and!; [done|..].
  - intros o. apply awaiting_same; [done| |done]. intros i Hi.
    assert (∀ v u, events_in (update_board (k_id k) v (update_board (k_id k) u (update_campaign (d_campaign_id d) (pause_for_deployment_outcome k FAILED (p_error_code (failure d code message)) now)
      (add_event (d_id d) (state_text FAILED) (progress_details d (failure d code message) None) now (update_deployment (d_id d) (progressed FAILED (failure d code message) now) w))))) (d_id o) [i]
      = events_in (add_event (d_id d) "FAILED" (progress_details d (failure d code message) None) now w) (d_id o) [i]) as Hsame by done.
    rewrite Hsame, events_in_add. rewrite (bool_decide_eq_false_2 ("FAILED" ∈ [i]));
      [|intros <-%list_elem_of_singleton; by apply elem_of_cons in Hi as [Hi|Hi%list_elem_of_singleton]]. by rewrite andb_false_r, app_nil_r.
  - intros i. unfold board_of. simpl. unfold update_by. rewrite !row_by_map by (intros a; by destruct (_ =? _)). by destruct (row_by k_id i (boards w)).
Qed.

Lemma awaiting_by_id w d d' : d_id d' = d_id d → awaiting_retry_offer w d' = awaiting_retry_offer w d.
Proof. intros Hid. apply awaiting_same; [done| |done]. intros i _. by rewrite Hid. Qed.

Lemma fail_held_total w i reason code now :
  fleet_ok w → staffed w →
  ∃ w' b, fail_held_download w i reason code now = Ok (w', b) ∧ staffed w' ∧ (∀ o, awaiting_retry_offer w' o = awaiting_retry_offer w o)
    ∧ (∀ d, d ∈ deployments w' → held w' d → d ∈ deployments w ∧ held w d ∧ d_id d ≠ i).
Proof.
  intros Hok Hst. unfold fail_held_download.
  assert (∀ l, deployment_of w i = Some l → ∀ d, d ∈ deployments w → d_id d = i → d = l) as Huniq.
  { intros l [Hl Hid]%deployment_of_in d Hd Hd'. eapply (NoDup_map_inj d_id); try done; [apply Hok|congruence]. }
  destruct (deployment_of w i) as [l|] eqn:El.
  2:{ exists w, false. split_and!; try done. intros d Hd Hh. split_and!; try done. intros <-. unfold deployment_of in El. by rewrite (row_by_unique d_id _ d (f_deployments _ Hok) Hd) in El. }
  specialize (Huniq l eq_refl). apply deployment_of_in in El as [Hl Hid]. destruct (downloading l) eqn:Edl; cbn [negb].
  2:{ exists w, false. split_and!; try done. intros d Hd Hh. split_and!; try done. intros Hi. rewrite (Huniq d Hd Hi) in Hh. destruct Hh as [Hh _]. congruence. }
  destruct (awaiting_retry_offer w l) as [latest|] eqn:Ea.
  2:{ exists w, false. split_and!; try done. intros d Hd Hh. split_and!; try done. intros Hi. rewrite (Huniq d Hd Hi) in Hh. by destruct Hh as [_ Hh]. }
  destruct (board_of w (d_connector_id l)) as [k|] eqn:Ek; [|by destruct (Hst l Hl)]. pose proof Ek as [_ Hk]%row_by_some.
  destruct (fail_row w k l code (held_message (stop_text latest) reason code) now Hok Hl Edl Hk) as (w' & -> & Hd' & Haw & Hb). exists w', true. split_and!; [done| |done|].
  - intros d. rewrite Hd'. intros [[Hd _]| ->]%elem_update_unique; [by apply Hb, Hst|simpl; by apply Hb, Hst|apply Hok|done].
  - intros d. rewrite Hd'. intros [[Hd Hne]| ->]%elem_update_unique [H1' H2']; [|done|apply Hok|done]. rewrite Haw in H2'. split_and!; [done|done|congruence].
Qed.

Lemma fail_loop_total campaign reason now l acc :
  fleet_ok acc.1 → staffed acc.1 → (∀ d, d ∈ deployments acc.1 → d_campaign_id d = campaign → held acc.1 d → d_id d ∈ map d_id l) →
  ∃ w' n, foldR (λ acc d, match awaiting_retry_offer acc.1 d with
                          | None => Ok acc
                          | Some _ => r ← fail_held_download acc.1 (d_id d) reason DOWNLOAD_RETRY_WITHDRAWN now; Ok (r.1, if (r.2 : bool) then acc.2 + 1 else acc.2)
                          end) l acc = Ok (w', n)
    ∧ ∀ d, d ∈ deployments w' → d_campaign_id d = campaign → ¬ held w' d.
Proof.
  revert acc. induction l as [|x l IH]; intros [w n] Hok Hst Hinv; simpl in *.
  { exists w, n. split; [done|]. intros d Hd Hc Hh. by apply Hinv, elem_of_nil in Hh. }
  destruct (awaiting_retry_offer w x) as [latest|] eqn:Ea.
  - destruct (fail_held_total w (d_id x) reason DOWNLOAD_RETRY_WITHDRAWN now Hok Hst) as (w1 & b & E1 & Hst1 & Haw & Hh1). rewrite E1. cbn [mbind res_bind].
    apply IH; [eapply moves_ok; [done|]; by eapply fail_held_moves|done|]. cbn [fst]. intros d Hd Hc Hh. destruct (Hh1 d Hd Hh) as (Hd0 & Hh0 & Hne).
    apply Hinv in Hh0; [|done..]. by apply elem_of_cons in Hh0 as [?|?].
  - cbn [mbind res_bind]. apply IH; [done..|]. cbn [fst]. intros d Hd Hc Hh. pose proof (Hinv d Hd Hc Hh) as Hin. apply elem_of_cons in Hin as [E|?]; [|done].
    destruct Hh as [_ Hh]. by rewrite (awaiting_by_id w x d E), Ea in Hh.
Qed.

Lemma fail_held_downloads_total w campaign reason now :
  fleet_ok w → staffed w →
  ∃ w' n, fail_held_downloads w campaign reason now = Ok (w', n) ∧ ∀ d, d ∈ deployments w' → d_campaign_id d = campaign → ¬ held w' d.
Proof.
  intros Hok Hst. apply fail_loop_total; [done..|]. cbn [fst]. intros d Hd Hc [Hdl Haw]. apply list_elem_of_fmap_2, elem_of_filter_bool. split; [done|].
  unfold stopped. rewrite Hdl, (proj2 (Z.eqb_eq _ _) Hc). simpl. unfold awaiting_retry_offer in Haw. destruct (_interruptions w d); [done|]. done.
Qed.

Definition control_allowed (w : fleet) (c : FirmwareCampaign) (action : string) : Prop :=
  CAMPAIGN_CONTROL_STATES action ≠ None ∧ c_status c ∈ CAMPAIGN_CONTROL_SOURCES action ∧ (action = "resume" → resume_check w c = Ok tt).

(** The effect once the held downloads have failed. *)
Lemma control_effect w public_id action reason now c target :
  List.find (λ c, bool_decide (c_campaign_id c = public_id)) (campaigns w) = Some c → CAMPAIGN_CONTROL_STATES action = Some target →
  control_allowed w c action →
  ∃ text, control_campaign w public_id action reason now
  = failed ← (if within action ["pause"; "cancel"] then
                fail_held_downloads w (c_id c) ("the campaign was " +:+ lower (campaign_text target) +:+ " (" +:+ text +:+ ")") now
              else Ok (w, 0));
    let w1 := update_campaign (c_id c) (set_campaign_status target (if bool_decide (action = "resume") then None else Some text) now) failed.1 in
    Ok (if bool_decide (action = "cancel") then cancel_deployments (c_id c) w1 else w1, failed.2).
Proof.
  intros Hc Ht (_ & Hs & Hr). exists (control_reason reason action). unfold control_campaign. rewrite Hc, Ht, (bool_decide_eq_true_2 _ Hs). cbn [negb]. cbv zeta.
  destruct (decide (action = "resume")) as [Ea|Ea]; [rewrite (bool_decide_eq_true_2 _ Ea), (Hr Ea)|rewrite (bool_decide_eq_false_2 _ Ea)]; done.
Qed.

Lemma awaiting_closed w i f j (cancel : bool) d :
  awaiting_retry_offer (if cancel then cancel_deployments j (update_campaign i f w) else update_campaign i f w) d = awaiting_retry_offer w d.
Proof. by destruct cancel. Qed.

(** C24: An operator's control of a campaign in a reachable state takes effect exactly when the action is known, the campaign is in one of
    its source states and, for a resumption, the release is offerable and the zone free; otherwise it raises an error and changes nothing. When it takes effect
    the campaign has the target state; a pause or cancellation leaves no download of it waiting for a re-offer, a cancellation none of
    its deployments pending, offered or downloading. *)
Theorem control_takes_effect w public_id action reason now c :
  reachable w → staffed w → List.find (λ c, bool_decide (c_campaign_id c = public_id)) (campaigns w) = Some c →
  (control_allowed w c action →
     ∃ w' n c', control_campaign w public_id action reason now = Ok (w', n)
       ∧ campaign_of w' (c_id c) = Some c' ∧ Some (c_status c') = CAMPAIGN_CONTROL_STATES action
       ∧ (action ∈ ["pause"; "cancel"] → ∀ d, d ∈ deployments w' → d_campaign_id d = c_id c → ¬ held w' d)
       ∧ (action = "cancel" → ∀ d, d ∈ deployments w' → d_campaign_id d = c_id c → d_status d ∉ [PENDING; OFFERED; DOWNLOADING]))
  ∧ ((¬ control_allowed w c action) → ∃ m, control_campaign w public_id action reason now = Raise ValueError m).
Proof.
  intros Hr Hst Hc. pose proof (reachable_ok w Hr) as Hok. split.
  - intros Hal. pose proof Hal as (Hk & Hsrc & _). destruct (CAMPAIGN_CONTROL_STATES action) as [target|] eqn:Et; [|done].
    destruct (control_effect w public_id action reason now c target Hc Et Hal) as [text ->].
    assert (live c = true) as Hlive by (unfold live; unfold CAMPAIGN_CONTROL_SOURCES in Hsrc; simpl in Hsrc; repeat case_bool_decide; simpl in Hsrc; set_solver).
    apply in_of_find in Hc as [Hin _].
    assert (∃ w1 n, (if within action ["pause"; "cancel"] then fail_held_downloads w (c_id c) ("the campaign was " +:+ lower (campaign_text target) +:+ " (" +:+ text +:+ ")") now
        else Ok (w, 0)) = Ok (w1, n) ∧ live_kept w w1 ∧ (action ∈ ["pause"; "cancel"] → ∀ d, d ∈ deployments w1 → d_campaign_id d = c_id c → ¬ held w1 d))
      as (w1 & n & -> & Hlk & Hheld).
    { unfold within. case_bool_decide; [|exists w, 0; split_and!; [done|apply live_kept_refl|done]].
      destruct (fail_held_downloads_total w (c_id c) ("the campaign was " +:+ lower (campaign_text target) +:+ " (" +:+ text +:+ ")") now Hok Hst) as (w1 & n & E & Hh).
      exists w1, n. split_and!; [done|by eapply fail_held_downloads_moves|done]. }
    cbn [mbind res_bind]. cbv zeta. cbn [fst snd]. set (f := set_campaign_status target _ now).
    assert (∃ c1, campaign_of w1 (c_id c) = Some c1) as [c1 Hc1].
    { destruct Hlk as (h & Eh & Hh). unfold campaign_of. rewrite Eh, row_by_map by (intros a; apply Hh). rewrite (row_by_unique c_id _ c (f_campaigns _ Hok) Hin). by eexists. }
    exists (if bool_decide (action = "cancel") then cancel_deployments (c_id c) (update_campaign (c_id c) f w1) else update_campaign (c_id c) f w1), n, (f c1).
    split_and!; [done| |done|..].
    + match goal with |- ?x = _ => assert (x = row_by c_id (c_id c) (update_by c_id (c_id c) f (campaigns w1))) as -> by (by destruct (bool_decide (action = "cancel"))) end.
      rewrite row_by_update by done. unfold campaign_of in Hc1. by rewrite Hc1.
    + intros Ha d Hd Hcam [Hdl Haw]. rewrite awaiting_closed in Haw. destruct (bool_decide (action = "cancel")); [|by apply (Hheld Ha d Hd Hcam)].
      simpl in Hd. apply list_elem_of_fmap in Hd as (o & -> & Ho). destruct (_ && _); [done|]. by apply (Hheld Ha o Ho Hcam).
    + intros Ha d. rewrite bool_decide_eq_true_2 by done. simpl. intros (o & -> & Ho)%list_elem_of_fmap Hcam.
      destruct ((d_campaign_id o =? c_id c) && cancellable (d_status o)) eqn:Eo; [simpl; set_solver|]. rewrite (proj2 (Z.eqb_eq _ _) Hcam) in Eo. simpl in Eo.
      by apply bool_decide_eq_false in Eo.
  - intros Hno. unfold control_campaign. rewrite Hc. destruct (CAMPAIGN_CONTROL_STATES action) as [target|] eqn:Et; [|eauto].
    destruct (decide (c_status c ∈ CAMPAIGN_CONTROL_SOURCES action)) as [Hin|Hni]; [|rewrite bool_decide_eq_false_2 by done; simpl; eauto].
    rewrite bool_decide_eq_true_2 by done. cbn [negb]. cbv zeta. destruct (decide (action = "resume")) as [Ha|Ha].
    + rewrite (bool_decide_eq_true_2 _ Ha). destruct (resume_check w c) as [[]|e m] eqn:Er; [exfalso; apply Hno; unfold control_allowed; by rewrite Et|].
      cbn [mbind res_bind]. unfold resume_check in Er. destruct (negb _); [injection Er as <- <-; eauto|]. destruct (existsb _ _); [injection Er as <- <-; eauto|done].
    + exfalso. apply Hno. unfold control_allowed. by rewrite Et.
Qed.
End closing.

(** ** Witnesses *)
(** Cancelled before any offer, the campaign's history can go: it is the only one of its boards. *)
Definition demo_cancelled : fleet :=
  Eval vm_compute in outcome [(Create "zone-lite-2.6.14" "north" "owner" "key-1", at_second 0); (Control "10" "cancel", at_second 5)] demo0.
Definition demo_cleared : fleet * cleared :=
  Eval vm_compute in match clear_history demo_cancelled "owner" (at_second 60) with Ok x => x | Raise _ _ => (demo_cancelled, mkCleared [] [] [] []) end.
Lemma demo_cancelled_reachable : reachable demo_cancelled.
Proof.
  apply (performs_reachable [(Create "zone-lite-2.6.14" "north" "owner" "key-1", at_second 0); (Control "10" "cancel", at_second 5)] demo0); [apply demo0_initial|].
  vm_compute. reflexivity.
Qed.

Lemma clearing_keeps_histories_whole_witness :
  map d_status (deployments demo_cancelled) = [CANCELLED; CANCELLED] ∧ deployments demo_cleared.1 = [] ∧
  ∃ w1, foldR (clear_one (at_second 60)) [] (demo_cancelled, mkCleared [] [] [] []) = Ok (w1, demo_cleared.2)
    ∧ ∀ d, d ∈ deployments w1 →
        (d ∈ deployments demo_cleared.1 ∧ events_of demo_cleared.1 (d_id d) = events_of w1 (d_id d))
        ∨ (never_offered d = true ∧ unreferenced w1 d = true ∧ ∀ o, o ∈ deployments w1 → d_connector_id o = d_connector_id d → o ∉ deployments demo_cleared.1).
Proof.
  split; [reflexivity|]. split; [reflexivity|].
  apply (clearing_keeps_histories_whole demo_cancelled "owner" (at_second 60) demo_cleared.1 demo_cleared.2 demo_cancelled_reachable).
  vm_compute. reflexivity.
Defined.

Lemma deletable_is_greatest_witness : deletable demo_cancelled (campaigns demo_cancelled) = [10] ∧ settled_in demo_cancelled (deletable demo_cancelled (campaigns demo_cancelled)) 10 = true.
Proof. split; [reflexivity|]. apply (deletable_is_greatest demo_cancelled (campaigns demo_cancelled)). left. Defined.

(** Pausing while a download is held: it fails with the withdrawn re-offer. *)
Lemma control_takes_effect_witness :
  awaiting_retry_offer demo_stopped (demo_row demo_stopped 11) ≠ None ∧
  ∃ w' n c', control_campaign demo_stopped "10" "pause" None (at_second 40) = Ok (w', n) ∧ campaign_of w' 10 = Some c' ∧ Some (c_status c') = Some PAUSED.
Proof.
  split; [by vm_compute|].
  destruct (proj1 (control_takes_effect demo_stopped "10" "pause" None (at_second 40) _ demo_stopped_reachable
    ltac:(intros d Hd; apply list_elem_of_In in Hd; vm_compute in Hd; destruct Hd as [<-|[<-|[]]]; by vm_compute) eq_refl)
    ltac:(split_and!; [done|left|done])) as (w' & n & c' & E & Hc & Hs & _).
  exists w', n, c'. split_and!; [exact E|exact Hc|exact Hs].
Defined.
